(* ===== verification/_CoqProject ===== *)
-Q . S2P
Prelude.v
Text.v
Crc32.v
SpacePacket.v
Profile.v
Frame.v
RadioQueue.v
Deframer.v
RadioDriver.v
ObcTelemetry.v
ObcProgress.v
ObcIpc.v
DataStore.v
RadioService.v
Commander.v
Scheduler.v
Supervisor.v
Fdir.v
Compute.v
Worker.v
Gateway.v
Float32.v
AdcsMath.v
AdcsControl.v
AdcsManager.v
AdcsFault.v
AdcsCommand.v
AdcsTasks.v
AdcsTelemetry.v
AdcsI2cSlave.v
I2cMaster.v
I2cLink.v
AdcsDrivers.v
SimBus.v
Thermals.v
AdcsEstimation.v
RadioDevice.v
Csp.v
AdcsSimulator.v
FlightBoard.v
Logging.v
I2cTest.v
RoleStart.v
Platform.v
Uplink.v
