(* ===== verification/Prelude.v ===== *)
(** * Flight software of the LG-CubeSat: a verification library

    This library models the flight software under [src/] and proves it correct, part by
    part.  Every definition is a translation of the C code it is named after; this file
    is the shared prelude.

    ** The program

    The satellite is a set of boards on an I2C bus that talk CSP.  The on-board computer
    ([apps/obc]) runs one process for each role: Commands (gateway to the bus), Compute,
    Data (all files), FDIR, Mission, Time, and the Supervisor that starts the others.
    Roles exchange messages over local sockets.  Data keeps a telemetry log, Mission
    takes photos and downlinks photos and telemetry through the radio, FDIR watches the
    heartbeats of the roles and asks the Supervisor for restarts.  The radio frames every
    packet as a CCSDS Space Packet with the mission's own profile and a CRC
    ([shared/ccsds], [platform/common], [platform/*/drivers/radio.c]).

    ** Files, from the bottom up

    - [Text]: what the code uses of [printf] and [scanf]: decimal numbers, fields, and copies
      bounded by the size of a buffer.
    - [Crc32]: [shared/ccsds/src/crc32.c].  The bitwise CRC is linear; two messages that
      differ inside a window of four bytes have different checksums.
    - [SpacePacket]: [space_packet.c], [status.c].  Build, parse and peek; round trip, and
      the parser accepts only canonical headers.
    - [Profile]: [profile.c], [compression_config.c].  The profile packet; round trip,
      canonical parser, rejection of corrupted packets (with [Crc32]).
    - [Frame]: [shared/interfaces/frame.c], [i2c_protocol.c].  The bus frame and the status
      response.
    - [RadioQueue]: [platform/common/radio_queue.c].  The byte ring, the message queue, the
      transmit thread cut at its lock operations, the resend history.  [step] and
      [reachable] describe every interleaving of callers and thread; the theorems say
      that the ring is a first-in first-out queue of the pieces of the accepted messages,
      that what is on the air parses, and that resends are exact.
    - [Deframer]: [radio_deframer.c].  The loop that finds packets in a byte stream against a
      list specification, for every stream.
    - [RadioDriver]: both [radio.c] drivers (modules [Sim] and [Real]); reception, its
      time bound, and the link from a queue to a receiver.
    - [ObcTelemetry], [ObcProgress], [ObcIpc]: the record codec, the progress watches and the
      message transport of the on-board computer ([apps/obc/telemetry], [progress],
      [ipc]).  [ObcIpc] also states, as the class [Ipc], what a role may rely on when it
      sends, with a lossy and a perfect implementation.
    - [DataStore]: the Data role.  Files are byte strings in a map; the log is shown to be an
      append-only list of records, reads and file transfers deliver exactly what is
      stored.
    - [RadioService]: the class [Radio], what a role may rely on when it sends by radio, and
      its implementation by the simulated driver on top of [RadioQueue].
    - [Commander]: Mission's requests ([payload_commander.c]) and watches
      ([mission_health.c], module [Health]), over the classes [Ipc] and [Radio].  A record is
      committed only after the radio has it; a batch sends the log in order.
    - [Scheduler]: [scheduler.c] and [autonomy.c].  The mission phases as a state machine, the
      state file as decimal text, and what survives a crash during a save.
    - [Supervisor]: [processes.c] and [supervisor.c].  System calls ask the kernel for answers
      and log their effect; under every interleaving a role has at most one process.
    - [Fdir]: [health_monitor.c], [watchdog.c], [fallback.c].  One restart request for each
      silence, one shutdown for a board that resets too often.
    - [Compute], [Worker]: the Compute role.  [Compute] is the reply slot between the dispatch
      thread and the worker ([dispatch.c]) as a monitor; [Worker] the jobs ([worker.c],
      [ssdv_codec.c]) and the message loop, with the SSDV library as a parameter.
    - [Gateway]: the Commands and Time roles ([commands/src/ingest.c], [relay.c],
      [time/src/time_sync.c]).

    The attitude control board ([apps/adcs]):

    - [Float32]: the C type [float]; [AdcsMath]: the board's data, vectors, guidance targets;
      [AdcsControl]: allocator, detumbling, Sun pointing, slewing, controller.
    - [AdcsManager]: [adcs_manager.c], the mode machine.  Pointing only on good data, a fixed
      order of falling back, detumbling ends.  [AdcsFault]: [fault_manager.c].
    - [AdcsCommand]: listener, queue and command task; the wire table, and that accepted
      commands run in order.  [AdcsTelemetry]: the encoder of the telemetry and its reader.
    - [AdcsTasks]: sensor, control and housekeeping task, and the board as a step relation
      over all tasks, with its type invariant.  [AdcsEstimation]: filter, estimator,
      reference vectors and the estimation task, joined with the board: a mode that needs an
      attitude rests on a recent absolute solution.
    - [AdcsDrivers]: magnetorquer and gyroscope drivers.  [AdcsI2cSlave]: the interrupt-driven
      I2C slave against two mailboxes.
    - [AdcsSimulator]: the simulated spacecraft, its drivers and the start of the simulation
      build, closed into a loop with the board's tasks: the simulated coils follow the
      board's commands, and injected faults reach the mode.
    - [FlightBoard]: the STM32 build ([apps/adcs/Platform/Src]): its start, reset, shutdown,
      watchdog and clock, and the sensor task on the board's drivers.  Without a magnetometer
      only the manual override powers a coil, in every reachable state.

    The buses and the other boards:

    - [I2cMaster]: [platform/real/drivers/comms_i2c.c] over the class [I2cAdapter];
      [I2cLink]: master and slave on one bus, both directions.
    - [SimBus]: [platform/sim/drivers/comms_i2c.c], frames over stream sockets, over the
      classes [BusKernel] and [StreamSockets].
    - [RadioDevice]: the real radio down to system calls: wirings, GPIO lines, configuration
      of the module, opening and closing.  It refines the driver of [RadioDriver]; packets
      leave in normal mode only, and no descriptor is lost.
    - [Csp]: the interfaces between libcsp and the bus ([csp_if_comms_bus.c], [csp_network.c],
      [adcs_csp_stm32.c]).  A CSP packet goes from board to board over the real bus
      ([I2cLink]), in both directions, and no buffer is lost.
    - [Thermals]: the thermals board and its simulated hardware.
    - [I2cTest]: the bench program for the bus ([apps/obc/i2c_test]), run against the slave and
      the bus task of the attitude control board.

    - [Uplink]: the parts joined on the flight hardware.  A telecommand whose packet arrives in
      time on the radio goes through the Commands role, CSP and the bus to the attitude
      control board, is acknowledged there and executed in its turn.

    Around them:

    - [Logging]: the board's log and console ([adcs_log.c], [adcs_newlib_locks.c]) and the log
      of the processes ([obc_log.c]).  Lines fit their buffers and end as lines; the console
      is the reference conversion of line ends.
    - [RoleStart]: the [main] of every role and of the supervisor.
    - [Platform]: the cameras, and reset and shutdown of a board ([platform/*/drivers]).

    ** How the code is modelled

    A [uintN_t] is a [Z]; every narrowing store is a [u8], [u16], [u32] or [u64].  A buffer is
    the list of its bytes and a pointer into it the list from there on; [memcpy] is
    [patch].  A call that may write through a pointer returns the new contents; NULL is
    [None].  File-scope variables are the fields of a state record.  What the code cannot
    know (system call results, clocks, arriving messages, pre-existing memory) is an
    argument: an answer, a list of answers consumed one for each call, or a function of
    the number of the call.  Code under a lock is one step; threads are step relations
    whose reachable states are all interleavings.

    [r <| f := v |>] and [r <| f ::= g |>] are the record [r] with field [f] set to [v], or
    changed by [g].  A [float] is a [spec_float] with 24 bits, every operation rounded to
    nearest even at its own type, without fused multiply-add or excess precision; [double]
    has 53 bits.  [sqrtf] and [fmod] are computed; the trigonometric functions of libm are
    the classes [Libm] and [Libm64], with no laws.  A C array inside a structure is passed
    by value; where the code compares the address of an object with NULL, the test is false.

    What the code calls outside [src/] is a class or an argument: the HAL of the slave
    ([link_step] says what it reports), the kernel's I2C adapter, sockets, the SSDV library,
    libcsp (whether a connection opens, whether a buffer is free, what it delivers).  A
    theorem that relies on more than a call's type names the laws as a class with an
    instance ([StreamSockets], [HeaterLaws], [Documented], [IdLaws], [CspPorts], [Ipc],
    [Radio]).  A FreeRTOS queue is a list
    with its length as bound; tasks interleave at the operations the code protects by a
    lock or a queue.

    Loops without a structural bound take fuel.  [radio_deframer_next] has one unit for each
    buffered byte, [filesystem_stream_file] one for each byte of the file, the transfer
    of a record three (two chunks at most), the shutdown of a process [GRACE_POLLS], one
    frame on the simulated bus 537 turns (the buffer of a connection holds 536 bytes, and each
    poll reads one at least); the theorems show that this is enough.  Receive loops run over the list of
    answers and give [None] while they still wait; [telemetry_request_returns] and
    [real_receive_returns] show that they end.

    ** Not modelled

    Creating threads, tasks and queues beyond their order and results, sleeping, and what the
    programs print.  The start-up code generated for the processor of the attitude control
    board ([Core/Src]: clock and pin set-up, interrupt vectors, system calls of the C
    library) and the bytes of its gyroscope's configuration file, which is an argument.
    The EPS board: its tasks are loops that only sleep.  The test programs, and the vendored
    code (FreeRTOS, the STM32 HAL, CMSIS). *)

From Stdlib Require Export ZArith Lia Bool.
From stdpp Require Export base tactics numbers list.

Export ListNotations.
#[export] Set Default Goal Selector "!".

Declare Scope flight_scope.
Delimit Scope flight_scope with flight.
#[global] Open Scope Z_scope.

(** ** Fixed-width unsigned integers

    A [uintN_t] is a [Z]; every place where the C code stores a wider value in
    a narrower type is written with one of these truncations. *)

Definition u8 (v : Z) : Z := v mod 256.
Definition u16 (v : Z) : Z := v mod 65536.
Definition u32 (v : Z) : Z := v mod 4294967296.
Definition u64 (v : Z) : Z := v mod 18446744073709551616.

Definition byte_ok (b : Z) : Prop := 0 <= b < 256.
Abbreviation bytes_ok := (Forall byte_ok).

(** A C buffer is the list of its bytes; a pointer into a buffer is the list of
    the bytes from that address on, so [p + k] is [skip k p]. *)

Definition len {A} (l : list A) : Z := Z.of_nat (length l).
Definition skip {A} (n : Z) (l : list A) : list A := drop (Z.to_nat n) l.
Definition prefix_of {A} (n : Z) (l : list A) : list A := take (Z.to_nat n) l.
Definition byte_at (l : list Z) (i : Z) : Z := nth (Z.to_nat i) l 0.

(** [memcpy(buf + off, bs, |bs|)]. *)
Definition patch (buf : list Z) (off : Z) (bs : list Z) : list Z :=
  prefix_of off buf ++ bs ++ skip (off + len bs) buf.

Definition zeros (n : Z) : list Z := replicate (Z.to_nat n) 0.

(** C truth values. *)
Definition b2z (b : bool) : Z := if b then 1 else 0.
Definition truthy (v : Z) : bool := negb (v =? 0).

#[global] Instance byte_ok_dec b : Decision (byte_ok b).
Proof. unfold byte_ok. apply _. Defined.

Create HintDb flight discriminated.
Create Rewrite HintDb flight.

(** ** Record update

    [r <| field := v |>] and [r <| field ::= f |>] for the records of the boards' state,
    which have primitive projections: the setter of a field is the constructor applied to
    the other fields of [r]. *)
Ltac record_eta R :=
  constr:(ltac:(let x := fresh "x" in
    intro x; unshelve eexists; [econstructor | reflexivity]) : forall x : R, { x' : R | x' = x }).

Ltac record_setter R getter :=
  let eta := record_eta R in
  lazymatch eta with
  | fun x => exist _ (@?w x) _ =>
      lazymatch eval pattern getter in w with
      | ?set _ =>
          let t := eval cbv beta in (fun f => set (fun r => f (getter r))) in exact t
      end
  end.

Class Setter {R E : Type} (getter : R -> E) := update : (E -> E) -> R -> R.
Arguments update {R E} getter {_} f r /.
#[global] Hint Extern 1 (@Setter ?R _ ?getter) => record_setter R getter : typeclass_instances.

Notation "r <| p := v |>" := (update p (fun _ => v) r)
  (at level 1, p at level 10, left associativity, format "r  <| p  :=  v |>").
Notation "r <| p ::= f |>" := (update p f r)
  (at level 1, p at level 10, left associativity, format "r  <| p  ::=  f |>").

(** Euclidean division by constants inside [lia]. *)
Ltac zlia := unfold u8, u16, u32, u64, byte_ok in *; Z.div_mod_to_equations; lia.

(** Split every [if] and [match] of the goal, keeping the equations. *)
Ltac split_ifs :=
  repeat match goal with
  | |- context [if ?b then _ else _] => destruct b eqn:?
  end.

Ltac split_ifs_in H :=
  repeat match type of H with
  | context [if ?b then _ else _] => destruct b eqn:?; try discriminate H
  end.

(** Boolean comparisons of the code become arithmetic facts. *)
Ltac bool_facts :=
  repeat match goal with
  | H : _ || _ = true |- _ => apply orb_true_iff in H
  | H : _ || _ = false |- _ => apply orb_false_iff in H; destruct H
  | H : _ && _ = true |- _ => apply andb_true_iff in H; destruct H
  | H : _ && _ = false |- _ => apply andb_false_iff in H
  | H : negb _ = true |- _ => apply negb_true_iff in H
  | H : negb _ = false |- _ => apply negb_false_iff in H
  | H : (_ <? _) = true |- _ => apply Z.ltb_lt in H
  | H : (_ <? _) = false |- _ => apply Z.ltb_ge in H
  | H : (_ <=? _) = true |- _ => apply Z.leb_le in H
  | H : (_ <=? _) = false |- _ => apply Z.leb_gt in H
  | H : (_ =? _) = true |- _ => apply Z.eqb_eq in H
  | H : (_ =? _) = false |- _ => apply Z.eqb_neq in H
  | H : (_ >? _) = true |- _ => rewrite Z.gtb_ltb in H
  | H : (_ >? _) = false |- _ => rewrite Z.gtb_ltb in H
  | H : (_ >=? _) = true |- _ => rewrite Z.geb_leb in H
  | H : (_ >=? _) = false |- _ => rewrite Z.geb_leb in H
  end.

(** ** Lists as buffers *)
Section Buffers.
  Context {A : Type}.
  Implicit Types l k : list A.

Lemma len_nonneg l : 0 <= len l.
  Proof. unfold len. lia. Qed.

Lemma len_app l k : len (l ++ k) = len l + len k.
  Proof. unfold len. rewrite length_app. lia. Qed.

Lemma len_cons (x : A) l : len (x :: l) = 1 + len l.
  Proof. unfold len. cbn [length]. lia. Qed.

Lemma len_nil : len (@nil A) = 0.
  Proof. reflexivity. Qed.

Lemma len_0_nil l : len l = 0 -> l = [].
  Proof. destruct l; [done|]. rewrite len_cons. pose proof (len_nonneg l). lia. Qed.

Lemma len_skip n l : 0 <= n -> len (skip n l) = Z.max 0 (len l - n).
  Proof. intros. unfold len, skip. rewrite length_drop. lia. Qed.

Lemma len_prefix_of n l : 0 <= n <= len l -> len (prefix_of n l) = n.
  Proof. unfold len, prefix_of. rewrite length_take. lia. Qed.

Lemma len_prefix_of_le n l : 0 <= n -> len (prefix_of n l) <= n.
  Proof. intros. unfold len, prefix_of. rewrite length_take. lia. Qed.

Lemma prefix_of_app n l k : n = len l -> prefix_of n (l ++ k) = l.
  Proof.
    intros ->. unfold prefix_of, len. rewrite Nat2Z.id. apply take_app_length.
  Qed.

Lemma skip_app n l k : n = len l -> skip n (l ++ k) = k.
  Proof.
    intros ->. unfold skip, len. rewrite Nat2Z.id. apply drop_app_length.
  Qed.

Lemma prefix_of_app_le n l k : n <= len l -> prefix_of n (l ++ k) = prefix_of n l.
  Proof. unfold prefix_of, len. intros. rewrite take_app_le; [done|lia]. Qed.

Lemma skip_app_le n l k : n <= len l -> skip n (l ++ k) = skip n l ++ k.
  Proof. unfold skip, len. intros. rewrite drop_app_le; [done|lia]. Qed.

Lemma prefix_of_app_ge n l k :
    len l <= n -> prefix_of n (l ++ k) = l ++ prefix_of (n - len l) k.
  Proof.
    unfold prefix_of, len. intros. rewrite take_app_ge; [|lia].
    do 2 f_equal. lia.
  Qed.

Lemma skip_app_ge n l k : len l <= n -> skip n (l ++ k) = skip (n - len l) k.
  Proof.
    unfold skip, len. intros. rewrite drop_app_ge; [|lia]. f_equal. lia.
  Qed.

Lemma prefix_skip n l : prefix_of n l ++ skip n l = l.
  Proof. apply take_drop. Qed.

Lemma skip_skip m n l : 0 <= m -> 0 <= n -> skip m (skip n l) = skip (n + m) l.
  Proof. intros. unfold skip. rewrite drop_drop. f_equal. lia. Qed.

Lemma prefix_of_0 l : prefix_of 0 l = [].
  Proof. reflexivity. Qed.

Lemma skip_0 l : skip 0 l = l.
  Proof. reflexivity. Qed.

Lemma prefix_of_all n l : len l <= n -> prefix_of n l = l.
  Proof. unfold prefix_of, len. intros. apply take_ge. lia. Qed.

Lemma skip_all n l : len l <= n -> skip n l = [].
  Proof. unfold skip, len. intros. apply drop_ge. lia. Qed.

Lemma prefix_of_prefix_of m n l :
    prefix_of m (prefix_of n l) = prefix_of (Z.min m n) l.
  Proof. unfold prefix_of. rewrite take_take. f_equal. lia. Qed.

Lemma prefix_skip_comm m n l :
    0 <= m -> 0 <= n -> prefix_of m (skip n l) = skip n (prefix_of (n + m) l).
  Proof.
    intros. unfold prefix_of, skip. rewrite take_drop_commute. do 2 f_equal. lia.
  Qed.

Lemma prefix_of_skip_split m n l :
    0 <= m -> 0 <= n -> prefix_of (m + n) l = prefix_of m l ++ prefix_of n (skip m l).
  Proof.
    intros. unfold prefix_of, skip. rewrite Z2Nat.inj_add by lia.
    rewrite take_take_drop. done.
  Qed.

Lemma Forall_prefix_of (P : A -> Prop) n l : Forall P l -> Forall P (prefix_of n l).
  Proof. apply Forall_take. Qed.

Lemma Forall_skip (P : A -> Prop) n l : Forall P l -> Forall P (skip n l).
  Proof. apply Forall_drop. Qed.
End Buffers.

#[export] Hint Resolve Forall_prefix_of Forall_skip : flight.
#[export] Hint Resolve len_nonneg : flight.

(** ** Byte reads and writes *)

Lemma byte_at_app_l l k i : 0 <= i < len l -> byte_at (l ++ k) i = byte_at l i.
Proof. unfold byte_at, len. intros. apply app_nth1. lia. Qed.

Lemma byte_at_app_r l k i :
  len l <= i -> byte_at (l ++ k) i = byte_at k (i - len l).
Proof.
  unfold byte_at, len. intros. rewrite app_nth2 by lia. f_equal. lia.
Qed.

Lemma byte_at_ok l i : bytes_ok l -> byte_ok (byte_at l i).
Proof.
  intros H. unfold byte_at. destruct (nth_in_or_default (Z.to_nat i) l 0) as [Hin| ->].
  - rewrite List.Forall_forall in H. auto.
  - split; lia.
Qed.

Lemma byte_at_prefix_of l n i :
  0 <= i < n -> byte_at (prefix_of n l) i = byte_at l i.
Proof.
  intros. unfold byte_at, prefix_of.
  destruct (decide (Z.to_nat i < length l)%nat).
  - rewrite <- (take_drop (Z.to_nat n) l) at 2. rewrite app_nth1; [done|].
    rewrite length_take. lia.
  - rewrite !nth_overflow; [done| |]; rewrite ?length_take; lia.
Qed.

Lemma byte_at_skip l n i : 0 <= n -> 0 <= i -> byte_at (skip n l) i = byte_at l (n + i).
Proof.
  intros. unfold byte_at, skip. rewrite !nth_lookup, lookup_drop. do 2 f_equal. lia.
Qed.

#[export] Hint Resolve byte_at_ok : flight.

Lemma len_patch buf off bs :
  0 <= off -> off + len bs <= len buf -> len (patch buf off bs) = len buf.
Proof.
  intros. pose proof (len_nonneg bs). unfold patch.
  rewrite !len_app, len_prefix_of, len_skip by lia. lia.
Qed.

Lemma patch_0 buf bs : patch buf 0 bs = bs ++ skip (len bs) buf.
Proof. reflexivity. Qed.

(** A write that starts where the already written front [pre] ends. *)
Lemma patch_front pre rest off bs :
  off = len pre ->
  patch (pre ++ rest) off bs = (pre ++ bs) ++ skip (len bs) rest.
Proof.
  intros ->. pose proof (len_nonneg bs). unfold patch.
  rewrite prefix_of_app, <- app_assoc by done.
  rewrite skip_app_ge by lia. do 3 f_equal. lia.
Qed.

Lemma bytes_ok_patch buf off bs :
  bytes_ok buf -> bytes_ok bs -> bytes_ok (patch buf off bs).
Proof.
  intros. unfold patch. rewrite !Forall_app. auto with flight.
Qed.
#[export] Hint Resolve bytes_ok_patch : flight.

Lemma len_zeros n : 0 <= n -> len (zeros n) = n.
Proof. intros. unfold len, zeros. rewrite length_replicate. lia. Qed.

Lemma bytes_ok_u8 v : byte_ok (u8 v).
Proof. zlia. Qed.
#[export] Hint Resolve bytes_ok_u8 : flight.

Lemma prefix_of_byte_at l n :
  0 <= n < len l -> prefix_of (n + 1) l = prefix_of n l ++ [byte_at l n].
Proof.
  intros. unfold prefix_of, byte_at, len in *.
  replace (Z.to_nat (n + 1)) with (S (Z.to_nat n)) by lia.
  rewrite (take_S_r _ _ (nth (Z.to_nat n) l 0)); [done|].
  rewrite nth_lookup. destruct (lookup_lt_is_Some_2 l (Z.to_nat n)) as [x ->]; [lia|done].
Qed.

(** ** Bit operations as arithmetic *)

Lemma lor_shiftl_add a b n :
  0 <= n -> 0 <= b < 2 ^ n -> Z.lor (Z.shiftl a n) b = a * 2 ^ n + b.
Proof.
  intros Hn Hb. rewrite <- Z.shiftl_mul_pow2 by done.
  rewrite Z.add_nocarry_lxor; [symmetry; apply Z.lxor_lor|].
  all: apply Z.bits_inj'; intros i Hi; rewrite Z.land_spec, Z.shiftl_spec, Z.bits_0 by done.
  all: destruct (decide (i < n)).
  all: try (rewrite Z.testbit_neg_r by lia; done).
  all: rewrite <- (Z.mod_small b (2 ^ n)) by done.
  all: rewrite Z.mod_pow2_bits_high by lia; apply andb_false_r.
Qed.

Lemma land_ones_mod v n m : 0 <= n -> m = Z.ones n -> Z.land v m = v mod 2 ^ n.
Proof. intros ? ->. by apply Z.land_ones. Qed.

Lemma shiftr_div v n : 0 <= n -> Z.shiftr v n = v / 2 ^ n.
Proof. apply Z.shiftr_div_pow2. Qed.

Lemma land_255 v : Z.land v 255 = v mod 256.
Proof. by apply (land_ones_mod v 8). Qed.

Lemma testbit_above v n i : 0 <= v < 2 ^ n -> n <= i -> Z.testbit v i = false.
Proof.
  intros Hv Hi. destruct (decide (0 <= n)).
  - rewrite <- (Z.mod_small v (2 ^ n)) by done. apply Z.mod_pow2_bits_high; lia.
  - rewrite Z.pow_neg_r in Hv by lia. lia.
Qed.

(** Big-endian assembly of bytes. *)
Lemma be16_value a b :
  byte_ok a -> byte_ok b -> Z.lor (Z.shiftl a 8) b = a * 256 + b.
Proof. intros ? [??]. rewrite lor_shiftl_add by lia. lia. Qed.

Lemma be16_round v :
  0 <= v < 65536 -> Z.lor (Z.shiftl (u8 (Z.shiftr v 8)) 8) (u8 v) = v.
Proof.
  intros. rewrite be16_value by zlia. rewrite shiftr_div by lia.
  change (2 ^ 8) with 256. zlia.
Qed.

Lemma lor_add_disjoint a b n :
  0 <= n -> 0 <= b < 2 ^ n -> a mod 2 ^ n = 0 -> Z.lor a b = a + b.
Proof.
  intros Hn Hb Ha.
  assert (0 < 2 ^ n) by (apply Z.pow_pos_nonneg; lia).
  assert (a = Z.shiftl (a / 2 ^ n) n) as E.
  { rewrite Z.shiftl_mul_pow2 by done. pose proof (Z.div_mod a (2 ^ n)). lia. }
  rewrite E at 1. rewrite lor_shiftl_add by done.
  pose proof (Z.div_mod a (2 ^ n)). lia.
Qed.

(** A decidable fact about a byte is checked on all 256 of them. *)
Lemma byte_cases (f : Z -> bool) :
  forallb f (seqZ 0 256) = true -> forall b, byte_ok b -> f b = true.
Proof.
  rewrite forallb_forall. intros H b [? ?]. apply H.
  apply list_elem_of_In, elem_of_seqZ. lia.
Qed.

(** Big-endian 32-bit fields. *)
Lemma be32_value a b c d :
  byte_ok a -> byte_ok b -> byte_ok c -> byte_ok d ->
  Z.lor (Z.lor (Z.lor (Z.shiftl a 24) (Z.shiftl b 16)) (Z.shiftl c 8)) d
  = a * 16777216 + b * 65536 + c * 256 + d.
Proof.
  intros Ha Hb Hc Hd. unfold byte_ok in *.
  rewrite (lor_shiftl_add a (Z.shiftl b 16)) by (rewrite ?Z.shiftl_mul_pow2; lia).
  rewrite !Z.shiftl_mul_pow2 by lia.
  change (2 ^ 24) with 16777216. change (2 ^ 16) with 65536. change (2 ^ 8) with 256.
  rewrite (lor_add_disjoint (a * 16777216 + b * 65536) (c * 256) 16)
    by (try (change (2 ^ 16) with 65536); zlia).
  rewrite (lor_add_disjoint _ d 8) by (try (change (2 ^ 8) with 256); zlia). done.
Qed.

Lemma be32_round v :
  0 <= v < 4294967296 ->
  Z.lor (Z.lor (Z.lor (Z.shiftl (u8 (Z.shiftr v 24)) 24)
                      (Z.shiftl (u8 (Z.shiftr v 16)) 16))
               (Z.shiftl (u8 (Z.shiftr v 8)) 8))
        (u8 v) = v.
Proof.
  intros. rewrite be32_value by apply bytes_ok_u8. rewrite !shiftr_div by lia.
  change (2 ^ 24) with 16777216. change (2 ^ 16) with 65536. change (2 ^ 8) with 256.
  zlia.
Qed.

(** Reading single bytes of a concrete front of a buffer. *)
Lemma byte_at_head b l : byte_at (b :: l) 0 = b.
Proof. done. Qed.

Lemma byte_at_tail b l i : 0 < i -> byte_at (b :: l) i = byte_at l (i - 1).
Proof.
  intros. unfold byte_at. replace (Z.to_nat i) with (S (Z.to_nat (i - 1))) by lia. done.
Qed.

(** Reduce reads at literal offsets of a buffer whose front is explicit. *)
Ltac read_bytes :=
  unfold byte_at;
  repeat match goal with
  | |- context [Z.to_nat ?c] =>
      is_ground c; let v := eval vm_compute in (Z.to_nat c) in change (Z.to_nat c) with v
  end;
  cbn [nth app].

(** Case analysis on the first condition of the goal. *)
Tactic Notation "case_if" "as" ident(E) :=
  match goal with
  | |- context [if ?b then _ else _] => destruct b eqn:E
  end.

Tactic Notation "case_if" "in" hyp(H) "as" ident(E) :=
  match type of H with
  | context [if ?b then _ else _] => destruct b eqn:E
  end.

Lemma fold_left_cons {A B} (f : A -> B -> A) b l a :
  fold_left f (b :: l) a = fold_left f l (f a b).
Proof. done. Qed.

(** Goals [bytes_ok] of an explicit list. *)
Ltac solve_bytes_ok :=
  repeat first [apply Forall_nil_2 | apply Forall_cons_2 | apply Forall_app_2];
  auto with flight; try zlia.

(** Concrete byte strings are checked by evaluation. *)
Lemma bytes_ok_eval l :
  forallb (fun b => (0 <=? b) && (b <? 256)) l = true -> bytes_ok l.
Proof.
  rewrite forallb_forall. intros H. apply List.Forall_forall. intros b Hin.
  specialize (H b Hin). bool_facts. split; lia.
Qed.

Lemma u8_byte b : byte_ok b -> u8 b = b.
Proof. zlia. Qed.

Lemma bytes_explicit l n :
  0 <= n <= len l -> prefix_of n l = map (byte_at l) (seqZ 0 n).
Proof.
  intros Hn. apply list_eq_same_length with (Z.to_nat n).
  - by rewrite length_map, length_seqZ.
  - unfold prefix_of. rewrite length_take. unfold len in *. lia.
  - intros i x y Hi Hx Hy. unfold prefix_of in Hx. rewrite lookup_take_lt in Hx by lia.
    change (map (byte_at l) (seqZ 0 n)) with (byte_at l <$> seqZ 0 n) in Hy.
    rewrite list_lookup_fmap, lookup_seqZ_lt in Hy by lia.
    cbn in Hy. injection Hy as <-. unfold byte_at.
    rewrite nth_lookup. replace (Z.to_nat (0 + Z.of_nat i)) with i by lia. by rewrite Hx.
Qed.

(** ** Buffers compared byte by byte *)

Lemma bytes_ext l k :
  len l = len k -> (forall i, 0 <= i < len l -> byte_at l i = byte_at k i) -> l = k.
Proof.
  unfold len, byte_at. intros Hl H. apply (nth_ext _ _ 0 0); [lia|].
  intros n Hn. specialize (H (Z.of_nat n) ltac:(lia)). by rewrite Nat2Z.id in H.
Qed.

Lemma byte_at_patch buf off bs i :
  0 <= off -> off + len bs <= len buf -> 0 <= i ->
  byte_at (patch buf off bs) i
  = if decide (off <= i < off + len bs) then byte_at bs (i - off) else byte_at buf i.
Proof.
  intros Ho Hl Hi. unfold patch. pose proof (len_nonneg bs).
  assert (len (prefix_of off buf) = off) as Hp by (apply len_prefix_of; lia).
  case_decide as E.
  - rewrite byte_at_app_r, byte_at_app_l by lia. f_equal. lia.
  - destruct (decide (i < off)).
    + rewrite byte_at_app_l by lia. apply byte_at_prefix_of. lia.
    + rewrite !byte_at_app_r, byte_at_skip by lia. f_equal. lia.
Qed.

(** The list [f 0, f 1, ..., f (n - 1)]. *)
Definition tabulate (f : Z -> Z) (n : Z) : list Z := map f (seqZ 0 n).

Lemma len_tabulate f n : 0 <= n -> len (tabulate f n) = n.
Proof. intros. unfold tabulate, len. rewrite length_map, length_seqZ. lia. Qed.

Lemma byte_at_tabulate f n i : 0 <= i < n -> byte_at (tabulate f n) i = f i.
Proof.
  intros. unfold tabulate, byte_at. rewrite nth_lookup.
  change (map f (seqZ 0 n)) with (f <$> seqZ 0 n).
  rewrite list_lookup_fmap, lookup_seqZ_lt by lia. cbn. f_equal. lia.
Qed.

Lemma byte_at_app l k i :
  0 <= i -> byte_at (l ++ k) i = if decide (i < len l) then byte_at l i else byte_at k (i - len l).
Proof.
  intros. case_decide; [apply byte_at_app_l|apply byte_at_app_r]; lia.
Qed.

(** Prove an equation of buffers byte by byte, knowing all lengths. *)
Ltac solve_len :=
  rewrite ?len_tabulate, ?len_app, ?len_patch, ?len_prefix_of, ?len_skip by
    (rewrite ?len_prefix_of, ?len_skip; lia).
