(* ===== verification/Text.v ===== *)
(** Text as the C library's [printf] and [scanf] families write and read it: decimal numbers,
    padding, and copies bounded by the size of a buffer.  A text is the list of its bytes,
    without the terminating null byte. *)

From Stdlib Require Import Ascii String.
From S2P Require Import Prelude.

(** ** Decimal numbers *)

Fixpoint print_loop (fuel : nat) (v : Z) (acc : list Z) : list Z :=
  match fuel with
  | O => acc
  | S fuel =>
      let acc := (48 + v mod 10) :: acc in
      if v / 10 =? 0 then acc else print_loop fuel (v / 10) acc
  end.

(** Twenty digits hold every 64-bit number. *)
Definition print_dec (v : Z) : list Z :=
  if v <? 0 then 45 :: print_loop 20 (- v) [] else print_loop 20 v [].

Definition is_space (b : Z) : bool := (b =? 32) || ((9 <=? b) && (b <=? 13)).
Definition is_digit (b : Z) : bool := (48 <=? b) && (b <=? 57).

Fixpoint skip_spaces (l : list Z) : list Z :=
  match l with
  | b :: tl => if is_space b then skip_spaces tl else l
  | [] => []
  end.

Fixpoint scan_digits (l : list Z) (v : Z) : Z * list Z :=
  match l with
  | b :: tl => if is_digit b then scan_digits tl (10 * v + (b - 48)) else (v, l)
  | [] => (v, l)
  end.

(** One integer conversion: spaces, a sign, at least one digit. *)
Definition scan_int (l : list Z) : option (Z * list Z) :=
  let l := skip_spaces l in
  let '(neg, l) := match l with
                   | b :: tl => if b =? 45 then (true, tl) else if b =? 43 then (false, tl) else (false, l)
                   | [] => (false, l)
                   end in
  match l with
  | b :: _ =>
      if is_digit b then let '(v, l) := scan_digits l 0 in Some (if neg then - v else v, l) else None
  | [] => None
  end.

(** ** What is printed is read back *)

Lemma scan_print_loop fuel v acc rest :
  (0 < fuel)%nat -> 0 <= v < 10 ^ Z.of_nat fuel ->
  scan_digits (print_loop fuel v acc ++ rest) 0 = scan_digits (acc ++ rest) v
  /\ exists b tl, print_loop fuel v acc = b :: tl /\ is_digit b = true.
Proof.
  revert v acc. induction fuel as [|fuel IH]; intros v acc Hf Hv; [lia|].
  rewrite Nat2Z.inj_succ, Z.pow_succ_r in Hv by lia. cbn [print_loop].
  assert (is_digit (48 + v mod 10) = true) as Hd.
  { unfold is_digit. apply andb_true_iff. rewrite !Z.leb_le. Z.div_mod_to_equations. lia. }
  destruct (v / 10 =? 0) eqn:E; bool_facts.
  - split; [|by eexists _, _]. cbn [app scan_digits]. rewrite Hd. f_equal. Z.div_mod_to_equations. lia.
  - assert (0 < fuel)%nat as Hf'.
    { destruct fuel; [|lia]. change (10 ^ Z.of_nat 0) with 1 in Hv. exfalso. apply E. apply Z.div_small. lia. }
    destruct (IH (v / 10) ((48 + v mod 10) :: acc) Hf') as [Hs Hb].
    { Z.div_mod_to_equations. lia. }
    split; [|exact Hb]. rewrite Hs. cbn [app scan_digits]. rewrite Hd. f_equal. Z.div_mod_to_equations. lia.
Qed.

Lemma digit_plain b : is_digit b = true -> is_space b = false /\ b <> 45 /\ b <> 43.
Proof.
  unfold is_digit, is_space. intros H. bool_facts.
  split; [|lia]. apply orb_false_iff. rewrite Z.eqb_neq, andb_false_iff, !Z.leb_gt. lia.
Qed.

Lemma scan_print_dec v rest :
  0 <= v < 18446744073709551616 ->
  match rest with b :: _ => is_digit b = false | [] => True end ->
  scan_int (print_dec v ++ rest) = Some (v, rest).
Proof.
  intros Hv Hrest. unfold print_dec. rewrite (proj2 (Z.ltb_ge _ _)) by lia.
  destruct (scan_print_loop 20 v [] rest) as (Hs & b & tl & Hb & Hd); [lia| |].
  { change (10 ^ Z.of_nat 20) with 100000000000000000000. lia. }
  rewrite Hb in *. destruct (digit_plain b Hd) as (Hsp & H45 & H43).
  unfold scan_int. cbn [app skip_spaces]. rewrite Hsp.
  rewrite (proj2 (Z.eqb_neq _ _)), (proj2 (Z.eqb_neq b 43)), Hd by done. cbn [app] in Hs. rewrite Hs.
  f_equal. destruct rest as [|r rest]; [done|]. cbn [scan_digits]. by rewrite Hrest.
Qed.

Lemma scan_print_space v rest :
  0 <= v < 18446744073709551616 ->
  match rest with b :: _ => is_digit b = false | [] => True end ->
  scan_int (32 :: print_dec v ++ rest) = Some (v, rest).
Proof.
  intros Hv Hrest. rewrite <- (scan_print_dec v rest Hv Hrest). reflexivity.
Qed.

Lemma scan_digits_nonneg l v : 0 <= v -> 0 <= fst (scan_digits l v).
Proof.
  revert v. induction l as [|c l IH]; intros v Hv; cbn [scan_digits]; [done|].
  case_if as E0; [|done]. unfold is_digit in E0. bool_facts. apply IH. lia.
Qed.

(** ** Fields of a fixed width *)

Definition pad_left (c width : Z) (l : list Z) : list Z := replicate (Z.to_nat (width - len l)) c ++ l.
Definition pad_right (c width : Z) (l : list Z) : list Z := l ++ replicate (Z.to_nat (width - len l)) c.

Lemma len_pad_left c width l : len (pad_left c width l) = Z.max width (len l).
Proof. unfold pad_left. rewrite len_app. unfold len. rewrite length_replicate. lia. Qed.
Lemma len_pad_right c width l : len (pad_right c width l) = Z.max width (len l).
Proof. unfold pad_right. rewrite len_app. unfold len. rewrite length_replicate. lia. Qed.

Lemma len_print_loop fuel v acc : len (print_loop fuel v acc) <= len acc + Z.of_nat fuel.
Proof.
  revert v acc. induction fuel as [|fuel IH]; intros v acc; cbn [print_loop]; [lia|]. cbv zeta.
  case_if as E; [|etrans; [apply IH|]]; rewrite len_cons; lia.
Qed.

Lemma len_print_dec v : len (print_dec v) <= 21.
Proof.
  unfold print_dec. pose proof (len_print_loop 20 v []). pose proof (len_print_loop 20 (- v) []).
  change (len (@nil Z)) with 0 in *. case_if as E; rewrite ?len_cons; lia.
Qed.

Lemma len_print_loop_small fuel v acc n :
  (n <= fuel)%nat -> (0 < n)%nat -> 0 <= v < 10 ^ Z.of_nat n -> len (print_loop fuel v acc) <= len acc + Z.of_nat n.
Proof.
  revert v acc n. induction fuel as [|fuel IH]; intros v acc n Hf Hn Hv; [lia|]. cbn [print_loop]. cbv zeta.
  destruct (Z.eqb_spec (v / 10) 0) as [Hz|Hz]; [rewrite len_cons; lia|].
  destruct n as [|[|n]]; [lia| |].
  - exfalso. apply Hz. apply Z.div_small. change (10 ^ Z.of_nat 1) with 10 in Hv. lia.
  - rewrite Nat2Z.inj_succ, Z.pow_succ_r in Hv by lia.
    etransitivity; [apply (IH _ _ (S n)); [lia|lia|]|rewrite len_cons; lia]. Z.div_mod_to_equations. lia.
Qed.

Lemma len_print_small v n :
  (n <= 20)%nat -> (0 < n)%nat -> 0 <= v < 10 ^ Z.of_nat n -> len (print_dec v) <= Z.of_nat n.
Proof.
  intros Hn Hp Hv. unfold print_dec. rewrite (proj2 (Z.ltb_ge _ _)) by lia.
  by apply (len_print_loop_small 20 v [] n).
Qed.

(** ** Text in buffers *)

(** The bytes of a literal. *)
Definition literal (s : string) : list Z := map (fun c => Z.of_N (N_of_ascii c)) (list_ascii_of_string s).

Lemma literal_len s : len (literal s) = Z.of_nat (String.length s).
Proof. unfold literal, len. rewrite length_map. f_equal. induction s as [|c s IH]; [done|]. cbn. by rewrite IH. Qed.

(** A text without a null byte. *)
Definition plain (l : list Z) : Prop := Forall (fun c => c <> 0) l.

(** [snprintf] into the [size] bytes at [off], for a text that would be [text]. *)
Definition snprintf_at (buf : list Z) (off size : Z) (text : list Z) : list Z :=
  if size <=? 0 then buf else patch buf off (prefix_of (size - 1) text ++ [0]).

(** The text in a buffer: up to the first null byte. *)
Fixpoint c_string (l : list Z) : list Z :=
  match l with
  | c :: tl => if c =? 0 then [] else c :: c_string tl
  | [] => []
  end.

(** [snprintf(field, size, "%s", text)]. *)
Definition snprintf_s (size : Z) (text : list Z) : list Z := prefix_of (size - 1) (c_string text).

Lemma c_string_plain l rest : plain l -> c_string (l ++ 0 :: rest) = l.
Proof. induction 1 as [|c l Hc _ IH]; [done|]. cbn. rewrite (proj2 (Z.eqb_neq _ _) Hc). by rewrite IH. Qed.

Lemma plain_app l k : plain (l ++ k) <-> plain l /\ plain k.
Proof. apply Forall_app. Qed.
Lemma plain_prefix_of n l : plain l -> plain (prefix_of n l).
Proof. apply Forall_prefix_of. Qed.

Lemma print_loop_plain fuel v acc : plain acc -> plain (print_loop fuel v acc).
Proof.
  revert v acc. induction fuel as [|fuel IH]; intros v acc Ha; cbn [print_loop]; [done|]. cbv zeta.
  assert (plain ((48 + v mod 10) :: acc)) by (apply Forall_cons; split; [zlia|done]).
  case_if as E; [done|by apply IH].
Qed.

Lemma print_dec_plain v : plain (print_dec v).
Proof.
  unfold print_dec. case_if as E; [apply Forall_cons; split; [done|]|]; apply print_loop_plain; constructor.
Qed.

Lemma pad_plain c n l : c <> 0 -> plain l -> plain (replicate n c ++ l) /\ plain (l ++ replicate n c).
Proof. intros Hc Hl. unfold plain. rewrite !Forall_app. split_and!; try done; by apply Forall_replicate. Qed.

Lemma plain_check l : forallb (fun c => negb (c =? 0)) l = true -> plain l.
Proof.
  intros Hl. apply List.Forall_forall. intros c Hc.
  apply (proj1 (forallb_forall _ _)) with (x := c) in Hl; [|done]. by apply negb_true_iff, Z.eqb_neq in Hl.
Qed.

Lemma len_snprintf_at buf off size text :
  0 <= off -> 0 <= size -> off + size <= len buf -> len (snprintf_at buf off size text) = len buf.
Proof.
  intros. unfold snprintf_at. case_if as E; [done|]. bool_facts. apply len_patch; [done|].
  rewrite len_app. change (len [0]) with 1. pose proof (len_prefix_of_le (size - 1) text). lia.
Qed.

(** What the second [snprintf] leaves behind the text of the first. *)
Lemma snprintf_after pre rest size text :
  0 < size <= len rest ->
  exists rest', snprintf_at (pre ++ rest) (len pre) size text = pre ++ prefix_of (size - 1) text ++ 0 :: rest'.
Proof.
  intros Hs. unfold snprintf_at. rewrite (proj2 (Z.leb_gt _ _)) by lia. rewrite patch_front by done.
  eexists. by rewrite <- !app_assoc.
Qed.

Lemma snprintf_fits buf size text :
  0 < size -> size <= len buf -> plain text -> c_string (snprintf_at buf 0 size text) = prefix_of (size - 1) text.
Proof.
  intros Hs Hb Ht. destruct (snprintf_after [] buf size text) as [rest Hr]; [lia|]. change (len []) with 0 in Hr.
  cbn [app] in Hr. rewrite Hr. by apply c_string_plain, plain_prefix_of.
Qed.
