(* ===== verification/Crc32.v ===== *)
(** CRC-32/ISO-HDLC of [shared/ccsds/src/crc32.c]: the bit loop of the code,
    its linearity over GF(2), and the resulting detection of every error burst
    that lies in a window of four bytes. *)

From S2P Require Import Prelude.

Definition POLY : Z := 0xEDB88320.

(** One iteration of the inner loop. *)
Definition crc_bit (crc : Z) : Z :=
  let mask := u32 (0 - Z.land crc 1) in
  Z.lxor (Z.shiftr crc 1) (Z.land POLY mask).

Definition crc_bits (n : nat) (crc : Z) : Z := Nat.iter n crc_bit crc.

(** One iteration of the outer loop. *)
Definition crc_byte (crc b : Z) : Z := crc_bits 8 (Z.lxor crc b).

Definition ccsds_crc32 (data : option (list Z)) (length : Z) : Z :=
  match data with
  | None => if negb (length =? 0) then 0 else Z.lxor 0xFFFFFFFF 0xFFFFFFFF
  | Some bytes =>
      Z.lxor (fold_left crc_byte (prefix_of length bytes) 0xFFFFFFFF) 0xFFFFFFFF
  end.

Definition u32_ok (v : Z) : Prop := 0 <= v < 2 ^ 32.

(** ** The step as a linear map *)

Lemma crc_bit_alt c :
  crc_bit c = Z.lxor (Z.shiftr c 1) (if Z.testbit c 0 then POLY else 0).
Proof.
  unfold crc_bit. f_equal. rewrite (land_ones_mod c 1) by (lia || done).
  rewrite Z.bit0_odd, Zodd_mod. change (2 ^ 1) with 2.
  assert (c mod 2 = 0 \/ c mod 2 = 1) as [-> | ->] by zlia; done.
Qed.

Lemma crc_bit_testbit c i :
  0 <= i ->
  Z.testbit (crc_bit c) i
  = xorb (Z.testbit c (i + 1)) (Z.testbit POLY i && Z.testbit c 0).
Proof.
  intros. rewrite crc_bit_alt, Z.lxor_spec, Z.shiftr_spec by done.
  destruct (Z.testbit c 0); rewrite ?andb_true_r, ?andb_false_r, ?Z.bits_0; done.
Qed.

Lemma crc_bit_lxor a b : crc_bit (Z.lxor a b) = Z.lxor (crc_bit a) (crc_bit b).
Proof.
  apply Z.bits_inj'. intros i Hi.
  rewrite Z.lxor_spec, !crc_bit_testbit, !Z.lxor_spec by done.
  destruct (Z.testbit a (i + 1)), (Z.testbit b (i + 1)), (Z.testbit POLY i),
    (Z.testbit a 0), (Z.testbit b 0); done.
Qed.

Lemma bits_small v n :
  0 <= n -> 0 <= v -> (forall i, n <= i -> Z.testbit v i = false) -> v < 2 ^ n.
Proof.
  intros Hn Hv Hbits. destruct (Z.eq_dec v 0) as [->|]; [apply Z.pow_pos_nonneg; lia|].
  apply Z.log2_lt_pow2; [lia|]. destruct (Z.lt_ge_cases (Z.log2 v) n); [done|].
  pose proof (Hbits (Z.log2 v) ltac:(done)). rewrite Z.bit_log2 in *; [done|lia].
Qed.

Lemma lxor_u32_ok a b : u32_ok a -> u32_ok b -> u32_ok (Z.lxor a b).
Proof.
  unfold u32_ok. intros. assert (0 <= Z.lxor a b) by (apply Z.lxor_nonneg; lia).
  split; [done|]. apply bits_small; [lia|done|]. intros i Hi.
  rewrite Z.lxor_spec, !(testbit_above _ 32) by lia. done.
Qed.

Lemma crc_bit_ok c : u32_ok c -> u32_ok (crc_bit c).
Proof.
  intros. rewrite crc_bit_alt. apply lxor_u32_ok.
  - unfold u32_ok in *. rewrite shiftr_div by lia. zlia.
  - destruct (Z.testbit c 0); unfold u32_ok, POLY; lia.
Qed.

(** The polynomial has bit 31 set, so a step loses no information. *)
Lemma crc_bit_kernel c : u32_ok c -> crc_bit c = 0 -> c = 0.
Proof.
  intros Hc H0.
  assert (Z.testbit c 0 = false) as Hodd.
  { pose proof (crc_bit_testbit c 31 ltac:(lia)) as H.
    rewrite H0, Z.bits_0 in H. rewrite (testbit_above c 32) in H by (lia || done).
    by destruct (Z.testbit c 0). }
  rewrite crc_bit_alt, Hodd, Z.lxor_0_r, shiftr_div in H0 by lia.
  rewrite Z.bit0_odd, Zodd_mod in Hodd. unfold u32_ok in Hc.
  assert (c mod 2 <> 1) by (intros E; rewrite E in Hodd; done). zlia.
Qed.

Lemma crc_bits_S n c : crc_bits (S n) c = crc_bit (crc_bits n c).
Proof. done. Qed.

Lemma crc_bits_add m n c : crc_bits (m + n) c = crc_bits m (crc_bits n c).
Proof. induction m; [done|]. cbn [Nat.add]. rewrite !crc_bits_S. congruence. Qed.

Lemma crc_bits_lxor n a b :
  crc_bits n (Z.lxor a b) = Z.lxor (crc_bits n a) (crc_bits n b).
Proof. induction n; [done|]. rewrite !crc_bits_S, IHn. apply crc_bit_lxor. Qed.

Lemma crc_bits_ok n c : u32_ok c -> u32_ok (crc_bits n c).
Proof. intros. induction n; [done|]. by apply crc_bit_ok. Qed.

Lemma crc_bits_kernel n c : u32_ok c -> crc_bits n c = 0 -> c = 0.
Proof.
  intros Hc. induction n as [|n IH]; [done|]. rewrite crc_bits_S. intros H.
  apply IH. by apply crc_bit_kernel; [apply crc_bits_ok|].
Qed.

(** Shifted-in zero bits leave the register one by one. *)
Lemma crc_bits_shiftl n v : crc_bits n (Z.shiftl v (Z.of_nat n)) = v.
Proof.
  induction n as [|n IH]; [by rewrite Z.shiftl_0_r|].
  replace (S n) with (n + 1)%nat by lia. rewrite crc_bits_add.
  replace (crc_bits 1 (Z.shiftl v (Z.of_nat (n + 1)))) with (Z.shiftl v (Z.of_nat n));
    [done|].
  cbn [crc_bits Nat.iter nat_rect]. rewrite crc_bit_alt.
  replace (Z.of_nat (n + 1)) with (Z.of_nat n + 1) by lia.
  rewrite Z.shiftl_spec_low, Z.lxor_0_r by lia.
  rewrite <- Z.shiftl_shiftl, Z.shiftr_shiftl_l by lia. by rewrite Z.shiftl_0_r.
Qed.

Lemma crc_bits_shiftl_byte v : crc_bits 8 (Z.shiftl v 8) = v.
Proof. exact (crc_bits_shiftl 8 v). Qed.

Lemma crc_byte_eq c b : crc_byte c b = crc_bits 8 (Z.lxor c b).
Proof. reflexivity. Qed.

(** ** Messages *)

(** The message as a little-endian number: bit [i] enters the register [i] steps
    late. *)
Fixpoint le_number (w : list Z) : Z :=
  match w with
  | [] => 0
  | b :: w' => Z.lxor b (Z.shiftl (le_number w') 8)
  end.

Lemma crc_fold_number w c :
  fold_left crc_byte w c = crc_bits (8 * length w) (Z.lxor c (le_number w)).
Proof.
  revert c. induction w as [|b w IH]; intros c.
  - cbn [le_number length fold_left]. by rewrite Z.lxor_0_r.
  - rewrite fold_left_cons. cbn [le_number length]. rewrite IH, crc_byte_eq. replace (8 * S (length w))%nat with (8 * length w + 8)%nat by lia.
    rewrite crc_bits_add. f_equal.
    rewrite <- (Z.lxor_assoc c b), (crc_bits_lxor 8 (Z.lxor c b)).
    by rewrite crc_bits_shiftl_byte.
Qed.

Lemma le_number_nonneg w : bytes_ok w -> 0 <= le_number w.
Proof.
  induction 1 as [|b w Hb Hw IH]; cbn [le_number]; [done|].
  apply Z.lxor_nonneg. split; intros; [apply Z.shiftl_nonneg; lia|apply Hb].
Qed.

Lemma le_number_testbit b w i :
  byte_ok b -> 0 <= i ->
  Z.testbit (le_number (b :: w)) i
  = if decide (i < 8) then Z.testbit b i else Z.testbit (le_number w) (i - 8).
Proof.
  intros Hb Hi. cbn [le_number]. rewrite Z.lxor_spec, Z.shiftl_spec by done.
  case_decide.
  - rewrite (Z.testbit_neg_r _ (i - 8)) by lia. apply xorb_false_r.
  - rewrite (testbit_above b 8) by (done || lia). apply xorb_false_l.
Qed.

Lemma le_number_bound w : bytes_ok w -> le_number w < 2 ^ (8 * len w).
Proof.
  intros Hw. apply bits_small; [pose proof (len_nonneg w); lia|by apply le_number_nonneg|].
  induction Hw as [|b w Hb Hw IH]; intros i Hi; [apply Z.bits_0|].
  rewrite len_cons in Hi. pose proof (len_nonneg w).
  rewrite le_number_testbit by (done || lia). case_decide; [lia|]. apply IH. lia.
Qed.

Lemma le_number_inj w1 w2 :
  bytes_ok w1 -> bytes_ok w2 -> length w1 = length w2 ->
  le_number w1 = le_number w2 -> w1 = w2.
Proof.
  intros H1. revert w2. induction H1 as [|b1 w1 Hb1 H1 IH]; intros [|b2 w2] H2 Hl E;
    [done|done|done|].
  inversion H2; subst. cbn [length] in Hl.
  assert (forall i, 0 <= i -> Z.testbit (le_number (b1 :: w1)) i
                            = Z.testbit (le_number (b2 :: w2)) i) as Hbit by (by rewrite E).
  f_equal.
  - apply Z.bits_inj'. intros i Hi. destruct (decide (i < 8)).
    + specialize (Hbit i Hi). rewrite !le_number_testbit in Hbit by done.
      by case_decide.
    + by rewrite !(testbit_above _ 8) by (done || lia).
  - apply IH; [done|lia|]. apply Z.bits_inj'. intros i Hi.
    specialize (Hbit (i + 8) ltac:(lia)). rewrite !le_number_testbit in Hbit by (done || lia).
    case_decide; [lia|]. by replace (i + 8 - 8) with i in Hbit by lia.
Qed.

Lemma u32_ok_bytes b : byte_ok b -> u32_ok b.
Proof. unfold u32_ok. zlia. Qed.

Lemma crc_fold_ok w c : bytes_ok w -> u32_ok c -> u32_ok (fold_left crc_byte w c).
Proof.
  intros Hw. revert c. induction Hw as [|b w Hb Hw IH]; intros c Hc; [done|].
  rewrite fold_left_cons. apply IH. rewrite crc_byte_eq. apply crc_bits_ok, lxor_u32_ok; [done|].
  by apply u32_ok_bytes.
Qed.

Lemma ccsds_crc32_whole bytes :
  ccsds_crc32 (Some bytes) (len bytes)
  = Z.lxor (fold_left crc_byte bytes 0xFFFFFFFF) 0xFFFFFFFF.
Proof. cbn [ccsds_crc32]. rewrite prefix_of_all; [done|lia]. Qed.

Lemma ccsds_crc32_prefix bytes n :
  0 <= n <= len bytes ->
  ccsds_crc32 (Some bytes) n = ccsds_crc32 (Some (prefix_of n bytes)) (len (prefix_of n bytes)).
Proof.
  intros. rewrite (ccsds_crc32_whole (prefix_of n bytes)). reflexivity.
Qed.

Lemma ccsds_crc32_ok bytes n :
  bytes_ok bytes -> u32_ok (ccsds_crc32 (Some bytes) n).
Proof.
  intros. cbn [ccsds_crc32]. apply lxor_u32_ok; [|unfold u32_ok; lia].
  apply crc_fold_ok; [auto with flight|unfold u32_ok; lia].
Qed.

(** From different registers the same bytes lead to different registers. *)
Lemma crc_fold_inj suf a b :
  bytes_ok suf -> u32_ok a -> u32_ok b ->
  fold_left crc_byte suf a = fold_left crc_byte suf b -> a = b.
Proof.
  rewrite !crc_fold_number. intros Hs Ha Hb E. apply Z.lxor_eq.
  apply (crc_bits_kernel (8 * length suf)); [by apply lxor_u32_ok|].
  replace (Z.lxor a b)
    with (Z.lxor (Z.lxor a (le_number suf)) (Z.lxor b (le_number suf))).
  - by rewrite crc_bits_lxor, E, Z.lxor_nilpotent.
  - apply Z.bits_inj'. intros i Hi. rewrite !Z.lxor_spec.
    by destruct (Z.testbit a i), (Z.testbit b i), (Z.testbit (le_number suf) i).
Qed.

(** A window of at most four bytes is absorbed without loss. *)
Lemma crc_fold_window_inj w1 w2 c :
  bytes_ok w1 -> bytes_ok w2 -> length w1 = length w2 -> (length w1 <= 4)%nat ->
  fold_left crc_byte w1 c = fold_left crc_byte w2 c -> w1 = w2.
Proof.
  intros H1 H2 Hl H4. rewrite !crc_fold_number, <- Hl. intros E.
  apply le_number_inj; [done..|].
  assert (forall w, bytes_ok w -> (length w <= 4)%nat -> u32_ok (le_number w)) as Hr.
  { intros w Hw Hlen. pose proof (le_number_bound w Hw). split; [by apply le_number_nonneg|].
    eapply Z.lt_le_trans; [done|]. apply Z.pow_le_mono_r; [lia|]. unfold len. lia. }
  apply Z.lxor_eq, (crc_bits_kernel (8 * length w1)).
  - apply lxor_u32_ok; apply Hr; (done || lia).
  - replace (Z.lxor (le_number w1) (le_number w2))
      with (Z.lxor (Z.lxor c (le_number w1)) (Z.lxor c (le_number w2))).
    + by rewrite crc_bits_lxor, E, Z.lxor_nilpotent.
    + apply Z.bits_inj'. intros i Hi. rewrite !Z.lxor_spec.
      by destruct (Z.testbit c i), (Z.testbit (le_number w1) i), (Z.testbit (le_number w2) i).
Qed.

Lemma crc32_window_differs pre w1 w2 suf :
  bytes_ok pre -> bytes_ok w1 -> bytes_ok w2 -> bytes_ok suf ->
  length w1 = length w2 -> (length w1 <= 4)%nat -> w1 <> w2 ->
  ccsds_crc32 (Some (pre ++ w1 ++ suf)) (len (pre ++ w1 ++ suf))
  <> ccsds_crc32 (Some (pre ++ w2 ++ suf)) (len (pre ++ w2 ++ suf)).
Proof.
  intros Hp H1 H2 Hs Hl H4 Hne. rewrite !ccsds_crc32_whole, !fold_left_app. intros E. apply Hne.
  assert (u32_ok (fold_left crc_byte pre 0xFFFFFFFF)) by
    (apply crc_fold_ok; [done|unfold u32_ok; lia]).
  apply (crc_fold_window_inj w1 w2 (fold_left crc_byte pre 0xFFFFFFFF)); [done..|].
  apply (crc_fold_inj suf); [done|by apply crc_fold_ok..|].
  apply (f_equal (fun v => Z.lxor v 0xFFFFFFFF)) in E.
  by rewrite !Z.lxor_assoc, Z.lxor_nilpotent, !Z.lxor_0_r in E.
Qed.

(** The CRC-32 of [ccsds_crc32] tells apart any two messages of the same
    length that differ inside a window of at most four consecutive bytes, and
    nowhere else: every error burst of up to 32 bits that is byte aligned is
    detected, wherever it lies. *)
Theorem crc32_detects_burst pre w1 w2 suf :
  bytes_ok pre -> bytes_ok w1 -> bytes_ok w2 -> bytes_ok suf ->
  length w1 = length w2 -> (length w1 <= 4)%nat -> w1 <> w2 ->
  ccsds_crc32 (Some (pre ++ w1 ++ suf)) (len (pre ++ w1 ++ suf))
  <> ccsds_crc32 (Some (pre ++ w2 ++ suf)) (len (pre ++ w2 ++ suf)).
Proof. apply crc32_window_differs. Qed.

Lemma crc32_detects_burst_witness :
  let m1 := [8; 1; 192; 7] ++ [1; 2; 3; 4] ++ [9; 9] in
  let m2 := [8; 1; 192; 7] ++ [1; 2; 131; 4] ++ [9; 9] in
  ccsds_crc32 (Some m1) (len m1) <> ccsds_crc32 (Some m2) (len m2).
Proof.
  apply (crc32_detects_burst [8; 1; 192; 7] [1; 2; 3; 4] [1; 2; 131; 4] [9; 9]);
    first [by (repeat constructor; unfold byte_ok; lia) | reflexivity | cbn; lia | congruence].
Defined.

(** The check value of CRC-32/ISO-HDLC: the digits "123456789". *)
Example crc32_check_value :
  ccsds_crc32 (Some [49; 50; 51; 52; 53; 54; 55; 56; 57]) 9 = 0xCBF43926.
Proof. vm_compute. reflexivity. Qed.
