(* ===== verification/SpacePacket.v ===== *)
(** CCSDS Space Packet primary header: [shared/ccsds/src/space_packet.c] and the
    status vocabulary of [shared/ccsds/src/status.c].

    A pointer argument is an [option]: [None] is NULL.  An output argument is
    taken with its current contents and handed back, so "left untouched" is
    visible in the statements. *)

From Stdlib Require Import String.
From S2P Require Import Prelude.

Inductive ccsds_status_t :=
  | CCSDS_OK
  | CCSDS_ERROR_NULL
  | CCSDS_ERROR_RANGE
  | CCSDS_ERROR_BUFFER_TOO_SMALL
  | CCSDS_ERROR_INVALID_FORMAT
  | CCSDS_ERROR_CRC
  | CCSDS_ERROR_UNSUPPORTED
  | CCSDS_ERROR_CODEC
  | CCSDS_ERROR_CALLBACK.

#[global] Instance ccsds_status_eq_dec : EqDecision ccsds_status_t.
Proof. solve_decision. Defined.

Definition ccsds_status_value (s : ccsds_status_t) : Z :=
  match s with
  | CCSDS_OK => 0
  | CCSDS_ERROR_NULL => -1
  | CCSDS_ERROR_RANGE => -2
  | CCSDS_ERROR_BUFFER_TOO_SMALL => -3
  | CCSDS_ERROR_INVALID_FORMAT => -4
  | CCSDS_ERROR_CRC => -5
  | CCSDS_ERROR_UNSUPPORTED => -6
  | CCSDS_ERROR_CODEC => -7
  | CCSDS_ERROR_CALLBACK => -8
  end.

Definition ccsds_status_string (status : Z) : string :=
  if status =? 0 then "success"%string
   else if status =? -1 then "null pointer"%string
   else if status =? -2 then "value out of range"%string
   else if status =? -3 then "buffer too small"%string
   else if status =? -4 then "invalid format"%string
   else if status =? -5 then "CRC mismatch"%string
   else if status =? -6 then "unsupported option"%string
   else if status =? -7 then "compression codec error"%string
   else if status =? -8 then "packet callback failed"%string
   else "unknown CCSDS status"%string.

Definition CCSDS_SPACE_PACKET_PRIMARY_HEADER_SIZE : Z := 6.
Definition CCSDS_SPACE_PACKET_MAX_DATA_SIZE : Z := 65536.
Definition CCSDS_SPACE_PACKET_MAX_APID : Z := 0x07FF.
Definition CCSDS_SPACE_PACKET_MAX_SEQUENCE_COUNT : Z := 0x3FFF.

Definition CCSDS_PACKET_TYPE_TELEMETRY : Z := 0.
Definition CCSDS_PACKET_TYPE_COMMAND : Z := 1.
Definition CCSDS_SEQUENCE_UNSEGMENTED : Z := 3.

(** The enum members are integers: the code range-checks them. *)
Record ccsds_space_packet_header_t := mk_header {
  h_type : Z;
  h_has_secondary_header : bool;
  h_apid : Z;
  h_sequence_flags : Z;
  h_sequence_count : Z
}.

Record ccsds_space_packet_view_t := mk_view {
  v_header : ccsds_space_packet_header_t;
  v_data : list Z;            (* pointer into the input *)
  v_data_length : Z;
  v_total_length : Z
}.

Definition validate_header (header : option ccsds_space_packet_header_t) : ccsds_status_t :=
  match header with
  | None => CCSDS_ERROR_NULL
  | Some h =>
      if (negb (h_type h =? CCSDS_PACKET_TYPE_TELEMETRY)
          && negb (h_type h =? CCSDS_PACKET_TYPE_COMMAND))
         || (CCSDS_SPACE_PACKET_MAX_APID <? h_apid h)
         || (CCSDS_SEQUENCE_UNSEGMENTED <? h_sequence_flags h)
         || (CCSDS_SPACE_PACKET_MAX_SEQUENCE_COUNT <? h_sequence_count h)
      then CCSDS_ERROR_RANGE
      else CCSDS_OK
  end.

Definition packet_id_of (h : ccsds_space_packet_header_t) : Z :=
  u16 (Z.lor (Z.lor (Z.shiftl (u16 (h_type h)) 12)
                    (Z.shiftl (if h_has_secondary_header h then 1 else 0) 11))
             (h_apid h)).

Definition sequence_control_of (h : ccsds_space_packet_header_t) : Z :=
  u16 (Z.lor (Z.shiftl (u16 (h_sequence_flags h)) 14) (h_sequence_count h)).

(** The six bytes that lines 45 to 58 store. *)
Definition primary_header_bytes (h : ccsds_space_packet_header_t) (data_length : Z) : list Z :=
  let packet_id := packet_id_of h in
  let sequence_control := sequence_control_of h in
  let encoded_length := u16 (data_length - 1) in
  [ u8 (Z.shiftr packet_id 8); u8 packet_id;
    u8 (Z.shiftr sequence_control 8); u8 sequence_control;
    u8 (Z.shiftr encoded_length 8); u8 encoded_length ].

Definition ccsds_space_packet_write_header
    (header : option ccsds_space_packet_header_t) (data_length : Z)
    (output : option (list Z)) (output_capacity : Z)
    : ccsds_status_t * option (list Z) :=
  match output with
  | None => (CCSDS_ERROR_NULL, output)
  | Some out =>
      match validate_header header, header with
      | CCSDS_OK, Some h =>
          if (data_length =? 0) || (CCSDS_SPACE_PACKET_MAX_DATA_SIZE <? data_length)
          then (CCSDS_ERROR_RANGE, output)
          else if output_capacity <? CCSDS_SPACE_PACKET_PRIMARY_HEADER_SIZE
          then (CCSDS_ERROR_BUFFER_TOO_SMALL, output)
          else (CCSDS_OK, Some (patch out 0 (primary_header_bytes h data_length)))
      | status, _ => (status, output)
      end
  end.

Definition ccsds_space_packet_build
    (header : option ccsds_space_packet_header_t) (data : option (list Z))
    (data_length : Z) (output : option (list Z)) (output_capacity : Z)
    (output_length : option Z)
    : ccsds_status_t * option (list Z) * option Z :=
  match data, output, output_length with
  | Some d, Some _, Some _ =>
      if (data_length =? 0) || (CCSDS_SPACE_PACKET_MAX_DATA_SIZE <? data_length)
      then (CCSDS_ERROR_RANGE, output, output_length)
      else
        let total_length := CCSDS_SPACE_PACKET_PRIMARY_HEADER_SIZE + data_length in
        if output_capacity <? total_length
        then (CCSDS_ERROR_BUFFER_TOO_SMALL, output, output_length)
        else
          match ccsds_space_packet_write_header header data_length output output_capacity with
          | (CCSDS_OK, Some out) =>
              (CCSDS_OK,
               Some (patch out CCSDS_SPACE_PACKET_PRIMARY_HEADER_SIZE
                       (prefix_of data_length d)),
               Some total_length)
          | (status, output') => (status, output', output_length)
          end
  | _, _, _ => (CCSDS_ERROR_NULL, output, output_length)
  end.

Definition ccsds_space_packet_peek_size
    (input : option (list Z)) (input_length : Z) (packet_size : option Z)
    : ccsds_status_t * option Z :=
  match input, packet_size with
  | Some inp, Some _ =>
      if input_length <? CCSDS_SPACE_PACKET_PRIMARY_HEADER_SIZE
      then (CCSDS_ERROR_BUFFER_TOO_SMALL, packet_size)
      else if negb (Z.land (byte_at inp 0) 0xE0 =? 0)
      then (CCSDS_ERROR_UNSUPPORTED, packet_size)
      else
        let encoded_length := u16 (Z.lor (Z.shiftl (byte_at inp 4) 8) (byte_at inp 5)) in
        (CCSDS_OK, Some (CCSDS_SPACE_PACKET_PRIMARY_HEADER_SIZE + encoded_length + 1))
  | _, _ => (CCSDS_ERROR_NULL, packet_size)
  end.

(** Lines 140 to 149. *)
Definition parsed_header (inp : list Z) : ccsds_space_packet_header_t :=
  let packet_id := u16 (Z.lor (Z.shiftl (byte_at inp 0) 8) (byte_at inp 1)) in
  let sequence_control := u16 (Z.lor (Z.shiftl (byte_at inp 2) 8) (byte_at inp 3)) in
  {| h_type := Z.land (Z.shiftr packet_id 12) 1;
     h_has_secondary_header := negb (Z.land (Z.shiftr packet_id 11) 1 =? 0);
     h_apid := Z.land packet_id CCSDS_SPACE_PACKET_MAX_APID;
     h_sequence_flags := Z.land (Z.shiftr sequence_control 14) 3;
     h_sequence_count := Z.land sequence_control CCSDS_SPACE_PACKET_MAX_SEQUENCE_COUNT |}.

Definition ccsds_space_packet_parse
    (input : option (list Z)) (input_length : Z)
    (view : option ccsds_space_packet_view_t)
    : ccsds_status_t * option ccsds_space_packet_view_t :=
  match input, view with
  | Some inp, Some _ =>
      match ccsds_space_packet_peek_size input input_length (Some 0) with
      | (CCSDS_OK, Some packet_size) =>
          if input_length <? packet_size
          then (CCSDS_ERROR_BUFFER_TOO_SMALL, view)
          else
            (CCSDS_OK,
             Some {| v_header := parsed_header inp;
                     v_data := skip CCSDS_SPACE_PACKET_PRIMARY_HEADER_SIZE inp;
                     v_data_length := packet_size - CCSDS_SPACE_PACKET_PRIMARY_HEADER_SIZE;
                     v_total_length := packet_size |})
      | (status, _) => (status, view)
      end
  | _, _ => (CCSDS_ERROR_NULL, view)
  end.

(** ** Header fields *)

(** A header the C types and [validate_header] allow. *)
Definition header_ok (h : ccsds_space_packet_header_t) : Prop :=
  (h_type h = 0 \/ h_type h = 1) /\ 0 <= h_apid h <= 0x7FF /\
  0 <= h_sequence_flags h <= 3 /\ 0 <= h_sequence_count h <= 0x3FFF.

Lemma validate_header_ok h : header_ok h -> validate_header (Some h) = CCSDS_OK.
Proof.
  intros (Ht & Ha & Hf & Hc). unfold validate_header,
    CCSDS_SPACE_PACKET_MAX_APID, CCSDS_SEQUENCE_UNSEGMENTED,
    CCSDS_SPACE_PACKET_MAX_SEQUENCE_COUNT.
  rewrite !(proj2 (Z.ltb_ge _ _)) by lia. by destruct Ht as [-> | ->].
Qed.

Lemma packet_id_value h :
  header_ok h ->
  packet_id_of h
  = h_type h * 4096 + b2z (h_has_secondary_header h) * 2048 + h_apid h.
Proof.
  intros (Ht & Ha & _). unfold packet_id_of, b2z.
  replace (u16 (h_type h)) with (h_type h) by zlia.
  rewrite !Z.shiftl_mul_pow2 by lia.
  change (2 ^ 12) with 4096. change (2 ^ 11) with 2048.
  set (s := if h_has_secondary_header h then 1 else 0).
  assert (0 <= s <= 1) by (subst s; destruct (h_has_secondary_header h); lia).
  rewrite (lor_add_disjoint _ (s * 2048) 12) by (try (change (2 ^ 12) with 4096); zlia).
  rewrite (lor_add_disjoint _ (h_apid h) 11) by (try (change (2 ^ 11) with 2048); zlia).
  zlia.
Qed.

Lemma sequence_control_value h :
  header_ok h -> sequence_control_of h = h_sequence_flags h * 16384 + h_sequence_count h.
Proof.
  intros (_ & _ & Hf & Hc). unfold sequence_control_of.
  replace (u16 (h_sequence_flags h)) with (h_sequence_flags h) by zlia.
  rewrite lor_shiftl_add by (try (change (2 ^ 14) with 16384); lia).
  change (2 ^ 14) with 16384. zlia.
Qed.

Lemma len_primary_header h n : len (primary_header_bytes h n) = 6.
Proof. reflexivity. Qed.

Lemma primary_header_bytes_ok h n : bytes_ok (primary_header_bytes h n).
Proof. unfold primary_header_bytes. repeat constructor; apply bytes_ok_u8 || zlia. Qed.
#[export] Hint Resolve primary_header_bytes_ok : flight.

(** Reading back the header the writer stored. *)
Lemma parsed_header_round h n rest :
  header_ok h -> parsed_header (primary_header_bytes h n ++ rest) = h.
Proof.
  intros Hh. pose proof Hh as (Ht & Ha & Hf & Hc).
  unfold parsed_header, CCSDS_SPACE_PACKET_MAX_APID, CCSDS_SPACE_PACKET_MAX_SEQUENCE_COUNT.
  assert (0 <= packet_id_of h < 65536) by (unfold packet_id_of; zlia).
  assert (0 <= sequence_control_of h < 65536) by (unfold sequence_control_of; zlia).
  cbv beta zeta delta [primary_header_bytes]. read_bytes.
  rewrite !be16_round by done. unfold u16. rewrite !Z.mod_small by done.
  rewrite (packet_id_value h), (sequence_control_value h) by done.
  rewrite !shiftr_div by lia.
  rewrite (land_ones_mod _ 11 0x7FF), (land_ones_mod _ 14 0x3FFF), !(land_ones_mod _ 1 1),
    (land_ones_mod _ 2 3) by (done || lia).
  change (2 ^ 12) with 4096. change (2 ^ 11) with 2048. change (2 ^ 14) with 16384.
  change (2 ^ 1) with 2. change (2 ^ 2) with 4.
  destruct h as [ty sec ap fl ct]; cbn [h_type h_has_secondary_header h_apid
    h_sequence_flags h_sequence_count] in *.
  f_equal; destruct sec; unfold b2z in *; zlia.
Qed.

Lemma byte0_version b : byte_ok b -> Z.land b 0xE0 = 0 <-> b < 32.
Proof.
  intros Hb. apply (byte_cases (fun b => eqb (Z.land b 0xE0 =? 0) (b <? 32))) in Hb;
    [|vm_compute; reflexivity].
  apply eqb_prop in Hb. rewrite <- Z.eqb_eq, <- Z.ltb_lt, Hb. done.
Qed.

(** ** Functional behaviour *)

Lemma write_header_success h n out cap :
  header_ok h -> 1 <= n <= 65536 -> 6 <= cap ->
  ccsds_space_packet_write_header (Some h) n (Some out) cap
  = (CCSDS_OK, Some (primary_header_bytes h n ++ skip 6 out)).
Proof.
  intros Hh Hn Hc. unfold ccsds_space_packet_write_header.
  rewrite validate_header_ok by done.
  unfold CCSDS_SPACE_PACKET_MAX_DATA_SIZE, CCSDS_SPACE_PACKET_PRIMARY_HEADER_SIZE.
  rewrite (proj2 (Z.eqb_neq n 0)), !(proj2 (Z.ltb_ge _ _)) by lia. done.
Qed.

Lemma build_success h d n out cap ol :
  header_ok h -> 1 <= n <= 65536 -> n <= len d -> 6 + n <= cap ->
  ccsds_space_packet_build (Some h) (Some d) n (Some out) cap (Some ol)
  = (CCSDS_OK,
     Some (primary_header_bytes h n ++ prefix_of n d ++ skip (6 + n) out),
     Some (6 + n)).
Proof.
  intros Hh Hn Hd Hc. unfold ccsds_space_packet_build.
  unfold CCSDS_SPACE_PACKET_MAX_DATA_SIZE, CCSDS_SPACE_PACKET_PRIMARY_HEADER_SIZE.
  rewrite write_header_success by (done || lia).
  rewrite (proj2 (Z.eqb_neq n 0)), !(proj2 (Z.ltb_ge _ _)) by lia. cbn [orb].
  rewrite patch_front by done. rewrite len_prefix_of by lia.
  rewrite skip_skip, <- app_assoc by lia. done.
Qed.

(** The length field of a packet whose front six bytes are known. *)
Lemma peek_size_header h n rest input_length ps :
  header_ok h -> 1 <= n <= 65536 -> 6 <= input_length ->
  ccsds_space_packet_peek_size (Some (primary_header_bytes h n ++ rest)) input_length (Some ps)
  = (CCSDS_OK, Some (6 + n)).
Proof.
  intros Hh Hn Hl. unfold ccsds_space_packet_peek_size, CCSDS_SPACE_PACKET_PRIMARY_HEADER_SIZE.
  rewrite (proj2 (Z.ltb_ge _ _)) by lia.
  assert (Z.land (byte_at (primary_header_bytes h n ++ rest) 0) 0xE0 = 0) as ->.
  { rewrite byte_at_app_l by (rewrite len_primary_header; lia).
    apply byte0_version; [auto with flight|].
    cbv beta zeta delta [primary_header_bytes]. read_bytes.
    rewrite packet_id_value, shiftr_div by (done || lia). change (2 ^ 8) with 256.
    destruct Hh as ([-> | ->] & Ha & _); destruct (h_has_secondary_header h); unfold b2z; zlia. }
  cbv beta zeta delta [primary_header_bytes]. read_bytes. rewrite be16_round by zlia.
  cbn [Z.eqb negb]. do 2 f_equal. zlia.
Qed.

Lemma parse_built h n rest input_length v0 :
  header_ok h -> 1 <= n <= 65536 -> 6 + n <= input_length ->
  ccsds_space_packet_parse (Some (primary_header_bytes h n ++ rest)) input_length (Some v0)
  = (CCSDS_OK, Some {| v_header := h; v_data := rest;
                       v_data_length := n; v_total_length := 6 + n |}).
Proof.
  intros Hh Hn Hl. unfold ccsds_space_packet_parse.
  rewrite peek_size_header by (done || lia). rewrite (proj2 (Z.ltb_ge _ _)) by lia.
  rewrite parsed_header_round by done. unfold CCSDS_SPACE_PACKET_PRIMARY_HEADER_SIZE.
  rewrite skip_app by done. do 3 f_equal. lia.
Qed.

(** The header of any accepted input is the one that would be written. *)
Lemma primary_header_canonical inp n :
  bytes_ok inp -> 6 <= len inp -> byte_at inp 0 < 32 ->
  n = u16 (Z.lor (Z.shiftl (byte_at inp 4) 8) (byte_at inp 5)) + 1 ->
  header_ok (parsed_header inp)
  /\ primary_header_bytes (parsed_header inp) n = prefix_of 6 inp.
Proof.
  intros Hb Hl H32 ->.
  destruct inp as [|b0 [|b1 [|b2 [|b3 [|b4 [|b5 rest]]]]]];
    try (rewrite ?len_cons, ?len_nil in Hl; lia).
  repeat match goal with H : bytes_ok (_ :: _) |- _ => inversion H; subst; clear H end.
  change (b0 < 32) in H32.
  assert (header_ok (parsed_header (b0 :: b1 :: b2 :: b3 :: b4 :: b5 :: rest))) as Hok.
  { unfold header_ok, parsed_header. cbn [h_type h_apid h_sequence_flags h_sequence_count].
    unfold CCSDS_SPACE_PACKET_MAX_APID, CCSDS_SPACE_PACKET_MAX_SEQUENCE_COUNT.
    rewrite (land_ones_mod _ 11 0x7FF), (land_ones_mod _ 14 0x3FFF), (land_ones_mod _ 1 1),
      (land_ones_mod _ 2 3) by (done || lia). zlia. }
  split; [done|].
  unfold primary_header_bytes. rewrite packet_id_value, sequence_control_value by done.
  unfold parsed_header. cbn [h_type h_has_secondary_header h_apid h_sequence_flags h_sequence_count].
  unfold CCSDS_SPACE_PACKET_MAX_APID, CCSDS_SPACE_PACKET_MAX_SEQUENCE_COUNT. read_bytes.
  rewrite (land_ones_mod _ 11 0x7FF), (land_ones_mod _ 14 0x3FFF), !(land_ones_mod _ 1 1),
    (land_ones_mod _ 2 3) by (done || lia).
  rewrite !be16_value, !shiftr_div by (done || lia). unfold b2z.
  change (2 ^ 12) with 4096. change (2 ^ 11) with 2048. change (2 ^ 14) with 16384.
  change (2 ^ 1) with 2. change (2 ^ 2) with 4. change (2 ^ 8) with 256.
  change (prefix_of 6 (b0 :: b1 :: b2 :: b3 :: b4 :: b5 :: rest)) with [b0; b1; b2; b3; b4; b5].
  unfold byte_ok, u16, u8 in *. rewrite (Z.mod_small (b0 * 256 + b1)) by lia.
  rewrite (Z.mod_small (b2 * 256 + b3)) by lia. rewrite (Z.mod_small (b4 * 256 + b5)) by lia.
  destruct (_ =? 0) eqn:E; cbn [negb]; bool_facts;
    repeat (apply (f_equal2 cons); [zlia|]); done.
Qed.

(** The view argument is never lost. *)
Lemma parse_keeps_view inp n v0 st r :
  ccsds_space_packet_parse (Some inp) n (Some v0) = (st, r) -> r <> None.
Proof.
  unfold ccsds_space_packet_parse. destruct (ccsds_space_packet_peek_size _ _ _) as [[] [ps|]];
    try (intros [= _ <-]; done).
  destruct (n <? ps); intros [= _ <-]; done.
Qed.

(** What an accepted input is. *)
Lemma parse_accepts inp n v0 v :
  bytes_ok inp -> n <= len inp ->
  ccsds_space_packet_parse (Some inp) n (Some v0) = (CCSDS_OK, Some v) ->
  header_ok (v_header v) /\ 1 <= v_data_length v <= 65536
  /\ v_total_length v = 6 + v_data_length v /\ v_total_length v <= n
  /\ v_data v = skip 6 inp
  /\ primary_header_bytes (v_header v) (v_data_length v) = prefix_of 6 inp.
Proof.
  intros Hb Hn. unfold ccsds_space_packet_parse, ccsds_space_packet_peek_size.
  unfold CCSDS_SPACE_PACKET_PRIMARY_HEADER_SIZE.
  destruct (n <? 6) eqn:E6; [done|]. destruct (negb _) eqn:Ev; [done|].
  cbv beta iota zeta. case_if as Es; [done|]. intros [= <-]. bool_facts.
  cbn [v_header v_data_length v_total_length v_data].
  set (el := u16 (Z.lor (Z.shiftl (byte_at inp 4) 8) (byte_at inp 5))) in *.
  assert (0 <= el < 65536) by (subst el; zlia).
  destruct (primary_header_canonical inp (el + 1)) as [Hok Hc];
    [done|lia|apply byte0_version; auto with flight|done|].
  replace (6 + el + 1 - 6) with (el + 1) by lia.
  repeat split; try apply Hok; (done || lia).
Qed.

(** Building a Space Packet from a legal header and 1 to 65536 data bytes
    succeeds when the output has room, writes exactly the first [6 + n] bytes of
    the output buffer, and parsing the buffer, also when further bytes follow,
    yields the same header, data length and data. *)
Theorem space_packet_roundtrip h d n out cap ol input_length v0 :
  header_ok h -> 1 <= n <= 65536 -> n <= len d ->
  6 + n <= cap -> cap <= len out -> 6 + n <= input_length ->
  exists out' v,
    ccsds_space_packet_build (Some h) (Some d) n (Some out) cap (Some ol)
      = (CCSDS_OK, Some out', Some (6 + n))
    /\ len out' = len out /\ skip (6 + n) out' = skip (6 + n) out
    /\ ccsds_space_packet_parse (Some out') input_length (Some v0) = (CCSDS_OK, Some v)
    /\ v_header v = h /\ v_data_length v = n /\ v_total_length v = 6 + n
    /\ prefix_of n (v_data v) = prefix_of n d.
Proof.
  intros Hh Hn Hd Hc Ho Hi.
  eexists _, _. split; [by apply build_success|].
  split_and!; [| |by apply parse_built|done|done|done|].
  - rewrite !len_app, len_primary_header, len_prefix_of, len_skip by lia. lia.
  - rewrite skip_app_ge, len_primary_header by (rewrite len_primary_header; lia).
    rewrite skip_app; [done|]. rewrite len_prefix_of by lia. lia.
  - cbn [v_data]. apply prefix_of_app. by rewrite len_prefix_of by lia.
Qed.

Definition sample_header : ccsds_space_packet_header_t :=
  mk_header 1 true 0x100 3 0x3FFE.

Lemma space_packet_roundtrip_witness :
  exists out' v,
    ccsds_space_packet_build (Some sample_header) (Some [7; 8; 9]) 3 (Some (zeros 12)) 12 (Some 0)
      = (CCSDS_OK, Some out', Some (6 + 3))
    /\ len out' = len (zeros 12) /\ skip (6 + 3) out' = skip (6 + 3) (zeros 12)
    /\ ccsds_space_packet_parse (Some out') 12 (Some (mk_view sample_header [] 0 0))
       = (CCSDS_OK, Some v)
    /\ v_header v = sample_header /\ v_data_length v = 3 /\ v_total_length v = 6 + 3
    /\ prefix_of 3 (v_data v) = prefix_of 3 [7; 8; 9].
Proof.
  apply (space_packet_roundtrip sample_header [7; 8; 9] 3 (zeros 12) 12 0 12).
  - unfold header_ok, sample_header. cbn. lia.
  - lia.
  - unfold len. cbn. lia.
  - lia.
  - rewrite len_zeros; lia.
  - lia.
Defined.

(** The parser accepts only inputs whose primary header is the canonical
    encoding of the view it returns: the header fields are in range, the packet
    lies inside the input, and writing the returned header and length back gives
    the six bytes that were read. *)
Theorem space_packet_parse_canonical inp n v0 v out :
  bytes_ok inp -> n <= len inp -> 6 <= len out ->
  ccsds_space_packet_parse (Some inp) n (Some v0) = (CCSDS_OK, Some v) ->
  v_total_length v = 6 + v_data_length v /\ v_total_length v <= n
  /\ v_data v = skip 6 inp
  /\ ccsds_space_packet_write_header (Some (v_header v)) (v_data_length v)
       (Some out) (len out) = (CCSDS_OK, Some (prefix_of 6 inp ++ skip 6 out)).
Proof.
  intros Hb Hn Ho E.
  destruct (parse_accepts inp n v0 v Hb Hn E) as (Hok & Hdl & Ht & Hle & Hd & Hc).
  split_and!; [done..|]. by rewrite write_header_success, Hc by (done || lia).
Qed.

Lemma space_packet_parse_canonical_witness :
  let inp := [27; 100; 199; 5; 0; 1; 42; 43; 77] in
  exists v,
    ccsds_space_packet_parse (Some inp) 9 (Some (mk_view sample_header [] 0 0))
      = (CCSDS_OK, Some v)
    /\ v_total_length v = 8
    /\ ccsds_space_packet_write_header (Some (v_header v)) (v_data_length v)
         (Some (zeros 6)) (len (zeros 6)) = (CCSDS_OK, Some (prefix_of 6 inp ++ skip 6 (zeros 6))).
Proof.
  eexists. split; [vm_compute; reflexivity|]. split; [reflexivity|].
  eapply (space_packet_parse_canonical [27; 100; 199; 5; 0; 1; 42; 43; 77] 9
            (mk_view sample_header [] 0 0) _ (zeros 6)).
  - repeat constructor; unfold byte_ok; lia.
  - unfold len. cbn. lia.
  - rewrite len_zeros; lia.
  - vm_compute. reflexivity.
Defined.

Example status_string_crc :
  ccsds_status_string (ccsds_status_value CCSDS_ERROR_CRC) = "CRC mismatch"%string.
Proof. reflexivity. Qed.
