(* ===== verification/Profile.v ===== *)
(** LG profile of the CCSDS Space Packet: [shared/ccsds/src/profile.c] and the
    configuration check of [shared/ccsds/src/compression_config.c].

    A packet is the primary header of SpacePacket.v, a 16-byte profile header,
    the payload, and the CRC-32 of everything before it. *)

From Stdlib Require Import String.
From S2P Require Import Prelude Crc32 SpacePacket.

Definition LG_CCSDS_PROFILE_VERSION : Z := 1.
Definition LG_CCSDS_PROFILE_HEADER_SIZE : Z := 16.
Definition LG_CCSDS_PROFILE_CRC_SIZE : Z := 4.
Definition LG_CCSDS_PROFILE_MAX_PAYLOAD_SIZE : Z :=
  CCSDS_SPACE_PACKET_MAX_DATA_SIZE - LG_CCSDS_PROFILE_HEADER_SIZE - LG_CCSDS_PROFILE_CRC_SIZE.
Definition LG_CCSDS_SSDV_PACKET_SIZE : Z := 214.

Definition LG_CCSDS_APID_RAW_TELEMETRY : Z := 0x001.
Definition LG_CCSDS_APID_COMPRESSED_TELEMETRY : Z := 0x002.
Definition LG_CCSDS_APID_SSDV : Z := 0x003.
Definition LG_CCSDS_APID_COMMAND : Z := 0x100.

Definition LG_CCSDS_CONTENT_RAW_TELEMETRY : Z := 0.
Definition LG_CCSDS_CONTENT_COMPRESSED_TELEMETRY : Z := 1.
Definition LG_CCSDS_CONTENT_SSDV : Z := 2.
Definition LG_CCSDS_CONTENT_COMMAND : Z := 3.

Definition PROFILE_FLAG_SIGNED : Z := 0x01.
Definition PROFILE_FLAG_PREPROCESS : Z := 0x02.
Definition PROFILE_FLAG_RESTRICTED : Z := 0x04.
Definition PROFILE_KNOWN_FLAGS : Z :=
  Z.lor (Z.lor PROFILE_FLAG_SIGNED PROFILE_FLAG_PREPROCESS) PROFILE_FLAG_RESTRICTED.

Record ccsds_121_config_t := mk_config {
  bits_per_sample : Z;
  block_size : Z;
  reference_sample_interval : Z;
  signed_samples : bool;
  preprocess : bool;
  restricted_code_options : bool
}.

Record lg_ccsds_profile_metadata_t := mk_metadata {
  content_type : Z;
  sequence_count : Z;
  item_count : Z;
  compression : ccsds_121_config_t
}.

Record lg_ccsds_profile_view_t := mk_profile_view {
  space_packet : ccsds_space_packet_view_t;
  metadata : lg_ccsds_profile_metadata_t;
  payload : list Z;           (* pointer into the packet *)
  payload_length : Z;
  crc32 : Z
}.

Definition ccsds_121_validate_config (config : option ccsds_121_config_t) : ccsds_status_t :=
  match config with
  | None => CCSDS_ERROR_NULL
  | Some c =>
      let legal_block_size :=
        (block_size c =? 8) || (block_size c =? 16)
        || (block_size c =? 32) || (block_size c =? 64) in
      if (bits_per_sample c <? 1) || (32 <? bits_per_sample c)
         || negb legal_block_size
         || (reference_sample_interval c <? 1)
         || (4096 <? reference_sample_interval c)
         || (restricted_code_options c && (4 <? bits_per_sample c))
      then CCSDS_ERROR_RANGE
      else CCSDS_OK
  end.

Definition write_u16_be (output : list Z) (off value : Z) : list Z :=
  patch output off [u8 (Z.shiftr value 8); u8 value].

Definition write_u32_be (output : list Z) (off value : Z) : list Z :=
  patch output off [u8 (Z.shiftr value 24); u8 (Z.shiftr value 16);
                    u8 (Z.shiftr value 8); u8 value].

Definition read_u16_be (input : list Z) : Z :=
  u16 (Z.lor (Z.shiftl (byte_at input 0) 8) (byte_at input 1)).

Definition read_u32_be (input : list Z) : Z :=
  Z.lor (Z.lor (Z.lor (Z.shiftl (byte_at input 0) 24) (Z.shiftl (byte_at input 1) 16))
               (Z.shiftl (byte_at input 2) 8))
        (byte_at input 3).

(** The two output arguments are handed back; the packet type is stored before
    the content type is examined. *)
Definition route_for_content (content : Z) (apid packet_type : option Z)
    : ccsds_status_t * option Z * option Z :=
  match apid, packet_type with
  | Some a, Some _ =>
      if content =? LG_CCSDS_CONTENT_RAW_TELEMETRY
      then (CCSDS_OK, Some LG_CCSDS_APID_RAW_TELEMETRY, Some CCSDS_PACKET_TYPE_TELEMETRY)
      else if content =? LG_CCSDS_CONTENT_COMPRESSED_TELEMETRY
      then (CCSDS_OK, Some LG_CCSDS_APID_COMPRESSED_TELEMETRY, Some CCSDS_PACKET_TYPE_TELEMETRY)
      else if content =? LG_CCSDS_CONTENT_SSDV
      then (CCSDS_OK, Some LG_CCSDS_APID_SSDV, Some CCSDS_PACKET_TYPE_TELEMETRY)
      else if content =? LG_CCSDS_CONTENT_COMMAND
      then (CCSDS_OK, Some LG_CCSDS_APID_COMMAND, Some CCSDS_PACKET_TYPE_COMMAND)
      else (CCSDS_ERROR_UNSUPPORTED, Some a, Some CCSDS_PACKET_TYPE_TELEMETRY)
  | _, _ => (CCSDS_ERROR_NULL, apid, packet_type)
  end.

Definition config_flags (c : ccsds_121_config_t) : Z :=
  let flags := 0 in
  let flags := if signed_samples c then Z.lor flags PROFILE_FLAG_SIGNED else flags in
  let flags := if preprocess c then Z.lor flags PROFILE_FLAG_PREPROCESS else flags in
  if restricted_code_options c then Z.lor flags PROFILE_FLAG_RESTRICTED else flags.

Definition validate_content (content item_count : Z)
    (comp : option ccsds_121_config_t) (payload_length : Z) : ccsds_status_t :=
  match route_for_content content (Some 0) (Some 0) with
  | (CCSDS_OK, _, _) =>
      if content =? LG_CCSDS_CONTENT_COMPRESSED_TELEMETRY
      then
        match comp with
        | None => CCSDS_ERROR_RANGE
        | Some _ =>
            if (item_count =? 0) || (payload_length =? 0) then CCSDS_ERROR_RANGE
            else ccsds_121_validate_config comp
        end
      else
        match comp with
        | Some _ => CCSDS_ERROR_RANGE
        | None =>
            if (content =? LG_CCSDS_CONTENT_SSDV)
               && (negb (payload_length =? LG_CCSDS_SSDV_PACKET_SIZE) || negb (item_count =? 1))
            then CCSDS_ERROR_RANGE
            else CCSDS_OK
        end
  | (status, _, _) => status
  end.

(** Lines 171 to 181: the profile header, built in place over zeros. *)
Definition profile_header_bytes (content item_count : Z)
    (comp : option ccsds_121_config_t) (payload_length : Z) : list Z :=
  let profile_header := zeros LG_CCSDS_PROFILE_HEADER_SIZE in
  let profile_header := patch profile_header 0 [LG_CCSDS_PROFILE_VERSION; u8 content] in
  let profile_header :=
    match comp with
    | Some c =>
        write_u16_be
          (patch profile_header 2 [config_flags c; bits_per_sample c; block_size c])
          5 (reference_sample_interval c)
    | None => profile_header
    end in
  let profile_header := write_u32_be profile_header 8 item_count in
  write_u32_be profile_header 12 (u32 payload_length).

Definition lg_ccsds_profile_build
    (content sequence_count item_count : Z) (comp : option ccsds_121_config_t)
    (pl : option (list Z)) (payload_length : Z)
    (output : option (list Z)) (output_capacity : Z) (output_length : option Z)
    : ccsds_status_t * option (list Z) * option Z :=
  match pl, output, output_length with
  | Some p, Some _, Some _ =>
      if (CCSDS_SPACE_PACKET_MAX_SEQUENCE_COUNT <? sequence_count)
         || (LG_CCSDS_PROFILE_MAX_PAYLOAD_SIZE <? payload_length)
      then (CCSDS_ERROR_RANGE, output, output_length)
      else
        let data_length :=
          LG_CCSDS_PROFILE_HEADER_SIZE + payload_length + LG_CCSDS_PROFILE_CRC_SIZE in
        let total_length := CCSDS_SPACE_PACKET_PRIMARY_HEADER_SIZE + data_length in
        if output_capacity <? total_length
        then (CCSDS_ERROR_BUFFER_TOO_SMALL, output, output_length)
        else
          match validate_content content item_count comp payload_length with
          | CCSDS_OK =>
              match route_for_content content (Some 0) (Some 0) with
              | (CCSDS_OK, Some apid, Some packet_type) =>
                  let packet_header :=
                    {| h_type := packet_type; h_has_secondary_header := true;
                       h_apid := apid; h_sequence_flags := CCSDS_SEQUENCE_UNSEGMENTED;
                       h_sequence_count := sequence_count |} in
                  match ccsds_space_packet_write_header (Some packet_header) data_length
                          output output_capacity with
                  | (CCSDS_OK, Some out) =>
                      let out := patch out CCSDS_SPACE_PACKET_PRIMARY_HEADER_SIZE
                        (profile_header_bytes content item_count comp payload_length) in
                      let out := patch out
                        (CCSDS_SPACE_PACKET_PRIMARY_HEADER_SIZE + LG_CCSDS_PROFILE_HEADER_SIZE)
                        (prefix_of payload_length p) in
                      let crc :=
                        ccsds_crc32 (Some out) (total_length - LG_CCSDS_PROFILE_CRC_SIZE) in
                      let out :=
                        write_u32_be out (total_length - LG_CCSDS_PROFILE_CRC_SIZE) crc in
                      (CCSDS_OK, Some out, Some total_length)
                  | (status, output') => (status, output', output_length)
                  end
              | (status, _, _) => (status, output, output_length)
              end
          | status => (status, output, output_length)
          end
  | _, _, _ => (CCSDS_ERROR_NULL, output, output_length)
  end.

(** The configuration is stored field by field before it is validated. *)
Definition parse_compression_config (profile_header : list Z) (config : ccsds_121_config_t)
    : ccsds_status_t * ccsds_121_config_t :=
  if negb (Z.land (byte_at profile_header 2) (u8 (Z.lnot PROFILE_KNOWN_FLAGS)) =? 0)
     || negb (byte_at profile_header 7 =? 0)
  then (CCSDS_ERROR_INVALID_FORMAT, config)
  else
    let config :=
      {| bits_per_sample := byte_at profile_header 3;
         block_size := byte_at profile_header 4;
         reference_sample_interval := read_u16_be (skip 5 profile_header);
         signed_samples := negb (Z.land (byte_at profile_header 2) PROFILE_FLAG_SIGNED =? 0);
         preprocess := negb (Z.land (byte_at profile_header 2) PROFILE_FLAG_PREPROCESS =? 0);
         restricted_code_options :=
           negb (Z.land (byte_at profile_header 2) PROFILE_FLAG_RESTRICTED =? 0) |} in
    (ccsds_121_validate_config (Some config), config).

Definition zero_config : ccsds_121_config_t := mk_config 0 0 0 false false false.

(** Lines 272 to 283: the compression fields of an accepted header, or the error. *)
Definition parse_compression_fields (profile_header : list Z) (content : Z)
    : ccsds_status_t * ccsds_121_config_t * option ccsds_121_config_t :=
  if content =? LG_CCSDS_CONTENT_COMPRESSED_TELEMETRY
  then
    match parse_compression_config profile_header zero_config with
    | (CCSDS_OK, config) => (CCSDS_OK, config, Some config)
    | (CCSDS_ERROR_RANGE, config) => (CCSDS_ERROR_INVALID_FORMAT, config, None)
    | (status, config) => (status, config, None)
    end
  else if negb (byte_at profile_header 2 =? 0) || negb (byte_at profile_header 3 =? 0)
       || negb (byte_at profile_header 4 =? 0) || negb (byte_at profile_header 5 =? 0)
       || negb (byte_at profile_header 6 =? 0)
  then (CCSDS_ERROR_INVALID_FORMAT, zero_config, None)
  else (CCSDS_OK, zero_config, None).

Definition lg_ccsds_profile_parse (packet : option (list Z)) (packet_length : Z)
    (view : option lg_ccsds_profile_view_t)
    : ccsds_status_t * option lg_ccsds_profile_view_t :=
  match packet, view with
  | Some pkt, Some _ =>
      let uninitialised := mk_view (mk_header 0 false 0 0 0) [] 0 0 in
      match ccsds_space_packet_parse packet packet_length (Some uninitialised) with
      | (CCSDS_OK, Some sp) =>
          if negb (v_total_length sp =? packet_length)
             || negb (h_has_secondary_header (v_header sp))
             || negb (h_sequence_flags (v_header sp) =? CCSDS_SEQUENCE_UNSEGMENTED)
             || (v_data_length sp <? LG_CCSDS_PROFILE_HEADER_SIZE + LG_CCSDS_PROFILE_CRC_SIZE)
          then (CCSDS_ERROR_INVALID_FORMAT, view)
          else
            let transmitted_crc :=
              read_u32_be (skip (packet_length - LG_CCSDS_PROFILE_CRC_SIZE) pkt) in
            let calculated_crc :=
              ccsds_crc32 packet (packet_length - LG_CCSDS_PROFILE_CRC_SIZE) in
            if negb (transmitted_crc =? calculated_crc)
            then (CCSDS_ERROR_CRC, view)
            else
              let profile_header := v_data sp in
              if negb (byte_at profile_header 0 =? LG_CCSDS_PROFILE_VERSION)
              then (CCSDS_ERROR_UNSUPPORTED, view)
              else if negb (byte_at profile_header 7 =? 0)
              then (CCSDS_ERROR_INVALID_FORMAT, view)
              else
                let content := byte_at profile_header 1 in
                match route_for_content content (Some 0) (Some 0) with
                | (CCSDS_OK, Some expected_apid, Some expected_packet_type) =>
                    if negb (h_apid (v_header sp) =? expected_apid)
                       || negb (h_type (v_header sp) =? expected_packet_type)
                    then (CCSDS_ERROR_INVALID_FORMAT, view)
                    else
                      let pl := read_u32_be (skip 12 profile_header) in
                      if negb (pl =? v_data_length sp - LG_CCSDS_PROFILE_HEADER_SIZE
                                     - LG_CCSDS_PROFILE_CRC_SIZE)
                      then (CCSDS_ERROR_INVALID_FORMAT, view)
                      else
                        match parse_compression_fields profile_header content with
                        | (CCSDS_OK, comp, comp_ptr) =>
                            match validate_content content
                                    (read_u32_be (skip 8 profile_header)) comp_ptr pl with
                            | CCSDS_OK =>
                                (CCSDS_OK,
                                 Some
                                   {| space_packet := sp;
                                      metadata :=
                                        {| content_type := content;
                                           sequence_count := h_sequence_count (v_header sp);
                                           item_count := read_u32_be (skip 8 profile_header);
                                           compression := comp |};
                                      payload := skip LG_CCSDS_PROFILE_HEADER_SIZE profile_header;
                                      payload_length := pl;
                                      crc32 := transmitted_crc |})
                            | _ => (CCSDS_ERROR_INVALID_FORMAT, view)
                            end
                        | (status, _, _) => (status, view)
                        end
                | (status, _, _) => (status, view)
                end
      | (status, _) => (status, view)
      end
  | _, _ => (CCSDS_ERROR_NULL, view)
  end.

Definition lg_ccsds_content_type_name (content : Z) : string :=
  if content =? LG_CCSDS_CONTENT_RAW_TELEMETRY then "raw telemetry"%string
  else if content =? LG_CCSDS_CONTENT_COMPRESSED_TELEMETRY
  then "CCSDS 121 compressed telemetry"%string
  else if content =? LG_CCSDS_CONTENT_SSDV then "SSDV image packet"%string
  else if content =? LG_CCSDS_CONTENT_COMMAND then "command"%string
  else "unknown"%string.

(** ** The packet as a list of bytes *)

Definition be32_bytes (v : Z) : list Z :=
  [u8 (Z.shiftr v 24); u8 (Z.shiftr v 16); u8 (Z.shiftr v 8); u8 v].

Definition apid_of (content : Z) : Z :=
  if content =? 0 then 0x001 else if content =? 1 then 0x002
  else if content =? 2 then 0x003 else 0x100.

Definition type_of (content : Z) : Z := if content =? 3 then 1 else 0.

Definition packet_header (content seq : Z) : ccsds_space_packet_header_t :=
  mk_header (type_of content) true (apid_of content) 3 seq.

Definition packet_body (content seq ic : Z) (comp : option ccsds_121_config_t)
    (p : list Z) (n : Z) : list Z :=
  primary_header_bytes (packet_header content seq) (20 + n)
  ++ profile_header_bytes content ic comp n ++ prefix_of n p.

Definition packet_bytes (content seq ic : Z) (comp : option ccsds_121_config_t)
    (p : list Z) (n : Z) : list Z :=
  let body := packet_body content seq ic comp p n in
  body ++ be32_bytes (ccsds_crc32 (Some body) (len body)).

Definition config_bytes (comp : option ccsds_121_config_t) : list Z :=
  match comp with
  | Some c => [config_flags c; bits_per_sample c; block_size c;
               u8 (Z.shiftr (reference_sample_interval c) 8); u8 (reference_sample_interval c)]
  | None => [0; 0; 0; 0; 0]
  end.

Lemma profile_header_explicit content ic comp n :
  profile_header_bytes content ic comp n
  = [1; u8 content] ++ config_bytes comp ++ [0] ++ be32_bytes ic ++ be32_bytes (u32 n).
Proof. by destruct comp. Qed.

Lemma len_profile_header content ic comp n : len (profile_header_bytes content ic comp n) = 16.
Proof. rewrite profile_header_explicit. by destruct comp. Qed.

Lemma len_packet_body content seq ic comp p n :
  0 <= n <= len p -> len (packet_body content seq ic comp p n) = 22 + n.
Proof.
  intros. unfold packet_body.
  rewrite !len_app, len_primary_header, len_profile_header, len_prefix_of; lia.
Qed.

Lemma len_packet_bytes content seq ic comp p n :
  0 <= n <= len p -> len (packet_bytes content seq ic comp p n) = 26 + n.
Proof.
  intros. unfold packet_bytes. rewrite len_app, len_packet_body by done.
  change (len (be32_bytes _)) with 4. lia.
Qed.

Lemma read_u32_be_bytes v rest :
  0 <= v < 4294967296 -> read_u32_be (be32_bytes v ++ rest) = v.
Proof.
  intros. unfold read_u32_be, be32_bytes. read_bytes. by apply be32_round.
Qed.

Lemma be32_bytes_read l :
  bytes_ok l -> 4 <= len l -> be32_bytes (read_u32_be l) = prefix_of 4 l.
Proof.
  intros Hb Hl. destruct l as [|a [|b [|c [|d rest]]]];
    try (rewrite ?len_cons, ?len_nil in Hl; lia).
  repeat match goal with H : bytes_ok (_ :: _) |- _ => inversion H; subst; clear H end.
  change (prefix_of 4 _) with [a; b; c; d]. unfold read_u32_be. read_bytes.
  rewrite be32_value by done. unfold be32_bytes. rewrite !shiftr_div by lia.
  change (2 ^ 24) with 16777216. change (2 ^ 16) with 65536. change (2 ^ 8) with 256.
  repeat (apply (f_equal2 cons); [zlia|]). done.
Qed.

Lemma read_u32_be_ok l : bytes_ok l -> 0 <= read_u32_be l < 4294967296.
Proof.
  intros. unfold read_u32_be. rewrite be32_value by auto with flight.
  pose proof (byte_at_ok l 0 H). pose proof (byte_at_ok l 1 H).
  pose proof (byte_at_ok l 2 H). pose proof (byte_at_ok l 3 H). zlia.
Qed.

Lemma be32_bytes_ok v : bytes_ok (be32_bytes v).
Proof. unfold be32_bytes. repeat constructor; apply bytes_ok_u8. Qed.
#[export] Hint Resolve be32_bytes_ok : flight.

(** ** Routing and content checks *)

Lemma route_for_content_ok content st a t :
  route_for_content content (Some 0) (Some 0) = (st, a, t) ->
  st = CCSDS_OK ->
  0 <= content <= 3 /\ a = Some (apid_of content) /\ t = Some (type_of content).
Proof.
  unfold route_for_content, LG_CCSDS_CONTENT_RAW_TELEMETRY,
    LG_CCSDS_CONTENT_COMPRESSED_TELEMETRY, LG_CCSDS_CONTENT_SSDV, LG_CCSDS_CONTENT_COMMAND.
  intros H ->. split_ifs_in H; inversion H; subst; bool_facts; subst; (split; [lia|done]).
Qed.

Lemma route_for_content_known content :
  0 <= content <= 3 ->
  route_for_content content (Some 0) (Some 0)
  = (CCSDS_OK, Some (apid_of content), Some (type_of content)).
Proof.
  intros. assert (content = 0 \/ content = 1 \/ content = 2 \/ content = 3)
    as [-> | [-> | [-> | ->]]] by lia; done.
Qed.

Lemma validate_content_known content ic comp n :
  validate_content content ic comp n = CCSDS_OK -> 0 <= content <= 3.
Proof.
  unfold validate_content. destruct (route_for_content _ _ _) as [[st a] t] eqn:E.
  intros H. apply (route_for_content_ok _ _ _ _ E). destruct st; done.
Qed.

Lemma packet_header_ok content seq :
  0 <= content <= 3 -> 0 <= seq <= 0x3FFF -> header_ok (packet_header content seq).
Proof.
  intros Hc Hs. unfold header_ok, packet_header, type_of, apid_of.
  cbn [h_type h_apid h_sequence_flags h_sequence_count].
  split_ifs; lia.
Qed.

(** ** Building *)

Lemma profile_build_success content seq ic comp p n out cap ol :
  validate_content content ic comp n = CCSDS_OK -> 0 <= seq <= 0x3FFF ->
  0 <= n <= 65516 -> n <= len p -> 26 + n <= cap ->
  lg_ccsds_profile_build content seq ic comp (Some p) n (Some out) cap (Some ol)
  = (CCSDS_OK, Some (packet_bytes content seq ic comp p n ++ skip (26 + n) out),
     Some (26 + n)).
Proof.
  intros Hv Hs Hn Hp Hc.
  pose proof (validate_content_known _ _ _ _ Hv) as Hk.
  unfold lg_ccsds_profile_build, LG_CCSDS_PROFILE_MAX_PAYLOAD_SIZE,
    CCSDS_SPACE_PACKET_MAX_SEQUENCE_COUNT, CCSDS_SPACE_PACKET_PRIMARY_HEADER_SIZE,
    CCSDS_SPACE_PACKET_MAX_DATA_SIZE, LG_CCSDS_PROFILE_HEADER_SIZE, LG_CCSDS_PROFILE_CRC_SIZE.
  rewrite !(proj2 (Z.ltb_ge _ _)) by lia. cbn [orb].
  rewrite Hv, route_for_content_known by done.
  replace (16 + n + 4) with (20 + n) by lia.
  change {| h_type := type_of content; h_has_secondary_header := true;
            h_apid := apid_of content; h_sequence_flags := CCSDS_SEQUENCE_UNSEGMENTED;
            h_sequence_count := seq |} with (packet_header content seq).
  rewrite write_header_success by (by apply packet_header_ok || lia).
  rewrite patch_front by done. rewrite len_profile_header.
  rewrite patch_front by (by rewrite len_app, len_profile_header).
  rewrite len_prefix_of, !skip_skip, <- !app_assoc by lia.
  set (body := packet_body content seq ic comp p n).
  assert (len body = 22 + n) as Hlb by (apply len_packet_body; lia).
  replace (6 + (16 + n)) with (22 + n) by lia.
  replace (primary_header_bytes _ _ ++ profile_header_bytes _ _ _ _ ++ prefix_of n p ++ skip _ out)
    with (body ++ skip (22 + n) out)
    by (unfold body, packet_body; rewrite <- !app_assoc; done).
  replace (6 + (20 + n) - 4) with (22 + n) by lia.
  unfold write_u32_be. rewrite patch_front by done.
  rewrite ccsds_crc32_prefix by (rewrite len_app; pose proof (len_nonneg (skip (22 + n) out)); lia).
  rewrite prefix_of_app by done. fold (be32_bytes (ccsds_crc32 (Some body) (len body))).
  change (len (be32_bytes _)) with 4. rewrite skip_skip by lia.
  replace (22 + n + 4) with (26 + n) by lia. replace (6 + (20 + n)) with (26 + n) by lia. done.
Qed.

(** ** Parsing what was built *)

Definition config_representable (comp : option ccsds_121_config_t) : Prop :=
  match comp with
  | Some c => byte_ok (bits_per_sample c) /\ byte_ok (block_size c)
              /\ 0 <= reference_sample_interval c < 65536
  | None => True
  end.

Lemma config_flags_ok c : byte_ok (config_flags c).
Proof.
  destruct c as [? ? ? sg pp rs]. unfold config_flags.
  cbn [signed_samples preprocess restricted_code_options].
  destruct sg, pp, rs; split; vm_compute; congruence.
Qed.

Lemma config_bytes_ok comp : config_representable comp -> bytes_ok (config_bytes comp).
Proof.
  intros H. destruct comp as [c|]; cbn [config_bytes].
  - destruct H as (? & ? & ?).
    solve_bytes_ok. apply config_flags_ok.
  - solve_bytes_ok.
Qed.

Lemma config_bytes_round c rest :
  0 <= reference_sample_interval c < 65536 ->
  ccsds_121_validate_config (Some c) = CCSDS_OK ->
  forall h0 h1, parse_compression_config ([h0; h1] ++ config_bytes (Some c) ++ [0] ++ rest) zero_config
  = (CCSDS_OK, c).
Proof.
  intros Hr Hv h0 h1. unfold parse_compression_config, read_u16_be. cbn [config_bytes].
  change (skip 5 ([h0; h1] ++ _ ++ [0] ++ rest))
    with (u8 (Z.shiftr (reference_sample_interval c) 8)
          :: u8 (reference_sample_interval c) :: 0 :: rest).
  read_bytes. rewrite be16_round by done. unfold u16. rewrite Z.mod_small by done.
  destruct c as [bps bs rsi sg pp rs]; cbn [bits_per_sample block_size
    reference_sample_interval signed_samples preprocess restricted_code_options] in *.
  assert (mk_config bps bs rsi
    (negb (Z.land (config_flags (mk_config bps bs rsi sg pp rs)) PROFILE_FLAG_SIGNED =? 0))
    (negb (Z.land (config_flags (mk_config bps bs rsi sg pp rs)) PROFILE_FLAG_PREPROCESS =? 0))
    (negb (Z.land (config_flags (mk_config bps bs rsi sg pp rs)) PROFILE_FLAG_RESTRICTED =? 0))
    = mk_config bps bs rsi sg pp rs) as -> by (by destruct sg, pp, rs).
  rewrite Hv. by destruct sg, pp, rs.
Qed.

Definition config_or_zero (comp : option ccsds_121_config_t) : ccsds_121_config_t :=
  default zero_config comp.

Lemma parse_compression_fields_round content ic comp n rest :
  validate_content content ic comp n = CCSDS_OK -> config_representable comp ->
  parse_compression_fields (profile_header_bytes content ic comp n ++ rest) content
  = (CCSDS_OK, config_or_zero comp, comp).
Proof.
  intros Hv Hc. pose proof (validate_content_known _ _ _ _ Hv) as Hk.
  unfold validate_content in Hv. rewrite route_for_content_known in Hv by done.
  unfold parse_compression_fields. rewrite profile_header_explicit.
  unfold LG_CCSDS_CONTENT_COMPRESSED_TELEMETRY in *.
  destruct (content =? 1) eqn:E1, comp as [c|]; try done.
  - destruct (_ || _); [done|]. rewrite <- !app_assoc.
    rewrite config_bytes_round by (done || apply Hc). done.
Qed.

(** The fields the parser reads, out of the header the writer laid out. *)
Lemma profile_header_reads content ic comp n rest :
  0 <= content < 256 -> 0 <= n < 4294967296 ->
  let ph := profile_header_bytes content ic comp n ++ rest in
  byte_at ph 0 = 1 /\ byte_at ph 1 = content /\ byte_at ph 7 = 0
  /\ skip 12 ph = be32_bytes n ++ rest
  /\ skip 8 ph = be32_bytes ic ++ be32_bytes n ++ rest
  /\ skip 16 ph = rest.
Proof.
  intros Hc Hn ph. subst ph. rewrite profile_header_explicit.
  replace (u8 content) with content by zlia. replace (u32 n) with n by zlia.
  by destruct comp.
Qed.

Lemma parse_packet_bytes content seq ic comp p n rest v0 :
  validate_content content ic comp n = CCSDS_OK -> config_representable comp ->
  0 <= seq <= 0x3FFF -> 0 <= ic < 4294967296 -> 0 <= n <= 65516 -> n <= len p ->
  bytes_ok p ->
  exists v,
    lg_ccsds_profile_parse (Some (packet_bytes content seq ic comp p n ++ rest)) (26 + n)
      (Some v0) = (CCSDS_OK, Some v)
    /\ metadata v = mk_metadata content seq ic (config_or_zero comp)
    /\ payload_length v = n /\ prefix_of n (payload v) = prefix_of n p
    /\ crc32 v = ccsds_crc32 (Some (packet_body content seq ic comp p n)) (22 + n).
Proof.
  intros Hv Hc Hs Hi Hn Hp Hb. pose proof (validate_content_known _ _ _ _ Hv) as Hk.
  set (body := packet_body content seq ic comp p n).
  assert (len body = 22 + n) as Hlb by (apply len_packet_body; lia).
  set (crc := ccsds_crc32 (Some body) (len body)).
  assert (0 <= crc < 4294967296) as Hcrc.
  { apply ccsds_crc32_ok. unfold body, packet_body. rewrite profile_header_explicit.
    rewrite !Forall_app. split_and!; auto with flight.
    - solve_bytes_ok.
    - by apply config_bytes_ok.
    - solve_bytes_ok. }
  set (tail := prefix_of n p ++ be32_bytes crc ++ rest).
  replace (packet_bytes content seq ic comp p n ++ rest)
    with (primary_header_bytes (packet_header content seq) (20 + n)
          ++ profile_header_bytes content ic comp n ++ tail)
    by (unfold packet_bytes, tail; cbv zeta; unfold body, packet_body;
        rewrite <- !app_assoc; done).
  unfold lg_ccsds_profile_parse.
  rewrite parse_built by (by apply packet_header_ok || lia).
  cbn [v_total_length v_header v_data_length v_data packet_header
       h_has_secondary_header h_sequence_flags h_apid h_type h_sequence_count].
  unfold CCSDS_SEQUENCE_UNSEGMENTED, LG_CCSDS_PROFILE_HEADER_SIZE, LG_CCSDS_PROFILE_CRC_SIZE.
  change (16 + 4) with 20. rewrite (proj2 (Z.eqb_eq (6 + (20 + n)) (26 + n))), (proj2 (Z.ltb_ge (20 + n) 20)) by lia.
  cbn [negb orb Z.eqb Pos.eqb].
  replace (26 + n - 4) with (22 + n) by lia.
  assert (skip (22 + n) (primary_header_bytes (packet_header content seq) (20 + n)
          ++ profile_header_bytes content ic comp n ++ tail) = be32_bytes crc ++ rest) as ->.
  { unfold tail. rewrite !app_assoc. rewrite <- (app_assoc _ (be32_bytes crc)).
    rewrite <- (app_assoc _ (profile_header_bytes _ _ _ _)). by apply skip_app. }
  rewrite read_u32_be_bytes by done.
  rewrite ccsds_crc32_prefix
    by (unfold tail; rewrite !len_app, len_primary_header, len_profile_header, len_prefix_of by lia;
        pose proof (len_nonneg (be32_bytes crc)); pose proof (len_nonneg rest); lia).
  assert (prefix_of (22 + n) (primary_header_bytes (packet_header content seq) (20 + n)
          ++ profile_header_bytes content ic comp n ++ tail) = body) as ->.
  { unfold tail. rewrite !app_assoc. rewrite <- (app_assoc _ (be32_bytes crc)).
    rewrite <- (app_assoc _ (profile_header_bytes _ _ _ _)). by apply prefix_of_app. }
  fold crc. rewrite Z.eqb_refl. cbn [negb].
  destruct (profile_header_reads content ic comp n tail) as (-> & -> & -> & -> & -> & ->);
    [lia..|].
  rewrite parse_compression_fields_round by done.
  rewrite !read_u32_be_bytes, route_for_content_known by lia.
  unfold LG_CCSDS_PROFILE_VERSION. rewrite !Z.eqb_refl.
  replace (20 + n - 16 - 4) with n by lia. rewrite Z.eqb_refl. cbn [negb orb Z.eqb].
  rewrite Hv. eexists. split; [done|]. cbn [metadata payload_length payload crc32].
  split_and!; [done|done| |].
  - unfold tail. apply prefix_of_app. by rewrite len_prefix_of by lia.
  - unfold crc. by rewrite Hlb.
Qed.

(** ** What an accepted packet is *)

Definition view_compression (v : lg_ccsds_profile_view_t) : option ccsds_121_config_t :=
  if content_type (metadata v) =? 1 then Some (compression (metadata v)) else None.

Lemma config_flags_parsed b :
  byte_ok b -> Z.land b 0xF8 = 0 ->
  forall bps bs rsi,
  config_flags (mk_config bps bs rsi
    (negb (Z.land b PROFILE_FLAG_SIGNED =? 0))
    (negb (Z.land b PROFILE_FLAG_PREPROCESS =? 0))
    (negb (Z.land b PROFILE_FLAG_RESTRICTED =? 0))) = b.
Proof.
  intros Hb Hz bps bs rsi.
  apply (byte_cases (fun b => negb (Z.land b 0xF8 =? 0) ||
    (config_flags (mk_config 0 0 0 (negb (Z.land b PROFILE_FLAG_SIGNED =? 0))
      (negb (Z.land b PROFILE_FLAG_PREPROCESS =? 0))
      (negb (Z.land b PROFILE_FLAG_RESTRICTED =? 0))) =? b))) in Hb;
    [|vm_compute; reflexivity].
  rewrite Hz in Hb. apply Z.eqb_eq in Hb. exact Hb.
Qed.

(** The five configuration bytes of an accepted header are those of the parsed
    configuration. *)
Lemma parse_compression_fields_canonical ph content comp ptr :
  bytes_ok ph -> parse_compression_fields ph content = (CCSDS_OK, comp, ptr) ->
  comp = config_or_zero ptr /\ ptr = (if content =? 1 then Some comp else None)
  /\ config_bytes ptr
     = [byte_at ph 2; byte_at ph 3; byte_at ph 4; byte_at ph 5; byte_at ph 6].
Proof.
  intros Hb. unfold parse_compression_fields, parse_compression_config,
    LG_CCSDS_CONTENT_COMPRESSED_TELEMETRY.
  change (u8 (Z.lnot PROFILE_KNOWN_FLAGS)) with 0xF8.
  destruct (content =? 1) eqn:E1.
  - destruct (_ || _) eqn:Ef; [done|]. bool_facts.
    destruct (ccsds_121_validate_config _); try done. intros [= <- <-].
    split_and!; [done|done|]. cbn [config_bytes reference_sample_interval bits_per_sample block_size].
    rewrite config_flags_parsed by auto with flight. unfold read_u16_be.
    rewrite !byte_at_skip by lia. change (5 + 0) with 5. change (5 + 1) with 6.
    rewrite be16_value by auto with flight.
    pose proof (byte_at_ok ph 5 Hb). pose proof (byte_at_ok ph 6 Hb).
    unfold u16. rewrite Z.mod_small by zlia. rewrite shiftr_div by lia. change (2 ^ 8) with 256.
    repeat (apply (f_equal2 cons); [zlia|]). done.
  - destruct (_ || _) eqn:Ef; [done|]. intros [= <- <-]. bool_facts.
    split_and!; [done..|]. cbn [config_bytes]. congruence.
Qed.

Lemma profile_header_canonical ph content ic comp ptr n :
  bytes_ok ph -> 16 <= len ph ->
  byte_at ph 0 = 1 -> byte_at ph 7 = 0 -> content = byte_at ph 1 ->
  ic = read_u32_be (skip 8 ph) -> n = read_u32_be (skip 12 ph) ->
  parse_compression_fields ph content = (CCSDS_OK, comp, ptr) ->
  profile_header_bytes content ic ptr n = prefix_of 16 ph.
Proof.
  intros Hb Hl H0 H7 -> -> -> Hc.
  destruct (parse_compression_fields_canonical _ _ _ _ Hb Hc) as (_ & _ & Hcb).
  rewrite profile_header_explicit, Hcb.
  pose proof (read_u32_be_ok (skip 12 ph) ltac:(auto with flight)).
  replace (u32 (read_u32_be (skip 12 ph))) with (read_u32_be (skip 12 ph)) by zlia.
  rewrite u8_byte by auto with flight.
  rewrite !be32_bytes_read by (auto with flight || (rewrite len_skip; lia)).
  rewrite !bytes_explicit by (rewrite ?len_skip; lia).
  change (seqZ 0 16) with [0; 1; 2; 3; 4; 5; 6; 7; 8; 9; 10; 11; 12; 13; 14; 15].
  change (seqZ 0 4) with [0; 1; 2; 3]. cbn [map app].
  rewrite !byte_at_skip by lia. cbn [Z.add Pos.add Pos.succ]. by rewrite H0, H7.
Qed.

Record accepted (pkt : list Z) (pn : Z) (v : lg_ccsds_profile_view_t) : Prop := {
  acc_content : validate_content (content_type (metadata v)) (item_count (metadata v))
                  (view_compression v) (payload_length v) = CCSDS_OK;
  acc_seq : 0 <= sequence_count (metadata v) <= 0x3FFF;
  acc_items : 0 <= item_count (metadata v) < 4294967296;
  acc_length : 0 <= payload_length v <= 65516 /\ pn = 26 + payload_length v;
  acc_config : compression (metadata v) = config_or_zero (view_compression v);
  acc_payload : payload v = skip 22 pkt;
  acc_crc : read_u32_be (skip (pn - 4) pkt) = ccsds_crc32 (Some pkt) (pn - 4);
  acc_bytes :
    prefix_of pn pkt
    = packet_bytes (content_type (metadata v)) (sequence_count (metadata v))
        (item_count (metadata v)) (view_compression v) (payload v) (payload_length v);
  acc_representable : config_representable (view_compression v)
}.

Lemma parse_compression_fields_representable ph content comp ptr :
  bytes_ok ph -> parse_compression_fields ph content = (CCSDS_OK, comp, ptr) ->
  config_representable ptr.
Proof.
  intros Hb. unfold parse_compression_fields, parse_compression_config.
  case_if as E1; case_if as E2; try done; [|by intros [= _ <-]].
  destruct (ccsds_121_validate_config _); try done.
  intros [= _ <-]. cbn [config_representable bits_per_sample block_size reference_sample_interval].
  do 2 (split; [auto with flight|]). unfold read_u16_be, u16. apply Z.mod_pos_bound. lia.
Qed.

(** Gluing the parts of an accepted packet. *)
Lemma packet_prefix_split (pkt : list Z) n :
  0 <= n -> 26 + n <= len pkt ->
  prefix_of (26 + n) pkt
  = (prefix_of 6 pkt ++ prefix_of 16 (skip 6 pkt) ++ prefix_of n (skip 22 pkt))
    ++ prefix_of 4 (skip (22 + n) pkt)
  /\ prefix_of (22 + n) pkt
     = prefix_of 6 pkt ++ prefix_of 16 (skip 6 pkt) ++ prefix_of n (skip 22 pkt).
Proof.
  intros Hn Hl.
  assert (prefix_of (22 + n) pkt
     = prefix_of 6 pkt ++ prefix_of 16 (skip 6 pkt) ++ prefix_of n (skip 22 pkt)) as E.
  { rewrite (prefix_of_skip_split 22 n), (prefix_of_skip_split 6 16) by lia.
    by rewrite <- app_assoc. }
  split; [|done]. rewrite <- E. rewrite <- prefix_of_skip_split by lia. f_equal. lia.
Qed.

Lemma parse_profile_accepts pkt pn v0 v :
  bytes_ok pkt -> pn <= len pkt ->
  lg_ccsds_profile_parse (Some pkt) pn (Some v0) = (CCSDS_OK, Some v) ->
  accepted pkt pn v.
Proof.
  intros Hb Hpn. unfold lg_ccsds_profile_parse.
  destruct (ccsds_space_packet_parse _ _ _) as [[] [sp|]] eqn:Esp; try done;
    [|by apply parse_keeps_view in Esp].
  destruct (parse_accepts _ _ _ _ Hb Hpn Esp) as (Hh & Hdl & Htl & Htn & Hd & Hhdr).
  clear Esp. unfold CCSDS_SEQUENCE_UNSEGMENTED, LG_CCSDS_PROFILE_HEADER_SIZE,
    LG_CCSDS_PROFILE_CRC_SIZE, LG_CCSDS_PROFILE_VERSION.
  case_if as E1; [done|]. bool_facts. cbv zeta.
  case_if as Ecrc; [done|]. case_if as Ever; [done|]. case_if as E7; [done|]. bool_facts.
  destruct (route_for_content _ _ _) as [[st ap] ty] eqn:Er.
  destruct (decide (st = CCSDS_OK)) as [->|Hst]; [|by destruct st].
  destruct (route_for_content_ok _ _ _ _ Er eq_refl) as (Hk & -> & ->).
  case_if as Eid; [done|]. case_if as Elen; [done|].
  destruct (parse_compression_fields _ _) as [[[] comp] ptr] eqn:Ec; try done.
  destruct (validate_content _ _ _ _) eqn:Ev; try done. intros [= <-]. bool_facts.
  rewrite Hd in *. set (n := read_u32_be (skip 12 (skip 6 pkt))) in *.
  set (ct := byte_at (skip 6 pkt) 1) in *.
  assert (v_data_length sp = 20 + n) as Hn by lia. rewrite Hn in *.
  assert (pn = 26 + n) as -> by lia.
  assert (bytes_ok (skip 6 pkt)) as Hb6 by auto with flight.
  destruct (parse_compression_fields_canonical _ _ _ _ Hb6 Ec) as (Hcomp & Hptr & _).
  assert (Hph := profile_header_canonical (skip 6 pkt) ct _ comp ptr n Hb6
    ltac:(rewrite len_skip; lia) ltac:(done) ltac:(done) eq_refl eq_refl eq_refl Ec).
  assert (v_header sp = packet_header ct (h_sequence_count (v_header sp))) as Hhd.
  { unfold packet_header. destruct (v_header sp); cbn in *. congruence. }
  destruct (packet_prefix_split pkt n) as [Hsplit Hbody]; [lia..|].
  split; cbn [metadata content_type sequence_count item_count compression payload
    payload_length view_compression]; unfold view_compression;
    cbn [metadata content_type compression]; fold ct; rewrite <- ?Hptr.
  - done.
  - apply Hh.
  - apply read_u32_be_ok. auto with flight.
  - lia.
  - done.
  - by rewrite skip_skip by lia.
  - done.
  - rewrite Hsplit. unfold packet_bytes, packet_body. cbv zeta.
    rewrite (skip_skip 16 6) by lia. change (6 + 16) with 22.
    rewrite <- Hhd, Hhdr, Hph. f_equal.
    rewrite <- Hbody, <- ccsds_crc32_prefix by lia.
    replace (22 + n) with (26 + n - 4) by lia. rewrite <- Ecrc.
    symmetry. apply be32_bytes_read; [auto with flight|rewrite len_skip; lia].
  - by eapply parse_compression_fields_representable.
Qed.

(** Whether a packet is accepted depends on its own bytes only. *)
Lemma parse_profile_local l l' n v0 v :
  bytes_ok l -> bytes_ok l' -> n <= len l -> prefix_of n l' = prefix_of n l ->
  lg_ccsds_profile_parse (Some l) n (Some v0) = (CCSDS_OK, Some v) ->
  exists v', lg_ccsds_profile_parse (Some l') n (Some v0) = (CCSDS_OK, Some v').
Proof.
  intros Hl Hl' Hnl El Hp.
  destruct (parse_profile_accepts _ _ _ _ Hl Hnl Hp) as [Hc Hs Hi [Hpl Hpn] _ Hpay _ Hbytes Hcr].
  rewrite Hbytes in El. rewrite <- (prefix_skip n l'), El, Hpn.
  assert (payload_length v <= len (payload v)) by (rewrite Hpay, len_skip; lia).
  destruct (parse_packet_bytes (content_type (metadata v)) (sequence_count (metadata v))
    (item_count (metadata v)) (view_compression v) (payload v) (payload_length v)
    (skip (26 + payload_length v) l') v0) as (v' & Hv & _); try done.
  - rewrite Hpay. auto with flight.
  - by exists v'.
Qed.

(** ** Corruption *)

(** The trailer of an accepted packet is the CRC of what precedes it. *)
Lemma accepted_trailer body trailer v0 v :
  bytes_ok (body ++ trailer) -> len trailer = 4 ->
  lg_ccsds_profile_parse (Some (body ++ trailer)) (len (body ++ trailer)) (Some v0)
  = (CCSDS_OK, Some v) ->
  trailer = be32_bytes (ccsds_crc32 (Some body) (len body)).
Proof.
  intros Hb Ht Hp. pose proof (acc_crc _ _ _ (parse_profile_accepts _ _ _ _ Hb ltac:(done) Hp)) as Hc.
  rewrite len_app, Ht in Hc. replace (len body + 4 - 4) with (len body) in Hc by lia.
  pose proof (len_nonneg body).
  rewrite ccsds_crc32_prefix in Hc by (rewrite len_app; lia).
  rewrite prefix_of_app, skip_app in Hc by done. rewrite <- Hc.
  apply Forall_app in Hb as [_ Hb]. rewrite be32_bytes_read by (done || lia).
  symmetry. apply prefix_of_all. lia.
Qed.

Lemma parse_profile_none pkt n v0 st : 
  lg_ccsds_profile_parse (Some pkt) n (Some v0) = (st, None) -> False.
Proof.
  unfold lg_ccsds_profile_parse. intros H.
  repeat match type of H with
  | context [match ?x with _ => _ end] => destruct x; try discriminate H
  end.
Qed.

(** A packet built by [lg_ccsds_profile_build] from any valid content,
    sequence count, item count, compression configuration and payload is parsed
    by [lg_ccsds_profile_parse] back to exactly these: the metadata, the payload
    length and bytes, with the buffer behind the packet untouched. *)
Theorem profile_roundtrip content seq ic comp p n out cap ol v0 :
  validate_content content ic comp n = CCSDS_OK -> config_representable comp ->
  0 <= seq <= 0x3FFF -> 0 <= ic < 4294967296 -> 0 <= n <= 65516 -> n <= len p ->
  bytes_ok p -> 26 + n <= cap -> cap <= len out ->
  exists out' v,
    lg_ccsds_profile_build content seq ic comp (Some p) n (Some out) cap (Some ol)
      = (CCSDS_OK, Some out', Some (26 + n))
    /\ len out' = len out /\ skip (26 + n) out' = skip (26 + n) out
    /\ lg_ccsds_profile_parse (Some out') (26 + n) (Some v0) = (CCSDS_OK, Some v)
    /\ metadata v = mk_metadata content seq ic (config_or_zero comp)
    /\ payload_length v = n /\ prefix_of n (payload v) = prefix_of n p.
Proof.
  intros Hv Hc Hs Hi Hn Hp Hb Hcap Ho.
  destruct (parse_packet_bytes content seq ic comp p n (skip (26 + n) out) v0
              Hv Hc Hs Hi Hn Hp Hb) as (v & Hv' & Hm & Hl & Hpl & _).
  eexists _, v. split; [by apply profile_build_success|]. split_and!; [| |done..].
  - rewrite len_app, len_packet_bytes, len_skip by lia. lia.
  - apply skip_app. by rewrite len_packet_bytes by lia.
Qed.

Definition sample_config : ccsds_121_config_t := mk_config 16 32 128 true true false.
Definition sample_view : lg_ccsds_profile_view_t :=
  mk_profile_view (mk_view sample_header [] 0 0) (mk_metadata 0 0 0 zero_config) [] 0 0.

Lemma profile_roundtrip_witness :
  exists out' v,
    lg_ccsds_profile_build 1 77 5 (Some sample_config) (Some [1; 2; 3; 250]) 4
      (Some (zeros 40)) 40 (Some 0) = (CCSDS_OK, Some out', Some (26 + 4))
    /\ len out' = len (zeros 40) /\ skip (26 + 4) out' = skip (26 + 4) (zeros 40)
    /\ lg_ccsds_profile_parse (Some out') (26 + 4) (Some sample_view) = (CCSDS_OK, Some v)
    /\ metadata v = mk_metadata 1 77 5 (config_or_zero (Some sample_config))
    /\ payload_length v = 4 /\ prefix_of 4 (payload v) = prefix_of 4 [1; 2; 3; 250].
Proof.
  apply (profile_roundtrip 1 77 5 (Some sample_config) [1; 2; 3; 250] 4 (zeros 40) 40 0 sample_view);
    try lia.
  - reflexivity.
  - unfold config_representable, sample_config, byte_ok. cbn. lia.
  - unfold len. cbn. lia.
  - repeat constructor; unfold byte_ok; lia.
  - rewrite len_zeros; lia.
Defined.

(** [lg_ccsds_profile_parse] accepts only packets in the canonical form of
    [lg_ccsds_profile_build]: rebuilding a packet from the metadata and payload
    it returned gives back, byte for byte, the packet that was accepted. *)
Theorem profile_parse_canonical pkt pn v0 v out ol :
  bytes_ok pkt -> pn <= len pkt -> pn <= len out ->
  lg_ccsds_profile_parse (Some pkt) pn (Some v0) = (CCSDS_OK, Some v) ->
  lg_ccsds_profile_build (content_type (metadata v)) (sequence_count (metadata v))
    (item_count (metadata v)) (view_compression v) (Some (payload v)) (payload_length v)
    (Some out) (len out) (Some ol)
  = (CCSDS_OK, Some (prefix_of pn pkt ++ skip pn out), Some pn).
Proof.
  intros Hb Hn Ho Hp. destruct (parse_profile_accepts _ _ _ _ Hb Hn Hp).
  destruct acc_length0 as [Hl ->]. rewrite profile_build_success.
  - by rewrite acc_bytes0.
  - done.
  - done.
  - lia.
  - rewrite acc_payload0, len_skip by lia. lia.
  - lia.
Qed.

Definition sample_packet : list Z :=
  packet_bytes 3 9 1 None [80; 73; 78; 71] 4.

Lemma profile_parse_canonical_witness :
  exists v,
    lg_ccsds_profile_parse (Some sample_packet) 30 (Some sample_view) = (CCSDS_OK, Some v)
    /\ lg_ccsds_profile_build (content_type (metadata v)) (sequence_count (metadata v))
         (item_count (metadata v)) (view_compression v) (Some (payload v)) (payload_length v)
         (Some (zeros 64)) (len (zeros 64)) (Some 0)
       = (CCSDS_OK, Some (prefix_of 30 sample_packet ++ skip 30 (zeros 64)), Some 30).
Proof.
  eexists. split; [vm_compute; reflexivity|].
  eapply (profile_parse_canonical sample_packet 30 sample_view _ (zeros 64) 0).
  - apply bytes_ok_eval. vm_compute. reflexivity.
  - vm_compute. discriminate.
  - vm_compute. discriminate.
  - vm_compute. reflexivity.
Defined.

(** C12. A corrupted packet is rejected: if a packet is accepted, then no packet of
    the same length that differs from it only inside a window of at most four
    consecutive bytes, before the CRC field or inside it, is accepted. *)
Theorem profile_rejects_corruption pre w1 w2 suf v0 v :
  bytes_ok (pre ++ w1 ++ suf) -> bytes_ok w2 -> length w1 = length w2 ->
  (length w1 <= 4)%nat -> w1 <> w2 -> 4 <= len suf \/ len w1 + len suf <= 4 ->
  lg_ccsds_profile_parse (Some (pre ++ w1 ++ suf)) (len (pre ++ w1 ++ suf)) (Some v0)
    = (CCSDS_OK, Some v) ->
  fst (lg_ccsds_profile_parse (Some (pre ++ w2 ++ suf)) (len (pre ++ w2 ++ suf)) (Some v0))
    <> CCSDS_OK.
Proof.
  intros Hb H2 Hl H4 Hne Hpos Hp1 Hp2.
  destruct (lg_ccsds_profile_parse (Some (pre ++ w2 ++ suf)) _ _) as [st [v2|]] eqn:Ep2;
    [|by apply parse_profile_none in Ep2]. cbn [fst] in Hp2. subst st.
  assert (len w1 = len w2) as Hlw by (unfold len; lia).
  pose proof (proj1 (Forall_app _ _ _) Hb) as [Hbp Hbs].
  pose proof (proj1 (Forall_app _ _ _) Hbs) as [Hb1 Hbs'].
  destruct Hpos as [Hs|Hs].
  - set (k := len suf - 4). rewrite <- (prefix_skip k suf) in Hp1, Ep2, Hb.
    assert (len (skip k suf) = 4) as Ht by (rewrite len_skip; unfold k; lia).
    rewrite !app_assoc in Hp1, Ep2, Hb.
    assert (bytes_ok (((pre ++ w2) ++ prefix_of k suf) ++ skip k suf)) as Hb'
      by (rewrite !Forall_app; auto with flight).
    pose proof (accepted_trailer _ _ _ _ Hb Ht Hp1) as T1.
    pose proof (accepted_trailer _ _ _ _ Hb' Ht Ep2) as T2.
    rewrite T2 in T1. apply (f_equal (fun l => read_u32_be (l ++ []))) in T1.
    rewrite !read_u32_be_bytes in T1 by (apply ccsds_crc32_ok; rewrite !Forall_app; auto with flight).
    rewrite <- !app_assoc in T1.
    by apply (crc32_window_differs pre w1 w2 (prefix_of k suf)); auto with flight.
  - set (k := len pre - 4 + len w1 + len suf).
    destruct (decide (0 <= k)) as [Hk|Hk].
    + rewrite <- (prefix_skip k pre), <- !app_assoc in Hp1, Ep2, Hb.
      assert (len (skip k pre ++ w1 ++ suf) = 4) as Ht1
        by (rewrite !len_app, len_skip by lia; unfold k; lia).
      assert (len (skip k pre ++ w2 ++ suf) = 4) as Ht2
        by (rewrite !len_app, len_skip by lia; unfold k; lia).
      assert (bytes_ok (prefix_of k pre ++ skip k pre ++ w2 ++ suf)) as Hb'
        by (rewrite !Forall_app; auto 6 with flight).
      pose proof (accepted_trailer _ _ _ _ Hb Ht1 Hp1) as T1.
      pose proof (accepted_trailer _ _ _ _ Hb' Ht2 Ep2) as T2.
      rewrite <- T1 in T2. apply app_inv_head, app_inv_tail in T2. by apply Hne.
    + destruct (acc_length _ _ _ (parse_profile_accepts _ _ _ _ Hb ltac:(done) Hp1)) as [? Hn].
      rewrite !len_app in Hn. unfold k in Hk. lia.
Qed.

Lemma profile_rejects_corruption_witness :
  fst (lg_ccsds_profile_parse (Some (prefix_of 20 sample_packet ++ [0; 0; 0; 5] ++ skip 24 sample_packet))
         (len (prefix_of 20 sample_packet ++ [0; 0; 0; 5] ++ skip 24 sample_packet))
         (Some sample_view)) <> CCSDS_OK.
Proof.
  eapply (profile_rejects_corruption (prefix_of 20 sample_packet)
            (prefix_of 4 (skip 20 sample_packet)) [0; 0; 0; 5] (skip 24 sample_packet) sample_view).
  - apply bytes_ok_eval. vm_compute. reflexivity.
  - repeat constructor; unfold byte_ok; lia.
  - reflexivity.
  - vm_compute. lia.
  - vm_compute. discriminate.
  - left. vm_compute. discriminate.
  - vm_compute. reflexivity.
Defined.
