(* ===== verification/Frame.v ===== *)
(** Wire formats of the board-to-board I2C bus: the frame codec of
    [shared/interfaces/frame.c] and the status response of
    [shared/interfaces/i2c_protocol.c]. *)

From S2P Require Import Prelude.

Definition MAX_FRAME_PAYLOAD : Z := 264.
Definition FRAME_HEADER_SIZE : Z := 4.
Definition MAX_FRAME_WIRE_SIZE : Z := FRAME_HEADER_SIZE + MAX_FRAME_PAYLOAD.

Record Frame := mk_frame {
  dest_addr : Z;
  src_addr : Z;
  f_length : Z;
  f_payload : list Z          (* the array of MAX_FRAME_PAYLOAD bytes *)
}.

(** A [Frame] object of the program: bytes in its fields and a full array. *)
Definition frame_wf (f : Frame) : Prop :=
  byte_ok (dest_addr f) /\ byte_ok (src_addr f) /\ 0 <= f_length f < 65536
  /\ bytes_ok (f_payload f) /\ len (f_payload f) = MAX_FRAME_PAYLOAD.

Definition frame_serialize (frame : option Frame) (out_buf : option (list Z))
    (out_buf_size : Z) : Z * option (list Z) :=
  match frame, out_buf with
  | Some f, Some buf =>
      if MAX_FRAME_PAYLOAD <? f_length f then (-1, out_buf)
      else if out_buf_size <? f_length f + FRAME_HEADER_SIZE then (-1, out_buf)
      else
        let buf := patch buf 0 [dest_addr f] in
        let buf := patch buf 1 [src_addr f] in
        let buf := patch buf 2 [u8 (Z.shiftr (f_length f) 8)] in
        let buf := patch buf 3 [Z.land (f_length f) 0xFF] in
        let buf := patch buf 4 (prefix_of (f_length f) (f_payload f)) in
        (FRAME_HEADER_SIZE + f_length f, Some buf)
  | _, _ => (-1, out_buf)
  end.

(** The addresses and the length are stored before the length is checked. *)
Definition frame_deserialize (wire_buf : option (list Z)) (wire_len : Z)
    (frame_out : option Frame) : Z * option Frame :=
  match wire_buf, frame_out with
  | Some w, Some f =>
      if wire_len <? FRAME_HEADER_SIZE then (-1, frame_out)
      else
        let length := u16 (Z.lor (Z.shiftl (byte_at w 2) 8) (byte_at w 3)) in
        let f := mk_frame (byte_at w 0) (byte_at w 1) length (f_payload f) in
        if (MAX_FRAME_PAYLOAD <? length) || negb (wire_len =? FRAME_HEADER_SIZE + length)
        then (-1, Some f)
        else
          (FRAME_HEADER_SIZE + length,
           Some (mk_frame (dest_addr f) (src_addr f) length
                   (patch (f_payload f) 0 (prefix_of length (skip 4 w)))))
  | _, _ => (-1, frame_out)
  end.

(** ** I2C status response *)

Inductive I2cCommand_t :=
  | I2C_CMD_GET_STATUS
  | I2C_CMD_READ_FRAME
  | I2C_CMD_WRITE_FRAME.

Definition i2c_command_value (c : I2cCommand_t) : Z :=
  match c with
  | I2C_CMD_GET_STATUS => 0x01
  | I2C_CMD_READ_FRAME => 0x02
  | I2C_CMD_WRITE_FRAME => 0x03
  end.

Definition I2C_PROTOCOL_MAGIC : Z := 0xA5.
Definition I2C_PROTOCOL_VERSION : Z := 0x01.
Definition I2C_STATUS_WIRE_SIZE : Z := 5.
Definition I2C_STATUS_DATA_READY : Z := 0x01.

Record I2cStatus_t := mk_status { s_flags : Z; s_frame_length : Z }.

Definition status_fields_valid (status : option I2cStatus_t) : bool :=
  match status with
  | None => false
  | Some s =>
      if negb (Z.land (s_flags s) (u8 (Z.lnot I2C_STATUS_DATA_READY)) =? 0) then false
      else if Z.land (s_flags s) I2C_STATUS_DATA_READY =? 0 then s_frame_length s =? 0
      else (FRAME_HEADER_SIZE <=? s_frame_length s)
           && (s_frame_length s <=? MAX_FRAME_WIRE_SIZE)
  end.

Definition i2c_status_encode (status : option I2cStatus_t) (wire_buffer : option (list Z))
    (wire_buffer_size : Z) : Z * option (list Z) :=
  match wire_buffer with
  | Some w =>
      if (wire_buffer_size <? I2C_STATUS_WIRE_SIZE) || negb (status_fields_valid status)
      then (-1, wire_buffer)
      else
        match status with
        | Some s =>
            let w := patch w 0 [I2C_PROTOCOL_MAGIC] in
            let w := patch w 1 [I2C_PROTOCOL_VERSION] in
            let w := patch w 2 [s_flags s] in
            let w := patch w 3 [u8 (Z.shiftr (s_frame_length s) 8)] in
            let w := patch w 4 [Z.land (s_frame_length s) 0xFF] in
            (0, Some w)
        | None => (-1, wire_buffer)
        end
  | None => (-1, wire_buffer)
  end.

Definition i2c_status_decode (wire_buffer : option (list Z)) (wire_length : Z)
    (status_out : option I2cStatus_t) : Z * option I2cStatus_t :=
  match wire_buffer, status_out with
  | Some w, Some _ =>
      if negb (wire_length =? I2C_STATUS_WIRE_SIZE) then (-1, status_out)
      else if negb (byte_at w 0 =? I2C_PROTOCOL_MAGIC)
              || negb (byte_at w 1 =? I2C_PROTOCOL_VERSION) then (-1, status_out)
      else
        let decoded :=
          mk_status (byte_at w 2) (u16 (Z.lor (Z.shiftl (byte_at w 3) 8) (byte_at w 4))) in
        if negb (status_fields_valid (Some decoded)) then (-1, status_out)
        else (0, Some decoded)
  | _, _ => (-1, status_out)
  end.

(** ** Frames as byte strings *)

Definition frame_header_bytes (f : Frame) : list Z :=
  [dest_addr f; src_addr f; u8 (Z.shiftr (f_length f) 8); u8 (f_length f)].

(** The abstract frame: what the receiver is meant to learn. *)
Definition frame_wire (f : Frame) : list Z :=
  frame_header_bytes f ++ prefix_of (f_length f) (f_payload f).

Lemma len_frame_wire f :
  frame_wf f -> f_length f <= MAX_FRAME_PAYLOAD -> len (frame_wire f) = 4 + f_length f.
Proof.
  intros (_ & _ & Hl & _ & Hp) Hm. unfold frame_wire. rewrite len_app, len_prefix_of by lia.
  reflexivity.
Qed.

Lemma serialize_success f buf size :
  frame_wf f -> f_length f <= MAX_FRAME_PAYLOAD -> 4 + f_length f <= size ->
  frame_serialize (Some f) (Some buf) size
  = (4 + f_length f, Some (frame_wire f ++ skip (4 + f_length f) buf)).
Proof.
  intros Hf Hm Hs. pose proof Hf as (_ & _ & Hl & _ & Hp).
  unfold frame_serialize, FRAME_HEADER_SIZE.
  rewrite (proj2 (Z.ltb_ge _ _)), (proj2 (Z.ltb_ge _ _)) by lia. cbv zeta.
  rewrite patch_0, !patch_front by done. rewrite len_prefix_of by lia.
  rewrite !len_cons, len_nil, !skip_skip, land_255 by lia.
  replace (1 + 0 + (1 + 0 + (1 + 0 + (1 + 0 + f_length f)))) with (4 + f_length f) by lia.
  done.
Qed.

Lemma deserialize_success w n f0 f :
  bytes_ok w -> n <= len w ->
  frame_deserialize (Some w) n (Some f0) = (n, Some f) -> 0 <= n ->
  4 <= n /\ f_length f = n - 4 /\ f_length f <= MAX_FRAME_PAYLOAD
  /\ f_length f = byte_at w 2 * 256 + byte_at w 3
  /\ dest_addr f = byte_at w 0 /\ src_addr f = byte_at w 1
  /\ f_payload f = patch (f_payload f0) 0 (prefix_of (n - 4) (skip 4 w)).
Proof.
  intros Hb Hn. unfold frame_deserialize, FRAME_HEADER_SIZE.
  pose proof (byte_at_ok w 2 Hb). pose proof (byte_at_ok w 3 Hb).
  rewrite be16_value by done. unfold u16. rewrite Z.mod_small by zlia.
  case_if as E1; [intros; bool_facts; simplify_eq; lia|]. cbv zeta.
  case_if as E2; [intros; bool_facts; simplify_eq; lia|]. bool_facts.
  cbn [dest_addr src_addr f_payload]. intros [= _ <-] _.
  cbn [f_length dest_addr src_addr f_payload]. split_and!; try lia; try done.
  do 2 f_equal. lia.
Qed.

(** What the decoder accepts, in full: the length field must match. *)
Lemma deserialize_header w rest n f0 f :
  frame_wf f -> f_length f <= MAX_FRAME_PAYLOAD -> n = 4 + f_length f ->
  w = frame_wire f ++ rest ->
  frame_deserialize (Some w) n (Some f0)
  = (n, Some (mk_frame (dest_addr f) (src_addr f) (f_length f)
               (patch (f_payload f0) 0 (prefix_of (f_length f) (f_payload f))))).
Proof.
  intros (Hd & Hs & Hl & Hb & Hp) Hm -> ->. unfold frame_deserialize, FRAME_HEADER_SIZE.
  rewrite (proj2 (Z.ltb_ge _ _)) by lia. unfold frame_wire. rewrite <- app_assoc. cbv zeta.
  change (byte_at (frame_header_bytes f ++ _) 0) with (dest_addr f).
  change (byte_at (frame_header_bytes f ++ _) 1) with (src_addr f).
  change (byte_at (frame_header_bytes f ++ _) 2) with (u8 (Z.shiftr (f_length f) 8)).
  change (byte_at (frame_header_bytes f ++ _) 3) with (u8 (f_length f)).
  rewrite be16_round by done. replace (u16 (f_length f)) with (f_length f) by zlia.
  rewrite (proj2 (Z.ltb_ge _ _)), Z.eqb_refl by lia. cbn [orb negb dest_addr src_addr f_payload].
  change (skip 4 (frame_header_bytes f ++ ?k)) with k.
  by rewrite prefix_of_app by (rewrite len_prefix_of; lia).
Qed.

(** A frame serialised for the bus is decoded by the receiver to the same
    addresses, length and payload, whatever the receiver's frame held before;
    bytes of the buffer behind the frame are left alone. *)
Theorem frame_roundtrip f buf size f0 :
  frame_wf f -> f_length f <= MAX_FRAME_PAYLOAD -> 4 + f_length f <= size ->
  size <= len buf ->
  exists buf' f',
    frame_serialize (Some f) (Some buf) size = (4 + f_length f, Some buf')
    /\ len buf' = len buf /\ skip (4 + f_length f) buf' = skip (4 + f_length f) buf
    /\ frame_deserialize (Some buf') (4 + f_length f) (Some f0) = (4 + f_length f, Some f')
    /\ dest_addr f' = dest_addr f /\ src_addr f' = src_addr f /\ f_length f' = f_length f
    /\ prefix_of (f_length f) (f_payload f') = prefix_of (f_length f) (f_payload f).
Proof.
  intros Hf Hm Hs Hb. pose proof Hf as (_ & _ & Hl & _ & Hp).
  eexists _, _. split; [by apply serialize_success|]. split_and!.
  - rewrite len_app, len_frame_wire, len_skip by (done || lia). lia.
  - apply skip_app. by rewrite len_frame_wire.
  - by apply (deserialize_header _ (skip (4 + f_length f) buf)).
  - done.
  - done.
  - done.
  - cbn [f_payload]. rewrite patch_0, prefix_of_app; [done|]. rewrite len_prefix_of; lia.
Qed.

Definition sample_frame : Frame := mk_frame 3 1 2 ([222; 173] ++ zeros 262).

Lemma sample_frame_wf : frame_wf sample_frame.
Proof.
  unfold frame_wf. split_and!; try (vm_compute; congruence || (split; congruence)).
  apply bytes_ok_eval. vm_compute. reflexivity.
Qed.

Lemma frame_roundtrip_witness :
  exists buf' f',
    frame_serialize (Some sample_frame) (Some (zeros 10)) 10 = (4 + 2, Some buf')
    /\ len buf' = len (zeros 10) /\ skip (4 + 2) buf' = skip (4 + 2) (zeros 10)
    /\ frame_deserialize (Some buf') (4 + 2) (Some sample_frame) = (4 + 2, Some f')
    /\ dest_addr f' = 3 /\ src_addr f' = 1 /\ f_length f' = 2
    /\ prefix_of 2 (f_payload f') = prefix_of 2 (f_payload sample_frame).
Proof.
  apply (frame_roundtrip sample_frame (zeros 10) 10 sample_frame sample_frame_wf);
    vm_compute; congruence.
Defined.

(** The frame decoder never reads outside the [n] bytes received and accepts
    only exact frames: when it returns a length, this length is [n], the frame it
    stored is well formed, and serialising that frame gives back exactly the [n]
    bytes received. *)
Theorem frame_deserialize_canonical w n f0 f r buf :
  bytes_ok w -> n <= len w -> frame_wf f0 -> n <= len buf ->
  frame_deserialize (Some w) n (Some f0) = (r, Some f) -> r <> -1 ->
  r = n /\ frame_wf f /\ f_length f <= MAX_FRAME_PAYLOAD
  /\ frame_serialize (Some f) (Some buf) (len buf) = (n, Some (prefix_of n w ++ skip n buf)).
Proof.
  intros Hb Hn Hf0 Hbuf Hd Hr.
  assert (r = n /\ 0 <= n) as [-> H0].
  { revert Hd. unfold frame_deserialize, FRAME_HEADER_SIZE.
    case_if as E1; [intros [= <- _]; done|]. cbv zeta.
    case_if as E2; [intros [= <- _]; done|]. bool_facts. intros [= <- _]. lia. }
  destruct (deserialize_success _ _ _ _ Hb Hn Hd H0) as (H4 & Hl & Hm & Hw & Hda & Hsa & Hp).
  pose proof Hf0 as (_ & _ & _ & Hpb & Hpl). unfold MAX_FRAME_PAYLOAD in Hm, Hpl.
  assert (len (prefix_of (n - 4) (skip 4 w)) = n - 4) as Hlp
    by (apply len_prefix_of; rewrite len_skip; lia).
  assert (frame_wf f) as Hwf.
  { unfold frame_wf. rewrite Hda, Hsa, Hp, Hl. split_and!; auto with flight; try lia.
    rewrite len_patch; [done|lia|]. rewrite Hlp. lia. }
  split_and!; [done|done|done|].
  rewrite serialize_success by (done || lia). replace (4 + f_length f) with n by lia.
  do 3 f_equal. unfold frame_wire. rewrite Hp, patch_0, prefix_of_app by lia.
  replace n with (4 + (n - 4)) at 2 by lia. rewrite prefix_of_skip_split by lia. f_equal.
  pose proof (byte_at_ok w 2 Hb). pose proof (byte_at_ok w 3 Hb).
  unfold frame_header_bytes. rewrite Hda, Hsa, Hw, shiftr_div by lia. change (2 ^ 8) with 256.
  rewrite bytes_explicit by lia. change (seqZ 0 4) with [0; 1; 2; 3]. cbn [map].
  repeat (apply (f_equal2 cons); [zlia|]). done.
Qed.

Lemma frame_deserialize_canonical_witness :
  let w := [9; 8; 0; 3; 1; 2; 3; 77] in
  exists f,
    frame_deserialize (Some w) 7 (Some sample_frame) = (7, Some f)
    /\ frame_serialize (Some f) (Some (zeros 7)) 7 = (7, Some ([9; 8; 0; 3; 1; 2; 3] ++ [])).
Proof.
  eexists. split; [vm_compute; reflexivity|].
  eapply (frame_deserialize_canonical [9; 8; 0; 3; 1; 2; 3; 77] 7 sample_frame _ 7 (zeros 7)).
  - apply bytes_ok_eval. vm_compute. reflexivity.
  - vm_compute. congruence.
  - exact sample_frame_wf.
  - vm_compute. congruence.
  - vm_compute. reflexivity.
  - lia.
Defined.

(** ** Status *)

(** [status_fields_valid] as arithmetic. *)
Lemma status_fields_valid_spec s :
  byte_ok (s_flags s) ->
  status_fields_valid (Some s) = true
  <-> (s_flags s = 0 /\ s_frame_length s = 0)
      \/ (s_flags s = 1 /\ 4 <= s_frame_length s <= 268).
Proof.
  intros Hb. unfold status_fields_valid, FRAME_HEADER_SIZE, MAX_FRAME_WIRE_SIZE,
    MAX_FRAME_PAYLOAD, FRAME_HEADER_SIZE, I2C_STATUS_DATA_READY.
  change (u8 (Z.lnot 1)) with 254.
  pose proof (byte_cases (fun b =>
    eqb (Z.land b 254 =? 0) ((b =? 0) || (b =? 1))
    && eqb (Z.land b 1 =? 0) (b mod 2 =? 0)) ltac:(vm_compute; reflexivity) _ Hb) as H.
  cbv beta in H. apply andb_true_iff in H as [H1 H2].
  apply eqb_prop in H1, H2. rewrite H1, H2.
  split; intros.
  - destruct (_ || _) eqn:E; [|done]. cbn [negb] in *. destruct (_ mod 2 =? 0) eqn:E2; bool_facts;
      destruct E as [E|E]; bool_facts; zlia.
  - destruct H as [[-> ->]|[-> Hr]]; cbn; [done|]. apply andb_true_iff; split; lia.
Qed.

Definition status_bytes (s : I2cStatus_t) : list Z :=
  [I2C_PROTOCOL_MAGIC; I2C_PROTOCOL_VERSION; s_flags s;
   u8 (Z.shiftr (s_frame_length s) 8); u8 (s_frame_length s)].

Lemma status_encode_eq s buf :
  len buf = 5 ->
  i2c_status_encode (Some s) (Some buf) 5
  = if status_fields_valid (Some s) then (0, Some (status_bytes s)) else (-1, Some buf).
Proof.
  intros Hb. destruct buf as [|c0 [|c1 [|c2 [|c3 [|c4 [|]]]]]];
    try (unfold len in Hb; cbn [length] in Hb; lia).
  unfold i2c_status_encode. rewrite land_255.
  by destruct (status_fields_valid (Some s)).
Qed.

Lemma status_decode_eq w0 w1 w2 w3 w4 s0 :
  i2c_status_decode (Some [w0; w1; w2; w3; w4]) 5 (Some s0)
  = if negb (w0 =? I2C_PROTOCOL_MAGIC) || negb (w1 =? I2C_PROTOCOL_VERSION) then (-1, Some s0)
    else let d := mk_status w2 (u16 (Z.lor (Z.shiftl w3 8) w4)) in
         if status_fields_valid (Some d) then (0, Some d) else (-1, Some s0).
Proof.
  unfold i2c_status_decode. cbv zeta. read_bytes.
  by destruct (status_fields_valid (Some _)).
Qed.

(** The status response is a faithful code: the receiver decodes exactly what
    was encoded, a status is encoded if and only if it is consistent (idle with
    length 0, or data ready with the length of a whole frame), and a five-byte
    response is accepted only when it is the encoding of the status it yields. *)
Theorem i2c_status_codec s w buf s0 :
  byte_ok (s_flags s) -> 0 <= s_frame_length s < 65536 -> bytes_ok w -> len w = 5 ->
  len buf = 5 ->
  (fst (i2c_status_encode (Some s) (Some buf) 5) = 0
   <-> (s_flags s = 0 /\ s_frame_length s = 0)
       \/ (s_flags s = 1 /\ 4 <= s_frame_length s <= 268))
  /\ (forall out, i2c_status_encode (Some s) (Some buf) 5 = (0, Some out) ->
      len out = 5 /\ i2c_status_decode (Some out) 5 (Some s0) = (0, Some s))
  /\ (forall s', i2c_status_decode (Some w) 5 (Some s0) = (0, Some s') ->
      i2c_status_encode (Some s') (Some buf) 5 = (0, Some w)).
Proof.
  intros Hf Hl Hw Hlw Hb. rewrite <- status_fields_valid_spec by done. split_and!.
  - rewrite status_encode_eq by done. by destruct (status_fields_valid (Some s)).
  - intros out. rewrite status_encode_eq by done.
    destruct (status_fields_valid (Some s)) eqn:E; [|done]. intros [= <-]. split; [done|].
    unfold status_bytes. rewrite status_decode_eq, be16_round by done.
    replace (u16 (s_frame_length s)) with (s_frame_length s) by zlia.
    destruct s as [fl ln]. cbn [s_flags s_frame_length] in *. cbv zeta. by rewrite E.
  - intros s'. rewrite status_encode_eq by done.
    destruct w as [|w0 [|w1 [|w2 [|w3 [|w4 [|]]]]]];
      try (unfold len in Hlw; cbn [length] in Hlw; lia).
    repeat match goal with H : bytes_ok (_ :: _) |- _ => inversion H; subst; clear H end.
    rewrite status_decode_eq. case_if as E1; [done|]. bool_facts. cbv zeta.
    case_if as E2; [|done]. intros [= <-]. rewrite E2. subst. unfold status_bytes.
    cbn [s_flags s_frame_length]. rewrite be16_value, shiftr_div by (done || lia).
    change (2 ^ 8) with 256. do 2 f_equal. repeat (apply (f_equal2 cons); [zlia || done|]). done.
Qed.

Lemma i2c_status_codec_witness :
  (fst (i2c_status_encode (Some (mk_status 1 40)) (Some (zeros 5)) 5) = 0
   <-> (1 = 0 /\ 40 = 0) \/ (1 = 1 /\ 4 <= 40 <= 268))
  /\ (forall out, i2c_status_encode (Some (mk_status 1 40)) (Some (zeros 5)) 5 = (0, Some out) ->
      len out = 5 /\ i2c_status_decode (Some out) 5 (Some (mk_status 0 0)) = (0, Some (mk_status 1 40)))
  /\ (forall s', i2c_status_decode (Some [165; 1; 1; 1; 12]) 5 (Some (mk_status 0 0)) = (0, Some s') ->
      i2c_status_encode (Some s') (Some (zeros 5)) 5 = (0, Some [165; 1; 1; 1; 12])).
Proof.
  apply (i2c_status_codec (mk_status 1 40) [165; 1; 1; 1; 12] (zeros 5) (mk_status 0 0));
    try reflexivity.
  - unfold byte_ok. cbn. lia.
  - cbn. lia.
  - apply bytes_ok_eval. vm_compute. reflexivity.
Defined.

Example decode_sample_status :
  i2c_status_decode (Some [165; 1; 1; 1; 12]) 5 (Some (mk_status 0 0)) = (0, Some (mk_status 1 268)).
Proof. reflexivity. Qed.
