(* ===== verification/RadioQueue.v ===== *)
(** The transmit queue shared by the radio drivers:
    [platform/common/radio_queue.c].

    The ring buffer, the message queue in it, the transmit thread (split at its
    lock operations), the history of sent packets and the counters.  [size_t] is
    64 bits wide, as on the flight computer; the invariants below show that no
    [size_t] expression of the file leaves its range. *)

From S2P Require Import Prelude Crc32 SpacePacket Profile.

Definition RADIO_MAX_PACKET_SIZE : Z := 240.
Definition RADIO_FRAME_OVERHEAD : Z := 26.
Definition RADIO_MAX_PAYLOAD : Z := RADIO_MAX_PACKET_SIZE - RADIO_FRAME_OVERHEAD.
Definition RADIO_QUEUE_SIZE : Z := 128 * 1024.

Definition SEND_ATTEMPTS : Z := 3.
Definition MESSAGE_HEADER : Z := 5.
Definition CONTENT_TYPES : Z := 4.
Definition RAW_FRAME : Z := 0xFF.
Definition HISTORY_SIZE : Z := 600.

(** ** Counters *)

Record radio_stats_t := mk_stats {
  packets_sent : Z;
  packets_resent : Z;
  packets_retried : Z;
  packets_dropped : Z;
  queue_rejects : Z;
  queue_high_water : Z;
  rx_packets : Z;
  rx_invalid : Z;
  rx_bytes_skipped : Z
}.

Definition radio_stats_rx_packet (s : radio_stats_t) : radio_stats_t :=
  mk_stats (packets_sent s) (packets_resent s) (packets_retried s) (packets_dropped s)
    (queue_rejects s) (queue_high_water s) (u32 (rx_packets s + 1)) (rx_invalid s)
    (rx_bytes_skipped s).

Definition radio_stats_rx_invalid (s : radio_stats_t) : radio_stats_t :=
  mk_stats (packets_sent s) (packets_resent s) (packets_retried s) (packets_dropped s)
    (queue_rejects s) (queue_high_water s) (rx_packets s) (u32 (rx_invalid s + 1))
    (rx_bytes_skipped s).

Definition radio_stats_rx_skipped (bytes : Z) (s : radio_stats_t) : radio_stats_t :=
  mk_stats (packets_sent s) (packets_resent s) (packets_retried s) (packets_dropped s)
    (queue_rejects s) (queue_high_water s) (rx_packets s) (rx_invalid s)
    (u32 (rx_bytes_skipped s + u32 bytes)).

Definition stats_reject (s : radio_stats_t) : radio_stats_t :=
  mk_stats (packets_sent s) (packets_resent s) (packets_retried s) (packets_dropped s)
    (u32 (queue_rejects s + 1)) (queue_high_water s) (rx_packets s) (rx_invalid s)
    (rx_bytes_skipped s).

Definition stats_high_water (count : Z) (s : radio_stats_t) : radio_stats_t :=
  if queue_high_water s <? count
  then mk_stats (packets_sent s) (packets_resent s) (packets_retried s) (packets_dropped s)
         (queue_rejects s) (u32 count) (rx_packets s) (rx_invalid s) (rx_bytes_skipped s)
  else s.

(** Lines 130 to 146: the counters after the attempts for one packet. *)
Definition stats_after_send (sent attempts : Z) (framed : bool) (s : radio_stats_t)
    : radio_stats_t :=
  let retried :=
    if 1 <? attempts then u32 (packets_retried s + u32 (attempts - 1)) else packets_retried s in
  if sent =? 0
  then mk_stats (u32 (packets_sent s + 1))
         (if framed then u32 (packets_resent s + 1) else packets_resent s) retried
         (packets_dropped s) (queue_rejects s) (queue_high_water s) (rx_packets s)
         (rx_invalid s) (rx_bytes_skipped s)
  else mk_stats (packets_sent s) (packets_resent s) retried (u32 (packets_dropped s + 1))
         (queue_rejects s) (queue_high_water s) (rx_packets s) (rx_invalid s)
         (rx_bytes_skipped s).

Definition radio_get_stats (s : radio_stats_t) (out : option radio_stats_t)
    : option radio_stats_t :=
  match out with None => None | Some _ => Some s end.

(** ** The ring *)

Record ring := mk_ring {
  buffer : list Z;
  head : Z;
  count : Z
}.

Definition ring_read (r : ring) (n : Z) : list Z * ring :=
  let first := RADIO_QUEUE_SIZE - head r in
  let first := if n <? first then n else first in
  (prefix_of first (skip (head r) (buffer r)) ++ prefix_of (n - first) (buffer r),
   mk_ring (buffer r) ((head r + n) mod RADIO_QUEUE_SIZE) (count r - n)).

Definition ring_write (r : ring) (src : list Z) (n : Z) : ring :=
  let tail := (head r + count r) mod RADIO_QUEUE_SIZE in
  let first := RADIO_QUEUE_SIZE - tail in
  let first := if n <? first then n else first in
  let buf := patch (buffer r) tail (prefix_of first src) in
  let buf := patch buf 0 (prefix_of (n - first) (skip first src)) in
  mk_ring buf (head r) (count r + n).

(** ** The queue *)

Record sent_packet_t := mk_sent {
  used : bool;
  apid : Z;
  sequence : Z;
  p_length : Z;
  p_bytes : list Z
}.

Record radio := mk_radio {
  r_ring : ring;
  in_flight : Z;
  thread_started : bool;
  sender : option Z;          (* which driver function is called, as a name *)
  stats : radio_stats_t;
  history : list sent_packet_t;
  history_next : Z
}.

Definition unused_slot : sent_packet_t := mk_sent false 0 0 0 (zeros RADIO_MAX_PACKET_SIZE).

Definition radio_init : radio :=
  mk_radio (mk_ring (zeros RADIO_QUEUE_SIZE) 0 0) 0 false None (mk_stats 0 0 0 0 0 0 0 0 0)
    (replicate (Z.to_nat HISTORY_SIZE) unused_slot) 0.

Definition set_stats (s : radio_stats_t) (st : radio) : radio :=
  mk_radio (r_ring st) (in_flight st) (thread_started st) (sender st) s (history st) (history_next st).
Definition set_ring (r : ring) (st : radio) : radio :=
  mk_radio r (in_flight st) (thread_started st) (sender st) (stats st) (history st) (history_next st).
Definition set_in_flight (n : Z) (st : radio) : radio :=
  mk_radio (r_ring st) n (thread_started st) (sender st) (stats st) (history st) (history_next st).
Definition set_started (send_packet : option Z) (st : radio) : radio :=
  mk_radio (r_ring st) (in_flight st) true send_packet (stats st) (history st) (history_next st).

Definition set_sender (send_packet : option Z) (st : radio) : radio :=
  mk_radio (r_ring st) (in_flight st) (thread_started st) send_packet (stats st) (history st)
    (history_next st).

Definition message_header (content length : Z) : list Z :=
  [content; u8 (Z.shiftr length 24); u8 (Z.shiftr length 16); u8 (Z.shiftr length 8); u8 length].

Definition push_locked (content : Z) (data : list Z) (length : Z) (st : radio) : Z * radio :=
  if RADIO_QUEUE_SIZE - count (r_ring st) <? length + MESSAGE_HEADER then (-1, st)
  else
    let r := ring_write (r_ring st) (message_header content length) MESSAGE_HEADER in
    let r := ring_write r data length in
    (0, set_stats (stats_high_water (count r) (stats st)) (set_ring r st)).

(** [create_ok] is whether [pthread_create] succeeds. *)
Definition radio_queue_push (content : Z) (data : option (list Z)) (length : Z)
    (send_packet : option Z) (create_ok : bool) (st : radio) : Z * radio :=
  let bad_args :=
    match data with None => true | Some _ => false end
    || (length =? 0) || (4294967295 <? length) || match send_packet with None => true | Some _ => false end
    || (CONTENT_TYPES <=? u32 content)
    || ((content =? LG_CCSDS_CONTENT_SSDV)
        && negb (length mod LG_CCSDS_SSDV_PACKET_SIZE =? 0)) in
  if bad_args then (-1, set_stats (stats_reject (stats st)) st)
  else if negb (thread_started st) && negb create_ok
  then (-1, set_stats (stats_reject (stats st)) (set_sender send_packet st))
  else
    let st := if thread_started st then st else set_started send_packet st in
    match push_locked (u8 content) (default [] data) length st with
    | (0, st) => (0, st)
    | (_, st) => (-1, set_stats (stats_reject (stats st)) st)
    end.

Fixpoint resend_scan (fuel : nat) (i : Z) (hist : list sent_packet_t) (next apid' seq : Z)
    : option sent_packet_t :=
  match fuel with
  | O => None
  | S fuel =>
      let index := (next + HISTORY_SIZE - 1 - i) mod HISTORY_SIZE in
      let slot := nth (Z.to_nat index) hist unused_slot in
      if used slot && (apid slot =? apid') && (sequence slot =? seq) then Some slot
      else resend_scan fuel (i + 1) hist next apid' seq
  end.

Definition radio_resend (apid' sequence_count : Z) (st : radio) : Z * radio :=
  match resend_scan (Z.to_nat HISTORY_SIZE) 0 (history st) (history_next st)
          apid' sequence_count with
  | Some slot =>
      if thread_started st then push_locked RAW_FRAME (p_bytes slot) (p_length slot) st
      else (-1, st)
  | None => (-1, st)
  end.

Definition radio_queue_pending (st : radio) : Z := count (r_ring st) + in_flight st.

(** ** The transmit thread *)

(** Its local variables; [chunk] and [packet] keep their bytes between rounds. *)
Record tx_locals := mk_tx {
  chunk : list Z;
  packet : list Z;
  tx_sequence : list Z;
  tx_content : Z;
  message_left : Z
}.

Definition tx_init (chunk packet : list Z) : tx_locals :=
  mk_tx chunk packet [0; 0; 0; 0] LG_CCSDS_CONTENT_RAW_TELEMETRY 0.

Record tx_job := mk_job {
  j_n : Z;
  j_seq : Z;
  j_framed : bool;
  j_packet_length : Z
}.

(** Lines 78 to 84: the header of the next message, if one starts here. *)
Definition tx_header (r : ring) (tx : tx_locals) : ring * Z * Z :=
  if message_left tx =? 0
  then
    let '(header, r) := ring_read r MESSAGE_HEADER in
    (r, byte_at header 0,
     Z.lor (Z.lor (Z.lor (Z.shiftl (byte_at header 1) 24) (Z.shiftl (byte_at header 2) 16))
                  (Z.shiftl (byte_at header 3) 8)) (byte_at header 4))
  else (r, tx_content tx, message_left tx).

(** Lines 75 to 108, under the lock: [None] while the thread waits for data. *)
Definition tx_take (st : radio) (tx : tx_locals) : option (radio * tx_locals * tx_job) :=
  if count (r_ring st) =? 0 then None
  else
    let '(r, content, remaining) := tx_header (r_ring st) tx in
    if content =? RAW_FRAME
    then
      let n := remaining in
      let '(bytes, r) := ring_read r n in
      let packet := patch (packet tx) 0 bytes in
      let seq := u16 (Z.lor (Z.shiftl (Z.land (byte_at packet 2) 0x3F) 8) (byte_at packet 3)) in
      Some (set_in_flight n (set_ring r st),
            mk_tx (chunk tx) packet (tx_sequence tx) content 0,
            mk_job n seq true n)
    else
      let n := if remaining <? RADIO_MAX_PAYLOAD then remaining else RADIO_MAX_PAYLOAD in
      let '(bytes, r) := ring_read r n in
      let seq := byte_at (tx_sequence tx) content in
      Some (set_in_flight n (set_ring r st),
            mk_tx (patch (chunk tx) 0 bytes) (packet tx)
              (patch (tx_sequence tx) content
                 [u16 (Z.land (seq + 1) CCSDS_SPACE_PACKET_MAX_SEQUENCE_COUNT)])
              content (remaining - n),
            mk_job n seq false 0).

(** Lines 110 to 115, outside the lock: frame the chunk, unless it is a resend. *)
Definition tx_frame (tx : tx_locals) (job : tx_job) : bool * tx_locals * tx_job :=
  if j_framed job then (true, tx, job)
  else
    match lg_ccsds_profile_build (tx_content tx) (j_seq job) 1 None (Some (chunk tx)) (j_n job)
            (Some (packet tx)) RADIO_MAX_PACKET_SIZE (Some (j_packet_length job)) with
    | (st, out, length) =>
        (bool_decide (st = CCSDS_OK),
         mk_tx (chunk tx) (default (packet tx) out) (tx_sequence tx) (tx_content tx)
           (message_left tx),
         mk_job (j_n job) (j_seq job) false (default (j_packet_length job) length))
    end.

(** Lines 117 to 121: [answers k] is what the driver returns to attempt [k]. *)
Fixpoint send_loop (fuel : nat) (answers : Z -> Z) (attempts sent : Z) : Z * Z :=
  match fuel with
  | O => (attempts, sent)
  | S fuel =>
      if (attempts <? SEND_ATTEMPTS) && negb (sent =? 0)
      then send_loop fuel answers (attempts + 1) (answers attempts)
      else (attempts, sent)
  end.

(** Lines 110 to 122: attempts made and the final result. *)
Definition tx_send (framing_ok : bool) (answers : Z -> Z) : Z * Z :=
  if framing_ok then send_loop (Z.to_nat SEND_ATTEMPTS) answers 0 (-1) else (0, -1).

(** Lines 128 to 147, under the lock. *)
Definition tx_finish (st : radio) (tx : tx_locals) (job : tx_job) (attempts sent : Z) : radio :=
  let st := set_in_flight 0 st in
  let s := stats_after_send sent attempts (j_framed job) (stats st) in
  if (sent =? 0) && negb (j_framed job)
  then
    let slot := nth (Z.to_nat (history_next st)) (history st) unused_slot in
    let slot :=
      mk_sent true
        (u16 (Z.lor (Z.shiftl (Z.land (byte_at (packet tx) 0) 0x07) 8) (byte_at (packet tx) 1)))
        (j_seq job) (j_packet_length job)
        (patch (p_bytes slot) 0 (prefix_of (j_packet_length job) (packet tx))) in
    mk_radio (r_ring st) (in_flight st) (thread_started st) (sender st) s
      (<[Z.to_nat (history_next st) := slot]> (history st))
      ((history_next st + 1) mod HISTORY_SIZE)
  else set_stats s st.

(** One round of the thread's loop from the framing on: the packet handed to the
    driver, once per attempt, and the state afterwards. *)
Definition tx_transmit (st : radio) (tx : tx_locals) (job : tx_job) (answers : Z -> Z)
    : radio * tx_locals * list Z * Z * Z :=
  let '(ok, tx, job) := tx_frame tx job in
  let '(attempts, sent) := tx_send ok answers in
  (tx_finish st tx job attempts sent, tx, prefix_of (j_packet_length job) (packet tx),
   attempts, sent).

(** ** The ring as a byte queue *)

Definition ring_wf (r : ring) : Prop :=
  len (buffer r) = RADIO_QUEUE_SIZE /\ 0 <= head r < RADIO_QUEUE_SIZE
  /\ 0 <= count r <= RADIO_QUEUE_SIZE /\ bytes_ok (buffer r).

Definition contents (r : ring) : list Z :=
  tabulate (fun i => byte_at (buffer r) ((head r + i) mod RADIO_QUEUE_SIZE)) (count r).

Lemma queue_size_value : RADIO_QUEUE_SIZE = 131072.
Proof. done. Qed.

Lemma len_contents r : ring_wf r -> len (contents r) = count r.
Proof. intros (_ & _ & Hc & _). apply len_tabulate. lia. Qed.

Lemma byte_at_contents r i :
  0 <= i < count r ->
  byte_at (contents r) i = byte_at (buffer r) ((head r + i) mod RADIO_QUEUE_SIZE).
Proof. intros. unfold contents. by rewrite byte_at_tabulate. Qed.

Lemma bytes_ok_tabulate f n : (forall i, byte_ok (f i)) -> bytes_ok (tabulate f n).
Proof.
  intros H. unfold tabulate. apply List.Forall_forall. intros b Hb.
  apply in_map_iff in Hb as (i & <- & _). apply H.
Qed.

Lemma bytes_ok_contents r : ring_wf r -> bytes_ok (contents r).
Proof. intros (_ & _ & _ & Hb). apply bytes_ok_tabulate. auto with flight. Qed.

Lemma ring_read_spec r n :
  ring_wf r -> 0 <= n <= count r ->
  exists r', ring_read r n = (prefix_of n (contents r), r')
    /\ contents r' = skip n (contents r) /\ ring_wf r' /\ count r' = count r - n.
Proof.
  intros Hwf Hn. pose proof Hwf as (Hl & Hh & Hc & Hb). pose proof (len_contents r Hwf) as Hlc.
  rewrite queue_size_value in *.
  eexists. split; [unfold ring_read; apply (f_equal2 pair); [|reflexivity]|]; cbn [count].
  2: split_and!; [|split_and!|done].
  - rewrite queue_size_value. symmetry.
    set (first := if n <? 131072 - head r then n else 131072 - head r).
    assert (0 <= first <= n /\ first <= 131072 - head r
      /\ (first = n \/ first = 131072 - head r)) as Hf by (unfold first; split_ifs; bool_facts; lia).
    assert (len (prefix_of first (skip (head r) (buffer r))) = first) as Hl1
      by (apply len_prefix_of; rewrite len_skip; lia).
    apply bytes_ext; rewrite len_prefix_of by lia.
    { rewrite len_app, Hl1, len_prefix_of by lia. lia. }
    intros i Hi. rewrite byte_at_prefix_of, byte_at_contents, byte_at_app, Hl1 by lia.
    rewrite queue_size_value. case_decide.
    + rewrite byte_at_prefix_of, byte_at_skip by lia. f_equal. zlia.
    + rewrite byte_at_prefix_of by lia. f_equal. zlia.
  - apply bytes_ext; unfold contents; cbn [buffer head count]; rewrite queue_size_value.
    { rewrite len_skip, !len_tabulate by lia. lia. }
    rewrite len_tabulate by lia. intros i Hi.
    rewrite byte_at_skip, !byte_at_tabulate by lia. f_equal. zlia.
  - done.
  - cbn [head]. rewrite queue_size_value. apply Z.mod_pos_bound. lia.
  - cbn [head]. rewrite queue_size_value. apply Z.mod_pos_bound. lia.
  - cbn [count]. lia.
  - cbn [count]. rewrite queue_size_value. lia.
  - done.
Qed.

Lemma ring_write_spec r src n :
  ring_wf r -> bytes_ok src -> 0 <= n <= len src -> count r + n <= RADIO_QUEUE_SIZE ->
  contents (ring_write r src n) = contents r ++ prefix_of n src
  /\ ring_wf (ring_write r src n) /\ count (ring_write r src n) = count r + n.
Proof.
  intros Hwf Hs Hn Hfit. pose proof Hwf as (Hl & Hh & Hc & Hb).
  pose proof (len_contents r Hwf) as Hlc. rewrite queue_size_value in *.
  unfold ring_write. rewrite queue_size_value.
  set (tail := (head r + count r) mod 131072).
  set (first := if n <? 131072 - tail then n else 131072 - tail).
  assert (0 <= tail < 131072) as Ht by (apply Z.mod_pos_bound; lia).
  assert (0 <= first <= n /\ first <= 131072 - tail
    /\ (first = n \/ first = 131072 - tail)) as Hf by (unfold first; split_ifs; bool_facts; lia).
  assert (len (prefix_of first src) = first) as Hl1 by (apply len_prefix_of; lia).
  assert (len (prefix_of (n - first) (skip first src)) = n - first) as Hl2
    by (apply len_prefix_of; rewrite len_skip; lia).
  assert (len (patch (buffer r) tail (prefix_of first src)) = 131072) as Hl3
    by (rewrite len_patch; lia).
  split_and!; [|split_and!; cbn [buffer head count]|done]; try (rewrite queue_size_value; lia).
  - unfold contents at 1. cbn [buffer head count]. apply bytes_ext; rewrite len_tabulate by lia.
    { rewrite len_app, Hlc, len_prefix_of by lia. done. }
    intros i Hi. rewrite byte_at_tabulate, byte_at_app, Hlc, queue_size_value by lia.
    assert (tail = head r + count r \/ tail = head r + count r - 131072) as Htv
      by (unfold tail; zlia).
    assert ((head r + i) mod 131072 = head r + i \/ (head r + i) mod 131072 = head r + i - 131072)
      as Hpos by zlia.
    assert (0 <= (head r + i) mod 131072 < 131072) as Hpb by (apply Z.mod_pos_bound; lia).
    rewrite !byte_at_patch by lia. rewrite Hl1, Hl2.
    case_decide as E1; case_decide as E2; try case_decide as E3; try lia.
    + rewrite byte_at_prefix_of, byte_at_skip, byte_at_prefix_of by lia. f_equal. lia.
    + rewrite !byte_at_prefix_of by lia. f_equal. lia.
    + rewrite byte_at_contents, queue_size_value by lia. done.
  - rewrite len_patch by lia. done.
  - cbn [count]; rewrite ?queue_size_value; lia.
  - cbn [count]; rewrite ?queue_size_value; lia.
  - auto 8 with flight.
Qed.

(** ** The ring as a queue of radio packets

    The specification state is the list of the pieces still to be sent, each
    with its content type: a message is cut into pieces of [RADIO_MAX_PAYLOAD]
    bytes, a resend is one piece. *)

Fixpoint cut (fuel : nat) (d : list Z) : list (list Z) :=
  match fuel with
  | O => []
  | S fuel =>
      if decide (d = []) then []
      else prefix_of RADIO_MAX_PAYLOAD d :: cut fuel (skip RADIO_MAX_PAYLOAD d)
  end.

Definition pieces (m : Z * list Z) : list (Z * list Z) :=
  if fst m =? RAW_FRAME then [m] else map (pair (fst m)) (cut (length (snd m)) (snd m)).

Definition encode_message (m : Z * list Z) : list Z :=
  message_header (fst m) (len (snd m)) ++ snd m.

Definition piece_ok (m : Z * list Z) : Prop :=
  let '(c, d) := m in
  0 < len d /\ bytes_ok d
  /\ (0 <= c < 4 /\ len d <= RADIO_MAX_PAYLOAD /\ (c = 2 -> len d = 214)
      \/ c = RAW_FRAME /\ 26 <= len d <= 240).

Definition message_ok (m : Z * list Z) : Prop :=
  let '(c, d) := m in
  0 < len d < 4294967296 /\ bytes_ok d
  /\ (0 <= c < 4 /\ (c = 2 -> (214 | len d)) \/ c = RAW_FRAME /\ 26 <= len d <= 240).

Definition tx_wf (tx : tx_locals) : Prop :=
  len (chunk tx) = 214 /\ bytes_ok (chunk tx) /\ len (packet tx) = 240 /\ bytes_ok (packet tx)
  /\ len (tx_sequence tx) = 4 /\ Forall (fun s => 0 <= s <= 0x3FFF) (tx_sequence tx).

(** [current] is what is left of the message being sent. *)
Definition current_ok (tx : tx_locals) (current : list Z) : Prop :=
  len current = message_left tx /\ bytes_ok current
  /\ (current = [] \/ 0 <= tx_content tx < 4 /\ (tx_content tx = 2 -> (214 | len current))).

Definition queue_rel (r : ring) (tx : tx_locals) (q : list (Z * list Z)) : Prop :=
  ring_wf r /\ exists current ms,
    current_ok tx current /\ Forall message_ok ms
    /\ contents r = current ++ concat (map encode_message ms)
    /\ q = map (pair (tx_content tx)) (cut (length current) current) ++ concat (map pieces ms).

Lemma cut_fuel n m d : (length d <= n)%nat -> (length d <= m)%nat -> cut n d = cut m d.
Proof.
  revert m d. induction n as [|n IH]; intros m d Hn Hm.
  - destruct d; [by destruct m|cbn in Hn; lia].
  - destruct m as [|m]; [destruct d; [done|cbn in Hm; lia]|]. cbn [cut].
    destruct (decide (d = [])) as [|Hd]; [done|]. f_equal. apply IH.
    all: unfold skip, RADIO_MAX_PAYLOAD, RADIO_MAX_PACKET_SIZE, RADIO_FRAME_OVERHEAD;
      rewrite length_drop; destruct d; [done|cbn in *; lia].
Qed.

Lemma cut_cons d :
  d <> [] ->
  cut (length d) d
  = prefix_of RADIO_MAX_PAYLOAD d
    :: cut (length (skip RADIO_MAX_PAYLOAD d)) (skip RADIO_MAX_PAYLOAD d).
Proof.
  intros Hd. destruct d as [|b d]; [done|]. cbn [length cut].
  destruct (decide _); [done|]. f_equal. apply cut_fuel; [|lia].
  unfold skip. rewrite length_drop. cbn [length].
  unfold RADIO_MAX_PAYLOAD, RADIO_MAX_PACKET_SIZE, RADIO_FRAME_OVERHEAD. lia.
Qed.

Lemma max_payload_value : RADIO_MAX_PAYLOAD = 214.
Proof. done. Qed.

(** The pieces of a message, glued together, are the message. *)
Lemma cut_concat n d : (length d <= n)%nat -> concat (cut n d) = d.
Proof.
  revert d. induction n as [|n IH]; intros d Hn; [destruct d; [done|cbn in Hn; lia]|].
  cbn [cut]. destruct (decide (d = [])) as [->|Hd]; [done|]. cbn [concat].
  rewrite IH; [apply prefix_skip|]. unfold skip. rewrite length_drop, max_payload_value.
  destruct d; [done|cbn in *; lia].
Qed.

Lemma len_message_header c n : len (message_header c n) = 5.
Proof. done. Qed.

Lemma message_header_ok c n : byte_ok c -> bytes_ok (message_header c n).
Proof. intros. unfold message_header. solve_bytes_ok. Qed.

Lemma message_header_length c n :
  0 <= n < 4294967296 ->
  Z.lor (Z.lor (Z.lor (Z.shiftl (byte_at (message_header c n) 1) 24)
                      (Z.shiftl (byte_at (message_header c n) 2) 16))
               (Z.shiftl (byte_at (message_header c n) 3) 8))
        (byte_at (message_header c n) 4) = n.
Proof. intros. unfold message_header. read_bytes. by apply be32_round. Qed.

(** ** Pushing *)

Lemma push_locked_spec c d n st tx q :
  queue_rel (r_ring st) tx q -> message_ok (c, prefix_of n d) -> 0 < n <= len d -> bytes_ok d ->
  (count (r_ring st) + n + 5 <= RADIO_QUEUE_SIZE ->
   exists r s, push_locked c d n st = (0, set_stats s (set_ring r st))
     /\ queue_rel r tx (q ++ pieces (c, prefix_of n d))
     /\ count r = count (r_ring st) + n + 5)
  /\ (RADIO_QUEUE_SIZE < count (r_ring st) + n + 5 -> push_locked c d n st = (-1, st)).
Proof.
  intros (Hwf & cur & ms & Hcur & Hms & Hc & ->) Hm Hn Hb. unfold push_locked, MESSAGE_HEADER.
  split; intros Hfit; case_if as E; bool_facts; try lia; [|done].
  assert (byte_ok c) as Hbc by (destruct Hm as (_ & _ & [[? _]|[-> _]]); [zlia|done]).
  destruct (ring_write_spec (r_ring st) (message_header c n) 5 Hwf) as (H1 & Hw1 & Hn1);
    [by apply message_header_ok|rewrite len_message_header; lia|lia|].
  destruct (ring_write_spec _ d n Hw1 Hb) as (H2 & Hw2 & Hn2); [lia|lia|].
  eexists _, _. split; [reflexivity|]. split; [|lia].
  split; [done|]. exists cur, (ms ++ [(c, prefix_of n d)]). split; [done|].
  split; [by apply Forall_app_2; [|apply Forall_singleton]|].
  rewrite H2, H1, Hc, !map_app, !concat_app. cbn [map concat fst snd].
  unfold encode_message. cbn [fst snd].
  rewrite len_prefix_of by lia. rewrite prefix_of_all by (rewrite len_message_header; lia).
  rewrite !app_nil_r, <- !app_assoc. done.
Qed.

(** ** Taking the next piece *)

(** The job the thread took is the piece [m], and what it did to its locals. *)
Definition serves (m : Z * list Z) (tx tx' : tx_locals) (job : tx_job) : Prop :=
  let '(c, d) := m in
  j_n job = len d /\
  if c =? RAW_FRAME
  then j_framed job = true /\ j_packet_length job = len d
       /\ prefix_of (len d) (packet tx') = d /\ tx_sequence tx' = tx_sequence tx
       /\ j_seq job = Z.land (byte_at d 2) 0x3F * 256 + byte_at d 3
  else j_framed job = false /\ tx_content tx' = c /\ prefix_of (len d) (chunk tx') = d
       /\ j_seq job = byte_at (tx_sequence tx) c /\ j_packet_length job = 0
       /\ tx_sequence tx' = patch (tx_sequence tx) c [(byte_at (tx_sequence tx) c + 1) mod 16384].

(** The thread, having read the header of the current message. *)
Definition tx_serve (st : radio) (tx : tx_locals) (r : ring) (content remaining : Z)
    : radio * tx_locals * tx_job :=
  if content =? RAW_FRAME
  then
    let '(bytes, r) := ring_read r remaining in
    let packet := patch (packet tx) 0 bytes in
    (set_in_flight remaining (set_ring r st),
     mk_tx (chunk tx) packet (tx_sequence tx) content 0,
     mk_job remaining
       (u16 (Z.lor (Z.shiftl (Z.land (byte_at packet 2) 0x3F) 8) (byte_at packet 3)))
       true remaining)
  else
    let n := if remaining <? RADIO_MAX_PAYLOAD then remaining else RADIO_MAX_PAYLOAD in
    let '(bytes, r) := ring_read r n in
    (set_in_flight n (set_ring r st),
     mk_tx (patch (chunk tx) 0 bytes) (packet tx)
       (patch (tx_sequence tx) content
          [u16 (Z.land (byte_at (tx_sequence tx) content + 1)
                  CCSDS_SPACE_PACKET_MAX_SEQUENCE_COUNT)])
       content (remaining - n),
     mk_job n (byte_at (tx_sequence tx) content) false 0).

Lemma tx_take_serve st tx :
  tx_take st tx
  = if count (r_ring st) =? 0 then None
    else let '(r, content, remaining) := tx_header (r_ring st) tx in
         Some (tx_serve st tx r content remaining).
Proof.
  unfold tx_take, tx_serve. destruct (_ =? 0); [done|].
  destruct (tx_header _ _) as [[r c] n]. destruct (c =? RAW_FRAME); by destruct (ring_read _ _).
Qed.

Lemma sequence_next s : 0 <= s <= 0x3FFF ->
  u16 (Z.land (s + 1) CCSDS_SPACE_PACKET_MAX_SEQUENCE_COUNT) = (s + 1) mod 16384.
Proof.
  intros. unfold CCSDS_SPACE_PACKET_MAX_SEQUENCE_COUNT.
  rewrite (land_ones_mod _ 14 0x3FFF) by done. change (2 ^ 14) with 16384. zlia.
Qed.

Lemma sequence_at_ok tx c :
  tx_wf tx -> 0 <= c < 4 -> 0 <= byte_at (tx_sequence tx) c <= 0x3FFF.
Proof.
  intros (_ & _ & _ & _ & Hl & Hs) Hc. unfold byte_at.
  rewrite List.Forall_forall in Hs. apply Hs. apply nth_In. unfold len in Hl. lia.
Qed.

(** A resend comes off the ring whole. *)
Lemma serve_raw st tx r d ms :
  tx_wf tx -> ring_wf r -> message_ok (RAW_FRAME, d) -> Forall message_ok ms ->
  contents r = d ++ concat (map encode_message ms) ->
  exists r' tx' job, tx_serve st tx r RAW_FRAME (len d)
      = (set_in_flight (len d) (set_ring r' st), tx', job)
    /\ queue_rel r' tx' (concat (map pieces ms)) /\ tx_wf tx' /\ serves (RAW_FRAME, d) tx tx' job.
Proof.
  intros Htx Hwf Hm Hms Hc. pose proof Htx as (Hch & Hcb & Hp & Hpb & Hsl & Hs).
  destruct Hm as ((Hd0 & _) & Hdb & [[? _]|[_ Hd]]); [unfold RAW_FRAME in *; lia|].
  pose proof (len_contents r Hwf) as Hlc. rewrite Hc, len_app in Hlc.
  pose proof (len_nonneg (concat (map encode_message ms))).
  destruct (ring_read_spec r (len d) Hwf) as (r' & E & Hc' & Hwf' & _); [lia|].
  rewrite Hc in E, Hc'. rewrite prefix_of_app in E by done. rewrite skip_app in Hc' by done.
  unfold tx_serve. rewrite Z.eqb_refl, E. eexists _, _, _. split; [reflexivity|].
  assert (prefix_of (len d) (patch (packet tx) 0 d) = d) as Hpre
    by (rewrite patch_0; by apply prefix_of_app).
  split; [|split].
  - split; [done|]. exists [], ms. split; [|done]. split; [done|]. split; [done|by left].
  - unfold tx_wf. cbn [chunk packet tx_sequence]. rewrite len_patch by lia.
    split_and!; auto with flight.
  - cbn [serves j_n]. split; [done|]. rewrite Z.eqb_refl. split_and!; cbn; try done.
    rewrite !byte_at_patch by lia. rewrite !decide_True by lia.
    change (2 - 0) with 2. change (3 - 0) with 3.
    pose proof (byte_at_ok d 2 Hdb). pose proof (byte_at_ok d 3 Hdb).
    assert (0 <= Z.land (byte_at d 2) 0x3F < 64) as Hland
      by (rewrite (land_ones_mod _ 6) by done; apply Z.mod_pos_bound; lia).
    rewrite be16_value by (zlia || done). zlia.
Qed.

(** A piece of an ordinary message comes off the ring. *)
Lemma serve_piece st tx r c cur ms :
  tx_wf tx -> ring_wf r -> cur <> [] -> bytes_ok cur -> 0 <= c < 4 -> (c = 2 -> (214 | len cur)) ->
  Forall message_ok ms -> contents r = cur ++ concat (map encode_message ms) ->
  let d := prefix_of RADIO_MAX_PAYLOAD cur in
  let rest := skip RADIO_MAX_PAYLOAD cur in
  exists r' tx' job, tx_serve st tx r c (len cur)
      = (set_in_flight (len d) (set_ring r' st), tx', job)
    /\ queue_rel r' tx' (map (pair c) (cut (length rest) rest) ++ concat (map pieces ms))
    /\ tx_wf tx' /\ serves (c, d) tx tx' job /\ piece_ok (c, d).
Proof.
  intros Htx Hwf Hne Hb Hcr H2 Hms Hc d rest. pose proof Htx as (Hch & Hcb & Hp & Hpb & Hsl & Hs).
  pose proof (len_contents r Hwf) as Hlc. rewrite Hc, len_app in Hlc.
  pose proof (len_nonneg (concat (map encode_message ms))).
  assert (0 < len cur) as Hpos by (destruct (Z.eq_dec (len cur) 0); [by apply len_0_nil in e|pose proof (len_nonneg cur); lia]).
  assert (len d = if len cur <? 214 then len cur else 214) as Hld.
  { unfold d. rewrite max_payload_value. split_ifs; bool_facts.
    - rewrite prefix_of_all by lia. done.
    - apply len_prefix_of. lia. }
  assert (0 < len d <= 214 /\ len d <= len cur) as Hdr by (rewrite Hld; split_ifs; bool_facts; lia).
  assert (prefix_of (len d) cur = d) as Hpd.
  { unfold d in *. rewrite max_payload_value in *. rewrite Hld. split_ifs; bool_facts; [|done].
    rewrite !prefix_of_all by lia. done. }
  assert (skip (len d) cur = rest) as Hsd.
  { unfold rest in *. rewrite max_payload_value in *. rewrite Hld. split_ifs; bool_facts; [|done].
    rewrite !skip_all by lia. done. }
  destruct (ring_read_spec r (len d) Hwf) as (r' & E & Hc' & Hwf' & _); [lia|].
  rewrite Hc in E, Hc'. rewrite prefix_of_app_le, Hpd in E by lia.
  rewrite skip_app_le, Hsd in Hc' by lia.
  unfold tx_serve. rewrite max_payload_value, <- Hld.
  assert ((c =? RAW_FRAME) = false) as Hraw by (apply Z.eqb_neq; unfold RAW_FRAME; lia).
  rewrite Hraw, E. eexists _, _, _. split; [reflexivity|].
  pose proof (sequence_at_ok _ c Htx Hcr) as Hseq. rewrite sequence_next by done.
  assert (bytes_ok d) by (unfold d; auto with flight).
  split; [|split; [|split]].
  - split; [done|]. exists rest, ms. split; [|done]. split; [|split; [unfold rest; auto with flight|]].
    + cbn [message_left]. unfold rest. rewrite max_payload_value, len_skip, Hld by lia.
      split_ifs; bool_facts; lia.
    + right. split; [done|]. intros Hc2. destruct (H2 Hc2) as [k Hk].
      unfold rest. rewrite max_payload_value, len_skip by lia. exists (Z.max 0 (k - 1)). lia.
  - unfold tx_wf. cbn [chunk packet tx_sequence].
    rewrite !len_patch by (rewrite ?len_cons, ?len_nil; lia).
    split_and!; auto with flight. unfold patch. rewrite !Forall_app.
    split_and!; auto with flight. repeat constructor; zlia.
  - cbn [serves j_n]. split; [done|]. rewrite Hraw. split_and!; try done.
    cbn [chunk]. rewrite patch_0. by apply prefix_of_app.
  - cbn [piece_ok]. rewrite max_payload_value. split_and!; [lia|done|]. left.
    split_and!; [lia|lia|lia|].
    intros ->. destruct (H2 eq_refl) as [k Hk]. rewrite Hld. split_ifs; bool_facts; lia.
Qed.

Lemma pieces_cons c d :
  message_ok (c, d) -> c <> RAW_FRAME ->
  pieces (c, d)
  = (c, prefix_of RADIO_MAX_PAYLOAD d)
    :: map (pair c) (cut (length (skip RADIO_MAX_PAYLOAD d)) (skip RADIO_MAX_PAYLOAD d)).
Proof.
  intros [Hd _] Hc. unfold pieces. cbn [fst snd]. rewrite (proj2 (Z.eqb_neq _ _) Hc).
  rewrite cut_cons; [done|]. intros ->. unfold len in Hd. cbn [length] in Hd. lia.
Qed.

Lemma len_encode_message c d : len (encode_message (c, d)) = 5 + len d.
Proof. unfold encode_message. by rewrite len_app. Qed.

(** Reading the next header off the ring. *)
Lemma header_read r c d ms :
  ring_wf r -> message_ok (c, d) ->
  contents r = concat (map encode_message ((c, d) :: ms)) ->
  exists r' h, ring_read r 5 = (h, r') /\ byte_at h 0 = c
    /\ Z.lor (Z.lor (Z.lor (Z.shiftl (byte_at h 1) 24) (Z.shiftl (byte_at h 2) 16))
               (Z.shiftl (byte_at h 3) 8)) (byte_at h 4) = len d
    /\ ring_wf r' /\ contents r' = d ++ concat (map encode_message ms).
Proof.
  intros Hwf Hm Hc. pose proof (len_contents r Hwf) as Hl. destruct Hm as ((Hd & Hd') & _ & _).
  cbn [map concat] in Hc. rewrite Hc, len_app, len_encode_message in Hl.
  pose proof (len_nonneg (concat (map encode_message ms))).
  destruct (ring_read_spec r 5 Hwf) as (r' & E & Hc' & Hwf' & _); [lia|].
  rewrite Hc in E, Hc'. change (encode_message (c, d)) with (message_header c (len d) ++ d) in E, Hc'.
  rewrite <- app_assoc in E, Hc'. rewrite prefix_of_app in E by done.
  rewrite skip_app in Hc' by done. exists r', (message_header c (len d)). split; [exact E|].
  split; [reflexivity|]. split; [by apply message_header_length; lia|done].
Qed.

(** The thread takes exactly the next piece of the queue, and waits exactly when
    there is none. *)
Lemma tx_take_spec st tx q :
  queue_rel (r_ring st) tx q -> tx_wf tx ->
  match q with
  | [] => tx_take st tx = None
  | m :: q' =>
      exists r' tx' job,
        tx_take st tx = Some (set_in_flight (len (snd m)) (set_ring r' st), tx', job)
        /\ queue_rel r' tx' q' /\ tx_wf tx' /\ serves m tx tx' job /\ piece_ok m
  end.
Proof.
  intros (Hwf & cur & ms & (Hcl & Hcb & Hcc) & Hms & Hc & ->) Htx.
  pose proof (len_contents _ Hwf) as Hl. rewrite Hc, len_app in Hl. rewrite tx_take_serve.
  pose proof (len_nonneg cur). pose proof (len_nonneg (concat (map encode_message ms))).
  destruct (decide (cur = [])) as [->|Hne].
  - destruct ms as [|[c d] ms].
    + cbn in Hl. rewrite <- Hl. done.
    + inversion Hms as [|? ? Hm Hms']; subst. cbn [map concat app] in Hc.
      cbn [app length cut map] in *. pose proof Hm as ((Hd & _) & Hdb & _).
      cbn [concat] in Hl. rewrite len_app, len_encode_message in Hl.
      pose proof (len_nonneg (concat (map encode_message ms))).
      rewrite (proj2 (Z.eqb_neq _ _)) by (rewrite len_nil in Hl; lia).
      destruct (header_read _ _ _ _ Hwf Hm Hc) as (r1 & h & E & Hh0 & Hh & Hwf1 & Hc1).
      unfold tx_header. rewrite <- Hcl. change (len [] =? 0) with true. unfold MESSAGE_HEADER.
      cbv iota.
      rewrite E, Hh0, Hh. destruct (decide (c = RAW_FRAME)) as [->|Hraw].
      * destruct (serve_raw st tx r1 d ms Htx Hwf1 Hm Hms' Hc1) as (r' & tx' & job & -> & ? & ? & ?).
        eexists _, _, _. split; [done|]. split_and!; try done.
        destruct Hm as (? & ? & [[? _]|[_ ?]]); [unfold RAW_FRAME in *; lia|].
        cbn [piece_ok]. split_and!; [done|done|by right].
      * assert (0 <= c < 4 /\ (c = 2 -> (214 | len d))) as [Hcr H2]
          by (destruct Hm as (_ & _ & [?|[? _]]); done).
        destruct (serve_piece st tx r1 c d ms Htx Hwf1 ltac:(intros ->; unfold len in Hd; cbn [length] in Hd; lia)
                    Hdb Hcr H2 Hms' Hc1) as (r' & tx' & job & -> & ? & ? & ? & ?).
        cbn [map concat]. rewrite pieces_cons by done. cbn [app].
        eexists _, _, _. split; [done|]. split_and!; done.
  - assert (0 < len cur) by (destruct (Z.eq_dec (len cur) 0); [by apply len_0_nil in e|lia]).
    rewrite (proj2 (Z.eqb_neq _ _)) by lia. unfold tx_header. rewrite <- Hcl.
    rewrite (proj2 (Z.eqb_neq _ _)) by lia. destruct Hcc as [->|[Hcr H2]]; [done|].
    rewrite cut_cons by done. cbn [map app].
    destruct (serve_piece st tx (r_ring st) (tx_content tx) cur ms Htx Hwf Hne Hcb Hcr H2 Hms Hc)
      as (r' & tx' & job & -> & ? & ? & ? & ?).
    eexists _, _, _. split; [done|]. split_and!; done.
Qed.

(** ** Framing and the history *)

Definition framable (c : Z) : bool := negb (c =? LG_CCSDS_CONTENT_COMPRESSED_TELEMETRY).

Lemma validate_piece c d :
  piece_ok (c, d) -> c <> RAW_FRAME -> framable c = true ->
  validate_content c 1 None (len d) = CCSDS_OK.
Proof.
  intros (Hd & _ & [(Hc & _ & H2)|[? _]]) Hr Hf; [|done]. unfold framable in Hf.
  assert (c = 0 \/ c = 1 \/ c = 2 \/ c = 3) as [-> | [-> | [-> | ->]]] by lia; try done.
  unfold validate_content. cbn. by rewrite (H2 eq_refl).
Qed.

(** The packet the thread builds for a piece. *)
Definition piece_packet (c seq : Z) (d : list Z) : list Z :=
  packet_bytes c seq 1 None d (len d).

Definition same_locals (tx tx' : tx_locals) : Prop :=
  tx_wf tx' /\ tx_sequence tx' = tx_sequence tx /\ tx_content tx' = tx_content tx
  /\ message_left tx' = message_left tx.

Lemma packet_bytes_ok c seq ic d n :
  bytes_ok d -> bytes_ok (packet_bytes c seq ic None d n).
Proof.
  intros Hd. unfold packet_bytes, packet_body. rewrite profile_header_explicit, !Forall_app.
  split_and!; auto using primary_header_bytes_ok with flight; solve_bytes_ok.
Qed.

Lemma tx_frame_spec m tx tx' job :
  serves m tx tx' job -> tx_wf tx -> tx_wf tx' -> piece_ok m ->
  let '(c, d) := m in
  if c =? RAW_FRAME
  then tx_frame tx' job = (true, tx', job) /\ prefix_of (j_packet_length job) (packet tx') = d
  else if framable c
  then exists tx'' job',
      tx_frame tx' job = (true, tx'', job')
      /\ prefix_of (j_packet_length job') (packet tx'') = piece_packet c (j_seq job) d
      /\ j_packet_length job' = 26 + len d /\ j_seq job' = j_seq job /\ j_framed job' = false
      /\ same_locals tx' tx''
  else exists tx'' job', tx_frame tx' job = (false, tx'', job') /\ same_locals tx' tx''.
Proof.
  destruct m as [c d]. intros [Hn Hs] Htx Htx' Hm. pose proof Hm as (Hd0 & Hdb & Hd).
  destruct (c =? RAW_FRAME) eqn:Er.
  - destruct Hs as (Hf & Hpl & Hp & _). unfold tx_frame. rewrite Hf, Hpl. done.
  - destruct Hs as (Hf & Hct & Hch & Hsq & Hpl & Hseq). bool_facts.
    destruct Hd as [(Hcr & Hdl & H2)|[? _]]; [|done]. rewrite max_payload_value in Hdl.
    pose proof (sequence_at_ok _ _ Htx Hcr) as Hsr. rewrite <- Hsq in Hsr.
    pose proof Htx' as (Hcl & _ & Hpk & _). unfold tx_frame. rewrite Hf, Hn, Hct.
    destruct (framable c) eqn:Ef.
    + rewrite profile_build_success; [|by apply validate_piece|lia|lia|lia|
        unfold RADIO_MAX_PACKET_SIZE; lia].
      assert (packet_bytes c (j_seq job) 1 None (chunk tx') (len d)
              = piece_packet c (j_seq job) d) as Epk.
      { unfold piece_packet, packet_bytes, packet_body. rewrite Hch.
        by rewrite (prefix_of_all (len d) d) by lia. }
      rewrite Epk. eexists _, _. split; [by rewrite bool_decide_true|].
      cbn [j_packet_length packet default from_option id j_seq j_framed].
      assert (len (piece_packet c (j_seq job) d) = 26 + len d) as Hlen
        by (unfold piece_packet; rewrite len_packet_bytes; lia).
      split_and!; try done; [by apply prefix_of_app|].
      destruct Htx' as (? & ? & ? & ? & ? & ?). split; [|done].
      unfold tx_wf. cbn [chunk packet tx_sequence default from_option id]. split_and!; try done.
      * rewrite len_app, Hlen, len_skip by lia. lia.
      * apply Forall_app. split; [|auto with flight]. unfold piece_packet. by apply packet_bytes_ok.
    + assert (c = 1) as -> by (unfold framable in Ef; apply negb_false_iff in Ef; by apply Z.eqb_eq in Ef).
      unfold lg_ccsds_profile_build. cbn [validate_content].
      unfold CCSDS_SPACE_PACKET_MAX_SEQUENCE_COUNT, LG_CCSDS_PROFILE_MAX_PAYLOAD_SIZE,
        CCSDS_SPACE_PACKET_MAX_DATA_SIZE, LG_CCSDS_PROFILE_HEADER_SIZE,
        LG_CCSDS_PROFILE_CRC_SIZE, CCSDS_SPACE_PACKET_PRIMARY_HEADER_SIZE, RADIO_MAX_PACKET_SIZE.
      rewrite !(proj2 (Z.ltb_ge _ _)) by lia. cbn.
      eexists _, _. split; [by rewrite bool_decide_false|]. by destruct Htx' as (? & ? & ? & ? & ? & ?).
Qed.

(** The three attempts of the send loop. *)
Lemma send_loop_result answers :
  tx_send true answers
  = if answers 0 =? 0 then (1, answers 0)
    else if answers 1 =? 0 then (2, answers 1) else (3, answers 2).
Proof.
  unfold tx_send. change (Z.to_nat SEND_ATTEMPTS) with 3%nat. cbn [send_loop].
  change (0 + 1) with 1. change (1 + 1) with 2. change (2 + 1) with 3.
  change (0 <? SEND_ATTEMPTS) with true. change (1 <? SEND_ATTEMPTS) with true.
  change (2 <? SEND_ATTEMPTS) with true. change (-1 =? 0) with false. cbn [andb negb].
  by destruct (answers 0 =? 0), (answers 1 =? 0).
Qed.

(** ** The whole queue at work

    Callers push and request resends while the transmit thread alternates
    between taking a piece and sending it: one step per critical section.  The
    last four fields are a log of what happened. *)

Record system := mk_system {
  y_radio : radio;
  y_tx : tx_locals;
  y_job : option tx_job;                (* the packet being sent, outside the lock *)
  y_accepted : list (Z * list Z);       (* messages and resends queued *)
  y_taken : list (Z * list Z);          (* pieces taken off the ring *)
  y_air : list (list Z);                (* packets the driver reported sent *)
  y_recent : list (list Z)              (* those that were not resends, newest first *)
}.

Definition taken_piece (tx : tx_locals) (job : tx_job) : Z * list Z :=
  if j_framed job then (RAW_FRAME, prefix_of (j_n job) (packet tx))
  else (tx_content tx, prefix_of (j_n job) (chunk tx)).

Inductive step : system -> system -> Prop :=
  | step_push content data length send_packet create_ok s ret st' :
      -2147483648 <= content <= 2147483647 ->
      (forall d, data = Some d -> bytes_ok d /\ length <= len d) -> 0 <= length ->
      radio_queue_push content data length send_packet create_ok (y_radio s) = (ret, st') ->
      step s (mk_system st' (y_tx s) (y_job s)
                (y_accepted s ++ if ret =? 0 then [(u8 content, prefix_of length (default [] data))]
                                 else [])
                (y_taken s) (y_air s) (y_recent s))
  | step_resend apid' seq s ret st' pkt :
      radio_resend apid' seq (y_radio s) = (ret, st') ->
      option_map (fun slot => prefix_of (p_length slot) (p_bytes slot))
        (resend_scan (Z.to_nat HISTORY_SIZE) 0 (history (y_radio s)) (history_next (y_radio s))
           apid' seq) = pkt ->
      step s (mk_system st' (y_tx s) (y_job s)
                (y_accepted s ++ if ret =? 0 then [(RAW_FRAME, default [] pkt)] else [])
                (y_taken s) (y_air s) (y_recent s))
  | step_take s st' tx' job :
      y_job s = None ->
      tx_take (y_radio s) (y_tx s) = Some (st', tx', job) ->
      step s (mk_system st' tx' (Some job) (y_accepted s) (y_taken s ++ [taken_piece tx' job])
                (y_air s) (y_recent s))
  | step_transmit answers s job st' tx' pkt attempts sent :
      y_job s = Some job ->
      tx_transmit (y_radio s) (y_tx s) job answers = (st', tx', pkt, attempts, sent) ->
      step s (mk_system st' tx' None (y_accepted s) (y_taken s)
                (if sent =? 0 then y_air s ++ [pkt] else y_air s)
                (if (sent =? 0) && negb (j_framed job) then pkt :: y_recent s else y_recent s)).

Inductive reachable : system -> Prop :=
  | reachable_init chunk packet :
      len chunk = RADIO_MAX_PAYLOAD -> bytes_ok chunk ->
      len packet = RADIO_MAX_PACKET_SIZE -> bytes_ok packet ->
      reachable (mk_system radio_init (tx_init chunk packet) None [] [] [] [])
  | reachable_step s s' : reachable s -> step s s' -> reachable s'.

(** What the pieces taken should look like on the air: the [k]-th piece of a
    content type carries sequence count [k mod 2^14], resends go out as they are. *)
Definition nth_of_content (c : Z) (taken : list (Z * list Z)) : Z :=
  len (filter (fun m => fst m = c) taken) mod 16384.

Definition packet_for (before : list (Z * list Z)) (m : Z * list Z) : list (list Z) :=
  let '(c, d) := m in
  if c =? RAW_FRAME then [d]
  else if framable c then [piece_packet c (nth_of_content c before) d] else [].

Fixpoint expected (before l : list (Z * list Z)) : list (list Z) :=
  match l with
  | [] => []
  | m :: l => packet_for before m ++ expected (before ++ [m]) l
  end.

Lemma expected_snoc before l m :
  expected before (l ++ [m]) = expected before l ++ packet_for (before ++ l) m.
Proof.
  revert before. induction l as [|x l IH]; intros before; cbn [expected app].
  - by rewrite !app_nil_r.
  - rewrite IH, <- !app_assoc. done.
Qed.

(** *** The history *)

Definition packet_apid (p : list Z) : Z :=
  Z.land (byte_at p 0) 0x07 * 256 + byte_at p 1.
Definition packet_seq (p : list Z) : Z :=
  Z.land (byte_at p 2) 0x3F * 256 + byte_at p 3.

Definition slot_at (st : radio) (i : Z) : sent_packet_t :=
  nth (Z.to_nat ((history_next st + HISTORY_SIZE - 1 - i) mod HISTORY_SIZE)) (history st)
    unused_slot.

Definition slot_holds (slot : sent_packet_t) (p : option (list Z)) : Prop :=
  len (p_bytes slot) = 240 /\ bytes_ok (p_bytes slot) /\
  match p with
  | None => used slot = false
  | Some p => used slot = true /\ apid slot = packet_apid p /\ sequence slot = packet_seq p
              /\ p_length slot = len p /\ prefix_of (len p) (p_bytes slot) = p
  end.

(** [recent] lists the packets sent, newest first; the history holds the newest
    [HISTORY_SIZE] of them. *)
Definition history_rel (st : radio) (recent : list (list Z)) : Prop :=
  length (history st) = 600%nat /\ 0 <= history_next st < 600
  /\ forall i, 0 <= i < 600 -> slot_holds (slot_at st i) (recent !! Z.to_nat i).

Definition packet_matches (apid' seq : Z) (p : list Z) : bool :=
  (packet_apid p =? apid') && (packet_seq p =? seq).

Lemma resend_scan_spec st recent apid' seq fuel i :
  history_rel st recent -> 0 <= i -> i + Z.of_nat fuel = 600 ->
  match find (packet_matches apid' seq) (take fuel (drop (Z.to_nat i) recent)) with
  | Some p => exists slot,
      resend_scan fuel i (history st) (history_next st) apid' seq = Some slot
      /\ slot_holds slot (Some p)
  | None => resend_scan fuel i (history st) (history_next st) apid' seq = None
  end.
Proof.
  intros (Hl & Hn & Hs). revert i. induction fuel as [|fuel IH]; intros i Hi Hf.
  { by rewrite take_0. }
  specialize (Hs i ltac:(lia)) as Hslot. cbn [resend_scan].
  change (nth (Z.to_nat ((history_next st + HISTORY_SIZE - 1 - i) mod HISTORY_SIZE)) (history st)
            unused_slot) with (slot_at st i).
  specialize (IH (i + 1) ltac:(lia) ltac:(lia)).
  replace (Z.to_nat (i + 1)) with (S (Z.to_nat i)) in IH by lia.
  destruct (recent !! Z.to_nat i) as [p|] eqn:Ep.
  - rewrite (drop_S _ _ _ Ep). cbn [take find]. destruct Hslot as (Hb & Hbb & Hu & Ha & Hq & Hrest).
    rewrite Hu, Ha, Hq. unfold packet_matches at 1. cbn [andb].
    destruct (_ && _); [by exists (slot_at st i)|]. done.
  - destruct Hslot as (_ & _ & Hu). rewrite Hu. cbn [andb].
    apply lookup_ge_None in Ep. rewrite drop_ge in IH |- * by lia.
    rewrite take_nil in *. done.
Qed.

(** Sending a fresh packet pushes it in front of the history. *)
Lemma tx_finish_history st tx job attempts sent recent p :
  history_rel st recent -> len (packet tx) = 240 -> bytes_ok (packet tx) ->
  p = prefix_of (j_packet_length job) (packet tx) ->
  (sent = 0 -> j_framed job = false ->
   4 <= j_packet_length job <= 240 /\ j_seq job = packet_seq p) ->
  history_rel (tx_finish st tx job attempts sent)
    (if (sent =? 0) && negb (j_framed job) then p :: recent else recent).
Proof.
  intros (Hl & Hn & Hs) Hp Hpb -> Hnew. unfold tx_finish. cbv zeta.
  destruct ((sent =? 0) && negb (j_framed job)) eqn:E; [|done]. bool_facts.
  destruct Hnew as [Hlen Hseq]; [done..|]. unfold history_rel, slot_at.
  cbn [history history_next set_in_flight]. rewrite length_insert.
  set (slot := mk_sent _ _ _ _ _). unfold HISTORY_SIZE.
  split; [done|]. split; [apply Z.mod_pos_bound; lia|]. intros i Hi.
  rewrite nth_lookup.
  destruct (decide (i = 0)) as [->|Hi0].
  - replace (((history_next st + 1) mod 600 + 600 - 1 - 0) mod 600) with (history_next st) by zlia.
    rewrite list_lookup_insert_eq by lia. cbn [default from_option id]. change (Z.to_nat 0) with 0%nat.
    assert (len (prefix_of (j_packet_length job) (packet tx)) = j_packet_length job) as Hlp
      by (apply len_prefix_of; lia).
    assert (len (p_bytes (nth (Z.to_nat (history_next st)) (history st) unused_slot)) = 240
      /\ bytes_ok (p_bytes (nth (Z.to_nat (history_next st)) (history st) unused_slot))) as [H240 Hob].
    { specialize (Hs 599 ltac:(lia)) as (Hb & Hbb & _). unfold slot_at, HISTORY_SIZE in Hb, Hbb.
      replace ((history_next st + 600 - 1 - 599) mod 600) with (history_next st) in Hb, Hbb by zlia.
      done. }
    split; [|split]; cbn [slot p_bytes used apid sequence p_length lookup list_lookup].
    + rewrite len_patch; lia.
    + auto with flight.
    + split_and!; [done| |done|by rewrite Hlp|].
      * unfold packet_apid. rewrite !byte_at_prefix_of by lia.
        pose proof (byte_at_ok (packet tx) 0 Hpb). pose proof (byte_at_ok (packet tx) 1 Hpb).
        assert (0 <= Z.land (byte_at (packet tx) 0) 7 < 8) as Hland
          by (rewrite (land_ones_mod _ 3) by done; apply Z.mod_pos_bound; lia).
        rewrite be16_value by (zlia || done). zlia.
      * rewrite patch_0. apply prefix_of_app. done.
  - rewrite list_lookup_insert_ne by zlia. rewrite <- nth_lookup.
    replace (((history_next st + 1) mod 600 + 600 - 1 - i) mod 600)
      with ((history_next st + HISTORY_SIZE - 1 - (i - 1)) mod HISTORY_SIZE)
      by (unfold HISTORY_SIZE; zlia).
    specialize (Hs (i - 1) ltac:(lia)). replace (Z.to_nat i) with (S (Z.to_nat (i - 1))) by lia.
    exact Hs.
Qed.

Lemma history_rel_same st st' recent :
  history st' = history st -> history_next st' = history_next st ->
  history_rel st recent -> history_rel st' recent.
Proof. unfold history_rel, slot_at. by intros -> ->. Qed.

(** *** Pushing, in full *)

Lemma radio_queue_push_spec content data n snd cok st tx q :
  queue_rel (r_ring st) tx q -> -2147483648 <= content <= 2147483647 ->
  (forall d, data = Some d -> bytes_ok d /\ n <= len d) -> 0 <= n ->
  exists ret st', radio_queue_push content data n snd cok st = (ret, st')
    /\ history st' = history st /\ history_next st' = history_next st
    /\ ((ret = 0 /\ exists d, data = Some d /\ message_ok (u8 content, prefix_of n d)
         /\ u8 content <> RAW_FRAME
         /\ count (r_ring st') = count (r_ring st) + n + 5
         /\ queue_rel (r_ring st') tx (q ++ pieces (u8 content, prefix_of n d)))
        \/ (ret = -1 /\ r_ring st' = r_ring st)).
Proof.
  intros Hrel Hint Hd Hn. unfold radio_queue_push.
  set (bad := _ || _). destruct bad eqn:Ebad.
  { eexists _, _. split; [done|]. split_and!; try done. by right. }
  destruct (negb (thread_started st) && negb cok).
  { eexists _, _. split; [done|]. split_and!; try done. by right. }
  subst bad. destruct data as [d|]; [|done]. destruct (Hd d eq_refl) as [Hb Hnd].
  destruct snd as [snd|]; [|by rewrite !orb_true_r in Ebad].
  bool_facts. unfold CONTENT_TYPES, LG_CCSDS_CONTENT_SSDV, LG_CCSDS_SSDV_PACKET_SIZE in *.
  assert (0 <= content < 4) as Hc by zlia.
  assert (u8 content = content) as -> by zlia.
  assert (message_ok (content, prefix_of n d)) as Hm.
  { cbn [message_ok]. rewrite len_prefix_of by lia. split_and!; auto with flight; try lia.
    left. split; [done|]. intros ->.
    match goal with Hs : _ \/ negb _ = false |- _ => destruct Hs as [?|Hs]; [done|];
      apply negb_false_iff, Z.eqb_eq in Hs; by apply Z.mod_divide in Hs end. }
  set (st1 := if thread_started st then st else set_started (Some snd) st).
  assert (r_ring st1 = r_ring st /\ history st1 = history st /\ history_next st1 = history_next st)
    as (Er & Eh & En) by (unfold st1; by destruct (thread_started st)).
  destruct (push_locked_spec content d n st1 tx q) as [Hfit Hfull];
    [by rewrite Er|done|lia|done|].
  rewrite Er in Hfit, Hfull. change (default [] (Some d)) with d.
  destruct (decide (count (r_ring st) + n + 5 <= RADIO_QUEUE_SIZE)) as [Hle|Hle].
  - destruct (Hfit Hle) as (r & s & -> & Hq & Hcnt). eexists _, _. split; [done|].
    cbn [history history_next set_stats set_ring r_ring]. rewrite Eh, En. split_and!; try done.
    left. split; [done|]. exists d. split_and!; try done. unfold RAW_FRAME. lia.
  - rewrite Hfull by lia. eexists _, _. split; [done|].
    cbn [history history_next set_stats r_ring]. split_and!; [done..|]. right. by rewrite Er.
Qed.

(** *** The invariant *)

Definition good_packet (taken : list (Z * list Z)) (p : list Z) : Prop :=
  exists c seq d, p = piece_packet c seq d /\ piece_ok (c, d) /\ c <> RAW_FRAME
    /\ framable c = true /\ 0 <= seq <= 0x3FFF /\ (c, d) ∈ taken.

Definition sequences_ok (tx : tx_locals) (taken : list (Z * list Z)) : Prop :=
  forall c, 0 <= c < 4 -> byte_at (tx_sequence tx) c = nth_of_content c taken.

Definition job_ok (s : system) : Prop :=
  match y_job s with
  | None => y_air s `sublist_of` expected [] (y_taken s)
  | Some job =>
      exists tx0 pre m, y_taken s = pre ++ [m] /\ y_air s `sublist_of` expected [] pre
        /\ serves m tx0 (y_tx s) job /\ tx_wf tx0 /\ piece_ok m /\ sequences_ok tx0 pre
        /\ (fst m = RAW_FRAME -> snd m ∈ y_recent s)
  end.

Record system_inv (s : system) (q : list (Z * list Z)) : Prop := {
  inv_rel : queue_rel (r_ring (y_radio s)) (y_tx s) q;
  inv_tx : tx_wf (y_tx s);
  inv_log : concat (map pieces (y_accepted s)) = y_taken s ++ q;
  inv_pieces : Forall piece_ok (y_taken s);
  inv_seq : sequences_ok (y_tx s) (y_taken s);
  inv_history : history_rel (y_radio s) (y_recent s);
  inv_recent : Forall (good_packet (y_taken s)) (y_recent s);
  inv_sent : Forall (fun p => p ∈ y_air s) (y_recent s);
  inv_raw : forall d, (RAW_FRAME, d) ∈ y_accepted s -> d ∈ y_recent s;
  inv_job : job_ok s
}.

Lemma piece_packet_front c seq d :
  exists rest, piece_packet c seq d
    = primary_header_bytes (packet_header c seq) (20 + len d) ++ rest.
Proof. unfold piece_packet, packet_bytes, packet_body. rewrite <- app_assoc. by eexists. Qed.

Lemma piece_packet_seq c seq d :
  0 <= c < 4 -> 0 <= seq <= 0x3FFF -> packet_seq (piece_packet c seq d) = seq.
Proof.
  intros Hc Hs. destruct (piece_packet_front c seq d) as [rest ->]. unfold packet_seq.
  rewrite (land_ones_mod _ 6) by done. unfold primary_header_bytes. read_bytes.
  rewrite sequence_control_value by (apply packet_header_ok; lia).
  cbn [packet_header h_sequence_flags h_sequence_count]. rewrite shiftr_div by lia.
  change (2 ^ 6) with 64. change (2 ^ 8) with 256. zlia.
Qed.

Lemma nth_of_content_snoc c l m :
  nth_of_content c (l ++ [m])
  = if decide (fst m = c) then (nth_of_content c l + 1) mod 16384 else nth_of_content c l.
Proof.
  unfold nth_of_content. rewrite filter_app, len_app. case_decide as E.
  - rewrite filter_cons_True, filter_nil by done. rewrite len_cons, len_nil. zlia.
  - rewrite filter_cons_False, filter_nil by done. rewrite len_nil. f_equal. lia.
Qed.

Lemma packet_for_piece before c d :
  c <> RAW_FRAME -> framable c = true ->
  packet_for before (c, d) = [piece_packet c (nth_of_content c before) d].
Proof. intros Hc Hf. unfold packet_for. by rewrite (proj2 (Z.eqb_neq _ _) Hc), Hf. Qed.

Lemma elem_pieces_raw d m : (RAW_FRAME, d) ∈ pieces m -> m = (RAW_FRAME, d).
Proof.
  unfold pieces. destruct (fst m =? RAW_FRAME) eqn:E; [by intros ->%list_elem_of_singleton|].
  intros Hin. apply list_elem_of_In, in_map_iff in Hin as (x & [= Hx _] & _).
  by rewrite Hx, Z.eqb_refl in E.
Qed.

Lemma raw_accepted s q d :
  system_inv s q -> (RAW_FRAME, d) ∈ y_taken s ++ q -> d ∈ y_recent s.
Proof.
  intros Hinv Hin. apply (inv_raw _ _ Hinv). rewrite <- (inv_log _ _ Hinv) in Hin.
  apply list_elem_of_In, in_concat in Hin as (ps & Hps & Hin).
  apply in_map_iff in Hps as (m & <- & Hm). apply list_elem_of_In, elem_pieces_raw in Hin as ->.
  by apply list_elem_of_In.
Qed.

Lemma good_packet_mono taken taken' p :
  good_packet taken p -> good_packet (taken ++ taken') p.
Proof.
  intros (c & seq & d & ? & ? & ? & ? & ? & ?). exists c, seq, d. do 5 (split; [done|]).
  apply elem_of_app. by left.
Qed.

Lemma good_packet_facts taken p :
  good_packet taken p -> 26 < len p <= 240 /\ bytes_ok p.
Proof.
  intros (c & seq & d & -> & (Hd & Hb & Hc) & Hr & _). unfold piece_packet.
  rewrite len_packet_bytes by lia. rewrite max_payload_value in Hc.
  split; [destruct Hc as [?|[? _]]; [lia|done]|by apply packet_bytes_ok].
Qed.

Lemma init_inv chunk packet :
  len chunk = RADIO_MAX_PAYLOAD -> bytes_ok chunk ->
  len packet = RADIO_MAX_PACKET_SIZE -> bytes_ok packet ->
  system_inv (mk_system radio_init (tx_init chunk packet) None [] [] [] []) [].
Proof.
  intros Hc Hcb Hp Hpb. split; cbn [y_radio y_tx y_accepted y_taken y_recent y_air].
  - split.
    + unfold ring_wf, radio_init. cbn [r_ring buffer head count]. rewrite queue_size_value.
      split; [apply len_zeros; lia|]. split; [lia|]. split; [lia|]. apply Forall_replicate. zlia.
    + exists [], []. split; [split; [done|split; [done|by left]]|]. split; [done|].
      split; reflexivity.
  - unfold tx_wf, tx_init. cbn [RadioQueue.chunk RadioQueue.packet tx_sequence].
    split_and!; try done. repeat constructor; lia.
  - reflexivity.
  - constructor.
  - intros c Hcr. assert (c = 0 \/ c = 1 \/ c = 2 \/ c = 3) as [-> | [-> | [-> | ->]]] by lia; done.
  - split; [by apply length_replicate|]. split; [cbn [history_next radio_init]; lia|].
    intros i Hi. rewrite lookup_nil.
    assert (slot_at radio_init i = unused_slot) as ->.
    { unfold slot_at. cbn [history radio_init]. rewrite nth_lookup.
      destruct (replicate _ _ !! _) as [x|] eqn:E; [|reflexivity].
      by apply lookup_replicate in E as [-> _]. }
    split; [done|]. split; [apply Forall_replicate; zlia|done].
  - constructor.
  - constructor.
  - intros d Hd. by apply elem_of_nil in Hd.
  - unfold job_ok. cbn [y_job y_air y_taken expected]. constructor.
Qed.

Lemma push_inv s q content data n snd cok ret st' :
  system_inv s q -> -2147483648 <= content <= 2147483647 ->
  (forall d, data = Some d -> bytes_ok d /\ n <= len d) -> 0 <= n ->
  radio_queue_push content data n snd cok (y_radio s) = (ret, st') ->
  exists q', system_inv (mk_system st' (y_tx s) (y_job s)
    (y_accepted s ++ if ret =? 0 then [(u8 content, prefix_of n (default [] data))] else [])
    (y_taken s) (y_air s) (y_recent s)) q'.
Proof.
  intros Hinv Hint Hd Hn E.
  destruct (radio_queue_push_spec content data n snd cok (y_radio s) (y_tx s) q)
    as (ret' & st1 & E' & Eh & En & Hcase); [apply Hinv|done..|].
  rewrite E in E'. injection E' as <- <-.
  pose proof (history_rel_same _ _ _ Eh En (inv_history _ _ Hinv)) as Hh.
  destruct Hcase as [(-> & d & -> & Hm & Hraw & _ & Hq)|(-> & Er)].
  - eexists. destruct Hinv. split; cbn [y_radio y_tx y_accepted y_taken y_recent y_air]; try done.
    + by rewrite map_app, concat_app, inv_log0, <- app_assoc; cbn; rewrite app_nil_r.
    + cbn. intros d' [?|Hin]%elem_of_app; [auto|].
      apply list_elem_of_singleton in Hin as [= Hx _]. by rewrite <- Hx in Hraw.
  - exists q. destruct Hinv. cbn. rewrite app_nil_r.
    split; cbn [y_radio y_tx y_accepted y_taken y_recent y_air]; try done. by rewrite Er.
Qed.

Lemma find_In {A} (f : A -> bool) (l : list A) x : find f l = Some x -> x ∈ l.
Proof. intros [H _]%find_some. by apply list_elem_of_In. Qed.

Lemma resend_inv s q a sq ret st' pkt :
  system_inv s q -> radio_resend a sq (y_radio s) = (ret, st') ->
  option_map (fun slot => prefix_of (p_length slot) (p_bytes slot))
    (resend_scan (Z.to_nat HISTORY_SIZE) 0 (history (y_radio s)) (history_next (y_radio s)) a sq)
    = pkt ->
  exists q', system_inv (mk_system st' (y_tx s) (y_job s)
    (y_accepted s ++ if ret =? 0 then [(RAW_FRAME, default [] pkt)] else [])
    (y_taken s) (y_air s) (y_recent s)) q'.
Proof.
  intros Hinv E <-. unfold radio_resend in E.
  pose proof (resend_scan_spec _ _ a sq (Z.to_nat HISTORY_SIZE) 0 (inv_history _ _ Hinv)
                ltac:(lia) ltac:(done)) as Hscan.
  assert (ret = -1 /\ st' = y_radio s -> exists q', system_inv (mk_system st' (y_tx s) (y_job s)
    (y_accepted s ++ if ret =? 0 then [(RAW_FRAME, default [] (option_map
      (fun slot => prefix_of (p_length slot) (p_bytes slot))
      (resend_scan (Z.to_nat HISTORY_SIZE) 0 (history (y_radio s)) (history_next (y_radio s)) a sq)))]
      else []) (y_taken s) (y_air s) (y_recent s)) q') as Hfail.
  { intros [-> ->]. exists q. cbn. rewrite app_nil_r. by destruct Hinv. }
  destruct (find _ _) as [p|] eqn:Ep; [|rewrite Hscan in E; injection E as <- <-; by apply Hfail].
  destruct Hscan as (slot & Hsc & (Hlb & Hbb & _ & _ & _ & Hpl & Hp)). rewrite Hsc in E.
  destruct (thread_started _); [|injection E as <- <-; by apply Hfail].
  assert (p ∈ y_recent s) as Hin.
  { apply find_In in Ep. change (Z.to_nat 0) with 0%nat in Ep. rewrite drop_0 in Ep.
    rewrite <- (take_drop (Z.to_nat HISTORY_SIZE) (y_recent s)). apply elem_of_app. by left. }
  destruct (good_packet_facts (y_taken s) p) as [Hlen Hpb].
  { pose proof (inv_recent _ _ Hinv) as Hr. rewrite Forall_forall in Hr. by apply Hr. }
  destruct (push_locked_spec RAW_FRAME (p_bytes slot) (p_length slot) (y_radio s) (y_tx s) q)
    as [Hfit Hfull]; [apply Hinv| |lia|done|].
  { rewrite Hpl, Hp. cbn [message_ok]. split_and!; try lia; try done. }
  destruct (decide (count (r_ring (y_radio s)) + p_length slot + 5 <= RADIO_QUEUE_SIZE)) as [Hle|Hle];
    [|rewrite Hfull in E by lia; injection E as <- <-; by apply Hfail].
  destruct (Hfit Hle) as (r & st1 & Ex & Hq & _). rewrite Ex in E. injection E as <- <-.
  rewrite Hsc. cbn [option_map]. rewrite Hpl, Hp in *. eexists. destruct Hinv.
  split; cbn [y_radio y_tx y_accepted y_taken y_recent y_air set_stats set_ring r_ring]; try done.
  - by rewrite map_app, concat_app, inv_log0, <- app_assoc.
  - cbn. intros d' [?|Hx]%elem_of_app; [auto|]. by apply list_elem_of_singleton in Hx as [= ->].
Qed.

Lemma sequences_step tx tx' job pre m :
  sequences_ok tx pre -> tx_wf tx -> serves m tx tx' job -> piece_ok m ->
  sequences_ok tx' (pre ++ [m]).
Proof.
  destruct m as [c d]. intros Hseq Htx [_ Hs] (_ & _ & Hc) x Hx. rewrite nth_of_content_snoc.
  cbn [fst]. destruct (c =? RAW_FRAME) eqn:E; bool_facts.
  - destruct Hs as (_ & _ & _ & -> & _). rewrite decide_False; [by apply Hseq|].
    unfold RAW_FRAME in *. lia.
  - destruct Hs as (_ & _ & _ & _ & _ & ->). destruct Hc as [[Hc _]|[? _]]; [|done].
    pose proof Htx as (_ & _ & _ & _ & Hl & _).
    rewrite byte_at_patch by (rewrite ?len_cons, ?len_nil; lia). rewrite len_cons, len_nil.
    case_decide as E1; case_decide as E2; try lia; [|by apply Hseq].
    subst x. rewrite Z.sub_diag. unfold byte_at at 1. cbn. by rewrite Hseq.
Qed.

Lemma taken_piece_serves m tx tx' job :
  serves m tx tx' job -> taken_piece tx' job = m.
Proof.
  destruct m as [c d]. intros [Hn Hs]. unfold taken_piece.
  destruct (c =? RAW_FRAME) eqn:E; bool_facts.
  - destruct Hs as (-> & Hl & Hp & _). by rewrite Hn, Hp, E.
  - destruct Hs as (-> & -> & Hp & _). by rewrite Hn, Hp.
Qed.

Lemma take_inv s q st' tx' job :
  system_inv s q -> y_job s = None ->
  tx_take (y_radio s) (y_tx s) = Some (st', tx', job) ->
  exists q', system_inv (mk_system st' tx' (Some job) (y_accepted s)
    (y_taken s ++ [taken_piece tx' job]) (y_air s) (y_recent s)) q'.
Proof.
  intros Hinv Hj E. pose proof (tx_take_spec _ _ _ (inv_rel _ _ Hinv) (inv_tx _ _ Hinv)) as Ht.
  destruct q as [|m q]; [by rewrite E in Ht|].
  destruct Ht as (r' & tx1 & job1 & Et & Hrel & Htx & Hs & Hm).
  rewrite E in Et. injection Et as -> -> ->. rewrite (taken_piece_serves _ _ _ _ Hs).
  assert (fst m = RAW_FRAME -> snd m ∈ y_recent s) as Hraw.
  { destruct m as [c d]. cbn [fst snd]. intros ->. eapply raw_accepted; [done|].
    apply elem_of_app. right. by left. }
  exists q. pose proof Hinv as [Hrel0 Htx0 Hlog Hpc Hseq Hh Hrec Hsent Hra Hjob].
  unfold job_ok in Hjob. rewrite Hj in Hjob.
  split; cbn [y_radio y_tx y_accepted y_taken y_recent y_air]; try done.
  - by rewrite Hlog, <- app_assoc.
  - by apply Forall_app_2; [|apply Forall_singleton].
  - by eapply sequences_step.
  - eapply Forall_impl; [exact Hrec|]. intros. by apply good_packet_mono.
  - unfold job_ok. cbn [y_job y_air y_taken y_tx y_recent].
    exists (y_tx s), (y_taken s), m.
    split; [done|]. split; [done|]. split; [done|]. split; [done|]. split; [done|]. done.
Qed.

Lemma queue_rel_locals r tx tx' q :
  queue_rel r tx q -> tx_content tx' = tx_content tx -> message_left tx' = message_left tx ->
  queue_rel r tx' q.
Proof. unfold queue_rel, current_ok. by intros ? -> ->. Qed.

Lemma tx_finish_ring st tx job a sent : r_ring (tx_finish st tx job a sent) = r_ring st.
Proof. unfold tx_finish. cbv zeta. by destruct (_ && _). Qed.

Lemma packet_of_len tx n : len (packet tx) = 240 -> 0 <= n <= 240 ->
  len (prefix_of n (packet tx)) = n.
Proof. intros. apply len_prefix_of. lia. Qed.

(** What one transmission does, for a piece [m] taken after [pre]. *)
Lemma transmit_spec s job answers pre m tx0 :
  serves m tx0 (y_tx s) job -> tx_wf tx0 -> tx_wf (y_tx s) -> piece_ok m -> sequences_ok tx0 pre ->
  exists st' tx' pkt attempts sent job',
    tx_transmit (y_radio s) (y_tx s) job answers = (st', tx', pkt, attempts, sent)
    /\ st' = tx_finish (y_radio s) tx' job' attempts sent
    /\ pkt = prefix_of (j_packet_length job') (packet tx') /\ same_locals (y_tx s) tx'
    /\ j_framed job' = j_framed job
    /\ (sent = 0 -> packet_for pre m = [pkt] /\
          (j_framed job = false -> good_packet (pre ++ [m]) pkt
             /\ 4 <= j_packet_length job' <= 240 /\ j_seq job' = packet_seq pkt))
    /\ (j_framed job = true -> pkt = snd m /\ fst m = RAW_FRAME).
Proof.
  intros Hs Htx0 Htx Hm Hseq. pose proof (tx_frame_spec _ _ _ _ Hs Htx0 Htx Hm) as Hf.
  unfold tx_transmit. destruct m as [c d]. destruct Hs as [Hn Hs].
  destruct (c =? RAW_FRAME) eqn:Er.
  - destruct Hf as [-> Hp]. destruct (tx_send true answers) as [attempts sent].
    eexists _, _, _, _, _, job. split; [done|]. split; [done|]. split; [done|].
    split; [done|]. split; [done|]. rewrite Hp. destruct Hs as (Hfr & _). bool_facts. split.
    + intros _. split; [unfold packet_for; by rewrite Er|by rewrite Hfr].
    + by cbn.
  - destruct Hs as (Hfr & _ & _ & Hsq & _ & _). bool_facts.
    pose proof Hm as (Hd & Hdb & [(Hc & Hl & H2)|[? _]]); [|done].
    destruct (framable c) eqn:Ef.
    + destruct Hf as (tx'' & job' & -> & Hp & Hpl & Hjs & Hjf & Hloc).
      destruct (tx_send true answers) as [attempts sent].
      eexists _, _, _, _, _, job'. split; [done|]. split; [done|]. split; [done|].
      split; [done|]. split; [congruence|]. rewrite Hp. split; [|congruence]. intros _.
      rewrite packet_for_piece, <- Hseq, Hsq by done. split; [done|]. intros _.
      pose proof (sequence_at_ok _ _ Htx0 Hc) as Hsr. rewrite max_payload_value in Hl.
      split; [|split; [lia|rewrite Hjs, Hsq; by rewrite piece_packet_seq]].
      exists c, (byte_at (tx_sequence tx0) c), d. do 5 (split; [done|]).
      apply elem_of_app. right. by left.
    + destruct Hf as (tx'' & job' & E & Hloc). rewrite E.
      eexists _, _, _, _, _, job'. split; [done|]. split; [done|]. split; [done|].
      split; [done|].
      assert (j_framed job' = false) as Hjf.
      { unfold tx_frame in E. rewrite Hfr in E. destruct (lg_ccsds_profile_build _ _ _ _ _ _ _ _ _) as [[? ?] ?].
        by injection E as _ _ <-. }
      split; [congruence|]. split; [done|congruence].
Qed.

Lemma transmit_inv s q answers job st' tx' pkt attempts sent :
  system_inv s q -> y_job s = Some job ->
  tx_transmit (y_radio s) (y_tx s) job answers = (st', tx', pkt, attempts, sent) ->
  system_inv (mk_system st' tx' None (y_accepted s) (y_taken s)
    (if sent =? 0 then y_air s ++ [pkt] else y_air s)
    (if (sent =? 0) && negb (j_framed job) then pkt :: y_recent s else y_recent s)) q.
Proof.
  intros Hinv Hj E. pose proof Hinv as [Hrel Htx Hlog Hpc Hseq Hh Hrec Hsent Hra Hjob].
  unfold job_ok in Hjob. rewrite Hj in Hjob.
  destruct Hjob as (tx0 & pre & m & Htk & Hair & Hs & Htx0 & Hm & Hsq & Hraw).
  destruct (transmit_spec s job answers pre m tx0 Hs Htx0 Htx Hm Hsq)
    as (st1 & tx1 & pkt1 & at1 & sent1 & job' & E1 & Hst & Hpk & Hloc & Hjf & Hok & Hfr).
  rewrite E in E1. injection E1 as <- <- <- <- <-. destruct Hloc as (Htx' & Hse & Hco & Hml).
  assert (forall p, p ∈ y_recent s ->
    p ∈ (if (sent =? 0) && negb (j_framed job) then pkt :: y_recent s else y_recent s)) as Hmono.
  { intros p Hp. destruct (_ && _); [by right|done]. }
  split; cbn [y_radio y_tx y_accepted y_taken y_recent y_air]; try done.
  - rewrite Hst, tx_finish_ring. by eapply queue_rel_locals.
  - intros c Hc. rewrite Hse. by apply Hseq.
  - rewrite Hst, <- Hjf. destruct Htx' as (_ & _ & Hp240 & Hpb & _).
    apply tx_finish_history; try done. intros Hs0 Hj'. apply Hok; congruence.
  - destruct (_ && _) eqn:E2; [|done]. bool_facts. constructor; [|done].
    rewrite Htk. by apply Hok.
  - assert (Forall (fun p => p ∈ if sent =? 0 then y_air s ++ [pkt] else y_air s) (y_recent s)) as Hsent'.
    { eapply Forall_impl; [exact Hsent|]. intros p Hp. destruct (sent =? 0); [|done].
      apply elem_of_app. by left. }
    destruct (_ && _) eqn:E2; [|done]. bool_facts. constructor; [|done].
    rewrite (proj2 (Z.eqb_eq _ _)) by done. apply elem_of_app. right. by left.
  - intros d Hd. by apply Hmono, Hra.
  - unfold job_ok. cbn [y_job y_air y_taken]. rewrite Htk, expected_snoc. cbn [app].
    destruct (sent =? 0) eqn:E2; bool_facts.
    + destruct (Hok E2) as [-> _]. by apply sublist_app.
    + by apply sublist_inserts_r.
Qed.

Lemma system_reachable_inv s : reachable s -> exists q, system_inv s q.
Proof.
  induction 1 as [chunk packet|s s' Hr [q Hq] Hstep].
  - eexists. by apply init_inv.
  - destruct Hstep.
    + by eapply push_inv.
    + by eapply resend_inv.
    + by eapply take_inv.
    + exists q. by eapply transmit_inv.
Qed.

Lemma tx_take_none st tx : tx_take st tx = None <-> count (r_ring st) = 0.
Proof.
  rewrite tx_take_serve. destruct (count (r_ring st) =? 0) eqn:E; bool_facts; [done|].
  destruct (tx_header _ _) as [[r c] n]. done.
Qed.

Lemma elem_expected before l p :
  p ∈ expected before l -> exists pre m, m ∈ l /\ p ∈ packet_for pre m.
Proof.
  revert before. induction l as [|m l IH]; intros before; cbn [expected]; intros Hp.
  - by apply elem_of_nil in Hp.
  - apply elem_of_app in Hp as [Hp|Hp].
    + exists before, m. split; [by left|done].
    + destruct (IH _ Hp) as (pre & m' & ? & ?). exists pre, m'. split; [by right|done].
Qed.

Lemma air_good s q p : system_inv s q -> p ∈ y_air s -> good_packet (y_taken s) p.
Proof.
  intros Hinv Hp. assert (y_air s `sublist_of` expected [] (y_taken s)) as Hsub.
  { pose proof (inv_job _ _ Hinv) as Hj. unfold job_ok in Hj. destruct (y_job s); [|done].
    destruct Hj as (tx0 & pre & m & -> & Hs & _). rewrite expected_snoc.
    by apply sublist_inserts_r. }
  apply (elem_of_sublist _ _ p Hp) in Hsub as Hp2. destruct (elem_expected _ _ _ Hp2) as (pre & [c d] & Hm & Hin).
  pose proof (inv_pieces _ _ Hinv) as Hpc. rewrite Forall_forall in Hpc. specialize (Hpc _ Hm).
  unfold packet_for in Hin. destruct (c =? RAW_FRAME) eqn:E; bool_facts.
  - apply list_elem_of_singleton in Hin as ->. subst c.
    pose proof (inv_recent _ _ Hinv) as Hr. rewrite Forall_forall in Hr. apply Hr.
    eapply raw_accepted; [done|]. apply elem_of_app. by left.
  - destruct (framable c) eqn:Ef; [|by apply elem_of_nil in Hin].
    apply list_elem_of_singleton in Hin as ->. exists c, (nth_of_content c pre), d.
    split; [done|]. split; [done|]. split; [done|]. split; [done|]. split; [|done].
    unfold nth_of_content. pose proof (Z.mod_pos_bound (len (filter (fun m => fst m = c) pre)) 16384).
    lia.
Qed.

(** C1. Whatever the interleaving of callers and transmit thread, the ring buffer
    is a faithful first-in first-out queue: the pieces of all accepted messages,
    in the order of acceptance, are exactly the pieces the thread has taken
    followed by those still waiting; none is lost, duplicated, merged or reordered.
    The thread waits exactly when nothing is waiting, and otherwise takes the next
    piece; the ring indices stay in bounds.  What the driver reported sent is, in
    order, a part of the packets these pieces must become, each with the next
    14-bit sequence count of its content type. *)
Theorem radio_queue_fifo s :
  reachable s ->
  exists pending,
    concat (map pieces (y_accepted s)) = y_taken s ++ pending
    /\ (tx_take (y_radio s) (y_tx s) = None <-> pending = [])
    /\ (forall st' tx' job, tx_take (y_radio s) (y_tx s) = Some (st', tx', job) ->
          hd_error pending = Some (taken_piece tx' job))
    /\ y_air s `sublist_of` expected [] (y_taken s)
    /\ 0 <= head (r_ring (y_radio s)) < RADIO_QUEUE_SIZE
    /\ 0 <= count (r_ring (y_radio s)) <= RADIO_QUEUE_SIZE.
Proof.
  intros [q Hinv]%system_reachable_inv. exists q.
  pose proof (tx_take_spec _ _ _ (inv_rel _ _ Hinv) (inv_tx _ _ Hinv)) as Ht.
  destruct (inv_rel _ _ Hinv) as [(_ & Hh & Hc & _) _].
  split; [apply Hinv|]. split; [|split; [|split]]; [| | |done].
  - destruct q; [done|]. destruct Ht as (? & ? & ? & -> & _). done.
  - intros st' tx' job E. destruct q as [|m q]; [by rewrite Ht in E|].
    destruct Ht as (? & ? & ? & E' & _ & _ & Hs & _). rewrite E' in E. injection E as <- <- <-.
    cbn. by rewrite (taken_piece_serves _ _ _ _ Hs).
  - pose proof (inv_job _ _ Hinv) as Hj. unfold job_ok in Hj. destruct (y_job s); [|done].
    destruct Hj as (tx0 & pre & m & -> & Hs & _). rewrite expected_snoc. by apply sublist_inserts_r.
Qed.

Definition sample_push : Z * radio :=
  radio_queue_push 0 (Some [1; 2; 3]) 3 (Some 7) true radio_init.

Definition sample_system : system :=
  mk_system (snd sample_push) (tx_init (zeros 214) (zeros 240)) None [(0, [1; 2; 3])] [] [] [].

Lemma sample_push_ok : sample_push = (0, snd sample_push).
Proof.
  rewrite (surjective_pairing sample_push) at 1.
  apply (f_equal2 pair); [vm_compute; reflexivity|reflexivity].
Qed.

Lemma sample_reachable : reachable sample_system.
Proof.
  eapply reachable_step.
  - apply (reachable_init (zeros 214) (zeros 240)); try reflexivity;
      apply Forall_replicate; zlia.
  - refine (step_push 0 (Some [1; 2; 3]) 3 (Some 7) true
      (mk_system radio_init (tx_init (zeros 214) (zeros 240)) None [] [] [] [])
      0 (snd sample_push) _ _ _ _).
    + lia.
    + intros d [= <-]. split; [by apply bytes_ok_eval|]. unfold len. cbn. lia.
    + lia.
    + exact sample_push_ok.
Qed.

Lemma radio_queue_fifo_witness :
  exists pending,
    concat (map pieces [(0, [1; 2; 3])]) = [] ++ pending
    /\ (tx_take (y_radio sample_system) (y_tx sample_system) = None <-> pending = [])
    /\ [] `sublist_of` expected [] []
    /\ pending = [(0, [1; 2; 3])].
Proof.
  destruct (radio_queue_fifo sample_system sample_reachable) as (q & H1 & H2 & _ & H3 & _).
  exists q. split; [exact H1|]. split; [exact H2|]. split; [exact H3|].
  symmetry. exact H1.
Defined.

Lemma piece_packet_parses c seq d v0 :
  piece_ok (c, d) -> c <> RAW_FRAME -> framable c = true -> 0 <= seq <= 0x3FFF ->
  exists v, lg_ccsds_profile_parse (Some (piece_packet c seq d)) (len (piece_packet c seq d))
              (Some v0) = (CCSDS_OK, Some v)
    /\ content_type (metadata v) = c /\ sequence_count (metadata v) = seq
    /\ payload_length v = len d /\ prefix_of (len d) (payload v) = d.
Proof.
  intros Hm Hr Hf Hs. pose proof Hm as (Hd & Hb & [(Hc & Hl & _)|[? _]]); [|done].
  rewrite max_payload_value in Hl.
  destruct (parse_packet_bytes c seq 1 None d (len d) [] v0) as (v & Hv & Hmd & Hpl & Hp & _);
    try lia; try done; [by apply validate_piece|].
  rewrite app_nil_r in Hv. exists v. unfold piece_packet. rewrite len_packet_bytes by lia.
  rewrite Hmd. split; [done|]. split; [done|]. split; [done|]. split; [done|].
  rewrite Hp. apply prefix_of_all. lia.
Qed.

(** Everything that goes on the air is usable by the receiver: every packet
    the driver reported sent, resends included, fits in one radio packet of 240
    bytes, passes [lg_ccsds_profile_parse], and carries as its payload one of the
    pieces of an accepted message under that message's content type. *)
Theorem radio_air_payloads s p v0 :
  reachable s -> p ∈ y_air s ->
  26 < len p <= 240
  /\ exists v c d,
      lg_ccsds_profile_parse (Some p) (len p) (Some v0) = (CCSDS_OK, Some v)
      /\ content_type (metadata v) = c /\ prefix_of (payload_length v) (payload v) = d
      /\ (c, d) ∈ concat (map pieces (y_accepted s)).
Proof.
  intros [q Hinv]%system_reachable_inv Hp. pose proof (air_good _ _ _ Hinv Hp) as Hg.
  split; [by apply (good_packet_facts (y_taken s))|].
  destruct Hg as (c & seq & d & -> & Hm & Hr & Hf & Hs & Hin).
  destruct (piece_packet_parses c seq d v0 Hm Hr Hf Hs) as (v & Hv & Hc & _ & Hpl & Hpay).
  exists v, c, d. split; [done|]. split; [done|]. split; [by rewrite Hpl|].
  rewrite (inv_log _ _ Hinv). apply elem_of_app. by left.
Qed.

(** The sample message, taken and sent at the first attempt. *)
Definition sample_take : radio * tx_locals * tx_job :=
  match tx_take (y_radio sample_system) (y_tx sample_system) with
  | Some out => out
  | None => (radio_init, tx_init [] [], mk_job 0 0 false 0)
  end.

Definition sample_transmit : radio * tx_locals * list Z * Z * Z :=
  let '(st, tx, job) := sample_take in tx_transmit st tx job (fun _ => 0).

Definition sample_packet_sent : list Z := let '(_, _, pkt, _, _) := sample_transmit in pkt.

Lemma sample_take_ok :
  tx_take (y_radio sample_system) (y_tx sample_system) = Some sample_take.
Proof.
  unfold sample_take. destruct (tx_take _ _) eqn:E; [reflexivity|].
  apply tx_take_none in E. assert (count (r_ring (y_radio sample_system)) = 8) as E8
    by (vm_compute; reflexivity). rewrite E8 in E. discriminate.
Qed.

Lemma sample_sent_reachable :
  exists s, reachable s /\ sample_packet_sent ∈ y_air s /\ y_recent s = [sample_packet_sent]
    /\ y_accepted s = [(0, [1; 2; 3])] /\ thread_started (y_radio s) = true.
Proof.
  pose proof sample_take_ok as Et. destruct sample_take as [[st1 tx1] job1] eqn:E1.
  assert (snd sample_transmit = 0 /\ j_framed (snd sample_take) = false
    /\ thread_started (fst (fst (fst (fst sample_transmit)))) = true) as (H0 & Hf & Hts)
    by (vm_compute; split; [reflexivity|split; reflexivity]).
  unfold sample_packet_sent. destruct sample_transmit as [[[[st2 tx2] pkt] a] sent] eqn:E2.
  unfold sample_transmit in E2. rewrite E1 in E2, Hf. cbn [fst snd] in H0, Hf, Hts.
  eexists. split; [eapply reachable_step;
    [eapply reachable_step; [exact sample_reachable|by eapply step_take]|]|].
  - by apply (step_transmit (fun _ => 0) (mk_system st1 tx1 (Some job1) _ _ _ _) job1 st2 tx2 pkt a sent).
  - cbn [y_air y_recent y_accepted y_radio sample_system]. rewrite H0, Hf. cbn [andb negb Z.eqb app].
    split; [by left|]. split; [done|]. split; [done|done].
Qed.

Lemma radio_air_payloads_witness :
  26 < len sample_packet_sent <= 240
  /\ exists v c d,
      lg_ccsds_profile_parse (Some sample_packet_sent) (len sample_packet_sent) (Some sample_view)
        = (CCSDS_OK, Some v)
      /\ content_type (metadata v) = c /\ prefix_of (payload_length v) (payload v) = d
      /\ (c, d) ∈ [(0, [1; 2; 3])].
Proof.
  destruct sample_sent_reachable as (s & Hr & Hin & _ & Ha & _).
  pose proof (radio_air_payloads s sample_packet_sent sample_view Hr Hin) as H.
  rewrite Ha in H. exact H.
Defined.

Lemma push_locked_effect c d n st :
  ring_wf (r_ring st) -> bytes_ok d -> byte_ok c -> 0 <= n <= len d ->
  exists st', push_locked c d n st
    = (if count (r_ring st) + n + 5 <=? RADIO_QUEUE_SIZE then 0 else -1, st')
    /\ if count (r_ring st) + n + 5 <=? RADIO_QUEUE_SIZE
       then contents (r_ring st') = contents (r_ring st) ++ encode_message (c, prefix_of n d)
            /\ queue_rejects (stats st') = queue_rejects (stats st)
       else st' = st.
Proof.
  intros Hwf Hb Hc Hn. unfold push_locked, MESSAGE_HEADER.
  destruct (count (r_ring st) + n + 5 <=? RADIO_QUEUE_SIZE) eqn:E;
    case_if as E'; bool_facts; try lia; [|by eexists].
  destruct (ring_write_spec (r_ring st) (message_header c n) 5 Hwf) as (H1 & Hw1 & Hn1);
    [by apply message_header_ok|rewrite len_message_header; lia|lia|].
  destruct (ring_write_spec _ d n Hw1 Hb) as (H2 & Hw2 & Hn2); [lia|lia|].
  eexists. split; [done|]. cbn [r_ring set_stats set_ring stats]. rewrite H2, H1. split.
  - unfold encode_message. cbn [fst snd]. rewrite len_prefix_of, <- app_assoc by lia.
    by rewrite (prefix_of_all 5) by (rewrite len_message_header; lia).
  - unfold stats_high_water. by destruct (_ <? _).
Qed.

(** Queueing is all or nothing.  A push is accepted exactly when its arguments
    are valid (data present, length between 1 and 2^32 - 1, a known content type, whole
    SSDV packets), the transmit thread runs or can be started, and message and
    header fit in the free space; then precisely the message is appended.  A refused
    push leaves the queue as it was and counts one reject. *)
Theorem radio_queue_push_all_or_nothing s content data n snd cok :
  reachable s -> -2147483648 <= content <= 2147483647 ->
  (forall d, data = Some d -> bytes_ok d /\ n <= len d) -> 0 <= n ->
  let accepts :=
    bool_decide (data <> None) && (1 <=? n) && (n <=? 4294967295) && bool_decide (snd <> None)
    && (0 <=? content) && (content <=? 3)
    && (negb (content =? 2) || (n mod 214 =? 0))
    && (thread_started (y_radio s) || cok)
    && (count (r_ring (y_radio s)) + n + 5 <=? RADIO_QUEUE_SIZE) in
  exists ret st', radio_queue_push content data n snd cok (y_radio s) = (ret, st')
    /\ if accepts
       then ret = 0 /\ contents (r_ring st')
                       = contents (r_ring (y_radio s))
                         ++ encode_message (content, prefix_of n (default [] data))
            /\ queue_rejects (stats st') = queue_rejects (stats (y_radio s))
       else ret = -1 /\ r_ring st' = r_ring (y_radio s)
            /\ queue_rejects (stats st') = u32 (queue_rejects (stats (y_radio s)) + 1).
Proof.
  intros [q Hinv]%system_reachable_inv Hint Hd Hn accepts. unfold radio_queue_push.
  destruct (inv_rel _ _ Hinv) as [Hwf _].
  set (bad := _ || _).
  assert (accepts = negb bad && (thread_started (y_radio s) || cok)
            && (count (r_ring (y_radio s)) + n + 5 <=? RADIO_QUEUE_SIZE)) as ->.
  { unfold accepts, bad, CONTENT_TYPES, LG_CCSDS_CONTENT_SSDV, LG_CCSDS_SSDV_PACKET_SIZE.
    do 2 f_equal. clear accepts bad.
    assert ((4 <=? u32 content) = negb ((0 <=? content) && (content <=? 3))) as ->.
    { destruct (4 <=? u32 content) eqn:E1, (0 <=? content) eqn:E2, (content <=? 3) eqn:E3;
        bool_facts; try done; exfalso; zlia. }
    assert ((4294967295 <? n) = negb (n <=? 4294967295)) as -> by apply Z.ltb_antisym.
    assert ((n =? 0) = negb (1 <=? n)) as ->
      by (destruct (1 <=? n) eqn:E1, (n =? 0) eqn:E2; bool_facts; lia).
    destruct data, snd; cbn [bool_decide decide_rel negb andb orb];
      rewrite ?bool_decide_true, ?bool_decide_false by (done || (intros Hx; by apply Hx)).
    all: destruct (1 <=? n), (n <=? 4294967295), (0 <=? content), (content <=? 3), (content =? 2),
      (n mod 214 =? 0); done. }
  destruct bad eqn:Eb; cbn [negb andb].
  { eexists _, _. split; [done|]. done. }
  destruct (negb (thread_started (y_radio s)) && negb cok) eqn:Est.
  { assert (thread_started (y_radio s) || cok = false) as ->
      by (by destruct (thread_started (y_radio s)), cok). eexists _, _. split; [done|]. done. }
  assert (thread_started (y_radio s) || cok = true) as ->
    by (by destruct (thread_started (y_radio s)), cok).
  unfold bad in Eb. clear bad. destruct data as [d|]; [|done]. destruct (Hd d eq_refl) as [Hb Hnd].
  bool_facts. unfold CONTENT_TYPES in *. assert (0 <= content < 4) as Hc by zlia.
  assert (u8 content = content) as -> by zlia.
  set (st1 := if thread_started (y_radio s) then _ else _).
  assert (r_ring st1 = r_ring (y_radio s) /\ stats st1 = stats (y_radio s)) as [Er Es]
    by (unfold st1; by destruct (thread_started _)).
  change (default [] (Some d)) with d. rewrite <- Er, <- Es.
  destruct (push_locked_effect content d n st1) as (st2 & Hst & Heff);
    [by rewrite Er|done|zlia|lia|].
  cbn [andb]. rewrite Hst. destruct (_ <=? _).
  - eexists _, _. split; [done|]. done.
  - eexists _, _. split; [done|]. cbn [r_ring set_stats stats]. by rewrite Heff.
Qed.

Lemma radio_queue_push_all_or_nothing_witness :
  exists ret st', radio_queue_push 2 (Some (zeros 215)) 214 (Some 7) false (y_radio sample_system)
      = (ret, st')
    /\ ret = 0 /\ contents (r_ring st') = contents (r_ring (y_radio sample_system))
                    ++ encode_message (2, prefix_of 214 (zeros 215)).
Proof.
  destruct (radio_queue_push_all_or_nothing sample_system 2 (Some (zeros 215)) 214 (Some 7) false
              sample_reachable) as (ret & st' & E & H).
  - lia.
  - intros d [= <-]. split; [apply Forall_replicate; zlia|rewrite len_zeros; lia].
  - lia.
  - match type of H with if ?b then _ else _ => assert (b = true) as Hb by (vm_compute; reflexivity) end.
    rewrite Hb in H. exists ret, st'. split; [exact E|]. destruct H as (H1 & H2 & _).
    split; [exact H1|exact H2].
Defined.

(** A resend request is served from the last 600 first-time packets: if some
    of them carries the requested APID and sequence count, the newest such packet
    is appended to the queue, byte for byte (or refused for lack of space);
    otherwise the request fails and nothing changes. *)
Theorem radio_resend_newest s a sq :
  reachable s -> thread_started (y_radio s) = true ->
  exists ret st', radio_resend a sq (y_radio s) = (ret, st') /\
    match find (packet_matches a sq) (take 600 (y_recent s)) with
    | Some p =>
        if count (r_ring (y_radio s)) + len p + 5 <=? RADIO_QUEUE_SIZE
        then ret = 0 /\ contents (r_ring st')
                        = contents (r_ring (y_radio s)) ++ encode_message (RAW_FRAME, p)
        else ret = -1 /\ st' = y_radio s
    | None => ret = -1 /\ st' = y_radio s
    end.
Proof.
  intros [q Hinv]%system_reachable_inv Hts. unfold radio_resend.
  pose proof (resend_scan_spec _ _ a sq (Z.to_nat HISTORY_SIZE) 0 (inv_history _ _ Hinv)
                ltac:(lia) ltac:(done)) as Hscan.
  change (Z.to_nat 0) with 0%nat in Hscan. rewrite drop_0 in Hscan.
  change (Z.to_nat HISTORY_SIZE) with 600%nat in *.
  destruct (find _ _) as [p|] eqn:Ep; [|rewrite Hscan; by eexists _, _].
  destruct Hscan as (slot & -> & (Hlb & Hbb & _ & _ & _ & Hpl & Hp)). rewrite Hts, Hpl.
  assert (p ∈ y_recent s) as Hin.
  { apply find_In in Ep. rewrite <- (take_drop 600 (y_recent s)). apply elem_of_app. by left. }
  destruct (good_packet_facts (y_taken s) p) as [Hlen Hpb].
  { pose proof (inv_recent _ _ Hinv) as Hr. rewrite Forall_forall in Hr. by apply Hr. }
  destruct (inv_rel _ _ Hinv) as [Hwf _].
  destruct (push_locked_effect RAW_FRAME (p_bytes slot) (len p) (y_radio s)) as (st' & E & Heff);
    [done|done|done|lia|].
  rewrite E. eexists _, _. split; [done|]. rewrite Hp in Heff.
  destruct (_ <=? _); [|done]. by destruct Heff.
Qed.

Lemma radio_resend_newest_witness :
  exists s ret st',
    radio_resend (packet_apid sample_packet_sent) (packet_seq sample_packet_sent) (y_radio s)
      = (ret, st')
    /\ (count (r_ring (y_radio s)) + len sample_packet_sent + 5 <= RADIO_QUEUE_SIZE ->
        ret = 0 /\ contents (r_ring st')
                   = contents (r_ring (y_radio s)) ++ encode_message (RAW_FRAME, sample_packet_sent)).
Proof.
  destruct sample_sent_reachable as (s & Hr & _ & Hrec & _ & Hts). exists s.
  destruct (radio_resend_newest s (packet_apid sample_packet_sent) (packet_seq sample_packet_sent)
              Hr Hts) as (ret & st' & E & H).
  exists ret, st'. split; [exact E|]. intros Hle. rewrite Hrec in H. cbn [take find] in H.
  unfold packet_matches in H. rewrite !Z.eqb_refl in H. cbn [andb] in H.
  apply Z.leb_le in Hle. rewrite Hle in H. exact H.
Defined.
