(* ===== verification/Deframer.v ===== *)
(** The receive side of the radio: [platform/common/radio_deframer.c] finds whole
    CCSDS packets in a stream of UART bytes.

    The buffer is the array of the code; [bytes_of] is the meaningful part of it.
    [scan] is the specification of one call of [radio_deframer_next]. *)

From S2P Require Import Prelude Crc32 SpacePacket Profile RadioQueue.

Definition FIRST_BYTE_MASK : Z := 0xE8.
Definition FIRST_BYTE_OK : Z := 0x08.

Record radio_deframer_t := mk_deframer {
  d_buf : list Z;
  d_len : Z
}.

(** [memmove(buf, buf + n, len - n)]. *)
Definition drop_front (d : radio_deframer_t) (n : Z) : radio_deframer_t :=
  mk_deframer (patch (d_buf d) 0 (prefix_of (d_len d - n) (skip n (d_buf d)))) (d_len d - n).

Definition radio_deframer_reset (d : radio_deframer_t) : radio_deframer_t :=
  mk_deframer (d_buf d) 0.

Definition radio_deframer_buffered (d : radio_deframer_t) : Z := d_len d.

Definition radio_deframer_push (d : radio_deframer_t) (s : radio_stats_t) (byte : Z)
    : radio_deframer_t * radio_stats_t :=
  let '(d, s) :=
    if d_len d =? RADIO_MAX_PACKET_SIZE
    then (drop_front d 1, radio_stats_rx_skipped 1 s) else (d, s) in
  (mk_deframer (patch (d_buf d) (d_len d) [byte]) (d_len d + 1), s).

(** Line 49: the packet size announced by the length field. *)
Definition announced_total (buf : list Z) : Z :=
  CCSDS_SPACE_PACKET_PRIMARY_HEADER_SIZE
  + Z.lor (Z.shiftl (byte_at buf 4) 8) (byte_at buf 5) + 1.

Definition parses (buf : list Z) (total : Z) : bool :=
  match lg_ccsds_profile_parse (Some buf) total (Some sample_view) with
  | (CCSDS_OK, _) => true
  | _ => false
  end.

(** The loop; [None] would be running out of fuel.  The result is the value
    returned, the deframer, the counters and the caller's packet buffer. *)
Fixpoint deframer_loop (fuel : nat) (d : radio_deframer_t) (s : radio_stats_t)
    (packet : list Z) : option (Z * radio_deframer_t * radio_stats_t * list Z) :=
  match fuel with
  | O => None
  | S fuel =>
      let again s := deframer_loop fuel (drop_front d 1) (radio_stats_rx_skipped 1 s) packet in
      if d_len d =? 0 then Some (0, d, s, packet)
      else if negb (Z.land (byte_at (d_buf d) 0) FIRST_BYTE_MASK =? FIRST_BYTE_OK) then again s
      else if d_len d <? CCSDS_SPACE_PACKET_PRIMARY_HEADER_SIZE then Some (0, d, s, packet)
      else
        let total := announced_total (d_buf d) in
        if (total <? RADIO_FRAME_OVERHEAD) || (RADIO_MAX_PACKET_SIZE <? total) then again s
        else if d_len d <? total then Some (0, d, s, packet)
        else if parses (d_buf d) total
        then Some (total, drop_front d total, radio_stats_rx_packet s,
                   patch packet 0 (prefix_of total (d_buf d)))
        else again (radio_stats_rx_invalid s)
  end.

Definition radio_deframer_next (d : radio_deframer_t) (s : radio_stats_t) (packet : list Z)
    : option (Z * radio_deframer_t * radio_stats_t * list Z) :=
  deframer_loop (S (Z.to_nat (d_len d))) d s packet.

(** ** Specification *)

Definition bytes_of (d : radio_deframer_t) : list Z := prefix_of (d_len d) (d_buf d).

Definition deframer_wf (d : radio_deframer_t) : Prop :=
  len (d_buf d) = RADIO_MAX_PACKET_SIZE /\ bytes_ok (d_buf d)
  /\ 0 <= d_len d <= RADIO_MAX_PACKET_SIZE.

(** The first packet of the bytes, what was thrown away before it, and the rest. *)
Fixpoint scan (bs : list Z) : list Z * option (list Z) * list Z :=
  match bs with
  | [] => ([], None, [])
  | b :: rest =>
      let slide := let '(g, p, r) := scan rest in (b :: g, p, r) in
      if negb (Z.land b FIRST_BYTE_MASK =? FIRST_BYTE_OK) then slide
      else if len bs <? 6 then ([], None, bs)
      else
        let total := announced_total bs in
        if (total <? RADIO_FRAME_OVERHEAD) || (RADIO_MAX_PACKET_SIZE <? total) then slide
        else if len bs <? total then ([], None, bs)
        else if parses bs total then ([], Some (prefix_of total bs), skip total bs)
        else slide
  end.

Lemma max_packet_value : RADIO_MAX_PACKET_SIZE = 240.
Proof. done. Qed.

Lemma len_bytes_of d : deframer_wf d -> len (bytes_of d) = d_len d.
Proof. intros (Hl & _ & Hr). apply len_prefix_of. lia. Qed.

Lemma bytes_ok_bytes_of d : deframer_wf d -> bytes_ok (bytes_of d).
Proof. intros (_ & Hb & _). unfold bytes_of. auto with flight. Qed.

Lemma drop_front_spec d n :
  deframer_wf d -> 0 <= n <= d_len d ->
  deframer_wf (drop_front d n) /\ bytes_of (drop_front d n) = skip n (bytes_of d)
  /\ d_len (drop_front d n) = d_len d - n.
Proof.
  intros (Hl & Hb & Hr) Hn. rewrite max_packet_value in *.
  assert (len (prefix_of (d_len d - n) (skip n (d_buf d))) = d_len d - n) as Hp
    by (apply len_prefix_of; rewrite len_skip; lia).
  unfold drop_front. split; [|split; [|done]].
  - split; [|split]; cbn [d_buf d_len].
    + rewrite len_patch; rewrite ?max_packet_value; lia.
    + auto with flight.
    + rewrite max_packet_value. lia.
  - unfold bytes_of. cbn [d_buf d_len]. rewrite patch_0, prefix_of_app by done.
    rewrite prefix_skip_comm by lia. do 2 f_equal. lia.
Qed.

(** Parsing and sizing look at the announced bytes only. *)
Lemma parses_local l l' n :
  bytes_ok l -> bytes_ok l' -> n <= len l -> n <= len l' -> prefix_of n l' = prefix_of n l ->
  parses l' n = parses l n.
Proof.
  assert (forall a b, bytes_ok a -> bytes_ok b -> n <= len a -> prefix_of n b = prefix_of n a ->
            parses a n = true -> parses b n = true) as H.
  { intros a b Ha Hb Hn E. unfold parses.
    destruct (lg_ccsds_profile_parse (Some a) n _) as [[] [v|]] eqn:Ep; try done;
      [|by apply parse_profile_none in Ep].
    intros _. by destruct (parse_profile_local a b n sample_view v Ha Hb Hn E Ep) as [v' ->]. }
  intros Hl Hl' Hn Hn' E. destruct (parses l n) eqn:E1; [by apply (H l l')|].
  destruct (parses l' n) eqn:E2; [|done]. by rewrite (H l' l) in E1.
Qed.

Lemma announced_total_prefix l n :
  6 <= n -> announced_total (prefix_of n l) = announced_total l.
Proof. intros. unfold announced_total. by rewrite !byte_at_prefix_of by lia. Qed.

Lemma announced_total_pos l : bytes_ok l -> 7 <= announced_total l.
Proof.
  intros Hb. unfold announced_total, CCSDS_SPACE_PACKET_PRIMARY_HEADER_SIZE.
  pose proof (byte_at_ok l 4 Hb). pose proof (byte_at_ok l 5 Hb).
  rewrite be16_value by done. zlia.
Qed.

Definition deliver (p : option (list Z)) : list Z := default [] p.

Definition counters_ok (s : radio_stats_t) : Prop := 0 <= rx_bytes_skipped s < 4294967296.

Lemma skip_counter s k :
  rx_bytes_skipped (radio_stats_rx_skipped k s) = u32 (rx_bytes_skipped s + k).
Proof. cbn [radio_stats_rx_skipped rx_bytes_skipped]. zlia. Qed.

(** The outcome of one call, against the specification. *)
Definition next_ok (s : radio_stats_t) (packet : list Z) (spec : list Z * option (list Z) * list Z)
    (out : option (Z * radio_deframer_t * radio_stats_t * list Z)) : Prop :=
  let '(g, p, r) := spec in
  exists ret d' s' packet', out = Some (ret, d', s', packet')
    /\ deframer_wf d' /\ bytes_of d' = r /\ counters_ok s'
    /\ rx_bytes_skipped s' = u32 (rx_bytes_skipped s + len g)
    /\ match p with
       | Some pkt => ret = len pkt /\ packet' = patch packet 0 pkt
       | None => ret = 0 /\ packet' = packet
       end.

Lemma next_ok_slide s s1 packet b g p r out :
  counters_ok s -> rx_bytes_skipped s1 = rx_bytes_skipped s ->
  next_ok (radio_stats_rx_skipped 1 s1) packet (g, p, r) out -> next_ok s packet (b :: g, p, r) out.
Proof.
  intros Hs E (ret & d' & s' & packet' & -> & Hwf & Hb & Hc & Hk & Hp).
  exists ret, d', s', packet'. split_and!; try done.
  rewrite Hk, skip_counter, E, len_cons. zlia.
Qed.

Lemma bytes_of_cons d :
  deframer_wf d -> d_len d <> 0 ->
  bytes_of d = byte_at (d_buf d) 0 :: bytes_of (drop_front d 1).
Proof.
  intros Hwf Hn. pose proof Hwf as (_ & _ & Hr).
  destruct (drop_front_spec d 1 Hwf) as (_ & -> & _); [lia|].
  rewrite <- (prefix_skip 1 (bytes_of d)) at 1. unfold bytes_of at 1.
  rewrite prefix_of_prefix_of, Z.min_l by lia.
  destruct Hwf as (Hl & _). rewrite max_packet_value in *.
  by rewrite (bytes_explicit (d_buf d) 1) by lia.
Qed.

Lemma deframer_loop_spec fuel d s packet :
  deframer_wf d -> counters_ok s -> (Z.to_nat (d_len d) < fuel)%nat ->
  next_ok s packet (scan (bytes_of d)) (deframer_loop fuel d s packet).
Proof.
  revert d s. induction fuel as [|fuel IH]; intros d s Hwf Hs Hf; [lia|].
  pose proof Hwf as (Hl & Hb & Hr). rewrite max_packet_value in Hr.
  cbn [deframer_loop]. cbv zeta.
  assert (forall s1, rx_bytes_skipped s1 = rx_bytes_skipped s -> d_len d <> 0 ->
    next_ok s packet (let '(g, p, r) := scan (bytes_of (drop_front d 1)) in
                      (byte_at (d_buf d) 0 :: g, p, r))
      (deframer_loop fuel (drop_front d 1) (radio_stats_rx_skipped 1 s1) packet)) as Hslide.
  { intros s1 E Hn. destruct (drop_front_spec d 1 Hwf) as (Hwf1 & _ & Hl1); [lia|].
    specialize (IH (drop_front d 1) (radio_stats_rx_skipped 1 s1) Hwf1).
    destruct (scan _) as [[g p] r]. apply (next_ok_slide _ s1); [done|done|]. apply IH; [|lia].
    unfold counters_ok. rewrite skip_counter. apply Z.mod_pos_bound. lia. }
  assert (u32 (rx_bytes_skipped s + len (@nil Z)) = rx_bytes_skipped s) as Hid
    by (rewrite len_nil; unfold counters_ok in Hs; zlia).
  case_if as E0; bool_facts.
  { assert (bytes_of d = []) as ->
      by (apply len_0_nil; rewrite len_bytes_of; done).
    exists 0, d, s, packet. split_and!; try done. apply len_0_nil. by rewrite len_bytes_of. }
  pose proof (len_bytes_of d Hwf) as Hlb. pose proof (bytes_of_cons d Hwf E0) as Hcons.
  assert (next_ok s packet ([], None, bytes_of d) (Some (0, d, s, packet))) as Hwait
    by (by exists 0, d, s, packet).
  rewrite Hcons. cbn [scan]. rewrite <- Hcons, Hlb. unfold CCSDS_SPACE_PACKET_PRIMARY_HEADER_SIZE.
  case_if as E1; [by apply Hslide|]. case_if as E2; [done|]. bool_facts.
  assert (announced_total (bytes_of d) = announced_total (d_buf d)) as ->
    by (by apply announced_total_prefix).
  case_if as E3; [by apply Hslide|]. case_if as E4; [done|]. bool_facts.
  pose proof (announced_total_pos (d_buf d) Hb).
  assert (prefix_of (announced_total (d_buf d)) (bytes_of d)
          = prefix_of (announced_total (d_buf d)) (d_buf d)) as Hpre
    by (unfold bytes_of; rewrite prefix_of_prefix_of; f_equal; lia).
  rewrite (parses_local (d_buf d) (bytes_of d)) by
    (done || lia || by apply bytes_ok_bytes_of || (rewrite ?Hl, ?max_packet_value; lia)).
  case_if as E5; [|by apply Hslide].
  destruct (drop_front_spec d (announced_total (d_buf d)) Hwf) as (Hwf1 & Hb1 & _); [lia|].
  eexists _, _, _, _. split; [done|]. split; [done|]. split; [done|]. split; [done|].
  split; [done|]. rewrite Hpre. split; [|done]. symmetry. apply len_prefix_of.
  rewrite Hl, max_packet_value. lia.
Qed.

(** C17. Every call of [radio_deframer_next] returns, and does exactly what the
    specification [scan] says: it throws bytes away one by one until a whole valid
    packet or a possible beginning of one is at the front, hands out that packet
    with its length (or 0), keeps exactly the remaining bytes, and counts every
    byte thrown away. *)
Theorem deframer_next_refines d s packet :
  deframer_wf d -> counters_ok s ->
  next_ok s packet (scan (bytes_of d)) (radio_deframer_next d s packet).
Proof. intros. unfold radio_deframer_next. apply deframer_loop_spec; [done|done|lia]. Qed.

Definition deframer_init : radio_deframer_t := mk_deframer (zeros 240) 0.
Definition no_stats : radio_stats_t := mk_stats 0 0 0 0 0 0 0 0 0.

Definition sample_deframer : radio_deframer_t :=
  mk_deframer ([1; 9] ++ sample_packet ++ [8; 1] ++ zeros 206) 34.

Lemma deframer_next_refines_witness :
  next_ok no_stats (zeros 240) ([1; 9], Some sample_packet, [8; 1])
    (radio_deframer_next sample_deframer no_stats (zeros 240)).
Proof.
  replace ([1; 9], Some sample_packet, [8; 1]) with (scan (bytes_of sample_deframer))
    by (vm_compute; reflexivity).
  apply deframer_next_refines.
  - split; [vm_compute; reflexivity|]. split; [apply bytes_ok_eval; vm_compute; reflexivity|].
    vm_compute. split; discriminate.
  - vm_compute. split; congruence.
Defined.

(** ** Streams

    A receiver pushes each byte of the UART and asks for a packet, as
    [radio_receive] of [platform/real/drivers/radio.c] does (lines 492, 493). *)

Definition receive_byte (d : radio_deframer_t) (s : radio_stats_t) (packet : list Z) (byte : Z)
    : option (Z * radio_deframer_t * radio_stats_t * list Z) :=
  let '(d, s) := radio_deframer_push d s byte in
  radio_deframer_next d s packet.

(** The packets delivered while a stream of bytes comes in. *)
Fixpoint receive_stream (d : radio_deframer_t) (s : radio_stats_t) (packet : list Z)
    (stream : list Z) : option (list (list Z) * radio_deframer_t * radio_stats_t * list Z) :=
  match stream with
  | [] => Some ([], d, s, packet)
  | byte :: stream =>
      match receive_byte d s packet byte with
      | None => None
      | Some (r, d, s, packet) =>
          match receive_stream d s packet stream with
          | None => None
          | Some (out, d, s, packet') =>
              Some ((if r =? 0 then [] else [prefix_of r packet]) ++ out, d, s, packet')
          end
      end
  end.

Lemma push_spec d s b :
  deframer_wf d -> byte_ok b -> d_len d < 240 ->
  exists d', radio_deframer_push d s b = (d', s) /\ deframer_wf d'
    /\ bytes_of d' = bytes_of d ++ [b] /\ d_len d' = d_len d + 1.
Proof.
  intros (Hl & Hb & Hr) Hbb Hlt. rewrite max_packet_value in *. unfold radio_deframer_push.
  rewrite (proj2 (Z.eqb_neq _ _)) by (rewrite max_packet_value; lia).
  eexists. split; [done|]. split; [|split; [|done]].
  - split; [|split]; cbn [d_buf d_len]; rewrite ?max_packet_value; [|auto with flight|lia].
    rewrite len_patch; rewrite ?len_cons, ?len_nil; lia.
  - unfold bytes_of. cbn [d_buf d_len]. unfold patch. rewrite len_cons, len_nil.
    rewrite app_assoc. apply prefix_of_app.
    rewrite len_app, len_prefix_of, len_cons, len_nil by lia. lia.
Qed.

(** The specification keeps every byte: thrown away, delivered or held. *)
Lemma scan_split bs g p r :
  bytes_ok bs -> scan bs = (g, p, r) ->
  bs = g ++ deliver p ++ r
  /\ match p with
     | Some pkt => parses pkt (len pkt) = true /\ 26 <= len pkt <= 240
     | None => len r < 240
     end.
Proof.
  intros Hb. revert g p r. induction Hb as [|b rest Hbb Hb IH]; intros g p r; cbn [scan].
  { intros [= <- <- <-]. done. }
  destruct (scan rest) as [[g1 p1] r1]. specialize (IH g1 p1 r1 eq_refl).
  assert (b :: g1 ++ deliver p1 ++ r1 = (b :: g1) ++ deliver p1 ++ r1) as Happ by done.
  assert (bytes_ok (b :: rest)) as Hbr by (by constructor).
  pose proof (announced_total_pos _ Hbr).
  case_if as E1; [intros [= <- <- <-]; destruct IH as [-> ?]; done|].
  case_if as E2; [intros [= <- <- <-]; bool_facts; split; [done|lia]|].
  case_if as E3; [intros [= <- <- <-]; destruct IH as [-> ?]; done|].
  unfold RADIO_FRAME_OVERHEAD in E3. rewrite max_packet_value in E3. bool_facts.
  case_if as E4; [intros [= <- <- <-]; bool_facts; split; [done|lia]|].
  bool_facts.
  assert (len (prefix_of (announced_total (b :: rest)) (b :: rest)) = announced_total (b :: rest))
    as Hlp by (apply len_prefix_of; lia).
  case_if as E5; [|intros [= <- <- <-]; destruct IH as [-> ?]; done].
  intros [= <- <- <-]. cbn [deliver default from_option id app]. rewrite prefix_skip, Hlp.
  split; [done|]. split; [|lia].
  rewrite (parses_local (b :: rest)); auto with flight; try lia.
  rewrite prefix_of_prefix_of. f_equal. lia.
Qed.

(** One received byte, against the specification. *)
Lemma receive_byte_spec d s packet b :
  deframer_wf d -> counters_ok s -> byte_ok b -> d_len d < 240 ->
  next_ok s packet (scan (bytes_of d ++ [b])) (receive_byte d s packet b).
Proof.
  intros Hwf Hs Hb Hlt. destruct (push_spec d s b Hwf Hb Hlt) as (d' & E & Hwf' & <- & _).
  unfold receive_byte, radio_deframer_next. rewrite E. apply deframer_loop_spec; [done|done|lia].
Qed.
Lemma held_short bs b g p r :
  bytes_ok (bs ++ [b]) -> len bs < 240 -> scan (bs ++ [b]) = (g, p, r) -> len r < 240.
Proof.
  intros Hb Hl E. destruct (scan_split _ _ _ _ Hb E) as [Es Hp]. destruct p as [pkt|]; [|done].
  apply (f_equal len) in Es. rewrite !len_app in Es. cbn [deliver default from_option id] in Es.
  rewrite len_cons, len_nil in Es. pose proof (len_nonneg g). lia.
Qed.

Lemma deliver_bytes r packet p :
  len packet = 240 ->
  match p with
  | Some pkt => r = len pkt /\ 26 <= len pkt <= 240
  | None => r = 0
  end ->
  (if r =? 0 then [] else [prefix_of r (patch packet 0 (deliver p))])
  = match p with Some pkt => [pkt] | None => [] end.
Proof.
  intros Hl. destruct p as [pkt|]; [|by intros ->]. intros [-> Hr].
  rewrite (proj2 (Z.eqb_neq _ _)) by lia. cbn [deliver default from_option id].
  by rewrite patch_0, prefix_of_app.
Qed.

(** The specification of a whole stream: the packets found, each with the garbage
    thrown away before it, the garbage at the end, and the bytes still held. *)
Fixpoint scan_stream (gap bs stream : list Z)
    : list (list Z * list Z) * list Z * list Z :=
  match stream with
  | [] => ([], gap, bs)
  | b :: stream =>
      let '(g, p, r) := scan (bs ++ [b]) in
      match p with
      | Some pkt =>
          let '(l, gf, h) := scan_stream [] r stream in ((gap ++ g, pkt) :: l, gf, h)
      | None => scan_stream (gap ++ g) r stream
      end
  end.

Definition segments (l : list (list Z * list Z)) : list Z :=
  concat (map (fun '(g, p) => g ++ p) l).
Definition garbage (l : list (list Z * list Z)) : list Z := concat (map fst l).

Lemma scan_stream_split stream gap bs l gf h :
  bytes_ok bs -> bytes_ok stream -> len bs < 240 -> scan_stream gap bs stream = (l, gf, h) ->
  gap ++ bs ++ stream = segments l ++ gf ++ h
  /\ Forall (fun '(_, p) => parses p (len p) = true /\ 26 <= len p <= 240) l /\ len h < 240.
Proof.
  intros Hbs Hst. revert gap bs Hbs l gf h. induction Hst as [|b stream Hb Hst IH];
    intros gap bs Hbs l gf h Hl; cbn [scan_stream].
  { intros [= <- <- <-]. rewrite app_nil_r. done. }
  destruct (scan (bs ++ [b])) as [[g p] r] eqn:Es.
  assert (bytes_ok (bs ++ [b])) as Hbb by (rewrite Forall_app; split; [done|by constructor]).
  pose proof (held_short _ _ _ _ _ Hbb Hl Es) as Hr.
  destruct (scan_split _ _ _ _ Hbb Es) as [Esp Hp].
  assert (bytes_ok r) as Hbr by (rewrite Esp, !Forall_app in Hbb; tauto).
  assert (bs ++ b :: stream = g ++ deliver p ++ r ++ stream) as E1.
  { replace (bs ++ b :: stream) with ((bs ++ [b]) ++ stream) by (by rewrite <- app_assoc).
    by rewrite Esp, <- !app_assoc. }
  rewrite E1. destruct p as [pkt|]; cbn [deliver default from_option id].
  - destruct (scan_stream [] r stream) as [[l1 gf1] h1] eqn:Ess. intros [= <- <- <-].
    destruct (IH _ _ Hbr _ _ _ Hr Ess) as (E2 & Hall & Hh). cbn [app] in E2.
    split; [|split; [by constructor|done]].
    unfold segments. cbn [map concat]. rewrite <- !app_assoc. do 3 f_equal. by rewrite E2.
  - intros E2. destruct (IH _ _ Hbr _ _ _ Hr E2) as (E3 & Hall & Hh). split; [|done].
    rewrite <- E3, <- app_assoc. done.
Qed.

Lemma receive_stream_spec stream d s packet gap :
  deframer_wf d -> counters_ok s -> d_len d < 240 -> len packet = 240 -> bytes_ok stream ->
  let '(l, gf, h) := scan_stream gap (bytes_of d) stream in
  exists d' s' packet',
    receive_stream d s packet stream = Some (map snd l, d', s', packet')
    /\ deframer_wf d' /\ bytes_of d' = h /\ counters_ok s'
    /\ rx_bytes_skipped s' = u32 (rx_bytes_skipped s + len (garbage l) + len gf - len gap).
Proof.
  intros Hwf Hs Hl Hp Hst. revert d s packet gap Hwf Hs Hl Hp.
  induction Hst as [|b stream Hb Hst IH]; intros d s packet gap Hwf Hs Hl Hp; cbn [scan_stream].
  { exists d, s, packet. split_and!; try done. unfold counters_ok in Hs.
    change (len (garbage [])) with 0. zlia. }
  assert (bytes_ok (bytes_of d ++ [b])) as Hbb
    by (rewrite Forall_app; split; [by apply bytes_ok_bytes_of|by constructor]).
  pose proof (receive_byte_spec d s packet b Hwf Hs Hb Hl) as Hn.
  destruct (scan (bytes_of d ++ [b])) as [[g p] r] eqn:Es.
  destruct Hn as (ret & d1 & s1 & packet1 & E & Hwf1 & Hb1 & Hs1 & Hsk & Hret).
  pose proof (held_short _ _ _ _ _ Hbb ltac:(by rewrite len_bytes_of) Es) as Hr.
  destruct (scan_split _ _ _ _ Hbb Es) as [_ Hpp].
  assert (d_len d1 < 240) as Hl1 by (rewrite <- len_bytes_of, Hb1 by done; done).
  cbn [receive_stream]. rewrite E. destruct p as [pkt|].
  - destruct Hret as [-> ->]. destruct Hpp as [_ Hlp].
    specialize (IH d1 s1 (patch packet 0 pkt) [] Hwf1 Hs1 Hl1
                  ltac:(rewrite len_patch; lia)). rewrite Hb1 in IH.
    destruct (scan_stream [] r stream) as [[l gf] h].
    destruct IH as (d' & s' & packet' & -> & Hwf' & Hb' & Hs' & Hsk').
    exists d', s', packet'. rewrite (proj2 (Z.eqb_neq _ _)) by lia.
    rewrite patch_0, prefix_of_app by done. split_and!; try done.
    rewrite Hsk', Hsk. unfold garbage. cbn [map concat fst]. rewrite !len_app, len_nil. zlia.
  - destruct Hret as [-> ->]. specialize (IH d1 s1 packet (gap ++ g) Hwf1 Hs1 Hl1 Hp).
    rewrite Hb1 in IH. destruct (scan_stream (gap ++ g) r stream) as [[l gf] h].
    destruct IH as (d' & s' & packet' & -> & Hwf' & Hb' & Hs' & Hsk').
    exists d', s', packet'. split_and!; try done. rewrite Hsk', Hsk, len_app. zlia.
Qed.

(** C2. Nothing is invented or lost on the receive side.  For every stream of
    bytes, received one by one into an empty deframer, the packets handed out are
    disjoint pieces of the stream in its order, each a valid packet of 26 to 240
    bytes; all other bytes were thrown away and counted, or are the (fewer than
    240) bytes still held; and the receiver never gets stuck. *)
Theorem deframer_stream_integrity stream s packet :
  bytes_ok stream -> counters_ok s -> len packet = 240 ->
  exists l gf d' s' packet',
    receive_stream deframer_init s packet stream = Some (map snd l, d', s', packet')
    /\ stream = segments l ++ gf ++ bytes_of d'
    /\ Forall (fun p => parses p (len p) = true /\ 26 <= len p <= 240) (map snd l)
    /\ radio_deframer_buffered d' < 240
    /\ rx_bytes_skipped s' = u32 (rx_bytes_skipped s + len (garbage l) + len gf).
Proof.
  intros Hst Hs Hp.
  assert (deframer_wf deframer_init) as Hwf.
  { split; [done|]. split; [apply Forall_replicate; zlia|]. cbn [deframer_init d_len].
    rewrite max_packet_value. lia. }
  pose proof (receive_stream_spec stream deframer_init s packet [] Hwf Hs ltac:(done) Hp Hst) as Hr.
  destruct (scan_stream [] (bytes_of deframer_init) stream) as [[l gf] h] eqn:E.
  destruct Hr as (d' & s' & packet' & E' & Hwf' & <- & _ & Hsk).
  change (bytes_of deframer_init) with (@nil Z) in E.
  destruct (scan_stream_split stream [] [] l gf _ (Forall_nil_2 _) Hst ltac:(reflexivity) E)
    as (Hsp & Hall & Hh).
  exists l, gf, d', s', packet'. split; [done|]. split; [exact Hsp|]. split.
  - rewrite Forall_map. eapply Forall_impl; [exact Hall|]. by intros [g p].
  - unfold radio_deframer_buffered. rewrite <- len_bytes_of by done. split; [done|].
    rewrite Hsk, len_nil. f_equal. lia.
Qed.

Lemma deframer_stream_integrity_witness :
  exists l gf d' s' packet',
    receive_stream deframer_init no_stats (zeros 240) ([7; 8] ++ sample_packet ++ [8; 1])
      = Some (map snd l, d', s', packet')
    /\ [7; 8] ++ sample_packet ++ [8; 1] = segments l ++ gf ++ bytes_of d'
    /\ map snd l = [sample_packet].
Proof.
  destruct (deframer_stream_integrity ([7; 8] ++ sample_packet ++ [8; 1]) no_stats (zeros 240))
    as (l & gf & d' & s' & packet' & E & Hsp & _).
  - apply bytes_ok_eval. vm_compute. reflexivity.
  - vm_compute. split; congruence.
  - reflexivity.
  - exists l, gf, d', s', packet'. split; [exact E|]. split; [exact Hsp|].
    assert (option_map (fun '(out, _, _, _) => out)
      (receive_stream deframer_init no_stats (zeros 240) ([7; 8] ++ sample_packet ++ [8; 1]))
      = Some [sample_packet]) as Ho by (vm_compute; reflexivity).
    rewrite E in Ho. injection Ho as Ho. exact Ho.
Defined.

(** *** Recovery *)

Definition cannot_start (b : Z) : bool :=
  negb (Z.land b FIRST_BYTE_MASK =? FIRST_BYTE_OK).

Definition packet_valid (p : list Z) : Prop :=
  bytes_ok p /\ parses p (len p) = true /\ len p <= 240.

(** The front of a valid packet announces its length. *)
Lemma packet_valid_header p :
  packet_valid p ->
  cannot_start (byte_at p 0) = false /\ announced_total p = len p /\ 26 <= len p <= 240.
Proof.
  intros (Hb & Hp & Hl). unfold parses in Hp.
  destruct (lg_ccsds_profile_parse (Some p) (len p) _) as [[] [v|]] eqn:E; try done;
    [|by apply parse_profile_none in E].
  destruct (parse_profile_accepts _ _ _ _ Hb ltac:(done) E) as [Hc Hs Hi [Hn Hpn] _ Hpay _ Hbytes _].
  pose proof (validate_content_known _ _ _ _ Hc) as Hk.
  rewrite prefix_of_all in Hbytes by lia. unfold packet_bytes, packet_body in Hbytes.
  rewrite <- app_assoc in Hbytes.
  set (rest := (_ ++ _) ++ be32_bytes _) in Hbytes. clearbody rest.
  rewrite Hpn. split; [|split; [|lia]].
  - rewrite Hbytes. unfold primary_header_bytes, cannot_start. read_bytes.
    rewrite packet_id_value by (apply packet_header_ok; lia).
    assert (content_type (metadata v) = 0 \/ content_type (metadata v) = 1
            \/ content_type (metadata v) = 2 \/ content_type (metadata v) = 3)
      as [-> | [-> | [-> | ->]]] by lia; reflexivity.
  - unfold announced_total, CCSDS_SPACE_PACKET_PRIMARY_HEADER_SIZE. rewrite Hbytes.
    unfold primary_header_bytes. read_bytes.
    replace (u16 (20 + payload_length v - 1)) with (20 + payload_length v - 1) by zlia.
    rewrite be16_round by lia. lia.
Qed.

Lemma scan_cons b rest :
  scan (b :: rest)
  = let slide := let '(g, p, r) := scan rest in (b :: g, p, r) in
    let bs := b :: rest in
    if cannot_start b then slide
    else if len bs <? 6 then ([], None, bs)
    else let total := announced_total bs in
      if (total <? RADIO_FRAME_OVERHEAD) || (RADIO_MAX_PACKET_SIZE <? total) then slide
      else if len bs <? total then ([], None, bs)
      else if parses bs total then ([], Some (prefix_of total bs), skip total bs)
      else slide.
Proof. reflexivity. Qed.

(** While a valid packet comes in, its beginning is held; when it is complete it
    is delivered. *)
Lemma scan_packet_part p n :
  packet_valid p -> 0 < n <= len p ->
  scan (prefix_of n p)
  = if n =? len p then ([], Some p, []) else ([], None, prefix_of n p).
Proof.
  intros Hv Hn. destruct (packet_valid_header p Hv) as (Hf & Ht & Hr). destruct Hv as (Hb & Hp & _).
  assert (prefix_of n p = byte_at p 0 :: skip 1 (prefix_of n p)) as Ec.
  { rewrite <- (prefix_skip 1 (prefix_of n p)) at 1. rewrite prefix_of_prefix_of, Z.min_l by lia.
    by rewrite (bytes_explicit p 1) by lia. }
  rewrite Ec, scan_cons. cbv zeta. rewrite <- Ec, Hf, len_prefix_of by lia.
  destruct (n <? 6) eqn:E6; bool_facts.
  { by rewrite (proj2 (Z.eqb_neq _ _)) by lia. }
  rewrite announced_total_prefix, Ht by lia. unfold RADIO_FRAME_OVERHEAD. rewrite max_packet_value.
  rewrite !(proj2 (Z.ltb_ge _ _)) by lia. cbn [orb].
  destruct (n =? len p) eqn:En; bool_facts.
  - subst n. rewrite prefix_of_all, Z.ltb_irrefl, Hp, prefix_of_all, skip_all by lia. done.
  - by rewrite (proj2 (Z.ltb_lt _ _)) by lia.
Qed.

Lemma scan_stream_packet p stream gap n :
  packet_valid p -> 0 <= n < len p ->
  scan_stream gap (prefix_of n p) (skip n p ++ stream)
  = let '(l, gf, h) := scan_stream [] [] stream in ((gap, p) :: l, gf, h).
Proof.
  intros Hv Hn. remember (Z.to_nat (len p - n)) as k eqn:Hk. revert n Hn Hk.
  induction k as [|k IH]; intros n Hn Hk; [lia|].
  assert (skip n p = byte_at p n :: skip (n + 1) p) as ->.
  { rewrite <- (prefix_skip 1 (skip n p)) at 1. rewrite skip_skip by lia.
    rewrite bytes_explicit by (rewrite len_skip; lia). change (seqZ 0 1) with [0]. cbn [map app].
    by rewrite byte_at_skip, Z.add_0_r by lia. }
  cbn [app scan_stream]. rewrite <- prefix_of_byte_at by lia.
  rewrite scan_packet_part by (done || lia). destruct (n + 1 =? len p) eqn:E; bool_facts.
  - rewrite E, skip_all, app_nil_r by lia. done.
  - rewrite app_nil_r. apply IH; lia.
Qed.

Lemma scan_stream_junk junk stream gap :
  Forall (fun b => cannot_start b = true) junk ->
  scan_stream gap [] (junk ++ stream) = scan_stream (gap ++ junk) [] stream.
Proof.
  intros Hj. revert gap. induction Hj as [|b junk Hb Hj IH]; intros gap.
  - by rewrite app_nil_r.
  - cbn [app scan_stream]. rewrite scan_cons, Hb. cbn [scan]. rewrite IH, <- app_assoc. done.
Qed.

Lemma scan_stream_segments l tail :
  Forall (fun '(g, p) => Forall (fun b => cannot_start b = true) g /\ packet_valid p) l ->
  Forall (fun b => cannot_start b = true) tail ->
  scan_stream [] [] (segments l ++ tail) = (l, tail, []).
Proof.
  intros Hl Ht. induction Hl as [|[g p] l [Hg Hp] Hl IH].
  - change (segments [] ++ tail) with tail. rewrite <- (app_nil_r tail) at 1.
    by rewrite scan_stream_junk.
  - unfold segments. cbn [map concat]. fold (segments l). rewrite <- !app_assoc.
    rewrite scan_stream_junk by done. cbn [app].
    destruct (packet_valid_header p Hp) as (_ & _ & Hr).
    pose proof (scan_stream_packet p (segments l ++ tail) g 0 Hp ltac:(lia)) as E.
    rewrite prefix_of_0, skip_0 in E. rewrite E, IH. done.
Qed.

(** Resynchronisation and round trip: when valid packets arrive back to back,
    with any bytes between them that cannot begin a packet, the receiver hands out
    every packet, in order, throws away exactly the bytes in between, and holds
    nothing at the end. *)
Theorem deframer_recovers_packets l tail s packet :
  Forall (fun '(g, p) => bytes_ok g /\ Forall (fun b => cannot_start b = true) g
                         /\ packet_valid p) l ->
  bytes_ok tail -> Forall (fun b => cannot_start b = true) tail ->
  counters_ok s -> len packet = 240 ->
  exists d' s' packet',
    receive_stream deframer_init s packet (segments l ++ tail) = Some (map snd l, d', s', packet')
    /\ radio_deframer_buffered d' = 0
    /\ rx_bytes_skipped s' = u32 (rx_bytes_skipped s + len (garbage l) + len tail).
Proof.
  intros Hl Htb Ht Hs Hp.
  assert (bytes_ok (segments l ++ tail)) as Hst.
  { apply Forall_app. split; [|done]. unfold segments. apply Forall_concat, Forall_map.
    eapply Forall_impl; [exact Hl|]. intros [g p] (Hg & _ & (Hb & _)). by apply Forall_app. }
  assert (deframer_wf deframer_init) as Hwf.
  { split; [done|]. split; [apply Forall_replicate; zlia|]. cbn [deframer_init d_len].
    rewrite max_packet_value. lia. }
  pose proof (receive_stream_spec (segments l ++ tail) deframer_init s packet [] Hwf Hs
                ltac:(done) Hp Hst) as Hr.
  change (bytes_of deframer_init) with (@nil Z) in Hr. rewrite scan_stream_segments in Hr.
  - destruct Hr as (d' & s' & packet' & E & Hwf' & Hb & _ & Hsk). exists d', s', packet'.
    split; [done|]. unfold radio_deframer_buffered. rewrite <- len_bytes_of, Hb by done.
    split; [done|]. rewrite Hsk, len_nil. f_equal. lia.
  - eapply Forall_impl; [exact Hl|]. by intros [g p] (_ & ? & ?).
  - done.
Qed.

Lemma deframer_recovers_packets_witness :
  exists d' s' packet',
    receive_stream deframer_init no_stats (zeros 240)
      (segments [([0; 255], sample_packet); ([], sample_packet)] ++ [1])
    = Some ([sample_packet; sample_packet], d', s', packet')
    /\ radio_deframer_buffered d' = 0 /\ rx_bytes_skipped s' = 3.
Proof.
  assert (packet_valid sample_packet) as Hv.
  { split; [apply bytes_ok_eval; vm_compute; reflexivity|]. split; vm_compute; congruence. }
  destruct (deframer_recovers_packets [([0; 255], sample_packet); ([], sample_packet)] [1]
              no_stats (zeros 240)) as (d' & s' & packet' & E & H1 & H2).
  - apply Forall_cons_2; [|apply Forall_cons_2; [|apply Forall_nil_2]].
    + split; [apply bytes_ok_eval; reflexivity|]. split; [repeat constructor|exact Hv].
    + split; [apply Forall_nil_2|]. split; [apply Forall_nil_2|exact Hv].
  - apply bytes_ok_eval. reflexivity.
  - apply Forall_cons_2; [reflexivity|apply Forall_nil_2].
  - vm_compute. split; congruence.
  - reflexivity.
  - exists d', s', packet'. split; [exact E|]. split; [exact H1|]. exact H2.
Defined.
