(* ===== verification/RadioDriver.v ===== *)
(** The radio drivers around the queue and the deframer: the simulated E22 of
    [platform/sim/drivers/radio.c] and the real one of
    [platform/real/drivers/radio.c].

    What the operating system answers (socket, UART and GPIO results, the clock)
    is an argument: a list of answers where the code asks in a loop. *)

From S2P Require Import Prelude SpacePacket Profile RadioQueue Deframer.

(** ** Simulated driver *)
Module Sim.

(** Lines 83 to 92: [rand] is the value of [rand()]. *)
Definition send_packet (drop_percent rand : Z) (sendto_result : Z) : Z :=
  if (0 <? drop_percent) && (Z.rem rand 100 <? drop_percent) then 0
  else if sendto_result <? 0 then -1 else 0.

(** The name under which the queue knows this driver's sender. *)
Definition sender_name : Z := 1.

Definition queue (tx_fd : Z) (content : Z) (data : option (list Z)) (length : Z)
    (create_ok : bool) (st : radio) : Z * radio :=
  if tx_fd <? 0 then (-1, st)
  else
    let '(r, st) := radio_queue_push content data length (Some sender_name) create_ok st in
    if negb (r =? 0) then (-1, st) else (0, st).

Definition radio_send (tx_fd : Z) (data : option (list Z)) (length : Z) (create_ok : bool)
    (st : radio) : Z * radio :=
  queue tx_fd LG_CCSDS_CONTENT_RAW_TELEMETRY data length create_ok st.

Definition radio_send_ssdv (tx_fd : Z) (data : option (list Z)) (length : Z) (create_ok : bool)
    (st : radio) : Z * radio :=
  queue tx_fd LG_CCSDS_CONTENT_SSDV data length create_ok st.

(** What [recv] delivers. *)
Inductive recv_result :=
  | Datagram (bytes : list Z)
  | Timed_out
  | Recv_error.

(** Line 139: every byte of the datagram is pushed. *)
Fixpoint push_all (d : radio_deframer_t) (s : radio_stats_t) (bytes : list Z)
    : radio_deframer_t * radio_stats_t :=
  match bytes with
  | [] => (d, s)
  | b :: bytes => let '(d, s) := radio_deframer_push d s b in push_all d s bytes
  end.

(** Lines 135 to 149 for one datagram: [None] if it held no packet.  [stack] is
    what the uninitialised deframer and packet buffers hold. *)
Definition receive_datagram (stack packet0 : list Z) (buffer : list Z) (max_length : Z)
    (bytes : list Z) (s : radio_stats_t) : option (option (Z * list Z) * radio_stats_t) :=
  let '(d, s) := push_all (radio_deframer_reset (mk_deframer stack 0)) s bytes in
  match radio_deframer_next d s packet0 with
  | None => None
  | Some (packet_length, d, s, packet) =>
      let s := radio_stats_rx_skipped (radio_deframer_buffered d) s in
      if packet_length =? 0 then Some (None, s)
      else
        match lg_ccsds_profile_parse (Some packet) packet_length (Some sample_view) with
        | (_, Some view) =>
            if max_length <? payload_length view then Some (Some (-1, buffer), s)
            else Some (Some (payload_length view,
                             patch buffer 0 (prefix_of (payload_length view) (payload view))), s)
        | (_, None) => None
        end
  end.

(** [radio_receive]: the loop over datagrams; [None] while it waits for more. *)
Fixpoint receive_loop (stack packet0 buffer : list Z) (max_length : Z) (s : radio_stats_t)
    (net : list recv_result) : option (Z * list Z * radio_stats_t) :=
  match net with
  | [] => None
  | Timed_out :: _ => Some (0, buffer, s)
  | Recv_error :: _ => Some (-1, buffer, s)
  | Datagram bytes :: net =>
      let n := Z.min (len bytes) (RADIO_MAX_PACKET_SIZE + 1) in
      if RADIO_MAX_PACKET_SIZE <? n
      then receive_loop stack packet0 buffer max_length (radio_stats_rx_invalid s) net
      else
        match receive_datagram stack packet0 buffer max_length (prefix_of n bytes) s with
        | None => None
        | Some (Some (r, buffer), s) => Some (r, buffer, s)
        | Some (None, s) => receive_loop stack packet0 buffer max_length s net
        end
  end.

Definition radio_receive (rx_fd : Z) (stack packet0 : list Z) (buffer : option (list Z))
    (max_length : Z) (s : radio_stats_t) (net : list recv_result)
    : option (Z * option (list Z) * radio_stats_t) :=
  match buffer with
  | None => Some (-1, None, s)
  | Some b =>
      if max_length =? 0 then Some (-1, buffer, s)
      else if rx_fd <? 0 then Some (-1, buffer, s)
      else
        match receive_loop stack packet0 b max_length s net with
        | Some (r, b, s) => Some (r, Some b, s)
        | None => None
        end
  end.

End Sim.

(** ** Real driver *)
Module Real.

Definition RX_TIMEOUT_MS : Z := 1000.
Definition RX_GAP_MS : Z := 20.
Definition RX_PACKET_MAX_MS : Z := 500.
Definition INIT_RETRY_MS : Z := 1000.

(** File-scope state of the driver, as far as the logic depends on it. *)
Record driver := mk_driver {
  ready : bool;
  init_attempted : bool;
  last_init_ms : Z;
  rx_deframer : radio_deframer_t
}.

(** Lines 338 to 360: [init_ok] is what [radio_init] would return now. *)
Definition ensure_ready (dr : driver) (now : Z) (init_ok : bool) : Z * driver :=
  let dr :=
    if negb (ready dr)
    then
      if negb (init_attempted dr) || (INIT_RETRY_MS <=? now - last_init_ms dr)
      then mk_driver init_ok true now (radio_deframer_reset (rx_deframer dr))
      else dr
    else dr in
  ((if ready dr then 0 else -1), dr).

(** Lines 393 to 403, the hardware UART: the answers of [write] one after the
    other; [None] while [write] has not answered.  The bytes written are the
    second component. *)
Inductive write_result :=
  | Wrote (n : Z)
  | Write_again            (* EINTR or EAGAIN *)
  | Write_error.

Fixpoint write_all (data : list Z) (answers : list write_result) (tcdrain_result : Z)
    : option (Z * list Z) :=
  if len data <=? 0 then Some (tcdrain_result, [])
  else
    match answers with
    | [] => None
    | Wrote n :: answers =>
        match write_all (skip n data) answers tcdrain_result with
        | Some (r, out) => Some (r, prefix_of n data ++ out)
        | None => None
        end
    | Write_again :: answers => write_all data answers tcdrain_result
    | Write_error :: _ => Some (-1, [])
    end.

(** Lines 407 to 432: what the AUX pin waits and the UART answer decide. *)
Definition send_packet (ready_result aux_idle write_result aux_done : Z) : Z :=
  if negb (ready_result =? 0) then -1
  else if negb (aux_idle =? 0) || negb (write_result =? 0) then -1
  else if negb (aux_done =? 0) then -1 else 0.

(** The name under which the queue knows this driver's sender. *)
Definition sender_name : Z := 2.

Definition queue (dr : driver) (now : Z) (init_ok : bool) (content : Z) (data : option (list Z))
    (length : Z) (create_ok : bool) (st : radio) : Z * driver * radio :=
  let '(r, dr) := ensure_ready dr now init_ok in
  if negb (r =? 0) then (-1, dr, st)
  else
    let '(r, st) := radio_queue_push content data length (Some sender_name) create_ok st in
    (r, dr, st).

Definition radio_send dr now init_ok data length create_ok st :=
  queue dr now init_ok LG_CCSDS_CONTENT_RAW_TELEMETRY data length create_ok st.

Definition radio_send_ssdv dr now init_ok data length create_ok st :=
  queue dr now init_ok LG_CCSDS_CONTENT_SSDV data length create_ok st.

(** One round of the receive loop: the clock at its start and what
    [uart_read_byte] answers, if it is asked. *)
Inductive uart_answer :=
  | Uart_byte (b : Z)
  | Uart_timeout
  | Uart_error.

Inductive rx_outcome :=
  | Rx_packet (length : Z)
  | Rx_nothing
  | Rx_failed.

(** Lines 468 to 494. *)
Fixpoint receive_loop (d : radio_deframer_t) (s : radio_stats_t) (packet : list Z) (start : Z)
    (events : list (Z * uart_answer))
    : option (rx_outcome * radio_deframer_t * radio_stats_t * list Z) :=
  match events with
  | [] => None
  | (now, answer) :: events =>
      if start + RX_TIMEOUT_MS + RX_PACKET_MAX_MS <=? now then Some (Rx_nothing, d, s, packet)
      else if (radio_deframer_buffered d <=? 0) && (start + RX_TIMEOUT_MS - now <=? 0)
      then Some (Rx_nothing, d, s, packet)
      else
        match answer with
        | Uart_error => Some (Rx_failed, d, s, packet)
        | Uart_timeout =>
            receive_loop (radio_deframer_reset d)
              (radio_stats_rx_skipped (radio_deframer_buffered d) s) packet start events
        | Uart_byte b =>
            match receive_byte d s packet b with
            | None => None
            | Some (packet_length, d, s, packet) =>
                if packet_length =? 0 then receive_loop d s packet start events
                else Some (Rx_packet packet_length, d, s, packet)
            end
        end
  end.

(** Lines 452 to 511. *)
Definition radio_receive (dr : driver) (s : radio_stats_t) (packet0 : list Z) (now start : Z)
    (init_ok : bool) (buffer : option (list Z)) (max_length : Z)
    (events : list (Z * uart_answer)) : option (Z * option (list Z) * driver * radio_stats_t) :=
  match buffer with
  | None => Some (-1, buffer, dr, s)
  | Some b =>
      if max_length =? 0 then Some (-1, buffer, dr, s)
      else
        let '(r, dr) := ensure_ready dr now init_ok in
        if negb (r =? 0) then Some (-1, buffer, dr, s)
        else
          match receive_loop (rx_deframer dr) s packet0 start events with
          | None => None
          | Some (outcome, d, s, packet) =>
              let dr := mk_driver (ready dr) (init_attempted dr) (last_init_ms dr) d in
              match outcome with
              | Rx_failed =>
                  Some (-1, buffer, mk_driver false (init_attempted dr) (last_init_ms dr) d, s)
              | Rx_nothing => Some (0, buffer, dr, s)
              | Rx_packet packet_length =>
                  match lg_ccsds_profile_parse (Some packet) packet_length (Some sample_view) with
                  | (_, Some view) =>
                      if max_length <? payload_length view then Some (-1, buffer, dr, s)
                      else Some (payload_length view,
                                 Some (patch b 0 (prefix_of (payload_length view) (payload view))),
                                 dr, s)
                  | (_, None) => None
                  end
              end
          end
  end.

End Real.

(** ** What a delivered packet gives the caller *)

(** The caller's buffer after a packet [p] was received: [r] payload bytes. *)
Definition delivers (p : list Z) (buffer buffer' : list Z) (r : Z) : Prop :=
  exists v, lg_ccsds_profile_parse (Some p) (len p) (Some sample_view) = (CCSDS_OK, Some v)
    /\ r = payload_length v /\ buffer' = patch buffer 0 (prefix_of r (payload v)).

(** The packet buffer of the driver, behind the packet, does not matter. *)
Lemma parse_in_buffer p packet :
  packet_valid p -> len packet = 240 -> bytes_ok packet ->
  exists v, lg_ccsds_profile_parse (Some (patch packet 0 p)) (len p) (Some sample_view)
            = (CCSDS_OK, Some v)
    /\ exists v', lg_ccsds_profile_parse (Some p) (len p) (Some sample_view) = (CCSDS_OK, Some v')
         /\ payload_length v = payload_length v' /\ 0 <= payload_length v <= 214
         /\ prefix_of (payload_length v) (payload v) = prefix_of (payload_length v') (payload v').
Proof.
  intros (Hb & Hp & Hl) Hpk Hpb. unfold parses in Hp.
  destruct (lg_ccsds_profile_parse (Some p) (len p) _) as [[] [v'|]] eqn:E; try done;
    [|by apply parse_profile_none in E]. clear Hp.
  assert (len (patch packet 0 p) = 240) as Hlp by (rewrite len_patch; lia).
  assert (prefix_of (len p) (patch packet 0 p) = prefix_of (len p) p) as Epre
    by (rewrite patch_0, prefix_of_app, prefix_of_all by done; done).
  destruct (parse_profile_local p (patch packet 0 p) (len p) sample_view v' Hb
              ltac:(auto with flight) ltac:(done) Epre E) as [v Ev].
  exists v. split; [done|]. exists v'. split; [done|].
  destruct (parse_profile_accepts _ _ _ _ Hb ltac:(done) E)
    as [_ _ _ [Hn Hpn] _ Hpay _ _ _].
  assert (len p <= len (patch packet 0 p)) as Hle by lia.
  destruct (parse_profile_accepts _ _ _ _ (bytes_ok_patch _ 0 _ Hpb Hb) Hle Ev)
    as [_ _ _ [Hn' Hpn'] _ Hpay' _ _ _].
  assert (payload_length v = payload_length v') as -> by lia.
  split; [done|]. split; [lia|]. rewrite Hpay, Hpay'.
  rewrite !prefix_skip_comm by lia. f_equal.
  rewrite patch_0, prefix_of_app_le by lia. done.
Qed.

Lemma scan_packet_valid bs g pkt r :
  bytes_ok bs -> scan bs = (g, Some pkt, r) -> packet_valid pkt.
Proof.
  intros Hb E. destruct (scan_split _ _ _ _ Hb E) as [Es [Hp Hl]].
  split; [|split; [done|lia]]. rewrite Es, !Forall_app in Hb. tauto.
Qed.

(** *** The real receive loop *)

Lemma reset_wf d : deframer_wf d -> deframer_wf (radio_deframer_reset d).
Proof. intros (? & ? & ?). split; [done|]. split; [done|]. cbn. rewrite max_packet_value. lia. Qed.

Lemma skipped_counters s k : counters_ok (radio_stats_rx_skipped k s).
Proof. unfold counters_ok. rewrite skip_counter. apply Z.mod_pos_bound. lia. Qed.

Definition uart_ok (e : Z * Real.uart_answer) : Prop :=
  match snd e with Real.Uart_byte b => byte_ok b | _ => True end.

Lemma real_loop_spec events d s packet start out d' s' packet' :
  deframer_wf d -> d_len d < 240 -> counters_ok s -> len packet = 240 -> bytes_ok packet ->
  Forall uart_ok events ->
  Real.receive_loop d s packet start events = Some (out, d', s', packet') ->
  deframer_wf d' /\ d_len d' < 240 /\ counters_ok s' /\
  match out with
  | Real.Rx_packet n =>
      exists p q, packet_valid p /\ n = len p /\ packet' = patch q 0 p /\ len q = 240 /\ bytes_ok q
  | _ => True
  end.
Proof.
  intros Hwf Hl Hs Hp Hpb Hev. revert d s packet Hwf Hl Hs Hp Hpb.
  induction Hev as [|[now a] events Ha Hev IH]; intros d s packet Hwf Hl Hs Hp Hpb; [done|].
  cbn [Real.receive_loop]. case_if as E1; [by intros [= <- <- <- <-]|].
  case_if as E2; [by intros [= <- <- <- <-]|].
  destruct a as [b| |]; cbn [uart_ok snd] in Ha.
  - pose proof (receive_byte_spec d s packet b Hwf Hs Ha Hl) as Hn.
    assert (bytes_ok (bytes_of d ++ [b])) as Hbb
      by (rewrite Forall_app; split; [by apply bytes_ok_bytes_of|by constructor]).
    destruct (scan (bytes_of d ++ [b])) as [[g p] r] eqn:Es.
    destruct Hn as (ret & d1 & s1 & packet1 & -> & Hwf1 & Hb1 & Hs1 & _ & Hret).
    pose proof (held_short _ _ _ _ _ Hbb ltac:(by rewrite len_bytes_of) Es) as Hr.
    assert (d_len d1 < 240) as Hl1 by (rewrite <- len_bytes_of, Hb1 by done; done).
    destruct p as [pkt|]; destruct Hret as [-> ->].
    + pose proof (scan_packet_valid _ _ _ _ Hbb Es) as Hv.
      destruct (packet_valid_header _ Hv) as (_ & _ & Hlen).
      rewrite (proj2 (Z.eqb_neq _ _)) by lia. intros [= <- <- <- <-].
      split; [done|]. split; [done|]. split; [done|]. by exists pkt, packet.
    + by apply IH.
  - apply IH; [by apply reset_wf|cbn; lia|apply skipped_counters|done|done].
  - by intros [= <- <- <- <-].
Qed.

(** [radio_receive] of the real driver gives its caller either nothing or the
    payload of one valid packet: a positive result is the length of a payload that
    fits the caller's buffer and is copied to its front, every other result leaves
    the buffer alone, and the partial packet kept for the next call stays
    consistent. *)
Theorem real_receive_payload dr s packet0 now start init_ok b max_length events r b' dr' s' :
  deframer_wf (Real.rx_deframer dr) -> d_len (Real.rx_deframer dr) < 240 -> counters_ok s ->
  len packet0 = 240 -> bytes_ok packet0 -> Forall uart_ok events ->
  Real.radio_receive dr s packet0 now start init_ok (Some b) max_length events
    = Some (r, Some b', dr', s') ->
  deframer_wf (Real.rx_deframer dr') /\ d_len (Real.rx_deframer dr') < 240
  /\ (r <= 0 -> b' = b) /\ -1 <= r
  /\ (0 < r -> r <= max_length /\ exists p, packet_valid p /\ delivers p b b' r).
Proof.
  intros Hwf Hl Hs Hp Hpb Hev. unfold Real.radio_receive. case_if as E0.
  { intros [= <- <- <- <-]. split_and!; try done; lia. }
  destruct (Real.ensure_ready dr now init_ok) as [r1 dr1] eqn:Er.
  assert (deframer_wf (Real.rx_deframer dr1) /\ d_len (Real.rx_deframer dr1) < 240) as [Hwf1 Hl1].
  { revert Er. unfold Real.ensure_ready. destruct (negb _); [destruct (_ || _)|]; intros [= _ <-];
      [|done|done]. split; [by apply reset_wf|cbn; lia]. }
  case_if as E1. { intros [= <- <- <- <-]. split_and!; try done; lia. }
  destruct (Real.receive_loop _ _ _ _ _) as [[[[out d2] s2] packet2]|] eqn:El; [|done].
  destruct (real_loop_spec _ _ _ _ _ _ _ _ _ Hwf1 Hl1 Hs Hp Hpb Hev El)
    as (Hwf2 & Hl2 & _ & Hout).
  destruct out as [n| |]; [|intros [= <- <- <- <-]; split_and!; try done; lia..].
  destruct Hout as (p & q & Hv & -> & -> & Hq & Hqb).
  destruct (parse_in_buffer p q Hv Hq Hqb) as (v & -> & v' & Hv' & Hn & Hr & Hpay).
  case_if as E2; intros [= <- <- <- <-]; bool_facts.
  { split; [done|]. split; [done|]. split; [done|]. split; lia. }
  split; [done|]. split; [done|]. split; [|split; [lia|]].
  - intros Hle. assert (payload_length v = 0) as -> by lia.
    unfold patch. rewrite !prefix_of_0. done.
  - intros Hpos. split; [lia|]. exists p. split; [done|]. exists v'. split; [done|].
    split; [done|]. by rewrite Hpay, Hn.
Qed.

Definition sample_driver : Real.driver := Real.mk_driver true true 0 deframer_init.

(** The sample packet, byte by byte, one per millisecond. *)
Definition sample_events : list (Z * Real.uart_answer) :=
  zip_with (fun t b => (t, Real.Uart_byte b)) (seqZ 0 30) sample_packet.

Lemma real_receive_payload_witness :
  exists b' dr' s',
    Real.radio_receive sample_driver no_stats (zeros 240) 0 0 true (Some (zeros 16)) 16 sample_events
      = Some (4, Some b', dr', s')
    /\ 4 <= 16 /\ exists p, packet_valid p /\ delivers p (zeros 16) b' 4.
Proof.
  eexists _, _, _. split; [vm_compute; reflexivity|].
  eapply (real_receive_payload sample_driver no_stats (zeros 240) 0 0 true (zeros 16) 16 sample_events 4).
  - split; [reflexivity|]. split; [apply bytes_ok_eval; vm_compute; reflexivity|].
    vm_compute. split; congruence.
  - reflexivity.
  - vm_compute. split; congruence.
  - reflexivity.
  - apply bytes_ok_eval. vm_compute. reflexivity.
  - unfold sample_events. vm_compute zip_with.
    repeat (apply Forall_cons_2; [unfold uart_ok, byte_ok; cbn; lia|]). apply Forall_nil_2.
  - vm_compute. reflexivity.
  - lia.
Defined.

Lemma real_loop_total before d s packet start late answer rest :
  deframer_wf d -> d_len d < 240 -> counters_ok s -> len packet = 240 -> bytes_ok packet ->
  Forall uart_ok before -> start + 1500 <= late ->
  exists out d' s' packet',
    Real.receive_loop d s packet start (before ++ (late, answer) :: rest)
      = Some (out, d', s', packet')
    /\ match out with
       | Real.Rx_packet n =>
           exists p q, packet_valid p /\ n = len p /\ packet' = patch q 0 p /\ len q = 240
             /\ bytes_ok q
       | _ => True
       end.
Proof.
  intros Hwf Hl Hs Hp Hpb Hev Hlate. revert d s packet Hwf Hl Hs Hp Hpb.
  induction Hev as [|[t a] before Ha Hev IH]; intros d s packet Hwf Hl Hs Hp Hpb;
    cbn [app Real.receive_loop].
  { unfold Real.RX_TIMEOUT_MS, Real.RX_PACKET_MAX_MS.
    rewrite (proj2 (Z.leb_le _ _)) by lia. by eexists _, _, _, _. }
  case_if as E1; [by eexists _, _, _, _|]. case_if as E2; [by eexists _, _, _, _|].
  destruct a as [b| |]; cbn [uart_ok snd] in Ha.
  - pose proof (receive_byte_spec d s packet b Hwf Hs Ha Hl) as Hn.
    assert (bytes_ok (bytes_of d ++ [b])) as Hbb
      by (rewrite Forall_app; split; [by apply bytes_ok_bytes_of|by constructor]).
    destruct (scan (bytes_of d ++ [b])) as [[g p] r] eqn:Es.
    destruct Hn as (ret & d1 & s1 & packet1 & -> & Hwf1 & Hb1 & Hs1 & _ & Hret).
    pose proof (held_short _ _ _ _ _ Hbb ltac:(by rewrite len_bytes_of) Es) as Hr.
    assert (d_len d1 < 240) as Hl1 by (rewrite <- len_bytes_of, Hb1 by done; done).
    destruct p as [pkt|]; destruct Hret as [-> ->].
    + pose proof (scan_packet_valid _ _ _ _ Hbb Es) as Hv.
      destruct (packet_valid_header _ Hv) as (_ & _ & Hlen).
      rewrite (proj2 (Z.eqb_neq _ _)) by lia. eexists _, _, _, _. split; [done|].
      by exists pkt, packet.
    + by apply IH.
  - apply IH; [by apply reset_wf|cbn; lia|apply skipped_counters|done|done].
  - by eexists _, _, _, _.
Qed.

(** The real receive loop cannot hang: as soon as the clock has reached the
    hard limit of 1500 ms after the start, at the latest, the call returns,
    whatever garbage keeps arriving. *)
Theorem real_receive_returns dr s packet0 now start init_ok b max_length before late answer rest :
  deframer_wf (Real.rx_deframer dr) -> d_len (Real.rx_deframer dr) < 240 -> counters_ok s ->
  len packet0 = 240 -> bytes_ok packet0 -> Forall uart_ok before ->
  start + 1500 <= late ->
  exists out, Real.radio_receive dr s packet0 now start init_ok (Some b) max_length
                (before ++ (late, answer) :: rest) = Some out.
Proof.
  intros Hwf Hl Hs Hp Hpb Hev Hlate. unfold Real.radio_receive.
  destruct (max_length =? 0); [by eexists|].
  destruct (Real.ensure_ready dr now init_ok) as [r1 dr1] eqn:Er.
  assert (deframer_wf (Real.rx_deframer dr1) /\ d_len (Real.rx_deframer dr1) < 240) as [Hwf1 Hl1].
  { revert Er. unfold Real.ensure_ready. destruct (negb _); [destruct (_ || _)|]; intros [= _ <-];
      [|done|done]. split; [by apply reset_wf|cbn; lia]. }
  destruct (negb (r1 =? 0)); [by eexists|]. clear Er Hwf Hl.
  destruct (real_loop_total before (Real.rx_deframer dr1) s packet0 start late answer rest)
    as (out & d & s' & packet & E & Hout); [done..|]. rewrite E.
  destruct out as [n| |]; [|by eexists..].
  destruct Hout as (p & q & Hv & -> & -> & Hq & Hqb).
  destruct (parse_in_buffer p q Hv Hq Hqb) as (v & -> & _).
  by destruct (_ <? _); eexists.
Qed.

Lemma real_receive_returns_witness :
  exists out, Real.radio_receive sample_driver no_stats (zeros 240) 0 0 true (Some (zeros 16)) 16
    ([(3, Real.Uart_byte 8); (7, Real.Uart_timeout); (8, Real.Uart_byte 1)]
     ++ (1500, Real.Uart_byte 0) :: []) = Some out.
Proof.
  apply (real_receive_returns sample_driver no_stats (zeros 240) 0 0 true (zeros 16) 16
           [(3, Real.Uart_byte 8); (7, Real.Uart_timeout); (8, Real.Uart_byte 1)] 1500
           (Real.Uart_byte 0) []).
  - split; [reflexivity|]. split; [apply bytes_ok_eval; vm_compute; reflexivity|].
    vm_compute. split; congruence.
  - reflexivity.
  - vm_compute. split; congruence.
  - reflexivity.
  - apply bytes_ok_eval. vm_compute. reflexivity.
  - repeat (apply Forall_cons_2; [unfold uart_ok, byte_ok; cbn; lia|]). apply Forall_nil_2.
  - lia.
Defined.

(** *** The UART writer *)

(** Partial writes: on success every byte went out once and in order, on failure a
    front part of the data did. *)
Lemma write_all_spec data answers t r out :
  Real.write_all data answers t = Some (r, out) ->
  (forall n, In (Real.Wrote n) answers -> 0 <= n) ->
  (exists rest, data = out ++ rest) /\ (r <> -1 -> out = data /\ r = t).
Proof.
  revert data r out. induction answers as [|a answers IH]; intros data r out; cbn [Real.write_all].
  - case_if as E; [|done]. intros [= <- <-] _. bool_facts.
    assert (data = []) as -> by (apply len_0_nil; pose proof (len_nonneg data); lia).
    split; [by exists []|done].
  - case_if as E.
    { intros [= <- <-] _. bool_facts.
      assert (data = []) as -> by (apply len_0_nil; pose proof (len_nonneg data); lia).
      split; [by exists []|done]. }
    intros Hw Hn. assert (forall n, In (Real.Wrote n) answers -> 0 <= n) as Hn'
      by (intros n Hin; apply Hn; by right). destruct a as [n| |].
    + destruct (Real.write_all (skip n data) answers t) as [[r1 out1]|] eqn:E1; [|done].
      injection Hw as <- <-. destruct (IH _ _ _ E1 Hn') as [[rest Hr] Hok]. split.
      * exists rest. rewrite <- app_assoc, <- Hr. by rewrite prefix_skip.
      * intros Hr1. destruct (Hok Hr1) as [-> ->]. by rewrite prefix_skip.
    + by apply IH.
    + injection Hw as <- <-. split; [by exists data|done].
Qed.

(** ** The link, end to end *)

Lemma push_all_spec bytes d s :
  deframer_wf d -> d_len d + len bytes <= 240 -> bytes_ok bytes ->
  exists d', Sim.push_all d s bytes = (d', s) /\ deframer_wf d' /\ bytes_of d' = bytes_of d ++ bytes.
Proof.
  revert d. induction bytes as [|b bytes IH]; intros d Hwf Hl Hb; cbn [Sim.push_all].
  { exists d. by rewrite app_nil_r. }
  rewrite len_cons in Hl. pose proof (len_nonneg bytes). inversion Hb as [|? ? Hb0 Hbs]; subst.
  destruct (push_spec d s b Hwf Hb0) as (d1 & -> & Hwf1 & Hb1 & Hl1); [lia|].
  destruct (IH d1 Hwf1) as (d' & -> & Hwf' & Hb'); [lia|done|].
  exists d'. split; [done|]. split; [done|]. by rewrite Hb', Hb1, <- app_assoc.
Qed.

(** A datagram that is one valid packet is delivered. *)
Lemma sim_receive_packet p stack packet0 buffer max_length s net :
  packet_valid p -> len stack = 240 -> bytes_ok stack -> len packet0 = 240 -> bytes_ok packet0 ->
  counters_ok s -> 214 <= max_length ->
  exists r buffer' s',
    Sim.receive_loop stack packet0 buffer max_length s (Sim.Datagram p :: net)
      = Some (r, buffer', s')
    /\ delivers p buffer buffer' r.
Proof.
  intros Hv Hst Hsb Hp Hpb Hs Hm. pose proof (packet_valid_header p Hv) as (_ & _ & Hlen).
  pose proof Hv as (Hb & _ & _). cbn [Sim.receive_loop]. cbv zeta.
  rewrite max_packet_value, Z.min_l by lia. rewrite (proj2 (Z.ltb_ge _ _)) by lia.
  rewrite prefix_of_all by lia. unfold Sim.receive_datagram.
  assert (deframer_wf (radio_deframer_reset (mk_deframer stack 0))) as Hwf0.
  { split; [done|]. split; [done|]. cbn. rewrite max_packet_value. lia. }
  destruct (push_all_spec p _ s Hwf0) as (d1 & -> & Hwf1 & Hb1); [cbn; lia|done|].
  assert (bytes_of d1 = prefix_of (len p) p) as Hb2 by (rewrite Hb1, prefix_of_all by lia; done).
  pose proof (deframer_loop_spec (S (Z.to_nat (d_len d1))) d1 s packet0 Hwf1 Hs ltac:(lia)) as Hn.
  rewrite Hb2, scan_packet_part, Z.eqb_refl in Hn by (done || lia).
  destruct Hn as (ret & d2 & s2 & packet2 & E & _ & _ & _ & _ & -> & ->).
  unfold radio_deframer_next. rewrite E. rewrite (proj2 (Z.eqb_neq _ _)) by lia.
  destruct (parse_in_buffer p packet0 Hv Hp Hpb) as (v & -> & v' & Hv' & Hnn & Hr & Hpay).
  rewrite (proj2 (Z.ltb_ge _ _)) by lia. eexists _, _, _. split; [done|].
  exists v'. split; [done|]. split; [done|]. by rewrite Hpay, Hnn.
Qed.

Lemma good_packet_valid taken p : good_packet taken p -> packet_valid p.
Proof.
  intros (c & seq & d & -> & Hm & Hr & Hf & Hs & Hin).
  pose proof (piece_packet_parses c seq d sample_view Hm Hr Hf Hs) as (v & Hv & _).
  destruct (good_packet_facts taken (piece_packet c seq d)) as [Hl Hb]; [by exists c, seq, d|].
  split; [done|]. split; [unfold parses; by rewrite Hv|lia].
Qed.

(** C30. The radio link, end to end: whatever packet the transmit queue of a
    reachable system put on the air, the peer's [radio_receive] that gets it as a
    datagram (with room for a full payload) returns exactly one piece of a message
    that was accepted for sending: the result is its length and the front of the
    buffer its bytes. *)
Theorem radio_link_delivers sys p stack packet0 buffer max_length s net rx_fd :
  reachable sys -> p ∈ y_air sys ->
  len stack = 240 -> bytes_ok stack -> len packet0 = 240 -> bytes_ok packet0 -> counters_ok s ->
  214 <= max_length -> 0 <= rx_fd ->
  exists c d buffer' s',
    Sim.radio_receive rx_fd stack packet0 (Some buffer) max_length s (Sim.Datagram p :: net)
      = Some (len d, Some buffer', s')
    /\ prefix_of (len d) buffer' = d /\ buffer' = patch buffer 0 d
    /\ (c, d) ∈ concat (map pieces (y_accepted sys)).
Proof.
  intros [q Hinv]%system_reachable_inv Hp Hst Hsb Hpk Hpb Hs Hm Hfd.
  pose proof (air_good _ _ _ Hinv Hp) as Hg. pose proof (good_packet_valid _ _ Hg) as Hv.
  destruct (sim_receive_packet p stack packet0 buffer max_length s net Hv Hst Hsb Hpk Hpb Hs Hm)
    as (r & buffer' & s' & E & (v & Hpv & -> & Hbuf)).
  destruct Hg as (c & seq & d & -> & Hmm & Hr & Hf & Hsq & Hin).
  destruct (piece_packet_parses c seq d sample_view Hmm Hr Hf Hsq)
    as (v1 & Hv1 & _ & _ & Hpl & Hpay).
  rewrite Hpv in Hv1. injection Hv1 as <-. rewrite Hpl, Hpay in *.
  exists c, d, buffer', s'. unfold Sim.radio_receive.
  rewrite (proj2 (Z.eqb_neq _ _)), (proj2 (Z.ltb_ge _ _)), E by lia.
  split; [done|]. split; [|split; [done|]].
  - rewrite Hbuf, patch_0. by apply prefix_of_app.
  - rewrite (inv_log _ _ Hinv). apply elem_of_app. by left.
Qed.

Lemma radio_link_delivers_witness :
  exists c d buffer' s',
    Sim.radio_receive 3 (zeros 240) (zeros 240) (Some (zeros 300)) 300 no_stats
      (Sim.Datagram sample_packet_sent :: []) = Some (len d, Some buffer', s')
    /\ prefix_of (len d) buffer' = d /\ buffer' = patch (zeros 300) 0 d
    /\ (c, d) ∈ [(0, [1; 2; 3])].
Proof.
  destruct sample_sent_reachable as (s & Hr & Hin & _ & Ha & _).
  destruct (radio_link_delivers s sample_packet_sent (zeros 240) (zeros 240) (zeros 300) 300
              no_stats [] 3 Hr Hin) as (c & d & b' & s' & E & H1 & H2 & H3).
  - reflexivity.
  - apply bytes_ok_eval. vm_compute. reflexivity.
  - reflexivity.
  - apply bytes_ok_eval. vm_compute. reflexivity.
  - vm_compute. split; congruence.
  - lia.
  - lia.
  - exists c, d, b', s'. split; [exact E|]. split; [exact H1|]. split; [exact H2|].
    rewrite Ha in H3. exact H3.
Defined.
