(* ===== verification/ObcTelemetry.v ===== *)
(** The stored-telemetry record format of the on-board computer:
    [apps/obc/telemetry/src/obc_telemetry_protocol.c].  Commands encodes board
    telemetry in this form, Data appends it to its log, Mission reads it back. *)

From S2P Require Import Prelude.

Definition OBC_IPC_MAX_PAYLOAD : Z := 256.
Definition OBC_TELEMETRY_FORMAT_VERSION : Z := 1.
Definition OBC_TELEMETRY_HEADER_SIZE : Z := 18.
Definition OBC_TELEMETRY_MAX_PAYLOAD : Z := OBC_IPC_MAX_PAYLOAD - OBC_TELEMETRY_HEADER_SIZE.

Definition MAGIC_OFFSET : Z := 0.
Definition VERSION_OFFSET : Z := 4.
Definition SOURCE_NODE_OFFSET : Z := 5.
Definition SOURCE_PORT_OFFSET : Z := 6.
Definition RESERVED_OFFSET : Z := 7.
Definition TIMESTAMP_OFFSET : Z := 8.
Definition LENGTH_OFFSET : Z := 16.

(** "WESW". *)
Definition telemetry_magic : list Z := [87; 69; 83; 87].

Inductive obc_telemetry_status_t :=
  | OBC_TELEMETRY_OK
  | OBC_TELEMETRY_INVALID_ARGUMENT
  | OBC_TELEMETRY_BUFFER_TOO_SMALL
  | OBC_TELEMETRY_INVALID_RECORD
  | OBC_TELEMETRY_UNSUPPORTED_VERSION.

#[global] Instance obc_telemetry_status_eq_dec : EqDecision obc_telemetry_status_t.
Proof. solve_decision. Defined.

Record obc_telemetry_record_t := mk_record {
  source_node : Z;
  source_port : Z;
  received_unix_us : Z;
  t_length : Z;               (* payload_length *)
  t_payload : list Z          (* the array of OBC_TELEMETRY_MAX_PAYLOAD bytes *)
}.

Definition put_u16_be (output : list Z) (off value : Z) : list Z :=
  patch (patch output off [u8 (Z.shiftr value 8)]) (off + 1) [u8 value].

Definition get_u16_be (input : list Z) : Z :=
  u16 (Z.lor (Z.shiftl (byte_at input 0) 8) (byte_at input 1)).

(** The eight iterations write one byte each, most significant first. *)
Definition put_u64_be (output : list Z) (off value : Z) : list Z :=
  fold_left (fun output i => patch output (off + i) [u8 (Z.shiftr value (56 - i * 8))])
    (seqZ 0 8) output.

Definition get_u64_be (input : list Z) : Z :=
  fold_left (fun value i => Z.lor (u64 (Z.shiftl value 8)) (byte_at input i)) (seqZ 0 8) 0.

Definition obc_telemetry_encode (record : option obc_telemetry_record_t)
    (output : option (list Z)) (output_capacity : Z) (encoded_size : option Z)
    : obc_telemetry_status_t * option (list Z) * option Z :=
  match record, output, encoded_size with
  | Some r, Some out, Some _ =>
      if OBC_TELEMETRY_MAX_PAYLOAD <? t_length r
      then (OBC_TELEMETRY_INVALID_ARGUMENT, output, Some 0)
      else
        let required_size := OBC_TELEMETRY_HEADER_SIZE + t_length r in
        if output_capacity <? required_size
        then (OBC_TELEMETRY_BUFFER_TOO_SMALL, output, Some 0)
        else
          let out := patch out MAGIC_OFFSET telemetry_magic in
          let out := patch out VERSION_OFFSET [OBC_TELEMETRY_FORMAT_VERSION] in
          let out := patch out SOURCE_NODE_OFFSET [source_node r] in
          let out := patch out SOURCE_PORT_OFFSET [source_port r] in
          let out := patch out RESERVED_OFFSET [0] in
          let out := put_u64_be out TIMESTAMP_OFFSET (received_unix_us r) in
          let out := put_u16_be out LENGTH_OFFSET (t_length r) in
          let out := patch out OBC_TELEMETRY_HEADER_SIZE (prefix_of (t_length r) (t_payload r)) in
          (OBC_TELEMETRY_OK, Some out, Some required_size)
  | _, _, _ => (OBC_TELEMETRY_INVALID_ARGUMENT, output, encoded_size)
  end.

Definition obc_telemetry_decode (encoded : option (list Z)) (encoded_size : Z)
    (record : option obc_telemetry_record_t)
    : obc_telemetry_status_t * option obc_telemetry_record_t :=
  match encoded, record with
  | Some e, Some _ =>
      if encoded_size <? OBC_TELEMETRY_HEADER_SIZE then (OBC_TELEMETRY_INVALID_RECORD, record)
      else if negb (bool_decide (prefix_of 4 (skip MAGIC_OFFSET e) = telemetry_magic))
      then (OBC_TELEMETRY_INVALID_RECORD, record)
      else if negb (byte_at e VERSION_OFFSET =? OBC_TELEMETRY_FORMAT_VERSION)
      then (OBC_TELEMETRY_UNSUPPORTED_VERSION, record)
      else if negb (byte_at e RESERVED_OFFSET =? 0) then (OBC_TELEMETRY_INVALID_RECORD, record)
      else
        let payload_length := get_u16_be (skip LENGTH_OFFSET e) in
        if OBC_TELEMETRY_MAX_PAYLOAD <? payload_length
        then (OBC_TELEMETRY_INVALID_RECORD, record)
        else if negb (encoded_size =? OBC_TELEMETRY_HEADER_SIZE + payload_length)
        then (OBC_TELEMETRY_INVALID_RECORD, record)
        else
          (OBC_TELEMETRY_OK,
           Some (mk_record (byte_at e SOURCE_NODE_OFFSET) (byte_at e SOURCE_PORT_OFFSET)
                   (get_u64_be (skip TIMESTAMP_OFFSET e)) payload_length
                   (patch (zeros OBC_TELEMETRY_MAX_PAYLOAD) 0
                      (prefix_of payload_length (skip OBC_TELEMETRY_HEADER_SIZE e)))))
  | _, _ => (OBC_TELEMETRY_INVALID_ARGUMENT, record)
  end.

(** ** Records as byte strings *)

Definition be64_bytes (v : Z) : list Z :=
  [u8 (Z.shiftr v 56); u8 (Z.shiftr v 48); u8 (Z.shiftr v 40); u8 (Z.shiftr v 32);
   u8 (Z.shiftr v 24); u8 (Z.shiftr v 16); u8 (Z.shiftr v 8); u8 v].

Definition record_header (r : obc_telemetry_record_t) : list Z :=
  telemetry_magic ++ [1; source_node r; source_port r; 0] ++ be64_bytes (received_unix_us r)
  ++ [u8 (Z.shiftr (t_length r) 8); u8 (t_length r)].

(** The encoding of a record. *)
Definition record_bytes (r : obc_telemetry_record_t) : list Z :=
  record_header r ++ prefix_of (t_length r) (t_payload r).

Definition record_wf (r : obc_telemetry_record_t) : Prop :=
  byte_ok (source_node r) /\ byte_ok (source_port r)
  /\ 0 <= received_unix_us r < 18446744073709551616
  /\ 0 <= t_length r <= OBC_TELEMETRY_MAX_PAYLOAD
  /\ bytes_ok (t_payload r) /\ len (t_payload r) = OBC_TELEMETRY_MAX_PAYLOAD.

(** The same record, with the unused part of the payload array cleared. *)
Definition cleared (r : obc_telemetry_record_t) : obc_telemetry_record_t :=
  mk_record (source_node r) (source_port r) (received_unix_us r) (t_length r)
    (patch (zeros OBC_TELEMETRY_MAX_PAYLOAD) 0 (prefix_of (t_length r) (t_payload r))).

Lemma max_telemetry_value : OBC_TELEMETRY_MAX_PAYLOAD = 238.
Proof. done. Qed.

Lemma get_u64_step value b : 0 <= value -> value < 2 ^ 56 -> byte_ok b ->
  Z.lor (u64 (Z.shiftl value 8)) b = value * 256 + b.
Proof.
  intros H0 H1 Hb. rewrite Z.shiftl_mul_pow2 by lia. change (2 ^ 8) with 256.
  change (2 ^ 56) with 72057594037927936 in H1.
  replace (u64 (value * 256)) with (Z.shiftl value 8)
    by (rewrite Z.shiftl_mul_pow2 by lia; change (2 ^ 8) with 256; zlia).
  rewrite lor_shiftl_add by (lia || exact Hb). lia.
Qed.

(** The value of eight big-endian bytes. *)
Definition be64_value (l : list Z) : Z :=
  ((((((byte_at l 0 * 256 + byte_at l 1) * 256 + byte_at l 2) * 256 + byte_at l 3) * 256
     + byte_at l 4) * 256 + byte_at l 5) * 256 + byte_at l 6) * 256 + byte_at l 7.

Lemma get_u64_be_value l : bytes_ok l -> get_u64_be l = be64_value l.
Proof.
  intros Hl. unfold get_u64_be. change (seqZ 0 8) with [0; 1; 2; 3; 4; 5; 6; 7].
  rewrite !fold_left_cons. cbn [fold_left].
  pose proof (byte_at_ok l 0 Hl). pose proof (byte_at_ok l 1 Hl). pose proof (byte_at_ok l 2 Hl).
  pose proof (byte_at_ok l 3 Hl). pose proof (byte_at_ok l 4 Hl). pose proof (byte_at_ok l 5 Hl).
  pose proof (byte_at_ok l 6 Hl). pose proof (byte_at_ok l 7 Hl).
  unfold be64_value, byte_ok in *.
  repeat match goal with
  | |- context [Z.lor (u64 (Z.shiftl ?v 8)) ?b] =>
      lazymatch v with
      | context [Z.lor] => fail
      | _ => rewrite (get_u64_step v b)
               by (change (2 ^ 56) with 72057594037927936; unfold byte_ok; lia)
      end
  end.
  lia.
Qed.

Lemma be64_value_range l : bytes_ok l -> 0 <= be64_value l < 18446744073709551616.
Proof.
  intros Hl. unfold be64_value.
  pose proof (byte_at_ok l 0 Hl). pose proof (byte_at_ok l 1 Hl). pose proof (byte_at_ok l 2 Hl).
  pose proof (byte_at_ok l 3 Hl). pose proof (byte_at_ok l 4 Hl). pose proof (byte_at_ok l 5 Hl).
  pose proof (byte_at_ok l 6 Hl). pose proof (byte_at_ok l 7 Hl). unfold byte_ok in *. lia.
Qed.

Lemma be64_value_bytes v rest :
  0 <= v < 18446744073709551616 -> be64_value (be64_bytes v ++ rest) = v.
Proof.
  intros Hv. unfold be64_value, be64_bytes. read_bytes. rewrite !shiftr_div by lia.
  change (2 ^ 56) with 72057594037927936. change (2 ^ 48) with 281474976710656.
  change (2 ^ 40) with 1099511627776. change (2 ^ 32) with 4294967296.
  change (2 ^ 24) with 16777216. change (2 ^ 16) with 65536. change (2 ^ 8) with 256. zlia.
Qed.

Lemma be64_bytes_value l :
  bytes_ok l -> 8 <= len l -> be64_bytes (be64_value l) = prefix_of 8 l.
Proof.
  intros Hl Hlen. rewrite bytes_explicit by lia. change (seqZ 0 8) with [0; 1; 2; 3; 4; 5; 6; 7].
  pose proof (byte_at_ok l 0 Hl). pose proof (byte_at_ok l 1 Hl). pose proof (byte_at_ok l 2 Hl).
  pose proof (byte_at_ok l 3 Hl). pose proof (byte_at_ok l 4 Hl). pose proof (byte_at_ok l 5 Hl).
  pose proof (byte_at_ok l 6 Hl). pose proof (byte_at_ok l 7 Hl).
  unfold be64_bytes, be64_value. cbn [map]. rewrite !shiftr_div by lia.
  change (2 ^ 56) with 72057594037927936. change (2 ^ 48) with 281474976710656.
  change (2 ^ 40) with 1099511627776. change (2 ^ 32) with 4294967296.
  change (2 ^ 24) with 16777216. change (2 ^ 16) with 65536. change (2 ^ 8) with 256.
  repeat (apply (f_equal2 cons); [zlia|]). done.
Qed.

Lemma len_record_header r : len (record_header r) = 18.
Proof. done. Qed.

Lemma len_record_bytes r : record_wf r -> len (record_bytes r) = 18 + t_length r.
Proof.
  intros (_ & _ & _ & Hl & _ & Hp). unfold record_bytes.
  rewrite len_app, len_prefix_of, len_record_header by lia. lia.
Qed.

Lemma record_bytes_ok r : record_wf r -> bytes_ok (record_bytes r).
Proof.
  intros (? & ? & _ & _ & Hb & _). unfold record_bytes, record_header, telemetry_magic, be64_bytes.
  solve_bytes_ok.
Qed.

Lemma encode_success r out cap size :
  record_wf r -> 18 + t_length r <= cap ->
  obc_telemetry_encode (Some r) (Some out) cap (Some size)
  = (OBC_TELEMETRY_OK, Some (record_bytes r ++ skip (18 + t_length r) out), Some (18 + t_length r)).
Proof.
  intros (_ & _ & _ & Hl & _ & Hp) Hc. unfold obc_telemetry_encode.
  unfold OBC_TELEMETRY_HEADER_SIZE. rewrite !(proj2 (Z.ltb_ge _ _)) by lia. cbv zeta.
  unfold put_u64_be, put_u16_be. change (seqZ 0 8) with [0; 1; 2; 3; 4; 5; 6; 7].
  rewrite !fold_left_cons. cbn [fold_left].
  unfold MAGIC_OFFSET. rewrite patch_0, !patch_front by done. rewrite Z.shiftr_0_r.
  change (len telemetry_magic) with 4.
  repeat match goal with |- context [len [?x]] => change (len [x]) with 1 end.
  rewrite len_prefix_of, !skip_skip by lia. rewrite <- !app_assoc.
  do 2 f_equal. f_equal. unfold record_bytes, record_header, be64_bytes. rewrite <- !app_assoc.
  change (56 - 0 * 8) with 56.
  repeat (apply (f_equal2 app); [reflexivity|]).
  cbn [app]. repeat (apply (f_equal2 cons); [reflexivity|]). f_equal. f_equal. lia.
Qed.

Lemma get_u64_be_bytes v rest :
  0 <= v < 18446744073709551616 -> get_u64_be (be64_bytes v ++ rest) = v.
Proof.
  intros Hv. rewrite <- (be64_value_bytes v []) at 2 by done. rewrite app_nil_r.
  rewrite <- get_u64_be_value by (unfold be64_bytes; solve_bytes_ok).
  reflexivity.
Qed.

(** Decoding an encoded record, with anything behind it in memory. *)
Lemma decode_record_bytes r rest r0 :
  record_wf r ->
  obc_telemetry_decode (Some (record_bytes r ++ rest)) (18 + t_length r) (Some r0)
  = (OBC_TELEMETRY_OK, Some (cleared r)).
Proof.
  intros Hwf. pose proof Hwf as (Hn & Hpo & Hu & Hl & Hb & Hp). rewrite max_telemetry_value in *.
  unfold obc_telemetry_decode, OBC_TELEMETRY_HEADER_SIZE.
  rewrite (proj2 (Z.ltb_ge _ _)) by lia. unfold record_bytes. rewrite <- app_assoc.
  set (tail := prefix_of (t_length r) (t_payload r) ++ rest).
  rewrite bool_decide_true by reflexivity. cbn [negb].
  change (byte_at (record_header r ++ tail) VERSION_OFFSET) with 1.
  change (byte_at (record_header r ++ tail) RESERVED_OFFSET) with 0.
  change (byte_at (record_header r ++ tail) SOURCE_NODE_OFFSET) with (source_node r).
  change (byte_at (record_header r ++ tail) SOURCE_PORT_OFFSET) with (source_port r).
  change (skip LENGTH_OFFSET (record_header r ++ tail))
    with ([u8 (Z.shiftr (t_length r) 8); u8 (t_length r)] ++ tail).
  change (skip TIMESTAMP_OFFSET (record_header r ++ tail))
    with (be64_bytes (received_unix_us r) ++ [u8 (Z.shiftr (t_length r) 8); u8 (t_length r)] ++ tail).
  change (skip 18 (record_header r ++ tail)) with tail. cbn [Z.eqb Pos.eqb negb].
  assert (get_u16_be ([u8 (Z.shiftr (t_length r) 8); u8 (t_length r)] ++ tail) = t_length r) as ->.
  { unfold get_u16_be. read_bytes. rewrite be16_round by lia. zlia. }
  rewrite max_telemetry_value, (proj2 (Z.ltb_ge _ _)), Z.eqb_refl by lia. cbn [negb].
  do 2 f_equal. unfold cleared. f_equal.
  - by apply get_u64_be_bytes.
  - f_equal. unfold tail. apply prefix_of_app. rewrite len_prefix_of; lia.
Qed.

(** The decoder accepts nothing but encodings. *)
Lemma decode_accepts e n r0 r :
  bytes_ok e -> n <= len e ->
  obc_telemetry_decode (Some e) n (Some r0) = (OBC_TELEMETRY_OK, Some r) ->
  record_wf r /\ n = 18 + t_length r /\ record_bytes r = prefix_of n e.
Proof.
  intros Hb Hn. unfold obc_telemetry_decode, OBC_TELEMETRY_HEADER_SIZE. rewrite max_telemetry_value.
  case_if as E1; [done|]. case_if as E2; [done|]. case_if as E3; [done|]. case_if as E4; [done|].
  cbv zeta. case_if as E5; [done|]. case_if as E6; [done|]. intros [= <-].
  unfold OBC_TELEMETRY_FORMAT_VERSION, VERSION_OFFSET, RESERVED_OFFSET, MAGIC_OFFSET,
    LENGTH_OFFSET, TIMESTAMP_OFFSET, SOURCE_NODE_OFFSET, SOURCE_PORT_OFFSET in *. bool_facts.
  apply bool_decide_eq_true in E2. rewrite skip_0 in E2.
  assert (get_u16_be (skip 16 e) = byte_at e 16 * 256 + byte_at e 17) as Hlen.
  { unfold get_u16_be. rewrite !byte_at_skip by lia. rewrite be16_value by auto with flight.
    pose proof (byte_at_ok e 16 Hb). pose proof (byte_at_ok e 17 Hb).
    change (16 + 0) with 16. change (16 + 1) with 17. zlia. }
  pose proof (byte_at_ok e 16 Hb) as H16. pose proof (byte_at_ok e 17 Hb) as H17.
  set (k := get_u16_be (skip 16 e)) in *. assert (0 <= k <= 238) as Hk by (unfold byte_ok in *; lia).
  assert (len (prefix_of k (skip 18 e)) = k) as Hlk by (apply len_prefix_of; rewrite len_skip; lia).
  assert (bytes_ok (skip 8 e)) as Hb8 by auto with flight.
  rewrite get_u64_be_value by done.
  pose proof (be64_bytes_value (skip 8 e) Hb8 ltac:(rewrite len_skip; lia)) as H64.
  split; [|split; [cbn; lia|]].
  - unfold record_wf. cbn [source_node source_port received_unix_us t_length t_payload].
    rewrite max_telemetry_value. do 2 (split; [auto with flight|]).
    split; [by apply be64_value_range|]. split; [lia|]. split.
    + apply bytes_ok_patch; [|auto with flight]. apply Forall_replicate. zlia.
    + rewrite len_patch; rewrite ?len_zeros; lia.
  - unfold record_bytes, record_header. cbn [source_node source_port received_unix_us t_length t_payload].
    rewrite patch_0, prefix_of_app, H64 by done.
    replace n with (4 + (4 + (8 + (2 + k)))) by lia.
    rewrite !(prefix_of_skip_split _ _ e) by lia. rewrite <- E2.
    rewrite (prefix_of_skip_split 4), (prefix_of_skip_split 8), (prefix_of_skip_split 2) by lia.
    rewrite !skip_skip by lia. change (4 + 4 + 8 + 2) with 18. change (4 + 4 + 8) with 16.
    change (4 + 4) with 8. rewrite <- !app_assoc. f_equal.
    rewrite (bytes_explicit (skip 4 e) 4) by (rewrite len_skip; lia).
    rewrite (bytes_explicit (skip 16 e) 2) by (rewrite len_skip; lia).
    change (seqZ 0 4) with [0; 1; 2; 3]. change (seqZ 0 2) with [0; 1]. cbn [map].
    rewrite !byte_at_skip by lia. change (4 + 0) with 4. change (4 + 1) with 5.
    change (4 + 2) with 6. change (4 + 3) with 7. change (16 + 0) with 16. change (16 + 1) with 17.
    rewrite E3, E4, Hlen, shiftr_div by lia. change (2 ^ 8) with 256.
    f_equal. f_equal. f_equal. repeat (apply (f_equal2 cons); [unfold byte_ok in *; zlia|]). done.
Qed.

(** A telemetry record, encoded into a large enough buffer, is decoded back to
    the same source, port, timestamp and payload; the encoder reports the exact
    size and leaves the rest of the buffer alone. *)
Theorem telemetry_record_roundtrip r out cap size r0 :
  record_wf r -> 18 + t_length r <= cap -> cap <= len out ->
  exists out',
    obc_telemetry_encode (Some r) (Some out) cap (Some size)
      = (OBC_TELEMETRY_OK, Some out', Some (18 + t_length r))
    /\ len out' = len out /\ skip (18 + t_length r) out' = skip (18 + t_length r) out
    /\ obc_telemetry_decode (Some out') (18 + t_length r) (Some r0)
       = (OBC_TELEMETRY_OK, Some (cleared r)).
Proof.
  intros Hwf Hc Ho. pose proof Hwf as (_ & _ & _ & Hl & _). eexists.
  split; [by apply encode_success|]. split; [|split].
  - rewrite len_app, len_record_bytes, len_skip by (done || lia). lia.
  - apply skip_app. by rewrite len_record_bytes.
  - by apply decode_record_bytes.
Qed.

Definition sample_record : obc_telemetry_record_t :=
  mk_record 4 10 1700000000123456 3 ([7; 8; 9] ++ zeros 235).

Lemma sample_record_wf : record_wf sample_record.
Proof.
  unfold record_wf. cbn [source_node source_port received_unix_us t_length t_payload sample_record].
  do 2 (split; [zlia|]). split; [lia|]. split; [rewrite max_telemetry_value; lia|].
  split; [apply bytes_ok_eval|]; vm_compute; reflexivity.
Qed.

Lemma telemetry_record_roundtrip_witness :
  exists out',
    obc_telemetry_encode (Some sample_record) (Some (zeros 24)) 24 (Some 0)
      = (OBC_TELEMETRY_OK, Some out', Some (18 + 3))
    /\ len out' = len (zeros 24) /\ skip (18 + 3) out' = skip (18 + 3) (zeros 24)
    /\ obc_telemetry_decode (Some out') (18 + 3) (Some sample_record)
       = (OBC_TELEMETRY_OK, Some (cleared sample_record)).
Proof.
  apply (telemetry_record_roundtrip sample_record (zeros 24) 24 0 sample_record sample_record_wf);
    vm_compute; congruence.
Defined.

(** The decoder accepts only whole canonical records: the size must be exact,
    and encoding the decoded record gives back the bytes that were read. *)
Theorem telemetry_decode_canonical e n r0 r out size :
  bytes_ok e -> n <= len e ->
  obc_telemetry_decode (Some e) n (Some r0) = (OBC_TELEMETRY_OK, Some r) ->
  record_wf r /\ n = 18 + t_length r
  /\ obc_telemetry_encode (Some r) (Some out) n (Some size)
     = (OBC_TELEMETRY_OK, Some (prefix_of n e ++ skip n out), Some n).
Proof.
  intros Hb Hn Hd. destruct (decode_accepts _ _ _ _ Hb Hn Hd) as (Hwf & -> & He).
  split; [done|]. split; [done|]. by rewrite encode_success, He by (done || lia).
Qed.

Lemma telemetry_decode_canonical_witness :
  exists r,
    obc_telemetry_decode (Some (record_bytes sample_record)) 21 (Some sample_record)
      = (OBC_TELEMETRY_OK, Some r)
    /\ 21 = 18 + t_length r
    /\ obc_telemetry_encode (Some r) (Some (zeros 30)) 21 (Some 0)
       = (OBC_TELEMETRY_OK, Some (prefix_of 21 (record_bytes sample_record) ++ skip 21 (zeros 30)),
          Some 21).
Proof.
  eexists. split; [vm_compute; reflexivity|].
  eapply (telemetry_decode_canonical (record_bytes sample_record) 21 sample_record _ (zeros 30) 0).
  - apply bytes_ok_eval. vm_compute. reflexivity.
  - vm_compute. congruence.
  - vm_compute. reflexivity.
Defined.
