(* ===== verification/ObcProgress.v ===== *)
(** Progress watches of the on-board computer:
    [apps/obc/progress/src/obc_progress.c].  A role marks the beginning and the end
    of an operation and its checkpoints; its health answer says whether the running
    operation still advances.

    The monotonic clock is an argument of the operations that read it.  The mutex
    makes every operation one atomic step. *)

From S2P Require Import Prelude.

Record timespec := mk_time { tv_sec : Z; tv_nsec : Z }.

(** 64-bit signed arithmetic; [elapsed_exact] shows that it does not overflow. *)
Definition elapsed_ms (start stop : timespec) : Z :=
  let seconds := tv_sec stop - tv_sec start in
  let nanoseconds := tv_nsec stop - tv_nsec start in
  let total_nanoseconds := seconds * 1000000000 + nanoseconds in
  if total_nanoseconds <=? 0 then 0 else Z.quot total_nanoseconds 1000000.

Record obc_progress_t := mk_progress {
  last_progress : timespec;
  timeout_ms : Z;
  active : bool
}.

(** [mutex_result] is what [pthread_mutex_init] returns. *)
Definition obc_progress_init (watch : option obc_progress_t) (timeout mutex_result : Z)
    (now : timespec) : Z * option obc_progress_t :=
  match watch with
  | None => (-1, watch)
  | Some _ =>
      if timeout =? 0 then (-1, watch)
      else if negb (mutex_result =? 0) then (mutex_result, watch)
      else (0, Some (mk_progress now timeout false))
  end.

Definition obc_progress_begin (now : timespec) (watch : obc_progress_t) : obc_progress_t :=
  mk_progress now (timeout_ms watch) true.

Definition obc_progress_touch (now : timespec) (watch : obc_progress_t) : obc_progress_t :=
  if active watch then mk_progress now (timeout_ms watch) (active watch) else watch.

Definition obc_progress_end (watch : obc_progress_t) : obc_progress_t :=
  mk_progress (last_progress watch) (timeout_ms watch) false.

Definition obc_progress_is_healthy (now : timespec) (watch : obc_progress_t) : bool :=
  if negb (active watch) then true
  else elapsed_ms (last_progress watch) now <=? timeout_ms watch.

(** ** Specification *)

Definition nanos (t : timespec) : Z := tv_sec t * 1000000000 + tv_nsec t.

Inductive event :=
  | Begin (t : timespec)
  | Touch (t : timespec)
  | End.

Definition apply_event (watch : obc_progress_t) (e : event) : obc_progress_t :=
  match e with
  | Begin t => obc_progress_begin t watch
  | Touch t => obc_progress_touch t watch
  | End => obc_progress_end watch
  end.

Definition is_touch (e : event) : Prop := match e with Touch _ => True | _ => False end.
Definition is_end (e : event) : Prop := match e with End => True | _ => False end.

(** An operation is running and its latest checkpoint was at [t]: the last event
    that was not a touch began it, and [t] is the time of the event that came last. *)
Definition running_since (events : list event) (t : timespec) : Prop :=
  exists before t0 touches,
    events = before ++ Begin t0 :: touches /\ Forall is_touch touches
    /\ match last touches with Some (Touch t1) => t = t1 | _ => t = t0 end.

(** No operation is running: since the last begin there was an end. *)
Definition idle (events : list event) : Prop :=
  Forall (fun e => match e with Begin _ => False | _ => True end) events
  \/ exists before after, events = before ++ End :: after
       /\ Forall (fun e => match e with Begin _ => False | _ => True end) after.

(** A [clock_gettime] result of the next 200 years. *)
Definition clock_ok (t : timespec) : Prop :=
  0 <= tv_sec t < 6311520000 /\ 0 <= tv_nsec t < 1000000000.

Lemma elapsed_exact s e :
  clock_ok s -> clock_ok e ->
  let total := (tv_sec e - tv_sec s) * 1000000000 + (tv_nsec e - tv_nsec s) in
  - 2 ^ 63 <= (tv_sec e - tv_sec s) * 1000000000 < 2 ^ 63 /\ - 2 ^ 63 <= total < 2 ^ 63
  /\ elapsed_ms s e = Z.max 0 (nanos e - nanos s) / 1000000.
Proof.
  unfold clock_ok, nanos, elapsed_ms. intros Hs He.
  change (2 ^ 63) with 9223372036854775808. cbv zeta. split; [lia|]. split; [lia|].
  case_if as E; bool_facts.
  - rewrite Z.max_l by lia. done.
  - rewrite Z.max_r, Z.quot_div_nonneg by lia. f_equal. lia.
Qed.

(** The state of a watch after a history, read backwards. *)
Lemma active_history events watch :
  active watch = false ->
  let w := fold_left apply_event events watch in
  timeout_ms w = timeout_ms watch
  /\ (active w = true -> running_since events (last_progress w))
  /\ (active w = false -> idle events).
Proof.
  intros Hw. induction events as [|e events IH] using rev_ind; cbn zeta in *.
  { split; [done|]. split; [by cbn; rewrite Hw|]. intros _. left. constructor. }
  rewrite fold_left_app, fold_left_cons. cbn [fold_left].
  set (w := fold_left apply_event events watch) in *. destruct IH as (Ht & Ha & Hi).
  destruct e as [t|t|]; cbn [apply_event].
  - split; [done|]. split; [|done]. intros _. exists events, t, []. split; [done|]. by split.
  - unfold obc_progress_touch. destruct (active w) eqn:E.
    + split; [done|]. split; [|done]. intros _.
      destruct (Ha eq_refl) as (before & t0 & touches & -> & Hall & _).
      exists before, t0, (touches ++ [Touch t]). rewrite <- app_assoc. split; [done|].
      split; [by apply Forall_app_2; [|repeat constructor]|]. by rewrite last_snoc.
    + split; [done|]. rewrite E. split; [done|]. intros _.
      destruct (Hi eq_refl) as [Hall|(before & after & -> & Hall)].
      * left. apply Forall_app_2; [done|repeat constructor].
      * right. exists before, (after ++ [Touch t]). rewrite <- app_assoc. split; [done|].
        apply Forall_app_2; [done|repeat constructor].
  - split; [done|]. split; [done|]. intros _. right. exists events, []. split; [done|constructor].
Qed.

Lemma idle_not_running events t : idle events -> running_since events t -> False.
Proof.
  intros Hi (before & t0 & touches & -> & Ht & _). destruct Hi as [Hall|(b & a & E & Hall)].
  - apply Forall_app in Hall as [_ Hall]. by inversion Hall.
  - assert (forall x y : list event, before ++ Begin t0 :: touches = x ++ End :: y ->
              Begin t0 ∈ y \/ End ∈ touches) as Hcase.
    { clear. revert touches. induction before as [|e before IH]; intros touches [|x xs] y [= -> H].
      - right. rewrite H. apply elem_of_app. right. by left.
      - left. rewrite <- H. apply elem_of_app. right. by left.
      - subst. by apply (IH _ xs). }
    destruct (Hcase _ _ E) as [Hin|Hin].
    + rewrite Forall_forall in Hall. by apply (Hall _ Hin).
    + rewrite Forall_forall in Ht. by apply (Ht _ Hin).
Qed.

Lemma touches_last touches t0 tm :
  Forall is_touch touches ->
  fold_left apply_event touches (mk_progress t0 tm true)
  = mk_progress (match last touches with Some (Touch t1) => t1 | _ => t0 end) tm true.
Proof.
  intros H. induction touches as [|e touches IH] using rev_ind; [done|].
  apply Forall_app in H as [H1 H2]. rewrite fold_left_app, IH, last_snoc by done.
  inversion H2 as [|? ? He _]; subst. by destruct e.
Qed.

Lemma running_progress events watch t :
  running_since events t -> last_progress (fold_left apply_event events watch) = t.
Proof.
  intros (before & t0 & touches & -> & Ht & Hl). rewrite fold_left_app, fold_left_cons.
  unfold apply_event at 2, obc_progress_begin. rewrite touches_last by done.
  cbn [last_progress]. by destruct (last touches) as [[]|].
Qed.

(** A watch reports exactly the stalled operations.  After any history of
    begins, checkpoints and ends, it is unhealthy at time [now] if and only if an
    operation is running (begun and not ended) and more than [timeout] milliseconds
    (counted in whole milliseconds) have passed since its latest checkpoint.
    Checkpoints without an operation change nothing. *)
Theorem progress_reports_stall watch timeout now0 w events now :
  obc_progress_init (Some watch) timeout 0 now0 = (0, Some w) ->
  clock_ok now ->
  (forall e t, e ∈ events -> e = Begin t \/ e = Touch t -> clock_ok t) ->
  obc_progress_is_healthy now (fold_left apply_event events w) = false
  <-> exists t, running_since events t
        /\ timeout < Z.max 0 (nanos now - nanos t) / 1000000.
Proof.
  intros Hinit Hnow Hclock. unfold obc_progress_init in Hinit. revert Hinit.
  case_if as E0; [done|]. cbn [Z.eqb negb]. intros [= <-].
  destruct (active_history events (mk_progress now0 timeout false) eq_refl) as (Ht & Ha & Hi).
  set (w := fold_left apply_event events _) in *. cbn [timeout_ms] in Ht.
  assert (forall t, running_since events t -> clock_ok t) as Hck.
  { intros t (before & t0 & touches & -> & Hall & Hl).
    destruct (last touches) as [[t1|t1|]|] eqn:El; subst t.
    - eapply Hclock; [|by left]. apply elem_of_app. right. left.
    - eapply Hclock; [|by right]. apply elem_of_app. right. right.
      apply last_Some in El as [l' ->]. apply elem_of_app. right. left.
    - eapply Hclock; [|by left]. apply elem_of_app. right. left.
    - eapply Hclock; [|by left]. apply elem_of_app. right. left. }
  unfold obc_progress_is_healthy. destruct (active w) eqn:E; cbn [negb].
  - specialize (Ha eq_refl). rewrite Ht.
    destruct (elapsed_exact (last_progress w) now (Hck _ Ha) Hnow) as (_ & _ & ->).
    rewrite Z.leb_gt. split; [intros; by exists (last_progress w)|].
    intros (t & Hr & Hlt). unfold w. by rewrite (running_progress events _ t).
  - split; [done|]. intros (t & Hr & _). exfalso. eapply idle_not_running; [|done]. by apply Hi.
Qed.

Lemma progress_reports_stall_witness :
  obc_progress_is_healthy (mk_time 14 1000000)
    (fold_left apply_event [Begin (mk_time 10 0); End; Begin (mk_time 11 5); Touch (mk_time 12 0)]
       (mk_progress (mk_time 9 0) 2000 false)) = false
  <-> exists t, running_since [Begin (mk_time 10 0); End; Begin (mk_time 11 5); Touch (mk_time 12 0)] t
        /\ 2000 < Z.max 0 (nanos (mk_time 14 1000000) - nanos t) / 1000000.
Proof.
  apply (progress_reports_stall (mk_progress (mk_time 0 0) 0 false) 2000 (mk_time 9 0)).
  - reflexivity.
  - unfold clock_ok. cbn. lia.
  - intros e t Hin He.
    do 4 (apply elem_of_cons in Hin as [->|Hin];
          [destruct He as [[=]|[=]]; subst; unfold clock_ok; cbn; lia|]).
    apply elem_of_nil in Hin. destruct Hin.
Defined.

Example stalled_watch :
  obc_progress_is_healthy (mk_time 14 1000000)
    (mk_progress (mk_time 12 0) 2000 true) = false.
Proof. reflexivity. Qed.
