(* ===== verification/ObcIpc.v ===== *)
(** Messages between the roles of the on-board computer:
    [apps/obc/ipc/src/obc_ipc.c].

    One message is one connection of a stream socket: the sender writes one frame
    and closes, the receiver reads it.  The kernel may split writes and reads as it
    likes; its answers are lists. *)

From S2P Require Import Prelude ObcTelemetry.

Definition IPC_OK : Z := 0.
Definition IPC_ERROR : Z := -1.
Definition IPC_TIMEOUT : Z := -2.

Definition ROLE_COMMANDS : Z := 1.
Definition ROLE_COMPUTE : Z := 2.
Definition ROLE_DATA : Z := 3.
Definition ROLE_FDIR : Z := 4.
Definition ROLE_MISSION : Z := 5.
Definition ROLE_SUPERVISOR : Z := 6.
Definition ROLE_TIME : Z := 7.
Definition ROLE_CAM : Z := 8.
Definition ROLE_COUNT : Z := 9.

Definition role_is_valid (v : Z) : bool := (ROLE_COMMANDS <=? v) && (v <? ROLE_COUNT).

(** Whether the role has a socket path. *)
Definition path_for_role (role : Z) : bool :=
  (role =? ROLE_COMMANDS) || (role =? ROLE_COMPUTE) || (role =? ROLE_DATA) || (role =? ROLE_FDIR)
  || (role =? ROLE_MISSION) || (role =? ROLE_SUPERVISOR) || (role =? ROLE_TIME).

(** The variables of the module, and the calls on the listening socket. *)
Record ipc_state := mk_ipc { my_role : Z; bus_fd : Z }.
Inductive socket_call :=
  | Sock_unlink (role : Z)
  | Sock_bind (fd role : Z)
  | Sock_listen (fd backlog : Z)
  | Sock_close (fd : Z).

Definition IPC_BACKLOG : Z := 5.

(** [socket_fd], [bound] and [listening] are the results of the three calls. *)
Definition IPC_initialize (role socket_fd bound listening : Z) (s : ipc_state) : Z * list socket_call * ipc_state :=
  if negb (path_for_role role) then (IPC_ERROR, [], mk_ipc role (bus_fd s))
  else if socket_fd <? 0 then (IPC_ERROR, [], mk_ipc role socket_fd)
  else
    let calls := [Sock_unlink role; Sock_bind socket_fd role] in
    if bound <? 0 then (IPC_ERROR, calls ++ [Sock_close socket_fd], mk_ipc role (-1))
    else
      let calls := calls ++ [Sock_listen socket_fd IPC_BACKLOG] in
      if listening <? 0 then (IPC_ERROR, calls ++ [Sock_close socket_fd], mk_ipc role (-1))
      else (IPC_OK, calls, mk_ipc role socket_fd).

(** The module listens exactly when the call succeeds, on a descriptor that is still open. *)
Lemma ipc_initialize_spec role socket_fd bound listening s :
  let '(r, calls, s') := IPC_initialize role socket_fd bound listening s in
  my_role s' = role
  /\ (r = IPC_OK <-> path_for_role role = true /\ 0 <= socket_fd /\ 0 <= bound /\ 0 <= listening)
  /\ (r = IPC_OK -> bus_fd s' = socket_fd /\ ~ In (Sock_close socket_fd) calls)
  /\ (r <> IPC_OK -> path_for_role role = true -> bus_fd s' < 0 /\ (0 <= socket_fd -> In (Sock_close socket_fd) calls)).
Proof.
  unfold IPC_initialize, IPC_OK, IPC_ERROR. destruct (path_for_role role); cbn [negb].
  2: { split; [done|]. split; [split; [done|by intros [? _]]|]. by split. }
  destruct (Z.ltb_spec socket_fd 0).
  { split; [done|]. split; [split; [done|lia]|]. split; [done|]. intros _ _. cbn. lia. }
  destruct (Z.ltb_spec bound 0).
  { split; [done|]. split; [split; [done|lia]|]. split; [done|]. intros _ _. split; [done|cbn; auto]. }
  destruct (Z.ltb_spec listening 0).
  { split; [done|]. split; [split; [done|lia]|]. split; [done|]. intros _ _. split; [done|cbn; auto]. }
  split; [done|]. split; [done|]. split; [|done]. intros _. split; [done|]. cbn. intuition discriminate.
Qed.

Record IPCFrame := mk_ipc_frame {
  i_dest : Z;
  i_src : Z;
  i_length : Z;
  i_payload : list Z
}.

(** [memcpy] of the length in network byte order is the big-endian byte pair. *)
Definition ipc_frame_serialize (f : IPCFrame) (out : list Z) (out_size : Z) : Z * list Z :=
  let total := 4 + i_length f in
  if out_size <? total then (-1, out)
  else
    let out := patch out 0 [i_dest f] in
    let out := patch out 1 [i_src f] in
    let out := patch out 2 [u8 (Z.shiftr (i_length f) 8); u8 (i_length f)] in
    let out := patch out 4 (prefix_of (i_length f) (i_payload f)) in
    (total, out).

(** Answers of [read] and [write]: at most [k] bytes moved, interrupted, failed (a
    receive timeout is a failure). *)
Inductive io_answer :=
  | Moved (k : Z)
  | Interrupted
  | Failed.

(** Lines 55 to 68 on a connection with the bytes [conn] still to come; [got] are
    the bytes already in the buffer.  [None]: [read] has not answered yet. *)
Fixpoint read_full (answers : list io_answer) (conn got : list Z) (n : Z)
    : option (Z * list Z * list Z * list io_answer) :=
  if n <=? len got then Some (0, got, conn, answers)
  else
    match answers with
    | [] => None
    | Interrupted :: answers => read_full answers conn got n
    | Failed :: answers => Some (-1, got, conn, answers)
    | Moved k :: answers =>
        let ret := Z.min k (Z.min (n - len got) (len conn)) in
        if ret =? 0 then Some (-1, got, conn, answers)
        else read_full answers (skip ret conn) (got ++ prefix_of ret conn) n
    end.

(** Lines 127 to 136: what reached the connection, and whether all of it did. *)
Fixpoint write_frame (answers : list io_answer) (wire : list Z) : option (bool * list Z) :=
  if len wire <=? 0 then Some (true, [])
  else
    match answers with
    | [] => None
    | Interrupted :: answers => write_frame answers wire
    | Failed :: _ => Some (false, [])
    | Moved k :: answers =>
        match write_frame answers (skip k wire) with
        | Some (ok, out) => Some (ok, prefix_of k wire ++ out)
        | None => None
        end
    end.

(** The result of the call and the bytes on the connection, if there was one.
    [frame0] and [wire0] are the uninitialised arrays of the stack. *)
Definition IPC_send (my_role role_dest : Z) (data : list Z) (length : Z)
    (socket_ok connect_ok : bool) (answers : list io_answer) (frame0 wire0 : list Z)
    : option (Z * option (list Z)) :=
  if OBC_IPC_MAX_PAYLOAD <? length then Some (-1, None)
  else if negb (path_for_role role_dest) then Some (-1, None)
  else if negb socket_ok then Some (-1, None)
  else if negb connect_ok then Some (-1, None)
  else
    let frame := mk_ipc_frame (u8 role_dest) (u8 my_role) length
                   (patch frame0 0 (prefix_of length data)) in
    let '(wire_len, wire) := ipc_frame_serialize frame wire0 (4 + OBC_IPC_MAX_PAYLOAD) in
    match write_frame answers (prefix_of wire_len wire) with
    | Some (true, out) => Some (length, Some out)
    | Some (false, out) => Some (-1, Some out)
    | None => None
    end.

Inductive poll_answer :=
  | Poll_ready
  | Poll_timeout
  | Poll_interrupted
  | Poll_error.

Fixpoint poll_loop (polls : list poll_answer) : option Z :=
  match polls with
  | [] => None
  | Poll_ready :: _ => Some IPC_OK
  | Poll_timeout :: _ => Some IPC_TIMEOUT
  | Poll_error :: _ => Some IPC_ERROR
  | Poll_interrupted :: polls => poll_loop polls
  end.

(** Lines 174 to 197, on an accepted connection. *)
Definition read_frame (answers : list io_answer) (conn : list Z) (src_role : option Z)
    (buffer : list Z) (max_length : Z) : option (Z * option Z * list Z) :=
  match read_full answers conn [] 4 with
  | None => None
  | Some (r, header, conn, answers) =>
      if r <? 0 then Some (IPC_ERROR, src_role, buffer)
      else
        let payload_len := Z.lor (Z.shiftl (byte_at header 2) 8) (byte_at header 3) in
        if max_length <? payload_len then Some (IPC_ERROR, src_role, buffer)
        else
          match read_full answers conn [] payload_len with
          | None => None
          | Some (r, got, _, _) =>
              let buffer := patch buffer 0 got in
              if r <? 0 then Some (IPC_ERROR, src_role, buffer)
              else if negb (role_is_valid (byte_at header 1))
              then Some (IPC_ERROR, src_role, buffer)
              else Some (payload_len,
                         match src_role with Some _ => Some (byte_at header 1) | None => None end,
                         buffer)
          end
  end.

Definition IPC_receive_timeout (bus_open : bool) (polls : list poll_answer) (accept_ok : bool)
    (answers : list io_answer) (conn : list Z) (src_role : option Z) (buffer : list Z)
    (max_length : Z) : option (Z * option Z * list Z) :=
  if negb bus_open then Some (-1, src_role, buffer)
  else
    match poll_loop polls with
    | None => None
    | Some r =>
        if negb (r =? IPC_OK) then Some (r, src_role, buffer)
        else if negb accept_ok then Some (IPC_ERROR, src_role, buffer)
        else read_frame answers conn src_role buffer max_length
    end.

(** ** The frame on the connection *)

Definition ipc_wire (dest src : Z) (data : list Z) : list Z :=
  [dest; src; u8 (Z.shiftr (len data) 8); u8 (len data)] ++ data.

Lemma serialize_wire dest src data n frame0 wire0 :
  0 <= n <= 256 -> n <= len data ->
  ipc_frame_serialize (mk_ipc_frame dest src n (patch frame0 0 (prefix_of n data))) wire0 260
  = (4 + n, ipc_wire dest src (prefix_of n data) ++ skip (4 + n) wire0).
Proof.
  intros Hn Hd. unfold ipc_frame_serialize. cbn [i_dest i_src i_length i_payload]. cbv zeta.
  rewrite (proj2 (Z.ltb_ge _ _)) by lia.
  assert (len (prefix_of n data) = n) as Hl by (apply len_prefix_of; lia).
  rewrite !patch_0. rewrite (prefix_of_app n (prefix_of n data)) by done.
  rewrite !patch_front by done. rewrite Hl, !len_cons, len_nil, !skip_skip by lia.
  unfold ipc_wire. rewrite Hl. do 2 f_equal.
  replace (1 + 0 + (1 + 0 + (1 + (1 + 0) + n))) with (4 + n) by lia.
  done.
Qed.

Definition gives (a : io_answer) : bool := match a with Moved k => 1 <=? k | _ => false end.
Definition benign (a : io_answer) : Prop :=
  match a with Moved k => 1 <= k | Interrupted => True | Failed => False end.

(** How many answers move bytes. *)
Definition moves (answers : list io_answer) : Z := len (List.filter gives answers).

Lemma moves_cons a answers :
  moves (a :: answers) = (if gives a then 1 else 0) + moves answers.
Proof. unfold moves. cbn [List.filter]. destruct (gives a); [by rewrite len_cons|done]. Qed.

(** With enough answers that move bytes, whatever their sizes and whatever
    interruptions come in between, the requested bytes are read exactly. *)
Lemma read_full_ok answers conn got n :
  Forall benign answers -> len got <= n -> n - len got <= len conn ->
  n - len got <= moves answers ->
  exists answers', read_full answers conn got n
    = Some (0, got ++ prefix_of (n - len got) conn, skip (n - len got) conn, answers')
    /\ Forall benign answers' /\ moves answers - (n - len got) <= moves answers'.
Proof.
  intros Ha. revert conn got. induction Ha as [|a answers Ha Has IH]; intros conn got Hg Hc Hm;
    cbn [read_full].
  - change (moves []) with 0 in Hm. rewrite (proj2 (Z.leb_le _ _)) by lia.
    replace (n - len got) with 0 by lia. rewrite prefix_of_0, skip_0, app_nil_r.
    eexists. split; [done|]. split; [constructor|done].
  - case_if as E; bool_facts.
    { replace (n - len got) with 0 by lia. rewrite prefix_of_0, skip_0, app_nil_r.
      eexists. split; [done|]. split; [by constructor|lia]. }
    rewrite moves_cons in Hm. destruct a as [k| |]; cbn [benign gives] in *.
    + rewrite (proj2 (Z.leb_le _ _)) in Hm by done. set (ret := Z.min k _).
      assert (1 <= ret <= n - len got /\ ret <= len conn) as Hr by (unfold ret; lia).
      rewrite (proj2 (Z.eqb_neq _ _)) by lia.
      assert (len (got ++ prefix_of ret conn) = len got + ret) as Hl
        by (rewrite len_app, len_prefix_of by lia; done).
      destruct (IH (skip ret conn) (got ++ prefix_of ret conn)) as (answers' & -> & Hb & Hmv);
        rewrite ?Hl, ?len_skip by lia; try lia.
      exists answers'. split.
      * replace (n - len got) with (ret + (n - (len got + ret))) by lia.
        rewrite prefix_of_skip_split, app_assoc, skip_skip by lia. done.
      * split; [done|]. rewrite Hl in Hmv. rewrite moves_cons. cbn [gives].
        rewrite (proj2 (Z.leb_le _ _)) by done. lia.
    + destruct (IH conn got) as (answers' & E' & Hb & Hmv); [done|done|lia|].
      exists answers'. split; [done|]. split; [done|]. rewrite moves_cons. cbn [gives]. lia.
    + done.
Qed.

Lemma write_frame_ok answers wire :
  Forall benign answers -> len wire <= moves answers ->
  write_frame answers wire = Some (true, wire).
Proof.
  intros Ha. revert wire. induction Ha as [|a answers Ha Has IH]; intros wire Hm;
    cbn [write_frame].
  - change (moves []) with 0 in Hm. rewrite (proj2 (Z.leb_le _ _)) by lia.
    do 2 f_equal. symmetry. apply len_0_nil. pose proof (len_nonneg wire). lia.
  - case_if as E; bool_facts.
    { do 2 f_equal. symmetry. apply len_0_nil. pose proof (len_nonneg wire). lia. }
    rewrite moves_cons in Hm. destruct a as [k| |]; cbn [benign gives] in *.
    + rewrite (proj2 (Z.leb_le _ _)) in Hm by done. rewrite IH by (rewrite len_skip; lia).
      by rewrite prefix_skip.
    + by apply IH.
    + done.
Qed.

Lemma ipc_wire_facts dest src data rest :
  len data <= 256 ->
  len (ipc_wire dest src data) = 4 + len data
  /\ prefix_of 4 (ipc_wire dest src data ++ rest)
     = [dest; src; u8 (Z.shiftr (len data) 8); u8 (len data)]
  /\ skip 4 (ipc_wire dest src data ++ rest) = data ++ rest.
Proof. intros. split; [|done]. unfold ipc_wire. by rewrite len_app. Qed.

(** The receiver on the bytes of a whole frame. *)
Lemma read_frame_ok answers dest src data src0 buffer max_length :
  Forall benign answers -> 4 + len data <= moves answers ->
  len data <= 256 -> len data <= max_length -> role_is_valid src = true ->
  read_frame answers (ipc_wire dest src data) (Some src0) buffer max_length
  = Some (len data, Some src, patch buffer 0 data).
Proof.
  intros Ha Hm Hd Hmax Hs. pose proof (len_nonneg data). unfold read_frame.
  destruct (ipc_wire_facts dest src data [] Hd) as (Hl & Hp & Hsk). rewrite app_nil_r in *.
  destruct (read_full_ok answers (ipc_wire dest src data) [] 4 Ha) as (a1 & -> & Ha1 & Hm1);
    rewrite ?len_nil; try lia. rewrite len_nil in Hm1.
  cbn [Z.sub Z.add Z.opp Pos.add app]. change (4 - len []) with 4. rewrite Hp, Hsk, app_nil_r.
  cbn [Z.ltb Z.compare]. read_bytes. rewrite be16_round by lia.
  rewrite (proj2 (Z.ltb_ge _ _)) by lia.
  destruct (read_full_ok a1 data [] (len data) Ha1) as (a2 & -> & _ & _);
    rewrite ?len_nil; try lia.
  rewrite Hs. cbn [Z.ltb Z.compare negb app]. rewrite Z.sub_0_r, prefix_of_all by lia. done.
Qed.

(** A message sent by one role is received by the other exactly: however the
    kernel splits and interrupts the writes and the reads, [IPC_send] returns the
    length, and [IPC_receive] on that connection returns the same length, the
    sender's role and the same bytes. *)
Theorem ipc_message_roundtrip my_role role_dest data n wanswers frame0 wire0 polls ranswers src0
    buffer max_length :
  path_for_role my_role = true -> path_for_role role_dest = true ->
  0 <= n <= OBC_IPC_MAX_PAYLOAD -> n <= len data -> n <= max_length ->
  Forall benign wanswers -> 4 + n <= moves wanswers ->
  Forall benign ranswers -> 4 + n <= moves ranswers -> poll_loop polls = Some IPC_OK ->
  exists conn,
    IPC_send my_role role_dest data n true true wanswers frame0 wire0 = Some (n, Some conn)
    /\ IPC_receive_timeout true polls true ranswers conn (Some src0) buffer max_length
       = Some (n, Some my_role, patch buffer 0 (prefix_of n data)).
Proof.
  intros Hr Hd Hn Hlen Hmax Hw Hwm Hra Hrm Hp. unfold OBC_IPC_MAX_PAYLOAD in Hn.
  assert (len (prefix_of n data) = n) as Hl by (apply len_prefix_of; lia).
  assert (1 <= my_role <= 7) as Hrole.
  { unfold path_for_role, ROLE_COMMANDS, ROLE_COMPUTE, ROLE_DATA, ROLE_FDIR, ROLE_MISSION,
      ROLE_SUPERVISOR, ROLE_TIME in Hr. lia. }
  exists (ipc_wire (u8 role_dest) (u8 my_role) (prefix_of n data)). split.
  - unfold IPC_send, OBC_IPC_MAX_PAYLOAD. rewrite (proj2 (Z.ltb_ge _ _)), Hd by lia. cbn [negb].
    change (4 + 256) with 260. rewrite serialize_wire by lia.
    rewrite prefix_of_app by (unfold ipc_wire; rewrite len_app, Hl; done).
    rewrite write_frame_ok; [done|done|]. unfold ipc_wire. rewrite len_app, Hl. exact Hwm.
  - unfold IPC_receive_timeout. rewrite Hp. cbn [negb Z.eqb IPC_OK].
    rewrite read_frame_ok; rewrite ?Hl; try lia; try done.
    + by replace (u8 my_role) with my_role by zlia.
    + unfold role_is_valid, ROLE_COMMANDS, ROLE_COUNT. replace (u8 my_role) with my_role by zlia. lia.
Qed.

Lemma ipc_message_roundtrip_witness :
  exists conn,
    IPC_send ROLE_DATA ROLE_MISSION [5; 6; 7] 3 true true
      [Moved 2; Interrupted; Moved 1; Moved 9; Moved 1; Moved 1; Moved 1; Moved 1] [] (zeros 260)
      = Some (3, Some conn)
    /\ IPC_receive_timeout true [Poll_interrupted; Poll_ready] true
         [Moved 1; Moved 1; Interrupted; Moved 1; Moved 1; Moved 1; Moved 1; Moved 1] conn (Some 0)
         (zeros 8) 8
       = Some (3, Some ROLE_DATA, patch (zeros 8) 0 (prefix_of 3 [5; 6; 7])).
Proof.
  apply (ipc_message_roundtrip ROLE_DATA ROLE_MISSION [5; 6; 7] 3); try reflexivity;
    try (unfold OBC_IPC_MAX_PAYLOAD; lia); try (vm_compute; congruence);
    repeat (apply Forall_cons_2; [cbn [benign]; lia || exact I|]); apply Forall_nil_2.
Defined.

Definition io_ok (a : io_answer) : Prop := match a with Moved k => 0 <= k | _ => True end.

Lemma read_full_inv answers conn got n r got' conn' answers' :
  Forall io_ok answers -> len got <= n ->
  read_full answers conn got n = Some (r, got', conn', answers') ->
  got' ++ conn' = got ++ conn /\ Forall io_ok answers' /\ len got' <= n
  /\ (r = 0 /\ len got' = n \/ r = -1).
Proof.
  intros Ha. revert conn got. induction Ha as [|a answers Ha Has IH]; intros conn got Hg;
    cbn [read_full].
  - case_if as E; [|done]. intros [= <- <- <- <-]. bool_facts. split_and!; try done. left. lia.
  - case_if as E.
    { intros [= <- <- <- <-]. bool_facts. split_and!; try done; [by constructor|left; lia]. }
    destruct a as [k| |].
    + case_if as E1; [intros [= <- <- <- <-]; split_and!; try done; by right|].
      intros Hr. apply IH in Hr.
      * by rewrite <- app_assoc, prefix_skip in Hr.
      * bool_facts. cbn [io_ok] in Ha. pose proof (len_nonneg conn).
        rewrite len_app, len_prefix_of by lia. lia.
    + by apply IH.
    + intros [= <- <- <- <-]. split_and!; try done. by right.
Qed.

Lemma len4_explicit (l : list Z) : len l = 4 -> exists a b c d, l = [a; b; c; d].
Proof.
  intros H. destruct l as [|a [|b [|c [|d [|]]]]]; try (unfold len in H; cbn [length] in H; lia).
  by exists a, b, c, d.
Qed.

Lemma poll_loop_result polls r :
  poll_loop polls = Some r -> r = IPC_OK \/ r = IPC_TIMEOUT \/ r = IPC_ERROR.
Proof. induction polls as [|[] polls IH]; cbn; try done; intros; simplify_eq; auto. Qed.

(** The receiver accepts whole messages only: whenever [IPC_receive] returns a
    length, the connection carried, first thing, one complete frame of exactly that
    many bytes from a valid role, which fits the caller's buffer and is what was
    stored; a peer that dies or stalls in the middle of a frame, an oversized frame
    and a frame from no role all give an error. *)
Theorem ipc_receive_whole_frames bus_open polls accept_ok answers conn src0 buffer max_length
    r src' buffer' :
  Forall io_ok answers -> bytes_ok conn ->
  IPC_receive_timeout bus_open polls accept_ok answers conn (Some src0) buffer max_length
    = Some (r, src', buffer') -> 0 <= r ->
  exists dest src data rest,
    conn = ipc_wire dest src data ++ rest /\ r = len data /\ len data <= max_length
    /\ role_is_valid src = true /\ src' = Some src /\ buffer' = patch buffer 0 data.
Proof.
  intros Ha Hb. unfold IPC_receive_timeout. case_if as E0; [intros [= <- _ _]; lia|].
  destruct (poll_loop polls) as [pr|] eqn:Ep; [|done]. apply poll_loop_result in Ep.
  unfold IPC_OK, IPC_TIMEOUT, IPC_ERROR in Ep.
  case_if as E1; [intros [= <- _ _]; bool_facts; unfold IPC_OK in *; lia|].
  case_if as E2; [intros [= <- _ _]; unfold IPC_ERROR; lia|]. unfold read_frame.
  destruct (read_full answers conn [] 4) as [[[[r1 hd] conn1] a1]|] eqn:R1; [|done].
  apply read_full_inv in R1 as (Hc1 & Ha1 & _ & Hr1); [|done|done].
  case_if as E3; [intros [= <- _ _]; unfold IPC_ERROR; lia|].
  destruct Hr1 as [[-> Hl1]| ->]; [|done]. destruct (len4_explicit _ Hl1) as (b0 & b1 & b2 & b3 & ->).
  cbn [app] in Hc1. rewrite <- Hc1 in Hb.
  repeat match goal with H : bytes_ok (_ :: _) |- _ => inversion H; subst; clear H end.
  change (byte_at [b0; b1; b2; b3] 2) with b2. change (byte_at [b0; b1; b2; b3] 3) with b3.
  change (byte_at [b0; b1; b2; b3] 1) with b1. rewrite be16_value by done.
  case_if as E4; [intros [= <- _ _]; unfold IPC_ERROR; lia|].
  destruct (read_full a1 conn1 [] _) as [[[[r2 got] conn2] a2]|] eqn:R2; [|done].
  apply read_full_inv in R2 as (Hc2 & _ & _ & Hr2); [|done|rewrite len_nil; unfold byte_ok in *; lia].
  case_if as E5; [intros [= <- _ _]; unfold IPC_ERROR; lia|].
  destruct Hr2 as [[-> Hl2]| ->]; [|done].
  case_if as E6; [intros [= <- _ _]; unfold IPC_ERROR; lia|]. intros [= <- <- <-] _. bool_facts.
  cbn [app] in Hc2. exists b0, b1, got, conn2. unfold ipc_wire. rewrite Hl2.
  split; [|split_and!; try done; lia]. rewrite shiftr_div by lia. change (2 ^ 8) with 256.
  replace (u8 ((b2 * 256 + b3) / 256)) with b2 by zlia.
  replace (u8 (b2 * 256 + b3)) with b3 by zlia. rewrite <- Hc2. done.
Qed.

Lemma ipc_receive_whole_frames_witness :
  exists dest src data rest,
    [3; 5; 0; 2; 9; 8; 1] = ipc_wire dest src data ++ rest /\ 2 = len data /\ len data <= 8
    /\ role_is_valid src = true /\ Some 5 = Some src /\ [9; 8; 0; 0; 0; 0; 0; 0] = patch (zeros 8) 0 data.
Proof.
  apply (ipc_receive_whole_frames true [Poll_ready] true [Moved 4; Interrupted; Moved 1; Moved 5]
           [3; 5; 0; 2; 9; 8; 1] 0 (zeros 8) 8).
  - repeat (apply Forall_cons_2; [cbn [io_ok]; lia || exact I|]); apply Forall_nil_2.
  - apply bytes_ok_eval. reflexivity.
  - reflexivity.
  - lia.
Defined.

(** ** What a role may rely on

    The message service as its clients use it: [M] are the messages of the client,
    [L] is the state of the service.  A send either succeeds, and the message is
    then the last one that reached that role, or it fails and nothing reached it:
    a frame that is not written completely is not accepted by the receiver. *)
Class Ipc (M L : Type) := {
  ipc_send : Z -> M -> L -> Z * L;
  reached : L -> Z -> list M;
  ipc_send_law : forall dest m l,
    let '(r, l') := ipc_send dest m l in
    (0 <= r -> reached l' dest = reached l dest ++ [m])
    /\ (r < 0 -> reached l' dest = reached l dest)
    /\ (forall other, other <> dest -> reached l' other = reached l other)
}.

(** Retrying a send, as [filesystem.c], [storage.c] and the relay do: at most [n]
    attempts. *)
Section Retry.
Context {M L : Type} `{Ipc M L}.

Fixpoint send_retrying (n : nat) (dest : Z) (m : M) (l : L) : Z * L :=
  match n with
  | O => (-1, l)
  | S n =>
      let '(r, l) := ipc_send dest m l in
      if 0 <=? r then (0, l) else send_retrying n dest m l
  end.

Lemma send_retrying_spec n dest m l :
  exists r l', send_retrying n dest m l = (r, l')
    /\ (r = 0 /\ reached l' dest = reached l dest ++ [m]
        \/ r = -1 /\ reached l' dest = reached l dest)
    /\ (forall other, other <> dest -> reached l' other = reached l other).
Proof.
  revert l. induction n as [|n IH]; intros l; cbn [send_retrying].
  { exists (-1), l. split; [done|]. split; [by right|done]. }
  pose proof (ipc_send_law dest m l) as Hlaw. destruct (ipc_send dest m l) as [r l1].
  destruct Hlaw as (Hok & Hfail & Ho). case_if as E; bool_facts.
  - exists 0, l1. split; [done|]. split; [left; by split; [|apply Hok]|done].
  - destruct (IH l1) as (r' & l' & -> & Hc & Ho'). exists r', l'. split; [done|].
    rewrite Hfail in Hc by done. split; [done|]. intros other Hne. by rewrite Ho', Ho.
Qed.
End Retry.

(** An implementation: each send is answered by a given list of successes and
    failures (then it succeeds), and what reached each role is recorded. *)
Record mailbox (M : Type) := mk_mailbox { outcomes : list bool; posted : list (Z * M) }.
Arguments mk_mailbox {M}.
Arguments outcomes {M}.
Arguments posted {M}.

Definition mailbox_send {M} (dest : Z) (m : M) (l : mailbox M) : Z * mailbox M :=
  match outcomes l with
  | false :: rest => (-1, mk_mailbox rest (posted l))
  | true :: rest => (0, mk_mailbox rest (posted l ++ [(dest, m)]))
  | [] => (0, mk_mailbox [] (posted l ++ [(dest, m)]))
  end.

Definition mailbox_reached {M} (l : mailbox M) (dest : Z) : list M :=
  map snd (List.filter (fun p => fst p =? dest) (posted l)).

Lemma mailbox_reached_snoc {M} rest p (m : M) d dest :
  mailbox_reached (mk_mailbox rest (p ++ [(d, m)])) dest
  = mailbox_reached (mk_mailbox rest p) dest ++ (if d =? dest then [m] else []).
Proof.
  unfold mailbox_reached. cbn [posted]. rewrite List.filter_app, map_app. f_equal.
  cbn. by destruct (d =? dest).
Qed.

#[global, program] Instance mailbox_ipc (M : Type) : Ipc M (mailbox M) := {
  ipc_send := mailbox_send;
  reached := mailbox_reached
}.
Next Obligation.
  intros M dest m [outs p]. unfold mailbox_send. cbn [outcomes posted].
  assert (forall rest, (0 <= 0 -> mailbox_reached (mk_mailbox rest (p ++ [(dest, m)])) dest
                        = mailbox_reached (mk_mailbox outs p) dest ++ [m])
    /\ (0 < 0 -> mailbox_reached (mk_mailbox rest (p ++ [(dest, m)])) dest
                        = mailbox_reached (mk_mailbox outs p) dest)
    /\ (forall other, other <> dest -> mailbox_reached (mk_mailbox rest (p ++ [(dest, m)])) other
                        = mailbox_reached (mk_mailbox outs p) other)) as Hok.
  { intros rest. setoid_rewrite mailbox_reached_snoc. rewrite Z.eqb_refl.
    split; [done|]. split; [lia|]. intros other Hne.
    rewrite (proj2 (Z.eqb_neq _ _)) by done. by rewrite app_nil_r. }
  destruct outs as [|[] rest]; [apply Hok..|]. split; [lia|]. done.
Qed.

(** An implementation that never fails: the list of what was sent. *)
Record post (M : Type) := mk_post { letters : list (Z * M) }.
Arguments mk_post {M}.
Arguments letters {M}.

#[global, program] Instance post_ipc (M : Type) : Ipc M (post M) := {
  ipc_send dest m l := (0, mk_post (letters l ++ [(dest, m)]));
  reached l dest := mailbox_reached (mk_mailbox [] (letters l)) dest
}.
Next Obligation.
  intros M dest m [p]. cbn [letters]. setoid_rewrite mailbox_reached_snoc. rewrite Z.eqb_refl.
  split; [done|]. split; [lia|]. intros other Hne.
  rewrite (proj2 (Z.eqb_neq _ _)) by done. by rewrite app_nil_r.
Qed.

Lemma post_reliable {M} dest (m : M) (l : post M) : 0 <= fst (ipc_send dest m l).
Proof. cbn. lia. Qed.
