(* ===== verification/DataStore.v ===== *)
(** The Data role of the on-board computer: the append-only telemetry log of
    [apps/obc/data/src/telemetry_store.c], the file transfer of [filesystem.c], the
    request dispatch of [storage.c] and the health watch of [data_health.c].

    Files are byte strings in a map from paths; what the C library may do wrong (a
    failing open, a short read or write, a failing close) is an argument.  Replies
    go through the message service of ObcIpc.v, used through its interface. *)

From stdpp Require Import gmap.
From S2P Require Import Prelude Text ObcTelemetry ObcProgress ObcIpc.

Abbreviation path := (list Z) (only parsing).
Abbreviation files := (gmap (list Z) (list Z)).

(** ** The telemetry log *)

(** What happens to one [fwrite]/[fclose] pair: how many bytes [fwrite] accepts, how
    many of these reach the file, and whether [fclose] reports success. *)
Record write_io := mk_write_io {
  w_open : bool;
  w_accepted : Z;
  w_flushed : Z;
  w_close : bool
}.

(** The library's contract: nothing fails and the whole buffer is written. *)
Definition write_io_ok (n : Z) : write_io := mk_write_io true n n true.

(** [fclose] reports success only if what was accepted is in the file. *)
Definition write_io_wf (io : write_io) : Prop :=
  0 <= w_flushed io <= w_accepted io /\ (w_close io = true -> w_flushed io = w_accepted io).

Definition telemetry_store_append (fs : files) (log_path : path) (io : write_io)
    (encoded : option (list Z)) (encoded_size : Z) (record0 : obc_telemetry_record_t)
    : Z * files :=
  match obc_telemetry_decode encoded encoded_size (Some record0) with
  | (OBC_TELEMETRY_OK, _) =>
      if negb (w_open io) then (-1, fs)
      else
        let written := Z.min encoded_size (w_accepted io) in
        let fs := <[log_path := default [] (fs !! log_path)
                     ++ prefix_of (Z.min written (w_flushed io)) (default [] encoded)]> fs in
        if negb (written =? encoded_size) || negb (w_close io) then (-1, fs) else (0, fs)
  | _ => (-1, fs)
  end.

Definition OBC_TELEMETRY_READ_OK : Z := 0.
Definition OBC_TELEMETRY_READ_END : Z := 1.
Definition OBC_TELEMETRY_READ_IO_ERROR : Z := -1.
Definition OBC_TELEMETRY_READ_INVALID_RECORD : Z := -2.
Definition OBC_TELEMETRY_READ_INVALID_ARGUMENT : Z := -3.

(** What happens to the reads of one call: whether an existing file opens, whether
    the seek works, and after how many bytes the disk stops giving data. *)
Record read_io := mk_read_io {
  r_open : bool;
  r_seek : bool;
  r_limit : option Z
}.
Definition read_io_ok : read_io := mk_read_io true true None.

(** The bytes the stream will give, and whether it then fails (or just ends). *)
Definition stream_of (io : read_io) (content : list Z) : list Z :=
  match r_limit io with None => content | Some n => prefix_of n content end.
Definition stream_fails (io : read_io) (content : list Z) : bool :=
  match r_limit io with None => false | Some n => n <? len content end.

(** The outputs: status, buffer, record size, next offset, end of log. *)
Definition telemetry_store_read_record (fs : files) (log_path : path) (io : read_io)
    (offset : Z) (encoded_out : list Z) (encoded_capacity : Z) (decoded0 : obc_telemetry_record_t)
    : Z * list Z * Z * Z * Z :=
  if (encoded_capacity <? OBC_IPC_MAX_PAYLOAD) || (9223372036854775807 <? offset)
  then (OBC_TELEMETRY_READ_INVALID_ARGUMENT, encoded_out, 0, offset, 0)
  else
    match fs !! log_path with
    | None => (OBC_TELEMETRY_READ_END, encoded_out, 0, offset, 1)
    | Some content =>
        if negb (r_open io) then (OBC_TELEMETRY_READ_IO_ERROR, encoded_out, 0, offset, 0)
        else if negb (r_seek io) then (OBC_TELEMETRY_READ_IO_ERROR, encoded_out, 0, offset, 0)
        else
          let rest := skip offset content in
          let stream := stream_of io rest in
          let header := prefix_of OBC_TELEMETRY_HEADER_SIZE stream in
          let stream := skip OBC_TELEMETRY_HEADER_SIZE stream in
          if (len header =? 0) && negb (stream_fails io rest)
          then (OBC_TELEMETRY_READ_END, encoded_out, 0, offset, 1)
          else if negb (len header =? OBC_TELEMETRY_HEADER_SIZE)
          then (OBC_TELEMETRY_READ_INVALID_RECORD, encoded_out, 0, offset, 0)
          else
            let payload_length := u16 (Z.lor (Z.shiftl (byte_at header 16) 8) (byte_at header 17)) in
            let record_size := OBC_TELEMETRY_HEADER_SIZE + payload_length in
            if (OBC_TELEMETRY_MAX_PAYLOAD <? payload_length) || (encoded_capacity <? record_size)
            then (OBC_TELEMETRY_READ_INVALID_RECORD, encoded_out, 0, offset, 0)
            else
              let encoded_out := patch encoded_out 0 header in
              let payload := prefix_of payload_length stream in
              let stream := skip payload_length stream in
              let encoded_out := patch encoded_out OBC_TELEMETRY_HEADER_SIZE payload in
              if negb (len payload =? payload_length)
              then (OBC_TELEMETRY_READ_INVALID_RECORD, encoded_out, 0, offset, 0)
              else
                match obc_telemetry_decode (Some encoded_out) record_size (Some decoded0) with
                | (OBC_TELEMETRY_OK, _) =>
                    if 18446744073709551615 - record_size <? offset
                    then (OBC_TELEMETRY_READ_INVALID_RECORD, encoded_out, 0, offset, 0)
                    else
                      let next_offset := offset + record_size in
                      match stream with
                      | _ :: _ => (OBC_TELEMETRY_READ_OK, encoded_out, record_size, next_offset, 0)
                      | [] =>
                          if stream_fails io rest
                          then (OBC_TELEMETRY_READ_IO_ERROR, encoded_out, record_size, next_offset, 0)
                          else (OBC_TELEMETRY_READ_OK, encoded_out, record_size, next_offset, 1)
                      end
                | _ => (OBC_TELEMETRY_READ_INVALID_RECORD, encoded_out, 0, offset, 0)
                end
    end.

(** ** Messages of the Data role *)

Definition OBC_TELEMETRY_READ_REQUEST_MAGIC : Z := 0x544C4D51.
Definition OBC_TELEMETRY_READ_REPLY_MAGIC : Z := 0x544C4D41.
Definition OBC_TELEMETRY_READ_CHUNK_SIZE : Z := 216.
Definition DATA_MAX_PATH : Z := 64.
Definition DATA_CHUNK_SIZE : Z := 200.
Definition DATA_WRITE_CHUNK_SIZE : Z := 128.

Record obc_telemetry_read_reply_t := mk_telemetry_reply {
  tr_magic : Z;
  tr_status : Z;
  tr_is_last_chunk : Z;
  tr_end_of_log : Z;
  tr_record_offset : Z;
  tr_next_offset : Z;
  tr_record_length : Z;
  tr_chunk_offset : Z;
  tr_chunk_length : Z;
  tr_payload : list Z         (* the array of OBC_TELEMETRY_READ_CHUNK_SIZE bytes *)
}.

Record data_read_reply_t := mk_read_reply {
  rr_status : Z;
  rr_offset : Z;
  rr_length : Z;
  rr_is_last : Z;
  rr_payload : list Z         (* the array of DATA_CHUNK_SIZE bytes *)
}.

Inductive data_message :=
  | Telemetry_reply (r : obc_telemetry_read_reply_t)
  | Read_reply (r : data_read_reply_t)
  | Write_ack (status : Z).

(** The C layout of the requests, on the little-endian machines the code runs on. *)
Definition le16 (l : list Z) (i : Z) : Z := byte_at l i + 256 * byte_at l (i + 1).
Definition le32 (l : list Z) (i : Z) : Z := le16 l i + 65536 * le16 l (i + 2).
Definition le64 (l : list Z) (i : Z) : Z := le32 l i + 4294967296 * le32 l (i + 4).

Section Data.
Context {L : Type} `{Ipc data_message L}.
(** The clock at the successive progress reports, the path of the log, and the
    uninitialised record of the stack. *)
Context (clock : nat -> timespec) (log_path : path) (record0 : obc_telemetry_record_t).

Record data_state := mk_data {
  d_files : files;
  storage_watch : obc_progress_t;
  ticks : nat;
  link : L
}.

Definition with_link (l : L) (st : data_state) : data_state :=
  mk_data (d_files st) (storage_watch st) (ticks st) l.
Definition with_files (fs : files) (st : data_state) : data_state :=
  mk_data fs (storage_watch st) (ticks st) (link st).

(** [data_health.c]. *)
Definition STORAGE_STALL_TIMEOUT_MS : Z := 3000.

(** [timeout] is the value of [timeout_from_env]. *)
Definition data_health_init (timeout mutex_result : Z) (now now' : timespec)
    (st : data_state) : Z * data_state :=
  match obc_progress_init (Some (storage_watch st)) timeout mutex_result now with
  | (0, Some w) =>
      (0, mk_data (d_files st) (obc_progress_begin now' w) (ticks st) (link st))
  | (r, _) => (r, st)
  end.

Definition data_health_storage_progress (st : data_state) : data_state :=
  mk_data (d_files st) (obc_progress_touch (clock (ticks st)) (storage_watch st)) (S (ticks st))
    (link st).

Definition data_health_is_healthy (now : timespec) (st : data_state) : bool :=
  obc_progress_is_healthy now (storage_watch st).

(** One round of the heartbeat thread ([heartbeat.c]): the two empty messages it sends, the
    new [previously_healthy]. *)
Definition heartbeat_round (now : timespec) (st : data_state) : list Z * bool :=
  let healthy := data_health_is_healthy now st in
  (if healthy then [ROLE_FDIR; ROLE_SUPERVISOR] else [], healthy).

(** [filesystem.c]. *)
Definition IPC_SEND_MAX_RETRIES : nat := 20.

Definition ipc_send_retrying (dest : Z) (m : data_message) (st : data_state) : Z * data_state :=
  let '(r, l) := send_retrying IPC_SEND_MAX_RETRIES dest m (link st) in (r, with_link l st).

Definition send_error (requester : Z) (st : data_state) : data_state :=
  snd (ipc_send_retrying requester
         (Read_reply (mk_read_reply (-1) 0 0 1 (zeros DATA_CHUNK_SIZE))) st).

(** The loop of [filesystem_stream_file]; the stream [rest] is what [fread] still
    gives. *)
Fixpoint stream_loop (fuel : nat) (rest : list Z) (offset requester : Z) (st : data_state)
    : option data_state :=
  match fuel with
  | O => None
  | S fuel =>
      let n := Z.min DATA_CHUNK_SIZE (len rest) in
      let is_last := if n <? DATA_CHUNK_SIZE then 1 else 0 in
      let reply := mk_read_reply 0 offset (u16 n) is_last
                     (patch (zeros DATA_CHUNK_SIZE) 0 (prefix_of n rest)) in
      match ipc_send_retrying requester (Read_reply reply) st with
      | (r, st) =>
          if negb (r =? 0) then Some st
          else
            let st := data_health_storage_progress st in
            if is_last =? 0 then stream_loop fuel (skip n rest) (u32 (offset + u32 n)) requester st
            else Some st
      end
  end.

Definition filesystem_stream_file (io : read_io) (p : path) (requester : Z) (st : data_state)
    : option data_state :=
  match d_files st !! p with
  | Some content =>
      if r_open io
      then stream_loop (S (Z.to_nat (len content))) (stream_of io content) 0 requester st
      else Some (send_error requester st)
  | None => Some (send_error requester st)
  end.

(** [memory] is what lies in memory from [payload] on: [fwrite] takes [length] bytes
    of it. *)
Definition filesystem_write_chunk (io : write_io) (p : path) (offset length : Z)
    (memory : list Z) (requester : Z) (st : data_state) : data_state :=
  let '(status, st) :=
    if w_open io
    then
      let old := if offset =? 0 then [] else default [] (d_files st !! p) in
      let written := Z.min length (w_accepted io) in
      let fs := <[p := old ++ prefix_of (Z.min written (w_flushed io)) memory]> (d_files st) in
      let st := with_files fs st in
      let st := if 0 <? written then data_health_storage_progress st else st in
      ((if written =? length then 0 else -1), st)
    else (-1, st) in
  snd (ipc_send_retrying requester (Write_ack status) st).

(** [storage.c]. *)
Definition TELEMETRY_REPLY_RETRIES : nat := 20.

Definition send_telemetry_reply (requester : Z) (reply : obc_telemetry_read_reply_t)
    (st : data_state) : Z * data_state :=
  let '(r, l) := send_retrying TELEMETRY_REPLY_RETRIES requester (Telemetry_reply reply) (link st) in
  (r, with_link l st).

Definition telemetry_error_reply (requested_offset status : Z) : obc_telemetry_read_reply_t :=
  mk_telemetry_reply OBC_TELEMETRY_READ_REPLY_MAGIC status 1
    (b2z (status =? OBC_TELEMETRY_READ_END)) requested_offset requested_offset 0 0 0
    (zeros OBC_TELEMETRY_READ_CHUNK_SIZE).

Definition send_telemetry_error (requester requested_offset status : Z) (st : data_state)
    : data_state :=
  snd (send_telemetry_reply requester (telemetry_error_reply requested_offset status) st).

Definition telemetry_chunk (encoded : list Z) (record_size record_offset next_offset end_of_log
    chunk_offset : Z) : obc_telemetry_read_reply_t :=
  let chunk_length := Z.min (record_size - chunk_offset) OBC_TELEMETRY_READ_CHUNK_SIZE in
  let is_last_chunk := chunk_offset + chunk_length =? record_size in
  mk_telemetry_reply OBC_TELEMETRY_READ_REPLY_MAGIC OBC_TELEMETRY_READ_OK (b2z is_last_chunk)
    (b2z (is_last_chunk && truthy end_of_log)) record_offset next_offset (u16 record_size)
    (u16 chunk_offset) (u16 chunk_length)
    (patch (zeros OBC_TELEMETRY_READ_CHUNK_SIZE) 0
       (prefix_of chunk_length (skip chunk_offset encoded))).

Fixpoint send_chunks (fuel : nat) (encoded : list Z) (requester record_size record_offset
    next_offset end_of_log chunk_offset : Z) (st : data_state) : option data_state :=
  match fuel with
  | O => None
  | S fuel =>
      if chunk_offset <? record_size
      then
        let reply :=
          telemetry_chunk encoded record_size record_offset next_offset end_of_log chunk_offset in
        let '(r, st) := send_telemetry_reply requester reply st in
        if negb (r =? 0) then Some st
        else
          send_chunks fuel encoded requester record_size record_offset next_offset end_of_log
            (chunk_offset + Z.min (record_size - chunk_offset) OBC_TELEMETRY_READ_CHUNK_SIZE) st
      else Some st
  end.

(** At most two chunks: a record has at most 256 bytes. *)
Definition handle_telemetry_read (io : read_io) (requester offset : Z) (encoded0 : list Z)
    (st : data_state) : option data_state :=
  if negb (requester =? ROLE_MISSION) then Some st
  else
    let '(status, encoded, record_size, next_offset, end_of_log) :=
      telemetry_store_read_record (d_files st) log_path io offset encoded0 OBC_IPC_MAX_PAYLOAD
        record0 in
    if negb (status =? OBC_TELEMETRY_READ_OK)
    then Some (send_telemetry_error requester offset status st)
    else send_chunks 3 encoded requester record_size offset next_offset end_of_log 0 st.

(** One round of [storage_thread]: a timeout, an error, or a message of [len] bytes
    at the front of [buf]; [behind] is what lies in memory behind the chunk. *)
Inductive received :=
  | Got_timeout
  | Got_error
  | Got_message (src length : Z).

Definition storage_round (wio : write_io) (rio : read_io) (r : received) (buf encoded0 behind : list Z)
    (st : data_state) : option data_state :=
  match r with
  | Got_timeout => Some (data_health_storage_progress st)
  | Got_error => Some st
  | Got_message src length =>
      let result :=
        if src =? ROLE_COMMANDS
        then
          Some (with_files (snd (telemetry_store_append (d_files st) log_path wio (Some buf) length
                                   record0)) st)
        else if length =? 16
        then
          if le32 buf 0 =? OBC_TELEMETRY_READ_REQUEST_MAGIC
          then handle_telemetry_read rio src (le64 buf 8) encoded0 st
          else Some st
        else if length =? 64
        then filesystem_stream_file rio (c_string (prefix_of 63 buf)) src st
        else if length =? 200
        then
          Some (filesystem_write_chunk wio (c_string (prefix_of 63 buf)) (le32 buf 64)
                  (le16 buf 68) (prefix_of 129 (skip 71 buf) ++ behind) src st)
        else Some st in
      option_map data_health_storage_progress result
  end.

End Data.

(** ** The telemetry log as a list of records *)

Definition log_bytes (rs : list obc_telemetry_record_t) : list Z := concat (map record_bytes rs).

(** The calls of [telemetry_store_append] on one log. *)
Record append_call := mk_append { a_bytes : list Z; a_size : Z; a_record0 : obc_telemetry_record_t }.

Definition append_call_ok (c : append_call) : Prop :=
  bytes_ok (a_bytes c) /\ 0 <= a_size c <= len (a_bytes c).

Fixpoint run_appends (fs : files) (log_path : path) (calls : list append_call) : list Z * files :=
  match calls with
  | [] => ([], fs)
  | c :: calls =>
      let '(r, fs) := telemetry_store_append fs log_path (write_io_ok (a_size c))
                        (Some (a_bytes c)) (a_size c) (a_record0 c) in
      let '(rs, fs) := run_appends fs log_path calls in
      (r :: rs, fs)
  end.

(** What the calls should leave in the log: the records they encode, in order. *)
Definition encoded_record (c : append_call) : option obc_telemetry_record_t :=
  match obc_telemetry_decode (Some (a_bytes c)) (a_size c) (Some (a_record0 c)) with
  | (OBC_TELEMETRY_OK, r) => r
  | _ => None
  end.

Definition accepted_records (calls : list append_call) : list obc_telemetry_record_t :=
  omap encoded_record calls.

(** A log file holds these records; a log without records may have no file. *)
Definition holds_log (fs : files) (log_path : path) (rs : list obc_telemetry_record_t) : Prop :=
  default [] (fs !! log_path) = log_bytes rs.

Lemma log_bytes_app rs rs' : log_bytes (rs ++ rs') = log_bytes rs ++ log_bytes rs'.
Proof. unfold log_bytes. by rewrite map_app, concat_app. Qed.

Lemma log_bytes_cons r rs : log_bytes (r :: rs) = record_bytes r ++ log_bytes rs.
Proof. done. Qed.

Lemma encoded_record_spec c r :
  append_call_ok c -> encoded_record c = Some r ->
  record_wf r /\ a_size c = 18 + t_length r /\ record_bytes r = prefix_of (a_size c) (a_bytes c).
Proof.
  intros [Hb Hn]. unfold encoded_record.
  destruct (obc_telemetry_decode _ _ _) as [[] r'] eqn:E; try done. intros ->.
  apply (decode_accepts _ _ _ _ Hb) in E; [done|lia].
Qed.

Lemma append_ok fs log_path c rs :
  append_call_ok c -> holds_log fs log_path rs ->
  telemetry_store_append fs log_path (write_io_ok (a_size c)) (Some (a_bytes c)) (a_size c) (a_record0 c)
  = match encoded_record c with
    | Some r => (0, <[log_path := log_bytes (rs ++ [r])]> fs)
    | None => (-1, fs)
    end.
Proof.
  intros Hc Hl. pose proof (encoded_record_spec c) as Hspec. unfold telemetry_store_append.
  unfold encoded_record in *.
  destruct (obc_telemetry_decode _ _ _) as [[] [r|]] eqn:E; try done.
  - destruct (Hspec r Hc eq_refl) as (Hwf & Hs & He). cbn [w_open w_accepted w_flushed w_close write_io_ok negb].
    rewrite !Z.min_id, Z.eqb_refl. cbn [negb orb default from_option id]. unfold holds_log in Hl.
    rewrite Hl, log_bytes_app, log_bytes_cons, app_nil_r, He. done.
  - exfalso. unfold obc_telemetry_decode in E. repeat case_match; by simplify_eq.
Qed.

Lemma run_appends_spec calls fs log_path rs :
  Forall append_call_ok calls -> holds_log fs log_path rs ->
  run_appends fs log_path calls
  = (map (fun c => if encoded_record c is Some _ then 0 else -1) calls,
     match accepted_records calls with
     | [] => fs
     | new => <[log_path := log_bytes (rs ++ new)]> fs
     end).
Proof.
  intros Hc. revert fs rs. induction Hc as [|c calls Hc Hcs IH]; intros fs rs Hl; [done|].
  cbn [run_appends map accepted_records]. rewrite (append_ok _ _ _ rs) by done.
  unfold accepted_records in *. cbn [omap list_omap]. destruct (encoded_record c) as [r|] eqn:E.
  - rewrite (IH _ (rs ++ [r])) by (unfold holds_log; by rewrite lookup_insert_eq).
    f_equal. destruct (omap encoded_record calls) as [|r' l]; [done|].
    by rewrite insert_insert_eq, <- app_assoc.
  - by rewrite (IH _ rs).
Qed.

(** Reading where a record starts, whatever follows it in the file. *)
Lemma read_at_record fs log_path before r rest out r0 :
  fs !! log_path = Some (before ++ record_bytes r ++ rest) -> record_wf r ->
  len before <= 9223372036854775807 -> 256 <= len out ->
  exists out',
    telemetry_store_read_record fs log_path read_io_ok (len before) out OBC_IPC_MAX_PAYLOAD r0
    = (OBC_TELEMETRY_READ_OK, out', 18 + t_length r, len before + (18 + t_length r),
       if rest is [] then 1 else 0)
    /\ out' = record_bytes r ++ skip (18 + t_length r) out.
Proof.
  intros Hf Hwf Hoff Hout. pose proof Hwf as (_ & _ & _ & Hl & _ & Hp). rewrite max_telemetry_value in *.
  eexists. split; [|reflexivity]. unfold telemetry_store_read_record, OBC_IPC_MAX_PAYLOAD.
  rewrite Hf. rewrite !(proj2 (Z.ltb_ge _ _)) by lia. cbn [orb r_open r_seek read_io_ok negb].
  rewrite skip_app by done. unfold stream_of, stream_fails. cbn [r_limit read_io_ok].
  unfold record_bytes. rewrite <- !app_assoc. unfold OBC_TELEMETRY_HEADER_SIZE.
  rewrite prefix_of_app, skip_app by done. rewrite len_record_header. cbn [Z.eqb Pos.eqb andb negb].
  change (byte_at (record_header r) 16) with (u8 (Z.shiftr (t_length r) 8)).
  change (byte_at (record_header r) 17) with (u8 (t_length r)).
  rewrite be16_round by lia. replace (u16 (t_length r)) with (t_length r) by zlia.
  rewrite max_telemetry_value, !(proj2 (Z.ltb_ge _ _)) by lia. cbn [orb].
  rewrite prefix_of_app, skip_app by (rewrite len_prefix_of; lia).
  rewrite len_prefix_of, Z.eqb_refl by lia. cbn [negb].
  rewrite patch_0, len_record_header, patch_front, len_prefix_of, skip_skip by (done || lia).
  change (record_header r ++ prefix_of (t_length r) (t_payload r)) with (record_bytes r).
  rewrite decode_record_bytes by done. unfold record_bytes. rewrite <- app_assoc. by destruct rest.
Qed.

Lemma read_at_end fs log_path content out r0 :
  default [] (fs !! log_path) = content -> len content <= 9223372036854775807 ->
  telemetry_store_read_record fs log_path read_io_ok (len content) out OBC_IPC_MAX_PAYLOAD r0
  = (OBC_TELEMETRY_READ_END, out, 0, len content, 1).
Proof.
  intros Hf Hl. unfold telemetry_store_read_record, OBC_IPC_MAX_PAYLOAD.
  rewrite !(proj2 (Z.ltb_ge _ _)) by lia. cbn [orb]. destruct (fs !! log_path) as [c|]; [|done].
  cbn in Hf. subst c. cbn [r_open r_seek read_io_ok negb]. unfold stream_of, stream_fails.
  cbn [r_limit read_io_ok]. rewrite skip_all by lia. done.
Qed.


Definition sample_calls : list append_call :=
  [mk_append (record_bytes sample_record ++ [1; 2]) 21 sample_record;
   mk_append [1; 2; 3] 3 sample_record;
   mk_append (record_bytes sample_record) 21 sample_record].

Lemma sample_calls_ok : Forall append_call_ok sample_calls.
Proof.
  unfold sample_calls.
  repeat (apply Forall_cons_2; [split; [apply bytes_ok_eval; vm_compute; reflexivity|
    split; vm_compute; congruence]|]). apply Forall_nil_2.
Qed.


(** An append that the disk interrupts in the payload leaves a torn record behind,
    and the next append continues it: reading at its offset then returns, as a valid
    record, bytes that were never appended as one. *)
Lemma torn_append_corrupts fs log_path before r r2 k out r0 :
  fs !! log_path = Some before -> record_wf r -> record_wf r2 -> 18 <= k < 18 + t_length r ->
  18 + t_length r - k <= 18 + t_length r2 ->
  len before + k <= 9223372036854775807 -> 256 <= len out ->
  let '(r1, fs) := telemetry_store_append fs log_path (mk_write_io true k k true)
                     (Some (record_bytes r)) (18 + t_length r) r0 in
  let '(r2', fs) := telemetry_store_append fs log_path (write_io_ok (18 + t_length r2))
                     (Some (record_bytes r2)) (18 + t_length r2) r0 in
  r1 = -1 /\ r2' = 0
  /\ exists out' next last,
      telemetry_store_read_record fs log_path read_io_ok (len before) out OBC_IPC_MAX_PAYLOAD r0
      = (OBC_TELEMETRY_READ_OK, out', 18 + t_length r, next, last)
      /\ prefix_of (18 + t_length r) out'
         = prefix_of k (record_bytes r) ++ prefix_of (18 + t_length r - k) (record_bytes r2).
Proof.
  intros Hf Hwf Hwf2 Hk Hk2 Hoff Hout. unfold telemetry_store_append at 1.
  pose proof (decode_record_bytes r [] r0 Hwf) as Hd. rewrite app_nil_r in Hd. rewrite Hd.
  cbn [w_open w_accepted w_flushed w_close negb]. rewrite (Z.min_r _ k), Z.min_id by lia.
  rewrite (proj2 (Z.eqb_neq k _)) by lia. cbn [negb orb]. rewrite Hf. cbn [default from_option id].
  unfold telemetry_store_append at 1.
  pose proof (decode_record_bytes r2 [] r0 Hwf2) as Hd2. rewrite app_nil_r in Hd2. rewrite Hd2.
  cbn [w_open w_accepted w_flushed w_close negb write_io_ok]. rewrite !Z.min_id, Z.eqb_refl.
  cbn [negb orb]. rewrite lookup_insert_eq, insert_insert_eq. cbn [default from_option id].
  rewrite (prefix_of_all _ (record_bytes r2)) by (rewrite len_record_bytes by done; lia).
  pose proof Hwf as (Hn & Hpo & Hu & Hl & Hb & Hp). rewrite max_telemetry_value in *.
  set (mixed := prefix_of (k - 18) (t_payload r) ++ prefix_of (18 + t_length r - k) (record_bytes r2)
                ++ zeros (238 - t_length r)).
  assert (len (prefix_of (k - 18) (t_payload r)) = k - 18) as Hl1 by (apply len_prefix_of; lia).
  assert (len (prefix_of (18 + t_length r - k) (record_bytes r2)) = 18 + t_length r - k) as Hl2
    by (apply len_prefix_of; rewrite len_record_bytes by done; lia).
  set (r' := mk_record (source_node r) (source_port r) (received_unix_us r) (t_length r) mixed).
  assert (prefix_of (t_length r) mixed
          = prefix_of (k - 18) (t_payload r) ++ prefix_of (18 + t_length r - k) (record_bytes r2)) as Hm.
  { unfold mixed. rewrite app_assoc. apply prefix_of_app. rewrite len_app. lia. }
  assert (record_wf r') as Hwf'.
  { unfold record_wf, r', mixed. cbn [source_node source_port received_unix_us t_length t_payload].
    split; [done|]. split; [done|]. split; [done|]. split; [done|]. split.
    - repeat apply Forall_app_2; auto using record_bytes_ok with flight.
      apply Forall_replicate. zlia.
    - rewrite !len_app, len_zeros by lia. rewrite max_telemetry_value. lia. }
  assert (record_bytes r' = prefix_of k (record_bytes r)
            ++ prefix_of (18 + t_length r - k) (record_bytes r2)) as Hr'.
  { unfold record_bytes at 1. unfold r'. cbn [t_length t_payload]. rewrite Hm. unfold record_bytes at 2.
    rewrite prefix_of_app_ge by (rewrite len_record_header; lia). rewrite len_record_header.
    rewrite prefix_of_prefix_of, Z.min_l, <- app_assoc by lia. done. }
  split; [done|]. split; [done|].
  destruct (read_at_record (<[log_path := (before ++ prefix_of k (record_bytes r)) ++ record_bytes r2]> fs)
    log_path before r' (skip (18 + t_length r - k) (record_bytes r2)) out r0) as (out' & Hread & Ho);
    [|done|lia|done|].
  { rewrite lookup_insert_eq, Hr', <- !app_assoc. do 3 f_equal. symmetry. apply prefix_skip. }
  do 3 eexists. split; [apply Hread|]. rewrite Ho, Hr'. apply prefix_of_app.
  rewrite len_app, len_prefix_of by (rewrite len_record_bytes by done; lia). lia.
Qed.

(** ** What the Data role sends back *)
Section Served.
Context {L : Type} `{Ipc data_message L}.
Context (clock : nat -> timespec) (log_path : path) (record0 : obc_telemetry_record_t).

Definition reliable : Prop := forall dest (m : data_message) (l : L), 0 <= fst (ipc_send dest m l).

(** The replies that carry a record of [n] bytes: one, or two when it does not fit one. *)
Definition record_replies (encoded : list Z) (n record_offset next_offset end_of_log : Z)
    : list obc_telemetry_read_reply_t :=
  telemetry_chunk encoded n record_offset next_offset end_of_log 0
  :: (if OBC_TELEMETRY_READ_CHUNK_SIZE <? n
      then [telemetry_chunk encoded n record_offset next_offset end_of_log
              OBC_TELEMETRY_READ_CHUNK_SIZE]
      else []).

(** The state after some messages reached a role and nothing else changed but the
    progress watch. *)
Definition delivered (st st' : @data_state L) (dest : Z) (ms : list data_message) : Prop :=
  d_files st' = d_files st /\ reached (link st') dest = reached (link st) dest ++ ms
  /\ (forall other, other <> dest -> reached (link st') other = reached (link st) other).

Lemma delivered_nil st dest : delivered st st dest [].
Proof. unfold delivered. by rewrite app_nil_r. Qed.

Lemma delivered_trans st st1 st2 dest ms ms' :
  delivered st st1 dest ms -> delivered st1 st2 dest ms' -> delivered st st2 dest (ms ++ ms').
Proof.
  intros (Hf1 & Hr1 & Ho1) (Hf2 & Hr2 & Ho2). split; [congruence|].
  split; [by rewrite Hr2, Hr1, app_assoc|]. intros other Hne. by rewrite Ho2, Ho1.
Qed.

Lemma send_retrying_delivers n dest (m : data_message) st :
  exists r l, send_retrying n dest m (link st) = (r, l)
    /\ (r = 0 /\ delivered st (with_link l st) dest [m]
        \/ r = -1 /\ delivered st (with_link l st) dest [])
    /\ (reliable -> (0 < n)%nat -> r = 0).
Proof.
  destruct (send_retrying_spec n dest m (link st)) as (r & l & E & Hc & Ho).
  exists r, l. split; [done|]. split.
  - destruct Hc as [[-> Hr]|[-> Hr]]; [left|right]; (split; [done|]); split; try done;
      (split; [|exact Ho]); cbn [link with_link]; rewrite Hr, ?app_nil_r; done.
  - intros Hrel Hn. destruct n as [|n]; [lia|]. cbn [send_retrying] in E.
    specialize (Hrel dest m (link st)). destruct (ipc_send dest m (link st)) as [r1 l1]. cbn in Hrel.
    rewrite (proj2 (Z.leb_le _ _)) in E by done. by injection E as <- _.
Qed.

Lemma progress_delivers st dest :
  delivered st (data_health_storage_progress clock st) dest [].
Proof. unfold delivered. cbn [d_files link data_health_storage_progress]. by rewrite app_nil_r. Qed.

(** One step of a transfer: the message is sent and the rest goes on, or the service
    refused it and the transfer stops. *)
Lemma transfer_step n dest m st st' ms r l :
  send_retrying n dest m (link st) = (r, l) ->
  (r = 0 -> exists k, delivered (with_link l st) st' dest (take k ms) /\ (reliable -> (length ms <= k)%nat)) ->
  (r <> 0 -> st' = with_link l st) -> (0 < n)%nat ->
  exists k, delivered st st' dest (take k (m :: ms)) /\ (reliable -> (length (m :: ms) <= k)%nat).
Proof.
  intros E H0 H1 Hn. destruct (send_retrying_delivers n dest m st) as (r' & l' & E' & Hc & Hrel).
  rewrite E in E'. injection E' as <- <-. destruct Hc as [[-> Hd]|[-> Hd]].
  - destruct (H0 eq_refl) as (k & Hd' & Hk). exists (S k). split.
    + cbn [take]. apply (delivered_trans _ _ _ _ [m] _ Hd Hd').
    + intros Hr. cbn [length]. specialize (Hk Hr). lia.
  - rewrite H1 by lia. exists O. split; [done|]. intros Hr. specialize (Hrel Hr Hn). lia.
Qed.

Fixpoint chunks_from (fuel : nat) (encoded : list Z) (n ro no eol off : Z)
    : list obc_telemetry_read_reply_t :=
  match fuel with
  | O => []
  | S fuel =>
      if off <? n
      then telemetry_chunk encoded n ro no eol off
           :: chunks_from fuel encoded n ro no eol
                (off + Z.min (n - off) OBC_TELEMETRY_READ_CHUNK_SIZE)
      else []
  end.

Lemma chunks_from_replies encoded n ro no eol :
  0 < n <= 2 * OBC_TELEMETRY_READ_CHUNK_SIZE ->
  chunks_from 3 encoded n ro no eol 0 = record_replies encoded n ro no eol.
Proof.
  unfold record_replies, OBC_TELEMETRY_READ_CHUNK_SIZE. intros Hn. cbn [chunks_from].
  unfold OBC_TELEMETRY_READ_CHUNK_SIZE. rewrite (proj2 (Z.ltb_lt 0 n)) by lia. f_equal.
  rewrite Z.sub_0_r. destruct (216 <? n) eqn:En; bool_facts.
  - rewrite (Z.min_r n), (proj2 (Z.ltb_lt (0 + 216) n)) by lia. f_equal.
    rewrite Z.min_l, (proj2 (Z.ltb_ge _ _)) by lia. done.
  - rewrite (Z.min_l n), (proj2 (Z.ltb_ge _ _)) by lia. done.
Qed.

Lemma send_chunks_spec fuel encoded requester n ro no eol off st :
  0 <= off <= n ->
  n - off + OBC_TELEMETRY_READ_CHUNK_SIZE <= Z.of_nat fuel * OBC_TELEMETRY_READ_CHUNK_SIZE ->
  exists st', send_chunks fuel encoded requester n ro no eol off st = Some st'
    /\ exists k, delivered st st' requester
                   (take k (map Telemetry_reply (chunks_from fuel encoded n ro no eol off)))
         /\ (reliable -> (length (map Telemetry_reply (chunks_from fuel encoded n ro no eol off)) <= k)%nat).
Proof.
  unfold OBC_TELEMETRY_READ_CHUNK_SIZE. revert off st. induction fuel as [|fuel IH]; intros off st H0 Hf.
  { lia. }
  cbn [send_chunks chunks_from]. unfold OBC_TELEMETRY_READ_CHUNK_SIZE. case_if as E; bool_facts.
  2:{ exists st. split; [done|]. exists O. split; [apply delivered_nil|cbn; lia]. }
  unfold send_telemetry_reply. destruct (send_retrying _ _ _ _) as [r l] eqn:Es.
  destruct (r =? 0) eqn:Er; cbn [negb]; bool_facts.
  - destruct (IH (off + Z.min (n - off) 216) (with_link l st)) as (st' & E' & Hst'); [lia|lia|].
    exists st'. split; [exact E'|]. cbn [map]. eapply transfer_step; [exact Es|done|done|].
    unfold TELEMETRY_REPLY_RETRIES. lia.
  - eexists. split; [done|]. cbn [map]. eapply transfer_step; [exact Es|done|done|].
    unfold TELEMETRY_REPLY_RETRIES. lia.
Qed.

(** Putting the payloads of the replies together gives the record. *)
Definition reply_bytes (c : obc_telemetry_read_reply_t) : list Z :=
  prefix_of (tr_chunk_length c) (tr_payload c).

Lemma reply_bytes_chunk encoded n ro no eol off :
  0 <= off <= n -> n <= len encoded -> n < 65536 ->
  reply_bytes (telemetry_chunk encoded n ro no eol off)
  = prefix_of (Z.min (n - off) OBC_TELEMETRY_READ_CHUNK_SIZE) (skip off encoded).
Proof.
  intros Ho Hn Hs. unfold reply_bytes, telemetry_chunk. cbn [tr_chunk_length tr_payload].
  unfold OBC_TELEMETRY_READ_CHUNK_SIZE. replace (u16 (Z.min (n - off) 216)) with (Z.min (n - off) 216) by zlia.
  rewrite patch_0. apply prefix_of_app. rewrite len_prefix_of; rewrite ?len_skip; lia.
Qed.

Lemma replies_reassemble encoded n ro no eol :
  0 < n <= 2 * OBC_TELEMETRY_READ_CHUNK_SIZE -> n <= len encoded ->
  concat (map reply_bytes (record_replies encoded n ro no eol)) = prefix_of n encoded.
Proof.
  unfold record_replies. intros Hn Hl. unfold OBC_TELEMETRY_READ_CHUNK_SIZE in *. cbn [map concat].
  rewrite reply_bytes_chunk by lia. unfold OBC_TELEMETRY_READ_CHUNK_SIZE. rewrite skip_0, Z.sub_0_r.
  destruct (216 <? n) eqn:En; bool_facts.
  - cbn [map concat]. rewrite reply_bytes_chunk, app_nil_r by lia. unfold OBC_TELEMETRY_READ_CHUNK_SIZE.
    rewrite Z.min_r, Z.min_l, <- prefix_of_skip_split by lia. f_equal. lia.
  - cbn [map concat]. by rewrite Z.min_l, app_nil_r by lia.
Qed.

Lemma record_replies_ext e e' n ro no eol :
  0 < n <= 2 * OBC_TELEMETRY_READ_CHUNK_SIZE -> prefix_of n e = prefix_of n e' ->
  record_replies e n ro no eol = record_replies e' n ro no eol.
Proof.
  intros Hn He.
  assert (forall off, 0 <= off <= n -> telemetry_chunk e n ro no eol off = telemetry_chunk e' n ro no eol off) as Hc.
  { intros off Ho. unfold telemetry_chunk, OBC_TELEMETRY_READ_CHUNK_SIZE. do 2 f_equal.
    rewrite !prefix_skip_comm by lia.
    assert (forall l : list Z, prefix_of (off + Z.min (n - off) 216) l
                      = prefix_of (off + Z.min (n - off) 216) (prefix_of n l)) as Hp.
    { intros l. rewrite prefix_of_prefix_of. f_equal. lia. }
    by rewrite (Hp e), (Hp e'), He. }
  unfold record_replies. rewrite Hc by lia. destruct (_ <? n) eqn:E; [|done]. bool_facts.
  by rewrite Hc by (unfold OBC_TELEMETRY_READ_CHUNK_SIZE in *; lia).
Qed.

(** A read request of the Mission role at the offset of a record of the log is
    answered, without touching the log, by the replies that carry that record: one or
    two chunks with the record's offset, the offset of the next record and the end
    mark, whose payloads put together are the record.  If the message service refuses
    a chunk for good, the answer stops there; with a reliable service it is complete.
    A request of any other role is ignored. *)
Theorem telemetry_read_served st before r after requester encoded0 :
  holds_log (d_files st) log_path (before ++ r :: after) ->
  Forall record_wf (before ++ r :: after) ->
  len (log_bytes (before ++ r :: after)) <= 9223372036854775807 -> 256 <= len encoded0 ->
  let n := 18 + t_length r in
  let offset := len (log_bytes before) in
  let replies := record_replies (record_bytes r) n offset (offset + n) (if after is [] then 1 else 0) in
  exists st' k,
    handle_telemetry_read log_path record0 read_io_ok requester offset encoded0 st = Some st'
    /\ delivered st st' ROLE_MISSION (map Telemetry_reply (take k replies))
    /\ (if requester =? ROLE_MISSION then reliable -> take k replies = replies else k = O)
    /\ concat (map reply_bytes replies) = record_bytes r.
Proof.
  intros Hl Hwf Hsize He n offset replies. apply Forall_app in Hwf as [_ Hwf].
  inversion Hwf as [|? ? Hr Ha]; subst. pose proof (len_record_bytes r Hr) as Hlr.
  assert (0 < n <= 2 * OBC_TELEMETRY_READ_CHUNK_SIZE) as Hn.
  { destruct Hr as (_ & _ & _ & Hlen & _). rewrite max_telemetry_value in Hlen. unfold n, OBC_TELEMETRY_READ_CHUNK_SIZE. lia. }
  assert (concat (map reply_bytes replies) = record_bytes r) as Hcat.
  { unfold replies. rewrite replies_reassemble by lia. apply prefix_of_all. lia. }
  unfold handle_telemetry_read. destruct (requester =? ROLE_MISSION) eqn:Er; cbn [negb]; bool_facts.
  2:{ exists st, O. split; [done|]. split; [apply delivered_nil|]. done. }
  subst requester. rewrite log_bytes_app, log_bytes_cons, !len_app in Hsize.
  pose proof (len_nonneg (log_bytes after)). pose proof (len_nonneg (record_bytes r)).
  unfold holds_log in Hl. rewrite log_bytes_app, log_bytes_cons in Hl.
  destruct (d_files st !! log_path) as [content|] eqn:Ef; cbn in Hl.
  2:{ exfalso. symmetry in Hl. apply app_nil in Hl as [_ Hnil]. discriminate Hnil. }
  subst content. destruct (read_at_record (d_files st) log_path (log_bytes before) r (log_bytes after)
    encoded0 record0) as (out' & Hread & Ho); [done|done|lia|done|].
  fold offset in Hread. rewrite Hread. cbn [negb Z.eqb OBC_TELEMETRY_READ_OK].
  replace (if log_bytes after is [] then 1 else 0) with (if after is [] then 1 else 0) by (by destruct after).
  destruct (send_chunks_spec 3 out' ROLE_MISSION n offset (offset + n) (if after is [] then 1 else 0) 0 st)
    as (st' & E & k & Hd & Hk); [lia|unfold OBC_TELEMETRY_READ_CHUNK_SIZE in *; lia|].
  rewrite chunks_from_replies in Hd, Hk by done.
  assert (prefix_of n out' = prefix_of n (record_bytes r)) as Hp.
  { rewrite Ho, prefix_of_app by lia. symmetry. apply prefix_of_all. lia. }
  rewrite !(record_replies_ext out' (record_bytes r)) in Hd, Hk by done.
  fold replies in Hd, Hk. exists st', k. split; [exact E|]. split; [by rewrite <- firstn_map|].
  split; [|done]. intros Hrel. apply take_ge. specialize (Hk Hrel). by rewrite length_map in Hk.
Qed.

(** The replies that carry a file, read from [offset] on: full chunks, then one shorter
    chunk (possibly empty), which is the last. *)
Fixpoint file_replies (fuel : nat) (content : list Z) (offset : Z) : list data_read_reply_t :=
  match fuel with
  | O => []
  | S fuel =>
      let n := Z.min DATA_CHUNK_SIZE (len content) in
      mk_read_reply 0 offset n (b2z (n <? DATA_CHUNK_SIZE))
        (patch (zeros DATA_CHUNK_SIZE) 0 (prefix_of n content))
      :: (if n <? DATA_CHUNK_SIZE then [] else file_replies fuel (skip n content) (u32 (offset + n)))
  end.

Definition read_reply_bytes (c : data_read_reply_t) : list Z := prefix_of (rr_length c) (rr_payload c).

Lemma stream_loop_spec fuel rest offset requester st :
  len rest < Z.of_nat fuel ->
  exists st', stream_loop clock fuel rest offset requester st = Some st'
    /\ exists k, delivered st st' requester (take k (map Read_reply (file_replies fuel rest offset)))
         /\ (reliable -> (length (map Read_reply (file_replies fuel rest offset)) <= k)%nat).
Proof.
  revert rest offset st. induction fuel as [|fuel IH]; intros rest offset st Hf.
  { pose proof (len_nonneg rest). lia. }
  cbn [stream_loop file_replies map]. unfold DATA_CHUNK_SIZE in *. pose proof (len_nonneg rest).
  set (n := Z.min 200 (len rest)). replace (u16 n) with n by (unfold n; zlia).
  replace (u32 n) with n by (unfold n; zlia). change (if n <? 200 then 1 else 0) with (b2z (n <? 200)).
  unfold ipc_send_retrying. destruct (send_retrying _ _ _ _) as [r l] eqn:Es.
  assert (0 < IPC_SEND_MAX_RETRIES)%nat by (unfold IPC_SEND_MAX_RETRIES; lia).
  destruct (r =? 0) eqn:Er; cbn [negb]; bool_facts.
  2:{ eexists. split; [done|]. by eapply transfer_step; [exact Es|..]. }
  destruct (n <? 200) eqn:En; cbn [b2z Z.eqb]; bool_facts.
  - eexists. split; [done|]. eapply transfer_step; [exact Es| |done|done]. intros _. exists O.
    split; [apply progress_delivers|cbn; lia].
  - destruct (IH (skip n rest) (u32 (offset + n)) (data_health_storage_progress clock (with_link l st)))
      as (st' & E' & k & Hd & Hk); [rewrite len_skip by lia; lia|].
    exists st'. split; [exact E'|]. eapply transfer_step; [exact Es| |done|done]. intros _. exists k.
    split; [|exact Hk]. apply (delivered_trans _ _ _ _ [] _ (progress_delivers _ _) Hd).
Qed.

Lemma file_replies_bytes fuel content offset :
  len content < Z.of_nat fuel ->
  concat (map read_reply_bytes (file_replies fuel content offset)) = content.
Proof.
  revert content offset. induction fuel as [|fuel IH]; intros content offset Hf.
  { pose proof (len_nonneg content). lia. }
  cbn [file_replies map concat]. unfold DATA_CHUNK_SIZE in *. pose proof (len_nonneg content).
  unfold read_reply_bytes at 1. cbn [rr_length rr_payload].
  rewrite patch_0, prefix_of_app by (rewrite len_prefix_of; lia).
  case_if as E; bool_facts.
  - cbn [map concat]. rewrite app_nil_r. apply prefix_of_all. lia.
  - rewrite IH by (rewrite len_skip; lia). apply prefix_skip.
Qed.

(** Every reply but the last is a full chunk; the last is shorter and marked. *)
Lemma file_replies_shape fuel content offset :
  len content < Z.of_nat fuel ->
  exists front final, file_replies fuel content offset = front ++ [final]
    /\ Forall (fun c => rr_status c = 0 /\ rr_is_last c = 0 /\ rr_length c = DATA_CHUNK_SIZE) front
    /\ rr_status final = 0 /\ rr_is_last final = 1 /\ rr_length final < DATA_CHUNK_SIZE.
Proof.
  revert content offset. induction fuel as [|fuel IH]; intros content offset Hf.
  { pose proof (len_nonneg content). lia. }
  cbn [file_replies]. unfold DATA_CHUNK_SIZE in *. pose proof (len_nonneg content).
  case_if as E; bool_facts.
  - eexists [], _. split; [done|]. split; [apply Forall_nil_2|]. cbn. split; [done|]. split; [done|lia].
  - destruct (IH (skip (Z.min 200 (len content)) content) (u32 (offset + Z.min 200 (len content))))
      as (front & final & -> & Hfr & Hl); [rewrite len_skip; lia|].
    eexists (_ :: front), final. split; [done|]. split; [|done].
    apply Forall_cons_2; [|done]. cbn. split; [done|]. split; [done|lia].
Qed.

(** A file transfer always ends.  The requester receives, in order, an initial part
    of the chunks of the file, all of them when the message service is reliable: these
    are full chunks followed by exactly one shorter chunk, marked as the last, and put
    together they are the file.  A file that cannot be opened is answered by the single
    error reply.  Nothing is sent to anyone else and no file changes. *)
Theorem file_stream_served io p requester st :
  r_limit io = None ->
  exists st' ms,
    filesystem_stream_file clock io p requester st = Some st'
    /\ (exists k, delivered st st' requester (take k (map Read_reply ms))
          /\ (reliable -> take k ms = ms))
    /\ match d_files st !! p with
       | Some content =>
           if r_open io
           then concat (map read_reply_bytes ms) = content
                /\ exists front final, ms = front ++ [final]
                     /\ Forall (fun c => rr_status c = 0 /\ rr_is_last c = 0
                                         /\ rr_length c = DATA_CHUNK_SIZE) front
                     /\ rr_status final = 0 /\ rr_is_last final = 1
                     /\ rr_length final < DATA_CHUNK_SIZE
           else ms = [mk_read_reply (-1) 0 0 1 (zeros DATA_CHUNK_SIZE)]
       | None => ms = [mk_read_reply (-1) 0 0 1 (zeros DATA_CHUNK_SIZE)]
       end.
Proof.
  intros Hio. unfold filesystem_stream_file.
  set (err := mk_read_reply (-1) 0 0 1 (zeros DATA_CHUNK_SIZE)).
  assert (exists k, delivered st (send_error requester st) requester (take k (map Read_reply [err]))
            /\ (reliable -> take k [err] = [err])) as Herr.
  { unfold send_error, ipc_send_retrying. fold err.
    destruct (send_retrying _ _ _ _) as [r l] eqn:Es. cbn [snd map].
    destruct (transfer_step _ _ _ st (with_link l st) [] r l Es) as (k & Hd & Hk).
    - intros _. exists O. split; [apply delivered_nil|cbn; lia].
    - done.
    - unfold IPC_SEND_MAX_RETRIES. lia.
    - exists k. split; [exact Hd|]. intros Hr. apply take_ge. exact (Hk Hr). }
  destruct (d_files st !! p) as [content|]; [|by exists (send_error requester st), [err]].
  destruct (r_open io); [|by exists (send_error requester st), [err]].
  unfold stream_of. rewrite Hio. pose proof (len_nonneg content).
  set (fuel := S (Z.to_nat (len content))). assert (len content < Z.of_nat fuel) as Hf by (unfold fuel; lia).
  clearbody fuel.
  destruct (stream_loop_spec fuel content 0 requester st Hf) as (st' & E & k & Hd & Hk).
  exists st', (file_replies fuel content 0). split; [exact E|]. split.
  - exists k. split; [exact Hd|]. intros Hr. apply take_ge. specialize (Hk Hr). by rewrite length_map in Hk.
  - split; [by apply file_replies_bytes|]. by apply file_replies_shape.
Qed.
End Served.

Definition sample_store : @data_state (mailbox data_message) :=
  mk_data (<[[47] := record_bytes sample_record]> (<[[9] := zeros 200 ++ [1; 2; 3]]> ∅))
    (mk_progress (mk_time 0 0) 3000 false) 0%nat (mk_mailbox [false] []).

Lemma telemetry_read_served_witness :
  exists st' k,
    handle_telemetry_read [47] sample_record read_io_ok ROLE_MISSION 0 (zeros 256) sample_store = Some st'
    /\ delivered sample_store st' ROLE_MISSION
         (map Telemetry_reply (take k (record_replies (record_bytes sample_record) 21 0 21 1)))
    /\ concat (map reply_bytes (record_replies (record_bytes sample_record) 21 0 21 1))
       = record_bytes sample_record.
Proof.
  destruct (telemetry_read_served [47] sample_record sample_store [] sample_record [] ROLE_MISSION (zeros 256))
    as (st' & k & He & Hd & _ & Hc).
  - vm_compute. reflexivity.
  - apply Forall_cons_2; [exact sample_record_wf|apply Forall_nil_2].
  - vm_compute. congruence.
  - vm_compute. congruence.
  - exists st', k. split; [exact He|]. split; [exact Hd|exact Hc].
Defined.

Lemma file_stream_served_witness :
  exists st' ms,
    filesystem_stream_file (fun _ => mk_time 0 0) read_io_ok [9] ROLE_MISSION sample_store = Some st'
    /\ concat (map read_reply_bytes ms) = zeros 200 ++ [1; 2; 3].
Proof.
  destruct (file_stream_served (fun _ => mk_time 0 0) read_io_ok [9] ROLE_MISSION sample_store
    ltac:(reflexivity)) as (st' & ms & He & _ & Hm).
  exists st', ms. split; [exact He|].
  assert (d_files sample_store !! [9] = Some (zeros 200 ++ [1; 2; 3])) as Hf by (vm_compute; reflexivity).
  rewrite Hf in Hm. exact (proj1 Hm).
Defined.
