(* ===== verification/RadioService.v ===== *)
(** What the roles of the on-board computer may rely on when they hand data to the
    radio ([shared/interfaces/radio.h]), and the proof that the simulated driver on
    top of the transmit queue provides it. *)

From S2P Require Import Prelude SpacePacket Profile RadioQueue RadioDriver.

(** [R] is the state of the radio; [queued] lists the messages accepted so far, each
    with its content type.  A send is all or nothing. *)
Class Radio (R : Type) := {
  radio_ok : R -> Prop;
  queued : R -> list (Z * list Z);
  radio_send : list Z -> R -> Z * R;
  radio_send_ssdv : list Z -> R -> Z * R;
  radio_send_law : forall d r, radio_ok r -> bytes_ok d ->
    let '(ret, r') := radio_send d r in
    radio_ok r'
    /\ queued r' = queued r ++ (if ret =? 0 then [(LG_CCSDS_CONTENT_RAW_TELEMETRY, d)] else []);
  radio_send_ssdv_law : forall d r, radio_ok r -> bytes_ok d ->
    let '(ret, r') := radio_send_ssdv d r in
    radio_ok r'
    /\ queued r' = queued r ++ (if ret =? 0 then [(LG_CCSDS_CONTENT_SSDV, d)] else [])
}.

(** The simulated driver with an open socket, inside the system of RadioQueue.v: its
    states are those that any interleaving with the transmit thread reaches. *)
Definition sim_queue (content : Z) (d : list Z) (s : system) : Z * system :=
  let '(ret, st) := Sim.queue 3 content (Some d) (len d) true (y_radio s) in
  (ret, mk_system st (y_tx s) (y_job s)
          (y_accepted s ++ if ret =? 0 then [(content, d)] else [])
          (y_taken s) (y_air s) (y_recent s)).

Lemma sim_queue_law content d s :
  content = LG_CCSDS_CONTENT_RAW_TELEMETRY \/ content = LG_CCSDS_CONTENT_SSDV ->
  reachable s -> bytes_ok d ->
  let '(ret, s') := sim_queue content d s in
  reachable s' /\ y_accepted s' = y_accepted s ++ (if ret =? 0 then [(content, d)] else []).
Proof.
  intros Hc Hs Hd. unfold sim_queue, Sim.queue. change (3 <? 0) with false. cbv iota.
  destruct (radio_queue_push content (Some d) (len d) _ true (y_radio s)) as [r st] eqn:E.
  assert (-2147483648 <= content <= 2147483647 /\ u8 content = content) as [Hint Hu8]
    by (destruct Hc as [-> | ->]; vm_compute; split_and!; congruence).
  pose proof Hs as [q Hinv]%system_reachable_inv.
  destruct (radio_queue_push_spec content (Some d) (len d) (Some Sim.sender_name) true (y_radio s) (y_tx s) q)
    as (ret' & st1 & E' & _ & _ & Hcase); [apply Hinv|done|by intros ? [= ->]|apply len_nonneg|].
  rewrite E in E'. injection E' as <- <-.
  pose proof (step_push content (Some d) (len d) (Some Sim.sender_name) true s r st Hint
    ltac:(by intros ? [= ->]) (len_nonneg d) E) as Hstep.
  cbn [default from_option id] in Hstep. rewrite Hu8, prefix_of_all in Hstep by lia.
  destruct Hcase as [(-> & _)|(-> & _)]; cbn [negb Z.eqb y_accepted];
    (split; [|done]); by apply (reachable_step s).
Qed.

#[global, program] Instance sim_radio : Radio system := {
  radio_ok := reachable;
  queued := y_accepted;
  radio_send := sim_queue LG_CCSDS_CONTENT_RAW_TELEMETRY;
  radio_send_ssdv := sim_queue LG_CCSDS_CONTENT_SSDV
}.
Next Obligation. intros d s. apply sim_queue_law. by left. Qed.
Next Obligation. intros d s. apply sim_queue_law. by right. Qed.
