(* ===== verification/Commander.v ===== *)
(** The Mission role's payload commander: [apps/obc/mission/src/payload_commander.c] and
    [mission_health.c].  It asks the Data and Compute roles for work over the message
    service, collects their replies and hands the results to the radio.

    The monotonic clock is a function of the number of times it was read; what
    [IPC_receive_timeout] returns is a list, one answer for each call.  A message in
    the list carries the structure its size stands for: the reply structures have
    different sizes, and the code tells them apart by size. *)

From S2P Require Import Prelude Text SpacePacket Profile RadioQueue ObcTelemetry ObcProgress ObcIpc DataStore RadioService.

(** ** Deadlines *)

Definition deadline_in_ms (now : timespec) (ms : Z) : timespec :=
  let sec := tv_sec now + Z.quot ms 1000 in
  let nsec := tv_nsec now + Z.rem ms 1000 * 1000000 in
  if 1000000000 <=? nsec then mk_time (sec + 1) (nsec - 1000000000) else mk_time sec nsec.

Definition remaining_ms (deadline now : timespec) : Z :=
  let ms := (tv_sec deadline - tv_sec now) * 1000
            + Z.quot (tv_nsec deadline - tv_nsec now) 1000000 in
  if 0 <? ms then ms else 0.

(** ** Health watches of the Mission role *)
Module Health.

Definition SCHEDULER_STALL_TIMEOUT_MS : Z := 3000.
Definition PAYLOAD_STALL_TIMEOUT_MS : Z := 100000.
Definition AUTONOMY_STALL_TIMEOUT_MS : Z := 3000.

Record watches := mk_watches {
  scheduler_watch : obc_progress_t;
  payload_watch : obc_progress_t;
  autonomy_watch : obc_progress_t
}.

(** The timeouts are the values of [timeout_from_env]; [m1], [m2], [m3] are what the
    three mutex initialisations return. *)
Definition mission_health_init (t1 t2 t3 m1 m2 m3 : Z) (n1 n2 n3 n4 n5 : timespec) (w : watches)
    : Z * watches :=
  match obc_progress_init (Some (scheduler_watch w)) t1 m1 n1 with
  | (0, Some s) =>
      match obc_progress_init (Some (payload_watch w)) t2 m2 n2 with
      | (0, Some p) =>
          match obc_progress_init (Some (autonomy_watch w)) t3 m3 n3 with
          | (0, Some a) =>
              (0, mk_watches (obc_progress_begin n4 s) p (obc_progress_begin n5 a))
          | (r, _) => (r, mk_watches s p (autonomy_watch w))
          end
      | (r, _) => (r, mk_watches s (payload_watch w) (autonomy_watch w))
      end
  | (r, _) => (r, w)
  end.

Definition mission_health_scheduler_progress (now : timespec) (w : watches) : watches :=
  mk_watches (obc_progress_touch now (scheduler_watch w)) (payload_watch w) (autonomy_watch w).

Definition mission_health_payload_begin (now : timespec) (w : watches) : watches :=
  mk_watches (obc_progress_end (scheduler_watch w)) (obc_progress_begin now (payload_watch w))
    (autonomy_watch w).

Definition mission_health_payload_progress (now : timespec) (w : watches) : watches :=
  mk_watches (scheduler_watch w) (obc_progress_touch now (payload_watch w)) (autonomy_watch w).

Definition mission_health_payload_end (now : timespec) (w : watches) : watches :=
  mk_watches (obc_progress_begin now (scheduler_watch w)) (obc_progress_end (payload_watch w))
    (autonomy_watch w).

Definition mission_health_autonomy_progress (now : timespec) (w : watches) : watches :=
  mk_watches (scheduler_watch w) (payload_watch w) (obc_progress_touch now (autonomy_watch w)).

(** The watches are asked one after the other, up to the first unhealthy one. *)
Definition mission_health_is_healthy (n1 n2 n3 : timespec) (w : watches) : bool :=
  obc_progress_is_healthy n1 (scheduler_watch w) && obc_progress_is_healthy n2 (payload_watch w)
  && obc_progress_is_healthy n3 (autonomy_watch w).

(** One round of the heartbeat thread ([mission/src/heartbeat.c]): the roles it sends an
    empty message to, and the new [previously_healthy]. *)
Definition heartbeat_round (n1 n2 n3 : timespec) (w : watches) : list Z * bool :=
  let healthy := mission_health_is_healthy n1 n2 n3 w in
  (if healthy then [ROLE_FDIR; ROLE_SUPERVISOR] else [], healthy).

End Health.

(** ** Messages *)

Definition COMPUTE_MAX_PATH : Z := 64.
Definition COMPUTE_STATUS_OK : Z := 0.
Definition COMPUTE_STATUS_FAILED : Z := 1.
Definition COMPUTE_STATUS_CANCELLED : Z := 2.
Definition COMPUTE_STATUS_BUSY : Z := 3.
Definition COMPUTE_STATUS_TIMEOUT : Z := 4.

Record compute_result_t := mk_result {
  cr_job_id : Z;
  cr_status : Z;
  cr_output_size : Z
}.

(** Requests of the Mission role. *)
Inductive mission_message :=
  | Telemetry_request (magic offset : Z)
  | Read_request (path : list Z)
  | Compress_request (job_id : Z) (in_path out_path : list Z) (sample_width : Z)
  | Relay_request (dest_addr dest_port length : Z) (command_id seq : Z).

Inductive incoming :=
  | In_telemetry (r : obc_telemetry_read_reply_t)
  | In_read (r : data_read_reply_t)
  | In_result (r : compute_result_t)
  | In_other.

Inductive answer :=
  | A_timeout
  | A_error
  | A_message (src : Z) (m : incoming).

Definition CMD_POINT_TO_SUN : Z := 5.
Definition ADCS_ADDRESS : Z := 2.
Definition ADCS_CMD_PORT : Z := 10.

Definition MAX_PHOTO_SIZE : Z := 64 * 1024.
Definition COMPRESS_TOTAL_TIMEOUT_MS : Z := 90000.
Definition DOWNLINK_CHUNK_TIMEOUT_MS : Z := 10000.
Definition DOWNLINK_TOTAL_TIMEOUT_MS : Z := 120000.
Definition TELEMETRY_READ_TIMEOUT_MS : Z := 10000.

(** The result, [*next_offset] and [*end_of_log]. *)
Abbreviation record_result := (Z * Z * Z)%type.

Section Commander.
Context {L R : Type} `{Ipc mission_message L} `{Radio R}.
(** The monotonic clock, the uninitialised buffer and record of the stack, and what
    lies in memory behind a reply. *)
Context (clock : nat -> timespec) (encoded0 : list Z) (record0 : obc_telemetry_record_t)
  (behind : list Z).

Record mission := mk_mission {
  watches : Health.watches;
  ticks : nat;
  link : L;
  radio : R;
  inbox : list answer;
  next_job_id : Z;
  photo_buf : list Z
}.

Definition set_watches w st := mk_mission w (ticks st) (link st) (radio st) (inbox st)
  (next_job_id st) (photo_buf st).
Definition tick st := mk_mission (watches st) (S (ticks st)) (link st) (radio st) (inbox st)
  (next_job_id st) (photo_buf st).
Definition set_link l st := mk_mission (watches st) (ticks st) l (radio st) (inbox st)
  (next_job_id st) (photo_buf st).
Definition set_radio r st := mk_mission (watches st) (ticks st) (link st) r (inbox st)
  (next_job_id st) (photo_buf st).
Definition set_inbox i st := mk_mission (watches st) (ticks st) (link st) (radio st) i
  (next_job_id st) (photo_buf st).
Definition set_next_job_id j st := mk_mission (watches st) (ticks st) (link st) (radio st)
  (inbox st) j (photo_buf st).
Definition set_photo_buf b st := mk_mission (watches st) (ticks st) (link st) (radio st)
  (inbox st) (next_job_id st) b.

Definition now (st : mission) : timespec := clock (ticks st).

Definition payload_progress (st : mission) : mission :=
  tick (set_watches (Health.mission_health_payload_progress (now st) (watches st)) st).

Definition send (dest : Z) (m : mission_message) (st : mission) : Z * mission :=
  let '(r, l) := ipc_send dest m (link st) in (r, set_link l st).

(** [capture] is what [camera_capture] returns. *)
Definition payload_commander_take_photo (capture : Z) (st : mission) : Z * mission :=
  if negb (capture =? 0) then (-1, st) else (0, payload_progress st).

(** The loops below consume one answer in each round.  [None]: they still wait. *)
Fixpoint compress_loop (answers : list answer) (deadline : timespec) (job_id : Z) (st : mission)
    : option (Z * mission) :=
  let st := tick st in
  match answers with
  | [] => None
  | a :: answers =>
      let st := set_inbox answers st in
      match a with
      | A_timeout => Some (-1, st)
      | A_message _ (In_result result) =>
          if negb (cr_job_id result =? job_id) then compress_loop answers deadline job_id st
          else
            let st := payload_progress st in
            if negb (cr_status result =? COMPUTE_STATUS_OK) then Some (-1, st) else Some (0, st)
      | _ => compress_loop answers deadline job_id st
      end
  end.

Definition payload_commander_compress_photo (in_path out_path : list Z) (st : mission)
    : option (Z * mission) :=
  let job_id := next_job_id st in
  let st := set_next_job_id (u32 (next_job_id st + 1)) st in
  let req := Compress_request job_id (snprintf_s COMPUTE_MAX_PATH in_path)
               (snprintf_s COMPUTE_MAX_PATH out_path) 1 in
  let '(_, st) := send ROLE_COMPUTE req st in
  let deadline := deadline_in_ms (now st) COMPRESS_TOTAL_TIMEOUT_MS in
  let st := tick st in
  compress_loop (inbox st) deadline job_id st.

(** The receive loop of [payload_commander_downlink_photo]: the result of the call when
    it fails, [total] when the last chunk was stored. *)
Fixpoint photo_loop (answers : list answer) (total_deadline : timespec) (total : Z) (st : mission)
    : option ((Z + Z) * mission) :=
  let chunk_deadline := deadline_in_ms (now st) DOWNLINK_CHUNK_TIMEOUT_MS in
  let st := tick st in
  let wait := remaining_ms chunk_deadline (now st) in
  let st := tick st in
  let total_left := remaining_ms total_deadline (now st) in
  let st := tick st in
  let wait := if total_left <? wait then total_left else wait in
  match answers with
  | [] => None
  | a :: answers =>
      let st := set_inbox answers st in
      match a with
      | A_timeout => Some (inl (-1), st)
      | A_message _ (In_read reply) =>
          if negb (rr_status reply =? 0) then Some (inl (-1), st)
          else if MAX_PHOTO_SIZE <? total + rr_length reply then Some (inl (-1), st)
          else
            let st := set_photo_buf
                        (patch (photo_buf st) total (prefix_of (rr_length reply) (rr_payload reply ++ behind)))
                        st in
            let total := total + rr_length reply in
            let st := payload_progress st in
            if negb (rr_is_last reply =? 0) then Some (inr total, st)
            else photo_loop answers total_deadline total st
      | _ => photo_loop answers total_deadline total st
      end
  end.

Definition payload_commander_downlink_photo (photo_path : list Z) (st : mission)
    : option (Z * mission) :=
  let '(_, st) := send ROLE_DATA (Read_request (snprintf_s DATA_MAX_PATH photo_path)) st in
  let total_deadline := deadline_in_ms (now st) DOWNLINK_TOTAL_TIMEOUT_MS in
  let st := tick st in
  match photo_loop (inbox st) total_deadline 0 st with
  | None => None
  | Some (inl r, st) => Some (r, st)
  | Some (inr total, st) =>
      if total =? 0 then Some (-1, st)
      else
        let '(r, rad) := radio_send_ssdv (prefix_of total (photo_buf st)) (radio st) in
        let st := set_radio rad st in
        if negb (r =? 0) then Some (-1, st) else Some (0, payload_progress st)
  end.

Definition payload_commander_point_to_sun (st : mission) : Z * mission :=
  let '(r, st) := send ROLE_COMMANDS
                    (Relay_request ADCS_ADDRESS ADCS_CMD_PORT 8 CMD_POINT_TO_SUN 1) st in
  (if r <? 0 then -1 else 0, st).

(** What the loop of [payload_commander_downlink_telemetry_record] keeps. *)
Record collect := mk_collect {
  encoded : list Z;
  encoded_size : Z;
  expected_record_length : Z;
  expected_next_offset : Z;
  received_first_chunk : bool
}.

(** Lines 338 to 384: the last chunk has been stored. *)
Definition commit_record (c : collect) (end_of_log next0 eol0 : Z) (st : mission)
    : record_result * mission :=
  if negb (encoded_size c =? expected_record_length c) then ((-1, next0, eol0), st)
  else
    match obc_telemetry_decode (Some (encoded c)) (encoded_size c) (Some record0) with
    | (OBC_TELEMETRY_OK, _) =>
        let '(r, rad) := radio_send (prefix_of (encoded_size c) (encoded c)) (radio st) in
        let st := set_radio rad st in
        if negb (r =? 0) then ((-1, next0, eol0), st)
        else ((0, expected_next_offset c, end_of_log), payload_progress st)
    | _ => ((-1, next0, eol0), st)
    end.

(** Lines 292 to 322: the checks of one chunk and its store.  [None]: malformed. *)
Definition store_chunk (c : collect) (offset : Z) (reply : obc_telemetry_read_reply_t)
    : option collect :=
  if negb (tr_record_offset reply =? offset)
     || (tr_record_length reply =? 0)
     || (OBC_IPC_MAX_PAYLOAD <? tr_record_length reply)
     || (OBC_TELEMETRY_READ_CHUNK_SIZE <? tr_chunk_length reply)
     || negb (tr_chunk_offset reply =? encoded_size c)
     || (tr_record_length reply <? tr_chunk_offset reply + tr_chunk_length reply)
  then None
  else if received_first_chunk c
          && (negb (tr_record_length reply =? expected_record_length c)
              || negb (tr_next_offset reply =? expected_next_offset c))
  then None
  else
    let erl := if received_first_chunk c then expected_record_length c else tr_record_length reply in
    let eno := if received_first_chunk c then expected_next_offset c else tr_next_offset reply in
    Some (mk_collect
            (patch (encoded c) (tr_chunk_offset reply)
               (prefix_of (tr_chunk_length reply) (tr_payload reply)))
            (encoded_size c + tr_chunk_length reply) erl eno true).

Fixpoint telemetry_loop (answers : list answer) (deadline : timespec) (offset next0 eol0 : Z)
    (c : collect) (st : mission) : option (record_result * mission) :=
  let wait_ms := remaining_ms deadline (now st) in
  let st := tick st in
  if wait_ms =? 0 then Some ((-1, next0, eol0), st)
  else
    match answers with
    | [] => None
    | a :: answers =>
        let st := set_inbox answers st in
        match a with
        | A_timeout => Some ((-1, next0, eol0), st)
        | A_message src (In_telemetry reply) =>
            if negb (src =? ROLE_DATA) || negb (tr_magic reply =? OBC_TELEMETRY_READ_REPLY_MAGIC)
            then telemetry_loop answers deadline offset next0 eol0 c st
            else if tr_status reply =? OBC_TELEMETRY_READ_END
            then
              if (tr_is_last_chunk reply =? 0) || (tr_end_of_log reply =? 0)
                 || negb (tr_chunk_length reply =? 0)
                 || negb (tr_record_offset reply =? offset)
                 || negb (tr_next_offset reply =? offset)
              then Some ((-1, next0, eol0), st)
              else Some ((0, tr_next_offset reply, 1), st)
            else if negb (tr_status reply =? OBC_TELEMETRY_READ_OK)
            then Some ((-1, next0, eol0), st)
            else
              match store_chunk c offset reply with
              | None => Some ((-1, next0, eol0), st)
              | Some c =>
                  if tr_is_last_chunk reply =? 0
                  then
                    if negb (tr_end_of_log reply =? 0) then Some ((-1, next0, eol0), st)
                    else telemetry_loop answers deadline offset next0 eol0 c st
                  else Some (commit_record c (tr_end_of_log reply) next0 eol0 st)
              end
        | _ => telemetry_loop answers deadline offset next0 eol0 c st
        end
    end.

(** [next0] and [eol0] are the caller's variables before the call. *)
Definition payload_commander_downlink_telemetry_record (offset : Z) (next0 eol0 : option Z)
    (st : mission) : option (record_result * mission) :=
  match next0, eol0 with
  | Some next0, Some eol0 =>
      let '(r, st) := send ROLE_DATA (Telemetry_request OBC_TELEMETRY_READ_REQUEST_MAGIC offset) st in
      if r <? 0 then Some ((-1, next0, eol0), st)
      else
        let deadline := deadline_in_ms (now st) TELEMETRY_READ_TIMEOUT_MS in
        let st := tick st in
        telemetry_loop (inbox st) deadline offset next0 eol0 (mk_collect encoded0 0 0 offset false) st
  | _, _ => Some ((-1, default 0 next0, default 0 eol0), st)
  end.

(** The loop of the batch with [i] records allowed: the result, the cursor, the number
    of records sent and [*end_of_log]. *)
Fixpoint batch_loop (i : nat) (cursor records_sent : Z) (st : mission)
    : option ((Z * Z * Z * Z) * mission) :=
  match i with
  | O => Some ((0, cursor, records_sent, 0), st)
  | S i =>
      match payload_commander_downlink_telemetry_record cursor (Some cursor) (Some 0) st with
      | None => None
      | Some ((result, next_cursor, record_reached_end), st) =>
          if negb (result =? 0) then Some ((-1, cursor, records_sent, 0), st)
          else if next_cursor =? cursor
          then
            if record_reached_end =? 0 then Some ((-1, cursor, records_sent, 0), st)
            else Some ((0, cursor, records_sent, 1), st)
          else if negb (record_reached_end =? 0)
          then Some ((0, next_cursor, records_sent + 1, 1), st)
          else batch_loop i next_cursor (records_sent + 1) st
      end
  end.

Definition payload_commander_downlink_telemetry_batch (cursor : Z) (max_records : nat)
    (records_sent0 end_of_log0 : Z) (st : mission) : option ((Z * Z * Z * Z) * mission) :=
  if bool_decide (max_records = O) then Some ((-1, cursor, records_sent0, end_of_log0), st)
  else batch_loop max_records cursor 0 st.

End Commander.

(** ** What a downlink does *)
Section Downlink.
Context {L R : Type} `{Ipc mission_message L} `{Radio R}.
Context (clock : nat -> timespec) (encoded0 : list Z) (record0 : obc_telemetry_record_t)
  (behind : list Z).
Context (Hencoded0 : bytes_ok encoded0 /\ len encoded0 = OBC_IPC_MAX_PAYLOAD).
Implicit Types st : @mission L R.

(** A reply as the structure can hold it. *)
Definition reply_ok (m : obc_telemetry_read_reply_t) : Prop :=
  bytes_ok (tr_payload m) /\ len (tr_payload m) = OBC_TELEMETRY_READ_CHUNK_SIZE
  /\ 0 <= tr_chunk_length m /\ 0 <= tr_chunk_offset m /\ 0 <= tr_record_length m.

Definition answer_ok (a : answer) : Prop :=
  match a with A_message _ (In_telemetry m) => reply_ok m | _ => True end.

(** The telemetry replies of the Data role among the answers. *)
Definition data_reply (a : answer) : option obc_telemetry_read_reply_t :=
  match a with
  | A_message src (In_telemetry m) =>
      if (src =? ROLE_DATA) && (tr_magic m =? OBC_TELEMETRY_READ_REPLY_MAGIC) then Some m else None
  | _ => None
  end.

(** These replies, in this order, carry the record [bytes] of the log at [offset] and
    agree on the offset of the next one. *)
Definition carries (replies : list obc_telemetry_read_reply_t) (offset next : Z) (bytes : list Z)
    : Prop :=
  concat (map reply_bytes replies) = bytes
  /\ Forall (fun m => tr_record_offset m = offset /\ tr_next_offset m = next
                      /\ tr_record_length m = len bytes) replies.

(** What the loop has collected after the replies [ms]. *)
Definition collected (c : collect) (offset : Z) (ms : list obc_telemetry_read_reply_t) : Prop :=
  len (encoded c) = OBC_IPC_MAX_PAYLOAD /\ bytes_ok (encoded c)
  /\ encoded_size c = len (concat (map reply_bytes ms))
  /\ prefix_of (encoded_size c) (encoded c) = concat (map reply_bytes ms)
  /\ encoded_size c <= OBC_IPC_MAX_PAYLOAD
  /\ Forall (fun m => tr_record_offset m = offset /\ tr_next_offset m = expected_next_offset c
                      /\ tr_record_length m = expected_record_length c) ms
  /\ (received_first_chunk c = false -> ms = []).

Lemma collected_init offset : collected (mk_collect encoded0 0 0 offset false) offset [].
Proof.
  destruct Hencoded0 as [Hb Hl]. unfold collected, OBC_IPC_MAX_PAYLOAD in *.
  cbn [encoded encoded_size expected_next_offset expected_record_length received_first_chunk map concat].
  rewrite prefix_of_0. do 3 (split; [done|]). split; [done|]. split; [lia|]. split; [apply Forall_nil_2|done].
Qed.

Lemma store_chunk_collected c offset ms m c' :
  collected c offset ms -> reply_ok m -> store_chunk c offset m = Some c' ->
  collected c' offset (ms ++ [m]).
Proof.
  intros (Hl & Hb & Hs & Hp & Hle & Hall & Hf) (Hmb & Hml & Hc0 & Hc1 & Hc2).
  unfold store_chunk, OBC_IPC_MAX_PAYLOAD, OBC_TELEMETRY_READ_CHUNK_SIZE in *.
  case_if as E1; [done|]. case_if as E2; [done|]. intros [= <-]. bool_facts.
  assert (len (reply_bytes m) = tr_chunk_length m) as Hrb by (apply len_prefix_of; lia).
  unfold collected, OBC_IPC_MAX_PAYLOAD.
  cbn [encoded encoded_size expected_next_offset expected_record_length received_first_chunk].
  rewrite map_app, concat_app. cbn [map concat]. rewrite app_nil_r, len_app, Hrb.
  assert (tr_chunk_offset m = encoded_size c) as Hoff by lia. rewrite Hoff.
  change (prefix_of (tr_chunk_length m) (tr_payload m)) with (reply_bytes m).
  split; [rewrite len_patch; lia|]. split; [apply bytes_ok_patch; [done|by apply Forall_prefix_of]|].
  split; [lia|]. split; [|split; [lia|]].
  - unfold patch. rewrite app_assoc. rewrite prefix_of_app by (rewrite len_app, len_prefix_of; lia).
    by rewrite Hp.
  - split; [|done]. destruct (received_first_chunk c) eqn:Ef; cbn [andb] in E2; bool_facts.
    + apply Forall_app_2; [done|]. apply Forall_singleton. split; [lia|]. split; lia.
    + rewrite Hf by done. apply Forall_singleton. split; [lia|]. done.
Qed.

(** The results of one record request. *)
Definition record_done (offset next0 eol0 : Z) (st : @mission L R) (seen : list answer)
    (res : record_result) (st' : @mission L R) : Prop :=
  radio_ok (radio st')
  /\ ((res = (-1, next0, eol0) /\ queued (radio st') = queued (radio st))
      \/ (res = (0, offset, 1) /\ queued (radio st') = queued (radio st))
      \/ exists next eol r replies,
          res = (0, next, eol) /\ record_wf r
          /\ queued (radio st')
             = queued (radio st) ++ [(LG_CCSDS_CONTENT_RAW_TELEMETRY, record_bytes r)]
          /\ replies `sublist_of` omap data_reply seen
          /\ carries replies offset next (record_bytes r)).

Lemma commit_record_done c offset ms eol next0 eol0 st seen res st' :
  collected c offset ms -> radio_ok (radio st) -> ms `sublist_of` omap data_reply seen ->
  commit_record clock record0 c eol next0 eol0 st = (res, st') ->
  record_done offset next0 eol0 st seen res st'.
Proof.
  intros (Hl & Hb & Hs & Hp & Hle & Hall & _) Hr Hsub. unfold commit_record, record_done.
  case_if as E1; [intros [= <- <-]; split; [done|by left]|]. bool_facts.
  destruct (obc_telemetry_decode _ _ _) as [[] d] eqn:Ed; try (intros [= <- <-]; split; [done|by left]).
  destruct d as [d|].
  2:{ exfalso. unfold obc_telemetry_decode in Ed. repeat case_match; by simplify_eq. }
  apply decode_accepts in Ed as (Hwf & Hn & He); [|done|rewrite Hl; done].
  pose proof (radio_send_law (prefix_of (encoded_size c) (encoded c)) (radio st) Hr
                ltac:(auto with flight)) as Hlaw.
  destruct (radio_send _ (radio st)) as [r rad]. destruct Hlaw as [Hok Hq].
  destruct (r =? 0) eqn:Er; cbn [negb]; intros [= <- <-].
  - split; [exact Hok|]. right. right. eexists _, _, d, ms. split; [done|]. split; [done|].
    cbn [radio payload_progress tick set_watches set_radio]. rewrite Hq, He. split; [done|]. split; [done|].
    rewrite Hp. split; [done|]. eapply Forall_impl; [exact Hall|]. cbn. intros m (? & ? & Hm).
    split; [done|]. split; [done|]. lia.
  - split; [exact Hok|]. left. split; [done|]. cbn [radio set_radio]. by rewrite Hq, app_nil_r.
Qed.

Lemma commit_record_inbox c eol next0 eol0 (st : @mission L R) :
  inbox (snd (commit_record clock record0 c eol next0 eol0 st)) = inbox st.
Proof.
  unfold commit_record. case_if as E; [done|]. destruct (obc_telemetry_decode _ _ _) as [[] ?]; try done.
  destruct (radio_send _ _) as [r rad]. by case_if as E1.
Qed.

Lemma telemetry_loop_done answers deadline offset next0 eol0 c st ms seen res st' :
  collected c offset ms -> radio_ok (radio st) -> ms `sublist_of` omap data_reply seen ->
  Forall answer_ok answers ->
  telemetry_loop clock record0 answers deadline offset next0 eol0 c st = Some (res, st') ->
  exists more, record_done offset next0 eol0 st (seen ++ more) res st'
    /\ (inbox st = answers -> answers = more ++ inbox st').
Proof.
  revert c st ms seen. induction answers as [|a answers IH]; intros c st ms seen Hc Hr Hsub Ha;
    cbn [telemetry_loop].
  { case_if as E; [|done]. intros [= <- <-]. exists []. split; [split; [done|by left]|done]. }
  inversion Ha as [|? ? Ha1 Ha2]; subst. case_if as E.
  { intros [= <- <-]. exists []. split; [split; [done|by left]|done]. }
  set (st1 := set_inbox answers (tick st)).
  assert (forall c' ms', collected c' offset ms' -> ms' `sublist_of` omap data_reply (seen ++ [a]) ->
    telemetry_loop clock record0 answers deadline offset next0 eol0 c' st1 = Some (res, st') ->
    exists more, record_done offset next0 eol0 st (seen ++ more) res st'
      /\ (inbox st = a :: answers -> a :: answers = more ++ inbox st')) as Hgo.
  { intros c' ms' Hc' Hs' Hrun. destruct (IH c' st1 ms' (seen ++ [a])) as (more & Hd & Hm); try done.
    exists (a :: more). rewrite <- app_assoc in Hd. split; [exact Hd|]. intros _. cbn [app].
    f_equal. by apply Hm. }
  assert (ms `sublist_of` omap data_reply (seen ++ [a])) as Hskip.
  { rewrite omap_app. by apply sublist_inserts_r. }
  assert (forall res', Some (res', st1) = Some (res, st') ->
    (res' = (-1, next0, eol0) \/ res' = (0, offset, 1)) ->
    exists more, record_done offset next0 eol0 st (seen ++ more) res st'
      /\ (inbox st = a :: answers -> a :: answers = more ++ inbox st')) as Hstop.
  { intros res' [= <- <-] Hres. exists [a]. split; [|done]. split; [exact Hr|].
    destruct Hres as [-> | ->]; [by left|by right; left]. }
  destruct a as [| |src m]; [intros Hrun; eapply Hstop; eauto|by apply (Hgo c ms)|].
  destruct m as [m| | |]; try (by apply (Hgo c ms)).
  case_if as E1; [by apply (Hgo c ms)|]. case_if as E2.
  { case_if as E3; intros Hrun; (eapply Hstop; [exact Hrun|]); [by left|right].
    bool_facts. f_equal. f_equal. lia. }
  case_if as E3; [intros Hrun; eapply Hstop; eauto|].
  destruct (store_chunk c offset m) as [c'|] eqn:Es; [|intros Hrun; eapply Hstop; eauto].
  apply (store_chunk_collected _ _ ms) in Es; [|done|done].
  assert (ms ++ [m] `sublist_of` omap data_reply (seen ++ [A_message src (In_telemetry m)])) as Hs'.
  { rewrite omap_app. apply sublist_app; [done|]. cbn.
    apply orb_false_iff in E1 as [Ea%negb_false_iff Eb%negb_false_iff]. by rewrite Ea, Eb. }
  case_if as E4.
  { case_if as E5; [intros Hrun; eapply Hstop; eauto|]. by apply (Hgo c' (ms ++ [m])). }
  intros [= Hrun]. exists [A_message src (In_telemetry m)]. split.
  { by eapply (commit_record_done c' offset (ms ++ [m])) in Hrun; [|done|exact Hr|exact Hs']. }
  intros _. pose proof (commit_record_inbox c' (tr_end_of_log m) next0 eol0 st1) as Hi.
  rewrite Hrun in Hi. cbn [snd] in Hi. by rewrite Hi.
Qed.

(** C10. The downlink of one telemetry record commits or does nothing, whatever messages
    arrive and however the clock runs.  If the call fails, the caller's cursor is
    unchanged and nothing was handed to the radio.  If it succeeds, either the log
    ended at the cursor, nothing was sent and the cursor stays; or exactly one
    message was handed to the radio, a valid record, put together from replies of
    the Data role that were received during the call, for this offset, that agree on
    the offset of the next record, which is the new cursor. *)
Theorem telemetry_record_commits offset next0 eol0 st res st' :
  radio_ok (radio st) -> Forall answer_ok (inbox st) ->
  payload_commander_downlink_telemetry_record clock encoded0 record0 offset (Some next0) (Some eol0) st
    = Some (res, st') ->
  exists seen, inbox st = seen ++ inbox st' /\ record_done offset next0 eol0 st seen res st'.
Proof.
  intros Hr Ha. unfold payload_commander_downlink_telemetry_record, send.
  destruct (ipc_send _ _ _) as [r l]. case_if as E.
  - intros [= <- <-]. exists []. split; [done|]. split; [exact Hr|by left].
  - intros Hrun. eapply (telemetry_loop_done _ _ _ _ _ _ _ [] []) in Hrun as (more & Hd & Hi);
      [|apply collected_init|done|done|done].
    exists more. split; [by apply Hi|exact Hd].
Qed.

(** *** When the replies arrive *)

(** Messages that the telemetry loop passes over. *)
Definition is_noise (a : answer) : Prop := a <> A_timeout /\ data_reply a = None.

(** The answers bring these replies of the Data role in order, with noise between them,
    and then [rest]. *)
Fixpoint arrives (answers : list answer) (replies : list obc_telemetry_read_reply_t)
    (rest : list answer) : Prop :=
  match replies with
  | [] => answers = rest
  | m :: ms =>
      exists noise more, answers = noise ++ A_message ROLE_DATA (In_telemetry m) :: more
        /\ Forall is_noise noise /\ arrives more ms rest
  end.

(** No request takes as long as its timeout. *)
Definition in_time : Prop :=
  forall i j, remaining_ms (deadline_in_ms (clock i) TELEMETRY_READ_TIMEOUT_MS) (clock j) <> 0.

(** The request is sent, and the radio accepts these messages one after the other. *)
Definition sends : Prop := forall dest (m : mission_message) (l : L), 0 <= fst (ipc_send dest m l).
Fixpoint radio_accepts (r : R) (ds : list (list Z)) : Prop :=
  match ds with
  | [] => True
  | d :: ds => fst (radio_send d r) = 0 /\ radio_accepts (snd (radio_send d r)) ds
  end.

Lemma telemetry_loop_noise noise answers i offset next0 eol0 c st :
  in_time -> Forall is_noise noise ->
  exists st', telemetry_loop clock record0 (noise ++ answers)
                (deadline_in_ms (clock i) TELEMETRY_READ_TIMEOUT_MS) offset next0 eol0 c st
              = telemetry_loop clock record0 answers
                  (deadline_in_ms (clock i) TELEMETRY_READ_TIMEOUT_MS) offset next0 eol0 c st'
    /\ radio st' = radio st.
Proof.
  intros Ht Hn. revert st. induction Hn as [|a noise [Hna Hnd] _ IH]; intros st.
  { by exists st. }
  cbn [app telemetry_loop]. rewrite (proj2 (Z.eqb_neq _ _)) by apply Ht.
  destruct (IH (set_inbox (noise ++ answers) (tick st))) as (st' & E & Hr). exists st'. rewrite <- E.
  split; [|by rewrite Hr]. destruct a as [| |src m]; [done|done|]. destruct m as [m| | |]; try done.
  cbn [data_reply] in Hnd. destruct (src =? ROLE_DATA); [|done]. cbn [andb negb orb] in *.
  destruct (tr_magic m =? OBC_TELEMETRY_READ_REPLY_MAGIC); [done|]. done.
Qed.

(** One reply that is not the last. *)
Lemma telemetry_loop_chunk m answers i offset next0 eol0 c c' st :
  in_time -> tr_magic m = OBC_TELEMETRY_READ_REPLY_MAGIC -> tr_status m = OBC_TELEMETRY_READ_OK ->
  store_chunk c offset m = Some c' ->
  exists st', radio st' = radio st /\ inbox st' = answers
    /\ telemetry_loop clock record0 (A_message ROLE_DATA (In_telemetry m) :: answers)
         (deadline_in_ms (clock i) TELEMETRY_READ_TIMEOUT_MS) offset next0 eol0 c st
       = (if tr_is_last_chunk m =? 0
          then if negb (tr_end_of_log m =? 0) then Some ((-1, next0, eol0), st')
               else telemetry_loop clock record0 answers
                      (deadline_in_ms (clock i) TELEMETRY_READ_TIMEOUT_MS) offset next0 eol0 c' st'
          else Some (commit_record clock record0 c' (tr_end_of_log m) next0 eol0 st')).
Proof.
  intros Ht Hm Hs Hc. exists (set_inbox answers (tick st)). split; [done|]. split; [done|].
  cbn [telemetry_loop]. rewrite (proj2 (Z.eqb_neq (remaining_ms _ _) _)) by apply Ht.
  rewrite Hm, Hs, !Z.eqb_refl. cbn [negb orb]. change (OBC_TELEMETRY_READ_OK =? OBC_TELEMETRY_READ_END) with false.
  cbv iota. by rewrite Hc.
Qed.

Lemma store_chunk_ok c offset e n next eol off :
  len (encoded c) = 256 -> 0 < n <= 256 -> n <= len e -> 0 <= off <= n ->
  encoded_size c = off ->
  (if received_first_chunk c then expected_record_length c = n /\ expected_next_offset c = next else True) ->
  store_chunk c offset (telemetry_chunk e n offset next eol off)
  = Some (mk_collect (patch (encoded c) off (prefix_of (Z.min (n - off) 216) (skip off e)))
            (off + Z.min (n - off) 216) n next true).
Proof.
  intros Hl Hn He Ho Hs Hf. unfold store_chunk, telemetry_chunk, OBC_TELEMETRY_READ_CHUNK_SIZE, OBC_IPC_MAX_PAYLOAD.
  cbn [tr_record_offset tr_record_length tr_chunk_length tr_chunk_offset tr_next_offset tr_payload].
  replace (u16 n) with n by zlia. replace (u16 off) with off by zlia.
  replace (u16 (Z.min (n - off) 216)) with (Z.min (n - off) 216) by zlia.
  rewrite Z.eqb_refl, Hs, Z.eqb_refl, (proj2 (Z.eqb_neq n 0)), !(proj2 (Z.ltb_ge _ _)) by lia.
  cbn [negb orb].
  assert (prefix_of (Z.min (n - off) 216) (patch (zeros 216) 0 (prefix_of (Z.min (n - off) 216) (skip off e)))
          = prefix_of (Z.min (n - off) 216) (skip off e)) as Hp.
  { rewrite patch_0. apply prefix_of_app. rewrite len_prefix_of; rewrite ?len_skip; lia. }
  rewrite Hp. destruct (received_first_chunk c); cbn [andb]; [|done].
  destruct Hf as [-> ->]. by rewrite !Z.eqb_refl.
Qed.

Lemma commit_record_sends c r eol next0 eol0 st :
  record_wf r -> radio_ok (radio st) -> prefix_of (encoded_size c) (encoded c) = record_bytes r ->
  len (record_bytes r) = encoded_size c -> encoded_size c = expected_record_length c ->
  fst (radio_send (record_bytes r) (radio st)) = 0 ->
  exists st', commit_record clock record0 c eol next0 eol0 st = ((0, expected_next_offset c, eol), st')
    /\ inbox st' = inbox st /\ radio st' = snd (radio_send (record_bytes r) (radio st)).
Proof.
  intros Hwf Hr Hp Hl He Hs. unfold commit_record. rewrite (proj2 (Z.eqb_eq _ _) He). cbn [negb].
  assert (encoded c = record_bytes r ++ skip (encoded_size c) (encoded c)) as Hc
    by (by rewrite <- Hp, prefix_skip).
  replace (obc_telemetry_decode (Some (encoded c)) (encoded_size c) (Some record0))
    with (OBC_TELEMETRY_OK, Some (cleared r))
    by (rewrite Hc, <- Hl, len_record_bytes, decode_record_bytes by done; done).
  rewrite Hp.
  destruct (radio_send _ _) as [q rad] eqn:Eq. cbn in Hs. subst q. by eexists.
Qed.

Definition record_messages (r : obc_telemetry_record_t) (offset : Z) (last : bool)
    : list obc_telemetry_read_reply_t :=
  record_replies (record_bytes r) (18 + t_length r) offset (offset + (18 + t_length r)) (b2z last).

Lemma record_delivered r offset last st rest next0 eol0 :
  record_wf r -> in_time -> sends -> radio_ok (radio st) ->
  arrives (inbox st) (record_messages r offset last) rest ->
  fst (radio_send (record_bytes r) (radio st)) = 0 ->
  exists st',
    payload_commander_downlink_telemetry_record clock encoded0 record0 offset (Some next0) (Some eol0) st
      = Some ((0, offset + (18 + t_length r), b2z last), st')
    /\ inbox st' = rest /\ radio st' = snd (radio_send (record_bytes r) (radio st)).
Proof.
  intros Hwf Ht Hsend Hok Harr Hs. destruct Hencoded0 as [_ Hl0]. unfold OBC_IPC_MAX_PAYLOAD in Hl0.
  pose proof (len_record_bytes r Hwf) as Hlr. pose proof Hwf as (_ & _ & _ & Hlen & _).
  rewrite max_telemetry_value in Hlen. set (n := 18 + t_length r) in *.
  unfold payload_commander_downlink_telemetry_record, send.
  specialize (Hsend ROLE_DATA (Telemetry_request OBC_TELEMETRY_READ_REQUEST_MAGIC offset) (link st)).
  destruct (ipc_send _ _ _) as [q l]. cbn in Hsend. rewrite (proj2 (Z.ltb_ge _ _)) by done.
  unfold record_messages, record_replies in Harr. fold n in Harr.
  destruct Harr as (noise & more & Hin & Hnoise & Harr).
  change (inbox (tick (set_link l st))) with (inbox st). rewrite Hin. unfold now.
  match goal with |- context [telemetry_loop _ _ _ _ _ _ _ ?c ?s] =>
    destruct (telemetry_loop_noise noise (A_message ROLE_DATA (In_telemetry
      (telemetry_chunk (record_bytes r) n offset (offset + n) (b2z last) 0)) :: more)
      (ticks (set_link l st)) offset next0 eol0 c s Ht Hnoise) as (st1 & -> & Hr1)
  end.
  set (c0 := mk_collect encoded0 0 0 offset false).
  pose proof (store_chunk_ok c0 offset (record_bytes r) n (offset + n) (b2z last) 0 ltac:(done)
    ltac:(lia) ltac:(lia) ltac:(lia) ltac:(done) ltac:(done)) as Hc1.
  rewrite Z.sub_0_r, skip_0 in Hc1. cbn [encoded c0] in Hc1.
  edestruct (telemetry_loop_chunk (telemetry_chunk (record_bytes r) n offset (offset + n) (b2z last) 0)
    more (ticks (set_link l st)) offset next0 eol0 c0) as (st2 & Hr2 & Hi2 & ->);
    [done|done|done|exact Hc1|].
  change (radio (tick (set_link l st))) with (radio st) in Hr1.
  cbn [tr_is_last_chunk tr_end_of_log telemetry_chunk]. unfold OBC_TELEMETRY_READ_CHUNK_SIZE in *.
  rewrite Z.sub_0_r. destruct (216 <? n) eqn:En; bool_facts.
  - rewrite Z.min_r in * by lia. rewrite (proj2 (Z.eqb_neq (0 + 216) n)) by lia. cbn [b2z andb negb Z.eqb].
    destruct Harr as (noise2 & more2 & -> & Hnoise2 & Harr). cbn [arrives] in Harr. subst more2.
    match goal with |- context [telemetry_loop _ _ _ _ _ _ _ ?c ?s] =>
      destruct (telemetry_loop_noise noise2 (A_message ROLE_DATA (In_telemetry
        (telemetry_chunk (record_bytes r) n offset (offset + n) (b2z last) 216)) :: rest)
        (ticks (set_link l st)) offset next0 eol0 c s Ht Hnoise2) as (st3 & -> & Hr3);
      set (c1 := c) in *
    end.
    assert (len (patch encoded0 0 (prefix_of 216 (record_bytes r))) = 256) as Hl1
      by (rewrite len_patch; rewrite ?len_prefix_of; lia).
    pose proof (store_chunk_ok c1 offset (record_bytes r) n (offset + n) (b2z last) 216 ltac:(done)
      ltac:(lia) ltac:(lia) ltac:(lia) ltac:(done) ltac:(done)) as Hc2.
    rewrite Z.min_l in Hc2 by lia. cbn [encoded c1] in Hc2.
    edestruct (telemetry_loop_chunk (telemetry_chunk (record_bytes r) n offset (offset + n) (b2z last) 216)
      rest (ticks (set_link l st)) offset next0 eol0 c1) as (st4 & Hr4 & Hi4 & ->);
      [done|done|done|exact Hc2|].
    cbn [tr_is_last_chunk tr_end_of_log telemetry_chunk]. unfold OBC_TELEMETRY_READ_CHUNK_SIZE.
    rewrite Z.min_l by lia. replace (216 + (n - 216)) with n by lia. rewrite Z.eqb_refl.
    cbn [b2z andb Z.eqb]. replace (b2z (truthy (b2z last))) with (b2z last) by (by destruct last).
    set (c2 := mk_collect _ _ _ _ _). assert (radio st4 = radio st) as Hr by congruence.
    destruct (commit_record_sends c2 r (b2z last) next0 eol0 st4) as (st5 & -> & Hi5 & Hr5);
      try (by rewrite Hr); try done.
    + cbn [encoded_size encoded c2]. rewrite patch_0.
      unfold patch. rewrite app_assoc, (prefix_of_app n).
      2:{ rewrite len_app, (prefix_of_app 216), !len_prefix_of; rewrite ?len_skip, ?len_prefix_of; lia. }
      rewrite prefix_of_app by (rewrite len_prefix_of; lia).
      rewrite <- prefix_of_skip_split by lia. apply prefix_of_all. lia.
    + eexists. split; [done|]. split; [congruence|]. by rewrite Hr5, Hr.
  - rewrite Z.min_l in * by lia. rewrite Z.add_0_l, Z.eqb_refl in *. cbn [b2z andb negb Z.eqb].
    cbn [arrives] in Harr. subst more. replace (b2z (truthy (b2z last))) with (b2z last) by (by destruct last).
    set (c2 := mk_collect _ _ _ _ _). assert (radio st2 = radio st) as Hr by congruence.
    destruct (commit_record_sends c2 r (b2z last) next0 eol0 st2) as (st5 & -> & Hi5 & Hr5);
      try (by rewrite Hr); try done.
    + cbn [encoded_size encoded c2]. rewrite patch_0, prefix_of_app by (rewrite len_prefix_of; lia).
      apply prefix_of_all. lia.
    + eexists. split; [done|]. split; [congruence|]. by rewrite Hr5, Hr.
Qed.

(** The replies to the requests of one batch, when the records [rs] are in the log from
    [offset] on. *)
Fixpoint batch_messages (k : nat) (rs : list obc_telemetry_record_t) (offset : Z)
    : list obc_telemetry_read_reply_t :=
  match k, rs with
  | O, _ => []
  | S _, [] => [telemetry_error_reply offset OBC_TELEMETRY_READ_END]
  | S _, [r] => record_messages r offset true
  | S k, r :: rs => record_messages r offset false ++ batch_messages k rs (offset + (18 + t_length r))
  end.

Lemma arrives_app answers ms ms' rest :
  arrives answers (ms ++ ms') rest <-> exists mid, arrives answers ms mid /\ arrives mid ms' rest.
Proof.
  revert answers. induction ms as [|m ms IH]; intros answers; cbn [app arrives].
  { split; [by exists answers|]. by intros (mid & -> & ?). }
  split.
  - intros (noise & more & -> & Hn & (mid & Hm & Hm')%IH). exists mid. split; [|done]. by exists noise, more.
  - intros (mid & (noise & more & -> & Hn & Hm) & Hm'). exists noise, more. split; [done|].
    split; [done|]. apply IH. by exists mid.
Qed.

Lemma end_delivered offset st rest next0 eol0 :
  in_time -> sends -> arrives (inbox st) [telemetry_error_reply offset OBC_TELEMETRY_READ_END] rest ->
  exists st',
    payload_commander_downlink_telemetry_record clock encoded0 record0 offset (Some next0) (Some eol0) st
      = Some ((0, offset, 1), st')
    /\ inbox st' = rest /\ radio st' = radio st.
Proof.
  intros Ht Hsend (noise & more & Hin & Hnoise & Hrest). cbn [arrives] in Hrest. subst more.
  unfold payload_commander_downlink_telemetry_record, send.
  specialize (Hsend ROLE_DATA (Telemetry_request OBC_TELEMETRY_READ_REQUEST_MAGIC offset) (link st)).
  destruct (ipc_send _ _ _) as [q l]. cbn in Hsend. rewrite (proj2 (Z.ltb_ge _ _)) by done.
  change (inbox (tick (set_link l st))) with (inbox st). rewrite Hin. unfold now.
  match goal with |- context [telemetry_loop _ _ _ _ _ _ _ ?c ?s] =>
    destruct (telemetry_loop_noise noise (A_message ROLE_DATA (In_telemetry
      (telemetry_error_reply offset OBC_TELEMETRY_READ_END)) :: rest)
      (ticks (set_link l st)) offset next0 eol0 c s Ht Hnoise) as (st1 & -> & Hr1)
  end.
  cbn [telemetry_loop]. rewrite (proj2 (Z.eqb_neq (remaining_ms _ _) _)) by apply Ht.
  cbn [telemetry_error_reply tr_magic tr_status tr_is_last_chunk tr_end_of_log tr_chunk_length
       tr_record_offset tr_next_offset].
  rewrite !Z.eqb_refl. cbn. by eexists.
Qed.

Lemma batch_delivered k rs offset sent st rest :
  Forall record_wf rs -> in_time -> sends -> radio_ok (radio st) ->
  arrives (inbox st) (batch_messages k rs offset) rest ->
  radio_accepts (radio st) (map record_bytes (take k rs)) ->
  exists st',
    batch_loop clock encoded0 record0 k offset sent st
      = Some ((0, offset + len (log_bytes (take k rs)), sent + len (take k rs),
               if decide (k = O) then 0 else b2z (len rs <=? Z.of_nat k)), st')
    /\ radio_ok (radio st') /\ inbox st' = rest
    /\ queued (radio st')
       = queued (radio st)
         ++ map (fun r => (LG_CCSDS_CONTENT_RAW_TELEMETRY, record_bytes r)) (take k rs).
Proof.
  intros Hwf Ht Hs. revert rs offset sent st Hwf.
  induction k as [|k IH]; intros rs offset sent st Hwf Hok Harr Hacc.
  { exists st. rewrite take_0. change (log_bytes []) with (@nil Z). cbn [map batch_loop arrives batch_messages] in *.
    rewrite app_nil_r, decide_True by done. split; [|done]. unfold len. cbn [length Z.of_nat]. by rewrite !Z.add_0_r. }
  destruct rs as [|r rs].
  { cbn [batch_loop batch_messages take map] in *.
    destruct (end_delivered offset st rest offset 0 Ht Hs Harr) as (st' & -> & Hi & Hr).
    exists st'. cbn [negb Z.eqb]. rewrite Z.eqb_refl, decide_False by lia.
    change (log_bytes []) with (@nil Z). cbn [map]. rewrite app_nil_r, Hr. split; [|done].
    unfold len. cbn [length]. rewrite (proj2 (Z.leb_le _ _)) by lia. cbn [Z.of_nat b2z]. by rewrite !Z.add_0_r. }
  inversion Hwf as [|? ? Hr Hrs]; subst. cbn [take map radio_accepts] in Hacc. destruct Hacc as [Ha1 Ha2].
  pose proof (radio_send_law (record_bytes r) (radio st) Hok (record_bytes_ok r Hr)) as Hlaw.
  destruct (radio_send (record_bytes r) (radio st)) as [ret rad] eqn:Erad. cbn [fst snd] in *. subst ret.
  destruct Hlaw as [Hok1 Hq1]. cbn [Z.eqb] in Hq1. pose proof Hr as (_ & _ & _ & Hlen & _).
  assert (forall last mid, arrives (inbox st) (record_messages r offset last) mid ->
    exists st1, payload_commander_downlink_telemetry_record clock encoded0 record0 offset (Some offset)
                  (Some 0) st = Some ((0, offset + (18 + t_length r), b2z last), st1)
      /\ inbox st1 = mid /\ radio st1 = rad) as Hrec.
  { intros last mid Hm. destruct (record_delivered r offset last st mid offset 0) as (st1 & E & Hi & Hra);
      try done; [by rewrite Erad|]. exists st1. split; [done|]. split; [done|]. by rewrite Hra, Erad. }
  cbn [batch_loop take map]. rewrite log_bytes_cons, len_app, len_record_bytes, len_cons by done.
  rewrite decide_False by lia. cbn [batch_messages] in Harr. destruct rs as [|r2 rs].
  - destruct (Hrec true rest Harr) as (st1 & -> & Hi & Hra). exists st1. cbn [negb Z.eqb].
    rewrite (proj2 (Z.eqb_neq _ offset)) by lia. cbn [b2z Z.eqb negb].
    replace (take k (@nil obc_telemetry_record_t)) with (@nil obc_telemetry_record_t) by (symmetry; apply take_nil).
    change (log_bytes []) with (@nil Z). cbn [map]. rewrite Hra. unfold len. cbn [length].
    rewrite (proj2 (Z.leb_le _ _)) by lia. cbn [Z.of_nat]. rewrite !Z.add_0_r. by split.
  - apply arrives_app in Harr as (mid & Hm & Harr). destruct (Hrec false mid Hm) as (st1 & -> & Hi & Hra).
    cbn [negb Z.eqb]. rewrite (proj2 (Z.eqb_neq _ offset)) by lia. cbn [b2z Z.eqb negb].
    destruct (IH (r2 :: rs) (offset + (18 + t_length r)) (sent + 1) st1) as (st' & -> & Hok' & Hi' & Hq');
      [done|by rewrite Hra|by rewrite Hi|by rewrite Hra|].
    exists st'. split; [|split; [done|]; split; [done|]].
    + do 2 f_equal. f_equal; [f_equal; [f_equal; lia|lia]|]. case_decide as Ek.
      * subst k. rewrite (proj2 (Z.leb_gt _ _)); [done|]. rewrite !len_cons. pose proof (len_nonneg rs). lia.
      * f_equal. rewrite (len_cons r). destruct (len (r2 :: rs) <=? Z.of_nat k) eqn:E; bool_facts;
          [rewrite (proj2 (Z.leb_le _ _))|rewrite (proj2 (Z.leb_gt _ _))]; lia || done.
    + rewrite Hq', Hra, Hq1, <- app_assoc. done.
Qed.

(** C13. A batch downlinks the log in order.  When the Data role holds the records [rs]
    from the cursor on and answers the requests, whatever other messages come in
    between, and the radio has room, a batch of at most [k] records hands exactly the
    first [k] of them to the radio, each once and in the order of the log, moves the
    cursor behind the last one sent, counts them, and reports the end of the log
    exactly when no record is left. *)
Theorem telemetry_batch_in_order k rs cursor sent0 eol0 st rest :
  (0 < k)%nat -> Forall record_wf rs -> in_time -> sends -> radio_ok (radio st) ->
  arrives (inbox st) (batch_messages k rs cursor) rest ->
  radio_accepts (radio st) (map record_bytes (take k rs)) ->
  exists st',
    payload_commander_downlink_telemetry_batch clock encoded0 record0 cursor k sent0 eol0 st
      = Some ((0, cursor + len (log_bytes (take k rs)), len (take k rs),
               b2z (len rs <=? Z.of_nat k)), st')
    /\ inbox st' = rest
    /\ queued (radio st')
       = queued (radio st)
         ++ map (fun r => (LG_CCSDS_CONTENT_RAW_TELEMETRY, record_bytes r)) (take k rs).
Proof.
  intros Hk Hwf Ht Hs Hok Harr Hacc. unfold payload_commander_downlink_telemetry_batch.
  rewrite bool_decide_false by lia.
  destruct (batch_delivered k rs cursor 0 st rest) as (st' & -> & _ & Hi & Hq); try done.
  exists st'. rewrite decide_False by lia. done.
Qed.

(** *** Photos *)

Definition is_photo_noise (a : answer) : Prop :=
  match a with A_timeout => False | A_message _ (In_read _) => False | _ => True end.

Fixpoint photo_arrives (answers : list answer) (replies : list data_read_reply_t)
    (rest : list answer) : Prop :=
  match replies with
  | [] => answers = rest
  | m :: ms =>
      exists noise src more, answers = noise ++ A_message src (In_read m) :: more
        /\ Forall is_photo_noise noise /\ photo_arrives more ms rest
  end.

Lemma photo_loop_noise noise answers deadline total st :
  Forall is_photo_noise noise ->
  exists st', photo_loop clock behind (noise ++ answers) deadline total st
              = photo_loop clock behind answers deadline total st'
    /\ radio st' = radio st /\ photo_buf st' = photo_buf st.
Proof.
  intros Hn. revert st. induction Hn as [|a noise Ha _ IH]; intros st; [by exists st|].
  cbn [app photo_loop].
  match goal with |- context [photo_loop _ _ (noise ++ answers) _ _ ?s] => destruct (IH s) as (st' & E & Hr & Hb) end.
  exists st'. destruct a as [| |src m]; [done| |destruct m; try done].
  all: by rewrite E, Hr, Hb.
Qed.

Lemma photo_loop_delivered fuel content offset answers deadline total st rest :
  len content < Z.of_nat fuel -> photo_arrives answers (file_replies fuel content offset) rest ->
  0 <= total -> total + len content <= MAX_PHOTO_SIZE -> len (photo_buf st) = MAX_PHOTO_SIZE ->
  exists st',
    photo_loop clock behind answers deadline total st = Some (inr (total + len content), st')
    /\ radio st' = radio st /\ inbox st' = rest
    /\ prefix_of (total + len content) (photo_buf st') = prefix_of total (photo_buf st) ++ content.
Proof.
  revert content offset answers total st. induction fuel as [|fuel IH];
    intros content offset answers total st Hf Harr Ht Hmax Hl; pose proof (len_nonneg content).
  { lia. }
  cbn [file_replies] in Harr. destruct Harr as (noise & src & more & -> & Hnoise & Harr).
  match goal with |- context [photo_loop _ _ (_ ++ ?a) _ _ _] =>
    destruct (photo_loop_noise noise a deadline total st Hnoise) as (st1 & -> & Hr1 & Hb1) end.
  cbn [photo_loop rr_status rr_length rr_payload rr_is_last]. cbn [negb Z.eqb].
  unfold DATA_CHUNK_SIZE, MAX_PHOTO_SIZE in *. set (n := Z.min 200 (len content)) in *.
  rewrite (proj2 (Z.ltb_ge _ _)) by lia.
  assert (len (prefix_of n content) = n) as Hn by (apply len_prefix_of; lia).
  rewrite patch_0, <- app_assoc, prefix_of_app by done.
  assert (prefix_of (total + n) (patch (photo_buf st) total (prefix_of n content))
          = prefix_of total (photo_buf st) ++ prefix_of n content) as Hp.
  { unfold patch. rewrite app_assoc. apply prefix_of_app. rewrite len_app, len_prefix_of; lia. }
  destruct (n <? 200) eqn:En; cbn [b2z negb Z.eqb]; bool_facts.
  - cbn [photo_arrives] in Harr. subst more. eexists. assert (n = len content) as Hnc by lia.
    rewrite Hnc in *. split; [done|]. split; [exact Hr1|]. split; [done|].
    cbn [photo_buf payload_progress tick set_watches set_photo_buf set_inbox]. rewrite Hb1, Hp.
    by rewrite (prefix_of_all (len content) content) by lia.
  - match goal with |- context [photo_loop _ _ more _ _ ?s] =>
      destruct (IH (skip n content) (u32 (offset + n)) more (total + n) s) as (st' & E & Hr' & Hi' & Hb');
        [rewrite len_skip; lia|exact Harr|lia|rewrite len_skip; lia| |] end.
    { cbn [photo_buf payload_progress tick set_watches set_photo_buf set_inbox]. rewrite Hb1, len_patch; lia. }
    exists st'. rewrite len_skip in E, Hb' by lia.
    replace (total + n + Z.max 0 (len content - n)) with (total + len content) in * by lia.
    split; [exact E|]. split; [by rewrite Hr'|]. split; [done|]. rewrite Hb'.
    cbn [photo_buf payload_progress tick set_watches set_photo_buf set_inbox].
    rewrite Hb1, Hp, <- app_assoc. by rewrite prefix_skip.
Qed.

(** A photo is downlinked whole.  When the chunks of a file of at most 64 KiB arrive
    from the Data role, with unrelated messages in between, exactly the bytes of the
    file are handed to the radio as SSDV packets, once, and the call reports what the
    radio answered; an empty file is refused. *)
Theorem photo_downlink_delivers fuel content path st rest :
  len content < Z.of_nat fuel -> len content <= MAX_PHOTO_SIZE ->
  len (photo_buf st) = MAX_PHOTO_SIZE -> radio_ok (radio st) -> bytes_ok content ->
  photo_arrives (inbox st) (file_replies fuel content 0) rest ->
  exists ret st',
    payload_commander_downlink_photo clock behind path st = Some (ret, st')
    /\ inbox st' = rest
    /\ queued (radio st')
       = queued (radio st) ++ (if ret =? 0 then [(LG_CCSDS_CONTENT_SSDV, content)] else [])
    /\ ret = (if (len content =? 0) || negb (fst (radio_send_ssdv content (radio st)) =? 0)
              then -1 else 0).
Proof.
  intros Hf Hl Hb Hok Hbytes Harr. unfold payload_commander_downlink_photo, send.
  destruct (ipc_send _ _ _) as [q l].
  match goal with |- context [photo_loop _ _ _ ?d 0 ?s] =>
    destruct (photo_loop_delivered fuel content 0 (inbox s) d 0 s rest) as (st1 & -> & Hr1 & Hi1 & Hp1);
      [done|exact Harr|lia|lia|exact Hb|] end.
  rewrite Z.add_0_l in *. rewrite prefix_of_0 in Hp1. cbn [app] in Hp1.
  cbn [radio tick set_link] in Hr1.
  destruct (len content =? 0) eqn:E0; cbn [orb].
  { exists (-1), st1. split; [done|]. split; [done|]. rewrite Hr1, app_nil_r. done. }
  rewrite Hp1, Hr1. pose proof (radio_send_ssdv_law content (radio st) Hok Hbytes) as Hlaw.
  destruct (radio_send_ssdv content (radio st)) as [r rad]. destruct Hlaw as [_ Hq].
  cbn [fst]. destruct (r =? 0) eqn:Er; cbn [negb].
  - exists 0. eexists. split; [done|]. split; [done|]. split; [|done]. exact Hq.
  - exists (-1). eexists. split; [done|]. split; [done|]. split; [|done]. exact Hq.
Qed.

(** *** The calls return *)

Lemma telemetry_loop_returns k answers deadline offset next0 eol0 c st :
  (k <= length answers)%nat -> remaining_ms deadline (clock (ticks st + k)) = 0 ->
  exists res, telemetry_loop clock record0 answers deadline offset next0 eol0 c st = Some res.
Proof.
  revert k c st. induction answers as [|a answers IH]; intros k c st Hk Hrem; cbn [telemetry_loop].
  - destruct k; [|cbn in Hk; lia]. rewrite Nat.add_0_r in Hrem. unfold now. rewrite Hrem. by eexists.
  - case_if as E; [by eexists|]. bool_facts. destruct k as [|k].
    { rewrite Nat.add_0_r in Hrem. unfold now in E. lia. }
    assert (forall c', exists res, telemetry_loop clock record0 answers deadline offset next0 eol0 c'
      (set_inbox answers (tick st)) = Some res) as Hgo.
    { intros c'. apply (IH k); [cbn in Hk; lia|]. cbn [ticks set_inbox tick].
      by replace (S (ticks st) + k)%nat with (ticks st + S k)%nat by lia. }
    destruct a as [| |src m]; [by eexists|apply Hgo|]. destruct m as [m| | |]; try apply Hgo.
    case_if as E1; [apply Hgo|]. case_if as E2; [by case_if as E3; eexists|].
    case_if as E3; [by eexists|]. destruct (store_chunk c offset m); [|by eexists].
    case_if as E4; [|by eexists]. case_if as E5; [by eexists|apply Hgo].
Qed.

(** The request for a telemetry record always comes to an end: whatever messages keep
    arriving, malformed, foreign or none that concern it, it returns at the latest when
    the clock has passed ten seconds, where each wait for a message returns in time. *)
Theorem telemetry_request_returns offset next0 eol0 st k :
  (k <= length (inbox st))%nat ->
  remaining_ms (deadline_in_ms (clock (ticks st)) TELEMETRY_READ_TIMEOUT_MS)
    (clock (S (ticks st) + k)) = 0 ->
  exists res, payload_commander_downlink_telemetry_record clock encoded0 record0 offset next0 eol0 st
              = Some res.
Proof.
  intros Hk Hrem. unfold payload_commander_downlink_telemetry_record, send.
  destruct next0 as [next0|]; [|by eexists]. destruct eol0 as [eol0|]; [|by eexists].
  destruct (ipc_send _ _ _) as [r l]. case_if as E; [by eexists|].
  by apply (telemetry_loop_returns k).
Qed.
End Downlink.

(** ** Examples *)

Definition sample_encoded0 : list Z := zeros 256.

Lemma sample_encoded0_ok : bytes_ok sample_encoded0 /\ len sample_encoded0 = OBC_IPC_MAX_PAYLOAD.
Proof. split; [apply Forall_replicate; zlia|reflexivity]. Qed.

Definition still_clock (n : nat) : timespec := mk_time 1000 0.

Lemma still_clock_in_time : in_time still_clock.
Proof. intros i j. vm_compute. discriminate. Qed.

Definition sample_watch : obc_progress_t := mk_progress (mk_time 0 0) 3000 false.

(** Another message comes before the replies to two requests. *)
Definition sample_answers : list answer :=
  A_message ROLE_COMPUTE (In_result (mk_result 1 0 5))
  :: map (fun m => A_message ROLE_DATA (In_telemetry m))
       (batch_messages 2 [sample_record; sample_record] 0).

Definition sample_mission (answers : list answer) : @mission (post mission_message) system :=
  mk_mission (Health.mk_watches sample_watch sample_watch sample_watch) 0%nat (mk_post [])
    sample_system answers 1 (zeros MAX_PHOTO_SIZE).

Lemma sample_answers_ok : Forall answer_ok sample_answers.
Proof.
  unfold sample_answers. cbn [batch_messages app map record_messages record_replies].
  repeat (apply Forall_cons_2; [cbn [answer_ok]; first [exact I|
    split; [apply bytes_ok_eval; vm_compute; reflexivity|vm_compute; repeat split; congruence]]|]).
  apply Forall_nil_2.
Qed.

Lemma sample_mission_ok answers : radio_ok (radio (sample_mission answers)).
Proof. exact sample_reachable. Qed.

Lemma sample_arrives : arrives sample_answers (batch_messages 2 [sample_record; sample_record] 0) [].
Proof.
  eexists [_], _. split; [reflexivity|]. split.
  { apply Forall_singleton. split; [discriminate|reflexivity]. }
  eexists [], _. split; [reflexivity|]. split; [apply Forall_nil_2|]. reflexivity.
Qed.

Lemma telemetry_record_commits_witness :
  exists st' seen,
    payload_commander_downlink_telemetry_record still_clock sample_encoded0 sample_record 0 (Some 0) (Some 0)
      (sample_mission sample_answers) = Some ((0, 21, 0), st')
    /\ sample_answers = seen ++ inbox st'
    /\ record_done 0 0 0 (sample_mission sample_answers) seen (0, 21, 0) st'.
Proof.
  destruct (record_delivered still_clock sample_encoded0 sample_record sample_encoded0_ok sample_record 0 false
    (sample_mission sample_answers)
    (map (fun m => A_message ROLE_DATA (In_telemetry m)) (record_messages sample_record 21 true)) 0 0)
    as (st' & E & _).
  - exact sample_record_wf.
  - exact still_clock_in_time.
  - intros dest m l. apply post_reliable.
  - exact sample_reachable.
  - eexists [_], _. split; [reflexivity|]. split; [|reflexivity].
    apply Forall_singleton. split; [discriminate|reflexivity].
  - vm_compute. reflexivity.
  - destruct (telemetry_record_commits still_clock sample_encoded0 sample_record sample_encoded0_ok 0 0 0
      (sample_mission sample_answers) _ st' (sample_mission_ok sample_answers) sample_answers_ok E) as (seen & Hs & Hd).
    exists st', seen. split; [exact E|]. split; [exact Hs|exact Hd].
Defined.

Lemma telemetry_batch_in_order_witness :
  exists st',
    payload_commander_downlink_telemetry_batch still_clock sample_encoded0 sample_record 0 8 0 0
      (sample_mission sample_answers)
      = Some ((0, 0 + len (log_bytes [sample_record; sample_record]), 2, 1), st')
    /\ inbox st' = []
    /\ queued (radio st')
       = queued sample_system ++ [(0, record_bytes sample_record); (0, record_bytes sample_record)].
Proof.
  apply (telemetry_batch_in_order still_clock sample_encoded0 sample_record sample_encoded0_ok 8
    [sample_record; sample_record] 0 0 0 (sample_mission sample_answers) []).
  - lia.
  - repeat (apply Forall_cons_2; [exact sample_record_wf|]). apply Forall_nil_2.
  - exact still_clock_in_time.
  - intros dest m l. apply post_reliable.
  - exact sample_reachable.
  - exact sample_arrives.
  - vm_compute. split; [reflexivity|]. split; [reflexivity|exact I].
Defined.

Definition sample_photo : list Z := zeros 428.

Definition photo_answers : list answer :=
  map (fun m => A_message ROLE_DATA (In_read m)) (file_replies 429 sample_photo 0).

Lemma photo_arrives_all ms :
  photo_arrives (map (fun m => A_message ROLE_DATA (In_read m)) ms) ms [].
Proof.
  induction ms as [|m ms IH]; [done|]. cbn [photo_arrives map]. eexists [], _, _.
  split; [reflexivity|]. split; [apply Forall_nil_2|done].
Qed.

Lemma photo_downlink_delivers_witness :
  exists ret st',
    payload_commander_downlink_photo still_clock [] [47] (sample_mission photo_answers) = Some (ret, st')
    /\ queued (radio st') = queued (radio (sample_mission photo_answers))
                            ++ (if ret =? 0 then [(LG_CCSDS_CONTENT_SSDV, sample_photo)] else []).
Proof.
  destruct (photo_downlink_delivers still_clock [] 429 sample_photo [47] (sample_mission photo_answers) [])
    as (ret & st' & E & _ & Hq & _).
  - vm_compute. reflexivity.
  - vm_compute. congruence.
  - vm_compute. reflexivity.
  - apply sample_mission_ok.
  - apply Forall_replicate. zlia.
  - apply photo_arrives_all.
  - exists ret, st'. split; [exact E|exact Hq].
Defined.

Definition running_clock (n : nat) : timespec := mk_time (6 * Z.of_nat n) 0.

Lemma telemetry_request_returns_witness :
  exists res, payload_commander_downlink_telemetry_record running_clock sample_encoded0 sample_record 0
    (Some 0) (Some 0) (sample_mission [A_error; A_error; A_error]) = Some res.
Proof.
  apply (telemetry_request_returns running_clock sample_encoded0 sample_record 0 (Some 0) (Some 0)
    (sample_mission [A_error; A_error; A_error]) 2).
  - cbn. lia.
  - vm_compute. reflexivity.
Defined.
