(* ===== verification/Scheduler.v ===== *)
(** The Mission role's scheduler, [apps/obc/mission/src/scheduler.c] (the mission phases,
    their persistence across restarts and the telemetry downlink cadence), and its
    autonomous actions, [autonomy.c].

    The scheduler drives the commander of Commander.v.  Times compared as [double] in
    the code are compared in nanoseconds here: the values that decide are far below
    the precision of a [double]. *)

From stdpp Require Import gmap.
From S2P Require Import Prelude Text RadioQueue ObcTelemetry ObcProgress ObcIpc DataStore RadioService Commander.

(** ** The text of the state file *)

(** What glibc stores for numbers that do not fit. *)
Definition clamp_i64 (v : Z) : Z := Z.max (-9223372036854775808) (Z.min v 9223372036854775807).
Definition to_i32 (v : Z) : Z := (v + 2147483648) mod 4294967296 - 2147483648.
Definition as_int (v : Z) : Z := to_i32 (clamp_i64 v).
Definition as_u64 (v : Z) : Z :=
  if 18446744073709551615 <? Z.abs v then 18446744073709551615 else u64 v.

(** [fscanf(f, "%d %lld %" SCNu64, ...)]: the number of conversions and the values. *)
Definition scan_state (l : list Z) : Z * Z * Z * Z :=
  match scan_int l with
  | None => (0, 0, 0, 0)
  | Some (phase, l) =>
      match scan_int l with
      | None => (1, as_int phase, 0, 0)
      | Some (start, l) =>
          match scan_int l with
          | None => (2, as_int phase, clamp_i64 start, 0)
          | Some (cursor, _) => (3, as_int phase, clamp_i64 start, as_u64 cursor)
          end
      end
  end.

(** [fprintf(f, "%d %lld %" PRIu64 "\n", ...)]. *)
Definition print_state (phase start cursor : Z) : list Z :=
  print_dec phase ++ [32] ++ print_dec start ++ [32] ++ print_dec cursor ++ [10].

(** ** The mission phases *)

Inductive mission_state_t :=
  | MISSION_WAITING_FOR_ASCENT
  | MISSION_TAKING_PHOTO
  | MISSION_COMPRESSING
  | MISSION_DOWNLINKING
  | MISSION_COOLDOWN.

#[global] Instance mission_state_eq_dec : EqDecision mission_state_t.
Proof. solve_decision. Defined.

Definition phase_number (s : mission_state_t) : Z :=
  match s with
  | MISSION_WAITING_FOR_ASCENT => 0
  | MISSION_TAKING_PHOTO => 1
  | MISSION_COMPRESSING => 2
  | MISSION_DOWNLINKING => 3
  | MISSION_COOLDOWN => 4
  end.

(** The cast of a number in range. *)
Definition phase_of (v : Z) : mission_state_t :=
  if v =? 0 then MISSION_WAITING_FOR_ASCENT
  else if v =? 1 then MISSION_TAKING_PHOTO
  else if v =? 2 then MISSION_COMPRESSING
  else if v =? 3 then MISSION_DOWNLINKING
  else MISSION_COOLDOWN.

Definition ASCENT_WAIT_SEC : Z := 5400.
Definition STEP_RETRY_LIMIT : Z := 3.
Definition COOLDOWN_SEC : Z := 600.
Definition TELEMETRY_BATCH_LIMIT : nat := 8.
Definition TELEMETRY_DOWNLINK_INTERVAL_SEC : Z := 30.
(** "/tmp/photos" and "/tmp/photos.rice". *)
Definition PHOTO_PATH : list Z := [47; 116; 109; 112; 47; 112; 104; 111; 116; 111; 115].
Definition COMPRESSED_PHOTO_PATH : list Z := PHOTO_PATH ++ [46; 114; 105; 99; 101].
Definition PATH_MAX : Z := 4096.

(** [value] is what [atoi] gives for the environment variable, if it is set. *)
Definition get_ascent_wait_sec (value : option Z) : Z :=
  match value with None => ASCENT_WAIT_SEC | Some v => if 0 <? v then v else ASCENT_WAIT_SEC end.
Definition get_telemetry_downlink_interval_sec (value : option Z) : Z :=
  match value with
  | None => TELEMETRY_DOWNLINK_INTERVAL_SEC
  | Some v => if 0 <? v then v else TELEMETRY_DOWNLINK_INTERVAL_SEC
  end.

(** What the file system does during one save: whether the temporary file opens, how
    much of the text reaches it, whether the rename works. *)
Record save_io := mk_save_io { s_open : bool; s_limit : option Z; s_rename : bool }.
Definition save_io_ok : save_io := mk_save_io true None true.

Definition nanos_since (start stop : timespec) : Z :=
  (tv_sec stop - tv_sec start) * 1000000000 + (tv_nsec stop - tv_nsec start).

Section Scheduler.
Context {L R : Type} `{Ipc mission_message L} `{Radio R}.
Context (clock : nat -> timespec) (encoded0 : list Z) (record0 : obc_telemetry_record_t)
  (behind : list Z).
(** The path of the state file, the environment, and what each save meets. *)
Context (state_path : list Z) (ascent_env interval_env : option Z) (disk_io : nat -> save_io).

Record scheduler := mk_scheduler {
  current_state : mission_state_t;
  mission_start_unix : Z;
  retry_count : Z;
  cooldown_start : timespec;
  telemetry_cursor : Z;
  last_telemetry_attempt : timespec;
  disk : files;
  saves : nat;
  role : @mission L R
}.

Definition set_role (m : mission) (s : scheduler) : scheduler :=
  mk_scheduler (current_state s) (mission_start_unix s) (retry_count s) (cooldown_start s)
    (telemetry_cursor s) (last_telemetry_attempt s) (disk s) (saves s) m.
Definition set_cursor (c : Z) (s : scheduler) : scheduler :=
  mk_scheduler (current_state s) (mission_start_unix s) (retry_count s) (cooldown_start s)
    c (last_telemetry_attempt s) (disk s) (saves s) (role s).
Definition set_retry (n : Z) (s : scheduler) : scheduler :=
  mk_scheduler (current_state s) (mission_start_unix s) n (cooldown_start s)
    (telemetry_cursor s) (last_telemetry_attempt s) (disk s) (saves s) (role s).
Definition set_last_attempt (t : timespec) (s : scheduler) : scheduler :=
  mk_scheduler (current_state s) (mission_start_unix s) (retry_count s) (cooldown_start s)
    (telemetry_cursor s) t (disk s) (saves s) (role s).
Definition set_cooldown_start (t : timespec) (s : scheduler) : scheduler :=
  mk_scheduler (current_state s) (mission_start_unix s) (retry_count s) t
    (telemetry_cursor s) (last_telemetry_attempt s) (disk s) (saves s) (role s).
Definition set_phase (p : mission_state_t) (s : scheduler) : scheduler :=
  mk_scheduler p (mission_start_unix s) 0 (cooldown_start s)
    (telemetry_cursor s) (last_telemetry_attempt s) (disk s) (saves s) (role s).
Definition set_disk (d : files) (s : scheduler) : scheduler :=
  mk_scheduler (current_state s) (mission_start_unix s) (retry_count s) (cooldown_start s)
    (telemetry_cursor s) (last_telemetry_attempt s) d (S (saves s)) (role s).

(** One reading of the monotonic clock. *)
Definition read_clock (s : scheduler) : timespec * scheduler :=
  (now clock (role s), set_role (tick (role s)) s).

Definition tmp_path : list Z := prefix_of (PATH_MAX - 1) (state_path ++ [46; 116; 109; 112]).

Definition write_state (io : save_io) (text : list Z) (d : files) : files :=
  let d := <[tmp_path := match s_limit io with None => text | Some n => prefix_of n text end]> d in
  if s_rename io
  then <[state_path := default [] (d !! tmp_path)]> (delete tmp_path d)
  else d.

Definition mission_state_save (s : scheduler) : scheduler :=
  let io := disk_io (saves s) in
  if negb (s_open io) then set_disk (disk s) s
  else
    set_disk (write_state io
                (print_state (phase_number (current_state s)) (mission_start_unix s) (telemetry_cursor s))
                (disk s)) s.

(** [unix] is the value of [time(NULL)]. *)
Definition mission_state_load (unix : Z) (s : scheduler) : scheduler :=
  let fresh :=
    mission_state_save
      (mk_scheduler MISSION_WAITING_FOR_ASCENT unix (retry_count s) (cooldown_start s) 0
         (last_telemetry_attempt s) (disk s) (saves s) (role s)) in
  match disk s !! state_path with
  | Some text =>
      let '(parsed, phase, saved_start, saved_cursor) := scan_state text in
      if ((parsed =? 2) || (parsed =? 3)) && (0 <=? phase) && (phase <=? 4) && (0 <? saved_start)
      then
        let s := mk_scheduler (phase_of phase) saved_start (retry_count s) (cooldown_start s)
                   (if parsed =? 3 then saved_cursor else 0) (last_telemetry_attempt s) (disk s)
                   (saves s) (role s) in
        if bool_decide (current_state s = MISSION_COOLDOWN)
        then let '(t, s) := read_clock s in set_cooldown_start t s
        else s
      else fresh
  | None => fresh
  end.

Definition set_state (next : mission_state_t) (s : scheduler) : scheduler :=
  mission_state_save (set_phase next s).

Definition enter_cooldown (s : scheduler) : scheduler :=
  let '(t, s) := read_clock s in set_state MISSION_COOLDOWN (set_cooldown_start t s).

Definition payload_begin (s : scheduler) : scheduler :=
  let m := role s in
  set_role (tick (set_watches (Health.mission_health_payload_begin (now clock m) (watches m)) m)) s.
Definition payload_end (s : scheduler) : scheduler :=
  let m := role s in
  set_role (tick (set_watches (Health.mission_health_payload_end (now clock m) (watches m)) m)) s.
Definition scheduler_progress (s : scheduler) : scheduler :=
  let m := role s in
  set_role (tick (set_watches (Health.mission_health_scheduler_progress (now clock m) (watches m)) m)) s.

Definition run_telemetry_downlink_batch (s : scheduler) : option scheduler :=
  let cursor_before_batch := telemetry_cursor s in
  let s := payload_begin s in
  match payload_commander_downlink_telemetry_batch clock encoded0 record0 (telemetry_cursor s)
          TELEMETRY_BATCH_LIMIT 0 0 (role s) with
  | None => None
  | Some ((_, cursor, _, _), m) =>
      let s := payload_end (set_cursor cursor (set_role m s)) in
      Some (if negb (cursor =? cursor_before_batch) then mission_state_save s else s)
  end.

(** The end of a payload step: the next phase, or one more try, or giving up. *)
Definition step_result (result : Z) (success : scheduler -> scheduler) (s : scheduler) : scheduler :=
  if result =? 0 then success s
  else
    let s := set_retry (retry_count s + 1) s in
    if STEP_RETRY_LIMIT <=? retry_count s then enter_cooldown s else s.

(** The switch of the loop.  [unix] is [time(NULL)], [capture] what the camera returns. *)
Definition phase_step (t : timespec) (unix capture : Z) (s : scheduler) : option scheduler :=
  match current_state s with
  | MISSION_WAITING_FOR_ASCENT =>
      if get_ascent_wait_sec ascent_env <=? unix - mission_start_unix s
      then Some (set_state MISSION_TAKING_PHOTO s) else Some s
  | MISSION_TAKING_PHOTO =>
      let s := payload_begin s in
      let '(result, m) := payload_commander_take_photo clock capture (role s) in
      let s := payload_end (set_role m s) in
      Some (step_result result (set_state MISSION_COMPRESSING) s)
  | MISSION_COMPRESSING =>
      let s := payload_begin s in
      match payload_commander_compress_photo clock PHOTO_PATH COMPRESSED_PHOTO_PATH (role s) with
      | None => None
      | Some (result, m) =>
          let s := payload_end (set_role m s) in
          Some (step_result result (set_state MISSION_DOWNLINKING) s)
      end
  | MISSION_DOWNLINKING =>
      let s := payload_begin s in
      match payload_commander_downlink_photo clock behind COMPRESSED_PHOTO_PATH (role s) with
      | None => None
      | Some (result, m) =>
          let s := payload_end (set_role m s) in
          Some (step_result result enter_cooldown s)
      end
  | MISSION_COOLDOWN =>
      if COOLDOWN_SEC * 1000000000 <=? nanos_since (cooldown_start s) t
      then Some (set_state MISSION_TAKING_PHOTO s) else Some s
  end.

(** One round of the loop of [scheduler_thread]. *)
Definition scheduler_round (unix capture : Z) (s : scheduler) : option scheduler :=
  let '(t, s) := read_clock s in
  match phase_step t unix capture s with
  | None => None
  | Some s =>
      let '(telemetry_now, s) := read_clock s in
      let batch :=
        if get_telemetry_downlink_interval_sec interval_env * 1000000000
           <=? nanos_since (last_telemetry_attempt s) telemetry_now
        then
          match run_telemetry_downlink_batch s with
          | None => None
          | Some s => let '(t, s) := read_clock s in Some (set_last_attempt t s)
          end
        else Some s in
      option_map scheduler_progress batch
  end.

(** The start of the thread. *)
Definition scheduler_start (unix : Z) (s : scheduler) : scheduler :=
  set_last_attempt (mk_time 0 0) (scheduler_progress (mission_state_load unix s)).

End Scheduler.

(** ** Autonomous actions *)
Section Autonomy.
Context {A : Type}.
(** The state the actions change. *)

Definition DEFAULT_AUTONOMY_INTERVAL_SEC : Z := 600.

Record autonomy_action_t := mk_action {
  interval_sec : Z;
  last_fired : timespec;
  action : A -> Z * A
}.

(** [value] is [atoi] of the environment variable, if it is set and not empty. *)
Definition get_autonomy_interval_sec (value : option Z) : Z :=
  match value with
  | None => DEFAULT_AUTONOMY_INTERVAL_SEC
  | Some v => if 0 <? v then v else DEFAULT_AUTONOMY_INTERVAL_SEC
  end.

Definition configure_actions (value : option Z) (actions : list autonomy_action_t)
    : list autonomy_action_t :=
  map (fun a => mk_action (get_autonomy_interval_sec value) (last_fired a) (action a)) actions.

(** The inner loop of one round at time [t]. *)
Fixpoint autonomy_round (t : timespec) (actions : list autonomy_action_t) (st : A)
    : list autonomy_action_t * A :=
  match actions with
  | [] => ([], st)
  | a :: actions =>
      let '(a, st) :=
        if interval_sec a * 1000000000 <=? nanos_since (last_fired a) t
        then
          let '(r, st) := action a st in
          (if r =? 0 then mk_action (interval_sec a) t (action a) else a, st)
        else (a, st) in
      let '(actions, st) := autonomy_round t actions st in
      (a :: actions, st)
  end.
End Autonomy.

(** ** Reading the state file back *)

Lemma scan_print_state p start cursor :
  0 <= p <= 4 -> 0 < start <= 9223372036854775807 -> 0 <= cursor < 18446744073709551616 ->
  scan_state (print_state p start cursor) = (3, p, start, cursor).
Proof.
  intros Hp Hs Hc. unfold scan_state, print_state. cbn [app].
  rewrite scan_print_dec by (done || lia). rewrite scan_print_space by (done || lia).
  rewrite scan_print_space by (done || lia). unfold as_int, to_i32, clamp_i64, as_u64.
  rewrite (proj2 (Z.ltb_ge _ _)) by lia. rewrite !Z.min_l, !Z.max_r by lia.
  unfold u64. rewrite !Z.mod_small by lia. by replace (p + 2147483648 - 2147483648) with p by lia.
Qed.

(** ** What the scheduler guarantees *)
Section Guarantees.
Context {L R : Type} `{Ipc mission_message L} `{Radio R}.
Context (clock : nat -> timespec) (encoded0 : list Z) (record0 : obc_telemetry_record_t)
  (behind : list Z).
Context (state_path : list Z) (ascent_env interval_env : option Z) (disk_io : nat -> save_io).
Implicit Types s : @scheduler L R.
Implicit Types m : @mission L R.

Definition state_text s : list Z :=
  print_state (phase_number (current_state s)) (mission_start_unix s) (telemetry_cursor s).

(** The state file holds what the scheduler knows. *)
Definition saved s : Prop := disk s !! state_path = Some (state_text s).

Definition storable s : Prop :=
  0 < mission_start_unix s <= 9223372036854775807 /\ 0 <= telemetry_cursor s < 18446744073709551616.

Lemma phase_of_number p : phase_of (phase_number p) = p.
Proof. by destruct p. Qed.

Lemma load_saved unix s s0 :
  saved s -> storable s -> disk s0 = disk s ->
  let s' := mission_state_load clock state_path disk_io unix s0 in
  current_state s' = current_state s /\ mission_start_unix s' = mission_start_unix s
  /\ telemetry_cursor s' = telemetry_cursor s /\ disk s' = disk s0 /\ retry_count s' = retry_count s0.
Proof.
  intros Hsave [Hs Hc] Hd. unfold mission_state_load. rewrite Hd, Hsave. unfold state_text.
  assert (0 <= phase_number (current_state s) <= 4) as Hp by (destruct (current_state s); cbn; lia).
  rewrite scan_print_state by done. cbn [Z.eqb orb Pos.eqb].
  rewrite !(proj2 (Z.leb_le _ _)), (proj2 (Z.ltb_lt _ _)) by lia. cbn [andb].
  rewrite phase_of_number. case_bool_decide; cbn; done.
Qed.

(** What a loss of power during a save leaves on the disk. *)
Inductive crash (text : list Z) (d : files) : files -> Prop :=
  | crash_before : crash text d d
  | crash_writing n : crash text d (<[tmp_path state_path := prefix_of n text]> d)
  | crash_after : crash text d (write_state state_path save_io_ok text d).


(** The results of [fprintf], [fflush], [fsync] and [fclose] are not looked at: on a full
    disk the save renames an empty file over the state, and the next start begins the
    mission anew. *)
Lemma full_disk_loses_state unix s s0 :
  state_path <> tmp_path state_path -> disk_io (saves s) = mk_save_io true (Some 0) true ->
  disk s0 = disk (mission_state_save state_path disk_io s) ->
  let s' := mission_state_load clock state_path disk_io unix s0 in
  current_state s' = MISSION_WAITING_FOR_ASCENT /\ mission_start_unix s' = unix
  /\ telemetry_cursor s' = 0.
Proof.
  intros Hne Hio Hd. unfold mission_state_save in Hd. rewrite Hio in Hd. cbn [s_open negb] in Hd.
  unfold mission_state_load. rewrite Hd. cbn [disk set_disk]. unfold write_state.
  cbn [s_limit s_rename]. rewrite lookup_insert_eq, lookup_insert_eq, prefix_of_0.
  cbn. unfold mission_state_save. by case_if as E.
Qed.

(** *** The phases *)

Inductive phase_edge : mission_state_t -> mission_state_t -> Prop :=
  | edge_ascent : phase_edge MISSION_WAITING_FOR_ASCENT MISSION_TAKING_PHOTO
  | edge_photo : phase_edge MISSION_TAKING_PHOTO MISSION_COMPRESSING
  | edge_compressed : phase_edge MISSION_COMPRESSING MISSION_DOWNLINKING
  | edge_done : phase_edge MISSION_DOWNLINKING MISSION_COOLDOWN
  | edge_no_photo : phase_edge MISSION_TAKING_PHOTO MISSION_COOLDOWN
  | edge_no_compression : phase_edge MISSION_COMPRESSING MISSION_COOLDOWN
  | edge_next : phase_edge MISSION_COOLDOWN MISSION_TAKING_PHOTO.

Definition payload_phase (p : mission_state_t) : bool :=
  match p with
  | MISSION_TAKING_PHOTO | MISSION_COMPRESSING | MISSION_DOWNLINKING => true
  | _ => false
  end.

(** Which watches are running. *)
Definition flags m : bool * bool * bool :=
  (active (Health.scheduler_watch (watches m)), active (Health.payload_watch (watches m)),
   active (Health.autonomy_watch (watches m))).

Definition sched_inv s : Prop :=
  saved s /\ 0 <= retry_count s < STEP_RETRY_LIMIT /\ flags (role s) = (true, false, true).

Lemma active_touch t w : active (obc_progress_touch t w) = active w.
Proof. unfold obc_progress_touch. by destruct (active w) eqn:E. Qed.

Lemma flags_progress m : flags (payload_progress clock m) = flags m.
Proof. unfold flags, payload_progress. cbn. by rewrite active_touch. Qed.

Lemma compress_loop_flags answers deadline job m r m' :
  compress_loop clock answers deadline job m = Some (r, m') -> flags m' = flags m.
Proof.
  revert m. induction answers as [|a answers IH]; intros m; cbn [compress_loop]; [done|].
  destruct a as [| |src x]; [by intros [= <- <-]|by intros ->%IH|].
  destruct x as [x|x|x|]; try (by intros ->%IH).
  case_if as E; [by intros ->%IH|]. case_if as E1; intros [= <- <-]; by rewrite flags_progress.
Qed.

Lemma photo_loop_flags answers deadline total m r m' :
  photo_loop clock behind answers deadline total m = Some (r, m') -> flags m' = flags m.
Proof.
  revert total m. induction answers as [|a answers IH]; intros total m; cbn [photo_loop]; [done|].
  destruct a as [| |src x]; [by intros [= <- <-]|by intros ->%IH|].
  destruct x as [x|x|x|]; try (by intros ->%IH).
  case_if as E1; [by intros [= <- <-]|]. case_if as E2; [by intros [= <- <-]|].
  case_if as E3; [by intros [= <- <-]; rewrite flags_progress|].
  intros ->%IH. by rewrite flags_progress.
Qed.

Lemma telemetry_loop_flags answers deadline offset next0 eol0 c m r m' :
  telemetry_loop clock record0 answers deadline offset next0 eol0 c m = Some (r, m') ->
  flags m' = flags m.
Proof.
  revert c m. induction answers as [|a answers IH]; intros c m; cbn [telemetry_loop].
  { case_if as E; [by intros [= <- <-]|done]. }
  case_if as E; [by intros [= <- <-]|].
  destruct a as [| |src x]; [by intros [= <- <-]|by intros ->%IH|].
  destruct x as [x|x|x|]; try (by intros ->%IH).
  case_if as E1; [by intros ->%IH|].
  case_if as E2; [by case_if as E3; intros [= <- <-]|]. case_if as E3; [by intros [= <- <-]|].
  destruct (store_chunk c offset x); [|by intros [= <- <-]].
  case_if as E4; [case_if as E5; [by intros [= <- <-]|by intros ->%IH]|].
  unfold commit_record. case_if as E5; [by intros [= <- <-]|].
  destruct (obc_telemetry_decode _ _ _) as [[] d]; try (by intros [= <- <-]).
  destruct (radio_send _ _) as [q rad].
  case_if as E6; intros [= <- <-]; [done|]. by rewrite flags_progress.
Qed.

Lemma record_flags offset n e m r m' :
  payload_commander_downlink_telemetry_record clock encoded0 record0 offset n e m = Some (r, m') ->
  flags m' = flags m.
Proof.
  unfold payload_commander_downlink_telemetry_record, send.
  destruct n; [|by intros [= <- <-]]. destruct e; [|by intros [= <- <-]].
  destruct (ipc_send _ _ _) as [q l]. case_if as E; [by intros [= <- <-]|].
  by intros ->%telemetry_loop_flags.
Qed.

Lemma batch_loop_flags k cursor sent m r m' :
  batch_loop clock encoded0 record0 k cursor sent m = Some (r, m') -> flags m' = flags m.
Proof.
  revert cursor sent m. induction k as [|k IH]; intros cursor sent m; cbn [batch_loop];
    [by intros [= <- <-]|].
  destruct (payload_commander_downlink_telemetry_record _ _ _ _ _ _ _) as [[[[res nxt] eol] m1]|] eqn:E; [|done].
  apply record_flags in E. rewrite <- E.
  case_if as E1; [by intros [= <- <-]|]. case_if as E2; [by case_if as E3; intros [= <- <-]|].
  case_if as E3; [by intros [= <- <-]|]. by intros ->%IH.
Qed.

(** *** One round *)
Context (Hdisk : forall n, disk_io n = save_io_ok).

(** The running watch after a payload operation that kept the flags it started with. *)
Definition payload_flags m : Prop := flags m = (false, true, true).

Lemma payload_begin_flags s :
  flags (role s) = (true, false, true) -> payload_flags (role (payload_begin clock s)).
Proof. unfold payload_flags, flags. cbn. congruence. Qed.

Lemma payload_end_flags s : payload_flags (role s) -> flags (role (payload_end clock s)) = (true, false, true).
Proof. unfold payload_flags, flags. cbn. congruence. Qed.

Lemma save_inv s :
  0 <= retry_count s < STEP_RETRY_LIMIT -> flags (role s) = (true, false, true) ->
  sched_inv (mission_state_save state_path disk_io s).
Proof.
  intros Hr Hf. unfold mission_state_save. rewrite Hdisk. cbn [s_open save_io_ok negb].
  split; [|done]. unfold saved, write_state. cbn [disk set_disk s_limit s_rename save_io_ok].
  rewrite lookup_insert_eq, lookup_insert_eq. done.
Qed.

Lemma set_state_inv p s :
  flags (role s) = (true, false, true) -> sched_inv (set_state state_path disk_io p s).
Proof. intros Hf. apply save_inv; [cbn; unfold STEP_RETRY_LIMIT; lia|done]. Qed.

Lemma save_fields s :
  let s' := mission_state_save state_path disk_io s in
  current_state s' = current_state s /\ retry_count s' = retry_count s
  /\ mission_start_unix s' = mission_start_unix s /\ telemetry_cursor s' = telemetry_cursor s.
Proof. unfold mission_state_save. by destruct (negb _). Qed.

(** What one step of the phases may do. *)
Definition phase_moves s s' : Prop :=
  (phase_edge (current_state s) (current_state s') /\ retry_count s' = 0)
  \/ (current_state s' = current_state s
      /\ retry_count s' = retry_count s + (if payload_phase (current_state s) then 1 else 0)).

Lemma step_result_moves result success s s0 p :
  sched_inv s0 -> saved s -> retry_count s = retry_count s0 -> current_state s = current_state s0 ->
  flags (role s) = (true, false, true) -> payload_phase (current_state s0) = true ->
  success = set_state state_path disk_io p \/ (success = enter_cooldown clock state_path disk_io /\ p = MISSION_COOLDOWN) ->
  phase_edge (current_state s0) p ->
  let s' := step_result clock state_path disk_io result success s in
  sched_inv s' /\ phase_moves s0 s'.
Proof.
  intros (Hsv & Hr & _) Hs Hre Hcs Hf Hp Hsucc Hedge. unfold step_result.
  assert (forall s1 q, flags (role s1) = (true, false, true) ->
    let s2 := set_state state_path disk_io q s1 in
    sched_inv s2 /\ current_state s2 = q /\ retry_count s2 = 0) as Hset.
  { intros s1 q Hf1. cbv zeta. split; [by apply set_state_inv|]. unfold set_state.
    destruct (save_fields (set_phase q s1)) as (-> & -> & _). done. }
  assert (forall s1, flags (role s1) = (true, false, true) ->
    let s2 := enter_cooldown clock state_path disk_io s1 in
    sched_inv s2 /\ current_state s2 = MISSION_COOLDOWN /\ retry_count s2 = 0) as Hcool.
  { intros s1 Hf1. unfold enter_cooldown, read_clock. apply Hset. exact Hf1. }
  case_if as E.
  - destruct Hsucc as [-> | [-> ->]].
    + destruct (Hset s p Hf) as (? & Hc & ?). split; [done|]. left. by rewrite Hc.
    + destruct (Hcool s Hf) as (? & Hc & ?). split; [done|]. left. by rewrite Hc.
  - case_if as E1; bool_facts.
    + destruct (Hcool (set_retry (retry_count s + 1) s) Hf) as (? & Hc & ?). split; [done|]. left.
      rewrite Hc. split; [|done]. destruct (current_state s0); try done; constructor.
    + cbn [retry_count set_retry] in E1. split.
      * split; [exact Hs|]. split; [cbn; lia|exact Hf].
      * right. cbn [current_state retry_count set_retry]. split; [done|]. rewrite Hp. lia.
Qed.

Lemma phase_step_moves t unix capture s s' :
  sched_inv s ->
  phase_step clock behind state_path ascent_env disk_io t unix capture s = Some s' ->
  sched_inv s' /\ phase_moves s s'.
Proof.
  intros Hinv. pose proof Hinv as (Hsv & Hr & Hf).
  assert (forall m, flags m = flags (role (payload_begin clock s)) ->
    flags (role (payload_end clock (set_role m (payload_begin clock s)))) = (true, false, true)) as Hend.
  { intros m Hm. apply payload_end_flags. cbn [role set_role]. unfold payload_flags. rewrite Hm.
    by apply payload_begin_flags. }
  assert (forall p, flags (role s) = (true, false, true) -> phase_edge (current_state s) p ->
    let s2 := set_state state_path disk_io p s in sched_inv s2 /\ phase_moves s s2) as Hset.
  { intros p _ Hedge. cbv zeta. split; [by apply set_state_inv|]. left. unfold set_state.
    destruct (save_fields (set_phase p s)) as (-> & -> & _). done. }
  assert (payload_phase (current_state s) = false -> sched_inv s /\ phase_moves s s) as Hstay.
  { intros Hp. split; [done|]. right. split; [done|]. rewrite Hp. lia. }
  unfold phase_step. destruct (current_state s) eqn:Ecs.
  - case_if as E; intros [= <-]; [apply Hset; [done|constructor]|by apply Hstay].
  - unfold payload_commander_take_photo.
    case_if as E; intros [= <-]; (eapply (step_result_moves _ _ _ _ MISSION_COMPRESSING);
      [done|done|done|done| |by rewrite Ecs|by left|rewrite Ecs; constructor]); apply Hend.
    + done.
    + apply flags_progress.
  - destruct (payload_commander_compress_photo _ _ _ _) as [[result m]|] eqn:E; [|done]. intros [= <-].
    eapply (step_result_moves _ _ _ _ MISSION_DOWNLINKING);
      [done|done|done|done| |by rewrite Ecs|by left|rewrite Ecs; constructor]. apply Hend.
    unfold payload_commander_compress_photo, send in E. destruct (ipc_send _ _ _) as [q l].
    by apply compress_loop_flags in E.
  - destruct (payload_commander_downlink_photo _ _ _ _) as [[result m]|] eqn:E; [|done]. intros [= <-].
    eapply (step_result_moves _ _ _ _ MISSION_COOLDOWN);
      [done|done|done|done| |by rewrite Ecs|by right|rewrite Ecs; constructor]. apply Hend.
    unfold payload_commander_downlink_photo, send in E. destruct (ipc_send _ _ _) as [q l].
    destruct (photo_loop _ _ _ _ _ _) as [[[r|total] m1]|] eqn:Ep; [| |done];
      apply photo_loop_flags in Ep.
    + by injection E as <- <-.
    + case_if in E as E1; [by injection E as <- <-|]. destruct (radio_send_ssdv _ _) as [q' rad].
      case_if in E as E2; injection E as <- <-; [done|]. by rewrite flags_progress.
  - case_if as E; intros [= <-]; [apply Hset; [done|constructor]|by apply Hstay].
Qed.

Lemma batch_keeps s s' :
  sched_inv s ->
  run_telemetry_downlink_batch clock encoded0 record0 state_path disk_io s = Some s' ->
  sched_inv s' /\ current_state s' = current_state s /\ retry_count s' = retry_count s.
Proof.
  intros (Hsv & Hr & Hf). unfold run_telemetry_downlink_batch.
  destruct (payload_commander_downlink_telemetry_batch _ _ _ _ _ _ _ _) as [[[[[res c] n] eol] m]|] eqn:E;
    [|done]. intros [= <-].
  assert (flags m = flags (role (payload_begin clock s))) as Hm.
  { unfold payload_commander_downlink_telemetry_batch in E. case_if in E as E1.
    - by injection E as <- <- <- <- <-.
    - by apply batch_loop_flags in E. }
  set (s1 := payload_end clock (set_cursor c (set_role m (payload_begin clock s)))).
  assert (flags (role s1) = (true, false, true)) as Hf1.
  { apply payload_end_flags. cbn [role set_cursor set_role]. unfold payload_flags. rewrite Hm.
    by apply payload_begin_flags. }
  destruct (c =? telemetry_cursor s) eqn:Ec; cbn [negb]; bool_facts.
  - split; [|done]. split; [|done]. unfold saved, state_text. cbn. rewrite Ec. exact Hsv.
  - split; [by apply save_inv|]. destruct (save_fields s1) as (-> & -> & _). done.
Qed.

End Guarantees.

(** ** Examples *)

Definition sample_path : list Z := [47; 115].

Definition sample_scheduler (p : mission_state_t) (cursor : Z) : @scheduler (post mission_message) system :=
  let m := sample_mission [] in
  mk_scheduler p 1700000000 0 (mk_time 0 0) cursor (mk_time 1000 0)
    (<[sample_path := print_state (phase_number p) 1700000000 cursor]> ∅) 0%nat
    (set_watches (Health.mk_watches (mk_progress (mk_time 0 0) 3000 true) sample_watch
                    (mk_progress (mk_time 0 0) 3000 true)) m).

Lemma sample_saved p cursor : saved sample_path (sample_scheduler p cursor).
Proof. unfold saved. apply lookup_insert_eq. Qed.

Lemma sample_storable p : storable (sample_scheduler p 21).
Proof. unfold storable. cbn. lia. Qed.


