(* ===== verification/Supervisor.v ===== *)
(** The supervisor of the on-board computer: [apps/obc/supervisor/src/processes.c] and
    [supervisor.c].  It starts the roles as child processes, reaps and restarts those that
    die, restarts FDIR when it falls silent and carries out FDIR's requests.

    Each system call asks the kernel for its next answer ([waits], [spawns], [kills],
    [clock]); the effects of the calls on the children are logged.  An operation on
    one process runs under that process's lifecycle lock, so the interleavings of the
    heartbeat thread, the shutdown thread and the main thread are sequences of these
    operations ([step]). *)

From S2P Require Import Prelude ObcProgress ObcIpc.

Definition HEARTBEAT_TIMEOUT_SEC : Z := 5.
Definition SHUTDOWN_GRACE_SEC : Z := 3.
Definition MAX_CRASH_RESTARTS : Z := 5.
Definition SUPERVISOR_CMD_SHUTDOWN : Z := 1.
Definition SUPERVISOR_CMD_RESTART : Z := 2.

(** [lifecycle_lock] is the granularity of the steps. *)
Record obc_process_t := mk_process {
  exe_name : list Z;
  resolved_path : list Z;
  pid : Z;
  role : Z;
  restart_count : Z
}.

(** "obc_" followed by the name. *)
Definition obc_exe (name : list Z) : list Z := [111; 98; 99; 95] ++ name.

Definition processes0 : list obc_process_t :=
  [ mk_process (obc_exe [102; 100; 105; 114]) [] (-1) ROLE_FDIR 0;
    mk_process (obc_exe [99; 111; 109; 109; 97; 110; 100; 115]) [] (-1) ROLE_COMMANDS 0;
    mk_process (obc_exe [99; 111; 109; 112; 117; 116; 101]) [] (-1) ROLE_COMPUTE 0;
    mk_process (obc_exe [100; 97; 116; 97]) [] (-1) ROLE_DATA 0;
    mk_process (obc_exe [109; 105; 115; 115; 105; 111; 110]) [] (-1) ROLE_MISSION 0;
    mk_process (obc_exe [116; 105; 109; 101]) [] (-1) ROLE_TIME 0 ].

(** What [waitpid(pid, &status, WNOHANG)] finds. *)
Inductive wait_answer := W_alive | W_dead | W_error.

(** What the calls did to the children of the supervisor. *)
Inductive os_event :=
  | Spawned (role pid : Z)
  | Terminated (role pid : Z)    (* SIGTERM *)
  | Killed (role pid : Z)        (* SIGKILL *)
  | Reaped (role pid : Z).

Definition PATH_MAX : Z := 4096.

(** [dir] is the directory of the supervisor's own binary, if it can be read. *)
Definition obc_resolve_sibling (dir : option (list Z)) (sibling_name : list Z) (out_size : Z)
    : option (list Z) :=
  match dir with
  | None => None
  | Some dir =>
      let path := dir ++ [47] ++ sibling_name in
      if out_size <=? len path then None else Some path
  end.

Section Supervisor.
Context (clock : nat -> timespec) (waits : nat -> wait_answer) (spawns : nat -> option Z)
  (kills : nat -> bool).

Record supervisor := mk_supervisor {
  processes : list obc_process_t;
  last_heartbeat : list timespec;      (* ROLE_COUNT entries *)
  shutting_down : bool;
  clock_reads : nat;
  wait_calls : nat;
  spawn_calls : nat;
  kill_calls : nat;
  log : list os_event
}.

Definition set_processes ps s := mk_supervisor ps (last_heartbeat s) (shutting_down s) (clock_reads s)
  (wait_calls s) (spawn_calls s) (kill_calls s) (log s).
Definition set_heartbeats h s := mk_supervisor (processes s) h (shutting_down s) (clock_reads s)
  (wait_calls s) (spawn_calls s) (kill_calls s) (log s).
Definition set_shutting_down b s := mk_supervisor (processes s) (last_heartbeat s) b (clock_reads s)
  (wait_calls s) (spawn_calls s) (kill_calls s) (log s).
Definition record e s := mk_supervisor (processes s) (last_heartbeat s) (shutting_down s)
  (clock_reads s) (wait_calls s) (spawn_calls s) (kill_calls s) (log s ++ [e]).

Definition read_clock s : timespec * supervisor :=
  (clock (clock_reads s),
   mk_supervisor (processes s) (last_heartbeat s) (shutting_down s) (S (clock_reads s))
     (wait_calls s) (spawn_calls s) (kill_calls s) (log s)).
Definition waitpid_nohang s : wait_answer * supervisor :=
  (waits (wait_calls s),
   mk_supervisor (processes s) (last_heartbeat s) (shutting_down s) (clock_reads s)
     (S (wait_calls s)) (spawn_calls s) (kill_calls s) (log s)).
Definition posix_spawn s : option Z * supervisor :=
  (spawns (spawn_calls s),
   mk_supervisor (processes s) (last_heartbeat s) (shutting_down s) (clock_reads s)
     (wait_calls s) (S (spawn_calls s)) (kill_calls s) (log s)).
(** [false]: [kill] failed, and not because the process is gone. *)
Definition kill_sigterm s : bool * supervisor :=
  (kills (kill_calls s),
   mk_supervisor (processes s) (last_heartbeat s) (shutting_down s) (clock_reads s)
     (wait_calls s) (spawn_calls s) (S (kill_calls s)) (log s)).

(** [proc->pid = p] for the process in slot [i]. *)
Definition set_pid (i : nat) (p : Z) s : supervisor :=
  set_processes (alter (fun pr => mk_process (exe_name pr) (resolved_path pr) p (role pr)
                                   (restart_count pr)) i (processes s)) s.
Definition set_restart_count (i : nat) (n : Z) s : supervisor :=
  set_processes (alter (fun pr => mk_process (exe_name pr) (resolved_path pr) (pid pr) (role pr) n)
                   i (processes s)) s.
Definition set_path (i : nat) (p : list Z) s : supervisor :=
  set_processes (alter (fun pr => mk_process (exe_name pr) p (pid pr) (role pr) (restart_count pr))
                   i (processes s)) s.

Definition supervisor_mark_alive (r : Z) s : supervisor :=
  if negb (role_is_valid r) then s
  else let '(t, s) := read_clock s in
       set_heartbeats (<[Z.to_nat r := t]> (last_heartbeat s)) s.

(** [elapsed > HEARTBEAT_TIMEOUT_SEC], compared in nanoseconds. *)
Definition supervisor_is_frozen (r : Z) s : bool * supervisor :=
  let '(now, s) := read_clock s in
  let seen := nth (Z.to_nat r) (last_heartbeat s) (mk_time 0 0) in
  (HEARTBEAT_TIMEOUT_SEC * 1000000000
     <? (tv_sec now - tv_sec seen) * 1000000000 + (tv_nsec now - tv_nsec seen), s).

(** The process in slot [i], with the pid [p], was waited for. *)
Definition forget (i : nat) (r p : Z) s : supervisor := set_pid i (-1) (record (Reaped r p) s).

(** The loop of [supervisor_shutdown_process_locked]; [None] when [fuel] polls are not
    enough. *)
Fixpoint shutdown_loop (fuel : nat) (i : nat) (r p : Z) (deadline : timespec) s
    : option (Z * supervisor) :=
  match fuel with
  | O => None
  | S fuel =>
      let '(w, s) := waitpid_nohang s in
      match w with
      | W_dead => Some (0, forget i r p s)
      | W_error => Some (-1, s)
      | W_alive =>
          let '(now, s) := read_clock s in
          if (tv_sec deadline <? tv_sec now)
             || ((tv_sec now =? tv_sec deadline) && (tv_nsec deadline <? tv_nsec now))
          then Some (0, forget i r p (record (Killed r p) s))
          else shutdown_loop fuel i r p deadline s
      end
  end.

Definition supervisor_shutdown_process_locked (fuel : nat) (i : nat) (proc : obc_process_t) s
    : option (Z * supervisor) :=
  if pid proc <=? 0 then Some (0, s)
  else
    let '(ok, s) := kill_sigterm s in
    if negb ok then Some (-1, s)
    else
      let s := record (Terminated (role proc) (pid proc)) s in
      let '(t, s) := read_clock s in
      let deadline := mk_time (tv_sec t + SHUTDOWN_GRACE_SEC) (tv_nsec t) in
      shutdown_loop fuel i (role proc) (pid proc) deadline s.

(** A process pointer is [None] (NULL) or a slot of the table. *)
Definition supervisor_shutdown_process (fuel : nat) (slot : option nat) s : option (Z * supervisor) :=
  match slot with
  | None => Some (-1, s)
  | Some i =>
      match processes s !! i with
      | None => None
      | Some proc => supervisor_shutdown_process_locked fuel i proc s
      end
  end.

Definition supervisor_restart_process_locked (fuel : nat) (i : nat) (proc : obc_process_t) s
    : option (Z * supervisor) :=
  match supervisor_shutdown_process_locked fuel i proc s with
  | None => None
  | Some (r, s) =>
      if negb (r =? 0) then Some (-1, s)
      else
        let '(rc, s) := posix_spawn s in
        match rc with
        | None => Some (-1, s)
        | Some p =>
            let s := set_pid i p (record (Spawned (role proc) p) s) in
            Some (0, supervisor_mark_alive (role proc) s)
        end
  end.

Definition supervisor_restart_process (fuel : nat) (slot : option nat) s : option (Z * supervisor) :=
  match slot with
  | None => Some (-1, s)
  | Some i =>
      match processes s !! i with
      | None => None
      | Some proc => supervisor_restart_process_locked fuel i proc s
      end
  end.

Fixpoint find_role (r : Z) (ps : list obc_process_t) : option nat :=
  match ps with
  | [] => None
  | p :: ps => if role p =? r then Some O else option_map S (find_role r ps)
  end.

Definition supervisor_find_process (r : Z) s : option nat := find_role r (processes s).

(** The body of the loop of [supervisor_reap]. *)
Definition reap_one (fuel : nat) (i : nat) s : option supervisor :=
  match processes s !! i with
  | None => None
  | Some proc =>
      if pid proc <=? 0 then Some s
      else
        let '(w, s) := waitpid_nohang s in
        match w with
        | W_alive | W_error => Some s
        | W_dead =>
            let s := forget i (role proc) (pid proc) s in
            if shutting_down s then Some s
            else
              let s := set_restart_count i (restart_count proc + 1) s in
              if MAX_CRASH_RESTARTS <? restart_count proc + 1 then Some s
              else
                match processes s !! i with
                | None => None
                | Some proc =>
                    option_map snd (supervisor_restart_process_locked fuel i proc s)
                end
        end
  end.

Fixpoint for_slots (f : nat -> supervisor -> option supervisor) (i n : nat) s : option supervisor :=
  match n with
  | O => Some s
  | S n => match f i s with None => None | Some s => for_slots f (S i) n s end
  end.

Definition supervisor_reap (fuel : nat) s : option supervisor :=
  for_slots (reap_one fuel) 0 (length (processes s)) s.

Definition check_one (fuel : nat) (i : nat) s : option supervisor :=
  match processes s !! i with
  | None => None
  | Some proc =>
      if negb (role proc =? ROLE_FDIR) then Some s
      else if pid proc <=? 0 then Some s
      else
        let '(frozen, s) := supervisor_is_frozen (role proc) s in
        if frozen then option_map snd (supervisor_restart_process fuel (Some i) s) else Some s
  end.

Definition supervisor_check_frozen (fuel : nat) s : option supervisor :=
  if shutting_down s then Some s else for_slots (check_one fuel) 0 (length (processes s)) s.

Definition supervisor_heartbeat (fuel : nat) s : option supervisor :=
  match supervisor_reap fuel s with
  | None => None
  | Some s => supervisor_check_frozen fuel s
  end.

Definition supervisor_shutdown_all (fuel : nat) s : option supervisor :=
  for_slots (fun i s => option_map snd (supervisor_shutdown_process fuel (Some i) s)) 0
    (length (processes s)) (set_shutting_down true s).

(** The result and the table with the paths filled in. *)
Fixpoint resolve_paths (dir : option (list Z)) (i n : nat) s : Z * supervisor :=
  match n with
  | O => (0, s)
  | S n =>
      match processes s !! i with
      | None => (0, s)
      | Some proc =>
          match obc_resolve_sibling dir (exe_name proc) PATH_MAX with
          | None => (-1, s)
          | Some p => resolve_paths dir (S i) n (set_path i p s)
          end
      end
  end.

Definition supervisor_resolve_paths (dir : option (list Z)) s : Z * supervisor :=
  resolve_paths dir 0 (length (processes s)) s.

Fixpoint spawn_all (i n : nat) s : Z * supervisor :=
  match n with
  | O => (0, s)
  | S n =>
      match processes s !! i with
      | None => (0, s)
      | Some proc =>
          let '(rc, s) := posix_spawn s in
          match rc with
          | None => (-1, s)
          | Some p =>
              spawn_all (S i) n
                (supervisor_mark_alive (role proc) (set_pid i p (record (Spawned (role proc) p) s)))
          end
      end
  end.

Definition start_all_processes (dir : option (list Z)) s : Z * supervisor :=
  let '(r, s) := supervisor_resolve_paths dir s in
  if negb (r =? 0) then (-1, s) else spawn_all 0 (length (processes s)) s.

(** One message of the shutdown thread: [length] is what [IPC_receive] returned, [cmd]
    and [req_role] are the bytes of the request. *)
Definition shutdown_message (fuel : nat) (length src cmd req_role : Z) s : option supervisor :=
  if length <? 0 then Some s
  else if length =? 0 then Some (supervisor_mark_alive src s)
  else if negb (length =? 2) then Some s
  else if negb (src =? ROLE_FDIR) then Some s
  else
    match supervisor_find_process req_role s with
    | None => Some s
    | Some i =>
        if cmd =? SUPERVISOR_CMD_SHUTDOWN
        then option_map snd (supervisor_shutdown_process fuel (Some i) s)
        else if cmd =? SUPERVISOR_CMD_RESTART
        then option_map snd (supervisor_restart_process fuel (Some i) s)
        else Some s
    end.

Definition supervisor0 : supervisor :=
  mk_supervisor processes0 (replicate (Z.to_nat ROLE_COUNT) (mk_time 0 0)) false 0 0 0 0 [].

(** *** Interleavings

    The threads meet between operations on single processes. *)
Inductive step : supervisor -> supervisor -> Prop :=
  | step_reap fuel i s s' : reap_one fuel i s = Some s' -> step s s'
  | step_check fuel i s s' : check_one fuel i s = Some s' -> step s s'
  | step_restart fuel i r s s' : supervisor_restart_process fuel (Some i) s = Some (r, s') -> step s s'
  | step_shutdown fuel i r s s' : supervisor_shutdown_process fuel (Some i) s = Some (r, s') -> step s s'
  | step_message fuel n src cmd rr s s' : shutdown_message fuel n src cmd rr s = Some s' -> step s s'
  | step_flag s : step s (set_shutting_down true s).

Inductive reachable : supervisor -> Prop :=
  | reachable_start dir r s : start_all_processes dir supervisor0 = (r, s) -> reachable s
  | reachable_step s s' : reachable s -> step s s' -> reachable s'.

End Supervisor.

(** ** One process per role *)

Definition live_step (r : Z) (acc : list Z) (e : os_event) : list Z :=
  match e with
  | Spawned r' p => if r' =? r then acc ++ [p] else acc
  | Reaped r' p => if r' =? r then filter (fun q => q <> p) acc else acc
  | _ => acc
  end.

(** The children of a role that were started and not yet waited for. *)
Definition live (r : Z) (log : list os_event) : list Z := fold_left (live_step r) log [].

Lemma live_snoc r log e : live r (log ++ [e]) = live_step r (live r log) e.
Proof. unfold live. by rewrite fold_left_app. Qed.

(** The child of a role is the one in its slot of the table, and there is no other. *)
Definition one_per_role (ps : list obc_process_t) (log : list os_event) : Prop :=
  NoDup (map role ps)
  /\ (forall i pr, ps !! i = Some pr -> live (role pr) log = if 0 <? pid pr then [pid pr] else [])
  /\ (forall r, ~ In r (map role ps) -> live r log = []).

Section Invariant.
Context (clock : nat -> timespec) (waits : nat -> wait_answer) (spawns : nat -> option Z)
  (kills : nat -> bool).
(** [posix_spawn] gives process ids. *)
Context (Hspawns : forall n p, spawns n = Some p -> 0 < p).

Definition inv (s : supervisor) : Prop := one_per_role (processes s) (log s).

Lemma roles_alter f i ps :
  (forall pr, role (f pr) = role pr) -> map role (alter f i ps) = map role ps.
Proof.
  intros Hf. apply list_eq. intros j. change (map role) with (fmap (M := list) role).
  rewrite !list_lookup_fmap. destruct (decide (i = j)) as [<-|Hne].
  - rewrite list_lookup_alter_eq. destruct (ps !! i); cbn; [by rewrite Hf|done].
  - by rewrite list_lookup_alter_ne.
Qed.

Lemma role_slot ps i j pr pr' :
  NoDup (map role ps) -> ps !! i = Some pr -> ps !! j = Some pr' -> role pr = role pr' -> i = j.
Proof.
  intros Hnd Hi Hj Hr. eapply NoDup_lookup; [exact Hnd| |].
  - change (map role) with (fmap (M := list) role). by rewrite list_lookup_fmap, Hi.
  - change (map role) with (fmap (M := list) role). by rewrite list_lookup_fmap, Hj, Hr.
Qed.

(** An event of one role, together with the new pid of its slot. *)
Lemma one_per_role_event ps log i pr p e n path :
  one_per_role ps log -> ps !! i = Some pr ->
  (forall r, r <> role pr -> live_step r (live r log) e = live r log) ->
  live_step (role pr) (live (role pr) log) e = (if 0 <? p then [p] else []) ->
  one_per_role (alter (fun q => mk_process (exe_name q) (path q) p (role q) (n q)) i ps) (log ++ [e]).
Proof.
  intros (Hnd & Hlive & Hout) Hi Hother Hthis.
  assert (map role (alter (fun q => mk_process (exe_name q) (path q) p (role q) (n q)) i ps) = map role ps) as Hr
    by (by apply roles_alter).
  split; [by rewrite Hr|]. rewrite Hr. split.
  - intros j q Hj. rewrite live_snoc. destruct (decide (i = j)) as [<-|Hne].
    + rewrite list_lookup_alter_eq, Hi in Hj. injection Hj as <-. exact Hthis.
    + rewrite list_lookup_alter_ne in Hj by done. rewrite Hother; [by apply (Hlive j)|].
      intros Heq. apply Hne. symmetry. by eapply role_slot.
  - intros r Hin. rewrite live_snoc, Hother; [by apply Hout|]. intros ->. apply Hin.
    apply in_map. apply list_elem_of_In. by eapply list_elem_of_lookup_2.
Qed.

Lemma one_per_role_silent ps log e :
  one_per_role ps log -> (forall r l, live_step r l e = l) -> one_per_role ps (log ++ [e]).
Proof.
  intros (Hnd & Hlive & Hout) He. split; [done|].
  split; intros; rewrite live_snoc, He; eauto.
Qed.

Lemma forget_inv i pr s :
  inv s -> processes s !! i = Some pr -> 0 < pid pr -> inv (forget i (role pr) (pid pr) s).
Proof.
  intros Hinv Hi Hp. unfold inv, forget. cbn [processes log set_pid set_processes record].
  apply (one_per_role_event _ _ _ pr (-1) (Reaped (role pr) (pid pr)) restart_count resolved_path); [done..| |].
  - intros r Hr. cbn [live_step]. by rewrite (proj2 (Z.eqb_neq _ _)).
  - destruct Hinv as (_ & Hlive & _). rewrite (Hlive i) by done. cbn [live_step].
    rewrite Z.eqb_refl, (proj2 (Z.ltb_lt _ _)) by done. cbn. rewrite decide_False; [done|]. by intros [].
Qed.

Lemma spawn_inv i pr p s :
  inv s -> processes s !! i = Some pr -> pid pr <= 0 -> 0 < p ->
  inv (set_pid i p (record (Spawned (role pr) p) s)).
Proof.
  intros Hinv Hi Hp Hpos. unfold inv. cbn [processes log set_pid set_processes record].
  apply (one_per_role_event _ _ _ pr p (Spawned (role pr) p) restart_count resolved_path); [done..| |].
  - intros r Hr. cbn [live_step]. by rewrite (proj2 (Z.eqb_neq _ _)).
  - destruct Hinv as (_ & Hlive & _). rewrite (Hlive i) by done. cbn [live_step].
    rewrite Z.eqb_refl, (proj2 (Z.ltb_ge _ _)), (proj2 (Z.ltb_lt 0 p)) by lia. done.
Qed.

Lemma forget_slot i r p pr s :
  processes s !! i = Some pr ->
  exists pr', processes (forget i r p s) !! i = Some pr' /\ pid pr' = -1 /\ role pr' = role pr
    /\ restart_count pr' = restart_count pr.
Proof.
  intros Hi. unfold forget. cbn [processes set_pid set_processes record].
  rewrite list_lookup_alter_eq, Hi. by eexists.
Qed.

(** A process that was shut down is gone from the table. *)
Definition gone (i : nat) (pr : obc_process_t) (s : supervisor) : Prop :=
  exists pr', processes s !! i = Some pr' /\ pid pr' <= 0 /\ role pr' = role pr.

Lemma shutdown_loop_inv fuel i pr deadline s r s' :
  inv s -> processes s !! i = Some pr -> 0 < pid pr ->
  shutdown_loop clock waits fuel i (role pr) (pid pr) deadline s = Some (r, s') ->
  inv s' /\ (r = 0 -> gone i pr s') /\ shutting_down s' = shutting_down s.
Proof.
  revert s. induction fuel as [|fuel IH]; intros s Hinv Hi Hp; [done|].
  cbn [shutdown_loop waitpid_nohang]. destruct (waits (wait_calls s)).
  - cbn [read_clock]. case_if as E.
    + intros [= <- <-]. set (s1 := record _ _).
      assert (inv s1) as H1 by (by apply one_per_role_silent).
      split; [by apply forget_inv|]. split; [|done]. intros _.
      destruct (forget_slot i (role pr) (pid pr) pr s1 Hi) as (pr' & Hl & Hpid & Hr & _).
      exists pr'. split; [done|]. split; [lia|done].
    + intros Hrun. apply IH in Hrun; done.
  - intros [= <- <-]. split; [by apply (forget_inv i pr)|]. split; [|done]. intros _.
    match goal with |- gone _ _ (forget _ _ _ ?s1) =>
      destruct (forget_slot i (role pr) (pid pr) pr s1 Hi) as (pr' & Hl & Hpid & Hr & _) end.
    exists pr'. split; [done|]. split; [lia|done].
  - intros [= <- <-]. split; [done|]. split; [done|done].
Qed.

Lemma shutdown_locked_inv fuel i pr s r s' :
  inv s -> processes s !! i = Some pr ->
  supervisor_shutdown_process_locked clock waits kills fuel i pr s = Some (r, s') ->
  inv s' /\ (r = 0 -> gone i pr s') /\ shutting_down s' = shutting_down s.
Proof.
  intros Hinv Hi. unfold supervisor_shutdown_process_locked. case_if as E; bool_facts.
  { intros [= <- <-]. split; [done|]. split; [|done]. intros _. by exists pr. }
  cbn [kill_sigterm]. case_if as E1; [by intros [= <- <-]|]. cbn [read_clock].
  intros Hrun. apply shutdown_loop_inv in Hrun; [exact Hrun| |done|lia].
  by apply one_per_role_silent.
Qed.

Lemma mark_alive_core r s :
  processes (supervisor_mark_alive clock r s) = processes s
  /\ log (supervisor_mark_alive clock r s) = log s
  /\ shutting_down (supervisor_mark_alive clock r s) = shutting_down s.
Proof. unfold supervisor_mark_alive. by case_if as E. Qed.

Lemma mark_alive_inv r s : inv s -> inv (supervisor_mark_alive clock r s).
Proof. unfold inv. by destruct (mark_alive_core r s) as (-> & -> & _). Qed.

Lemma restart_locked_inv fuel i pr s r s' :
  inv s -> processes s !! i = Some pr ->
  supervisor_restart_process_locked clock waits spawns kills fuel i pr s = Some (r, s') -> inv s'.
Proof.
  intros Hinv Hi. unfold supervisor_restart_process_locked.
  destruct (supervisor_shutdown_process_locked _ _ _ _ _ _ _) as [[r1 s1]|] eqn:E; [|done].
  apply shutdown_locked_inv in E as (Hinv1 & Hgone & _); [|done|done].
  case_if as E1; [by intros [= <- <-]|]. bool_facts. cbn [posix_spawn].
  destruct (spawns (spawn_calls s1)) as [p|] eqn:Es; intros [= <- <-]; [|exact Hinv1].
  destruct (Hgone E1) as (pr' & Hl & Hpid & Hr). apply mark_alive_inv. rewrite <- Hr.
  by apply (spawn_inv i pr'); [exact Hinv1|exact Hl|exact Hpid|eapply Hspawns].
Qed.

Lemma restart_inv fuel i s r s' :
  inv s -> supervisor_restart_process clock waits spawns kills fuel (Some i) s = Some (r, s') -> inv s'.
Proof.
  intros Hinv. cbn [supervisor_restart_process].
  destruct (processes s !! i) as [pr|] eqn:Hi; [|done]. by apply restart_locked_inv.
Qed.

Lemma shutdown_inv fuel i s r s' :
  inv s -> supervisor_shutdown_process clock waits kills fuel (Some i) s = Some (r, s') -> inv s'.
Proof.
  intros Hinv. cbn [supervisor_shutdown_process].
  destruct (processes s !! i) as [pr|] eqn:Hi; [|done]. intros E.
  by apply shutdown_locked_inv in E as (? & _).
Qed.

Lemma snd_some {A B} (o : option (A * B)) b : option_map snd o = Some b -> exists a, o = Some (a, b).
Proof. destruct o as [[a b']|]; [|done]. cbn. intros [= ->]. by exists a. Qed.

Lemma count_inv i n s : inv s -> inv (set_restart_count i n s).
Proof.
  intros (Hnd & Hlive & Hout). unfold inv. cbn [processes log set_restart_count set_processes].
  assert (forall ps, map role (alter (fun pr => mk_process (exe_name pr) (resolved_path pr) (pid pr) (role pr) n) i ps)
          = map role ps) as Hr by (intros; by apply roles_alter).
  split; [by rewrite Hr|]. rewrite Hr. split; [|done]. intros j q Hj.
  destruct (decide (i = j)) as [<-|Hne].
  - rewrite list_lookup_alter_eq in Hj. destruct (processes s !! i) as [pr|] eqn:E; [|done].
    injection Hj as <-. exact (Hlive i pr E).
  - rewrite list_lookup_alter_ne in Hj by done. by apply (Hlive j).
Qed.

Lemma reap_one_inv fuel i s s' :
  inv s -> reap_one clock waits spawns kills fuel i s = Some s' -> inv s'.
Proof.
  intros Hinv. unfold reap_one. destruct (processes s !! i) as [pr|] eqn:Hi; [|done].
  case_if as E; [by intros [= <-]|]. bool_facts. cbn [waitpid_nohang].
  destruct (waits (wait_calls s)); [by intros [= <-]| |by intros [= <-]].
  set (s1 := forget _ _ _ _). assert (inv s1) as Hinv1 by (by apply forget_inv).
  case_if as E1; [by intros [= <-]|]. apply (count_inv i (restart_count pr + 1)) in Hinv1.
  case_if as E2; [by intros [= <-]|].
  destruct (processes (set_restart_count i (restart_count pr + 1) s1) !! i) as [pr1|] eqn:Hi1; [|done].
  intros (r & E3)%snd_some. by eapply restart_locked_inv.
Qed.

Lemma check_one_inv fuel i s s' :
  inv s -> check_one clock waits spawns kills fuel i s = Some s' -> inv s'.
Proof.
  intros Hinv. unfold check_one. destruct (processes s !! i) as [pr|] eqn:Hi; [|done].
  case_if as E; [by intros [= <-]|]. case_if as E1; [by intros [= <-]|].
  cbn [supervisor_is_frozen read_clock]. case_if as E2; [|by intros [= <-]].
  intros (r & E3)%snd_some. by eapply restart_inv in E3.
Qed.

Lemma supervisor_message_inv fuel n src cmd rr s s' :
  inv s -> shutdown_message clock waits spawns kills fuel n src cmd rr s = Some s' -> inv s'.
Proof.
  intros Hinv. unfold shutdown_message. case_if as E; [by intros [= <-]|].
  case_if as E1; [intros [= <-]; by apply mark_alive_inv|].
  case_if as E2; [by intros [= <-]|]. case_if as E3; [by intros [= <-]|].
  destruct (supervisor_find_process rr s) as [i|]; [|by intros [= <-]].
  case_if as E4; [intros (r & E5)%snd_some; by eapply shutdown_inv in E5|].
  case_if as E5; [intros (r & E6)%snd_some; by eapply restart_inv in E6|]. by intros [= <-].
Qed.

Lemma step_inv s s' : step clock waits spawns kills s s' -> inv s -> inv s'.
Proof.
  intros Hstep Hinv. destruct Hstep.
  - by eapply reap_one_inv.
  - by eapply check_one_inv.
  - by eapply restart_inv.
  - by eapply shutdown_inv.
  - by eapply supervisor_message_inv.
  - exact Hinv.
Qed.

Lemma path_inv i p s : inv s -> inv (set_path i p s).
Proof.
  intros (Hnd & Hlive & Hout). unfold inv. cbn [processes log set_path set_processes].
  assert (forall ps, map role (alter (fun pr => mk_process (exe_name pr) p (pid pr) (role pr) (restart_count pr)) i ps)
          = map role ps) as Hr by (intros; by apply roles_alter).
  split; [by rewrite Hr|]. rewrite Hr. split; [|done]. intros j q Hj.
  destruct (decide (i = j)) as [<-|Hne].
  - rewrite list_lookup_alter_eq in Hj. destruct (processes s !! i) as [pr|] eqn:E; [|done].
    injection Hj as <-. exact (Hlive i pr E).
  - rewrite list_lookup_alter_ne in Hj by done. by apply (Hlive j).
Qed.

Definition idle_from (i : nat) (s : supervisor) : Prop :=
  forall j pr, (i <= j)%nat -> processes s !! j = Some pr -> pid pr <= 0.

Lemma resolve_paths_inv dir i n s r s' :
  inv s -> idle_from 0 s -> resolve_paths dir i n s = (r, s') -> inv s' /\ idle_from 0 s'.
Proof.
  revert i s. induction n as [|n IH]; intros i s Hinv Hidle; cbn [resolve_paths]; [by intros [= <- <-]|].
  destruct (processes s !! i) as [pr|]; [|by intros [= <- <-]].
  destruct (obc_resolve_sibling _ _ _) as [p|]; [|by intros [= <- <-]].
  apply IH; [by apply path_inv|]. intros j q _ Hj. cbn [processes set_path set_processes] in Hj.
  destruct (decide (i = j)) as [<-|Hne].
  - rewrite list_lookup_alter_eq in Hj. destruct (processes s !! i) as [pr'|] eqn:E; [|done].
    injection Hj as <-. apply (Hidle i pr'); [lia|done].
  - rewrite list_lookup_alter_ne in Hj by done. apply (Hidle j q); [lia|done].
Qed.

Lemma spawn_all_inv i n s r s' :
  inv s -> idle_from i s -> spawn_all clock spawns i n s = (r, s') -> inv s'.
Proof.
  revert i s. induction n as [|n IH]; intros i s Hinv Hidle; cbn [spawn_all]; [by intros [= <- <-]|].
  destruct (processes s !! i) as [pr|] eqn:Hi; [|by intros [= <- <-]]. cbn [posix_spawn].
  destruct (spawns (spawn_calls s)) as [p|] eqn:Es; [|by intros [= <- <-]].
  match goal with |- spawn_all _ _ _ _ (supervisor_mark_alive _ _ ?t) = _ -> _ => set (s1 := t) end.
  apply IH.
  - apply mark_alive_inv. apply spawn_inv; [exact Hinv|exact Hi| |by eapply Hspawns].
    apply (Hidle i pr); [lia|done].
  - intros j q Hj Hq. destruct (mark_alive_core (role pr) s1) as (Hp & _). rewrite Hp in Hq.
    unfold s1 in Hq. cbn [processes set_pid set_processes record] in Hq.
    rewrite list_lookup_alter_ne in Hq by lia. apply (Hidle j q); [lia|exact Hq].
Qed.

Lemma start_inv dir r s : start_all_processes clock spawns dir supervisor0 = (r, s) -> inv s.
Proof.
  assert (inv supervisor0) as H0.
  { split; [apply (bool_decide_unpack _); vm_compute; exact I|]. split; [|done].
    intros i pr Hi. assert (pid pr = -1) as ->; [|done].
    do 6 (destruct i as [|i]; [by injection Hi as <-|]). done. }
  assert (idle_from 0 supervisor0) as Hi0.
  { intros i pr _ Hi. assert (pid pr = -1) as ->; [|done].
    do 6 (destruct i as [|i]; [by injection Hi as <-|]). done. }
  unfold start_all_processes, supervisor_resolve_paths.
  destruct (resolve_paths _ _ _ supervisor0) as [r1 s1] eqn:E.
  apply resolve_paths_inv in E as [Hinv Hidle]; [|done|done].
  case_if as E1; [by intros [= <- <-]|]. by apply spawn_all_inv.
Qed.


(** *** Crashes *)

Definition same_children (s s' : supervisor) : Prop :=
  processes s' = processes s /\ log s' = log s.

(** A dead process is restarted, at most five times.  Looking at one slot, the supervisor
    leaves it alone when the slot is empty or its process runs; when the process is
    dead it empties the slot, starts nothing during a shutdown, counts the crash
    otherwise, and makes exactly one attempt to start a successor unless this was the
    sixth crash; the successor takes the slot. *)
Theorem supervisor_crash_policy fuel i pr s :
  processes s !! i = Some pr ->
  exists s', reap_one clock waits spawns kills fuel i s = Some s'
    /\ if (0 <? pid pr) && match waits (wait_calls s) with W_dead => true | _ => false end
       then
         log s' = log s ++ Reaped (role pr) (pid pr)
                  :: (if shutting_down s || (MAX_CRASH_RESTARTS <=? restart_count pr) then []
                      else match spawns (spawn_calls s) with
                           | Some p => [Spawned (role pr) p]
                           | None => []
                           end)
         /\ exists pr', processes s' !! i = Some pr'
             /\ restart_count pr' = (if shutting_down s then restart_count pr else restart_count pr + 1)
             /\ pid pr' = (if shutting_down s || (MAX_CRASH_RESTARTS <=? restart_count pr) then -1
                           else default (-1) (spawns (spawn_calls s)))
       else same_children s s'.
Proof.
  intros Hi. unfold reap_one. rewrite Hi. destruct (pid pr <=? 0) eqn:E; bool_facts.
  { rewrite (proj2 (Z.ltb_ge 0 (pid pr))) by lia. exists s. split; [done|]. by split. }
  rewrite (proj2 (Z.ltb_lt 0 (pid pr))) by lia. cbn [waitpid_nohang andb].
  destruct (waits (wait_calls s)).
  1, 3: eexists; split; [done|]; by split.
  set (s0 := mk_supervisor _ _ _ _ _ _ _ _). set (s1 := forget i (role pr) (pid pr) s0).
  assert (processes s0 !! i = Some pr) as Hi0 by exact Hi.
  destruct (forget_slot i (role pr) (pid pr) pr s0 Hi0) as (pr1 & Hl1 & Hp1 & Hr1 & Hc1). fold s1 in Hl1.
  change (shutting_down s1) with (shutting_down s).
  destruct (shutting_down s) eqn:Esd; cbn [orb].
  { exists s1. split; [done|]. split; [done|]. by exists pr1. }
  set (s2 := set_restart_count i (restart_count pr + 1) s1).
  assert (processes s2 !! i = Some (mk_process (exe_name pr1) (resolved_path pr1) (pid pr1) (role pr1)
                                      (restart_count pr + 1))) as Hl2.
  { unfold s2. cbn [processes set_restart_count set_processes]. by rewrite list_lookup_alter_eq, Hl1. }
  unfold MAX_CRASH_RESTARTS. destruct (5 <=? restart_count pr) eqn:E5; bool_facts.
  { rewrite (proj2 (Z.ltb_lt _ _)) by lia. exists s2. split; [done|]. split; [done|].
    eexists. split; [exact Hl2|]. done. }
  rewrite (proj2 (Z.ltb_ge _ _)) by lia. rewrite Hl2.
  unfold supervisor_restart_process_locked, supervisor_shutdown_process_locked. cbn [pid role].
  rewrite Hp1. cbn [Z.leb Z.compare negb Z.eqb posix_spawn]. change (spawn_calls s2) with (spawn_calls s).
  destruct (spawns (spawn_calls s)) as [p|] eqn:Es; cbn [option_map snd].
  - eexists. split; [done|].
    match goal with |- context [supervisor_mark_alive _ _ ?t] =>
      destruct (mark_alive_core (role pr1) t) as (Hp & Hlog & _); rewrite Hp, Hlog end.
    cbn [processes log set_pid set_processes record]. rewrite Hr1. split.
    { change (log s2) with (log s ++ [Reaped (role pr) (pid pr)]). by rewrite <- app_assoc. }
    change (processes (mk_supervisor (processes s2) _ _ _ _ _ _ _)) with (processes s2).
    rewrite list_lookup_alter_eq, Hl2. by eexists.
  - eexists. split; [done|]. split; [done|]. eexists. split; [exact Hl2|].
    cbn [pid restart_count]. by split.
Qed.

(** A role whose restart fails to spawn is never looked at again: its slot is empty, and
    both checks of the heartbeat thread skip empty slots. *)
Lemma failed_spawn_is_final fuel fuel' i pr s :
  processes s !! i = Some pr -> pid pr <= 0 ->
  reap_one clock waits spawns kills fuel i s = Some s
  /\ check_one clock waits spawns kills fuel' i s = Some s.
Proof.
  intros Hi Hp. unfold reap_one, check_one. rewrite Hi, (proj2 (Z.leb_le _ _)) by done.
  split; [done|]. by case_if as E.
Qed.

(** *** Shutdown *)

Definition POLL_NS : Z := 50000000.
(** Polls until the grace period of three seconds is over. *)
Definition GRACE_POLLS : nat := 62.

(** The clock from one reading on: between two polls the supervisor sleeps 50 ms. *)
Definition polls_sleep (c0 : nat) : Prop :=
  forall k, (k <= GRACE_POLLS)%nat -> clock_ok (clock (c0 + k)%nat)
    /\ ((0 < k)%nat -> nanos (clock c0) + (Z.of_nat k - 1) * POLL_NS <= nanos (clock (c0 + k)%nat)).

Lemma shutdown_loop_returns c0 k fuel i r p s :
  polls_sleep c0 -> (k + fuel = GRACE_POLLS)%nat -> (0 < fuel)%nat -> clock_reads s = (c0 + 1 + k)%nat ->
  exists res s', shutdown_loop clock waits fuel i r p
    (mk_time (tv_sec (clock c0) + SHUTDOWN_GRACE_SEC) (tv_nsec (clock c0))) s = Some (res, s')
    /\ (res = 0 \/ res = -1 /\ exists n, waits n = W_error).
Proof.
  intros Hc. revert k s. induction fuel as [|fuel IH]; intros k s Hk Hf Hr; [lia|].
  cbn [shutdown_loop waitpid_nohang]. destruct (waits (wait_calls s)) eqn:Ew.
  - cbn [read_clock clock_reads tv_sec tv_nsec]. case_if as E.
    { eexists _, _. split; [done|]. by left. }
    destruct fuel as [|fuel].
    + exfalso. assert (k = 61)%nat as -> by (unfold GRACE_POLLS in Hk; lia).
      destruct (Hc 62%nat ltac:(unfold GRACE_POLLS; lia)) as [[Hs1 Hn1] Hlate].
      destruct (Hc 0%nat ltac:(unfold GRACE_POLLS; lia)) as [[Hs0 Hn0] _].
      rewrite Nat.add_0_r in Hs0, Hn0. rewrite Hr in E.
      replace (c0 + 1 + 61)%nat with (c0 + 62)%nat in E by lia. specialize (Hlate ltac:(lia)).
      unfold nanos, POLL_NS, SHUTDOWN_GRACE_SEC in *.
      apply orb_false_iff in E as [E1 [E2|E2]%andb_false_iff]; bool_facts; lia.
    + apply (IH (S k)); [lia|lia|]. cbn [clock_reads]. lia.
  - eexists _, _. split; [done|]. by left.
  - eexists _, _. split; [done|]. right. split; [done|by eexists].
Qed.

End Invariant.

(** ** Examples *)

Definition quiet_clock (n : nat) : timespec := mk_time 7 0.
Definition sample_spawns (n : nat) : option Z := Some (100 + Z.of_nat n).

Definition started : supervisor :=
  snd (start_all_processes quiet_clock sample_spawns (Some [47]) supervisor0).

Lemma sample_spawns_ok n p : sample_spawns n = Some p -> 0 < p.
Proof. unfold sample_spawns. intros [= <-]. lia. Qed.

Lemma started_reachable waits kills : reachable quiet_clock waits sample_spawns kills started.
Proof.
  apply (reachable_start _ _ _ _ (Some [47])
    (fst (start_all_processes quiet_clock sample_spawns (Some [47]) supervisor0))).
  vm_compute. reflexivity.
Qed.

(** The third process dies and is restarted. *)
Definition after_crash : supervisor :=
  default started (reap_one quiet_clock (fun _ => W_dead) sample_spawns (fun _ => true) 9 2 started).

Lemma after_crash_reachable : reachable quiet_clock (fun _ => W_dead) sample_spawns (fun _ => true) after_crash.
Proof.
  eapply reachable_step; [apply started_reachable|]. apply (step_reap _ _ _ _ 9 2). vm_compute. reflexivity.
Qed.


Lemma supervisor_crash_policy_witness :
  exists s', reap_one quiet_clock (fun _ => W_dead) sample_spawns (fun _ => true) 9 2 started = Some s'
    /\ log s' = log started ++ [Reaped ROLE_COMPUTE 102; Spawned ROLE_COMPUTE 106].
Proof.
  destruct (processes started !! 2%nat) as [pr|] eqn:E; [|exfalso; revert E; vm_compute; discriminate].
  destruct (supervisor_crash_policy quiet_clock (fun _ => W_dead) sample_spawns (fun _ => true) 9 2 pr started E)
    as (s' & Hs & Hrest).
  assert (pr = mk_process (obc_exe [99; 111; 109; 112; 117; 116; 101])
    ([47] ++ [47] ++ obc_exe [99; 111; 109; 112; 117; 116; 101]) 102 ROLE_COMPUTE 0) as Hpr
    by (revert E; vm_compute; intros [= <-]; reflexivity).
  subst pr. exists s'. split; [exact Hs|]. exact (proj1 Hrest).
Defined.

(** A clock that advances with every poll. *)
Definition poll_clock (n : nat) : timespec :=
  mk_time (Z.of_nat n / 20) (Z.of_nat n mod 20 * 50000000).

Lemma poll_clock_sleeps c0 : (c0 <= 100)%nat -> polls_sleep poll_clock c0.
Proof.
  intros Hc k Hk. unfold clock_ok, poll_clock, nanos, POLL_NS, GRACE_POLLS in *. cbn [tv_sec tv_nsec].
  rewrite Nat2Z.inj_add. split; [|intros Hpos]; Z.div_mod_to_equations; lia.
Qed.


(** The flag does not stop a restart that is already under way: FDIR is shut down with the
    others, and the restart that the heartbeat thread decided on before then starts it
    again; it survives the supervisor. *)
Lemma restart_survives_shutdown :
  exists s s' r,
    supervisor_shutdown_all quiet_clock (fun _ => W_dead) (fun _ => true) 9 started = Some s
    /\ (forall i pr, processes s !! i = Some pr -> pid pr = -1)
    /\ supervisor_restart_process quiet_clock (fun _ => W_dead) sample_spawns (fun _ => true) 9 (Some 0%nat) s
       = Some (r, s')
    /\ shutting_down s' = true /\ live ROLE_FDIR (log s') = [106].
Proof.
  eexists _, _, _. split; [vm_compute; reflexivity|]. split.
  { intros i pr. do 6 (destruct i as [|i]; [by intros [= <-]|]). done. }
  split; [vm_compute; reflexivity|]. split; vm_compute; reflexivity.
Qed.
