(* ===== verification/Fdir.v ===== *)
(** Fault detection of the on-board computer: [apps/obc/fdir/src/health_monitor.c] (who was
    heard of, and which board resets too often), [watchdog.c] (which role is silent) and
    [fallback.c] (what is asked of the supervisor and of the Commands role).

    The health monitor and the watchdog are two threads; each message and each check of
    a role under the lock is one step.  Times compared as [double] are compared in
    nanoseconds. *)

From S2P Require Import Prelude ObcProgress ObcIpc.

Definition COMMS : Z := 6.
Definition ADCS_ADDRESS : Z := 2.
Definition EPS_ADDRESS : Z := 3.
Definition ADCS_CMD_PORT : Z := 10.
Definition EPS_CMD_PORT : Z := 11.
Definition CMD_RESET : Z := 2.
Definition CMD_SHUTDOWN : Z := 3.
Definition SUPERVISOR_CMD_SHUTDOWN : Z := 1.
Definition SUPERVISOR_CMD_RESTART : Z := 2.
Definition RESET_SHUTDOWN_THRESHOLD : Z := 3.
Definition ROLE_HEARTBEAT_TIMEOUT_SEC : Z := 5.

Definition UNRESPONSIVE : Z := 1.
Definition OUT_OF_BOUNDS : Z := 2.

Record fault_report_t := mk_report { f_role : Z; f_fault_type : Z }.

Inductive fdir_message :=
  | Supervisor_request (cmd role : Z)
  | Board_command (dest_addr dest_port command_id seq : Z)
  | Ping.

(** *** Pure parts *)

Definition cmd_port_for_board (board_addr : Z) : Z :=
  if board_addr =? ADCS_ADDRESS then ADCS_CMD_PORT
  else if board_addr =? EPS_ADDRESS then EPS_CMD_PORT else 0.

Definition is_monitored_role (role : Z) : bool :=
  (role =? ROLE_COMMANDS) || (role =? ROLE_COMPUTE) || (role =? ROLE_DATA) || (role =? ROLE_MISSION)
  || (role =? ROLE_TIME).

Definition monitored_roles : list Z :=
  [ROLE_COMMANDS; ROLE_COMPUTE; ROLE_DATA; ROLE_MISSION; ROLE_TIME].

(** In nanoseconds. *)
Definition elapsed_seconds (start stop : timespec) : Z :=
  (tv_sec stop - tv_sec start) * 1000000000 + (tv_nsec stop - tv_nsec start).

(** What a run records (see below). *)
Inductive fdir_event :=
  | Beat (role : Z)
  | Asked (role : Z)
  | Notice (board : Z).

#[global] Instance fdir_event_eq_dec : EqDecision fdir_event.
Proof. solve_decision. Defined.

Section Fdir.
Context {L : Type} `{Ipc fdir_message L}.

(** The file-scope arrays: [ROLE_COUNT] entries, [COMMS + 1] for the boards. *)
Record fdir := mk_fdir {
  reset_counts : list Z;
  last_heartbeat : list timespec;
  heartbeat_seen : list bool;
  fault_latched : list bool;
  link : L
}.

Definition set_link l st := mk_fdir (reset_counts st) (last_heartbeat st) (heartbeat_seen st)
  (fault_latched st) l.
Definition set_latched r b st := mk_fdir (reset_counts st) (last_heartbeat st) (heartbeat_seen st)
  (<[Z.to_nat r := b]> (fault_latched st)) (link st).
Definition latched (r : Z) (st : fdir) : bool := nth (Z.to_nat r) (fault_latched st) false.
Definition seen (r : Z) (st : fdir) : bool := nth (Z.to_nat r) (heartbeat_seen st) false.
Definition reset_count (b : Z) (st : fdir) : Z := nth (Z.to_nat b) (reset_counts st) 0.

(** [fallback.c]. *)
Definition fallback_request (cmd role : Z) (st : fdir) : Z * fdir :=
  let '(rc, l) := ipc_send ROLE_SUPERVISOR (Supervisor_request (u8 cmd) (u8 role)) (link st) in
  let st := set_link l st in
  if rc <? 0 then (-1, st) else (0, st).

Definition fallback_handle_fault (report : fault_report_t) (st : fdir) : Z * fdir :=
  if (f_fault_type report =? UNRESPONSIVE) || (f_fault_type report =? OUT_OF_BOUNDS)
  then
    let '(r, st) := fallback_request SUPERVISOR_CMD_RESTART (f_role report) st in
    if negb (r =? 0) then (2, st) else (0, st)
  else (1, st).

Definition fallback_reset_board (board_addr board_port : Z) (st : fdir) : Z * fdir :=
  let '(rc, l) := ipc_send ROLE_COMMANDS (Board_command board_addr board_port CMD_RESET 1) (link st) in
  let st := set_link l st in
  if rc <? 0 then (-1, st) else (0, st).

Definition fallback_shutdown_board (board_addr board_port : Z) (st : fdir) : Z * fdir :=
  let '(rc, l) := ipc_send ROLE_COMMANDS (Board_command board_addr board_port CMD_SHUTDOWN 1) (link st) in
  let st := set_link l st in
  if rc <? 0 then (-1, st) else (0, st).

(** [health_monitor.c]. *)
Definition record_role_heartbeat (role : Z) (now : timespec) (st : fdir) : fdir :=
  if negb (is_monitored_role role) then st
  else
    mk_fdir (reset_counts st) (<[Z.to_nat role := now]> (last_heartbeat st))
      (<[Z.to_nat role := true]> (heartbeat_seen st)) (fault_latched st) (link st).

(** The result and [*last_seen_out], when the pointer is not NULL. *)
Definition health_monitor_get_last_heartbeat (role : Z) (last_seen_out : option timespec) (st : fdir)
    : bool * option timespec :=
  match last_seen_out with
  | None => (false, None)
  | Some out =>
      if negb (is_monitored_role role) then (false, Some out)
      else if seen role st
      then (true, Some (nth (Z.to_nat role) (last_heartbeat st) (mk_time 0 0)))
      else (false, Some out)
  end.

(** One message of the health monitor: [length] is what [IPC_receive] returned,
    [board_addr] the first byte of the notice. *)
Definition health_monitor_message (length src : Z) (now : timespec) (board_addr : Z) (st : fdir) : fdir :=
  if length =? 0 then record_role_heartbeat src now st
  else if negb (length =? 2) then st
  else if negb (src =? ROLE_COMMANDS) then st
  else if COMMS <? board_addr then st
  else
    let st := mk_fdir (alter (fun c => c + 1) (Z.to_nat board_addr) (reset_counts st))
                (last_heartbeat st) (heartbeat_seen st) (fault_latched st) (link st) in
    if reset_count board_addr st =? RESET_SHUTDOWN_THRESHOLD
    then snd (fallback_shutdown_board board_addr (cmd_port_for_board board_addr) st)
    else st.

(** [watchdog.c]; [last0] is the uninitialised variable. *)
Definition role_is_stale (role : Z) (watchdog_started now last0 : timespec) (st : fdir) : bool :=
  match health_monitor_get_last_heartbeat role (Some last0) st with
  | (true, Some last_seen) => ROLE_HEARTBEAT_TIMEOUT_SEC * 1000000000 <? elapsed_seconds last_seen now
  | _ => ROLE_HEARTBEAT_TIMEOUT_SEC * 1000000000 <? elapsed_seconds watchdog_started now
  end.

(** The body of the inner loop for one role. *)
Definition watchdog_role (role : Z) (watchdog_started now last0 : timespec) (st : fdir) : fdir :=
  let stale := role_is_stale role watchdog_started now last0 st in
  if stale && negb (latched role st)
  then
    let '(r, st) := fallback_handle_fault (mk_report role UNRESPONSIVE) st in
    if r =? 0 then set_latched role true st else st
  else if negb stale && latched role st then set_latched role false st
  else st.

(** The end of a round: the watchdog's own heartbeat. *)
Definition watchdog_ping (st : fdir) : fdir :=
  let '(_, l) := ipc_send ROLE_SUPERVISOR Ping (link st) in set_link l st.

Definition watchdog_round (watchdog_started now last0 : timespec) (st : fdir) : fdir :=
  watchdog_ping (fold_left (fun st role => watchdog_role role watchdog_started now last0 st)
                   monitored_roles st).

Definition fdir_init (l : L) : fdir :=
  mk_fdir (replicate (Z.to_nat (COMMS + 1)) 0) (replicate (Z.to_nat ROLE_COUNT) (mk_time 0 0))
    (replicate (Z.to_nat ROLE_COUNT) false) (replicate (Z.to_nat ROLE_COUNT) false) l.

(** ** Runs

    The two threads interleave between the checks of single roles.  [r_round] is the
    clock reading of the watchdog's current round; the clock does not run backwards.
    The trace records the heartbeats that were received, the restart requests that
    reached the supervisor and the reset notices that were counted. *)
Definition restart_of (m : fdir_message) : option Z :=
  match m with
  | Supervisor_request cmd role => if cmd =? SUPERVISOR_CMD_RESTART then Some role else None
  | _ => None
  end.

(** The messages that reached a role between two states. *)
Definition sent_between (dest : Z) (st st' : fdir) : list fdir_message :=
  drop (length (reached (link st) dest)) (reached (link st') dest).

Record run := mk_run { r_fdir : fdir; r_round : timespec; r_trace : list fdir_event }.

Definition message_events (n src board : Z) : list fdir_event :=
  if n =? 0 then if is_monitored_role src then [Beat src] else []
  else if (n =? 2) && (src =? ROLE_COMMANDS) && (board <=? COMMS) then [Notice board] else [].

Context (started last0 : timespec).

Inductive step : run -> run -> Prop :=
  | step_message n src t board st t0 tr :
      0 <= board < 256 ->
      step (mk_run st t0 tr)
           (mk_run (health_monitor_message n src t board st) t0 (tr ++ message_events n src board))
  | step_round t st t0 tr :
      elapsed_seconds started t0 <= elapsed_seconds started t ->
      step (mk_run st t0 tr) (mk_run st t tr)
  | step_check role st t0 tr :
      In role monitored_roles ->
      step (mk_run st t0 tr)
           (mk_run (watchdog_role role started t0 last0 st) t0
              (tr ++ map Asked (omap restart_of
                 (sent_between ROLE_SUPERVISOR st (watchdog_role role started t0 last0 st)))))
  | step_ping st t0 tr : step (mk_run st t0 tr) (mk_run (watchdog_ping st) t0 tr).

(** The service has delivered nothing to the Commands role before the start. *)
Inductive reachable : run -> Prop :=
  | reachable_init l : reached l ROLE_COMMANDS = [] -> reachable (mk_run (fdir_init l) started [])
  | reachable_step r r' : reachable r -> step r r' -> reachable r'.

(** *** What a check does *)

Lemma nth_insert {A} (l : list A) i j x d :
  (i < length l)%nat -> nth j (<[i := x]> l) d = if decide (i = j) then x else nth j l d.
Proof.
  intros Hi. rewrite !nth_lookup. case_decide as E.
  - subst j. by rewrite list_lookup_insert_eq.
  - by rewrite list_lookup_insert_ne.
Qed.

Definition lengths_ok (st : fdir) : Prop :=
  length (last_heartbeat st) = 9%nat /\ length (heartbeat_seen st) = 9%nat
  /\ length (fault_latched st) = 9%nat /\ length (reset_counts st) = 7%nat.

Lemma monitored_facts r :
  In r monitored_roles -> is_monitored_role r = true /\ 0 <= r < 9 /\ u8 r = r.
Proof.
  unfold monitored_roles. cbn [In].
  intros Hr. repeat destruct Hr as [<-|Hr]; try done; split; (reflexivity || split; [lia|reflexivity]).
Qed.

Lemma monitored_in r : is_monitored_role r = true -> In r monitored_roles.
Proof.
  unfold is_monitored_role, monitored_roles. cbn [In]. intros H0. bool_facts.
  repeat match goal with H0 : _ \/ _ |- _ => destruct H0; bool_facts end; subst; tauto.
Qed.

(** One check of a role: either a restart request reaches the supervisor and the fault is
    latched, or nothing is sent. *)
Lemma watchdog_role_spec role t st :
  In role monitored_roles -> lengths_ok st ->
  let st' := watchdog_role role started t last0 st in
  let stale := role_is_stale role started t last0 st in
  reset_counts st' = reset_counts st /\ last_heartbeat st' = last_heartbeat st
  /\ heartbeat_seen st' = heartbeat_seen st /\ lengths_ok st'
  /\ (forall other, other <> role -> 0 <= other -> latched other st' = latched other st)
  /\ (forall dest, dest <> ROLE_SUPERVISOR -> reached (link st') dest = reached (link st) dest)
  /\ ((stale = true /\ latched role st = false /\ latched role st' = true
       /\ sent_between ROLE_SUPERVISOR st st' = [Supervisor_request SUPERVISOR_CMD_RESTART role])
      \/ (sent_between ROLE_SUPERVISOR st st' = [] /\ (stale = true -> latched role st' = latched role st))).
Proof.
  intros Hin Hlen. destruct (monitored_facts role Hin) as (_ & Hr & Hu). cbv zeta.
  unfold watchdog_role. set (stale := role_is_stale _ _ _ _ _).
  assert (forall b, lengths_ok (set_latched role b st)
    /\ (forall other, other <> role -> 0 <= other -> latched other (set_latched role b st) = latched other st)
    /\ latched role (set_latched role b st) = b) as Hset.
  { intros b. destruct Hlen as (H1 & H2 & H3 & H4). split; [|split].
    - unfold lengths_ok. cbn [last_heartbeat heartbeat_seen fault_latched reset_counts set_latched].
      by rewrite length_insert.
    - intros other Hne Ho. unfold latched. cbn [fault_latched set_latched].
      rewrite nth_insert by lia. rewrite decide_False by lia. done.
    - unfold latched. cbn [fault_latched set_latched]. rewrite nth_insert by lia. by rewrite decide_True. }
  assert (sent_between ROLE_SUPERVISOR st st = []) as Hnil by (unfold sent_between; apply drop_all).
  destruct (stale && negb (latched role st)) eqn:E.
  - apply andb_true_iff in E as [Es El%negb_true_iff].
    unfold fallback_handle_fault, fallback_request. cbn [f_fault_type f_role]. rewrite Hu.
    change ((UNRESPONSIVE =? UNRESPONSIVE) || (UNRESPONSIVE =? OUT_OF_BOUNDS)) with true. cbv iota.
    change (u8 SUPERVISOR_CMD_RESTART) with SUPERVISOR_CMD_RESTART.
    pose proof (ipc_send_law ROLE_SUPERVISOR (Supervisor_request SUPERVISOR_CMD_RESTART role) (link st)) as Hlaw.
    destruct (ipc_send _ _ _) as [rc l]. destruct Hlaw as (Hok & Hfail & Ho).
    destruct (rc <? 0) eqn:Erc; cbn [negb Z.eqb Z.opp]; bool_facts.
    + do 3 (split; [done|]). split; [exact Hlen|]. split; [done|]. split; [exact Ho|]. right.
      unfold sent_between. cbn [link set_link]. rewrite Hfail by done. split; [apply drop_all|done].
    + specialize (Hset true) as (Hl & Hoth & Hthis). do 3 (split; [done|]).
      split; [exact Hl|]. split; [exact Hoth|]. split; [exact Ho|]. left. split; [done|]. split; [done|].
      split; [exact Hthis|]. unfold sent_between. cbn [link set_link set_latched].
      rewrite Hok by lia. by rewrite drop_app_length.
  - destruct (negb stale && latched role st) eqn:E2.
    + apply andb_true_iff in E2 as [Es%negb_true_iff El]. specialize (Hset false) as (Hl & Hoth & Hthis).
      do 3 (split; [done|]). split; [exact Hl|]. split; [exact Hoth|]. split; [done|]. right.
      split; [exact Hnil|]. congruence.
    + do 3 (split; [done|]). split; [exact Hlen|]. split; [done|]. split; [done|]. by right.
Qed.

(** *** The restart policy *)

(** A restart of the role was asked for, and it was not heard of since. *)
Definition pending (r : Z) (tr : list fdir_event) : Prop :=
  exists a b, tr = a ++ Asked r :: b /\ ~ In (Beat r) b.

(** Between two requests for the same role it was heard of. *)
Definition spaced (r : Z) (tr : list fdir_event) : Prop :=
  forall a b c, tr = a ++ Asked r :: b ++ Asked r :: c -> In (Beat r) b.

Lemma pending_snoc r tr e :
  pending r (tr ++ [e]) <-> e = Asked r \/ (e <> Beat r /\ pending r tr).
Proof.
  split.
  - intros (a & b & Heq & Hb). destruct (decide (b = [])) as [->|Hne].
    + apply app_inj_tail in Heq as [_ ->]. by left.
    + destruct (exists_last Hne) as (b' & e' & ->).
      change (a ++ Asked r :: b' ++ [e']) with (a ++ (Asked r :: b') ++ [e']) in Heq.
      rewrite app_assoc in Heq. apply app_inj_tail in Heq as [-> ->]. right. split.
      * intros ->. apply Hb, in_or_app. right. by left.
      * exists a, b'. split; [done|]. intros Hin. by apply Hb, in_or_app; left.
  - intros [->|[He (a & b & -> & Hb)]].
    + exists tr, []. split; [done|]. intros [].
    + exists a, (b ++ [e]). split; [by rewrite <- app_assoc|].
      intros Hin. apply in_app_or in Hin as [Hin|[Hin|[]]]; done.
Qed.

Lemma spaced_snoc r tr e :
  spaced r tr -> (e = Asked r -> ~ pending r tr) -> spaced r (tr ++ [e]).
Proof.
  intros Hs He a b c Heq. destruct (decide (c = [])) as [->|Hne].
  - replace (a ++ Asked r :: b ++ [Asked r]) with ((a ++ Asked r :: b) ++ [Asked r]) in Heq
      by (by rewrite <- app_assoc).
    apply app_inj_tail in Heq as [-> ->]. destruct (In_dec (fun x y => decide (x = y)) (Beat r) b); [done|].
    exfalso. by apply He; [|exists a, b].
  - destruct (exists_last Hne) as (c' & e' & ->).
    replace (a ++ Asked r :: b ++ Asked r :: c' ++ [e']) with ((a ++ Asked r :: b ++ Asked r :: c') ++ [e']) in Heq
      by (rewrite <- app_assoc; cbn [app]; by rewrite <- app_assoc).
    apply app_inj_tail in Heq as [-> ->]. by apply (Hs a b c').
Qed.

(** A stale role stays stale while it is not heard of. *)
Definition heard_of (r : Z) (st : fdir) : bool * timespec :=
  (seen r st, nth (Z.to_nat r) (last_heartbeat st) (mk_time 0 0)).

Lemma stale_iff r t st :
  is_monitored_role r = true ->
  role_is_stale r started t last0 st
  = (5000000000 <? elapsed_seconds (if seen r st then snd (heard_of r st) else started) t).
Proof.
  intros Hm. unfold role_is_stale, health_monitor_get_last_heartbeat. rewrite Hm. cbn [negb].
  unfold heard_of. cbn [snd]. by destruct (seen r st).
Qed.

Lemma stale_later r t t' st st' :
  is_monitored_role r = true -> heard_of r st' = heard_of r st ->
  elapsed_seconds started t <= elapsed_seconds started t' ->
  role_is_stale r started t last0 st = true -> role_is_stale r started t' last0 st' = true.
Proof.
  intros Hm Hh Ht. rewrite !stale_iff by done. rewrite Hh.
  assert (seen r st' = seen r st) as -> by (unfold heard_of in Hh; congruence).
  intros Hs. bool_facts. apply Z.ltb_lt. unfold elapsed_seconds in *. destruct (seen r st); lia.
Qed.

Definition role_inv (x : run) (r : Z) : Prop :=
  (pending r (r_trace x) ->
     latched r (r_fdir x) = true /\ role_is_stale r started (r_round x) last0 (r_fdir x) = true)
  /\ spaced r (r_trace x).

Definition run_inv (x : run) : Prop :=
  lengths_ok (r_fdir x) /\ forall r, In r monitored_roles -> role_inv x r.

(** An event that is not about the role, in a state that treats it as before. *)
Lemma role_inv_other st t tr st' tr' r :
  is_monitored_role r = true -> heard_of r st' = heard_of r st -> latched r st' = latched r st ->
  (tr' = tr \/ exists e, tr' = tr ++ [e] /\ e <> Asked r) ->
  role_inv (mk_run st t tr) r -> role_inv (mk_run st' t tr') r.
Proof.
  intros Hm Hh Hl Htr [Hp Hs]. cbn [r_fdir r_round r_trace] in *. split; cbn [r_fdir r_round r_trace].
  - intros Hpend. rewrite Hl. assert (pending r tr) as Hpend'.
    { destruct Htr as [->|(e & -> & He)]; [done|]. apply pending_snoc in Hpend as [?|[_ ?]]; done. }
    destruct (Hp Hpend') as [? Hst]. split; [done|].
    eapply stale_later; [done|exact Hh| |exact Hst]. lia.
  - destruct Htr as [->|(e & -> & He)]; [done|]. by apply spaced_snoc.
Qed.

Lemma shutdown_board_core b p st :
  let st' := snd (fallback_shutdown_board b p st) in
  reset_counts st' = reset_counts st /\ last_heartbeat st' = last_heartbeat st
  /\ heartbeat_seen st' = heartbeat_seen st /\ fault_latched st' = fault_latched st.
Proof. unfold fallback_shutdown_board. destruct (ipc_send _ _ _) as [rc l]. by case_if as E. Qed.

Lemma monitor_message_inv n src t board st t0 tr :
  run_inv (mk_run st t0 tr) ->
  run_inv (mk_run (health_monitor_message n src t board st) t0 (tr ++ message_events n src board)).
Proof.
  intros [Hlen Hroles]. cbn [r_fdir] in Hlen. pose proof Hlen as (H1 & H2 & H3 & H4).
  unfold health_monitor_message, message_events. destruct (n =? 0) eqn:En.
  - unfold record_role_heartbeat. destruct (is_monitored_role src) eqn:Em; cbn [negb].
    2:{ rewrite app_nil_r. by split. }
    pose proof (monitored_in src Em) as Hin. destruct (monitored_facts src Hin) as (_ & Hr & _).
    split.
    { unfold lengths_ok. cbn [r_fdir last_heartbeat heartbeat_seen fault_latched reset_counts].
      by rewrite !length_insert. }
    intros r Hir. destruct (monitored_facts r Hir) as (Hm & Hrr & _). destruct (decide (r = src)) as [->|Hne].
    + destruct (Hroles src Hin) as [_ Hs]. split; cbn [r_fdir r_round r_trace].
      * intros [?|[Hx _]]%pending_snoc; [done|]. by destruct Hx.
      * by apply spaced_snoc.
    + eapply role_inv_other; [done| | | |by apply Hroles].
      * unfold heard_of, seen. cbn [last_heartbeat heartbeat_seen]. rewrite !nth_insert by lia.
        by rewrite !decide_False by lia.
      * done.
      * right. eexists. split; [done|]. done.
  - assert (forall st', (last_heartbeat st', heartbeat_seen st', fault_latched st')
                        = (last_heartbeat st, heartbeat_seen st, fault_latched st) ->
      length (reset_counts st') = 7%nat -> forall ev, (ev = [] \/ ev = [Notice board]) ->
      run_inv (mk_run st' t0 (tr ++ ev))) as Hsame.
    { intros st' Heq Hl ev Hev. injection Heq as E1 E2 E3. split.
      - unfold lengths_ok. cbn [r_fdir]. rewrite E1, E2, E3. by split_and!.
      - intros r Hir. destruct (monitored_facts r Hir) as (Hm & _).
        eapply role_inv_other; [done| | | |by apply Hroles].
        + unfold heard_of, seen. by rewrite E1, E2.
        + unfold latched. by rewrite E3.
        + destruct Hev as [-> | ->]; [left; by rewrite app_nil_r|]. right. by eexists. }
    destruct (n =? 2) eqn:E2; cbn [negb andb]; [|by apply Hsame; [..|left]].
    destruct (src =? ROLE_COMMANDS) eqn:E3; cbn [negb andb]; [|by apply Hsame; [..|left]].
    destruct (COMMS <? board) eqn:E4; bool_facts.
    + rewrite (proj2 (Z.leb_gt _ _)) by done. by apply Hsame; [..|left].
    + rewrite (proj2 (Z.leb_le _ _)) by done.
      case_if as E5; (apply Hsame; [| |by right]); try (cbn [reset_counts]; by rewrite length_alter); try done.
      * match goal with |- context [fallback_shutdown_board ?b ?p ?x] =>
          destruct (shutdown_board_core b p x) as (_ & -> & -> & ->) end. done.
      * match goal with |- context [fallback_shutdown_board ?b ?p ?x] =>
          destruct (shutdown_board_core b p x) as (-> & _) end. cbn [reset_counts]. by rewrite length_alter.
Qed.

Lemma check_inv role st t0 tr :
  In role monitored_roles -> run_inv (mk_run st t0 tr) ->
  run_inv (mk_run (watchdog_role role started t0 last0 st) t0
             (tr ++ map Asked (omap restart_of
                (sent_between ROLE_SUPERVISOR st (watchdog_role role started t0 last0 st))))).
Proof.
  intros Hin [Hlen Hroles]. cbn [r_fdir] in Hlen.
  pose proof (watchdog_role_spec role t0 st Hin Hlen) as Hspec. cbv zeta in Hspec.
  set (st' := watchdog_role role started t0 last0 st) in *.
  destruct Hspec as (_ & Hlh & Hhs & Hlen' & Hoth & _ & Hcase).
  assert (forall r, heard_of r st' = heard_of r st) as Hh.
  { intros r. unfold heard_of, seen. by rewrite Hlh, Hhs. }
  split; [exact Hlen'|]. intros r Hir. destruct (monitored_facts r Hir) as (Hm & Hr & _).
  destruct (Hroles r Hir) as [Hp Hs]. cbn [r_fdir r_round r_trace] in Hp, Hs.
  destruct Hcase as [(Hst & Hl0 & Hl1 & Hsent)|(Hsent & Hl)]; rewrite Hsent.
  - cbn. destruct (decide (r = role)) as [->|Hne].
    + split; cbn [r_fdir r_round r_trace].
      * intros _. split; [done|]. eapply stale_later; [done|apply Hh| |exact Hst]. lia.
      * apply spaced_snoc; [done|]. intros _ Hpend. destruct (Hp Hpend) as [? _]. congruence.
    + eapply role_inv_other; [done|apply Hh|by apply Hoth; [|lia]| |by apply Hroles].
      right. eexists. split; [done|]. congruence.
  - cbn [omap list_omap map]. rewrite app_nil_r. split; [|exact Hs]. cbn [r_fdir r_round r_trace].
    intros Hpend. destruct (Hp Hpend) as [Hla Hst].
    split; [|eapply stale_later; [done|apply Hh| |exact Hst]; lia].
    destruct (decide (r = role)) as [->|Hne]; [by rewrite Hl|]. rewrite Hoth by (done || lia). done.
Qed.

Lemma fdir_reachable_inv x : reachable x -> run_inv x.
Proof.
  induction 1 as [l Hl|x x' _ IH Hstep].
  - split; [done|]. intros r Hr. split; cbn [r_trace].
    + intros (a & b & Heq & _). by destruct a.
    + intros a b c Heq. by destruct a.
  - destruct Hstep as [n src t board st t0 tr Hb|t st t0 tr Ht|role st t0 tr Hin|st t0 tr].
    + by apply monitor_message_inv.
    + destruct IH as [Hlen Hroles]. split; [done|]. intros r Hir. destruct (Hroles r Hir) as [Hp Hs].
      split; [|done]. cbn [r_fdir r_round r_trace] in *. intros Hpend. destruct (Hp Hpend) as [? Hst].
      split; [done|]. eapply stale_later; [by apply monitored_facts|done|exact Ht|exact Hst].
    + by apply check_inv.
    + unfold watchdog_ping. destruct (ipc_send _ _ _) as [rc l]. exact IH.
Qed.


(** *** Boards that reset too often *)

Definition notices (b : Z) (tr : list fdir_event) : Z :=
  len (List.filter (fun e => bool_decide (e = Notice b)) tr).

Definition is_shutdown (b : Z) (m : fdir_message) : bool :=
  match m with
  | Board_command addr port cmd _ => (addr =? b) && (port =? cmd_port_for_board b) && (cmd =? CMD_SHUTDOWN)
  | _ => false
  end.

(** The shutdown commands for a board that were handed to the Commands role. *)
Definition shutdowns (b : Z) (st : fdir) : Z :=
  len (List.filter (is_shutdown b) (reached (link st) ROLE_COMMANDS)).

Definition reliable : Prop := forall dest (m : fdir_message) (l : L), 0 <= fst (ipc_send dest m l).

Definition board_inv (x : run) : Prop :=
  lengths_ok (r_fdir x) /\ forall b, 0 <= b <= COMMS ->
    reset_count b (r_fdir x) = notices b (r_trace x)
    /\ shutdowns b (r_fdir x) <= (if RESET_SHUTDOWN_THRESHOLD <=? notices b (r_trace x) then 1 else 0)
    /\ (reliable ->
        shutdowns b (r_fdir x) = if RESET_SHUTDOWN_THRESHOLD <=? notices b (r_trace x) then 1 else 0).

Lemma notices_snoc b tr e :
  notices b (tr ++ [e]) = notices b tr + (if bool_decide (e = Notice b) then 1 else 0).
Proof.
  unfold notices. rewrite List.filter_app, len_app. f_equal. cbn. by case_bool_decide.
Qed.

Lemma notices_asked b tr l : notices b (tr ++ map Asked l) = notices b tr.
Proof.
  unfold notices. rewrite List.filter_app, len_app.
  replace (List.filter _ (map Asked l)) with (@nil fdir_event); [unfold len; cbn; lia|].
  induction l as [|r l IH]; [done|]. cbn. by rewrite bool_decide_false.
Qed.

(** A step that leaves the boards alone. *)
Lemma board_inv_same x st' t' tr' :
  board_inv x -> lengths_ok st' -> reset_counts st' = reset_counts (r_fdir x) ->
  reached (link st') ROLE_COMMANDS = reached (link (r_fdir x)) ROLE_COMMANDS ->
  (forall b, notices b tr' = notices b (r_trace x)) -> board_inv (mk_run st' t' tr').
Proof.
  intros [_ Hb] Hlen Hc Hr Hn. split; [done|]. intros b Hbr.
  cbn [r_fdir r_trace]. unfold reset_count, shutdowns. rewrite Hc, Hr, Hn. by apply Hb.
Qed.

Lemma notice_inv board port src t st t0 tr :
  0 <= board <= COMMS -> port = cmd_port_for_board board -> src = ROLE_COMMANDS ->
  board_inv (mk_run st t0 tr) ->
  board_inv (mk_run (health_monitor_message 2 src t board st) t0 (tr ++ [Notice board])).
Proof.
  intros Hbr _ -> [Hlen Hb]. cbn [r_fdir] in Hlen. pose proof Hlen as (H1 & H2 & H3 & H4).
  unfold health_monitor_message. cbn [Z.eqb Pos.eqb negb]. rewrite Z.eqb_refl. cbn [negb].
  rewrite (proj2 (Z.ltb_ge _ _)) by lia.
  set (st1 := mk_fdir _ _ _ _ _).
  assert (forall b, 0 <= b <= COMMS -> reset_count b st1 = notices b (tr ++ [Notice board])) as Hcount.
  { intros b Hbb. rewrite notices_snoc. destruct (Hb b Hbb) as (Hc & _). cbn [r_fdir r_trace] in Hc.
    rewrite <- Hc. unfold reset_count, st1. cbn [reset_counts]. rewrite !nth_lookup. unfold COMMS in *.
    destruct (decide (board = b)) as [->|Hne].
    - rewrite list_lookup_alter_eq, bool_decide_true by done.
      destruct (lookup_lt_is_Some_2 (reset_counts st) (Z.to_nat b)) as [c ->]; [lia|]. done.
    - rewrite list_lookup_alter_ne by lia. rewrite bool_decide_false by congruence. lia. }
  assert (lengths_ok st1) as Hlen1.
  { unfold lengths_ok, st1. cbn [last_heartbeat heartbeat_seen fault_latched reset_counts].
    by rewrite length_alter. }
  assert (forall b, 0 <= b <= COMMS -> b <> board -> notices b (tr ++ [Notice board]) = notices b tr) as Hother.
  { intros b _ Hne. rewrite notices_snoc, bool_decide_false by congruence. lia. }
  pose proof (Hcount board Hbr) as Hcb. rewrite notices_snoc, bool_decide_true in Hcb by done.
  destruct (Hb board Hbr) as (Hc & Hle & Hrel). cbn [r_fdir r_trace] in Hc, Hle, Hrel.
  unfold RESET_SHUTDOWN_THRESHOLD in *. destruct (reset_count board st1 =? 3) eqn:E; bool_facts.
  - unfold fallback_shutdown_board.
    pose proof (ipc_send_law ROLE_COMMANDS (Board_command board (cmd_port_for_board board) CMD_SHUTDOWN 1)
                  (link st1)) as Hlaw.
    pose proof (fun R : reliable => R ROLE_COMMANDS
      (Board_command board (cmd_port_for_board board) CMD_SHUTDOWN 1) (link st1)) as Hgood.
    destruct (ipc_send _ _ _) as [rc l]. destruct Hlaw as (Hok & Hfail & Ho). cbn [fst] in Hgood.
    replace (snd (if rc <? 0 then (-1, set_link l st1) else (0, set_link l st1))) with (set_link l st1)
      by (by destruct (rc <? 0)).
    split; [exact Hlen1|]. intros b Hbb. cbn [r_fdir r_trace]. split; [by apply Hcount|].
    destruct (Hb b Hbb) as (_ & Hleb & Hrelb). cbn [r_fdir r_trace] in Hleb, Hrelb.
    assert (forall b', is_shutdown b' (Board_command board (cmd_port_for_board board) CMD_SHUTDOWN 1)
                       = bool_decide (board = b')) as His.
    { intros b'. unfold is_shutdown. rewrite Z.eqb_refl, andb_true_r. case_bool_decide.
      - subst b'. by rewrite !Z.eqb_refl.
      - by rewrite (proj2 (Z.eqb_neq _ _)). }
    unfold shutdowns in *. cbn [link set_link]. change (link st1) with (link st) in Hok, Hfail.
    destruct (decide (b = board)) as [->|Hne].
    + rewrite (proj2 (Z.leb_gt 3 (notices board tr))) in Hle, Hrel by lia.
      unfold RESET_SHUTDOWN_THRESHOLD.
      rewrite notices_snoc, bool_decide_true, (proj2 (Z.leb_le 3 _)) by (done || lia).
      destruct (decide (0 <= rc)) as [Hrc|Hrc].
      * rewrite (Hok Hrc), List.filter_app, len_app. cbn [List.filter]. rewrite His, bool_decide_true by done.
        pose proof (len_nonneg (List.filter (is_shutdown board) (reached (link st) ROLE_COMMANDS))).
        change (len [Board_command board (cmd_port_for_board board) CMD_SHUTDOWN 1]) with 1. lia.
      * rewrite Hfail by lia. split; [lia|]. intros R. specialize (Hgood R). lia.
    + rewrite Hother by done.
      assert (List.filter (is_shutdown b) (reached l ROLE_COMMANDS)
              = List.filter (is_shutdown b) (reached (link st) ROLE_COMMANDS)) as ->; [|by split].
      destruct (decide (0 <= rc)) as [Hrc|Hrc]; [|by rewrite Hfail by lia].
      rewrite (Hok Hrc), List.filter_app. cbn [List.filter].
      by rewrite His, bool_decide_false, app_nil_r by congruence.
  - split; [exact Hlen1|]. intros b Hbb. cbn [r_fdir r_trace]. split; [by apply Hcount|].
    destruct (Hb b Hbb) as (_ & Hleb & Hrelb). cbn [r_fdir r_trace] in Hleb, Hrelb.
    change (shutdowns b st1) with (shutdowns b st).
    destruct (decide (b = board)) as [->|Hne]; [|rewrite Hother by done; by split].
    rewrite notices_snoc, bool_decide_true by done. rewrite Hcb in E. unfold RESET_SHUTDOWN_THRESHOLD in *.
    destruct (3 <=? notices board tr) eqn:E3; bool_facts.
    + rewrite (proj2 (Z.leb_le 3 _)) by lia. by split.
    + rewrite (proj2 (Z.leb_gt 3 _)) by lia. by split.
Qed.

Lemma board_message_inv n src t board st t0 tr :
  0 <= board < 256 -> board_inv (mk_run st t0 tr) ->
  board_inv (mk_run (health_monitor_message n src t board st) t0 (tr ++ message_events n src board)).
Proof.
  intros Hbr Hinv. unfold message_events. pose proof Hinv as [Hlen _]. cbn [r_fdir] in Hlen.
  destruct (n =? 0) eqn:En; bool_facts.
  - subst n. unfold health_monitor_message, record_role_heartbeat. cbn [Z.eqb].
    destruct (is_monitored_role src) eqn:Em; cbn [negb].
    + apply (board_inv_same (mk_run st t0 tr)); [done| |done|done|].
      * destruct Hlen as (? & ? & ? & ?). unfold lengths_ok.
        cbn [last_heartbeat heartbeat_seen fault_latched reset_counts]. by rewrite !length_insert.
      * intros b. rewrite notices_snoc, bool_decide_false by done. cbn [r_trace]. lia.
    + by rewrite app_nil_r.
  - destruct ((n =? 2) && (src =? ROLE_COMMANDS) && (board <=? COMMS)) eqn:E.
    + bool_facts. subst. by apply (notice_inv board (cmd_port_for_board board)); [lia|..].
    + rewrite app_nil_r. unfold health_monitor_message. rewrite (proj2 (Z.eqb_neq n 0)) by done.
      destruct (n =? 2); cbn [negb andb] in *; [|done].
      destruct (src =? ROLE_COMMANDS); cbn [negb andb] in *; [|done]. bool_facts.
      by rewrite (proj2 (Z.ltb_lt _ _)).
Qed.

End Fdir.

(** ** Examples *)

Definition silent_run : @run (post fdir_message) := mk_run (fdir_init (mk_post [])) (mk_time 10 0) [].

Lemma silent_run_reachable : reachable (mk_time 0 0) (mk_time 0 0) silent_run.
Proof.
  eapply reachable_step; [apply (reachable_init _ _ (mk_post [])); reflexivity|].
  apply step_round. vm_compute. congruence.
Qed.


Definition notice (x : @run (post fdir_message)) : @run (post fdir_message) :=
  mk_run (health_monitor_message 2 ROLE_COMMANDS (mk_time 1 0) ADCS_ADDRESS (r_fdir x)) (r_round x)
    (r_trace x ++ message_events 2 ROLE_COMMANDS ADCS_ADDRESS).

Lemma notice_reachable x :
  reachable (mk_time 0 0) (mk_time 0 0) x -> reachable (mk_time 0 0) (mk_time 0 0) (notice x).
Proof.
  intros Hx. eapply reachable_step; [exact Hx|]. destruct x as [st t tr].
  apply (step_message _ _ 2 ROLE_COMMANDS (mk_time 1 0) ADCS_ADDRESS). unfold ADCS_ADDRESS. lia.
Qed.

