(* ===== verification/Compute.v ===== *)
(** The Compute role: the reply slot between the dispatch thread and the worker
    ([apps/obc/compute/src/dispatch.c]), and the jobs ([worker.c], [ssdv_codec.c]).

    The slot is a monitor: every critical section is one step, and a thread that waits
    on the condition variable takes its step when it wakes.  The worker is a function
    of what [wait_for_reply] returns; [check_cancelled] is asked after each reply.  The
    SSDV library is not part of the repository; its entry points are arguments. *)

From S2P Require Import Prelude ObcProgress ObcIpc DataStore Commander.

Definition COMPUTE_MAX_MSG_SIZE : Z := 256.
Definition WAIT_REPLY_TOO_BIG : Z := -1.
Definition WAIT_REPLY_TIMEOUT : Z := -2.
Definition WAIT_REPLY_ABORTED : Z := -3.

(** ** The reply slot *)
Module Slot.

Record slot := mk_slot {
  reply_buf : list Z;
  reply_len : Z;
  reply_ready : bool;
  reply_epoch : Z;
  epoch_open : bool
}.

Definition dispatch_job_begin (s : slot) : Z * slot :=
  let e := u32 (reply_epoch s + 1) in
  (e, mk_slot (reply_buf s) (reply_len s) false e true).

Definition dispatch_job_end (e : Z) (s : slot) : slot :=
  if (reply_epoch s =? e) && epoch_open s
  then mk_slot (reply_buf s) (reply_len s) false (reply_epoch s) false
  else s.

(** [deliver_reply] after its lock and after each wake-up: [None] when it goes on
    waiting, [false] when the reply is dropped. *)
Definition deliver_check (entry_epoch : Z) (buf : list Z) (length : Z) (timed_out : bool) (s : slot)
    : option (bool * slot) :=
  if reply_ready s && epoch_open s && (reply_epoch s =? entry_epoch) && negb timed_out then None
  else if negb (epoch_open s) || negb (reply_epoch s =? entry_epoch) || reply_ready s
  then Some (false, s)
  else Some (true, mk_slot (patch (reply_buf s) 0 (prefix_of length buf)) length true (reply_epoch s)
                     (epoch_open s)).

(** The part before the lock: oversized messages are ignored. *)
Definition deliver_accepts (length : Z) : bool :=
  negb ((length <? 0) || (COMPUTE_MAX_MSG_SIZE <? length)).

(** [wait_for_reply] after its lock and after each wake-up: [None] when it goes on
    waiting, otherwise the result, the caller's buffer and the slot. *)
Definition wait_check (buf : list Z) (buf_size epoch : Z) (timed_out : bool) (s : slot)
    : option (Z * list Z * slot) :=
  if reply_ready s
  then
    let s' := mk_slot (reply_buf s) (reply_len s) false (reply_epoch s) (epoch_open s) in
    if reply_len s <=? buf_size
    then Some (reply_len s, patch buf 0 (prefix_of (reply_len s) (reply_buf s)), s')
    else Some (WAIT_REPLY_TOO_BIG, buf, s')
  else if timed_out then Some (WAIT_REPLY_TIMEOUT, buf, s)
  else if negb (epoch_open s) || negb (reply_epoch s =? epoch) then Some (WAIT_REPLY_ABORTED, buf, s)
  else None.

(** *** The two threads

    [busy] is [job_busy]: a job begins only when none runs, and its end closes the epoch
    before it clears the flag.  The dispatch thread handles one message at a time:
    [delivering] is the message it waits to deliver.  The log lists the replies stored
    in the slot and those the worker took since the job began. *)
Record monitor := mk_monitor {
  m_slot : slot;
  busy : bool;
  job_epoch : Z;
  delivering : option (Z * list Z * Z);
  stored : list (list Z);
  taken : list (list Z)
}.

Inductive step : monitor -> monitor -> Prop :=
  (* handle_compress_request: runs on the dispatch thread, which delivers nothing then *)
  | step_begin s j st tk e s' :
      dispatch_job_begin s = (e, s') ->
      step (mk_monitor s false j None st tk) (mk_monitor s' true e None [] [])
  (* send_result *)
  | step_end s e d st tk :
      step (mk_monitor s true e d st tk) (mk_monitor (dispatch_job_end e s) false e d st tk)
  (* a message of the Data role arrives *)
  | step_arrive s b e st tk buf n :
      deliver_accepts n = true -> n <= len buf ->
      step (mk_monitor s b e None st tk) (mk_monitor s b e (Some (reply_epoch s, buf, n)) st tk)
  | step_deliver s b e entry buf n timed_out ok s' st tk :
      deliver_check entry buf n timed_out s = Some (ok, s') ->
      step (mk_monitor s b e (Some (entry, buf, n)) st tk)
           (mk_monitor s' b e None (st ++ if ok then [prefix_of n buf] else []) tk)
  (* the worker of the running job *)
  | step_take s e d st tk buf size timed_out r buf' s' :
      wait_check buf size e timed_out s = Some (r, buf', s') ->
      step (mk_monitor s true e d st tk)
           (mk_monitor s' true e d st
              (tk ++ if reply_ready s then [prefix_of (reply_len s) (reply_buf s)] else [])).

Definition slot0 : slot := mk_slot (zeros COMPUTE_MAX_MSG_SIZE) 0 false 0 false.

Inductive reachable : monitor -> Prop :=
  | reachable_init : reachable (mk_monitor slot0 false 0 None [] [])
  | reachable_step s s' : reachable s -> step s s' -> reachable s'.

Definition monitor_inv (s : monitor) : Prop :=
  epoch_open (m_slot s) = busy s
  /\ (busy s = true -> reply_epoch (m_slot s) = job_epoch s)
  /\ (busy s = false -> reply_ready (m_slot s) = false)
  /\ match delivering s with Some (_, buf, n) => 0 <= n <= len buf | None => True end
  /\ (busy s = true ->
      stored s = taken s ++ if reply_ready (m_slot s)
                            then [prefix_of (reply_len (m_slot s)) (reply_buf (m_slot s))] else []).

Lemma slot_reachable_inv s : reachable s -> monitor_inv s.
Proof.
  induction 1 as [|s s' _ IH Hstep]; [by repeat split|].
  destruct Hstep as [s j st tk e s' Hb|s e d st tk|s b e st tk buf n Ha Hn|
    s b e entry buf n to ok s' st tk Hd|s e d st tk buf size to r buf' s' Hw];
    unfold monitor_inv in *; cbn [m_slot busy job_epoch delivering stored taken] in *;
    destruct IH as (Ho & He & Hr & Hd0 & Hl).
  - injection Hb as <- <-. by repeat split.
  - unfold dispatch_job_end. rewrite (He eq_refl), Z.eqb_refl, Ho. cbn [andb].
    cbn [epoch_open reply_ready]. by repeat split.
  - split; [done|]. split; [done|]. split; [done|]. split; [|done].
    unfold deliver_accepts in Ha. bool_facts. lia.
  - unfold deliver_check in Hd. case_if in Hd as E1; [done|]. case_if in Hd as E2; injection Hd as <- <-.
    + rewrite app_nil_r. by split_and!.
    + apply orb_false_iff in E2 as [[E2 E3]%orb_false_iff E4]. apply negb_false_iff in E2.
      cbn [epoch_open reply_epoch reply_ready reply_len reply_buf]. rewrite Ho in E2. subst b.
      split; [done|]. split; [done|]. split; [done|]. split; [done|]. intros _.
      rewrite (Hl eq_refl), E4, app_nil_r. rewrite patch_0, prefix_of_app; [done|].
      rewrite len_prefix_of by lia. done.
  - unfold wait_check in Hw. destruct (reply_ready s) eqn:E.
    + assert (epoch_open s' = epoch_open s /\ reply_epoch s' = reply_epoch s /\ reply_ready s' = false)
        as (-> & -> & ->) by (case_if in Hw as E1; by injection Hw as <- <- <-).
      split; [done|]. split; [done|]. split; [done|]. split; [done|]. intros _.
      by rewrite (Hl eq_refl), app_nil_r.
    + assert (s' = s) as -> by (case_if in Hw as E1; [|case_if in Hw as E2; [|done]]; by injection Hw as <- <- <-).
      rewrite app_nil_r, E. by split_and!.
Qed.

(** C37. The reply slot is a one-place channel for the running job.  Whatever the order in
    which messages arrive, deliveries and waits wake up or time out, and jobs begin and
    end, the replies the worker has taken since its job began are, in order and each
    once, the replies stored since then, except the one still in the slot; none
    that was stored before the job began is among them, and while no job runs the
    slot is empty and closed. *)
Theorem compute_slot_channel s :
  reachable s ->
  (busy s = true ->
     stored s = taken s ++ (if reply_ready (m_slot s)
                            then [prefix_of (reply_len (m_slot s)) (reply_buf (m_slot s))] else [])
     /\ reply_epoch (m_slot s) = job_epoch s /\ epoch_open (m_slot s) = true)
  /\ (busy s = false -> reply_ready (m_slot s) = false /\ epoch_open (m_slot s) = false
       /\ forall entry buf n timed_out,
            deliver_check entry buf n timed_out (m_slot s) = Some (false, m_slot s)).
Proof.
  intros (Ho & He & Hr & _ & Hl)%slot_reachable_inv. split.
  - intros Hb. split; [by apply Hl|]. split; [by apply He|]. congruence.
  - intros Hb. split; [by apply Hr|]. split; [congruence|]. intros entry buf n to.
    unfold deliver_check. by rewrite (Hr Hb), Ho, Hb.
Qed.

Lemma compute_slot_channel_witness :
  let s1 := mk_slot (zeros 256) 0 false 1 true in
  let s2 := mk_slot (patch (zeros 256) 0 [7]) 1 true 1 true in
  reachable (mk_monitor s2 true 1 None [[7]] [])
  /\ [[7]] = [] ++ (if reply_ready s2 then [prefix_of (reply_len s2) (reply_buf s2)] else []).
Proof.
  cbv zeta.
  assert (reachable (mk_monitor (mk_slot (patch (zeros 256) 0 [7]) 1 true 1 true) true 1 None [[7]] [])) as Hr.
  { eapply reachable_step.
    { eapply reachable_step.
      { eapply reachable_step; [apply reachable_init|]. apply (step_begin slot0 0 [] [] 1 (mk_slot (zeros 256) 0 false 1 true)).
        reflexivity. }
      apply (step_arrive _ _ _ _ _ [7] 1); [reflexivity|]. unfold len. cbn. lia. }
    apply (step_deliver (mk_slot (zeros 256) 0 false 1 true) true 1 1 [7] 1 false true). reflexivity. }
  split; [exact Hr|].
  exact (proj1 (proj1 (compute_slot_channel _ Hr) eq_refl)).
Defined.

End Slot.
