(* ===== verification/Worker.v ===== *)
(** The jobs of the Compute role: [apps/obc/compute/src/ssdv_codec.c], [worker.c],
    [compute_health.c] and the message loop of [dispatch.c].

    The SSDV library is not part of the repository: [Ssdv] lists the entry points the
    codec calls.  A job runs against a list of events; each is one wake-up of
    [wait_for_reply] with the reply slot it finds (Compute.v says which slots can be
    found), and the requests the dispatch thread handles before the worker goes on. *)

From stdpp Require Import gmap.
From S2P Require Import Prelude Text ObcProgress ObcIpc DataStore Commander Compute.

(** ** The SSDV codec *)
Module Codec.

Definition SSDV_FEED_CHUNK : Z := 128.
Definition SSDV_QUALITY : Z := 4.
Definition LG_SSDV_PACKET_SIZE : Z := 214.

(** The codes of the library that the codec tells apart. *)
Inductive ssdv_code := SSDV_OK | SSDV_FEED_ME | SSDV_EOI | SSDV_ERROR.

(** [ssdv_enc_get_packet] fills the buffer given to [ssdv_enc_set_buffer]. *)
Class Ssdv (E : Type) := {
  ssdv_enc_init : list Z -> Z -> Z -> Z -> ssdv_code * E;
  ssdv_enc_get_packet : E -> list Z -> ssdv_code * list Z * E;
  ssdv_enc_feed : E -> list Z -> E
}.

Section Encode.
Context {E : Type} `{Ssdv E}.

(** The two loops of [ssdv_encode_image]: one call of [ssdv_enc_get_packet] in each
    round.  [jpeg] are the [jpeg_len] bytes of the image. *)
Fixpoint encode_loop (fuel : nat) (jpeg : list Z) (out_cap : Z) (e : E) (pkt : list Z)
    (in_offset written : Z) (out : list Z) : option (Z * list Z * Z) :=
  match fuel with
  | O => None
  | S fuel =>
      match ssdv_enc_get_packet e pkt with
      | (SSDV_FEED_ME, pkt, e) =>
          let remaining := len jpeg - in_offset in
          if remaining =? 0 then Some (-1, out, written)
          else
            let chunk := if remaining <? SSDV_FEED_CHUNK then remaining else SSDV_FEED_CHUNK in
            encode_loop fuel jpeg out_cap (ssdv_enc_feed e (prefix_of chunk (skip in_offset jpeg)))
              pkt (in_offset + chunk) written out
      | (SSDV_EOI, _, _) => Some (0, out, written)
      | (SSDV_ERROR, _, _) => Some (-1, out, written)
      | (SSDV_OK, pkt, e) =>
          if out_cap <? written + LG_SSDV_PACKET_SIZE then Some (-1, out, written)
          else
            encode_loop fuel jpeg out_cap e pkt in_offset (written + LG_SSDV_PACKET_SIZE)
              (patch out written (prefix_of LG_SSDV_PACKET_SIZE pkt))
      end
  end.

(** A round consumes a part of the image, or a packet's room in [out], or ends. *)
Definition encode_fuel (jpeg : list Z) (out_cap : Z) : nat := Z.to_nat (len jpeg + out_cap + 1).

(** The result, [out] and [*out_len] (unchanged on a failure). *)
Definition ssdv_encode_image (jpeg callsign : list Z) (image_id : Z) (pkt0 out : list Z)
    (out_cap out_len : Z) : option (Z * list Z * Z) :=
  match ssdv_enc_init callsign image_id SSDV_QUALITY LG_SSDV_PACKET_SIZE with
  | (SSDV_OK, e) =>
      match encode_loop (encode_fuel jpeg out_cap) jpeg out_cap e pkt0 0 0 out with
      | None => None
      | Some (0, out, written) => Some (0, out, written)
      | Some (r, out, _) => Some (r, out, out_len)
      end
  | (_, _) => Some (-1, out, out_len)
  end.

(** What the library makes of an image fed in pieces: the packets it gives until it
    reports the end of the image. *)
Inductive encodes : E -> list Z -> list Z -> list (list Z) -> Prop :=
  | encodes_end e pkt rest pkt' e' :
      ssdv_enc_get_packet e pkt = (SSDV_EOI, pkt', e') -> encodes e pkt rest []
  | encodes_feed e pkt rest pkt' e' packets :
      ssdv_enc_get_packet e pkt = (SSDV_FEED_ME, pkt', e') -> rest <> [] ->
      encodes (ssdv_enc_feed e' (prefix_of SSDV_FEED_CHUNK rest)) pkt' (skip SSDV_FEED_CHUNK rest) packets ->
      encodes e pkt rest packets
  | encodes_packet e pkt rest pkt' e' packets :
      ssdv_enc_get_packet e pkt = (SSDV_OK, pkt', e') ->
      encodes e' pkt' rest packets ->
      encodes e pkt rest (prefix_of LG_SSDV_PACKET_SIZE pkt' :: packets).

(** The library never shortens the packet buffer. *)
Definition keeps_buffer : Prop :=
  forall e pkt, LG_SSDV_PACKET_SIZE <= len pkt ->
    let '(_, pkt', _) := ssdv_enc_get_packet e pkt in LG_SSDV_PACKET_SIZE <= len pkt'.

End Encode.
(** *** The codec is the library's encoder *)
Section Spec.
Context {E : Type} `{Ssdv E}.
Implicit Types jpeg pkt rest out : list Z.

Lemma encode_loop_total fuel jpeg out_cap e pkt in_offset written out :
  0 <= in_offset <= len jpeg -> written <= out_cap ->
  len jpeg - in_offset + (out_cap - written) < Z.of_nat fuel ->
  exists r, encode_loop fuel jpeg out_cap e pkt in_offset written out = Some r.
Proof.
  revert e pkt in_offset written out. induction fuel as [|fuel IH]; intros e pkt i w out Hi Hw Hf; [lia|].
  cbn [encode_loop]. unfold SSDV_FEED_CHUNK, LG_SSDV_PACKET_SIZE in *.
  destruct (ssdv_enc_get_packet e pkt) as [[[] pkt'] e']; [| |by eexists..].
  - case_if as E1; [by eexists|]. bool_facts. apply IH; lia.
  - case_if as E1; [by eexists|]. bool_facts. case_if as E2; bool_facts; apply IH; lia.
Qed.

Lemma skip_rest n i (l : list Z) : 0 <= i -> 0 <= n -> skip n (skip i l) = skip (i + n) l.
Proof. intros. apply skip_skip; lia. Qed.

(** The piece fed to the library is what is left of the image, up to a feed chunk. *)
Lemma fed_piece jpeg i :
  0 <= i <= len jpeg ->
  let remaining := len jpeg - i in
  let chunk := if remaining <? SSDV_FEED_CHUNK then remaining else SSDV_FEED_CHUNK in
  prefix_of chunk (skip i jpeg) = prefix_of SSDV_FEED_CHUNK (skip i jpeg)
  /\ skip SSDV_FEED_CHUNK (skip i jpeg) = skip (i + chunk) jpeg.
Proof.
  intros Hi. cbv zeta. unfold SSDV_FEED_CHUNK. case_if as E1; bool_facts.
  - rewrite !prefix_of_all by (rewrite len_skip; lia). split; [done|].
    rewrite !skip_all by (rewrite ?len_skip; lia). done.
  - by rewrite skip_rest by lia.
Qed.

Lemma encode_loop_sound fuel jpeg out_cap e pkt i w out out' n :
  keeps_buffer (E:=E) -> LG_SSDV_PACKET_SIZE <= len pkt -> 0 <= i <= len jpeg -> 0 <= w <= out_cap ->
  out_cap <= len out ->
  encode_loop fuel jpeg out_cap e pkt i w out = Some (0, out', n) ->
  exists packets, encodes e pkt (skip i jpeg) packets
    /\ n = w + LG_SSDV_PACKET_SIZE * len packets /\ n <= out_cap
    /\ prefix_of n out' = prefix_of w out ++ concat packets /\ len out' = len out.
Proof.
  intros Hkeep. revert e pkt i w out. induction fuel as [|fuel IH]; intros e pkt i w out Hp Hi Hw Ho; [done|].
  cbn [encode_loop]. pose proof (Hkeep e pkt Hp) as Hk.
  destruct (ssdv_enc_get_packet e pkt) as [[[] pkt'] e'] eqn:Eg.
  - case_if as E1; [done|]. bool_facts. intros Hl.
    assert (len (prefix_of LG_SSDV_PACKET_SIZE pkt') = LG_SSDV_PACKET_SIZE) as Hlp.
    { apply len_prefix_of. unfold LG_SSDV_PACKET_SIZE in *. lia. }
    unfold LG_SSDV_PACKET_SIZE in *.
    assert (len (patch out w (prefix_of 214 pkt')) = len out) as Hlo by (apply len_patch; lia).
    apply IH in Hl as (ps & He & -> & Hc & Hpre & Hlen); [|lia..].
    exists (prefix_of 214 pkt' :: ps). rewrite len_cons. split_and!; [by eapply encodes_packet|lia|lia| |lia].
    replace (w + 214 * (1 + len ps)) with (w + 214 + 214 * len ps) by lia.
    rewrite Hpre. cbn [concat]. rewrite app_assoc. f_equal. unfold patch.
    rewrite app_assoc. apply prefix_of_app. rewrite len_app, len_prefix_of by lia. lia.
  - case_if as E1; [done|]. bool_facts. intros Hl. destruct (fed_piece jpeg i Hi) as [Hf Hs].
    cbv zeta in Hf, Hs. rewrite Hf in Hl.
    assert (0 <= i + (if len jpeg - i <? SSDV_FEED_CHUNK then len jpeg - i else SSDV_FEED_CHUNK) <= len jpeg).
    { unfold SSDV_FEED_CHUNK. case_if as E2; bool_facts; lia. }
    apply IH in Hl as (ps & He & Hn & Hc & Hpre & Hlen); [|done..].
    exists ps. split_and!; [|done..]. eapply encodes_feed; [exact Eg| |by rewrite Hs].
    intros Hnil. assert (len (skip i jpeg) = 0) as H1 by (by rewrite Hnil). rewrite len_skip in H1 by lia. lia.
  - intros [= <- <-]. exists []. split_and!; [by eapply encodes_end|rewrite (len_nil (A:=list Z)); lia|lia|cbn; by rewrite app_nil_r|done].
  - done.
Qed.

Lemma encode_loop_complete jpeg out_cap e pkt rest packets :
  encodes e pkt rest packets ->
  forall fuel i w out, rest = skip i jpeg -> 0 <= i <= len jpeg ->
  w + LG_SSDV_PACKET_SIZE * len packets <= out_cap ->
  len jpeg - i + (out_cap - w) < Z.of_nat fuel ->
  exists out' n, encode_loop fuel jpeg out_cap e pkt i w out = Some (0, out', n).
Proof.
  pose proof (len_nonneg (A:=list Z)) as Hnn. unfold LG_SSDV_PACKET_SIZE.
  induction 1 as [e pkt rest pkt' e' Eg|e pkt rest pkt' e' ps Eg Hne He IH|e pkt rest pkt' e' ps Eg He IH];
    intros fuel i w out -> Hi Hw Hf.
  - specialize (Hnn []). destruct fuel as [|fuel]; [lia|]. cbn [encode_loop]. rewrite Eg. by eexists _, _.
  - specialize (Hnn ps). destruct fuel as [|fuel]; [lia|]. cbn [encode_loop]. rewrite Eg.
    destruct (fed_piece jpeg i Hi) as [Hfp Hs]. cbv zeta in Hfp, Hs. rewrite Hfp.
    assert (len jpeg - i <> 0) as Hr.
    { intros Hr. apply Hne. apply len_0_nil. rewrite len_skip by lia. lia. }
    rewrite (proj2 (Z.eqb_neq _ _) Hr).
    apply IH; [done| |lia|]; unfold SSDV_FEED_CHUNK; case_if as E2; bool_facts; lia.
  - specialize (Hnn ps). rewrite len_cons in Hw. destruct fuel as [|fuel]; [lia|].
    cbn [encode_loop]. rewrite Eg. unfold LG_SSDV_PACKET_SIZE.
    rewrite (proj2 (Z.ltb_ge _ _)) by lia. apply IH; [done|done|lia|lia].
Qed.

(** The library is deterministic, so an image has one encoding. *)
Lemma encodes_unique e pkt rest ps ps' : encodes e pkt rest ps -> encodes e pkt rest ps' -> ps = ps'.
Proof.
  intros Ha. revert ps'. induction Ha; intros ps'' Hb; inversion Hb; subst;
    match goal with A : ssdv_enc_get_packet ?x ?y = _, B : ssdv_enc_get_packet ?x ?y = _ |- _ => rewrite A in B end;
    simplify_eq; try done; f_equal; auto.
Qed.

Lemma encodes_size e pkt rest ps : encodes e pkt rest ps -> len (concat ps) <= LG_SSDV_PACKET_SIZE * len ps.
Proof.
  induction 1; [done|done|]. cbn [concat]. rewrite len_app, len_cons.
  pose proof (len_prefix_of_le LG_SSDV_PACKET_SIZE pkt'). unfold LG_SSDV_PACKET_SIZE in *. lia.
Qed.

Lemma encode_loop_code fuel jpeg out_cap e pkt i w out r :
  encode_loop fuel jpeg out_cap e pkt i w out = Some r -> r.1.1 = 0 \/ r.1.1 = -1.
Proof.
  revert e pkt i w out. induction fuel as [|fuel IH]; intros e pkt i w out; [done|]. cbn [encode_loop].
  destruct (ssdv_enc_get_packet e pkt) as [[[] pkt'] e']; try (intros [= <-]; auto; fail);
    (case_if as E1; [intros [= <-]; auto|apply IH]).
Qed.

Lemma encode_loop_len fuel jpeg out_cap e pkt i w out r out' n :
  keeps_buffer (E:=E) -> LG_SSDV_PACKET_SIZE <= len pkt -> 0 <= w -> out_cap <= len out ->
  encode_loop fuel jpeg out_cap e pkt i w out = Some (r, out', n) -> len out' = len out.
Proof.
  intros Hkeep. unfold LG_SSDV_PACKET_SIZE in *. revert e pkt i w out.
  induction fuel as [|fuel IH]; intros e pkt i w out Hp Hw Ho; [done|]. cbn [encode_loop].
  pose proof (Hkeep e pkt Hp) as Hk. destruct (ssdv_enc_get_packet e pkt) as [[[] pkt'] e']; try congruence.
  - unfold LG_SSDV_PACKET_SIZE in *. case_if as E1; [congruence|]. bool_facts.
    assert (len (patch out w (prefix_of 214 pkt')) = len out) as Hl.
    { apply len_patch; [done|]. rewrite len_prefix_of by lia. lia. }
    intros Hr. rewrite <- Hl. apply (IH _ _ _ _ _ Hk) in Hr; [exact Hr|lia|lia].
  - case_if as E1; [congruence|]. by apply IH.
Qed.

Lemma encode_spec jpeg callsign image_id pkt0 out out_cap out_len :
  keeps_buffer (E:=E) -> LG_SSDV_PACKET_SIZE <= len pkt0 -> 0 <= out_cap <= len out ->
  exists r out' n, ssdv_encode_image jpeg callsign image_id pkt0 out out_cap out_len = Some (r, out', n)
    /\ (r = 0 \/ r = -1) /\ len out' = len out
    /\ (r = 0 <-> exists e packets,
          ssdv_enc_init callsign image_id SSDV_QUALITY LG_SSDV_PACKET_SIZE = (SSDV_OK, e)
          /\ encodes e pkt0 jpeg packets /\ LG_SSDV_PACKET_SIZE * len packets <= out_cap)
    /\ forall e packets,
          ssdv_enc_init callsign image_id SSDV_QUALITY LG_SSDV_PACKET_SIZE = (SSDV_OK, e) ->
          r = 0 -> encodes e pkt0 jpeg packets ->
          n = LG_SSDV_PACKET_SIZE * len packets /\ prefix_of n out' = concat packets.
Proof.
  intros Hkeep Hp Hc. unfold ssdv_encode_image.
  destruct (ssdv_enc_init _ _ _ _) as [code e] eqn:Ei.
  destruct code;
    try (exists (-1), out, out_len; split; [done|]; split; [by right|]; split; [done|]; split;
         [split; [done|by intros (? & ? & [=] & _)]|done]).
  destruct (encode_loop_total (encode_fuel jpeg out_cap) jpeg out_cap e pkt0 0 0 out) as [[[r out'] n] El].
  { pose proof (len_nonneg jpeg). lia. }
  { lia. }
  { unfold encode_fuel. pose proof (len_nonneg jpeg). lia. }
  rewrite El. pose proof (encode_loop_code _ _ _ _ _ _ _ _ _ El) as Hr. cbn in Hr.
  exists r, out', (if r =? 0 then n else out_len).
  split; [by destruct Hr as [-> | ->]|]. split; [done|].
  split; [eapply encode_loop_len; [exact Hkeep|exact Hp| |apply Hc|exact El]; lia|].
  assert (r = 0 -> exists ps, encodes e pkt0 jpeg ps /\ n = LG_SSDV_PACKET_SIZE * len ps
            /\ n <= out_cap /\ prefix_of n out' = concat ps /\ len out' = len out) as Hs.
  { intros ->. apply encode_loop_sound in El; [|done|done|pose proof (len_nonneg jpeg); lia|lia|lia].
    destruct El as (ps & He & Hn & Hle & Hpre & Hlen). rewrite skip_0 in He. rewrite prefix_of_0 in Hpre.
    by exists ps. }
  split.
  - split.
    + intros H0. destruct (Hs H0) as (ps & He & Hn & Hle & _). exists e, ps. split; [done|]. split; [done|lia].
    + intros (e1 & ps & [= <-] & He & Hle).
      destruct (encode_loop_complete jpeg out_cap e pkt0 jpeg ps He (encode_fuel jpeg out_cap) 0 0 out)
        as (o & m & Hl); [by rewrite skip_0|pose proof (len_nonneg jpeg); lia|lia| |congruence].
      unfold encode_fuel. pose proof (len_nonneg jpeg). lia.
  - intros e1 ps [= <-] H0 He. destruct (Hs H0) as (ps' & He' & Hn & _ & Hpre & Hlen).
    subst r. cbn [Z.eqb].
    by rewrite (encodes_unique _ _ _ _ _ He He').
Qed.
(** The codec always returns, whatever the SSDV library does with the pieces of the
    image, as long as the library keeps to its packet buffer.  It succeeds exactly when
    the library, fed the image in order in pieces of at most 128 bytes, reports the end
    of the image after packets that fit [out]; then [*out_len] is 214 times their number
    and [out] starts with them in order.  It never writes behind [out_cap]. *)
Theorem ssdv_encode_image_refines jpeg callsign image_id pkt0 out out_cap out_len :
  keeps_buffer (E:=E) -> LG_SSDV_PACKET_SIZE <= len pkt0 -> 0 <= out_cap <= len out ->
  exists r out' n, ssdv_encode_image jpeg callsign image_id pkt0 out out_cap out_len = Some (r, out', n)
    /\ (r = 0 \/ r = -1) /\ len out' = len out
    /\ (r = 0 <-> exists e packets,
          ssdv_enc_init callsign image_id SSDV_QUALITY LG_SSDV_PACKET_SIZE = (SSDV_OK, e)
          /\ encodes e pkt0 jpeg packets /\ LG_SSDV_PACKET_SIZE * len packets <= out_cap)
    /\ forall e packets,
          ssdv_enc_init callsign image_id SSDV_QUALITY LG_SSDV_PACKET_SIZE = (SSDV_OK, e) ->
          r = 0 -> encodes e pkt0 jpeg packets ->
          n = LG_SSDV_PACKET_SIZE * len packets /\ prefix_of n out' = concat packets.
Proof. apply encode_spec. Qed.
End Spec.

(** A small encoder: each piece it is fed becomes one padded packet, and a piece that ends
    with the last byte of the JPEG end marker ends the image. *)
Definition pad_encoder : Type := option (list Z) * bool.

#[global] Instance pad_ssdv : Ssdv pad_encoder := {
  ssdv_enc_init _ _ _ _ := (SSDV_OK, (None, false));
  ssdv_enc_get_packet e pkt :=
    match e with
    | (Some piece, ended) => (SSDV_OK, patch pkt 0 (prefix_of 128 piece), (None, ended))
    | (None, true) => (SSDV_EOI, pkt, e)
    | (None, false) => (SSDV_FEED_ME, pkt, e)
    end;
  ssdv_enc_feed _ piece := (Some piece, byte_at piece (len piece - 1) =? 217)
}.

Lemma pad_keeps_buffer : keeps_buffer (E:=pad_encoder).
Proof.
  intros [[piece|] []] pkt Hl; cbn [ssdv_enc_get_packet pad_ssdv]; try done;
    unfold LG_SSDV_PACKET_SIZE in *; rewrite patch_0, len_app;
    assert (len (prefix_of 128 piece) <= 128) by (unfold len, prefix_of; rewrite length_take; lia);
    rewrite len_skip by apply len_nonneg; lia.
Qed.

Definition sample_jpeg : list Z := [255; 216; 7; 255; 217].
Definition sample_packet : list Z := sample_jpeg ++ zeros 209.

Lemma sample_encodes :
  encodes (E:=pad_encoder) (None, false) (zeros 256) sample_jpeg [sample_packet].
Proof.
  eapply encodes_feed; [reflexivity|done|].
  change [sample_packet] with [prefix_of LG_SSDV_PACKET_SIZE (patch (zeros 256) 0 (prefix_of 128 sample_jpeg))].
  eapply encodes_packet; [reflexivity|].
  by eapply encodes_end.
Qed.

Lemma ssdv_encode_image_refines_witness :
  exists out' n,
    ssdv_encode_image (E:=pad_encoder) sample_jpeg [67; 79; 77] 7 (zeros 256) (zeros 1024) 1024 0
      = Some (0, out', n)
    /\ n = 214 /\ prefix_of n out' = sample_packet.
Proof.
  destruct (ssdv_encode_image_refines (E:=pad_encoder) sample_jpeg [67; 79; 77] 7 (zeros 256) (zeros 1024) 1024 0
    pad_keeps_buffer) as (r & out' & n & He & _ & _ & Hiff & Hout);
    [vm_compute; congruence|vm_compute; split; congruence|].
  assert (r = 0) as Hr.
  { apply Hiff. exists (None, false), [sample_packet]. split; [reflexivity|].
    split; [exact sample_encodes|vm_compute; congruence]. }
  subst r. destruct (Hout (None, false) [sample_packet] eq_refl eq_refl sample_encodes) as [Hn Hp].
  exists out', n. split; [exact He|]. split; [exact Hn|exact Hp].
Defined.
End Codec.

(** ** Health watches of the Compute role *)
Module Health.

Definition DISPATCH_STALL_TIMEOUT_MS : Z := 3000.
Definition WORKER_STALL_TIMEOUT_MS : Z := 10000.

Record watches := mk_watches {
  dispatch_watch : obc_progress_t;
  worker_watch : obc_progress_t
}.

(** [t] is the value of [timeout_from_env]; [m1], [m2] are what the two mutex
    initialisations return. *)
Definition compute_health_init (t m1 m2 : Z) (n1 n2 n3 : timespec) (w : watches) : Z * watches :=
  match obc_progress_init (Some (dispatch_watch w)) DISPATCH_STALL_TIMEOUT_MS m1 n1 with
  | (0, Some d) =>
      match obc_progress_init (Some (worker_watch w)) t m2 n2 with
      | (0, Some k) => (0, mk_watches (obc_progress_begin n3 d) k)
      | (r, _) => (r, mk_watches d (worker_watch w))
      end
  | (r, _) => (r, w)
  end.

Definition compute_health_dispatch_progress (now : timespec) (w : watches) : watches :=
  mk_watches (obc_progress_touch now (dispatch_watch w)) (worker_watch w).
Definition compute_health_worker_begin (now : timespec) (w : watches) : watches :=
  mk_watches (dispatch_watch w) (obc_progress_begin now (worker_watch w)).
Definition compute_health_worker_progress (now : timespec) (w : watches) : watches :=
  mk_watches (dispatch_watch w) (obc_progress_touch now (worker_watch w)).
Definition compute_health_worker_end (w : watches) : watches :=
  mk_watches (dispatch_watch w) (obc_progress_end (worker_watch w)).

Definition compute_health_is_healthy (n1 n2 : timespec) (w : watches) : bool :=
  obc_progress_is_healthy n1 (dispatch_watch w) && obc_progress_is_healthy n2 (worker_watch w).

(** One round of the heartbeat thread ([compute/src/heartbeat.c]). *)
Definition heartbeat_round (n1 n2 : timespec) (w : watches) : list Z * bool :=
  let healthy := compute_health_is_healthy n1 n2 w in
  (if healthy then [ROLE_FDIR; ROLE_SUPERVISOR] else [], healthy).

End Health.

(** ** Messages *)

Definition CALL_SIGN : list Z := [67; 79; 77].
Definition COMPUTE_MAX_DATA_SIZE : Z := 64 * 1024.
Definition COMPUTE_COMPRESSED_CAP : Z := COMPUTE_MAX_DATA_SIZE + 1024.

(** The sizes of the message structures. *)
Definition sizeof_read_reply : Z := 212.
Definition sizeof_write_ack : Z := 4.
Definition sizeof_compress_request : Z := 136.
Definition sizeof_cancel_request : Z := 4.

Record compute_compress_request_t := mk_compress {
  cq_job_id : Z;
  cq_in_path : list Z;
  cq_out_path : list Z;
  cq_sample_width : Z
}.

Definition compress_request_of (buf : list Z) : compute_compress_request_t :=
  mk_compress (le32 buf 0) (prefix_of COMPUTE_MAX_PATH (skip 4 buf))
    (prefix_of COMPUTE_MAX_PATH (skip 68 buf)) (byte_at buf 132).

(** An [int] read from its bytes. *)
Definition int_of (v : Z) : Z := if v <? 2147483648 then v else v - 4294967296.

Definition read_reply_of (buf : list Z) : data_read_reply_t :=
  mk_read_reply (int_of (le32 buf 0)) (le32 buf 4) (le16 buf 8) (byte_at buf 10)
    (prefix_of DATA_CHUNK_SIZE (skip 11 buf)).

Inductive compute_message :=
  | Read_file (path : list Z)
  | Write_chunk (path : list Z) (offset length is_last : Z) (payload : list Z)
  | Result (r : compute_result_t).

Record worker_job_t := mk_job {
  req : compute_compress_request_t;
  requester : Z;
  epoch : Z
}.

(** Requests the dispatch thread handles while a job runs. *)
Inductive request :=
  | Compress (buf : list Z) (src : Z)
  | Cancel (buf : list Z).

(** A wake-up of [wait_for_reply]: the slot it finds, whether its wait timed out, and the
    requests handled before the worker goes on. *)
Record event := mk_event {
  e_slot : Slot.slot;
  e_timed_out : bool;
  e_requests : list request
}.

Section Compute.
Context {L E : Type} `{Ipc compute_message L} `{Codec.Ssdv E}.
(** The clock, the uninitialised buffers of the stack, and what lies in memory behind a
    reply. *)
Context (clock : nat -> timespec) (buf0 ack0 pkt0 behind : list Z).

Record compute := mk_compute {
  watches : Health.watches;
  ticks : nat;
  link : L;
  slot : Slot.slot;
  job_busy : bool;
  job_id_running : Z;
  job_cancel_requested : bool;
  image_id_counter : Z;
  input_buf : list Z;
  compressed_buf : list Z
}.

Definition set_watches w st := mk_compute w (ticks st) (link st) (slot st) (job_busy st)
  (job_id_running st) (job_cancel_requested st) (image_id_counter st) (input_buf st) (compressed_buf st).
Definition tick st := mk_compute (watches st) (S (ticks st)) (link st) (slot st) (job_busy st)
  (job_id_running st) (job_cancel_requested st) (image_id_counter st) (input_buf st) (compressed_buf st).
Definition set_link l st := mk_compute (watches st) (ticks st) l (slot st) (job_busy st)
  (job_id_running st) (job_cancel_requested st) (image_id_counter st) (input_buf st) (compressed_buf st).
Definition set_slot s st := mk_compute (watches st) (ticks st) (link st) s (job_busy st)
  (job_id_running st) (job_cancel_requested st) (image_id_counter st) (input_buf st) (compressed_buf st).
Definition set_job b id c st := mk_compute (watches st) (ticks st) (link st) (slot st) b id c
  (image_id_counter st) (input_buf st) (compressed_buf st).
Definition set_image_id_counter n st := mk_compute (watches st) (ticks st) (link st) (slot st)
  (job_busy st) (job_id_running st) (job_cancel_requested st) n (input_buf st) (compressed_buf st).
Definition set_input_buf b st := mk_compute (watches st) (ticks st) (link st) (slot st) (job_busy st)
  (job_id_running st) (job_cancel_requested st) (image_id_counter st) b (compressed_buf st).
Definition set_compressed_buf b st := mk_compute (watches st) (ticks st) (link st) (slot st)
  (job_busy st) (job_id_running st) (job_cancel_requested st) (image_id_counter st) (input_buf st) b.

Definition now (st : compute) : timespec := clock (ticks st).

(** [IPC_send]; the callers ignore its result. *)
Definition send (dest : Z) (m : compute_message) (st : compute) : compute :=
  set_link (snd (ipc_send dest m (link st))) st.

Definition worker_progress (st : compute) : compute :=
  tick (set_watches (Health.compute_health_worker_progress (now st) (watches st)) st).

Definition check_cancelled (job_id : Z) (st : compute) : bool :=
  job_busy st && (job_id_running st =? job_id) && job_cancel_requested st.

Definition send_result (job : worker_job_t) (status output_size : Z) (st : compute) : compute :=
  let st := send (requester job) (Result (mk_result (cq_job_id (req job)) status output_size)) st in
  let st := set_slot (Slot.dispatch_job_end (epoch job) (slot st)) st in
  let st := set_watches (Health.compute_health_worker_end (watches st)) st in
  set_job false (job_id_running st) (job_cancel_requested st) st.

(** A job that is to run on a new thread, when [pthread_create] succeeds. *)
Definition handle_compress_request (create_ok : bool) (buf : list Z) (src : Z) (st : compute)
    : option worker_job_t * compute :=
  let r := compress_request_of buf in
  let r := mk_compress (cq_job_id r) (patch (cq_in_path r) (COMPUTE_MAX_PATH - 1) [0])
             (patch (cq_out_path r) (COMPUTE_MAX_PATH - 1) [0]) (cq_sample_width r) in
  if job_busy st
  then (None, send src (Result (mk_result (cq_job_id r) COMPUTE_STATUS_BUSY 0)) st)
  else
    let st := set_job true (cq_job_id r) false st in
    let '(e, s) := Slot.dispatch_job_begin (slot st) in
    let st := set_slot s st in
    let job := mk_job r src e in
    let st := tick (set_watches (Health.compute_health_worker_begin (now st) (watches st)) st) in
    if create_ok then (Some job, st) else (None, send_result job COMPUTE_STATUS_FAILED 0 st).

Definition handle_cancel_request (buf : list Z) (st : compute) : compute :=
  if job_busy st && (job_id_running st =? le32 buf 0)
  then set_job true (job_id_running st) true st
  else st.

(** While a job runs no other is started: [handle_compress_request] answers BUSY. *)
Definition handle_request (r : request) (st : compute) : compute :=
  match r with
  | Compress buf src => snd (handle_compress_request true buf src st)
  | Cancel buf => handle_cancel_request buf st
  end.

Definition handle_requests (rs : list request) (st : compute) : compute :=
  fold_left (fun st r => handle_request r st) rs st.

(** One round of [dispatch_thread].  [None]: it waits in [deliver_reply] for the slot. *)
Definition dispatch_round (r : received) (buf : list Z) (create_ok timed_out : bool) (st : compute)
    : option (option worker_job_t * compute) :=
  let progress st := tick (set_watches (Health.compute_health_dispatch_progress (now st) (watches st)) st) in
  match r with
  | Got_timeout => Some (None, progress st)
  | Got_error => Some (None, st)
  | Got_message src length =>
      if src =? ROLE_DATA
      then
        if Slot.deliver_accepts length
        then
          match Slot.deliver_check (Slot.reply_epoch (slot st)) buf length timed_out (slot st) with
          | None => None
          | Some (_, s) => Some (None, progress (set_slot s st))
          end
        else Some (None, progress st)
      else if length =? sizeof_compress_request
      then let '(job, st) := handle_compress_request create_ok buf src st in Some (job, progress st)
      else if length =? sizeof_cancel_request
      then Some (None, progress (handle_cancel_request buf st))
      else Some (None, progress st)
  end.

(** ** The worker

    [Job_done]: the thread ended; [Job_overrun]: a [memcpy] wrote behind [input_buf]. *)
Inductive outcome := Job_done (st : compute) | Job_overrun.

Definition finish (job : worker_job_t) (status : Z) (st : compute) : option outcome :=
  Some (Job_done (send_result job status 0 st)).

Definition chunk_len_of (compressed_len written : Z) : Z :=
  let chunk_len := compressed_len - written in
  if DATA_WRITE_CHUNK_SIZE <? chunk_len then DATA_WRITE_CHUNK_SIZE else chunk_len.

Definition chunk_message (job : worker_job_t) (out : list Z) (compressed_len written : Z)
    : compute_message :=
  let chunk_len := chunk_len_of compressed_len written in
  Write_chunk (snprintf_s DATA_MAX_PATH (cq_out_path (req job))) (u32 written) (u16 chunk_len)
    (if compressed_len <=? written + chunk_len then 1 else 0)
    (patch (zeros DATA_WRITE_CHUNK_SIZE) 0 (prefix_of chunk_len (skip written out))).

Definition send_chunk (job : worker_job_t) (compressed_len written : Z) (st : compute) : compute :=
  send ROLE_DATA (chunk_message job (compressed_buf st) compressed_len written) st.

(** The write loop from [wait_for_reply] on: the chunk at [written] was sent.  The top of
    the next iteration, up to its send, follows the end of the body. *)
Fixpoint write_loop (events : list event) (job : worker_job_t) (compressed_len written : Z)
    (st : compute) : option outcome :=
  match events with
  | [] => None
  | e :: events =>
      match Slot.wait_check ack0 sizeof_write_ack (epoch job) (e_timed_out e) (e_slot e) with
      | None => write_loop events job compressed_len written (handle_requests (e_requests e) st)
      | Some (length, ack_buf, s) =>
          let st := handle_requests (e_requests e) (set_slot s st) in
          if length <? 0 then finish job COMPUTE_STATUS_TIMEOUT st
          else if negb (length =? sizeof_write_ack) || negb (int_of (le32 ack_buf 0) =? 0)
          then finish job COMPUTE_STATUS_FAILED st
          else
            let written := written + chunk_len_of compressed_len written in
            let st := worker_progress st in
            if check_cancelled (cq_job_id (req job)) st then finish job COMPUTE_STATUS_CANCELLED st
            else if written <? compressed_len
            then
              write_loop events job compressed_len written
                (send_chunk job compressed_len written st)
            else Some (Job_done (send_result job COMPUTE_STATUS_OK (u32 compressed_len) st))
      end
  end.

(** From the end of the read loop on. *)
Definition compress_and_write (events : list event) (job : worker_job_t) (input_len : Z) (st : compute)
    : option outcome :=
  let image_id := image_id_counter st in
  let st := set_image_id_counter (image_id + 1) st in
  match Codec.ssdv_encode_image (prefix_of input_len (input_buf st)) CALL_SIGN (u8 image_id) pkt0
          (compressed_buf st) COMPUTE_COMPRESSED_CAP 0 with
  | None => None
  | Some (r, out, compressed_len) =>
      let st := set_compressed_buf out st in
      if negb (r =? 0) then finish job COMPUTE_STATUS_FAILED st
      else
        let st := worker_progress st in
        if check_cancelled (cq_job_id (req job)) st then finish job COMPUTE_STATUS_CANCELLED st
        else if 0 <? compressed_len
        then
          write_loop events job compressed_len 0
            (send_chunk job compressed_len 0 st)
        else Some (Job_done (send_result job COMPUTE_STATUS_OK (u32 compressed_len) st))
  end.

Fixpoint read_loop (events : list event) (job : worker_job_t) (input_len : Z) (st : compute)
    : option outcome :=
  match events with
  | [] => None
  | e :: events =>
      match Slot.wait_check buf0 sizeof_read_reply (epoch job) (e_timed_out e) (e_slot e) with
      | None => read_loop events job input_len (handle_requests (e_requests e) st)
      | Some (length, buf, s) =>
          let st := handle_requests (e_requests e) (set_slot s st) in
          if length <? 0 then finish job COMPUTE_STATUS_TIMEOUT st
          else if negb (length =? sizeof_read_reply) then read_loop events job input_len st
          else
            let reply := read_reply_of buf in
            if negb (rr_status reply =? 0) then finish job COMPUTE_STATUS_FAILED st
            else if COMPUTE_MAX_DATA_SIZE <? input_len + rr_length reply then Some Job_overrun
            else
              let st := set_input_buf
                          (patch (input_buf st) input_len
                             (prefix_of (rr_length reply) (rr_payload reply ++ behind))) st in
              if (DATA_CHUNK_SIZE <? rr_length reply) || (COMPUTE_MAX_DATA_SIZE <=? input_len + rr_length reply)
              then finish job COMPUTE_STATUS_FAILED st
              else
                let input_len := input_len + rr_length reply in
                let st := worker_progress st in
                if negb (rr_is_last reply =? 0) then compress_and_write events job input_len st
                else if check_cancelled (cq_job_id (req job)) st
                then finish job COMPUTE_STATUS_CANCELLED st
                else read_loop events job input_len st
      end
  end.

(** [None]: the job still waits for an event. *)
Definition worker_thread (events : list event) (job : worker_job_t) (st : compute) : option outcome :=
  let st := send ROLE_DATA (Read_file (snprintf_s DATA_MAX_PATH (cq_in_path (req job)))) st in
  read_loop events job 0 st.

End Compute.

(** ** What a job does, whatever the other roles do *)

(** Results that end a job, and the requests to the Data role. *)
Definition is_final (m : compute_message) : bool :=
  match m with Result r => negb (cr_status r =? COMPUTE_STATUS_BUSY) | _ => false end.
Definition to_data (m : compute_message) : bool :=
  match m with Result _ => false | _ => true end.

(** The messages the worker took: one for each event that finds the slot full. *)
Definition message_in (s : Slot.slot) : list Z := prefix_of (Slot.reply_len s) (Slot.reply_buf s).
Definition taken_from (es : list event) : list (list Z) :=
  concat (map (fun e => if Slot.reply_ready (e_slot e) then [message_in (e_slot e)] else []) es).

(** The read replies among them (other messages are passed over), and the image the
    replies carry. *)
Definition read_replies (es : list event) : list data_read_reply_t :=
  map read_reply_of (List.filter (fun m => len m =? sizeof_read_reply) (taken_from es)).
Definition image_of (es : list event) : list Z := concat (map read_reply_bytes (read_replies es)).

Definition good_reply (last : bool) (r : data_read_reply_t) : Prop :=
  rr_status r = 0 /\ rr_length r <= DATA_CHUNK_SIZE /\ truthy (rr_is_last r) = last.
Definition good_ack (m : list Z) : Prop := len m = sizeof_write_ack /\ int_of (le32 m 0) = 0.

(** The slots a running job can find ([compute_slot_channel]). *)
Definition slot_ok (ep : Z) (s : Slot.slot) : Prop :=
  Slot.reply_epoch s = ep /\ Slot.epoch_open s = true
  /\ 0 <= Slot.reply_len s <= len (Slot.reply_buf s) /\ bytes_ok (Slot.reply_buf s).
Definition event_ok (ep : Z) (e : event) : Prop := slot_ok ep (e_slot e).

Lemma wait_check_cases buf size ep to s :
  slot_ok ep s ->
  match Slot.wait_check buf size ep to s with
  | None => Slot.reply_ready s = false
  | Some (n, buf', s') =>
      Slot.reply_epoch s' = ep /\ Slot.epoch_open s' = true
      /\ (n < 0 \/ Slot.reply_ready s = true /\ n = len (message_in s) /\ n <= size
                    /\ buf' = patch buf 0 (message_in s))
  end.
Proof.
  intros (He & Ho & Hl & _). unfold Slot.wait_check, message_in. destruct (Slot.reply_ready s) eqn:Er.
  - rewrite len_prefix_of by done. case_if as E; bool_facts; cbn.
    + split; [done|]. split; [done|]. right. by split_and!.
    + split; [done|]. split; [done|]. left. by unfold WAIT_REPLY_TOO_BIG.
  - case_if as E1; [split; [done|]; split; [done|left; by unfold WAIT_REPLY_TIMEOUT]|].
    rewrite He, Ho, Z.eqb_refl. done.
Qed.

Lemma taken_from_cons e es :
  taken_from (e :: es)
  = (if Slot.reply_ready (e_slot e) then [message_in (e_slot e)] else []) ++ taken_from es.
Proof. done. Qed.

(** A wake-up that takes nothing, or a message of another size, adds no reply. *)
Lemma read_replies_cons e es :
  read_replies (e :: es)
  = (if Slot.reply_ready (e_slot e) && (len (message_in (e_slot e)) =? sizeof_read_reply)
     then [read_reply_of (message_in (e_slot e))] else []) ++ read_replies es.
Proof.
  unfold read_replies. rewrite taken_from_cons, List.filter_app, map_app. f_equal.
  destruct (Slot.reply_ready _); [|done]. cbn. by case_match.
Qed.

Section Jobs.
Context {L E : Type} `{Ipc compute_message L} `{Codec.Ssdv E}.
Context (clock : nat -> timespec) (buf0 ack0 pkt0 behind : list Z).
(** The buffers have the sizes the code declares; the packet buffer of the library
    holds at least one packet. *)
Context (Hbuf0 : len buf0 = sizeof_read_reply) (Hack0 : len ack0 = sizeof_write_ack)
  (Hpkt0 : Codec.LG_SSDV_PACKET_SIZE <= len pkt0) (Hkeep : Codec.keeps_buffer (E:=E)).
Implicit Types (st : @compute L) (l : L) (job : worker_job_t).

Definition reliable_ipc : Prop := forall dest (m : compute_message) l, 0 <= fst (ipc_send dest m l).

Definition results l (d : Z) : list compute_message := List.filter is_final (reached l d).
Definition data_requests l : list compute_message := List.filter to_data (reached l ROLE_DATA).

Lemma send_traffic dest m st :
  exists ok : bool, (reliable_ipc -> ok = true)
    /\ (forall d, results (link (send dest m st)) d
          = results (link st) d ++ (if (d =? dest) && ok && is_final m then [m] else []))
    /\ data_requests (link (send dest m st))
       = data_requests (link st) ++ (if (dest =? ROLE_DATA) && ok && to_data m then [m] else []).
Proof.
  unfold send, set_link, results, data_requests. cbn [link].
  pose proof (ipc_send_law dest m (link st)) as Hlaw. pose proof (fun Hr : reliable_ipc => Hr dest m (link st)) as Hrel.
  destruct (ipc_send dest m (link st)) as [r l']. cbn [fst snd] in *.
  destruct Hlaw as (Hok & Hno & Hother). exists (0 <=? r). split; [intros Hr; apply Z.leb_le; by apply Hrel|].
  assert (forall d, reached l' d = reached (link st) d ++ (if (d =? dest) && (0 <=? r) then [m] else [])) as Hd.
  { intros d. destruct (Z.eqb_spec d dest) as [-> |Hne]; cbn [andb].
    - destruct (0 <=? r) eqn:E0; bool_facts; [by apply Hok|rewrite app_nil_r; by apply Hno].
    - rewrite app_nil_r. by apply Hother. }
  split; [intros d|]; rewrite Hd, List.filter_app; f_equal; [|rewrite (Z.eqb_sym dest)];
    destruct (_ =? _), (0 <=? r); cbn; try done; by case_match.
Qed.

(** Nothing but BUSY answers was sent. *)
Definition same_traffic l l' : Prop :=
  (forall d, results l' d = results l d) /\ data_requests l' = data_requests l.

#[local] Instance same_traffic_preorder : PreOrder same_traffic.
Proof.
  split; [done|]. intros l1 l2 l3 [Ha Hb] [Hc Hd]. split; [intros d; by rewrite Hc|by rewrite Hd].
Qed.

(** The state of a job that runs. *)
Definition running job st : Prop :=
  job_busy st = true /\ job_id_running st = cq_job_id (req job)
  /\ Slot.epoch_open (slot st) = true /\ Slot.reply_epoch (slot st) = epoch job
  /\ len (input_buf st) = COMPUTE_MAX_DATA_SIZE /\ len (compressed_buf st) = COMPUTE_COMPRESSED_CAP.

(** The requests handled while a job runs change the cancel flag and add BUSY answers. *)
Lemma handle_requests_running rs st :
  job_busy st = true ->
  exists l c, handle_requests clock rs st = set_link l (set_job true (job_id_running st) c st)
    /\ same_traffic (link st) l
    /\ (Forall (fun r => match r with Cancel b => le32 b 0 <> job_id_running st | _ => True end) rs ->
        c = job_cancel_requested st).
Proof.
  intros Hb. unfold handle_requests. revert st Hb. induction rs as [|r rs IH]; intros st Hb; cbn [fold_left].
  - exists (link st), (job_cancel_requested st). split; [destruct st; cbn in *; by subst|]. by split.
  - assert (exists l c, handle_request clock r st = set_link l (set_job true (job_id_running st) c st)
      /\ same_traffic (link st) l
      /\ (match r with Cancel b => le32 b 0 <> job_id_running st | _ => True end -> c = job_cancel_requested st))
      as (l1 & c1 & -> & Ht1 & Hc1).
    { destruct r as [buf src|buf]; cbn [handle_request].
      - unfold handle_compress_request. rewrite Hb. cbn [snd].
        eexists _, (job_cancel_requested st). split; [destruct st; cbn in *; subst; reflexivity|]. split; [|done].
        destruct (send_traffic src (Result (mk_result (cq_job_id (compress_request_of buf)) COMPUTE_STATUS_BUSY 0)) st)
          as (ok & _ & Hr & Hd).
        split; [intros d; etransitivity; [apply Hr|]|etransitivity; [apply Hd|]]; rewrite ?andb_false_r, app_nil_r; done.
      - unfold handle_cancel_request. rewrite Hb. cbn [andb]. case_if as E1; bool_facts.
        + exists (link st), true. split; [by destruct st|]. split; [done|]. intros Hne. congruence.
        + exists (link st), (job_cancel_requested st). split; [destruct st; cbn in *; by subst|]. by split. }
    destruct (IH (set_link l1 (set_job true (job_id_running st) c1 st)) eq_refl) as (l2 & c2 & -> & Ht2 & Hc2).
    exists l2, c2. split; [by destruct st|]. split; [by transitivity l1|].
    intros Hall. inversion Hall as [|? ? Hr Hrs]; subst. rewrite Hc2 by exact Hrs. by apply Hc1.
Qed.

(** After the wake-up [e] with the slot [s'], the job runs on in this state. *)
Lemma resume_running job e s' st :
  running job st -> Slot.reply_epoch s' = epoch job -> Slot.epoch_open s' = true ->
  let st' := handle_requests clock (e_requests e) (set_slot s' st) in
  running job st' /\ same_traffic (link st) (link st')
  /\ input_buf st' = input_buf st /\ compressed_buf st' = compressed_buf st.
Proof.
  intros (Hb & Hid & Ho & He & Hi & Hc) He' Ho'. cbv zeta.
  destruct (handle_requests_running (e_requests e) (set_slot s' st) Hb) as (l & c & -> & Ht & _).
  split; [by split_and!|]. by split_and!.
Qed.

(** A wake-up that only lets the wait go on. *)
Lemma idle_running job e st :
  running job st ->
  let st' := handle_requests clock (e_requests e) st in
  running job st' /\ same_traffic (link st) (link st')
  /\ input_buf st' = input_buf st /\ compressed_buf st' = compressed_buf st.
Proof.
  intros Hr. pose proof Hr as (Hb & Hid & Ho & He & Hi & Hc).
  pose proof (resume_running job e (slot st) st Hr He Ho) as Hres. by destruct st.
Qed.

(** The job has ended: its only result is [status] (nothing, if the service refused to
    send it), the Compute role is free and the slot is closed. *)
Definition ended job (status size : Z) (l : L) (st' : compute) : Prop :=
  job_busy st' = false /\ Slot.epoch_open (slot st') = false
  /\ exists ok : bool, (reliable_ipc -> ok = true)
      /\ forall d, results (link st') d
           = results l d ++ (if (d =? requester job) && ok
                             then [Result (mk_result (cq_job_id (req job)) status size)] else []).

Lemma send_result_ended job status size l st :
  running job st -> status <> COMPUTE_STATUS_BUSY -> same_traffic l (link st) ->
  ended job status size l (send_result job status size st)
  /\ data_requests (link (send_result job status size st)) = data_requests l.
Proof.
  intros (Hb & Hid & Ho & He & _) Hs [Hr Hd]. unfold send_result.
  destruct (send_traffic (requester job) (Result (mk_result (cq_job_id (req job)) status size)) st)
    as (ok & Hrel & Hr' & Hd').
  assert (slot (send (requester job) (Result (mk_result (cq_job_id (req job)) status size)) st) = slot st) as Hsl by done.
  split; [split; [done|]; split|].
  - cbn -[send]. rewrite Hsl. unfold Slot.dispatch_job_end. by rewrite He, Z.eqb_refl, Ho.
  - exists ok. split; [done|]. intros d. etransitivity; [apply Hr'|]. rewrite Hr. f_equal.
    cbn [is_final cr_status]. rewrite (proj2 (Z.eqb_neq _ _) Hs). by rewrite andb_true_r.
  - etransitivity; [apply Hd'|]. rewrite Hd. cbn [to_data]. by rewrite andb_false_r, app_nil_r.
Qed.

Lemma ended_traffic job status size l l' st' :
  (forall d, results l' d = results l d) -> ended job status size l' st' -> ended job status size l st'.
Proof.
  intros Hr (Hb & Ho & ok & Hok & Hres). split; [done|]. split; [done|]. exists ok. split; [done|].
  intros d. by rewrite Hres, Hr.
Qed.

(** The chunks of the output from [written] on. *)
Fixpoint chunk_messages (fuel : nat) job (out : list Z) (compressed_len written : Z)
    : list compute_message :=
  match fuel with
  | O => []
  | S fuel =>
      if written <? compressed_len
      then chunk_message job out compressed_len written
           :: chunk_messages fuel job out compressed_len (written + chunk_len_of compressed_len written)
      else []
  end.

Definition end_status (status : Z) : Prop :=
  status = COMPUTE_STATUS_FAILED \/ status = COMPUTE_STATUS_CANCELLED \/ status = COMPUTE_STATUS_TIMEOUT.

Lemma end_status_facts status : end_status status -> status <> COMPUTE_STATUS_OK /\ status <> COMPUTE_STATUS_BUSY.
Proof. by intros [-> |[-> | ->]]. Qed.

Lemma progress_running job st : running job st -> running job (worker_progress clock st).
Proof. done. Qed.

Lemma send_chunk_running job n w st :
  running job st ->
  running job (send_chunk job n w st)
  /\ (forall d, results (link (send_chunk job n w st)) d = results (link st) d)
  /\ (reliable_ipc -> data_requests (link (send_chunk job n w st))
        = data_requests (link st) ++ [chunk_message job (compressed_buf st) n w]).
Proof.
  intros Hr. split; [done|].
  destruct (send_traffic ROLE_DATA (chunk_message job (compressed_buf st) n w) st) as (ok & Hrel & Hres & Hd).
  split.
  - intros d. etransitivity; [apply Hres|]. cbn [is_final chunk_message]. by rewrite andb_false_r, app_nil_r.
  - intros Hre. etransitivity; [apply Hd|]. by rewrite (Hrel Hre).
Qed.

Lemma chunk_len_bounds n w : w < n -> 0 < chunk_len_of n w <= DATA_WRITE_CHUNK_SIZE /\ w + chunk_len_of n w <= n.
Proof. unfold chunk_len_of, DATA_WRITE_CHUNK_SIZE. intros. case_if as E0; bool_facts; lia. Qed.

(** The acknowledgements of a whole output: one for each chunk. *)
Definition acknowledged (writes : list event) (chunks : list compute_message) : Prop :=
  Forall good_ack (taken_from writes) /\ length (taken_from writes) = length chunks.

(** The job ended without a result file. *)
Definition gave_up job (l : L) (o : outcome) : Prop :=
  exists st' status, o = Job_done st' /\ end_status status /\ ended job status 0 l st'.

Lemma finish_gave_up job status l st o :
  running job st -> end_status status -> same_traffic l (link st) ->
  finish job status st = Some o -> gave_up job l o.
Proof.
  intros Hr Hs Ht [= <-]. eexists _, status. split; [done|]. split; [done|].
  apply send_result_ended; [done|by apply end_status_facts|done].
Qed.

Lemma gave_up_traffic job l l' o : (forall d, results l' d = results l d) -> gave_up job l' o -> gave_up job l o.
Proof.
  intros Ht (st' & status & -> & Hs & Hend). exists st', status. split; [done|]. split; [done|].
  by eapply ended_traffic.
Qed.

Ltac job_ends :=
  match goal with
  | H : finish _ _ _ = Some _ |- _ =>
      left; refine (finish_gave_up _ _ _ _ _ _ _ _ H); [assumption|unfold end_status; tauto|assumption]
  end.

(** The whole output was acknowledged: [chunks] were left to acknowledge, all but the
    first of them were still to be sent. *)
Definition wrote job (size : Z) (l : L) (events : list event) (chunks : list compute_message)
    (o : outcome) : Prop :=
  exists st' writes rest, o = Job_done st' /\ ended job COMPUTE_STATUS_OK (u32 size) l st'
    /\ events = writes ++ rest /\ acknowledged writes chunks
    /\ (reliable_ipc -> data_requests (link st') = data_requests l ++ List.tl chunks).

Lemma wrote_idle job size l l' e events chunks o :
  Slot.reply_ready (e_slot e) = false -> same_traffic l l' ->
  wrote job size l' events chunks o -> wrote job size l (e :: events) chunks o.
Proof.
  intros Hn Ht (st' & writes & rest & -> & Hend & -> & Hack & Hd). exists st', (e :: writes), rest.
  split; [done|]. split; [by eapply ended_traffic, Hend; apply Ht|]. split; [done|].
  split; [|by destruct Ht as [_ <-]]. unfold acknowledged in *. by rewrite taken_from_cons, Hn.
Qed.

Lemma chunk_messages_cons fuel job out n w :
  w < n -> chunk_messages (S fuel) job out n w
           = chunk_message job out n w :: chunk_messages fuel job out n (w + chunk_len_of n w).
Proof. intros. cbn [chunk_messages]. by rewrite (proj2 (Z.ltb_lt _ _)). Qed.

Lemma chunk_messages_end fuel job out n w : n <= w -> chunk_messages fuel job out n w = [].
Proof. intros. destruct fuel; [done|]. cbn [chunk_messages]. by rewrite (proj2 (Z.ltb_ge _ _)). Qed.

Lemma write_loop_spec fuel events job n w st o :
  running job st -> Forall (event_ok (epoch job)) events -> 0 <= w < n -> n - w <= Z.of_nat fuel ->
  write_loop clock ack0 events job n w st = Some o ->
  gave_up job (link st) o
  \/ wrote job n (link st) events (chunk_messages fuel job (compressed_buf st) n w) o.
Proof.
  intros Hr Hev. revert fuel w st Hr. induction Hev as [|e events He Hev IH]; intros fuel w st Hr Hw Hf; [done|].
  cbn [write_loop]. pose proof (chunk_len_bounds n w (proj2 Hw)) as [Hcl Hcl'].
  pose proof (wait_check_cases ack0 sizeof_write_ack (epoch job) (e_timed_out e) (e_slot e) He) as Hwc.
  destruct (Slot.wait_check _ _ _ _ _) as [[[k buf'] s']|].
  2:{ intros Hl. destruct (idle_running job e st Hr) as (Hr1 & Ht1 & _ & Hc1).
      destruct (IH fuel w _ Hr1 Hw Hf Hl) as [Hg|Hok]; [left; by eapply gave_up_traffic, Hg; apply Ht1|right].
      rewrite Hc1 in Hok. by eapply wrote_idle. }
  destruct Hwc as (He1 & Ho1 & Hwc).
  destruct (resume_running job e s' st Hr He1 Ho1) as (Hr1 & Ht1 & _ & Hc1). revert Hr1 Ht1 Hc1.
  generalize (handle_requests clock (e_requests e) (set_slot s' st)). intros st1 Hr1 Ht1 Hc1.
  case_if as E1; bool_facts; [intros Hl; job_ends|].
  destruct Hwc as [Hwc|(Hready & -> & Hsz & ->)]; [lia|].
  case_if as E2; [intros Hl; job_ends|]. bool_facts.
  assert (good_ack (message_in (e_slot e))) as Hgood.
  { split; [done|]. by rewrite patch_0, skip_all, app_nil_r in H2 by lia. }
  destruct fuel as [|fuel]; [lia|]. rewrite chunk_messages_cons by lia.
  case_if as E3; [intros Hl; job_ends|].
  assert (forall writes chunks, acknowledged writes chunks ->
    acknowledged (e :: writes) (chunk_message job (compressed_buf st) n w :: chunks)) as Hack.
  { intros writes chunks [Ha Hn]. unfold acknowledged. rewrite taken_from_cons, Hready. split.
    - by apply Forall_cons_2.
    - cbn [length app]. by rewrite Hn. }
  case_if as E4; bool_facts.
  - destruct (send_chunk_running job n (w + chunk_len_of n w) (worker_progress clock st1) Hr1) as (Hr2 & Hres2 & Hd2).
    intros Hl. destruct (IH fuel (w + chunk_len_of n w) _ Hr2 ltac:(lia) ltac:(lia) Hl) as [Hg|Hok]; [left|right].
    + eapply gave_up_traffic, Hg. intros d. rewrite Hres2. apply Ht1.
    + destruct Hok as (st' & writes & rest & -> & Hend & -> & Ha & Hd). exists st', (e :: writes), rest.
      split; [done|]. split; [eapply ended_traffic, Hend; intros d; rewrite Hres2; apply Ht1|].
      split; [done|]. cbn [compressed_buf send_chunk] in Ha, Hd.
      assert (compressed_buf (send_chunk job n (w + chunk_len_of n w) (worker_progress clock st1)) = compressed_buf st) as Hcb by exact Hc1.
      rewrite Hcb in Ha, Hd. split; [by apply Hack|]. intros Hre. rewrite (Hd Hre), (Hd2 Hre).
      destruct fuel as [|fuel]; [lia|]. rewrite chunk_messages_cons by done. cbn [List.tl].
      rewrite <- app_assoc. destruct Ht1 as [_ Ht1]. cbn [link worker_progress tick set_watches compressed_buf] in *.
      by rewrite Ht1, Hc1.
  - intros [= <-]. right. destruct (send_result_ended job COMPUTE_STATUS_OK (u32 n) (link st)
      (worker_progress clock st1) Hr1 ltac:(done) Ht1) as [Hend Hd].
    eexists _, [e], events. split; [done|]. split; [exact Hend|]. split; [done|].
    rewrite chunk_messages_end by lia. split; [by apply Hack|]. intros _. by rewrite app_nil_r.
Qed.

Lemma chunk_messages_prefix fuel job (out : list Z) n w :
  0 <= w -> n <= len out ->
  chunk_messages fuel job (prefix_of n out) n w = chunk_messages fuel job out n w.
Proof.
  intros Hw Hn. revert w Hw. induction fuel as [|fuel IH]; intros w Hw; [done|]. cbn [chunk_messages].
  destruct (w <? n) eqn:E1; [|done]. bool_facts. pose proof (chunk_len_bounds n w E1) as [Hcl Hcl'].
  rewrite IH by lia. f_equal. unfold chunk_message. do 2 f_equal. rewrite !prefix_skip_comm by lia.
  rewrite prefix_of_prefix_of. do 2 f_equal. lia.
Qed.

(** The encoder turned [image] into [packets], which fit the output buffer. *)
Definition compressed (image_id : Z) (image : list Z) (packets : list (list Z)) : Prop :=
  exists e, Codec.ssdv_enc_init CALL_SIGN (u8 image_id) Codec.SSDV_QUALITY Codec.LG_SSDV_PACKET_SIZE
            = (Codec.SSDV_OK, e)
    /\ Codec.encodes e pkt0 image packets
    /\ Codec.LG_SSDV_PACKET_SIZE * len packets <= COMPUTE_COMPRESSED_CAP.

(** The messages that write [out] to the output file. *)
Definition output_chunks job (out : list Z) : list compute_message :=
  chunk_messages (Z.to_nat (len out)) job out (len out) 0.

Lemma compressed_size (packets : list (list Z)) :
  0 <= Codec.LG_SSDV_PACKET_SIZE * len packets.
Proof. pose proof (len_nonneg packets). unfold Codec.LG_SSDV_PACKET_SIZE. lia. Qed.

(** The write loop from its first chunk on. *)
Lemma write_output_spec events job n st o :
  running job st -> Forall (event_ok (epoch job)) events -> 0 <= n <= COMPUTE_COMPRESSED_CAP ->
  (if 0 <? n then write_loop clock ack0 events job n 0 (send_chunk job n 0 st)
   else Some (Job_done (send_result job COMPUTE_STATUS_OK (u32 n) st))) = Some o ->
  let chunks := output_chunks job (prefix_of n (compressed_buf st)) in
  gave_up job (link st) o
  \/ exists st' writes rest, o = Job_done st' /\ ended job COMPUTE_STATUS_OK n (link st) st'
       /\ events = writes ++ rest /\ acknowledged writes chunks
       /\ (reliable_ipc -> data_requests (link st') = data_requests (link st) ++ chunks).
Proof.
  intros Hr Hev Hn. pose proof Hr as (_ & _ & _ & _ & _ & Hcl). cbv zeta.
  assert (u32 n = n) as Hu by (unfold COMPUTE_COMPRESSED_CAP, COMPUTE_MAX_DATA_SIZE in Hn; zlia).
  unfold output_chunks. rewrite len_prefix_of, chunk_messages_prefix by lia. case_if as E0; bool_facts.
  - destruct (send_chunk_running job n 0 st Hr) as (Hr2 & Hres & Hd). intros Hl.
    destruct (write_loop_spec (Z.to_nat n) _ _ _ _ _ _ Hr2 Hev (conj (Z.le_refl 0) E0) ltac:(lia) Hl)
      as [Hg|(st' & writes & rest & -> & Hend & -> & Hack & Hd')];
      [left; by eapply gave_up_traffic|right]. rewrite Hu in Hend.
    exists st', writes, rest. split; [done|]. split; [by eapply ended_traffic|]. split; [done|].
    split; [exact Hack|]. intros Hre. rewrite (Hd' Hre), (Hd Hre), <- app_assoc. f_equal.
    destruct (Z.to_nat n) as [|fuel] eqn:Ef; [lia|]. rewrite !chunk_messages_cons by done. done.
  - intros [= <-]. right. rewrite Hu.
    destruct (send_result_ended job COMPUTE_STATUS_OK n (link st) st Hr ltac:(done) ltac:(done)) as [Hend Hd].
    eexists _, [], events. split; [done|]. split; [exact Hend|]. split; [done|].
    rewrite chunk_messages_end by lia. split; [split; [apply Forall_nil_2|done]|]. intros _. by rewrite app_nil_r.
Qed.

Lemma compress_and_write_spec events job n st o :
  running job st -> Forall (event_ok (epoch job)) events ->
  compress_and_write clock ack0 pkt0 events job n st = Some o ->
  gave_up job (link st) o
  \/ exists packets st' writes rest,
       compressed (image_id_counter st) (prefix_of n (input_buf st)) packets
       /\ o = Job_done st' /\ ended job COMPUTE_STATUS_OK (len (concat packets)) (link st) st'
       /\ events = writes ++ rest /\ acknowledged writes (output_chunks job (concat packets))
       /\ (reliable_ipc -> data_requests (link st')
                           = data_requests (link st) ++ output_chunks job (concat packets)).
Proof.
  intros Hr Hev. pose proof Hr as (_ & _ & _ & _ & _ & Hcl). unfold compress_and_write.
  cbn [input_buf compressed_buf set_image_id_counter].
  destruct (Codec.encode_spec (prefix_of n (input_buf st)) CALL_SIGN (u8 (image_id_counter st)) pkt0
    (compressed_buf st) COMPUTE_COMPRESSED_CAP 0 Hkeep Hpkt0) as (r & out & size & -> & Hrc & Hlen & Hiff & Hout).
  { rewrite Hcl. unfold COMPUTE_COMPRESSED_CAP, COMPUTE_MAX_DATA_SIZE. lia. }
  set (st1 := set_compressed_buf out (set_image_id_counter (image_id_counter st + 1) st)).
  assert (running job st1) as Hr1.
  { destruct Hr as (H1 & H2 & H3 & H4 & H5 & H6). split_and!; try done. by rewrite <- H6. }
  assert (same_traffic (link st) (link st1)) as Ht1 by done.
  case_if as E0; [intros Hl; job_ends|]. case_if as E1; [intros Hl; job_ends|].
  bool_facts. apply Hiff in E0 as Hok. destruct Hok as (e & packets & Hi & Henc & Hcap).
  destruct (Hout e packets Hi E0 Henc) as [Hs Hp]. pose proof (compressed_size packets) as Hnn.
  assert (len (concat packets) = size) as Hcs.
  { rewrite <- Hp. apply len_prefix_of. unfold COMPUTE_COMPRESSED_CAP in *. lia. }
  intros Hl. apply (write_output_spec events job size (worker_progress clock st1)) in Hl; [|done|done|lia].
  change (compressed_buf (worker_progress clock st1)) with out in Hl. rewrite Hp in Hl.
  destruct Hl as [Hg|(st' & writes & rest & Ho & Hend & He & Hack & Hd)]; [by left|right].
  exists packets, st', writes, rest. rewrite Hcs. split; [by exists e|]. by split_and!.
Qed.

(** The replies the read loop took: the whole image, the last reply marked as such. *)
Definition complete_reads (reads : list event) : Prop :=
  exists front final, read_replies reads = front ++ [final]
    /\ Forall (good_reply false) front /\ good_reply true final.

(** A reply that announces more than fits behind what was read before it. *)
Definition overran (n : Z) (reads : list event) : Prop :=
  exists front final, read_replies reads = front ++ [final]
    /\ Forall (good_reply false) front
    /\ COMPUTE_MAX_DATA_SIZE < n + len (concat (map read_reply_bytes front)) + rr_length final.

Lemma read_reply_length buf : bytes_ok buf -> 0 <= rr_length (read_reply_of buf) < 65536.
Proof.
  intros Hb. cbn [rr_length read_reply_of]. unfold le16.
  pose proof (byte_at_ok buf 8 Hb). pose proof (byte_at_ok buf (8 + 1) Hb). unfold byte_ok in *. lia.
Qed.

Lemma read_reply_payload buf :
  len buf = sizeof_read_reply -> len (rr_payload (read_reply_of buf)) = DATA_CHUNK_SIZE.
Proof.
  intros Hl. cbn [rr_payload read_reply_of]. apply len_prefix_of.
  unfold DATA_CHUNK_SIZE, sizeof_read_reply in *. rewrite len_skip by lia. lia.
Qed.

Lemma image_of_cons e es :
  image_of (e :: es)
  = (if Slot.reply_ready (e_slot e) && (len (message_in (e_slot e)) =? sizeof_read_reply)
     then read_reply_bytes (read_reply_of (message_in (e_slot e))) else []) ++ image_of es.
Proof. unfold image_of. rewrite read_replies_cons, map_app, concat_app. f_equal. case_match; cbn; by rewrite ?app_nil_r. Qed.

(** What was read so far, and what the rest of the loop does with it. *)
Definition read_all job (n : Z) st (events : list event) (o : outcome) : Prop :=
  exists reads rest st1, events = reads ++ rest /\ complete_reads reads
    /\ n + len (image_of reads) < COMPUTE_MAX_DATA_SIZE
    /\ running job st1 /\ same_traffic (link st) (link st1)
    /\ image_id_counter st1 = image_id_counter st
    /\ prefix_of (n + len (image_of reads)) (input_buf st1) = prefix_of n (input_buf st) ++ image_of reads
    /\ compress_and_write clock ack0 pkt0 rest job (n + len (image_of reads)) st1 = Some o.
Definition read_overrun (n : Z) (events : list event) (o : @outcome L) : Prop :=
  o = Job_overrun /\ exists reads rest, events = reads ++ rest /\ overran n reads.
Definition read_outcome job (n : Z) st (events : list event) (o : outcome) : Prop :=
  gave_up job (link st) o \/ read_overrun n events o \/ read_all job n st events o.

(** A wake-up that adds nothing to the image. *)
Lemma read_outcome_idle job n st st1 e events o :
  Slot.reply_ready (e_slot e) && (len (message_in (e_slot e)) =? sizeof_read_reply) = false ->
  same_traffic (link st) (link st1) -> input_buf st1 = input_buf st ->
  image_id_counter st1 = image_id_counter st ->
  read_outcome job n st1 events o -> read_outcome job n st (e :: events) o.
Proof.
  intros Hn Ht Hi Hc [Hg|[(-> & reads & rest & -> & Ho)|Hr]].
  - left. by eapply gave_up_traffic, Hg; apply Ht.
  - right; left. split; [done|]. exists (e :: reads), rest. split; [done|].
    unfold overran in *. by rewrite read_replies_cons, Hn.
  - right; right. destruct Hr as (reads & rest & st2 & -> & Hcr & Hlt & Hr & Ht2 & Hc2 & Hp & Hl).
    exists (e :: reads), rest, st2. unfold complete_reads. rewrite read_replies_cons, image_of_cons, Hn.
    cbn [app]. split; [done|]. split; [exact Hcr|]. split; [done|]. split; [done|].
    split; [by transitivity (link st1)|]. split; [congruence|]. by rewrite <- Hi.
Qed.

(** A good reply that is not the last one. *)
Lemma read_outcome_reply job n st st1 e events o r :
  Slot.reply_ready (e_slot e) && (len (message_in (e_slot e)) =? sizeof_read_reply) = true ->
  r = read_reply_of (message_in (e_slot e)) -> good_reply false r -> len (read_reply_bytes r) = rr_length r ->
  0 <= n -> len (input_buf st) = COMPUTE_MAX_DATA_SIZE -> n + rr_length r < COMPUTE_MAX_DATA_SIZE ->
  same_traffic (link st) (link st1) -> image_id_counter st1 = image_id_counter st ->
  input_buf st1 = patch (input_buf st) n (read_reply_bytes r) ->
  read_outcome job (n + rr_length r) st1 events o -> read_outcome job n st (e :: events) o.
Proof.
  intros Hready Hr Hgood Hlen Hn Hbuf Hfit Ht Hc Hi [Hg|[(-> & reads & rest & -> & Ho)|Hra]].
  - left. by eapply gave_up_traffic, Hg; apply Ht.
  - right; left. split; [done|]. exists (e :: reads), rest. split; [done|].
    destruct Ho as (front & final & Hrr & Hf & Hov). exists (r :: front), final.
    rewrite read_replies_cons, Hready, <- Hr, Hrr. split; [done|]. split; [by apply Forall_cons_2|].
    cbn [map concat]. rewrite len_app, Hlen. lia.
  - right; right. destruct Hra as (reads & rest & st2 & -> & Hcr & Hlt & Hrun & Ht2 & Hc2 & Hp & Hl).
    exists (e :: reads), rest, st2. rewrite image_of_cons, Hready, <- Hr, len_app, Hlen.
    replace (n + (rr_length r + len (image_of reads))) with (n + rr_length r + len (image_of reads)) by lia.
    split; [done|]. split.
    { destruct Hcr as (front & final & Hrr & Hf & Hfin). exists (r :: front), final.
      rewrite read_replies_cons, Hready, <- Hr, Hrr. split; [done|]. split; [by apply Forall_cons_2|done]. }
    split; [done|]. split; [done|]. split; [by transitivity (link st1)|]. split; [congruence|].
    split; [|done]. rewrite Hp, Hi, app_assoc. f_equal. unfold patch.
    pose proof (len_nonneg (read_reply_bytes r)).
    rewrite app_assoc. apply prefix_of_app. rewrite len_app, len_prefix_of by lia. lia.
Qed.

Lemma read_loop_spec events job n st o :
  running job st -> Forall (event_ok (epoch job)) events -> 0 <= n < COMPUTE_MAX_DATA_SIZE ->
  read_loop clock buf0 ack0 pkt0 behind events job n st = Some o ->
  read_outcome job n st events o.
Proof.
  intros Hr Hev. revert n st Hr. induction Hev as [|e events He Hev IH]; intros n st Hr Hn; [done|].
  cbn [read_loop]. pose proof He as (_ & _ & Hrl & Hbytes).
  pose proof (wait_check_cases buf0 sizeof_read_reply (epoch job) (e_timed_out e) (e_slot e) He) as Hwc.
  destruct (Slot.wait_check _ _ _ _ _) as [[[k buf'] s']|].
  2:{ intros Hl. destruct (idle_running job e st Hr) as (Hr1 & Ht1 & Hi1 & _).
      destruct (handle_requests_running (e_requests e) st (proj1 Hr)) as (l & c & Eh & _).
      eapply read_outcome_idle; [by rewrite Hwc|exact Ht1|exact Hi1|by rewrite Eh|by apply IH]. }
  destruct Hwc as (He1 & Ho1 & Hwc).
  destruct (handle_requests_running (e_requests e) (set_slot s' st) (proj1 Hr)) as (l & c & Eh & _).
  destruct (resume_running job e s' st Hr He1 Ho1) as (Hr1 & Ht1 & Hi1 & _).
  assert (image_id_counter (handle_requests clock (e_requests e) (set_slot s' st)) = image_id_counter st) as Hc1 by (by rewrite Eh).
  revert Hr1 Ht1 Hi1 Hc1. clear Eh.
  generalize (handle_requests clock (e_requests e) (set_slot s' st)). intros st1 Hr1 Ht1 Hi1 Hc1.
  case_if as E1; bool_facts; [intros Hl; job_ends|].
  destruct Hwc as [Hwc|(Hready & -> & Hsz & ->)]; [lia|].
  case_if as E2; bool_facts.
  { intros Hl. eapply read_outcome_idle; [|exact Ht1|exact Hi1|exact Hc1|by apply IH].
    rewrite Hready. by apply Z.eqb_neq. }
  rewrite patch_0, skip_all, app_nil_r by lia.
  assert (bytes_ok (message_in (e_slot e))) as Hmb by (by apply Forall_prefix_of).
  pose proof (read_reply_length _ Hmb) as Hlb. pose proof (read_reply_payload _ E2) as Hpl.
  remember (read_reply_of (message_in (e_slot e))) as r eqn:Er.
  case_if as E3; [intros Hl; job_ends|].
  assert (forall es, read_replies (e :: es) = r :: read_replies es) as Hrr.
  { intros es. rewrite read_replies_cons, Hready, (proj2 (Z.eqb_eq _ _) E2), Er. done. }
  bool_facts. case_if as E4; bool_facts.
  { intros [= <-]. right; left. split; [done|]. exists [e], events. split; [done|].
    exists [], r. rewrite Hrr. split; [done|]. split; [apply Forall_nil_2|].
    cbn [map concat]. rewrite (len_nil (A:=Z)). lia. }
  assert (len (input_buf st) = COMPUTE_MAX_DATA_SIZE) as Hib by apply Hr.
  set (buf := patch (input_buf st1) n (prefix_of (rr_length r) (rr_payload r ++ behind))).
  assert (running job (set_input_buf buf st1)) as Hr2.
  { pose proof (len_prefix_of_le (rr_length r) (rr_payload r ++ behind)) as Hle.
    destruct Hr1 as (H1 & H2 & H3 & H4 & H5 & H6). split_and!; try done. unfold buf. cbn [input_buf set_input_buf].
    rewrite len_patch; lia. }
  case_if as E5; [intros Hl; job_ends|]. apply orb_false_iff in E5 as [E5 E6]. bool_facts.
  assert (prefix_of (rr_length r) (rr_payload r ++ behind) = read_reply_bytes r) as Hrb.
  { unfold read_reply_bytes. apply prefix_of_app_le. lia. }
  assert (len (read_reply_bytes r) = rr_length r) as Hrbl by (apply len_prefix_of; lia).
  case_if as E7.
  - intros Hl. right; right. exists [e], events, (worker_progress clock (set_input_buf buf st1)).
    assert (image_of [e] = read_reply_bytes r) as ->.
    { unfold image_of. rewrite Hrr. cbn. by rewrite app_nil_r. }
    rewrite Hrbl. split; [done|]. split.
    { exists [], r. rewrite Hrr. split; [done|]. split; [apply Forall_nil_2|]. by split_and!. }
    split; [lia|]. split; [done|]. split; [done|]. split; [done|]. split; [|exact Hl].
    cbn [input_buf set_input_buf worker_progress]. unfold buf. rewrite Hi1, Hrb. unfold patch.
    rewrite app_assoc. apply prefix_of_app. rewrite len_app, len_prefix_of by lia. lia.
  - case_if as E8; [intros Hl; job_ends|]. intros Hl.
    eapply (read_outcome_reply _ _ _ (worker_progress clock (set_input_buf buf st1)));
      [|exact Er| |exact Hrbl|lia|exact Hib|lia|exact Ht1|exact Hc1| |].
    + by rewrite Hready, (proj2 (Z.eqb_eq _ _) E2).
    + split; [done|]. split; [lia|]. by apply negb_false_iff in E7; unfold truthy; rewrite E7.
    + cbn [input_buf set_input_buf worker_progress]. unfold buf. by rewrite Hi1, Hrb.
    + apply IH; [done|lia|exact Hl].
Qed.

Lemma worker_outcome events job st o :
  running job st -> Forall (event_ok (epoch job)) events ->
  worker_thread clock buf0 ack0 pkt0 behind events job st = Some o ->
  gave_up job (link st) o \/ read_overrun 0 events o
  \/ exists reads writes rest packets st',
       o = Job_done st' /\ events = reads ++ writes ++ rest
       /\ complete_reads reads /\ len (image_of reads) < COMPUTE_MAX_DATA_SIZE
       /\ compressed (image_id_counter st) (image_of reads) packets
       /\ acknowledged writes (output_chunks job (concat packets))
       /\ ended job COMPUTE_STATUS_OK (len (concat packets)) (link st) st'
       /\ (reliable_ipc -> data_requests (link st')
             = data_requests (link st)
               ++ Read_file (snprintf_s DATA_MAX_PATH (cq_in_path (req job)))
                  :: output_chunks job (concat packets)).
Proof.
  intros Hr Hev. unfold worker_thread. set (rd := Read_file _).
  destruct (send_traffic ROLE_DATA rd st) as (ok & Hrel & Hres & Hd).
  assert (forall d, results (link (send ROLE_DATA rd st)) d = results (link st) d) as Hres'.
  { intros d. etransitivity; [apply Hres|]. cbn [is_final rd]. by rewrite andb_false_r, app_nil_r. }
  intros Hl. apply read_loop_spec in Hl; [|done|done|unfold COMPUTE_MAX_DATA_SIZE; lia].
  destruct Hl as [Hg|[Ho|(reads & rest & st1 & -> & Hcr & Hlt & Hr1 & Ht1 & Hc1 & Hp & Hl)]].
  - left. by eapply gave_up_traffic.
  - by right; left.
  - rewrite prefix_of_0, Z.add_0_l in Hp. cbn [app] in Hp. rewrite Z.add_0_l in Hl, Hlt.
    apply Forall_app in Hev as [_ Hev].
    apply compress_and_write_spec in Hl; [|done|done]. destruct Hl as [Hg|Hok].
    + left. eapply gave_up_traffic, Hg. intros d. etransitivity; [apply Ht1|apply Hres'].
    + right; right. destruct Hok as (packets & st' & writes & rest' & Hcomp & -> & Hend & -> & Hack & Hd').
      rewrite Hp, Hc1 in Hcomp. exists reads, writes, rest', packets, st'. split; [done|]. split; [done|].
      split; [done|]. split; [done|]. split; [done|]. split; [done|]. split.
      * eapply ended_traffic, Hend. intros d. etransitivity; [apply Ht1|apply Hres'].
      * intros Hre. rewrite (Hd' Hre). destruct Ht1 as [_ ->]. rewrite Hd, (Hrel Hre).
        by rewrite <- app_assoc.
Qed.

(** *** A Data role that serves the file and stores the output *)

Definition no_cancel job (e : event) : Prop :=
  Forall (fun r => match r with Cancel b => le32 b 0 <> cq_job_id (req job) | _ => True end) (e_requests e).

(** The wake-up [e] finds the message [m]. *)
Definition brings job (m : list Z) (e : event) : Prop :=
  event_ok (epoch job) e /\ no_cancel job e
  /\ Slot.reply_ready (e_slot e) = true /\ message_in (e_slot e) = m.

Definition brings_reply job (e : event) (r : data_read_reply_t) : Prop :=
  exists m, brings job m e /\ len m = sizeof_read_reply /\ read_reply_of m = r.
Definition brings_ack job (e : event) : Prop := exists m, brings job m e /\ good_ack m.

Definition uncancelled job st : Prop := running job st /\ job_cancel_requested st = false.

Lemma brings_wait job m e buf size :
  brings job m e -> len m <= size ->
  exists s', Slot.wait_check buf size (epoch job) (e_timed_out e) (e_slot e) = Some (len m, patch buf 0 m, s')
    /\ Slot.reply_epoch s' = epoch job /\ Slot.epoch_open s' = true.
Proof.
  intros (Hok & _ & Hready & Hm) Hs. destruct Hok as (He & Ho & Hl & _).
  unfold Slot.wait_check. rewrite Hready. unfold message_in in Hm.
  assert (len m = Slot.reply_len (e_slot e)) as Hlm by (rewrite <- Hm; by apply len_prefix_of).
  rewrite <- Hlm, (proj2 (Z.leb_le _ _)) by done. rewrite Hlm, Hm. by eexists.
Qed.

(** The state after a wake-up that cancels nothing. *)
Lemma resume_uncancelled job m e s' st :
  uncancelled job st -> brings job m e -> Slot.reply_epoch s' = epoch job -> Slot.epoch_open s' = true ->
  let st' := handle_requests clock (e_requests e) (set_slot s' st) in
  uncancelled job st' /\ same_traffic (link st) (link st')
  /\ input_buf st' = input_buf st /\ compressed_buf st' = compressed_buf st
  /\ image_id_counter st' = image_id_counter st.
Proof.
  intros [Hr Hn] (_ & Hnc & _) He Ho. cbv zeta.
  destruct (resume_running job e s' st Hr He Ho) as (Hr1 & Ht & Hi & Hc).
  destruct Hr as (Hb & Hid & _). destruct (handle_requests_running (e_requests e) (set_slot s' st) Hb)
    as (l & c & Eh & _ & Hcc).
  split; [split; [done|]|]; [|by rewrite Eh in *]. rewrite Eh. cbn. rewrite Hcc; [done|].
  cbn [job_id_running set_slot]. by rewrite Hid.
Qed.

Lemma uncancelled_check job st : uncancelled job st -> check_cancelled (cq_job_id (req job)) st = false.
Proof. intros [_ Hn]. unfold check_cancelled. by rewrite Hn, andb_false_r. Qed.

Lemma prefix_of_patch n k (buf bs : list Z) :
  0 <= n -> n + k <= len buf -> len bs = k -> prefix_of (n + k) (patch buf n bs) = prefix_of n buf ++ bs.
Proof.
  intros Hn Hb Hk. pose proof (len_nonneg bs). unfold patch. rewrite app_assoc. apply prefix_of_app.
  rewrite len_app, len_prefix_of by lia. lia.
Qed.

(** One good reply: the loop goes on, or the copy leaves the buffer. *)
Lemma read_loop_reply e r rest job n st :
  uncancelled job st -> brings_reply job e r -> rr_status r = 0 -> 0 <= rr_length r <= DATA_CHUNK_SIZE -> 0 <= n ->
  (COMPUTE_MAX_DATA_SIZE < n + rr_length r ->
     read_loop clock buf0 ack0 pkt0 behind (e :: rest) job n st = Some Job_overrun)
  /\ (n + rr_length r < COMPUTE_MAX_DATA_SIZE ->
     exists st2, read_loop clock buf0 ack0 pkt0 behind (e :: rest) job n st
         = (if truthy (rr_is_last r)
            then compress_and_write clock ack0 pkt0 rest job (n + rr_length r) st2
            else read_loop clock buf0 ack0 pkt0 behind rest job (n + rr_length r) st2)
       /\ uncancelled job st2 /\ same_traffic (link st) (link st2)
       /\ image_id_counter st2 = image_id_counter st
       /\ prefix_of (n + rr_length r) (input_buf st2) = prefix_of n (input_buf st) ++ read_reply_bytes r).
Proof.
  intros Hr (m & Hb & Hm & Hread) Hs Hk Hn.
  destruct (brings_wait job m e buf0 sizeof_read_reply Hb) as (s' & Hw & He1 & Ho1); [lia|].
  destruct (resume_uncancelled job m e s' st Hr Hb He1 Ho1) as (Hr1 & Ht1 & Hi1 & _ & Hc1).
  cbn [read_loop]. rewrite Hw. revert Hr1 Ht1 Hi1 Hc1.
  generalize (handle_requests clock (e_requests e) (set_slot s' st)). intros st1 Hr1 Ht1 Hi1 Hc1.
  rewrite (proj2 (Z.ltb_ge (len m) 0)), Hm, Z.eqb_refl by (rewrite Hm; unfold sizeof_read_reply; lia). cbn [negb].
  rewrite patch_0, skip_all, app_nil_r by lia. rewrite Hread, Hs. change (negb (0 =? 0)) with false. cbv iota.
  pose proof (read_reply_payload m Hm) as Hpl. rewrite Hread in Hpl.
  split; [intros Ho; by rewrite (proj2 (Z.ltb_lt _ _) Ho)|]. intros Hfit.
  rewrite (proj2 (Z.ltb_ge COMPUTE_MAX_DATA_SIZE _)), (proj2 (Z.ltb_ge DATA_CHUNK_SIZE _)),
    (proj2 (Z.leb_gt COMPUTE_MAX_DATA_SIZE _)) by lia. cbn [orb].
  rewrite prefix_of_app_le by lia. fold (read_reply_bytes r).
  assert (len (read_reply_bytes r) = rr_length r) as Hlk by (apply len_prefix_of; lia).
  assert (len (input_buf st1) = COMPUTE_MAX_DATA_SIZE) as Hib by apply Hr1.
  set (st2 := worker_progress clock (set_input_buf (patch (input_buf st1) n (read_reply_bytes r)) st1)).
  assert (uncancelled job st2) as Hr2.
  { destruct Hr1 as [(H1 & H2 & H3 & H4 & H5 & H6) H7]. split; [|done]. split_and!; try done.
    cbn. rewrite len_patch by lia. done. }
  exists st2. rewrite (uncancelled_check job st2 Hr2). fold (truthy (rr_is_last r)).
  split; [done|]. split; [done|]. split; [done|]. split; [done|].
  change (input_buf st2) with (patch (input_buf st1) n (read_reply_bytes r)). rewrite Hi1.
  apply prefix_of_patch; [lia| |done]. rewrite <- Hi1. lia.
Qed.

Lemma read_loop_file fuel content off events rest job n st :
  uncancelled job st -> Forall2 (brings_reply job) events (file_replies fuel content off) ->
  len content < Z.of_nat fuel -> 0 <= n -> n + len content < COMPUTE_MAX_DATA_SIZE ->
  exists st1, read_loop clock buf0 ack0 pkt0 behind (events ++ rest) job n st
              = compress_and_write clock ack0 pkt0 rest job (n + len content) st1
    /\ uncancelled job st1 /\ same_traffic (link st) (link st1)
    /\ image_id_counter st1 = image_id_counter st
    /\ prefix_of (n + len content) (input_buf st1) = prefix_of n (input_buf st) ++ content.
Proof.
  revert content off events n st. induction fuel as [|fuel IH]; intros content off events n st Hr Hev Hf Hn Hfit.
  { pose proof (len_nonneg content). lia. }
  cbn [file_replies] in Hev. unfold DATA_CHUNK_SIZE in Hev. pose proof (len_nonneg content) as Hlc.
  set (k := Z.min 200 (len content)) in Hev.
  inversion Hev as [|e r es rs Hb Hes]; subst. cbn [app].
  assert (len (prefix_of k content) = k) as Hlk by (apply len_prefix_of; unfold k; lia).
  destruct (read_loop_reply e _ (es ++ rest) job n st Hr Hb eq_refl) as [_ Hstep];
    [unfold DATA_CHUNK_SIZE; cbn [rr_length]; lia|done|].
  destruct Hstep as (st2 & Hl & Hr2 & Ht2 & Hc2 & Hp2); [cbn [rr_length]; lia|].
  unfold read_reply_bytes in Hp2. cbn [rr_length rr_payload rr_is_last] in Hl, Hp2. rewrite Hl.
  rewrite patch_0, prefix_of_app in Hp2 by done.
  destruct (k <? 200) eqn:E0; bool_facts; cbn [b2z truthy Z.eqb negb].
  - inversion Hes; subst. exists st2. assert (k = len content) as Hkl by lia.
    rewrite <- Hkl. cbn [app]. split; [done|]. split; [done|]. split; [done|]. split; [done|].
    rewrite Hp2. f_equal. apply prefix_of_all. lia.
  - assert (len (skip k content) = len content - k) as Hsk by (rewrite len_skip; lia).
    destruct (IH (skip k content) (u32 (off + k)) es (n + k) st2 Hr2 Hes) as (st3 & Hl3 & Hr3 & Ht3 & Hc3 & Hp3);
      [lia|lia|lia|].
    rewrite Hsk in Hl3, Hp3. replace (n + k + (len content - k)) with (n + len content) in * by lia.
    exists st3. split; [exact Hl3|]. split; [done|]. split; [by transitivity (link st2)|].
    split; [congruence|]. rewrite Hp3, Hp2, <- app_assoc. f_equal. apply prefix_skip.
Qed.

(** Full chunks step over the end of the buffer. *)
Lemma read_loop_large fuel content off events rest job n st :
  uncancelled job st -> Forall2 (brings_reply job) events (file_replies fuel content off) ->
  len content < Z.of_nat fuel -> 0 <= n < COMPUTE_MAX_DATA_SIZE -> n mod DATA_CHUNK_SIZE = 0 ->
  COMPUTE_MAX_DATA_SIZE < n + len content ->
  read_loop clock buf0 ack0 pkt0 behind (events ++ rest) job n st = Some Job_overrun.
Proof.
  unfold DATA_CHUNK_SIZE.
  revert content off events n st. induction fuel as [|fuel IH]; intros content off events n st Hr Hev Hf Hn Hmod Hbig.
  { pose proof (len_nonneg content). lia. }
  cbn [file_replies] in Hev. unfold DATA_CHUNK_SIZE in Hev. pose proof (len_nonneg content) as Hlc.
  set (k := Z.min 200 (len content)) in Hev.
  inversion Hev as [|e r es rs Hb Hes]; subst. cbn [app].
  destruct (read_loop_reply e _ (es ++ rest) job n st Hr Hb eq_refl) as [Hover Hstep];
    [unfold DATA_CHUNK_SIZE; cbn [rr_length]; lia|lia|]. cbn [rr_length rr_is_last] in Hover, Hstep.
  destruct (Z.le_gt_cases (n + k) COMPUTE_MAX_DATA_SIZE) as [Hle|Hgt]; [|apply Hover; lia].
  assert (n + k <> COMPUTE_MAX_DATA_SIZE) as Hne.
  { unfold COMPUTE_MAX_DATA_SIZE in *. Z.div_mod_to_equations. lia. }
  assert (k = 200) as Hk by lia. destruct Hstep as (st2 & -> & Hr2 & _); [lia|].
  rewrite Hk in Hes |- *. cbn [Z.ltb Z.compare b2z truthy negb Z.eqb] in Hes |- *.
  apply (IH (skip 200 content) (u32 (off + 200)) es (n + 200) st2 Hr2 Hes).
  - rewrite len_skip; lia.
  - lia.
  - Z.div_mod_to_equations. lia.
  - rewrite len_skip; lia.
Qed.

Lemma send_chunk_uncancelled job n w st :
  uncancelled job st -> uncancelled job (send_chunk job n w st).
Proof. intros [Hr Hn]. by split. Qed.

Lemma write_loop_acked fuel events job n w st :
  uncancelled job st -> Forall (brings_ack job) events -> 0 <= w < n -> n - w <= Z.of_nat fuel ->
  length events = length (chunk_messages fuel job (compressed_buf st) n w) ->
  exists st1, write_loop clock ack0 events job n w st
              = Some (Job_done (send_result job COMPUTE_STATUS_OK (u32 n) st1))
    /\ running job st1 /\ (forall d, results (link st1) d = results (link st) d)
    /\ (reliable_ipc -> data_requests (link st1)
          = data_requests (link st) ++ List.tl (chunk_messages fuel job (compressed_buf st) n w)).
Proof.
  revert fuel w st. induction events as [|e events IH]; intros [|fuel] w st Hr Hev Hw Hf Hlen; try lia;
    rewrite chunk_messages_cons in * by lia.
  { done. }
  inversion Hev as [|? ? (m & Hb & Hm & Hst) Hes]; subst. injection Hlen as Hlen.
  pose proof (chunk_len_bounds n w (proj2 Hw)) as [Hcl Hcl'].
  destruct (brings_wait job m e ack0 sizeof_write_ack Hb) as (s' & Hwt & He1 & Ho1); [lia|].
  destruct (resume_uncancelled job m e s' st Hr Hb He1 Ho1) as (Hr1 & Ht1 & _ & Hc1 & _).
  cbn [write_loop]. rewrite Hwt. revert Hr1 Ht1 Hc1.
  generalize (handle_requests clock (e_requests e) (set_slot s' st)). intros st1 Hr1 Ht1 Hc1.
  rewrite (proj2 (Z.ltb_ge (len m) 0)), (proj2 (Z.eqb_eq _ _) Hm) by apply len_nonneg.
  rewrite patch_0, skip_all, app_nil_r, Hst by lia. change (negb (0 =? 0)) with false. cbn [negb orb]. cbv iota.
  rewrite (uncancelled_check job (worker_progress clock st1) Hr1).
  destruct (w + chunk_len_of n w <? n) eqn:E0; bool_facts.
  - pose proof (send_chunk_uncancelled job n (w + chunk_len_of n w) (worker_progress clock st1) Hr1) as Hr2.
    destruct (send_chunk_running job n (w + chunk_len_of n w) (worker_progress clock st1) (proj1 Hr1)) as (_ & Hres & Hd).
    set (st2 := send_chunk job n (w + chunk_len_of n w) (worker_progress clock st1)) in *.
    assert (compressed_buf st2 = compressed_buf st) as Hcb by exact Hc1. rewrite <- Hcb in Hlen |- *.
    destruct (IH fuel (w + chunk_len_of n w) st2 Hr2 Hes ltac:(lia) ltac:(lia) Hlen) as (st3 & Hl & Hr3 & Hres3 & Hd3).
    exists st3. split; [exact Hl|]. split; [done|].
    split; [intros d; rewrite Hres3, Hres; apply Ht1|]. intros Hre. rewrite (Hd3 Hre), (Hd Hre).
    destruct fuel as [|fuel]; [lia|]. rewrite chunk_messages_cons by done. cbn [List.tl].
    rewrite <- app_assoc. destruct Ht1 as [_ Ht1].
    change (data_requests (link (worker_progress clock st1))) with (data_requests (link st1)).
    change (compressed_buf (worker_progress clock st1)) with (compressed_buf st1). by rewrite Ht1, Hcb, Hc1.
  - rewrite chunk_messages_end by lia. exists (worker_progress clock st1). split; [done|]. split; [apply Hr1|].
    split; [intros d; apply Ht1|]. intros _. cbn [List.tl]. rewrite app_nil_r. apply Ht1.
Qed.

Lemma compress_and_write_acked events job n st packets :
  uncancelled job st -> compressed (image_id_counter st) (prefix_of n (input_buf st)) packets ->
  Forall (brings_ack job) events -> length events = length (output_chunks job (concat packets)) ->
  exists st', compress_and_write clock ack0 pkt0 events job n st = Some (Job_done st')
    /\ ended job COMPUTE_STATUS_OK (len (concat packets)) (link st) st'
    /\ (reliable_ipc -> data_requests (link st')
          = data_requests (link st) ++ output_chunks job (concat packets)).
Proof.
  intros Hr (e & Hi & Henc & Hcap) Hev Hlen. pose proof Hr as [(H1 & H2 & H3 & H4 & H5 & Hcl) Hn].
  unfold compress_and_write. cbn [input_buf compressed_buf set_image_id_counter].
  destruct (Codec.encode_spec (prefix_of n (input_buf st)) CALL_SIGN (u8 (image_id_counter st)) pkt0
    (compressed_buf st) COMPUTE_COMPRESSED_CAP 0 Hkeep Hpkt0) as (r & out & size & -> & _ & Hlo & Hiff & Hout).
  { rewrite Hcl. unfold COMPUTE_COMPRESSED_CAP, COMPUTE_MAX_DATA_SIZE. lia. }
  assert (r = 0) as -> by (apply Hiff; by exists e, packets).
  destruct (Hout e packets Hi eq_refl Henc) as [-> Hp]. pose proof (compressed_size packets) as Hnn.
  set (size := Codec.LG_SSDV_PACKET_SIZE * len packets) in *.
  assert (len (concat packets) = size) as Hcs.
  { rewrite <- Hp. apply len_prefix_of. unfold COMPUTE_COMPRESSED_CAP in *. lia. }
  assert (u32 size = size) as Hu by (unfold COMPUTE_COMPRESSED_CAP, COMPUTE_MAX_DATA_SIZE in Hcap; zlia).
  change (negb (0 =? 0)) with false. cbv iota.
  set (st1 := worker_progress clock (set_compressed_buf out (set_image_id_counter (image_id_counter st + 1) st))).
  assert (uncancelled job st1) as Hr1.
  { split; [|done]. split_and!; try done. change (compressed_buf st1) with out. by rewrite Hlo. }
  rewrite (uncancelled_check job st1 Hr1), Hcs.
  assert (forall fuel, chunk_messages fuel job (concat packets) size 0 = chunk_messages fuel job out size 0) as Hch.
  { intros fuel. rewrite <- Hp. apply chunk_messages_prefix; [lia|]. rewrite Hlo, Hcl. lia. }
  unfold output_chunks in *. rewrite Hcs, Hch in *. destruct (0 <? size) eqn:E0; bool_facts.
  - destruct (send_chunk_running job size 0 st1 (proj1 Hr1)) as (_ & Hres & Hd).
    destruct (write_loop_acked (Z.to_nat size) events job size 0 (send_chunk job size 0 st1)) as (st2 & Hl & Hr2 & Hres2 & Hd2);
      [done|done|lia|lia|exact Hlen|].
    eexists. split; [exact Hl|]. rewrite Hu.
    destruct (send_result_ended job COMPUTE_STATUS_OK size (link st2) st2 Hr2 ltac:(done) ltac:(done)) as [Hend Hd3].
    split; [eapply ended_traffic, Hend; intros d; by rewrite Hres2, Hres|]. intros Hre.
    rewrite Hd3, (Hd2 Hre), (Hd Hre), <- app_assoc. f_equal.
    destruct (Z.to_nat size) as [|fuel] eqn:Ef; [lia|]. rewrite !chunk_messages_cons by done. done.
  - rewrite chunk_messages_end in * by lia. rewrite Hu, app_nil_r.
    destruct (send_result_ended job COMPUTE_STATUS_OK size (link st) st1 (proj1 Hr1) ltac:(done) ltac:(done)) as [Hend Hd].
    eexists. split; [done|]. split; [exact Hend|]. by intros _.
Qed.
End Jobs.

(** *** What the Data role does with the chunks *)
Section Store.
Context {L : Type} `{Ipc data_message L} (clock : nat -> timespec).
Implicit Types ds : @data_state L.

(** A chunk reaches [filesystem_write_chunk] and the disk works. *)
Definition store_request ds (m : compute_message) : @data_state L :=
  match m with
  | Write_chunk p offset length _ payload =>
      filesystem_write_chunk clock (write_io_ok length) p offset length payload ROLE_COMPUTE ds
  | _ => ds
  end.

Lemma write_chunk_files io p offset length memory requester ds :
  io = write_io_ok length ->
  d_files (filesystem_write_chunk clock io p offset length memory requester ds)
  = <[p := (if offset =? 0 then [] else default [] (d_files ds !! p)) ++ prefix_of length memory]> (d_files ds).
Proof.
  intros ->. unfold filesystem_write_chunk. cbn [w_open w_accepted w_flushed write_io_ok].
  rewrite !Z.min_id. cbv zeta. unfold ipc_send_retrying. destruct (send_retrying _ _ _ _) as [r l].
  by destruct (0 <? length).
Qed.

Lemma store_chunk_message job out n w ds :
  n = len out -> 0 <= w < n -> n < 4294967296 ->
  (0 < w -> d_files ds !! snprintf_s DATA_MAX_PATH (cq_out_path (req job)) = Some (prefix_of w out)) ->
  d_files (store_request ds (chunk_message job out n w))
  = <[snprintf_s DATA_MAX_PATH (cq_out_path (req job)) := prefix_of (w + chunk_len_of n w) out]> (d_files ds).
Proof.
  intros -> Hw Hn Hf. pose proof (chunk_len_bounds (len out) w (proj2 Hw)) as [Hcl Hcl'].
  unfold DATA_WRITE_CHUNK_SIZE in *. unfold store_request, chunk_message. rewrite write_chunk_files by done.
  set (k := chunk_len_of (len out) w) in *. replace (u32 w) with w by zlia. replace (u16 k) with k by zlia.
  assert (len (prefix_of k (skip w out)) = k) as Hk by (apply len_prefix_of; rewrite len_skip; lia).
  rewrite patch_0, (prefix_of_app k) by done. rewrite (prefix_of_skip_split w k) by lia.
  f_equal. f_equal. destruct (w =? 0) eqn:E0; bool_facts; [by rewrite E0, prefix_of_0|].
  rewrite Hf by lia. done.
Qed.

Lemma store_chunks fuel job out n w ds :
  n = len out -> 0 <= w -> n < 4294967296 -> n - w <= Z.of_nat fuel ->
  (0 < w -> d_files ds !! snprintf_s DATA_MAX_PATH (cq_out_path (req job)) = Some (prefix_of w out)) ->
  d_files (fold_left store_request (chunk_messages fuel job out n w) ds)
  = if w <? n then <[snprintf_s DATA_MAX_PATH (cq_out_path (req job)) := out]> (d_files ds) else d_files ds.
Proof.
  intros Hn. revert w ds. induction fuel as [|fuel IH]; intros w ds Hw Hsz Hf Hfile.
  { rewrite (proj2 (Z.ltb_ge _ _)) by lia. done. }
  destruct (w <? n) eqn:E0; bool_facts; [|by rewrite chunk_messages_end].
  pose proof (chunk_len_bounds n w E0) as [Hcl Hcl'].
  rewrite chunk_messages_cons by done. cbn [fold_left].
  pose proof (store_chunk_message job out n w ds Hn ltac:(lia) Hsz Hfile) as Hs.
  rewrite IH; [|lia|done|lia|]; rewrite Hs; [|intros _; by rewrite lookup_insert_eq].
  case_if as E1; bool_facts; [by rewrite insert_insert_eq|].
  by rewrite prefix_of_all by lia.
Qed.
End Store.

Section JobTheorems.
Context {L LD E : Type} `{Ipc compute_message L} `{Ipc data_message LD} `{Codec.Ssdv E}.
Context (clock : nat -> timespec) (buf0 ack0 pkt0 behind : list Z).
Context (Hbuf0 : len buf0 = sizeof_read_reply) (Hack0 : len ack0 = sizeof_write_ack)
  (Hpkt0 : Codec.LG_SSDV_PACKET_SIZE <= len pkt0) (Hkeep : Codec.keeps_buffer (E:=E)).
Implicit Types (st : @compute L) (job : worker_job_t).

(** Whatever the replies, timeouts, wake-ups and other requests, a job that ends sends
    one result, to its requester, frees the Compute role and closes the reply slot.  The
    result is OK only if the job took a complete image (replies of status 0, the last one
    marked), the encoder's packets of exactly this image fit the output buffer, and each
    chunk of the output was acknowledged with status 0; the Data role was then asked,
    in order, for the file and for each chunk, and the reported size is that of the
    output.  Otherwise the result is one of the three errors, or some reply announced
    more bytes than [input_buf] had room for. *)
Theorem worker_job_result events job st o :
  running job st -> Forall (event_ok (epoch job)) events ->
  worker_thread clock buf0 ack0 pkt0 behind events job st = Some o ->
  gave_up job (link st) o \/ read_overrun 0 events o
  \/ exists reads writes rest packets st',
       o = Job_done st' /\ events = reads ++ writes ++ rest
       /\ complete_reads reads /\ len (image_of reads) < COMPUTE_MAX_DATA_SIZE
       /\ compressed pkt0 (image_id_counter st) (image_of reads) packets
       /\ acknowledged writes (output_chunks job (concat packets))
       /\ ended job COMPUTE_STATUS_OK (len (concat packets)) (link st) st'
       /\ (reliable_ipc (L:=L) -> data_requests (link st')
             = data_requests (link st)
               ++ Read_file (snprintf_s DATA_MAX_PATH (cq_in_path (req job)))
                  :: output_chunks job (concat packets)).
Proof. by apply worker_outcome. Qed.

Lemma output_chunks_stored job out (ds : @data_state LD) (dclock : nat -> timespec) :
  len out < 4294967296 ->
  d_files (fold_left (store_request dclock) (output_chunks job out) ds)
  = if out is [] then d_files ds
    else <[snprintf_s DATA_MAX_PATH (cq_out_path (req job)) := out]> (d_files ds).
Proof.
  intros Hs. pose proof (len_nonneg out). unfold output_chunks.
  rewrite store_chunks by (try done; lia). destruct out as [|b out]; [done|].
  rewrite (proj2 (Z.ltb_lt _ _)); [done|]. unfold len. cbn [length]. lia.
Qed.

(** C35. Compression works end to end.  If the Data role answers with the file [content]
    (fewer than 65536 bytes) and acknowledges each chunk, no cancel request names the
    job and messages are not lost, then the job ends with the single result OK and the
    size of the encoder's output; and the chunks it sent, stored one after the other by
    the Data role, leave exactly that output in the output file and change no other. *)
Theorem worker_compresses_file content reads writes packets job st (ds : @data_state LD) dclock :
  uncancelled job st -> len content < COMPUTE_MAX_DATA_SIZE -> reliable_ipc (L:=L) ->
  Forall2 (brings_reply job) reads (file_replies (S (Z.to_nat (len content))) content 0) ->
  compressed pkt0 (image_id_counter st) content packets ->
  Forall (brings_ack job) writes -> length writes = length (output_chunks job (concat packets)) ->
  exists st' chunks,
    worker_thread clock buf0 ack0 pkt0 behind (reads ++ writes) job st = Some (Job_done st')
    /\ job_busy st' = false
    /\ results (link st') (requester job)
       = results (link st) (requester job)
         ++ [Result (mk_result (cq_job_id (req job)) COMPUTE_STATUS_OK (len (concat packets)))]
    /\ data_requests (link st')
       = data_requests (link st) ++ Read_file (snprintf_s DATA_MAX_PATH (cq_in_path (req job))) :: chunks
    /\ d_files (fold_left (store_request dclock) chunks ds)
       = if concat packets is [] then d_files ds
         else <[snprintf_s DATA_MAX_PATH (cq_out_path (req job)) := concat packets]> (d_files ds).
Proof.
  intros Hr Hlen Hrel Hreads Hcomp Hwrites Hnum. pose proof (len_nonneg content).
  unfold worker_thread. set (rd := Read_file _).
  destruct (send_traffic ROLE_DATA rd st) as (ok & Hok & Hres & Hd). rewrite (Hok Hrel) in Hres, Hd.
  destruct (read_loop_file clock buf0 ack0 pkt0 behind Hbuf0 (S (Z.to_nat (len content))) content 0 reads writes
    job 0 (send ROLE_DATA rd st)) as (st1 & -> & Hr1 & Ht1 & Hc1 & Hp1); [done|done|lia|lia|lia|].
  rewrite Z.add_0_l, prefix_of_0 in *. cbn [app] in Hp1.
  assert (compressed pkt0 (image_id_counter st1) (prefix_of (len content) (input_buf st1)) packets) as Hcomp1.
  { by rewrite Hp1, Hc1. }
  destruct (compress_and_write_acked clock ack0 pkt0 Hack0 Hpkt0 Hkeep writes job (len content) st1 packets
    Hr1 Hcomp1 Hwrites Hnum) as (st' & -> & (Hb & _ & ok' & Hok' & Hres') & Hd').
  exists st', (output_chunks job (concat packets)). split; [done|]. split; [done|]. split; [|split].
  - rewrite Hres', Z.eqb_refl, (Hok' Hrel). destruct Ht1 as [-> _]. rewrite Hres. f_equal.
    cbn [is_final rd]. by rewrite andb_false_r, app_nil_r.
  - rewrite (Hd' Hrel). destruct Ht1 as [_ ->]. rewrite Hd. by rewrite <- app_assoc.
  - apply output_chunks_stored. destruct Hcomp as (e & _ & Henc & Hcap).
    pose proof (Codec.encodes_size _ _ _ _ Henc).
    unfold COMPUTE_COMPRESSED_CAP, COMPUTE_MAX_DATA_SIZE in Hcap. lia.
Qed.

(** The bounds check of the read loop comes after the copy: when the Data role serves
    a file of more than 65536 bytes, honestly and in full chunks, the job writes behind
    [input_buf] before it notices. *)
Theorem worker_large_file_overruns content reads rest job st :
  uncancelled job st -> COMPUTE_MAX_DATA_SIZE < len content ->
  Forall2 (brings_reply job) reads (file_replies (S (Z.to_nat (len content))) content 0) ->
  worker_thread clock buf0 ack0 pkt0 behind (reads ++ rest) job st = Some Job_overrun.
Proof.
  intros Hr Hlen Hreads. pose proof (len_nonneg content). unfold worker_thread.
  eapply (read_loop_large clock buf0 ack0 pkt0 behind Hbuf0); [exact Hr|exact Hreads|lia| |done|lia].
  unfold COMPUTE_MAX_DATA_SIZE. lia.
Qed.
End JobTheorems.

(** ** Samples: the reply structure on the wire, and a running job *)

Definition le32_bytes (v : Z) : list Z := [u8 v; u8 (v / 256); u8 (v / 65536); u8 (v / 16777216)].

(** The padding byte of [data_read_reply_t] has any value. *)
Definition read_reply_wire (pad : Z) (r : data_read_reply_t) : list Z :=
  le32_bytes (rr_status r) ++ le32_bytes (rr_offset r)
  ++ [u8 (rr_length r); u8 (rr_length r / 256); u8 (rr_is_last r)] ++ rr_payload r ++ [pad].

Definition read_reply_wf (r : data_read_reply_t) : Prop :=
  -2147483648 <= rr_status r < 2147483648 /\ 0 <= rr_offset r < 4294967296
  /\ 0 <= rr_length r < 65536 /\ byte_ok (rr_is_last r)
  /\ len (rr_payload r) = DATA_CHUNK_SIZE /\ bytes_ok (rr_payload r).

Lemma le32_value v : (u8 v + 256 * u8 (v / 256)) + 65536 * (u8 (v / 65536) + 256 * u8 (v / 16777216)) = u32 v.
Proof. zlia. Qed.

Lemma read_reply_of_wire pad r : read_reply_wf r -> read_reply_of (read_reply_wire pad r) = r.
Proof.
  intros (Hs & Ho & Hn & Hl & Hp & _). destruct r as [status offset n last payload].
  cbn [rr_status rr_offset rr_length rr_is_last rr_payload] in *.
  unfold read_reply_wire, le32_bytes. cbn [rr_status rr_offset rr_length rr_is_last rr_payload app].
  unfold read_reply_of, le32, le16.
  unfold byte_at.
  repeat match goal with |- context [Z.to_nat ?z] => let n := eval vm_compute in (Z.to_nat z) in change (Z.to_nat z) with n end.
  cbn [nth]. rewrite !le32_value. f_equal.
  - unfold int_of. case_if as E0; bool_facts; zlia.
  - zlia.
  - zlia.
  - zlia.
  - unfold skip. change (Z.to_nat 11) with 11%nat. cbn [drop]. by apply prefix_of_app.
Qed.

Lemma read_reply_wire_bytes pad r :
  byte_ok pad -> read_reply_wf r ->
  bytes_ok (read_reply_wire pad r) /\ len (read_reply_wire pad r) = sizeof_read_reply.
Proof.
  intros Hpad (_ & _ & _ & _ & Hp & Hb). unfold read_reply_wire, le32_bytes. split.
  - repeat (apply Forall_app; split); auto with flight; repeat (apply Forall_cons_2; auto with flight); apply Forall_nil_2.
  - rewrite !len_app, Hp. reflexivity.
Qed.

Lemma file_replies_wf fuel content off :
  bytes_ok content -> 0 <= off < 4294967296 -> Forall read_reply_wf (file_replies fuel content off).
Proof.
  revert content off. induction fuel as [|fuel IH]; intros content off Hb Ho; [apply Forall_nil_2|].
  cbn [file_replies]. pose proof (len_nonneg content). unfold DATA_CHUNK_SIZE.
  set (k := Z.min 200 (len content)). assert (len (prefix_of k content) = k) as Hk by (apply len_prefix_of; lia).
  apply Forall_cons_2.
  - split_and!; cbn [rr_status rr_offset rr_length rr_is_last rr_payload]; try lia.
    + by destruct (k <? 200).
    + rewrite len_patch; unfold DATA_CHUNK_SIZE; rewrite ?len_zeros; lia.
    + apply bytes_ok_patch; [|by apply Forall_prefix_of]. unfold zeros. apply Forall_replicate. by unfold byte_ok.
  - case_match; [apply Forall_nil_2|]. apply IH; [by apply Forall_skip|zlia].
Qed.

(** The wake-up that finds [m] in the slot of a job. *)
Definition wake_with (ep : Z) (m : list Z) : event :=
  mk_event (Slot.mk_slot m (len m) true ep true) false [].

Lemma wake_brings job m : bytes_ok m -> brings job m (wake_with (epoch job) m).
Proof.
  intros Hb. pose proof (len_nonneg m). split; [|split; [apply Forall_nil_2|split; [done|]]].
  - split_and!; try done; cbn; lia.
  - unfold message_in. cbn. by apply prefix_of_all.
Qed.

Lemma wakes_bring_replies job rs :
  Forall read_reply_wf rs ->
  Forall2 (brings_reply job) (map (fun r => wake_with (epoch job) (read_reply_wire 0 r)) rs) rs.
Proof.
  induction 1 as [|r rs Hr Hrs IH]; [constructor|]. constructor; [|exact IH].
  destruct (read_reply_wire_bytes 0 r) as [Hb Hl]; [by unfold byte_ok|done|].
  exists (read_reply_wire 0 r). split; [by apply wake_brings|]. split; [done|]. by apply read_reply_of_wire.
Qed.

Definition sample_job : worker_job_t := mk_job (mk_compress 5 [105; 110] [111; 117; 116] 1) ROLE_MISSION 1.
Definition sample_compute : @compute (post compute_message) :=
  mk_compute
    (Health.mk_watches (mk_progress (mk_time 0 0) 3000 true) (mk_progress (mk_time 0 0) 10000 true)) 0%nat
    (mk_post []) (Slot.mk_slot (zeros COMPUTE_MAX_MSG_SIZE) 0 false 1 true) true 5 false 7
    (zeros COMPUTE_MAX_DATA_SIZE) (zeros COMPUTE_COMPRESSED_CAP).

Lemma sample_uncancelled : uncancelled sample_job sample_compute.
Proof.
  unfold uncancelled, running, sample_compute, sample_job.
  cbn [job_busy job_id_running slot Slot.epoch_open Slot.reply_epoch input_buf compressed_buf req cq_job_id
       epoch job_cancel_requested].
  rewrite !len_zeros by (unfold COMPUTE_COMPRESSED_CAP, COMPUTE_MAX_DATA_SIZE; lia). repeat split.
Qed.

Definition sample_events (content : list Z) (acks : nat) : list event :=
  map (fun r => wake_with 1 (read_reply_wire 0 r)) (file_replies (S (Z.to_nat (len content))) content 0)
  ++ repeat (wake_with 1 [0; 0; 0; 0]) acks.

Lemma sample_replies content :
  bytes_ok content ->
  Forall2 (brings_reply sample_job)
    (map (fun r => wake_with 1 (read_reply_wire 0 r)) (file_replies (S (Z.to_nat (len content))) content 0))
    (file_replies (S (Z.to_nat (len content))) content 0).
Proof. intros Hb. apply (wakes_bring_replies sample_job), file_replies_wf; [done|lia]. Qed.

Lemma sample_acks n : Forall (brings_ack sample_job) (repeat (wake_with 1 [0; 0; 0; 0]) n).
Proof.
  induction n as [|n IH]; [apply Forall_nil_2|]. apply Forall_cons_2; [|exact IH].
  exists [0; 0; 0; 0]. split; [by apply (wake_brings sample_job), bytes_ok_eval|]. by split.
Qed.

Lemma sample_compressed :
  compressed (E:=Codec.pad_encoder) (zeros 256) 7 Codec.sample_jpeg [Codec.sample_packet].
Proof.
  exists (None, false). split; [done|]. split; [apply Codec.sample_encodes|]. vm_compute. congruence.
Qed.

Lemma sample_jpeg_ok : bytes_ok Codec.sample_jpeg.
Proof. by apply bytes_ok_eval. Qed.

Lemma worker_compresses_file_witness :
  exists st' chunks,
    worker_thread (E:=Codec.pad_encoder) (fun _ => mk_time 0 0) (zeros 212) (zeros 4) (zeros 256) []
      (sample_events Codec.sample_jpeg 2) sample_job sample_compute = Some (Job_done st')
    /\ d_files (fold_left (store_request (fun _ => mk_time 0 0)) chunks sample_store)
       = <[[111; 117; 116] := Codec.sample_packet]> (d_files sample_store).
Proof.
  destruct (worker_compresses_file (LD:=mailbox data_message) (E:=Codec.pad_encoder) (fun _ => mk_time 0 0) (zeros 212) (zeros 4) (zeros 256) []
    eq_refl eq_refl ltac:(vm_compute; congruence) Codec.pad_keeps_buffer
    Codec.sample_jpeg
    (map (fun r => wake_with 1 (read_reply_wire 0 r)) (file_replies (S (Z.to_nat (len Codec.sample_jpeg))) Codec.sample_jpeg 0))
    (repeat (wake_with 1 [0; 0; 0; 0]) 2) [Codec.sample_packet] sample_job sample_compute sample_store
    (fun _ => mk_time 0 0)) as (st' & chunks & Hw & _ & _ & _ & Hf).
  - exact sample_uncancelled.
  - reflexivity.
  - exact post_reliable.
  - exact (sample_replies _ sample_jpeg_ok).
  - exact sample_compressed.
  - exact (sample_acks 2).
  - reflexivity.
  - exists st', chunks. split; [exact Hw|exact Hf].
Defined.

(** Nothing arrives: the first wait times out. *)
Definition silent_event : event := mk_event (Slot.mk_slot [] 0 false 1 true) true [].

Lemma worker_job_result_witness :
  exists o,
    worker_thread (E:=Codec.pad_encoder) (fun _ => mk_time 0 0) (zeros 212) (zeros 4) (zeros 256) []
      [silent_event] sample_job sample_compute = Some o
    /\ gave_up sample_job (link sample_compute) o.
Proof.
  eexists. split; [reflexivity|].
  destruct (worker_job_result (E:=Codec.pad_encoder) (fun _ => mk_time 0 0) (zeros 212) (zeros 4) (zeros 256) []
    eq_refl eq_refl ltac:(vm_compute; congruence) Codec.pad_keeps_buffer [silent_event] sample_job sample_compute
    _ (proj1 sample_uncancelled) ltac:(repeat constructor; vm_compute; congruence) eq_refl)
    as [Hg|[[Ho _]|(reads & writes & rest & packets & st' & Ho & He & Hc & _)]].
  - exact Hg.
  - discriminate Ho.
  - exfalso. destruct reads as [|e reads].
    + destruct Hc as (front & final & Hr & _). destruct front; discriminate Hr.
    + injection He as <- He. destruct reads as [|e' reads]; [|discriminate He].
      destruct Hc as (front & final & Hr & _). destruct front; discriminate Hr.
Defined.

Lemma worker_large_file_overruns_witness :
  worker_thread (E:=Codec.pad_encoder) (fun _ => mk_time 0 0) (zeros 212) (zeros 4) (zeros 256) []
    (sample_events (zeros 65537) 0) sample_job sample_compute = Some Job_overrun.
Proof.
  apply (worker_large_file_overruns (E:=Codec.pad_encoder) (fun _ => mk_time 0 0) (zeros 212) (zeros 4) (zeros 256) []
    eq_refl (zeros 65537)).
  - exact sample_uncancelled.
  - rewrite len_zeros by lia. reflexivity.
  - apply sample_replies. apply Forall_replicate. split; [lia|reflexivity].
Defined.
