(* ===== verification/Gateway.v ===== *)
(** The roles between the message service and the other boards: Commands
    ([apps/obc/commands/src/ingest.c], [relay.c], the radio receiver of [main.c],
    [commands_health.c]) and Time ([apps/obc/time/src/time_sync.c], [time_health.c]).

    libcsp is not part of the repository.  What it does is an argument of each round:
    the packets a connection gives, whether a connection opens, whether a buffer is
    free.  A packet that reaches [csp_send] is recorded. *)

From stdpp Require Import gmap.
From S2P Require Import Prelude Text ObcTelemetry ObcProgress ObcIpc DataStore Fdir.

Definition OBC_ADDRESS : Z := 1.
Definition THERMALS_ADDRESS : Z := 4.
Definition ADCS_TELEM_PORT : Z := 20.
Definition EPS_TELEM_PORT : Z := 21.
Definition THERMALS_TELEM_PORT : Z := 22.
Definition ADCS_STATUS_PORT : Z := 25.
Definition TIME_SYNC_REQUEST_PORT : Z := 26.
Definition CMD_TIME_SYNC : Z := 4.

(** A packet given to [csp_send]. *)
Record csp_sent := mk_sent { s_addr : Z; s_port : Z; s_data : list Z }.

(** *** Configuration from the environment

    [strtoull] with base 10: the value, whether [errno] was set, and the rest of the text;
    [None] when there is no number.  A minus sign negates modulo 2^64. *)
Definition strtoull (text : list Z) : option (Z * bool * list Z) :=
  let l := skip_spaces text in
  let '(negative, l) :=
    match l with
    | 45 :: l => (true, l)
    | 43 :: l => (false, l)
    | _ => (false, l)
    end in
  match l with
  | c :: _ =>
      if is_digit c
      then
        let '(v, rest) := scan_digits l 0 in
        if 18446744073709551615 <? v then Some (18446744073709551615, true, rest)
        else Some ((if negative : bool then u64 (- v) else v), false, rest)
      else None
  | [] => None
  end.

(** The static function of this name in each [*_health.c]; [text] is what [getenv] gives. *)
Definition timeout_from_env (text : option (list Z)) (fallback : Z) : Z :=
  match text with
  | None | Some [] => fallback
  | Some text =>
      match strtoull text with
      | None => fallback
      | Some (parsed, errno, rest) =>
          if errno || negb (if rest is [] then true else false) || (parsed =? 0) then fallback
          else u64 parsed
      end
  end.

(** ** Commands *)
Module Commands.

Definition COMMANDS_STALL_TIMEOUT_MS : Z := 3000.

Record watches := mk_watches { ingest_watch : obc_progress_t; relay_watch : obc_progress_t }.

(** [t1], [t2] are the texts of the two environment variables. *)
Definition commands_health_init (t1 t2 : option (list Z)) (m1 m2 : Z) (n1 n2 n3 n4 : timespec)
    (w : watches) : Z * watches :=
  match obc_progress_init (Some (ingest_watch w)) (timeout_from_env t1 COMMANDS_STALL_TIMEOUT_MS) m1 n1 with
  | (0, Some i) =>
      match obc_progress_init (Some (relay_watch w)) (timeout_from_env t2 COMMANDS_STALL_TIMEOUT_MS) m2 n2 with
      | (0, Some r) => (0, mk_watches (obc_progress_begin n3 i) (obc_progress_begin n4 r))
      | (e, _) => (e, mk_watches i (relay_watch w))
      end
  | (e, _) => (e, w)
  end.

Definition commands_health_ingest_progress (now : timespec) (w : watches) : watches :=
  mk_watches (obc_progress_touch now (ingest_watch w)) (relay_watch w).
Definition commands_health_relay_progress (now : timespec) (w : watches) : watches :=
  mk_watches (ingest_watch w) (obc_progress_touch now (relay_watch w)).
Definition commands_health_is_healthy (n1 n2 : timespec) (w : watches) : bool :=
  obc_progress_is_healthy n1 (ingest_watch w) && obc_progress_is_healthy n2 (relay_watch w).

(** One round of the heartbeat thread ([commands/src/heartbeat.c]). *)
Definition heartbeat_round (n1 n2 : timespec) (w : watches) : list Z * bool :=
  let healthy := commands_health_is_healthy n1 n2 w in
  (if healthy then [ROLE_FDIR; ROLE_SUPERVISOR] else [], healthy).

Inductive ingest_forward_type_t := INGEST_FORWARD_RAW | INGEST_FORWARD_TELEMETRY.

Record ingest_route_t := mk_route { port : Z; owner : Z; forward_type : ingest_forward_type_t }.

Definition routes : list ingest_route_t :=
  [mk_route ADCS_TELEM_PORT ROLE_DATA INGEST_FORWARD_TELEMETRY;
   mk_route EPS_TELEM_PORT ROLE_DATA INGEST_FORWARD_TELEMETRY;
   mk_route ADCS_STATUS_PORT ROLE_FDIR INGEST_FORWARD_RAW;
   mk_route TIME_SYNC_REQUEST_PORT ROLE_TIME INGEST_FORWARD_RAW].

Definition find_route (p : Z) : option ingest_route_t := List.find (fun r => port r =? p) routes.

(** [relay_request_t]: two bytes, a length, 128 bytes of payload. *)
Definition sizeof_relay_request : Z := 132.

Section Ingest.
Context {L : Type} `{Ipc (list Z) L}.
(** The monotonic clock, the uninitialised buffer of the stack, and what lies in memory
    behind a relay request. *)
Context (clock : nat -> timespec) (encoded0 behind : list Z).

Record commands := mk_commands {
  c_watches : watches;
  c_ticks : nat;
  c_link : L;
  c_bus : list csp_sent
}.

Definition set_link l st := mk_commands (c_watches st) (c_ticks st) l (c_bus st).
Definition put_on_bus p st := mk_commands (c_watches st) (c_ticks st) (c_link st) (c_bus st ++ [p]).
Definition ingest_progress st :=
  mk_commands (commands_health_ingest_progress (clock (c_ticks st)) (c_watches st)) (S (c_ticks st))
    (c_link st) (c_bus st).
Definition relay_progress st :=
  mk_commands (commands_health_relay_progress (clock (c_ticks st)) (c_watches st)) (S (c_ticks st))
    (c_link st) (c_bus st).

(** [IPC_send] of [n] bytes: longer messages are refused before anything is written. *)
Definition ipc_send_bytes (dest : Z) (data : list Z) (st : commands) : Z * commands :=
  if OBC_IPC_MAX_PAYLOAD <? len data then (-1, st)
  else let '(r, l) := ipc_send dest data (c_link st) in (r, set_link l st).

(** [received_at] is what [clock_gettime] gives: [None] when it fails. *)
Definition forward_telemetry (source_node destination_port : Z) (data : list Z)
    (received_at : option timespec) (st : commands) : Z * commands :=
  if OBC_TELEMETRY_MAX_PAYLOAD <? len data then (-1, st)
  else if (source_node <? 0) || (255 <? source_node) then (-1, st)
  else
    match received_at with
    | None => (-1, st)
    | Some t =>
        let record :=
          mk_record (u8 source_node) destination_port
            (u64 (u64 (u64 (tv_sec t) * 1000000) + Z.div (u64 (tv_nsec t)) 1000)) (len data)
            (patch (zeros OBC_TELEMETRY_MAX_PAYLOAD) 0 data) in
        match obc_telemetry_encode (Some record) (Some encoded0) OBC_IPC_MAX_PAYLOAD (Some 0) with
        | (OBC_TELEMETRY_OK, Some encoded, Some encoded_size) =>
            ipc_send_bytes ROLE_DATA (prefix_of encoded_size encoded) st
        | _ => (-1, st)
        end
    end.

(** One packet of a connection: the result is only logged. *)
Definition ingest_packet (source_node dport : Z) (packet : list Z * option timespec) (st : commands)
    : commands :=
  let '(data, received_at) := packet in
  let st :=
    match find_route dport with
    | Some route =>
        match forward_type route with
        | INGEST_FORWARD_TELEMETRY => snd (forward_telemetry source_node dport data received_at st)
        | INGEST_FORWARD_RAW => snd (ipc_send_bytes (owner route) data st)
        end
    | None => st
    end in
  ingest_progress st.

(** One round of [ingest_thread]: no connection, or a connection with its packets. *)
Definition ingest_round (conn : option (Z * Z * list (list Z * option timespec))) (st : commands)
    : commands :=
  match conn with
  | None => ingest_progress st
  | Some (source_node, dport, packets) =>
      ingest_progress (fold_left (fun st p => ingest_packet source_node dport p st) packets st)
  end.

(** One round of [relay_thread]. *)
Definition relay_round (r : received) (buf : list Z) (connects has_buffer : bool) (st : commands)
    : commands :=
  match r with
  | Got_timeout => relay_progress st
  | Got_error => st
  | Got_message _ length =>
      if negb (length =? sizeof_relay_request) then relay_progress st
      else if negb connects then relay_progress st
      else if negb has_buffer then relay_progress st
      else
        let data := prefix_of (le16 buf 2) (prefix_of 128 (skip 4 buf) ++ behind) in
        relay_progress (put_on_bus (mk_sent (byte_at buf 0) (byte_at buf 1) data) st)
  end.

(** One round of [radio_rx_thread]; [length] is what [radio_receive] returns. *)
Definition radio_rx_round (length : Z) (buffer : list Z) (connects has_buffer : bool) (st : commands)
    : commands :=
  if length <=? 0 then st
  else if length <? 2 then st
  else if negb connects then st
  else if negb has_buffer then st
  else
    let payload_len := u16 (length - 2) in
    put_on_bus (mk_sent (byte_at buffer 0) (byte_at buffer 1) (prefix_of payload_len (skip 2 buffer))) st.

End Ingest.
End Commands.

(** ** Time *)
Module Time.

Definition TIME_STALL_TIMEOUT_MS : Z := 3000.
Definition TIME_SYNC_INTERVAL_SEC : Z := 300.

Record watches := mk_watches { broadcast_watch : obc_progress_t; request_watch : obc_progress_t }.

Definition time_health_init (t1 t2 : option (list Z)) (m1 m2 : Z) (n1 n2 n3 : timespec)
    (w : watches) : Z * watches :=
  match obc_progress_init (Some (broadcast_watch w)) (timeout_from_env t1 TIME_STALL_TIMEOUT_MS) m1 n1 with
  | (0, Some b) =>
      match obc_progress_init (Some (request_watch w)) (timeout_from_env t2 TIME_STALL_TIMEOUT_MS) m2 n2 with
      | (0, Some r) => (0, mk_watches b (obc_progress_begin n3 r))
      | (e, _) => (e, mk_watches b (request_watch w))
      end
  | (e, _) => (e, w)
  end.

Definition time_health_broadcast_begin (now : timespec) (w : watches) : watches :=
  mk_watches (obc_progress_begin now (broadcast_watch w)) (request_watch w).
Definition time_health_broadcast_progress (now : timespec) (w : watches) : watches :=
  mk_watches (obc_progress_touch now (broadcast_watch w)) (request_watch w).
Definition time_health_broadcast_end (w : watches) : watches :=
  mk_watches (obc_progress_end (broadcast_watch w)) (request_watch w).
Definition time_health_request_progress (now : timespec) (w : watches) : watches :=
  mk_watches (broadcast_watch w) (obc_progress_touch now (request_watch w)).
Definition time_health_is_healthy (n1 n2 : timespec) (w : watches) : bool :=
  obc_progress_is_healthy n1 (broadcast_watch w) && obc_progress_is_healthy n2 (request_watch w).

(** One round of the heartbeat thread ([time/src/heartbeat.c]). *)
Definition heartbeat_round (n1 n2 : timespec) (w : watches) : list Z * bool :=
  let healthy := time_health_is_healthy n1 n2 w in
  (if healthy then [ROLE_FDIR; ROLE_SUPERVISOR] else [], healthy).

(** Addresses and command ports. *)
Definition targets : list (Z * Z) := [(ADCS_ADDRESS, ADCS_CMD_PORT); (EPS_ADDRESS, EPS_CMD_PORT)].

(** The C layout of a little-endian integer of [n] bytes. *)
Fixpoint le_bytes (n : nat) (v : Z) : list Z :=
  match n with O => [] | S n => u8 v :: le_bytes n (v / 256) end.

(** [time_sync_command_t]: the command id, three bytes of padding of any value, the
    sequence number and the time. *)
Definition time_sync_command (padding : list Z) (seq unix_time_sec : Z) : list Z :=
  CMD_TIME_SYNC :: padding ++ le_bytes 4 seq ++ le_bytes 8 unix_time_sec.

Definition relay_request (dest_addr dest_port : Z) (command : list Z) : list Z :=
  [dest_addr; dest_port] ++ le_bytes 2 (len command) ++ patch (zeros 128) 0 command.

Section TimeSync.
Context {L : Type} `{Ipc (list Z) L} (clock : nat -> timespec) (padding : list Z).

(** [seq] of the broadcast thread and [seq] of the request thread. *)
Record time_role := mk_time_role {
  t_watches : watches;
  t_ticks : nat;
  t_link : L;
  broadcast_seq : Z;
  request_seq : Z
}.

Definition set_watches w st := mk_time_role w (t_ticks st) (t_link st) (broadcast_seq st) (request_seq st).
Definition tick st :=
  mk_time_role (t_watches st) (S (t_ticks st)) (t_link st) (broadcast_seq st) (request_seq st).
Definition set_link l st := mk_time_role (t_watches st) (t_ticks st) l (broadcast_seq st) (request_seq st).
Definition set_broadcast_seq n st := mk_time_role (t_watches st) (t_ticks st) (t_link st) n (request_seq st).
Definition set_request_seq n st := mk_time_role (t_watches st) (t_ticks st) (t_link st) (broadcast_seq st) n.

Definition send_time_sync_to (addr cmd_port seq now_sec : Z) (st : time_role) : Z * time_role :=
  let '(r, l) := ipc_send ROLE_COMMANDS (relay_request addr cmd_port (time_sync_command padding seq now_sec))
                   (t_link st) in
  (if r <? 0 then -1 else 0, set_link l st).

(** The body of the loop over the targets; [times] is what [time] gives for each. *)
Definition sync_target (times : nat -> Z) (acc : nat * time_role) (target : Z * Z) : nat * time_role :=
  let '(i, st) := acc in
  let '(addr, cmd_port) := target in
  let st := snd (send_time_sync_to addr cmd_port (broadcast_seq st) (times i) st) in
  (S i, tick (set_watches (time_health_broadcast_progress (clock (t_ticks st)) (t_watches st)) st)).

(** One round of [time_sync_broadcast_thread]. *)
Definition broadcast_round (times : nat -> Z) (st : time_role) : time_role :=
  let st := tick (set_watches (time_health_broadcast_begin (clock (t_ticks st)) (t_watches st)) st) in
  let '(_, st) := fold_left (sync_target times) targets (O, st) in
  let st := set_watches (time_health_broadcast_end (t_watches st)) st in
  set_broadcast_seq (u32 (broadcast_seq st + 1)) st.

Definition request_progress (st : time_role) : time_role :=
  tick (set_watches (time_health_request_progress (clock (t_ticks st)) (t_watches st)) st).

(** One round of [time_sync_request_thread]. *)
Definition request_round (r : received) (buf : list Z) (now_sec : Z) (st : time_role) : time_role :=
  match r with
  | Got_timeout => request_progress st
  | Got_error => st
  | Got_message _ length =>
      if negb (length =? 1) then request_progress st
      else
        match List.find (fun t => fst t =? byte_at buf 0) targets with
        | Some (addr, cmd_port) =>
            let seq := request_seq st in
            let st := set_request_seq (u32 (seq + 1)) st in
            request_progress (snd (send_time_sync_to addr cmd_port seq now_sec st))
        | None => request_progress st
        end
  end.

End TimeSync.
End Time.

(** ** The timeouts *)

Lemma strtoull_range text v errno rest : strtoull text = Some (v, errno, rest) -> 0 <= v < 18446744073709551616.
Proof.
  unfold strtoull. set (neg := match skip_spaces text with 45 :: l => _ | _ => _ end).
  destruct neg as [neg l]. destruct l as [|c l]; [done|]. destruct (is_digit c); [|done].
  pose proof (scan_digits_nonneg (c :: l) 0 (Z.le_refl 0)) as Hd. destruct (scan_digits (c :: l) 0) as [d r]. cbn [fst] in Hd.
  case_if as E0; bool_facts; intros [= <- _ _]; [lia|]. destruct neg; zlia.
Qed.

(** A watch never gets the timeout 0, whatever the environment says, so that
    [obc_progress_init] accepts it. *)
Lemma timeout_from_env_range text fallback :
  0 < fallback < 18446744073709551616 -> 0 < timeout_from_env text fallback < 18446744073709551616.
Proof.
  intros Hf. unfold timeout_from_env. destruct text as [[|c text]|]; [done| |done].
  destruct (strtoull (c :: text)) as [[[v errno] rest]|] eqn:E0; [|done]. apply strtoull_range in E0.
  case_if as E1; [done|]. apply orb_false_iff in E1 as [_ E1]. bool_facts. zlia.
Qed.

(** A minus sign is accepted: "-1" asks for the longest timeout there is. *)
Lemma negative_timeout_accepted : timeout_from_env (Some [45; 49]) 3000 = 18446744073709551615.
Proof. reflexivity. Qed.

(** ** Telemetry from a board to the log *)

Definition telemetry_record (node dport : Z) (t : timespec) (data : list Z)
    : obc_telemetry_record_t :=
  mk_record node dport (tv_sec t * 1000000 + tv_nsec t / 1000) (len data)
    (patch (zeros OBC_TELEMETRY_MAX_PAYLOAD) 0 data).

Definition packet_time_ok (t : timespec) : Prop :=
  0 <= tv_sec t < 18446744073000 /\ 0 <= tv_nsec t < 1000000000.

Lemma telemetry_record_wf node dport t data :
  byte_ok node -> byte_ok dport -> packet_time_ok t ->
  bytes_ok data -> len data <= OBC_TELEMETRY_MAX_PAYLOAD ->
  record_wf (telemetry_record node dport t data).
Proof.
  intros Hs Hp [Ht1 Ht2] Hb Hl. pose proof (len_nonneg data). rewrite max_telemetry_value in Hl.
  unfold record_wf, telemetry_record. cbn [source_node source_port received_unix_us t_length t_payload].
  rewrite max_telemetry_value. split; [done|]. split; [done|]. split; [zlia|]. split; [lia|].
  split; [apply bytes_ok_patch; [unfold zeros; apply Forall_replicate; by unfold byte_ok|done]|].
  rewrite len_patch; rewrite ?len_zeros; lia.
Qed.

Section Forwarding.
Context {L LD : Type} `{Ipc (list Z) L} `{Ipc data_message LD}.
Context (clock dclock : nat -> timespec) (encoded0 behind : list Z) (log_path : path)
  (record0 : obc_telemetry_record_t).
Implicit Types (st : @Commands.commands L) (ds : @data_state LD).

Definition reliable_bytes : Prop := forall dest (m : list Z) (l : L), 0 <= fst (ipc_send dest m l).

Lemma ipc_send_bytes_ok dest data st :
  reliable_bytes -> len data <= OBC_IPC_MAX_PAYLOAD ->
  exists r st', Commands.ipc_send_bytes dest data st = (r, st') /\ 0 <= r
    /\ Commands.c_bus st' = Commands.c_bus st
    /\ reached (Commands.c_link st') dest = reached (Commands.c_link st) dest ++ [data]
    /\ forall other, other <> dest ->
         reached (Commands.c_link st') other = reached (Commands.c_link st) other.
Proof.
  intros Hrel Hl. unfold Commands.ipc_send_bytes. rewrite (proj2 (Z.ltb_ge _ _)) by done.
  pose proof (ipc_send_law dest data (Commands.c_link st)) as Hlaw.
  specialize (Hrel dest data (Commands.c_link st)).
  destruct (ipc_send dest data (Commands.c_link st)) as [r l]. destruct Hlaw as (Hok & _ & Ho).
  exists r, (Commands.set_link l st). split; [done|]. split; [done|]. split; [done|]. split; [by apply Hok|exact Ho].
Qed.

Lemma forward_telemetry_ok node dport data t st :
  reliable_bytes -> byte_ok node -> byte_ok dport -> packet_time_ok t -> bytes_ok data ->
  len data <= OBC_TELEMETRY_MAX_PAYLOAD ->
  exists r st', Commands.forward_telemetry encoded0 node dport data (Some t) st = (r, st') /\ 0 <= r
    /\ Commands.c_bus st' = Commands.c_bus st
    /\ reached (Commands.c_link st') ROLE_DATA
       = reached (Commands.c_link st) ROLE_DATA ++ [record_bytes (telemetry_record node dport t data)]
    /\ forall other, other <> ROLE_DATA ->
         reached (Commands.c_link st') other = reached (Commands.c_link st) other.
Proof.
  intros Hrel Hn Hp Ht Hb Hl. pose proof (telemetry_record_wf node dport t data Hn Hp Ht Hb Hl) as Hwf.
  pose proof (len_nonneg data). destruct Ht as [Ht1 Ht2]. unfold byte_ok in Hn.
  unfold Commands.forward_telemetry. rewrite (proj2 (Z.ltb_ge OBC_TELEMETRY_MAX_PAYLOAD _)) by done.
  rewrite (proj2 (Z.ltb_ge node 0)), (proj2 (Z.ltb_ge 255 node)) by lia. cbn [orb].
  replace (mk_record _ _ _ _ _) with (telemetry_record node dport t data).
  2:{ unfold telemetry_record. f_equal; zlia. }
  assert (len (record_bytes (telemetry_record node dport t data)) = 18 + len data) as Hlr.
  { rewrite len_record_bytes by done. done. }
  rewrite max_telemetry_value in Hl. unfold OBC_IPC_MAX_PAYLOAD.
  rewrite encode_success by (try done; cbn [t_length telemetry_record]; lia).
  cbn [t_length telemetry_record]. rewrite prefix_of_app by (by rewrite Hlr).
  apply ipc_send_bytes_ok; [done|]. unfold OBC_IPC_MAX_PAYLOAD. lia.
Qed.

Lemma telemetry_record_cleared node dport t data :
  len data <= OBC_TELEMETRY_MAX_PAYLOAD ->
  cleared (telemetry_record node dport t data) = telemetry_record node dport t data.
Proof.
  intros Hl. unfold cleared, telemetry_record. cbn [source_node source_port received_unix_us t_length t_payload].
  f_equal. f_equal. rewrite patch_0. by apply prefix_of_app.
Qed.

(** The Data role's round for a message of the Commands role. *)
Lemma storage_round_appends r rs ds rest :
  record_wf r -> cleared r = r -> bytes_ok rest -> holds_log (d_files ds) log_path rs ->
  exists ds', storage_round dclock log_path record0 (write_io_ok (len (record_bytes r))) read_io_ok
      (Got_message ROLE_COMMANDS (len (record_bytes r))) (record_bytes r ++ rest) [] [] ds = Some ds'
    /\ d_files ds' = <[log_path := log_bytes (rs ++ [r])]> (d_files ds).
Proof.
  intros Hwf Hcl Hrest Hlog. cbn [storage_round]. rewrite Z.eqb_refl.
  pose proof (append_ok (d_files ds) log_path
    (mk_append (record_bytes r ++ rest) (len (record_bytes r)) record0) rs) as Ha.
  cbn [a_bytes a_size a_record0] in Ha.
  assert (encoded_record (mk_append (record_bytes r ++ rest) (len (record_bytes r)) record0) = Some r) as He.
  { unfold encoded_record. cbn [a_bytes a_size a_record0]. rewrite len_record_bytes by done.
    by rewrite decode_record_bytes, Hcl. }
  rewrite He in Ha. eexists. split; [reflexivity|]. cbn [d_files data_health_storage_progress with_files].
  rewrite Ha; [done| |done]. split; cbn [a_bytes a_size].
  - apply Forall_app. split; [by apply record_bytes_ok|done].
  - rewrite len_app. pose proof (len_nonneg rest). pose proof (len_nonneg (record_bytes r)). lia.
Qed.

End Forwarding.


(** ** Time synchronisation, from the Time role to the boards *)

Section Synchronising.
Context {L L' : Type} `{Ipc (list Z) L} `{Ipc (list Z) L'}.
Context (clock clock' : nat -> timespec) (padding behind : list Z).
Implicit Types (st : @Time.time_role L) (cst : @Commands.commands L').

Lemma len_le_bytes n v : len (Time.le_bytes n v) = Z.of_nat n.
Proof. revert v. induction n as [|n IH]; intros v; [done|]. cbn [Time.le_bytes]. rewrite len_cons, IH. lia. Qed.

Lemma len_relay_request addr cmd_port command :
  len command <= 128 -> len (Time.relay_request addr cmd_port command) = Commands.sizeof_relay_request.
Proof.
  intros Hl. pose proof (len_nonneg command). unfold Time.relay_request, Commands.sizeof_relay_request.
  rewrite !len_app, len_le_bytes, len_patch; rewrite ?len_zeros; try lia. reflexivity.
Qed.

(** The relay hands the command of a well-formed request to the bus. *)
Lemma relay_round_forwards src addr cmd_port command cst :
  len command <= 128 ->
  Commands.relay_round clock' behind (Got_message src Commands.sizeof_relay_request)
    (Time.relay_request addr cmd_port command) true true cst
  = Commands.relay_progress clock' (Commands.put_on_bus (mk_sent addr cmd_port command) cst).
Proof.
  intros Hl. pose proof (len_nonneg command). unfold Commands.relay_round. rewrite Z.eqb_refl. cbn [negb].
  unfold Time.relay_request. cbn [Time.le_bytes app].
  change (byte_at (?a :: ?l) 0) with a.
  assert (forall b0 b1 b2 b3 l, le16 (b0 :: b1 :: b2 :: b3 :: l) 2 = b2 + 256 * b3) as Hle by done.
  rewrite Hle. replace (u8 (len command) + 256 * u8 (len command / 256)) with (len command) by zlia.
  assert (forall b0 b1 b2 b3 (l : list Z), skip 4 (b0 :: b1 :: b2 :: b3 :: l) = l) as Hsk by done.
  rewrite Hsk. do 3 f_equal. rewrite (prefix_of_all 128) by (rewrite len_patch; rewrite ?len_zeros; lia).
  rewrite patch_0, <- app_assoc. by apply prefix_of_app.
Qed.

Lemma sync_target_ok times i st addr cmd_port :
  reliable_bytes (L:=L) ->
  exists st', Time.sync_target clock padding times (i, st) (addr, cmd_port) = (S i, st')
    /\ reached (Time.t_link st') ROLE_COMMANDS
       = reached (Time.t_link st) ROLE_COMMANDS
         ++ [Time.relay_request addr cmd_port
               (Time.time_sync_command padding (Time.broadcast_seq st) (times i))]
    /\ Time.broadcast_seq st' = Time.broadcast_seq st.
Proof.
  intros Hrel. unfold Time.sync_target, Time.send_time_sync_to. set (m := Time.relay_request _ _ _).
  pose proof (ipc_send_law ROLE_COMMANDS m (Time.t_link st)) as Hlaw. specialize (Hrel ROLE_COMMANDS m (Time.t_link st)).
  destruct (ipc_send ROLE_COMMANDS m (Time.t_link st)) as [r l]. cbn [snd fst] in *.
  eexists. split; [done|]. split; [by apply Hlaw|done].
Qed.

(** The messages of one broadcast, relayed in order while connections open. *)
Definition relay_all (ms : list (list Z)) cst : @Commands.commands L' :=
  fold_left (fun cst m => Commands.relay_round clock' behind (Got_message ROLE_TIME (len m)) m true true cst) ms cst.

(** A broadcast reaches every board of the table.  Each broadcast round sends one
    message per target to the Commands role and counts its sequence number up by one; the
    relay turns these messages, in order, into one packet for each target, to its address
    and command port, which carries exactly the time-synchronisation command with the
    round's sequence number and the time read for that target. *)
Theorem time_sync_reaches_boards times st cst :
  reliable_bytes (L:=L) -> len padding = 3 ->
  let st' := Time.broadcast_round clock padding times st in
  let command i := Time.time_sync_command padding (Time.broadcast_seq st) (times i) in
  exists ms,
    reached (Time.t_link st') ROLE_COMMANDS = reached (Time.t_link st) ROLE_COMMANDS ++ ms
    /\ Commands.c_bus (relay_all ms cst)
       = Commands.c_bus cst
         ++ [mk_sent ADCS_ADDRESS ADCS_CMD_PORT (command 0%nat);
             mk_sent EPS_ADDRESS EPS_CMD_PORT (command 1%nat)]
    /\ Time.broadcast_seq st' = u32 (Time.broadcast_seq st + 1).
Proof.
  intros Hrel Hpad. cbv zeta. unfold Time.broadcast_round, Time.targets. cbn [fold_left].
  set (st0 := Time.tick _).
  destruct (sync_target_ok times 0 st0 ADCS_ADDRESS ADCS_CMD_PORT Hrel) as (st1 & -> & Hr1 & Hs1).
  destruct (sync_target_ok times 1 st1 EPS_ADDRESS EPS_CMD_PORT Hrel) as (st2 & -> & Hr2 & Hs2).
  rewrite Hs1 in Hr2, Hs2. change (Time.broadcast_seq st0) with (Time.broadcast_seq st) in *.
  assert (forall seq t, len (Time.time_sync_command padding seq t) = 16) as Hc.
  { intros seq t. unfold Time.time_sync_command. rewrite len_cons, !len_app, Hpad. reflexivity. }
  eexists. split; [|split].
  - etransitivity; [exact Hr2|]. rewrite Hr1, <- app_assoc. reflexivity.
  - unfold relay_all. cbn [app fold_left].
    rewrite !len_relay_request, !relay_round_forwards by (rewrite Hc; lia).
    cbn [Commands.c_bus Commands.put_on_bus Commands.relay_progress]. by rewrite <- app_assoc.
  - cbn [Time.broadcast_seq Time.set_broadcast_seq Time.set_watches]. by rewrite Hs2.
Qed.
End Synchronising.

Definition idle_commands : @Commands.commands (post (list Z)) :=
  Commands.mk_commands
    (Commands.mk_watches (mk_progress (mk_time 0 0) 3000 true) (mk_progress (mk_time 0 0) 3000 true))
    0 (mk_post []) [].
Definition idle_time : @Time.time_role (post (list Z)) :=
  Time.mk_time_role
    (Time.mk_watches (mk_progress (mk_time 0 0) 3000 false) (mk_progress (mk_time 0 0) 3000 true))
    0 (mk_post []) 7 0.

Lemma time_sync_reaches_boards_witness :
  exists ms,
    Commands.c_bus (relay_all (fun _ => mk_time 0 0) [] ms idle_commands)
    = [mk_sent 2 10 [4; 0; 0; 0; 7; 0; 0; 0; 232; 3; 0; 0; 0; 0; 0; 0];
       mk_sent 3 11 [4; 0; 0; 0; 7; 0; 0; 0; 233; 3; 0; 0; 0; 0; 0; 0]].
Proof.
  destruct (time_sync_reaches_boards (fun _ => mk_time 0 0) (fun _ => mk_time 0 0) [0; 0; 0] []
    (fun i => 1000 + Z.of_nat i) idle_time idle_commands post_reliable eq_refl) as (ms & _ & Hb & _).
  exists ms. exact Hb.
Defined.
