(* ===== verification/Float32.v ===== *)
(** IEEE-754 binary32, the C type [float] of the boards' code.

    A [float] is a [spec_float] of the Standard Library, whose operations are the IEEE
    ones with rounding to nearest even; [prec] is 24 and [emax] is 128.  The model takes
    every operation at its own type: no excess precision and no fused multiply-add. *)

From Stdlib Require Import Floats.SpecFloat.
From S2P Require Import Prelude.

Abbreviation f32 := spec_float.

Definition fadd : f32 -> f32 -> f32 := SFadd 24 128.
Definition fsub : f32 -> f32 -> f32 := SFsub 24 128.
Definition fmul : f32 -> f32 -> f32 := SFmul 24 128.
Definition fdiv : f32 -> f32 -> f32 := SFdiv 24 128.
Definition sqrtf : f32 -> f32 := SFsqrt 24 128.
Definition fneg : f32 -> f32 := SFopp.
Definition fabsf : f32 -> f32 := SFabs.
Definition flt : f32 -> f32 -> bool := SFltb.
Definition fle : f32 -> f32 -> bool := SFleb.
Definition feq : f32 -> f32 -> bool := SFeqb.

Definition isnan (x : f32) : bool := match x with S754_nan => true | _ => false end.
Definition isfinite (x : f32) : bool :=
  match x with S754_zero _ | S754_finite _ _ _ => true | _ => false end.

Definition NAN : f32 := S754_nan.
Definition f0 : f32 := S754_zero false.

(** [(float)z] for an integer [z]. *)
Definition of_int (z : Z) : f32 := binary_normalize 24 128 z 0 false.

(** The literal [n / d], rounded once. *)
Definition lit (n d : positive) : f32 :=
  SFdiv 24 128 (S754_finite false n 0) (S754_finite false d 0).
Definition f1 : f32 := lit 1 1.

Definition fminf (x y : f32) : f32 :=
  if isnan x then y else if isnan y then x else if flt y x then y else x.

(** [fmodf]: exact, with the sign of the dividend. *)
Definition fmodf (x y : f32) : f32 :=
  match x, y with
  | S754_nan, _ | _, S754_nan | S754_infinity _, _ | _, S754_zero _ => S754_nan
  | _, S754_infinity _ | S754_zero _, _ => x
  | S754_finite sx mx ex, S754_finite _ my ey =>
      let e := Z.min ex ey in
      let r := (Z.shiftl (Zpos mx) (ex - e) mod Z.shiftl (Zpos my) (ey - e))%Z in
      binary_normalize 24 128 (if sx then (- r)%Z else r) e sx
  end.

#[global] Arguments fadd : simpl never.
#[global] Arguments fsub : simpl never.
#[global] Arguments fmul : simpl never.
#[global] Arguments fdiv : simpl never.
#[global] Arguments sqrtf : simpl never.
#[global] Arguments lit : simpl never.
#[global] Arguments f1 : simpl never.

Declare Scope f32_scope.
Delimit Scope f32_scope with f32.
Bind Scope f32_scope with spec_float.
Infix "+" := fadd : f32_scope.
Infix "-" := fsub : f32_scope.
Infix "*" := fmul : f32_scope.
Infix "/" := fdiv : f32_scope.
Notation "- x" := (fneg x) : f32_scope.
Infix "<?" := flt : f32_scope.
Infix "<=?" := fle : f32_scope.
Infix "=?" := feq : f32_scope.
Notation "x >? y" := (flt y x) (only parsing) : f32_scope.
Notation "x >=? y" := (fle y x) (only parsing) : f32_scope.

(** libm functions the C standard gives only approximately. *)
Class Libm := {
  atan2f : f32 -> f32 -> f32;
  acosf : f32 -> f32;
  sinf : f32 -> f32;
  cosf : f32 -> f32
}.

(** ** The bytes of a float *)

(** The 32 bits [memcpy] sees; the NaN is the default quiet one. *)
Definition f32_bits (x : f32) : Z :=
  match x with
  | S754_zero s => if s then 2147483648 else 0
  | S754_infinity s => (if s then 2147483648 else 0) + 2139095040
  | S754_nan => 2143289344
  | S754_finite s m e =>
      (if s then 2147483648 else 0)
      + (if Zpos m <? 8388608 then Zpos m else (e + 150) * 8388608 + (Zpos m - 8388608))
  end.

Definition f32_of_bits (w : Z) : f32 :=
  let s := (2147483648 <=? w)%Z in
  let ex := ((w / 8388608) mod 256)%Z in
  let m := (w mod 8388608)%Z in
  if (ex =? 0)%Z then
    match m with Zpos p => S754_finite s p (-149) | _ => S754_zero s end
  else if (ex =? 255)%Z then if (m =? 0)%Z then S754_infinity s else S754_nan
  else match (m + 8388608)%Z with Zpos p => S754_finite s p (ex - 150) | _ => S754_nan end.

(** ** Order *)

Lemma compare_swap x y : SFcompare y x = option_map CompOpp (SFcompare x y).
Proof.
  destruct x as [[]|[]| |[] mx ex], y as [[]|[]| |[] my ey]; try reflexivity; cbn;
    rewrite (Z.compare_antisym ex ey); destruct (ex ?= ey) eqn:E; cbn; try reflexivity;
    rewrite (Pos.compare_cont_antisym mx my Eq); cbn;
    destruct (Pos.compare_cont Eq mx my); reflexivity.
Qed.

Lemma compare_some x y : isnan x = false -> isnan y = false -> exists c, SFcompare x y = Some c.
Proof. destruct x as [[]|[]| |[] mx ex], y as [[]|[]| |[] my ey]; try discriminate; cbn; eauto. Qed.

Lemma compare_refl x : isnan x = false -> SFcompare x x = Some Eq.
Proof.
  destruct x as [[]|[]| |[] m e]; try discriminate; try reflexivity; cbn; intros _;
    rewrite Z.compare_refl; cbn;
    change (Pos.compare_cont Eq m m) with (Pos.compare m m); by rewrite Pos.compare_refl.
Qed.

Lemma fle_refl x : isnan x = false -> fle x x = true.
Proof. intros H. unfold fle, SFleb. by rewrite compare_refl. Qed.

Lemma flt_fle x y : flt x y = true -> fle x y = true.
Proof. unfold flt, fle, SFltb, SFleb. by destruct (SFcompare x y) as [[]|]. Qed.

(** Comparisons of numbers are total: what is not smaller is at least as large. *)
Lemma flt_false x y : isnan x = false -> isnan y = false -> flt x y = false -> fle y x = true.
Proof.
  intros Hx Hy. unfold flt, fle, SFltb, SFleb. rewrite (compare_swap x y).
  destruct (compare_some x y Hx Hy) as [[] ->]; by cbn.
Qed.

Lemma fle_false x y : isnan x = false -> isnan y = false -> fle x y = false -> flt y x = true.
Proof.
  intros Hx Hy. unfold flt, fle, SFltb, SFleb. rewrite (compare_swap x y).
  destruct (compare_some x y Hx Hy) as [[] ->]; by cbn.
Qed.

Lemma fle_not_nan x y : fle x y = true -> isnan x = false /\ isnan y = false.
Proof. unfold fle, SFleb. by destruct x as [[]|[]| |[] ? ?], y as [[]|[]| |[] ? ?]. Qed.

Lemma flt_not_nan x y : flt x y = true -> isnan x = false /\ isnan y = false.
Proof. intros H. by apply fle_not_nan, flt_fle. Qed.

Lemma flt_not_fle x y : flt x y = true -> fle y x = false.
Proof.
  unfold flt, fle, SFltb, SFleb. rewrite (compare_swap x y). by destruct (SFcompare x y) as [[]|].
Qed.

Lemma fle_not_flt x y : fle x y = true -> flt y x = false.
Proof.
  unfold flt, fle, SFltb, SFleb. rewrite (compare_swap x y). by destruct (SFcompare x y) as [[]|].
Qed.

Lemma isfinite_not_nan x : isfinite x = true -> isnan x = false.
Proof. by destruct x. Qed.

(** The order of finite floats of one sign is the order of exponents, then mantissas. *)
Lemma fle_finite s m1 e1 m2 e2 :
  fle (S754_finite s m1 e1) (S754_finite s m2 e2) = true
  <-> if s then e2 < e1 \/ (e1 = e2 /\ (m2 <= m1)%positive)
      else e1 < e2 \/ (e1 = e2 /\ (m1 <= m2)%positive).
Proof.
  unfold fle, SFleb, SFcompare. change (Pos.compare_cont Eq m1 m2) with (m1 ?= m2)%positive.
  destruct s; destruct (Z.compare_spec e1 e2); destruct (Pos.compare_spec m1 m2); cbn;
    split; intros; try done; lia.
Qed.

Lemma fle_trans x y z : fle x y = true -> fle y z = true -> fle x z = true.
Proof.
  destruct x as [[]|[]| |[] m1 e1], y as [[]|[]| |[] m2 e2], z as [[]|[]| |[] m3 e3]; try done;
    rewrite !fle_finite; lia.
Qed.

Lemma fle_flt_trans_false x y z : fle x y = true -> fle y z = true -> flt z x = false.
Proof. intros. by apply fle_not_flt, (fle_trans _ y). Qed.

Lemma feq_refl x : isnan x = false -> feq x x = true.
Proof. intros H. unfold feq, SFeqb. by rewrite compare_refl. Qed.

(** A value between finite values is finite. *)
Lemma between_finite lo x hi :
  isfinite lo = true -> isfinite hi = true -> fle lo x = true -> fle x hi = true -> isfinite x = true.
Proof.
  by destruct lo as [[]|[]| |[] ? ?], hi as [[]|[]| |[] ? ?], x as [[]|[]| |[] ? ?].
Qed.

#[export] Hint Resolve fle_refl flt_fle isfinite_not_nan : flight.

(** ** Round trip of the bytes *)

Lemma digits2_bounds m : 2 ^ (Zpos (digits2_pos m) - 1) <= Zpos m < 2 ^ Zpos (digits2_pos m).
Proof.
  induction m as [m IH|m IH|]; cbn [digits2_pos]; [| |cbn; lia];
    rewrite Pos2Z.inj_succ; replace (Z.succ _ - 1) with (Z.succ (Zpos (digits2_pos m) - 1)) by lia;
    rewrite !Z.pow_succ_r by lia; lia.
Qed.

(** A canonical mantissa has 24 bits, or fewer at the smallest exponent. *)
Lemma bounded_cases m e :
  bounded 24 128 m e = true ->
  -149 <= e <= 104 /\ Zpos m < 16777216 /\ (Zpos m < 8388608 -> e = -149).
Proof.
  unfold bounded, canonical_mantissa, fexp, emin. intros H. bool_facts.
  pose proof (digits2_bounds m) as [Hlo Hhi].
  assert (2 ^ Zpos (digits2_pos m) <= 2 ^ 24) by (apply Z.pow_le_mono_r; lia).
  split_and!; [lia..|]. intros Hm.
  destruct (decide (24 <= Zpos (digits2_pos m))); [|lia].
  assert (2 ^ 23 <= 2 ^ (Zpos (digits2_pos m) - 1)) by (apply Z.pow_le_mono_r; lia). lia.
Qed.

Definition valid_f32 (x : f32) : Prop := valid_binary 24 128 x = true.

Lemma f32_bits_range x : valid_f32 x -> 0 <= f32_bits x < 4294967296.
Proof.
  destruct x as [[]|[]| |s m e]; cbn; try lia. intros H%bounded_cases.
  destruct s, (Z.ltb_spec (Zpos m) 8388608); lia.
Qed.

(** The bits determine the float: a memory copy through an integer loses nothing. *)
Lemma f32_bits_roundtrip x : valid_f32 x -> f32_of_bits (f32_bits x) = x.
Proof.
  destruct x as [[]|[]| |s m e]; try reflexivity. cbn [f32_bits valid_f32 valid_binary].
  intros H%bounded_cases. unfold f32_of_bits.
  destruct (Z.ltb_spec (Zpos m) 8388608) as [Hm|Hm].
  - replace e with (-149) by lia. destruct s.
    + replace ((2147483648 + Zpos m) / 8388608 mod 256) with 0 by zlia.
      replace ((2147483648 + Zpos m) mod 8388608) with (Zpos m) by zlia.
      rewrite (proj2 (Z.leb_le _ _)) by lia. done.
    + replace ((0 + Zpos m) / 8388608 mod 256) with 0 by zlia.
      replace ((0 + Zpos m) mod 8388608) with (Zpos m) by zlia.
      rewrite (proj2 (Z.leb_gt _ _)) by lia. done.
  - set (w := _ + ((e + 150) * 8388608 + _)).
    assert (w / 8388608 mod 256 = e + 150) as -> by (subst w; destruct s; zlia).
    assert (w mod 8388608 = Zpos m - 8388608) as -> by (subst w; destruct s; zlia).
    assert ((2147483648 <=? w) = s) as -> by (subst w; destruct s; [apply Z.leb_le|apply Z.leb_gt]; lia).
    rewrite !(proj2 (Z.eqb_neq _ _)) by lia.
    rewrite Z.sub_add, Z.add_simpl_r. done.
Qed.

(** ** Operations that cannot give NaN *)

Lemma shr_1_nonneg r : 0 <= shr_m r -> 0 <= shr_m (shr_1 r).
Proof. destruct r as [[|[]|[]] ? ?]; cbn; lia. Qed.

Lemma iter_pos_nonneg p r : 0 <= shr_m r -> 0 <= shr_m (SpecFloat.iter_pos shr_1 p r).
Proof. revert r. induction p; cbn [SpecFloat.iter_pos]; intros r H; auto using shr_1_nonneg. Qed.

Lemma shr_fexp_nonneg m e l : 0 <= m -> 0 <= shr_m (fst (shr_fexp 24 128 m e l)).
Proof.
  intros Hm. unfold shr_fexp, shr. assert (0 <= shr_m (shr_record_of_loc m l)) by by destruct l as [|[]].
  destruct (_ - e); cbn [fst]; auto using iter_pos_nonneg.
Qed.

Lemma round_even_nonneg m l : 0 <= m -> 0 <= round_nearest_even m l.
Proof. destruct l as [|[]]; cbn; [|destruct (Z.even m)|..]; lia. Qed.

Lemma round_aux_not_nan s m e l : 0 <= m -> isnan (binary_round_aux 24 128 s m e l) = false.
Proof.
  intros Hm. unfold binary_round_aux.
  pose proof (shr_fexp_nonneg m e l Hm). destruct (shr_fexp 24 128 m e l) as [r e']. cbn [fst] in *.
  pose proof (shr_fexp_nonneg (round_nearest_even (shr_m r) (loc_of_shr_record r)) e' loc_Exact
    (round_even_nonneg _ _ H)) as H2.
  destruct (shr_fexp 24 128 _ e' loc_Exact) as [r2 e2]. cbn [fst] in *.
  destruct (shr_m r2); [done| |lia]. by destruct (e2 <=? _).
Qed.

Lemma normalize_not_nan m e s : isnan (binary_normalize 24 128 m e s) = false.
Proof.
  destruct m; cbn; [done|..]; unfold binary_round; destruct (shl_align _ _ _);
    by apply round_aux_not_nan.
Qed.

Lemma fmul_not_nan x y : isfinite x = true -> isfinite y = true -> isnan (fmul x y) = false.
Proof.
  destruct x as [[]|[]| |? ? ?], y as [[]|[]| |? ? ?]; try done.
  intros _ _. by apply round_aux_not_nan.
Qed.

Lemma fadd_not_nan x y : isfinite x = true -> isnan y = false -> isnan (fadd x y) = false.
Proof.
  destruct x as [[]|[]| |? ? ?], y as [[]|[]| |? ? ?]; try done. intros _ _. apply normalize_not_nan.
Qed.

Lemma fsub_not_nan_l x y : isfinite x = true -> isnan y = false -> isnan (fsub x y) = false.
Proof.
  destruct x as [[]|[]| |? ? ?], y as [[]|[]| |? ? ?]; try done. intros _ _. apply normalize_not_nan.
Qed.

Lemma fsub_not_nan_r x y : isnan x = false -> isfinite y = true -> isnan (fsub x y) = false.
Proof.
  destruct x as [[]|[]| |? ? ?], y as [[]|[]| |? ? ?]; try done. intros _ _. apply normalize_not_nan.
Qed.

Lemma fdiv_not_nan x y :
  isnan x = false -> isfinite y = true -> flt f0 y = true -> isnan (fdiv x y) = false.
Proof.
  destruct x as [[]|[]| |? m ?], y as [[]|[]| |[] n ?]; try done.
  intros _ _ _. unfold fdiv, SFdiv, SFdiv_core_binary.
  set (sh := match _ with Z0 => _ | Zpos _ => _ | Zneg _ => _ end).
  assert (0 <= sh) as Hsh.
  { subst sh. destruct (_ - _ - _) as [|p|p]; [lia| |lia]. apply Z.shiftl_nonneg. lia. }
  pose proof (Z_div_mod sh (Zpos n) eq_refl) as Hdiv.
  destruct (Z.div_eucl sh (Zpos n)) as [q r]. apply round_aux_not_nan. nia.
Qed.

(** ** Operations that keep a number from being negative *)

Lemma round_aux_nonneg m e l : 0 <= m -> fle f0 (binary_round_aux 24 128 false m e l) = true.
Proof.
  intros Hm. pose proof (round_aux_not_nan false m e l Hm) as Hn. revert Hn. unfold binary_round_aux.
  destruct (shr_fexp 24 128 m e l) as [r e']. destruct (shr_fexp 24 128 _ e' loc_Exact) as [r2 e2].
  destruct (shr_m r2); [done| |done]. by destruct (e2 <=? _).
Qed.

Lemma normalize_nonneg p e s : fle f0 (binary_normalize 24 128 (Zpos p) e s) = true.
Proof. cbn. unfold binary_round. destruct (shl_align _ _ _). by apply round_aux_nonneg. Qed.

Lemma fmul_nonneg x y :
  fle f0 x = true -> fle f0 y = true -> isnan (fmul x y) = false -> fle f0 (fmul x y) = true.
Proof.
  destruct x as [[]|[]| |[] ? ?], y as [[]|[]| |[] ? ?]; try done. intros _ _ _. by apply round_aux_nonneg.
Qed.

Lemma fadd_nonneg x y : fle f0 x = true -> fle f0 y = true -> fle f0 (fadd x y) = true.
Proof.
  destruct x as [[]|[]| |[] ? ?], y as [[]|[]| |[] ? ?]; try done. intros _ _. apply normalize_nonneg.
Qed.

(** A product with a positive number is NaN only when a factor is. *)
Lemma fmul_pos_not_nan x y :
  isfinite x = true -> flt f0 x = true -> isnan y = false -> isnan (fmul x y) = false.
Proof.
  destruct x as [[]|[]| |[] ? ?], y as [[]|[]| |? ? ?]; try done. intros _ _ _. by apply round_aux_not_nan.
Qed.

Lemma fmul_comm_nan x y : isnan (fmul x y) = isnan (fmul y x).
Proof.
  destruct x as [[]|[]| |? ? ?], y as [[]|[]| |? ? ?]; try done.
  unfold fmul, SFmul. by rewrite !round_aux_not_nan.
Qed.

(** Sums and products of numbers that are not negative keep infinity. *)
Lemma fadd_infinite_r x : fle f0 x = true -> fadd x (S754_infinity false) = S754_infinity false.
Proof. by destruct x as [[]|[]| |[] ? ?]. Qed.

Lemma fmul_infinite_r x :
  isfinite x = true -> flt f0 x = true -> fmul x (S754_infinity false) = S754_infinity false.
Proof. by destruct x as [[]|[]| |[] ? ?]. Qed.

Lemma nonneg_cases x : fle f0 x = true -> isfinite x = true \/ x = S754_infinity false.
Proof. destruct x as [[]|[]| |[] ? ?]; try done; auto. Qed.

(** ** Symmetric intervals *)

Definition within (limit x : f32) : Prop := fle (fneg limit) x = true /\ fle x limit = true.

Lemma within_0 limit : fle f0 limit = true -> within limit f0.
Proof. by destruct limit as [[]|[]| |[] ? ?]. Qed.

Lemma neg_le_self limit : fle f0 limit = true -> fle (fneg limit) limit = true.
Proof. by destruct limit as [[]|[]| |[] ? ?]. Qed.

Lemma neg_negative x : flt x f0 = true -> flt (fneg x) f0 = false.
Proof. by destruct x as [[]|[]| |[] ? ?]. Qed.

Lemma isnan_neg x : isnan (fneg x) = isnan x.
Proof. by destruct x. Qed.

Lemma isfinite_neg x : isfinite (fneg x) = isfinite x.
Proof. by destruct x. Qed.

Lemma within_finite limit x : isfinite limit = true -> within limit x -> isfinite x = true.
Proof. intros H [H1 H2]. apply (between_finite (fneg limit) x limit); by rewrite ?isfinite_neg. Qed.
