(* ===== verification/AdcsMath.v ===== *)
(** The data of the attitude control board ([communication/message.h]), the vector and PID
    routines of its control laws ([control/control_math.c]) and the guidance targets
    ([guidance/target_generator.c]), all under [apps/adcs/Application].

    A [float[3]] is a [vec3], a quaternion a [versor], both passed by value: an output array
    is a result, and the caller's address of an array is never NULL.  Flags of type
    [uint8_t] are numbers. *)

From S2P Require Import Prelude Float32.

(** ** [message.h] *)

Inductive adcs_result_t :=
  | ADCS_RESULT_OK | ADCS_RESULT_INVALID_ARGUMENT | ADCS_RESULT_NOT_INITIALIZED
  | ADCS_RESULT_INVALID_DATA | ADCS_RESULT_OUT_OF_RANGE | ADCS_RESULT_UNAVAILABLE.

Inductive adcs_mode_t :=
  | ADCS_MODE_BOOT | ADCS_MODE_SAFE | ADCS_MODE_DETUMBLE | ADCS_MODE_SUN_ACQUISITION
  | ADCS_MODE_SUN_POINTING | ADCS_MODE_EARTH_POINTING | ADCS_MODE_SLEWING
  | ADCS_MODE_TARGET_POINTING | ADCS_MODE_SCIENCE | ADCS_MODE_COUNT.

#[export] Instance adcs_result_eq_dec : EqDecision adcs_result_t.
Proof. solve_decision. Defined.
#[export] Instance adcs_mode_eq_dec : EqDecision adcs_mode_t.
Proof. solve_decision. Defined.

Definition mode_value (m : adcs_mode_t) : Z :=
  match m with
  | ADCS_MODE_BOOT => 0 | ADCS_MODE_SAFE => 1 | ADCS_MODE_DETUMBLE => 2
  | ADCS_MODE_SUN_ACQUISITION => 3 | ADCS_MODE_SUN_POINTING => 4
  | ADCS_MODE_EARTH_POINTING => 5 | ADCS_MODE_SLEWING => 6
  | ADCS_MODE_TARGET_POINTING => 7 | ADCS_MODE_SCIENCE => 8 | ADCS_MODE_COUNT => 9
  end.

(** The cast of an integer to the enumeration; [None] outside its constants. *)
Definition mode_of_value (v : Z) : option adcs_mode_t :=
  List.find (fun m => mode_value m =? v)
    [ADCS_MODE_BOOT; ADCS_MODE_SAFE; ADCS_MODE_DETUMBLE; ADCS_MODE_SUN_ACQUISITION;
     ADCS_MODE_SUN_POINTING; ADCS_MODE_EARTH_POINTING; ADCS_MODE_SLEWING;
     ADCS_MODE_TARGET_POINTING; ADCS_MODE_SCIENCE; ADCS_MODE_COUNT].

(** [(unsigned int)mode < ADCS_MODE_COUNT]. *)
Definition mode_is_valid (m : adcs_mode_t) : bool := mode_value m <? 9.

Definition ADCS_SENSOR_VALID_GYROSCOPE : Z := 1.
Definition ADCS_SENSOR_VALID_ACCELEROMETER : Z := 2.
Definition ADCS_SENSOR_VALID_MAGNETOMETER : Z := 4.
Definition ADCS_SENSOR_VALID_SUN : Z := 8.
Definition ADCS_REFERENCE_VALID_SUN : Z := 1.
Definition ADCS_REFERENCE_VALID_MAGNETIC_FIELD : Z := 2.
Definition ADCS_REFERENCE_VALID_NADIR : Z := 4.

(** [(mask & bits) == bits]. *)
Definition has_bits (mask bits : Z) : bool := Z.land mask bits =? bits.

Record vec3 := Vec { v0 : f32; v1 : f32; v2 : f32 }.
Record versor := Versor { q0 : f32; q1 : f32; q2 : f32; q3 : f32 }.

Definition vec_list (v : vec3) : list f32 := [v0 v; v1 v; v2 v].
Definition versor_list (q : versor) : list f32 := [q0 q; q1 q; q2 q; q3 q].
Definition vec_map (f : f32 -> f32) (v : vec3) : vec3 := Vec (f (v0 v)) (f (v1 v)) (f (v2 v)).
Definition vec_zip (f : f32 -> f32 -> f32) (v w : vec3) : vec3 :=
  Vec (f (v0 v) (v0 w)) (f (v1 v) (v1 w)) (f (v2 v) (v2 w)).
Definition versor_map (f : f32 -> f32) (q : versor) : versor :=
  Versor (f (q0 q)) (f (q1 q)) (f (q2 q)) (f (q3 q)).
Definition vec_zero : vec3 := Vec f0 f0 f0.
Definition versor_zero : versor := Versor f0 f0 f0 f0.

#[projections(primitive)]
Record adcs_sensor_packet_t := mk_sensors {
  sp_sequence : Z;
  sp_timestamp_us : Z;
  sp_angular_rate_rad_s : vec3;
  sp_acceleration_m_s2 : vec3;
  sp_magnetic_field_t : vec3;
  sp_sun_vector_body : vec3;
  sp_sun_irradiance_w_m2 : f32;
  sp_valid_mask : Z
}.

#[projections(primitive)]
Record adcs_orbit_state_t := mk_orbit {
  or_unix_time_us : Z;
  or_position_eci_m : vec3;
  or_velocity_eci_m_s : vec3;
  or_valid : Z
}.

#[projections(primitive)]
Record adcs_reference_vectors_t := mk_references {
  rv_unix_time_us : Z;
  rv_sun_eci_unit : vec3;
  rv_magnetic_field_eci_t : vec3;
  rv_nadir_eci_unit : vec3;
  rv_valid_mask : Z
}.

(** [covariance_diagonal] has six elements. *)
#[projections(primitive)]
Record adcs_attitude_state_t := mk_attitude {
  at_timestamp_us : Z;
  at_quaternion : versor;
  at_angular_rate_rad_s : vec3;
  at_gyro_bias_rad_s : vec3;
  at_covariance_diagonal : list f32;
  at_confidence : f32;
  at_valid : Z
}.

#[projections(primitive)]
Record adcs_guidance_target_t := mk_target {
  gt_mode : adcs_mode_t;
  gt_target_quaternion : versor;
  gt_pointing_axis_body : vec3;
  gt_target_direction_eci : vec3;
  gt_maximum_rate_rad_s : f32
}.

#[projections(primitive)]
Record adcs_control_output_t := mk_output {
  co_timestamp_us : Z;
  co_requested_torque_nm : vec3;
  co_requested_dipole_a_m2 : vec3;
  co_achievable_torque_nm : vec3;
  co_pointing_error_rad : f32;
  co_source_mode : adcs_mode_t;
  co_pointing_error_valid : Z;
  co_actuators_enabled : Z;
  co_saturated : Z;
  co_target_settled : Z
}.

#[projections(primitive)]
Record adcs_magnetorquer_command_t := mk_magnetorquer {
  mc_timestamp_us : Z;
  mc_dipole_a_m2 : vec3;
  mc_enabled : Z
}.

#[projections(primitive)]
Record adcs_health_t := mk_health {
  he_timestamp_us : Z;
  he_active_faults : Z;
  he_rejected_commands : Z;
  he_dropped_messages : Z;
  he_estimator_resets : Z;
  he_controller_errors : Z;
  he_mode_transitions : Z;
  he_minimum_stack_margin_words : f32;
  he_sensors_healthy : Z;
  he_estimator_healthy : Z;
  he_actuators_healthy : Z
}.

(** The results of [memset] to zero. *)
Definition zero_sensors : adcs_sensor_packet_t :=
  mk_sensors 0 0 vec_zero vec_zero vec_zero vec_zero f0 0.
Definition zero_orbit : adcs_orbit_state_t := mk_orbit 0 vec_zero vec_zero 0.
Definition zero_references : adcs_reference_vectors_t :=
  mk_references 0 vec_zero vec_zero vec_zero 0.
Definition zero_attitude : adcs_attitude_state_t :=
  mk_attitude 0 versor_zero vec_zero vec_zero [f0; f0; f0; f0; f0; f0] f0 0.
Definition zero_target : adcs_guidance_target_t :=
  mk_target ADCS_MODE_BOOT versor_zero vec_zero vec_zero f0.
Definition zero_output : adcs_control_output_t :=
  mk_output 0 vec_zero vec_zero vec_zero f0 ADCS_MODE_BOOT 0 0 0 0.
Definition zero_health : adcs_health_t := mk_health 0 0 0 0 0 0 0 f0 0 0 0.

(** ** [control_math.c] *)

#[local] Open Scope f32_scope.

Definition ADCS_MATH_EPSILON : f32 := lit 1 1000000000.

Definition adcs_values_are_finite (values : list f32) : bool := forallb isfinite values.

Definition adcs_clampf (value minimum maximum : f32) : f32 :=
  if isnan value || isnan minimum || isnan maximum || (minimum >? maximum) then value
  else if value <? minimum then minimum
  else if value >? maximum then maximum
  else value.

Definition adcs_vector_norm (v : vec3) : f32 :=
  if negb (adcs_values_are_finite (vec_list v)) then NAN
  else sqrtf (v0 v * v0 v + v1 v * v1 v + v2 v * v2 v).

Definition adcs_vector_normalize (input : vec3) : adcs_result_t * vec3 :=
  let norm := adcs_vector_norm input in
  if negb (isfinite norm) || (norm <? ADCS_MATH_EPSILON)
  then (ADCS_RESULT_INVALID_DATA, vec_zero)
  else (ADCS_RESULT_OK, vec_map (fun x => x / norm) input).

Definition adcs_vector_cross (l r : vec3) : vec3 :=
  Vec (v1 l * v2 r - v2 l * v1 r) (v2 l * v0 r - v0 l * v2 r) (v0 l * v1 r - v1 l * v0 r).

(** The limited vector and [was_limited]. *)
Definition adcs_vector_limit (input : vec3) (limit : f32) : adcs_result_t * vec3 * Z :=
  if negb (isfinite limit) || (limit <? f0) || negb (adcs_values_are_finite (vec_list input))
  then (ADCS_RESULT_INVALID_ARGUMENT, vec_zero, 0%Z)
  else
    let norm := adcs_vector_norm input in
    let scale := if (norm >? limit) && (norm >? ADCS_MATH_EPSILON) then limit / norm else f1 in
    (ADCS_RESULT_OK, vec_map (fun x => x * scale) input, b2z (scale <? f1)).

(** The loop [sum += x * x] over an array. *)
Definition sum_of_squares (values : list f32) : f32 :=
  fold_left (fun acc x => acc + x * x) values f0.

(** [output] is written only on success. *)
Definition adcs_quaternion_normalize (input output : versor) : adcs_result_t * versor :=
  if negb (adcs_values_are_finite (versor_list input)) then (ADCS_RESULT_INVALID_ARGUMENT, output)
  else
    let norm_squared := sum_of_squares (versor_list input) in
    if negb (isfinite norm_squared) || (norm_squared <? ADCS_MATH_EPSILON)
    then (ADCS_RESULT_INVALID_DATA, output)
    else
      let inverse_norm := f1 / sqrtf norm_squared in
      let normalized := versor_map (fun x => x * inverse_norm) input in
      (ADCS_RESULT_OK, if q3 normalized <? f0 then versor_map fneg normalized else normalized).

Definition adcs_quaternion_multiply (l r : versor) : versor :=
  Versor (q3 l * q0 r + q0 l * q3 r + q1 l * q2 r - q2 l * q1 r)
         (q3 l * q1 r - q0 l * q2 r + q1 l * q3 r + q2 l * q0 r)
         (q3 l * q2 r + q0 l * q1 r - q1 l * q0 r + q2 l * q3 r)
         (q3 l * q3 r - q0 l * q0 r - q1 l * q1 r - q2 l * q2 r).

Definition adcs_quaternion_error_vector `{Libm} (current target : versor) : adcs_result_t * vec3 :=
  match adcs_quaternion_normalize current versor_zero, adcs_quaternion_normalize target versor_zero with
  | (ADCS_RESULT_OK, current_unit), (ADCS_RESULT_OK, target_unit) =>
      let current_conjugate :=
        Versor (- q0 current_unit) (- q1 current_unit) (- q2 current_unit) (q3 current_unit) in
      let mapping_error := adcs_quaternion_multiply target_unit current_conjugate in
      let mapping_error :=
        if q3 mapping_error <? f0 then versor_map fneg mapping_error else mapping_error in
      let axis := Vec (q0 mapping_error) (q1 mapping_error) (q2 mapping_error) in
      let vector_norm := sqrtf (v0 axis * v0 axis + v1 axis * v1 axis + v2 axis * v2 axis) in
      if vector_norm <? ADCS_MATH_EPSILON then (ADCS_RESULT_OK, vec_zero)
      else
        let angle := lit 2 1 * atan2f vector_norm (adcs_clampf (q3 mapping_error) f0 f1) in
        (ADCS_RESULT_OK, vec_map (fun x => - x * angle / vector_norm) axis)
  | _, _ => (ADCS_RESULT_INVALID_DATA, vec_zero)
  end.

(** *** PID *)

#[projections(primitive)]
Record adcs_pid_config_t := mk_pid_config {
  proportional_gain : f32;
  integral_gain : f32;
  derivative_gain : f32;
  integrator_limit : f32;
  output_limit : f32
}.

#[projections(primitive)]
Record adcs_pid_state_t := mk_pid {
  pid_config : adcs_pid_config_t;
  integral : f32;
  previous_error : f32;
  has_previous_error : Z
}.

Definition pid_config_is_valid (c : adcs_pid_config_t) : bool :=
  isfinite (proportional_gain c) && isfinite (integral_gain c) && isfinite (derivative_gain c)
  && isfinite (integrator_limit c) && isfinite (output_limit c)
  && (proportional_gain c >=? f0) && (integral_gain c >=? f0) && (derivative_gain c >=? f0)
  && (integrator_limit c >=? f0) && (output_limit c >? f0).

Definition zero_pid : adcs_pid_state_t := mk_pid (mk_pid_config f0 f0 f0 f0 f0) f0 f0 0.

Definition adcs_pid_init (config : adcs_pid_config_t) : adcs_pid_state_t :=
  if pid_config_is_valid config then zero_pid <| pid_config := config |> else zero_pid.

Definition adcs_pid_reset (st : adcs_pid_state_t) : adcs_pid_state_t :=
  st <| integral := f0 |> <| previous_error := f0 |> <| has_previous_error := 0%Z |>.

Definition adcs_pid_update (error dt_s : f32) (st : adcs_pid_state_t)
    : adcs_result_t * f32 * adcs_pid_state_t :=
  let c := pid_config st in
  if negb (isfinite error) || negb (isfinite dt_s) || (dt_s <=? f0) || negb (pid_config_is_valid c)
  then (ADCS_RESULT_INVALID_ARGUMENT, f0, st)
  else
    let clamp_integral v := adcs_clampf v (- integrator_limit c) (integrator_limit c) in
    let candidate_integral := integral st + error * dt_s in
    let st := st <| integral := clamp_integral candidate_integral |> in
    let derivative :=
      if truthy (has_previous_error st) then (error - previous_error st) / dt_s else f0 in
    let raw_output :=
      proportional_gain c * error + integral_gain c * integral st + derivative_gain c * derivative in
    let output := adcs_clampf raw_output (- output_limit c) (output_limit c) in
    let st :=
      if (integral_gain c >? ADCS_MATH_EPSILON) && negb (raw_output =? output)
      then st <| integral := clamp_integral (integral st - (raw_output - output) / integral_gain c) |>
      else st in
    (ADCS_RESULT_OK, output, st <| previous_error := error |> <| has_previous_error := 1%Z |>).

(** ** [target_generator.c] *)

Definition GUIDANCE_OPPOSITE_VECTOR_EPSILON : f32 := lit 1 100000.

(** The loop [dot += a * b]. *)
Definition dot_product (v w : vec3) : f32 :=
  fold_left (fun acc '(x, y) => acc + x * y) (combine (vec_list v) (vec_list w)) f0.

Definition quaternion_between_vectors (from to : vec3) (quaternion : versor) : adcs_result_t * versor :=
  match adcs_vector_normalize from, adcs_vector_normalize to with
  | (ADCS_RESULT_OK, from_unit), (ADCS_RESULT_OK, to_unit) =>
      let dot := adcs_clampf (dot_product from_unit to_unit) (- f1) f1 in
      if dot >? f1 - GUIDANCE_OPPOSITE_VECTOR_EPSILON
      then adcs_quaternion_normalize (Versor f0 f0 f0 f1) quaternion
      else if dot <? - f1 + GUIDANCE_OPPOSITE_VECTOR_EPSILON then
        let basis := if fabsf (v0 from_unit) >? lit 8 10 then Vec f0 f1 f0 else Vec f1 f0 f0 in
        match adcs_vector_normalize (adcs_vector_cross from_unit basis) with
        | (ADCS_RESULT_OK, cross) =>
            adcs_quaternion_normalize (Versor (v0 cross) (v1 cross) (v2 cross) f0) quaternion
        | _ => (ADCS_RESULT_INVALID_DATA, quaternion)
        end
      else
        let cross := adcs_vector_cross from_unit to_unit in
        adcs_quaternion_normalize (Versor (v0 cross) (v1 cross) (v2 cross) (f1 + dot)) quaternion
  | _, _ => (ADCS_RESULT_INVALID_DATA, quaternion)
  end.

(** [target] is written only on success. *)
Definition adcs_guidance_target_from_vector (mode : adcs_mode_t) (body_axis inertial_direction : vec3)
    (maximum_rate_rad_s : f32) (target : adcs_guidance_target_t)
    : adcs_result_t * adcs_guidance_target_t :=
  if negb (mode_is_valid mode) || negb (isfinite maximum_rate_rad_s) || (maximum_rate_rad_s <=? f0)
  then (ADCS_RESULT_INVALID_ARGUMENT, target)
  else
    match adcs_vector_normalize body_axis, adcs_vector_normalize inertial_direction with
    | (ADCS_RESULT_OK, axis), (ADCS_RESULT_OK, direction) =>
        match quaternion_between_vectors direction axis versor_zero with
        | (ADCS_RESULT_OK, q) => (ADCS_RESULT_OK, mk_target mode q axis direction maximum_rate_rad_s)
        | _ => (ADCS_RESULT_INVALID_DATA, target)
        end
    | _, _ => (ADCS_RESULT_INVALID_DATA, target)
    end.

Definition adcs_guidance_target_from_attitude (mode : adcs_mode_t) (target_quaternion : versor)
    (maximum_rate_rad_s : f32) (target : adcs_guidance_target_t)
    : adcs_result_t * adcs_guidance_target_t :=
  if negb (mode_is_valid mode) || negb (isfinite maximum_rate_rad_s) || (maximum_rate_rad_s <=? f0)
  then (ADCS_RESULT_INVALID_ARGUMENT, target)
  else
    match adcs_quaternion_normalize target_quaternion versor_zero with
    | (ADCS_RESULT_OK, q) =>
        (ADCS_RESULT_OK, mk_target mode q (Vec f1 f0 f0) vec_zero maximum_rate_rad_s)
    | _ => (ADCS_RESULT_INVALID_DATA, target)
    end.

(** ** Theorems *)

Lemma clampf_between value lo hi :
  isnan value = false -> (lo <=? hi) = true ->
  (lo <=? adcs_clampf value lo hi) = true /\ (adcs_clampf value lo hi <=? hi) = true.
Proof.
  intros Hv Hle. destruct (fle_not_nan _ _ Hle) as [Hlo Hhi].
  unfold adcs_clampf. rewrite Hv, Hlo, Hhi, (fle_not_flt _ _ Hle). cbn [orb].
  destruct (value <? lo) eqn:E1; [auto with flight|].
  destruct (hi <? value) eqn:E2; [auto with flight|]. auto using flt_false.
Qed.

Lemma clampf_within value limit :
  (f0 <=? limit) = true -> isnan value = false -> within limit (adcs_clampf value (- limit) limit).
Proof. intros Hl Hv. apply clampf_between; auto using neg_le_self. Qed.

Lemma clampf_inside value lo hi :
  (lo <=? value) = true -> (value <=? hi) = true -> adcs_clampf value lo hi = value.
Proof.
  intros H1 H2. unfold adcs_clampf.
  rewrite (fle_not_flt _ _ H1), (fle_not_flt _ _ H2). by destruct (isnan _ || _ || _ || _).
Qed.

Lemma clampf_nan value lo hi : isnan (adcs_clampf value lo hi) = true -> isnan value = true \/ (lo <=? hi) = false.
Proof.
  destruct (isnan value) eqn:Hv; [by left|]. destruct (lo <=? hi) eqn:E; [|by right]. intros H.
  destruct (clampf_between value lo hi Hv E) as [[_ Hn]%fle_not_nan _]. congruence.
Qed.

Definition pid_ok (st : adcs_pid_state_t) : Prop := within (integrator_limit (pid_config st)) (integral st).

Lemma pid_config_facts c :
  pid_config_is_valid c = true ->
  isfinite (integral_gain c) = true /\ isfinite (integrator_limit c) = true
  /\ (f0 <=? integrator_limit c) = true /\ (f0 <=? output_limit c) = true
  /\ isfinite (output_limit c) = true.
Proof.
  unfold pid_config_is_valid. rewrite !andb_true_iff. intros H. destruct_and!.
  split_and!; auto using flt_fle.
Qed.

Lemma pid_init_ok config : pid_ok (adcs_pid_init config).
Proof.
  unfold adcs_pid_init, pid_ok. destruct (pid_config_is_valid config) eqn:E; [|done].
  apply pid_config_facts in E as (_ & _ & E & _). by apply within_0.
Qed.

(** The PID controller saturates.  An update with valid arguments gives an output inside
    the output limits and leaves the integral inside the integrator limits, unless the
    output is not a number (which takes infinite terms of opposite sign); an update with
    invalid arguments gives zero and changes nothing. *)
Theorem pid_update_saturates error dt_s st :
  pid_ok st ->
  match adcs_pid_update error dt_s st with
  | (ADCS_RESULT_OK, output, st') =>
      isfinite error = true /\ isfinite dt_s = true /\ pid_config_is_valid (pid_config st) = true
      /\ pid_config st' = pid_config st
      /\ (isnan output = true
          \/ within (output_limit (pid_config st)) output /\ pid_ok st')
  | (_, output, st') => output = f0 /\ st' = st
  end.
Proof.
  intros Hok. unfold adcs_pid_update. set (c := pid_config st).
  destruct (_ || _) eqn:E; [done|].
  rewrite !orb_false_iff, !negb_false_iff in E. destruct E as (((He & Hdt) & Hpos) & Hc).
  destruct (pid_config_facts _ Hc) as (Hki & Hil & Hil0 & Hol & Holf).
  cbn [pid_config integral previous_error has_previous_error update].
  set (i1 := adcs_clampf (_ + _) _ _). set (raw := _ + _ + _). set (out := adcs_clampf raw _ _).
  assert (Hi1 : within (integrator_limit c) i1).
  { apply clampf_within; [done|]. apply fmul_not_nan with (x := error) (y := dt_s) in He; [|done].
    apply fadd_not_nan; [|done]. by apply (within_finite (integrator_limit c)). }
  split_and!; [done..| |].
  { by destruct (_ && _). }
  destruct (isnan out) eqn:Hout; [by left|right].
  assert (isnan raw = false) as Hraw.
  { unfold out, adcs_clampf in Hout. by destruct raw. }
  split; [by apply clampf_within|]. unfold pid_ok.
  destruct (_ && _) eqn:E; [|done]. cbn [pid_config integral].
  apply andb_true_iff in E as [E _]. apply clampf_within; [done|].
  apply fsub_not_nan_l; [by apply (within_finite (integrator_limit c))|].
  apply fdiv_not_nan; [|done|].
  - apply fsub_not_nan_r; [done|]. apply (within_finite (output_limit c)); [done|]. by apply clampf_within.
  - revert E. generalize (integral_gain c). intros [[]|[]| |[] ? ?]; by vm_compute.
Qed.

Definition slew_rate_pid : adcs_pid_config_t :=
  mk_pid_config (lit 1 1000) f0 f0 (lit 2 10) (lit 8 1000000).

Lemma pid_update_saturates_witness :
  fst (adcs_pid_update f1 (lit 5 100) (adcs_pid_init slew_rate_pid)) = (ADCS_RESULT_OK, lit 8 1000000)
  /\ pid_ok (snd (adcs_pid_update f1 (lit 5 100) (adcs_pid_init slew_rate_pid))).
Proof.
  pose proof (pid_update_saturates f1 (lit 5 100) (adcs_pid_init slew_rate_pid) (pid_init_ok _)) as H.
  split; [vm_compute; reflexivity|].
  revert H. destruct (adcs_pid_update f1 (lit 5 100) (adcs_pid_init slew_rate_pid)) as [[r out] st'] eqn:E.
  assert (r = ADCS_RESULT_OK /\ isnan out = false) as [-> Hn].
  { revert E. vm_compute. intros E. injection E as <- <- _. split; reflexivity. }
  intros (_ & _ & _ & _ & [Hn'|[_ H]]); [congruence|exact H].
Defined.

Lemma mode_value_inj m : mode_of_value (mode_value m) = Some m.
Proof. by destruct m. Qed.

(** A normalised quaternion has a scalar part that is not negative. *)
Lemma normalize_sign input output q :
  adcs_quaternion_normalize input output = (ADCS_RESULT_OK, q) -> (q3 q <? f0) = false.
Proof.
  unfold adcs_quaternion_normalize. destruct (negb _); [done|]. destruct (_ || _); [done|].
  cbn zeta. intros [= <-]. set (n := versor_map (fun x => x * _) _).
  destruct (q3 input * _ <? f0) eqn:E; [by apply neg_negative|done].
Qed.

Lemma target_from_vector_mode mode axis direction rate old t :
  adcs_guidance_target_from_vector mode axis direction rate old = (ADCS_RESULT_OK, t) ->
  gt_mode t = mode /\ gt_maximum_rate_rad_s t = rate.
Proof.
  unfold adcs_guidance_target_from_vector. intros H. repeat case_match; simplify_eq; try done; by split_and!.
Qed.

Lemma target_from_attitude_mode mode q rate old t :
  adcs_guidance_target_from_attitude mode q rate old = (ADCS_RESULT_OK, t) ->
  gt_mode t = mode /\ gt_maximum_rate_rad_s t = rate
  /\ adcs_quaternion_normalize q versor_zero = (ADCS_RESULT_OK, gt_target_quaternion t).
Proof.
  unfold adcs_guidance_target_from_attitude. intros H. repeat case_match; simplify_eq; try done; by split_and!.
Qed.
