(* ===== verification/AdcsControl.v ===== *)
(** The control laws of the attitude control board ([apps/adcs/Application/src/control]):
    the magnetorquer allocation ([actuator_allocator.c]), magnetic detumbling ([bdot.c]),
    Sun pointing ([sun_pointing.c]), slewing ([slew_controller.c]) and their dispatcher
    ([controller.c]). *)

From S2P Require Import Prelude Float32 AdcsMath.

#[local] Open Scope f32_scope.

(** ** [actuator_allocator.c] *)

Record adcs_actuator_allocator_config_t := mk_allocator_config {
  maximum_axis_dipole_a_m2 : vec3;
  minimum_usable_field_t : f32
}.

Definition adcs_actuator_disable : adcs_magnetorquer_command_t := mk_magnetorquer 0 vec_zero 0.

(** One axis of the loop: the limited dipole and whether it was limited; [None] is the
    early return. *)
Definition allocate_axis (limit cross field_squared : f32) : option (f32 * bool) :=
  if limit <=? f0 then None
  else
    let requested_dipole := cross / field_squared in
    let dipole := adcs_clampf requested_dipole (- limit) limit in
    Some (dipole, negb (dipole =? requested_dipole)).

(** The command, the achievable torque and [was_saturated]; the last one may be set by an
    axis before the one that makes the call fail. *)
Definition adcs_actuator_allocate (config : adcs_actuator_allocator_config_t)
    (requested_torque_nm magnetic_field_t : vec3)
    : adcs_result_t * adcs_magnetorquer_command_t * vec3 * Z :=
  let off := adcs_actuator_disable in
  let limit := maximum_axis_dipole_a_m2 config in
  if negb (adcs_values_are_finite (vec_list requested_torque_nm))
     || negb (adcs_values_are_finite (vec_list magnetic_field_t))
     || negb (adcs_values_are_finite (vec_list limit))
     || negb (isfinite (minimum_usable_field_t config))
     || (minimum_usable_field_t config <=? f0)
  then (ADCS_RESULT_INVALID_ARGUMENT, off, vec_zero, 0%Z)
  else
    let field_norm := adcs_vector_norm magnetic_field_t in
    if negb (isfinite field_norm) || (field_norm <? minimum_usable_field_t config)
    then (ADCS_RESULT_UNAVAILABLE, off, vec_zero, 0%Z)
    else
      let field_squared := field_norm * field_norm in
      let cross := adcs_vector_cross magnetic_field_t requested_torque_nm in
      match allocate_axis (v0 limit) (v0 cross) field_squared with
      | None => (ADCS_RESULT_INVALID_ARGUMENT, off, vec_zero, 0%Z)
      | Some (d0, s0) =>
          match allocate_axis (v1 limit) (v1 cross) field_squared with
          | None => (ADCS_RESULT_INVALID_ARGUMENT, off, vec_zero, b2z s0)
          | Some (d1, s1) =>
              match allocate_axis (v2 limit) (v2 cross) field_squared with
              | None => (ADCS_RESULT_INVALID_ARGUMENT, off, vec_zero, b2z (s0 || s1))
              | Some (d2, s2) =>
                  let dipole := Vec d0 d1 d2 in
                  (ADCS_RESULT_OK, mk_magnetorquer 0 dipole 1,
                   adcs_vector_cross dipole magnetic_field_t, b2z (s0 || s1 || s2))
              end
          end
      end.

(** ** [bdot.c] *)

Record adcs_bdot_config_t := mk_bdot_config {
  gain_a_m2_s_t : f32;
  derivative_filter_alpha : f32;
  maximum_dipole_a_m2 : f32;
  minimum_dt_s : f32;
  maximum_dt_s : f32
}.

#[projections(primitive)]
Record adcs_bdot_state_t := mk_bdot {
  bdot_config : adcs_bdot_config_t;
  previous_field_t : vec3;
  filtered_derivative_t_s : vec3;
  has_previous_sample : Z
}.

Definition zero_bdot : adcs_bdot_state_t :=
  mk_bdot (mk_bdot_config f0 f0 f0 f0 f0) vec_zero vec_zero 0.

Definition adcs_bdot_init (c : adcs_bdot_config_t) : adcs_bdot_state_t :=
  if isfinite (gain_a_m2_s_t c) && isfinite (derivative_filter_alpha c)
     && isfinite (maximum_dipole_a_m2 c) && isfinite (minimum_dt_s c) && isfinite (maximum_dt_s c)
     && (gain_a_m2_s_t c >=? f0) && (derivative_filter_alpha c >=? f0)
     && (derivative_filter_alpha c <=? f1) && (maximum_dipole_a_m2 c >? f0)
     && (minimum_dt_s c >? f0) && (maximum_dt_s c >=? minimum_dt_s c)
  then zero_bdot <| bdot_config := c |> else zero_bdot.

Definition adcs_bdot_reset (st : adcs_bdot_state_t) : adcs_bdot_state_t :=
  st <| previous_field_t := vec_zero |> <| filtered_derivative_t_s := vec_zero |>
     <| has_previous_sample := 0%Z |>.

(** The dipole, [was_limited] and the state. *)
Definition adcs_bdot_update (magnetic_field_t : vec3) (dt_s : f32) (st : adcs_bdot_state_t)
    : adcs_result_t * vec3 * Z * adcs_bdot_state_t :=
  let c := bdot_config st in
  if negb (adcs_values_are_finite (vec_list magnetic_field_t)) || negb (isfinite dt_s)
     || (dt_s <? minimum_dt_s c) || (dt_s >? maximum_dt_s c) || (maximum_dipole_a_m2 c <=? f0)
  then (ADCS_RESULT_INVALID_ARGUMENT, vec_zero, 0%Z, st)
  else if (has_previous_sample st =? 0)%Z then
    (ADCS_RESULT_OK, vec_zero, 0%Z,
     st <| previous_field_t := magnetic_field_t |> <| has_previous_sample := 1%Z |>)
  else
    let raw_derivative :=
      vec_map (fun x => x / dt_s) (vec_zip fsub magnetic_field_t (previous_field_t st)) in
    let filtered :=
      vec_zip (fun raw old => derivative_filter_alpha c * raw + (f1 - derivative_filter_alpha c) * old)
        raw_derivative (filtered_derivative_t_s st) in
    let requested := vec_map (fun d => - gain_a_m2_s_t c * d) filtered in
    (adcs_vector_limit requested (maximum_dipole_a_m2 c),
     st <| filtered_derivative_t_s := filtered |> <| previous_field_t := magnetic_field_t |>).

(** ** [sun_pointing.c] *)

Record adcs_sun_pointing_config_t := mk_sun_config {
  proportional_gain_nm : f32;
  rate_damping_gain_nm_s : f32;
  sun_maximum_torque_nm : f32;
  minimum_sun_irradiance_w_m2 : f32;
  sun_pointing_axis_body : vec3
}.

(** The requested torque, the pointing error and [was_limited]. *)
Definition adcs_sun_pointing_update `{Libm} (config : adcs_sun_pointing_config_t)
    (sensors : adcs_sensor_packet_t) (attitude : adcs_attitude_state_t)
    : adcs_result_t * vec3 * f32 * Z :=
  let unavailable := (ADCS_RESULT_UNAVAILABLE, vec_zero, f0, 0%Z) in
  if (at_valid attitude =? 0)%Z
     || negb (truthy (Z.land (sp_valid_mask sensors) ADCS_SENSOR_VALID_SUN))
     || (sp_sun_irradiance_w_m2 sensors <? minimum_sun_irradiance_w_m2 config)
     || negb (isfinite (proportional_gain_nm config))
     || negb (isfinite (rate_damping_gain_nm_s config))
     || negb (isfinite (sun_maximum_torque_nm config)) || (sun_maximum_torque_nm config <=? f0)
     || negb (adcs_values_are_finite (vec_list (at_angular_rate_rad_s attitude)))
  then unavailable
  else
    match adcs_vector_normalize (sp_sun_vector_body sensors),
          adcs_vector_normalize (sun_pointing_axis_body config) with
    | (ADCS_RESULT_OK, sun_unit), (ADCS_RESULT_OK, axis_unit) =>
        let cross := adcs_vector_cross axis_unit sun_unit in
        let torque :=
          vec_zip (fun c w => proportional_gain_nm config * c - rate_damping_gain_nm_s config * w)
            cross (at_angular_rate_rad_s attitude) in
        let error := acosf (adcs_clampf (dot_product axis_unit sun_unit) (- f1) f1) in
        let '(r, requested, limited) := adcs_vector_limit torque (sun_maximum_torque_nm config) in
        (r, requested, error, limited)
    | _, _ => unavailable
    end.

(** ** [slew_controller.c] *)

Record adcs_slew_config_t := mk_slew_config {
  attitude_rate_gain_s : f32;
  rate_pid : adcs_pid_config_t;
  slew_maximum_torque_nm : f32;
  maximum_rate_rad_s : f32;
  settled_angle_rad : f32;
  settled_rate_rad_s : f32;
  settled_cycles_required : Z
}.

#[projections(primitive)]
Record adcs_slew_state_t := mk_slew {
  slew_config : adcs_slew_config_t;
  pid_0 : adcs_pid_state_t;
  pid_1 : adcs_pid_state_t;
  pid_2 : adcs_pid_state_t;
  settled_cycles : Z
}.

Definition zero_slew : adcs_slew_state_t :=
  mk_slew (mk_slew_config f0 (mk_pid_config f0 f0 f0 f0 f0) f0 f0 f0 f0 0) zero_pid zero_pid zero_pid 0.

Definition adcs_slew_init (c : adcs_slew_config_t) : adcs_slew_state_t :=
  if negb (isfinite (attitude_rate_gain_s c)) || negb (isfinite (slew_maximum_torque_nm c))
     || negb (isfinite (maximum_rate_rad_s c)) || negb (isfinite (settled_angle_rad c))
     || negb (isfinite (settled_rate_rad_s c))
     || (attitude_rate_gain_s c <=? f0) || (slew_maximum_torque_nm c <=? f0)
     || (maximum_rate_rad_s c <=? f0) || (settled_angle_rad c <? f0)
     || (settled_rate_rad_s c <? f0) || (settled_cycles_required c =? 0)%Z
  then zero_slew
  else
    let pid := adcs_pid_init (rate_pid c) in
    mk_slew c pid pid pid 0.

Definition adcs_slew_reset (st : adcs_slew_state_t) : adcs_slew_state_t :=
  mk_slew (slew_config st) (adcs_pid_reset (pid_0 st)) (adcs_pid_reset (pid_1 st))
    (adcs_pid_reset (pid_2 st)) 0.

(** The loop over the axes: it stops at the first PID that fails, with the states of the
    axes before it advanced. *)
Definition update_axes (limited rates : vec3) (dt_s : f32) (st : adcs_slew_state_t)
    : option vec3 * adcs_slew_state_t :=
  match adcs_pid_update (v0 limited - v0 rates) dt_s (pid_0 st) with
  | (ADCS_RESULT_OK, t0, p0) =>
      let st := st <| pid_0 := p0 |> in
      match adcs_pid_update (v1 limited - v1 rates) dt_s (pid_1 st) with
      | (ADCS_RESULT_OK, t1, p1) =>
          let st := st <| pid_1 := p1 |> in
          match adcs_pid_update (v2 limited - v2 rates) dt_s (pid_2 st) with
          | (ADCS_RESULT_OK, t2, p2) => (Some (Vec t0 t1 t2), st <| pid_2 := p2 |>)
          | (_, _, p2) => (None, st <| pid_2 := p2 |>)
          end
      | (_, _, p1) => (None, st <| pid_1 := p1 |>)
      end
  | (_, _, p0) => (None, st <| pid_0 := p0 |>)
  end.

(** What [adcs_slew_update] writes through its pointers. *)
Record slew_output := mk_slew_output {
  so_torque : vec3;
  so_is_settled : Z;
  so_pointing_error_rad : f32;
  so_was_limited : Z
}.

Definition no_slew : slew_output := mk_slew_output vec_zero 0 f0 0.

Definition count_settled (angle_error body_rate : f32) (st : adcs_slew_state_t) : Z :=
  let c := slew_config st in
  if (angle_error <=? settled_angle_rad c) && (body_rate <=? settled_rate_rad_s c)
  then
    if (settled_cycles st <? settled_cycles_required c)%Z then u32 (settled_cycles st + 1)%Z
    else settled_cycles st
  else 0.

Definition adcs_slew_update `{Libm} (attitude : adcs_attitude_state_t) (target_quaternion : versor)
    (target_maximum_rate_rad_s dt_s : f32) (st : adcs_slew_state_t)
    : adcs_result_t * slew_output * adcs_slew_state_t :=
  let c := slew_config st in
  let rates := at_angular_rate_rad_s attitude in
  if (at_valid attitude =? 0)%Z || negb (isfinite dt_s) || (dt_s <=? f0)
     || negb (isfinite target_maximum_rate_rad_s) || (target_maximum_rate_rad_s <=? f0)
     || negb (adcs_values_are_finite (vec_list rates))
  then (ADCS_RESULT_INVALID_DATA, no_slew, st)
  else
    match adcs_quaternion_error_vector (at_quaternion attitude) target_quaternion with
    | (ADCS_RESULT_OK, attitude_error) =>
        let desired_rate := vec_map (fun e => attitude_rate_gain_s c * e) attitude_error in
        let effective_rate_limit := fminf (maximum_rate_rad_s c) target_maximum_rate_rad_s in
        match adcs_vector_limit desired_rate effective_rate_limit with
        | (ADCS_RESULT_OK, limited_rate, _) =>
            match update_axes limited_rate rates dt_s st with
            | (None, st) => (ADCS_RESULT_INVALID_DATA, no_slew, st)
            | (Some torque, st) =>
                match adcs_vector_limit torque (slew_maximum_torque_nm c) with
                | (ADCS_RESULT_OK, requested, limited) =>
                    let angle_error := adcs_vector_norm attitude_error in
                    let body_rate := adcs_vector_norm rates in
                    let st := st <| settled_cycles := count_settled angle_error body_rate st |> in
                    (ADCS_RESULT_OK,
                     mk_slew_output requested
                       (b2z (settled_cycles_required c <=? settled_cycles st)%Z) angle_error limited,
                     st)
                | (_, requested, limited) =>
                    (ADCS_RESULT_INVALID_DATA, mk_slew_output requested 0 f0 limited, st)
                end
            end
        | _ => (ADCS_RESULT_INVALID_DATA, no_slew, st)
        end
    | _ => (ADCS_RESULT_INVALID_DATA, no_slew, st)
    end.

(** ** [controller.c] *)

Record adcs_controller_config_t := mk_controller_config {
  cc_bdot : adcs_bdot_config_t;
  cc_slew : adcs_slew_config_t;
  cc_sun_pointing : adcs_sun_pointing_config_t;
  cc_allocator : adcs_actuator_allocator_config_t
}.

#[projections(primitive)]
Record adcs_controller_t := mk_controller {
  ct_config : adcs_controller_config_t;
  ct_bdot : adcs_bdot_state_t;
  ct_slew : adcs_slew_state_t;
  ct_previous_mode : adcs_mode_t;
  ct_initialized : Z
}.

Definition adcs_controller_init (config : adcs_controller_config_t) : adcs_controller_t :=
  mk_controller config (adcs_bdot_init (cc_bdot config)) (adcs_slew_init (cc_slew config))
    ADCS_MODE_BOOT 1.

Definition adcs_controller_reset (ct : adcs_controller_t) : adcs_controller_t :=
  ct <| ct_bdot ::= adcs_bdot_reset |> <| ct_slew ::= adcs_slew_reset |>
     <| ct_previous_mode := ADCS_MODE_BOOT |>.

Definition control_output_clear (timestamp_us : Z) : adcs_control_output_t :=
  zero_output <| co_timestamp_us := timestamp_us |>.

(** The two pointing laws: the result, the torque, the pointing error, [controller_saturated],
    [settled] and the controller. *)
Definition run_pointing_law `{Libm} (mode : adcs_mode_t) (target : option adcs_guidance_target_t)
    (sensors : adcs_sensor_packet_t) (attitude : adcs_attitude_state_t) (dt_s : f32)
    (ct : adcs_controller_t) : adcs_result_t * vec3 * f32 * Z * Z * adcs_controller_t :=
  match mode with
  | ADCS_MODE_SUN_ACQUISITION | ADCS_MODE_SUN_POINTING =>
      let '(r, torque, error, limited) :=
        adcs_sun_pointing_update (cc_sun_pointing (ct_config ct)) sensors attitude in
      (r, torque, error, limited, 0%Z, ct)
  | ADCS_MODE_SLEWING | ADCS_MODE_TARGET_POINTING | ADCS_MODE_EARTH_POINTING | ADCS_MODE_SCIENCE =>
      match target with
      | None => (ADCS_RESULT_INVALID_ARGUMENT, vec_zero, f0, 0%Z, 0%Z, ct)
      | Some target =>
          let '(r, o, slew) :=
            adcs_slew_update attitude (gt_target_quaternion target) (gt_maximum_rate_rad_s target)
              dt_s (ct_slew ct) in
          (r, so_torque o, so_pointing_error_rad o, so_was_limited o, so_is_settled o,
           ct <| ct_slew := slew |>)
      end
  | _ => (ADCS_RESULT_INVALID_ARGUMENT, vec_zero, f0, 0%Z, 0%Z, ct)
  end.

(** The reset of the laws when the mode changes. *)
Definition follow_mode (mode : adcs_mode_t) (ct : adcs_controller_t) : adcs_controller_t :=
  if decide (mode = ct_previous_mode ct) then ct
  else ct <| ct_bdot ::= adcs_bdot_reset |> <| ct_slew ::= adcs_slew_reset |>
          <| ct_previous_mode := mode |>.

Definition adcs_controller_update `{Libm} (mode : adcs_mode_t) (target : option adcs_guidance_target_t)
    (sensors : adcs_sensor_packet_t) (attitude : adcs_attitude_state_t) (dt_s : f32)
    (ct : adcs_controller_t) : adcs_result_t * adcs_control_output_t * adcs_controller_t :=
  let output := control_output_clear (sp_timestamp_us sensors) in
  let field := sp_magnetic_field_t sensors in
  if (ct_initialized ct =? 0)%Z || negb (mode_is_valid mode) || negb (isfinite dt_s) || (dt_s <=? f0)
  then (ADCS_RESULT_INVALID_ARGUMENT, output, ct)
  else
    let ct := follow_mode mode ct in
    if decide (mode = ADCS_MODE_BOOT \/ mode = ADCS_MODE_SAFE) then (ADCS_RESULT_OK, output, ct)
    else if negb (truthy (Z.land (sp_valid_mask sensors) ADCS_SENSOR_VALID_MAGNETOMETER))
    then (ADCS_RESULT_UNAVAILABLE, output, ct)
    else if decide (mode = ADCS_MODE_DETUMBLE) then
      let '(r, dipole, saturated, bdot) := adcs_bdot_update field dt_s (ct_bdot ct) in
      let ct := ct <| ct_bdot := bdot |> in
      match r with
      | ADCS_RESULT_OK =>
          (ADCS_RESULT_OK,
           output <| co_requested_dipole_a_m2 := dipole |>
                  <| co_achievable_torque_nm := adcs_vector_cross dipole field |>
                  <| co_actuators_enabled := 1%Z |> <| co_saturated := saturated |>, ct)
      | _ => (r, output, ct)
      end
    else
      let '(r, torque, error, limited, settled, ct) :=
        run_pointing_law mode target sensors attitude dt_s ct in
      let output := output <| co_pointing_error_rad := error |> in
      match r with
      | ADCS_RESULT_OK =>
          match adcs_actuator_allocate (cc_allocator (ct_config ct)) torque field with
          | (ADCS_RESULT_OK, actuator, achievable, saturated) =>
              (ADCS_RESULT_OK,
               output <| co_requested_torque_nm := torque |>
                      <| co_requested_dipole_a_m2 := mc_dipole_a_m2 actuator |>
                      <| co_achievable_torque_nm := achievable |>
                      <| co_actuators_enabled := mc_enabled actuator |>
                      <| co_saturated := b2z (truthy saturated || truthy limited) |>
                      <| co_target_settled := settled |>, ct)
          | (r, _, _, _) => (r, output, ct)
          end
      | _ => (r, output, ct)
      end.

(** The configuration of the flight software ([controller_config] of [tasks/control_task.c]). *)
Definition controller_config : adcs_controller_config_t :=
  mk_controller_config
    (mk_bdot_config (lit 30000 1) (lit 25 100) (lit 20 100) (lit 1 100) (lit 20 100))
    (mk_slew_config (lit 2 100) (mk_pid_config (lit 100 100000) f0 f0 (lit 20 100) (lit 8 1000000))
       (lit 8 1000000) (lit 8 100) (lit 5235988 100000000) (lit 8 1000) 20)
    (mk_sun_config (lit 2 100000) (lit 10 100000) (lit 2 100000) (lit 100 1) (Vec f1 f0 f0))
    (mk_allocator_config (Vec (lit 20 100) (lit 20 100) (lit 20 100)) (lit 1 1000000)).

(** ** Theorems *)

(** *** Allocation and the dispatcher *)

Definition dipole_ok (limit d : f32) : Prop := isnan d = true \/ within limit d.
Definition dipoles_ok (limit dipole : vec3) : Prop :=
  dipole_ok (v0 limit) (v0 dipole) /\ dipole_ok (v1 limit) (v1 dipole) /\ dipole_ok (v2 limit) (v2 dipole).

Lemma allocate_axis_ok limit cross squared d s :
  isfinite limit = true -> allocate_axis limit cross squared = Some (d, s) -> dipole_ok limit d.
Proof.
  unfold allocate_axis. intros Hfin H. destruct (limit <=? f0) eqn:E; [done|].
  injection H as <- _. destruct (isnan (cross / squared)) eqn:Hn.
  - left. by destruct (cross / squared).
  - right. apply clampf_within; [|done]. revert E Hfin. by destruct limit as [[]|[]| |[] ? ?].
Qed.

Lemma allocate_spec config torque field r command achievable saturated :
  adcs_actuator_allocate config torque field = (r, command, achievable, saturated) ->
  match r with
  | ADCS_RESULT_OK =>
      mc_enabled command = 1%Z /\ dipoles_ok (maximum_axis_dipole_a_m2 config) (mc_dipole_a_m2 command)
      /\ achievable = adcs_vector_cross (mc_dipole_a_m2 command) field
  | _ => command = adcs_actuator_disable /\ achievable = vec_zero
  end.
Proof.
  unfold adcs_actuator_allocate. cbv zeta. destruct (_ || _) eqn:E; [by intros; simplify_eq|].
  rewrite !orb_false_iff, !negb_false_iff in E. destruct E as ((((_ & _) & Hfin) & _) & _).
  destruct (_ || _); [by intros; simplify_eq|].
  cbn in Hfin. rewrite !andb_true_iff in Hfin. destruct Hfin as (H0 & H1 & H2 & _).
  destruct (allocate_axis (v0 _) _ _) as [[d0 s0]|] eqn:E0; [|by intros; simplify_eq].
  destruct (allocate_axis (v1 _) _ _) as [[d1 s1]|] eqn:E1; [|by intros; simplify_eq].
  destruct (allocate_axis (v2 _) _ _) as [[d2 s2]|] eqn:E2; [|by intros; simplify_eq].
  intros H. simplify_eq. split; [done|split; [|done]].
  split_and!; eauto using allocate_axis_ok.
Qed.

(** The output drives nothing. *)
Definition output_safe (o : adcs_control_output_t) : Prop :=
  co_actuators_enabled o = 0%Z /\ co_requested_dipole_a_m2 o = vec_zero
  /\ co_requested_torque_nm o = vec_zero /\ co_achievable_torque_nm o = vec_zero
  /\ co_saturated o = 0%Z /\ co_target_settled o = 0%Z.

Definition idle_mode (m : adcs_mode_t) : Prop := m = ADCS_MODE_BOOT \/ m = ADCS_MODE_SAFE.
#[export] Instance idle_mode_dec m : Decision (idle_mode m).
Proof. unfold idle_mode. apply _. Defined.

Lemma follow_mode_config mode ct : ct_config (follow_mode mode ct) = ct_config ct.
Proof. unfold follow_mode. by case_decide. Qed.

Lemma pointing_law_config `{Libm} mode target sensors attitude dt_s ct r torque error limited settled ct' :
  run_pointing_law mode target sensors attitude dt_s ct = (r, torque, error, limited, settled, ct') ->
  ct_config ct' = ct_config ct.
Proof.
  unfold run_pointing_law.
  destruct (adcs_sun_pointing_update _ _ _) as [[[? ?] ?] ?].
  destruct target as [target|]; [destruct (adcs_slew_update _ _ _ _ _) as [[? ?] ?]|];
    destruct mode; intros; simplify_eq; done.
Qed.

Lemma controller_facts `{Libm} mode target sensors attitude dt_s ct :
  let '(r, o, ct') := adcs_controller_update mode target sensors attitude dt_s ct in
  co_timestamp_us o = sp_timestamp_us sensors /\ ct_config ct' = ct_config ct
  /\ (r <> ADCS_RESULT_OK \/ idle_mode mode -> output_safe o)
  /\ (r = ADCS_RESULT_OK -> ~ idle_mode mode ->
        co_actuators_enabled o = 1%Z
        /\ co_achievable_torque_nm o
           = adcs_vector_cross (co_requested_dipole_a_m2 o) (sp_magnetic_field_t sensors)
        /\ (mode = ADCS_MODE_DETUMBLE
            \/ dipoles_ok (maximum_axis_dipole_a_m2 (cc_allocator (ct_config ct)))
                 (co_requested_dipole_a_m2 o))).
Proof.
  unfold adcs_controller_update. cbv zeta. destruct (_ || _); [by split_and!|].
  assert (forall P : Prop, (ADCS_RESULT_OK <> ADCS_RESULT_OK \/ P -> P)) as Hok by by intros P [?|?].
  pose proof (follow_mode_config mode ct) as Hf. set (ct1 := follow_mode mode ct) in *.
  destruct (decide (mode = _ \/ mode = _)) as [Hidle|Hidle]; [done|].
  destruct (negb _); [done|].
  destruct (decide (mode = ADCS_MODE_DETUMBLE)) as [->|Hd].
  - destruct (adcs_bdot_update _ _ _) as [[[r dipole] saturated] bdot]. destruct r; try done.
    split_and!; [done|done| |].
    + by intros ?%Hok.
    + intros _ _. split_and!; [done|done|by left].
  - destruct (run_pointing_law _ _ _ _ _ _) as [[[[[r torque] error] limited] settled] ct2] eqn:E.
    apply pointing_law_config in E. rewrite Hf in E.
    destruct r; try done. rewrite E.
    destruct (adcs_actuator_allocate _ _ _) as [[[r actuator] achievable] saturated] eqn:Ea.
    apply allocate_spec in Ea. destruct r; try done. destruct Ea as (He & Hdip & ->).
    split_and!; [done|done| |].
    + by intros ?%Hok.
    + intros _ _. split_and!; [done|done|by right].
Qed.

(** The control dispatcher fails to a safe output.  Whatever the controller, the mode and
    the inputs are: an update that does not succeed, or that runs in BOOT or SAFE, requests
    no torque and no dipole and leaves the actuators disabled.  A successful update in
    another mode enables them and reports the torque the dipole can reach in the measured
    field; in a pointing mode every axis of the dipole is inside the configured limit or
    not a number. *)
Theorem controller_fails_safe `{Libm} mode target sensors attitude dt_s ct :
  let '(r, o, ct') := adcs_controller_update mode target sensors attitude dt_s ct in
  co_timestamp_us o = sp_timestamp_us sensors /\ ct_config ct' = ct_config ct
  /\ (r <> ADCS_RESULT_OK \/ idle_mode mode -> output_safe o)
  /\ (r = ADCS_RESULT_OK -> ~ idle_mode mode ->
        co_actuators_enabled o = 1%Z
        /\ co_achievable_torque_nm o
           = adcs_vector_cross (co_requested_dipole_a_m2 o) (sp_magnetic_field_t sensors)
        /\ (mode = ADCS_MODE_DETUMBLE
            \/ dipoles_ok (maximum_axis_dipole_a_m2 (cc_allocator (ct_config ct)))
                 (co_requested_dipole_a_m2 o))).
Proof. exact (controller_facts mode target sensors attitude dt_s ct). Qed.

(** A library whose functions are constant, for evaluation. *)
Definition flat_libm : Libm := {|
  atan2f := fun _ _ => f1; acosf := fun _ => f1; sinf := fun _ => f0; cosf := fun _ => f1 |}.

Definition sunny_sensors : adcs_sensor_packet_t :=
  mk_sensors 1 1000 vec_zero vec_zero (Vec f0 f0 (lit 3 100000)) (Vec f0 f1 f0) (lit 1361 1) 15.
Definition level_attitude : adcs_attitude_state_t :=
  mk_attitude 1000 (Versor f0 f0 f0 f1) vec_zero vec_zero [f0; f0; f0; f0; f0; f0] f1 1.

Lemma controller_fails_safe_witness :
  let '(r, o, _) :=
    adcs_controller_update (H := flat_libm) ADCS_MODE_SUN_POINTING None sunny_sensors level_attitude
      (lit 5 100) (adcs_controller_init controller_config) in
  r = ADCS_RESULT_OK /\ co_actuators_enabled o = 1%Z
  /\ co_achievable_torque_nm o
     = adcs_vector_cross (co_requested_dipole_a_m2 o) (sp_magnetic_field_t sunny_sensors).
Proof.
  pose proof (controller_fails_safe (H := flat_libm) ADCS_MODE_SUN_POINTING None sunny_sensors level_attitude
    (lit 5 100) (adcs_controller_init controller_config)) as H.
  destruct (adcs_controller_update _ _ _ _ _ _) as [[r o] ct] eqn:E.
  assert (r = ADCS_RESULT_OK) as ->.
  { apply (f_equal (fun x => fst (fst x))) in E. cbn [fst] in E. rewrite <- E. vm_compute. reflexivity. }
  destruct H as (_ & _ & _ & H). destruct H as (H1 & H2 & _); [reflexivity|by intros [|]|].
  split; [reflexivity|split; assumption].
Defined.

(** *** Settling of a slew *)

Section Settling.
Context `{Libm}.

(** One call of [adcs_slew_update]. *)
Record slew_call := mk_call {
  sc_attitude : adcs_attitude_state_t;
  sc_target : versor;
  sc_rate : f32;
  sc_dt : f32
}.

Definition call_slew (c : slew_call) (st : adcs_slew_state_t) :=
  adcs_slew_update (sc_attitude c) (sc_target c) (sc_rate c) (sc_dt c) st.

(** The attitude of the call is close to the target and slow. *)
Definition in_tolerance (cfg : adcs_slew_config_t) (c : slew_call) : bool :=
  let error := snd (adcs_quaternion_error_vector (at_quaternion (sc_attitude c)) (sc_target c)) in
  (adcs_vector_norm error <=? settled_angle_rad cfg)
  && (adcs_vector_norm (at_angular_rate_rad_s (sc_attitude c)) <=? settled_rate_rad_s cfg).

(** The newest run of calls in tolerance, newest first. *)
Fixpoint run_of (history : list bool) : Z :=
  match history with true :: h => 1 + run_of h | _ => 0 end%Z.

(** The state after some calls, with the tolerance of the successful ones, newest first. *)
Definition call_and_record (x : adcs_slew_state_t * list bool) (c : slew_call) :=
  let '(st, history) := x in
  let '(r, _, st') := call_slew c st in
  (st', if decide (r = ADCS_RESULT_OK) then in_tolerance (slew_config st) c :: history else history).

Definition slew_history (calls : list slew_call) (st : adcs_slew_state_t) :=
  fold_left call_and_record calls (st, []).

Lemma update_axes_config limited rates dt_s st :
  let st' := snd (update_axes limited rates dt_s st) in
  slew_config st' = slew_config st /\ settled_cycles st' = settled_cycles st.
Proof.
  unfold update_axes.
  destruct (adcs_pid_update (v0 _ - _) _ _) as [[r0 ?] ?]. destruct r0; try done.
  destruct (adcs_pid_update (v1 _ - _) _ _) as [[r1 ?] ?]. destruct r1; try done.
  by destruct (adcs_pid_update (v2 _ - _) _ _) as [[[] ?] ?].
Qed.

(** A call changes the counter only when it succeeds. *)
Lemma call_slew_spec c st :
  let '(r, o, st') := call_slew c st in
  let cfg := slew_config st in
  slew_config st' = cfg
  /\ (r <> ADCS_RESULT_OK -> settled_cycles st' = settled_cycles st /\ so_is_settled o = 0%Z)
  /\ (r = ADCS_RESULT_OK ->
        settled_cycles st'
        = (if in_tolerance cfg c
           then if (settled_cycles st <? settled_cycles_required cfg)%Z
                then u32 (settled_cycles st + 1) else settled_cycles st
           else 0)%Z
        /\ so_is_settled o = b2z (settled_cycles_required cfg <=? settled_cycles st')%Z).
Proof.
  unfold call_slew, adcs_slew_update, in_tolerance. cbv zeta. destruct (_ || _); [done|].
  destruct (adcs_quaternion_error_vector _ _) as [re error]. cbn [snd]. destruct re; try done.
  destruct (adcs_vector_limit _ (fminf _ _)) as [[rl limited] ?]. destruct rl; try done.
  pose proof (update_axes_config limited (at_angular_rate_rad_s (sc_attitude c)) (sc_dt c) st) as [Hc Hs].
  destruct (update_axes _ _ _ _) as [[torque|] st']; cbn [snd] in *; [|by rewrite Hc, Hs].
  destruct (adcs_vector_limit torque _) as [[rt requested] lim].
  destruct rt; try by rewrite Hc, Hs.
  unfold count_settled. cbn. rewrite Hc, Hs. done.
Qed.

Lemma slew_history_spec calls st :
  settled_cycles st = 0%Z -> (0 < settled_cycles_required (slew_config st) < 4294967296)%Z ->
  let '(st', history) := slew_history calls st in
  slew_config st' = slew_config st
  /\ settled_cycles st' = Z.min (settled_cycles_required (slew_config st)) (run_of history)
  /\ (0 <= run_of history)%Z.
Proof.
  intros H0 Hreq. unfold slew_history. induction calls as [|c calls IH] using rev_ind.
  { cbn. split_and!; [done|lia|lia]. }
  rewrite fold_left_app. cbn [fold_left]. destruct (fold_left _ _ _) as [st1 history].
  destruct IH as (Hc & Hs & Hn). unfold call_and_record.
  pose proof (call_slew_spec c st1) as Hspec. destruct (call_slew c st1) as [[r o] st2].
  destruct Hspec as (Hc2 & Hbad & Hgood). rewrite Hc in *. split; [done|].
  case_decide as Hr; [|destruct (Hbad Hr) as [-> _]; done].
  destruct (Hgood Hr) as [-> _]. cbn [run_of].
  destruct (in_tolerance (slew_config st) c); [|lia]. rewrite Hs.
  destruct (Z.ltb_spec (Z.min (settled_cycles_required (slew_config st)) (run_of history))
    (settled_cycles_required (slew_config st))); [unfold u32; rewrite Z.mod_small by lia|]; lia.
Qed.

(** A slew settles exactly after the required number of updates in tolerance.  After any
    sequence of updates of a freshly initialised or reset controller, the next update that
    succeeds reports the target as settled if and only if it and the successful updates
    before it form a run of at least [settled_cycles_required] updates whose pointing error
    and body rate are in tolerance; an update that fails never reports it. *)
Theorem slew_settles_after_run calls c st :
  settled_cycles st = 0%Z -> (0 < settled_cycles_required (slew_config st) < 4294967296)%Z ->
  let '(st1, history) := slew_history calls st in
  let '(r, o, _) := call_slew c st1 in
  let run := run_of (in_tolerance (slew_config st) c :: history) in
  so_is_settled o
  = b2z (bool_decide (r = ADCS_RESULT_OK) && (settled_cycles_required (slew_config st) <=? run)%Z).
Proof.
  intros H0 Hreq. pose proof (slew_history_spec calls st H0 Hreq) as Hh.
  destruct (slew_history calls st) as [st1 history]. destruct Hh as (Hc & Hs & Hn).
  pose proof (call_slew_spec c st1) as Hspec. destruct (call_slew c st1) as [[r o] st2].
  destruct Hspec as (_ & Hbad & Hgood). rewrite Hc in *. cbv zeta.
  case_bool_decide as Hr; [|by destruct (Hbad Hr)].
  destruct (Hgood Hr) as [Hs2 ->]. rewrite Hs2, Hs. cbn [andb run_of]. f_equal.
  set (n := settled_cycles_required (slew_config st)) in *. set (k := run_of history) in *.
  destruct (in_tolerance (slew_config st) c); [|done].
  destruct (Z.ltb_spec (Z.min n k) n); [unfold u32; rewrite Z.mod_small by lia|];
    destruct (Z.leb_spec n (1 + k)); apply Z.leb_le || apply Z.leb_gt; lia.
Qed.
End Settling.

Definition settled_call : slew_call :=
  mk_call level_attitude (Versor f0 f0 f0 f1) (lit 8 100) (lit 5 100).

Lemma slew_settles_after_run_witness :
  let st := adcs_slew_init (cc_slew controller_config) in
  let settled n :=
    so_is_settled (snd (fst (call_slew (H := flat_libm) settled_call
      (fst (slew_history (H := flat_libm) (replicate n settled_call) st))))) in
  settled 18%nat = 0%Z /\ settled 19%nat = 1%Z.
Proof.
  cbv zeta.
  assert (forall n, so_is_settled (snd (fst (call_slew (H := flat_libm) settled_call
      (fst (slew_history (H := flat_libm) (replicate n settled_call)
        (adcs_slew_init (cc_slew controller_config)))))))
    = let '(st1, history) := slew_history (H := flat_libm) (replicate n settled_call)
        (adcs_slew_init (cc_slew controller_config)) in
      b2z (bool_decide (fst (fst (call_slew (H := flat_libm) settled_call st1)) = ADCS_RESULT_OK)
           && (20 <=? run_of (in_tolerance (H := flat_libm) (cc_slew controller_config) settled_call
                 :: history))%Z)) as Hn.
  { intros n. pose proof (slew_settles_after_run (H := flat_libm) (replicate n settled_call) settled_call
      (adcs_slew_init (cc_slew controller_config)) eq_refl (conj eq_refl eq_refl)) as H.
    destruct (slew_history _ _) as [st1 history]. cbn [fst].
    destruct (call_slew settled_call st1) as [[r o] st2]. cbn [fst snd]. exact H. }
  split; rewrite Hn; vm_compute; reflexivity.
Defined.
