(* ===== verification/AdcsManager.v ===== *)
(** The mode manager of the attitude control board
    ([apps/adcs/Application/src/manager/adcs_manager.c]).

    Every public function takes the manager's lock once, so it is one step on
    [adcs_manager_state_t].  The static [manager_config] is an argument; the active faults,
    read under the fault manager's own lock, are an argument of the update. *)

From S2P Require Import Prelude Float32 AdcsMath.

Definition ADCS_FAULT_NONE : Z := 0.
Definition ADCS_FAULT_SENSOR_STALE : Z := 1.
Definition ADCS_FAULT_SENSOR_RANGE : Z := 2.
Definition ADCS_FAULT_ATTITUDE_INVALID : Z := 4.
Definition ADCS_FAULT_EXCESSIVE_RATE : Z := 8.
Definition ADCS_FAULT_ACTUATOR : Z := 16.
Definition ADCS_FAULT_TASK_DEADLINE : Z := 32.
Definition ADCS_FAULT_ALL : Z := 63.

Definition MANAGER_DEFAULT_MAXIMUM_TARGET_RATE_RAD_S : f32 := lit 8 100.
Definition MANAGER_SUN_SETTLED_ERROR_RAD : f32 := lit 174532925 1000000000.

Record adcs_manager_config_t := mk_manager_config {
  detumble_entry_rate_rad_s : f32;
  detumble_exit_rate_rad_s : f32;
  excessive_rate_rad_s : f32;
  minimum_estimator_confidence : f32;
  detumble_settle_cycles : Z;
  sun_acquisition_settle_cycles : Z;
  sensor_stale_after_us : Z;
  estimate_stale_after_us : Z
}.

#[projections(primitive)]
Record adcs_manager_state_t := mk_manager {
  mode : adcs_mode_t;
  requested_mode : adcs_mode_t;
  last_commanded_position : Z;
  latest_sensors : adcs_sensor_packet_t;
  latest_orbit : adcs_orbit_state_t;
  latest_references : adcs_reference_vectors_t;
  latest_attitude : adcs_attitude_state_t;
  latest_control : adcs_control_output_t;
  guidance_target : adcs_guidance_target_t;
  health : adcs_health_t;
  mode_entered_us : Z;
  last_counted_control_timestamp_us : Z;
  stable_cycles : Z;
  actuators_inhibited : Z;
  initialized : Z
}.

Implicit Types st : adcs_manager_state_t.
Implicit Types cfg : adcs_manager_config_t.

Definition default_config : adcs_manager_config_t :=
  mk_manager_config (lit 3 100) (lit 8 1000) (lit 75 100) (lit 35 100) 20 20 250000 250000.

Definition quaternion_is_valid (q : versor) : bool :=
  bool_decide (fst (adcs_quaternion_normalize q versor_zero) = ADCS_RESULT_OK).

Definition mode_needs_attitude (m : adcs_mode_t) : bool :=
  match m with
  | ADCS_MODE_SUN_ACQUISITION | ADCS_MODE_SUN_POINTING | ADCS_MODE_EARTH_POINTING
  | ADCS_MODE_SLEWING | ADCS_MODE_TARGET_POINTING | ADCS_MODE_SCIENCE => true
  | _ => false
  end.

Definition attitude_ready_locked cfg st : bool :=
  truthy (at_valid (latest_attitude st))
  && truthy (at_timestamp_us (latest_attitude st))
  && fle (minimum_estimator_confidence cfg) (at_confidence (latest_attitude st))
  && quaternion_is_valid (at_quaternion (latest_attitude st)).

Definition sensors_fresh_locked cfg (now_us : Z) st : bool :=
  let timestamp_us := sp_timestamp_us (latest_sensors st) in
  truthy now_us && truthy timestamp_us && (timestamp_us <=? now_us)
  && (now_us - timestamp_us <=? sensor_stale_after_us cfg).

Definition attitude_usable_locked cfg (now_us : Z) st : bool :=
  let timestamp_us := at_timestamp_us (latest_attitude st) in
  attitude_ready_locked cfg st
  && negb (truthy (Z.land (he_active_faults (health st)) ADCS_FAULT_ATTITUDE_INVALID))
  && truthy now_us && (timestamp_us <=? now_us)
  && (now_us - timestamp_us <=? estimate_stale_after_us cfg).

Definition enter_mode_locked (m : adcs_mode_t) st : adcs_manager_state_t :=
  if decide (mode st = m) then st
  else
    st <| mode := m |>
       <| mode_entered_us := sp_timestamp_us (latest_sensors st) |>
       <| stable_cycles := 0 |>
       <| last_counted_control_timestamp_us := 0 |>
       <| health ::= fun h => h <| he_mode_transitions ::= fun n => u32 (n + 1) |> |>.

Definition refresh_builtin_target_locked st : adcs_manager_state_t :=
  let rate := MANAGER_DEFAULT_MAXIMUM_TARGET_RATE_RAD_S in
  let references := latest_references st in
  let valid bit := truthy (Z.land (rv_valid_mask references) bit) in
  if bool_decide (mode st = ADCS_MODE_SUN_ACQUISITION \/ mode st = ADCS_MODE_SUN_POINTING)
     && valid ADCS_REFERENCE_VALID_SUN
     && bool_decide (fst (adcs_guidance_target_from_vector (mode st) (Vec f1 f0 f0)
                            (rv_sun_eci_unit references) rate zero_target) = ADCS_RESULT_OK)
  then st <| guidance_target := snd (adcs_guidance_target_from_vector (mode st) (Vec f1 f0 f0)
                                  (rv_sun_eci_unit references) rate zero_target) |>
  else if bool_decide (mode st = ADCS_MODE_EARTH_POINTING)
     && valid ADCS_REFERENCE_VALID_NADIR
     && bool_decide (fst (adcs_guidance_target_from_vector (mode st) (Vec f0 f0 f1)
                            (rv_nadir_eci_unit references) rate zero_target) = ADCS_RESULT_OK)
  then st <| guidance_target := snd (adcs_guidance_target_from_vector (mode st) (Vec f0 f0 f1)
                                  (rv_nadir_eci_unit references) rate zero_target) |>
  else st.

Definition adcs_manager_init : adcs_manager_state_t :=
  mk_manager ADCS_MODE_BOOT ADCS_MODE_SUN_ACQUISITION 0 zero_sensors zero_orbit zero_references
    (zero_attitude <| at_quaternion := Versor f0 f0 f0 f1 |>) zero_output
    (zero_target <| gt_target_quaternion := Versor f0 f0 f0 f1 |>
                 <| gt_pointing_axis_body := Vec f1 f0 f0 |>
                 <| gt_maximum_rate_rad_s := MANAGER_DEFAULT_MAXIMUM_TARGET_RATE_RAD_S |>)
    (zero_health <| he_actuators_healthy := 1 |>) 0 0 0 0 1.

Definition manager_config_is_valid cfg : bool :=
  isfinite (detumble_entry_rate_rad_s cfg) && isfinite (detumble_exit_rate_rad_s cfg)
  && isfinite (excessive_rate_rad_s cfg) && isfinite (minimum_estimator_confidence cfg)
  && negb (flt (detumble_exit_rate_rad_s cfg) f0)
  && negb (fle (detumble_entry_rate_rad_s cfg) (detumble_exit_rate_rad_s cfg))
  && negb (fle (excessive_rate_rad_s cfg) (detumble_entry_rate_rad_s cfg))
  && negb (flt (minimum_estimator_confidence cfg) f0)
  && negb (flt f1 (minimum_estimator_confidence cfg))
  && truthy (detumble_settle_cycles cfg) && truthy (sun_acquisition_settle_cycles cfg)
  && truthy (sensor_stale_after_us cfg) && truthy (estimate_stale_after_us cfg).

(** The new [manager_config]. *)
Definition adcs_manager_configure (config : option adcs_manager_config_t) cfg : adcs_manager_config_t :=
  match config with
  | Some config => if manager_config_is_valid config then config else cfg
  | None => cfg
  end.

(** *** Requests and reports *)

Definition reject st : adcs_manager_state_t :=
  st <| health ::= fun h => h <| he_rejected_commands ::= fun n => u32 (n + 1) |> |>.

Definition adcs_manager_note_rejected_command : adcs_manager_state_t -> adcs_manager_state_t := reject.
Definition adcs_manager_note_dropped_message st : adcs_manager_state_t :=
  st <| health ::= fun h => h <| he_dropped_messages ::= fun n => u32 (n + 1) |> |>.
Definition adcs_manager_note_estimator_reset st : adcs_manager_state_t :=
  st <| health ::= fun h => h <| he_estimator_resets ::= fun n => u32 (n + 1) |> |>.
Definition adcs_manager_note_controller_error st : adcs_manager_state_t :=
  st <| health ::= fun h => h <| he_controller_errors ::= fun n => u32 (n + 1) |> |>.

(** The argument is an [int]. *)
Definition adcs_manager_request_mode (v : Z) st : adcs_manager_state_t :=
  match mode_of_value v with
  | Some m =>
      if mode_is_valid m && negb (bool_decide (m = ADCS_MODE_BOOT))
      then st <| requested_mode := m |> else reject st
  | None => reject st
  end.

Definition adcs_manager_set_references (orbit : option adcs_orbit_state_t)
    (references : option adcs_reference_vectors_t) st : adcs_manager_state_t :=
  let st := match orbit with Some o => st <| latest_orbit := o |> | None => st end in
  match references with Some r => st <| latest_references := r |> | None => st end.

Definition adcs_manager_set_attitude (attitude : option adcs_attitude_state_t) st : adcs_manager_state_t :=
  match attitude with
  | None => st
  | Some attitude =>
      let validated :=
        match adcs_quaternion_normalize (at_quaternion attitude) (at_quaternion attitude) with
        | (ADCS_RESULT_OK, q) => attitude <| at_quaternion := q |>
        | _ => attitude <| at_quaternion := Versor f0 f0 f0 f1 |> <| at_valid := 0 |>
        end in
      if at_timestamp_us (latest_attitude st) <=? at_timestamp_us validated
      then st <| latest_attitude := validated |>
              <| health ::= fun h => h <| he_estimator_healthy := at_valid validated |> |>
      else st
  end.

Definition adcs_manager_set_control_output (control : option adcs_control_output_t) st
    : adcs_manager_state_t :=
  match control with
  | Some c =>
      if co_timestamp_us (latest_control st) <=? co_timestamp_us c
      then st <| latest_control := c |> else st
  | None => st
  end.

Definition adcs_manager_set_guidance_target (target : option adcs_guidance_target_t) st
    : adcs_manager_state_t :=
  match target with
  | None => adcs_manager_note_rejected_command st
  | Some target =>
      if negb (mode_is_valid (gt_mode target)) || negb (isfinite (gt_maximum_rate_rad_s target))
         || fle (gt_maximum_rate_rad_s target) f0
      then adcs_manager_note_rejected_command st
      else
        match adcs_quaternion_normalize (gt_target_quaternion target) (gt_target_quaternion target) with
        | (ADCS_RESULT_OK, q) => st <| guidance_target := target <| gt_target_quaternion := q |> |>
        | _ => adcs_manager_note_rejected_command st
        end
  end.

Definition adcs_manager_set_actuators_inhibited (inhibited : Z) st : adcs_manager_state_t :=
  st <| actuators_inhibited := b2z (truthy inhibited) |>.

(** The five counters stay the manager's own. *)
Definition adcs_manager_set_health (h : option adcs_health_t) st : adcs_manager_state_t :=
  match h with
  | None => st
  | Some h =>
      st <| health ::= fun old =>
        h <| he_rejected_commands := he_rejected_commands old |>
          <| he_dropped_messages := he_dropped_messages old |>
          <| he_estimator_resets := he_estimator_resets old |>
          <| he_controller_errors := he_controller_errors old |>
          <| he_mode_transitions := he_mode_transitions old |> |>
  end.

Definition adcs_manager_set_legacy_position (position : Z) st : adcs_manager_state_t :=
  st <| last_commanded_position := position |>.

Definition adcs_manager_get_mode st : Z := mode_value (mode st).

(** *** The mode machine

    [stm32] is the build of the board, without it the simulator build ([ADCS_STM32]). *)
Section Machine.
Context (stm32 : bool).

Definition sensors_ready_locked st : bool :=
  let sensor := latest_sensors st in
  let required :=
    if stm32 then ADCS_SENSOR_VALID_GYROSCOPE
    else Z.lor ADCS_SENSOR_VALID_GYROSCOPE ADCS_SENSOR_VALID_MAGNETOMETER in
  truthy (sp_timestamp_us sensor) && has_bits (sp_valid_mask sensor) required
  && adcs_values_are_finite (vec_list (sp_angular_rate_rad_s sensor))
  && (stm32 || adcs_values_are_finite (vec_list (sp_magnetic_field_t sensor))).

Definition adcs_manager_set_sensors (sensors : option adcs_sensor_packet_t) st : adcs_manager_state_t :=
  match sensors with
  | None => st
  | Some sensors =>
      if sp_timestamp_us (latest_sensors st) <=? sp_timestamp_us sensors
      then
        let healthy :=
          if stm32 then truthy (Z.land (sp_valid_mask sensors) ADCS_SENSOR_VALID_GYROSCOPE)
          else has_bits (sp_valid_mask sensors)
                 (Z.lor ADCS_SENSOR_VALID_GYROSCOPE ADCS_SENSOR_VALID_MAGNETOMETER) in
        st <| latest_sensors := sensors |>
           <| health ::= fun h => h <| he_sensors_healthy := b2z healthy |> |>
      else st
  end.

Definition transition_is_allowed_locked cfg (requested : adcs_mode_t) (now_us : Z) st : bool :=
  match requested with
  | ADCS_MODE_SAFE => true
  | ADCS_MODE_DETUMBLE => sensors_ready_locked st
  | ADCS_MODE_SUN_ACQUISITION | ADCS_MODE_SUN_POINTING =>
      attitude_usable_locked cfg now_us st
      && truthy (Z.land (sp_valid_mask (latest_sensors st)) ADCS_SENSOR_VALID_SUN)
      && truthy (Z.land (rv_valid_mask (latest_references st)) ADCS_REFERENCE_VALID_SUN)
  | ADCS_MODE_EARTH_POINTING =>
      attitude_usable_locked cfg now_us st
      && truthy (Z.land (rv_valid_mask (latest_references st)) ADCS_REFERENCE_VALID_NADIR)
  | ADCS_MODE_SLEWING | ADCS_MODE_TARGET_POINTING | ADCS_MODE_SCIENCE =>
      attitude_usable_locked cfg now_us st
      && quaternion_is_valid (gt_target_quaternion (guidance_target st))
  | ADCS_MODE_BOOT | ADCS_MODE_COUNT => false
  end.

(** The first choice of [adcs_manager_update], before the switch. *)
Definition choose_mode cfg (now_us : Z) (body_rate : f32) st : adcs_manager_state_t :=
  if decide (requested_mode st = ADCS_MODE_SAFE) then enter_mode_locked ADCS_MODE_SAFE st
  else if flt (detumble_entry_rate_rad_s cfg) body_rate then enter_mode_locked ADCS_MODE_DETUMBLE st
  else if negb (bool_decide (mode st = ADCS_MODE_DETUMBLE))
          && negb (bool_decide (requested_mode st = mode st))
          && transition_is_allowed_locked cfg (requested_mode st) now_us st
  then enter_mode_locked (requested_mode st) st
  else st.

Definition safe_step cfg (now_us : Z) (body_rate : f32) st : adcs_manager_state_t :=
  if decide (requested_mode st = ADCS_MODE_SAFE) then st
  else if flt (detumble_entry_rate_rad_s cfg) body_rate && sensors_ready_locked st
  then enter_mode_locked ADCS_MODE_DETUMBLE st
  else if transition_is_allowed_locked cfg (requested_mode st) now_us st
  then enter_mode_locked (requested_mode st) st
  else st.

Definition detumble_step cfg (now_us : Z) (body_rate : f32) st : adcs_manager_state_t :=
  if fle body_rate (detumble_exit_rate_rad_s cfg) then
    let st := st <| stable_cycles ::= fun n => u32 (n + 1) |> in
    if (detumble_settle_cycles cfg <=? stable_cycles st)
       && negb (bool_decide (requested_mode st = ADCS_MODE_DETUMBLE))
    then
      if transition_is_allowed_locked cfg (requested_mode st) now_us st
      then enter_mode_locked (requested_mode st) st
      else enter_mode_locked ADCS_MODE_SAFE st
    else st
  else st <| stable_cycles := 0 |>.

Definition sun_acquisition_step cfg (now_us : Z) (body_rate : f32) st : adcs_manager_state_t :=
  let control := latest_control st in
  let timestamp_us := co_timestamp_us control in
  if negb (bool_decide (co_source_mode control = ADCS_MODE_SUN_ACQUISITION))
     || (timestamp_us <=? mode_entered_us st) || (now_us <? timestamp_us)
     || (sensor_stale_after_us cfg <? now_us - timestamp_us)
  then st <| stable_cycles := 0 |>
  else if timestamp_us <=? last_counted_control_timestamp_us st then st
  else
    let st := st <| last_counted_control_timestamp_us := timestamp_us |> in
    if truthy (co_pointing_error_valid control) && isfinite (co_pointing_error_rad control)
       && fle (co_pointing_error_rad control) MANAGER_SUN_SETTLED_ERROR_RAD
       && fle body_rate (detumble_entry_rate_rad_s cfg)
    then
      let st := st <| stable_cycles ::= fun n => u32 (n + 1) |> in
      if sun_acquisition_settle_cycles cfg <=? stable_cycles st
      then enter_mode_locked ADCS_MODE_SUN_POINTING (st <| requested_mode := ADCS_MODE_SUN_POINTING |>)
      else st
    else st <| stable_cycles := 0 |>.

Definition slewing_step st : adcs_manager_state_t :=
  if truthy (co_target_settled (latest_control st))
  then enter_mode_locked ADCS_MODE_TARGET_POINTING (st <| requested_mode := ADCS_MODE_TARGET_POINTING |>)
  else st.

(** The switch over the active mode. *)
Definition mode_step cfg (now_us : Z) (body_rate : f32) st : adcs_manager_state_t :=
  match mode st with
  | ADCS_MODE_SAFE => safe_step cfg now_us body_rate st
  | ADCS_MODE_DETUMBLE => detumble_step cfg now_us body_rate st
  | ADCS_MODE_SUN_ACQUISITION => sun_acquisition_step cfg now_us body_rate st
  | ADCS_MODE_SLEWING => slewing_step st
  | _ => st
  end.

Definition sensors_good cfg (now_us : Z) st : bool :=
  sensors_ready_locked st && sensors_fresh_locked cfg now_us st.

Definition critical_faults (active : Z) : Z :=
  Z.land active (Z.ldiff ADCS_FAULT_ALL ADCS_FAULT_ATTITUDE_INVALID).

(** [active] is what [fault_management_get_active] returns. *)
Definition adcs_manager_update cfg (active now_us : Z) st : adcs_manager_state_t :=
  if initialized st =? 0 then st
  else
    let st := st <| health ::= fun h => h <| he_active_faults := active |> |> in
    if truthy (critical_faults active)
    then refresh_builtin_target_locked (enter_mode_locked ADCS_MODE_SAFE st)
    else if bool_decide (mode st = ADCS_MODE_BOOT) && negb (sensors_good cfg now_us st) then st
    else
      let st :=
        if decide (mode st = ADCS_MODE_BOOT) then enter_mode_locked ADCS_MODE_SAFE st else st in
      if negb (sensors_good cfg now_us st) then enter_mode_locked ADCS_MODE_SAFE st
      else
        let body_rate := adcs_vector_norm (sp_angular_rate_rad_s (latest_sensors st)) in
        if negb (isfinite body_rate) || flt (excessive_rate_rad_s cfg) body_rate
        then enter_mode_locked ADCS_MODE_SAFE st
        else if negb (bool_decide (requested_mode st = ADCS_MODE_SAFE))
                && mode_needs_attitude (mode st) && negb (attitude_usable_locked cfg now_us st)
        then enter_mode_locked ADCS_MODE_DETUMBLE st
        else
          refresh_builtin_target_locked
            (mode_step cfg now_us body_rate (choose_mode cfg now_us body_rate st)).
End Machine.

(** ** Theorems *)

(** What the mode machine reads and does not change. *)
Definition inputs st :=
  (latest_sensors st, latest_references st, latest_attitude st, latest_control st,
   he_active_faults (health st), initialized st, actuators_inhibited st).

Lemma enter_mode_inputs m st : inputs (enter_mode_locked m st) = inputs st.
Proof. unfold enter_mode_locked. by case_decide. Qed.

Lemma enter_mode_mode m st : mode (enter_mode_locked m st) = m.
Proof. unfold enter_mode_locked. by case_decide. Qed.

Lemma enter_mode_requested m st : requested_mode (enter_mode_locked m st) = requested_mode st.
Proof. unfold enter_mode_locked. by case_decide. Qed.

Lemma enter_mode_stable m st : mode st <> m -> stable_cycles (enter_mode_locked m st) = 0.
Proof. intros. unfold enter_mode_locked. by rewrite decide_False. Qed.

Lemma enter_mode_target m st : guidance_target (enter_mode_locked m st) = guidance_target st.
Proof. unfold enter_mode_locked. by case_decide. Qed.

Lemma refresh_facts st :
  inputs (refresh_builtin_target_locked st) = inputs st
  /\ mode (refresh_builtin_target_locked st) = mode st
  /\ requested_mode (refresh_builtin_target_locked st) = requested_mode st.
Proof. unfold refresh_builtin_target_locked. by repeat case_match. Qed.

Lemma usable_inputs cfg now st st' :
  inputs st = inputs st' -> attitude_usable_locked cfg now st = attitude_usable_locked cfg now st'.
Proof.
  unfold inputs, attitude_usable_locked, attitude_ready_locked. intros H. injection H as _ _ Ha _ Hf _ _.
  by rewrite Ha, Hf.
Qed.

Lemma good_inputs stm32 cfg now st st' :
  inputs st = inputs st' -> sensors_good stm32 cfg now st = sensors_good stm32 cfg now st'.
Proof.
  unfold inputs, sensors_good, sensors_ready_locked, sensors_fresh_locked. intros H.
  injection H as Hs _ _ _ _ _ _. by rewrite Hs.
Qed.

Section Machine_theorems.
Context (stm32 : bool).

Lemma choose_mode_inputs cfg now rate st : inputs (choose_mode stm32 cfg now rate st) = inputs st.
Proof. unfold choose_mode. repeat case_match; by rewrite ?enter_mode_inputs. Qed.

Lemma mode_step_inputs cfg now rate st : inputs (mode_step stm32 cfg now rate st) = inputs st.
Proof.
  unfold mode_step, safe_step, detumble_step, sun_acquisition_step, slewing_step.
  repeat case_match; rewrite ?enter_mode_inputs; done.
Qed.

(** A permitted transition to a pointing mode needs a usable attitude. *)
Lemma allowed_usable cfg m now st :
  transition_is_allowed_locked stm32 cfg m now st = true ->
  mode_needs_attitude m = true -> attitude_usable_locked cfg now st = true.
Proof. unfold transition_is_allowed_locked. destruct m; intros H ?; bool_facts; done. Qed.

Lemma choose_mode_spec cfg now rate st :
  let st' := choose_mode stm32 cfg now rate st in
  requested_mode st' = requested_mode st
  /\ (requested_mode st = ADCS_MODE_SAFE -> mode st' = ADCS_MODE_SAFE)
  /\ (requested_mode st <> ADCS_MODE_SAFE -> flt (detumble_entry_rate_rad_s cfg) rate = true ->
        mode st' = ADCS_MODE_DETUMBLE)
  /\ (requested_mode st <> ADCS_MODE_SAFE -> flt (detumble_entry_rate_rad_s cfg) rate = false ->
        mode st' = mode st
        \/ mode st' = requested_mode st
           /\ transition_is_allowed_locked stm32 cfg (requested_mode st) now st = true).
Proof.
  unfold choose_mode. cbv zeta. destruct (decide (requested_mode st = _)) as [Hr|Hr];
    [rewrite enter_mode_requested, enter_mode_mode; naive_solver|].
  destruct (flt _ rate); [rewrite enter_mode_requested, enter_mode_mode; naive_solver|].
  destruct (_ && _) eqn:E; [|naive_solver].
  apply andb_true_iff in E as [_ E]. rewrite enter_mode_requested, enter_mode_mode. naive_solver.
Qed.

(** The attitude is usable when the choice starts, unless SAFE is requested. *)
Definition choice_ready cfg now st : Prop :=
  requested_mode st = ADCS_MODE_SAFE \/ mode_needs_attitude (mode st) = false
  \/ attitude_usable_locked cfg now st = true.

Definition pointing_ok cfg now rate st : Prop :=
  requested_mode st <> ADCS_MODE_SAFE /\ flt (detumble_entry_rate_rad_s cfg) rate = false
  /\ attitude_usable_locked cfg now st = true.

Lemma chosen_pointing cfg now rate st :
  choice_ready cfg now st ->
  mode_needs_attitude (mode (choose_mode stm32 cfg now rate st)) = true -> pointing_ok cfg now rate st.
Proof.
  intros Hready Hneeds. destruct (choose_mode_spec cfg now rate st) as (_ & Hsafe & Hfast & Hslow).
  destruct (decide (requested_mode st = ADCS_MODE_SAFE)) as [Hr|Hr];
    [rewrite (Hsafe Hr) in Hneeds; done|].
  destruct (flt _ rate) eqn:E; [rewrite (Hfast Hr eq_refl) in Hneeds; done|].
  split; [done|split; [done|]].
  destruct (Hslow Hr eq_refl) as [Hm|[Hm Hall]]; rewrite Hm in Hneeds.
  - destruct Hready as [?|[?|?]]; congruence.
  - by eapply allowed_usable.
Qed.

Lemma slow_enough cfg rate :
  manager_config_is_valid cfg = true -> fle rate (detumble_exit_rate_rad_s cfg) = true ->
  flt (detumble_entry_rate_rad_s cfg) rate = false.
Proof.
  unfold manager_config_is_valid. rewrite !andb_true_iff, !negb_true_iff. intros H Hr. destruct_and!.
  destruct (flt _ rate) eqn:E; [|done]. apply flt_fle in E.
  assert (fle (detumble_entry_rate_rad_s cfg) (detumble_exit_rate_rad_s cfg) = true)
    by (by apply (fle_trans _ rate)). congruence.
Qed.

(** Where one switch can go: it stays, goes to a mode without attitude, or to a mode it
    justifies. *)
Lemma mode_step_pointing cfg now rate st st1 :
  manager_config_is_valid cfg = true -> inputs st1 = inputs st -> requested_mode st1 = requested_mode st ->
  (mode_needs_attitude (mode st1) = true -> pointing_ok cfg now rate st) ->
  (mode st1 = ADCS_MODE_SAFE -> requested_mode st <> ADCS_MODE_SAFE ->
     flt (detumble_entry_rate_rad_s cfg) rate = false) ->
  mode_needs_attitude (mode (mode_step stm32 cfg now rate st1)) = true -> pointing_ok cfg now rate st.
Proof.
  intros Hcfg Hin Hreq Hpoint Hsafe. unfold mode_step, pointing_ok in *.
  rewrite (usable_inputs cfg now _ _ (eq_sym Hin)), <- Hreq in *.
  destruct (mode st1) eqn:Hm; try (intros _; by apply Hpoint).
  - by rewrite Hm.
  - unfold safe_step. case_decide as Hr; [by rewrite Hm|]. destruct (_ && _); [by rewrite enter_mode_mode|].
    destruct (transition_is_allowed_locked _ _ _ _ _) eqn:E; [|by rewrite Hm].
    rewrite enter_mode_mode. intros Hn. split_and!; eauto using allowed_usable.
  - assert (mode_needs_attitude (mode st1) <> true) as Hstay by by rewrite Hm.
    unfold detumble_step. destruct (fle rate _) eqn:E; [|by intros []%Hstay].
    cbv zeta. destruct (_ && _); [|by intros []%Hstay].
    destruct (transition_is_allowed_locked _ _ _ _ _) eqn:Ea; rewrite enter_mode_mode; [|done].
    intros Hn. split_and!; [|by apply slow_enough|by eapply allowed_usable].
    intros Hs. change (mode_needs_attitude (requested_mode st1) = true) in Hn. by rewrite Hs in Hn.
  - by rewrite Hm.
Qed.
Definition body_rate st : f32 := adcs_vector_norm (sp_angular_rate_rad_s (latest_sensors st)).

(** The state an update starts from, with the faults it has read. *)
Definition with_faults (active : Z) st : adcs_manager_state_t :=
  st <| health ::= fun h => h <| he_active_faults := active |> |>.

Lemma leave_boot_inputs st :
  inputs (if decide (mode st = ADCS_MODE_BOOT) then enter_mode_locked ADCS_MODE_SAFE st else st) = inputs st.
Proof. case_decide; by rewrite ?enter_mode_inputs. Qed.

Lemma body_rate_inputs st st' : inputs st = inputs st' -> body_rate st = body_rate st'.
Proof. unfold inputs, body_rate. intros H. injection H as Hs _ _ _ _ _ _. by rewrite Hs. Qed.

(** An update in its four outcomes: a critical fault, waiting in BOOT, a fallback, or the
    two choices on inputs that are good. *)
Inductive update_outcome cfg active now st : adcs_manager_state_t -> Prop :=
  | Out_critical :
      truthy (critical_faults active) = true ->
      update_outcome cfg active now st
        (refresh_builtin_target_locked (enter_mode_locked ADCS_MODE_SAFE (with_faults active st)))
  | Out_boot :
      truthy (critical_faults active) = false -> mode st = ADCS_MODE_BOOT ->
      sensors_good stm32 cfg now st = false -> update_outcome cfg active now st (with_faults active st)
  | Out_blind st1 :
      truthy (critical_faults active) = false -> mode st <> ADCS_MODE_BOOT ->
      sensors_good stm32 cfg now st = false -> inputs st1 = inputs (with_faults active st) ->
      mode st1 = ADCS_MODE_SAFE -> update_outcome cfg active now st st1
  | Out_fast st1 :
      truthy (critical_faults active) = false -> sensors_good stm32 cfg now st = true ->
      negb (isfinite (body_rate st)) || flt (excessive_rate_rad_s cfg) (body_rate st) = true ->
      inputs st1 = inputs (with_faults active st) ->
      mode st1 = ADCS_MODE_SAFE -> update_outcome cfg active now st st1
  | Out_lost st1 :
      truthy (critical_faults active) = false -> sensors_good stm32 cfg now st = true ->
      negb (isfinite (body_rate st)) || flt (excessive_rate_rad_s cfg) (body_rate st) = false ->
      requested_mode st <> ADCS_MODE_SAFE -> mode_needs_attitude (mode st) = true ->
      attitude_usable_locked cfg now (with_faults active st) = false ->
      inputs st1 = inputs (with_faults active st) ->
      mode st1 = ADCS_MODE_DETUMBLE -> update_outcome cfg active now st st1
  | Out_choice st1 :
      truthy (critical_faults active) = false -> sensors_good stm32 cfg now st = true ->
      negb (isfinite (body_rate st)) || flt (excessive_rate_rad_s cfg) (body_rate st) = false ->
      inputs st1 = inputs (with_faults active st) -> requested_mode st1 = requested_mode st ->
      stable_cycles st1 = (if decide (mode st = ADCS_MODE_BOOT) then 0 else stable_cycles st) ->
      mode st1 = (if decide (mode st = ADCS_MODE_BOOT) then ADCS_MODE_SAFE else mode st) ->
      guidance_target st1 = guidance_target st ->
      choice_ready cfg now st1 ->
      update_outcome cfg active now st
        (refresh_builtin_target_locked
           (mode_step stm32 cfg now (body_rate st) (choose_mode stm32 cfg now (body_rate st) st1))).

Lemma update_cases cfg active now st :
  initialized st <> 0 -> update_outcome cfg active now st (adcs_manager_update stm32 cfg active now st).
Proof.
  intros Hinit. unfold adcs_manager_update. rewrite (proj2 (Z.eqb_neq _ _) Hinit).
  fold (with_faults active st). cbv zeta.
  destruct (truthy (critical_faults active)) eqn:Hcrit; [by constructor|].
  assert (Hgood : forall st1, inputs st1 = inputs (with_faults active st) ->
    sensors_good stm32 cfg now st1 = sensors_good stm32 cfg now st) 
    by (intros st1 H; exact (good_inputs stm32 cfg now _ _ H)).
  change (mode (with_faults active st)) with (mode st).
  destruct (bool_decide (mode st = _) && _) eqn:Hboot.
  { apply andb_true_iff in Hboot as [Hb%bool_decide_eq_true Hs%negb_true_iff]. by constructor. }
  set (st1 := if decide _ then _ else _).
  assert (inputs st1 = inputs (with_faults active st)) as Hin by exact (leave_boot_inputs (with_faults active st)).
  assert (body_rate st1 = body_rate st) as Hrate by exact (body_rate_inputs _ _ Hin).
  assert (requested_mode st1 = requested_mode st) as Hreq.
  { subst st1. case_decide; by rewrite ?enter_mode_requested. }
  rewrite (Hgood st1 Hin). fold (body_rate st1). rewrite Hrate.
  destruct (sensors_good _ _ _ st) eqn:Hs; cbn [negb].
  2: { apply Out_blind; rewrite ?enter_mode_inputs, ?enter_mode_mode; try done.
       intros Hm. rewrite Hm, (Hgood (with_faults active st) eq_refl) in Hboot.
       by rewrite bool_decide_eq_true_2 in Hboot. }
  destruct (negb (isfinite _) || _) eqn:Hfast.
  { apply Out_fast; by rewrite ?enter_mode_inputs, ?enter_mode_mode. }
  assert (mode st1 = if decide (mode st = ADCS_MODE_BOOT) then ADCS_MODE_SAFE else mode st) as Hmode.
  { subst st1. change (mode (with_faults active st)) with (mode st).
    case_decide; by rewrite ?enter_mode_mode. }
  rewrite (usable_inputs cfg now _ _ Hin).
  destruct (negb (bool_decide _) && _ && _) eqn:Hlost.
  - rewrite !andb_true_iff, !negb_true_iff, bool_decide_eq_false, Hreq, Hmode in Hlost.
    destruct Hlost as [[Hl1 Hl2] Hl3]. case_decide; [done|].
    apply Out_lost; rewrite ?enter_mode_inputs, ?enter_mode_mode; done.
  - apply Out_choice; try done.
    + subst st1. change (mode (with_faults active st)) with (mode st).
      case_decide as Hb; [|done]. apply enter_mode_stable.
      change (mode (with_faults active st)) with (mode st). congruence.
    + subst st1. case_decide; by rewrite ?enter_mode_target.
    + unfold choice_ready. rewrite (usable_inputs cfg now _ _ Hin).
      rewrite !andb_false_iff, !negb_false_iff, bool_decide_eq_true in Hlost. tauto.
Qed.

(** An update changes none of the data it works on, only the active faults it is given. *)
Lemma update_inputs cfg active now st :
  initialized st <> 0 -> inputs (adcs_manager_update stm32 cfg active now st) = inputs (with_faults active st).
Proof.
  intros Hi. destruct (update_cases cfg active now st Hi) as [| | | | |st1]; try done.
  - by rewrite (proj1 (refresh_facts _)), enter_mode_inputs.
  - by rewrite (proj1 (refresh_facts _)), mode_step_inputs, choose_mode_inputs.
Qed.

Lemma chosen_safe_or_slow cfg now rate st1 :
  mode (choose_mode stm32 cfg now rate st1) = ADCS_MODE_SAFE -> requested_mode st1 <> ADCS_MODE_SAFE ->
  flt (detumble_entry_rate_rad_s cfg) rate = false.
Proof.
  intros Hm Hr. destruct (choose_mode_spec cfg now rate st1) as (_ & _ & Hfast & _).
  destruct (flt _ rate); [by rewrite (Hfast Hr eq_refl) in Hm|done].
Qed.

(** What holds after an update that ends in a pointing mode. *)
Lemma update_points_on_good_data cfg active now st :
  manager_config_is_valid cfg = true -> initialized st <> 0 ->
  let st' := adcs_manager_update stm32 cfg active now st in
  mode_needs_attitude (mode st') = true ->
  truthy (critical_faults active) = false /\ he_active_faults (health st') = active
  /\ sensors_good stm32 cfg now st' = true /\ attitude_usable_locked cfg now st' = true
  /\ isfinite (body_rate st') = true
  /\ flt (excessive_rate_rad_s cfg) (body_rate st') = false
  /\ flt (detumble_entry_rate_rad_s cfg) (body_rate st') = false.
Proof.
  intros Hcfg Hinit. cbv zeta.
  assert (Hwf : mode (with_faults active st) = mode st) by done.
  destruct (update_cases cfg active now st Hinit) as [Hc|Hc Hb Hg|st1 Hc Hb Hg Hin Hm|st1 Hc Hg Hf Hin Hm
    |st1 Hc Hg Hf Hr Hn Hu Hin Hm|st1 Hc Hg Hf Hin Hr Hsc Hm Hgt Hready]; try by rewrite ?Hm.
  - rewrite (proj1 (proj2 (refresh_facts _))), enter_mode_mode. done.
  - rewrite Hwf, Hb. done.
  - set (st2 := choose_mode _ _ _ _ _). set (st3 := mode_step _ _ _ _ _).
    destruct (refresh_facts st3) as (Hri & Hrm & _). rewrite Hrm. intros Hneeds.
    assert (inputs st3 = inputs st1) as Hin3 by (unfold st3, st2; by rewrite mode_step_inputs, choose_mode_inputs).
    destruct (choose_mode_spec cfg now (body_rate st) st1) as (Hreq & _).
    assert (pointing_ok cfg now (body_rate st) st1) as (Hs & Hslow & Husable).
    { apply (mode_step_pointing cfg now (body_rate st) st1 st2); try done.
      - apply choose_mode_inputs.
      - intros Hp. by apply chosen_pointing.
      - intros Hm2 Hr2. by eapply chosen_safe_or_slow. }
    set (st' := refresh_builtin_target_locked st3) in *.
    assert (inputs st' = inputs (with_faults active st)) as Hall by congruence.
    rewrite (body_rate_inputs _ _ Hall), (usable_inputs _ _ _ _ Hall), (good_inputs _ _ _ _ _ Hall).
    rewrite (usable_inputs _ _ _ _ Hin) in Husable.
    apply orb_false_iff in Hf as [Hfin%negb_false_iff Hexc]. split_and!; try done.
    unfold inputs in Hall. by injection Hall.
Qed.

(** The attitude control board points only on good information.  If the mode after an
    update of the manager is one of the six pointing modes, then there is no critical
    fault, the sensors are valid and fresh, the body rate is finite, not excessive and not
    above the detumbling threshold, and the attitude estimate is valid, confident, fresh
    and not reported faulty. *)
Theorem manager_points_only_on_good_data cfg active now st :
  manager_config_is_valid cfg = true -> initialized st <> 0 ->
  let st' := adcs_manager_update stm32 cfg active now st in
  mode_needs_attitude (mode st') = true ->
  truthy (critical_faults active) = false /\ he_active_faults (health st') = active
  /\ sensors_good stm32 cfg now st' = true /\ attitude_usable_locked cfg now st' = true
  /\ isfinite (body_rate st') = true
  /\ flt (excessive_rate_rad_s cfg) (body_rate st') = false
  /\ flt (detumble_entry_rate_rad_s cfg) (body_rate st') = false.
Proof. apply update_points_on_good_data. Qed.

(** C33. The manager falls back in a fixed order.  A critical fault, sensors that are not
    valid and fresh (outside BOOT), a body rate that is not finite or excessive, or a
    request for SAFE end every update in SAFE; otherwise a body rate above the entry
    threshold ends it in DETUMBLE, and so does the loss of the attitude in a pointing mode,
    whatever mode the ground requested.  Without good sensors BOOT is never left except
    by a critical fault. *)
Theorem manager_falls_back cfg active now st :
  manager_config_is_valid cfg = true -> initialized st <> 0 ->
  let m' := mode (adcs_manager_update stm32 cfg active now st) in
  let good := sensors_good stm32 cfg now st in
  let fast := negb (isfinite (body_rate st)) || flt (excessive_rate_rad_s cfg) (body_rate st) in
  (truthy (critical_faults active) = true -> m' = ADCS_MODE_SAFE)
  /\ (truthy (critical_faults active) = false ->
      (good = false -> m' = if decide (mode st = ADCS_MODE_BOOT) then ADCS_MODE_BOOT else ADCS_MODE_SAFE)
      /\ (good = true ->
          (fast = true \/ requested_mode st = ADCS_MODE_SAFE -> m' = ADCS_MODE_SAFE)
          /\ (fast = false -> requested_mode st <> ADCS_MODE_SAFE ->
              flt (detumble_entry_rate_rad_s cfg) (body_rate st) = true
              \/ mode_needs_attitude (mode st) = true
                 /\ attitude_usable_locked cfg now (with_faults active st) = false ->
              m' = ADCS_MODE_DETUMBLE))).
Proof.
  intros Hcfg Hinit. cbv zeta.
  destruct (update_cases cfg active now st Hinit) as [Hc|Hc Hb Hg|st1 Hc Hb Hg Hin Hm|st1 Hc Hg Hf Hin Hm
    |st1 Hc Hg Hf Hr Hn Hu Hin Hm|st1 Hc Hg Hf Hin Hr Hsc Hm Hgt Hready];
    rewrite ?Hc; try rewrite Hg; try rewrite Hf; try rewrite Hm.
  - rewrite (proj1 (proj2 (refresh_facts _))), enter_mode_mode. done.
  - change (mode (with_faults active st)) with (mode st). rewrite Hb.
    split; [done|intros _; split; [|done]]. intros _. by rewrite decide_True.
  - split; [done|intros _; split; [|done]]. intros _. by rewrite decide_False.
  - split; [done|intros _; split; [done|]]. intros _. split; [done|]. by intros ?.
  - split; [done|intros _; split; [done|]]. intros _. split; [|done]. by intros [?|?].
  - split; [done|intros _; split; [done|]]. intros _.
    rewrite (proj1 (proj2 (refresh_facts _))).
    destruct (choose_mode_spec cfg now (body_rate st) st1) as (Hreq & Hsafe & Hfast & _).
    rewrite Hr in *. set (st2 := choose_mode _ _ _ _ _) in *. unfold mode_step. split.
    + intros [?|Hs]; [done|]. rewrite (Hsafe Hs). unfold safe_step. rewrite Hreq, decide_True by done. auto.
    + intros _ Hns [Hflt|[Hn Hu]].
      * rewrite (Hfast Hns Hflt). unfold detumble_step.
        destruct (fle _ _) eqn:E; [|by apply Hfast].
        apply (slow_enough cfg _ Hcfg) in E. congruence.
      * rewrite <- (usable_inputs cfg now _ _ Hin) in Hu. destruct Hready as [?|[Hnn|?]]; [congruence| |congruence].
        rewrite Hm in Hnn. case_decide as Hd; [by rewrite Hd in Hn|congruence].
Qed.
(** *** Detumbling ends *)

Lemma allowed_inputs cfg m now st st' :
  inputs st = inputs st' -> guidance_target st = guidance_target st' ->
  transition_is_allowed_locked stm32 cfg m now st = transition_is_allowed_locked stm32 cfg m now st'.
Proof.
  intros H Ht. pose proof (usable_inputs cfg now _ _ H) as Hu.
  unfold transition_is_allowed_locked, sensors_ready_locked. rewrite Hu, Ht.
  unfold inputs in H. injection H as Hs Hr _ _ _ _ _. by rewrite Hs, Hr.
Qed.

(** What happens between two updates: the other tasks report, nobody sends commands. *)
Definition between st st' : Prop :=
  mode st' = mode st /\ requested_mode st' = requested_mode st /\ stable_cycles st' = stable_cycles st
  /\ initialized st' = initialized st.

(** Good data, a slow body, and the requested mode is possible. *)
Definition quiet cfg (active now : Z) st : Prop :=
  truthy (critical_faults active) = false /\ sensors_good stm32 cfg now st = true
  /\ isfinite (body_rate st) = true /\ fle (body_rate st) (detumble_exit_rate_rad_s cfg) = true
  /\ transition_is_allowed_locked stm32 cfg (requested_mode st) now (with_faults active st) = true.

Inductive quiet_run cfg : nat -> adcs_manager_state_t -> adcs_manager_state_t -> Prop :=
  | Quiet_start st : quiet_run cfg 0 st st
  | Quiet_step n st st1 st2 active now :
      quiet_run cfg n st st1 -> between st1 st2 -> quiet cfg active now st2 ->
      quiet_run cfg (S n) st (adcs_manager_update stm32 cfg active now st2).

Lemma not_excessive cfg rate :
  manager_config_is_valid cfg = true -> fle rate (detumble_exit_rate_rad_s cfg) = true ->
  flt (excessive_rate_rad_s cfg) rate = false.
Proof.
  intros Hcfg Hr. pose proof (slow_enough cfg rate Hcfg Hr) as Hs.
  unfold manager_config_is_valid in Hcfg. rewrite !andb_true_iff, !negb_true_iff in Hcfg. destruct_and!.
  destruct (flt (excessive_rate_rad_s cfg) rate) eqn:E; [|done]. apply flt_fle in E.
  assert (fle (detumble_entry_rate_rad_s cfg) (excessive_rate_rad_s cfg) = true).
  { apply flt_fle, fle_false; by try apply isfinite_not_nan. }
  assert (fle (excessive_rate_rad_s cfg) (detumble_exit_rate_rad_s cfg) = true)
    by (by apply (fle_trans _ rate)).
  assert (fle (detumble_entry_rate_rad_s cfg) (detumble_exit_rate_rad_s cfg) = true)
    by (by apply (fle_trans _ (excessive_rate_rad_s cfg))). congruence.
Qed.

Lemma detumble_update cfg active now st :
  manager_config_is_valid cfg = true -> initialized st <> 0 -> mode st = ADCS_MODE_DETUMBLE ->
  requested_mode st <> ADCS_MODE_SAFE -> requested_mode st <> ADCS_MODE_DETUMBLE ->
  quiet cfg active now st ->
  let st' := adcs_manager_update stm32 cfg active now st in
  let n := u32 (stable_cycles st + 1) in
  requested_mode st' = requested_mode st /\ initialized st' = initialized st
  /\ if detumble_settle_cycles cfg <=? n then mode st' = requested_mode st
     else mode st' = ADCS_MODE_DETUMBLE /\ stable_cycles st' = n.
Proof.
  intros Hcfg Hinit Hd Hns Hnd (Hq1 & Hq2 & Hq3 & Hq4 & Hq5). cbv zeta.
  pose proof (slow_enough cfg _ Hcfg Hq4) as Hslow. pose proof (not_excessive cfg _ Hcfg Hq4) as Hexc.
  destruct (update_cases cfg active now st Hinit) as [Hc|Hc Hb Hg|st1 Hc Hb Hg Hin Hm|st1 Hc Hg Hf Hin Hm
    |st1 Hc Hg Hf Hr Hn Hu Hin Hm|st1 Hc Hg Hf Hin Hr Hsc Hm Hgt Hready]; try congruence.
  { rewrite Hq3, Hexc in Hf. done. }
  { rewrite Hd in Hn. done. }
  rewrite decide_False in Hm by congruence. rewrite decide_False in Hsc by congruence. rewrite Hd in Hm.
  assert (choose_mode stm32 cfg now (body_rate st) st1 = st1) as ->.
  { unfold choose_mode. rewrite Hr, Hslow, Hm, decide_False by done. by rewrite bool_decide_eq_true_2. }
  unfold mode_step. rewrite Hm. unfold detumble_step. rewrite Hq4. cbv zeta.
  set (st2 := st1 <| stable_cycles ::= _ |>).
  assert (transition_is_allowed_locked stm32 cfg (requested_mode st2) now st2 = true) as Hall.
  { change (requested_mode st2) with (requested_mode st1). rewrite Hr.
    rewrite <- Hq5. apply allowed_inputs; [exact Hin|exact Hgt]. }
  change (stable_cycles st2) with (u32 (stable_cycles st1 + 1)). rewrite Hall, Hsc.
  change (requested_mode st2) with (requested_mode st1). rewrite Hr, bool_decide_eq_false_2, andb_true_r by done.
  assert (initialized st1 = initialized st) as Hi by (unfold inputs in Hin; by injection Hin).
  destruct (detumble_settle_cycles cfg <=? _).
  - destruct (refresh_facts (enter_mode_locked (requested_mode st) st2)) as (Hri & -> & ->).
    rewrite enter_mode_requested, enter_mode_mode. split; [exact Hr|split; [|done]].
    rewrite enter_mode_inputs in Hri. unfold inputs in Hri. injection Hri as _ _ _ _ _ -> _. exact Hi.
  - destruct (refresh_facts st2) as (Hri & -> & ->). split; [exact Hr|split; [|split]].
    + unfold inputs in Hri. injection Hri as _ _ _ _ _ -> _. exact Hi.
    + exact Hm.
    + unfold refresh_builtin_target_locked. rewrite <- Hsc. by repeat case_match.
Qed.

(** C34. Detumbling ends.  From the start of DETUMBLE, while every update finds good sensors, a
    body rate below the exit threshold and a requested mode that is possible, the board
    stays in DETUMBLE for exactly [detumble_settle_cycles] updates and then enters the
    requested mode, whatever sensor, reference, attitude and control reports arrive in
    between. *)
Theorem detumbling_ends cfg n st st' :
  manager_config_is_valid cfg = true -> detumble_settle_cycles cfg < 4294967296 ->
  initialized st <> 0 -> mode st = ADCS_MODE_DETUMBLE -> stable_cycles st = 0 ->
  requested_mode st <> ADCS_MODE_SAFE -> requested_mode st <> ADCS_MODE_DETUMBLE ->
  quiet_run cfg n st st' ->
  (Z.of_nat n < detumble_settle_cycles cfg -> mode st' = ADCS_MODE_DETUMBLE)
  /\ (Z.of_nat n = detumble_settle_cycles cfg -> mode st' = requested_mode st).
Proof.
  intros Hcfg Hmax Hinit Hmode H0 Hns Hnd Hrun.
  assert (Z.of_nat n <= detumble_settle_cycles cfg ->
    requested_mode st' = requested_mode st /\ initialized st' = initialized st
    /\ if Z.of_nat n <? detumble_settle_cycles cfg
       then mode st' = ADCS_MODE_DETUMBLE /\ stable_cycles st' = Z.of_nat n
       else mode st' = requested_mode st \/ n = 0%nat) as Hgen.
  { induction Hrun as [st|n st st1 st2 active now Hrun IH Hbtw Hq]; intros Hn.
    { destruct (Z.ltb_spec (Z.of_nat 0) (detumble_settle_cycles cfg)); split_and!; auto. }
    destruct (IH Hinit Hmode H0 Hns Hnd ltac:(lia)) as (Hr & Hi & Hd).
    destruct Hbtw as (Hb1 & Hb2 & Hb3 & Hb4).
    rewrite (proj2 (Z.ltb_lt _ _)) in Hd by lia. destruct Hd as [Hd1 Hd2].
    destruct (detumble_update cfg active now st2) as (Hr' & Hi' & Hd'); try congruence.
    rewrite Hb3, Hd2 in Hd'. unfold u32 in Hd'. rewrite Z.mod_small in Hd' by lia.
    split_and!; [congruence..|].
    destruct (Z.ltb_spec (Z.of_nat (S n)) (detumble_settle_cycles cfg)).
    - rewrite (proj2 (Z.leb_gt _ _)) in Hd' by lia. destruct Hd' as [-> ->]. split; [done|lia].
    - rewrite (proj2 (Z.leb_le _ _)) in Hd' by lia. left. congruence. }
  assert (0 < detumble_settle_cycles cfg \/ detumble_settle_cycles cfg < 0) as Hpos.
  { unfold manager_config_is_valid in Hcfg. rewrite !andb_true_iff in Hcfg. destruct_and!.
    unfold truthy in *. bool_facts. lia. }
  split; intros Hn; destruct Hgen as (_ & _ & Hgen); try lia.
  - rewrite (proj2 (Z.ltb_lt _ _)) in Hgen by lia. by destruct Hgen.
  - rewrite (proj2 (Z.ltb_ge _ _)) in Hgen by lia. destruct Hgen as [?|Hz]; [done|subst; lia].
Qed.
End Machine_theorems.

(** *** Concrete states *)

Definition sample_sensors : adcs_sensor_packet_t :=
  mk_sensors 1 1000 vec_zero vec_zero (Vec f0 f0 (lit 3 100000)) (Vec f0 f1 f0) (lit 1361 1) 15.
Definition sample_attitude : adcs_attitude_state_t :=
  mk_attitude 1000 (Versor f0 f0 f0 f1) vec_zero vec_zero [f0; f0; f0; f0; f0; f0] f1 1.
Definition sample_references : adcs_reference_vectors_t :=
  mk_references 0 (Vec f0 f1 f0) vec_zero (Vec f0 f0 f1) 7.

(** A manager in mode [m] that wants [r], with good data. *)
Definition sample_manager (m r : adcs_mode_t) : adcs_manager_state_t :=
  adcs_manager_init <| mode := m |> <| requested_mode := r |>
    <| latest_sensors := sample_sensors |> <| latest_attitude := sample_attitude |>
    <| latest_references := sample_references |>.

Lemma manager_points_only_on_good_data_witness :
  let st' := adcs_manager_update false default_config 0 1500
               (sample_manager ADCS_MODE_BOOT ADCS_MODE_SUN_ACQUISITION) in
  mode st' = ADCS_MODE_SUN_ACQUISITION
  /\ attitude_usable_locked default_config 1500 st' = true
  /\ flt (detumble_entry_rate_rad_s default_config) (body_rate st') = false.
Proof.
  cbv zeta. split; [vm_compute; reflexivity|].
  destruct (manager_points_only_on_good_data false default_config 0 1500
    (sample_manager ADCS_MODE_BOOT ADCS_MODE_SUN_ACQUISITION)) as (_ & _ & _ & H1 & _ & _ & H2);
    [vm_compute; reflexivity|discriminate|vm_compute; reflexivity|]. exact (conj H1 H2).
Defined.

Lemma manager_falls_back_witness :
  mode (adcs_manager_update false default_config ADCS_FAULT_ACTUATOR 1500
          (sample_manager ADCS_MODE_SUN_POINTING ADCS_MODE_SUN_POINTING)) = ADCS_MODE_SAFE
  /\ mode (adcs_manager_update false default_config ADCS_FAULT_ATTITUDE_INVALID 1500
             (sample_manager ADCS_MODE_SUN_POINTING ADCS_MODE_SUN_POINTING)) = ADCS_MODE_DETUMBLE.
Proof.
  split.
  - destruct (manager_falls_back false default_config ADCS_FAULT_ACTUATOR 1500
      (sample_manager ADCS_MODE_SUN_POINTING ADCS_MODE_SUN_POINTING)) as [H _];
      [vm_compute; reflexivity|discriminate|]. by apply H.
  - destruct (manager_falls_back false default_config ADCS_FAULT_ATTITUDE_INVALID 1500
      (sample_manager ADCS_MODE_SUN_POINTING ADCS_MODE_SUN_POINTING)) as [_ H];
      [vm_compute; reflexivity|discriminate|].
    destruct H as [_ H]; [reflexivity|]. destruct H as [_ H]; [vm_compute; reflexivity|].
    apply H; [vm_compute; reflexivity|discriminate|right; split; vm_compute; reflexivity].
Defined.

Definition short_config : adcs_manager_config_t :=
  mk_manager_config (lit 3 100) (lit 8 1000) (lit 75 100) (lit 35 100) 2 20 250000 250000.

Lemma detumbling_ends_witness :
  let st := sample_manager ADCS_MODE_DETUMBLE ADCS_MODE_SUN_ACQUISITION in
  let update := adcs_manager_update false short_config 0 in
  mode (update 1500 st) = ADCS_MODE_DETUMBLE
  /\ mode (update 2000 (update 1500 st)) = ADCS_MODE_SUN_ACQUISITION.
Proof.
  cbv zeta. set (st := sample_manager _ _). set (st1 := adcs_manager_update _ _ _ 1500 st).
  assert (forall s active now, quiet_run false short_config 0 st s -> quiet false short_config active now s ->
    quiet_run false short_config 1 st (adcs_manager_update false short_config active now s)) as Hone.
  { intros s active now Hr Hq. apply (Quiet_step _ _ 0 st s s); [exact Hr|by split_and!|exact Hq]. }
  assert (quiet_run false short_config 1 st st1) as H1.
  { apply Hone; [constructor|]. vm_compute. by split_and!. }
  assert (quiet_run false short_config 2 st (adcs_manager_update false short_config 0 2000 st1)) as H2.
  { apply (Quiet_step _ _ 1 st st1 st1); [exact H1|by split_and!|]. vm_compute. by split_and!. }
  split.
  - destruct (detumbling_ends false short_config 1 st st1) as [H _];
      [vm_compute; reflexivity|reflexivity|discriminate|reflexivity|reflexivity|discriminate|discriminate|exact H1|].
    apply H; reflexivity.
  - destruct (detumbling_ends false short_config 2 st (adcs_manager_update false short_config 0 2000 st1))
      as [_ H];
      [vm_compute; reflexivity|reflexivity|discriminate|reflexivity|reflexivity|discriminate|discriminate|exact H2|].
    apply H; reflexivity.
Defined.

(** A slew to a new target that is requested while the last control result still says
    "settled" (on the old target) is over at once: the mode goes from TARGET_POINTING
    through SLEWING back to TARGET_POINTING inside one update. *)
Lemma stale_settled_flag_ends_slew :
  let settled := zero_output <| co_source_mode := ADCS_MODE_TARGET_POINTING |> <| co_target_settled := 1 |> in
  let st := (sample_manager ADCS_MODE_TARGET_POINTING ADCS_MODE_TARGET_POINTING) <| latest_control := settled |> in
  let target := zero_target <| gt_target_quaternion := Versor f1 f0 f0 f0 |> <| gt_maximum_rate_rad_s := f1 |> in
  let st' := adcs_manager_update false default_config 0 1500
    (adcs_manager_request_mode 6 (adcs_manager_set_guidance_target (Some target) st)) in
  mode st' = ADCS_MODE_TARGET_POINTING /\ he_mode_transitions (health st') = 2.
Proof. vm_compute. split; reflexivity. Qed.
