(* ===== verification/AdcsFault.v ===== *)
(** The fault manager of the attitude control board
    ([apps/adcs/Application/src/manager/fault_manager.c]).

    Its static variables are [adcs_faults]; [fault_lock] and [pet_lock] make every access
    one step.  Reset notices go out through libcsp: whether a connection opens and a buffer
    is free are arguments, a packet that is sent is recorded. *)

From Stdlib Require Import Floats.SpecFloat.
From S2P Require Import Prelude Float32 AdcsMath AdcsManager ObcProgress Gateway.

Definition ADCS_ADDRESS : Z := 2.
Definition WATCHDOG_TIMEOUT_SEC : Z := 5.
Definition MAXIMUM_SIM_DIPOLE_A_M2 : f32 := f1.
Definition MAXIMUM_ESTIMATOR_RATE_RAD_S : f32 := lit 100 1.
Definition MAXIMUM_ESTIMATOR_COVARIANCE : f32 := lit 1000000 1.

Record adcs_fault_config_t := mk_fault_config {
  maximum_rate_rad_s : f32;
  minimum_magnetic_field_t : f32;
  maximum_magnetic_field_t : f32;
  fault_sensor_stale_after_us : Z;
  fault_estimate_stale_after_us : Z
}.

Definition default_fault_config : adcs_fault_config_t :=
  mk_fault_config (lit 75 100) (lit 1 1000000) (lit 1 1000) 500000 500000.

#[projections(primitive)]
Record adcs_faults := mk_faults {
  fault_config : adcs_fault_config_t;
  active_faults : Z;
  transport_enabled : Z;
  last_pet : timespec;
  notices_sent : list csp_sent;
  resets : Z
}.

Implicit Types ft : adcs_faults.

(** Packets sent and resets survive, as they are not state of the board. *)
Definition fault_management_init (now : timespec) ft : adcs_faults :=
  ft <| fault_config := default_fault_config |> <| active_faults := ADCS_FAULT_NONE |>
     <| last_pet := now |>.

Definition fault_management_set_transport_enabled (enabled : Z) ft : adcs_faults :=
  ft <| transport_enabled := b2z (truthy enabled) |>.

Definition fault_management_configure (config : option adcs_fault_config_t) ft : adcs_faults :=
  match config with
  | None => ft
  | Some c =>
      if negb (isfinite (maximum_rate_rad_s c)) || negb (isfinite (minimum_magnetic_field_t c))
         || negb (isfinite (maximum_magnetic_field_t c))
         || fle (maximum_rate_rad_s c) f0 || fle (minimum_magnetic_field_t c) f0
         || fle (maximum_magnetic_field_t c) (minimum_magnetic_field_t c)
         || negb (truthy (fault_sensor_stale_after_us c))
         || negb (truthy (fault_estimate_stale_after_us c))
      then ft else ft <| fault_config := c |>
  end.

Definition fault_management_pet (now : timespec) ft : adcs_faults := ft <| last_pet := now |>.

Definition RESET_REASON_OUT_OF_BOUNDS : Z := 1.
Definition RESET_REASON_WATCHDOG : Z := 2.

(** [connected] and [buffered]: a connection opened, a packet buffer was free. *)
Definition send_reset_notice (reason : Z) (connected buffered : bool) ft : adcs_faults :=
  if (transport_enabled ft =? 0) || negb connected || negb buffered then ft
  else ft <| notices_sent ::= fun l =>
         l ++ [mk_sent OBC_ADDRESS ADCS_STATUS_PORT [ADCS_ADDRESS; u8 reason]] |>.

(** [board_reset] does not return; the caller's code ends here. *)
Definition fault_management_trigger_reset (reason : Z) (connected buffered : bool) ft : adcs_faults :=
  (send_reset_notice reason connected buffered ft) <| resets ::= fun n => n + 1 |>.

(** The [double] arithmetic of the watchdog thread. *)
Definition watchdog_elapsed (seen now : timespec) : spec_float :=
  let of_int z := binary_normalize 53 1024 z 0 false in
  SFadd 53 1024 (of_int (tv_sec now - tv_sec seen))
    (SFdiv 53 1024 (of_int (tv_nsec now - tv_nsec seen)) (of_int 1000000000)).

(** One round of [watchdog_thread], at time [now]. *)
Definition watchdog_round (now : timespec) (connected buffered : bool) ft : adcs_faults :=
  if SFltb (binary_normalize 53 1024 WATCHDOG_TIMEOUT_SEC 0 false) (watchdog_elapsed (last_pet ft) now)
  then fault_management_trigger_reset RESET_REASON_WATCHDOG connected buffered ft
  else ft.

Definition fault_management_check_estimator_bounds (attitude : option adcs_attitude_state_t) : Z :=
  match attitude with
  | None => 0
  | Some a =>
      if at_timestamp_us a =? 0 then 0
      else if negb (adcs_values_are_finite (versor_list (at_quaternion a)))
              || negb (adcs_values_are_finite (vec_list (at_angular_rate_rad_s a)))
              || negb (adcs_values_are_finite (vec_list (at_gyro_bias_rad_s a)))
              || negb (adcs_values_are_finite (at_covariance_diagonal a))
              || negb (isfinite (at_confidence a))
      then 1
      else
        let quaternion_norm_squared := sum_of_squares (versor_list (at_quaternion a)) in
        let rate_norm := adcs_vector_norm (at_angular_rate_rad_s a) in
        if negb (isfinite quaternion_norm_squared)
           || flt quaternion_norm_squared (lit 25 100) || flt (lit 225 100) quaternion_norm_squared
           || negb (isfinite rate_norm) || flt MAXIMUM_ESTIMATOR_RATE_RAD_S rate_norm
           || flt (at_confidence a) f0 || flt f1 (at_confidence a)
        then 1
        else b2z (existsb (fun c => flt c f0 || flt MAXIMUM_ESTIMATOR_COVARIANCE c)
                    (at_covariance_diagonal a))
  end.

Definition sensor_faults (c : adcs_fault_config_t) (sensors : option adcs_sensor_packet_t) (now_us : Z) : Z :=
  match sensors with
  | None => ADCS_FAULT_SENSOR_STALE
  | Some s =>
      if (sp_timestamp_us s =? 0) || (now_us <? sp_timestamp_us s)
         || (fault_sensor_stale_after_us c <? now_us - sp_timestamp_us s)
      then ADCS_FAULT_SENSOR_STALE
      else if negb (has_bits (sp_valid_mask s)
                      (Z.lor ADCS_SENSOR_VALID_GYROSCOPE ADCS_SENSOR_VALID_MAGNETOMETER))
              || negb (adcs_values_are_finite (vec_list (sp_angular_rate_rad_s s)))
              || negb (adcs_values_are_finite (vec_list (sp_magnetic_field_t s)))
      then ADCS_FAULT_SENSOR_RANGE
      else
        let magnetic_norm := adcs_vector_norm (sp_magnetic_field_t s) in
        let rate_norm := adcs_vector_norm (sp_angular_rate_rad_s s) in
        Z.lor
          (if negb (isfinite magnetic_norm) || flt magnetic_norm (minimum_magnetic_field_t c)
              || flt (maximum_magnetic_field_t c) magnetic_norm
           then ADCS_FAULT_SENSOR_RANGE else ADCS_FAULT_NONE)
          (if negb (isfinite rate_norm) || flt (maximum_rate_rad_s c) rate_norm
           then ADCS_FAULT_EXCESSIVE_RATE else ADCS_FAULT_NONE)
  end.

Definition attitude_faults (c : adcs_fault_config_t) (attitude : option adcs_attitude_state_t) (now_us : Z) : Z :=
  match attitude with
  | None => ADCS_FAULT_ATTITUDE_INVALID
  | Some a =>
      if (at_valid a =? 0) || (at_timestamp_us a =? 0) || (now_us <? at_timestamp_us a)
         || (fault_estimate_stale_after_us c <? now_us - at_timestamp_us a)
         || negb (adcs_values_are_finite (versor_list (at_quaternion a)))
         || negb (adcs_values_are_finite (vec_list (at_angular_rate_rad_s a)))
      then ADCS_FAULT_ATTITUDE_INVALID
      else
        let quaternion_norm := sqrtf (sum_of_squares (versor_list (at_quaternion a))) in
        if negb (isfinite quaternion_norm)
           || flt (lit 5 100) (fabsf (fsub quaternion_norm f1))
           || negb (isfinite (at_confidence a)) || flt (at_confidence a) f0 || flt f1 (at_confidence a)
        then ADCS_FAULT_ATTITUDE_INVALID else ADCS_FAULT_NONE
  end.

Definition control_faults (control : option adcs_control_output_t) : Z :=
  match control with
  | None => ADCS_FAULT_NONE
  | Some o =>
      if truthy (co_actuators_enabled o)
         && (negb (adcs_values_are_finite (vec_list (co_requested_torque_nm o)))
             || negb (adcs_values_are_finite (vec_list (co_requested_dipole_a_m2 o)))
             || negb (adcs_values_are_finite (vec_list (co_achievable_torque_nm o)))
             || existsb (fun d => flt MAXIMUM_SIM_DIPOLE_A_M2 (fabsf d))
                  (vec_list (co_requested_dipole_a_m2 o)))
      then ADCS_FAULT_ACTUATOR else ADCS_FAULT_NONE
  end.

Definition fault_management_evaluate_adcs (sensors : option adcs_sensor_packet_t)
    (attitude : option adcs_attitude_state_t) (control : option adcs_control_output_t)
    (now_us : Z) ft : Z :=
  let c := fault_config ft in
  Z.lor (Z.lor (sensor_faults c sensors now_us) (attitude_faults c attitude now_us))
    (control_faults control).

Definition fault_management_report (fault : Z) ft : adcs_faults :=
  ft <| active_faults ::= fun a => Z.lor a fault |>.

Definition fault_management_get_active ft : Z := active_faults ft.

Definition fault_management_clear (fault_mask : Z) ft : adcs_faults :=
  ft <| active_faults ::= fun a => Z.ldiff a fault_mask |>.

(** *** The evaluation gives only defined bits *)

Lemma lor_in_all a b :
  Z.ldiff a ADCS_FAULT_ALL = 0 -> Z.ldiff b ADCS_FAULT_ALL = 0 -> Z.ldiff (Z.lor a b) ADCS_FAULT_ALL = 0.
Proof.
  intros Ha Hb. apply Z.bits_inj'. intros n Hn.
  apply (f_equal (fun z => Z.testbit z n)) in Ha, Hb. rewrite !Z.bits_0, !Z.ldiff_spec, ?Z.lor_spec in *.
  by destruct (Z.testbit a n), (Z.testbit b n), (Z.testbit ADCS_FAULT_ALL n).
Qed.

Lemma evaluate_in_all sensors attitude control now ft :
  Z.ldiff (fault_management_evaluate_adcs sensors attitude control now ft) ADCS_FAULT_ALL = 0.
Proof.
  unfold fault_management_evaluate_adcs. repeat apply lor_in_all.
  - unfold sensor_faults. destruct sensors; [|done]. cbv zeta. repeat case_match; done.
  - unfold attitude_faults. destruct attitude; [|done]. cbv zeta. repeat case_match; done.
  - unfold control_faults. destruct control; [|done]. by case_match.
Qed.
