(* ===== verification/AdcsCommand.v ===== *)
(** Commands of the attitude control board: the listener
    ([communication/command_handler.c]), the command queue and the command task
    ([tasks/command_task.c]), the manual override of the control task
    ([control_task_set_manual_magnetorquer]) and the STM32 clock
    ([Platform/Src/adcs_environment_stm32.c]), all under [apps/adcs].

    [adcs_board] holds the static variables of the tasks.  A packet is the list of its
    bytes; the payload structures are laid out little-endian with natural alignment.
    FreeRTOS is vendored: the queue is a list of at most [COMMAND_QUEUE_LENGTH] commands. *)

From S2P Require Import Prelude Float32 AdcsMath AdcsControl AdcsManager AdcsFault ObcProgress Gateway.

(** ** The environment ([platform/adcs_environment.h]) *)

Class AdcsEnvironment (E : Type) := {
  adcs_set_unix_time_us : Z -> E -> adcs_result_t * E;
  adcs_unix_time_us : E -> Z * E;
  adcs_inject_simulator_faults : Z -> E -> adcs_result_t * E
}.

(** [adcs_environment_stm32.c]; [tick] is what [HAL_GetTick] returns from now on. *)
Module Stm32.

#[projections(primitive)]
Record environment := mk_environment {
  tick : Z;
  previous_ms : Z;
  elapsed_ms : Z;
  synchronized_unix_us : Z;
  synchronized_boot_us : Z
}.

Definition adcs_monotonic_time_us (e : environment) : Z * environment :=
  let now := tick e in
  let e := e <| elapsed_ms ::= fun ms => u64 (ms + u32 (now - previous_ms e)) |> <| previous_ms := now |> in
  (u64 (elapsed_ms e * 1000), e).

Definition get_unix_time_us (e : environment) : Z * environment :=
  let '(now, e) := adcs_monotonic_time_us e in
  (if synchronized_unix_us e =? 0 then 0
   else u64 (synchronized_unix_us e + u64 (now - synchronized_boot_us e)), e).

Definition set_unix_time_us (time : Z) (e : environment) : adcs_result_t * environment :=
  if (time =? 0) || (18446744073709551615 - 315576000000000 <? time)
  then (ADCS_RESULT_INVALID_ARGUMENT, e)
  else
    let '(now, e) := adcs_monotonic_time_us e in
    (ADCS_RESULT_OK, e <| synchronized_boot_us := now |> <| synchronized_unix_us := time |>).

#[global] Instance stm32_environment : AdcsEnvironment environment := {|
  adcs_set_unix_time_us := set_unix_time_us;
  adcs_unix_time_us := get_unix_time_us;
  adcs_inject_simulator_faults := fun _ e => (ADCS_RESULT_UNAVAILABLE, e)
|}.
End Stm32.

(** ** The board *)

(** [adcs_command_t]: the type and the member of the union it selects. *)
Inductive adcs_parameter :=
  | ADCS_COMMAND_NONE
  | ADCS_COMMAND_SET_MODE (m : adcs_mode_t)
  | ADCS_COMMAND_SET_ATTITUDE (attitude : versor)
  | ADCS_COMMAND_SET_POINTING_VECTOR (body_axis inertial_direction : vec3)
  | ADCS_COMMAND_RESET_ESTIMATOR
  | ADCS_COMMAND_DISABLE_ACTUATORS (inhibited : Z)
  | ADCS_COMMAND_SET_UNIX_TIME (unix_time_sec : Z)
  | ADCS_COMMAND_SIMULATOR_FAULT (mask : Z)
  | ADCS_COMMAND_LEGACY_POSITION (position : Z)
  | ADCS_COMMAND_SET_MAGNETORQUER (axis direction : Z).

Record adcs_command_t := mk_command { c_sequence : Z; c_parameter : adcs_parameter }.

(** [magnetorquer_command_t] of [shared/interfaces/magnetorquer.h]. *)
#[projections(primitive)]
Record magnetorquer_command_t := mk_torquer { dipole_a_m2 : vec3; enabled : Z }.
Definition torquer_off : magnetorquer_command_t := mk_torquer vec_zero 0.

(** [b_queue] is [None] until the queue is created; [b_torquer] are the commands given to
    the magnetorquer driver, [b_executed] the commands the command task took,
    [b_halted] says that [board_shutdown] was called. *)
#[projections(primitive)]
Record adcs_board {E : Type} := mk_board {
  b_manager : adcs_manager_state_t;
  b_config : adcs_manager_config_t;
  b_faults : adcs_faults;
  b_controller : adcs_controller_t;
  b_queue : option (list adcs_command_t);
  b_reset_requested : Z;
  s_manual_override : Z;
  s_manual_command : magnetorquer_command_t;
  b_notified : option Z;
  b_env : E;
  b_acks : list (list Z);
  b_torquer : list magnetorquer_command_t;
  b_executed : list adcs_command_t;
  b_halted : bool
}.
Arguments adcs_board : clear implicits.

Definition manage {E} (f : adcs_manager_state_t -> adcs_manager_state_t) (b : adcs_board E) : adcs_board E :=
  b <| b_manager ::= f |>.

(** ** [control_task_set_manual_magnetorquer] *)

Definition set_axis (axis : Z) (x : f32) (v : vec3) : vec3 :=
  if axis =? 0 then Vec x (v1 v) (v2 v) else if axis =? 1 then Vec (v0 v) x (v2 v) else Vec (v0 v) (v1 v) x.

Definition control_task_set_manual_magnetorquer {E} (axis direction : Z) (b : adcs_board E) : adcs_board E :=
  if 2 <? axis then b
  else
    let val :=
      if 0 <? direction then lit 20 100 else if direction <? 0 then fneg (lit 20 100) else f0 in
    let dipole := set_axis axis val (dipole_a_m2 (s_manual_command b)) in
    let on := b2z (existsb (fun d => negb (feq d f0)) (vec_list dipole)) in
    b <| s_manual_command := mk_torquer dipole on |> <| s_manual_override := on |>.

(** ** [command_handler.c] *)

Definition CMD_MOVE_TO_POSITION : Z := 1.
Definition CMD_RESET : Z := 2.
Definition CMD_SHUTDOWN : Z := 3.
Definition CMD_POINT_TO_SUN : Z := 5.
Definition ADCS_WIRE_COMMAND_SET_MODE : Z := 64.
Definition ADCS_WIRE_COMMAND_SET_ATTITUDE : Z := 65.
Definition ADCS_WIRE_COMMAND_SET_POINTING_VECTOR : Z := 66.
Definition ADCS_WIRE_COMMAND_RESET_ESTIMATOR : Z := 67.
Definition ADCS_WIRE_COMMAND_SET_ACTUATOR_INHIBIT : Z := 68.
Definition ADCS_WIRE_COMMAND_SIMULATOR_FAULT : Z := 69.
Definition ADCS_WIRE_COMMAND_SET_MAGNETORQUER : Z := 70.
Definition COMMAND_QUEUE_LENGTH : Z := 8.

Inductive command_ack_status_t := ACK | NACK.
Inductive command_action_t := COMMAND_ACTION_NONE | COMMAND_ACTION_RESET | COMMAND_ACTION_SHUTDOWN.

#[export] Instance command_ack_status_eq_dec : EqDecision command_ack_status_t.
Proof. solve_decision. Defined.

(** Fields of the payload structures. *)
Definition get_le32 (data : list Z) (off : Z) : Z :=
  byte_at data off + 256 * byte_at data (off + 1) + 65536 * byte_at data (off + 2)
  + 16777216 * byte_at data (off + 3).
Definition get_le64 (data : list Z) (off : Z) : Z :=
  get_le32 data off + 4294967296 * get_le32 data (off + 4).
Definition to_i8 (v : Z) : Z := if v <? 128 then v else v - 256.
Definition to_i32 (v : Z) : Z := if v <? 2147483648 then v else v - 4294967296.
Definition to_i64 (v : Z) : Z := if v <? 9223372036854775808 then v else v - 18446744073709551616.
Definition get_float (data : list Z) (off : Z) : f32 := f32_of_bits (get_le32 data off).
Definition get_vec3 (data : list Z) (off : Z) : vec3 :=
  Vec (get_float data off) (get_float data (off + 4)) (get_float data (off + 8)).
Definition get_versor (data : list Z) (off : Z) : versor :=
  Versor (get_float data off) (get_float data (off + 4)) (get_float data (off + 8)) (get_float data (off + 12)).

Definition sizeof_command_envelope : Z := 8.

(** [command_task_send]. *)
Definition command_task_send {E} (c : adcs_command_t) (b : adcs_board E) : bool * adcs_board E :=
  match b_queue b with
  | None => (false, b)
  | Some q =>
      if len q <? COMMAND_QUEUE_LENGTH then (true, b <| b_queue := Some (q ++ [c]) |>)
      else (false, manage adcs_manager_note_dropped_message b)
  end.

Definition enqueue_command {E} (c : adcs_command_t) (b : adcs_board E) : command_ack_status_t * adcs_board E :=
  let '(sent, b) := command_task_send c b in (if sent then ACK else NACK, b).

Section Handler.
Context (stm32 : bool) {E : Type} `{AdcsEnvironment E} `{Libm}.
Implicit Types b : adcs_board E.

Definition decode_command (data : list Z) b : command_ack_status_t * command_action_t * adcs_board E :=
  let command_id := byte_at data 0 in
  let enqueue p :=
    let '(s, b) := enqueue_command (mk_command (get_le32 data 4) p) b in (s, COMMAND_ACTION_NONE, b) in
  let nack := (NACK, COMMAND_ACTION_NONE, b) in
  if command_id =? CMD_MOVE_TO_POSITION then
    if 12 <=? len data then enqueue (ADCS_COMMAND_LEGACY_POSITION (to_i32 (get_le32 data 8))) else nack
  else if command_id =? CMD_RESET then (ACK, COMMAND_ACTION_RESET, b)
  else if command_id =? CMD_SHUTDOWN then (ACK, COMMAND_ACTION_SHUTDOWN, b)
  else if command_id =? CMD_POINT_TO_SUN then enqueue (ADCS_COMMAND_SET_MODE ADCS_MODE_SUN_ACQUISITION)
  else if command_id =? CMD_TIME_SYNC then
    if 16 <=? len data then
      let unix_time_sec := to_i64 (get_le64 data 8) in
      if (unix_time_sec <=? 0) || (18446744073709551615 / 1000000 <? unix_time_sec) then nack
      else enqueue (ADCS_COMMAND_SET_UNIX_TIME unix_time_sec)
    else nack
  else if command_id =? ADCS_WIRE_COMMAND_SET_MODE then
    if 12 <=? len data then
      match mode_of_value (byte_at data 8) with
      | Some m =>
          if negb (mode_is_valid m) || bool_decide (m = ADCS_MODE_BOOT) then nack
          else enqueue (ADCS_COMMAND_SET_MODE m)
      | None => nack
      end
    else nack
  else if command_id =? ADCS_WIRE_COMMAND_SET_ATTITUDE then
    if 24 <=? len data then enqueue (ADCS_COMMAND_SET_ATTITUDE (get_versor data 8)) else nack
  else if command_id =? ADCS_WIRE_COMMAND_SET_POINTING_VECTOR then
    if 32 <=? len data
    then enqueue (ADCS_COMMAND_SET_POINTING_VECTOR (get_vec3 data 8) (get_vec3 data 20)) else nack
  else if command_id =? ADCS_WIRE_COMMAND_RESET_ESTIMATOR then enqueue ADCS_COMMAND_RESET_ESTIMATOR
  else if command_id =? ADCS_WIRE_COMMAND_SET_ACTUATOR_INHIBIT then
    if 12 <=? len data
    then enqueue (ADCS_COMMAND_DISABLE_ACTUATORS (b2z (truthy (byte_at data 8)))) else nack
  else if command_id =? ADCS_WIRE_COMMAND_SET_MAGNETORQUER then
    if 12 <=? len data then
      let axis := byte_at data 8 in
      let direction := to_i8 (byte_at data 9) in
      if (2 <? axis) || (direction <? -1) || (1 <? direction) then nack
      else enqueue (ADCS_COMMAND_SET_MAGNETORQUER axis direction)
    else nack
  else if command_id =? ADCS_WIRE_COMMAND_SIMULATOR_FAULT then
    if stm32 then nack
    else if 12 <=? len data then enqueue (ADCS_COMMAND_SIMULATOR_FAULT (get_le32 data 8)) else nack
  else nack.

(** [command_ack_t]; [padding] are the bytes between the id and the sequence number. *)
Definition ack_bytes (padding : list Z) (data : list Z) (status : command_ack_status_t) : list Z :=
  byte_at data 0 :: padding ++ prefix_of 4 (skip 4 data)
  ++ [match status with ACK => 0 | NACK => 1 end; 0; 0; 0].

Definition send_ack (ack : list Z) (buffered : bool) b : adcs_board E :=
  if buffered then b <| b_acks ::= fun l => l ++ [ack] |> else b.

(** The body of the loop for one packet, which arrived on port [dport].  [buffered]: a
    buffer for the acknowledgement was free; [connected], [notice]: the answers for a reset
    notice.  After a reset or a shutdown the loop does not go on. *)
Definition handle_packet (dport : Z) (data padding : list Z) (buffered connected notice : bool) b
    : adcs_board E :=
  if (dport =? 10) && (sizeof_command_envelope <=? len data) then
    let '(status, action, b) := decode_command data b in
    let b := send_ack (ack_bytes padding data status) buffered b in
    match action with
    | COMMAND_ACTION_RESET =>
        b <| b_faults ::= fault_management_trigger_reset RESET_REASON_WATCHDOG connected notice |>
    | COMMAND_ACTION_SHUTDOWN => b <| b_halted := true |>
    | COMMAND_ACTION_NONE => b
    end
  else b.

(** ** [command_task.c] *)

Definition COMMAND_DEFAULT_MAXIMUM_RATE_RAD_S : f32 := lit 8 100.
Definition COMMAND_PI_F : f32 := lit 314159265358979323846 100000000000000000000.

Definition legacy_quaternion (position : Z) : versor :=
  let angle := fdiv (fmul (fmodf (of_int position) (lit 360 1)) COMMAND_PI_F) (lit 180 1) in
  let half := fmul (lit 5 10) angle in
  Versor f0 f0 (fneg (sinf half)) (cosf half).

(** The notification also reaches the sensor, estimation and control tasks, which print it. *)
Definition dispatch_legacy_position (position : Z) b : adcs_board E :=
  match adcs_guidance_target_from_attitude ADCS_MODE_SLEWING (legacy_quaternion position)
          COMMAND_DEFAULT_MAXIMUM_RATE_RAD_S zero_target with
  | (ADCS_RESULT_OK, target) =>
      let b := manage (adcs_manager_set_guidance_target (Some target)) b in
      let b := manage (adcs_manager_set_legacy_position position) b in
      let b := manage (adcs_manager_request_mode (mode_value ADCS_MODE_SLEWING)) b in
      b <| b_notified := Some (u32 position) |>
  | _ => manage adcs_manager_note_rejected_command b
  end.

(** A guidance target from a command, and the request to slew to it. *)
Definition slew_to (r : adcs_result_t * adcs_guidance_target_t) b : adcs_board E :=
  match r with
  | (ADCS_RESULT_OK, target) =>
      manage (adcs_manager_request_mode (mode_value ADCS_MODE_SLEWING))
        (manage (adcs_manager_set_guidance_target (Some target)) b)
  | _ => manage adcs_manager_note_rejected_command b
  end.

Definition execute_command (c : adcs_command_t) b : adcs_board E :=
  let rejected := manage adcs_manager_note_rejected_command b in
  match c_parameter c with
  | ADCS_COMMAND_SET_MODE m => manage (adcs_manager_request_mode (mode_value m)) b
  | ADCS_COMMAND_SET_ATTITUDE q =>
      slew_to (adcs_guidance_target_from_attitude ADCS_MODE_SLEWING q
                 COMMAND_DEFAULT_MAXIMUM_RATE_RAD_S zero_target) b
  | ADCS_COMMAND_SET_POINTING_VECTOR axis direction =>
      slew_to (adcs_guidance_target_from_vector ADCS_MODE_SLEWING axis direction
                 COMMAND_DEFAULT_MAXIMUM_RATE_RAD_S zero_target) b
  | ADCS_COMMAND_RESET_ESTIMATOR => b <| b_reset_requested := 1 |>
  | ADCS_COMMAND_DISABLE_ACTUATORS inhibited => manage (adcs_manager_set_actuators_inhibited inhibited) b
  | ADCS_COMMAND_SET_UNIX_TIME unix_time_sec =>
      if 0 <? unix_time_sec then
        if unix_time_sec <=? 18446744073709551615 / 1000000 then
          match adcs_set_unix_time_us (unix_time_sec * 1000000) (b_env b) with
          | (ADCS_RESULT_OK, e) => b <| b_env := e |>
          | (_, e) => rejected <| b_env := e |>
          end
        else rejected
      else rejected
  | ADCS_COMMAND_SIMULATOR_FAULT mask =>
      match adcs_inject_simulator_faults mask (b_env b) with
      | (ADCS_RESULT_OK, e) => b <| b_env := e |>
      | (_, e) => rejected <| b_env := e |>
      end
  | ADCS_COMMAND_LEGACY_POSITION position => dispatch_legacy_position position b
  | ADCS_COMMAND_SET_MAGNETORQUER axis direction =>
      control_task_set_manual_magnetorquer axis direction b
  | ADCS_COMMAND_NONE => rejected
  end.

(** One round of [command_task]; it waits while the queue is empty. *)
Definition command_task_round b : adcs_board E :=
  match b_queue b with
  | Some (c :: q) => execute_command c (b <| b_queue := Some q |> <| b_executed ::= fun l => l ++ [c] |>)
  | _ => b
  end.
End Handler.

(** ** Theorems *)

(** What a packet asks for, as a table: a command, an action, or nothing that is valid. *)
Inductive wire_request := Request (p : adcs_parameter) | Action (a : command_action_t) | Invalid.

Definition wire_request_of (stm32 : bool) (data : list Z) : wire_request :=
  let need n r := if n <=? len data then r else Invalid in
  let arg := byte_at data 8 in
  match byte_at data 0 with
  | 1 => need 12 (Request (ADCS_COMMAND_LEGACY_POSITION (to_i32 (get_le32 data 8))))
  | 2 => Action COMMAND_ACTION_RESET
  | 3 => Action COMMAND_ACTION_SHUTDOWN
  | 4 => let t := to_i64 (get_le64 data 8) in
         need 16 (if (0 <? t) && (t <=? 18446744073709) then Request (ADCS_COMMAND_SET_UNIX_TIME t) else Invalid)
  | 5 => Request (ADCS_COMMAND_SET_MODE ADCS_MODE_SUN_ACQUISITION)
  | 64 => need 12 (match mode_of_value arg with
                   | Some ADCS_MODE_BOOT | Some ADCS_MODE_COUNT | None => Invalid
                   | Some m => Request (ADCS_COMMAND_SET_MODE m)
                   end)
  | 65 => need 24 (Request (ADCS_COMMAND_SET_ATTITUDE (get_versor data 8)))
  | 66 => need 32 (Request (ADCS_COMMAND_SET_POINTING_VECTOR (get_vec3 data 8) (get_vec3 data 20)))
  | 67 => Request ADCS_COMMAND_RESET_ESTIMATOR
  | 68 => need 12 (Request (ADCS_COMMAND_DISABLE_ACTUATORS (if arg =? 0 then 0 else 1)))
  | 69 => if stm32 then Invalid else need 12 (Request (ADCS_COMMAND_SIMULATOR_FAULT (get_le32 data 8)))
  | 70 => let d := to_i8 (byte_at data 9) in
          need 12 (if (arg <=? 2) && (-1 <=? d) && (d <=? 1)
                   then Request (ADCS_COMMAND_SET_MAGNETORQUER arg d) else Invalid)
  | _ => Invalid
  end.

Section Handler_theorems.
Context (stm32 : bool) {E : Type} `{AdcsEnvironment E} `{Libm}.
Implicit Types b : adcs_board E.

Lemma decode_command_spec data b :
  decode_command stm32 data b
  = match wire_request_of stm32 data with
    | Request p =>
        let '(s, b) := enqueue_command (mk_command (get_le32 data 4) p) b in (s, COMMAND_ACTION_NONE, b)
    | Action a => (ACK, a, b)
    | Invalid => (NACK, COMMAND_ACTION_NONE, b)
    end.
Proof.
  unfold decode_command, wire_request_of. generalize (byte_at data 0). intros id.
  destruct (Z.eqb_spec id CMD_MOVE_TO_POSITION) as [->|]; [by cbn; case_match|].
  destruct (Z.eqb_spec id CMD_RESET) as [->|]; [done|].
  destruct (Z.eqb_spec id CMD_SHUTDOWN) as [->|]; [done|].
  destruct (Z.eqb_spec id CMD_POINT_TO_SUN) as [->|]; [done|].
  destruct (Z.eqb_spec id CMD_TIME_SYNC) as [->|].
  { cbn [CMD_TIME_SYNC]. destruct (16 <=? len data); [|done]. set (t := to_i64 _). cbv zeta.
    change (18446744073709551615 / 1000000) with 18446744073709.
    rewrite (Z.leb_antisym 18446744073709 t), (Z.leb_antisym 0 t).
    destruct (0 <? t), (18446744073709 <? t); done. }
  destruct (Z.eqb_spec id ADCS_WIRE_COMMAND_SET_MODE) as [->|].
  { cbn [ADCS_WIRE_COMMAND_SET_MODE]. destruct (12 <=? len data); [|done].
    by destruct (mode_of_value (byte_at data 8)) as [[]|]. }
  destruct (Z.eqb_spec id ADCS_WIRE_COMMAND_SET_ATTITUDE) as [->|]; [by cbn; case_match|].
  destruct (Z.eqb_spec id ADCS_WIRE_COMMAND_SET_POINTING_VECTOR) as [->|]; [by cbn; case_match|].
  destruct (Z.eqb_spec id ADCS_WIRE_COMMAND_RESET_ESTIMATOR) as [->|]; [done|].
  destruct (Z.eqb_spec id ADCS_WIRE_COMMAND_SET_ACTUATOR_INHIBIT) as [->|].
  { cbn. unfold truthy, b2z. destruct (12 <=? len data); [|done]. by destruct (byte_at data 8 =? 0). }
  destruct (Z.eqb_spec id ADCS_WIRE_COMMAND_SET_MAGNETORQUER) as [->|].
  { cbn [ADCS_WIRE_COMMAND_SET_MAGNETORQUER]. destruct (12 <=? len data); [|done].
    set (d := to_i8 _). set (axis := byte_at data 8). cbv zeta.
    rewrite (Z.leb_antisym 2 axis), (Z.leb_antisym d (-1)), (Z.leb_antisym 1 d).
    by destruct (2 <? axis), (d <? -1), (1 <? d). }
  destruct (Z.eqb_spec id ADCS_WIRE_COMMAND_SIMULATOR_FAULT) as [->|].
  { cbn. destruct stm32; [done|]. by case_match. }
  destruct id as [|p|p]; [done| |done].
  do 7 (destruct p as [p|p|]; try done).
Qed.

Lemma handle_packet_spec data padding connected notice b q :
  sizeof_command_envelope <= len data -> b_queue b = Some q ->
  let b' := handle_packet stm32 10 data padding true connected notice b in
  let ack s := b <| b_acks ::= fun l => l ++ [ack_bytes padding data s] |> in
  b' = match wire_request_of stm32 data with
       | Request p =>
           if len q <? COMMAND_QUEUE_LENGTH
           then (ack ACK) <| b_queue := Some (q ++ [mk_command (get_le32 data 4) p]) |>
           else manage adcs_manager_note_dropped_message (ack NACK)
       | Action COMMAND_ACTION_RESET =>
           (ack ACK) <| b_faults ::= fault_management_trigger_reset RESET_REASON_WATCHDOG connected notice |>
       | Action COMMAND_ACTION_SHUTDOWN => (ack ACK) <| b_halted := true |>
       | Action COMMAND_ACTION_NONE => ack ACK
       | Invalid => ack NACK
       end.
Proof.
  intros Hlen Hq. cbv zeta. unfold handle_packet. rewrite (proj2 (Z.leb_le _ _) Hlen). cbn [andb Z.eqb].
  change (10 =? 10) with true. cbn [andb]. rewrite decode_command_spec.
  destruct (wire_request_of stm32 data) as [p|[]|]; try done.
  unfold enqueue_command, command_task_send. rewrite Hq. by destruct (len q <? COMMAND_QUEUE_LENGTH).
Qed.

(** C28. The command listener acknowledges exactly what it queues.  A packet for the command port
    with a complete envelope is answered with its command id and sequence number.  A valid
    request is queued as the last command and acknowledged if the queue has room, and
    otherwise refused, which only counts a dropped message; a reset or shutdown is
    acknowledged before it is done; any other packet is refused and changes nothing. *)
Theorem command_handler_exact data padding connected notice b q :
  sizeof_command_envelope <= len data -> b_queue b = Some q ->
  let b' := handle_packet stm32 10 data padding true connected notice b in
  let ack s := b <| b_acks ::= fun l => l ++ [ack_bytes padding data s] |> in
  b' = match wire_request_of stm32 data with
       | Request p =>
           if len q <? COMMAND_QUEUE_LENGTH
           then (ack ACK) <| b_queue := Some (q ++ [mk_command (get_le32 data 4) p]) |>
           else manage adcs_manager_note_dropped_message (ack NACK)
       | Action COMMAND_ACTION_RESET =>
           (ack ACK) <| b_faults ::= fault_management_trigger_reset RESET_REASON_WATCHDOG connected notice |>
       | Action COMMAND_ACTION_SHUTDOWN => (ack ACK) <| b_halted := true |>
       | Action COMMAND_ACTION_NONE => ack ACK
       | Invalid => ack NACK
       end.
Proof. exact (handle_packet_spec data padding connected notice b q). Qed.
End Handler_theorems.

(** *** Order *)

Inductive command_event :=
  | Packet (dport : Z) (data padding : list Z) (buffered connected notice : bool)
  | Execute.

Section Order.
Context (stm32 : bool) {E : Type} `{AdcsEnvironment E} `{Libm}.
Implicit Types b : adcs_board E.

Definition command_step (ev : command_event) b : adcs_board E :=
  match ev with
  | Packet dport data padding buffered connected notice =>
      handle_packet stm32 dport data padding buffered connected notice b
  | Execute => command_task_round b
  end.

(** The command that a packet adds to the queue. *)
Definition accepted (ev : command_event) b : list adcs_command_t :=
  match ev with
  | Packet dport data _ _ _ _ =>
      if (dport =? 10) && (sizeof_command_envelope <=? len data) then
        match wire_request_of stm32 data, b_queue b with
        | Request p, Some q =>
            if len q <? COMMAND_QUEUE_LENGTH then [mk_command (get_le32 data 4) p] else []
        | _, _ => []
        end
      else []
  | Execute => []
  end.

(** A run, with the accepted commands in order. *)
Definition command_run (evs : list command_event) b : adcs_board E * list adcs_command_t :=
  fold_left (fun '(b, l) ev => (command_step ev b, l ++ accepted ev b)) evs (b, []).

Lemma execute_command_queue c b :
  b_queue (execute_command c b) = b_queue b /\ b_executed (execute_command c b) = b_executed b.
Proof.
  unfold execute_command, slew_to, dispatch_legacy_position, control_task_set_manual_magnetorquer.
  destruct (c_parameter c); cbv zeta; repeat case_match; done.
Qed.

Lemma handle_packet_queue dport data padding buffered connected notice b q :
  b_queue b = Some q ->
  let ev := Packet dport data padding buffered connected notice in
  b_queue (command_step ev b) = Some (q ++ accepted ev b) /\ b_executed (command_step ev b) = b_executed b.
Proof.
  intros Hq. cbv zeta. unfold command_step, handle_packet, accepted. rewrite Hq.
  destruct (_ && _); [|by rewrite app_nil_r]. rewrite decode_command_spec.
  destruct (wire_request_of stm32 data) as [p|[]|];
    [|by destruct buffered; cbn; rewrite ?app_nil_r..].
  unfold enqueue_command, command_task_send. rewrite Hq.
  destruct (len q <? COMMAND_QUEUE_LENGTH), buffered; cbn; by rewrite ?app_nil_r.
Qed.

Lemma accepted_room ev b q :
  b_queue b = Some q -> len q <= COMMAND_QUEUE_LENGTH -> len (q ++ accepted ev b) <= COMMAND_QUEUE_LENGTH.
Proof.
  intros Hq Hl. unfold accepted. destruct ev; [|by rewrite app_nil_r].
  destruct (_ && _); [|by rewrite app_nil_r]. destruct (wire_request_of _ _); rewrite ?Hq, ?app_nil_r; try done.
  destruct (Z.ltb_spec (len q) COMMAND_QUEUE_LENGTH); [|by rewrite app_nil_r].
  rewrite len_app, len_cons, len_nil. lia.
Qed.

Lemma task_round_queue b q :
  b_queue b = Some q ->
  b_queue (command_task_round b) = Some (tail q)
  /\ b_executed (command_task_round b) = b_executed b ++ take 1 q.
Proof.
  intros Hq. unfold command_task_round. rewrite Hq. destruct q as [|c q].
  - by rewrite app_nil_r.
  - match goal with |- context [execute_command c ?b1] => destruct (execute_command_queue c b1) as [-> ->] end.
    by destruct q.
Qed.

Lemma drain n b q :
  b_queue b = Some q -> n = length q ->
  b_queue (Nat.iter n command_task_round b) = Some []
  /\ b_executed (Nat.iter n command_task_round b) = b_executed b ++ q.
Proof.
  revert b q. induction n as [|n IH]; intros b q Hq Hn.
  - destruct q; [|done]. by rewrite app_nil_r.
  - destruct q as [|c q]; [done|]. rewrite Nat.iter_succ_r.
    destruct (task_round_queue b _ Hq) as [Hq' He].
    destruct (IH _ _ Hq' ltac:(cbn in Hn |- *; lia)) as [-> ->]. split; [done|].
    rewrite He. cbn [take tail]. rewrite take_0, <- app_assoc. done.
Qed.

(** C25. Commands are executed in the order in which they were acknowledged, each once.  After any
    interleaving of packets and rounds of the command task, what was executed followed by
    what is still queued is exactly what was executed and queued before, followed by the
    acknowledged commands in order; the queue never holds more than eight, and as many
    rounds as it holds commands execute all of them. *)
Theorem commands_run_in_order evs b q :
  b_queue b = Some q -> len q <= COMMAND_QUEUE_LENGTH ->
  let '(b', acked) := command_run evs b in
  exists q',
    b_queue b' = Some q' /\ len q' <= COMMAND_QUEUE_LENGTH
    /\ b_executed b' ++ q' = b_executed b ++ q ++ acked
    /\ b_executed (Nat.iter (length q') command_task_round b') = b_executed b ++ q ++ acked.
Proof.
  intros Hq Hl.
  enough (let '(b', acked) := command_run evs b in
    exists q', b_queue b' = Some q' /\ len q' <= COMMAND_QUEUE_LENGTH
      /\ b_executed b' ++ q' = b_executed b ++ q ++ acked) as Hrun.
  { destruct (command_run evs b) as [b' acked]. destruct Hrun as (q' & Hq' & Hl' & Hs).
    exists q'. split_and!; [done..|]. destruct (drain (length q') b' q' Hq' eq_refl) as [_ ->]. done. }
  unfold command_run. induction evs as [|ev evs IH] using rev_ind.
  { exists q. cbn. by rewrite app_nil_r. }
  rewrite fold_left_app. cbn [fold_left]. destruct (fold_left _ _ _) as [b1 acked].
  destruct IH as (q1 & Hq1 & Hl1 & Hs). destruct ev as [dport data padding buffered connected notice|].
  - destruct (handle_packet_queue dport data padding buffered connected notice b1 q1 Hq1) as [H1 H2].
    exists (q1 ++ accepted (Packet dport data padding buffered connected notice) b1).
    split; [exact H1|split; [by apply accepted_room|]]. rewrite H2, !app_assoc, Hs, <- !app_assoc. done.
  - cbn [command_step accepted]. destruct (task_round_queue b1 q1 Hq1) as [H1 H2].
    exists (tail q1). split; [exact H1|split].
    + destruct q1; cbn [tail] in *; [done|rewrite len_cons in Hl1; lia].
    + rewrite H2, app_nil_r, <- Hs, <- app_assoc. by destruct q1 as [|c []].
Qed.
End Order.

(** ** Time synchronisation, from the on-board computer to the board's clock *)

Lemma le_bytes_4 v : Time.le_bytes 4 v = [u8 v; u8 (v / 256); u8 (v / 256 / 256); u8 (v / 256 / 256 / 256)].
Proof. reflexivity. Qed.

Lemma bytes_of_32 v :
  0 <= v < 4294967296 ->
  u8 v + 256 * u8 (v / 256) + 65536 * u8 (v / 256 / 256) + 16777216 * u8 (v / 256 / 256 / 256) = v.
Proof. intros. zlia. Qed.

Lemma bytes_of_high v :
  0 <= v < 9223372036854775808 ->
  u8 v + 256 * u8 (v / 256) + 65536 * u8 (v / 256 / 256) + 16777216 * u8 (v / 256 / 256 / 256)
  = v mod 4294967296.
Proof. intros. zlia. Qed.

(** The layout of a time-synchronisation command, as its receiver reads it. *)
Lemma time_sync_fields padding seq t :
  len padding = 3 -> 0 <= seq < 4294967296 -> 0 <= t < 9223372036854775808 ->
  let data := Time.time_sync_command padding seq t in
  len data = 16 /\ byte_at data 0 = 4 /\ get_le32 data 4 = seq /\ to_i64 (get_le64 data 8) = t.
Proof.
  intros Hp Hs Ht. unfold len in Hp. destruct padding as [|a [|b [|c [|]]]]; try (cbn in Hp; lia).
  cbv zeta. unfold Time.time_sync_command.
  change (Time.le_bytes 8 t) with (Time.le_bytes 4 t ++ Time.le_bytes 4 (t / 256 / 256 / 256 / 256)).
  rewrite !le_bytes_4. cbn [app]. set (data := _ :: _).
  assert (get_le32 data 8 = t mod 4294967296) as H8 by exact (bytes_of_high t Ht).
  assert (get_le32 data 12 = t / 256 / 256 / 256 / 256) as H12.
  { apply (bytes_of_32 (t / 256 / 256 / 256 / 256)).
    rewrite !Z.div_div by lia. change (256 * 256 * 256 * 256) with 4294967296. zlia. }
  split_and!; [done|done|exact (bytes_of_32 seq Hs)|].
  unfold get_le64. change (8 + 4) with 12. rewrite H8, H12, !Z.div_div by lia.
  change (256 * 256 * 256 * 256) with 4294967296.
  rewrite Z.add_comm, <- Z_div_mod_eq_full. unfold to_i64. by rewrite (proj2 (Z.ltb_lt _ _)) by lia.
Qed.

Section Clock.
Context `{Libm}.
Implicit Types b : adcs_board Stm32.environment.

Lemma clock_arithmetic us ms k d :
  0 <= us -> 0 <= ms -> 0 <= d < 4294967296 -> 0 <= k < 4294967296 ->
  us + d * 1000 < 18446744073709551616 -> (ms + d) * 1000 < 18446744073709551616 ->
  u64 (us + u64 (u64 (u64 (ms + u32 (u32 (k + d) - k)) * 1000) - u64 (ms * 1000))) = us + d * 1000.
Proof.
  intros. assert (u32 (u32 (k + d) - k) = d) as -> by zlia. unfold u64.
  rewrite (Z.mod_small (ms + d)), !(Z.mod_small (_ * 1000)), (Z.mod_small (_ - _)) by lia.
  rewrite Z.mod_small; lia.
Qed.

Lemma clock_runs t e d :
  0 < t -> t * 1000000 <= 18446744073709551615 - 315576000000000 ->
  0 <= d < 315576000000 -> 0 <= Stm32.tick e < 4294967296 -> d < 4294967296 ->
  0 <= Stm32.elapsed_ms e -> (Stm32.elapsed_ms e + 4294967296 + d) * 1000 < 18446744073709551616 ->
  let '(r, e') := Stm32.set_unix_time_us (t * 1000000) e in
  r = ADCS_RESULT_OK
  /\ fst (Stm32.get_unix_time_us (e' <| Stm32.tick ::= fun n => u32 (n + d) |>)) = t * 1000000 + d * 1000.
Proof.
  intros Ht Hmax Hd Htick Hd32 He Hfit. unfold Stm32.set_unix_time_us.
  rewrite (proj2 (Z.eqb_neq _ _)) by lia. rewrite (proj2 (Z.ltb_ge _ _)) by lia. cbn [orb].
  unfold Stm32.adcs_monotonic_time_us. cbv zeta.
  set (ms := u64 (Stm32.elapsed_ms e + u32 (Stm32.tick e - Stm32.previous_ms e))).
  assert (0 <= ms < Stm32.elapsed_ms e + 4294967296) as Hms by (subst ms; zlia).
  split; [done|]. cbn. unfold Stm32.get_unix_time_us, Stm32.adcs_monotonic_time_us. cbn.
  fold ms. rewrite (proj2 (Z.eqb_neq _ _)) by lia.
  apply clock_arithmetic; lia.
Qed.

Lemma execute_time seq t b :
  0 < t <= 18446744073709 ->
  execute_command (mk_command seq (ADCS_COMMAND_SET_UNIX_TIME t)) b
  = match Stm32.set_unix_time_us (t * 1000000) (b_env b) with
    | (ADCS_RESULT_OK, e) => b <| b_env := e |>
    | (_, e) => (manage adcs_manager_note_rejected_command b) <| b_env := e |>
    end.
Proof.
  intros Ht. unfold execute_command. cbn [c_parameter]. rewrite (proj2 (Z.ltb_lt 0 t)) by lia.
  change (18446744073709551615 / 1000000) with 18446744073709. by rewrite (proj2 (Z.leb_le _ _)) by lia.
Qed.

(** A time broadcast of the on-board computer sets the clock of the board.  The
    time-synchronisation command that the Time role sends (and that the Commands role
    relays unchanged) is acknowledged under its own sequence number; the command task then
    sets the clock, which [d] milliseconds later shows the broadcast time plus [d]. *)
Theorem time_sync_sets_board_clock padding seq t d b connected notice :
  len padding = 3 -> 0 <= seq < 4294967296 -> 0 < t ->
  t * 1000000 <= 18446744073709551615 - 315576000000000 ->
  b_queue b = Some [] -> 0 <= Stm32.tick (b_env b) < 4294967296 -> 0 <= d < 4294967296 ->
  0 <= Stm32.elapsed_ms (b_env b) ->
  (Stm32.elapsed_ms (b_env b) + 4294967296 + d) * 1000 < 18446744073709551616 ->
  let data := Time.time_sync_command padding seq t in
  let b1 := handle_packet true 10 data padding true connected notice b in
  let b2 := command_task_round b1 in
  b_acks b1 = b_acks b ++ [ack_bytes padding data ACK]
  /\ b_queue b2 = Some [] /\ b_executed b2 = b_executed b ++ [mk_command seq (ADCS_COMMAND_SET_UNIX_TIME t)]
  /\ b_manager b2 = b_manager b
  /\ fst (adcs_unix_time_us ((b_env b2) <| Stm32.tick ::= fun n => u32 (n + d) |>)) = t * 1000000 + d * 1000.
Proof.
  intros Hp Hs Ht Hmax Hq Htick Hd He Hfit. cbv zeta.
  destruct (time_sync_fields padding seq t Hp Hs ltac:(lia)) as (Hlen & H0 & H4 & H8).
  set (data := Time.time_sync_command padding seq t) in *.
  assert (wire_request_of true data = Request (ADCS_COMMAND_SET_UNIX_TIME t)) as Hreq.
  { unfold wire_request_of. rewrite H0, H8, Hlen. change (16 <=? 16) with true. cbv beta iota zeta.
    rewrite !(proj2 (Z.ltb_lt _ _)), !(proj2 (Z.leb_le _ _)) by lia. done. }
  rewrite (handle_packet_spec true data padding connected notice b []) by (rewrite ?Hlen; done).
  rewrite Hreq, H4. change (len [] <? COMMAND_QUEUE_LENGTH) with true. cbv iota.
  split; [reflexivity|]. set (c := mk_command _ _).
  match goal with |- context [command_task_round ?b1] =>
    change (command_task_round b1)
      with (execute_command c (b1 <| b_queue := Some [] |> <| b_executed ::= fun l => l ++ [c] |>))
  end.
  unfold c. rewrite execute_time by lia.
  match goal with |- context [Stm32.set_unix_time_us _ ?e] => change e with (b_env b) end.
  pose proof (clock_runs t (b_env b) d Ht Hmax ltac:(lia) Htick ltac:(lia) He Hfit) as Hclock.
  destruct (Stm32.set_unix_time_us (t * 1000000) (b_env b)) as [r e']. destruct Hclock as [-> Hc].
  split_and!; [reflexivity|reflexivity|reflexivity|exact Hc].
Qed.
End Clock.

(** *** A concrete board *)

Definition idle_env : Stm32.environment := Stm32.mk_environment 5000 4000 4000 0 0.

Definition idle_faults : adcs_faults :=
  mk_faults default_fault_config 0 1 (mk_time 0 0) [] 0.

Definition idle_board : adcs_board Stm32.environment :=
  mk_board _ adcs_manager_init default_config idle_faults (adcs_controller_init controller_config)
    (Some []) 0 0 torquer_off None idle_env [] [] [] false.

Lemma command_handler_exact_witness :
  let b' := handle_packet true 10 [64; 0; 0; 0; 9; 0; 0; 0; 6; 0; 0; 0] [0; 0; 0] true true true idle_board in
  b_queue b' = Some [mk_command 9 (ADCS_COMMAND_SET_MODE ADCS_MODE_SLEWING)]
  /\ b_acks b' = [[64; 0; 0; 0; 9; 0; 0; 0; 0; 0; 0; 0]].
Proof.
  cbv zeta.
  rewrite (command_handler_exact true [64; 0; 0; 0; 9; 0; 0; 0; 6; 0; 0; 0] [0; 0; 0] true true idle_board []
    ltac:(discriminate) eq_refl).
  split; reflexivity.
Defined.

Lemma commands_run_in_order_witness :
  let evs := [Packet 10 [5; 0; 0; 0; 1; 0; 0; 0] [0; 0; 0] true true true;
              Packet 10 [67; 0; 0; 0; 2; 0; 0; 0] [0; 0; 0] true true true; Execute] in
  exists q', b_queue (fst (command_run (H0 := flat_libm) true evs idle_board)) = Some q'
    /\ b_executed (fst (command_run (H0 := flat_libm) true evs idle_board)) ++ q'
       = [mk_command 1 (ADCS_COMMAND_SET_MODE ADCS_MODE_SUN_ACQUISITION);
          mk_command 2 ADCS_COMMAND_RESET_ESTIMATOR].
Proof.
  cbv zeta.
  pose proof (commands_run_in_order (H0 := flat_libm) true
    [Packet 10 [5; 0; 0; 0; 1; 0; 0; 0] [0; 0; 0] true true true;
     Packet 10 [67; 0; 0; 0; 2; 0; 0; 0] [0; 0; 0] true true true; Execute] idle_board [] eq_refl
    ltac:(discriminate)) as H.
  destruct (command_run _ _ _) as [b' acked] eqn:E. destruct H as (q' & Hq & _ & Hs & _).
  exists q'. split; [exact Hq|].
  cbn [fst]. rewrite Hs. apply (f_equal snd) in E. cbn [snd] in E. rewrite <- E. reflexivity.
Defined.

Lemma time_sync_sets_board_clock_witness :
  let data := Time.time_sync_command [0; 0; 0] 7 1750000000 in
  let b2 := command_task_round (H0 := flat_libm) (handle_packet true 10 data [0; 0; 0] true true true idle_board) in
  fst (adcs_unix_time_us ((b_env b2) <| Stm32.tick ::= fun n => u32 (n + 20) |>)) = 1750000000020000.
Proof.
  cbv zeta.
  destruct (time_sync_sets_board_clock (H := flat_libm) [0; 0; 0] 7 1750000000 20 idle_board true true)
    as (_ & _ & _ & _ & H); try done; try (cbn; lia).
Defined.
