(* ===== verification/AdcsTasks.v ===== *)
(** The periodic tasks of the attitude control board
    ([apps/adcs/Application/src/tasks]): sensor, control and housekeeping, and all tasks
    together as a step relation on [adcs_board].

    The control task is two steps, the update of the manager and the actuation from a
    snapshot, and so is housekeeping (reading, then reporting): other tasks run in between.
    The magnetorquer driver is the class [Magnetorquer]. *)

From S2P Require Import Prelude Float32 AdcsMath AdcsControl AdcsManager AdcsFault AdcsCommand ObcProgress.

(** [shared/interfaces/magnetorquer.h]: whether the driver accepted the command. *)
Class Magnetorquer (E : Type) := magnetorquer_set : magnetorquer_command_t -> E -> bool * E.

(** What the sensor drivers answered, [None] for a failed read. *)
Record sensor_readings := mk_readings {
  imu_sample : option (Z * vec3 * vec3);
  magnetometer_sample : option vec3;
  sun_sample : option (Z * vec3 * f32)
}.

Section Tasks.
Context (stm32 : bool) {E : Type} `{AdcsEnvironment E} `{Magnetorquer E} `{Libm}.
Implicit Types b : adcs_board E.

(** ** [sensor_task.c] *)

(** One round: [sequence] is the new value of [sensor_sequence], [now_us] the time,
    [waiting] whether the estimation task has not taken the packet before. *)
Definition sensor_packet (sequence now_us : Z) (r : sensor_readings) : adcs_sensor_packet_t :=
  let p := zero_sensors <| sp_sequence := sequence |> <| sp_timestamp_us := now_us |> in
  let p :=
    match imu_sample r with
    | Some (timestamp_us, rate, acceleration) =>
        p <| sp_timestamp_us := timestamp_us |> <| sp_angular_rate_rad_s := rate |>
          <| sp_acceleration_m_s2 := acceleration |>
          <| sp_valid_mask ::= fun m =>
               Z.lor m (Z.lor ADCS_SENSOR_VALID_GYROSCOPE ADCS_SENSOR_VALID_ACCELEROMETER) |>
    | None => p
    end in
  let p :=
    match magnetometer_sample r with
    | Some field =>
        p <| sp_magnetic_field_t := field |>
          <| sp_valid_mask ::= fun m => Z.lor m ADCS_SENSOR_VALID_MAGNETOMETER |>
    | None => p
    end in
  match sun_sample r with
  | Some (visible, vector, irradiance) =>
      if truthy visible
      then p <| sp_sun_vector_body := vector |> <| sp_sun_irradiance_w_m2 := irradiance |>
             <| sp_valid_mask ::= fun m => Z.lor m ADCS_SENSOR_VALID_SUN |>
      else p
  | None => p
  end.

Definition sensor_round (sequence now_us : Z) (r : sensor_readings) (waiting : bool) b : adcs_board E :=
  let b := manage (adcs_manager_set_sensors stm32 (Some (sensor_packet sequence now_us r))) b in
  if waiting then manage adcs_manager_note_dropped_message b else b.

(** ** [control_task.c] *)

Definition control_period_s : f32 := fdiv (of_int 50) (lit 1000 1).

Definition control_update (now_us : Z) b : adcs_board E :=
  manage (adcs_manager_update stm32 (b_config b) (fault_management_get_active (b_faults b)) now_us) b.

(** The command from the control law and the output it is reported with. *)
Definition law_command (snapshot : adcs_manager_state_t) (r : adcs_result_t) (output : adcs_control_output_t)
    : magnetorquer_command_t * adcs_control_output_t :=
  if bool_decide (r = ADCS_RESULT_OK) && (actuators_inhibited snapshot =? 0)
     && truthy (co_actuators_enabled output)
  then (mk_torquer (co_requested_dipole_a_m2 output) 1, output)
  else
    (torquer_off,
     output <| co_actuators_enabled := 0 |> <| co_requested_dipole_a_m2 := vec_zero |>).

(** From the snapshot to the command of the control law. *)
Definition control_law b : magnetorquer_command_t * adcs_control_output_t * adcs_board E :=
  let snapshot := b_manager b in
  let '(r, output, controller) :=
    adcs_controller_update (mode snapshot) (Some (guidance_target snapshot)) (latest_sensors snapshot)
      (latest_attitude snapshot) control_period_s (b_controller b) in
  let output :=
    output <| co_source_mode := mode snapshot |>
           <| co_pointing_error_valid :=
                b2z (bool_decide (r = ADCS_RESULT_OK)
                     && bool_decide (mode snapshot = ADCS_MODE_SUN_ACQUISITION
                                     \/ mode snapshot = ADCS_MODE_SUN_POINTING)
                     && (actuators_inhibited snapshot =? 0)) |> in
  let b := b <| b_controller := controller |> in
  (law_command snapshot r output,
   if negb (bool_decide (r = ADCS_RESULT_OK)) && negb (bool_decide (idle_mode (mode snapshot)))
   then manage adcs_manager_note_controller_error b else b).

(** The manual override replaces the command of the law. *)
Definition override_command b (command : magnetorquer_command_t) (output : adcs_control_output_t)
    : magnetorquer_command_t * adcs_control_output_t :=
  if truthy (s_manual_override b)
  then
    let command := s_manual_command b in
    (command, output <| co_actuators_enabled := enabled command |>
                     <| co_requested_dipole_a_m2 := dipole_a_m2 command |>)
  else (command, output).

(** The command goes to the driver, the output to the manager. *)
Definition drive (command : magnetorquer_command_t) (output : adcs_control_output_t) b : adcs_board E :=
  let '(ok, env) := magnetorquer_set command (b_env b) in
  let b := b <| b_env := env |> <| b_torquer ::= fun l => l ++ [command] |> in
  if ok then manage (adcs_manager_set_control_output (Some output)) b
  else
    manage (adcs_manager_set_control_output (Some (output <| co_actuators_enabled := 0 |>)))
      (b <| b_faults ::= fault_management_report ADCS_FAULT_ACTUATOR |>).

(** The loop body after the update of the manager. *)
Definition control_actuate b : adcs_board E :=
  let '(command, output, b) := control_law b in
  let '(command, output) := override_command b command output in
  drive command output b.

Definition control_round (now_us : Z) b : adcs_board E := control_actuate (control_update now_us b).

(** ** [housekeeping_task.c] *)

Definition ALL_RECOVERABLE_FAULTS : Z := ADCS_FAULT_ALL.

(** What a round reads before it writes. *)
Record housekeeping_reading := mk_reading {
  hk_snapshot : adcs_manager_state_t;
  hk_now_us : Z;
  hk_observed : Z;
  hk_latched : Z
}.

Definition housekeeping_read (now_us : Z) b : housekeeping_reading :=
  let s := b_manager b in
  mk_reading s now_us
    (fault_management_evaluate_adcs (Some (latest_sensors s)) (Some (latest_attitude s))
       (Some (latest_control s)) now_us (b_faults b))
    (fault_management_get_active (b_faults b)).

Definition no_bits (faults bits : Z) : Z := b2z (Z.land faults bits =? 0).

(** [margin] is [minimum_stack_margin()], [pet] the time of the pet. *)
Definition housekeeping_write (r : housekeeping_reading) (margin : f32) (pet : timespec) b : adcs_board E :=
  let ft := fault_management_clear
    (Z.ldiff (Z.land (hk_latched r) ALL_RECOVERABLE_FAULTS) (hk_observed r)) (b_faults b) in
  let ft := if hk_observed r =? ADCS_FAULT_NONE then ft else fault_management_report (hk_observed r) ft in
  let active := fault_management_get_active ft in
  let h := (health (hk_snapshot r))
    <| he_timestamp_us := hk_now_us r |> <| he_active_faults := active |>
    <| he_sensors_healthy := no_bits active (Z.lor ADCS_FAULT_SENSOR_STALE ADCS_FAULT_SENSOR_RANGE) |>
    <| he_estimator_healthy := no_bits active ADCS_FAULT_ATTITUDE_INVALID |>
    <| he_actuators_healthy := no_bits active ADCS_FAULT_ACTUATOR |>
    <| he_minimum_stack_margin_words := margin |> in
  let b := b <| b_faults := ft |> in
  let b := manage (adcs_manager_set_health (Some h)) b in
  let b := control_update (hk_now_us r) b in
  b <| b_faults ::= fault_management_pet pet |>.

Definition housekeeping_round (now_us : Z) (margin : f32) (pet : timespec) b : adcs_board E :=
  housekeeping_write (housekeeping_read now_us b) margin pet b.
End Tasks.

(** ** Well-formed managers *)

Definition u32_ok (v : Z) : Prop := 0 <= v < 4294967296.

Lemma u32_is_ok v : u32_ok (u32 v).
Proof. unfold u32_ok. zlia. Qed.
Lemma u32_ok_0 : u32_ok 0.
Proof. unfold u32_ok. lia. Qed.
#[export] Hint Resolve u32_is_ok u32_ok_0 : flight.

Definition target_wf (t : adcs_guidance_target_t) : Prop :=
  mode_is_valid (gt_mode t) = true /\ isfinite (gt_maximum_rate_rad_s t) = true
  /\ flt f0 (gt_maximum_rate_rad_s t) = true.

Definition counters_wf (h : adcs_health_t) : Prop :=
  u32_ok (he_rejected_commands h) /\ u32_ok (he_dropped_messages h) /\ u32_ok (he_estimator_resets h)
  /\ u32_ok (he_controller_errors h) /\ u32_ok (he_mode_transitions h).

Definition manager_wf (st : adcs_manager_state_t) : Prop :=
  initialized st = 1 /\ mode_is_valid (mode st) = true
  /\ mode_is_valid (requested_mode st) = true /\ requested_mode st <> ADCS_MODE_BOOT
  /\ (actuators_inhibited st = 0 \/ actuators_inhibited st = 1)
  /\ u32_ok (stable_cycles st) /\ counters_wf (health st) /\ target_wf (guidance_target st).

Lemma target_from_vector_wf m axis direction rate t :
  adcs_guidance_target_from_vector m axis direction rate zero_target = (ADCS_RESULT_OK, t) -> target_wf t.
Proof.
  unfold adcs_guidance_target_from_vector. destruct (_ || _) eqn:E; [done|]. cbv zeta.
  rewrite !orb_false_iff, !negb_false_iff in E. destruct E as [[Hm Hr] Hp].
  intros H. repeat case_match; simplify_eq. split_and!; [done..|]. cbn.
  apply fle_false; [by apply isfinite_not_nan|done|done].
Qed.

Lemma target_from_attitude_wf m q rate t :
  adcs_guidance_target_from_attitude m q rate zero_target = (ADCS_RESULT_OK, t) -> target_wf t.
Proof.
  unfold adcs_guidance_target_from_attitude. destruct (_ || _) eqn:E; [done|]. cbv zeta.
  rewrite !orb_false_iff, !negb_false_iff in E. destruct E as [[Hm Hr] Hp].
  intros H. repeat case_match; simplify_eq. split_and!; [done..|]. cbn.
  apply fle_false; [by apply isfinite_not_nan|done|done].
Qed.

Lemma enter_mode_wf m st : mode_is_valid m = true -> manager_wf st -> manager_wf (enter_mode_locked m st).
Proof.
  intros Hm (Hi & Ho & Hr & Hb & Ha & Hs & Hc & Ht). unfold enter_mode_locked. case_decide; [done|].
  destruct Hc as (? & ? & ? & ? & ?). split_and!; try done; cbn; auto with flight.
  unfold counters_wf. cbn. split_and!; auto with flight.
Qed.

Lemma stable_wf (f : Z -> Z) st : (forall n, u32_ok (f n)) -> manager_wf st -> manager_wf (st <| stable_cycles ::= f |>).
Proof. intros Hf (Hi & Ho & Hr & Hb & Ha & Hs & Hc & Ht). split_and!; try done; apply Hf. Qed.

Lemma request_wf m st :
  mode_is_valid m = true -> m <> ADCS_MODE_BOOT -> manager_wf st -> manager_wf (st <| requested_mode := m |>).
Proof. intros Hm Hb (Hi & Ho & Hr & _ & Ha & Hs & Hc & Ht). by split_and!. Qed.

Lemma health_wf (f : adcs_health_t -> adcs_health_t) st :
  (forall h, counters_wf h -> counters_wf (f h)) -> manager_wf st -> manager_wf (st <| health ::= f |>).
Proof. intros Hf (Hi & Ho & Hr & Hb & Ha & Hs & Hc & Ht). split_and!; try done; by apply Hf. Qed.

Lemma target_wf_set t st : target_wf t -> manager_wf st -> manager_wf (st <| guidance_target := t |>).
Proof. intros Hw (Hi & Ho & Hr & Hb & Ha & Hs & Hc & Ht). split_and!; try done; apply Hw. Qed.

Lemma refresh_wf st : manager_wf st -> manager_wf (refresh_builtin_target_locked st).
Proof.
  intros Hw. unfold refresh_builtin_target_locked. cbv zeta.
  assert (forall m axis direction rate (a b : bool),
    a && b && bool_decide (fst (adcs_guidance_target_from_vector m axis direction rate zero_target)
      = ADCS_RESULT_OK) = true ->
    target_wf (snd (adcs_guidance_target_from_vector m axis direction rate zero_target))) as Ht.
  { intros m axis direction rate a b. rewrite !andb_true_iff, bool_decide_eq_true. intros [_ E].
    destruct (adcs_guidance_target_from_vector m axis direction rate zero_target) as [r t] eqn:Et.
    cbn in E |- *. subst r. by eapply target_from_vector_wf. }
  case_match eqn:E1; [apply target_wf_set; [by eapply Ht|done]|].
  case_match eqn:E2; [apply target_wf_set; [by eapply Ht|done]|done].
Qed.

Lemma mode_update_wf stm32 cfg active now st :
  manager_wf st -> manager_wf (adcs_manager_update stm32 cfg active now st).
Proof.
  intros Hw0. unfold adcs_manager_update. case_match; [done|].
  set (st1 := st <| health ::= _ |>). assert (manager_wf st1) as Hw by (by apply health_wf).
  clearbody st1. clear Hw0. cbv zeta.
  case_match; [by apply refresh_wf, enter_mode_wf|]. case_match; [done|].
  set (st2 := if decide _ then _ else _).
  assert (manager_wf st2) as Hw2 by (subst st2; case_decide; [by apply enter_mode_wf|done]).
  clearbody st2. clear Hw. repeat (case_match; [by apply enter_mode_wf|]).
  generalize (adcs_vector_norm (sp_angular_rate_rad_s (latest_sensors st2))). intros rate.
  apply refresh_wf.
  assert (manager_wf (choose_mode stm32 cfg now rate st2)) as Hw3.
  { unfold choose_mode. pose proof Hw2 as (_ & _ & Hr & _).
    repeat case_match; try done; by apply enter_mode_wf. }
  revert Hw3. generalize (choose_mode stm32 cfg now rate st2). clear. intros st Hw.
  pose proof Hw as (_ & _ & Hr & _). unfold mode_step. case_match; try done.
  - unfold safe_step. repeat case_match; try done; by apply enter_mode_wf.
  - unfold detumble_step. case_match; [|by apply (stable_wf (fun _ => 0)); auto with flight].
    cbv zeta. assert (manager_wf (st <| stable_cycles ::= fun n => u32 (n + 1) |>)) as Hs
      by (apply stable_wf; auto with flight).
    repeat case_match; try done; by apply enter_mode_wf.
  - unfold sun_acquisition_step. cbv zeta.
    assert (manager_wf (st <| stable_cycles := 0 |>)) as H0 by (apply stable_wf; auto with flight).
    repeat case_match; try done.
    + apply enter_mode_wf; [done|]. apply request_wf; [done..|]. apply (stable_wf (fun n => u32 (n + 1))); auto with flight.
    + apply (stable_wf (fun n => u32 (n + 1))); auto with flight.
  - unfold slewing_step. case_match; [|done]. apply enter_mode_wf; [done|]. by apply request_wf.
Qed.

(** ** All tasks together *)

Inductive adcs_event :=
  | Command (ev : command_event)
  | Sense (sequence now_us : Z) (r : sensor_readings) (waiting : bool)
  | Estimate (attitude : adcs_attitude_state_t)
  | Refer (orbit : adcs_orbit_state_t) (references : adcs_reference_vectors_t)
  | Update (now_us : Z)
  | Actuate
  | Read_health (now_us : Z)
  | Write_health (margin : f32) (pet : timespec)
  | Watch (now : timespec) (connected buffered : bool)
  | Drop.

(** The board and what housekeeping has read in its current round. *)
Record adcs_system {E : Type} := mk_system { s_board : adcs_board E; s_reading : option housekeeping_reading }.
Arguments adcs_system : clear implicits.

Section System.
Context (stm32 : bool) {E : Type} `{AdcsEnvironment E} `{Magnetorquer E} `{Libm}.
Implicit Types b : adcs_board E.

Definition board_event (ev : adcs_event) b : adcs_board E :=
  match ev with
  | Command ev => command_step stm32 ev b
  | Sense sequence now_us r waiting => sensor_round stm32 sequence now_us r waiting b
  | Estimate attitude => manage (adcs_manager_set_attitude (Some attitude)) b
  | Refer orbit references => manage (adcs_manager_set_references (Some orbit) (Some references)) b
  | Update now_us => control_update stm32 now_us b
  | Actuate => control_actuate b
  | Watch now connected buffered => b <| b_faults ::= watchdog_round now connected buffered |>
  | Drop => manage adcs_manager_note_dropped_message b
  | Read_health _ | Write_health _ _ => b
  end.

Definition system_event (ev : adcs_event) (s : adcs_system E) : adcs_system E :=
  match ev with
  | Read_health now_us => mk_system E (s_board s) (Some (housekeeping_read now_us (s_board s)))
  | Write_health margin pet =>
      match s_reading s with
      | Some r => mk_system E (housekeeping_write stm32 r margin pet (s_board s)) None
      | None => s
      end
  | _ => mk_system E (board_event ev (s_board s)) (s_reading s)
  end.

(** The board when its tasks start. *)
Definition adcs_start (now : timespec) (transport : Z) (env : E) : adcs_system E :=
  mk_system E
    (mk_board E adcs_manager_init default_config
       (fault_management_init now (mk_faults default_fault_config 0 transport now [] 0))
       (adcs_controller_init controller_config) (Some []) 0 0 torquer_off None env [] [] [] false)
    None.

Inductive adcs_reachable (s0 : adcs_system E) : adcs_system E -> Prop :=
  | Reach_start : adcs_reachable s0 s0
  | Reach_step s ev : adcs_reachable s0 s -> adcs_reachable s0 (system_event ev s).

(** A dipole axis the ground can command by hand. *)
Definition manual_axis (d : f32) : Prop := d = f0 \/ d = lit 20 100 \/ d = fneg (lit 20 100).
Definition manual_wf b : Prop :=
  Forall manual_axis (vec_list (dipole_a_m2 (s_manual_command b)))
  /\ s_manual_override b = enabled (s_manual_command b).

Definition only_faults (v : Z) : Prop := Z.ldiff v ADCS_FAULT_ALL = 0.

Definition board_wf b : Prop :=
  manager_wf (b_manager b) /\ b_config b = default_config /\ only_faults (active_faults (b_faults b))
  /\ (exists q, b_queue b = Some q /\ len q <= COMMAND_QUEUE_LENGTH)
  /\ ct_config (b_controller b) = controller_config /\ manual_wf b.

Lemma manage_wf f b : manager_wf (f (b_manager b)) -> board_wf b -> board_wf (manage f b).
Proof. intros Hf (_ & Hc & Hft & Hq & Hct & Hm). by split_and!. Qed.

Lemma inhibited_wf v st : manager_wf st -> manager_wf (adcs_manager_set_actuators_inhibited v st).
Proof.
  intros (Hi & Ho & Hr & Hb & _ & Hs & Hc & Ht). split_and!; try done. cbn. destruct (truthy v); auto.
Qed.

Lemma reject_wf st : manager_wf st -> manager_wf (adcs_manager_note_rejected_command st).
Proof.
  apply health_wf. intros h (? & ? & ? & ? & ?). unfold counters_wf. cbn. split_and!; auto with flight.
Qed.

Lemma dropped_wf st : manager_wf st -> manager_wf (adcs_manager_note_dropped_message st).
Proof.
  apply health_wf. intros h (? & ? & ? & ? & ?). unfold counters_wf. cbn. split_and!; auto with flight.
Qed.

Lemma controller_error_wf st : manager_wf st -> manager_wf (adcs_manager_note_controller_error st).
Proof.
  apply health_wf. intros h (? & ? & ? & ? & ?). unfold counters_wf. cbn. split_and!; auto with flight.
Qed.

Lemma request_mode_wf v st : manager_wf st -> manager_wf (adcs_manager_request_mode v st).
Proof.
  intros Hw. unfold adcs_manager_request_mode. destruct (mode_of_value v) as [m|]; [|by apply reject_wf].
  destruct (_ && _) eqn:E2; [|by apply reject_wf]. apply andb_true_iff in E2 as [Hm Hb].
  rewrite negb_true_iff, bool_decide_eq_false in Hb. by apply request_wf.
Qed.

Lemma guidance_wf t st : manager_wf st -> manager_wf (adcs_manager_set_guidance_target t st).
Proof.
  intros Hw. unfold adcs_manager_set_guidance_target. destruct t as [t|]; [|by apply reject_wf].
  destruct (_ || _) eqn:E2; [by apply reject_wf|].
  rewrite !orb_false_iff, !negb_false_iff in E2. destruct E2 as [[Hm Hr] Hp].
  destruct (adcs_quaternion_normalize _ _) as [r q]. destruct r; try by apply reject_wf.
  apply target_wf_set; [|done]. split_and!; [done|done|].
  apply fle_false; [by apply isfinite_not_nan|done|done].
Qed.

Lemma set_attitude_wf a st : manager_wf st -> manager_wf (adcs_manager_set_attitude a st).
Proof.
  intros Hw. unfold adcs_manager_set_attitude. destruct a as [a|]; [|done]. cbv zeta.
  case_match; [|done]. apply health_wf; [done|]. exact Hw.
Qed.

Lemma set_sensors_wf a st : manager_wf st -> manager_wf (adcs_manager_set_sensors stm32 a st).
Proof.
  intros Hw. unfold adcs_manager_set_sensors. destruct a as [a|]; [|done]. cbv zeta.
  case_match; [|done]. apply health_wf; [done|]. exact Hw.
Qed.

Lemma set_control_wf o st : manager_wf st -> manager_wf (adcs_manager_set_control_output o st).
Proof. intros Hw. unfold adcs_manager_set_control_output. destruct o; [|done]. by case_match. Qed.

Lemma set_health_wf h st : manager_wf st -> manager_wf (adcs_manager_set_health h st).
Proof. intros Hw. unfold adcs_manager_set_health. destruct h; [|done]. by apply health_wf. Qed.
End System.

#[export] Hint Resolve manage_wf reject_wf dropped_wf controller_error_wf request_mode_wf guidance_wf
  set_attitude_wf set_sensors_wf set_control_wf set_health_wf mode_update_wf : flight.

Section Reachable.
Context (stm32 : bool) {E : Type} `{AdcsEnvironment E} `{Magnetorquer E} `{Libm}.
Implicit Types b : adcs_board E.

Lemma handle_packet_wf dport data padding buffered connected notice b :
  board_wf b -> board_wf (handle_packet stm32 dport data padding buffered connected notice b).
Proof.
  intros Hwf. pose proof Hwf as (Hm & Hc & Hft & (q & Hq & Hl) & Hct & Hman).
  destruct (handle_packet_queue stm32 dport data padding buffered connected notice b q Hq) as [Hq' _].
  pose proof (accepted_room stm32 (Packet dport data padding buffered connected notice) b q Hq Hl) as Hl'.
  assert (manager_wf (b_manager (handle_packet stm32 dport data padding buffered connected notice b))
    /\ b_config (handle_packet stm32 dport data padding buffered connected notice b) = b_config b
    /\ active_faults (b_faults (handle_packet stm32 dport data padding buffered connected notice b))
       = active_faults (b_faults b)
    /\ b_controller (handle_packet stm32 dport data padding buffered connected notice b) = b_controller b
    /\ s_manual_command (handle_packet stm32 dport data padding buffered connected notice b)
       = s_manual_command b
    /\ s_manual_override (handle_packet stm32 dport data padding buffered connected notice b)
       = s_manual_override b) as (H1' & H2' & H3' & H4' & H5' & H6').
  { clear Hq' Hl'. unfold handle_packet. destruct (_ && _); [|done]. rewrite decode_command_spec.
    assert (forall ft, active_faults (fault_management_trigger_reset RESET_REASON_WATCHDOG connected notice ft)
      = active_faults ft) as Hreset.
    { intros ft. unfold fault_management_trigger_reset, send_reset_notice. by case_match. }
    destruct (wire_request_of stm32 data) as [p|[]|];
      [|destruct buffered; split_and!; try done; by try apply Hreset..].
    unfold enqueue_command, command_task_send. rewrite Hq.
    destruct (len q <? COMMAND_QUEUE_LENGTH), buffered; split_and!; try done; by apply dropped_wf. }
  unfold board_wf, manual_wf. rewrite H2', H3', H4', H5', H6'. split_and!; try done; [by eexists|apply Hman..].
Qed.

Lemma manual_wf_set axis direction b :
  manual_wf b -> manual_wf (control_task_set_manual_magnetorquer axis direction b).
Proof.
  intros [Hd Ho]. unfold control_task_set_manual_magnetorquer. case_match; [done|]. split; [|done].
  cbn [s_manual_command dipole_a_m2]. set (val := if 0 <? direction then _ else _).
  assert (manual_axis val) as Hv by (unfold val, manual_axis; repeat case_match; auto).
  unfold set_axis, vec_list in *. rewrite !Forall_cons in *. destruct Hd as (? & ? & ? & ?).
  repeat case_match; cbn; by split_and!.
Qed.

Lemma execute_command_wf c b : board_wf b -> board_wf (execute_command c b).
Proof.
  intros Hwf.
  assert (forall b e, board_wf b -> board_wf (b <| b_env := e |>)) as Henv by done.
  assert (forall b, board_wf b -> board_wf (manage adcs_manager_note_rejected_command b)) as Hrej.
  { intros b' Hb'. apply manage_wf; [|done]. apply reject_wf, Hb'. }
  assert (forall b t, board_wf b ->
    board_wf (manage (adcs_manager_request_mode (mode_value ADCS_MODE_SLEWING))
      (manage (adcs_manager_set_guidance_target (Some t)) b))) as Hslew.
  { intros b' t Hb'. apply manage_wf; [|apply manage_wf; [|done]];
      [apply request_mode_wf|]; apply guidance_wf, Hb'. }
  unfold execute_command. destruct (c_parameter c); cbv zeta; auto.
  - apply manage_wf; [|done]. apply request_mode_wf, Hwf.
  - unfold slew_to. destruct (adcs_guidance_target_from_attitude _ _ _ _) as [[] ?]; auto.
  - unfold slew_to. destruct (adcs_guidance_target_from_vector _ _ _ _ _) as [[] ?]; auto.
  - apply manage_wf; [|done]. apply inhibited_wf, Hwf.
  - destruct (0 <? _); [|auto]. destruct (_ <=? _); [|auto].
    destruct (adcs_set_unix_time_us _ _) as [[] e]; auto.
  - destruct (adcs_inject_simulator_faults _ _) as [[] e]; auto.
  - unfold dispatch_legacy_position. destruct (adcs_guidance_target_from_attitude _ _ _ _) as [[] t]; auto.
    cbv zeta. apply manage_wf; [apply request_mode_wf|apply manage_wf; [|apply manage_wf; [|done]]];
      apply guidance_wf, Hwf.
  - pose proof Hwf as (? & ? & ? & ? & ? & ?). pose proof (manual_wf_set axis direction b).
    unfold control_task_set_manual_magnetorquer in *. case_match; [done|]. split_and!; auto.
Qed.

Lemma control_update_wf now b : board_wf b -> board_wf (control_update stm32 now b).
Proof. intros Hwf. apply manage_wf; [|done]. apply mode_update_wf, Hwf. Qed.

Lemma only_faults_lor v w : only_faults v -> only_faults w -> only_faults (Z.lor v w).
Proof. apply lor_in_all. Qed.

Lemma only_faults_ldiff v m : only_faults v -> only_faults (Z.ldiff v m).
Proof.
  unfold only_faults. intros Hv. apply Z.bits_inj'. intros n Hn.
  apply (f_equal (fun z => Z.testbit z n)) in Hv. rewrite !Z.bits_0, !Z.ldiff_spec in *.
  by destruct (Z.testbit v n), (Z.testbit m n), (Z.testbit ADCS_FAULT_ALL n).
Qed.

Lemma control_law_spec b :
  let '(_, _, b') := control_law b in
  exists ct, ct_config ct = ct_config (b_controller b)
    /\ (b' = b <| b_controller := ct |>
        \/ b' = manage adcs_manager_note_controller_error (b <| b_controller := ct |>)).
Proof.
  unfold control_law. cbv zeta.
  match goal with |- context [adcs_controller_update ?m ?t ?s ?a ?d ?c] =>
    pose proof (controller_facts m t s a d c) as Hc; destruct (adcs_controller_update m t s a d c) as [[r o] ct]
  end.
  destruct (law_command _ _ _) as [command output]. exists ct. split; [apply Hc|].
  destruct (_ && _); auto.
Qed.

Lemma drive_wf command output b : board_wf b -> board_wf (drive command output b).
Proof.
  intros Hwf. unfold drive. destruct (magnetorquer_set _ _) as [ok env]. cbv zeta.
  pose proof Hwf as (Hm & Hc & Hft & Hq & Hct & Hman).
  destruct ok; (apply manage_wf; [apply set_control_wf, Hm|]); [done|].
  split_and!; try done. cbn. by apply only_faults_lor.
Qed.

Lemma control_actuate_wf b : board_wf b -> board_wf (control_actuate b).
Proof.
  intros Hwf. unfold control_actuate. pose proof (control_law_spec b) as Hl.
  destruct (control_law b) as [[command output] b']. destruct Hl as (ct & Hct & Hb').
  destruct (override_command _ _ _) as [command' output']. apply drive_wf.
  assert (board_wf (b <| b_controller := ct |>)) as Hw.
  { pose proof Hwf as (? & ? & ? & ? & Hct0 & ?). split_and!; try done. cbn. congruence. }
  destruct Hb' as [-> | ->]; [done|]. apply manage_wf; [|done]. apply controller_error_wf, Hwf.
Qed.

Definition reading_wf (r : housekeeping_reading) : Prop := only_faults (hk_observed r).

Lemma housekeeping_write_wf r margin pet b :
  reading_wf r -> board_wf b -> board_wf (housekeeping_write stm32 r margin pet b).
Proof.
  intros Hr Hwf. unfold housekeeping_write. cbv zeta.
  set (ft := if _ =? _ then _ else _). set (h := _ <| he_minimum_stack_margin_words := margin |>).
  assert (only_faults (active_faults ft)) as Hft.
  { pose proof Hwf as (_ & _ & Hft & _). subst ft. case_match; cbn; [by apply only_faults_ldiff|].
    apply only_faults_lor; [by apply only_faults_ldiff|done]. }
  clearbody ft h.
  assert (board_wf (b <| b_faults := ft |>)) as Hw by (destruct Hwf as (? & ? & ? & ? & ? & ?); by split_and!).
  assert (board_wf (manage (adcs_manager_set_health (Some h)) (b <| b_faults := ft |>))) as Hw2.
  { apply manage_wf; [|done]. apply set_health_wf, Hw. }
  apply (control_update_wf (hk_now_us r)) in Hw2. destruct Hw2 as (? & ? & ? & ? & ? & ?). by split_and!.
Qed.

Lemma watchdog_active now connected buffered ft :
  active_faults (watchdog_round now connected buffered ft) = active_faults ft.
Proof.
  unfold watchdog_round, fault_management_trigger_reset, send_reset_notice. by repeat case_match.
Qed.

Lemma board_event_wf ev b : board_wf b -> board_wf (board_event stm32 ev b).
Proof.
  intros Hwf. destruct ev as [ev|sequence now r waiting|a|o rv|now| |now|margin pet|now connected buffered|];
    cbn [board_event]; try done.
  - destruct ev as [dport data padding buffered connected notice|]; cbn [command_step];
      [by apply handle_packet_wf|].
    unfold command_task_round. destruct (b_queue b) as [[|c q]|] eqn:Hq; [done| |done].
    apply execute_command_wf. pose proof Hwf as (? & ? & ? & (q' & Hq' & Hl) & ? & ?).
    split_and!; try done. exists q. split; [done|]. rewrite Hq in Hq'. simplify_eq.
    rewrite len_cons in Hl. lia.
  - unfold sensor_round. cbv zeta. destruct waiting; repeat (apply manage_wf; [|try done]);
      try apply dropped_wf; apply set_sensors_wf, Hwf.
  - apply manage_wf; [|done]. apply set_attitude_wf, Hwf.
  - by apply control_update_wf.
  - by apply control_actuate_wf.
  - pose proof Hwf as (? & ? & Hf & ? & ? & ?). split_and!; try done. cbn. by rewrite watchdog_active.
  - apply manage_wf; [|done]. apply dropped_wf, Hwf.
Qed.

Definition system_wf (s : adcs_system E) : Prop :=
  board_wf (s_board s) /\ (forall r, s_reading s = Some r -> reading_wf r).

Lemma start_wf now transport env : system_wf (adcs_start now transport env).
Proof.
  split; [|done]. unfold adcs_start, board_wf, manager_wf, manual_wf, target_wf, counters_wf, manual_axis.
  cbn. split_and!; try done; try (by left); try lia; auto with flight.
  - by exists [].
  - repeat constructor.
Qed.

Lemma system_event_wf ev (s : adcs_system E) : system_wf s -> system_wf (system_event stm32 ev s).
Proof.
  intros [Hb Hr]. unfold system_wf.
  destruct ev; cbn [system_event s_board s_reading]; try (split; [by apply board_event_wf|done]).
  - split; [done|]. intros r [= <-]. apply evaluate_in_all.
  - destruct (s_reading s) as [r|] eqn:Er; cbn [s_board s_reading]; [|by split; [|rewrite Er]].
    split; [|done]. apply housekeeping_write_wf; auto.
Qed.

End Reachable.

(** ** Actuation and faults *)
Section Actuation.
Context (stm32 : bool) {E : Type} `{AdcsEnvironment E} `{Magnetorquer E} `{Libm}.
Implicit Types b : adcs_board E.

Lemma drive_torquer command output b : b_torquer (drive command output b) = b_torquer b ++ [command].
Proof. unfold drive. destruct (magnetorquer_set _ _) as [[] env]; reflexivity. Qed.

(** What the law asks of the driver. *)
Definition law_sound (st : adcs_manager_state_t) (limit : vec3) (c : magnetorquer_command_t) : Prop :=
  c = torquer_off
  \/ (enabled c = 1 /\ ~ idle_mode (mode st) /\ actuators_inhibited st = 0
      /\ (mode st = ADCS_MODE_DETUMBLE \/ dipoles_ok limit (dipole_a_m2 c))).

Lemma control_law_command b :
  law_sound (b_manager b) (maximum_axis_dipole_a_m2 (cc_allocator (ct_config (b_controller b))))
    (fst (fst (control_law b))).
Proof.
  unfold control_law. cbv zeta.
  match goal with |- context [adcs_controller_update ?m ?t ?s ?a ?d ?c] =>
    pose proof (controller_facts m t s a d c) as Hc; destruct (adcs_controller_update m t s a d c) as [[r o] ct]
  end.
  destruct Hc as (_ & _ & Hsafe & Hok). unfold law_command.
  destruct (_ && _ && _) eqn:Eb; [|by left].
  rewrite !andb_true_iff, bool_decide_eq_true, Z.eqb_eq in Eb. destruct Eb as [[-> Hinh] Hen].
  destruct (decide (idle_mode (mode (b_manager b)))) as [Hidle|Hidle].
  - destruct (Hsafe (or_intror Hidle)) as (He & _). change (truthy (co_actuators_enabled o) = true) in Hen. by rewrite He in Hen.
  - right. destruct (Hok eq_refl Hidle) as (_ & _ & Hd). cbn. by split_and!.
Qed.


Lemma drive_env command output b : b_env (drive command output b) = snd (magnetorquer_set command (b_env b)).
Proof. unfold drive. by destruct (magnetorquer_set _ _) as [[] env]. Qed.

(** A control round whose law asks for nothing only switches the driver off. *)
Lemma off_drives_off b :
  fst (fst (control_law b)) = torquer_off -> s_manual_override b = 0 ->
  b_env (control_actuate b) = snd (magnetorquer_set torquer_off (b_env b)).
Proof.
  intros Hc Hman. unfold control_actuate. pose proof (control_law_spec b) as Hl.
  destruct (control_law b) as [[c o] b1]. cbn [fst] in Hc. subst c. destruct Hl as (ct & _ & Hb1).
  assert (s_manual_override b1 = 0 /\ b_env b1 = b_env b) as [Hm He] by (by destruct Hb1 as [-> | ->]).
  unfold override_command. rewrite Hm. change (truthy 0) with false. cbv iota. by rewrite drive_env, He.
Qed.

Lemma idle_law_off b :
  idle_mode (mode (b_manager b)) \/ actuators_inhibited (b_manager b) <> 0 ->
  fst (fst (control_law b)) = torquer_off.
Proof.
  intros Hidle. destruct (control_law_command b) as [?|(_ & Hn & Hinh & _)]; [done|].
  destruct Hidle; contradiction.
Qed.

(** Nor does the law ask for anything when the packet has no magnetic field. *)
Lemma blind_law_off b :
  truthy (Z.land (sp_valid_mask (latest_sensors (b_manager b))) ADCS_SENSOR_VALID_MAGNETOMETER) = false ->
  fst (fst (control_law b)) = torquer_off.
Proof.
  intros Hblind. destruct (control_law_command b) as [?|(_ & Hn & _)]; [done|].
  unfold control_law, adcs_controller_update. cbv zeta. rewrite Hblind. cbn [negb].
  destruct (_ || _ || _ || _); [reflexivity|]. case_decide; [contradiction|reflexivity].
Qed.

Lemma report_sets i fault ft :
  Z.testbit fault i = true -> Z.testbit (active_faults (fault_management_report fault ft)) i = true.
Proof.
  intros Hf. change (active_faults (fault_management_report fault ft)) with (Z.lor (active_faults ft) fault).
  rewrite Z.lor_spec, Hf. apply orb_true_r.
Qed.

Lemma critical_of v i :
  Z.testbit v i = true -> 0 <= i -> Z.testbit 59 i = true -> truthy (critical_faults v) = true.
Proof.
  intros Hv Hi Hc. unfold truthy, critical_faults. apply negb_true_iff, Z.eqb_neq. intros Hz.
  change (Z.ldiff ADCS_FAULT_ALL ADCS_FAULT_ATTITUDE_INVALID) with 59 in Hz.
  apply (f_equal (fun z => Z.testbit z i)) in Hz. by rewrite Z.land_spec, Hv, Hc, Z.bits_0 in Hz.
Qed.

Lemma critical_mode cfg active now st :
  initialized st = 1 -> truthy (critical_faults active) = true ->
  mode (adcs_manager_update stm32 cfg active now st) = ADCS_MODE_SAFE.
Proof.
  intros Hi Hc. unfold adcs_manager_update. rewrite Hi, Hc. cbn [Z.eqb]. cbv zeta.
  change (1 =? 0) with false. cbv iota. rewrite (proj1 (proj2 (refresh_facts _))). apply enter_mode_mode.
Qed.

Lemma critical_update_safe now b :
  manager_wf (b_manager b) -> truthy (critical_faults (active_faults (b_faults b))) = true ->
  mode (b_manager (control_update stm32 now b)) = ADCS_MODE_SAFE.
Proof. intros (Hi & _) Hc. exact (critical_mode _ _ now _ Hi Hc). Qed.

(** A magnetorquer that refuses a command sends the board to SAFE.  When the driver refuses
    the command of a control round, the actuator fault is active and the reported control
    output says that the actuators are off; the next update of the manager, at whatever
    time, enters SAFE. *)
Theorem refused_command_forces_safe b now :
  board_wf b ->
  let '(command, output, b1) := control_law b in
  let c := fst (override_command b1 command output) in
  fst (magnetorquer_set c (b_env b1)) = false ->
  let b' := control_actuate b in
  Z.testbit (active_faults (b_faults b')) 4 = true
  /\ mode (b_manager (control_update stm32 now b')) = ADCS_MODE_SAFE.
Proof.
  intros Hwf. pose proof (control_actuate_wf b Hwf) as Hwf'. unfold control_actuate in *.
  destruct (control_law b) as [[command output] b1].
  destruct (override_command b1 command output) as [c o]. cbn [fst]. intros Hbad.
  assert (Z.testbit (active_faults (b_faults (drive c o b1))) 4 = true) as Hbit.
  { unfold drive. destruct (magnetorquer_set c (b_env b1)) as [ok env]. cbn in Hbad. subst ok.
    exact (report_sets 4 ADCS_FAULT_ACTUATOR (b_faults b1) eq_refl). }
  split; [done|]. apply critical_update_safe; [apply Hwf'|]. by apply (critical_of _ 4).
Qed.

Lemma clear_and_report a obs :
  only_faults a ->
  Z.lor (Z.ldiff a (Z.ldiff (Z.land a ALL_RECOVERABLE_FAULTS) obs)) obs = obs.
Proof.
  unfold only_faults, ALL_RECOVERABLE_FAULTS. intros Ha. apply Z.bits_inj'. intros n Hn.
  apply (f_equal (fun z => Z.testbit z n)) in Ha. rewrite Z.bits_0, Z.ldiff_spec in Ha.
  rewrite Z.lor_spec, !Z.ldiff_spec, Z.land_spec.
  by destruct (Z.testbit a n), (Z.testbit obs n), (Z.testbit ADCS_FAULT_ALL n).
Qed.

(** Housekeeping keeps the active faults true.  After a round that nothing interrupts, the
    active faults are exactly those that the sensors, the estimate and the last control
    output show at that time, so a fault that is over is cleared and one that is there is
    set; when a critical one is there the board is in SAFE, and the watchdog was petted. *)
Theorem housekeeping_tracks_faults now margin pet b :
  board_wf b ->
  let st := b_manager b in
  let observed := fault_management_evaluate_adcs (Some (latest_sensors st)) (Some (latest_attitude st))
    (Some (latest_control st)) now (b_faults b) in
  let b' := housekeeping_round stm32 now margin pet b in
  active_faults (b_faults b') = observed /\ last_pet (b_faults b') = pet
  /\ (truthy (critical_faults observed) = true -> mode (b_manager b') = ADCS_MODE_SAFE).
Proof.
  intros Hwf. pose proof Hwf as (Hm & _ & Hft & _). cbv zeta. unfold housekeeping_round, housekeeping_read.
  set (observed := fault_management_evaluate_adcs _ _ _ _ _).
  unfold housekeeping_write. cbn [hk_snapshot hk_now_us hk_observed hk_latched]. cbv zeta.
  set (ft := if _ =? _ then _ else _).
  assert (active_faults ft = observed) as Hact.
  { pose proof (clear_and_report (active_faults (b_faults b)) observed Hft) as Hcr. subst ft.
    destruct (Z.eqb_spec observed ADCS_FAULT_NONE) as [Hz|Hz]; [|exact Hcr].
    rewrite Hz, Z.lor_0_r in Hcr. rewrite Hz. exact Hcr. }
  set (h := _ <| he_minimum_stack_margin_words := margin |>). clearbody ft h.
  set (b1 := manage _ _). split; [exact Hact|split; [reflexivity|]]. intros Hcrit.
  apply (critical_update_safe now b1); [|by change (b_faults b1) with ft; rewrite Hact].
  apply set_health_wf, Hm.
Qed.

(** A critical fault that housekeeping observes ends in SAFE. *)
Lemma observed_critical_safe now margin pet b i :
  board_wf b -> Z.testbit (hk_observed (housekeeping_read now b)) i = true -> 0 <= i -> Z.testbit 59 i = true ->
  mode (b_manager (housekeeping_round stm32 now margin pet b)) = ADCS_MODE_SAFE.
Proof.
  intros Hwf Hbit Hi Hcrit. pose proof Hwf as (Hm & _). unfold housekeeping_round, housekeeping_write. cbv zeta.
  set (r := housekeeping_read now b) in *.
  set (ft := if _ =? _ then _ else _). set (h := _ <| he_minimum_stack_margin_words := margin |>).
  set (b1 := manage _ _).
  apply (critical_update_safe now b1); [apply set_health_wf, Hm|].
  apply (critical_of _ i); [|done|done]. change (b_faults b1) with ft. subst ft.
  destruct (Z.eqb_spec (hk_observed r) ADCS_FAULT_NONE) as [Hz|Hz]; [by rewrite Hz, Z.bits_0 in Hbit|].
  by apply report_sets.
Qed.

(** On the flight build the manager needs only the gyroscope, but the evaluation of the faults
    also needs the magnetometer, whose driver is a stub that never answers
    ([adcs_sensors_unavailable.c]): with good gyroscope data every housekeeping round
    raises a critical fault. *)
Lemma gyro_only_is_critical now margin pet b rate timestamp :
  board_wf b ->
  latest_sensors (b_manager b) = mk_sensors 1 timestamp rate vec_zero vec_zero vec_zero f0 3 ->
  timestamp <> 0 -> timestamp <= now ->
  now - timestamp <= fault_sensor_stale_after_us (fault_config (b_faults b)) ->
  mode (b_manager (housekeeping_round stm32 now margin pet b)) = ADCS_MODE_SAFE.
Proof.
  intros Hwf Hs Ht Hn Hfresh.
  apply (observed_critical_safe now margin pet b 1); try done.
  unfold housekeeping_read, fault_management_evaluate_adcs. cbn [hk_observed].
  rewrite Hs, !Z.lor_spec. unfold sensor_faults. cbn [sp_timestamp_us sp_valid_mask].
  by rewrite (proj2 (Z.eqb_neq _ _) Ht), (proj2 (Z.ltb_ge _ _)), (proj2 (Z.ltb_ge _ _)) by lia.
Qed.
End Actuation.

(** *** Concrete boards *)

(** A driver that accepts everything, and one that accepts nothing. *)
Definition willing : Magnetorquer Stm32.environment := fun _ e => (true, e).
Definition broken : Magnetorquer Stm32.environment := fun _ e => (false, e).

Definition idle_system : adcs_system Stm32.environment := adcs_start (mk_time 0 0) 1 idle_env.


(** A board in Sun pointing with good data. *)
Definition pointing_board : adcs_board Stm32.environment :=
  idle_board <| b_manager := sample_manager ADCS_MODE_SUN_POINTING ADCS_MODE_SUN_POINTING |>.


Lemma pointing_board_wf : board_wf pointing_board.
Proof.
  unfold board_wf, manager_wf, manual_wf, target_wf, counters_wf, manual_axis, pointing_board, idle_board.
  cbn. split_and!; try done; try (by left); try (unfold u32_ok; lia).
  - by exists [].
  - repeat constructor.
Qed.

Lemma refused_command_forces_safe_witness :
  mode (b_manager (control_update true 2000 (control_actuate (H0 := broken) (H1 := flat_libm) pointing_board)))
  = ADCS_MODE_SAFE.
Proof.
  pose proof (refused_command_forces_safe (H0 := broken) (H1 := flat_libm) true pointing_board 2000
    pointing_board_wf) as H.
  destruct (control_law pointing_board) as [[command output] b1].
  apply H. reflexivity.
Defined.

Lemma housekeeping_tracks_faults_witness :
  let b' := housekeeping_round true 600000 f1 (mk_time 1 0) pointing_board in
  active_faults (b_faults b') = 5 /\ mode (b_manager b') = ADCS_MODE_SAFE.
Proof.
  cbv zeta.
  destruct (housekeeping_tracks_faults true 600000 f1 (mk_time 1 0) pointing_board pointing_board_wf)
    as (Ha & _ & Hm).
  split; [rewrite Ha; vm_compute; reflexivity|apply Hm; vm_compute; reflexivity].
Defined.
