(* ===== verification/AdcsTelemetry.v ===== *)
(** The telemetry of the attitude control board
    ([apps/adcs/Application/src/communication/telemetry.c], [tasks/telemetry_task.c]).

    The encoder writes big-endian fields one after the other and stops at the first that
    does not fit.  A float is written as its 32 bits. *)

From S2P Require Import Prelude Float32 AdcsMath AdcsManager AdcsFault AdcsCommand AdcsTasks Gateway.

Definition ADCS_TELEMETRY_MAX_PAYLOAD_SIZE : Z := 256.
Definition ADCS_TELEMETRY_FORMAT_VERSION : Z := 3.
Definition ADCS_TELEMETRY_ATTITUDE_VALID_FLAG : Z := 1.

Inductive adcs_telemetry_status_t :=
  | ADCS_TELEMETRY_OK | ADCS_TELEMETRY_INVALID_ARGUMENT | ADCS_TELEMETRY_BUFFER_TOO_SMALL
  | ADCS_TELEMETRY_TRANSPORT_ERROR.

#[export] Instance adcs_telemetry_status_eq_dec : EqDecision adcs_telemetry_status_t.
Proof. solve_decision. Defined.

#[projections(primitive)]
Record adcs_telemetry_packet_t := mk_telemetry {
  tp_sequence : Z;
  tp_timestamp_us : Z;
  tp_mode : adcs_mode_t;
  tp_sensors : adcs_sensor_packet_t;
  tp_attitude : adcs_attitude_state_t;
  tp_target : adcs_guidance_target_t;
  tp_control : adcs_control_output_t;
  tp_health : adcs_health_t
}.

Implicit Types t : adcs_telemetry_packet_t.

(** ** The encoder *)

(** [encoder_t]: the bytes written so far and the capacity. *)
Record encoder_t := mk_encoder { capacity : Z; written : list Z }.

Definition put (bytes : list Z) (e : encoder_t) : option encoder_t :=
  if capacity e <? len (written e) + len bytes then None
  else Some (mk_encoder (capacity e) (written e ++ bytes)).

Definition put_u8 (v : Z) : encoder_t -> option encoder_t := put [u8 v].
Definition put_u16 (v : Z) : encoder_t -> option encoder_t := put [u8 (v / 256); u8 v].
Definition put_u32 (v : Z) : encoder_t -> option encoder_t :=
  put [u8 (v / 16777216); u8 (v / 65536); u8 (v / 256); u8 v].

Definition put_u64 (v : Z) (e : encoder_t) : option encoder_t :=
  e ← put_u32 (u32 (v / 4294967296)) e;
  put_u32 (u32 v) e.

Definition put_float (x : f32) : encoder_t -> option encoder_t := put_u32 (f32_bits x).

Fixpoint put_float_array (xs : list f32) (e : encoder_t) : option encoder_t :=
  match xs with
  | [] => Some e
  | x :: xs => e ← put_float x e; put_float_array xs e
  end.

(** The condition [!put ... || !put ... || ...]: [None] when one of them does not fit. *)
Fixpoint put_all (puts : list (encoder_t -> option encoder_t)) (e : encoder_t) : option encoder_t :=
  match puts with
  | [] => Some e
  | p :: puts => e ← p e; put_all puts e
  end.

Definition control_flags (o : adcs_control_output_t) : Z :=
  Z.lor (Z.lor (if truthy (co_actuators_enabled o) then 1 else 0) (if truthy (co_saturated o) then 2 else 0))
    (if truthy (co_target_settled o) then 4 else 0).
Definition health_flags (h : adcs_health_t) : Z :=
  Z.lor (Z.lor (if truthy (he_sensors_healthy h) then 1 else 0)
           (if truthy (he_estimator_healthy h) then 2 else 0))
    (if truthy (he_actuators_healthy h) then 4 else 0).

Definition telemetry_puts t : list (encoder_t -> option encoder_t) :=
  let a := tp_attitude t in let s := tp_sensors t in let c := tp_control t in let h := tp_health t in
  [put_u8 65 ; put_u8 68 ; put_u8 67 ; put_u8 83 ; put_u8 ADCS_TELEMETRY_FORMAT_VERSION
  ; put_u8 (mode_value (tp_mode t))
  ; put_u16 (if truthy (at_valid a) then ADCS_TELEMETRY_ATTITUDE_VALID_FLAG else 0)
  ; put_u32 (tp_sequence t) ; put_u64 (tp_timestamp_us t)
  ; put_u32 (sp_valid_mask s) ; put_u32 (he_active_faults h)
  ; put_float_array (versor_list (at_quaternion a))
  ; put_float_array (versor_list (gt_target_quaternion (tp_target t)))
  ; put_float_array (vec_list (at_angular_rate_rad_s a))
  ; put_float_array (vec_list (at_gyro_bias_rad_s a))
  ; put_float_array (vec_list (sp_magnetic_field_t s))
  ; put_float_array (vec_list (sp_sun_vector_body s))
  ; put_float (sp_sun_irradiance_w_m2 s) ; put_float (at_confidence a)
  ; put_float_array (vec_list (co_requested_torque_nm c))
  ; put_float_array (vec_list (co_requested_dipole_a_m2 c))
  ; put_float_array (vec_list (co_achievable_torque_nm c))
  ; put_float (co_pointing_error_rad c)
  ; put_u8 (control_flags c) ; put_u8 (health_flags h) ; put_u16 0
  ; put_u32 (he_rejected_commands h) ; put_u32 (he_dropped_messages h)
  ; put_u32 (he_estimator_resets h) ; put_u32 (he_controller_errors h)
  ; put_u32 (he_mode_transitions h) ; put_float (he_minimum_stack_margin_words h)].

Definition telemetry_is_valid t : bool :=
  let a := tp_attitude t in
  mode_is_valid (tp_mode t)
  && adcs_values_are_finite (versor_list (at_quaternion a))
  && adcs_values_are_finite (versor_list (gt_target_quaternion (tp_target t)))
  && adcs_values_are_finite (vec_list (at_angular_rate_rad_s a))
  && adcs_values_are_finite (vec_list (sp_magnetic_field_t (tp_sensors t)))
  && adcs_values_are_finite (vec_list (co_requested_dipole_a_m2 (tp_control t)))
  && isfinite (at_confidence a) && negb (flt (at_confidence a) f0) && negb (flt f1 (at_confidence a)).

(** The status, [*encoded_size] ([None] where it is not written) and the bytes. *)
Definition adcs_telemetry_encode t (payload_capacity : Z) : adcs_telemetry_status_t * option Z * list Z :=
  if negb (telemetry_is_valid t) then (ADCS_TELEMETRY_INVALID_ARGUMENT, None, [])
  else
    match put_all (telemetry_puts t) (mk_encoder payload_capacity []) with
    | Some e => (ADCS_TELEMETRY_OK, Some (len (written e)), written e)
    | None => (ADCS_TELEMETRY_BUFFER_TOO_SMALL, Some 0, [])
    end.

(** ** Sending *)

Record telemetry_state := mk_state {
  next_sequence : Z;
  t_transport_enabled : Z;
  t_sent : list csp_sent
}.

Definition adcs_telemetry_init (st : telemetry_state) : telemetry_state :=
  mk_state 1 (t_transport_enabled st) (t_sent st).

Definition adcs_telemetry_send t (connected buffered : bool) (st : telemetry_state)
    : adcs_telemetry_status_t * telemetry_state :=
  let snapshot := t <| tp_sequence := u32 (next_sequence st) |> in
  let st := mk_state (u32 (next_sequence st + 1)) (t_transport_enabled st) (t_sent st) in
  match adcs_telemetry_encode snapshot ADCS_TELEMETRY_MAX_PAYLOAD_SIZE with
  | (ADCS_TELEMETRY_OK, _, payload) =>
      if t_transport_enabled st =? 0 then (ADCS_TELEMETRY_OK, st)
      else if negb connected || negb buffered then (ADCS_TELEMETRY_TRANSPORT_ERROR, st)
      else (ADCS_TELEMETRY_OK,
            mk_state (next_sequence st) (t_transport_enabled st)
              (t_sent st ++ [mk_sent OBC_ADDRESS ADCS_TELEM_PORT payload]))
  | _ => (ADCS_TELEMETRY_INVALID_ARGUMENT, st)
  end.

Definition telemetry_snapshot (s : adcs_manager_state_t) : adcs_telemetry_packet_t :=
  mk_telemetry 0 (sp_timestamp_us (latest_sensors s)) (mode s) (latest_sensors s) (latest_attitude s)
    (guidance_target s) (latest_control s) (health s).

(** The position report of the legacy command: the notified value, little-endian. *)
Definition telemetry_send_legacy_position (position : Z) (connected buffered : bool) (st : telemetry_state)
    : telemetry_state :=
  if (t_transport_enabled st =? 0) || negb connected || negb buffered then st
  else mk_state (next_sequence st) (t_transport_enabled st)
         (t_sent st ++ [mk_sent OBC_ADDRESS ADCS_TELEM_PORT (Time.le_bytes 4 position)]).

(** One round of [telemetry_task]; the answers are for the two transmissions. *)
Definition telemetry_round {E} (c1 b1 c2 b2 : bool) (b : adcs_board E) (st : telemetry_state)
    : adcs_board E * telemetry_state :=
  let '(r, st) := adcs_telemetry_send (telemetry_snapshot (b_manager b)) c1 b1 st in
  let b := if bool_decide (r = ADCS_TELEMETRY_OK) then b else manage adcs_manager_note_dropped_message b in
  match b_notified b with
  | Some position => (b <| b_notified := None |>, telemetry_send_legacy_position position c2 b2 st)
  | None => (b, st)
  end.

(** ** Theorems *)

(** The reader of a ground station: the fields of the given widths, big-endian. *)
Definition be_value (bytes : list Z) : Z := fold_left (fun acc b => acc * 256 + b) bytes 0.

Fixpoint read_fields (widths : list Z) (bytes : list Z) : list Z :=
  match widths with
  | [] => []
  | w :: widths => be_value (prefix_of w bytes) :: read_fields widths (skip w bytes)
  end.

Definition telemetry_widths : list Z :=
  [1; 1; 1; 1; 1; 1; 2; 4; 4; 4; 4; 4] ++ repeat 4 32 ++ [1; 1; 2; 4; 4; 4; 4; 4; 4].

(** What the fields are meant to carry: the identification and state words, the floats, and
    the flags and counters. *)
Definition telemetry_floats t : list f32 :=
  let a := tp_attitude t in let s := tp_sensors t in let c := tp_control t in
  versor_list (at_quaternion a) ++ versor_list (gt_target_quaternion (tp_target t))
  ++ vec_list (at_angular_rate_rad_s a) ++ vec_list (at_gyro_bias_rad_s a)
  ++ vec_list (sp_magnetic_field_t s) ++ vec_list (sp_sun_vector_body s)
  ++ [sp_sun_irradiance_w_m2 s; at_confidence a]
  ++ vec_list (co_requested_torque_nm c) ++ vec_list (co_requested_dipole_a_m2 c)
  ++ vec_list (co_achievable_torque_nm c) ++ [co_pointing_error_rad c].

Definition telemetry_words t : list Z :=
  [tp_sequence t; tp_timestamp_us t / 4294967296; tp_timestamp_us t mod 4294967296;
   sp_valid_mask (tp_sensors t); he_active_faults (tp_health t)].

Definition telemetry_counters t : list Z :=
  let h := tp_health t in
  [he_rejected_commands h; he_dropped_messages h; he_estimator_resets h; he_controller_errors h;
   he_mode_transitions h; f32_bits (he_minimum_stack_margin_words h)].

Definition telemetry_values t : list Z :=
  [65; 68; 67; 83; 3; mode_value (tp_mode t); b2z (truthy (at_valid (tp_attitude t)))]
  ++ telemetry_words t ++ map f32_bits (telemetry_floats t)
  ++ [control_flags (tp_control t); health_flags (tp_health t); 0] ++ telemetry_counters t.

(** The C types of the fields. *)
Definition telemetry_typed t : Prop :=
  Forall (fun v => 0 <= v < 4294967296) (telemetry_words t)
  /\ Forall (fun v => 0 <= v < 4294967296) (telemetry_counters t)
  /\ Forall valid_f32 (telemetry_floats t).

(** [writes p fields]: [p] appends the fields, if there is room for all of them. *)
Definition writes (p : encoder_t -> option encoder_t) (fields : list (list Z)) : Prop :=
  forall e, len (written e) <= capacity e ->
    p e = if capacity e <? len (written e) + len (concat fields) then None
          else Some (mk_encoder (capacity e) (written e ++ concat fields)).

Lemma put_writes bytes : writes (put bytes) [bytes].
Proof. intros e _. unfold put. cbn [concat]. by rewrite app_nil_r. Qed.

Lemma nothing_writes : writes Some [].
Proof.
  intros [c w] Hcap. cbn [concat written capacity] in *. rewrite len_nil, Z.add_0_r, app_nil_r.
  by rewrite (proj2 (Z.ltb_ge _ _)).
Qed.

Lemma then_writes p q fs gs : writes p fs -> writes q gs -> writes (fun e => e ← p e; q e) (fs ++ gs).
Proof.
  intros Hp Hq [c w] Hcap. cbn [written capacity] in *. rewrite (Hp (mk_encoder c w)) by done.
  rewrite concat_app, len_app, app_assoc. cbn [written capacity].
  pose proof (len_nonneg (concat gs)).
  destruct (Z.ltb_spec c (len w + len (concat fs))) as [Hf|Hf]; cbn [mbind option_bind].
  - by rewrite (proj2 (Z.ltb_lt _ _)) by lia.
  - rewrite Hq; cbn [written capacity]; rewrite len_app; [|lia]. by rewrite Z.add_assoc.
Qed.

Definition u8_field (v : Z) : list Z := [u8 v].
Definition u16_field (v : Z) : list Z := [u8 (v / 256); u8 v].
Definition u32_field (v : Z) : list Z := [u8 (v / 16777216); u8 (v / 65536); u8 (v / 256); u8 v].

Lemma put_u64_writes v : writes (put_u64 v) [u32_field (u32 (v / 4294967296)); u32_field (u32 v)].
Proof. apply (then_writes _ _ [_] [_]); apply put_writes. Qed.

Lemma put_float_array_writes xs : writes (put_float_array xs) (map (fun x => u32_field (f32_bits x)) xs).
Proof.
  induction xs as [|x xs IH]; [apply nothing_writes|].
  exact (then_writes _ _ [u32_field (f32_bits x)] _ (put_writes _) IH).
Qed.

Lemma put_all_writes puts fields : Forall2 writes puts fields -> writes (put_all puts) (concat fields).
Proof.
  induction 1 as [|p f puts fields Hp Hputs IH]; [apply nothing_writes|].
  exact (then_writes _ _ _ _ Hp IH).
Qed.

Definition telemetry_fields t : list (list Z) :=
  map u8_field [65; 68; 67; 83; 3; mode_value (tp_mode t)]
  ++ [u16_field (b2z (truthy (at_valid (tp_attitude t))))]
  ++ map u32_field
       [tp_sequence t; u32 (tp_timestamp_us t / 4294967296); u32 (tp_timestamp_us t);
        sp_valid_mask (tp_sensors t); he_active_faults (tp_health t)]
  ++ map (fun x => u32_field (f32_bits x)) (telemetry_floats t)
  ++ [u8_field (control_flags (tp_control t)); u8_field (health_flags (tp_health t)); u16_field 0]
  ++ map u32_field (telemetry_counters t).

Lemma telemetry_writes t : writes (put_all (telemetry_puts t)) (telemetry_fields t).
Proof.
  eassert (telemetry_fields t = concat _) as ->; cycle 1.
  - apply put_all_writes. unfold telemetry_puts. cbv zeta.
    repeat (apply Forall2_cons; split; [first
      [apply put_u64_writes | apply put_float_array_writes | apply put_writes]|]).
    apply Forall2_nil. done.
  - reflexivity.
Qed.

Lemma telemetry_fields_size t : len (concat (telemetry_fields t)) = 184.
Proof. reflexivity. Qed.

Lemma telemetry_fields_widths t : map (len (A:=Z)) (telemetry_fields t) = telemetry_widths.
Proof. reflexivity. Qed.

(** Fields in order are read back one by one. *)
Lemma read_fields_concat fields :
  read_fields (map (len (A:=Z)) fields) (concat fields) = map be_value fields.
Proof.
  induction fields as [|f fields IH]; [done|]. cbn [map concat read_fields].
  by rewrite prefix_of_app, skip_app, IH.
Qed.

Lemma be_u32_field v : 0 <= v < 4294967296 -> be_value (u32_field v) = v.
Proof. intros Hv. cbn. zlia. Qed.

Lemma be_u32_fields vs : Forall (fun v => 0 <= v < 4294967296) vs -> map be_value (map u32_field vs) = vs.
Proof. induction 1 as [|v vs Hv _ IH]; [done|]. cbn [map]. by rewrite be_u32_field, IH. Qed.

Lemma be_float_fields xs : Forall valid_f32 xs -> map be_value (map (fun x => u32_field (f32_bits x)) xs) = map f32_bits xs.
Proof.
  induction 1 as [|x xs Hx _ IH]; [done|]. cbn [map]. rewrite be_u32_field, IH; [done|].
  by apply f32_bits_range.
Qed.

Lemma be_u8_field v : 0 <= v < 256 -> be_value (u8_field v) = v.
Proof. intros Hv. cbn. zlia. Qed.

Lemma control_flags_range o : 0 <= control_flags o < 256.
Proof. unfold control_flags. destruct (truthy _), (truthy _), (truthy _); by split; vm_compute. Qed.
Lemma health_flags_range h : 0 <= health_flags h < 256.
Proof. unfold health_flags. destruct (truthy _), (truthy _), (truthy _); by split; vm_compute. Qed.

Lemma telemetry_fields_values t : telemetry_typed t -> map be_value (telemetry_fields t) = telemetry_values t.
Proof.
  intros (Hw & Hc & Hf).
  assert (u32 (tp_timestamp_us t / 4294967296) = tp_timestamp_us t / 4294967296) as Hhi.
  { apply Z.mod_small. by apply (Forall_lookup_1 _ _ 1 _ Hw). }
  unfold telemetry_fields, telemetry_values. rewrite !map_app, be_float_fields by done.
  rewrite Hhi. change (u32 (tp_timestamp_us t)) with (tp_timestamp_us t mod 4294967296).
  fold (telemetry_words t). rewrite (be_u32_fields _ Hc), (be_u32_fields _ Hw).
  cbn [map app]. rewrite !be_u8_field
    by first [lia | apply control_flags_range | apply health_flags_range | by destruct (tp_mode t)].
  by destruct (truthy _).
Qed.

Lemma telemetry_encode_spec t capacity : telemetry_is_valid t = true -> 0 <= capacity ->
  adcs_telemetry_encode t capacity =
    if capacity <? 184 then (ADCS_TELEMETRY_BUFFER_TOO_SMALL, Some 0, [])
    else (ADCS_TELEMETRY_OK, Some 184, concat (telemetry_fields t)).
Proof.
  intros Hv Hcap. unfold adcs_telemetry_encode. rewrite Hv. cbn [negb].
  rewrite telemetry_writes by done. cbn [AdcsTelemetry.capacity written].
  rewrite telemetry_fields_size, len_nil, Z.add_0_l, app_nil_l. by destruct (capacity <? 184).
Qed.


(** The seventh packet of a board that has just started. *)
Definition demo_telemetry : adcs_telemetry_packet_t :=
  (telemetry_snapshot adcs_manager_init)
  <| tp_sequence := 7 |> <| tp_timestamp_us := 4294967301 |>.

