(* ===== verification/AdcsI2cSlave.v ===== *)
(** The I2C slave of the attitude control board
    ([apps/adcs/Core/Src/adcs_i2c_slave.c]).

    The interrupt callbacks of the HAL drive a receive phase and a transmit kind; completed
    frames wait in one of two slots until the main loop takes them, and frames of the main
    loop wait in one of two slots until the master has read them.  A callback returns the
    HAL calls it makes; [accepted] says whether the HAL accepted the transfer it asked for.

    The second half puts the callbacks and the main loop in one step relation, with the bus
    and the HAL's transfer buffer, and compares it with two mailboxes. *)

From S2P Require Import Prelude Frame.

Definition ADCS_I2C_PROTOCOL_MAGIC : Z := 0xA5.
Definition ADCS_I2C_PROTOCOL_VERSION : Z := 0x01.
Definition ADCS_I2C_STATUS_WIRE_SIZE : Z := 5.
Definition ADCS_I2C_STATUS_DATA_READY : Z := 0x01.
Definition ADCS_I2C_CMD_GET_STATUS : Z := 0x01.
Definition ADCS_I2C_CMD_READ_FRAME : Z := 0x02.
Definition ADCS_I2C_CMD_WRITE_FRAME : Z := 0x03.
Definition ADCS_I2C_FRAME_HEADER_SIZE : Z := 4.
Definition ADCS_I2C_MAX_FRAME_PAYLOAD : Z := 264.
Definition ADCS_I2C_MAX_FRAME_WIRE_SIZE : Z := ADCS_I2C_FRAME_HEADER_SIZE + ADCS_I2C_MAX_FRAME_PAYLOAD.

Definition ADCS_I2C_EVENT_ACTIVITY : Z := 1.
Definition ADCS_I2C_EVENT_RX_FRAME_READY : Z := 2.
Definition ADCS_I2C_EVENT_INVALID_COMMAND : Z := 4.
Definition ADCS_I2C_EVENT_MALFORMED_FRAME : Z := 8.
Definition ADCS_I2C_EVENT_ERROR : Z := 16.
Definition ADCS_I2C_EVENT_RECOVERED : Z := 32.
Definition ADCS_I2C_EVENT_RX_OVERRUN : Z := 64.

(** Constants of the HAL. *)
Definition I2C_DIRECTION_TRANSMIT : Z := 0.
Definition I2C_DIRECTION_RECEIVE : Z := 1.
Definition HAL_I2C_STATE_READY : Z := 0x20.
Definition HAL_I2C_STATE_LISTEN : Z := 0x28.

Inductive hal_status := HAL_OK | HAL_ERROR | HAL_BUSY.
Inductive adcs_rx_phase_t :=
  | ADCS_RX_PHASE_IDLE | ADCS_RX_PHASE_COMMAND | ADCS_RX_PHASE_WRITE_HEADER
  | ADCS_RX_PHASE_WRITE_PAYLOAD | ADCS_RX_PHASE_COMPLETE | ADCS_RX_PHASE_REJECTED.
Inductive adcs_tx_kind_t := ADCS_TX_KIND_NONE | ADCS_TX_KIND_STATUS | ADCS_TX_KIND_FRAME.

#[export] Instance adcs_rx_phase_eq_dec : EqDecision adcs_rx_phase_t.
Proof. solve_decision. Defined.
#[export] Instance adcs_tx_kind_eq_dec : EqDecision adcs_tx_kind_t.
Proof. solve_decision. Defined.
#[export] Instance hal_status_eq_dec : EqDecision hal_status.
Proof. solve_decision. Defined.

#[projections(primitive)]
Record adcs_i2c_stats_t := mk_stats {
  address_match_count : Z;
  receive_start_count : Z;
  receive_complete_count : Z;
  transmit_start_count : Z;
  transmit_complete_count : Z;
  listen_complete_count : Z;
  error_count : Z;
  callback_error_count : Z;
  invalid_command_count : Z;
  malformed_frame_count : Z;
  recovery_count : Z;
  receive_overrun_count : Z;
  last_error : Z;
  last_address_match : Z;
  last_direction : Z;
  last_command : Z
}.

Definition zero_stats : adcs_i2c_stats_t := mk_stats 0 0 0 0 0 0 0 0 0 0 0 0 0 0 0 0.

(** The static variables of the file; [s_i2c] is the handle, [None] for a null pointer. *)
#[projections(primitive)]
Record adcs_slave := mk_slave {
  s_i2c : option Z;
  s_command_byte : Z;
  s_selected_command : Z;
  s_rx_phase : adcs_rx_phase_t;
  s_tx_kind : adcs_tx_kind_t;
  s_rx_frames : list Z * list Z;
  s_rx_active_length : Z;
  s_rx_active_index : Z;
  s_rx_ready_index : Z;
  s_rx_ready_length : Z;
  s_rx_ready : bool;
  s_tx_frames : list Z * list Z;
  s_tx_ready_index : Z;
  s_tx_ready_length : Z;
  s_tx_ready : bool;
  s_tx_in_progress_index : Z;
  s_status_response : list Z;
  s_events : Z;
  s_recovery_requested : bool;
  s_stats : adcs_i2c_stats_t
}.

Implicit Types s : adcs_slave.

(** A pair of buffers indexed by 0 and 1. *)
Definition slot (i : Z) (frames : list Z * list Z) : list Z :=
  if i =? 0 then fst frames else snd frames.
Definition set_slot (i : Z) (buf : list Z) (frames : list Z * list Z) : list Z * list Z :=
  if i =? 0 then (buf, snd frames) else (fst frames, buf).

(** The transfers a callback starts, and the two register accesses. *)
Inductive rx_buffer := CommandByte | RxFrame (index offset : Z).
Inductive tx_buffer := StatusResponse | TxFrame (index : Z).
Inductive hal_call :=
  | SeqReceive (b : rx_buffer) (size : Z)
  | SeqTransmit (b : tx_buffer) (size : Z)
  | EnableListen
  | GenerateNack
  | ClearAddrFlag.

Definition count (v : Z) : Z := u32 (v + 1).
Abbreviation noting s f := (s <| s_stats ::= fun st => st <| f ::= count |> |>).

Definition adcs_set_event (event : Z) s : adcs_slave := s <| s_events ::= fun e => Z.lor e event |>.

(** The length in the third and fourth byte of a frame. *)
Definition announced_length (wire : list Z) : Z := u16 (Z.lor (Z.shiftl (byte_at wire 2) 8) (byte_at wire 3)).

Definition adcs_wire_frame_valid (wire : list Z) (wire_length : Z) : bool :=
  if (wire_length <? ADCS_I2C_FRAME_HEADER_SIZE) || (ADCS_I2C_MAX_FRAME_WIRE_SIZE <? wire_length) then false
  else
    let payload_length := announced_length wire in
    (payload_length <=? ADCS_I2C_MAX_FRAME_PAYLOAD)
    && (wire_length =? ADCS_I2C_FRAME_HEADER_SIZE + payload_length).

Definition adcs_note_callback_error s : adcs_slave :=
  (adcs_set_event ADCS_I2C_EVENT_ERROR (noting s callback_error_count)) <| s_recovery_requested := true |>.

Definition adcs_note_malformed_receive s : adcs_slave :=
  if bool_decide (s_rx_phase s = ADCS_RX_PHASE_COMMAND)
     || bool_decide (s_rx_phase s = ADCS_RX_PHASE_WRITE_HEADER)
     || bool_decide (s_rx_phase s = ADCS_RX_PHASE_WRITE_PAYLOAD)
  then
    (adcs_set_event ADCS_I2C_EVENT_MALFORMED_FRAME (noting s malformed_frame_count))
      <| s_rx_phase := ADCS_RX_PHASE_REJECTED |>
  else s.

Definition adcs_publish_received_frame s : adcs_slave :=
  if s_rx_ready s then adcs_set_event ADCS_I2C_EVENT_RX_OVERRUN (noting s receive_overrun_count)
  else
    let s := s <| s_rx_ready_index := s_rx_active_index s |> <| s_rx_ready_length := s_rx_active_length s |>
               <| s_rx_ready := true |> <| s_rx_active_index ::= fun i => Z.lxor i 1 |> in
    adcs_set_event (Z.lor ADCS_I2C_EVENT_RX_FRAME_READY ADCS_I2C_EVENT_ACTIVITY)
      (noting s receive_complete_count).

Definition adcs_prepare_status_response s : adcs_slave :=
  let frame_length := if s_tx_ready s then s_tx_ready_length s else 0 in
  s <| s_status_response :=
         [ADCS_I2C_PROTOCOL_MAGIC; ADCS_I2C_PROTOCOL_VERSION;
          if s_tx_ready s then ADCS_I2C_STATUS_DATA_READY else 0;
          u8 (Z.shiftr frame_length 8); u8 (Z.land frame_length 0xFF)] |>.

Definition adcs_i2c_slave_init (i2c : option Z) (listening : hal_status) s
    : hal_status * list hal_call * adcs_slave :=
  match i2c with
  | None => (HAL_ERROR, [], s)
  | Some _ =>
      let s := s <| s_stats := zero_stats |> <| s_events := 0 |> <| s_recovery_requested := false |>
                 <| s_selected_command := 0 |> <| s_rx_phase := ADCS_RX_PHASE_IDLE |>
                 <| s_tx_kind := ADCS_TX_KIND_NONE |> <| s_rx_ready := false |> <| s_tx_ready := false |>
                 <| s_rx_active_index := 0 |> <| s_i2c := i2c |> in
      (listening, [EnableListen],
       if bool_decide (listening = HAL_OK) then s else s <| s_i2c := None |>)
  end.

(** ** The main loop *)

(** [adcs_i2c_slave_process] has three critical sections: claiming the request, ... *)
Definition process_claim s : bool * adcs_slave :=
  match s_i2c s with
  | None => (false, s)
  | Some _ =>
      if negb (s_recovery_requested s) then (false, s)
      else (true, s <| s_recovery_requested := false |>)
  end.

(** ... looking at the HAL ([state]) and listening again ([true] for the early returns) ... *)
Definition process_listen (state : Z) (listening : hal_status) s : list hal_call * bool * adcs_slave :=
  if negb (Z.land state HAL_I2C_STATE_LISTEN =? 0) then ([], true, s)
  else if state =? HAL_I2C_STATE_READY then
    if bool_decide (listening = HAL_OK) then
      ([EnableListen], true, adcs_set_event ADCS_I2C_EVENT_RECOVERED (noting s recovery_count))
    else ([EnableListen], false, s)
  else ([], false, s).

(** ... and posting the request again. *)
Definition process_repost s : adcs_slave := s <| s_recovery_requested := true |>.

Definition adcs_i2c_slave_process (state : Z) (listening : hal_status) s : list hal_call * adcs_slave :=
  let '(claimed, s) := process_claim s in
  if negb claimed then ([], s)
  else
    let '(calls, finished, s) := process_listen state listening s in
    (calls, if finished then s else process_repost s).

Definition adcs_i2c_slave_take_events s : Z * adcs_slave := (s_events s, s <| s_events := 0 |>).

Definition adcs_i2c_slave_get_stats s : adcs_i2c_stats_t := s_stats s.

(** [adcs_i2c_frame_t] is the list of its [length] bytes. *)
Definition adcs_i2c_slave_take_received_frame s : option (list Z) * adcs_slave :=
  if negb (s_rx_ready s) then (None, s)
  else (Some (prefix_of (s_rx_ready_length s) (slot (s_rx_ready_index s) (s_rx_frames s))),
        s <| s_rx_ready := false |>).

Definition adcs_i2c_slave_queue_transmit_frame (wire_frame : list Z) (wire_length : Z) s
    : hal_status * adcs_slave :=
  if negb (adcs_wire_frame_valid wire_frame wire_length) then (HAL_ERROR, s)
  else if s_tx_ready s then (HAL_BUSY, s)
  else
    let next_index := Z.lxor (s_tx_ready_index s) 1 in
    (HAL_OK,
     s <| s_tx_frames ::= fun f => set_slot next_index (patch (slot next_index f) 0 (prefix_of wire_length wire_frame)) f |>
       <| s_tx_ready_length := u16 wire_length |> <| s_tx_ready_index := next_index |> <| s_tx_ready := true |>).

(** ** The callbacks *)

Definition attached (i2c : Z) s : bool := bool_decide (s_i2c s = Some i2c).

Definition invalid_command s : adcs_slave :=
  adcs_set_event ADCS_I2C_EVENT_INVALID_COMMAND (noting s invalid_command_count).

(** The answer to a read: which transfer is asked for. *)
Definition start_transmit s : hal_call * adcs_slave :=
  if s_selected_command s =? ADCS_I2C_CMD_GET_STATUS then
    (SeqTransmit StatusResponse ADCS_I2C_STATUS_WIRE_SIZE,
     (adcs_prepare_status_response s) <| s_tx_kind := ADCS_TX_KIND_STATUS |>)
  else if (s_selected_command s =? ADCS_I2C_CMD_READ_FRAME) && s_tx_ready s then
    let s := s <| s_tx_in_progress_index := s_tx_ready_index s |> <| s_tx_kind := ADCS_TX_KIND_FRAME |> in
    (SeqTransmit (TxFrame (s_tx_in_progress_index s)) (s_tx_ready_length s), s)
  else
    (SeqTransmit StatusResponse ADCS_I2C_STATUS_WIRE_SIZE,
     (adcs_prepare_status_response (invalid_command s)) <| s_tx_kind := ADCS_TX_KIND_STATUS |>).

(** [own_address] is [i2c->Init.OwnAddress1]. *)
Definition HAL_I2C_AddrCallback (i2c own_address transfer_direction address_match_code : Z) (accepted : bool) s
    : list hal_call * adcs_slave :=
  if negb (attached i2c s) then ([], s)
  else
    let s := noting s address_match_count in
    let s := s <| s_stats ::= fun st => st <| last_address_match := address_match_code |>
                                          <| last_direction := transfer_direction |> |> in
    let s := adcs_set_event ADCS_I2C_EVENT_ACTIVITY s in
    let expected_address := Z.land own_address 0x03FE in
    if negb (address_match_code =? expected_address) then
      ([GenerateNack; ClearAddrFlag], invalid_command s)
    else
      let '(calls, status, s) :=
        if transfer_direction =? I2C_DIRECTION_TRANSMIT then
          let s := s <| s_selected_command := 0 |> <| s_command_byte := 0 |>
                     <| s_rx_phase := ADCS_RX_PHASE_COMMAND |> in
          ([SeqReceive CommandByte 1], accepted, noting s receive_start_count)
        else if transfer_direction =? I2C_DIRECTION_RECEIVE then
          let '(call, s) := start_transmit s in
          ([call], accepted, if accepted then noting s transmit_start_count else s)
        else ([], false, invalid_command s) in
      (calls, if status then s else adcs_note_callback_error s).

(** After the command byte. *)
Definition note_command (c : Z) s : adcs_slave :=
  s <| s_selected_command := c |> <| s_stats ::= fun st => st <| last_command := c |> |>.

Definition command_received (accepted : bool) s : list hal_call * adcs_slave :=
  let c := s_command_byte s in
  if (c =? ADCS_I2C_CMD_GET_STATUS) || (c =? ADCS_I2C_CMD_READ_FRAME) then
    ([], adcs_set_event ADCS_I2C_EVENT_ACTIVITY
           (noting ((note_command c s) <| s_rx_phase := ADCS_RX_PHASE_COMPLETE |>) receive_complete_count))
  else if c =? ADCS_I2C_CMD_WRITE_FRAME then
    let s := (note_command c s) <| s_rx_active_length := ADCS_I2C_FRAME_HEADER_SIZE |>
               <| s_rx_phase := ADCS_RX_PHASE_WRITE_HEADER |> in
    ([SeqReceive (RxFrame (s_rx_active_index s) 0) ADCS_I2C_FRAME_HEADER_SIZE],
     if accepted then s else adcs_note_callback_error s)
  else ([GenerateNack], invalid_command ((note_command c s) <| s_rx_phase := ADCS_RX_PHASE_REJECTED |>)).

(** After the four bytes of the frame header. *)
Definition header_received (accepted : bool) s : list hal_call * adcs_slave :=
  let payload_length := announced_length (slot (s_rx_active_index s) (s_rx_frames s)) in
  if ADCS_I2C_MAX_FRAME_PAYLOAD <? payload_length then
    let s := noting (s <| s_rx_phase := ADCS_RX_PHASE_REJECTED |>) malformed_frame_count in
    ([GenerateNack], adcs_set_event ADCS_I2C_EVENT_MALFORMED_FRAME s)
  else if payload_length =? 0 then ([GenerateNack], s <| s_rx_phase := ADCS_RX_PHASE_COMPLETE |>)
  else
    let s := s <| s_rx_active_length := u16 (ADCS_I2C_FRAME_HEADER_SIZE + payload_length) |>
               <| s_rx_phase := ADCS_RX_PHASE_WRITE_PAYLOAD |> in
    ([SeqReceive (RxFrame (s_rx_active_index s) ADCS_I2C_FRAME_HEADER_SIZE) payload_length],
     if accepted then s else adcs_note_callback_error s).

Definition HAL_I2C_SlaveRxCpltCallback (i2c : Z) (accepted : bool) s : list hal_call * adcs_slave :=
  if negb (attached i2c s) then ([], s)
  else
    match s_rx_phase s with
    | ADCS_RX_PHASE_COMMAND => command_received accepted s
    | ADCS_RX_PHASE_WRITE_HEADER => header_received accepted s
    | ADCS_RX_PHASE_WRITE_PAYLOAD => ([GenerateNack], s <| s_rx_phase := ADCS_RX_PHASE_COMPLETE |>)
    | _ => ([], adcs_note_callback_error s)
    end.

Definition HAL_I2C_SlaveTxCpltCallback (i2c : Z) s : list hal_call * adcs_slave :=
  if negb (attached i2c s) then ([], s)
  else
    let s := noting s transmit_complete_count in
    let s :=
      if bool_decide (s_tx_kind s = ADCS_TX_KIND_FRAME) && s_tx_ready s
         && (s_tx_in_progress_index s =? s_tx_ready_index s)
      then s <| s_tx_ready := false |> <| s_tx_ready_length := 0 |> else s in
    ([], adcs_set_event ADCS_I2C_EVENT_ACTIVITY
           (s <| s_tx_kind := ADCS_TX_KIND_NONE |> <| s_selected_command := 0 |>)).

Definition frame_complete s : bool :=
  bool_decide (s_rx_phase s = ADCS_RX_PHASE_COMPLETE) && (s_selected_command s =? ADCS_I2C_CMD_WRITE_FRAME).

(** STOP confirms that the master sent exactly the declared frame. *)
Definition finish_write s : adcs_slave :=
  adcs_note_malformed_receive (if frame_complete s then adcs_publish_received_frame s else s).

Definition HAL_I2C_ListenCpltCallback (i2c : Z) (accepted : bool) s : list hal_call * adcs_slave :=
  if negb (attached i2c s) then ([], s)
  else
    let s := (finish_write (noting s listen_complete_count)) <| s_rx_phase := ADCS_RX_PHASE_IDLE |> <| s_tx_kind := ADCS_TX_KIND_NONE |>
               <| s_selected_command := 0 |> in
    ([EnableListen],
     if accepted then s <| s_recovery_requested := false |> else adcs_note_callback_error s).

(** [error] is what [HAL_I2C_GetError] returns. *)
Definition HAL_I2C_ErrorCallback (i2c error : Z) s : list hal_call * adcs_slave :=
  if negb (attached i2c s) then ([], s)
  else
    let s := noting s error_count in
    let s := s <| s_stats ::= fun st => st <| last_error := error |> |> in
    let s :=
      if frame_complete s then
        (adcs_set_event ADCS_I2C_EVENT_MALFORMED_FRAME (noting s malformed_frame_count))
          <| s_rx_phase := ADCS_RX_PHASE_REJECTED |>
      else adcs_note_malformed_receive s in
    ([], adcs_set_event ADCS_I2C_EVENT_ERROR (s <| s_recovery_requested := true |>)).

(** ** The board on the bus

    [armed] is the transfer the HAL is busy with: it stores received bytes in the buffer it
    was given and reports completion when the size is reached.  An address match, a STOP and
    an error end the transfer; the HAL reports a finished transfer before these.

    The other fields observe the bus: the bytes written since the last address match, the
    frame a mailbox of one place would hold, the frames the main loop took and queued, and
    those the master read to the end. *)
Inductive transfer :=
  | Receiving (b : rx_buffer) (size stored : Z)
  | Sending (b : tx_buffer) (size : Z) (sent : list Z).

Record link := mk_link {
  board : adcs_slave;
  armed : option transfer;
  written : list Z;
  mailbox : option (list Z);
  queued : list (list Z);
  transmitted : list (list Z)
}.

Implicit Types l : link.

Inductive bus_event :=
  | BusAddress (direction code : Z) (accepted : bool)
  | BusByte (v : Z)
  | BusReceived (accepted : bool)
  | BusRead
  | BusSent
  | BusStop (accepted : bool)
  | BusError (error : Z)
  | MainClaim
  | MainListen (state : Z) (listening : hal_status)
  | MainRepost
  | MainEvents
  | MainTake
  | MainQueue (wire_frame : list Z) (wire_length : Z).

Definition arm (accepted : bool) (calls : list hal_call) : option transfer :=
  if accepted then
    match calls with
    | [SeqReceive b size] => Some (Receiving b size 0)
    | [SeqTransmit b size] => Some (Sending b size [])
    | _ => None
    end
  else None.

(** A transfer whose completion has not been reported yet. *)
Definition unreported l : bool :=
  match armed l with
  | Some (Receiving _ size stored) => stored =? size
  | Some (Sending _ size sent) => len sent =? size
  | None => false
  end.

Definition store (b : rx_buffer) (k v : Z) s : adcs_slave :=
  match b with
  | CommandByte => s <| s_command_byte := v |>
  | RxFrame i offset => s <| s_rx_frames ::= fun f => set_slot i (patch (slot i f) (offset + k) [v]) f |>
  end.

Definition fetch (b : tx_buffer) (k : Z) s : Z :=
  match b with
  | StatusResponse => byte_at (s_status_response s) k
  | TxFrame i => byte_at (slot i (s_tx_frames s)) k
  end.

(** A whole write of a frame: the command and a frame of exactly the announced length. *)
Definition written_frame (bytes : list Z) : option (list Z) :=
  match bytes with
  | c :: w => if (c =? ADCS_I2C_CMD_WRITE_FRAME) && adcs_wire_frame_valid w (len w) then Some w else None
  | [] => None
  end.

Definition post (w : option (list Z)) (box : option (list Z)) : option (list Z) :=
  match box with Some _ => box | None => w end.

Section Bus.
Context (handle own_address : Z).

(** [None]: the event cannot happen in this state. *)
Definition link_step (e : bus_event) l : option link :=
  let s := board l in
  match e with
  | BusAddress direction code accepted =>
      if unreported l then None
      else
        let '(calls, s) := HAL_I2C_AddrCallback handle own_address direction code accepted s in
        let starts := (code =? Z.land own_address 0x03FE) && (direction =? I2C_DIRECTION_TRANSMIT) in
        Some (mk_link s (arm accepted calls) (if starts then [] else written l) (mailbox l) (queued l) (transmitted l))
  | BusByte v =>
      match armed l with
      | Some (Receiving b size stored) =>
          if stored <? size then
            Some (mk_link (store b stored v s) (Some (Receiving b size (stored + 1))) (written l ++ [v])
                    (mailbox l) (queued l) (transmitted l))
          else None
      | _ => None
      end
  | BusReceived accepted =>
      match armed l with
      | Some (Receiving b size stored) =>
          if stored =? size then
            let '(calls, s) := HAL_I2C_SlaveRxCpltCallback handle accepted s in
            Some (mk_link s (arm accepted calls) (written l) (mailbox l) (queued l) (transmitted l))
          else None
      | _ => None
      end
  | BusRead =>
      match armed l with
      | Some (Sending b size sent) =>
          if len sent <? size then
            Some (mk_link s (Some (Sending b size (sent ++ [fetch b (len sent) s]))) (written l)
                    (mailbox l) (queued l) (transmitted l))
          else None
      | _ => None
      end
  | BusSent =>
      match armed l with
      | Some (Sending b size sent) =>
          if len sent =? size then
            let '(calls, s) := HAL_I2C_SlaveTxCpltCallback handle s in
            Some (mk_link s None [] (mailbox l) (queued l)
                    (match b with TxFrame _ => transmitted l ++ [sent] | StatusResponse => transmitted l end))
          else None
      | _ => None
      end
  | BusStop accepted =>
      if unreported l then None
      else
        let '(calls, s) := HAL_I2C_ListenCpltCallback handle accepted s in
        Some (mk_link s None [] (post (written_frame (written l)) (mailbox l)) (queued l) (transmitted l))
  | BusError error =>
      let '(calls, s) := HAL_I2C_ErrorCallback handle error s in
      Some (mk_link s None [] (mailbox l) (queued l) (transmitted l))
  | MainClaim =>
      Some (mk_link (snd (process_claim s)) (armed l) (written l) (mailbox l) (queued l) (transmitted l))
  | MainListen state listening =>
      Some (mk_link (snd (process_listen state listening s)) (armed l) (written l) (mailbox l) (queued l) (transmitted l))
  | MainRepost => Some (mk_link (process_repost s) (armed l) (written l) (mailbox l) (queued l) (transmitted l))
  | MainEvents =>
      Some (mk_link (snd (adcs_i2c_slave_take_events s)) (armed l) (written l) (mailbox l) (queued l) (transmitted l))
  | MainTake =>
      Some (mk_link (snd (adcs_i2c_slave_take_received_frame s)) (armed l) (written l) None (queued l) (transmitted l))
  | MainQueue w n =>
      if (n <=? len w) && bool_decide (Forall byte_ok w) then
        let '(r, s) := adcs_i2c_slave_queue_transmit_frame w n s in
        Some (mk_link s (armed l) (written l) (mailbox l)
                (if bool_decide (r = HAL_OK) then queued l ++ [prefix_of n w] else queued l) (transmitted l))
      else None
  end.

(** The static variables before [adcs_i2c_slave_init]. *)
Definition static_slave : adcs_slave :=
  mk_slave None 0 0 ADCS_RX_PHASE_IDLE ADCS_TX_KIND_NONE
    (zeros ADCS_I2C_MAX_FRAME_WIRE_SIZE, zeros ADCS_I2C_MAX_FRAME_WIRE_SIZE) 0 0 0 0 false
    (zeros ADCS_I2C_MAX_FRAME_WIRE_SIZE, zeros ADCS_I2C_MAX_FRAME_WIRE_SIZE) 0 0 false 0
    (zeros ADCS_I2C_STATUS_WIRE_SIZE) 0 false zero_stats.

Definition link_start : link :=
  mk_link (snd (adcs_i2c_slave_init (Some handle) HAL_OK static_slave)) None [] None [] [].

Inductive link_reachable : link -> Prop :=
  | link_reach_start : link_reachable link_start
  | link_reach_step e l l' : link_reachable l -> link_step e l = Some l' -> link_reachable l'.

Fixpoint link_run (es : list bus_event) l : option link :=
  match es with
  | [] => Some l
  | e :: es => match link_step e l with Some l => link_run es l | None => None end
  end.

Lemma link_run_reachable es l l' : link_reachable l -> link_run es l = Some l' -> link_reachable l'.
Proof.
  revert l. induction es as [|e es IH]; intros l Hl Hrun; cbn [link_run] in Hrun; [by simplify_eq|].
  destruct (link_step e l) as [m|] eqn:E; [|done]. eauto using link_reach_step.
Qed.
End Bus.

(** ** Receiving *)

Lemma slot_set i buf f : slot i (set_slot i buf f) = buf.
Proof. unfold slot, set_slot. by destruct (i =? 0). Qed.

Lemma slot_other i j buf f : (i = 0 \/ i = 1) -> j = Z.lxor i 1 -> slot j (set_slot i buf f) = slot j f.
Proof. by intros [-> | ->] ->. Qed.

Definition slots_ok (f : list Z * list Z) : Prop :=
  len (fst f) = ADCS_I2C_MAX_FRAME_WIRE_SIZE /\ len (snd f) = ADCS_I2C_MAX_FRAME_WIRE_SIZE.

Lemma slots_ok_eq f g : f = g -> slots_ok g -> slots_ok f.
Proof. by intros ->. Qed.

Lemma slots_ok_slot i f : slots_ok f -> len (slot i f) = ADCS_I2C_MAX_FRAME_WIRE_SIZE.
Proof. intros [? ?]. unfold slot. by destruct (i =? 0). Qed.

Lemma slots_ok_set i buf f : slots_ok f -> len buf = ADCS_I2C_MAX_FRAME_WIRE_SIZE -> slots_ok (set_slot i buf f).
Proof. intros [? ?] ?. unfold set_slot. by destruct (i =? 0). Qed.

Lemma flip_index i : (i = 0 \/ i = 1) -> (Z.lxor i 1 = 0 \/ Z.lxor i 1 = 1) /\ Z.lxor (Z.lxor i 1) 1 = i.
Proof. intros [-> | ->]; cbn; auto. Qed.

Lemma prefix_patch_next k v buf :
  0 <= k < len buf -> prefix_of (k + 1) (patch buf k [v]) = prefix_of k buf ++ [v].
Proof.
  intros Hk. unfold patch. rewrite app_assoc. apply prefix_of_app.
  rewrite len_app, len_prefix_of by lia. reflexivity.
Qed.

Lemma announced_patch k v buf :
  4 <= k < len buf -> announced_length (patch buf k [v]) = announced_length buf.
Proof.
  intros Hk. unfold announced_length. rewrite !byte_at_patch by (rewrite ?len_cons, ?len_nil; lia).
  rewrite !decide_False by (rewrite len_cons, len_nil; lia). done.
Qed.

Lemma announced_prefix n buf : 4 <= n <= len buf -> announced_length (prefix_of n buf) = announced_length buf.
Proof.
  intros Hn. rewrite <- (take_drop (Z.to_nat n) buf) at 2. unfold announced_length, byte_at.
  rewrite !app_nth1; [done| |]; change (take (Z.to_nat n) buf) with (prefix_of n buf);
    pose proof (len_prefix_of n buf); unfold len in *; lia.
Qed.

Lemma frame_valid_spec w n :
  adcs_wire_frame_valid w n = true <-> 4 <= n <= 268 /\ n = 4 + announced_length w.
Proof.
  unfold adcs_wire_frame_valid, ADCS_I2C_MAX_FRAME_WIRE_SIZE, ADCS_I2C_FRAME_HEADER_SIZE, ADCS_I2C_MAX_FRAME_PAYLOAD.
  destruct ((n <? 4) || (4 + 264 <? n)) eqn:E.
  - split; [done|]. apply orb_true_iff in E. rewrite !Z.ltb_lt in E. lia.
  - apply orb_false_iff in E as [E1%Z.ltb_ge E2%Z.ltb_ge].
    rewrite andb_true_iff, Z.leb_le, Z.eqb_eq. lia.
Qed.

(** What the mailbox holds when the main loop looks. *)
Definition received s : option (list Z) :=
  if s_rx_ready s then Some (prefix_of (s_rx_ready_length s) (slot (s_rx_ready_index s) (s_rx_frames s))) else None.

(** How far the current write has come: the phase, the transfer of the HAL and the bytes on
    the wire agree. *)
Definition write_progress (phase : adcs_rx_phase_t) (selected command length index : Z) (buf w : list Z)
    (a : option transfer) : Prop :=
  match phase, a with
  | ADCS_RX_PHASE_COMMAND, Some (Receiving b size stored) =>
      b = CommandByte /\ size = 1 /\ (stored = 0 /\ w = [] \/ stored = 1 /\ w = [command])
  | ADCS_RX_PHASE_WRITE_HEADER, Some (Receiving b size stored) =>
      b = RxFrame index 0 /\ size = 4 /\ 0 <= stored <= 4 /\ length = 4
      /\ selected = ADCS_I2C_CMD_WRITE_FRAME /\ w = ADCS_I2C_CMD_WRITE_FRAME :: prefix_of stored buf
  | ADCS_RX_PHASE_WRITE_PAYLOAD, Some (Receiving b size stored) =>
      b = RxFrame index 4 /\ size = announced_length buf /\ 0 < size <= 264 /\ 0 <= stored <= size
      /\ length = 4 + size /\ selected = ADCS_I2C_CMD_WRITE_FRAME
      /\ w = ADCS_I2C_CMD_WRITE_FRAME :: prefix_of (4 + stored) buf
  | _, Some (Receiving _ _ _) => False
  | ADCS_RX_PHASE_COMPLETE, _ =>
      if selected =? ADCS_I2C_CMD_WRITE_FRAME then
        4 <= length <= 268 /\ length = 4 + announced_length buf /\ w = ADCS_I2C_CMD_WRITE_FRAME :: prefix_of length buf
      else written_frame w = None
  | _, _ => written_frame w = None
  end.

Definition current_write l : Prop :=
  let s := board l in
  write_progress (s_rx_phase s) (s_selected_command s) (s_command_byte s) (s_rx_active_length s)
    (s_rx_active_index s) (slot (s_rx_active_index s) (s_rx_frames s)) (written l) (armed l).

Definition rx_inv l : Prop :=
  let s := board l in
  slots_ok (s_rx_frames s) /\ (s_rx_active_index s = 0 \/ s_rx_active_index s = 1)
  /\ (s_rx_ready s = true -> s_rx_ready_index s = Z.lxor (s_rx_active_index s) 1)
  /\ mailbox l = received s /\ current_write l.

Lemma short_write_not_frame k buf :
  len buf = 268 -> 0 <= k < 4 -> written_frame (3 :: prefix_of k buf) = None.
Proof.
  intros Hb Hk. cbn [written_frame]. destruct (adcs_wire_frame_valid _ _) eqn:E; [|done].
  apply frame_valid_spec in E. rewrite len_prefix_of in E; lia.
Qed.

Lemma partial_write_not_frame k buf :
  len buf = 268 -> 0 <= k < announced_length buf -> announced_length buf <= 264 ->
  written_frame (3 :: prefix_of (4 + k) buf) = None.
Proof.
  intros Hb Hk Hl. cbn [written_frame]. destruct (adcs_wire_frame_valid _ _) eqn:E; [|done].
  apply frame_valid_spec in E. rewrite len_prefix_of, announced_prefix in E; lia.
Qed.

Lemma whole_write_frame n buf :
  len buf = 268 -> 4 <= n <= 268 -> n = 4 + announced_length buf ->
  written_frame (3 :: prefix_of n buf) = Some (prefix_of n buf).
Proof.
  intros Hb Hn Ha. cbn [written_frame]. change (3 =? ADCS_I2C_CMD_WRITE_FRAME) with true. cbn [andb].
  rewrite (proj2 (frame_valid_spec _ _)); [done|]. rewrite len_prefix_of, announced_prefix by lia. lia.
Qed.

Lemma announced_nonneg buf : 0 <= announced_length buf < 65536.
Proof. unfold announced_length. zlia. Qed.

Lemma bad_header_not_frame buf :
  len buf = 268 -> 264 < announced_length buf -> written_frame (3 :: prefix_of 4 buf) = None.
Proof.
  intros Hb Ha. cbn [written_frame]. destruct (adcs_wire_frame_valid _ _) eqn:E; [|done].
  apply frame_valid_spec in E. rewrite len_prefix_of, announced_prefix in E; lia.
Qed.

(** A transfer that ends before its completion leaves no frame. *)
Lemma aborted_write phase selected command length index buf w a :
  len buf = 268 -> write_progress phase selected command length index buf w a ->
  match a with Some (Receiving _ size stored) => stored <> size | _ => True end ->
  write_progress phase selected command length index buf w None.
Proof.
  intros Hb H Hn. destruct a as [[b size stored|]|]; [|by destruct phase..].
  destruct phase; cbn [write_progress] in *; try done.
  - by destruct H as (-> & -> & [[-> ->]|[-> ->]]).
  - destruct H as (-> & -> & Hs & -> & -> & ->). apply short_write_not_frame; lia.
  - destruct H as (-> & -> & Hsz & Hs & -> & -> & ->). apply partial_write_not_frame; lia.
Qed.

(** The fields receiving depends on. *)
Definition rx_view s :=
  (s_rx_phase s, s_selected_command s, s_command_byte s, s_rx_frames s, s_rx_active_length s,
   s_rx_active_index s, (s_rx_ready_index s, s_rx_ready_length s, s_rx_ready s)).

Lemma rx_inv_view s s' a a' w box q q' t t' :
  rx_view s' = rx_view s -> a' = a -> rx_inv (mk_link s a w box q t) -> rx_inv (mk_link s' a' w box q' t').
Proof.
  unfold rx_view, rx_inv, current_write, received. cbn [board armed written mailbox]. intros Hv ->.
  injection Hv as -> -> -> -> -> -> -> -> ->. done.
Qed.

(** Keeping everything but the current write. *)
Lemma rx_inv_write s s' a a' w w' box q t t' :
  s_rx_frames s' = s_rx_frames s -> s_rx_active_index s' = s_rx_active_index s ->
  s_rx_ready_index s' = s_rx_ready_index s -> s_rx_ready_length s' = s_rx_ready_length s ->
  s_rx_ready s' = s_rx_ready s -> current_write (mk_link s' a' w' box q t') ->
  rx_inv (mk_link s a w box q t) -> rx_inv (mk_link s' a' w' box q t').
Proof.
  unfold rx_inv, received. cbn [board mailbox]. intros -> -> -> -> -> Hw (? & ? & ? & ? & _). done.
Qed.

(** A byte stored in the active slot. *)
Lemma slots_ok_store i k v f :
  slots_ok f -> 0 <= k < 268 -> slots_ok (set_slot i (patch (slot i f) k [v]) f).
Proof.
  intros Hf Hk. apply slots_ok_set; [done|]. pose proof (slots_ok_slot i f Hf) as Hlen.
  change ADCS_I2C_MAX_FRAME_WIRE_SIZE with 268 in *. rewrite len_patch; rewrite ?len_cons, ?len_nil; lia.
Qed.

Lemma received_store i k v s :
  s_rx_active_index s = 0 \/ s_rx_active_index s = 1 ->
  (s_rx_ready s = true -> s_rx_ready_index s = Z.lxor (s_rx_active_index s) 1) ->
  received (store (RxFrame (s_rx_active_index s) i) k v s) = received s.
Proof.
  intros Hi Hr. unfold received, store.
  change (s_rx_ready (s <| s_rx_frames ::= _ |>)) with (s_rx_ready s).
  destruct (s_rx_ready s) eqn:E; [|done]. cbn [update s_rx_ready_length s_rx_ready_index s_rx_frames].
  by rewrite slot_other by auto.
Qed.

Lemma rx_inv_store off stored v s a a' w w' box q t :
  0 <= off + stored < 268 -> rx_inv (mk_link s a w box q t) ->
  current_write (mk_link (store (RxFrame (s_rx_active_index s) off) stored v s) a' w' box q t) ->
  rx_inv (mk_link (store (RxFrame (s_rx_active_index s) off) stored v s) a' w' box q t).
Proof.
  intros Hk (Hslots & Hi & Hr & Hbox & _) Hw. split_and!; [by apply slots_ok_store|done|done| |done].
  cbn [board mailbox] in *. by rewrite received_store.
Qed.

Lemma store_rx_inv b size stored v s w box q t :
  stored < size -> rx_inv (mk_link s (Some (Receiving b size stored)) w box q t) ->
  rx_inv (mk_link (store b stored v s) (Some (Receiving b size (stored + 1))) (w ++ [v]) box q t).
Proof.
  intros Hlt Hinv. pose proof Hinv as (Hslots & Hi & Hr & _ & Hw). unfold current_write in Hw.
  cbn [board armed written] in *. pose proof (slots_ok_slot (s_rx_active_index s) _ Hslots) as Hlen.
  change ADCS_I2C_MAX_FRAME_WIRE_SIZE with 268 in Hlen.
  destruct (s_rx_phase s) eqn:Hp; cbn [write_progress] in Hw; try done.
  - destruct Hw as (-> & -> & [[-> ->]|[-> ->]]); [|lia].
    eapply (rx_inv_write s); [reflexivity..| |exact Hinv].
    unfold current_write. change (s_rx_phase (board _)) with (s_rx_phase s). rewrite Hp. split_and!; auto.
  - destruct Hw as (-> & -> & Hs & Hl & Hsel & ->). eapply rx_inv_store; [lia|exact Hinv|].
    unfold current_write. change (s_rx_phase (board _)) with (s_rx_phase s). rewrite Hp.
    cbn [armed written board write_progress]. split_and!; try done; try lia.
    cbn [store update s_rx_frames]. change (s_rx_active_index _) with (s_rx_active_index s).
    rewrite slot_set, Z.add_0_l, prefix_patch_next by lia. done.
  - destruct Hw as (-> & Hsz & Hsz' & Hs & Hl & Hsel & ->). eapply rx_inv_store; [lia|exact Hinv|].
    unfold current_write. change (s_rx_phase (board _)) with (s_rx_phase s). rewrite Hp.
    cbn [armed written board write_progress]. cbn [store update s_rx_frames].
    change (s_rx_active_index _) with (s_rx_active_index s).
    rewrite !slot_set, announced_patch by lia. split_and!; try done; try lia.
    rewrite Z.add_assoc, prefix_patch_next by lia. done.
Qed.

(** The transfer was aborted, or the callback did not touch the write. *)
Lemma current_write_aborted l :
  rx_inv l -> unreported l = false ->
  current_write (mk_link (board l) None (written l) (mailbox l) (queued l) (transmitted l)).
Proof.
  intros (Hslots & _ & _ & _ & Hw) Hu. unfold current_write in *. cbn [board armed written].
  eapply aborted_write; [by apply slots_ok_slot|exact Hw|].
  unfold unreported in Hu. destruct (armed l) as [[]|]; [|done..]. by apply Z.eqb_neq in Hu.
Qed.

Section Receiving.
Context (handle own_address : Z).

Lemma attached_handle s : s_i2c s = Some handle -> attached handle s = true.
Proof. intros H. unfold attached. by rewrite bool_decide_true. Qed.

(** A receive phase seen only through [write_progress] without a transfer for receiving. *)
Lemma write_progress_sending phase selected command length index buf w b size sent :
  write_progress phase selected command length index buf w None ->
  write_progress phase selected command length index buf w (Some (Sending b size sent)).
Proof. by destruct phase. Qed.

Lemma address_rx_inv direction code accepted l l' :
  s_i2c (board l) = Some handle -> rx_inv l ->
  link_step handle own_address (BusAddress direction code accepted) l = Some l' -> rx_inv l'.
Proof.
  intros Hh Hinv Hstep. cbn [link_step] in Hstep. destruct (unreported l) eqn:Hu; [done|].
  pose proof (current_write_aborted l Hinv Hu) as Hw. unfold HAL_I2C_AddrCallback in Hstep.
  rewrite attached_handle in Hstep by done. cbn [negb] in Hstep. cbv zeta in Hstep.
  destruct l as [s a w box q t]. cbn [board written mailbox queued transmitted] in *.
  destruct (code =? _); cbn [negb andb] in Hstep; simplify_eq.
  2:{ apply (rx_inv_write s _ a _ w _ _ q t); [reflexivity..| |done]. by destruct accepted. }
  destruct (direction =? I2C_DIRECTION_TRANSMIT).
  - destruct accepted; simplify_eq; (apply (rx_inv_write s _ a _ w _ _ q t); [reflexivity..| |done]); cbn; auto.
  - destruct (direction =? I2C_DIRECTION_RECEIVE).
    + unfold start_transmit in Hstep.
      destruct (_ =? ADCS_I2C_CMD_GET_STATUS); [|destruct (_ && _)]; destruct accepted; simplify_eq;
        (apply (rx_inv_write s _ a _ w _ _ q t); [reflexivity..| |done]);
        first [exact Hw | exact (write_progress_sending _ _ _ _ _ _ _ _ _ _ Hw)].
    + simplify_eq. apply (rx_inv_write s _ a _ w _ _ q t); [reflexivity..| |done]. by destruct accepted.
Qed.

Lemma command_progress c length index buf :
  (c =? ADCS_I2C_CMD_GET_STATUS) || (c =? ADCS_I2C_CMD_READ_FRAME) = true ->
  write_progress ADCS_RX_PHASE_COMPLETE c c length index buf [c] None.
Proof. intros [E|E]%orb_true_iff; by apply Z.eqb_eq in E as ->. Qed.

Lemma write_command_progress c index buf :
  c = ADCS_I2C_CMD_WRITE_FRAME ->
  write_progress ADCS_RX_PHASE_WRITE_HEADER c c 4 index buf [c] (Some (Receiving (RxFrame index 0) 4 0)).
Proof. intros ->. split_and!; done || lia. Qed.

Lemma write_command_not_frame c : c = ADCS_I2C_CMD_WRITE_FRAME -> written_frame [c] = None.
Proof. by intros ->. Qed.

Lemma other_command_not_frame c : c <> ADCS_I2C_CMD_WRITE_FRAME -> written_frame [c] = None.
Proof. intros H. cbn [written_frame]. by rewrite (proj2 (Z.eqb_neq _ _) H). Qed.

Lemma complete_progress selected command length index buf w :
  selected = ADCS_I2C_CMD_WRITE_FRAME -> 4 <= length <= 268 -> length = 4 + announced_length buf ->
  w = 3 :: prefix_of length buf -> write_progress ADCS_RX_PHASE_COMPLETE selected command length index buf w None.
Proof. by intros -> ? ? ->. Qed.

Lemma payload_progress selected command index buf :
  selected = ADCS_I2C_CMD_WRITE_FRAME -> announced_length buf <= 264 -> announced_length buf <> 0 ->
  write_progress ADCS_RX_PHASE_WRITE_PAYLOAD selected command (u16 (4 + announced_length buf)) index buf
    (3 :: prefix_of 4 buf) (Some (Receiving (RxFrame index 4) (announced_length buf) 0)).
Proof.
  intros -> ? ?. pose proof (announced_nonneg buf). unfold u16. rewrite Z.mod_small by lia.
  split_and!; done || lia.
Qed.

Lemma receive_rx_inv accepted l l' :
  s_i2c (board l) = Some handle -> rx_inv l ->
  link_step handle own_address (BusReceived accepted) l = Some l' -> rx_inv l'.
Proof.
  intros Hh Hinv Hstep. cbn [link_step] in Hstep.
  destruct (armed l) as [[b size stored|]|] eqn:Ha; [|done..].
  destruct (Z.eqb_spec stored size) as [->|]; [|done].
  pose proof Hinv as (Hslots & _ & _ & _ & Hw). pose proof (slots_ok_slot (s_rx_active_index (board l)) _ Hslots) as Hlen.
  change ADCS_I2C_MAX_FRAME_WIRE_SIZE with 268 in Hlen.
  unfold HAL_I2C_SlaveRxCpltCallback in Hstep. rewrite attached_handle in Hstep by done. cbn [negb] in Hstep.
  destruct l as [s a w box q t]. unfold current_write in Hw. cbn [board armed written mailbox queued transmitted] in *. subst a.
  assert (forall s' a', s_rx_frames s' = s_rx_frames s -> s_rx_active_index s' = s_rx_active_index s ->
    s_rx_ready_index s' = s_rx_ready_index s -> s_rx_ready_length s' = s_rx_ready_length s ->
    s_rx_ready s' = s_rx_ready s -> current_write (mk_link s' a' w box q t) -> rx_inv (mk_link s' a' w box q t)) as Hkeep
    by (intros; by apply (rx_inv_write s _ (Some (Receiving b size size)) _ w _ _ q t)).
  destruct (s_rx_phase s) eqn:Hp; cbn [write_progress] in Hw; try done.
  - destruct Hw as (-> & -> & [[? _]|[_ ->]]); [done|]. unfold command_received in Hstep. cbv zeta in Hstep.
    destruct ((s_command_byte s =? _) || _) eqn:E.
    + assert (arm accepted [] = None) as Harm by (by destruct accepted). simplify_eq.
      apply Hkeep; [reflexivity..|]. rewrite Harm.
      exact (command_progress (s_command_byte s) (s_rx_active_length s) (s_rx_active_index s) _ E).
    + destruct (Z.eqb_spec (s_command_byte s) ADCS_I2C_CMD_WRITE_FRAME) as [E3|E3].
      * destruct accepted; simplify_eq; apply Hkeep; try reflexivity.
        -- exact (write_command_progress (s_command_byte s) (s_rx_active_index s) _ E3).
        -- exact (write_command_not_frame (s_command_byte s) E3).
      * assert (arm accepted [GenerateNack] = None) as Harm by (by destruct accepted). simplify_eq.
        apply Hkeep; [reflexivity..|]. rewrite Harm. 
        exact (other_command_not_frame (s_command_byte s) E3).
  - destruct Hw as (-> & -> & _ & Hl & Hsel & ->). unfold header_received in Hstep. cbv zeta in Hstep.
    destruct (Z.ltb_spec ADCS_I2C_MAX_FRAME_PAYLOAD (announced_length (slot (s_rx_active_index s) (s_rx_frames s)))) as [E|E];
      [|destruct (Z.eqb_spec (announced_length (slot (s_rx_active_index s) (s_rx_frames s))) 0) as [E0|E0]].
    + simplify_eq. apply Hkeep; [reflexivity..|]. change ADCS_I2C_MAX_FRAME_PAYLOAD with 264 in E.
      destruct accepted; apply (bad_header_not_frame _ Hlen E).
    + assert (arm accepted [GenerateNack] = None) as Harm by (by destruct accepted). simplify_eq.
      apply Hkeep; [reflexivity..|]. rewrite Harm.
      apply (complete_progress (s_selected_command s) (s_command_byte s) (s_rx_active_length s)
               (s_rx_active_index s) (slot (s_rx_active_index s) (s_rx_frames s))); rewrite ?Hl; done || lia.
    + pose proof (announced_nonneg (slot (s_rx_active_index s) (s_rx_frames s))).
      change ADCS_I2C_MAX_FRAME_PAYLOAD with 264 in E.
      destruct accepted; simplify_eq; apply Hkeep; try reflexivity.
      * apply (payload_progress (s_selected_command s)); [exact Hsel|exact E|exact E0].
      * exact (partial_write_not_frame 0 _ Hlen ltac:(lia) E).
  - destruct Hw as (-> & Hsz & Hsz' & _ & Hl & Hsel & ->).
    assert (arm accepted [GenerateNack] = None) as Harm by (by destruct accepted). simplify_eq.
    apply Hkeep; [reflexivity..|]. rewrite Harm.
    apply (complete_progress (s_selected_command s) (s_command_byte s) (s_rx_active_length s)
             (s_rx_active_index s) (slot (s_rx_active_index s) (s_rx_frames s))); rewrite ?Hl; done || lia.
Qed.

Lemma no_write phase command length index buf : write_progress phase 0 command length index buf [] None.
Proof. by destruct phase. Qed.

Lemma sent_rx_inv l l' :
  s_i2c (board l) = Some handle -> rx_inv l -> link_step handle own_address BusSent l = Some l' -> rx_inv l'.
Proof.
  intros Hh Hinv Hstep. cbn [link_step] in Hstep.
  destruct (armed l) as [[|b size sent]|] eqn:Ha; [done| |done].
  destruct (len sent =? size); [|done].
  unfold HAL_I2C_SlaveTxCpltCallback in Hstep. rewrite attached_handle in Hstep by done. cbn [negb] in Hstep.
  pose proof (current_write_aborted l Hinv) as Hw.
  destruct l as [s a w box q t]. cbn [board armed written mailbox queued transmitted] in *. subst a.
  destruct (_ && _); simplify_eq;
    (apply (rx_inv_write s _ (Some (Sending b size sent)) _ w _ _ q t); [reflexivity..| |done]);
    exact (no_write (s_rx_phase s) _ _ _ _).
Qed.

Lemma incomplete_not_frame s w :
  write_progress (s_rx_phase s) (s_selected_command s) (s_command_byte s) (s_rx_active_length s)
    (s_rx_active_index s) (slot (s_rx_active_index s) (s_rx_frames s)) w None ->
  frame_complete s = false -> written_frame w = None.
Proof.
  unfold frame_complete. destruct (s_rx_phase s); try done. cbn [write_progress].
  by destruct (s_selected_command s =? ADCS_I2C_CMD_WRITE_FRAME).
Qed.

Lemma complete_is_frame s w :
  write_progress (s_rx_phase s) (s_selected_command s) (s_command_byte s) (s_rx_active_length s)
    (s_rx_active_index s) (slot (s_rx_active_index s) (s_rx_frames s)) w None ->
  frame_complete s = true -> slots_ok (s_rx_frames s) ->
  written_frame w = Some (prefix_of (s_rx_active_length s) (slot (s_rx_active_index s) (s_rx_frames s))).
Proof.
  unfold frame_complete. intros Hw [Hp%bool_decide_eq_true Hc]%andb_true_iff Hslots. rewrite Hp in Hw. cbn [write_progress] in Hw.
  rewrite Hc in Hw. destruct Hw as (? & ? & ->). apply whole_write_frame; [|done..].
  by apply slots_ok_slot.
Qed.

Lemma malformed_rx_fields s :
  let s' := adcs_note_malformed_receive s in
  s_rx_frames s' = s_rx_frames s /\ s_rx_active_index s' = s_rx_active_index s
  /\ s_rx_ready_index s' = s_rx_ready_index s /\ s_rx_ready_length s' = s_rx_ready_length s
  /\ s_rx_ready s' = s_rx_ready s /\ s_selected_command s' = s_selected_command s
  /\ s_i2c s' = s_i2c s.
Proof. unfold adcs_note_malformed_receive. by destruct (_ || _). Qed.

(** What publishing does to the mailbox. *)
Lemma publish_received s :
  s_rx_active_index s = 0 \/ s_rx_active_index s = 1 ->
  (s_rx_ready s = true -> s_rx_ready_index s = Z.lxor (s_rx_active_index s) 1) ->
  let s' := adcs_publish_received_frame s in
  s_rx_frames s' = s_rx_frames s /\ (s_rx_active_index s' = 0 \/ s_rx_active_index s' = 1)
  /\ (s_rx_ready s' = true -> s_rx_ready_index s' = Z.lxor (s_rx_active_index s') 1)
  /\ received s' = post (Some (prefix_of (s_rx_active_length s) (slot (s_rx_active_index s) (s_rx_frames s)))) (received s).
Proof.
  intros Hi Hr. unfold adcs_publish_received_frame. destruct (s_rx_ready s) eqn:E; cbv zeta.
  - split; [reflexivity|]. split; [exact Hi|]. split; [intros _; exact (Hr eq_refl)|].
    change (received s = post (Some (prefix_of (s_rx_active_length s) (slot (s_rx_active_index s) (s_rx_frames s)))) (received s)).
    unfold received. by rewrite E.
  - pose proof (flip_index _ Hi) as [Hj Hflip]. unfold received at 2. rewrite E.
    split; [reflexivity|]. split; [exact Hj|]. split; [intros _; exact (eq_sym Hflip)|reflexivity].
Qed.

(** At STOP the mailbox gets the frame, if a whole one was written. *)
Lemma finish_write_received s w :
  slots_ok (s_rx_frames s) -> s_rx_active_index s = 0 \/ s_rx_active_index s = 1 ->
  (s_rx_ready s = true -> s_rx_ready_index s = Z.lxor (s_rx_active_index s) 1) ->
  write_progress (s_rx_phase s) (s_selected_command s) (s_command_byte s) (s_rx_active_length s)
    (s_rx_active_index s) (slot (s_rx_active_index s) (s_rx_frames s)) w None ->
  let s' := finish_write s in
  s_rx_frames s' = s_rx_frames s /\ (s_rx_active_index s' = 0 \/ s_rx_active_index s' = 1)
  /\ (s_rx_ready s' = true -> s_rx_ready_index s' = Z.lxor (s_rx_active_index s') 1)
  /\ received s' = post (written_frame w) (received s).
Proof.
  intros Hslots Hi Hr Hw. cbv zeta. unfold finish_write.
  match goal with |- context [adcs_note_malformed_receive ?t] => set (s1 := t) end.
  destruct (malformed_rx_fields s1) as (Hf2 & Hi2 & Hri2 & Hrl2 & Hr2 & _).
  unfold received at 1. rewrite Hf2, Hi2, Hri2, Hrl2, Hr2. fold (received s1). subst s1.
  destruct (frame_complete s) eqn:E.
  - rewrite (complete_is_frame s w Hw E Hslots). by apply publish_received.
  - rewrite (incomplete_not_frame s w Hw E). split_and!; [done..|]. by destruct (received s).
Qed.

Definition idle_slave s : adcs_slave :=
  s <| s_rx_phase := ADCS_RX_PHASE_IDLE |> <| s_tx_kind := ADCS_TX_KIND_NONE |> <| s_selected_command := 0 |>.

Lemma idle_rx_inv s s1 w q t :
  slots_ok (s_rx_frames s) ->
  s_rx_frames s1 = s_rx_frames s /\ (s_rx_active_index s1 = 0 \/ s_rx_active_index s1 = 1)
  /\ (s_rx_ready s1 = true -> s_rx_ready_index s1 = Z.lxor (s_rx_active_index s1) 1)
  /\ received s1 = post (written_frame w) (received s) ->
  rx_inv (mk_link (idle_slave s1) None [] (post (written_frame w) (received s)) q t).
Proof.
  intros Hslots (Hf & Hi & Hr & Hb). split; [exact (slots_ok_eq _ _ Hf Hslots)|].
  split; [exact Hi|]. split; [exact Hr|]. split; [exact (eq_sym Hb)|done].
Qed.

Lemma stop_rx_inv accepted l l' :
  s_i2c (board l) = Some handle -> rx_inv l ->
  link_step handle own_address (BusStop accepted) l = Some l' -> rx_inv l'.
Proof.
  intros Hh Hinv Hstep. cbn [link_step] in Hstep. destruct (unreported l) eqn:Hu; [done|].
  pose proof (current_write_aborted l Hinv Hu) as Hw. destruct Hinv as (Hslots & Hi & Hr & Hbox & _).
  unfold HAL_I2C_ListenCpltCallback in Hstep. rewrite attached_handle in Hstep by done. cbn [negb] in Hstep.
  destruct l as [s a w box q t]. unfold current_write in Hw. cbn [board armed written mailbox queued transmitted] in *.
  match type of Hstep with context [finish_write ?s0] =>
    pose proof (finish_write_received s0 w Hslots Hi Hr Hw) as Hf; cbv zeta in Hf;
    change (s_rx_frames s0) with (s_rx_frames s) in Hf; change (received s0) with (received s) in Hf;
    revert Hf Hstep; generalize (finish_write s0)
  end.
  intros s1 Hf Hstep.
  assert (rx_inv (mk_link (idle_slave s1) None [] (post (written_frame w) box) q t)) as Hfinal
    by (subst box; exact (idle_rx_inv s s1 w q t Hslots Hf)).
  destruct accepted; simplify_eq.
  - exact (rx_inv_view _ _ None None _ _ q q t t eq_refl eq_refl Hfinal).
  - exact (rx_inv_view _ _ None None _ _ q q t t eq_refl eq_refl Hfinal).
Qed.

(** After an error the phase is rejected, or the write was none. *)
Lemma error_progress s command length index buf :
  frame_complete s = false ->
  let s' := adcs_note_malformed_receive s in
  write_progress (s_rx_phase s') (s_selected_command s') command length index buf [] None.
Proof.
  intros E. unfold adcs_note_malformed_receive. cbv zeta. destruct (_ || _); [done|].
  revert E. unfold frame_complete. destruct (s_rx_phase s); try done. intros E. cbn [write_progress].
  replace (s_selected_command s =? ADCS_I2C_CMD_WRITE_FRAME) with false; done.
Qed.

Lemma error_rx_inv error l l' :
  s_i2c (board l) = Some handle -> rx_inv l ->
  link_step handle own_address (BusError error) l = Some l' -> rx_inv l'.
Proof.
  intros Hh (Hslots & Hi & Hr & Hbox & _) Hstep. cbn [link_step] in Hstep.
  unfold HAL_I2C_ErrorCallback in Hstep. rewrite attached_handle in Hstep by done. cbn [negb] in Hstep.
  destruct l as [s a w box q t]. cbn [board armed written mailbox queued transmitted] in *.
  destruct (frame_complete _) eqn:E; simplify_eq; [by split_and!|].
  match type of E with frame_complete ?s1 = _ =>
    destruct (malformed_rx_fields s1) as (Hf2 & Hi2 & Hri2 & Hrl2 & Hr2 & _);
    assert (rx_inv (mk_link (adcs_note_malformed_receive s1) None [] (received s) q t)) as Hfinal end.
  { unfold rx_inv, received. cbn [board mailbox]. rewrite Hf2, Hi2, Hri2, Hrl2, Hr2.
    split_and!; [done..|]. unfold current_write. cbn [board armed written].
    apply error_progress. exact E. }
  exact Hfinal.
Qed.
(** The calls of the main loop. *)
Lemma claim_rx_view s : rx_view (snd (process_claim s)) = rx_view s.
Proof. unfold process_claim. by repeat case_match. Qed.

Lemma listen_rx_view state listening s : rx_view (snd (process_listen state listening s)) = rx_view s.
Proof. unfold process_listen. by repeat case_match. Qed.

Lemma queue_rx_view wf n s : rx_view (snd (adcs_i2c_slave_queue_transmit_frame wf n s)) = rx_view s.
Proof. unfold adcs_i2c_slave_queue_transmit_frame. by repeat case_match. Qed.

Lemma take_rx_inv l :
  rx_inv l ->
  rx_inv (mk_link (snd (adcs_i2c_slave_take_received_frame (board l))) (armed l) (written l) None
            (queued l) (transmitted l)).
Proof.
  destruct l as [s a w box q t]. unfold rx_inv, adcs_i2c_slave_take_received_frame, received.
  cbn [board mailbox armed written queued transmitted]. intros (Hslots & Hi & Hr & Hbox & Hw).
  destruct (s_rx_ready s) eqn:E; cbn [negb snd].
  - done.
  - rewrite E. done.
Qed.

Lemma main_rx_inv l s' q' t' :
  rx_view s' = rx_view (board l) -> rx_inv l ->
  rx_inv (mk_link s' (armed l) (written l) (mailbox l) q' t').
Proof. destruct l as [s a w box q t]. intros Hv. by apply rx_inv_view. Qed.

Lemma link_step_rx_inv e l l' :
  s_i2c (board l) = Some handle -> rx_inv l -> link_step handle own_address e l = Some l' -> rx_inv l'.
Proof.
  intros Hh Hinv Hstep. destruct e.
  1: by eapply address_rx_inv. 2: by eapply receive_rx_inv. 3: by eapply sent_rx_inv.
  3: by eapply stop_rx_inv. 3: by eapply error_rx_inv.
  all: cbn [link_step] in Hstep.
  - destruct (armed l) as [[b size stored|]|] eqn:Ha; [|done..].
    destruct (Z.ltb_spec stored size); [|done]. simplify_eq. apply store_rx_inv; [done|].
    rewrite <- Ha. by destruct l.
  - destruct (armed l) as [[|b size sent]|] eqn:Ha; [done| |done]. destruct (len sent <? size); [|done]. simplify_eq.
    pose proof Hinv as (H1 & H2 & H3 & H4 & H5). split_and!; [done..|]. unfold current_write in *.
    cbn [board armed written] in *. rewrite Ha in H5. by destruct (s_rx_phase (board l)).
  - simplify_eq. apply main_rx_inv; [apply claim_rx_view|done].
  - simplify_eq. apply main_rx_inv; [apply listen_rx_view|done].
  - simplify_eq. by apply main_rx_inv.
  - simplify_eq. by apply main_rx_inv.
  - simplify_eq. by apply take_rx_inv.
  - destruct (_ && _); [|done]. pose proof (queue_rx_view wire_frame wire_length (board l)) as Hv.
    destruct (adcs_i2c_slave_queue_transmit_frame _ _ _) as [r s1]. injection Hstep as <-.
    by apply main_rx_inv.
Qed.
End Receiving.

(** ** Transmitting *)

(** The frame that waits for the master. *)
Definition pending s : list (list Z) :=
  if s_tx_ready s then [prefix_of (s_tx_ready_length s) (slot (s_tx_ready_index s) (s_tx_frames s))] else [].

Definition tx_view s :=
  (s_tx_kind s, s_tx_frames s, s_tx_ready_index s, s_tx_ready_length s, s_tx_ready s, s_tx_in_progress_index s,
   s_status_response s).

(** The transfer reads the pending frame, or the status. *)
Definition transfer_ok s (a : option transfer) : Prop :=
  match a with
  | Some (Sending (TxFrame i) size sent) =>
      s_tx_kind s = ADCS_TX_KIND_FRAME /\ s_tx_ready s = true /\ i = s_tx_ready_index s
      /\ s_tx_in_progress_index s = s_tx_ready_index s /\ size = s_tx_ready_length s /\ len sent <= size
      /\ sent = prefix_of (len sent) (slot i (s_tx_frames s))
  | Some (Sending StatusResponse size sent) =>
      s_tx_kind s = ADCS_TX_KIND_STATUS /\ size = 5 /\ len (s_status_response s) = 5 /\ len sent <= size
      /\ sent = prefix_of (len sent) (s_status_response s)
  | _ => True
  end.

Definition outbox_ok s : Prop :=
  slots_ok (s_tx_frames s) /\ (s_tx_ready_index s = 0 \/ s_tx_ready_index s = 1)
  /\ (s_tx_ready s = true -> 4 <= s_tx_ready_length s <= 268
      /\ s_tx_ready_length s = 4 + announced_length (slot (s_tx_ready_index s) (s_tx_frames s))).

Definition tx_inv l : Prop :=
  outbox_ok (board l) /\ queued l = transmitted l ++ pending (board l) /\ transfer_ok (board l) (armed l).

Lemma outbox_view s s' : tx_view s' = tx_view s -> outbox_ok s -> outbox_ok s'.
Proof. unfold tx_view, outbox_ok. intros Hv. injection Hv as _ -> -> -> -> _ _. done. Qed.

Lemma pending_view s s' : tx_view s' = tx_view s -> pending s' = pending s.
Proof. unfold tx_view, pending. intros Hv. by injection Hv as _ -> -> -> -> _ _. Qed.

Lemma transfer_view s s' a : tx_view s' = tx_view s -> transfer_ok s a -> transfer_ok s' a.
Proof.
  unfold tx_view, transfer_ok. intros Hv. injection Hv as Hk Hf Hi Hl Hr Hp Hs.
  destruct a as [[|[|i] size sent]|]; try done; by rewrite ?Hk, ?Hf, ?Hi, ?Hl, ?Hr, ?Hp, ?Hs.
Qed.

(** A step that leaves the outbox alone and starts no transfer for sending. *)
Lemma tx_inv_view s s' a a' w w' box box' q t :
  tx_view s' = tx_view s -> a' = a \/ transfer_ok s' a' ->
  tx_inv (mk_link s a w box q t) -> tx_inv (mk_link s' a' w' box' q t).
Proof.
  intros Hv Ha (Ho & Hq & Ht). cbn [board armed queued transmitted] in *. split_and!.
  - by eapply outbox_view.
  - cbn [board queued transmitted]. by rewrite (pending_view s s' Hv).
  - destruct Ha as [-> | Ha]; [|exact Ha]. by apply (transfer_view s).
Qed.

(** Starting a transfer. *)
Lemma start_transmit_ok s :
  outbox_ok s ->
  let '(call, s') := start_transmit s in
  outbox_ok s' /\ pending s' = pending s
  /\ transfer_ok s' (arm true [call]) /\ arm false [call] = None.
Proof.
  intros Ho. unfold start_transmit. destruct (_ =? ADCS_I2C_CMD_GET_STATUS); [|destruct (_ && _) eqn:E].
  - split_and!; try done; cbn; lia.
  - apply andb_true_iff in E as [_ E]. destruct Ho as (H1 & H2 & H3).
    split_and!; try done. cbn [arm transfer_ok]. change (len []) with 0.
    pose proof (H3 E) as [? _]. split_and!; try done. cbn. lia.
  - split_and!; try done; cbn; lia.
Qed.

Lemma sent_frame_whole s i size sent :
  outbox_ok s -> transfer_ok s (Some (Sending (TxFrame i) size sent)) -> len sent = size ->
  pending s = [sent] /\ s_tx_kind s = ADCS_TX_KIND_FRAME /\ s_tx_ready s = true
  /\ s_tx_in_progress_index s = s_tx_ready_index s.
Proof.
  intros _ (Hk & Hr & -> & Hp & -> & _ & Hsent) Hn. unfold pending. rewrite Hr, <- Hn, <- Hsent. done.
Qed.

Lemma fetch_next s b size sent :
  outbox_ok s -> transfer_ok s (Some (Sending b size sent)) -> len sent < size ->
  transfer_ok s (Some (Sending b size (sent ++ [fetch b (len sent) s]))).
Proof.
  intros (Hslots & _ & Hr) Ht Hlt. destruct b as [|i]; cbn [transfer_ok fetch] in *.
  - destruct Ht as (Hk & -> & H5 & Hle & Hsent). split_and!; try done; rewrite len_app; change (len [_]) with 1; [lia|].
    rewrite prefix_of_byte_at, <- Hsent by (pose proof (len_nonneg sent); lia). done.
  - destruct Ht as (Hk & Hready & -> & Hp & -> & Hle & Hsent). destruct (Hr Hready) as [Hl _].
    pose proof (slots_ok_slot (s_tx_ready_index s) _ Hslots) as H268. change ADCS_I2C_MAX_FRAME_WIRE_SIZE with 268 in H268.
    split_and!; try done; rewrite len_app; change (len [_]) with 1; [lia|].
    rewrite prefix_of_byte_at, <- Hsent by (pose proof (len_nonneg sent); lia). done.
Qed.

(** Queueing into the slot that is not being read. *)
Lemma queue_outbox wf n s :
  n <= len wf -> outbox_ok s ->
  let '(r, s') := adcs_i2c_slave_queue_transmit_frame wf n s in
  outbox_ok s' /\ pending s' = pending s ++ (if bool_decide (r = HAL_OK) then [prefix_of n wf] else [])
  /\ (forall a, transfer_ok s a -> transfer_ok s' a).
Proof.
  intros Hn Ho. pose proof Ho as (Hslots & Hi & Hr). unfold adcs_i2c_slave_queue_transmit_frame.
  destruct (adcs_wire_frame_valid wf n) eqn:Hv; cbn [negb]; [|by rewrite app_nil_r].
  destruct (s_tx_ready s) eqn:Hready; [by rewrite app_nil_r|]. apply frame_valid_spec in Hv as [Hb Ha].
  destruct (flip_index _ Hi) as [Hj Hflip]. set (j := Z.lxor (s_tx_ready_index s) 1) in *.
  pose proof (slots_ok_slot j _ Hslots) as H268. change ADCS_I2C_MAX_FRAME_WIRE_SIZE with 268 in H268.
  assert (len (prefix_of n wf) = n) as Hln by (apply len_prefix_of; lia).
  set (buf := patch (slot j (s_tx_frames s)) 0 (prefix_of n wf)).
  assert (len buf = 268) as Hbuf by (subst buf; rewrite len_patch; lia).
  assert (prefix_of n buf = prefix_of n wf) as Hpre by (subst buf; rewrite patch_0; by apply prefix_of_app).
  assert (u16 n = n) as Hu by (unfold u16; apply Z.mod_small; lia).
  split_and!.
  - unfold outbox_ok. split; [by apply slots_ok_set|]. split; [exact Hj|]. intros _.
    change (4 <= u16 n <= 268 /\ u16 n = 4 + announced_length (slot j (set_slot j buf (s_tx_frames s)))).
    rewrite Hu, slot_set, <- (announced_prefix n), Hpre, announced_prefix by lia. lia.
  - unfold pending at 2. rewrite Hready.
    change ([prefix_of (u16 n) (slot j (set_slot j buf (s_tx_frames s)))] = [prefix_of n wf]).
    by rewrite Hu, slot_set, Hpre.
  - intros a. destruct a as [[|[|i] size sent]|]; try done. by intros (_ & Hr' & _); rewrite Hready in Hr'.
Qed.

Section Transmitting.
Context (handle own_address : Z).

Lemma rx_complete_tx_view accepted s :
  tx_view (snd (HAL_I2C_SlaveRxCpltCallback handle accepted s)) = tx_view s.
Proof.
  unfold HAL_I2C_SlaveRxCpltCallback, command_received, header_received. cbv zeta.
  by repeat case_match.
Qed.

Lemma rx_complete_calls accepted s :
  transfer_ok s (arm accepted (fst (HAL_I2C_SlaveRxCpltCallback handle accepted s))).
Proof.
  unfold HAL_I2C_SlaveRxCpltCallback, command_received, header_received. cbv zeta.
  by destruct accepted; repeat case_match.
Qed.

Lemma finish_write_tx_view s : tx_view (finish_write s) = tx_view s.
Proof.
  unfold finish_write, adcs_publish_received_frame, adcs_note_malformed_receive. by repeat case_match.
Qed.

Lemma error_tx_view error s : tx_view (snd (HAL_I2C_ErrorCallback handle error s)) = tx_view s.
Proof.
  unfold HAL_I2C_ErrorCallback, adcs_note_malformed_receive. cbv zeta. by repeat case_match.
Qed.

Lemma address_tx_inv direction code accepted l l' :
  s_i2c (board l) = Some handle -> tx_inv l ->
  link_step handle own_address (BusAddress direction code accepted) l = Some l' -> tx_inv l'.
Proof.
  intros Hh Hinv Hstep. cbn [link_step] in Hstep. destruct (unreported l); [done|].
  unfold HAL_I2C_AddrCallback in Hstep. rewrite attached_handle in Hstep by done. cbn [negb] in Hstep.
  destruct l as [s a w box q t]. cbn [board written mailbox queued transmitted] in *.
  destruct (code =? _); cbn [negb andb] in Hstep.
  2:{ simplify_eq. eapply (tx_inv_view s); [reflexivity|right; by destruct accepted|exact Hinv]. }
  destruct (direction =? I2C_DIRECTION_TRANSMIT).
  { simplify_eq. destruct accepted; (eapply (tx_inv_view s); [reflexivity|by right|exact Hinv]). }
  destruct (direction =? I2C_DIRECTION_RECEIVE).
  2:{ simplify_eq. eapply (tx_inv_view s); [reflexivity|right; by destruct accepted|exact Hinv]. }
  match type of Hstep with context [start_transmit ?s0] => set (s1 := s0) in Hstep end.
  assert (tx_view s1 = tx_view s) as Hv by reflexivity. clearbody s1.
  destruct Hinv as (Ho & Hq & _). cbn [board queued transmitted armed] in *.
  pose proof (start_transmit_ok s1 (outbox_view _ _ Hv Ho)) as Hs. rewrite <- (pending_view _ _ Hv) in Hq.
  destruct (start_transmit s1) as [call s2]. destruct Hs as (Ho2 & Hp2 & Ht2 & Hn2). rewrite <- Hp2 in Hq.
  destruct accepted; injection Hstep as <-; (split_and!; [exact Ho2|exact Hq|]); [exact Ht2|exact I].
Qed.

Lemma sent_tx_inv l l' :
  s_i2c (board l) = Some handle -> tx_inv l -> link_step handle own_address BusSent l = Some l' -> tx_inv l'.
Proof.
  intros Hh (Ho & Hq & Ht) Hstep. cbn [link_step] in Hstep.
  destruct (armed l) as [[|b size sent]|] eqn:Ha; [done| |done].
  destruct (Z.eqb_spec (len sent) size) as [Hn|]; [|done].
  unfold HAL_I2C_SlaveTxCpltCallback in Hstep. rewrite attached_handle in Hstep by done. cbn [negb] in Hstep.
  match type of Hstep with context [noting ?s0 transmit_complete_count] => set (s1 := noting s0 transmit_complete_count) in Hstep end.
  assert (tx_view s1 = tx_view (board l)) as Hv by reflexivity. clearbody s1.
  apply (outbox_view _ _ Hv) in Ho. apply (transfer_view _ _ _ Hv) in Ht. rewrite <- (pending_view _ _ Hv) in Hq.
  destruct b as [|i].
  - destruct Ht as (Hk & _). rewrite bool_decide_false in Hstep by (by rewrite Hk). cbn [andb] in Hstep.
    simplify_eq. split_and!; [exact Ho|exact Hq|done].
  - destruct (sent_frame_whole _ _ _ _ Ho Ht Hn) as (Hp & Hk & Hr & Hi).
    rewrite bool_decide_true, Hr, Hi, Z.eqb_refl in Hstep by done. cbn [andb] in Hstep. simplify_eq.
    destruct Ho as (Hsl & Hix & _). split_and!; [split; [exact Hsl|split; [exact Hix|done]]| |done].
    cbn [queued transmitted board]. rewrite Hq, Hp. exact (eq_sym (app_nil_r _)).
Qed.

Lemma link_step_tx_inv e l l' :
  s_i2c (board l) = Some handle -> tx_inv l -> link_step handle own_address e l = Some l' -> tx_inv l'.
Proof.
  intros Hh Hinv Hstep. destruct e.
  1: by eapply address_tx_inv. 4: by eapply sent_tx_inv.
  all: cbn [link_step] in Hstep; destruct l as [s a w box q t]; cbn [board armed written mailbox queued transmitted] in *.
  - destruct a as [[b size stored|]|]; [|done..]. destruct (stored <? size); [|done]. simplify_eq.
    eapply (tx_inv_view s); [by destruct b|by right|exact Hinv].
  - destruct a as [[b size stored|]|]; [|done..]. destruct (stored =? size); [|done].
    pose proof (rx_complete_tx_view accepted s) as Hv. pose proof (rx_complete_calls accepted s) as Ha.
    destruct (HAL_I2C_SlaveRxCpltCallback handle accepted s) as [calls s1]. injection Hstep as <-.
    eapply (tx_inv_view s); [exact Hv|right; by apply (transfer_view s)|exact Hinv].
  - destruct a as [[|b size sent]|]; [done| |done]. destruct (Z.ltb_spec (len sent) size); [|done]. simplify_eq.
    destruct Hinv as (Ho & Hq & Ht). split_and!; [done..|]. by apply fetch_next.
  - destruct (unreported _); [done|]. unfold HAL_I2C_ListenCpltCallback in Hstep.
    rewrite attached_handle in Hstep by done. cbn [negb] in Hstep.
    match type of Hstep with context [finish_write ?s0] =>
      pose proof (finish_write_tx_view s0) as Hv; change (tx_view s0) with (tx_view s) in Hv;
      revert Hv Hstep; generalize (finish_write s0) end.
    intros s1 Hv Hstep. destruct Hinv as (Ho & Hq & _). cbn [board queued transmitted armed] in *.
    apply (outbox_view _ _ Hv) in Ho. rewrite <- (pending_view _ _ Hv) in Hq.
    destruct accepted; injection Hstep as <-; (split_and!; [exact Ho|exact Hq|done]).
  - pose proof (error_tx_view error s) as Hv. destruct (HAL_I2C_ErrorCallback handle error s) as [calls s1].
    injection Hstep as <-. eapply (tx_inv_view s); [exact Hv|by right|exact Hinv].
  - simplify_eq. eapply (tx_inv_view s); [unfold process_claim; by repeat case_match|by left|exact Hinv].
  - simplify_eq. eapply (tx_inv_view s); [unfold process_listen; by repeat case_match|by left|exact Hinv].
  - simplify_eq. by eapply (tx_inv_view s); [reflexivity|left|exact Hinv].
  - simplify_eq. by eapply (tx_inv_view s); [reflexivity|left|exact Hinv].
  - simplify_eq. eapply (tx_inv_view s); [unfold adcs_i2c_slave_take_received_frame; by repeat case_match|by left|exact Hinv].
  - destruct (_ && _) eqn:E; [|done]. apply andb_true_iff in E as [E%Z.leb_le _].
    destruct Hinv as (Ho & Hq & Ht). cbn [board queued transmitted armed] in *.
    pose proof (queue_outbox wire_frame wire_length s E Ho) as H.
    destruct (adcs_i2c_slave_queue_transmit_frame _ _ _) as [r s1]. destruct H as (Ho1 & Hp1 & Ht1).
    injection Hstep as <-. split_and!; cbn [board queued transmitted armed]; [exact Ho1| |by apply Ht1].
    rewrite Hp1, app_assoc, <- Hq. destruct (bool_decide _); [done|]. by rewrite app_nil_r.
Qed.
End Transmitting.

(** ** Theorems *)

Section Slave.
Context (handle own_address : Z).

Lemma link_step_handle e l l' :
  s_i2c (board l) = Some handle -> link_step handle own_address e l = Some l' -> s_i2c (board l') = Some handle.
Proof.
  intros Hh Hstep. destruct e; cbn [link_step] in Hstep.
  - destruct (unreported l); [done|]. unfold HAL_I2C_AddrCallback, start_transmit in Hstep.
    rewrite attached_handle in Hstep by done. cbn [negb] in Hstep. by repeat case_match; simplify_eq.
  - repeat case_match; simplify_eq. by destruct b.
  - destruct (armed l) as [[b size stored|]|]; [|done..]. destruct (stored =? size); [|done].
    unfold HAL_I2C_SlaveRxCpltCallback, command_received, header_received in Hstep. cbv zeta in Hstep.
    by repeat case_match; simplify_eq.
  - by repeat case_match; simplify_eq.
  - destruct (armed l) as [[|b size sent]|]; [done| |done]. destruct (len sent =? size); [|done].
    unfold HAL_I2C_SlaveTxCpltCallback in Hstep. by repeat case_match; simplify_eq.
  - destruct (unreported l); [done|]. unfold HAL_I2C_ListenCpltCallback, finish_write, adcs_note_malformed_receive,
      adcs_publish_received_frame in Hstep. by repeat case_match; simplify_eq.
  - unfold HAL_I2C_ErrorCallback, adcs_note_malformed_receive in Hstep. cbv zeta in Hstep.
    by repeat case_match; simplify_eq.
  - simplify_eq. unfold process_claim. rewrite Hh. by destruct (s_recovery_requested _).
  - simplify_eq. unfold process_listen. by repeat case_match.
  - by simplify_eq.
  - by simplify_eq.
  - simplify_eq. unfold adcs_i2c_slave_take_received_frame. by repeat case_match.
  - destruct (_ && _); [|done]. unfold adcs_i2c_slave_queue_transmit_frame in Hstep. by repeat case_match; simplify_eq.
Qed.

Definition mailbox_valid l : Prop := forall w, mailbox l = Some w -> adcs_wire_frame_valid w (len w) = true.

Lemma written_frame_valid bytes w : written_frame bytes = Some w -> adcs_wire_frame_valid w (len w) = true.
Proof. destruct bytes as [|c bytes]; [done|]. cbn. destruct (_ =? _); [|done]. cbn. destruct (adcs_wire_frame_valid bytes _) eqn:E; [|done]. by intros [= <-]. Qed.

Lemma link_step_mailbox e l l' :
  link_step handle own_address e l = Some l' ->
  mailbox l' = mailbox l \/ mailbox l' = None \/ mailbox l' = post (written_frame (written l)) (mailbox l).
Proof. intros Hstep. destruct e; cbn [link_step] in Hstep; repeat case_match; simplify_eq; auto. Qed.

Lemma link_reachable_inv l :
  link_reachable handle own_address l -> s_i2c (board l) = Some handle /\ rx_inv l /\ tx_inv l /\ mailbox_valid l.
Proof.
  induction 1 as [|e l l' _ (Hh & Hrx & Htx & Hm) Hstep].
  - split_and!; [done|unfold rx_inv|unfold tx_inv, outbox_ok|done]; split_and!; try done; by left.
  - split_and!; eauto using link_step_handle, link_step_rx_inv, link_step_tx_inv.
    intros w. destruct (link_step_mailbox _ _ _ Hstep) as [-> | [-> | ->]]; [apply Hm|done|].
    destruct (mailbox l) eqn:E; cbn [post]; [intros [= <-]; by apply Hm|apply written_frame_valid].
Qed.

(** C4. The slave delivers whole frames and nothing else.  Whatever the order of bytes,
    interrupts, bus errors, refused transfers and calls of the main loop, taking a frame
    answers exactly what a mailbox of one place answers that is filled, when it is free, at
    each STOP behind a complete write of a frame: command byte, header and the announced
    number of bytes.  The frame in it is valid and stays as it is until it is taken. *)
Theorem slave_receives_whole_frames l :
  link_reachable handle own_address l ->
  fst (adcs_i2c_slave_take_received_frame (board l)) = mailbox l
  /\ (forall w, mailbox l = Some w -> adcs_wire_frame_valid w (len w) = true)
  /\ (forall accepted l', link_step handle own_address (BusStop accepted) l = Some l' ->
      fst (adcs_i2c_slave_take_received_frame (board l')) = post (written_frame (written l)) (mailbox l)).
Proof.
  intros Hl. pose proof (link_reachable_inv l Hl) as (_ & (_ & _ & _ & Hbox & _) & _ & Hm).
  assert (forall m, fst (adcs_i2c_slave_take_received_frame (board m)) = received (board m)) as Htake.
  { intros m. unfold adcs_i2c_slave_take_received_frame, received. by destruct (s_rx_ready (board m)). }
  split_and!; [by rewrite Htake|exact Hm|]. intros accepted l' Hstep.
  pose proof (link_reachable_inv l' (link_reach_step _ _ _ _ _ Hl Hstep)) as (_ & (_ & _ & _ & Hbox' & _) & _).
  rewrite Htake, <- Hbox'. cbn [link_step] in Hstep. repeat case_match; by simplify_eq.
Qed.

(** C7. Every frame the main loop queues is read by the master once, whole and unchanged,
    in order: under every interleaving the accepted frames are those read to the end,
    followed by the one that waits.  While the master reads, it gets the bytes of that
    frame; another valid frame is refused as busy until the last byte has been read. *)
Theorem slave_transmits_each_frame_once l :
  link_reachable handle own_address l ->
  queued l = transmitted l ++ pending (board l)
  /\ (forall i size sent, armed l = Some (Sending (TxFrame i) size sent) ->
      exists w, pending (board l) = [w] /\ size = len w /\ sent = prefix_of (len sent) w)
  /\ (forall w n, adcs_wire_frame_valid w n = true ->
      fst (adcs_i2c_slave_queue_transmit_frame w n (board l))
      = match pending (board l) with [] => HAL_OK | _ => HAL_BUSY end).
Proof.
  intros Hl. pose proof (link_reachable_inv l Hl) as (_ & _ & (Ho & Hq & Ht) & _).
  split_and!; [exact Hq| |].
  - intros i size sent Ha. rewrite Ha in Ht. destruct Ht as (_ & Hready & -> & _ & -> & Hle & Hsent).
    destruct Ho as (Hslots & _ & Hr). destruct (Hr Hready) as [Hn _].
    pose proof (slots_ok_slot (s_tx_ready_index (board l)) _ Hslots) as H268.
    change ADCS_I2C_MAX_FRAME_WIRE_SIZE with 268 in H268. unfold pending. rewrite Hready. eexists. split; [done|].
    rewrite len_prefix_of by lia. split; [done|]. rewrite prefix_of_prefix_of by lia. by rewrite Z.min_l by lia.
  - intros w n Hv. unfold adcs_i2c_slave_queue_transmit_frame, pending. rewrite Hv. cbn [negb].
    by destruct (s_tx_ready (board l)).
Qed.

(** Every state but [RESET] has a bit of [LISTEN] (0x28), [READY] (0x20) too: the process
    step takes a ready peripheral for a listening one and never enables listening again. *)
Lemma recovery_never_listens listening s :
  fst (adcs_i2c_slave_process HAL_I2C_STATE_READY listening s) = []
  /\ s_recovery_requested (snd (adcs_i2c_slave_process HAL_I2C_STATE_READY listening s))
     = s_recovery_requested s && bool_decide (s_i2c s = None).
Proof.
  unfold adcs_i2c_slave_process, process_claim, process_listen.
  destruct (s_i2c s) eqn:E; [destruct (s_recovery_requested s) eqn:E'|]; cbn [negb].
  - done.
  - split; [done|exact E'].
  - split; [done|]. rewrite bool_decide_true, andb_true_r by done. done.
Qed.
End Slave.

(** ** A session on the bus: the master writes a frame of two bytes, the main loop takes it and
    queues an answer, the master reads the first byte of it. *)
Definition demo_frame : list Z := [3; 1; 0; 2; 222; 173].

Definition demo_writes : list bus_event :=
  BusAddress I2C_DIRECTION_TRANSMIT 0x54 true :: BusByte 3 :: BusReceived true
  :: map BusByte [3; 1; 0; 2] ++ BusReceived true :: map BusByte [222; 173] ++ [BusReceived true].

Definition demo_written : link := default (link_start 7) (link_run 7 0x54 demo_writes (link_start 7)).
Definition demo_stopped : link := default demo_written (link_step 7 0x54 (BusStop true) demo_written).

Lemma slave_receives_whole_frames_witness :
  link_reachable 7 0x54 demo_written
  /\ fst (adcs_i2c_slave_take_received_frame (board demo_stopped)) = Some demo_frame.
Proof.
  assert (link_reachable 7 0x54 demo_written) as Hl
    by (apply (link_run_reachable 7 0x54 demo_writes (link_start 7)); [constructor|vm_compute; reflexivity]).
  split; [exact Hl|].
  rewrite (proj2 (proj2 (slave_receives_whole_frames 7 0x54 demo_written Hl)) true demo_stopped
             ltac:(vm_compute; reflexivity)).
  vm_compute. reflexivity.
Defined.

Definition demo_reads : list bus_event :=
  MainQueue demo_frame 6 :: BusAddress I2C_DIRECTION_TRANSMIT 0x54 true :: BusByte 2 :: BusReceived true
  :: BusAddress I2C_DIRECTION_RECEIVE 0x54 true :: [BusRead].

Definition demo_reading : link := default (link_start 7) (link_run 7 0x54 demo_reads (link_start 7)).

Lemma slave_transmits_each_frame_once_witness :
  link_reachable 7 0x54 demo_reading
  /\ armed demo_reading = Some (Sending (TxFrame 1) 6 [3])
  /\ fst (adcs_i2c_slave_queue_transmit_frame demo_frame 6 (board demo_reading)) = HAL_BUSY.
Proof.
  assert (link_reachable 7 0x54 demo_reading) as Hl
    by (apply (link_run_reachable 7 0x54 demo_reads (link_start 7)); [constructor|vm_compute; reflexivity]).
  split; [exact Hl|]. split; [vm_compute; reflexivity|].
  rewrite (proj2 (proj2 (slave_transmits_each_frame_once 7 0x54 demo_reading Hl)) demo_frame 6
             ltac:(vm_compute; reflexivity)).
  vm_compute. reflexivity.
Defined.
