(* ===== verification/I2cMaster.v ===== *)
(** The I2C bus master of the on-board computer ([platform/real/drivers/comms_i2c.c]).

    The kernel's I2C adapter is the class [I2cAdapter].  A loop that the code leaves only
    when the adapter or the clock lets it has fuel; [None] means that it is still running. *)

From S2P Require Import Prelude Frame.

Definition COMMS_BUS_OK : Z := 0.
Definition COMMS_BUS_ERROR : Z := -1.
Definition COMMS_BUS_TIMEOUT : Z := -2.
Definition COMMS_BUS_RECEIVE_TIMEOUT_MS : Z := 100.
Definition OBC_ADDRESS : Z := 1.
Definition ADCS_ADDRESS : Z := 2.
Definition THERMALS_ADDRESS : Z := 4.
Definition ADCS_I2C_ADDR : Z := 0x2A.
Definition THERMALS_I2C_ADDR : Z := 0x43.

Record known_slave_t := mk_known { k_csp_addr : Z; k_i2c_addr : Z }.

Definition known_slaves : list known_slave_t :=
  [mk_known ADCS_ADDRESS ADCS_I2C_ADDR; mk_known THERMALS_ADDRESS THERMALS_I2C_ADDR].
Definition NUM_KNOWN_SLAVES : Z := 2.

(** [struct i2c_msg]: a write of bytes or a read of [n] bytes. *)
Inductive i2c_msg :=
  | I2cWrite (addr : Z) (bytes : list Z)
  | I2cRead (addr n : Z).

(** What [ioctl(bus_fd, I2C_RDWR, ...)] answers: an interruption by a signal, an error, or
    the number of messages executed with the bytes read by each of them. *)
Inductive rdwr_answer :=
  | Rdwr_interrupted
  | Rdwr_failed
  | Rdwr_done (executed : Z) (data : list (list Z)).

Class I2cAdapter (L : Type) := {
  i2c_rdwr : list i2c_msg -> L -> rdwr_answer * L;
  monotonic_ms : L -> Z * L;
  poll_sleep : L -> L
}.

(** The static variables of the driver. *)
Record bus_master := mk_master {
  bus_fd : Z;
  my_bus_address : Z;
  next_slave_start : Z
}.

(** [comms_bus_initialize]: the answers of [open] and of [ioctl(I2C_FUNCS)] with the
    functionality it wrote; a descriptor opened before is closed. *)
Definition I2C_FUNC_I2C : Z := 1.

Definition comms_bus_initialize (my_address is_master open_result funcs_result functionality : Z) (m : bus_master)
    : Z * bus_master :=
  let m := mk_master (bus_fd m) (u8 my_address) (next_slave_start m) in
  if is_master =? 0 then (COMMS_BUS_ERROR, m)
  else
    let m := mk_master open_result (my_bus_address m) (next_slave_start m) in
    if bus_fd m <? 0 then (COMMS_BUS_ERROR, m)
    else if (funcs_result <? 0) || (Z.land functionality I2C_FUNC_I2C =? 0)
    then (COMMS_BUS_ERROR, mk_master (-1) (my_bus_address m) (next_slave_start m))
    else (COMMS_BUS_OK, m).

Section Master.
Context {L : Type} `{I2cAdapter L}.
Implicit Types (m : bus_master) (x : L).

Fixpoint rdwr_retry (fuel : nat) (messages : list i2c_msg) x : option (rdwr_answer * L) :=
  match fuel with
  | O => None
  | S fuel =>
      match i2c_rdwr messages x with
      | (Rdwr_interrupted, x) => rdwr_retry fuel messages x
      | answer => Some answer
      end
  end.

(** The status and the bytes read. *)
Definition i2c_transfer (fuel : nat) m (messages : list i2c_msg) x : option (Z * list (list Z) * L) :=
  if (bus_fd m <? 0) || (len messages =? 0) then Some (COMMS_BUS_ERROR, [], x)
  else
    '(answer, x) ← rdwr_retry fuel messages x;
    match answer with
    | Rdwr_done executed data =>
        if negb (executed =? len messages) then Some (COMMS_BUS_ERROR, [], x)
        else Some (COMMS_BUS_OK, data, x)
    | _ => Some (COMMS_BUS_ERROR, [], x)
    end.

(** The buffer of the only read among the messages. *)
Definition read_buffer (data : list (list Z)) : list Z := hd [] data.

(** [status_out] is written when the result is [COMMS_BUS_OK]. *)
Definition get_slave_status (fuel : nat) m (i2c_addr : Z) (status_out : option I2cStatus_t) x
    : option (Z * option I2cStatus_t * L) :=
  match status_out with
  | None => Some (COMMS_BUS_ERROR, None, x)
  | Some _ =>
      '(r, data, x) ← i2c_transfer fuel m
         [I2cWrite i2c_addr [i2c_command_value I2C_CMD_GET_STATUS]; I2cRead i2c_addr I2C_STATUS_WIRE_SIZE] x;
      if negb (r =? COMMS_BUS_OK) then Some (COMMS_BUS_ERROR, status_out, x)
      else
        let '(d, status) := i2c_status_decode (Some (read_buffer data)) I2C_STATUS_WIRE_SIZE status_out in
        if negb (d =? 0) then Some (COMMS_BUS_ERROR, status, x) else Some (COMMS_BUS_OK, status, x)
  end.

Definition read_slave_frame (fuel : nat) m (i2c_addr announced_wire_length : Z) (frame_out : option Frame) x
    : option (Z * option Frame * L) :=
  match frame_out with
  | None => Some (COMMS_BUS_ERROR, None, x)
  | Some _ =>
      if (announced_wire_length <? FRAME_HEADER_SIZE) || (MAX_FRAME_WIRE_SIZE <? announced_wire_length)
      then Some (COMMS_BUS_ERROR, frame_out, x)
      else
        '(r, data, x) ← i2c_transfer fuel m
           [I2cWrite i2c_addr [i2c_command_value I2C_CMD_READ_FRAME]; I2cRead i2c_addr announced_wire_length] x;
        if negb (r =? COMMS_BUS_OK) then Some (COMMS_BUS_ERROR, frame_out, x)
        else
          let frame_wire := patch (zeros MAX_FRAME_WIRE_SIZE) 0 (read_buffer data) in
          let '(d, frame_out) := frame_deserialize (Some frame_wire) announced_wire_length frame_out in
          if d <? 0 then Some (COMMS_BUS_ERROR, frame_out, x)
          else
            match frame_out with
            | Some f =>
                if negb (u16 (FRAME_HEADER_SIZE + f_length f) =? announced_wire_length)
                then Some (COMMS_BUS_ERROR, frame_out, x)
                else Some (COMMS_BUS_OK, frame_out, x)
            | None => Some (COMMS_BUS_ERROR, None, x)
            end
  end.

Fixpoint lookup_loop (slaves : list known_slave_t) (csp_addr : Z) : option Z :=
  match slaves with
  | [] => None
  | k :: slaves => if k_csp_addr k =? csp_addr then Some (k_i2c_addr k) else lookup_loop slaves csp_addr
  end.

(** [*i2c_addr_out], [None] for -1. *)
Definition lookup_i2c_addr (csp_addr : Z) : option Z := lookup_loop known_slaves csp_addr.

(** [payload0] and [buffer0] are the uninitialised frame payload and transaction buffer. *)
Definition comms_bus_send (fuel : nat) m (payload0 buffer0 : list Z) (dest_addr : Z) (data : option (list Z))
    (length : Z) x : option (Z * L) :=
  match data with
  | None => Some (-1, x)
  | Some data =>
      if bus_fd m <? 0 then Some (-1, x)
      else if MAX_FRAME_PAYLOAD <? length then Some (COMMS_BUS_ERROR, x)
      else
        match lookup_i2c_addr dest_addr with
        | None => Some (COMMS_BUS_ERROR, x)
        | Some i2c_addr =>
            let frame := mk_frame dest_addr (my_bus_address m) length (patch payload0 0 (prefix_of length data)) in
            let buffer := patch buffer0 0 [i2c_command_value I2C_CMD_WRITE_FRAME] in
            let '(serialized_length, wire) := frame_serialize (Some frame) (Some (skip 1 buffer)) MAX_FRAME_WIRE_SIZE in
            if serialized_length <? 0 then Some (COMMS_BUS_ERROR, x)
            else
              let transaction_buffer := prefix_of 1 buffer ++ default [] wire in
              '(r, _, x) ← i2c_transfer fuel m [I2cWrite i2c_addr (prefix_of (u16 (1 + serialized_length)) transaction_buffer)] x;
              if negb (r =? COMMS_BUS_OK) then Some (COMMS_BUS_ERROR, x) else Some (length, x)
        end
  end.

(** ** Receiving *)

(** Asking one slave: go on (and whether it answered), fail, or return its frame. *)
Inductive poll_result :=
  | Poll_continue (valid_status : bool)
  | Poll_error
  | Poll_frame (f : Frame).

(** [frame0] and [status0] are the uninitialised locals. *)
Definition poll_slave (fuel : nat) m (frame0 : Frame) (status0 : I2cStatus_t) (slave : known_slave_t) (max_length : Z) x
    : option (poll_result * L) :=
  '(r, status, x) ← get_slave_status fuel m (k_i2c_addr slave) (Some status0) x;
  if negb (r =? COMMS_BUS_OK) then Some (Poll_continue false, x)
  else
    let status := default status0 status in
    if Z.land (s_flags status) I2C_STATUS_DATA_READY =? 0 then Some (Poll_continue true, x)
    else
      '(r, frame, x) ← read_slave_frame fuel m (k_i2c_addr slave) (s_frame_length status) (Some frame0) x;
      let frame := default frame0 frame in
      if negb (r =? COMMS_BUS_OK) then Some (Poll_error, x)
      else if negb (src_addr frame =? k_csp_addr slave) then Some (Poll_error, x)
      else if negb (dest_addr frame =? my_bus_address m) then Some (Poll_error, x)
      else if max_length <? f_length frame then Some (Poll_error, x)
      else Some (Poll_frame frame, x).

(** The result of [comms_bus_receive], [*src_addr_out], the buffer and the driver's state. *)
Record received_message := mk_received {
  rm_result : Z;
  rm_src : option Z;
  rm_buffer : list Z;
  rm_master : bus_master
}.

(** One round over the slaves, from [offset] on: [inr] when the round ended without a result,
    with [saw_valid_status]. *)
Fixpoint poll_round (fuel : nat) m frame0 status0 (offsets : list Z) (buffer : list Z) (max_length : Z)
    (saw_valid_status : bool) x : option ((received_message + bool) * L) :=
  match offsets with
  | [] => Some (inr saw_valid_status, x)
  | offset :: offsets =>
      let index := (next_slave_start m + offset) mod NUM_KNOWN_SLAVES in
      let slave := nth (Z.to_nat index) known_slaves (mk_known 0 0) in
      '(p, x) ← poll_slave fuel m frame0 status0 slave max_length x;
      match p with
      | Poll_continue valid => poll_round fuel m frame0 status0 offsets buffer max_length (saw_valid_status || valid) x
      | Poll_error => Some (inl (mk_received COMMS_BUS_ERROR None buffer m), x)
      | Poll_frame f =>
          Some (inl (mk_received (f_length f) (Some (src_addr f))
                       (patch buffer 0 (prefix_of (f_length f) (f_payload f)))
                       (mk_master (bus_fd m) (my_bus_address m) ((index + 1) mod NUM_KNOWN_SLAVES))), x)
      end
  end.

Fixpoint receive_loop (rounds fuel : nat) m frame0 status0 (buffer : list Z) (max_length deadline_ms : Z)
    (saw_valid_status : bool) x : option (received_message * L) :=
  match rounds with
  | O => None
  | S rounds =>
      let '(now, x) := monotonic_ms x in
      if now <? deadline_ms then
        '(outcome, x) ← poll_round fuel m frame0 status0 [0; 1] buffer max_length saw_valid_status x;
        match outcome with
        | inl result => Some (result, x)
        | inr saw => receive_loop rounds fuel m frame0 status0 buffer max_length deadline_ms saw (poll_sleep x)
        end
      else
        Some (mk_received (if saw_valid_status then COMMS_BUS_TIMEOUT else COMMS_BUS_ERROR) None buffer m, x)
  end.

Definition comms_bus_receive (rounds fuel : nat) m frame0 status0 (buffer : option (list Z)) (max_length : Z) x
    : option (received_message * L) :=
  match buffer with
  | None => Some (mk_received COMMS_BUS_ERROR None [] m, x)
  | Some buffer =>
      if (bus_fd m <? 0) || (max_length =? 0) then Some (mk_received COMMS_BUS_ERROR None buffer m, x)
      else
        let '(start_ms, x) := monotonic_ms x in
        receive_loop rounds fuel m frame0 status0 buffer max_length
          (u64 (start_ms + COMMS_BUS_RECEIVE_TIMEOUT_MS)) false x
  end.

(** When the slave polled first has a frame the driver refuses, the others are not asked, and
    the next call begins with the same slave. *)
Lemma refused_frame_keeps_turn fuel m frame0 status0 offsets buffer max_length saw x x' :
  poll_slave fuel m frame0 status0 (nth (Z.to_nat (next_slave_start m mod NUM_KNOWN_SLAVES)) known_slaves (mk_known 0 0))
    max_length x = Some (Poll_error, x') ->
  poll_round fuel m frame0 status0 (0 :: offsets) buffer max_length saw x
  = Some (inl (mk_received COMMS_BUS_ERROR None buffer m), x').
Proof. intros Hp. cbn [poll_round]. rewrite Z.add_0_r, Hp. done. Qed.
End Master.
