(* ===== verification/I2cLink.v ===== *)
(** The bus master of the on-board computer and the slave of the attitude control board on
    one bus ([platform/real/drivers/comms_i2c.c], [apps/adcs/Core/Src/adcs_i2c_slave.c]).

    The adapter below plays a transaction of the master as the events the slave's HAL
    reports for it: the address, the bytes, the completions and the STOP. *)

From S2P Require Import Prelude Frame AdcsI2cSlave I2cMaster.

(** ** The wire *)

(** The slave's HAL handle, and its address in the form the HAL stores it. *)
Definition hi2c1 : Z := 1.
Definition ADCS_I2C_HAL_OWN_ADDRESS : Z := Z.shiftl ADCS_I2C_ADDR 1.

Record wire_world := mk_world { w_now : Z; w_link : link }.

Abbreviation bus_step := (link_step hi2c1 ADCS_I2C_HAL_OWN_ADDRESS).
Abbreviation bus_reachable := (link_reachable hi2c1 ADCS_I2C_HAL_OWN_ADDRESS).

(** Completion is reported as soon as the transfer is full. *)
Definition report (e : bus_event) (l : link) : option link := if unreported l then bus_step e l else Some l.

Fixpoint write_bytes (bs : list Z) (l : link) : option link :=
  match bs with
  | [] => Some l
  | b :: bs => l ← bus_step (BusByte b) l; l ← report (BusReceived true) l; write_bytes bs l
  end.

Fixpoint read_bytes (n : nat) (l : link) : option (list Z * link) :=
  match n with
  | O => Some ([], l)
  | S n =>
      match armed l with
      | Some (Sending b _ sent) =>
          let v := fetch b (len sent) (board l) in
          l ← bus_step BusRead l; l ← report BusSent l;
          '(vs, l) ← read_bytes n l; Some (v :: vs, l)
      | _ => None
      end
  end.

(** The messages of a transaction, joined by repeated STARTs. *)
Fixpoint play (messages : list i2c_msg) (l : link) : option (list (list Z) * link) :=
  match messages with
  | [] => Some ([], l)
  | I2cWrite addr bytes :: messages =>
      if negb (addr =? ADCS_I2C_ADDR) then None
      else
        l ← bus_step (BusAddress I2C_DIRECTION_TRANSMIT (Z.shiftl addr 1) true) l;
        l ← write_bytes bytes l; play messages l
  | I2cRead addr n :: messages =>
      if negb (addr =? ADCS_I2C_ADDR) then None
      else
        l ← bus_step (BusAddress I2C_DIRECTION_RECEIVE (Z.shiftl addr 1) true) l;
        '(data, l) ← read_bytes (Z.to_nat n) l;
        '(rest, l) ← play messages l; Some (data :: rest, l)
  end.

(** No board answers at another address; a transfer the slave does not go along with ends
    in an error. *)
#[export] Instance wire_adapter : I2cAdapter wire_world := {
  i2c_rdwr messages w :=
    match ('(data, l) ← play messages (w_link w); l ← bus_step (BusStop true) l; Some (data, l)) with
    | Some (data, l) => (Rdwr_done (len messages) data, mk_world (w_now w) l)
    | None => (Rdwr_failed, w)
    end;
  monotonic_ms w := (w_now w, w);
  poll_sleep w := mk_world (w_now w + 10) (w_link w)
}.

(** ** Steps *)

Implicit Types l : link.

(** Nothing is in progress. *)
Definition idle l : Prop := armed l = None.

(** The frames on their way are the same. *)
Definition same_frames l l' : Prop :=
  mailbox l' = mailbox l /\ queued l' = queued l /\ transmitted l' = transmitted l.

Lemma same_frames_trans l1 l2 l3 : same_frames l1 l2 -> same_frames l2 l3 -> same_frames l1 l3.
Proof. unfold same_frames. intros (? & ? & ?) (? & ? & ?). split_and!; congruence. Qed.

Lemma same_frames_pending l l' :
  bus_reachable l -> bus_reachable l' -> same_frames l l' -> pending (board l') = pending (board l).
Proof.
  intros Hl Hl' (_ & Hq & Ht).
  pose proof (link_reachable_inv _ _ l Hl) as (_ & _ & (_ & H1 & _) & _).
  pose proof (link_reachable_inv _ _ l' Hl') as (_ & _ & (_ & H2 & _) & _).
  rewrite Hq, H1, Ht in H2. by apply app_inv_head in H2.
Qed.

Lemma reach_step e l l' : bus_reachable l -> bus_step e l = Some l' -> bus_reachable l'.
Proof. intros. by eapply link_reach_step. Qed.

Lemma handle_of l : bus_reachable l -> attached hi2c1 (board l) = true.
Proof. intros Hl. apply attached_handle. apply (link_reachable_inv _ _ l Hl). Qed.

(** The address of a write. *)
Lemma address_write l :
  bus_reachable l -> idle l ->
  exists l', bus_step (BusAddress I2C_DIRECTION_TRANSMIT (Z.shiftl ADCS_I2C_ADDR 1) true) l = Some l'
    /\ s_rx_phase (board l') = ADCS_RX_PHASE_COMMAND /\ armed l' = Some (Receiving CommandByte 1 0)
    /\ written l' = [] /\ same_frames l l'.
Proof.
  intros Hl Hidle. cbn [link_step]. unfold unreported, HAL_I2C_AddrCallback. rewrite Hidle, handle_of by done.
  eexists. split; [reflexivity|]. done.
Qed.

(** A byte of a transfer that is not full yet. *)
Lemma byte_step l b size k v :
  armed l = Some (Receiving b size k) -> k < size ->
  bus_step (BusByte v) l
  = Some (mk_link (store b k v (board l)) (Some (Receiving b size (k + 1))) (written l ++ [v]) (mailbox l) (queued l) (transmitted l)).
Proof. intros Ha Hk. cbn [link_step]. rewrite Ha. by rewrite (proj2 (Z.ltb_lt _ _) Hk). Qed.

Lemma store_phase b k v s : s_rx_phase (store b k v s) = s_rx_phase s.
Proof. by destruct b. Qed.
Lemma store_index b k v s : s_rx_active_index (store b k v s) = s_rx_active_index s.
Proof. by destruct b. Qed.

(** The bytes of a whole transfer: all are taken, and then the completion is reported. *)
Lemma write_transfer bs l b size k :
  bus_reachable l -> armed l = Some (Receiving b size k) -> bs <> [] -> 0 <= k -> k + len bs = size ->
  exists l', bus_reachable l' /\ armed l' = Some (Receiving b size size) /\ written l' = written l ++ bs
    /\ s_rx_phase (board l') = s_rx_phase (board l) /\ s_rx_active_index (board l') = s_rx_active_index (board l)
    /\ same_frames l l' /\ write_bytes bs l = bus_step (BusReceived true) l'.
Proof.
  revert l k. induction bs as [|v bs IH]; intros l k Hl Ha Hne Hk Hsize; [done|].
  rewrite len_cons in Hsize. pose proof (len_nonneg bs). pose proof (byte_step l b size k v Ha ltac:(lia)) as Hstep.
  pose proof (reach_step _ _ _ Hl Hstep) as Hl1. set (l1 := mk_link _ _ _ _ _ _) in *.
  cbn [write_bytes]. rewrite Hstep. cbn [mbind option_bind].
  destruct bs as [|v2 bs].
  - rewrite len_nil in Hsize. assert (size = k + 1) as -> by lia. exists l1.
    split_and!; [done|done|done|apply store_phase|apply store_index|done|].
    unfold report. subst l1. unfold unreported. cbn [armed]. rewrite Z.eqb_refl. cbn [write_bytes].
    by destruct (bus_step (BusReceived true) _).
  - destruct (IH l1 (k + 1) Hl1 eq_refl ltac:(done) ltac:(lia) ltac:(lia)) as (l' & H1 & H2 & H3 & H4 & H5 & H6 & H7).
    exists l'. split_and!; [done|done| | | | |].
    + rewrite H3. subst l1. cbn [written]. by rewrite <- app_assoc.
    + rewrite H4. apply store_phase.
    + rewrite H5. apply store_index.
    + destruct H6 as (? & ? & ?). by split_and!.
    + rewrite <- H7. unfold report, unreported. subst l1. cbn [armed].
      rewrite len_cons in Hsize. pose proof (len_nonneg bs).
      by rewrite (proj2 (Z.eqb_neq _ _)) by lia.
Qed.

(** The command byte has been stored and is reported. *)
Lemma command_step l :
  bus_reachable l -> s_rx_phase (board l) = ADCS_RX_PHASE_COMMAND -> armed l = Some (Receiving CommandByte 1 1) ->
  exists c, written l = [c]
    /\ exists l', bus_step (BusReceived true) l = Some l' /\ written l' = [c] /\ same_frames l l'
       /\ (c = ADCS_I2C_CMD_GET_STATUS \/ c = ADCS_I2C_CMD_READ_FRAME ->
           armed l' = None /\ s_selected_command (board l') = c)
       /\ (c = ADCS_I2C_CMD_WRITE_FRAME ->
           armed l' = Some (Receiving (RxFrame (s_rx_active_index (board l')) 0) 4 0)
           /\ s_rx_phase (board l') = ADCS_RX_PHASE_WRITE_HEADER).
Proof.
  intros Hl Hp Ha. pose proof (link_reachable_inv _ _ l Hl) as (_ & (_ & _ & _ & _ & Hw) & _).
  unfold current_write in Hw. rewrite Hp, Ha in Hw. destruct Hw as (_ & _ & [[? _]|[_ Hw]]); [done|].
  exists (s_command_byte (board l)). split; [done|]. cbn [link_step]. rewrite Ha.
  unfold HAL_I2C_SlaveRxCpltCallback. rewrite handle_of, Hp by done. unfold command_received. cbn [negb Z.eqb Pos.eqb].
  destruct ((s_command_byte (board l) =? _) || _) eqn:E.
  - eexists. split; [reflexivity|]. split_and!; [done..|].
    intros Hc. by rewrite Hc in E.
  - destruct (Z.eqb_spec (s_command_byte (board l)) ADCS_I2C_CMD_WRITE_FRAME) as [Ec|Ec].
    + eexists. split; [reflexivity|]. split_and!; try done.
      all: intros [Hc|Hc]; by rewrite Hc in E.
    + eexists. split; [reflexivity|]. split_and!; try done.
      all: intros [Hc|Hc]; by rewrite Hc in E.
Qed.

(** The header of a frame of [n] bytes is reported. *)
Lemma header_step l hdr :
  bus_reachable l -> s_rx_phase (board l) = ADCS_RX_PHASE_WRITE_HEADER ->
  armed l = Some (Receiving (RxFrame (s_rx_active_index (board l)) 0) 4 4) ->
  written l = ADCS_I2C_CMD_WRITE_FRAME :: hdr -> len hdr = 4 -> announced_length hdr <= 264 ->
  exists l', bus_step (BusReceived true) l = Some l' /\ written l' = written l /\ same_frames l l'
    /\ (announced_length hdr = 0 -> armed l' = None)
    /\ (announced_length hdr <> 0 ->
        armed l' = Some (Receiving (RxFrame (s_rx_active_index (board l')) 4) (announced_length hdr) 0)
        /\ s_rx_phase (board l') = ADCS_RX_PHASE_WRITE_PAYLOAD).
Proof.
  intros Hl Hp Ha Hw Hlen Hn. pose proof (link_reachable_inv _ _ l Hl) as (_ & (Hslots & _ & _ & _ & Hcur) & _).
  unfold current_write in Hcur. rewrite Hp, Ha in Hcur. destruct Hcur as (_ & _ & _ & _ & _ & Hw').
  rewrite Hw in Hw'. injection Hw' as Hhdr.
  pose proof (slots_ok_slot (s_rx_active_index (board l)) _ Hslots) as H268. change ADCS_I2C_MAX_FRAME_WIRE_SIZE with 268 in H268.
  assert (announced_length (slot (s_rx_active_index (board l)) (s_rx_frames (board l))) = announced_length hdr) as Hann
    by (rewrite Hhdr; symmetry; apply announced_prefix; lia).
  cbn [link_step]. rewrite Ha. unfold HAL_I2C_SlaveRxCpltCallback. rewrite handle_of, Hp by done.
  unfold header_received. cbv zeta. rewrite Hann. cbn [negb Z.eqb Pos.eqb].
  change ADCS_I2C_MAX_FRAME_PAYLOAD with 264. rewrite (proj2 (Z.ltb_ge _ _)) by lia.
  destruct (Z.eqb_spec (announced_length hdr) 0) as [E|E]; (eexists; split; [reflexivity|]); by split_and!.
Qed.

(** The payload has been stored. *)
Lemma payload_step l size :
  bus_reachable l -> s_rx_phase (board l) = ADCS_RX_PHASE_WRITE_PAYLOAD ->
  armed l = Some (Receiving (RxFrame (s_rx_active_index (board l)) 4) size size) ->
  exists l', bus_step (BusReceived true) l = Some l' /\ written l' = written l /\ same_frames l l' /\ armed l' = None.
Proof.
  intros Hl Hp Ha. cbn [link_step]. rewrite Ha, Z.eqb_refl. unfold HAL_I2C_SlaveRxCpltCallback.
  rewrite handle_of, Hp by done. eexists. split; [reflexivity|]. by split_and!.
Qed.

Lemma write_bytes_app xs ys l : write_bytes (xs ++ ys) l = (l ← write_bytes xs l; write_bytes ys l).
Proof.
  revert l. induction xs as [|x xs IH]; intros l; [done|]. cbn [app write_bytes].
  destruct (bus_step (BusByte x) l) as [l1|]; [|done]. cbn [mbind option_bind].
  destruct (report (BusReceived true) l1) as [l2|]; [|done]. cbn [mbind option_bind]. apply IH.
Qed.

(** The command that starts a transaction. *)
Lemma write_command l c :
  bus_reachable l -> idle l ->
  exists l1 l', bus_step (BusAddress I2C_DIRECTION_TRANSMIT (Z.shiftl ADCS_I2C_ADDR 1) true) l = Some l1
    /\ write_bytes [c] l1 = Some l' /\ bus_reachable l' /\ written l' = [c] /\ same_frames l l'
    /\ (c = ADCS_I2C_CMD_GET_STATUS \/ c = ADCS_I2C_CMD_READ_FRAME ->
        armed l' = None /\ s_selected_command (board l') = c)
    /\ (c = ADCS_I2C_CMD_WRITE_FRAME ->
        armed l' = Some (Receiving (RxFrame (s_rx_active_index (board l')) 0) 4 0)
        /\ s_rx_phase (board l') = ADCS_RX_PHASE_WRITE_HEADER).
Proof.
  intros Hl Hidle. destruct (address_write l Hl Hidle) as (l1 & Hs1 & Hp1 & Ha1 & Hw1 & Hf1).
  pose proof (reach_step _ _ _ Hl Hs1) as Hl1.
  destruct (write_transfer [c] l1 _ _ _ Hl1 Ha1 ltac:(done) ltac:(lia) eq_refl) as (l2 & Hl2 & Ha2 & Hw2 & Hp2 & _ & Hf2 & Hb2).
  rewrite Hw1 in Hw2. rewrite Hp1 in Hp2. destruct (command_step l2 Hl2 Hp2 Ha2) as (c' & Hc & l3 & Hs3 & Hw3 & Hf3 & Hr3 & Hwr3).
  rewrite Hw2 in Hc. injection Hc as <-. exists l1, l3.
  split_and!; [done|by rewrite Hb2|by eapply reach_step|done| |done|done].
  eapply same_frames_trans; [exact Hf1|]. by eapply same_frames_trans.
Qed.

(** A whole frame behind its command: every byte is taken. *)
Lemma write_frame_bytes l w :
  bus_reachable l -> written l = [ADCS_I2C_CMD_WRITE_FRAME] ->
  armed l = Some (Receiving (RxFrame (s_rx_active_index (board l)) 0) 4 0) ->
  s_rx_phase (board l) = ADCS_RX_PHASE_WRITE_HEADER -> adcs_wire_frame_valid w (len w) = true ->
  exists l', write_bytes w l = Some l' /\ bus_reachable l' /\ armed l' = None
    /\ written l' = ADCS_I2C_CMD_WRITE_FRAME :: w /\ same_frames l l'.
Proof.
  intros Hl Hw Ha Hp Hv. apply frame_valid_spec in Hv as [Hlen Hann].
  set (hdr := prefix_of 4 w). assert (len hdr = 4) as Hh by (apply len_prefix_of; lia).
  assert (announced_length hdr = announced_length w) as Hah by (apply announced_prefix; lia).
  assert (w = hdr ++ skip 4 w) as Hsplit by (unfold hdr, prefix_of, skip; by rewrite take_drop).
  assert (len (skip 4 w) = announced_length w) as Hrest by (rewrite len_skip by lia; lia).
  assert (write_bytes w l = (l ← write_bytes hdr l; write_bytes (skip 4 w) l)) as Hwb
    by (by rewrite Hsplit at 1; rewrite write_bytes_app).
  destruct (write_transfer hdr l _ _ _ Hl Ha ltac:(by destruct hdr) ltac:(lia) ltac:(lia))
    as (l2 & Hl2 & Ha2 & Hw2 & Hp2 & Hi2 & Hf2 & Hb2).
  rewrite Hw in Hw2. rewrite Hp in Hp2. rewrite <- Hi2 in Ha2.
  destruct (header_step l2 hdr Hl2 Hp2 Ha2 Hw2 Hh ltac:(lia)) as (l3 & Hs3 & Hw3 & Hf3 & Hz3 & Hn3).
  rewrite Hb2, Hs3 in Hwb. cbn [mbind option_bind] in Hwb. pose proof (reach_step _ _ _ Hl2 Hs3) as Hl3.
  destruct (decide (announced_length hdr = 0)) as [E|E].
  - exists l3. assert (skip 4 w = []) as Hnil by (apply len_0_nil; lia). rewrite Hnil in *.
    rewrite app_nil_r in Hsplit.
    split_and!; [done|done|by apply Hz3|by rewrite Hw3, Hw2, <- Hsplit|by eapply same_frames_trans].
  - destruct (Hn3 E) as [Ha3 Hp3].
    destruct (write_transfer (skip 4 w) l3 _ _ _ Hl3 Ha3 ltac:(intros Hnil; rewrite Hnil, len_nil in Hrest; lia)
                ltac:(lia) ltac:(lia)) as (l4 & Hl4 & Ha4 & Hw4 & Hp4 & Hi4 & Hf4 & Hb4).
    rewrite Hp3 in Hp4. rewrite <- Hi4 in Ha4.
    destruct (payload_step l4 _ Hl4 Hp4 Ha4) as (l5 & Hs5 & Hw5 & Hf5 & Ha5).
    exists l5. split_and!; [by rewrite Hwb, Hb4|by eapply reach_step|done| |].
    + rewrite Hw5, Hw4, Hw3, Hw2. cbn [app]. by rewrite <- Hsplit.
    + eapply same_frames_trans; [exact Hf2|]. eapply same_frames_trans; [exact Hf3|]. by eapply same_frames_trans.
Qed.

Lemma stop_step l :
  bus_reachable l -> idle l ->
  exists l', bus_step (BusStop true) l = Some l' /\ bus_reachable l' /\ idle l'
    /\ mailbox l' = post (written_frame (written l)) (mailbox l)
    /\ queued l' = queued l /\ transmitted l' = transmitted l.
Proof.
  intros Hl Hidle.
  assert (exists l', bus_step (BusStop true) l = Some l' /\ idle l'
    /\ mailbox l' = post (written_frame (written l)) (mailbox l)
    /\ queued l' = queued l /\ transmitted l' = transmitted l) as (l' & Hs & H).
  { cbn [link_step]. unfold unreported. rewrite Hidle. unfold HAL_I2C_ListenCpltCallback. rewrite handle_of by done.
    eexists. split; [reflexivity|]. done. }
  exists l'. split; [done|]. split; [by eapply reach_step|done].
Qed.

(** A whole write of a frame on the wire. *)
Lemma write_transaction w frame :
  bus_reachable (w_link w) -> idle (w_link w) -> adcs_wire_frame_valid frame (len frame) = true ->
  exists l', i2c_rdwr [I2cWrite ADCS_I2C_ADDR (ADCS_I2C_CMD_WRITE_FRAME :: frame)] w
             = (Rdwr_done 1 [], mk_world (w_now w) l')
    /\ bus_reachable l' /\ idle l' /\ mailbox l' = post (Some frame) (mailbox (w_link w))
    /\ queued l' = queued (w_link w) /\ transmitted l' = transmitted (w_link w).
Proof.
  intros Hl Hidle Hv.
  destruct (write_command _ ADCS_I2C_CMD_WRITE_FRAME Hl Hidle) as (l1 & l2 & Hs1 & Hb2 & Hl2 & Hw2 & Hf2 & _ & Hwr2).
  destruct (Hwr2 eq_refl) as [Ha2 Hp2].
  destruct (write_frame_bytes l2 frame Hl2 Hw2 Ha2 Hp2 Hv) as (l3 & Hb3 & Hl3 & Ha3 & Hw3 & Hf3).
  destruct (stop_step l3 Hl3 Ha3) as (l4 & Hs4 & Hl4 & Hi4 & Hm4 & Hq4 & Ht4).
  destruct (same_frames_trans _ _ _ Hf2 Hf3) as (Hm & Hq & Ht).
  exists l4. split_and!; [|done|done| |congruence|congruence].
  - cbn [i2c_rdwr wire_adapter play]. change (negb (ADCS_I2C_ADDR =? ADCS_I2C_ADDR)) with false. cbn match. rewrite Hs1. cbn [mbind option_bind].
    change (ADCS_I2C_CMD_WRITE_FRAME :: frame) with ([ADCS_I2C_CMD_WRITE_FRAME] ++ frame).
    rewrite write_bytes_app, Hb2. cbn [mbind option_bind]. rewrite Hb3. cbn [mbind option_bind]. rewrite Hs4. done.
  - rewrite Hm4, Hw3, Hm. cbn [written_frame]. by rewrite Z.eqb_refl, Hv.
Qed.

(** Reading a whole transfer. *)
Lemma read_transfer n l b size sent :
  bus_reachable l -> armed l = Some (Sending b size sent) -> (0 < n)%nat -> len sent + Z.of_nat n = size ->
  exists vs l', bus_reachable l' /\ len vs = Z.of_nat n /\ armed l' = Some (Sending b size (sent ++ vs))
    /\ board l' = board l /\ same_frames l l'
    /\ read_bytes n l = (l2 ← bus_step BusSent l'; Some (vs, l2)).
Proof.
  revert l sent. induction n as [|n IH]; intros l sent Hl Ha Hn Hsize; [lia|].
  cbn [read_bytes]. rewrite Ha. set (v := fetch b (len sent) (board l)).
  assert (bus_step BusRead l = Some (mk_link (board l) (Some (Sending b size (sent ++ [v]))) (written l)
            (mailbox l) (queued l) (transmitted l))) as Hstep
    by (cbn [link_step]; rewrite Ha, (proj2 (Z.ltb_lt _ _)) by lia; done).
  pose proof (reach_step _ _ _ Hl Hstep) as Hl1. rewrite Hstep. cbn [mbind option_bind].
  set (l1 := mk_link _ _ _ _ _ _) in *.
  assert (len (sent ++ [v]) = len sent + 1) as Hlen by (rewrite len_app; done).
  destruct n as [|n].
  - exists [v], l1. split_and!; [done..|]. unfold report, unreported. subst l1. cbn [armed].
    rewrite (proj2 (Z.eqb_eq _ _)) by lia. cbn [read_bytes].
    by destruct (bus_step BusSent _) as [l2|].
  - destruct (IH l1 (sent ++ [v]) Hl1 eq_refl ltac:(lia) ltac:(lia)) as (vs & l' & H1 & H2 & H3 & H4 & H5 & H6).
    exists (v :: vs), l'. split_and!; [done|rewrite len_cons; lia|by rewrite H3, <- app_assoc|done| |].
    + destruct H5 as (? & ? & ?). by split_and!.
    + unfold report, unreported. subst l1. cbn [armed]. rewrite (proj2 (Z.eqb_neq _ _)) by lia.
      cbn [mbind option_bind]. rewrite H6. by destruct (bus_step BusSent l') as [l2|].
Qed.

(** After the last byte the transfer is over. *)
Lemma sent_step l b size sent :
  bus_reachable l -> armed l = Some (Sending b size sent) -> len sent = size ->
  exists l', bus_step BusSent l = Some l' /\ bus_reachable l' /\ idle l' /\ written l' = []
    /\ mailbox l' = mailbox l /\ queued l' = queued l
    /\ transmitted l' = match b with TxFrame _ => transmitted l ++ [sent] | StatusResponse => transmitted l end.
Proof.
  intros Hl Ha Hsize.
  assert (exists l', bus_step BusSent l = Some l' /\ idle l' /\ written l' = []
    /\ mailbox l' = mailbox l /\ queued l' = queued l
    /\ transmitted l' = match b with TxFrame _ => transmitted l ++ [sent] | StatusResponse => transmitted l end)
    as (l' & Hs & H).
  { cbn [link_step]. rewrite Ha, (proj2 (Z.eqb_eq _ _)) by done. unfold HAL_I2C_SlaveTxCpltCallback.
    rewrite handle_of by done. eexists. split; [reflexivity|]. done. }
  exists l'. split; [done|]. split; [by eapply reach_step|done].
Qed.

Definition status_wire (frames : list (list Z)) : list Z :=
  match frames with
  | [] => [0xA5; 1; 0; 0; 0]
  | w :: _ => [0xA5; 1; 1; u8 (Z.shiftr (len w) 8); u8 (Z.land (len w) 0xFF)]
  end.

(** What [start_transmit] asks the HAL to send. *)
Lemma start_transmit_reply s :
  (s_tx_ready s = true ->
   len (prefix_of (s_tx_ready_length s) (slot (s_tx_ready_index s) (s_tx_frames s))) = s_tx_ready_length s) ->
  let '(call, s') := start_transmit s in
  (s_selected_command s = ADCS_I2C_CMD_GET_STATUS ->
   call = SeqTransmit StatusResponse 5 /\ s_status_response s' = status_wire (pending s))
  /\ (s_selected_command s = ADCS_I2C_CMD_READ_FRAME -> forall w, pending s = [w] ->
      exists i, call = SeqTransmit (TxFrame i) (len w)).
Proof.
  intros Hlen. unfold start_transmit.
  destruct (Z.eqb_spec (s_selected_command s) ADCS_I2C_CMD_GET_STATUS) as [E|E].
  - split; [|by rewrite E]. intros _. split; [done|]. unfold pending, status_wire.
    change (s_status_response _) with
      [ADCS_I2C_PROTOCOL_MAGIC; ADCS_I2C_PROTOCOL_VERSION;
       if s_tx_ready s then ADCS_I2C_STATUS_DATA_READY else 0;
       u8 (Z.shiftr (if s_tx_ready s then s_tx_ready_length s else 0) 8);
       u8 (Z.land (if s_tx_ready s then s_tx_ready_length s else 0) 0xFF)].
    destruct (s_tx_ready s); [|done]. by rewrite Hlen.
  - destruct (Z.eqb_spec (s_selected_command s) ADCS_I2C_CMD_READ_FRAME) as [E2|E2]; cbn [andb].
    + unfold pending. destruct (s_tx_ready s).
      * split; [done|]. intros _ w [= <-]. rewrite Hlen by done. by eexists.
      * split; done.
    + split; done.
Qed.

(** The address of a read: which transfer the slave starts. *)
Lemma address_read l c :
  bus_reachable l -> idle l -> s_selected_command (board l) = c ->
  exists l', bus_step (BusAddress I2C_DIRECTION_RECEIVE (Z.shiftl ADCS_I2C_ADDR 1) true) l = Some l'
    /\ bus_reachable l' /\ same_frames l l'
    /\ (c = ADCS_I2C_CMD_GET_STATUS ->
        armed l' = Some (Sending StatusResponse 5 []) /\ s_status_response (board l') = status_wire (pending (board l)))
    /\ (c = ADCS_I2C_CMD_READ_FRAME -> forall w, pending (board l) = [w] ->
        exists i, armed l' = Some (Sending (TxFrame i) (len w) [])).
Proof.
  intros Hl Hidle Hc. pose proof (link_reachable_inv _ _ l Hl) as (_ & _ & (Ho & _) & _).
  destruct Ho as (Hslots & _ & Hr).
  pose proof (slots_ok_slot (s_tx_ready_index (board l)) _ Hslots) as H268. change ADCS_I2C_MAX_FRAME_WIRE_SIZE with 268 in H268.
  assert (s_tx_ready (board l) = true ->
          len (prefix_of (s_tx_ready_length (board l)) (slot (s_tx_ready_index (board l)) (s_tx_frames (board l))))
          = s_tx_ready_length (board l)) as Hlen by (intros Hready; destruct (Hr Hready); apply len_prefix_of; lia).
  enough (exists l', bus_step (BusAddress I2C_DIRECTION_RECEIVE (Z.shiftl ADCS_I2C_ADDR 1) true) l = Some l'
    /\ same_frames l l'
    /\ (c = ADCS_I2C_CMD_GET_STATUS ->
        armed l' = Some (Sending StatusResponse 5 []) /\ s_status_response (board l') = status_wire (pending (board l)))
    /\ (c = ADCS_I2C_CMD_READ_FRAME -> forall w, pending (board l) = [w] ->
        exists i, armed l' = Some (Sending (TxFrame i) (len w) []))) as (l' & Hs & H)
    by (exists l'; split; [done|]; split; [by eapply reach_step|done]).
  cbn [link_step]. unfold unreported. rewrite Hidle. unfold HAL_I2C_AddrCallback. rewrite handle_of by done.
  match goal with |- context [start_transmit ?s0] => set (s1 := s0) end.
  assert (tx_view s1 = tx_view (board l) /\ s_selected_command s1 = c) as [Hv Hc1] by (split; [reflexivity|exact Hc]).
  clearbody s1. pose proof (start_transmit_reply s1) as Hstart. rewrite (pending_view _ _ Hv), Hc1 in Hstart.
  unfold tx_view in Hv. injection Hv as _ Hf Hi Hn Hready _ _.
  rewrite Hf, Hi, Hn, Hready in Hstart. specialize (Hstart Hlen).
  destruct (start_transmit s1) as [call s2]. destruct Hstart as [Hst Hfr].
  eexists. split; [reflexivity|]. split; [done|]. split.
  - intros E. destruct (Hst E) as [-> Hresp]. split; [done|exact Hresp].
  - intros E w Hw. destruct (Hfr E w Hw) as (i & ->). by exists i.
Qed.

Lemma pending_frame l w : bus_reachable l -> pending (board l) = [w] -> adcs_wire_frame_valid w (len w) = true.
Proof.
  intros Hl Hw. pose proof (link_reachable_inv _ _ l Hl) as (_ & _ & (Ho & _) & _). destruct Ho as (Hslots & _ & Hr).
  pose proof (slots_ok_slot (s_tx_ready_index (board l)) _ Hslots) as H268. change ADCS_I2C_MAX_FRAME_WIRE_SIZE with 268 in H268.
  revert Hw. unfold pending. destruct (s_tx_ready (board l)) eqn:E; [|done]. intros [= <-]. destruct (Hr eq_refl) as [Hb Ha].
  apply frame_valid_spec. rewrite len_prefix_of, announced_prefix by lia. done.
Qed.

(** A command byte and a read of the whole answer. *)
Definition is_frame (b : tx_buffer) : bool := match b with TxFrame _ => true | StatusResponse => false end.

Lemma read_transaction w c (frame : bool) vs :
  bus_reachable (w_link w) -> idle (w_link w) ->
  c = ADCS_I2C_CMD_GET_STATUS \/ c = ADCS_I2C_CMD_READ_FRAME -> 0 < len vs ->
  (forall l, bus_reachable l -> idle l -> s_selected_command (board l) = c -> same_frames (w_link w) l ->
   exists b l', bus_step (BusAddress I2C_DIRECTION_RECEIVE (Z.shiftl ADCS_I2C_ADDR 1) true) l = Some l'
     /\ is_frame b = frame /\ bus_reachable l' /\ same_frames l l' /\ armed l' = Some (Sending b (len vs) [])
     /\ forall l2 us, bus_reachable l2 -> board l2 = board l' -> armed l2 = Some (Sending b (len vs) us) ->
                      len us = len vs -> us = vs) ->
  exists l', i2c_rdwr [I2cWrite ADCS_I2C_ADDR [c]; I2cRead ADCS_I2C_ADDR (len vs)] w
             = (Rdwr_done 2 [vs], mk_world (w_now w) l')
    /\ bus_reachable l' /\ idle l' /\ mailbox l' = mailbox (w_link w) /\ queued l' = queued (w_link w)
    /\ transmitted l' = transmitted (w_link w) ++ (if frame then [vs] else []).
Proof.
  intros Hl Hidle Hc Hpos Hread.
  destruct (write_command _ c Hl Hidle) as (l1 & l2 & Hs1 & Hb2 & Hl2 & Hw2 & Hf2 & Hrd2 & _).
  destruct (Hrd2 Hc) as [Ha2 Hsel2].
  destruct (Hread l2 Hl2 Ha2 Hsel2 Hf2) as (b & l3 & Hs3 & Hb & Hl3 & Hf3 & Ha3 & Heq).
  destruct (read_transfer (Z.to_nat (len vs)) l3 _ _ _ Hl3 Ha3 ltac:(lia) ltac:(rewrite len_nil; lia))
    as (us & l4 & Hl4 & Hn4 & Ha4 & Hb4 & Hf4 & Hr4).
  assert (us = vs) as -> by (apply (Heq l4 us Hl4 Hb4 Ha4); lia).
  destruct (sent_step l4 _ _ _ Hl4 Ha4 eq_refl) as (l5 & Hs5 & Hl5 & Hi5 & Hw5 & Hm5 & Hq5 & Ht5).
  destruct (stop_step l5 Hl5 Hi5) as (l6 & Hs6 & Hl6 & Hi6 & Hm6 & Hq6 & Ht6).
  destruct (same_frames_trans _ _ _ Hf2 (same_frames_trans _ _ _ Hf3 Hf4)) as (Hm & Hq & Ht).
  exists l6. split_and!; [|done|done| |congruence|].
  - cbn [i2c_rdwr wire_adapter play]. change (negb (ADCS_I2C_ADDR =? ADCS_I2C_ADDR)) with false. cbn match.
    rewrite Hs1. cbn [mbind option_bind]. rewrite Hb2. cbn [mbind option_bind]. rewrite Hs3. cbn [mbind option_bind].
    rewrite Hr4, Hs5. cbn [mbind option_bind]. rewrite Hs6. done.
  - rewrite Hm6, Hw5, Hm5, Hm. cbn [written_frame post]. by destruct (mailbox (w_link w)).
  - rewrite Ht6, Ht5, Ht, <- Hb. destruct b; [|done]. cbn [is_frame]. by rewrite app_nil_r.
Qed.

Lemma status_transaction w :
  bus_reachable (w_link w) -> idle (w_link w) ->
  exists l', i2c_rdwr [I2cWrite ADCS_I2C_ADDR [ADCS_I2C_CMD_GET_STATUS]; I2cRead ADCS_I2C_ADDR 5] w
             = (Rdwr_done 2 [status_wire (pending (board (w_link w)))], mk_world (w_now w) l')
    /\ bus_reachable l' /\ idle l' /\ same_frames (w_link w) l'.
Proof.
  intros Hl Hidle. set (vs := status_wire (pending (board (w_link w)))).
  assert (len vs = 5) as Hn by (subst vs; by destruct (pending (board (w_link w)))).
  destruct (read_transaction w ADCS_I2C_CMD_GET_STATUS false vs Hl Hidle ltac:(by left) ltac:(lia))
    as (l' & Hs & Hl' & Hi' & Hm & Hq & Ht);
    [|rewrite Hn in Hs; rewrite app_nil_r in Ht; by exists l'].
  intros l1 Hl1 Hi1 Hsel1 Hf1. destruct (address_read l1 _ Hl1 Hi1 Hsel1) as (l2 & Hs2 & Hl2 & Hf2 & Hst2 & _).
  destruct (Hst2 eq_refl) as [Ha2 Hresp2]. rewrite (same_frames_pending _ _ Hl Hl1 Hf1) in Hresp2.
  exists StatusResponse, l2. rewrite Hn. split_and!; [done..|]. intros l3 us Hl3 Hb3 Ha3 Hus.
  pose proof (link_reachable_inv _ _ l3 Hl3) as (_ & _ & (_ & _ & Ht) & _). rewrite Ha3 in Ht.
  destruct Ht as (_ & _ & _ & _ & ->). rewrite Hb3, Hresp2. fold vs. by rewrite Hus, prefix_of_all by lia.
Qed.

Lemma frame_transaction w f :
  bus_reachable (w_link w) -> idle (w_link w) -> pending (board (w_link w)) = [f] ->
  exists l', i2c_rdwr [I2cWrite ADCS_I2C_ADDR [ADCS_I2C_CMD_READ_FRAME]; I2cRead ADCS_I2C_ADDR (len f)] w
             = (Rdwr_done 2 [f], mk_world (w_now w) l')
    /\ bus_reachable l' /\ idle l' /\ mailbox l' = mailbox (w_link w) /\ queued l' = queued (w_link w)
    /\ transmitted l' = transmitted (w_link w) ++ [f].
Proof.
  intros Hl Hidle Hp. pose proof (pending_frame _ _ Hl Hp) as Hv. apply frame_valid_spec in Hv as [Hn _].
  apply (read_transaction w ADCS_I2C_CMD_READ_FRAME true f Hl Hidle); [by right|lia|].
  intros l1 Hl1 Hi1 Hsel1 Hf1. destruct (address_read l1 _ Hl1 Hi1 Hsel1) as (l2 & Hs2 & Hl2 & Hf2 & _ & Hfr2).
  pose proof (same_frames_pending _ _ Hl Hl1 Hf1) as Hp1. rewrite Hp in Hp1.
  destruct (Hfr2 eq_refl f Hp1) as (i & Ha2). exists (TxFrame i), l2.
  split_and!; [done..|]. intros l3 us Hl3 Hb3 Ha3 Hus.
  pose proof (link_reachable_inv _ _ l3 Hl3) as (_ & _ & (Ho & _ & Ht) & _). rewrite Ha3 in Ht.
  destruct (sent_frame_whole _ _ _ _ Ho Ht Hus) as (Hus' & _).
  rewrite Hb3, (same_frames_pending _ _ Hl1 Hl2 Hf2), Hp1 in Hus'. by injection Hus'.
Qed.

(** ** The master on this bus *)

Definition master_wf (m : bus_master) : Prop :=
  0 <= bus_fd m /\ byte_ok (my_bus_address m) /\ (next_slave_start m = 0 \/ next_slave_start m = 1).

(** The frame a payload travels in. *)
Definition carries (dest src : Z) (data : list Z) (f : Frame) : Prop :=
  frame_wf f /\ dest_addr f = dest /\ src_addr f = src /\ f_length f = len data
  /\ prefix_of (len data) (f_payload f) = data.

Lemma frame_wire_valid f :
  frame_wf f -> f_length f <= MAX_FRAME_PAYLOAD -> adcs_wire_frame_valid (frame_wire f) (len (frame_wire f)) = true.
Proof.
  intros Hf Hm. pose proof Hf as (_ & _ & Hl & _). change MAX_FRAME_PAYLOAD with 264 in Hm.
  apply frame_valid_spec. rewrite len_frame_wire by done. split; [lia|].
  unfold announced_length.
  change (byte_at (frame_wire f) 2) with (u8 (Z.shiftr (f_length f) 8)).
  change (byte_at (frame_wire f) 3) with (u8 (f_length f)).
  rewrite be16_round by done. unfold u16. rewrite Z.mod_small; lia.
Qed.

Lemma transfer_done fuel m messages (w w' : wire_world) data :
  0 <= bus_fd m -> 0 < len messages -> i2c_rdwr messages w = (Rdwr_done (len messages) data, w') ->
  i2c_transfer (S fuel) m messages w = Some (COMMS_BUS_OK, data, w').
Proof.
  intros Hfd Hn Hs. unfold i2c_transfer. rewrite (proj2 (Z.ltb_ge _ _)), (proj2 (Z.eqb_neq _ _)) by lia.
  cbn [orb rdwr_retry]. rewrite Hs. cbn [mbind option_bind]. by rewrite Z.eqb_refl.
Qed.

(** Nobody answers at the address of the thermals board. *)
Lemma absent_status fuel m status0 (w : wire_world) :
  0 <= bus_fd m ->
  get_slave_status (S fuel) m THERMALS_I2C_ADDR (Some status0) w = Some (COMMS_BUS_ERROR, Some status0, w).
Proof.
  intros Hfd. unfold get_slave_status, i2c_transfer. rewrite (proj2 (Z.ltb_ge _ _)) by lia. done.
Qed.

Lemma absent_poll fuel m frame0 status0 max_length (w : wire_world) :
  0 <= bus_fd m ->
  poll_slave (S fuel) m frame0 status0 (mk_known THERMALS_ADDRESS THERMALS_I2C_ADDR) max_length w
  = Some (Poll_continue false, w).
Proof.
  intros Hfd. unfold poll_slave. cbn [k_i2c_addr]. by rewrite absent_status.
Qed.

Lemma status_wire_decode frames status0 :
  (forall w, frames = [w] -> 4 <= len w <= 268) -> frames = [] \/ (exists w, frames = [w]) ->
  i2c_status_decode (Some (status_wire frames)) 5 (Some status0)
  = (0, Some (match frames with [] => mk_status 0 0 | w :: _ => mk_status 1 (len w) end)).
Proof.
  intros Hn [-> | [w ->]]; [done|]. specialize (Hn w eq_refl). unfold status_wire. rewrite land_255.
  replace (u8 (len w mod 256)) with (u8 (len w)) by (unfold u8; by rewrite Z.mod_mod).
  rewrite status_decode_eq, be16_round by lia.
  change (negb (0xA5 =? I2C_PROTOCOL_MAGIC) || negb (1 =? I2C_PROTOCOL_VERSION)) with false. cbv zeta.
  unfold u16. rewrite Z.mod_small by lia.
  rewrite (proj2 (status_fields_valid_spec (mk_status 1 (len w)) ltac:(cbn; unfold byte_ok; lia))); [done|].
  right. done.
Qed.

(** Asking the attitude control board. *)
Lemma adcs_status fuel m status0 (w : wire_world) :
  0 <= bus_fd m -> bus_reachable (w_link w) -> idle (w_link w) ->
  exists l', get_slave_status (S fuel) m ADCS_I2C_ADDR (Some status0) w
    = Some (COMMS_BUS_OK,
            Some (match pending (board (w_link w)) with [] => mk_status 0 0 | f :: _ => mk_status 1 (len f) end),
            mk_world (w_now w) l')
    /\ bus_reachable l' /\ idle l' /\ same_frames (w_link w) l'.
Proof.
  intros Hfd Hl Hidle. destruct (status_transaction w Hl Hidle) as (l' & Hs & Hl' & Hi' & Hf').
  exists l'. split; [|done]. unfold get_slave_status.
  change (i2c_command_value I2C_CMD_GET_STATUS) with ADCS_I2C_CMD_GET_STATUS. change I2C_STATUS_WIRE_SIZE with 5.
  rewrite (transfer_done fuel m [_; _] w _ _ Hfd eq_refl Hs). cbn [mbind option_bind read_buffer hd].
  change (negb (COMMS_BUS_OK =? COMMS_BUS_OK)) with false. cbn match.
  rewrite status_wire_decode; [done| |].
  - intros f Hf. pose proof (pending_frame _ _ Hl Hf) as Hv. apply frame_valid_spec in Hv as [Hn _]. exact Hn.
  - unfold pending. destruct (s_tx_ready (board (w_link w))); [right; by eexists|by left].
Qed.

(** Reading its frame. *)
Lemma adcs_frame fuel m frame0 f (w : wire_world) :
  0 <= bus_fd m -> bus_reachable (w_link w) -> idle (w_link w) ->
  frame_wf f -> f_length f <= MAX_FRAME_PAYLOAD -> pending (board (w_link w)) = [frame_wire f] ->
  exists l', read_slave_frame (S fuel) m ADCS_I2C_ADDR (len (frame_wire f)) (Some frame0) w
    = Some (COMMS_BUS_OK,
            Some (mk_frame (dest_addr f) (src_addr f) (f_length f)
                    (patch (f_payload frame0) 0 (prefix_of (f_length f) (f_payload f)))),
            mk_world (w_now w) l')
    /\ bus_reachable l' /\ idle l' /\ mailbox l' = mailbox (w_link w) /\ queued l' = queued (w_link w)
    /\ transmitted l' = transmitted (w_link w) ++ [frame_wire f].
Proof.
  intros Hfd Hl Hidle Hf Hm Hp. destruct (frame_transaction w _ Hl Hidle Hp) as (l' & Hs & H).
  exists l'. split; [|exact H]. pose proof Hf as (_ & _ & Hlen & _). pose proof (len_frame_wire f Hf Hm) as Hw.
  unfold read_slave_frame. change MAX_FRAME_WIRE_SIZE with 268. change MAX_FRAME_PAYLOAD with 264 in *.
  change FRAME_HEADER_SIZE with 4. rewrite !(proj2 (Z.ltb_ge _ _)) by lia. cbn [orb].
  change (i2c_command_value I2C_CMD_READ_FRAME) with ADCS_I2C_CMD_READ_FRAME.
  rewrite (transfer_done fuel m [_; _] w _ _ Hfd eq_refl Hs). cbn [mbind option_bind read_buffer hd].
  change (negb (COMMS_BUS_OK =? COMMS_BUS_OK)) with false. cbn match.
  rewrite (deserialize_header _ (skip (len (frame_wire f)) (zeros 268)) _ frame0 f Hf Hm Hw (patch_0 _ _)).
  rewrite (proj2 (Z.ltb_ge _ _)) by lia. cbn [f_length].
  replace (u16 (4 + f_length f)) with (len (frame_wire f)) by (rewrite Hw; unfold u16; rewrite Z.mod_small; lia).
  by rewrite Z.eqb_refl.
Qed.

Lemma poll_adcs fuel m frame0 status0 max_length f (w : wire_world) :
  master_wf m -> frame_wf f -> src_addr f = ADCS_ADDRESS -> dest_addr f = my_bus_address m ->
  f_length f <= MAX_FRAME_PAYLOAD -> f_length f <= max_length ->
  bus_reachable (w_link w) -> idle (w_link w) -> pending (board (w_link w)) = [frame_wire f] ->
  exists l', poll_slave (S fuel) m frame0 status0 (mk_known ADCS_ADDRESS ADCS_I2C_ADDR) max_length w
      = Some (Poll_frame (mk_frame (dest_addr f) (src_addr f) (f_length f)
                    (patch (f_payload frame0) 0 (prefix_of (f_length f) (f_payload f)))), mk_world (w_now w) l')
    /\ bus_reachable l' /\ idle l' /\ pending (board l') = []
    /\ transmitted l' = transmitted (w_link w) ++ [frame_wire f] /\ mailbox l' = mailbox (w_link w).
Proof.
  intros (Hfd & _) Hf Hsrc Hdst Hm Hmax Hl Hidle Hp.
  destruct (adcs_status fuel m status0 w Hfd Hl Hidle) as (l1 & Hs1 & Hl1 & Hi1 & Hf1).
  rewrite Hp in Hs1. pose proof (same_frames_pending _ _ Hl Hl1 Hf1) as Hp1. rewrite Hp in Hp1.
  destruct (adcs_frame fuel m frame0 f (mk_world (w_now w) l1) Hfd Hl1 Hi1 Hf Hm Hp1)
    as (l2 & Hs2 & Hl2 & Hi2 & Hm2 & Hq2 & Ht2). cbn [w_link w_now] in *.
  destruct Hf1 as (Hm1 & Hq1 & Ht1). exists l2. split_and!; [|done|done| |congruence|congruence].
  - unfold poll_slave. cbn [k_i2c_addr k_csp_addr]. rewrite Hs1. cbn [mbind option_bind default id].
    change (negb (COMMS_BUS_OK =? COMMS_BUS_OK)) with false. cbn match.
    change (Z.land (s_flags (mk_status 1 ?n)) I2C_STATUS_DATA_READY =? 0) with false. cbn match.
    cbn [s_frame_length]. rewrite Hs2. cbn [mbind option_bind default id].
    change (negb (COMMS_BUS_OK =? COMMS_BUS_OK)) with false. cbn match.
    cbn [src_addr dest_addr f_length]. rewrite Hsrc, Hdst, !Z.eqb_refl, (proj2 (Z.ltb_ge _ _)) by lia. done.
  - pose proof (link_reachable_inv _ _ l2 Hl2) as (_ & _ & (_ & H2 & _) & _).
    pose proof (link_reachable_inv _ _ l1 Hl1) as (_ & _ & (_ & H1 & _) & _).
    rewrite Hq2, H1, Ht2, Hp1 in H2.
    apply (app_inv_head (transmitted l1 ++ [frame_wire f])). by rewrite app_nil_r, <- H2.
Qed.

Lemma frame_to_slave fuel m payload0 buffer0 data frame0 (w : wire_world) :
  master_wf m -> bytes_ok payload0 -> len payload0 = MAX_FRAME_PAYLOAD -> len buffer0 = 1 + MAX_FRAME_WIRE_SIZE ->
  bytes_ok data -> len data <= MAX_FRAME_PAYLOAD -> bus_reachable (w_link w) -> idle (w_link w) ->
  exists l' taken,
    comms_bus_send (S fuel) m payload0 buffer0 ADCS_ADDRESS (Some data) (len data) w
      = Some (len data, mk_world (w_now w) l')
    /\ bus_reachable l' /\ idle l'
    /\ fst (adcs_i2c_slave_take_received_frame (board l')) = Some taken
    /\ (forall old, fst (adcs_i2c_slave_take_received_frame (board (w_link w))) = Some old -> taken = old)
    /\ (fst (adcs_i2c_slave_take_received_frame (board (w_link w))) = None ->
        exists f, frame_deserialize (Some taken) (len taken) (Some frame0) = (len taken, Some f)
          /\ dest_addr f = ADCS_ADDRESS /\ src_addr f = my_bus_address m /\ f_length f = len data
          /\ prefix_of (len data) (f_payload f) = data).
Proof.
  intros (Hfd & Hmy & _) Hp0 Hlp0 Hlb0 Hd Hld Hl Hidle. pose proof (len_nonneg data).
  set (f := mk_frame ADCS_ADDRESS (my_bus_address m) (len data) (patch payload0 0 data)).
  change MAX_FRAME_PAYLOAD with 264 in *. change MAX_FRAME_WIRE_SIZE with 268 in *.
  assert (frame_wf f) as Hf.
  { split; [done|]. split; [exact Hmy|]. split; [cbn; lia|]. split; [by apply bytes_ok_patch|].
    cbn [f f_payload]. rewrite len_patch; change MAX_FRAME_PAYLOAD with 264; lia. }
  assert (f_length f <= 264) as Hfl by done.
  destruct (write_transaction w (frame_wire f) Hl Hidle (frame_wire_valid f Hf Hfl))
    as (l' & Hs & Hl' & Hi' & Hm' & Hq' & Ht').
  assert (forall l, bus_reachable l -> fst (adcs_i2c_slave_take_received_frame (board l)) = mailbox l) as Htake.
  { intros l Hr. pose proof (link_reachable_inv _ _ l Hr) as (_ & (_ & _ & _ & -> & _) & _).
    unfold adcs_i2c_slave_take_received_frame, received. by destruct (s_rx_ready (board l)). }
  exists l', (default (frame_wire f) (mailbox (w_link w))). split_and!; [|done|done| | |].
  - unfold comms_bus_send. change MAX_FRAME_PAYLOAD with 264. rewrite !(proj2 (Z.ltb_ge _ _)) by lia.
    change (lookup_i2c_addr ADCS_ADDRESS) with (Some ADCS_I2C_ADDR). cbv zeta.
    rewrite prefix_of_all by lia. fold f. rewrite patch_0.
    change (i2c_command_value I2C_CMD_WRITE_FRAME) with ADCS_I2C_CMD_WRITE_FRAME.
    change (skip 1 ([ADCS_I2C_CMD_WRITE_FRAME] ++ ?k)) with k. change (prefix_of 1 ([ADCS_I2C_CMD_WRITE_FRAME] ++ ?k)) with [ADCS_I2C_CMD_WRITE_FRAME].
    change (f_length f) with (len data) in *.
    rewrite serialize_success by (done || (change MAX_FRAME_WIRE_SIZE with 268; change (f_length f) with (len data); lia)).
    change (f_length f) with (len data). rewrite (proj2 (Z.ltb_ge _ _)) by lia. cbn [default id].
    rewrite app_assoc, prefix_of_app.
    + change ([ADCS_I2C_CMD_WRITE_FRAME] ++ frame_wire f) with (ADCS_I2C_CMD_WRITE_FRAME :: frame_wire f).
      rewrite (transfer_done fuel m [_] w _ _ Hfd eq_refl Hs). done.
    + rewrite len_app, len_frame_wire by done. change (f_length f) with (len data).
      change (len [ADCS_I2C_CMD_WRITE_FRAME]) with 1. unfold u16. rewrite Z.mod_small; lia.
  - rewrite Htake by done. rewrite Hm'. by destruct (mailbox (w_link w)).
  - intros old. rewrite Htake by done. by intros ->.
  - rewrite Htake by done. intros ->. cbn [default].
    eexists. split.
    + apply (deserialize_header _ []); [exact Hf|done|by apply len_frame_wire|by rewrite app_nil_r].
    + split_and!; [reflexivity..|]. cbn [f_payload f_length f]. rewrite (patch_0 payload0), (prefix_of_app _ data) by done. rewrite patch_0. by apply prefix_of_app.
Qed.

(** A frame on its way from the on-board computer to the attitude control board.  When
    the bus is at rest, sending any payload of at most 264 bytes to the board succeeds.  The
    slave's main loop then takes a frame that decodes to the board's address, the sender's
    address and the payload, or, if it has not taken the one before, still that one. *)
Theorem bus_write_delivers fuel m payload0 buffer0 data frame0 (w : wire_world) :
  master_wf m -> bytes_ok payload0 -> len payload0 = MAX_FRAME_PAYLOAD -> len buffer0 = 1 + MAX_FRAME_WIRE_SIZE ->
  bytes_ok data -> len data <= MAX_FRAME_PAYLOAD -> bus_reachable (w_link w) -> idle (w_link w) ->
  exists l' taken,
    comms_bus_send (S fuel) m payload0 buffer0 ADCS_ADDRESS (Some data) (len data) w
      = Some (len data, mk_world (w_now w) l')
    /\ bus_reachable l' /\ idle l'
    /\ fst (adcs_i2c_slave_take_received_frame (board l')) = Some taken
    /\ (forall old, fst (adcs_i2c_slave_take_received_frame (board (w_link w))) = Some old -> taken = old)
    /\ (fst (adcs_i2c_slave_take_received_frame (board (w_link w))) = None ->
        exists f, frame_deserialize (Some taken) (len taken) (Some frame0) = (len taken, Some f)
          /\ dest_addr f = ADCS_ADDRESS /\ src_addr f = my_bus_address m /\ f_length f = len data
          /\ prefix_of (len data) (f_payload f) = data).
Proof. apply frame_to_slave. Qed.

Lemma frame_from_slave rounds fuel m frame0 status0 buffer max_length f (w : wire_world) :
  master_wf m -> frame_wf f -> src_addr f = ADCS_ADDRESS -> dest_addr f = my_bus_address m ->
  f_length f <= MAX_FRAME_PAYLOAD -> f_length f <= max_length -> max_length <> 0 ->
  0 <= w_now w < 18446744073709551616 - 100 ->
  bus_reachable (w_link w) -> idle (w_link w) -> pending (board (w_link w)) = [frame_wire f] ->
  exists l',
    comms_bus_receive (S rounds) (S fuel) m frame0 status0 (Some buffer) max_length w
      = Some (mk_received (f_length f) (Some ADCS_ADDRESS)
                (patch buffer 0 (prefix_of (f_length f) (f_payload f)))
                (mk_master (bus_fd m) (my_bus_address m) 1), mk_world (w_now w) l')
    /\ bus_reachable l' /\ idle l' /\ pending (board l') = []
    /\ transmitted l' = transmitted (w_link w) ++ [frame_wire f] /\ mailbox l' = mailbox (w_link w).
Proof.
  intros Hmw Hf Hsrc Hdst Hm Hmax Hmax0 Hnow Hl Hidle Hp. pose proof Hmw as (Hfd & _ & Hstart).
  destruct (poll_adcs fuel m frame0 status0 max_length f w Hmw Hf Hsrc Hdst Hm Hmax Hl Hidle Hp)
    as (l' & Hpoll & Hl' & Hi' & Hp' & Ht' & Hm').
  exists l'. split_and!; [|done..]. pose proof Hf as (_ & _ & Hlen & _ & Hpay).
  unfold comms_bus_receive. rewrite (proj2 (Z.ltb_ge _ _)), (proj2 (Z.eqb_neq _ _)) by lia. cbn [orb].
  cbn [monotonic_ms wire_adapter receive_loop].
  replace (u64 (w_now w + COMMS_BUS_RECEIVE_TIMEOUT_MS)) with (w_now w + 100)
    by (unfold u64, COMMS_BUS_RECEIVE_TIMEOUT_MS; rewrite Z.mod_small; lia).
  rewrite (proj2 (Z.ltb_lt _ _)) by lia.
  assert (patch buffer 0 (prefix_of (f_length f) (patch (f_payload frame0) 0 (prefix_of (f_length f) (f_payload f))))
          = patch buffer 0 (prefix_of (f_length f) (f_payload f))) as Hbuf.
  { rewrite (patch_0 (f_payload frame0)), (prefix_of_app (f_length f) (prefix_of _ _)); [done|].
    change MAX_FRAME_PAYLOAD with 264 in *. rewrite len_prefix_of; lia. }
  destruct Hstart as [E|E]; cbn [poll_round]; rewrite E.
  - change (nth (Z.to_nat ((0 + 0) mod NUM_KNOWN_SLAVES)) known_slaves (mk_known 0 0)) with (mk_known ADCS_ADDRESS ADCS_I2C_ADDR).
    rewrite Hpoll. cbn [mbind option_bind f_length src_addr f_payload]. by rewrite Hbuf, Hsrc.
  - change (nth (Z.to_nat ((1 + 0) mod NUM_KNOWN_SLAVES)) known_slaves (mk_known 0 0)) with (mk_known THERMALS_ADDRESS THERMALS_I2C_ADDR).
    rewrite absent_poll by done. cbn [mbind option_bind].
    change (nth (Z.to_nat ((1 + 1) mod NUM_KNOWN_SLAVES)) known_slaves (mk_known 0 0)) with (mk_known ADCS_ADDRESS ADCS_I2C_ADDR).
    rewrite Hpoll. cbn [mbind option_bind f_length src_addr f_payload]. by rewrite Hbuf, Hsrc.
Qed.

(** A frame on its way back.  When the bus is at rest and the slave holds a frame for the
    on-board computer that fits the caller's buffer, receiving returns its payload and
    sender, whichever slave is polled first and although the other board does not answer;
    the slave has counted the frame as read and polling goes on behind it. *)
Theorem bus_read_delivers rounds fuel m frame0 status0 buffer max_length f (w : wire_world) :
  master_wf m -> frame_wf f -> src_addr f = ADCS_ADDRESS -> dest_addr f = my_bus_address m ->
  f_length f <= MAX_FRAME_PAYLOAD -> f_length f <= max_length -> max_length <> 0 ->
  0 <= w_now w < 18446744073709551616 - 100 ->
  bus_reachable (w_link w) -> idle (w_link w) -> pending (board (w_link w)) = [frame_wire f] ->
  exists l',
    comms_bus_receive (S rounds) (S fuel) m frame0 status0 (Some buffer) max_length w
      = Some (mk_received (f_length f) (Some ADCS_ADDRESS)
                (patch buffer 0 (prefix_of (f_length f) (f_payload f)))
                (mk_master (bus_fd m) (my_bus_address m) 1), mk_world (w_now w) l')
    /\ bus_reachable l' /\ idle l' /\ pending (board l') = []
    /\ transmitted l' = transmitted (w_link w) ++ [frame_wire f] /\ mailbox l' = mailbox (w_link w).
Proof. apply frame_from_slave. Qed.

Lemma bytes_ok_zeros n : bytes_ok (zeros n).
Proof. by apply Forall_replicate. Qed.

(** ** A payload of two bytes in each direction *)
Definition demo_master : bus_master := mk_master 3 OBC_ADDRESS 1.
Definition demo_world : wire_world := mk_world 1000 (link_start hi2c1).
Definition blank_frame : Frame := mk_frame 0 0 0 (zeros 264).

Lemma bus_write_delivers_witness :
  exists l' taken f,
    comms_bus_send 1 demo_master (zeros 264) (zeros 269) ADCS_ADDRESS (Some [222; 173]) 2 demo_world
      = Some (2, mk_world 1000 l')
    /\ fst (adcs_i2c_slave_take_received_frame (board l')) = Some taken
    /\ frame_deserialize (Some taken) (len taken) (Some blank_frame) = (len taken, Some f)
    /\ src_addr f = OBC_ADDRESS /\ prefix_of 2 (f_payload f) = [222; 173].
Proof.
  destruct (bus_write_delivers 0 demo_master (zeros 264) (zeros 269) [222; 173] blank_frame demo_world)
    as (l' & taken & Hsend & _ & _ & Htake & _ & Hnew).
  - split; [done|]. split; [done|by right].
  - apply bytes_ok_zeros.
  - done.
  - done.
  - repeat (apply Forall_cons; split; [done|]). by apply Forall_nil.
  - done.
  - apply link_reach_start.
  - done.
  - destruct (Hnew eq_refl) as (f & Hd & _ & Hs & _ & Hp). exists l', taken, f. by split_and!.
Defined.

Definition demo_answer : Frame := mk_frame OBC_ADDRESS ADCS_ADDRESS 2 ([222; 173] ++ zeros 262).
Definition demo_queued : link :=
  default (link_start hi2c1) (bus_step (MainQueue (frame_wire demo_answer) 6) (link_start hi2c1)).

Lemma bus_read_delivers_witness :
  exists l', comms_bus_receive 1 1 demo_master blank_frame (mk_status 0 0) (Some (zeros 8)) 8 (mk_world 1000 demo_queued)
    = Some (mk_received 2 (Some ADCS_ADDRESS) ([222; 173] ++ zeros 6) (mk_master 3 OBC_ADDRESS 1), mk_world 1000 l')
    /\ pending (board l') = [].
Proof.
  destruct (bus_read_delivers 0 0 demo_master blank_frame (mk_status 0 0) (zeros 8) 8 demo_answer (mk_world 1000 demo_queued))
    as (l' & Hrecv & _ & _ & Hp & _).
  - split; [done|]. split; [done|by right].
  - do 3 (split; [done|]). split; [|done]. apply Forall_app; split; [|apply bytes_ok_zeros].
    repeat (apply Forall_cons; split; [done|]). by apply Forall_nil.
  - done.
  - done.
  - done.
  - done.
  - done.
  - done.
  - apply (link_reach_step _ _ (MainQueue (frame_wire demo_answer) 6) (link_start hi2c1)); [apply link_reach_start|].
    vm_compute. reflexivity.
  - vm_compute. reflexivity.
  - vm_compute. reflexivity.
  - exists l'. split; [exact Hrecv|exact Hp].
Defined.
