(* ===== verification/AdcsDrivers.v ===== *)
(** The device drivers of the attitude control board: the magnetorquer driver and the
    inertial measurement unit
    ([apps/adcs/Platform/Src/adcs_magnetorquer_driver.c], [adcs_imu_driver.c]).

    A pin is a port and a number; the driver's outputs are a map from pins to levels, low
    where nothing was written. *)

From stdpp Require Import gmap.
From S2P Require Import Prelude Float32 AdcsMath AdcsControl AdcsManager AdcsCommand AdcsTasks.

(** ** The sensor interfaces ([shared/interfaces]) and the sensors the board does not have
    ([adcs_sensors_unavailable.c]) *)
Module Sensors.

Inductive magnetometer_status_t := MAGNETOMETER_OK | MAGNETOMETER_ERROR | MAGNETOMETER_NOT_READY.
Inductive sun_sensor_status_t := SUN_SENSOR_OK | SUN_SENSOR_ERROR | SUN_SENSOR_NOT_READY.

#[projections(primitive)]
Record magnetometer_sample_t := mk_field_sample { mag_timestamp_us : Z; mag_magnetic_field_t : vec3 }.
#[projections(primitive)]
Record sun_sensor_sample_t := mk_sun_sample {
  sun_timestamp_us : Z;
  sun_sun_vector_body : vec3;
  sun_irradiance_w_m2 : f32;
  sun_visible : Z
}.

(** On the STM32 build; a read clears the sample it is given. *)
Definition magnetometer_initialize : magnetometer_status_t := MAGNETOMETER_NOT_READY.
Definition magnetometer_read (sample : option magnetometer_sample_t)
    : magnetometer_status_t * option magnetometer_sample_t :=
  (MAGNETOMETER_NOT_READY, _ ← sample; Some (mk_field_sample 0 vec_zero)).
Definition sun_sensor_initialize : sun_sensor_status_t := SUN_SENSOR_NOT_READY.
Definition sun_sensor_read (sample : option sun_sensor_sample_t) : sun_sensor_status_t * option sun_sensor_sample_t :=
  (SUN_SENSOR_NOT_READY, _ ← sample; Some (mk_sun_sample 0 vec_zero f0 0)).
End Sensors.

(** ** Magnetorquers *)
Module Torquer.

Inductive magnetorquer_status_t := MAGNETORQUER_OK | MAGNETORQUER_ERROR | MAGNETORQUER_NOT_READY.
Inductive magnetorquer_axis_t := MAGNETORQUER_AXIS_X | MAGNETORQUER_AXIS_Y | MAGNETORQUER_AXIS_Z.
Inductive magnetorquer_dir_t := MAGNETORQUER_DIR_OFF | MAGNETORQUER_DIR_FORWARD | MAGNETORQUER_DIR_REVERSE.

#[global] Instance magnetorquer_status_eq_dec : EqDecision magnetorquer_status_t.
Proof. solve_decision. Defined.

Definition GPIOB : Z := 1.
Definition GPIOC : Z := 2.
Definition GPIOD : Z := 3.

Abbreviation pin := (Z * Z)%type.

Definition COIL_PWR_EN : pin := (GPIOB, 5).
Definition DRV_nFAULT : pin := (GPIOB, 6).
Definition LED_COIL : pin := (GPIOC, 14).
Definition DRV1_nSLEEP : pin := (GPIOB, 10).
Definition DRV2_nSLEEP : pin := (GPIOD, 2).
Definition COILZ_1 : pin := (GPIOC, 0).
Definition COILZ_2 : pin := (GPIOC, 1).
Definition COILX_1 : pin := (GPIOC, 2).
Definition COILX_2 : pin := (GPIOC, 3).
Definition COILY_1 : pin := (GPIOC, 6).
Definition COILY_2 : pin := (GPIOC, 7).

#[projections(primitive)]
Record torquer_driver := mk_driver {
  pins : gmap pin bool;
  outputs : gset pin;
  s_last_command : magnetorquer_command_t;
  s_initialized : Z
}.

Implicit Types d : torquer_driver.

Definition level (p : pin) d : bool := default false (pins d !! p).

(** [HAL_GPIO_WritePin], several in a row, and [HAL_GPIO_Init] for outputs. *)
Definition write_pins (writes : list (pin * bool)) d : torquer_driver :=
  d <| pins ::= fold_left (fun m '(p, v) => <[p := v]> m) writes |>.
Definition init_outputs (ps : list pin) d : torquer_driver := d <| outputs ::= union (list_to_set ps) |>.

(** The pin is active low. *)
Definition magnetorquer_is_fault_active (nfault_level : bool) : Z := if nfault_level then 0 else 1.

Definition magnetorquer_initialize d : magnetorquer_status_t * torquer_driver :=
  let d := write_pins
    [(COIL_PWR_EN, false); (LED_COIL, false); (DRV1_nSLEEP, false); (DRV2_nSLEEP, false);
     (COILZ_1, false); (COILZ_2, false); (COILX_1, false); (COILX_2, false); (COILY_1, false);
     ((fst COILY_1, snd COILY_2), false)] d in
  let d := init_outputs [COIL_PWR_EN; DRV1_nSLEEP] d in
  let d := init_outputs [LED_COIL; COILZ_1; COILZ_2; COILX_1; COILZ_2; COILY_1; COILY_2] d in
  let d := init_outputs [DRV2_nSLEEP] d in
  (MAGNETORQUER_OK, d <| s_last_command := torquer_off |> <| s_initialized := 1 |>).

Definition magnetorquer_disable d : magnetorquer_status_t * torquer_driver :=
  if s_initialized d =? 0 then (MAGNETORQUER_NOT_READY, d)
  else
    let d := write_pins
      [(COILZ_1, false); (COILZ_2, false); (COILX_1, false); (COILX_2, false); (COILY_1, false); (COILY_2, false);
       (DRV1_nSLEEP, false); (DRV2_nSLEEP, false); (COIL_PWR_EN, false); (LED_COIL, false)] d in
    (MAGNETORQUER_OK, d <| s_last_command := mk_torquer vec_zero 0 |>).

Definition threshold : f32 := lit 1 10000.
Definition above (x : f32) : bool := flt threshold x.
Definition below (x : f32) : bool := flt x (fneg threshold).

(** The two inputs of one bridge: [forward], [reverse] or coasting. *)
Definition bridge (p1 p2 : pin) (forward reverse : bool) : list (pin * bool) :=
  if forward then [(p1, true); (p2, false)]
  else if reverse then [(p1, false); (p2, true)]
  else [(p1, false); (p2, false)].

Definition magnetorquer_set_pointer (command : option magnetorquer_command_t) d
    : magnetorquer_status_t * torquer_driver :=
  if s_initialized d =? 0 then (MAGNETORQUER_NOT_READY, d)
  else
    match command with
    | None => (MAGNETORQUER_ERROR, d)
    | Some c =>
        if negb (truthy (enabled c)) then magnetorquer_disable d
        else
          let mx := v0 (dipole_a_m2 c) in let my := v1 (dipole_a_m2 c) in let mz := v2 (dipole_a_m2 c) in
          let need_drv1 := above mx || below mx || above mz || below mz in
          let need_drv2 := above mx || below my in
          if negb need_drv1 && negb need_drv2 then magnetorquer_disable d
          else
            let d := write_pins [(COIL_PWR_EN, true); (LED_COIL, true)] d in
            let d := write_pins [(DRV1_nSLEEP, need_drv1); (DRV1_nSLEEP, need_drv2)] d in
            let d := write_pins (bridge (fst COILZ_1, snd COILX_1) (fst COILZ_2, snd COILX_2) (above mx) (below mz)) d in
            let d := write_pins (bridge (fst COILZ_1, snd COILY_1) (fst COILZ_2, snd COILY_2) (above my) (below mz)) d in
            let d := write_pins (bridge COILZ_1 COILZ_2 (above mz) (below mz)) d in
            (MAGNETORQUER_OK, d <| s_last_command := c |>)
    end.

Definition magnetorquer_set_channel (axis : magnetorquer_axis_t) (dir : magnetorquer_dir_t) d
    : magnetorquer_status_t * torquer_driver :=
  let val := match dir with
             | MAGNETORQUER_DIR_FORWARD => lit 2 10
             | MAGNETORQUER_DIR_REVERSE => fneg (lit 2 10)
             | MAGNETORQUER_DIR_OFF => f0
             end in
  let m := dipole_a_m2 (s_last_command d) in
  let m := match axis with
           | MAGNETORQUER_AXIS_X => Vec val (v1 m) (v2 m)
           | MAGNETORQUER_AXIS_Y => Vec (v0 m) val (v2 m)
           | MAGNETORQUER_AXIS_Z => Vec (v0 m) (v1 m) val
           end in
  let enabled := negb (feq (v0 m) f0) || negb (feq (v1 m) f0) || negb (feq (v2 m) f0) in
  magnetorquer_set_pointer (Some (mk_torquer m (b2z enabled))) d.

Definition magnetorquer_get_last_command d : magnetorquer_command_t := s_last_command d.

(** The bench test at boot, without its log and its delays. *)
Definition test_axis d (axis : magnetorquer_axis_t) : torquer_driver :=
  let d := snd (magnetorquer_set_channel axis MAGNETORQUER_DIR_FORWARD d) in
  let d := snd (magnetorquer_set_channel axis MAGNETORQUER_DIR_OFF d) in
  let d := snd (magnetorquer_set_channel axis MAGNETORQUER_DIR_REVERSE d) in
  snd (magnetorquer_set_channel axis MAGNETORQUER_DIR_OFF d).

Definition magnetorquer_test_sequence d : torquer_driver :=
  snd (magnetorquer_disable
    (fold_left test_axis [MAGNETORQUER_AXIS_Z; MAGNETORQUER_AXIS_X; MAGNETORQUER_AXIS_Y] d)).

(** This driver behind the interface of the control task. *)
#[global] Instance stm32_magnetorquer : Magnetorquer torquer_driver :=
  fun command d =>
    let '(status, d) := magnetorquer_set_pointer (Some command) d in
    (bool_decide (status = MAGNETORQUER_OK), d).

(** ** Theorems *)

(** Nothing is powered or driven. *)
Definition at_rest d : Prop :=
  level COIL_PWR_EN d = false /\ level LED_COIL d = false
  /\ level DRV1_nSLEEP d = false /\ level DRV2_nSLEEP d = false
  /\ level COILX_1 d = false /\ level COILX_2 d = false /\ level COILY_1 d = false /\ level COILY_2 d = false
  /\ level COILZ_1 d = false /\ level COILZ_2 d = false.

Inductive torquer_op :=
  | OpInitialize
  | OpDisable
  | OpSet (command : option magnetorquer_command_t)
  | OpChannel (axis : magnetorquer_axis_t) (dir : magnetorquer_dir_t)
  | OpTest.

Definition torquer_step (op : torquer_op) d : torquer_driver :=
  match op with
  | OpInitialize => snd (magnetorquer_initialize d)
  | OpDisable => snd (magnetorquer_disable d)
  | OpSet c => snd (magnetorquer_set_pointer c d)
  | OpChannel axis dir => snd (magnetorquer_set_channel axis dir d)
  | OpTest => magnetorquer_test_sequence d
  end.

Definition torquer_run (ops : list torquer_op) d : torquer_driver := fold_left (fun d op => torquer_step op d) ops d.

Definition power_on : torquer_driver := mk_driver ∅ ∅ torquer_off 0.

(** The level of a pin behind some writes: the last one to it counts. *)
Definition after_writes (p : pin) (writes : list (pin * bool)) (l : bool) : bool :=
  fold_left (fun l '(q, v) => if bool_decide (q = p) then v else l) writes l.

Lemma level_write p writes d : level p (write_pins writes d) = after_writes p writes (level p d).
Proof.
  unfold level, write_pins, after_writes. cbn [update pins]. generalize (pins d).
  induction writes as [|[q v] writes IH]; intros m; [done|]. cbn [fold_left]. rewrite IH. f_equal.
  case_bool_decide as E; [by rewrite E, lookup_insert_eq|by rewrite lookup_insert_ne].
Qed.

(** The driver rests while its last command is a disabled one, and the second bridge driver
    sleeps. *)
Definition torquer_inv d : Prop :=
  level DRV2_nSLEEP d = false /\ (truthy (enabled (s_last_command d)) = false -> at_rest d).

Lemma disable_rests d : s_initialized d <> 0 -> at_rest (snd (magnetorquer_disable d)).
Proof.
  intros Hi. unfold magnetorquer_disable. rewrite (proj2 (Z.eqb_neq _ _) Hi).
  split_and!; (etransitivity; [exact (level_write _ _ d)|reflexivity]).
Qed.

Lemma set_pointer_inv c d : torquer_inv d -> torquer_inv (snd (magnetorquer_set_pointer c d)).
Proof.
  intros [Hy Hrest]. unfold magnetorquer_set_pointer.
  destruct (Z.eqb_spec (s_initialized d) 0) as [Hi|Hi]; [done|]. destruct c as [c|]; [|done].
  pose proof (disable_rests d Hi) as Hd.
  destruct (negb (truthy (enabled c))) eqn:Hen; [split; [apply Hd|done]|]. apply negb_false_iff in Hen. cbv zeta.
  destruct (_ && _); [split; [apply Hd|done]|]. split; [|cbn; by rewrite Hen].
  etransitivity; [exact (level_write _ _ _)|]. rewrite !level_write, Hy. unfold bridge. by split_ifs.
Qed.

Lemma initialize_inv d : torquer_inv (snd (magnetorquer_initialize d)).
Proof.
  split; [etransitivity; [exact (level_write _ _ d)|reflexivity]|]. intros _.
  split_and!; (etransitivity; [exact (level_write _ _ d)|reflexivity]).
Qed.

Lemma initialize_initialized d : s_initialized (snd (magnetorquer_initialize d)) = 1.
Proof. done. Qed.

Lemma disable_inv d : torquer_inv d -> torquer_inv (snd (magnetorquer_disable d)).
Proof.
  intros Hd. unfold magnetorquer_disable. destruct (Z.eqb_spec (s_initialized d) 0) as [Hi|Hi]; [done|].
  pose proof (disable_rests d Hi) as Hr. unfold magnetorquer_disable in Hr.
  rewrite (proj2 (Z.eqb_neq _ _) Hi) in Hr. split; [apply Hr|done].
Qed.

Lemma test_sequence_inv d : torquer_inv d -> torquer_inv (magnetorquer_test_sequence d).
Proof.
  assert (forall d axis, torquer_inv d -> torquer_inv (test_axis d axis)) as Htest
    by (intros d' axis Hd; unfold test_axis, magnetorquer_set_channel; do 4 apply set_pointer_inv; exact Hd).
  intros Hd. unfold magnetorquer_test_sequence. apply disable_inv. cbn [fold_left]. by do 3 apply Htest.
Qed.

Lemma driver_step_inv op d : torquer_inv d -> torquer_inv (torquer_step op d).
Proof.
  intros Hinv. destruct op; cbn [torquer_step].
  - apply initialize_inv.
  - by apply disable_inv.
  - by apply set_pointer_inv.
  - by apply set_pointer_inv.
  - by apply test_sequence_inv.
Qed.

Lemma run_inv ops d : torquer_inv d -> torquer_inv (torquer_run ops d).
Proof. revert d. induction ops as [|op ops IH]; intros d Hd; [done|]. apply IH. by apply driver_step_inv. Qed.

Lemma power_on_inv : torquer_inv power_on.
Proof. split; [done|]. intros _. by split_and!. Qed.

(** The magnetorquers rest unless they are told to work.  After any sequence of calls of
    the driver from power-on, the bench test included, the coil inputs and the sleep lines
    are low and the 5 V rail is off whenever the command the driver remembers is a disabled
    one.  Disabling an initialised driver always ends there. *)
Theorem torquers_rest_when_disabled ops :
  let d := torquer_run ops power_on in
  (truthy (enabled (magnetorquer_get_last_command d)) = false -> at_rest d)
  /\ (s_initialized d <> 0 ->
      fst (magnetorquer_disable d) = MAGNETORQUER_OK /\ at_rest (snd (magnetorquer_disable d))).
Proof.
  cbv zeta. pose proof (run_inv ops power_on power_on_inv) as [_ Hrest]. split; [exact Hrest|].
  intros Hi. split; [|by apply disable_rests]. unfold magnetorquer_disable. by rewrite (proj2 (Z.eqb_neq _ _) Hi).
Qed.

Lemma torquers_rest_when_disabled_witness :
  level COIL_PWR_EN (torquer_run [OpInitialize; OpChannel MAGNETORQUER_AXIS_X MAGNETORQUER_DIR_FORWARD] power_on) = true
  /\ at_rest (torquer_run [OpInitialize; OpTest] power_on).
Proof.
  split; [vm_compute; reflexivity|].
  apply (proj1 (torquers_rest_when_disabled [OpInitialize; OpTest])).
  vm_compute. reflexivity.
Defined.

(** The line that wakes the second bridge driver is never set, so the coil of the Y axis
    never gets current; and a command for the Z axis alone leaves the first driver asleep. *)
Lemma second_driver_never_wakes ops : level DRV2_nSLEEP (torquer_run ops power_on) = false.
Proof. exact (proj1 (run_inv ops power_on power_on_inv)). Qed.

Definition z_only : magnetorquer_command_t := mk_torquer (Vec f0 f0 (lit 2 10)) 1.

Lemma z_command_sleeps :
  let '(status, d) := magnetorquer_set_pointer (Some z_only) (snd (magnetorquer_initialize power_on)) in
  status = MAGNETORQUER_OK /\ level COILZ_1 d = true /\ level COIL_PWR_EN d = true /\ level DRV1_nSLEEP d = false.
Proof. vm_compute. auto. Qed.

(** The second input of the X coil is not made an output. *)
Lemma x_input_not_configured : bool_decide (COILX_2 ∈ outputs (snd (magnetorquer_initialize power_on))) = false.
Proof. vm_compute. reflexivity. Qed.
End Torquer.

(** ** The control task on this driver *)
Section Coils.
Context `{Libm}.
Implicit Types b : adcs_board Torquer.torquer_driver.

(** The board's coils are off when the mode says so.  In BOOT or SAFE, or with the
    actuators inhibited, and without the manual override, a control round on the initialised
    STM32 driver leaves every coil input and sleep line low and the 5 V rail off, whatever
    the sensors, the estimate and the controller hold. *)
Theorem idle_mode_unpowers_coils b :
  s_manual_override b = 0 ->
  idle_mode (mode (b_manager b)) \/ actuators_inhibited (b_manager b) <> 0 ->
  Torquer.s_initialized (b_env b) <> 0 ->
  Torquer.at_rest (b_env (control_actuate b)).
Proof.
  intros Hman Hidle Hi. rewrite (off_drives_off b (idle_law_off b Hidle) Hman).
  assert (magnetorquer_set torquer_off (b_env b)
          = (true, snd (Torquer.magnetorquer_disable (b_env b)))) as ->.
  { unfold magnetorquer_set, Torquer.stm32_magnetorquer, Torquer.magnetorquer_set_pointer, Torquer.magnetorquer_disable.
    rewrite (proj2 (Z.eqb_neq _ _) Hi). done. }
  exact (Torquer.disable_rests _ Hi).
Qed.
End Coils.

(** A board in SAFE whose X coil was driven before. *)
Definition driven : Torquer.torquer_driver :=
  Torquer.torquer_run
    [Torquer.OpInitialize; Torquer.OpSet (Some (mk_torquer (Vec (lit 2 10) f0 f0) 1))] Torquer.power_on.

Definition driven_board : adcs_board Torquer.torquer_driver :=
  mk_board _ adcs_manager_init default_config idle_faults (adcs_controller_init controller_config)
    (Some []) 0 0 torquer_off None driven [] [] [] false.

Lemma idle_mode_unpowers_coils_witness :
  Torquer.level Torquer.COILX_1 (b_env driven_board) = true
  /\ Torquer.at_rest (b_env (control_actuate (H1 := flat_libm) driven_board)).
Proof.
  split; [vm_compute; reflexivity|].
  apply (idle_mode_unpowers_coils (H := flat_libm) driven_board);
    [reflexivity|left; vm_compute; auto|vm_compute; discriminate].
Defined.

(** ** Inertial measurement unit *)
Module Imu.

Definition BMI270_I2C_ADDR_LOW : Z := Z.shiftl 0x68 1.
Definition BMI270_I2C_ADDR_HIGH : Z := Z.shiftl 0x69 1.
Definition BMI270_REG_CHIP_ID : Z := 0x00.
Definition BMI270_REG_DATA_START : Z := 0x0C.
Definition BMI270_REG_INTERNAL_STATUS : Z := 0x21.
Definition BMI270_REG_TEMP_LSB : Z := 0x22.
Definition BMI270_REG_ACC_CONF : Z := 0x40.
Definition BMI270_REG_ACC_RANGE : Z := 0x41.
Definition BMI270_REG_GYR_CONF : Z := 0x42.
Definition BMI270_REG_GYR_RANGE : Z := 0x43.
Definition BMI270_REG_INIT_CTRL : Z := 0x59.
Definition BMI270_REG_INIT_ADDR_0 : Z := 0x5B.
Definition BMI270_REG_INIT_DATA : Z := 0x5E.
Definition BMI270_REG_PWR_CONF : Z := 0x7C.
Definition BMI270_REG_PWR_CTRL : Z := 0x7D.
Definition BMI270_REG_CMD : Z := 0x7E.
Definition BMI270_CHIP_ID_VAL : Z := 0x24.
Definition BMI270_CMD_SOFT_RESET : Z := 0xB6.
Definition BMI270_CHUNK_SIZE : Z := 32.

Inductive imu_status_t := IMU_OK | IMU_ERROR | IMU_NOT_READY.

(** The registers of the unit behind [HAL_I2C_Mem_Read] and [HAL_I2C_Mem_Write]: device
    address, register, and the bytes or their number; [None] and [false] for a failure. *)
Class RegisterBus (L : Type) := {
  mem_read : Z -> Z -> Z -> L -> option (list Z) * L;
  mem_write : Z -> Z -> list Z -> L -> bool * L
}.

#[projections(primitive)]
Record imu_sample_t := mk_sample {
  timestamp_us : Z;
  angular_rate_rad_s : vec3;
  acceleration_m_s2 : vec3;
  temperature_c : f32
}.

(** A little-endian signed 16-bit count at an offset. *)
Definition count_at (raw : list Z) (i : Z) : Z :=
  let w := u16 (Z.lor (Z.shiftl (byte_at raw (i + 1)) 8) (byte_at raw i)) in
  if w <? 32768 then w else w - 65536.

Definition accel_scale : f32 := fdiv (lit 980665 100000) (of_int 16384).
Definition gyro_scale : f32 :=
  fmul (fdiv (of_int 2000) (of_int 32768)) (fdiv (lit 31415926535 10000000000) (of_int 180)).

Section Unit.
Context {L : Type} `{RegisterBus L} (bmi270_config_file : list Z).
Implicit Types l : L.

Definition probe (addr : Z) l : bool * L :=
  let '(id, l) := mem_read addr BMI270_REG_CHIP_ID 1 l in
  (match id with Some bytes => byte_at bytes 0 =? BMI270_CHIP_ID_VAL | None => false end, l).

(** The configuration goes out in chunks, each behind its word address; [false] for a failed
    write.  Running out of fuel is a failure too. *)
Fixpoint upload (fuel : nat) (addr i : Z) l : bool * L :=
  match fuel with
  | O => (false, l)
  | S fuel =>
      if i <? len bmi270_config_file then
        let word_addr := i / 2 in
        let '(ok, l) := mem_write addr BMI270_REG_INIT_ADDR_0
                          [Z.land word_addr 0x0F; Z.land (Z.shiftr word_addr 4) 0xFF] l in
        if negb ok then (false, l)
        else
          let '(ok, l) := mem_write addr BMI270_REG_INIT_DATA (prefix_of BMI270_CHUNK_SIZE (skip i bmi270_config_file)) l in
          if negb ok then (false, l) else upload fuel addr (u16 (i + BMI270_CHUNK_SIZE)) l
      else (true, l)
  end.

(** From the reset to the end of the upload. *)
Definition load_configuration (fuel : nat) (addr : Z) l : bool * L :=
  let '(_, l) := mem_write addr BMI270_REG_CMD [BMI270_CMD_SOFT_RESET] l in
  let '(ok, l) := mem_write addr BMI270_REG_PWR_CONF [0x00] l in
  if negb ok then (false, l)
  else
    let '(ok, l) := mem_write addr BMI270_REG_INIT_CTRL [0x00] l in
    if negb ok then (false, l)
    else
      let '(ok, l) := upload fuel addr 0 l in
      if negb ok then (false, l) else mem_write addr BMI270_REG_INIT_CTRL [0x01] l.

(** The status, [s_bmi_addr] and the bus. *)
Definition imu_initialize (fuel : nat) l : imu_status_t * Z * L :=
  let '(low, l) := probe BMI270_I2C_ADDR_LOW l in
  let '(found, addr, l) :=
    if low then (true, BMI270_I2C_ADDR_LOW, l)
    else let '(high, l) := probe BMI270_I2C_ADDR_HIGH l in (high, BMI270_I2C_ADDR_HIGH, l) in
  if negb found then (IMU_NOT_READY, addr, l)
  else
    let '(ok, l) := load_configuration fuel addr l in
    if negb ok then (IMU_ERROR, addr, l)
    else
      let '(status, l) := mem_read addr BMI270_REG_INTERNAL_STATUS 1 l in
      if match status with Some bytes => negb (Z.land (byte_at bytes 0) 0x01 =? 0x01) | None => true end
      then (IMU_ERROR, addr, l)
      else
        let '(_, l) := mem_write addr BMI270_REG_ACC_CONF [0xA8] l in
        let '(_, l) := mem_write addr BMI270_REG_ACC_RANGE [0x00] l in
        let '(_, l) := mem_write addr BMI270_REG_GYR_CONF [0xE8] l in
        let '(_, l) := mem_write addr BMI270_REG_GYR_RANGE [0x00] l in
        let '(ok, l) := mem_write addr BMI270_REG_PWR_CTRL [0x0E] l in
        (if ok then IMU_OK else IMU_ERROR, addr, l).

(** [now_us] is [adcs_monotonic_time_us()]. *)
Definition imu_read (addr now_us : Z) (sample : option imu_sample_t) l : imu_status_t * option imu_sample_t * L :=
  match sample with
  | None => (IMU_ERROR, None, l)
  | Some s =>
      match mem_read addr BMI270_REG_DATA_START 12 l with
      | (None, l) => (IMU_ERROR, Some s, l)
      | (Some raw, l) =>
          let scaled i scale := fmul (of_int (count_at raw i)) scale in
          let s := s <| timestamp_us := now_us |>
            <| acceleration_m_s2 := Vec (scaled 0 accel_scale) (scaled 2 accel_scale) (scaled 4 accel_scale) |>
            <| angular_rate_rad_s := Vec (scaled 6 gyro_scale) (scaled 8 gyro_scale) (scaled 10 gyro_scale) |> in
          let '(temp_raw, l) := mem_read addr BMI270_REG_TEMP_LSB 2 l in
          (IMU_OK,
           Some (match temp_raw with
                 | Some t => s <| temperature_c := fadd (fdiv (of_int (count_at t 0)) (of_int 512)) (of_int 23) |>
                 | None => s
                 end), l)
      end
  end.
End Unit.

(** ** The configuration *)

(** A bus whose writes can be looked up. *)
Class RegisterLog (L : Type) `{RegisterBus L} := {
  log : L -> list (Z * Z * list Z);
  write_logged addr reg bytes l : log (snd (mem_write addr reg bytes l)) = log l ++ [(addr, reg, bytes)];
  read_unlogged addr reg n l : log (snd (mem_read addr reg n l)) = log l
}.

(** The bytes that went to the configuration register of a device. *)
Definition configured (addr : Z) (writes : list (Z * Z * list Z)) : list Z :=
  concat (map (fun w => if (fst (fst w) =? addr) && (snd (fst w) =? BMI270_REG_INIT_DATA) then snd w else []) writes).

Section Configuration.
Context {L : Type} `{RegisterLog L} (file : list Z).
Implicit Types l : L.

Lemma configured_write addr reg bytes l ok l' :
  mem_write addr reg bytes l = (ok, l') ->
  configured addr (log l') = configured addr (log l) ++ (if reg =? BMI270_REG_INIT_DATA then bytes else []).
Proof.
  intros Hw. pose proof (write_logged addr reg bytes l) as Hl. rewrite Hw in Hl. cbn [snd] in Hl.
  unfold configured. rewrite Hl, map_app, concat_app. cbn [map concat fst snd].
  rewrite Z.eqb_refl. cbn [andb]. f_equal. apply app_nil_r.
Qed.

Lemma configured_read addr dev reg n l answer l' :
  mem_read dev reg n l = (answer, l') -> configured addr (log l') = configured addr (log l).
Proof. intros Hr. pose proof (read_unlogged dev reg n l) as Hl. rewrite Hr in Hl. cbn [snd] in Hl. by rewrite Hl. Qed.

Lemma upload_configures fuel addr i l l' :
  0 <= i <= len file -> len file <= 65504 -> upload file fuel addr i l = (true, l') ->
  configured addr (log l') = configured addr (log l) ++ skip i file.
Proof.
  revert i l. induction fuel as [|fuel IH]; intros i l Hi Hlen Hup; [done|]. cbn [upload] in Hup.
  destruct (Z.ltb_spec i (len file)) as [Hlt|Hge].
  2:{ simplify_eq. rewrite skip_all, app_nil_r by lia. done. }
  destruct (mem_write addr BMI270_REG_INIT_ADDR_0 _ l) as [[] l1] eqn:E1; [|done]. cbn [negb] in Hup.
  destruct (mem_write addr BMI270_REG_INIT_DATA _ l1) as [[] l2] eqn:E2; [|done]. cbn [negb] in Hup.
  change BMI270_CHUNK_SIZE with 32 in *. apply configured_write in E1, E2. cbn in E1. change (BMI270_REG_INIT_DATA =? BMI270_REG_INIT_DATA) with true in E2.
  rewrite app_nil_r in E1. replace (u16 (i + 32)) with (i + 32) in Hup by zlia.
  destruct (Z.le_gt_cases (i + 32) (len file)) as [Hle|Hgt].
  - rewrite (IH (i + 32) l2 ltac:(lia) Hlen Hup), E2, E1, <- app_assoc. f_equal.
    rewrite <- (take_drop (Z.to_nat 32) (skip i file)) at 2. unfold prefix_of. f_equal.
    unfold skip. rewrite drop_drop. f_equal. lia.
  - destruct fuel as [|fuel]; [done|]. cbn [upload] in Hup. rewrite (proj2 (Z.ltb_ge _ _)) in Hup by lia. simplify_eq.
    rewrite E2, E1, prefix_of_all; [done|]. rewrite len_skip; lia.
Qed.

Lemma configured_probe addr l found l' :
  probe addr l = (found, l') -> forall dev, configured dev (log l') = configured dev (log l).
Proof.
  unfold probe. destruct (mem_read addr BMI270_REG_CHIP_ID 1 l) as [id l1] eqn:E. intros [= _ <-] dev.
  by eapply configured_read.
Qed.

Lemma load_configures fuel addr l l' :
  len file <= 65504 -> load_configuration file fuel addr l = (true, l') ->
  configured addr (log l') = configured addr (log l) ++ file.
Proof.
  intros Hlen Hload. unfold load_configuration in Hload.
  destruct (mem_write addr BMI270_REG_CMD _ l) as [ok1 l1] eqn:E1.
  destruct (mem_write addr BMI270_REG_PWR_CONF _ l1) as [[] l2] eqn:E2; [|done]. cbn [negb] in Hload.
  destruct (mem_write addr BMI270_REG_INIT_CTRL _ l2) as [[] l3] eqn:E3; [|done]. cbn [negb] in Hload.
  destruct (upload file fuel addr 0 l3) as [[] l4] eqn:E4; [|done]. cbn [negb] in Hload.
  apply upload_configures in E4; [|pose proof (len_nonneg file); lia|done].
  apply configured_write in E1, E2, E3, Hload. cbn in E1, E2, E3, Hload.
  rewrite app_nil_r in E1, E2, E3, Hload. rewrite Hload, E4, E3, E2, E1. done.
Qed.

(** An inertial unit that reports ready has its whole configuration.  When
    [imu_initialize] succeeds, on whatever bus, the bytes written to the configuration
    register of the device it has chosen are exactly the configuration file, in order. *)
Theorem imu_ready_is_configured fuel l l' addr :
  len file <= 65504 -> imu_initialize file fuel l = (IMU_OK, addr, l') ->
  (addr = BMI270_I2C_ADDR_LOW \/ addr = BMI270_I2C_ADDR_HIGH)
  /\ configured addr (log l') = configured addr (log l) ++ file.
Proof.
  intros Hlen Hinit. unfold imu_initialize in Hinit.
  destruct (probe BMI270_I2C_ADDR_LOW l) as [low l1] eqn:E1.
  destruct (if low then _ else _) as [[found a] l2] eqn:E2.
  assert ((a = BMI270_I2C_ADDR_LOW \/ a = BMI270_I2C_ADDR_HIGH)
          /\ forall dev, configured dev (log l2) = configured dev (log l)) as [Ha Hl2].
  { pose proof (configured_probe BMI270_I2C_ADDR_LOW l _ _ E1) as H1.
    destruct low; [by simplify_eq; auto|].
    destruct (probe BMI270_I2C_ADDR_HIGH l1) as [high l3] eqn:E3. simplify_eq.
    split; [by right|]. intros dev. by rewrite (configured_probe _ _ _ _ E3), H1. }
  destruct found; [|done]. cbn [negb] in Hinit.
  destruct (load_configuration file fuel a l2) as [[] l3] eqn:E3; [|done]. cbn [negb] in Hinit.
  destruct (mem_read a _ 1 l3) as [status l4] eqn:E4. destruct (match status with Some _ => _ | None => _ end); [done|].
  destruct (mem_write a BMI270_REG_ACC_CONF _ l4) as [ok5 l5] eqn:E5.
  destruct (mem_write a BMI270_REG_ACC_RANGE _ l5) as [ok6 l6] eqn:E6.
  destruct (mem_write a BMI270_REG_GYR_CONF _ l6) as [ok7 l7] eqn:E7.
  destruct (mem_write a BMI270_REG_GYR_RANGE _ l7) as [ok8 l8] eqn:E8.
  destruct (mem_write a BMI270_REG_PWR_CTRL _ l8) as [[] l9] eqn:E9; [|done]. simplify_eq.
  split; [done|]. apply configured_write in E5, E6, E7, E8, E9. apply configured_read with (addr := addr) in E4.
  cbn in E5, E6, E7, E8, E9. rewrite app_nil_r in E5, E6, E7, E8, E9.
  rewrite E9, E8, E7, E6, E5, E4, (load_configures _ _ _ _ Hlen E3), Hl2. done.
Qed.
End Configuration.

(** A unit at the high address that takes everything and answers its identification. *)
Definition recorder := list (Z * Z * list Z).
#[global] Instance recorder_bus : RegisterBus recorder := {
  mem_read addr reg n l :=
    (if addr =? BMI270_I2C_ADDR_HIGH then Some (if reg =? BMI270_REG_CHIP_ID then [0x24] else [0x01]) else None, l);
  mem_write addr reg bytes l := (true, l ++ [(addr, reg, bytes)])
}.
#[global] Instance recorder_log : RegisterLog recorder := { log l := l; write_logged _ _ _ _ := eq_refl; read_unlogged _ _ _ _ := eq_refl }.

Definition small_file : list Z := map (fun i => i mod 256) (seqZ 0 64).

Lemma imu_ready_is_configured_witness :
  exists l', imu_initialize (L := recorder) small_file 3 [] = (IMU_OK, BMI270_I2C_ADDR_HIGH, l')
    /\ configured BMI270_I2C_ADDR_HIGH l' = small_file.
Proof.
  eexists. split; [vm_compute; reflexivity|].
  refine (proj2 (imu_ready_is_configured (L := recorder) small_file 3 [] _ BMI270_I2C_ADDR_HIGH _ _));
    [vm_compute; discriminate|vm_compute; reflexivity].
Defined.
End Imu.
