(* ===== verification/SimBus.v ===== *)
(** The simulated bus ([platform/sim/drivers/comms_i2c.c]): frames over Unix stream sockets.

    The kernel is the class [BusKernel]; [StreamSockets] states what a stream socket
    promises, and a socket that hands out its bytes in pieces of any size implements both.
    A loop that only the kernel ends has fuel.  A result is [None] while the call is still
    running, and when it writes past the connection table. *)

From S2P Require Import Prelude Frame I2cMaster.

Definition MAX_CONNECTIONS : Z := 5.
Definition LEFTOVER_BUF_SIZE : Z := 2 * (4 + MAX_FRAME_PAYLOAD).

#[local] Set Primitive Projections.

Record leftover_t := mk_leftover { lo_buf : list Z; lo_len : Z }.

(** The static variables of the driver. *)
Record sim_bus := mk_sim_bus {
  sb_address : Z;                      (* my_bus_address *)
  sb_is_master : Z;                    (* bus_is_master *)
  sb_fd : Z;                           (* bus_fd *)
  connections_fd : list Z;
  connection_count : Z;
  slave_leftover : leftover_t;
  master_leftover : list leftover_t
}.

#[local] Unset Primitive Projections.

Definition no_leftover : leftover_t := mk_leftover (zeros LEFTOVER_BUF_SIZE) 0.

(** The statics as the loader leaves them. *)
Definition sim_bus_static : sim_bus :=
  mk_sim_bus 0 0 (-1) (zeros MAX_CONNECTIONS) 0 no_leftover (replicate 5 no_leftover).

Inductive poll_answer := Poll_timeout | Poll_interrupted | Poll_failed | Poll_ready (pollin : bool).
Inductive read_answer := Read_interrupted | Read_failed | Read_bytes (data : list Z).
Inductive write_answer := Write_interrupted | Write_failed | Wrote (n : Z).

(** [clock_gettime] answers seconds and nanoseconds.  [read] answers at most the number of
    bytes asked for, none when the peer has closed. *)
Class BusKernel (K : Type) := {
  clock_gettime : K -> option (Z * Z) * K;
  poll_in : Z -> Z -> K -> poll_answer * K;
  read_fd : Z -> Z -> K -> read_answer * K;
  write_fd : Z -> list Z -> K -> write_answer * K;
  close_fd : Z -> K -> K
}.

Section Driver.
Context {K : Type} `{BusKernel K}.
Implicit Types (b : sim_bus) (k : K).

Definition connection b (index : nat) : Z := nth index (connections_fd b) (-1).
Definition leftover b (index : nat) : leftover_t := nth index (master_leftover b) no_leftover.

Definition mark_connection_dead (index : nat) b k : sim_bus * K :=
  if connection b index =? -1 then (b, k)
  else (b <| connections_fd ::= <[index := -1]> |>, close_fd (connection b index) k).

Definition monotonic_milliseconds k : Z * K :=
  match clock_gettime k with
  | (None, k) => (-1, k)
  | (Some (tv_sec, tv_nsec), k) => (tv_sec * 1000 + tv_nsec / 1000000, k)
  end.

(** The thread that accepts connections: one answer of [accept]. *)
Definition accept_connection (connection_fd : Z) b : option sim_bus :=
  if connection_fd <? 0 then Some b
  else if MAX_CONNECTIONS <=? connection_count b then None
  else
    let b := b <| connections_fd ::= <[Z.to_nat (connection_count b) := connection_fd]> |> in
    Some (b <| connection_count := connection_count b + 1 |>).

Fixpoint accept_connections (fds : list Z) b : option sim_bus :=
  match fds with
  | [] => Some b
  | fd :: fds => b ← accept_connection fd b; accept_connections fds b
  end.

(** The slave's wait for the master, against the answers of [connect]. *)
Fixpoint connect_loop (answers : list Z) : option unit :=
  match answers with
  | [] => None
  | r :: answers => if r <? 0 then connect_loop answers else Some tt
  end.

(** The answers of [socket], [bind], [pthread_mutex_init], [pthread_create] and [connect]. *)
Record init_answers := mk_init_answers {
  ia_socket : Z;
  ia_bind : Z;
  ia_mutex : Z;
  ia_thread : Z;
  ia_connect : list Z
}.

Definition comms_bus_initialize (my_address is_master : Z) (a : init_answers) b : option (Z * sim_bus) :=
  let b := b <| sb_address := my_address |> <| sb_is_master := is_master |> in
  let b := b <| sb_fd := ia_socket a |> in
  if sb_fd b <? 0 then Some (COMMS_BUS_ERROR, b)
  else if truthy is_master then
    let b := b <| connections_fd := replicate 5 (-1) |> in
    if ia_bind a <? 0 then Some (COMMS_BUS_ERROR, b)
    else if truthy (ia_mutex a) then Some (COMMS_BUS_ERROR, b)
    else if truthy (ia_thread a) then Some (COMMS_BUS_ERROR, b)
    else Some (COMMS_BUS_OK, b)
  else
    _ ← connect_loop (ia_connect a);
    Some (COMMS_BUS_OK, b).

(** ** [receive_one_frame] *)

Definition ntohs_at (buf : list Z) (i : Z) : Z := Z.lor (Z.shiftl (byte_at buf i) 8) (byte_at buf (i + 1)).

Fixpoint read_retry (fuel : nat) (fd available : Z) k : option (read_answer * K) :=
  match fuel with
  | O => None
  | S fuel =>
      match read_fd fd available k with
      | (Read_interrupted, k) => read_retry fuel fd available k
      | answer => Some answer
      end
  end.

(** A conversion to [int]. *)
Definition to_int (v : Z) : Z := u32 (v + 2147483648) - 2147483648.

(** The first [lo->len] bytes hold a frame: its result, or go on. *)
Definition take_frame (lo : leftover_t) (frame : Frame) : option (Z * leftover_t * Frame) :=
  if FRAME_HEADER_SIZE <=? lo_len lo then
    let needed := FRAME_HEADER_SIZE + ntohs_at (lo_buf lo) 2 in
    if LEFTOVER_BUF_SIZE <? needed then Some (COMMS_BUS_ERROR, lo, frame)
    else if needed <=? lo_len lo then
      let '(r, frame_out) := frame_deserialize (Some (lo_buf lo)) needed (Some frame) in
      let frame := default frame frame_out in
      if r <? 0 then Some (COMMS_BUS_ERROR, lo, frame)
      else
        let remaining := lo_len lo - needed in
        let buf := patch (lo_buf lo) 0 (prefix_of remaining (skip needed (lo_buf lo))) in
        Some (f_length frame, mk_leftover buf remaining, frame)
    else None
  else None.

Fixpoint receive_loop (fuel : nat) (fd : Z) (lo : leftover_t) (frame : Frame) (deadline : Z) k
    : option (Z * leftover_t * Frame * K) :=
  match fuel with
  | O => None
  | S fuel =>
      match take_frame lo frame with
      | Some (r, lo, frame) => Some (r, lo, frame, k)
      | None =>
          let '(now, k) := monotonic_milliseconds k in
          if now <? 0 then Some (COMMS_BUS_ERROR, lo, frame, k)
          else
            let remaining_ms := deadline - now in
            if remaining_ms <=? 0 then Some (COMMS_BUS_TIMEOUT, lo, frame, k)
            else
              match poll_in fd (to_int remaining_ms) k with
              | (Poll_timeout, k) => Some (COMMS_BUS_TIMEOUT, lo, frame, k)
              | (Poll_interrupted, k) => receive_loop fuel fd lo frame deadline k
              | (Poll_failed, k) => Some (COMMS_BUS_ERROR, lo, frame, k)
              | (Poll_ready false, k) => Some (COMMS_BUS_ERROR, lo, frame, k)
              | (Poll_ready true, k) =>
                  let available := LEFTOVER_BUF_SIZE - lo_len lo in
                  '(answer, k) ← read_retry fuel fd available k;
                  match answer with
                  | Read_bytes [] => Some (COMMS_BUS_ERROR, lo, frame, k)
                  | Read_bytes data =>
                      let lo := mk_leftover (patch (lo_buf lo) (lo_len lo) data) (lo_len lo + len data) in
                      receive_loop fuel fd lo frame deadline k
                  | _ => Some (COMMS_BUS_ERROR, lo, frame, k)
                  end
              end
      end
  end.

Definition receive_one_frame (fuel : nat) (fd : Z) (lo : leftover_t) (frame : Frame) (timeout_ms : Z) k
    : option (Z * leftover_t * Frame * K) :=
  let '(start, k) := monotonic_milliseconds k in
  if start <? 0 then Some (COMMS_BUS_ERROR, lo, frame, k)
  else receive_loop fuel fd lo frame (start + timeout_ms) k.

(** ** [comms_bus_send] *)

Fixpoint write_retry (fuel : nat) (fd : Z) (wire : list Z) k : option (Z * K) :=
  match fuel with
  | O => None
  | S fuel =>
      match write_fd fd wire k with
      | (Write_interrupted, k) => write_retry fuel fd wire k
      | (Write_failed, k) => Some (-1, k)
      | (Wrote n, k) => Some (n, k)
      end
  end.

(** Waiting for a first connection; [arrivals] are the answers of [accept] during each of
    the sleeps. *)
Fixpoint wait_for_connection (attempts : nat) (arrivals : list (list Z)) b : option sim_bus :=
  match attempts with
  | O => Some b
  | S attempts =>
      if connection_count b =? 0 then
        b ← accept_connections (hd [] arrivals) b;
        wait_for_connection attempts (tl arrivals) b
      else Some b
  end.

Fixpoint write_all (fuel : nat) (fds : list Z) (index : nat) (wire : list Z) (ret : Z) b k
    : option (Z * sim_bus * K) :=
  match fds with
  | [] => Some (ret, b, k)
  | fd :: fds =>
      if fd =? COMMS_BUS_ERROR then write_all fuel fds (S index) wire ret b k
      else
        '(ret, k) ← write_retry fuel fd wire k;
        let '(b, k) := if ret <? 0 then mark_connection_dead index b k else (b, k) in
        write_all fuel fds (S index) wire ret b k
  end.

Definition snapshot_fds b : list Z := prefix_of (connection_count b) (connections_fd b).

(** [payload0] and [wire0] are the uninitialised payload and wire buffer. *)
Definition comms_bus_send (fuel : nat) (arrivals : list (list Z)) (payload0 wire0 : list Z) b
    (dest_addr : Z) (data : list Z) (length : Z) k : option (Z * sim_bus * K) :=
  if sb_fd b <? 0 then Some (COMMS_BUS_ERROR, b, k)
  else if MAX_FRAME_PAYLOAD <? length then Some (COMMS_BUS_ERROR, b, k)
  else
    let frame := mk_frame dest_addr (sb_address b) length (patch payload0 0 (prefix_of length data)) in
    let '(wire_len, wire_buf) := frame_serialize (Some frame) (Some wire0) (4 + MAX_FRAME_PAYLOAD) in
    let wire := prefix_of wire_len (default wire0 wire_buf) in
    '(ret, b, k) ← (if truthy (sb_is_master b) then
                     b ← wait_for_connection 50 arrivals b;
                     write_all fuel (snapshot_fds b) 0 wire COMMS_BUS_ERROR b k
                   else
                     '(ret, k) ← write_retry fuel (sb_fd b) wire k;
                     Some (ret, b, k));
    if ret =? wire_len then Some (length, b, k) else Some (COMMS_BUS_ERROR, b, k).

(** ** [comms_bus_receive] *)

(** The slots in turn; the boolean is [found]. *)
Fixpoint receive_slots (fuel : nat) (fds : list Z) (index : nat) (timeout_per_connection : Z) (frame : Frame) b k
    : option (bool * Frame * sim_bus * K) :=
  match fds with
  | [] => Some (false, frame, b, k)
  | fd :: fds =>
      if fd =? -1 then receive_slots fuel fds (S index) timeout_per_connection frame b k
      else
        '(result, lo, frame, k) ← receive_one_frame fuel fd (leftover b index) frame timeout_per_connection k;
        let b := b <| master_leftover ::= <[index := lo]> |> in
        if result =? COMMS_BUS_TIMEOUT then receive_slots fuel fds (S index) timeout_per_connection frame b k
        else if result =? COMMS_BUS_ERROR then
          let '(b, k) := mark_connection_dead index b k in
          receive_slots fuel fds (S index) timeout_per_connection frame b k
        else if negb (dest_addr frame =? sb_address b)
        then receive_slots fuel fds (S index) timeout_per_connection frame b k
        else Some (true, frame, b, k)
  end.

Definition live_connections (fds : list Z) : Z := len (List.filter (fun fd => negb (fd =? COMMS_BUS_ERROR)) fds).

Definition timeout_per_connection (live : Z) : Z :=
  let t := COMMS_BUS_RECEIVE_TIMEOUT_MS / live in if t =? 0 then 1 else t.

(** [inl] is an early return. *)
Definition find_frame (fuel : nat) (frame0 : Frame) b k : option ((Z + Frame) * sim_bus * K) :=
  if truthy (sb_is_master b) then
    let fds := snapshot_fds b in
    if live_connections fds =? 0 then Some (inl COMMS_BUS_TIMEOUT, b, k)
    else
      '(found, frame, b, k) ← receive_slots fuel fds 0 (timeout_per_connection (live_connections fds)) frame0 b k;
      Some (if found : bool then inr frame else inl COMMS_BUS_TIMEOUT, b, k)
  else if sb_fd b <? 0 then Some (inl COMMS_BUS_ERROR, b, k)
  else
    '(result, lo, frame, k) ← receive_one_frame fuel (sb_fd b) (slave_leftover b) frame0 COMMS_BUS_RECEIVE_TIMEOUT_MS k;
    let b := b <| slave_leftover := lo |> in
    if result =? COMMS_BUS_TIMEOUT then Some (inl COMMS_BUS_TIMEOUT, b, k)
    else if result =? COMMS_BUS_ERROR then Some (inl COMMS_BUS_ERROR, b, k)
    else if negb (dest_addr frame =? sb_address b) then Some (inl COMMS_BUS_TIMEOUT, b, k)
    else Some (inr frame, b, k).

(** The result, [*src_addr_out] when it is written, and the buffer. *)
Definition comms_bus_receive (fuel : nat) (frame0 : Frame) b (buffer : list Z) (max_length : Z) k
    : option (Z * option Z * list Z * sim_bus * K) :=
  '(outcome, b, k) ← find_frame fuel frame0 b k;
  match outcome with
  | inl status => Some (status, None, buffer, b, k)
  | inr frame =>
      if max_length <? f_length frame then Some (COMMS_BUS_ERROR, None, buffer, b, k)
      else Some (f_length frame, Some (src_addr frame),
                 patch buffer 0 (prefix_of (f_length frame) (f_payload frame)), b, k)
  end.
End Driver.

(** ** What a stream socket promises

    [taken fd k] are all bytes read from [fd] so far, [written fd k] all bytes written to
    it.  A read takes the next bytes, at most as many as asked for; a write accepts a
    beginning of its bytes. *)

Class StreamSockets (K : Type) `{BusKernel K} := {
  taken : Z -> K -> list Z;
  written : Z -> K -> list Z;
  clock_effect fd k :
    taken fd (snd (clock_gettime k)) = taken fd k /\ written fd (snd (clock_gettime k)) = written fd k;
  poll_effect fd fd' ms k :
    taken fd (snd (poll_in fd' ms k)) = taken fd k /\ written fd (snd (poll_in fd' ms k)) = written fd k;
  read_effect fd fd' n k :
    let '(answer, k') := read_fd fd' n k in
    written fd k' = written fd k
    /\ match answer with
       | Read_bytes data =>
           bytes_ok data /\ len data <= n
           /\ taken fd k' = taken fd k ++ (if decide (fd = fd') then data else [])
       | _ => taken fd k' = taken fd k
       end;
  write_effect fd fd' bs k :
    let '(answer, k') := write_fd fd' bs k in
    taken fd k' = taken fd k
    /\ match answer with
       | Wrote n =>
           0 <= n <= len bs
           /\ written fd k' = written fd k ++ (if decide (fd = fd') then prefix_of n bs else [])
       | _ => written fd k' = written fd k
       end;
  close_effect fd fd' k :
    taken fd (close_fd fd' k) = taken fd k /\ written fd (close_fd fd' k) = written fd k
}.

(** ** Lemmas *)

Definition leftover_wf (lo : leftover_t) : Prop :=
  len (lo_buf lo) = LEFTOVER_BUF_SIZE /\ bytes_ok (lo_buf lo) /\ 0 <= lo_len lo <= LEFTOVER_BUF_SIZE.

Definition held (lo : leftover_t) : list Z := prefix_of (lo_len lo) (lo_buf lo).

(** A local [Frame]: its payload is a full array. *)
Definition frame_array (f : Frame) : Prop := bytes_ok (f_payload f) /\ len (f_payload f) = MAX_FRAME_PAYLOAD.

Definition frame_good (f : Frame) : Prop := frame_wf f /\ f_length f <= MAX_FRAME_PAYLOAD.

Lemma frame_good_array f : frame_good f -> frame_array f.
Proof. intros ((_ & _ & _ & ? & ?) & _). done. Qed.

Lemma len_held lo : leftover_wf lo -> len (held lo) = lo_len lo.
Proof. intros (Hl & _ & Hr). unfold held. rewrite len_prefix_of; lia. Qed.

Lemma no_leftover_wf : leftover_wf no_leftover.
Proof. split_and!; [reflexivity|apply bytes_ok_eval; vm_compute; reflexivity|done|done]. Qed.

(** [done] are the bytes of the frames handed out before the call, [done'] after it. *)
Definition received (frame' : Frame) (r : Z) (done done' : list Z) : Prop :=
  (r < 0 /\ (r = COMMS_BUS_ERROR \/ r = COMMS_BUS_TIMEOUT) /\ done' = done)
  \/ (frame_good frame' /\ r = f_length frame' /\ done' = done ++ frame_wire frame').

Lemma deserialize_taken w n f0 r f :
  bytes_ok w -> n <= len w -> frame_array f0 -> 0 <= n ->
  frame_deserialize (Some w) n (Some f0) = (r, f) ->
  exists f', f = Some f' /\ frame_array f'
  /\ (r < 0 \/ (frame_good f' /\ n = 4 + f_length f' /\ prefix_of n w = frame_wire f')).
Proof.
  intros Hb Hn [Ha Hl] Hn0 Hd.
  assert (exists f', f = Some f') as [f' ->].
  { revert Hd. unfold frame_deserialize. repeat case_match; intros [= <- <-]; eauto. }
  exists f'. split; [done|].
  destruct (decide (r = -1)) as [->|Hr].
  { split; [|left; lia]. revert Hd. unfold frame_deserialize.
    split_ifs; [intros; by simplify_eq..|].
    intros [= E _]. unfold FRAME_HEADER_SIZE in E. exfalso. zlia. }
  set (f00 := mk_frame 0 0 0 (f_payload f0)).
  assert (frame_deserialize (Some w) n (Some f00) = (r, Some f')) as Hd0.
  { revert Hd. unfold frame_deserialize. case_if as E; [intros [= <- _]; done|done]. }
  destruct (frame_deserialize_canonical w n f00 f' r (zeros n)) as (-> & Hwf & Hm & Hs); [done|done| | |done|done|].
  { unfold frame_wf, f00. cbn. unfold byte_ok. split_and!; try lia; done. }
  { rewrite len_zeros; lia. }
  pose proof Hwf as (_ & _ & _ & Hb' & Hl'). split; [done|]. right.
  assert (n = 4 + f_length f') as E.
  { destruct (deserialize_success w n f0 f') as (? & ? & _); [done|done|done|done|]. lia. }
  split; [done|]. split; [done|].
  rewrite (serialize_success f' (zeros n)) in Hs by (try done; rewrite ?len_zeros; lia).
  rewrite E in Hs. apply (f_equal snd), (inj Some) in Hs. cbn [snd] in Hs. rewrite E. symmetry.
  exact (app_inv_tail _ _ _ Hs).
Qed.

Lemma take_error lo frame :
  leftover_wf lo -> frame_array frame ->
  leftover_wf lo /\ frame_array frame
  /\ exists front, received frame COMMS_BUS_ERROR [] front /\ held lo = front ++ held lo.
Proof.
  intros. split; [done|]. split; [done|]. exists []. split; [|done]. left. unfold COMMS_BUS_ERROR.
  split; [lia|]. split; [by left|done].
Qed.

Lemma take_frame_spec lo frame :
  leftover_wf lo -> frame_array frame ->
  match take_frame lo frame with
  | None => lo_len lo < LEFTOVER_BUF_SIZE
  | Some (r, lo', frame') =>
      leftover_wf lo' /\ frame_array frame'
      /\ exists front, received frame' r [] front /\ held lo = front ++ held lo'
  end.
Proof.
  intros Hlo Hf. pose proof Hlo as (Hl & Hb & Hr). unfold take_frame.
  assert (LEFTOVER_BUF_SIZE = 536) as E by reflexivity. rewrite E in *.
  unfold FRAME_HEADER_SIZE. case_if as E0; bool_facts; [|lia]. cbv zeta. unfold ntohs_at.
  pose proof (byte_at_ok (lo_buf lo) 2 Hb) as H2. pose proof (byte_at_ok (lo_buf lo) (2 + 1) Hb) as H3.
  rewrite be16_value by done. set (needed := 4 + _) in *.
  assert (4 <= needed) by (unfold needed, byte_ok in *; lia).
  case_if as E1; bool_facts.
  { apply (take_error lo); done. }
  case_if as E2; bool_facts; [|lia].
  destruct (frame_deserialize _ _ _) as [r f] eqn:Hd.
  destruct (deserialize_taken (lo_buf lo) needed frame r f Hb ltac:(lia) Hf ltac:(lia) Hd) as (f' & -> & Ha & Hc).
  cbn [default from_option id]. case_if as E3; bool_facts.
  { apply (take_error lo); done. }
  destruct Hc as [?|(Hg & Hn & Hw)]; [lia|].
  assert (len (prefix_of (lo_len lo - needed) (skip needed (lo_buf lo))) = lo_len lo - needed) as Hp
    by (rewrite len_prefix_of; [done|rewrite len_skip; lia]).
  split.
  { split_and!; cbn [lo_buf lo_len]; [rewrite len_patch; lia|auto with flight|lia|lia]. }
  split; [done|]. exists (frame_wire f'). split; [by right|].
  unfold held. cbn [lo_buf lo_len]. rewrite patch_0, prefix_of_app by done.
  rewrite <- Hw. replace (lo_len lo) with (needed + (lo_len lo - needed)) at 1 by lia.
  rewrite prefix_of_skip_split by lia. done.
Qed.

Section Streams.
Context {K : Type} `{StreamSockets K}.
Implicit Types (b : sim_bus) (k : K).

(** What was read from a connection: whole frames, and the bytes held for the next one. *)
Definition connection_inv (fd : Z) (done : list Z) (lo : leftover_t) k : Prop :=
  leftover_wf lo /\ taken fd k = done ++ held lo.

Lemma read_retry_effect fuel fd n k answer k' :
  read_retry fuel fd n k = Some (answer, k') ->
  match answer with
  | Read_bytes data => bytes_ok data /\ len data <= n /\ taken fd k' = taken fd k ++ data
  | _ => taken fd k' = taken fd k
  end.
Proof.
  revert k. induction fuel as [|fuel IH]; intros k; cbn [read_retry]; [done|].
  pose proof (read_effect fd fd n k) as Ht.
  destruct (read_fd fd n k) as [[| |data] k1]; destruct Ht as [_ Ht]; try rewrite decide_True in Ht by done.
  - intros E. rewrite <- Ht. by apply IH.
  - intros [= <- <-]. done.
  - intros [= <- <-]. done.
Qed.

Lemma monotonic_effect fd k : taken fd (snd (monotonic_milliseconds k)) = taken fd k.
Proof.
  pose proof (clock_effect fd k) as [Hk _]. unfold monotonic_milliseconds.
  destruct (clock_gettime k) as [[[s n]|] k1]; exact Hk.
Qed.

Lemma held_read lo data :
  leftover_wf lo -> bytes_ok data -> len data <= LEFTOVER_BUF_SIZE - lo_len lo ->
  let lo' := mk_leftover (patch (lo_buf lo) (lo_len lo) data) (lo_len lo + len data) in
  leftover_wf lo' /\ held lo' = held lo ++ data.
Proof.
  intros (Hl & Hb & Hr) Hd Hn. pose proof (len_nonneg data). split.
  - split_and!; cbn [lo_buf lo_len]; [rewrite len_patch; lia|auto with flight|lia|lia].
  - unfold held, patch. cbn [lo_buf lo_len]. rewrite app_assoc. apply prefix_of_app.
    rewrite len_app, len_prefix_of by lia. done.
Qed.

(** The outcome of a call on one connection. *)
Definition call_ok (fd : Z) (before : list Z) (r : Z) (lo' : leftover_t) (frame' : Frame) k' : Prop :=
  frame_array frame' /\ exists after, connection_inv fd after lo' k' /\ received frame' r before after.

Lemma call_early fd before r lo frame k :
  frame_array frame -> leftover_wf lo -> taken fd k = before ++ held lo ->
  r = COMMS_BUS_ERROR \/ r = COMMS_BUS_TIMEOUT -> call_ok fd before r lo frame k.
Proof.
  intros Hf Hlo Ht Hr. split; [done|]. exists before. split; [done|]. left.
  split; [unfold COMMS_BUS_ERROR, COMMS_BUS_TIMEOUT in Hr; lia|done].
Qed.

Lemma receive_loop_spec fuel fd before lo frame deadline k r lo' frame' k' :
  connection_inv fd before lo k -> frame_array frame ->
  receive_loop fuel fd lo frame deadline k = Some (r, lo', frame', k') ->
  call_ok fd before r lo' frame' k'.
Proof.
  revert lo k. induction fuel as [|fuel IH]; intros lo k [Hlo Ht] Hf; cbn [receive_loop]; [done|].
  pose proof (take_frame_spec lo frame Hlo Hf) as Hfront.
  destruct (take_frame lo frame) as [[[r1 lo1] frame1]|].
  { intros [= <- <- <- <-]. destruct Hfront as (Hlo1 & Hf1 & front & Hr & Hheld). split; [done|].
    exists (before ++ front). split; [split; [done|]; by rewrite Ht, Hheld, app_assoc|].
    destruct Hr as [(? & ? & ->)|(? & ? & ->)]; [left; by rewrite app_nil_r|by right]. }
  pose proof (monotonic_effect fd k) as Hk1. destruct (monotonic_milliseconds k) as [now k1]. cbn [snd] in Hk1.
  rewrite <- Hk1 in Ht. case_if as E1; [intros [= <- <- <- <-]; apply call_early; auto|].
  cbv zeta. case_if as E2; [intros [= <- <- <- <-]; apply call_early; auto|].
  pose proof (poll_effect fd fd (to_int (deadline - now)) k1) as [Hk2 _].
  destruct (poll_in _ _ _) as [[| | |[|]] k2]; cbn [snd] in Hk2; rewrite <- Hk2 in Ht.
  - intros [= <- <- <- <-]. apply call_early; auto.
  - intros E. by apply IH in E.
  - intros [= <- <- <- <-]. apply call_early; auto.
  - destruct (read_retry _ _ _ _) as [[answer k3]|] eqn:Hread; [|done]. cbn [mbind option_bind].
    apply read_retry_effect in Hread.
    destruct answer as [| |[|x data]].
    + rewrite <- Hread in Ht. intros [= <- <- <- <-]. apply call_early; auto.
    + rewrite <- Hread in Ht. intros [= <- <- <- <-]. apply call_early; auto.
    + destruct Hread as (_ & _ & Hread). rewrite app_nil_r in Hread. rewrite <- Hread in Ht.
      intros [= <- <- <- <-]. apply call_early; auto.
    + intros E. destruct Hread as (Hdb & Hdl & Hdata).
      destruct (held_read lo (x :: data) Hlo Hdb Hdl) as [Hlo1 Hheld].
      apply IH in E; [done| |done]. split; [done|]. by rewrite Hdata, Ht, Hheld, app_assoc.
  - intros [= <- <- <- <-]. apply call_early; auto.
Qed.

Lemma receive_one_frame_spec fuel fd before lo frame timeout k r lo' frame' k' :
  connection_inv fd before lo k -> frame_array frame ->
  receive_one_frame fuel fd lo frame timeout k = Some (r, lo', frame', k') ->
  call_ok fd before r lo' frame' k'.
Proof.
  intros [Hlo Ht] Hf. unfold receive_one_frame. pose proof (monotonic_effect fd k) as Hk.
  destruct (monotonic_milliseconds k) as [start k1]. cbn [snd] in Hk. rewrite <- Hk in Ht.
  case_if as E; [intros [= <- <- <- <-]; apply call_early; auto|].
  by apply receive_loop_spec.
Qed.
End Streams.

(** ** A stream of frames *)

Definition frames_wire (fs : list Frame) : list Z := concat (map frame_wire fs).

(** What the receiver learns from a frame. *)
Definition message_of (f : Frame) : Z * list Z := (src_addr f, prefix_of (f_length f) (f_payload f)).

Lemma wire_split f w :
  frame_good f -> w = frame_wire f ->
  dest_addr f = byte_at w 0 /\ src_addr f = byte_at w 1 /\ len w = 4 + f_length f
  /\ prefix_of (f_length f) (f_payload f) = skip 4 w
  /\ f_length f = byte_at w 2 * 256 + byte_at w 3.
Proof.
  intros [Hf Hm] ->. pose proof (len_frame_wire f Hf Hm). split_and!; try done.
  destruct Hf as (_ & _ & Hl & _). unfold frame_wire.
  change (byte_at (frame_header_bytes f ++ _) 2) with (u8 (Z.shiftr (f_length f) 8)).
  change (byte_at (frame_header_bytes f ++ _) 3) with (u8 (f_length f)).
  rewrite shiftr_div by lia. change (2 ^ 8) with 256. zlia.
Qed.

(** No frame is a proper beginning of another. *)
Lemma wire_prefix_free f g r s :
  frame_good f -> frame_good g -> frame_wire f ++ r = frame_wire g ++ s ->
  frame_wire f = frame_wire g /\ r = s.
Proof.
  intros Hf Hg E. destruct (wire_split f _ Hf eq_refl) as (_ & _ & Lf & _ & Vf).
  destruct (wire_split g _ Hg eq_refl) as (_ & _ & Lg & _ & Vg).
  destruct Hf as [(_ & _ & ? & _) _], Hg as [(_ & _ & ? & _) _].
  assert (f_length f = f_length g) as El.
  { rewrite Vf, Vg. rewrite <- (byte_at_app_l _ r 2), <- (byte_at_app_l _ r 3), E by lia.
    by rewrite !byte_at_app_l by lia. }
  apply app_inj_1; [unfold len in *; lia|done].
Qed.

Lemma frames_wire_front f rest fs later :
  frame_good f -> Forall frame_good fs -> (frame_wire f ++ rest) ++ later = frames_wire fs ->
  exists g fs', fs = g :: fs' /\ frame_wire f = frame_wire g /\ rest ++ later = frames_wire fs'.
Proof.
  intros Hf Hfs E. destruct Hfs as [|g fs' Hg Hfs].
  - apply (f_equal len) in E. rewrite !len_app in E. pose proof (len_nonneg rest). pose proof (len_nonneg later).
    pose proof (wire_split f _ Hf eq_refl) as (_ & _ & L & _). destruct Hf as [(_ & _ & ? & _) _].
    change (len (frames_wire [])) with 0 in E. lia.
  - exists g, fs'. split; [done|]. rewrite <- app_assoc in E. by apply wire_prefix_free in E.
Qed.

Lemma same_wire_message f g :
  frame_good f -> frame_good g -> frame_wire f = frame_wire g ->
  dest_addr f = dest_addr g /\ message_of f = message_of g /\ f_length f = f_length g.
Proof.
  intros Hf Hg E. destruct (wire_split f _ Hf (eq_sym E)) as (-> & Hs & Hl & Hp & _).
  destruct (wire_split g _ Hg eq_refl) as (-> & Hs' & Hl' & Hp' & _).
  unfold message_of. rewrite Hs, Hs', Hp, Hp'. split_and!; try done. lia.
Qed.

(** Frames cut off the front of a stream of frames are the first frames of the stream. *)
Lemma frames_cut gs rest fs :
  Forall frame_good gs -> Forall frame_good fs -> frames_wire gs ++ rest = frames_wire fs ->
  exists i, map frame_wire gs = map frame_wire (take i fs) /\ rest = frames_wire (drop i fs).
Proof.
  intros Hgs. revert fs. induction Hgs as [|g gs Hg Hgs IH]; intros fs Hfs E; [by exists 0%nat|].
  change (frames_wire (g :: gs)) with (frame_wire g ++ frames_wire gs) in E.
  rewrite <- (app_nil_r (_ ++ rest)), <- (app_assoc (frame_wire g)) in E.
  destruct (frames_wire_front g _ fs [] Hg Hfs E) as (f & fs' & -> & Hw & E').
  rewrite app_nil_r in E'. apply Forall_cons_1 in Hfs as [_ Hfs].
  destruct (IH fs' Hfs E') as (i & Hm & Hr). exists (S i). cbn [map take drop]. by rewrite Hw, Hm.
Qed.

(** The messages of the frames for one address. *)
Definition messages_for (address : Z) (fs : list Frame) : list (Z * list Z) :=
  map message_of (List.filter (fun f => dest_addr f =? address) fs).

Lemma messages_for_wires address gs fs :
  Forall frame_good gs -> Forall frame_good fs -> map frame_wire gs = map frame_wire fs ->
  messages_for address gs = messages_for address fs.
Proof.
  intros Hgs. revert fs. induction Hgs as [|g gs Hg Hgs IH]; intros [|f fs] Hfs E; [done..|].
  assert (frame_wire g = frame_wire f /\ map frame_wire gs = map frame_wire fs) as [Ew Et]
    by (split; [exact (f_equal (hd []) E)|exact (f_equal (@tl _) E)]).
  apply Forall_cons_1 in Hfs as [Hf Hfs]. unfold messages_for in *.
  destruct (same_wire_message g f) as (Hd & Hm & _); [done..|]. cbn [List.filter]. rewrite Hd.
  destruct (dest_addr f =? address); cbn [map]; [rewrite Hm; f_equal|]; by apply IH.
Qed.

(** ** Calls in a row *)
Section Calls.
Context {K : Type} `{StreamSockets K}.
Implicit Types (b : sim_bus) (k : K).

(** The messages that [n] calls of [comms_bus_receive] deliver. *)
Fixpoint receive_calls (fuel n : nat) (frame0 : Frame) b (buffer : list Z) (max_length : Z) k
    : option (list (Z * list Z) * sim_bus * K) :=
  match n with
  | O => Some ([], b, k)
  | S n =>
      '(r, src, buf, b, k) ← comms_bus_receive fuel frame0 b buffer max_length k;
      '(messages, b, k) ← receive_calls fuel n frame0 b buffer max_length k;
      Some ((if r <? 0 then [] else [(default 0 src, prefix_of r buf)]) ++ messages, b, k)
  end.

(** Whether every call of [comms_bus_send] reports success. *)
Fixpoint send_calls (fuel : nat) (payload0 wire0 : list Z) b (messages : list (Z * list Z)) k
    : option (bool * sim_bus * K) :=
  match messages with
  | [] => Some (true, b, k)
  | (dest_addr, data) :: messages =>
      '(r, b, k) ← comms_bus_send fuel [] payload0 wire0 b dest_addr data (len data) k;
      '(ok, b, k) ← send_calls fuel payload0 wire0 b messages k;
      Some ((r =? len data) && ok, b, k)
  end.

Lemma slave_receive_spec fuel frame0 b before buffer max_length k r src buf b' k' :
  sb_is_master b = 0 -> 0 <= sb_fd b -> frame_array frame0 -> MAX_FRAME_PAYLOAD <= max_length ->
  connection_inv (sb_fd b) before (slave_leftover b) k ->
  comms_bus_receive fuel frame0 b buffer max_length k = Some (r, src, buf, b', k') ->
  sb_is_master b' = 0 /\ sb_fd b' = sb_fd b /\ sb_address b' = sb_address b
  /\ exists fs, Forall frame_good fs
     /\ connection_inv (sb_fd b) (before ++ frames_wire fs) (slave_leftover b') k'
     /\ (if r <? 0 then [] else [(default 0 src, prefix_of r buf)]) = messages_for (sb_address b) fs.
Proof.
  intros Hm Hfd Hf0 Hmax Hinv. unfold comms_bus_receive, find_frame. rewrite Hm. cbn [truthy negb Z.eqb].
  rewrite (proj2 (Z.ltb_ge _ _) Hfd).
  destruct (receive_one_frame _ _ _ _ _ _) as [[[[result lo] frame] k1]|] eqn:Hr; [|done].
  apply receive_one_frame_spec with (before := before) in Hr; [|done..].
  destruct Hr as (_ & after & Hinv1 & Hres). cbn [mbind option_bind].
  assert (forall status, status = COMMS_BUS_ERROR \/ status = COMMS_BUS_TIMEOUT -> (status <? 0) = true) as Hneg
    by (intros status [->| ->]; done).
  destruct Hres as [(Hneg1 & Hst & ->)|(Hg & -> & ->)].
  - assert (exists status, (status = COMMS_BUS_ERROR \/ status = COMMS_BUS_TIMEOUT) /\
      (if result =? COMMS_BUS_TIMEOUT then Some (inl COMMS_BUS_TIMEOUT, b <| slave_leftover := lo |>, k1)
       else if result =? COMMS_BUS_ERROR then Some (inl COMMS_BUS_ERROR, b <| slave_leftover := lo |>, k1)
       else if negb (dest_addr frame =? sb_address (b <| slave_leftover := lo |>))
            then Some (inl COMMS_BUS_TIMEOUT, b <| slave_leftover := lo |>, k1)
            else Some (inr frame, b <| slave_leftover := lo |>, k1))
      = Some (inl status : Z + Frame, b <| slave_leftover := lo |>, k1)) as (status & Hs & ->).
    { destruct Hst as [->| ->]; eexists; (split; [|reflexivity]); auto. }
    cbn [mbind option_bind]. intros [= <- <- <- <- <-]. split_and!; try done.
    exists []. split; [done|]. rewrite Hneg by done. split; [|done].
    change (frames_wire []) with (@nil Z). by rewrite app_nil_r.
  - pose proof Hg as [(_ & _ & Hl & _ & Hlp) Hm1].
    unfold COMMS_BUS_TIMEOUT, COMMS_BUS_ERROR. rewrite !(proj2 (Z.eqb_neq (f_length frame) _)) by lia.
    change (sb_address (b <| slave_leftover := lo |>)) with (sb_address b).
    assert (before ++ frames_wire [frame] = before ++ frame_wire frame) as Hw
      by (unfold frames_wire; cbn [map concat]; by rewrite app_nil_r).
    case_if as Ed; bool_facts; cbn [mbind option_bind].
    + intros [= <- <- <- <- <-]. split_and!; try done. exists [frame]. rewrite Hw.
      split; [by constructor|]. split; [done|]. unfold messages_for. cbn [List.filter].
      by rewrite (proj2 (Z.eqb_neq _ _) Ed).
    + rewrite (proj2 (Z.ltb_ge _ _)) by lia. intros [= <- <- <- <- <-]. split_and!; try done.
      exists [frame]. rewrite Hw. split; [by constructor|]. split; [done|].
      rewrite (proj2 (Z.ltb_ge _ _)) by lia. unfold messages_for. cbn [List.filter].
      rewrite Ed, Z.eqb_refl. cbn [map default from_option id]. unfold message_of. do 2 f_equal.
      rewrite patch_0. apply prefix_of_app. rewrite len_prefix_of; lia.
Qed.

Lemma receive_calls_spec fuel n frame0 b before buffer max_length k messages b' k' :
  sb_is_master b = 0 -> 0 <= sb_fd b -> frame_array frame0 -> MAX_FRAME_PAYLOAD <= max_length ->
  connection_inv (sb_fd b) before (slave_leftover b) k ->
  receive_calls fuel n frame0 b buffer max_length k = Some (messages, b', k') ->
  exists fs, Forall frame_good fs
    /\ connection_inv (sb_fd b) (before ++ frames_wire fs) (slave_leftover b') k'
    /\ messages = messages_for (sb_address b) fs.
Proof.
  intros Hm Hfd Hf0 Hmax. revert b before k messages b' k' Hm Hfd.
  induction n as [|n IH]; intros b before k messages b' k' Hm Hfd Hinv; cbn [receive_calls].
  { intros [= <- <- <-]. exists []. change (frames_wire []) with (@nil Z). rewrite app_nil_r. done. }
  destruct (comms_bus_receive _ _ _ _ _ _) as [[[[[r src] buf] b1] k1]|] eqn:Hr; [|done].
  apply (slave_receive_spec _ _ _ before) in Hr; [|done..].
  destruct Hr as (Hm1 & Hfd1 & Ha1 & fs & Hfs & Hinv1 & Hmsg). cbn [mbind option_bind].
  destruct (receive_calls _ _ _ _ _ _ _) as [[[ms b2] k2]|] eqn:Hc; [|done].
  apply (IH _ (before ++ frames_wire fs)) in Hc; [|done|lia|by rewrite Hfd1].
  destruct Hc as (fs' & Hfs' & Hinv2 & ->). cbn [mbind option_bind]. intros [= <- <- <-].
  exists (fs ++ fs'). split; [by apply Forall_app|]. rewrite Hmsg, Ha1. split.
  - unfold frames_wire in *. by rewrite map_app, concat_app, app_assoc, <- Hfd1.
  - unfold messages_for. by rewrite List.filter_app, map_app.
Qed.

(** ** Sending *)

Lemma write_retry_effect fuel fd wire k n k' :
  write_retry fuel fd wire k = Some (n, k') ->
  (n = -1 /\ written fd k' = written fd k)
  \/ (0 <= n <= len wire /\ written fd k' = written fd k ++ prefix_of n wire).
Proof.
  revert k. induction fuel as [|fuel IH]; intros k; cbn [write_retry]; [done|].
  pose proof (write_effect fd fd wire k) as Hw.
  destruct (write_fd fd wire k) as [[| |m] k1]; destruct Hw as [_ Hw]; try rewrite decide_True in Hw by done.
  - intros E. rewrite <- Hw. by apply IH.
  - intros [= <- <-]. by left.
  - intros [= <- <-]. by right.
Qed.

(** The frame a call of [comms_bus_send] puts on the wire. *)
Definition sent_frame b (payload0 : list Z) (m : Z * list Z) : Frame :=
  mk_frame m.1 (sb_address b) (len m.2) (patch payload0 0 m.2).

Definition message_ok (m : Z * list Z) : Prop := byte_ok m.1 /\ bytes_ok m.2 /\ len m.2 <= MAX_FRAME_PAYLOAD.

Lemma sent_frame_good b payload0 m :
  byte_ok (sb_address b) -> bytes_ok payload0 -> len payload0 = MAX_FRAME_PAYLOAD -> message_ok m ->
  frame_good (sent_frame b payload0 m).
Proof.
  intros Ha Hp Hl (Hd & Hm & Hlen). pose proof (len_nonneg m.2). unfold MAX_FRAME_PAYLOAD in *.
  split; [|done]. unfold frame_wf, sent_frame. cbn [dest_addr src_addr f_length f_payload].
  split; [done|]. split; [done|]. split; [lia|]. split; [auto with flight|]. rewrite len_patch by lia. exact Hl.
Qed.

(** A master with one live connection. *)
Definition sole_connection b (fd : Z) : Prop :=
  truthy (sb_is_master b) = true /\ 0 <= sb_fd b /\ connection_count b = 1
  /\ prefix_of 1 (connections_fd b) = [fd] /\ 0 <= fd.

Lemma sole_send fuel payload0 wire0 b fd m k r b' k' :
  sole_connection b fd -> byte_ok (sb_address b) -> bytes_ok payload0 -> len payload0 = MAX_FRAME_PAYLOAD ->
  message_ok m ->
  comms_bus_send fuel [] payload0 wire0 b m.1 m.2 (len m.2) k = Some (r, b', k') -> r = len m.2 ->
  b' = b /\ written fd k' = written fd k ++ frame_wire (sent_frame b payload0 m).
Proof.
  intros (Hm & Hfd & Hc & Hfds & Hfd1) Ha Hp Hpl Hok. pose proof (sent_frame_good b payload0 m Ha Hp Hpl Hok) as Hg.
  pose proof (len_nonneg m.2). pose proof Hok as (_ & _ & Hlen).
  unfold comms_bus_send. rewrite (proj2 (Z.ltb_ge _ _) Hfd), (proj2 (Z.ltb_ge _ _) Hlen). cbv zeta.
  rewrite (prefix_of_all (len m.2) m.2) by lia. fold (sent_frame b payload0 m).
  rewrite serialize_success by (apply Hg || (cbn [sent_frame f_length]; lia)).
  cbn [default from_option id sent_frame f_length]. fold (sent_frame b payload0 m).
  rewrite prefix_of_app by (rewrite len_frame_wire; [done|apply Hg|apply Hg]).
  rewrite Hm. cbn [wait_for_connection]. rewrite Hc. cbn [Z.eqb mbind option_bind].
  unfold snapshot_fds. rewrite Hc, Hfds. cbn [write_all]. unfold COMMS_BUS_ERROR.
  rewrite (proj2 (Z.eqb_neq fd _)) by lia.
  destruct (write_retry _ _ _ _) as [[n k1]|] eqn:Hw; [|done]. apply write_retry_effect in Hw.
  cbn [mbind option_bind].
  assert (len (frame_wire (sent_frame b payload0 m)) = 4 + len m.2) as Hwl by (apply len_frame_wire; apply Hg).
  destruct (n <? 0) eqn:En; bool_facts.
  - destruct Hw as [(-> & _)|[? _]]; [|lia]. destruct (mark_connection_dead 0 b k1). cbn [mbind option_bind].
    rewrite (proj2 (Z.eqb_neq (-1) (4 + len m.2))) by lia. intros [= <- _ _] E. lia.
  - cbn [mbind option_bind]. case_if as E; bool_facts; [|intros [= <- _ _] E1; lia].
    intros [= <- <- <-] _. split; [done|]. destruct Hw as [(-> & _)|(_ & ->)]; [lia|].
    f_equal. apply prefix_of_all. lia.
Qed.

Lemma send_calls_spec fuel payload0 wire0 b fd messages k b' k' :
  sole_connection b fd -> byte_ok (sb_address b) -> bytes_ok payload0 -> len payload0 = MAX_FRAME_PAYLOAD ->
  Forall message_ok messages ->
  send_calls fuel payload0 wire0 b messages k = Some (true, b', k') ->
  b' = b /\ written fd k' = written fd k ++ frames_wire (map (sent_frame b payload0) messages).
Proof.
  intros Hb Ha Hp Hpl Hms. revert k. induction Hms as [|[dest data] ms Hm Hms IH]; intros k; cbn [send_calls].
  { intros [= <- <-]. split; [done|]. change (frames_wire _) with (@nil Z). by rewrite app_nil_r. }
  destruct (comms_bus_send _ _ _ _ _ _ _ _ _) as [[[r b1] k1]|] eqn:Hs; [|done]. cbn [mbind option_bind].
  destruct (send_calls _ _ _ _ _ _) as [[[ok b2] k2]|] eqn:Hc; [|done]. cbn [mbind option_bind].
  intros [= E <- <-]. apply andb_true_iff in E as [E ->]. bool_facts.
  apply (sole_send _ _ _ _ fd (dest, data)) in Hs; [|done..]. destruct Hs as [-> Hw].
  apply IH in Hc. destruct Hc as [-> ->]. split; [done|]. rewrite Hw, <- app_assoc. done.
Qed.
End Calls.

(** C21. Messages on the simulated bus arrive whole, once and in order.  If the master, with
    one board connected, reports success for every message it sends, and the board has
    read some beginning of what was written, in pieces of any size, then the calls of
    [comms_bus_receive] on the board have delivered exactly the messages addressed to it
    among the first [i]; the bytes of all later messages are still held by the driver or
    on their way.  Nothing is lost when a read ends in the middle of a frame. *)
Theorem sim_bus_delivers_in_order {K} `{StreamSockets K} fuel fuel' n payload0 wire0 master fd messages
    (k0 k1 : K) master' slave frame0 buffer max_length (s0 s1 : K) received slave' later :
  sole_connection master fd -> byte_ok (sb_address master) ->
  bytes_ok payload0 -> len payload0 = MAX_FRAME_PAYLOAD -> Forall message_ok messages ->
  send_calls fuel payload0 wire0 master messages k0 = Some (true, master', k1) ->
  sb_is_master slave = 0 -> 0 <= sb_fd slave -> frame_array frame0 -> MAX_FRAME_PAYLOAD <= max_length ->
  slave_leftover slave = no_leftover -> taken (sb_fd slave) s0 = [] -> written fd k0 = [] ->
  receive_calls fuel' n frame0 slave buffer max_length s0 = Some (received, slave', s1) ->
  taken (sb_fd slave) s1 ++ later = written fd k1 ->
  exists i,
    received = map (fun m => (sb_address master, m.2))
                 (List.filter (fun m => m.1 =? sb_address slave) (take i messages))
    /\ held (slave_leftover slave') ++ later
       = frames_wire (map (sent_frame master payload0) (drop i messages)).
Proof.
  intros Hb Ha Hp Hpl Hms Hsend Hm Hfd Hf0 Hmax Hlo Ht Hw Hrecv Hlink.
  apply send_calls_spec with (fd := fd) in Hsend as [-> Hw1]; [|done..].
  apply (receive_calls_spec _ _ _ _ []) in Hrecv; [|done..|].
  2: { rewrite Hlo. split; [apply no_leftover_wf|]. by rewrite Ht. }
  destruct Hrecv as (gs & Hgs & [_ Htaken] & ->).
  rewrite Htaken, Hw1, Hw, <- app_assoc in Hlink. cbn [app] in Hlink.
  assert (Forall frame_good (map (sent_frame master payload0) messages)) as Hgood.
  { apply Forall_map. eapply Forall_impl; [exact Hms|]. intros m. by apply sent_frame_good. }
  destruct (frames_cut gs _ _ Hgs Hgood Hlink) as (i & Hwires & ->). exists i. rewrite <- skipn_map.
  split; [|done]. rewrite (messages_for_wires _ _ _ Hgs (Forall_take _ i _ Hgood) Hwires), firstn_map.
  clear -Hms. pose proof (Forall_take _ i _ Hms) as Ht. clear Hms. revert Ht.
  induction (take i messages) as [|[dest data] ms IH]; [done|]. intros [Hm Hms]%Forall_cons_1.
  specialize (IH Hms). unfold messages_for in *. cbn [map List.filter sent_frame dest_addr fst].
  destruct (dest =? sb_address slave); [|exact IH]. cbn [map]. f_equal; [|exact IH].
  unfold message_of. cbn [sent_frame src_addr f_length f_payload snd]. by rewrite patch_0, prefix_of_app.
Qed.

(** ** The call returns

    Every turn of the loop that goes on has put at least one byte into the buffer, unless a
    signal interrupted the wait. *)
Section Progress.
Context {K : Type} `{StreamSockets K}.
Hypothesis poll_quiet : forall fd ms (k : K), fst (poll_in fd ms k) <> Poll_interrupted.
Hypothesis read_quiet : forall fd n (k : K), fst (read_fd fd n k) <> Read_interrupted.

Lemma read_retry_returns fuel fd n (k : K) :
  (0 < fuel)%nat -> exists answer k', read_retry fuel fd n k = Some (answer, k').
Proof.
  destruct fuel as [|fuel]; [lia|]. intros _. cbn [read_retry]. pose proof (read_quiet fd n k) as Hq.
  destruct (read_fd fd n k) as [[| |data] k1]; [done|eauto..].
Qed.

Lemma receive_loop_returns fuel fd lo frame deadline (k : K) :
  leftover_wf lo -> frame_array frame -> LEFTOVER_BUF_SIZE - lo_len lo < Z.of_nat fuel ->
  is_Some (receive_loop fuel fd lo frame deadline k).
Proof.
  revert lo k. induction fuel as [|fuel IH]; intros lo k Hlo Hf Hfuel.
  { pose proof Hlo as (_ & _ & ?). lia. }
  cbn [receive_loop]. pose proof (take_frame_spec lo frame Hlo Hf) as Hfront.
  destruct (take_frame lo frame) as [[[r1 lo1] frame1]|]; [done|].
  destruct (monotonic_milliseconds k) as [now k1]. case_if as E1; [done|].
  cbv zeta. case_if as E2; [done|].
  pose proof (poll_quiet fd (to_int (deadline - now)) k1) as Hq.
  destruct (poll_in _ _ _) as [[| | |[|]] k2]; try done.
  destruct (read_retry_returns fuel fd (LEFTOVER_BUF_SIZE - lo_len lo) k2 ltac:(lia)) as (answer & k3 & Hr).
  rewrite Hr. cbn [mbind option_bind]. apply read_retry_effect in Hr.
  destruct answer as [| |[|x data]]; try done. destruct Hr as (Hdb & Hdl & _).
  destruct (held_read lo (x :: data) Hlo Hdb Hdl) as [Hlo1 _]. apply IH; [done..|].
  cbn [lo_len]. rewrite len_cons. pose proof (len_nonneg data). lia.
Qed.

(** A call waits for a bounded number of reads, whatever the peer sends: with 537 turns it
    has returned. *)
Lemma receive_one_frame_returns fuel fd lo frame timeout (k : K) :
  leftover_wf lo -> frame_array frame -> (537 <= fuel)%nat ->
  is_Some (receive_one_frame fuel fd lo frame timeout k).
Proof.
  intros Hlo Hf Hfuel. unfold receive_one_frame. destruct (monotonic_milliseconds k) as [start k1].
  case_if as E; [done|]. apply receive_loop_returns; [done..|].
  pose proof Hlo as (_ & _ & ?). change LEFTOVER_BUF_SIZE with 536 in *. lia.
Qed.
End Progress.

(** ** The connection table *)

Lemma accepted_fills fds b b' :
  accept_connections fds b = Some b' ->
  connection_count b' = connection_count b + len (List.filter (fun fd => negb (fd <? 0)) fds)
  /\ (0 <= connection_count b <= MAX_CONNECTIONS -> connection_count b' <= MAX_CONNECTIONS).
Proof.
  revert b. induction fds as [|fd fds IH]; intros b; cbn [accept_connections List.filter].
  { intros [= <-]. change (len []) with 0. lia. }
  unfold accept_connection. destruct (fd <? 0); cbn [negb mbind option_bind]; [apply IH|].
  case_if as E; bool_facts; [done|]. intros Hr. apply IH in Hr. cbn [connection_count] in Hr.
  rewrite len_cons. change (connection_count (update _ _ _)) with (connection_count b + 1) in Hr. lia.
Qed.

(** A slot is never used again, and nothing stops the thread after five: a board that has
    reconnected five times makes it write behind the table. *)
Lemma sixth_connection_overruns b fds :
  connection_count b = 0 -> Forall (fun fd => 0 <= fd) fds -> len fds = 6 -> accept_connections fds b = None.
Proof.
  intros Hc Hfds Hl. destruct (accept_connections fds b) as [b'|] eqn:E; [|done].
  apply accepted_fills in E as [E Hmax]. rewrite Hc in *. unfold MAX_CONNECTIONS in Hmax.
  assert (List.filter (fun fd => negb (fd <? 0)) fds = fds) as Hall; [|rewrite Hall, Hl in E; lia].
  clear -Hfds. induction Hfds as [|fd fds Hfd Hfds IH]; [done|]. cbn [List.filter].
  rewrite (proj2 (Z.ltb_ge _ _) Hfd). cbn [negb]. by rewrite IH.
Qed.

(** ** A socket that hands out its bytes in pieces *)
Module Pieces.

(** One descriptor, 3: the bytes on their way to it, and the sizes of the pieces. *)
Record kernel := mk_kernel {
  inbox : list Z;
  pieces : list Z;
  got : list Z;
  put : list Z
}.

Definition read (fd n : Z) (k : kernel) : read_answer * kernel :=
  if (n <? 0) || negb (fd =? 3) then (Read_failed, k)
  else
    let data := map u8 (prefix_of (Z.min n (hd 0 (pieces k))) (inbox k)) in
    (Read_bytes data, mk_kernel (skip (len data) (inbox k)) (tl (pieces k)) (got k ++ data) (put k)).

#[global] Instance kernel_bus : BusKernel kernel := {
  clock_gettime k := (Some (7, 0), k);
  poll_in fd ms k := (match pieces k with [] => Poll_timeout | _ => Poll_ready true end, k);
  read_fd := read;
  write_fd fd bs k :=
    if fd =? 3 then (Wrote (len bs), mk_kernel (inbox k) (pieces k) (got k) (put k ++ bs)) else (Write_failed, k);
  close_fd fd k := k
}.

#[global] Program Instance kernel_sockets : StreamSockets kernel := {
  taken fd k := if fd =? 3 then got k else [];
  written fd k := if fd =? 3 then put k else []
}.
Next Obligation. done. Qed.
Next Obligation. done. Qed.
Next Obligation.
  intros fd fd' n k. cbn [read_fd kernel_bus]. unfold read. case_if as E; bool_facts; [done|]. subst fd'.
  split; [done|]. cbn [got]. split.
  { apply List.Forall_map, List.Forall_forall. intros. apply bytes_ok_u8. }
  split.
  { unfold len at 1. rewrite length_map. fold (len (prefix_of (Z.min n (hd 0 (pieces k))) (inbox k))).
    destruct (decide (0 <= Z.min n (hd 0 (pieces k)))).
    - pose proof (len_prefix_of_le (Z.min n (hd 0 (pieces k))) (inbox k)). lia.
    - unfold prefix_of. rewrite Z2Nat.nonpos by lia. change (len (take 0 (inbox k))) with 0. lia. }
  case_decide as Ed; [by subst|]. by rewrite (proj2 (Z.eqb_neq _ _) Ed).
Qed.
Next Obligation.
  intros fd fd' bs k. cbn [write_fd kernel_bus]. case_if as E; bool_facts; [|done]. subst fd'.
  split; [done|]. split; [pose proof (len_nonneg bs); lia|]. cbn [put].
  case_decide as Ed; [subst; by rewrite prefix_of_all by lia|]. by rewrite (proj2 (Z.eqb_neq _ _) Ed).
Qed.
Next Obligation. done. Qed.
End Pieces.

Definition sample_messages : list (Z * list Z) := [(2, [10; 11]); (9, [5]); (2, [7; 7; 7])].

Definition sample_master : sim_bus :=
  mk_sim_bus 1 1 4 [3; -1; -1; -1; -1] 1 no_leftover (replicate 5 no_leftover).

Definition sample_slave : sim_bus := mk_sim_bus 2 0 3 (zeros 5) 0 no_leftover (replicate 5 no_leftover).

Definition sample_wire : list Z := [2; 1; 0; 2; 10; 11; 9; 1; 0; 1; 5; 2; 1; 0; 3; 7; 7; 7].

Definition sample_frame0 : Frame := mk_frame 0 0 0 (zeros 264).

(** The bytes come in pieces of three, ten and four: the last one is missing. *)
Lemma sim_bus_delivers_in_order_witness :
  let arriving := Pieces.mk_kernel sample_wire [3; 10; 4] [] [] in
  exists k1 slave' s1,
    send_calls 1 (zeros 264) (zeros 268) sample_master sample_messages (Pieces.mk_kernel [] [] [] [])
    = Some (true, sample_master, k1)
    /\ receive_calls 9 4 sample_frame0 sample_slave (zeros 264) 264 arriving
       = Some ([(1, [10; 11])], slave', s1)
    /\ exists i,
         [(1, [10; 11])] = map (fun m => (1, m.2)) (List.filter (fun m => m.1 =? 2) (take i sample_messages))
         /\ held (slave_leftover slave') ++ [7]
            = frames_wire (map (sent_frame sample_master (zeros 264)) (drop i sample_messages)).
Proof.
  cbv zeta. eexists _, _, _. split; [vm_compute; reflexivity|]. split; [vm_compute; reflexivity|].
  refine (sim_bus_delivers_in_order 1 9 4 (zeros 264) (zeros 268) sample_master 3 sample_messages
            (Pieces.mk_kernel [] [] [] []) _ sample_master sample_slave sample_frame0 (zeros 264) 264
            (Pieces.mk_kernel sample_wire [3; 10; 4] [] []) _ [(1, [10; 11])] _ [7]
            _ _ _ _ _ _ _ _ _ _ _ _ _ _ _);
    try (vm_compute; reflexivity).
  - vm_compute. split_and!; congruence.
  - vm_compute. split; congruence.
  - apply bytes_ok_eval. vm_compute. reflexivity.
  - repeat constructor; vm_compute; congruence.
  - vm_compute. congruence.
  - split; [apply bytes_ok_eval; vm_compute; reflexivity|vm_compute; reflexivity].
  - vm_compute. congruence.
Defined.

(** [comms_bus_send] of a master reports the last connection only: the message for the board
    on a broken first connection counts as sent, and one that reached its board on the first
    connection counts as failed when the last one is broken. *)
Lemma send_reports_last_connection :
  let to fds := mk_sim_bus 1 1 4 (fds ++ [-1; -1; -1]) 2 no_leftover (replicate 5 no_leftover) in
  let nothing := Pieces.mk_kernel [] [] [] [] in
  comms_bus_send 1 [] (zeros 264) (zeros 268) (to [5; 3]) 2 [10] 1 nothing
  = Some (1, to [-1; 3], Pieces.mk_kernel [] [] [] [2; 1; 0; 1; 10])
  /\ comms_bus_send 1 [] (zeros 264) (zeros 268) (to [3; 5]) 2 [10] 1 nothing
     = Some (COMMS_BUS_ERROR, to [3; -1], Pieces.mk_kernel [] [] [] [2; 1; 0; 1; 10]).
Proof. vm_compute. split; reflexivity. Qed.

(** A header that announces more than a frame can hold stays at the front of the buffer: the
    slave's calls fail from then on, whatever arrives. *)
Lemma oversized_frame_blocks {K} `{BusKernel K} fuel fd lo frame timeout (k : K) :
  leftover_wf lo -> 0 <= fst (monotonic_milliseconds k) ->
  2 * (4 + MAX_FRAME_PAYLOAD) < 4 + (byte_at (lo_buf lo) 2 * 256 + byte_at (lo_buf lo) 3) -> 4 <= lo_len lo ->
  receive_one_frame (S fuel) fd lo frame timeout k
  = Some (COMMS_BUS_ERROR, lo, frame, snd (monotonic_milliseconds k)).
Proof.
  intros (_ & Hb & _) Hk Hn Hl. unfold receive_one_frame. destruct (monotonic_milliseconds k) as [start k1].
  cbn [fst snd] in *. rewrite (proj2 (Z.ltb_ge _ _) Hk). cbn [receive_loop]. unfold take_frame, FRAME_HEADER_SIZE.
  rewrite (proj2 (Z.leb_le _ _) Hl). unfold ntohs_at. change (2 + 1) with 3.
  rewrite be16_value by auto with flight. unfold LEFTOVER_BUF_SIZE. cbv zeta.
  by rewrite (proj2 (Z.ltb_lt _ _) Hn).
Qed.
