(* ===== verification/Thermals.v ===== *)
(** The thermals board ([apps/thermals/src]): the temperatures and the target
    ([data/thermal_data.c]), the heater's PI controller ([heater/prop_int_controller.c]), the
    command listener and its queue ([communication/command_handler.c],
    [tasks/command_task.c]), the sensor, heater and telemetry tasks ([tasks/]), and the
    simulated hardware ([simulation/]).

    The hardware is the class [ThermalHardware], after [interfaces/sensor_interface.h] and
    [heater_interface.h]; [HeaterLaws] is what those headers promise, and the simulation
    implements both.  Every access to the shared data takes its lock and is one step; the
    heater task acts on a snapshot it took before. *)

From S2P Require Import Prelude Float32 ObcProgress AdcsCommand Gateway.

Definition MAX_SENSORS : Z := 2.
Definition THERMALS_MIN_TARGET_TEMP_C : f32 := fneg (lit 40 1).
Definition THERMALS_MAX_TARGET_TEMP_C : f32 := lit 125 1.

(** ** [data/thermal_data.c] *)

#[projections(primitive)]
Record ThermalData_t := mk_thermal_data {
  temperatures : list f32;
  valid_sensor_mask : Z;
  average_temp : f32;
  target_temp : f32;
  target_temp_valid : Z
}.

Definition thermal_data_static : ThermalData_t := mk_thermal_data [f0; f0] 0 f0 f0 0.

Definition sensor_valid (mask : Z) (i : Z) : bool := negb (Z.land mask (u32 (Z.shiftl 1 i)) =? 0).

Definition thermals_recalculate_average (d : ThermalData_t) : ThermalData_t :=
  let '(sum, valid_count) :=
    fold_left (fun '(sum, count) i =>
      if sensor_valid (valid_sensor_mask d) i
      then (fadd sum (nth (Z.to_nat i) (temperatures d) f0), count + 1)
      else (sum, count)) [0; 1] (f0, 0) in
  d <| average_temp := if 0 <? valid_count then fdiv sum (of_int valid_count) else f0 |>.

Definition thermals_set_current (temp : f32) (sensor_id : Z) (d : ThermalData_t) : ThermalData_t :=
  if (sensor_id =? 0) || (MAX_SENSORS <? sensor_id) then d
  else
    let d := d <| temperatures ::= <[Z.to_nat (sensor_id - 1) := temp]> |> in
    let d := d <| valid_sensor_mask ::= fun m => Z.lor m (u32 (Z.shiftl 1 (sensor_id - 1))) |> in
    thermals_recalculate_average d.

Definition thermals_target_is_valid (target : f32) : bool :=
  isfinite target && fle THERMALS_MIN_TARGET_TEMP_C target && fle target THERMALS_MAX_TARGET_TEMP_C.

Definition thermals_set_target (target : f32) (d : ThermalData_t) : Z * ThermalData_t :=
  if negb (thermals_target_is_valid target) then (0, d)
  else (1, d <| target_temp := target |> <| target_temp_valid := 1 |>).

Definition thermals_invalidate_sensor (sensor_id : Z) (d : ThermalData_t) : ThermalData_t :=
  if (sensor_id =? 0) || (MAX_SENSORS <? sensor_id) then d
  else
    thermals_recalculate_average
      (d <| valid_sensor_mask ::= fun m => Z.ldiff m (u32 (Z.shiftl 1 (sensor_id - 1))) |>).

(** ** [heater/prop_int_controller.c] *)

#[projections(primitive)]
Record pi_controller := mk_pi {
  controller_proportional_gain : f32;
  controller_integral_gain : f32;
  controller_integral_error : f32;
  controller_initialized : Z
}.

Definition pi_static : pi_controller := mk_pi f0 f0 f0 0.

Definition prop_int_controller_init (proportional_gain integral_gain : f32) (c : pi_controller)
    : Z * pi_controller :=
  if negb (isfinite proportional_gain) || negb (isfinite integral_gain)
     || flt proportional_gain f0 || flt integral_gain f0
  then (0, c <| controller_initialized := 0 |>)
  else (1, mk_pi proportional_gain integral_gain f0 1).

Definition prop_int_controller_reset (c : pi_controller) : pi_controller :=
  c <| controller_integral_error := f0 |>.

(** The result, [*power_fraction_out], and the controller. *)
Definition prop_int_controller_update (target current elapsed_seconds : f32) (power_fraction_out : option f32)
    (c : pi_controller) : Z * option f32 * pi_controller :=
  match power_fraction_out with
  | None => (0, None, c)
  | Some _ =>
      if (controller_initialized c =? 0) || negb (isfinite target) || negb (isfinite current)
         || negb (isfinite elapsed_seconds) || fle elapsed_seconds f0
      then (0, Some f0, c)
      else
        let error_c := fsub target current in
        let proportional_output := fmul (controller_proportional_gain c) error_c in
        let candidate_integral_error := fadd (controller_integral_error c) (fmul error_c elapsed_seconds) in
        let candidate_output :=
          fadd proportional_output (fmul (controller_integral_gain c) candidate_integral_error) in
        if fle error_c f0 then (1, Some f0, prop_int_controller_reset c)
        else if fle f1 candidate_output then (1, Some f1, c)
        else if fle candidate_output f0 then (1, Some f0, c)
        else (1, Some candidate_output, c <| controller_integral_error := candidate_integral_error |>)
  end.

(** ** The hardware ([interfaces/]) *)

Record thermal_sensor_t := mk_sensor { sensor_address : Z; sensor_id : Z }.

(** [thermal_sensor_read] gets what [*temperature_out] held and returns what it holds. *)
Class ThermalHardware (E : Type) := {
  thermal_sensor_init : thermal_sensor_t -> Z -> E -> Z * thermal_sensor_t * E;
  thermal_sensor_read : thermal_sensor_t -> f32 -> E -> Z * f32 * E;
  heater_init : E -> Z * E;
  heater_set_power : f32 -> E -> Z * E;
  force_heater_off : E -> E;
  get_applied_power : E -> f32
}.

(** A power the heater may have: a fraction between 0 and 1. *)
Definition fraction (p : f32) : Prop := fle f0 p = true /\ fle p f1 = true.

Class HeaterLaws (E : Type) `{ThermalHardware E} := {
  off_law e : get_applied_power (force_heater_off e) = f0;
  init_law e : get_applied_power (snd (heater_init e)) = f0;
  set_law p e :
    let '(r, e') := heater_set_power p e in
    if r =? 0 then get_applied_power e' = get_applied_power e \/ get_applied_power e' = f0
    else get_applied_power e' = p /\ fraction p;
  sensor_init_law s a e :
    let '(_, s', e') := thermal_sensor_init s a e in
    get_applied_power e' = get_applied_power e /\ sensor_id s' = sensor_id s;
  sensor_read_law s t e : get_applied_power (snd (thermal_sensor_read s t e)) = get_applied_power e
}.

(** ** The board *)

Inductive thermals_parameter :=
  | THERMALS_COMMAND_NONE
  | THERMALS_COMMAND_SET_TARGET_TEMP (target : f32)
  | THERMALS_COMMAND_REQUEST_TELEMETRY.

Record thermals_command_t := mk_thermals_command { tc_sequence : Z; tc_parameter : thermals_parameter }.

(** The static variables of all files, and the world: the packets sent and the hardware.
    [t_queue] is [None] until the queue is created; a task runs once its handle is set.
    [t_snapshot] and [t_fault_reported] are locals of the heater task, [t_current] is the
    static local of the sensor task, [t_executed] are the commands the command task took. *)
#[projections(primitive)]
Record thermals_board {E : Type} := mk_thermals {
  t_data : ThermalData_t;
  t_pi : pi_controller;
  t_sensors : list thermal_sensor_t;
  t_current : f32;
  t_queue : option (list thermals_command_t);
  xCommandHandle : bool;
  xSensorReadHandle : bool;
  xHeaterSetTask : bool;
  xTelemetryHandle : bool;
  t_notified : bool;
  t_snapshot : ThermalData_t;
  t_fault_reported : Z;
  t_acks : list (list Z);
  t_telemetry : list (list Z);
  t_executed : list thermals_command_t;
  t_env : E
}.
Arguments thermals_board : clear implicits.

Definition thermals_static {E} (e : E) : thermals_board E :=
  mk_thermals E thermal_data_static pi_static [mk_sensor 0 0; mk_sensor 0 0] f0 None false false false false false
    thermal_data_static 0 [] [] [] e.

(** ** [communication/command_handler.c] and [tasks/command_task.c] *)

Definition THERMALS_CMD_PORT : Z := 12.
Definition THERMALS_WIRE_COMMAND_SET_TARGET_TEMP : Z := 80.
Definition THERMALS_WIRE_COMMAND_REQUEST_TELEMETRY : Z := 81.
Definition THERMALS_COMMAND_QUEUE_LENGTH : Z := 8.

Section Board.
Context {E : Type} `{ThermalHardware E}.
Implicit Types b : thermals_board E.

(** Whether the message was queued. *)
Definition thermals_command_send (c : thermals_command_t) b : bool * thermals_board E :=
  match t_queue b with
  | None => (false, b)
  | Some q =>
      if len q <? THERMALS_COMMAND_QUEUE_LENGTH then (true, b <| t_queue := Some (q ++ [c]) |>) else (false, b)
  end.

Definition thermals_enqueue (c : thermals_command_t) b : command_ack_status_t * thermals_board E :=
  let '(sent, b) := thermals_command_send c b in (if sent then ACK else NACK, b).

Definition thermals_decode (data : list Z) b : command_ack_status_t * thermals_board E :=
  let command_id := byte_at data 0 in
  let sequence := get_le32 data 4 in
  if command_id =? THERMALS_WIRE_COMMAND_SET_TARGET_TEMP then
    if len data <? 12 then (NACK, b)
    else
      let target := get_float data 8 in
      if negb (thermals_target_is_valid target) then (NACK, b)
      else thermals_enqueue (mk_thermals_command sequence (THERMALS_COMMAND_SET_TARGET_TEMP target)) b
  else if command_id =? THERMALS_WIRE_COMMAND_REQUEST_TELEMETRY
  then thermals_enqueue (mk_thermals_command sequence THERMALS_COMMAND_REQUEST_TELEMETRY) b
  else (NACK, b).

Definition thermals_send_ack (ack : list Z) (buffered : bool) b : thermals_board E :=
  if buffered then b <| t_acks ::= fun l => l ++ [ack] |> else b.

(** The body of the receive loop for one packet, which arrived on port [dport]. *)
Definition thermals_packet (dport : Z) (data padding : list Z) (buffered : bool) b : thermals_board E :=
  if (dport =? THERMALS_CMD_PORT) && (sizeof_command_envelope <=? len data) then
    let '(status, b) := thermals_decode data b in
    thermals_send_ack (ack_bytes padding data status) buffered b
  else b.

(** [created]: whether the task could be created. *)
Definition thermals_command_task_init (created : bool) b : thermals_board E :=
  b <| t_queue := Some [] |> <| xCommandHandle := created |>.

Definition thermals_execute (c : thermals_command_t) b : thermals_board E :=
  match tc_parameter c with
  | THERMALS_COMMAND_SET_TARGET_TEMP target =>
      let '(_, d) := thermals_set_target target (t_data b) in b <| t_data := d |>
  | THERMALS_COMMAND_REQUEST_TELEMETRY => if xTelemetryHandle b then b <| t_notified := true |> else b
  | THERMALS_COMMAND_NONE => b
  end.

(** One turn of [command_task]; it waits while the queue is empty. *)
Definition thermals_command_round b : thermals_board E :=
  match t_queue b with
  | Some (c :: q) => thermals_execute c (b <| t_queue := Some q |> <| t_executed ::= fun l => l ++ [c] |>)
  | _ => b
  end.

(** ** [tasks/sensor_read_task.c] *)

Definition SENSOR_1_ADDRESS : Z := 0x48.
Definition SENSOR_2_ADDRESS : Z := 0x49.
Definition MIN_VALID_TEMPERATURE_C : f32 := fneg (lit 40 1).
Definition MAX_VALID_TEMPERATURE_C : f32 := lit 125 1.

Definition no_sensor : thermal_sensor_t := mk_sensor 0 0.

(** The loop over the sensors; false when it returned early. *)
Fixpoint sensor_init_loop (indices : list nat) b : bool * thermals_board E :=
  match indices with
  | [] => (true, b)
  | i :: indices =>
      let s := nth i (t_sensors b) no_sensor in
      let '(status, s, e) := thermal_sensor_init s (sensor_address s) (t_env b) in
      let b := b <| t_sensors ::= <[i := s]> |> <| t_env := e |> in
      if (status =? -1) || (status =? -2) then (false, b) else sensor_init_loop indices b
  end.

Definition sensor_read_task_init (created : bool) b : thermals_board E :=
  let b := b <| t_sensors := [mk_sensor SENSOR_1_ADDRESS 1; mk_sensor SENSOR_2_ADDRESS 2] |> in
  let '(initialized, b) := sensor_init_loop [0%nat; 1%nat] b in
  if initialized then b <| xSensorReadHandle := created |> else b.

(** The body of the loop for sensor [i]. *)
Definition sensor_read_one (i : nat) b : thermals_board E :=
  let s := nth i (t_sensors b) no_sensor in
  let '(read_status, temp, e) := thermal_sensor_read s (t_current b) (t_env b) in
  let b := b <| t_current := temp |> <| t_env := e |> in
  if read_status <? 0 then b <| t_data ::= thermals_invalidate_sensor (sensor_id s) |>
  else if flt temp MIN_VALID_TEMPERATURE_C || flt MAX_VALID_TEMPERATURE_C temp
  then b <| t_data ::= thermals_invalidate_sensor (sensor_id s) |>
  else b <| t_data ::= thermals_set_current temp (sensor_id s) |>.

(** ** [tasks/heater_set_task.c] *)

Definition PI_PROPORTIONAL_GAIN : f32 := lit 2 10.
Definition PI_INTEGRAL_GAIN : f32 := lit 4 1000.
Definition HEATER_SET_TASK_PERIOD_MS : Z := 100.
Definition PI_STEP_SECONDS : f32 := fdiv (of_int HEATER_SET_TASK_PERIOD_MS) (lit 1000 1).

Definition heater_off b : thermals_board E := b <| t_env ::= force_heater_off |>.

Definition heater_set_task_init (created : bool) b : thermals_board E :=
  let '(r, e) := heater_init (t_env b) in
  let b := b <| t_env := e |> in
  if r =? 0 then heater_off b
  else
    let b := heater_off b in
    let '(r, c) := prop_int_controller_init PI_PROPORTIONAL_GAIN PI_INTEGRAL_GAIN (t_pi b) in
    let b := b <| t_pi := c |> in
    if r =? 0 then heater_off b
    else
      let b := b <| xHeaterSetTask := created |> in
      if created then b else heater_off b.

(** The first statement of the loop, and the rest of it.  [power0] is the uninitialised
    local [requested_power_fraction]. *)
Definition heater_snapshot b : thermals_board E := b <| t_snapshot := t_data b |>.

Definition heater_actuate (power0 : f32) b : thermals_board E :=
  let d := t_snapshot b in
  if truthy (valid_sensor_mask d) && truthy (target_temp_valid d) then
    let '(updated, power, c) :=
      prop_int_controller_update (target_temp d) (average_temp d) PI_STEP_SECONDS (Some power0) (t_pi b) in
    let b := b <| t_pi := c |> in
    let '(accepted, e) :=
      if updated =? 0 then (0, t_env b) else heater_set_power (default power0 power) (t_env b) in
    let b := b <| t_env := e |> in
    if (updated =? 0) || (accepted =? 0) then
      heater_off (b <| t_pi ::= prop_int_controller_reset |>) <| t_fault_reported := 1 |>
    else b <| t_fault_reported := 0 |>
  else heater_off (b <| t_pi ::= prop_int_controller_reset |>) <| t_fault_reported := 0 |>.

(** ** [tasks/telemetry_task.c] *)

(** [thermals_telemetry_t]; [padding] are its last three bytes. *)
Definition thermals_telemetry (padding : list Z) (d : ThermalData_t) (power : f32) : list Z :=
  let f x := Time.le_bytes 4 (f32_bits x) in
  f (nth 0 (temperatures d) f0) ++ f (nth 1 (temperatures d) f0) ++ Time.le_bytes 4 (valid_sensor_mask d)
  ++ f (average_temp d) ++ f (target_temp d) ++ f power ++ Time.le_bytes 1 (target_temp_valid d) ++ padding.

(** One turn of the task: a notification, the snapshot, and the packet, when the connection
    opens and a buffer is free. *)
Definition thermals_telemetry_round (padding : list Z) (connected buffered : bool) b : thermals_board E :=
  if t_notified b then
    let b := b <| t_notified := false |> in
    if connected && buffered
    then b <| t_telemetry ::= fun l => l ++ [thermals_telemetry padding (t_data b) (get_applied_power (t_env b))] |>
    else b
  else b.

Definition thermals_telemetry_task_init (created : bool) b : thermals_board E := b <| xTelemetryHandle := created |>.
End Board.

(** ** The simulated hardware ([simulation/]) *)
Module Simulation.

Definition SIM_INITIAL_TEMPERATURE_C : f32 := fneg (lit 20 1).
Definition SIM_AMBIENT_TEMPERATURE_C : f32 := fneg (lit 5 1).
Definition SIM_MAX_HEATER_POWER_W : f32 := lit 15 1.
Definition SIM_THERMAL_CAPACITY_J_PER_C : f32 := lit 100 1.
Definition SIM_HEAT_LOSS_W_PER_C : f32 := lit 2 10.
Definition SIM_MAX_STEP_SECONDS : f32 := lit 1 1.
Definition SENSOR_1_SIM_OFFSET_C : f32 := fneg (lit 10 100).
Definition SENSOR_2_SIM_OFFSET_C : f32 := lit 10 100.
Definition THERMAL_MODEL_STEP_SECONDS : f32 := lit 1 10.

#[projections(primitive)]
Record sim_world := mk_sim_world {
  applied_power_fraction : f32;
  heater_initialized : Z;
  model_temperature_c : f32;
  model_initialized : Z;
  sensor_count : Z
}.

Definition sim_static : sim_world := mk_sim_world f0 0 SIM_INITIAL_TEMPERATURE_C 0 0.

Definition sim_heater_init (e : sim_world) : Z * sim_world :=
  (1, e <| applied_power_fraction := f0 |> <| heater_initialized := 1 |>).

Definition sim_force_heater_off (e : sim_world) : sim_world := e <| applied_power_fraction := f0 |>.

Definition sim_heater_set_power (power_fraction : f32) (e : sim_world) : Z * sim_world :=
  if negb (isfinite power_fraction) || flt power_fraction f0 || flt f1 power_fraction
  then (0, sim_force_heater_off e)
  else if heater_initialized e =? 0 then (0, e)
  else (1, e <| applied_power_fraction := power_fraction |>).

Definition thermal_model_init (e : sim_world) : Z * sim_world :=
  (1, e <| model_temperature_c := SIM_INITIAL_TEMPERATURE_C |> <| model_initialized := 1 |>).

Definition thermal_model_step (heater_power_fraction elapsed_seconds : f32) (e : sim_world) : Z * sim_world :=
  if negb (isfinite heater_power_fraction) || negb (isfinite elapsed_seconds)
     || flt heater_power_fraction f0 || flt f1 heater_power_fraction
     || fle elapsed_seconds f0 || flt SIM_MAX_STEP_SECONDS elapsed_seconds
  then (0, e)
  else if model_initialized e =? 0 then (0, e)
  else
    let heater_power_w := fmul heater_power_fraction SIM_MAX_HEATER_POWER_W in
    let heat_loss_w :=
      fmul SIM_HEAT_LOSS_W_PER_C (fsub (model_temperature_c e) SIM_AMBIENT_TEMPERATURE_C) in
    let net_power_w := fsub heater_power_w heat_loss_w in
    let temperature_change_c := fmul (fdiv net_power_w SIM_THERMAL_CAPACITY_J_PER_C) elapsed_seconds in
    (1, e <| model_temperature_c := fadd (model_temperature_c e) temperature_change_c |>).

Definition sim_sensor_init (s : thermal_sensor_t) (address : Z) (e : sim_world) : Z * thermal_sensor_t * sim_world :=
  if 0x7F <? address then (-1, s, e)
  else if MAX_SENSORS <=? sensor_count e then (-2, s, e)
  else (1, mk_sensor address (sensor_id s), e <| sensor_count ::= fun n => u8 (n + 1) |>).

Definition sim_sensor_read (s : thermal_sensor_t) (temperature : f32) (e : sim_world) : Z * f32 * sim_world :=
  let t := model_temperature_c e in
  if negb (isfinite t) then (-2, temperature, e)
  else if sensor_id s =? 1 then (1, fadd t SENSOR_1_SIM_OFFSET_C, e)
  else if sensor_id s =? 2 then (1, fadd t SENSOR_2_SIM_OFFSET_C, e)
  else (-3, temperature, e).

#[global] Instance sim_hardware : ThermalHardware sim_world := {
  thermal_sensor_init := sim_sensor_init;
  thermal_sensor_read := sim_sensor_read;
  heater_init := sim_heater_init;
  heater_set_power := sim_heater_set_power;
  force_heater_off := sim_force_heater_off;
  get_applied_power := applied_power_fraction
}.

(** One turn of [thermal_model_task], with [fault_reported]. *)
Definition thermal_model_round (fault_reported : Z) (e : sim_world) : Z * sim_world :=
  let '(r, e) := thermal_model_step (applied_power_fraction e) THERMAL_MODEL_STEP_SECONDS e in
  if r =? 0 then (1, sim_force_heater_off e) else (0, e).

#[global] Instance sim_laws : HeaterLaws sim_world.
Proof.
  split; try done.
  - intros p e. cbn [heater_set_power sim_hardware]. unfold sim_heater_set_power.
    destruct (negb (isfinite p) || flt p f0 || flt f1 p) eqn:E; [by right|].
    destruct (heater_initialized e =? 0); [by left|]. cbn [Z.eqb]. split; [done|]. bool_facts.
    assert (isnan p = false) by (by apply isfinite_not_nan). split; by apply flt_false.
  - intros s a e. cbn [thermal_sensor_init sim_hardware]. unfold sim_sensor_init. by split_ifs.
  - intros s t e. cbn [thermal_sensor_read sim_hardware]. unfold sim_sensor_read. by split_ifs.
Qed.

(** The physics leaves the heater alone, or turns it off when the step fails. *)
Lemma model_round_power fault_reported e :
  let e' := snd (thermal_model_round fault_reported e) in
  applied_power_fraction e' = applied_power_fraction e \/ applied_power_fraction e' = f0.
Proof.
  cbv zeta. unfold thermal_model_round, thermal_model_step.
  split_ifs; cbn [snd]; auto.
Qed.
End Simulation.

(** ** The controller *)

Definition gains_ok (c : pi_controller) : Prop :=
  isfinite (controller_proportional_gain c) = true /\ flt f0 (controller_proportional_gain c) = true
  /\ isfinite (controller_integral_gain c) = true /\ flt f0 (controller_integral_gain c) = true.

(** The accumulated error is a number and not negative. *)
Definition integral_ok (c : pi_controller) : Prop :=
  isfinite (controller_integral_error c) = true /\ fle f0 (controller_integral_error c) = true.

Lemma fraction_0 : fraction f0.
Proof. split; reflexivity. Qed.

Lemma fraction_1 : fraction f1.
Proof. split; vm_compute; reflexivity. Qed.

(** What asks for heat: two numbers, the target above the temperature. *)
Definition wants_heat (target current : f32) : Prop :=
  isfinite target = true /\ isfinite current = true /\ fle (fsub target current) f0 = false.

Lemma pi_update_spec c target current dt out r power c' :
  gains_ok c -> integral_ok c ->
  prop_int_controller_update target current dt (Some out) c = (r, power, c') ->
  gains_ok c' /\ integral_ok c' /\ controller_initialized c' = controller_initialized c
  /\ exists p, power = Some p /\ fraction p
     /\ (p = f0 \/ (r = 1 /\ controller_initialized c <> 0 /\ wants_heat target current)).
Proof.
  intros (Hp & Hp0 & Hi & Hi0) [Hc Hc0]. unfold prop_int_controller_update.
  assert (gains_ok c) as Hg by done. assert (integral_ok c) as Hint by done.
  case_if as E1.
  { intros [= <- <- <-]. split; [exact Hg|]. split; [exact Hint|]. split; [done|].
    exists f0. split; [done|]. split; [apply fraction_0|by left]. }
  bool_facts. cbv zeta.
  match goal with H : fle dt f0 = false |- _ => rename H into Hdt end.
  assert (flt f0 dt = true) as Hdt0 by (apply fle_false; [by apply isfinite_not_nan|done|done]).
  set (err := fsub target current) in *.
  assert (isnan err = false) as Hen by (apply fsub_not_nan_l; [done|by apply isfinite_not_nan]).
  case_if as E2.
  { intros [= <- <- <-]. split; [exact Hg|]. split; [by split|]. split; [done|].
    exists f0. split; [done|]. split; [apply fraction_0|by left]. }
  assert (fle f0 err = true) as He0 by (apply flt_fle, fle_false; done).
  set (p := fmul (controller_proportional_gain c) err). set (step := fmul err dt).
  set (cand := fadd (controller_integral_error c) step).
  assert (isnan step = false) as Hsn by (unfold step; rewrite fmul_comm_nan; by apply fmul_pos_not_nan).
  assert (fle f0 step = true) as Hs0 by (apply fmul_nonneg; [done|by apply flt_fle|done]).
  assert (fle f0 cand = true) as Hcand by (by apply fadd_nonneg).
  assert (isnan cand = false) as Hcn by (apply (fle_not_nan f0 cand Hcand)).
  assert (fle f0 p = true) as Hpp by (apply fmul_nonneg; [by apply flt_fle|done|by apply fmul_pos_not_nan]).
  set (q := fmul (controller_integral_gain c) cand).
  assert (fle f0 q = true) as Hq by (apply fmul_nonneg; [by apply flt_fle|done|by apply fmul_pos_not_nan]).
  pose proof (fadd_nonneg p q Hpp Hq) as Ho. destruct (fle_not_nan _ _ Ho) as [_ Hon].
  assert (wants_heat target current) as Hw by done.
  case_if as E3.
  { intros [= <- <- <-]. split; [exact Hg|]. split; [exact Hint|]. split; [done|].
    exists f1. split; [done|]. split; [apply fraction_1|by right]. }
  case_if as E4.
  { intros [= <- <- <-]. split; [exact Hg|]. split; [exact Hint|]. split; [done|].
    exists f0. split; [done|]. split; [apply fraction_0|by left]. }
  intros [= <- <- <-]. split; [exact Hg|]. split.
  { split; [|exact Hcand]. change (isfinite cand = true). destruct (nonneg_cases cand Hcand) as [|Einf]; [done|].
    unfold q in E3. rewrite Einf, fmul_infinite_r, fadd_infinite_r in E3 by done. by vm_compute in E3. }
  split; [done|]. eexists. split; [done|]. split; [|by right].
  split; [done|]. by apply flt_fle, fle_false.
Qed.

(** ** The board as a step relation *)
Section Reachable.
Context {E : Type} `{HeaterLaws E}.
Implicit Types b : thermals_board E.

(** A task takes steps once its handle is set; the hardware may change by itself, but the
    heater's power only to zero. *)
Inductive thermals_step b : thermals_board E -> Prop :=
  | Step_command_init created : t_queue b = None -> thermals_step b (thermals_command_task_init created b)
  | Step_sensor_init created : thermals_step b (sensor_read_task_init created b)
  | Step_heater_init created : xHeaterSetTask b = false -> thermals_step b (heater_set_task_init created b)
  | Step_telemetry_init created : thermals_step b (thermals_telemetry_task_init created b)
  | Step_packet dport data padding buffered : thermals_step b (thermals_packet dport data padding buffered b)
  | Step_command : xCommandHandle b = true -> thermals_step b (thermals_command_round b)
  | Step_sensor i : xSensorReadHandle b = true -> thermals_step b (sensor_read_one i b)
  | Step_snapshot : xHeaterSetTask b = true -> thermals_step b (heater_snapshot b)
  | Step_actuate power0 : xHeaterSetTask b = true -> thermals_step b (heater_actuate power0 b)
  | Step_telemetry padding connected buffered :
      xTelemetryHandle b = true -> thermals_step b (thermals_telemetry_round padding connected buffered b)
  | Step_world e :
      get_applied_power e = get_applied_power (t_env b) \/ get_applied_power e = f0 ->
      thermals_step b (b <| t_env := e |>).

Inductive thermals_reachable : thermals_board E -> Prop :=
  | Start e : get_applied_power e = f0 -> thermals_reachable (thermals_static e)
  | Next b b' : thermals_reachable b -> thermals_step b b' -> thermals_reachable b'.

(** ** Well-formed states *)

Definition data_wf (d : ThermalData_t) : Prop :=
  len (temperatures d) = MAX_SENSORS /\ 0 <= valid_sensor_mask d < 4
  /\ (target_temp_valid d = 0 \/ target_temp_valid d = 1)
  /\ (target_temp_valid d = 1 -> thermals_target_is_valid (target_temp d) = true).

Definition command_wf (c : thermals_command_t) : Prop :=
  match tc_parameter c with
  | THERMALS_COMMAND_SET_TARGET_TEMP target => thermals_target_is_valid target = true
  | _ => True
  end.

Definition queue_wf (q : option (list thermals_command_t)) : Prop :=
  match q with
  | Some q => Forall command_wf q /\ len q <= THERMALS_COMMAND_QUEUE_LENGTH
  | None => True
  end.

Definition pi_wf (c : pi_controller) : Prop :=
  integral_ok c /\ (controller_initialized c = 0 \/ gains_ok c).

Definition thermals_wf b : Prop :=
  data_wf (t_data b) /\ data_wf (t_snapshot b) /\ pi_wf (t_pi b) /\ queue_wf (t_queue b)
  /\ Forall (fun s => 0 <= sensor_id s) (t_sensors b) /\ fraction (get_applied_power (t_env b)).

Lemma static_wf : data_wf thermal_data_static.
Proof. split_and!; try done. by left. Qed.

Lemma recalculate_wf d : data_wf d -> data_wf (thermals_recalculate_average d).
Proof. intros Hd. unfold thermals_recalculate_average. destruct (fold_left _ _ _). exact Hd. Qed.

Lemma sensor_cases id : (id =? 0) || (MAX_SENSORS <? id) = false -> 0 <= id -> id = 1 \/ id = 2.
Proof. intros Hid Hn. unfold MAX_SENSORS in Hid. bool_facts. lia. Qed.

Lemma mask_or m i : 0 <= m < 4 -> i = 1 \/ i = 2 -> 0 <= Z.lor m (u32 (Z.shiftl 1 (i - 1))) < 4.
Proof.
  intros Hm Hi. assert (m = 0 \/ m = 1 \/ m = 2 \/ m = 3) as [->|[->|[->| ->]]] by lia;
    destruct Hi as [->| ->]; vm_compute; split; congruence.
Qed.

Lemma mask_clear m i : 0 <= m < 4 -> i = 1 \/ i = 2 -> 0 <= Z.ldiff m (u32 (Z.shiftl 1 (i - 1))) < 4.
Proof.
  intros Hm Hi. assert (m = 0 \/ m = 1 \/ m = 2 \/ m = 3) as [->|[->|[->| ->]]] by lia;
    destruct Hi as [->| ->]; vm_compute; split; congruence.
Qed.

Lemma set_current_wf temp id d : 0 <= id -> data_wf d -> data_wf (thermals_set_current temp id d).
Proof.
  intros Hn Hd. pose proof Hd as (Hl & Hm & Hv & Ht). unfold thermals_set_current.
  case_if as Ei; [exact Hd|]. destruct (sensor_cases id Ei Hn) as [Hid|Hid]; apply recalculate_wf.
  all: split; [unfold len; cbn [temperatures update]; by rewrite length_insert|].
  all: split; [apply mask_or; auto|done].
Qed.

Lemma invalidate_wf id d : 0 <= id -> data_wf d -> data_wf (thermals_invalidate_sensor id d).
Proof.
  intros Hn Hd. pose proof Hd as (Hl & Hm & Hv & Ht). unfold thermals_invalidate_sensor.
  case_if as Ei; [exact Hd|]. pose proof (sensor_cases id Ei Hn). apply recalculate_wf.
  split; [exact Hl|]. split; [by apply mask_clear|done].
Qed.

Lemma set_target_wf target d : data_wf d -> data_wf (snd (thermals_set_target target d)).
Proof.
  intros Hd. pose proof Hd as (Hl & Hm & Hv & Ht). unfold thermals_set_target.
  destruct (thermals_target_is_valid target) eqn:Et; cbn [negb snd]; [|exact Hd].
  split; [exact Hl|]. split; [exact Hm|]. split; [by right|]. intros _. exact Et.
Qed.

Lemma pi_init_wf c : pi_wf (snd (prop_int_controller_init PI_PROPORTIONAL_GAIN PI_INTEGRAL_GAIN c)).
Proof. vm_compute. tauto. Qed.

Lemma pi_reset_wf c : pi_wf c -> pi_wf (prop_int_controller_reset c).
Proof. intros [_ Hg]. split; [split; reflexivity|exact Hg]. Qed.

Lemma law_fraction p e :
  fraction (get_applied_power e) -> fraction (get_applied_power (snd (heater_set_power p e))).
Proof.
  intros Hf. pose proof (set_law p e) as Hl. destruct (heater_set_power p e) as [r e']. cbn [snd].
  destruct (r =? 0); [by destruct Hl as [->| ->]; [|apply fraction_0]|]. by destruct Hl as [-> ?].
Qed.

Lemma law_off e : fraction (get_applied_power (force_heater_off e)).
Proof. rewrite off_law. apply fraction_0. Qed.

(** ** Every step keeps the state well formed *)

Lemma enqueue_wf c b : command_wf c -> thermals_wf b -> thermals_wf (snd (thermals_enqueue c b)).
Proof.
  intros Hc Hb. pose proof Hb as (Hd & Hs & Hp & Hq & Hi & Hf). unfold thermals_enqueue, thermals_command_send.
  destruct (t_queue b) as [q|] eqn:Eq; [|exact Hb]. case_if as E1; [|exact Hb]. bool_facts.
  destruct Hq as [Hq1 Hq2]. split; [exact Hd|]. split; [exact Hs|]. split; [exact Hp|].
  split; [|split; [exact Hi|exact Hf]]. cbn [snd t_queue update]. split; [by apply Forall_app_2; [|constructor]|].
  rewrite len_app, len_cons, len_nil. unfold THERMALS_COMMAND_QUEUE_LENGTH in *. lia.
Qed.

Lemma packet_wf dport data padding buffered b :
  thermals_wf b -> thermals_wf (thermals_packet dport data padding buffered b).
Proof.
  intros Hb. unfold thermals_packet. case_if as E0; [|exact Hb].
  assert (thermals_wf (snd (thermals_decode data b))) as Hd.
  { unfold thermals_decode. case_if as E1; [|case_if as E2; [by apply enqueue_wf|exact Hb]].
    case_if as E2; [exact Hb|]. destruct (thermals_target_is_valid _) eqn:Et; [|exact Hb].
    by apply enqueue_wf. }
  destruct (thermals_decode data b) as [status b1]. unfold thermals_send_ack. by destruct buffered.
Qed.

Lemma command_round_wf b : thermals_wf b -> thermals_wf (thermals_command_round b).
Proof.
  intros Hb. pose proof Hb as (Hd & Hs & Hp & Hq & Hi & Hf). unfold thermals_command_round.
  destruct (t_queue b) as [[|c q]|] eqn:Eq; [exact Hb| |exact Hb]. destruct Hq as [Hq1 Hq2].
  apply Forall_cons_1 in Hq1 as [Hc Hq1]. rewrite len_cons in Hq2. unfold thermals_execute.
  assert (queue_wf (Some q)) as Hq by (split; [done|lia]).
  destruct (tc_parameter c) as [|target|].
  - split_and!; assumption || apply Hd || apply Hs || done.
  - pose proof (set_target_wf target (t_data b) Hd) as Hd'.
    change (t_data (update _ _ _)) with (t_data b).
    destruct (thermals_set_target target (t_data b)) as [r d].
    exact (conj Hd' (conj Hs (conj Hp (conj Hq (conj Hi Hf))))).
  - case_if as Et; exact (conj Hd (conj Hs (conj Hp (conj Hq (conj Hi Hf))))).
Qed.

Lemma sensor_read_wf i b : thermals_wf b -> thermals_wf (sensor_read_one i b).
Proof.
  intros (Hd & Hs & Hp & Hq & Hi & Hf). unfold sensor_read_one. set (s := nth i (t_sensors b) no_sensor).
  assert (0 <= sensor_id s) as Hn.
  { unfold s. destruct (nth_in_or_default i (t_sensors b) no_sensor) as [Hin| ->]; [|done].
    rewrite List.Forall_forall in Hi. by apply Hi. }
  pose proof (sensor_read_law s (t_current b) (t_env b)) as Hl.
  destruct (thermal_sensor_read s (t_current b) (t_env b)) as [[status temp] e]. cbn [snd] in Hl.
  rewrite <- Hl in Hf.
  split_ifs; refine (conj _ (conj Hs (conj Hp (conj Hq (conj Hi Hf)))));
    first [exact (invalidate_wf _ _ Hn Hd)|exact (set_current_wf _ _ _ Hn Hd)].
Qed.

Lemma sensor_init_wf created b : thermals_wf b -> thermals_wf (sensor_read_task_init created b).
Proof.
  intros Hb. unfold sensor_read_task_init.
  assert (forall indices b, thermals_wf b -> thermals_wf (snd (sensor_init_loop indices b))) as Hloop.
  { clear Hb. clear b. induction indices as [|i indices IH]; intros b Hb; [exact Hb|]. cbn [sensor_init_loop].
    destruct Hb as (Hd & Hs & Hp & Hq & Hi & Hf).
    pose proof (sensor_init_law (nth i (t_sensors b) no_sensor)
      (sensor_address (nth i (t_sensors b) no_sensor)) (t_env b)) as Hl.
    destruct (thermal_sensor_init _ _ _) as [[status s] e]. destruct Hl as [Hl Hid]. rewrite <- Hl in Hf.
    assert (Forall (fun s => 0 <= sensor_id s) (<[i := s]> (t_sensors b))) as Hi1.
    { apply Forall_insert; [exact Hi|]. rewrite Hid.
      destruct (nth_in_or_default i (t_sensors b) no_sensor) as [Hin| ->]; [|done].
      rewrite List.Forall_forall in Hi. by apply Hi. }
    case_if as E1; [|apply IH]; exact (conj Hd (conj Hs (conj Hp (conj Hq (conj Hi1 Hf))))). }
  set (b1 := b <| t_sensors := _ |>).
  assert (thermals_wf b1) as Hb1.
  { destruct Hb as (Hd & Hs & Hp & Hq & Hi & Hf). refine (conj Hd (conj Hs (conj Hp (conj Hq (conj _ Hf))))).
    repeat constructor; cbn [sensor_id]; lia. }
  pose proof (Hloop [0%nat; 1%nat] b1 Hb1) as Hb2. destruct (sensor_init_loop _ b1) as [[|] b2]; exact Hb2.
Qed.

Lemma heater_off_wf b : thermals_wf b -> thermals_wf (heater_off b).
Proof.
  intros (Hd & Hs & Hp & Hq & Hi & Hf). exact (conj Hd (conj Hs (conj Hp (conj Hq (conj Hi (law_off (t_env b))))))).
Qed.

Lemma heater_init_wf created b : thermals_wf b -> thermals_wf (heater_set_task_init created b).
Proof.
  intros Hb. unfold heater_set_task_init. pose proof (init_law (t_env b)) as Hl.
  destruct (heater_init (t_env b)) as [r e]. cbn [snd] in Hl.
  assert (thermals_wf (b <| t_env := e |>)) as Hb1.
  { destruct Hb as (Hd & Hs & Hp & Hq & Hi & Hf). refine (conj Hd (conj Hs (conj Hp (conj Hq (conj Hi _))))).
    change (fraction (get_applied_power e)). rewrite Hl. apply fraction_0. }
  apply heater_off_wf in Hb1. case_if as E1; [exact Hb1|].
  set (b2 := heater_off _) in *. pose proof (pi_init_wf (t_pi b2)) as Hp.
  destruct (prop_int_controller_init _ _ (t_pi b2)) as [r2 c]. cbn [snd] in Hp.
  assert (thermals_wf (b2 <| t_pi := c |>)) as Hb3.
  { destruct Hb1 as (Hd & Hs & _ & Hq & Hi & Hf). exact (conj Hd (conj Hs (conj Hp (conj Hq (conj Hi Hf))))). }
  case_if as E2; [by apply heater_off_wf|]. destruct created; [exact Hb3|]. exact (heater_off_wf _ Hb3).
Qed.

(** What one turn of the heater task does to the power. *)
Definition heated_ok (d : ThermalData_t) (p : f32) : Prop :=
  p = f0 \/ (fraction p /\ valid_sensor_mask d <> 0 /\ target_temp_valid d <> 0
             /\ wants_heat (target_temp d) (average_temp d)).

Lemma pi_update_wf c target current dt out r power c' :
  pi_wf c -> prop_int_controller_update target current dt (Some out) c = (r, power, c') ->
  pi_wf c' /\ exists p, power = Some p /\ fraction p /\ (p = f0 \/ (r = 1 /\ wants_heat target current)).
Proof.
  intros [Hint [Hz|Hg]] Hup.
  - revert Hup. unfold prop_int_controller_update. rewrite Hz. cbn [orb Z.eqb]. intros [= <- <- <-].
    split; [split; [exact Hint|by left]|]. exists f0. split; [done|]. split; [apply fraction_0|by left].
  - destruct (pi_update_spec _ _ _ _ _ _ _ _ Hg Hint Hup) as (Hg' & Hint' & _ & p & Hp & Hf & Hw).
    split; [split; [exact Hint'|by right]|]. exists p. split; [done|]. split; [done|].
    destruct Hw as [?|(? & _ & ?)]; [by left|by right].
Qed.

Lemma actuate_spec power0 b :
  thermals_wf b ->
  thermals_wf (heater_actuate power0 b)
  /\ (heated_ok (t_snapshot b) (get_applied_power (t_env (heater_actuate power0 b)))).
Proof.
  intros Hb. pose proof Hb as (Hd & Hs & [Hint Hg] & Hq & Hi & Hf). unfold heater_actuate.
  assert (forall c, pi_wf c ->
    let b' := heater_off (b <| t_pi := c |>) in thermals_wf b' /\ get_applied_power (t_env b') = f0) as Hoff.
  { intros c Hc. split; [|apply off_law]. apply heater_off_wf.
    exact (conj Hd (conj Hs (conj Hc (conj Hq (conj Hi Hf))))). }
  pose proof (pi_reset_wf _ (conj Hint Hg)) as Hreset.
  destruct (truthy (valid_sensor_mask (t_snapshot b)) && truthy (target_temp_valid (t_snapshot b))) eqn:Et.
  2: { destruct (Hoff _ Hreset) as [Hwf Hp]. split; [exact Hwf|]. left. exact Hp. }
  apply andb_true_iff in Et as [Hm Hv]. unfold truthy in *. bool_facts.
  destruct (prop_int_controller_update _ _ _ _ _) as [[r power] c] eqn:Hup.
  destruct (pi_update_wf _ _ _ _ _ _ _ _ (conj Hint Hg) Hup) as (Hc & p & -> & Hfr & Hw).
  pose proof (pi_reset_wf _ Hc) as Hreset'. cbn [default from_option id].
  destruct (r =? 0) eqn:Er.
  { destruct (Hoff _ Hreset') as [Hwf Hp]. split; [exact Hwf|]. left. exact Hp. }
  pose proof (law_fraction p (t_env b) Hf) as Hf'. pose proof (set_law p (t_env b)) as Hl.
  change (t_env (b <| t_pi := c |>)) with (t_env b).
  destruct (heater_set_power p (t_env b)) as [accepted e]. cbn [snd orb] in *.
  destruct (accepted =? 0).
  { split; [|left; apply off_law].
    exact (conj Hd (conj Hs (conj Hreset' (conj Hq (conj Hi (law_off e)))))). }
  split; [exact (conj Hd (conj Hs (conj Hc (conj Hq (conj Hi Hf')))))|].
  destruct Hl as [Hl _]. change (heated_ok (t_snapshot b) (get_applied_power e)). rewrite Hl.
  destruct Hw as [->|[_ Hw]]; [by left|by right].
Qed.

Lemma step_wf b b' : thermals_wf b -> thermals_step b b' -> thermals_wf b'.
Proof.
  intros Hb Hs. pose proof Hb as (Hd & Hsn & Hp & Hq & Hi & Hf). destruct Hs.
  - refine (conj Hd (conj Hsn (conj Hp (conj _ (conj Hi Hf))))). by split.
  - by apply sensor_init_wf.
  - by apply heater_init_wf.
  - exact Hb.
  - by apply packet_wf.
  - by apply command_round_wf.
  - by apply sensor_read_wf.
  - exact (conj Hd (conj Hd (conj Hp (conj Hq (conj Hi Hf))))).
  - by apply actuate_spec.
  - unfold thermals_telemetry_round. split_ifs; exact Hb.
  - refine (conj Hd (conj Hsn (conj Hp (conj Hq (conj Hi _))))).
    match goal with H : _ \/ _ |- _ => destruct H as [Hw|Hw] end; change (fraction (get_applied_power e)); rewrite Hw;
      [exact Hf|apply fraction_0].
Qed.

Lemma reachable_wf b : thermals_reachable b -> thermals_wf b.
Proof.
  induction 1 as [e He|b b' _ IH Hs]; [|by apply (step_wf b)].
  refine (conj static_wf (conj static_wf (conj _ (conj I (conj _ _))))).
  - split; [split; reflexivity|by left].
  - repeat constructor; done.
  - cbn [t_env thermals_static]. rewrite He. apply fraction_0.
Qed.


(** ** Commands *)

Lemma queue_drains q r b :
  t_queue b = Some (q ++ r) -> t_queue (Nat.iter (length q) thermals_command_round b) = Some r
  /\ t_acks (Nat.iter (length q) thermals_command_round b) = t_acks b.
Proof.
  revert r. induction q as [|c q IH] using rev_ind; intros r Hq; [done|].
  rewrite <- app_assoc in Hq. destruct (IH _ Hq) as [Hn Ha]. rewrite length_app, Nat.add_comm.
  change (Nat.iter (length [c] + length q) thermals_command_round b)
    with (thermals_command_round (Nat.iter (length q) thermals_command_round b)).
  revert Hn Ha. generalize (Nat.iter (length q) thermals_command_round b). intros b1 Hn Ha.
  unfold thermals_command_round. rewrite Hn. cbn [app]. unfold thermals_execute.
  destruct (tc_parameter c) as [|target|]; [done| |by case_if as E1].
  by destruct (thermals_set_target target _).
Qed.

(** A target temperature that the listener acknowledges becomes the target.  A packet
    with the command is acknowledged exactly if it is long enough, the temperature is a
    number inside the limits and the queue has room; after the command task has taken the
    commands that were queued before and this one, the target is the temperature of the
    packet.  Otherwise the answer is a refusal and nothing else changes. *)
Theorem target_command_takes_effect b q data padding :
  t_queue b = Some q -> byte_at data 0 = THERMALS_WIRE_COMMAND_SET_TARGET_TEMP -> 8 <= len data ->
  let target := get_float data 8 in
  let b1 := thermals_packet THERMALS_CMD_PORT data padding true b in
  let b2 := Nat.iter (S (length q)) thermals_command_round b1 in
  if (12 <=? len data) && thermals_target_is_valid target && (len q <? THERMALS_COMMAND_QUEUE_LENGTH)
  then t_acks b1 = t_acks b ++ [ack_bytes padding data ACK]
       /\ t_queue b2 = Some [] /\ target_temp (t_data b2) = target /\ target_temp_valid (t_data b2) = 1
  else b1 = b <| t_acks ::= fun l => l ++ [ack_bytes padding data NACK] |>.
Proof.
  intros Hq Hid Hlen. cbv zeta. unfold thermals_packet, thermals_decode. rewrite Z.eqb_refl, Hid.
  unfold sizeof_command_envelope. rewrite (proj2 (Z.leb_le _ _) Hlen). rewrite Z.eqb_refl. cbn [andb].
  rewrite (Z.leb_antisym (len data) 12). destruct (len data <? 12); [reflexivity|].
  destruct (thermals_target_is_valid (get_float data 8)) eqn:Ht; [|reflexivity]. cbn [negb andb].
  unfold thermals_enqueue, thermals_command_send. rewrite Hq.
  destruct (len q <? THERMALS_COMMAND_QUEUE_LENGTH); [|reflexivity].
  set (c := mk_thermals_command _ _). unfold thermals_send_ack. split; [done|].
  set (b1 := _ <| t_acks ::= _ |>). destruct (queue_drains q [c] b1 eq_refl) as [Hn _].
  change (Nat.iter (S (length q)) thermals_command_round b1)
    with (thermals_command_round (Nat.iter (length q) thermals_command_round b1)).
  revert Hn. generalize (Nat.iter (length q) thermals_command_round b1). intros b2 Hn.
  unfold thermals_command_round. rewrite Hn. unfold thermals_execute. cbn [tc_parameter c].
  unfold thermals_set_target. rewrite Ht. done.
Qed.
End Reachable.

(** ** The simulated board *)

Definition start_simulated : list (thermals_board Simulation.sim_world -> thermals_board Simulation.sim_world) :=
  [thermals_command_task_init true; sensor_read_task_init true; heater_set_task_init true;
   thermals_telemetry_task_init true;
   thermals_packet 12 ([80; 0; 0; 0; 1; 0; 0; 0] ++ Time.le_bytes 4 (f32_bits (lit 20 1))) [0; 0; 0] true;
   sensor_read_one 0; thermals_command_round; heater_snapshot].

Definition warming_board : thermals_board Simulation.sim_world :=
  fold_left (fun b f => f b) start_simulated (thermals_static Simulation.sim_static).

Lemma warming_reachable : thermals_reachable warming_board.
Proof.
  unfold warming_board, start_simulated. cbn [fold_left].
  eapply Next; [|apply Step_snapshot; vm_compute; reflexivity].
  eapply Next; [|apply Step_command; vm_compute; reflexivity].
  eapply Next; [|apply Step_sensor; vm_compute; reflexivity].
  eapply Next; [|apply Step_packet].
  eapply Next; [|apply Step_telemetry_init].
  eapply Next; [|apply Step_heater_init; vm_compute; reflexivity].
  eapply Next; [|apply Step_sensor_init].
  eapply Next; [|apply Step_command_init; vm_compute; reflexivity].
  apply Start. reflexivity.
Qed.


Lemma target_command_takes_effect_witness :
  let b := thermals_command_task_init true (thermals_static Simulation.sim_static) in
  let data := [80; 0; 0; 0; 1; 0; 0; 0] ++ Time.le_bytes 4 (f32_bits (lit 20 1)) in
  let b1 := thermals_packet 12 data [0; 0; 0] true b in
  t_acks b1 = t_acks b ++ [ack_bytes [0; 0; 0] data ACK]
  /\ t_queue (Nat.iter 1 thermals_command_round b1) = Some []
  /\ target_temp (t_data (Nat.iter 1 thermals_command_round b1)) = get_float data 8
  /\ target_temp_valid (t_data (Nat.iter 1 thermals_command_round b1)) = 1.
Proof.
  exact (target_command_takes_effect (thermals_command_task_init true (thermals_static Simulation.sim_static)) []
           ([80; 0; 0; 0; 1; 0; 0; 0] ++ Time.le_bytes 4 (f32_bits (lit 20 1))) [0; 0; 0]
           eq_refl eq_refl ltac:(vm_compute; congruence)).
Defined.

(** The range check of the sensor task is false for NaN, so such a reading counts as valid;
    only the controller's own test turns the heater off. *)
Lemma nan_reading_counts_as_valid {E} `{ThermalHardware E} (b : thermals_board E) e :
  nth 0 (t_sensors b) no_sensor = mk_sensor SENSOR_1_ADDRESS 1 ->
  thermal_sensor_read (mk_sensor SENSOR_1_ADDRESS 1) (t_current b) (t_env b) = (1, NAN, e) ->
  t_data (sensor_read_one 0 b) = thermals_set_current NAN 1 (t_data b)
  /\ (valid_sensor_mask (t_data b) = 0 -> valid_sensor_mask (t_data (sensor_read_one 0 b)) = 1).
Proof.
  intros Hs Hr. unfold sensor_read_one. rewrite Hs, Hr. split; [reflexivity|]. intros Hm.
  cbn [Z.ltb Z.compare]. change (_ || _) with false.
  cbn [t_data update]. unfold thermals_set_current. change (sensor_id (mk_sensor SENSOR_1_ADDRESS 1)) with 1.
  unfold MAX_SENSORS. cbn [Z.eqb Z.ltb Z.compare orb]. unfold thermals_recalculate_average.
  destruct (fold_left _ _ _). change (Z.lor (valid_sensor_mask (t_data b)) 1 = 1). by rewrite Hm.
Qed.

(** ** Telemetry *)

Lemma float_field x : valid_f32 x ->
  let w := f32_bits x in
  f32_of_bits (u8 w + 256 * u8 (w / 256) + 65536 * u8 (w / 256 / 256) + 16777216 * u8 (w / 256 / 256 / 256)) = x.
Proof. intros Hx. cbv zeta. rewrite bytes_of_32 by by apply f32_bits_range. by apply f32_bits_roundtrip. Qed.

(** The receiver of a telemetry packet finds every value of the board at its offset. *)
Lemma thermals_telemetry_fields padding d power :
  len padding = 3 -> data_wf d -> Forall valid_f32 (temperatures d) ->
  valid_f32 (average_temp d) -> valid_f32 (target_temp d) -> valid_f32 power ->
  let p := thermals_telemetry padding d power in
  len p = 28 /\ [get_float p 0; get_float p 4] = temperatures d /\ get_le32 p 8 = valid_sensor_mask d
  /\ get_float p 12 = average_temp d /\ get_float p 16 = target_temp d /\ get_float p 20 = power
  /\ byte_at p 24 = target_temp_valid d.
Proof.
  intros Hpad (Hl & Hm & Hv & _) Hts Ha Ht Hp. cbv zeta. unfold thermals_telemetry, get_float.
  destruct d as [ts mask avg target valid]. cbn [temperatures valid_sensor_mask average_temp target_temp
    target_temp_valid] in *.
  assert (exists t0 t1, ts = [t0; t1]) as (t0 & t1 & ->)
    by (unfold len, MAX_SENSORS in Hl; destruct ts as [|t0 [|t1 [|]]]; cbn in Hl; try lia; eauto).
  apply Forall_cons_1 in Hts as [H0 [H1 _]%Forall_cons_1]. cbn [nth].
  unfold len in Hpad. destruct padding as [|p0 [|p1 [|p2 [|]]]]; try (cbn in Hpad; lia).
  rewrite !le_bytes_4. split; [reflexivity|].
  split; [f_equal; [exact (float_field t0 H0)|f_equal; exact (float_field t1 H1)]|].
  split; [apply bytes_of_32; lia|]. split; [exact (float_field avg Ha)|].
  split; [exact (float_field target Ht)|]. split; [exact (float_field power Hp)|].
  change (u8 valid = valid). destruct Hv as [->| ->]; reflexivity.
Qed.
