(* ===== verification/AdcsEstimation.v ===== *)
(** The attitude estimator of the attitude control board
    ([estimation/kalman_filter.c], [attitude_estimator.c], [reference_vectors.c]) and its
    task ([tasks/estimation_task.c]), under [apps/adcs/Application/src].

    The ephemeris computes in [double]: a [spec_float] with 53 bits, with the
    trigonometric functions of libm as the class [Libm64].  An output structure is a result.
    The second half joins the estimator and the board, and shows on what an attitude the
    mode manager relies on is based. *)

From Stdlib Require Import Floats.SpecFloat.
From S2P Require Import Prelude Float32 AdcsMath AdcsControl AdcsManager AdcsFault AdcsCommand AdcsTasks ObcProgress.

#[local] Open Scope f32_scope.

(** ** [kalman_filter.c] *)

#[projections(primitive)]
Record adcs_kalman_config_t := mk_kalman_config {
  gyro_noise_rad_s_sqrt_hz : f32;
  gyro_bias_walk_rad_s2_sqrt_hz : f32;
  initial_attitude_variance_rad2 : f32;
  initial_bias_variance_rad2_s2 : f32;
  minimum_measurement_variance : f32;
  maximum_innovation : f32
}.

#[projections(primitive)]
Record adcs_kalman_filter_t := mk_kalman {
  kf_initialized : Z;
  kf_seeded : Z;
  kf_config : adcs_kalman_config_t;
  kf_quaternion : versor;
  kf_gyro_bias_rad_s : vec3;
  kf_covariance : list f32            (* 36 elements *)
}.

Definition ADCS_ERROR_STATE_LENGTH : Z := 6.
Definition zero_kalman : adcs_kalman_filter_t :=
  mk_kalman 0 0 (mk_kalman_config f0 f0 f0 f0 f0 f0) versor_zero vec_zero (replicate 36 f0).

Definition adcs_kalman_filter_init (config : option adcs_kalman_config_t) : adcs_kalman_filter_t :=
  match config with
  | None => zero_kalman
  | Some config =>
      zero_kalman <| kf_config := config |>
        <| kf_quaternion ::= fun q => Versor (q0 q) (q1 q) (q2 q) f1 |>
        <| kf_initialized := 1%Z |> <| kf_seeded := 0%Z |>
  end.

Definition adcs_kalman_filter_reset (quaternion : versor) (gyro_bias_rad_s : vec3) (filter : adcs_kalman_filter_t)
    : adcs_result_t * adcs_kalman_filter_t :=
  if (kf_initialized filter =? 0)%Z then (ADCS_RESULT_NOT_INITIALIZED, filter)
  else
    match adcs_quaternion_normalize quaternion versor_zero with
    | (ADCS_RESULT_OK, normalized) =>
        if negb (adcs_values_are_finite (vec_list gyro_bias_rad_s)) then (ADCS_RESULT_INVALID_DATA, filter)
        else
          (ADCS_RESULT_OK,
           filter <| kf_quaternion := normalized |> <| kf_gyro_bias_rad_s := gyro_bias_rad_s |>
                  <| kf_seeded := 1%Z |>)
    | _ => (ADCS_RESULT_INVALID_DATA, filter)
    end.

Definition adcs_kalman_filter_predict `{Libm} (angular_rate_rad_s : vec3) (dt_s : f32)
    (filter : adcs_kalman_filter_t) : adcs_result_t * adcs_kalman_filter_t :=
  if negb (adcs_values_are_finite (vec_list angular_rate_rad_s)) || negb (isfinite dt_s) || (dt_s <=? f0)
  then (ADCS_RESULT_INVALID_ARGUMENT, filter)
  else if (kf_initialized filter =? 0)%Z then (ADCS_RESULT_NOT_INITIALIZED, filter)
  else if (kf_seeded filter =? 0)%Z then (ADCS_RESULT_UNAVAILABLE, filter)
  else
    let rate := vec_zip fsub angular_rate_rad_s (kf_gyro_bias_rad_s filter) in
    let rate_norm := adcs_vector_norm rate in
    if negb (isfinite rate_norm) then (ADCS_RESULT_INVALID_DATA, filter)
    else
      let angle := rate_norm * dt_s in
      let delta :=
        if rate_norm <? lit 1 100000000 then
          let half := fun r => - lit 5 10 * r * dt_s in
          Versor (half (v0 rate)) (half (v1 rate)) (half (v2 rate)) f1
        else
          let scale := - sinf (lit 5 10 * angle) / rate_norm in
          Versor (v0 rate * scale) (v1 rate * scale) (v2 rate * scale) (cosf (lit 5 10 * angle)) in
      let updated := adcs_quaternion_multiply delta (kf_quaternion filter) in
      let '(r, q) := adcs_quaternion_normalize updated (kf_quaternion filter) in
      (r, filter <| kf_quaternion := q |>).

(** Not implemented in the code either. *)
Definition adcs_kalman_filter_correct_vector (measured_body_unit reference_eci_unit : vec3)
    (measurement_variance : f32) (filter : adcs_kalman_filter_t) : adcs_result_t * adcs_kalman_filter_t :=
  (ADCS_RESULT_NOT_INITIALIZED, filter).

Definition adcs_kalman_filter_get_state (timestamp_us : Z) (angular_rate_rad_s : vec3)
    (filter : adcs_kalman_filter_t) : adcs_result_t * adcs_attitude_state_t :=
  if (timestamp_us =? 0)%Z || negb (adcs_values_are_finite (vec_list angular_rate_rad_s))
  then (ADCS_RESULT_INVALID_ARGUMENT, zero_attitude)
  else if (kf_initialized filter =? 0)%Z then (ADCS_RESULT_NOT_INITIALIZED, zero_attitude)
  else if (kf_seeded filter =? 0)%Z then (ADCS_RESULT_UNAVAILABLE, zero_attitude)
  else
    let attitude := zero_attitude <| at_timestamp_us := timestamp_us |> in
    match adcs_quaternion_normalize (kf_quaternion filter) (at_quaternion attitude) with
    | (ADCS_RESULT_OK, q) =>
        (ADCS_RESULT_OK,
         attitude <| at_quaternion := q |> <| at_gyro_bias_rad_s := kf_gyro_bias_rad_s filter |>
           <| at_angular_rate_rad_s := vec_zip fsub angular_rate_rad_s (kf_gyro_bias_rad_s filter) |>
           <| at_confidence := lit 5 10 |> <| at_valid := 1%Z |>)
    | _ => (ADCS_RESULT_INVALID_DATA, attitude)
    end.

(** ** [attitude_estimator.c] *)

Definition SIMPLE_ESTIMATOR_MAX_FIX_AGE_US : Z := 1000000.

#[projections(primitive)]
Record adcs_attitude_estimator_config_t := mk_estimator_config {
  ec_kalman : adcs_kalman_config_t;
  magnetometer_measurement_variance : f32;
  sun_sensor_measurement_variance : f32;
  minimum_magnetic_field_t : f32;
  maximum_magnetic_field_t : f32;
  minimum_sun_irradiance_w_m2 : f32;
  maximum_sample_gap_s : f32;
  maximum_consecutive_rejections : Z
}.

#[projections(primitive)]
Record adcs_attitude_estimator_t := mk_estimator {
  es_config : adcs_attitude_estimator_config_t;
  es_filter : adcs_kalman_filter_t;
  previous_timestamp_us : Z;
  last_absolute_fix_us : Z;
  accepted_corrections : Z;
  consecutive_rejected_updates : Z;
  has_absolute_solution : Z;
  es_initialized : Z
}.

Definition zero_estimator : adcs_attitude_estimator_t :=
  mk_estimator (mk_estimator_config (mk_kalman_config f0 f0 f0 f0 f0 f0) f0 f0 f0 f0 f0 f0 0)
    zero_kalman 0 0 0 0 0 0.

(** A matrix is its three rows. *)
Definition rotation_matrix_to_quaternion (m0 m1 m2 : vec3) : versor :=
  let trace := v0 m0 + v1 m1 + v2 m2 in
  let two := lit 2 1 in
  let quarter := lit 25 100 in
  let q :=
    if trace >? f0 then
      let scale := sqrtf (trace + f1) * two in
      Versor ((v1 m2 - v2 m1) / scale) ((v2 m0 - v0 m2) / scale) ((v0 m1 - v1 m0) / scale) (quarter * scale)
    else if (v0 m0 >? v1 m1) && (v0 m0 >? v2 m2) then
      let scale := sqrtf (f1 + v0 m0 - v1 m1 - v2 m2) * two in
      Versor (quarter * scale) ((v1 m0 + v0 m1) / scale) ((v2 m0 + v0 m2) / scale) ((v1 m2 - v2 m1) / scale)
    else if v1 m1 >? v2 m2 then
      let scale := sqrtf (f1 + v1 m1 - v0 m0 - v2 m2) * two in
      Versor ((v1 m0 + v0 m1) / scale) (quarter * scale) ((v2 m1 + v1 m2) / scale) ((v2 m0 - v0 m2) / scale)
    else
      let scale := sqrtf (f1 + v2 m2 - v0 m0 - v1 m1) * two in
      Versor ((v2 m0 + v0 m2) / scale) ((v2 m1 + v1 m2) / scale) (quarter * scale) ((v0 m1 - v1 m0) / scale) in
  snd (adcs_quaternion_normalize q q).

(** The loop over the diagonal of the covariance. *)
Definition diagonal_is_corrupt (covariance : list f32) : bool :=
  existsb (fun index =>
    let diagonal := nth (Z.to_nat (index * ADCS_ERROR_STATE_LENGTH + index)) covariance f0 in
    negb (isfinite diagonal) || (diagonal <? f0) || (diagonal >? lit 1000000 1)) [0; 1; 2; 3; 4; 5]%Z.

Definition filter_state_is_corrupt (filter : adcs_kalman_filter_t) : bool :=
  if (kf_initialized filter =? 0)%Z || negb (adcs_values_are_finite (versor_list (kf_quaternion filter)))
     || negb (adcs_values_are_finite (vec_list (kf_gyro_bias_rad_s filter)))
  then true
  else
    let norm_squared := sum_of_squares (versor_list (kf_quaternion filter)) in
    negb (isfinite norm_squared) || (norm_squared <? lit 25 100) || (norm_squared >? lit 225 100)
    || diagonal_is_corrupt (kf_covariance filter).

(** Three orthogonal unit vectors from two directions. *)
Definition triad_basis (first second : vec3) : option (vec3 * vec3 * vec3) :=
  match adcs_vector_normalize first with
  | (ADCS_RESULT_OK, b0) =>
      match adcs_vector_normalize (adcs_vector_cross b0 second) with
      | (ADCS_RESULT_OK, b1) => Some (b0, b1, adcs_vector_cross b0 b1)
      | _ => None
      end
  | _ => None
  end.

Definition triad_attitude (first_body second_body first_eci second_eci : vec3) : option versor :=
  match triad_basis first_body second_body, triad_basis first_eci second_eci with
  | Some (b0, b1, b2), Some (e0, e1, e2) =>
      let entry f g := f0 + f b0 * g e0 + f b1 * g e1 + f b2 * g e2 in
      let row f := Vec (entry f v0) (entry f v1) (entry f v2) in
      Some (rotation_matrix_to_quaternion (row v0) (row v1) (row v2))
  | _, _ => None
  end.

Definition estimator_config_is_valid (c : adcs_attitude_estimator_config_t) : bool :=
  isfinite (magnetometer_measurement_variance c) && isfinite (sun_sensor_measurement_variance c)
  && isfinite (minimum_magnetic_field_t c) && isfinite (maximum_magnetic_field_t c)
  && isfinite (minimum_sun_irradiance_w_m2 c) && isfinite (maximum_sample_gap_s c)
  && negb (magnetometer_measurement_variance c <=? f0) && negb (sun_sensor_measurement_variance c <=? f0)
  && negb (minimum_magnetic_field_t c <=? f0)
  && negb (maximum_magnetic_field_t c <=? minimum_magnetic_field_t c)
  && negb (maximum_sample_gap_s c <=? f0) && truthy (maximum_consecutive_rejections c).

Definition adcs_attitude_estimator_init (config : option adcs_attitude_estimator_config_t)
    : adcs_attitude_estimator_t :=
  match config with
  | Some config =>
      if estimator_config_is_valid config then
        let filter := adcs_kalman_filter_init (Some (ec_kalman config)) in
        zero_estimator <| es_config := config |> <| es_filter := filter |>
                       <| es_initialized := kf_initialized filter |>
      else zero_estimator
  | None => zero_estimator
  end.

Definition adcs_attitude_estimator_reset (quaternion : versor) (e : adcs_attitude_estimator_t)
    : adcs_result_t * adcs_attitude_estimator_t :=
  if (es_initialized e =? 0)%Z then (ADCS_RESULT_NOT_INITIALIZED, e)
  else
    let '(r, filter) := adcs_kalman_filter_reset quaternion vec_zero (es_filter e) in
    let e := e <| es_filter := filter |> in
    (r, if bool_decide (r = ADCS_RESULT_OK)
        then e <| previous_timestamp_us := 0%Z |> <| last_absolute_fix_us := 0%Z |>
               <| accepted_corrections := 0%Z |> <| consecutive_rejected_updates := 0%Z |>
               <| has_absolute_solution := 0%Z |>
        else e).

Definition magnetic_available (sensors : adcs_sensor_packet_t) (references : adcs_reference_vectors_t)
    (e : adcs_attitude_estimator_t) : bool :=
  let magnetic_norm := adcs_vector_norm (sp_magnetic_field_t sensors) in
  truthy (Z.land (sp_valid_mask sensors) ADCS_SENSOR_VALID_MAGNETOMETER)
  && truthy (Z.land (rv_valid_mask references) ADCS_REFERENCE_VALID_MAGNETIC_FIELD)
  && isfinite magnetic_norm && (magnetic_norm >=? minimum_magnetic_field_t (es_config e))
  && (magnetic_norm <=? maximum_magnetic_field_t (es_config e)).

Definition sun_available (sensors : adcs_sensor_packet_t) (references : adcs_reference_vectors_t)
    (e : adcs_attitude_estimator_t) : bool :=
  truthy (Z.land (sp_valid_mask sensors) ADCS_SENSOR_VALID_SUN)
  && truthy (Z.land (rv_valid_mask references) ADCS_REFERENCE_VALID_SUN)
  && (sp_sun_irradiance_w_m2 sensors >=? minimum_sun_irradiance_w_m2 (es_config e)).

Definition corrupt_or (filter : adcs_kalman_filter_t) (r : adcs_result_t) : adcs_result_t :=
  if filter_state_is_corrupt filter then ADCS_RESULT_OUT_OF_RANGE else r.

Definition UINT32_MAX : Z := 4294967295.

(** [stm32] is the build of the board, without it the simulator build ([ADCS_STM32]). *)
Section Estimator.
Context (stm32 : bool) `{Libm}.

(** Propagation since the previous sample: an early result, or go on. *)
Definition propagate (sensors : adcs_sensor_packet_t) (e : adcs_attitude_estimator_t)
    : option adcs_result_t * adcs_attitude_estimator_t :=
  if (previous_timestamp_us e =? 0)%Z then (None, e)
  else
    let dt_s := of_int (u64 (sp_timestamp_us sensors - previous_timestamp_us e)) / lit 1000000 1 in
    let gap := maximum_sample_gap_s (es_config e) in
    let '(dt_s, e) :=
      if dt_s >? gap then
        if stm32 then (gap, e)
        else (dt_s, e <| es_filter ::= fun f => f <| kf_seeded := 0%Z |> |> <| last_absolute_fix_us := 0%Z |>)
      else (dt_s, e) in
    if (kf_seeded (es_filter e) =? 0)%Z then (None, e)
    else
      let '(r, filter) := adcs_kalman_filter_predict (sp_angular_rate_rad_s sensors) dt_s (es_filter e) in
      let e := e <| es_filter := filter |> in
      if bool_decide (r = ADCS_RESULT_OK) then (None, e)
      else (Some (corrupt_or filter r), e <| previous_timestamp_us := sp_timestamp_us sensors |>).

(** An absolute solution from Sun and magnetic field, and whether there was one. *)
Definition triad_fix (sensors : adcs_sensor_packet_t) (references : adcs_reference_vectors_t)
    (magnetic sun : bool) (e : adcs_attitude_estimator_t) : bool * adcs_attitude_estimator_t :=
  if magnetic && sun then
    match triad_attitude (sp_sun_vector_body sensors) (sp_magnetic_field_t sensors)
            (rv_sun_eci_unit references) (rv_magnetic_field_eci_t references) with
    | Some q =>
        let '(r, filter) := adcs_kalman_filter_reset q vec_zero (es_filter e) in
        let e := e <| es_filter := filter |> in
        if bool_decide (r = ADCS_RESULT_OK)
        then (true, e <| has_absolute_solution := 1%Z |> <| last_absolute_fix_us := sp_timestamp_us sensors |>
                      <| accepted_corrections ::= fun n => u32 (n + 1) |>)
        else (false, e)
    | None => (false, e)
    end
  else (false, e).

(** From the filter's state to the published attitude. *)
Definition publish (sensors : adcs_sensor_packet_t) (e : adcs_attitude_estimator_t)
    : adcs_result_t * adcs_attitude_state_t :=
  let timestamp_us := sp_timestamp_us sensors in
  match adcs_kalman_filter_get_state timestamp_us (sp_angular_rate_rad_s sensors) (es_filter e) with
  | (ADCS_RESULT_OK, attitude) =>
      if stm32 then (ADCS_RESULT_OK, attitude <| at_valid := 1%Z |> <| at_confidence := lit 5 10 |>)
      else if (last_absolute_fix_us e =? 0)%Z
              || (SIMPLE_ESTIMATOR_MAX_FIX_AGE_US <? u64 (timestamp_us - last_absolute_fix_us e))%Z
              || (maximum_consecutive_rejections (es_config e) <? consecutive_rejected_updates e)%Z
      then (ADCS_RESULT_INVALID_DATA, attitude <| at_valid := 0%Z |> <| at_confidence := f0 |>)
      else (ADCS_RESULT_OK, attitude)
  | (ADCS_RESULT_UNAVAILABLE, attitude) =>
      (ADCS_RESULT_INVALID_DATA,
       attitude <| at_timestamp_us := timestamp_us |>
                <| at_quaternion ::= fun q => Versor (q0 q) (q1 q) (q2 q) f1 |> <| at_valid := 0%Z |>)
  | (r, attitude) => (corrupt_or (es_filter e) r, attitude)
  end.

(** The result, the attitude, and whether this update found an absolute solution. *)
Definition estimator_update (sensors : adcs_sensor_packet_t) (references : adcs_reference_vectors_t)
    (e : adcs_attitude_estimator_t)
    : adcs_result_t * adcs_attitude_state_t * bool * adcs_attitude_estimator_t :=
  if (es_initialized e =? 0)%Z || (sp_timestamp_us sensors =? 0)%Z
     || negb (truthy (Z.land (sp_valid_mask sensors) ADCS_SENSOR_VALID_GYROSCOPE))
     || negb (adcs_values_are_finite (vec_list (sp_angular_rate_rad_s sensors)))
  then (ADCS_RESULT_INVALID_ARGUMENT, zero_attitude, false, e)
  else if negb (previous_timestamp_us e =? 0)%Z && (sp_timestamp_us sensors <=? previous_timestamp_us e)%Z
  then (ADCS_RESULT_INVALID_DATA, zero_attitude, false, e)
  else
    let magnetic := magnetic_available sensors references e in
    let sun := sun_available sensors references e in
    match propagate sensors e with
    | (Some r, e) => (r, zero_attitude, false, e)
    | (None, e) =>
        let e := e <| previous_timestamp_us := sp_timestamp_us sensors |> in
        let '(got_triad_fix, e) := triad_fix sensors references magnetic sun e in
        let e :=
          if got_triad_fix then e <| consecutive_rejected_updates := 0%Z |>
          else if (consecutive_rejected_updates e <? UINT32_MAX)%Z
          then e <| consecutive_rejected_updates ::= fun n => (n + 1)%Z |> else e in
        let '(r, attitude) := publish sensors e in
        (r, attitude, got_triad_fix, e)
    end.

Definition adcs_attitude_estimator_update (sensors : adcs_sensor_packet_t) (references : adcs_reference_vectors_t)
    (e : adcs_attitude_estimator_t) : adcs_result_t * adcs_attitude_state_t * adcs_attitude_estimator_t :=
  let '(r, attitude, _, e) := estimator_update sensors references e in (r, attitude, e).
End Estimator.

(** ** [double] *)

Abbreviation f64 := spec_float.

Definition dadd : f64 -> f64 -> f64 := SFadd 53 1024.
Definition dsub : f64 -> f64 -> f64 := SFsub 53 1024.
Definition dmul : f64 -> f64 -> f64 := SFmul 53 1024.
Definition ddiv : f64 -> f64 -> f64 := SFdiv 53 1024.

(** [(double)z] of an integer, the literal [n / d], and the conversions between the types. *)
Definition double_of_int (z : Z) : f64 := binary_normalize 53 1024 z 0 false.
Definition dlit (n d : positive) : f64 := SFdiv 53 1024 (S754_finite false n 0) (S754_finite false d 0).

Definition convert (prec emax : Z) (x : spec_float) : spec_float :=
  match x with
  | S754_finite s m e => binary_normalize prec emax (if s then Zneg m else Zpos m) e s
  | _ => x
  end.
Definition to_double : f32 -> f64 := convert 53 1024.
Definition to_float : f64 -> f32 := convert 24 128.

(** [fmod]: exact, with the sign of the dividend. *)
Definition fmod (x y : f64) : f64 :=
  match x, y with
  | S754_nan, _ | _, S754_nan | S754_infinity _, _ | _, S754_zero _ => S754_nan
  | _, S754_infinity _ | S754_zero _, _ => x
  | S754_finite sx mx ex, S754_finite _ my ey =>
      let e := Z.min ex ey in
      let r := (Z.shiftl (Zpos mx) (ex - e) mod Z.shiftl (Zpos my) (ey - e))%Z in
      binary_normalize 53 1024 (if sx then (- r)%Z else r) e sx
  end.

Class Libm64 := { sin : f64 -> f64; cos : f64 -> f64 }.

Declare Scope f64_scope.
Delimit Scope f64_scope with f64.
Infix "+" := dadd : f64_scope.
Infix "-" := dsub : f64_scope.
Infix "*" := dmul : f64_scope.
Infix "/" := ddiv : f64_scope.

(** ** [reference_vectors.c] *)

Definition ADCS_PI_F : f32 := lit 314159265358979323846 100000000000000000000.
Definition ADCS_DEG_TO_RAD : f32 := ADCS_PI_F / lit 180 1.
Definition ADCS_EARTH_RADIUS_M : f32 := lit 6371000 1.
Definition ADCS_EARTH_DIPOLE_FIELD_FACTOR : f32 := lit 7940000000000000 1.
Definition ADCS_SIDEREAL_DAY_S : f64 := dlit 861640905 10000.
Definition ADCS_REFERENCE_MIN_MODEL_ALTITUDE_M : f32 := lit 100000 1.
Definition ADCS_REFERENCE_MAX_MODEL_ALTITUDE_M : f32 := lit 2000000 1.
Definition ADCS_CUBE (value : f32) : f32 := value * value * value.
Definition ADCS_REFERENCE_MIN_FIELD_T : f32 :=
  lit 25 100 * ADCS_EARTH_DIPOLE_FIELD_FACTOR / ADCS_CUBE (ADCS_EARTH_RADIUS_M + ADCS_REFERENCE_MAX_MODEL_ALTITUDE_M).
Definition ADCS_REFERENCE_MAX_FIELD_T : f32 :=
  lit 4 1 * ADCS_EARTH_DIPOLE_FIELD_FACTOR / ADCS_CUBE (ADCS_EARTH_RADIUS_M + ADCS_REFERENCE_MIN_MODEL_ALTITUDE_M).

Section References.
Context `{Libm} `{Libm64}.

(** The argument is the array's contents, which a failure may leave. *)
Definition adcs_reference_sun_vector (unix_time_us : Z) (sun_eci_unit : vec3) : adcs_result_t * vec3 :=
  if (unix_time_us =? 0)%Z then (ADCS_RESULT_UNAVAILABLE, sun_eci_unit)
  else
    let deg_to_rad := to_double ADCS_DEG_TO_RAD in
    let full_turn := dlit 360 1 in
    let julian_day := (double_of_int unix_time_us / dlit 86400000000 1 + dlit 24405875 10)%f64 in
    let days_since_j2000 := (julian_day - dlit 2451545 1)%f64 in
    let mean_longitude_deg := fmod (dlit 280460 1000 + dlit 9856474 10000000 * days_since_j2000)%f64 full_turn in
    let mean_anomaly_rad :=
      (fmod (dlit 357528 1000 + dlit 9856003 10000000 * days_since_j2000) full_turn * deg_to_rad)%f64 in
    let ecliptic_longitude_rad :=
      ((mean_longitude_deg + dlit 1915 1000 * sin mean_anomaly_rad
        + dlit 20 1000 * sin (dlit 2 1 * mean_anomaly_rad)) * deg_to_rad)%f64 in
    let obliquity_rad := ((dlit 23439 1000 - dlit 4 10000000 * days_since_j2000) * deg_to_rad)%f64 in
    adcs_vector_normalize
      (Vec (to_float (cos ecliptic_longitude_rad))
           (to_float (cos obliquity_rad * sin ecliptic_longitude_rad)%f64)
           (to_float (sin obliquity_rad * sin ecliptic_longitude_rad)%f64)).

Definition adcs_reference_magnetic_field (unix_time_us : Z) (position_eci_m magnetic_field_eci_t : vec3)
    : adcs_result_t * vec3 :=
  if (unix_time_us =? 0)%Z then (ADCS_RESULT_UNAVAILABLE, magnetic_field_eci_t)
  else if negb (adcs_values_are_finite (vec_list position_eci_m))
  then (ADCS_RESULT_INVALID_DATA, magnetic_field_eci_t)
  else
    let radius := adcs_vector_norm position_eci_m in
    match adcs_vector_normalize position_eci_m with
    | (ADCS_RESULT_OK, radial_unit) =>
        if negb (isfinite radius) || (radius <=? ADCS_EARTH_RADIUS_M) then (ADCS_RESULT_OUT_OF_RANGE, vec_zero)
        else
          let earth_angle :=
            (fmod (double_of_int unix_time_us / dlit 1000000 1) ADCS_SIDEREAL_DAY_S
             * (dlit 2 1 * to_double ADCS_PI_F / ADCS_SIDEREAL_DAY_S))%f64 in
          let tilt := lit 11 1 * ADCS_DEG_TO_RAD in
          let dipole_axis :=
            Vec (sinf tilt * to_float (cos earth_angle)) (sinf tilt * to_float (sin earth_angle)) (cosf tilt) in
          let projection := dot_product dipole_axis radial_unit in
          let scale := ADCS_EARTH_DIPOLE_FIELD_FACTOR / (radius * radius * radius) in
          let field :=
            vec_zip (fun radial dipole => scale * (lit 3 1 * projection * radial - dipole)) radial_unit dipole_axis in
          let field_norm := adcs_vector_norm field in
          if negb (isfinite field_norm) || (field_norm <? ADCS_REFERENCE_MIN_FIELD_T)
             || (field_norm >? ADCS_REFERENCE_MAX_FIELD_T)
          then (ADCS_RESULT_OUT_OF_RANGE, vec_zero)
          else (ADCS_RESULT_OK, field)
    | _ => (ADCS_RESULT_OUT_OF_RANGE, vec_zero)
    end.

Definition adcs_reference_nadir_vector (position_eci_m : vec3) : adcs_result_t * vec3 :=
  adcs_vector_normalize (vec_map fneg position_eci_m).

Definition add_reference (bit : Z) (r : adcs_result_t) (references : adcs_reference_vectors_t)
    : adcs_reference_vectors_t :=
  if bool_decide (r = ADCS_RESULT_OK) then references <| rv_valid_mask ::= fun m => Z.lor m bit |> else references.

Definition adcs_reference_vectors_compute (unix_time_us : Z) (orbit : adcs_orbit_state_t)
    : adcs_result_t * adcs_reference_vectors_t :=
  let references := zero_references <| rv_unix_time_us := unix_time_us |> in
  if (unix_time_us =? 0)%Z then (ADCS_RESULT_UNAVAILABLE, references)
  else
    let '(r, sun) := adcs_reference_sun_vector unix_time_us (rv_sun_eci_unit references) in
    let references := add_reference ADCS_REFERENCE_VALID_SUN r (references <| rv_sun_eci_unit := sun |>) in
    let references :=
      if truthy (or_valid orbit) then
        let '(r, field) :=
          adcs_reference_magnetic_field unix_time_us (or_position_eci_m orbit) (rv_magnetic_field_eci_t references) in
        let references :=
          add_reference ADCS_REFERENCE_VALID_MAGNETIC_FIELD r (references <| rv_magnetic_field_eci_t := field |>) in
        let '(r, nadir) := adcs_reference_nadir_vector (or_position_eci_m orbit) in
        add_reference ADCS_REFERENCE_VALID_NADIR r (references <| rv_nadir_eci_unit := nadir |>)
      else references in
    (if (rv_valid_mask references =? 0)%Z then ADCS_RESULT_UNAVAILABLE else ADCS_RESULT_OK, references).
End References.

(** ** [estimation_task.c] *)

Definition estimator_config : adcs_attitude_estimator_config_t :=
  mk_estimator_config
    (mk_kalman_config (lit 5 10000) (lit 1 100000) (lit 5 100) (lit 1 10000) (lit 1 100000000) (lit 12 10))
    (lit 1 10000) (lit 25 1000000) (lit 1 1000000) (lit 1 1000) (lit 100 1) (lit 25 100) 100.

Definition identity : versor := Versor f0 f0 f0 f1.

Section Task.
Context (stm32 : bool) {E : Type} `{AdcsEnvironment E} `{Libm} `{Libm64}.
Implicit Types b : adcs_board E.

Definition estimation_task_init : adcs_attitude_estimator_t :=
  let e := adcs_attitude_estimator_init (Some estimator_config) in
  if stm32 then snd (adcs_attitude_estimator_reset identity e) else e.

(** What the references are computed from: the answer of [adcs_get_orbit], [None] when it
    fails. *)
Definition estimation_references (orbit : option adcs_orbit_state_t) b
    : adcs_orbit_state_t * adcs_reference_vectors_t * adcs_board E :=
  match orbit with
  | None => (zero_orbit, zero_references, b)
  | Some orbit =>
      let '(now, env) := adcs_unix_time_us (b_env b) in
      let b := b <| b_env := env |> in
      match adcs_reference_vectors_compute now orbit with
      | (ADCS_RESULT_OK, references) => (orbit, references, b)
      | _ => (zero_orbit, zero_references, b)
      end
  end.

(** A reset the ground asked for, from the last valid attitude. *)
Definition estimation_reset (e : adcs_attitude_estimator_t) b : adcs_attitude_estimator_t * adcs_board E :=
  if truthy (b_reset_requested b) then
    let b := b <| b_reset_requested := 0%Z |> in
    let latest := latest_attitude (b_manager b) in
    let seed := if truthy (at_valid latest) then at_quaternion latest else identity in
    (snd (adcs_attitude_estimator_reset seed e), manage adcs_manager_note_estimator_reset b)
  else (e, b).

(** The attitude goes to the manager; out of bounds it resets the board, whose answers for
    the notice are [connected] and [buffered]. *)
Definition estimation_publish (r : adcs_result_t) (attitude : adcs_attitude_state_t) (connected buffered : bool) b
    : adcs_board E :=
  if bool_decide (r = ADCS_RESULT_OUT_OF_RANGE) || truthy (fault_management_check_estimator_bounds (Some attitude))
  then b <| b_faults ::= fault_management_trigger_reset RESET_REASON_OUT_OF_BOUNDS connected buffered |>
  else if bool_decide (r = ADCS_RESULT_OK) then manage (adcs_manager_set_attitude (Some attitude)) b
  else if negb (at_timestamp_us attitude =? 0)%Z
  then manage (adcs_manager_set_attitude (Some (attitude <| at_valid := 0%Z |>))) b
  else b.

(** One turn of the task; [sensors] is [None] when nothing was received.  The boolean tells
    whether the update found an absolute solution. *)
Definition estimation_round (sensors : option adcs_sensor_packet_t) (orbit : option adcs_orbit_state_t)
    (connected buffered : bool) (e : adcs_attitude_estimator_t) b
    : bool * adcs_attitude_estimator_t * adcs_board E :=
  match sensors with
  | None => (false, e, manage adcs_manager_note_dropped_message b)
  | Some sensors =>
      let '(orbit, references, b) := estimation_references orbit b in
      let b := manage (adcs_manager_set_references (Some orbit) (Some references)) b in
      let '(e, b) := estimation_reset e b in
      let '(r, attitude, fix_found, e) := estimator_update stm32 sensors references e in
      (fix_found, e, estimation_publish r attitude connected buffered b)
  end.
End Task.

(** ** On what an attitude is based *)

(** A packet with the measurements an absolute solution needs. *)
Definition absolute_packet (p : adcs_sensor_packet_t) : Prop :=
  truthy (Z.land (sp_valid_mask p) ADCS_SENSOR_VALID_MAGNETOMETER) = true
  /\ truthy (Z.land (sp_valid_mask p) ADCS_SENSOR_VALID_SUN) = true.

(** Among the packets that gave an absolute solution is one that is recent at time [t]. *)
Definition recent_fix (fixes : list adcs_sensor_packet_t) (t : Z) : Prop :=
  exists p, p ∈ fixes /\ absolute_packet p /\ sp_timestamp_us p <= t
            /\ t - sp_timestamp_us p <= SIMPLE_ESTIMATOR_MAX_FIX_AGE_US.

Definition timestamp_ok (t : Z) : Prop := 0 <= t < 18446744073709551616.

Definition estimator_inv (e : adcs_attitude_estimator_t) (fixes : list adcs_sensor_packet_t) : Prop :=
  0 <= last_absolute_fix_us e <= previous_timestamp_us e
  /\ (last_absolute_fix_us e <> 0 ->
      exists p, p ∈ fixes /\ absolute_packet p /\ sp_timestamp_us p = last_absolute_fix_us e).

Definition add_fix (found : bool) (p : adcs_sensor_packet_t) (fixes : list adcs_sensor_packet_t)
    : list adcs_sensor_packet_t := if found then p :: fixes else fixes.

Lemma recent_more fixes fixes' t : fixes ⊆ fixes' -> recent_fix fixes t -> recent_fix fixes' t.
Proof. intros Hs (p & Hp & Hr). exists p. split; [by apply Hs|done]. Qed.

Lemma add_fix_more found p fixes : fixes ⊆ add_fix found p fixes.
Proof. destruct found; cbn [add_fix]; [by apply list_subseteq_cons|done]. Qed.

(** The published covariance is zero whatever the filter holds. *)
Lemma published_covariance_is_zero t rate filter :
  at_covariance_diagonal (snd (adcs_kalman_filter_get_state t rate filter)) = replicate 6 f0.
Proof.
  unfold adcs_kalman_filter_get_state. case_if as E1; [done|]. case_if as E2; [done|].
  case_if as E3; [done|]. by destruct (adcs_quaternion_normalize _ _) as [[] q].
Qed.

Section Estimator_theorems.
Context `{Libm}.

(** No operation of the filter changes its covariance, which starts as zero. *)
Lemma filter_covariance_constant q bias rate dt filter :
  kf_covariance (snd (adcs_kalman_filter_reset q bias filter)) = kf_covariance filter
  /\ kf_covariance (snd (adcs_kalman_filter_predict rate dt filter)) = kf_covariance filter.
Proof.
  split.
  - unfold adcs_kalman_filter_reset. case_if as E1; [done|].
    destruct (adcs_quaternion_normalize _ _) as [[] n]; try done. by case_if as E2.
  - unfold adcs_kalman_filter_predict. case_if as E1; [done|]. case_if as E2; [done|].
    case_if as E3; [done|]. cbv zeta. case_if as E4; [done|].
    by destruct (adcs_quaternion_normalize _ _) as [r q'].
Qed.

Lemma reset_estimator q e fixes :
  estimator_inv e fixes -> estimator_inv (snd (adcs_attitude_estimator_reset q e)) fixes.
Proof.
  intros Hinv. unfold adcs_attitude_estimator_reset. case_if as E1; [exact Hinv|].
  destruct (adcs_kalman_filter_reset _ _ _) as [r filter]. cbn [snd]. case_bool_decide; [|exact Hinv].
  split; [change (0 <= 0 <= 0); lia|]. intros Hn. exfalso. by apply Hn.
Qed.

(** Propagation changes no time stamp, apart from forgetting the fix after a gap. *)
Lemma propagate_keeps sensors e r e' fixes :
  estimator_inv e fixes -> propagate false sensors e = (r, e') ->
  0 <= last_absolute_fix_us e' <= previous_timestamp_us e
  /\ (last_absolute_fix_us e' <> 0 ->
      exists p, p ∈ fixes /\ absolute_packet p /\ sp_timestamp_us p = last_absolute_fix_us e')
  /\ match r with
     | None => previous_timestamp_us e' = previous_timestamp_us e
     | Some _ => previous_timestamp_us e' = sp_timestamp_us sensors
     end.
Proof.
  intros [Hl Hf]. unfold propagate. case_if as E1; [intros [= <- <-]; done|].
  cbv zeta.
  set (ee := if flt _ _ then _ else _).
  assert (0 <= last_absolute_fix_us (snd ee) <= previous_timestamp_us e
    /\ (last_absolute_fix_us (snd ee) <> 0 ->
        exists p, p ∈ fixes /\ absolute_packet p /\ sp_timestamp_us p = last_absolute_fix_us (snd ee))
    /\ previous_timestamp_us (snd ee) = previous_timestamp_us e) as (Hl1 & Hf1 & Hp1).
  { subst ee. case_if as E2; [|done]. split; [change (0 <= 0 <= previous_timestamp_us e); lia|].
    split; [|done]. intros Hn. exfalso. by apply Hn. }
  clearbody ee. destruct ee as [dt e1]. cbn [snd] in *.
  case_if as E2; [intros [= <- <-]; done|].
  destruct (adcs_kalman_filter_predict _ _ _) as [r1 filter].
  case_bool_decide; intros [= <- <-]; done.
Qed.

Lemma propagate_error stm32 sensors e r e' : propagate stm32 sensors e = (Some r, e') -> r <> ADCS_RESULT_OK.
Proof.
  unfold propagate. case_if as E1; [done|]. cbv zeta. destruct (if flt _ _ then _ else _) as [dt e1].
  case_if as E2; [done|]. destruct (adcs_kalman_filter_predict _ _ _) as [r1 filter].
  case_bool_decide as Hr; [done|]. intros [= <- _]. unfold corrupt_or. by case_if as E3.
Qed.

Lemma triad_fix_spec sensors references magnetic sun e e' found :
  triad_fix sensors references magnetic sun e = (found, e') ->
  previous_timestamp_us e' = previous_timestamp_us e
  /\ if found then magnetic = true /\ sun = true /\ last_absolute_fix_us e' = sp_timestamp_us sensors
     else last_absolute_fix_us e' = last_absolute_fix_us e.
Proof.
  unfold triad_fix. destruct (magnetic && sun) eqn:E1; [|by intros [= <- <-]].
  apply andb_true_iff in E1 as [-> ->]. destruct (triad_attitude _ _ _ _) as [q|]; [|by intros [= <- <-]].
  destruct (adcs_kalman_filter_reset _ _ _) as [r filter]. case_bool_decide; by intros [= <- <-].
Qed.

Lemma publish_ok sensors e attitude :
  publish false sensors e = (ADCS_RESULT_OK, attitude) ->
  at_timestamp_us attitude = sp_timestamp_us sensors /\ last_absolute_fix_us e <> 0
  /\ u64 (sp_timestamp_us sensors - last_absolute_fix_us e) <= SIMPLE_ESTIMATOR_MAX_FIX_AGE_US.
Proof.
  unfold publish, adcs_kalman_filter_get_state.
  case_if as E1; [unfold corrupt_or; by case_if as E2|]. case_if as E2; [unfold corrupt_or; by case_if as E3|].
  case_if as E3; [done|]. destruct (adcs_quaternion_normalize _ _) as [[] q];
    try (unfold corrupt_or; by case_if as E4).
  case_if as E4; [done|]. bool_facts. intros [= <-]. done.
Qed.

(** The estimator of the simulator build: what it publishes as valid rests on a recent
    absolute solution. *)
Lemma update_estimator sensors references e fixes r attitude found e' :
  estimator_inv e fixes -> timestamp_ok (sp_timestamp_us sensors) ->
  estimator_update false sensors references e = (r, attitude, found, e') ->
  let fixes' := add_fix found sensors fixes in
  estimator_inv e' fixes'
  /\ (r = ADCS_RESULT_OK ->
      at_timestamp_us attitude = sp_timestamp_us sensors /\ recent_fix fixes' (at_timestamp_us attitude)).
Proof.
  intros Hinv Hts. pose proof Hinv as [Hl Hf]. unfold timestamp_ok in Hts. unfold estimator_update.
  case_if as E1; [by intros [= <- <- <- <-]|]. case_if as E2; [by intros [= <- <- <- <-]|]. bool_facts. cbv zeta.
  destruct (propagate false sensors e) as [early e1] eqn:Hp.
  destruct (propagate_keeps _ _ _ _ _ Hinv Hp) as (Hl1 & Hf1 & Hp1).
  assert (previous_timestamp_us e <= sp_timestamp_us sensors) as Hmono.
  { destruct (decide (previous_timestamp_us e = 0)); [lia|]. destruct E2 as [E2|E2]; bool_facts; lia. }
  destruct early as [early|].
  { intros [= <- <- <- <-]. split; [split; [rewrite Hp1; lia|exact Hf1]|].
    intros ->. by destruct (propagate_error _ _ _ _ _ Hp). }
  set (e2 := e1 <| previous_timestamp_us := _ |>).
  destruct (triad_fix sensors references _ _ e2) as [found1 e3] eqn:Ht.
  destruct (triad_fix_spec _ _ _ _ _ _ _ Ht) as [Hp3 Hl3].
  change (previous_timestamp_us e2) with (sp_timestamp_us sensors) in Hp3.
  change (last_absolute_fix_us e2) with (last_absolute_fix_us e1) in Hl3.
  assert (estimator_inv e3 (add_fix found1 sensors fixes)) as Hinv3.
  { destruct found1; cbn [add_fix].
    - destruct Hl3 as (Hm & Hs & Hl3). split; [rewrite Hp3, Hl3; lia|]. intros _. exists sensors.
      split; [by left|]. split; [|done]. unfold magnetic_available, sun_available in Hm, Hs.
      bool_facts. by split.
    - split; [rewrite Hp3, Hl3; lia|]. rewrite Hl3. exact Hf1. }
  set (e4 := if found1 then _ else _).
  assert (last_absolute_fix_us e4 = last_absolute_fix_us e3 /\ previous_timestamp_us e4 = previous_timestamp_us e3)
    as [Hl4 Hp4] by (subst e4; by repeat case_match).
  assert (estimator_inv e4 (add_fix found1 sensors fixes)) as Hinv4.
  { destruct Hinv3 as [Ha Hb]. split; [by rewrite Hl4, Hp4|by rewrite Hl4]. }
  clearbody e4. destruct (publish false sensors e4) as [r4 attitude4] eqn:Hpub.
  intros [= <- <- <- <-]. split; [exact Hinv4|]. intros ->.
  destruct (publish_ok _ _ _ Hpub) as (Hat & Hn & Hage). destruct Hinv4 as [Ha Hb].
  destruct (Hb Hn) as (p & Hin & Hp' & Htp). rewrite Hp4, Hp3 in Ha.
  split; [exact Hat|]. exists p. split; [exact Hin|]. split; [exact Hp'|]. rewrite Hat, Htp.
  unfold u64 in Hage. rewrite Z.mod_small in Hage by lia. lia.
Qed.
End Estimator_theorems.

(** ** The estimator and the board *)

(** What only the estimation task changes. *)
Definition held_attitude {E} (b : adcs_board E) : adcs_attitude_state_t * Z * adcs_manager_config_t :=
  (latest_attitude (b_manager b), AdcsManager.initialized (b_manager b), b_config b).

Section Board.
Context {E : Type} `{AdcsEnvironment E} `{Magnetorquer E} `{Libm} `{Libm64}.
Implicit Types b : adcs_board E.

Lemma update_keeps stm32 cfg active now st :
  latest_attitude (adcs_manager_update stm32 cfg active now st) = latest_attitude st
  /\ AdcsManager.initialized (adcs_manager_update stm32 cfg active now st) = AdcsManager.initialized st.
Proof.
  destruct (decide (AdcsManager.initialized st = 0)) as [Hi|Hi].
  { unfold adcs_manager_update. by rewrite Hi. }
  pose proof (update_inputs stm32 cfg active now st Hi) as Hin.
  unfold inputs in Hin. injection Hin as _ _ Ha _ _ Hn _. by split.
Qed.

Lemma control_update_held stm32 now b : held_attitude (control_update stm32 now b) = held_attitude b.
Proof.
  unfold held_attitude, control_update, manage.
  change (b_manager (b <| b_manager ::= ?f |>)) with (f (b_manager b)). cbv beta.
  destruct (update_keeps stm32 (b_config b) (fault_management_get_active (b_faults b)) now (b_manager b)) as [-> ->].
  done.
Qed.

Lemma command_held stm32 ev b : held_attitude (command_step stm32 ev b) = held_attitude b.
Proof.
  destruct ev as [dport data padding buffered connected notice|]; cbn [command_step].
  - unfold handle_packet. destruct (_ && _); [|done]. rewrite decode_command_spec.
    unfold enqueue_command, command_task_send, send_ack.
    repeat case_match; simplify_eq; reflexivity.
  - unfold command_task_round. destruct (b_queue b) as [[|c q]|]; [done| |done].
    unfold execute_command, slew_to, dispatch_legacy_position, control_task_set_manual_magnetorquer,
      adcs_manager_request_mode, adcs_manager_set_guidance_target.
    repeat case_match; reflexivity.
Qed.

Lemma set_control_held o b : held_attitude (manage (adcs_manager_set_control_output o) b) = held_attitude b.
Proof.
  unfold held_attitude, manage, adcs_manager_set_control_output.
  change (b_manager (b <| b_manager ::= ?f |>)) with (f (b_manager b)). cbv beta.
  destruct o as [c|]; [|done]. by destruct (co_timestamp_us _ <=? _)%Z.
Qed.

Lemma drive_held command output b : held_attitude (drive command output b) = held_attitude b.
Proof.
  unfold drive. destruct (magnetorquer_set command (b_env b)) as [[|] e]; by rewrite set_control_held.
Qed.

Lemma actuate_held b : held_attitude (control_actuate b) = held_attitude b.
Proof.
  unfold control_actuate. destruct (control_law b) as [[command output] b1] eqn:Hl.
  assert (held_attitude b1 = held_attitude b) as <-.
  { revert Hl. unfold control_law. destruct (adcs_controller_update _ _ _ _ _ _) as [[r o] c]. cbv zeta.
    intros [= _ <-]. by case_if as E1. }
  destruct (override_command b1 command output) as [command1 output1]. apply drive_held.
Qed.

Lemma manage_held (f : adcs_manager_state_t -> adcs_manager_state_t) b :
  (forall st, latest_attitude (f st) = latest_attitude st
              /\ AdcsManager.initialized (f st) = AdcsManager.initialized st) ->
  held_attitude (manage f b) = held_attitude b.
Proof.
  intros Hf. unfold held_attitude, manage. change (b_manager (b <| b_manager ::= f |>)) with (f (b_manager b)).
  by destruct (Hf (b_manager b)) as [-> ->].
Qed.

Lemma set_sensors_keeps stm32 p st :
  latest_attitude (adcs_manager_set_sensors stm32 (Some p) st) = latest_attitude st
  /\ AdcsManager.initialized (adcs_manager_set_sensors stm32 (Some p) st) = AdcsManager.initialized st.
Proof. unfold adcs_manager_set_sensors. case_if as E1; done. Qed.

Lemma sense_held stm32 sequence now r waiting b :
  held_attitude (sensor_round stm32 sequence now r waiting b) = held_attitude b.
Proof.
  unfold sensor_round. set (p := sensor_packet _ _ _). clearbody p. cbv zeta.
  rewrite <- (manage_held (adcs_manager_set_sensors stm32 (Some p)) b (set_sensors_keeps stm32 p)).
  by destruct waiting.
Qed.

Lemma faults_held f b : held_attitude (b <| b_faults ::= f |>) = held_attitude b.
Proof. done. Qed.

Lemma set_health_keeps h st :
  latest_attitude (adcs_manager_set_health (Some h) st) = latest_attitude st
  /\ AdcsManager.initialized (adcs_manager_set_health (Some h) st) = AdcsManager.initialized st.
Proof. done. Qed.

Lemma write_health_held stm32 r margin pet b : held_attitude (housekeeping_write stm32 r margin pet b) = held_attitude b.
Proof.
  unfold housekeeping_write. cbv zeta.
  set (ft := if (_ =? _)%Z then _ else _). set (h := _ <| he_minimum_stack_margin_words := margin |>).
  clearbody ft h. set (b1 := manage _ (b <| b_faults := ft |>)).
  rewrite faults_held, control_update_held. subst b1. rewrite (manage_held _ _ (set_health_keeps h)). done.
Qed.

Definition not_estimate (ev : adcs_event) : Prop := match ev with Estimate _ => False | _ => True end.

Lemma event_held stm32 ev (s : adcs_system E) :
  not_estimate ev -> held_attitude (s_board (system_event stm32 ev s)) = held_attitude (s_board s).
Proof.
  destruct ev as [ev|sequence now r waiting|a|o r|now| |now|margin pet|now c d|]; intros Hn;
    cbn [system_event s_board board_event]; try done.
  - apply command_held.
  - apply sense_held.
  - apply control_update_held.
  - apply actuate_held.
  - destruct (s_reading s) as [r|]; [apply write_health_held|done].
Qed.
End Board.

(** The board with its estimator, and the packets that gave an absolute solution. *)
Record estimating_system {E : Type} := mk_estimating {
  x_system : adcs_system E;
  x_estimator : adcs_attitude_estimator_t;
  x_fixes : list adcs_sensor_packet_t
}.
Arguments estimating_system : clear implicits.

Section Joined.
Context {E : Type} `{AdcsEnvironment E} `{Magnetorquer E} `{Libm} `{Libm64}.
Implicit Types (b : adcs_board E) (x : estimating_system E).

(** The simulator build: a step of another task, or a turn of the estimation task. *)
Inductive estimating_step x : estimating_system E -> Prop :=
  | Other_task ev :
      not_estimate ev ->
      estimating_step x (mk_estimating E (system_event false ev (x_system x)) (x_estimator x) (x_fixes x))
  | Estimation sensors orbit connected buffered found e b :
      timestamp_ok (sp_timestamp_us sensors) ->
      estimation_round false (Some sensors) orbit connected buffered (x_estimator x) (s_board (x_system x))
      = (found, e, b) ->
      estimating_step x
        (mk_estimating E (mk_system E b (s_reading (x_system x))) e (add_fix found sensors (x_fixes x))).

Inductive estimating_reachable now transport (env : E) : estimating_system E -> Prop :=
  | Estimating_start :
      estimating_reachable now transport env
        (mk_estimating E (adcs_start now transport env) (estimation_task_init false) [])
  | Estimating_next x x' :
      estimating_reachable now transport env x -> estimating_step x x' -> estimating_reachable now transport env x'.

Definition attitude_inv b (fixes : list adcs_sensor_packet_t) : Prop :=
  AdcsManager.initialized (b_manager b) = 1 /\ b_config b = default_config
  /\ (truthy (at_valid (latest_attitude (b_manager b))) = true ->
      recent_fix fixes (at_timestamp_us (latest_attitude (b_manager b)))).

Lemma attitude_inv_held b b' fixes : held_attitude b' = held_attitude b -> attitude_inv b fixes -> attitude_inv b' fixes.
Proof. unfold held_attitude, attitude_inv. intros [= -> -> ->]. done. Qed.

Lemma attitude_inv_more b fixes fixes' : fixes ⊆ fixes' -> attitude_inv b fixes -> attitude_inv b fixes'.
Proof. intros Hs (Hi & Hc & Ha). split_and!; try done. intros Hv. by apply (recent_more fixes), Ha. Qed.

Lemma set_attitude_result a st :
  let st' := adcs_manager_set_attitude (Some a) st in
  AdcsManager.initialized st' = AdcsManager.initialized st
  /\ (latest_attitude st' = latest_attitude st
      \/ at_timestamp_us (latest_attitude st') = at_timestamp_us a
         /\ (truthy (at_valid (latest_attitude st')) = true -> truthy (at_valid a) = true)).
Proof.
  cbv zeta. unfold adcs_manager_set_attitude. cbv zeta.
  destruct (adcs_quaternion_normalize _ _) as [[] q]; case_if as E1; split; try done; try (by left); by right.
Qed.

Lemma set_attitude_inv b a fixes :
  attitude_inv b fixes -> (truthy (at_valid a) = true -> recent_fix fixes (at_timestamp_us a)) ->
  attitude_inv (manage (adcs_manager_set_attitude (Some a)) b) fixes.
Proof.
  intros (Hi & Hc & Ha) Hnew. destruct (set_attitude_result a (b_manager b)) as [Hi' Hcase].
  set (st' := adcs_manager_set_attitude (Some a) (b_manager b)) in *.
  assert (b_manager (manage (adcs_manager_set_attitude (Some a)) b) = st') as Hm by done.
  unfold attitude_inv. rewrite Hm, Hi'. split; [done|]. split; [done|].
  destruct Hcase as [->|[-> Hv]]; auto.
Qed.

Lemma references_held orbit b o rv b' :
  estimation_references orbit b = (o, rv, b') -> held_attitude b' = held_attitude b.
Proof.
  unfold estimation_references. destruct orbit as [orbit|]; [|by intros [= _ _ <-]].
  destruct (adcs_unix_time_us (b_env b)) as [now env].
  destruct (adcs_reference_vectors_compute now orbit) as [[] references]; by intros [= _ _ <-].
Qed.

Lemma set_references_keeps o rv st :
  latest_attitude (adcs_manager_set_references (Some o) (Some rv) st) = latest_attitude st
  /\ AdcsManager.initialized (adcs_manager_set_references (Some o) (Some rv) st) = AdcsManager.initialized st.
Proof. done. Qed.

Lemma note_reset_keeps st :
  latest_attitude (adcs_manager_note_estimator_reset st) = latest_attitude st
  /\ AdcsManager.initialized (adcs_manager_note_estimator_reset st) = AdcsManager.initialized st.
Proof. done. Qed.

Lemma estimation_reset_inv e b e' b' fixes :
  estimator_inv e fixes -> estimation_reset e b = (e', b') ->
  estimator_inv e' fixes /\ held_attitude b' = held_attitude b.
Proof.
  intros He. unfold estimation_reset. case_if as E1; [|by intros [= <- <-]]. cbv zeta. intros [= <- <-].
  split; [by apply reset_estimator|]. by rewrite (manage_held _ _ note_reset_keeps).
Qed.

Lemma publish_inv r attitude connected buffered b fixes :
  attitude_inv b fixes -> (r = ADCS_RESULT_OK -> recent_fix fixes (at_timestamp_us attitude)) ->
  attitude_inv (estimation_publish r attitude connected buffered b) fixes.
Proof.
  intros Hb Hr. unfold estimation_publish.
  case_if as E1; [by apply (attitude_inv_held b)|].
  clear E1. case_bool_decide as E2; [apply set_attitude_inv; auto|].
  case_if as E3; [|exact Hb]. by apply set_attitude_inv.
Qed.

Definition estimating_inv x : Prop :=
  attitude_inv (s_board (x_system x)) (x_fixes x) /\ estimator_inv (x_estimator x) (x_fixes x).

Lemma estimating_step_inv x x' : estimating_inv x -> estimating_step x x' -> estimating_inv x'.
Proof.
  intros [Hb He]. destruct 1 as [ev Hn|sensors orbit connected buffered found e b Hts Hround].
  - split; [|done]. by apply (attitude_inv_held (s_board (x_system x))); [apply event_held|].
  - revert Hround. unfold estimation_round.
    destruct (estimation_references _ _) as [[o rv] b1] eqn:E1. cbv zeta.
    destruct (estimation_reset _ _) as [e1 b2] eqn:E2.
    destruct (estimator_update _ _ _ _) as [[[r attitude] fix_found] e2] eqn:E3. intros [= <- <- <-].
    destruct (estimation_reset_inv _ _ _ _ _ He E2) as [He1 Hb2].
    rewrite (manage_held _ _ (set_references_keeps o rv)), (references_held _ _ _ _ _ E1) in Hb2.
    destruct (update_estimator _ _ _ _ _ _ _ _ He1 Hts E3) as [He2 Hok].
    split; [|done]. apply publish_inv; [|intros ->; by apply Hok].
    eapply attitude_inv_more; [apply add_fix_more|]. by apply (attitude_inv_held _ _ _ Hb2).
Qed.

Lemma estimating_reachable_inv now transport env x :
  estimating_reachable now transport env x -> estimating_inv x.
Proof.
  induction 1 as [|x x' _ IH Hstep]; [|by apply (estimating_step_inv x)].
  split; cbn [x_system x_estimator x_fixes].
  - split; [done|]. split; [done|]. done.
  - split; [|by intros []]. change (0 <= 0 <= 0). lia.
Qed.

(** C9. Pointing rests on a recent absolute solution.  In the simulator build, whatever
    the tasks do and in whatever order, when an update of the manager by the control task
    ends in a pointing mode, one of the packets the estimation task turned into an absolute
    solution (magnetometer and Sun sensor both valid) is at most 1.25 s old: the estimator
    publishes an attitude as valid for one second after such a solution, and the manager
    uses a published attitude for a quarter of a second. *)
Theorem pointing_needs_recent_fix now transport env x now_us :
  estimating_reachable now transport env x ->
  mode_needs_attitude (mode (b_manager (control_update false now_us (s_board (x_system x))))) = true ->
  exists p, p ∈ (x_fixes x) /\ absolute_packet p
            /\ sp_timestamp_us p <= now_us /\ now_us - sp_timestamp_us p <= 1250000.
Proof.
  intros Hx. destruct (estimating_reachable_inv _ _ _ _ Hx) as [(Hi & Hc & Ha) _].
  set (b := s_board (x_system x)) in *. unfold control_update, manage.
  change (b_manager (b <| b_manager ::= ?f |>)) with (f (b_manager b)). cbv beta. rewrite Hc. intros Hm.
  set (active := fault_management_get_active (b_faults b)) in *.
  destruct (update_points_on_good_data false default_config active now_us (b_manager b)) as (_ & _ & _ & Hu & _);
    [by vm_compute|by rewrite Hi|exact Hm|].
  unfold attitude_usable_locked, attitude_ready_locked in Hu.
  rewrite (proj1 (update_keeps false default_config active now_us (b_manager b))) in Hu.
  rewrite !andb_true_iff in Hu. destruct Hu as [[[[[[[Hv _] _] _] _] _] Hle] Hage]. bool_facts.
  destruct (Ha Hv) as (p & Hin & Hp & Hbefore & Hrecent).
  change (estimate_stale_after_us default_config) with 250000 in Hage.
  unfold SIMPLE_ESTIMATOR_MAX_FIX_AGE_US in Hrecent. exists p. split; [exact Hin|]. split; [exact Hp|]. lia.
Qed.
End Joined.

(** ** A concrete run *)

Definition flat_libm64 : Libm64 := {| sin := fun _ => double_of_int 0; cos := fun _ => double_of_int 1 |}.

Definition still_clock : AdcsEnvironment () := {|
  adcs_set_unix_time_us := fun _ e => (ADCS_RESULT_OK, e);
  adcs_unix_time_us := fun e => (1750000000000000, e);
  adcs_inject_simulator_faults := fun _ e => (ADCS_RESULT_OK, e)
|}.
Definition agreeing : Magnetorquer () := fun _ e => (true, e).

#[local] Existing Instances flat_libm flat_libm64 still_clock agreeing.

Definition low_orbit : adcs_orbit_state_t :=
  zero_orbit <| or_valid := 1%Z |> <| or_position_eci_m := Vec (lit 7000000 1) f0 f0 |>.

Definition started : estimating_system () :=
  mk_estimating _ (adcs_start (mk_time 0 0) 1 ()) (estimation_task_init false) [].

(** The first packet gives an absolute solution. *)
Definition first_turn : bool * adcs_attitude_estimator_t * adcs_board () :=
  estimation_round false (Some sunny_sensors) (Some low_orbit) true true
    (x_estimator started) (s_board (x_system started)).
Strategy expand [first_turn].
Definition fixed : estimating_system () :=
  mk_estimating _ (mk_system _ (snd first_turn) None) (snd (fst first_turn)) [sunny_sensors].

Definition other_task (ev : adcs_event) (x : estimating_system ()) : estimating_system () :=
  mk_estimating _ (system_event false ev (x_system x)) (x_estimator x) (x_fixes x).

(** The manager gets the sensors, and the ground asks for Sun pointing. *)
Definition asked_to_point : estimating_system () :=
  let readings := mk_readings (Some (1000, vec_zero, vec_zero)) (Some (Vec f0 f0 (lit 3 100000)))
                    (Some (1, Vec f0 f1 f0, lit 1361 1)) in
  let request := Packet 10 [64; 0; 0; 0; 9; 0; 0; 0; 4; 0; 0; 0] [0; 0; 0] true true true in
  other_task (Command Execute) (other_task (Command request) (other_task (Sense 1 1000 readings false) fixed)).

Lemma turn_parts {A B} (t : bool * A * B) : fst (fst t) = true -> t = (true, snd (fst t), snd t).
Proof. destruct t as [[found e] b]. cbn [fst snd]. by intros ->. Qed.

Lemma asked_to_point_reachable : estimating_reachable (mk_time 0 0) 1 () asked_to_point.
Proof.
  unfold asked_to_point. cbv zeta.
  eapply Estimating_next; [|by apply Other_task]. eapply Estimating_next; [|by apply Other_task].
  eapply Estimating_next; [|by apply Other_task]. eapply Estimating_next; [apply Estimating_start|].
  change fixed with
    (mk_estimating _ (mk_system _ (snd first_turn) (s_reading (x_system started))) (snd (fst first_turn))
       (add_fix true sunny_sensors (x_fixes started))).
  apply (Estimation started sunny_sensors (Some low_orbit) true true); [by vm_compute|].
  apply (turn_parts first_turn). vm_compute. reflexivity.
Qed.

Lemma pointing_needs_recent_fix_witness :
  mode (b_manager (control_update false 1500 (s_board (x_system asked_to_point)))) = ADCS_MODE_SUN_POINTING
  /\ exists p, p ∈ [sunny_sensors] /\ absolute_packet p
               /\ sp_timestamp_us p <= 1500 /\ 1500 - sp_timestamp_us p <= 1250000.
Proof.
  split; [vm_compute; reflexivity|].
  apply (pointing_needs_recent_fix (mk_time 0 0) 1 () asked_to_point 1500 asked_to_point_reachable).
  vm_compute. reflexivity.
Defined.
