(* ===== verification/RadioDevice.v ===== *)
(** The hardware side of the real radio driver ([platform/real/drivers/radio.c]): the UART in
    both wirings, the GPIO lines, the configuration of the E22 module, and the calls above
    them down to single system calls.

    [syscall] lists what the driver asks of Linux and pigpio, each with the type of its
    answer; the class [Platform] answers.  [effect] says what a call does to the outside
    world ([wires]: open descriptors, mode pins, bytes sent), and [Documented] is the class
    of platforms that behave so.  The driver is a state monad; [None] is a loop that has
    not ended within [fuel] rounds. *)

From stdpp Require Import gmap strings.
From S2P Require Import Prelude Profile RadioQueue Deframer RadioDriver ObcProgress.

(** ** The platform *)

Record termios := mk_termios { c_iflag : Z; c_oflag : Z; c_cflag : Z; c_lflag : Z; vmin : Z; vtime : Z; ispeed : Z; ospeed : Z }.
Record gpio_line_request := mk_line_request { offsets : list Z; line_flags : Z; consumer : string }.

Inductive poll_answer := Poll_error | Poll_interrupted | Poll_timeout | Poll_events (revents : Z).
Inductive read_answer := Read_byte (b : Z) | Read_eof | Read_again | Read_error.

(** Linux and glibc, then pigpio ([pigpiod_if2.h]). *)
Inductive syscall : Type -> Type :=
  | Clock_gettime : syscall timespec
  | Nanosleep (t : timespec) : syscall ()
  | Getenv (name : string) : syscall (option string)
  | Open (path : string) (flags : Z) : syscall Z
  | Close (fd : Z) : syscall ()
  | Tcgetattr (fd : Z) : syscall (Z * termios)
  | Cfmakeraw (tty : termios) : syscall termios
  | Tcsetattr (fd : Z) (tty : termios) : syscall Z
  | Tcflush (fd queue : Z) : syscall Z
  | Tcdrain (fd : Z) : syscall Z
  | Gpio_get_line (chip : Z) (request : gpio_line_request) : syscall (Z * Z)
  | Gpio_get_values (fd mask : Z) : syscall (Z * Z)
  | Gpio_set_values (fd bits mask : Z) : syscall Z
  | Poll_in (fd timeout : Z) : syscall poll_answer
  | Read_one (fd : Z) : syscall read_answer
  | Write (fd : Z) (data : list Z) : syscall Real.write_result
  | Pigpio_start : syscall Z
  | Pigpio_stop (pi : Z) : syscall ()
  | Set_mode (pi pin mode : Z) : syscall Z
  | Set_pull_up_down (pi pin pud : Z) : syscall Z
  | Gpio_write (pi pin level : Z) : syscall Z
  | Bb_serial_read_open (pi pin baud bits : Z) : syscall Z
  | Bb_serial_read (pi pin count : Z) : syscall (Z * list Z)
  | Bb_serial_read_close (pi pin : Z) : syscall ()
  | Wave_add_new (pi : Z) : syscall Z
  | Wave_add_serial (pi pin baud data_bits stop_bits offset : Z) (data : list Z) : syscall Z
  | Wave_create (pi : Z) : syscall Z
  | Wave_send_once (pi wave : Z) : syscall Z
  | Wave_tx_busy (pi : Z) : syscall Z
  | Wave_tx_stop (pi : Z) : syscall ()
  | Wave_delete (pi wave : Z) : syscall Z.

Class Platform (K : Type) := run : forall A, syscall A -> K -> A * K.
Arguments run {K _ A}.

(** Values of the system's headers. *)
Definition O_RDWR : Z := 2.
Definition O_NOCTTY : Z := 256.
Definition O_CLOEXEC : Z := 524288.
Definition CSTOPB : Z := 64.
Definition CREAD : Z := 128.
Definition CLOCAL : Z := 2048.
Definition CRTSCTS : Z := 2147483648.
Definition B9600 : Z := 13.
Definition TCIFLUSH : Z := 0.
Definition TCIOFLUSH : Z := 2.
Definition GPIO_V2_LINE_FLAG_INPUT : Z := 4.
Definition GPIO_V2_LINE_FLAG_OUTPUT : Z := 8.
Definition POLLERR : Z := 8.
Definition POLLHUP : Z := 16.
Definition POLLNVAL : Z := 32.
Definition PI_INPUT : Z := 0.
Definition PI_OUTPUT : Z := 1.
Definition PI_PUD_UP : Z := 2.

(** ** The driver *)

Definition RADIO_UART_DEVICE : string := "/dev/serial0".
Definition RADIO_UART_BAUD : Z := B9600.
Definition RADIO_GPIO_CHIP : string := "/dev/gpiochip0".
Definition RADIO_PIN_M0 : Z := 24.
Definition RADIO_PIN_M1 : Z := 23.
Definition RADIO_PIN_AUX : Z := 25.
Definition AUX_IDLE_TIMEOUT_MS : Z := 5000.
Definition AUX_BUSY_WAIT_MS : Z := 50.
Definition AUX_SETTLE_MS : Z := 5.
Definition RADIO_CHANNEL : Z := 23.
Definition RADIO_REG0 : Z := 98.
Definition RADIO_REG1 : Z := 0.
Definition RADIO_REG3 : Z := 3.
Definition CONFIG_SET_TEMP : Z := 194.
Definition CONFIG_REPLY : Z := 193.
Definition CONFIG_REPLY_TIMEOUT_MS : Z := 1000.
Definition MODE_SWITCH_MS : Z := 2.
Definition RADIO_SOFT_RX : Z := 14.
Definition RADIO_SOFT_TX : Z := 15.
Definition RADIO_BAUD_RATE : Z := 9600.

#[local] Set Primitive Projections.

(** The file-scope variables. *)
Record e22 := mk_e22 {
  uart_fd : Z;
  mode_fd : Z;
  aux_fd : Z;
  e_ready : bool;
  e_init_attempted : bool;
  e_last_init_ms : Z;
  e_deframer : radio_deframer_t;
  swapped_uart : bool;
  pigpio_pi : Z;
  soft_rx_open : bool
}.

#[local] Unset Primitive Projections.

(** The variables as the loader leaves them; [buffer] is what the deframer's array holds. *)
Definition e22_static : e22 := mk_e22 (-1) (-1) (-1) false false 0 (mk_deframer (zeros 240) 0) false (-1) false.

Definition dev (K A : Type) : Type := e22 * K -> option (A * (e22 * K)).

#[global] Instance dev_ret {K} : MRet (dev K) := fun _ a s => Some (a, s).
#[global] Instance dev_bind {K} : MBind (dev K) := fun _ _ f m s =>
  match m s with Some (a, s) => f a s | None => None end.

Definition variables {K} : dev K e22 := fun s => Some (s.1, s).
Definition assign {K} (f : e22 -> e22) : dev K () := fun s => Some ((), (f s.1, s.2)).
Definition call {K A} `{Platform K} (c : syscall A) : dev K A := fun s =>
  let '(a, k) := run c s.2 in Some (a, (s.1, k)).
Definition still_running {K A} : dev K A := fun _ => None.

(** [a < 0 || b < 0 || ...]: the calls up to the first one that fails. *)
Fixpoint any_fails {K} (calls : list (dev K Z)) : dev K bool :=
  match calls with
  | [] => mret false
  | c :: calls => r ← c; if r <? 0 then mret true else any_fails calls
  end.

(** [a && b && ...]. *)
Fixpoint all_hold {K} (tests : list (dev K bool)) : dev K bool :=
  match tests with
  | [] => mret true
  | t :: tests => b ← t; if b : bool then all_hold tests else mret false
  end.

(** [fuel] bounds the rounds of every loop. *)
Section Driver.
Context {K : Type} `{Platform K} (fuel : nat).

Definition now_ms : dev K Z :=
  ts ← call Clock_gettime; mret (tv_sec ts * 1000 + Z.quot (tv_nsec ts) 1000000).

Definition sleep_ms (ms : Z) : dev K () := call (Nanosleep (mk_time (Z.quot ms 1000) (Z.rem ms 1000 * 1000000))).

Definition open_soft_uart : dev K Z :=
  pi ← call Pigpio_start;
  _ ← assign (fun st => st <| pigpio_pi := pi |>);
  if pi <? 0 then mret (-1)
  else
    failed ← any_fails
      [call (Set_mode pi RADIO_SOFT_RX PI_INPUT); call (Set_pull_up_down pi RADIO_SOFT_RX PI_PUD_UP);
       call (Set_mode pi RADIO_SOFT_TX PI_OUTPUT); call (Gpio_write pi RADIO_SOFT_TX 1);
       call (Bb_serial_read_open pi RADIO_SOFT_RX RADIO_BAUD_RATE 8)];
    if failed : bool then mret (-1)
    else _ ← assign (fun st => st <| soft_rx_open := true |>); mret 0.

Definition raw_9600 (tty : termios) : termios :=
  mk_termios (c_iflag tty) (c_oflag tty)
    (Z.lor (Z.ldiff (c_cflag tty) (Z.lor CSTOPB CRTSCTS)) (Z.lor CLOCAL CREAD)) (c_lflag tty)
    0 0 RADIO_UART_BAUD RADIO_UART_BAUD.

Definition open_hard_uart : dev K Z :=
  fd ← call (Open RADIO_UART_DEVICE (Z.lor O_RDWR O_NOCTTY));
  _ ← assign (fun st => st <| uart_fd := fd |>);
  if fd <? 0 then mret (-1)
  else
    '(r, tty) ← call (Tcgetattr fd);
    if negb (r =? 0) then mret (-1)
    else
      tty ← call (Cfmakeraw tty);
      r ← call (Tcsetattr fd (raw_9600 tty));
      if negb (r =? 0) then mret (-1) else _ ← call (Tcflush fd TCIOFLUSH); mret 0.

Definition open_uart : dev K Z :=
  st ← variables; if swapped_uart st then open_soft_uart else open_hard_uart.

Definition request_lines (chip_fd : Z) (pins : list Z) (flags : Z) : dev K Z :=
  '(r, fd) ← call (Gpio_get_line chip_fd (mk_line_request pins flags "e22_radio"));
  mret (if r <? 0 then -1 else fd).

Definition read_aux : dev K Z :=
  st ← variables;
  '(r, bits) ← call (Gpio_get_values (aux_fd st) 1);
  mret (if r <? 0 then -1 else Z.land bits 1).

Fixpoint aux_loop (rounds : nat) (level deadline : Z) : dev K Z :=
  match rounds with
  | O => still_running
  | S rounds =>
      aux ← read_aux;
      if aux <? 0 then mret (-1)
      else if aux =? level then mret 0
      else
        now ← now_ms;
        if deadline <=? now then mret (-1) else _ ← sleep_ms 1; aux_loop rounds level deadline
  end.

Definition wait_for_aux (level timeout_ms : Z) : dev K Z :=
  now ← now_ms; aux_loop fuel level (now + timeout_ms).

Definition open_gpio : dev K Z :=
  chip_fd ← call (Open RADIO_GPIO_CHIP (Z.lor O_RDWR O_CLOEXEC));
  if chip_fd <? 0 then mret (-1)
  else
    mode ← request_lines chip_fd [RADIO_PIN_M0; RADIO_PIN_M1] GPIO_V2_LINE_FLAG_OUTPUT;
    _ ← assign (fun st => st <| mode_fd := mode |>);
    aux ← request_lines chip_fd [RADIO_PIN_AUX] GPIO_V2_LINE_FLAG_INPUT;
    _ ← assign (fun st => st <| aux_fd := aux |>);
    _ ← call (Close chip_fd);
    mret (if (mode <? 0) || (aux <? 0) then -1 else 0).

Definition set_radio_mode (m0 m1 : bool) : dev K Z :=
  st ← variables;
  r ← call (Gpio_set_values (mode_fd st) (Z.lor (b2z m0) (if m1 then 2 else 0)) 3);
  if r <? 0 then mret (-1)
  else
    r ← wait_for_aux 1 AUX_IDLE_TIMEOUT_MS;
    if negb (r =? 0) then mret (-1) else _ ← sleep_ms MODE_SWITCH_MS; mret 0.

(** 1 for a byte, 0 for a timeout, -1 for an error; the byte is 0 where the code leaves the
    caller's byte alone. *)
Fixpoint soft_read_loop (rounds : nat) (deadline : Z) : dev K (Z * Z) :=
  match rounds with
  | O => still_running
  | S rounds =>
      st ← variables;
      '(n, data) ← call (Bb_serial_read (pigpio_pi st) RADIO_SOFT_RX 1);
      if n <? 0 then mret (-1, 0)
      else if n =? 1 then mret (1, byte_at data 0)
      else
        now ← now_ms;
        if deadline <=? now then mret (0, 0) else _ ← sleep_ms 1; soft_read_loop rounds deadline
  end.

Fixpoint hard_read_loop (rounds : nat) (deadline : Z) : dev K (Z * Z) :=
  match rounds with
  | O => still_running
  | S rounds =>
      now ← now_ms;
      let remaining := deadline - now in
      if remaining <=? 0 then mret (0, 0)
      else
        st ← variables;
        poll ← call (Poll_in (uart_fd st) remaining);
        match poll with
        | Poll_error => mret (-1, 0)
        | Poll_interrupted => hard_read_loop rounds deadline
        | Poll_timeout => mret (0, 0)
        | Poll_events revents =>
            if truthy (Z.land revents (Z.lor POLLERR (Z.lor POLLHUP POLLNVAL))) then mret (-1, 0)
            else
              r ← call (Read_one (uart_fd st));
              match r with
              | Read_byte b => mret (1, b)
              | Read_eof | Read_error => mret (-1, 0)
              | Read_again => hard_read_loop rounds deadline
              end
        end
  end.

Definition uart_read_byte (timeout_ms : Z) : dev K (Z * Z) :=
  now ← now_ms;
  st ← variables;
  let deadline := now + timeout_ms in
  if swapped_uart st then soft_read_loop fuel deadline else hard_read_loop fuel deadline.

(** The bytes read so far and the result. *)
Fixpoint read_exact_loop (length : nat) (deadline : Z) (got : list Z) : dev K (Z * list Z) :=
  match length with
  | O => mret (0, got)
  | S length =>
      now ← now_ms;
      let remaining := deadline - now in
      if remaining <=? 0 then mret (-1, got)
      else
        '(n, byte) ← uart_read_byte remaining;
        if negb (n =? 1) then mret (-1, got) else read_exact_loop length deadline (got ++ [byte])
  end.

Definition read_exact (length : nat) (timeout_ms : Z) : dev K (Z * list Z) :=
  now ← now_ms; read_exact_loop length (now + timeout_ms) [].

Fixpoint drain_loop (rounds : nat) : dev K Z :=
  match rounds with
  | O => still_running
  | S rounds =>
      st ← variables;
      '(n, _) ← call (Bb_serial_read (pigpio_pi st) RADIO_SOFT_RX 256);
      if n <? 0 then mret (-1) else if n =? 0 then mret 0 else drain_loop rounds
  end.

Definition uart_flush_input : dev K Z :=
  st ← variables;
  if swapped_uart st then drain_loop fuel else call (Tcflush (uart_fd st) TCIFLUSH).

(** The wait for a wave, with the results [result] and [busy]. *)
Fixpoint wave_loop (rounds : nat) (deadline result busy : Z) : dev K (Z * Z) :=
  match rounds with
  | O => still_running
  | S rounds =>
      if negb (0 <=? result) then mret (result, busy)
      else
        st ← variables;
        busy ← call (Wave_tx_busy (pigpio_pi st));
        if negb (0 <? busy) then mret (result, busy)
        else
          now ← now_ms;
          if deadline <=? now then _ ← call (Wave_tx_stop (pigpio_pi st)); mret (-1, busy)
          else _ ← sleep_ms 1; wave_loop rounds deadline result busy
  end.

Definition write_soft (data : list Z) : dev K Z :=
  if len data =? 0 then mret 0
  else
    st ← variables;
    let pi := pigpio_pi st in
    failed ← any_fails
      [call (Wave_add_new pi); call (Wave_add_serial pi RADIO_SOFT_TX RADIO_BAUD_RATE 8 2 0 data)];
    if failed : bool then mret (-1)
    else
      wave ← call (Wave_create pi);
      if wave <? 0 then mret (-1)
      else
        result ← call (Wave_send_once pi wave);
        now ← now_ms;
        '(result, busy) ← wave_loop fuel (now + 5000) result 0;
        let result := if busy <? 0 then -1 else result in
        r ← call (Wave_delete pi wave);
        let result := if r <? 0 then -1 else result in
        mret (if result <? 0 then -1 else 0).

(** [data] is what is still to be written. *)
Fixpoint write_loop (rounds : nat) (data : list Z) : dev K Z :=
  st ← variables;
  if len data <=? 0 then call (Tcdrain (uart_fd st))
  else
    match rounds with
    | O => still_running
    | S rounds =>
        r ← call (Write (uart_fd st) data);
        match r with
        | Real.Wrote n => write_loop rounds (skip n data)
        | Real.Write_again => write_loop rounds data
        | Real.Write_error => mret (-1)
        end
    end.

Definition write_all (data : list Z) : dev K Z :=
  st ← variables; if swapped_uart st then write_soft data else write_loop fuel data.

Definition config_command : list Z :=
  [CONFIG_SET_TEMP; 0; 9; 0; 0; 0; RADIO_REG0; RADIO_REG1; RADIO_CHANNEL; RADIO_REG3; 0; 0].

(** The module's echo of the registers. *)
Definition reply_confirms (reply : list Z) : bool :=
  (byte_at reply 0 =? CONFIG_REPLY)
  && bool_decide (prefix_of 9 (skip 1 reply) = prefix_of 9 (skip 1 config_command)).

Definition configure_radio : dev K Z :=
  r ← set_radio_mode false true;
  if negb (r =? 0) then mret (-1)
  else
    ok ← all_hold
      [(r ← uart_flush_input; mret (r =? 0)); (r ← write_all config_command; mret (r =? 0));
       ('(r, reply) ← read_exact 12 CONFIG_REPLY_TIMEOUT_MS; mret ((r =? 0) && reply_confirms reply))];
    r ← set_radio_mode false false;
    if negb (r =? 0) then mret (-1) else mret (if ok : bool then 0 else -1).

(** [if (fd >= 0) close(fd)]. *)
Definition close_open (fd : Z) : dev K () := if 0 <=? fd then call (Close fd) else mret ().

Definition close_all : dev K () :=
  st ← variables;
  _ ← close_open (uart_fd st);
  _ ← close_open (mode_fd st);
  _ ← close_open (aux_fd st);
  _ ← assign (fun st => st <| uart_fd := -1 |> <| mode_fd := -1 |> <| aux_fd := -1 |>);
  _ ← (if soft_rx_open st then
         _ ← call (Bb_serial_read_close (pigpio_pi st) RADIO_SOFT_RX);
         assign (fun st => st <| soft_rx_open := false |>)
       else mret ());
  if 0 <=? pigpio_pi st then
    _ ← call (Pigpio_stop (pigpio_pi st)); assign (fun st => st <| pigpio_pi := -1 |>)
  else mret ().

Definition returns_zero (m : dev K Z) : dev K bool := r ← m; mret (r =? 0).

Definition radio_init : dev K Z :=
  value ← call (Getenv "E22_SWAPPED_UART");
  _ ← assign (fun st => st <| swapped_uart := bool_decide (value = Some "1") |>);
  ok ← all_hold [returns_zero open_gpio; returns_zero open_uart; returns_zero configure_radio];
  if ok : bool then mret 0 else _ ← close_all; mret (-1).

(** The attempt inside [ensure_ready], under all three locks. *)
Definition attempt_init (now : Z) : dev K () :=
  _ ← assign (fun st => st <| e_init_attempted := true |> <| e_last_init_ms := now |>);
  _ ← close_all;
  _ ← assign (fun st => st <| e_deframer ::= radio_deframer_reset |>);
  r ← radio_init;
  assign (fun st => st <| e_ready := (r =? 0) |>).

Definition ensure_ready : dev K Z :=
  st ← variables;
  _ ← (if negb (e_ready st) then
         now ← now_ms;
         if negb (e_init_attempted st) || (Real.INIT_RETRY_MS <=? now - e_last_init_ms st)
         then attempt_init now else mret ()
       else mret ());
  st ← variables;
  mret (if e_ready st then 0 else -1).

(** [send_packet] while it holds [tx_lock]. *)
Definition send_section (data : list Z) : dev K Z :=
  ok ← all_hold [returns_zero (wait_for_aux 1 AUX_IDLE_TIMEOUT_MS); returns_zero (write_all data)];
  if negb ok then mret (-1)
  else
    _ ← wait_for_aux 0 AUX_BUSY_WAIT_MS;
    r ← wait_for_aux 1 AUX_IDLE_TIMEOUT_MS;
    _ ← sleep_ms AUX_SETTLE_MS;
    mret (if negb (r =? 0) then -1 else 0).

Definition send_packet (data : list Z) : dev K Z :=
  r ← ensure_ready; if negb (r =? 0) then mret (-1) else send_section data.

(** The loop of [radio_receive] while it holds [rx_lock]. *)
Fixpoint receive_loop (rounds : nat) (start : Z) (s : radio_stats_t) (packet : list Z)
    : dev K (Real.rx_outcome * radio_stats_t * list Z) :=
  match rounds with
  | O => still_running
  | S rounds =>
      now ← now_ms;
      if start + Real.RX_TIMEOUT_MS + Real.RX_PACKET_MAX_MS <=? now then mret (Real.Rx_nothing, s, packet)
      else
        st ← variables;
        let d := e_deframer st in
        let wait_ms :=
          if 0 <? radio_deframer_buffered d then Real.RX_GAP_MS else start + Real.RX_TIMEOUT_MS - now in
        if wait_ms <=? 0 then mret (Real.Rx_nothing, s, packet)
        else
          '(n, byte) ← uart_read_byte wait_ms;
          if n <? 0 then mret (Real.Rx_failed, s, packet)
          else if n =? 0 then
            _ ← assign (fun st => st <| e_deframer := radio_deframer_reset d |>);
            receive_loop rounds start (radio_stats_rx_skipped (radio_deframer_buffered d) s) packet
          else
            match receive_byte d s packet byte with
            | None => still_running
            | Some (packet_length, d, s, packet) =>
                _ ← assign (fun st => st <| e_deframer := d |>);
                if packet_length =? 0 then receive_loop rounds start s packet
                else mret (Real.Rx_packet packet_length, s, packet)
            end
  end.

Definition receive_section (s : radio_stats_t) (packet0 : list Z)
    : dev K (Real.rx_outcome * radio_stats_t * list Z) :=
  start ← now_ms; receive_loop fuel start s packet0.

(** What [radio_receive] does with the outcome, after it released the lock. *)
Definition deliver (b : list Z) (max_length : Z) (result : Real.rx_outcome * radio_stats_t * list Z)
    : dev K (Z * option (list Z) * radio_stats_t) :=
  let '(outcome, s, packet) := result in
  match outcome with
  | Real.Rx_failed => _ ← assign (fun st => st <| e_ready := false |>); mret (-1, Some b, s)
  | Real.Rx_nothing => mret (0, Some b, s)
  | Real.Rx_packet packet_length =>
      match lg_ccsds_profile_parse (Some packet) packet_length (Some sample_view) with
      | (_, Some view) =>
          if max_length <? payload_length view then mret (-1, Some b, s)
          else mret (payload_length view,
                     Some (patch b 0 (prefix_of (payload_length view) (payload view))), s)
      | (_, None) => still_running
      end
  end.

(** [packet0] is what the packet buffer on the stack holds. *)
Definition radio_receive (s : radio_stats_t) (packet0 : list Z) (buffer : option (list Z)) (max_length : Z)
    : dev K (Z * option (list Z) * radio_stats_t) :=
  match buffer with
  | None => mret (-1, buffer, s)
  | Some b =>
      if max_length =? 0 then mret (-1, buffer, s)
      else
        r ← ensure_ready;
        if negb (r =? 0) then mret (-1, buffer, s)
        else result ← receive_section s packet0; deliver b max_length result
  end.
End Driver.

(** ** What the calls do outside *)

(** The open descriptors and pigpio sessions of the process, the levels of the mode pins (0:
    normal mode, 2: configuration mode), the bytes handed to the module, each piece with
    the mode pins at the time, and pigpio's wave under construction and its waves. *)
#[projections(primitive)]
Record wires := mk_wires {
  fds : gset Z;
  sessions : gset Z;
  pins : Z;
  air : list (Z * list Z);
  pending : list Z;
  waves : Z -> list Z
}.

Definition opens (fd : Z) (v v' : wires) : Prop :=
  if fd <? 0 then v' = v else (fd ∉ fds v) /\ v' = (v <| fds ::= fun s => {[fd]} ∪ s |>).

(** What a call that answers [a] does.  A descriptor that is opened is a new one; a call on a
    descriptor that is not open fails; [write] takes a part of the bytes. *)
Definition effect {A} (c : syscall A) : A -> wires -> wires -> Prop :=
  match c in syscall A return A -> wires -> wires -> Prop with
  | Open _ _ => opens
  | Close fd => fun _ v v' => v' = (v <| fds ::= fun s => s ∖ {[fd]} |>)
  | Gpio_get_line _ _ => fun a v v' => if a.1 <? 0 then v' = v else 0 <= a.2 /\ opens a.2 v v'
  | Gpio_get_values fd _ => fun a v v' => v' = v /\ (fd < 0 -> a.1 < 0)
  | Gpio_set_values _ bits mask => fun r v v' =>
      v' = if r <? 0 then v
           else v <| pins ::= fun p => Z.land (Z.lor (Z.ldiff p mask) (Z.land bits mask)) 3 |>
  | Write _ data => fun r v v' =>
      match r with
      | Real.Wrote n =>
          0 <= n <= len data /\ v' = v <| air ::= fun l => l ++ [(pins v, prefix_of n data)] |>
      | _ => v' = v
      end
  | Pigpio_start => fun pi v v' =>
      if pi <? 0 then v' = v else (pi ∉ sessions v) /\ v' = (v <| sessions ::= fun s => {[pi]} ∪ s |>)
  | Pigpio_stop pi => fun _ v v' => v' = (v <| sessions ::= fun s => s ∖ {[pi]} |>)
  | Wave_add_new _ => fun r v v' => v' = if r <? 0 then v else v <| pending := [] |>
  | Wave_add_serial _ _ _ _ _ _ data => fun r v v' =>
      v' = if r <? 0 then v else v <| pending ::= fun l => l ++ data |>
  | Wave_create _ => fun r v v' =>
      v' = if r <? 0 then v
           else v <| waves := fun w => if w =? r then pending v else waves v w |> <| pending := [] |>
  | Wave_send_once _ w => fun r v v' =>
      v' = if r <? 0 then v else v <| air ::= fun l => l ++ [(pins v, waves v w)] |>
  | _ => fun _ v v' => v' = v
  end.

(** A platform that behaves as documented. *)
Class Documented (K : Type) `{Platform K} := {
  view : K -> wires;
  run_effect : forall A (c : syscall A) k a k', run c k = (a, k') -> effect c a (view k) (view k')
}.

(** ** Reasoning about driver code *)

Section Rules.
Context {K : Type}.
Implicit Types s : e22 * K.

(** If the code ends, [Q] holds. *)
Definition wp {A} (m : dev K A) (Q : A -> e22 * K -> Prop) s : Prop :=
  match m s with Some (a, s') => Q a s' | None => True end.

Lemma wp_bind {A B} (m : dev K A) (f : A -> dev K B) Q s :
  wp m (fun a s' => wp (f a) Q s') s -> wp (m ≫= f) Q s.
Proof.
  unfold wp. change ((m ≫= f) s) with (match m s with Some (a, s) => f a s | None => None end).
  by destruct (m s) as [[a s']|].
Qed.

Lemma wp_mono {A} (m : dev K A) (Q R : A -> e22 * K -> Prop) s :
  (forall a s', Q a s' -> R a s') -> wp m Q s -> wp m R s.
Proof. unfold wp. destruct (m s) as [[a s']|]; auto. Qed.

Lemma wp_true {A} (m : dev K A) (Q : A -> e22 * K -> Prop) s : (forall a s', Q a s') -> wp m Q s.
Proof. intros HQ. unfold wp. by destruct (m s) as [[a s']|]. Qed.

Lemma wp_and {A} (m : dev K A) (Q R : A -> e22 * K -> Prop) s :
  wp m Q s -> wp m R s -> wp m (fun a s' => Q a s' /\ R a s') s.
Proof. unfold wp. by destruct (m s) as [[a s']|]. Qed.

Lemma wp_run {A} (m : dev K A) Q s a s' : wp m Q s -> m s = Some (a, s') -> Q a s'.
Proof. unfold wp. intros HQ E. by rewrite E in HQ. Qed.

Lemma wp_call `{Documented K} {A} (c : syscall A) Q st k :
  (forall a k', effect c a (view k) (view k') -> Q a (st, k')) -> wp (call c) Q (st, k).
Proof.
  unfold wp, call. cbn [fst snd]. destruct (run c k) as [a k'] eqn:E. intros HQ.
  by apply HQ, (run_effect _ c k).
Qed.

(** Code that changes neither the variables nor anything outside. *)
Definition quiet `{Documented K} {A} (m : dev K A) : Prop :=
  forall st k, wp m (fun _ s' => s'.1 = st /\ view s'.2 = view k) (st, k).

Context `{Documented K}.

Lemma quiet_ret {A} (a : A) : quiet (mret a).
Proof. done. Qed.

Lemma quiet_variables : quiet variables.
Proof. done. Qed.

Lemma quiet_running {A} : quiet (A := A) still_running.
Proof. done. Qed.

Lemma quiet_bind {A B} (m : dev K A) (f : A -> dev K B) :
  quiet m -> (forall a, quiet (f a)) -> quiet (m ≫= f).
Proof.
  intros Hm Hf st k. apply wp_bind. eapply wp_mono; [|apply Hm]. intros a [st' k'] [Hs Hv].
  cbn [fst snd] in Hs, Hv. subst st'. eapply wp_mono; [|apply Hf]. intros b s' [-> Hv'].
  split; [done|]. by rewrite Hv'.
Qed.

(** A quiet call keeps every fact about variables and the outside. *)
Lemma wp_quiet {A} (m : dev K A) Q st k :
  quiet m -> (forall a k', view k' = view k -> Q a (st, k')) -> wp m Q (st, k).
Proof.
  intros Hm HQ. eapply wp_mono; [|apply Hm]. intros a [st' k'] [Hs Hv]. cbn [fst snd] in Hs, Hv.
  subst st'. by apply HQ.
Qed.

Definition silent {A} (c : syscall A) : Prop := forall a v v', effect c a v v' -> v' = v.

Lemma quiet_call {A} (c : syscall A) : silent c -> quiet (call c).
Proof. intros Hc st k. apply wp_call. intros a k' He. by split; [|apply Hc in He]. Qed.
End Rules.

Create HintDb quiet.
#[export] Hint Resolve quiet_ret quiet_variables quiet_running quiet_bind quiet_call : quiet.

Ltac quiet :=
  repeat first
    [ assumption
    | solve [auto with quiet]
    | apply quiet_bind; [|intros ?]
    | match goal with
      | |- quiet (let '_ := ?x in _) => destruct x
      | |- quiet (if ?b then _ else _) => destruct b
      | |- quiet (match ?x with _ => _ end) => destruct x
      end
    | apply quiet_call; intros ? ? ? ?; cbn in *; tauto
    | progress cbv zeta ].

(** ** The quiet parts *)
Section Quiet.
Context {K : Type} `{Documented K} (fuel : nat).

Lemma now_quiet : quiet (now_ms (K := K)).
Proof. unfold now_ms. quiet. Qed.

Lemma sleep_quiet ms : quiet (sleep_ms (K := K) ms).
Proof. unfold sleep_ms. quiet. Qed.

Hint Resolve now_quiet sleep_quiet : quiet.

Lemma read_aux_quiet : quiet (read_aux (K := K)).
Proof. unfold read_aux. quiet. Qed.
Hint Resolve read_aux_quiet : quiet.

Lemma aux_loop_quiet rounds level deadline : quiet (aux_loop (K := K) rounds level deadline).
Proof. induction rounds as [|rounds IH]; cbn [aux_loop]; quiet. Qed.
Hint Resolve aux_loop_quiet : quiet.

Lemma wait_quiet level timeout : quiet (wait_for_aux (K := K) fuel level timeout).
Proof. unfold wait_for_aux. quiet. Qed.

Lemma soft_read_quiet rounds deadline : quiet (soft_read_loop (K := K) rounds deadline).
Proof. induction rounds as [|rounds IH]; cbn [soft_read_loop]; quiet. Qed.

Lemma hard_read_quiet rounds deadline : quiet (hard_read_loop (K := K) rounds deadline).
Proof. induction rounds as [|rounds IH]; cbn [hard_read_loop]; quiet. Qed.
Hint Resolve soft_read_quiet hard_read_quiet : quiet.

Lemma read_byte_quiet timeout : quiet (uart_read_byte (K := K) fuel timeout).
Proof. unfold uart_read_byte. quiet. Qed.
Hint Resolve read_byte_quiet : quiet.

Lemma read_exact_quiet length timeout : quiet (read_exact (K := K) fuel length timeout).
Proof.
  unfold read_exact. apply quiet_bind; [quiet|]. intros now. generalize (now + timeout), (@nil Z).
  induction length as [|length IH]; intros deadline got; cbn [read_exact_loop]; quiet.
Qed.

Lemma drain_quiet rounds : quiet (drain_loop (K := K) rounds).
Proof. induction rounds as [|rounds IH]; cbn [drain_loop]; quiet. Qed.
Hint Resolve drain_quiet : quiet.

Lemma flush_quiet : quiet (uart_flush_input (K := K) fuel).
Proof. unfold uart_flush_input. quiet. Qed.

Lemma wave_loop_quiet rounds deadline result busy : quiet (wave_loop (K := K) rounds deadline result busy).
Proof. revert result busy. induction rounds as [|rounds IH]; intros; cbn [wave_loop]; quiet. Qed.
End Quiet.

#[export] Hint Resolve now_quiet sleep_quiet read_aux_quiet aux_loop_quiet wait_quiet read_byte_quiet
  read_exact_quiet flush_quiet wave_loop_quiet : quiet.

(** ** Sending *)
Section Sending.
Context {K : Type} `{Documented K} (fuel : nat).

Definition same_wiring (v v' : wires) : Prop := fds v' = fds v /\ sessions v' = sessions v /\ pins v' = pins v.

(** The module was handed a first part of [data], all of it if the result is 0, and with the
    mode pins as they were. *)
Definition sent (data : list Z) (r : Z) (v v' : wires) : Prop :=
  same_wiring v v'
  /\ exists pieces rest, air v' = air v ++ map (pair (pins v)) pieces
       /\ data = concat pieces ++ rest /\ (r = 0 -> rest = []).

Lemma sent_nothing data r v v' :
  same_wiring v v' -> air v' = air v -> (r = 0 -> data = []) -> sent data r v v'.
Proof. intros Hw Ha Hr. split; [done|]. exists [], data. rewrite Ha, app_nil_r. by split_and!. Qed.

Lemma sent_first data n r v v' :
  sent (skip n data) r (v <| air ::= fun l => l ++ [(pins v, prefix_of n data)] |>) v' -> sent data r v v'.
Proof.
  intros [(Hf & Hs & Hp) (pieces & rest & Ha & Hd & Hr)]. split; [done|].
  exists (prefix_of n data :: pieces), rest. split_and!; [|cbn [concat]|done].
  - rewrite Ha. cbn [map]. change (air (v <| air ::= ?f |>)) with (f (air v)). cbv beta. by rewrite <- app_assoc.
  - rewrite <- app_assoc, <- Hd. by rewrite prefix_skip.
Qed.

Lemma write_loop_sends rounds data st k :
  wp (write_loop (K := K) rounds data) (fun r s' => s'.1 = st /\ sent data r (view k) (view s'.2)) (st, k).
Proof.
  revert data k. induction rounds as [|rounds IH]; intros data k; cbn [write_loop]; apply wp_bind;
    cbn [wp variables fst]; (destruct (Z.leb_spec (len data) 0) as [Hl|Hl];
    [apply wp_call; intros r k' Hv; split; [done|]; cbn [snd]; rewrite Hv;
     apply sent_nothing; [done..|]; intros _;
     apply len_0_nil; pose proof (len_nonneg data); lia|]); [done|].
  apply wp_bind, wp_call. intros [n| |] k'; cbn [effect].
  - intros [Hn Hv]. eapply wp_mono; [|apply IH]. intros r s' [Hs Hsent]. split; [done|].
    rewrite Hv in Hsent. by apply sent_first in Hsent.
  - intros Hv. eapply wp_mono; [|apply IH]. intros r s'. by rewrite Hv.
  - intros Hv. split; [done|]. cbn [snd]. rewrite Hv. by apply sent_nothing.
Qed.
Lemma wave_loop_failed rounds deadline result busy (s : e22 * K) :
  wp (wave_loop rounds deadline result busy) (fun a _ => result < 0 -> a.1 < 0) s.
Proof.
  destruct (Z.ltb_spec result 0) as [Hr|Hr]; [|apply wp_true; lia].
  destruct rounds; cbn [wave_loop]; [done|]. rewrite (proj2 (Z.leb_gt _ _)) by lia. by cbn.
Qed.

Lemma write_soft_sends data st k :
  wp (write_soft (K := K) fuel data) (fun r s' => s'.1 = st /\ sent data r (view k) (view s'.2)) (st, k).
Proof.
  unfold write_soft. destruct (Z.eqb_spec (len data) 0) as [Hl|Hl].
  { split; [done|]. apply sent_nothing; [done..|]. intros _. by apply len_0_nil. }
  apply wp_bind. cbn [wp variables fst]. cbv zeta. apply wp_bind. cbn [any_fails]. apply wp_bind, wp_call.
  intros r1 k1 H1. cbn in H1. destruct (r1 <? 0).
  { split; [done|]. cbn [snd]. rewrite H1. by apply sent_nothing. }
  apply wp_bind, wp_call. intros r2 k2 H2. cbn in H2. destruct (r2 <? 0).
  { split; [done|]. cbn [snd]. rewrite H2, H1. by apply sent_nothing. }
  cbn [wp mret dev_ret]. apply wp_bind, wp_call. intros w k3 H3. cbn in H3. destruct (w <? 0) eqn:Ew.
  { split; [done|]. cbn [snd]. rewrite H3, H2, H1. by apply sent_nothing. }
  apply wp_bind, wp_call. intros r4 k4 H4. cbn in H4.
  assert (sent data (if r4 <? 0 then -1 else 0) (view k) (view k4)) as Hs4.
  { destruct (Z.ltb_spec r4 0); rewrite H4, H3, H2, H1; [apply sent_nothing; [done..|lia]|].
    split; [done|]. exists [data], []. cbn. rewrite Z.eqb_refl, !app_nil_r. by split_and!. }
  apply wp_bind, wp_quiet; [quiet|]. intros now k5 H5. apply wp_bind.
  eapply wp_mono; [|apply wp_and; [apply wave_loop_failed|apply wave_loop_quiet]].
  intros [result busy] [st' k6] [Hneg [Hst H6]]. cbn [fst snd] in Hneg, Hst, H6. subst st'.
  apply wp_bind, wp_call. intros r7 k7 H7. cbn in H7. split; [done|]. cbn [snd]. rewrite H7, H6, H5.
  destruct Hs4 as [Hw (pieces & rest & Ha & Hd & Hr)]. split; [done|]. exists pieces, rest.
  split_and!; [done|done|]. destruct (Z.ltb_spec r4 0) as [H4n|H4n].
  { specialize (Hneg H4n). intros Hz. exfalso. revert Hz.
    destruct (busy <? 0), (r7 <? 0); cbn; try done. by rewrite (proj2 (Z.ltb_lt _ _) Hneg). }
  intros _. by apply Hr.
Qed.
End Sending.

(** ** Opening, configuring and closing *)
Section Opening.
Context {K : Type} `{Documented K} (fuel : nat).

Lemma write_all_sends data st k :
  wp (write_all (K := K) fuel data) (fun r s' => s'.1 = st /\ sent data r (view k) (view s'.2)) (st, k).
Proof.
  unfold write_all. apply wp_bind. cbn [wp variables fst].
  destruct (swapped_uart st); [apply write_soft_sends|apply write_loop_sends].
Qed.

(** A wait for the AUX pin succeeds only while the pin's line is open. *)
Lemma wait_aux_open level timeout st k :
  wp (wait_for_aux (K := K) fuel level timeout)
    (fun r s' => (s'.1 = st /\ view s'.2 = view k) /\ (r = 0 -> 0 <= aux_fd st)) (st, k).
Proof.
  apply wp_and; [apply wait_quiet|]. unfold wait_for_aux. apply wp_bind, wp_quiet; [quiet|].
  intros now k0 _. generalize (now + timeout). intros deadline. revert k0.
  induction fuel as [|rounds IH]; intros k0; cbn [aux_loop]; [done|].
  unfold read_aux. apply wp_bind, wp_bind. cbn [wp variables fst]. apply wp_bind, wp_call.
  intros [r bits] k1 [_ Hbad]. cbn [fst] in Hbad. cbn [wp mret dev_ret].
  destruct (Z.ltb_spec r 0) as [Hr|Hr]; [by cbn; intros|].
  destruct (Z.land bits 1 <? 0); [by cbn; intros|].
  destruct (Z.land bits 1 =? level); [cbn; lia|].
  apply wp_bind, wp_quiet; [quiet|]. intros now' k2 _.
  destruct (deadline <=? now'); [by cbn; intros|].
  apply wp_bind, wp_quiet; [quiet|]. intros _ k3 _. apply IH.
Qed.

Definition mode_bits (m0 m1 : bool) : Z := Z.lor (b2z m0) (if m1 then 2 else 0).

Lemma set_mode_pins m0 m1 st k :
  wp (set_radio_mode (K := K) fuel m0 m1)
    (fun r s' => s'.1 = st /\ fds (view s'.2) = fds (view k) /\ sessions (view s'.2) = sessions (view k)
       /\ air (view s'.2) = air (view k) /\ (r = 0 -> pins (view s'.2) = mode_bits m0 m1)) (st, k).
Proof.
  unfold set_radio_mode. apply wp_bind. cbn [wp variables fst]. apply wp_bind, wp_call.
  intros r k1 Hv. cbn [effect] in Hv. destruct (r <? 0) eqn:Er.
  { cbn [wp mret dev_ret fst snd]. rewrite Hv. by split_and!. }
  assert (pins (view k1) = mode_bits m0 m1 /\ fds (view k1) = fds (view k)
    /\ sessions (view k1) = sessions (view k) /\ air (view k1) = air (view k)) as (Hp & Hf & Hs & Ha).
  { rewrite Hv. split_and!; try done. cbn. apply Z.bits_inj'. intros n Hn.
    rewrite Z.land_spec, Z.lor_spec, Z.ldiff_spec, Z.land_spec. fold (mode_bits m0 m1).
    assert (mode_bits m0 m1 = Z.land (mode_bits m0 m1) 3) as Hm by (by destruct m0, m1).
    rewrite Hm, Z.land_spec. by destruct (Z.testbit (pins (view k)) n), (Z.testbit 3 n), (Z.testbit (mode_bits m0 m1) n). }
  apply wp_bind, wp_quiet; [quiet|]. intros r2 k2 H2. destruct (r2 =? 0); cbn [negb].
  - apply wp_bind, wp_quiet; [quiet|]. intros _ k3 H3. cbn [wp mret dev_ret fst snd]. rewrite H3, H2. by split_and!.
  - cbn [wp mret dev_ret fst snd]. rewrite H2. by split_and!.
Qed.

(** The configuration command goes out in configuration mode, and after a success the module
    is back in normal mode. *)
Definition configured (r : Z) (v v' : wires) : Prop :=
  fds v' = fds v /\ sessions v' = sessions v
  /\ (exists pieces rest, air v' = air v ++ map (pair 2) pieces /\ config_command = concat pieces ++ rest)
  /\ (r = 0 -> pins v' = 0).

Lemma configure_effect st k :
  wp (configure_radio (K := K) fuel) (fun r s' => s'.1 = st /\ configured r (view k) (view s'.2)) (st, k).
Proof.
  unfold configure_radio. apply wp_bind. eapply wp_mono; [|apply set_mode_pins].
  intros r [st1 k1] (Hst & Hf & Hs & Ha & Hp). cbn [fst snd] in Hst, Hf, Hs, Ha, Hp. subst st1.
  destruct (r =? 0) eqn:Er; cbn [negb].
  2:{ split; [done|]. split_and!; try done. exists [], config_command. by rewrite app_nil_r. }
  specialize (Hp (proj1 (Z.eqb_eq _ _) Er)). change (mode_bits false true) with 2 in Hp.
  set (sent_config := fun s' : e22 * K => s'.1 = st /\ fds (view s'.2) = fds (view k)
    /\ sessions (view s'.2) = sessions (view k)
    /\ exists pieces rest, air (view s'.2) = air (view k) ++ map (pair 2) pieces
       /\ config_command = concat pieces ++ rest).
  apply wp_bind, (wp_mono _ (fun _ => sent_config)).
  - intros ok [st2 k2] (Hst2 & Hf2 & Hs2 & pieces & rest & Ha2 & Hc). cbn [fst snd] in *. subst st2.
    apply wp_bind. eapply wp_mono; [|apply set_mode_pins].
    intros r3 [st3 k3] (Hst3 & Hf3 & Hs3 & Ha3 & Hp3). cbn [fst snd] in *. subst st3.
    assert (forall r', (r' = 0 -> r3 = 0) -> configured r' (view k) (view k3)) as Hok.
    { intros r' Hr'. split_and!; [by rewrite Hf3|by rewrite Hs3| |intros Hz; by apply Hp3, Hr'].
      exists pieces, rest. by rewrite Ha3. }
    destruct (Z.eqb_spec r3 0) as [Hz|Hz]; cbn [negb]; (split; [done|]); by apply Hok.
  - assert (sent_config (st, k1)) as H1.
    { split_and!; try done. exists [], config_command. by rewrite app_nil_r. }
    cbn [all_hold]. apply wp_bind, wp_bind, wp_quiet; [quiet|]. intros r2 k2 H2.
    assert (sent_config (st, k2)) as Hsc2 by (unfold sent_config in *; cbn [fst snd] in *; by rewrite H2).
    cbn [wp mret dev_ret]. destruct (r2 =? 0); [|exact Hsc2].
    apply wp_bind, wp_bind. eapply wp_mono; [|apply write_all_sends].
    intros r3 [st3 k3] [Hst3 [(Hf3 & Hs3 & _) (pieces & rest & Ha3 & Hc & _)]]. cbn [fst snd] in *. subst st3.
    assert (sent_config (st, k3)) as Hsc3.
    { split_and!; cbn [fst snd]; try done; try congruence. exists pieces, rest.
      split; [|done]. rewrite Ha3, H2, Hp, Ha. done. }
    cbn [wp mret dev_ret]. destruct (r3 =? 0); [|exact Hsc3].
    apply wp_bind, wp_bind, wp_quiet; [quiet|]. intros [r4 reply] k4 H4.
    assert (sent_config (st, k4)) as Hsc4 by (unfold sent_config in *; cbn [fst snd] in *; by rewrite H4).
    cbn [wp mret dev_ret]. destruct (_ && _); exact Hsc4.
Qed.
End Opening.

(** ** The descriptors of the driver *)

Definition opened (fd : Z) : gset Z := if 0 <=? fd then {[fd]} else ∅.

(** What the driver has open, beside [base] and [sbase] of the rest of the process. *)
Definition held (st : e22) : gset Z := opened (uart_fd st) ∪ opened (mode_fd st) ∪ opened (aux_fd st).

Definition accounted (base sbase : gset Z) (st : e22) (v : wires) : Prop :=
  fds v = base ∪ held st /\ held st ## base
  /\ sessions v = sbase ∪ opened (pigpio_pi st) /\ opened (pigpio_pi st) ## sbase.

Definition closed (st : e22) : Prop := uart_fd st = -1 /\ mode_fd st = -1 /\ aux_fd st = -1 /\ pigpio_pi st < 0.

Definition closed_but_pi (st : e22) : Prop := uart_fd st = -1 /\ mode_fd st = -1 /\ aux_fd st = -1.

Section Accounting.
Context {K : Type} `{Documented K} (fuel : nat) (base sbase : gset Z).

Lemma opened_open fd : 0 <= fd -> opened fd = {[fd]}.
Proof. intros Hfd. unfold opened. by rewrite (proj2 (Z.leb_le _ _)). Qed.

Lemma opened_none fd : fd < 0 -> opened fd = ∅.
Proof. intros Hfd. unfold opened. by rewrite (proj2 (Z.leb_gt _ _)). Qed.

Lemma closed_held st : closed st -> held st = ∅.
Proof.
  intros (Hu & Hm & Ha & _). unfold held. rewrite Hu, Hm, Ha, (opened_none (-1)) by lia. set_solver.
Qed.

Definition same_air (v v' : wires) : Prop := pins v' = pins v /\ air v' = air v.

Lemma opens_effect fd v v' :
  opens fd v v' ->
  fds v' = opened fd ∪ fds v /\ opened fd ## fds v /\ sessions v' = sessions v /\ same_air v v'.
Proof.
  unfold opens. destruct (Z.ltb_spec fd 0).
  - intros ->. rewrite opened_none by done. split_and!; try done; set_solver.
  - intros [Hn ->]. rewrite opened_open by done. split_and!; try done; set_solver.
Qed.

Lemma request_lines_effect chip pins_ flags st k :
  wp (request_lines (K := K) chip pins_ flags)
    (fun fd s' => s'.1 = st /\ fds (view s'.2) = opened fd ∪ fds (view k) /\ opened fd ## fds (view k)
       /\ sessions (view s'.2) = sessions (view k) /\ same_air (view k) (view s'.2)) (st, k).
Proof.
  unfold request_lines. apply wp_bind, wp_call. intros [r fd] k1. cbn. destruct (r <? 0).
  - intros Hv. rewrite Hv. split_and!; try done; set_solver.
  - intros [Hfd Hv]. destruct (opens_effect _ _ _ Hv) as (Hf & Hd & Hs & Hp & Ha). by split_and!.
Qed.

Lemma open_gpio_effect st k :
  closed st -> accounted base sbase st (view k) ->
  wp (open_gpio (K := K))
    (fun r s' => (exists m a, s'.1 = (st <| mode_fd := m |> <| aux_fd := a |>) /\ (r = 0 -> 0 <= m /\ 0 <= a))
       /\ accounted base sbase s'.1 (view s'.2) /\ same_air (view k) (view s'.2)) (st, k).
Proof.
  intros Hc Hacc. pose proof Hc as (Hu & Hm & Ha & Hpi).
  unfold open_gpio. apply wp_bind, wp_call. intros chip k1 Hv1. cbn [effect] in Hv1.
  destruct (Z.ltb_spec chip 0) as [Hchip|Hchip].
  { unfold opens in Hv1. rewrite (proj2 (Z.ltb_lt _ _) Hchip) in Hv1. cbn [wp mret dev_ret fst snd].
    rewrite Hv1. split; [|by split]. exists (-1), (-1). split; [|done].
    destruct st. cbn in *. by subst. }
  destruct (opens_effect _ _ _ Hv1) as (Hf1 & Hd1 & Hs1 & Hp1 & Ha1). rewrite opened_open in Hf1, Hd1 by done.
  apply wp_bind. eapply wp_mono; [|apply request_lines_effect].
  intros m [st2 k2] (Hst2 & Hf2 & Hd2 & Hs2 & Hp2 & Ha2). cbn [fst snd] in *. subst st2.
  apply wp_bind. cbn [wp assign fst snd]. apply wp_bind. eapply wp_mono; [|apply request_lines_effect].
  intros a [st3 k3] (Hst3 & Hf3 & Hd3 & Hs3 & Hp3 & Ha3). cbn [fst snd] in *. subst st3.
  apply wp_bind. cbn [wp assign fst snd]. apply wp_bind, wp_call. intros [] k4 Hv4. cbn in Hv4.
  cbn [wp mret dev_ret fst snd].
  assert (fds (view k4) = fds (view k3) ∖ {[chip]} /\ sessions (view k4) = sessions (view k3)
    /\ pins (view k4) = pins (view k3) /\ air (view k4) = air (view k3)) as (Hf4 & Hs4 & Hp4 & Ha4)
    by (by rewrite Hv4). clear Hv4.
  split; [exists m, a; split; [done|]|].
  { destruct (Z.ltb_spec m 0), (Z.ltb_spec a 0); cbn; lia. }
  destruct Hacc as (Hf & Hd & Hs & Hds). split; [|split; congruence].
  assert (held (st <| mode_fd := m |> <| aux_fd := a |>) = opened m ∪ opened a) as Hheld.
  { unfold held. change (uart_fd (_ <| aux_fd := a |>)) with (uart_fd st). rewrite Hu, (opened_none (-1)) by lia.
    change (∅ ∪ opened m ∪ opened a = opened m ∪ opened a). set_solver. }
  rewrite (closed_held st Hc), union_empty_r_L in Hf.
  unfold accounted. change (pigpio_pi (_ <| aux_fd := a |>)) with (pigpio_pi st).
  rewrite Hheld, Hs4, Hs3, Hs2, Hs1. rewrite Hf2, Hf1, Hf in Hd3. rewrite Hf1, Hf in Hd2. rewrite Hf in Hd1.
  split_and!; [|set_solver|done|done]. rewrite Hf4, Hf3, Hf2, Hf1, Hf. set_solver.
Qed.

(** [open_uart] leaves one more descriptor or session, or none. *)
Definition uart_opened (st : e22) (r : Z) (st' : e22) : Prop :=
  exists u p b, st' = (st <| uart_fd := u |> <| pigpio_pi := p |> <| soft_rx_open := b |>)
    /\ (r = 0 -> if swapped_uart st then 0 <= p else 0 <= u).

Lemma open_soft_effect st k :
  uart_fd st = -1 -> pigpio_pi st < 0 -> swapped_uart st = true -> accounted base sbase st (view k) ->
  wp (open_soft_uart (K := K))
    (fun r s' => uart_opened st r s'.1 /\ accounted base sbase s'.1 (view s'.2) /\ same_air (view k) (view s'.2))
    (st, k).
Proof.
  intros Hu Hpi Hsw (Hf & Hd & Hs & Hds). unfold open_soft_uart. rewrite (opened_none _ Hpi) in Hs.
  apply wp_bind, wp_call. intros pi k1 Hv1. cbn [effect] in Hv1.
  assert (forall b k', view k' = view k1 ->
    accounted base sbase (st <| pigpio_pi := pi |> <| soft_rx_open := b |>) (view k') /\ same_air (view k) (view k'))
    as Hafter.
  { intros b k' ->. unfold accounted.
    change (held (st <| pigpio_pi := pi |> <| soft_rx_open := b |>)) with (held st).
    change (pigpio_pi (st <| pigpio_pi := pi |> <| soft_rx_open := b |>)) with pi.
    destruct (Z.ltb_spec pi 0) as [Hn|Hn].
    - rewrite Hv1, (opened_none pi) by done. split; [|done]. split_and!; try done; set_solver.
    - destruct Hv1 as [Hnew ->]. rewrite (opened_open pi) by done. split; [|done].
      split_and!; try done; cbn; set_solver. }
  assert (forall r b k', (r = 0 -> 0 <= pi) -> view k' = view k1 ->
    uart_opened st r (st <| pigpio_pi := pi |> <| soft_rx_open := b |>)
    /\ accounted base sbase (st <| pigpio_pi := pi |> <| soft_rx_open := b |>) (view k')
    /\ same_air (view k) (view k')) as Hend.
  { intros r b k' Hr Hk. split; [|by apply Hafter]. exists (-1), pi, b. rewrite Hsw. split; [|done].
    rewrite <- Hu. done. }
  apply wp_bind. cbn [wp assign fst snd].
  destruct (Z.ltb_spec pi 0) as [Hn|Hn]; [by apply (Hend (-1) (soft_rx_open st))|].
  apply wp_bind, wp_quiet; [cbn [any_fails]; quiet|]. intros failed k2 H2.
  destruct failed; [by apply (Hend (-1) (soft_rx_open st))|]. apply wp_bind. cbn [wp assign fst snd].
  by apply (Hend 0 true).
Qed.

Lemma open_hard_effect st k :
  uart_fd st = -1 -> swapped_uart st = false -> accounted base sbase st (view k) ->
  wp (open_hard_uart (K := K))
    (fun r s' => uart_opened st r s'.1 /\ accounted base sbase s'.1 (view s'.2) /\ same_air (view k) (view s'.2))
    (st, k).
Proof.
  intros Hu Hsw (Hf & Hd & Hs & Hds). unfold open_hard_uart.
  apply wp_bind, wp_call. intros fd k1 Hv1. cbn [effect] in Hv1.
  destruct (opens_effect _ _ _ Hv1) as (Hf1 & Hd1 & Hs1 & Hair1).
  assert (held (st <| uart_fd := fd |>) = opened fd ∪ held st) as Hheld.
  { unfold held. rewrite Hu, (opened_none (-1)) by lia.
    change (opened fd ∪ opened (mode_fd st) ∪ opened (aux_fd st)
            = opened fd ∪ (∅ ∪ opened (mode_fd st) ∪ opened (aux_fd st))). set_solver. }
  assert (forall r k', (r = 0 -> 0 <= fd) -> view k' = view k1 ->
    uart_opened st r (st <| uart_fd := fd |>)
    /\ accounted base sbase (st <| uart_fd := fd |>) (view k') /\ same_air (view k) (view k')) as Hend.
  { intros r k' Hr ->. split; [|split; [|done]].
    - exists fd, (pigpio_pi st), (soft_rx_open st). rewrite Hsw. by split.
    - unfold accounted. rewrite Hheld, Hf1, Hs1.
      change (pigpio_pi (st <| uart_fd := fd |>)) with (pigpio_pi st).
      rewrite Hf in *. split_and!; try done; set_solver. }
  apply wp_bind. cbn [wp assign fst snd].
  destruct (Z.ltb_spec fd 0) as [Hn|Hn]; [by apply Hend|].
  apply wp_bind, wp_quiet; [quiet|]. intros [r tty] k2 H2.
  destruct (r =? 0); cbn [negb]; [|by apply Hend].
  apply wp_bind, wp_quiet; [quiet|]. intros tty' k3 H3. apply wp_bind, wp_quiet; [quiet|]. intros r4 k4 H4.
  assert (view k4 = view k1) as Hk4 by congruence.
  destruct (r4 =? 0); cbn [negb]; [|by apply Hend].
  apply wp_bind, wp_quiet; [quiet|]. intros r5 k5 H5. apply Hend; [done|exact (eq_trans H5 Hk4)].
Qed.

Lemma open_uart_effect st k :
  uart_fd st = -1 -> pigpio_pi st < 0 -> accounted base sbase st (view k) ->
  wp (open_uart (K := K))
    (fun r s' => uart_opened st r s'.1 /\ accounted base sbase s'.1 (view s'.2) /\ same_air (view k) (view s'.2))
    (st, k).
Proof.
  intros Hu Hpi Hacc. unfold open_uart. apply wp_bind. cbn [wp variables fst].
  destruct (swapped_uart st) eqn:Hsw; [by apply open_soft_effect|by apply open_hard_effect].
Qed.

Lemma close_open_effect fd st k :
  wp (close_open (K := K) fd)
    (fun _ s' => s'.1 = st /\ fds (view s'.2) = fds (view k) ∖ opened fd
       /\ sessions (view s'.2) = sessions (view k) /\ same_air (view k) (view s'.2)) (st, k).
Proof.
  unfold close_open, opened. destruct (0 <=? fd).
  - apply wp_call. intros [] k1 Hv. cbn [effect] in Hv. cbn [fst snd]. rewrite Hv. by split_and!.
  - cbn. split_and!; try done. set_solver.
Qed.

Lemma close_all_effect st k :
  accounted base sbase st (view k) ->
  wp (close_all (K := K))
    (fun _ s' => closed s'.1 /\ accounted base sbase s'.1 (view s'.2) /\ same_air (view k) (view s'.2)) (st, k).
Proof.
  intros (Hf & Hd & Hs & Hds). unfold close_all. apply wp_bind. cbn [wp variables fst].
  apply wp_bind. eapply wp_mono; [|apply close_open_effect].
  intros [] [st1 k1] (Hst1 & Hf1 & Hs1 & Hp1 & Ha1). cbn [fst snd] in *. subst st1.
  apply wp_bind. eapply wp_mono; [|apply close_open_effect].
  intros [] [st2 k2] (Hst2 & Hf2 & Hs2 & Hp2 & Ha2). cbn [fst snd] in *. subst st2.
  apply wp_bind. eapply wp_mono; [|apply close_open_effect].
  intros [] [st3 k3] (Hst3 & Hf3 & Hs3 & Hp3 & Ha3). cbn [fst snd] in *. subst st3.
  assert (fds (view k3) = base) as Hb by (rewrite Hf3, Hf2, Hf1, Hf; unfold held in *; set_solver).
  assert (sessions (view k3) = sbase ∪ opened (pigpio_pi st)) as Hs' by (by rewrite Hs3, Hs2, Hs1).
  apply wp_bind. cbn [wp assign fst snd].
  set (st4 := _ <| aux_fd := -1 |>).
  assert (forall b, closed_but_pi (st4 <| soft_rx_open := b |>) /\ pigpio_pi (st4 <| soft_rx_open := b |>) = pigpio_pi st)
    as Hst4 by done.
  assert (exists b, wp (if soft_rx_open st then
         _ ← call (Bb_serial_read_close (pigpio_pi st) RADIO_SOFT_RX);
         assign (fun st => st <| soft_rx_open := false |>)
       else mret ()) (fun _ s' => s'.1 = (st4 <| soft_rx_open := b |>) /\ view s'.2 = view k3) (st4, k3)) as [b Hwp].
  { destruct (soft_rx_open st) eqn:Eo.
    - exists false. apply wp_bind, wp_quiet; [quiet|]. intros [] k4 H4. by split.
    - exists (soft_rx_open st4). by split. }
  apply wp_bind. eapply wp_mono; [|exact Hwp]. intros [] [st5 k5] [Hst5 H5]. cbn [fst snd] in Hst5, H5.
  destruct (Hst4 b) as [(Hu & Hm & Ha) Hpi]. rewrite <- Hst5 in *. clearbody st4. clear Hst4 Hwp Hst5.
  destruct (Z.leb_spec 0 (pigpio_pi st)) as [Ho|Ho].
  - apply wp_bind, wp_call. intros [] k6 Hv6. cbn [effect] in Hv6. cbn [wp assign fst snd].
    rewrite (opened_open _ Ho) in Hs', Hds.
    assert (closed (st5 <| pigpio_pi := -1 |>)) as Hc by by split_and!.
    assert (fds (view k6) = fds (view k5) /\ sessions (view k6) = sessions (view k5) ∖ {[pigpio_pi st]}
      /\ pins (view k6) = pins (view k5) /\ air (view k6) = air (view k5)) as (Hf6 & Hs6 & Hp6 & Ha6)
      by (by rewrite Hv6).
    split; [exact Hc|]. split; [|split; congruence].
    unfold accounted. rewrite (closed_held _ Hc). change (pigpio_pi (st5 <| pigpio_pi := -1 |>)) with (-1).
    rewrite (opened_none (-1)), Hf6, Hs6, H5, Hb, Hs' by lia. split_and!; set_solver.
  - cbn [wp mret dev_ret fst snd]. assert (closed st5) as Hc by (split_and!; try done; lia).
    rewrite (opened_none _ Ho) in Hs'. split; [exact Hc|]. rewrite H5. split; [|split; congruence].
    unfold accounted. rewrite (closed_held _ Hc), Hpi, (opened_none _ Ho), Hb, Hs'. split_and!; set_solver.
Qed.

(** The driver's lines and its UART are open. *)
Definition usable (st : e22) : Prop :=
  0 <= mode_fd st /\ 0 <= aux_fd st /\ if swapped_uart st then 0 <= pigpio_pi st else 0 <= uart_fd st.

(** Only a part of the configuration command went out, in configuration mode. *)
Definition config_air (v v' : wires) : Prop :=
  exists pieces rest, air v' = air v ++ map (pair 2) pieces /\ config_command = concat pieces ++ rest.

Lemma config_air_same v v' : air v' = air v -> config_air v v'.
Proof. intros Ha. exists [], config_command. by rewrite Ha, app_nil_r. Qed.

Lemma config_air_then v v1 v' : air v1 = air v -> config_air v1 v' -> config_air v v'.
Proof. intros Ha (pieces & rest & Hv & Hc). exists pieces, rest. by rewrite <- Ha. Qed.

Lemma radio_init_effect st k :
  closed st -> accounted base sbase st (view k) ->
  wp (radio_init (K := K) fuel)
    (fun r s' => accounted base sbase s'.1 (view s'.2) /\ config_air (view k) (view s'.2)
       /\ (r <> 0 -> closed s'.1) /\ (r = 0 -> pins (view s'.2) = 0 /\ usable s'.1)) (st, k).
Proof.
  intros Hc Hacc. unfold radio_init. apply wp_bind, wp_quiet; [quiet|]. intros value k0 H0'.
  apply wp_bind. cbn [wp assign fst snd]. set (st0 := st <| swapped_uart := _ |>).
  assert (closed st0 /\ accounted base sbase st0 (view k)) as [Hc0 Hacc0] by done. rewrite <- H0' in Hacc0 |- *.
  clearbody st0. clear Hc Hacc H0' st k value.
  apply wp_bind, (wp_mono _ (fun ok s' => accounted base sbase s'.1 (view s'.2) /\ config_air (view k0) (view s'.2)
    /\ (ok = true -> pins (view s'.2) = 0 /\ usable s'.1))).
  { intros ok [st1 k1] (Hacc1 & Hair1 & Hok). cbn [fst snd] in *. destruct ok.
    - cbn [wp mret dev_ret fst snd]. split_and!; [done|done|done|auto].
    - apply wp_bind. eapply wp_mono; [|by apply close_all_effect].
      intros [] [st2 k2] (Hc2 & Hacc2 & Hp2 & Ha2). cbn [fst snd] in *. split_and!; try done.
      destruct Hair1 as (pieces & rest & Ha1 & Hrest). exists pieces, rest. cbn [fst snd]; by rewrite Ha2. }
  cbn [all_hold]. unfold returns_zero.
  apply wp_bind, wp_bind. eapply wp_mono; [|by apply open_gpio_effect].
  intros r1 [st1 k1] ((m & a & Hst1 & Hfd1) & Hacc1 & Hp1 & Ha1). cbn [fst snd] in *.
  cbn [wp mret dev_ret]. destruct (Z.eqb_spec r1 0) as [Hr1|Hr1]; [|split_and!; [done|by apply config_air_same|done]].
  specialize (Hfd1 Hr1). pose proof Hc0 as (Hu & _ & _ & Hpi).
  assert (uart_fd st1 = -1 /\ pigpio_pi st1 < 0 /\ mode_fd st1 = m /\ aux_fd st1 = a) as (Hu1 & Hpi1 & Hm1 & Haux1)
    by (by rewrite Hst1). clear Hst1.
  apply wp_bind, wp_bind. eapply wp_mono; [|by apply open_uart_effect].
  intros r2 [st2 k2] ((u & p & b & Hst2 & Hfd2) & Hacc2 & Hp2 & Ha2). cbn [fst snd] in *.
  cbn [wp mret dev_ret].
  destruct (Z.eqb_spec r2 0) as [Hr2|Hr2]; [|split_and!; [done|apply config_air_same; cbn [fst snd]; congruence|done]].
  specialize (Hfd2 Hr2).
  assert (usable st2) as Hus.
  { unfold usable. rewrite Hst2. change (0 <= mode_fd st1 /\ 0 <= aux_fd st1 /\ if swapped_uart st1 then 0 <= p else 0 <= u).
    rewrite Hm1, Haux1. tauto. }
  clear Hst2 Hfd2. apply wp_bind, wp_bind. eapply wp_mono; [|apply configure_effect].
  intros r3 [st3 k3] [Hst3 (Hf3 & Hs3 & Hair3 & Hp3)]. cbn [fst snd] in *. subst st3.
  assert (accounted base sbase st2 (view k3)) as Hacc3 by (unfold accounted in *; by rewrite Hf3, Hs3).
  assert (config_air (view k0) (view k3)) as Hair.
  { apply (config_air_then _ (view k2)); [congruence|exact Hair3]. }
  cbn [wp mret dev_ret]. destruct (Z.eqb_spec r3 0); split_and!; try done; auto.
Qed.

Definition dev_inv_tail (st : e22) (v : wires) : Prop :=
  (0 <= aux_fd st -> pins v = 0) /\ (e_ready st = true -> usable st).

(** What holds whenever no call of the driver is under way. *)
Definition dev_inv (s : e22 * K) : Prop :=
  accounted base sbase s.1 (view s.2) /\ dev_inv_tail s.1 (view s.2).

Lemma dev_inv_same st k k' : view k' = view k -> dev_inv (st, k) -> dev_inv (st, k').
Proof. unfold dev_inv. cbn [fst snd]. by intros ->. Qed.

(** An attempt to open the radio: it ends with everything open and the module in normal
    mode, or with nothing open. *)
Lemma attempt_effect now st k :
  dev_inv (st, k) ->
  wp (attempt_init (K := K) fuel now)
    (fun _ s' => dev_inv s' /\ config_air (view k) (view s'.2)
       /\ (e_ready s'.1 = false -> closed s'.1)) (st, k).
Proof.
  intros (Hacc & _). unfold attempt_init. apply wp_bind. cbn [wp assign fst snd].
  set (st0 := _ <| e_last_init_ms := now |>). assert (accounted base sbase st0 (view k)) as Hacc0 by done.
  clearbody st0. apply wp_bind. eapply wp_mono; [|by apply close_all_effect].
  intros [] [st1 k1] (Hc1 & Hacc1 & Hp1 & Ha1). cbn [fst snd] in *.
  apply wp_bind. cbn [wp assign fst snd]. set (st2 := st1 <| e_deframer ::= radio_deframer_reset |>).
  assert (closed st2 /\ accounted base sbase st2 (view k1)) as [Hc2 Hacc2] by done. clearbody st2.
  apply wp_bind. eapply wp_mono; [|by apply radio_init_effect].
  intros r [st3 k3] (Hacc3 & Hair3 & Hbad & Hgood). cbn [fst snd] in *. cbn [wp assign fst snd].
  split; [split; [exact Hacc3|]|split; [by apply (config_air_then _ (view k1))|]].
  - change (dev_inv_tail (st3 <| e_ready := r =? 0 |>) (view k3)). destruct (Z.eqb_spec r 0) as [Hr|Hr].
    + destruct (Hgood Hr). by split.
    + destruct (Hbad Hr) as (_ & _ & Haux & _). split; [|done].
      change (aux_fd (st3 <| e_ready := false |>)) with (aux_fd st3). lia.
  - change (e_ready (st3 <| e_ready := r =? 0 |>)) with (r =? 0). intros Hr. apply Hbad. by apply Z.eqb_neq.
Qed.
End Accounting.

(** ** Calls of the driver *)
Section Calls.
Context {K : Type} `{Documented K} (base sbase : gset Z).
Implicit Types s : e22 * K.

Lemma ensure_effect fuel st k :
  dev_inv base sbase (st, k) ->
  wp (ensure_ready (K := K) fuel) (fun _ s' => dev_inv base sbase s' /\ config_air (view k) (view s'.2)) (st, k).
Proof.
  intros Hinv. unfold ensure_ready. apply wp_bind. cbn [wp variables fst]. apply wp_bind.
  apply (wp_mono _ (fun _ s' => dev_inv base sbase s' /\ config_air (view k) (view s'.2))); [done|].
  destruct (e_ready st); cbn [negb]; [by split; [|apply config_air_same]|].
  apply wp_bind, wp_quiet; [quiet|]. intros now k1 H1'.
  apply (dev_inv_same base sbase _ _ k1 H1') in Hinv.
  destruct (_ || _); [|by split; [|apply config_air_same; cbn [fst snd]; rewrite H1']].
  eapply wp_mono; [|by apply attempt_effect]. intros [] s' (Hi & Ha & _). split; [exact Hi|].
  apply (config_air_then _ (view k1)); [by rewrite H1'|exact Ha].
Qed.

Lemma send_effect fuel data st k :
  dev_inv base sbase (st, k) ->
  wp (send_section (K := K) fuel data)
    (fun r s' => s'.1 = st /\ same_wiring (view k) (view s'.2)
       /\ exists pieces rest, air (view s'.2) = air (view k) ++ map (pair 0) pieces
            /\ data = concat pieces ++ rest /\ (r = 0 -> rest = [])) (st, k).
Proof.
  intros [_ [Hpins _]]. cbn [fst snd] in Hpins. unfold send_section. cbn [all_hold]. unfold returns_zero.
  apply wp_bind, wp_bind, wp_bind. eapply wp_mono; [|apply wait_aux_open].
  intros r1 [st1 k1] [[Hst1 H1'] Hopen]. cbn [fst snd] in *. subst st1. cbn [wp mret dev_ret].
  assert (forall r k', r <> 0 -> view k' = view k ->
    st = st /\ same_wiring (view k) (view k') /\ exists pieces rest,
      air (view k') = air (view k) ++ map (pair 0) pieces /\ data = concat pieces ++ rest /\ (r = 0 -> rest = []))
    as Hnone.
  { intros r k' Hr ->. split_and!; try done. exists [], data. by rewrite app_nil_r. }
  destruct (Z.eqb_spec r1 0) as [Hr1|Hr1]; [|by apply Hnone].
  specialize (Hpins (Hopen Hr1)). apply wp_bind, wp_bind. eapply wp_mono; [|apply write_all_sends].
  intros r2 [st2 k2] [Hst2 [Hw (pieces & rest & Ha & Hd & Hr)]]. cbn [fst snd] in *. subst st2.
  rewrite H1' in *. rewrite Hpins in Ha. cbn [wp mret dev_ret].
  destruct (Z.eqb_spec r2 0) as [Hr2|Hr2]; cbn [negb].
  - apply wp_bind, wp_quiet; [quiet|]. intros r3 k3 H3. apply wp_bind, wp_quiet; [quiet|]. intros r4 k4 H4.
    apply wp_bind, wp_quiet; [quiet|]. intros [] k5 H5. cbn [wp mret dev_ret fst snd].
    rewrite H5, H4, H3. split_and!; [done|apply Hw..|]. exists pieces, rest. split_and!; [done|done|auto].
  - split_and!; [done|apply Hw..|]. by exists pieces, rest.
Qed.

(** The receiver changes nothing outside, and of the variables only the deframer.  What it
    does is a run of [Real.receive_loop] on the answers it got from the UART. *)
Lemma receive_effect fuel rounds start stats packet st k :
  wp (receive_loop (K := K) fuel rounds start stats packet)
    (fun a s' => view s'.2 = view k /\ s'.1 = (st <| e_deframer := e_deframer s'.1 |>)
       /\ exists events, Real.receive_loop (e_deframer st) stats packet start events
            = Some (a.1.1, e_deframer s'.1, a.1.2, a.2)) (st, k).
Proof.
  revert stats packet st k. induction rounds as [|rounds IH]; intros stats packet st k;
    cbn [receive_loop]; [done|].
  apply wp_bind, wp_quiet; [quiet|]. intros now k1 Hk1.
  destruct (start + Real.RX_TIMEOUT_MS + Real.RX_PACKET_MAX_MS <=? now) eqn:Elate.
  { split_and!; try done. exists [(now, Real.Uart_timeout)]. cbn [Real.receive_loop fst snd]. by rewrite Elate. }
  apply wp_bind. cbn [wp variables fst]. cbv zeta.
  set (d := e_deframer st). set (wait := if 0 <? radio_deframer_buffered d then _ else _).
  assert ((radio_deframer_buffered d <=? 0) && (start + Real.RX_TIMEOUT_MS - now <=? 0) = (wait <=? 0)) as Hwait.
  { subst wait. rewrite Z.leb_antisym. destruct (0 <? radio_deframer_buffered d); [done|].
    by rewrite Z.leb_antisym. }
  destruct (wait <=? 0) eqn:Equiet.
  { split_and!; try done. exists [(now, Real.Uart_timeout)]. cbn [Real.receive_loop fst snd].
    fold d. by rewrite Elate, Hwait. }
  clearbody wait. apply wp_bind, wp_quiet; [quiet|]. intros [n byte] k2 Hk2.
  assert (forall answer events, Real.receive_loop d stats packet start ((now, answer) :: events)
    = match answer with
      | Real.Uart_error => Some (Real.Rx_failed, d, stats, packet)
      | Real.Uart_timeout => Real.receive_loop (radio_deframer_reset d)
          (radio_stats_rx_skipped (radio_deframer_buffered d) stats) packet start events
      | Real.Uart_byte b =>
          match receive_byte d stats packet b with
          | None => None
          | Some (packet_length, d, s, packet) =>
              if packet_length =? 0 then Real.receive_loop d s packet start events
              else Some (Real.Rx_packet packet_length, d, s, packet)
          end
      end) as Hround by (intros; cbn [Real.receive_loop]; by rewrite Elate, Hwait).
  destruct (n <? 0).
  { split_and!; [by cbn [snd]; rewrite Hk2|done|]. exists [(now, Real.Uart_error)]. by rewrite Hround. }
  destruct (n =? 0).
  { apply wp_bind. cbn [wp assign fst snd]. eapply wp_mono; [|apply IH].
    intros a [st' k'] (Hv & Hst & events & He). cbn [fst snd] in *. split_and!; [by rewrite Hv, Hk2|by rewrite Hst|].
    exists ((now, Real.Uart_timeout) :: events). rewrite Hround. exact He. }
  destruct (receive_byte d stats packet byte) as [[[[packet_length d'] s'] packet']|] eqn:Eb; [|done].
  apply wp_bind. cbn [wp assign fst snd]. destruct (packet_length =? 0) eqn:Epl.
  - eapply wp_mono; [|apply IH].
    intros a [st' k'] (Hv & Hst & events & He). cbn [fst snd] in *. split_and!; [by rewrite Hv, Hk2|by rewrite Hst|].
    exists ((now, Real.Uart_byte byte) :: events). by rewrite Hround, Eb, Epl.
  - split_and!; [by cbn [snd]; rewrite Hk2|done|]. exists [(now, Real.Uart_byte byte)]. by rewrite Hround, Eb, Epl.
Qed.
End Calls.

(** ** What the abstract driver of [RadioDriver] knows *)

Create HintDb below.
Section Abstraction.
Context {K : Type} `{Platform K} (fuel : nat).
Implicit Types s : e22 * K.

Definition driver_of (st : e22) : Real.driver :=
  Real.mk_driver (e_ready st) (e_init_attempted st) (e_last_init_ms st) (e_deframer st).

Definition below {A} (m : dev K A) : Prop := forall s, wp m (fun _ s' => driver_of s'.1 = driver_of s.1) s.

Lemma below_ret {A} (a : A) : below (mret a).
Proof. by intros s. Qed.
Lemma below_variables : below variables.
Proof. by intros s. Qed.
Lemma below_running {A} : below (A := A) still_running.
Proof. by intros s. Qed.
Lemma below_call {A} (c : syscall A) : below (call c).
Proof. intros s. unfold wp, call. by destruct (run c s.2). Qed.
Lemma below_assign f : (forall st, driver_of (f st) = driver_of st) -> below (assign f).
Proof. intros Hf s. apply Hf. Qed.

Lemma below_bind {A B} (m : dev K A) (f : A -> dev K B) : below m -> (forall a, below (f a)) -> below (m ≫= f).
Proof.
  intros Hm Hf s. apply wp_bind. eapply wp_mono; [|apply Hm]. intros a s1 H1.
  eapply wp_mono; [|apply Hf]. intros b s2 H2. by rewrite H2.
Qed.

#[local] Hint Resolve below_ret below_variables below_running below_call : below.

Ltac below :=
  repeat first
    [ assumption | solve [auto with below] | apply below_bind; [|intros ?] | apply below_assign; done
    | match goal with
      | |- below (let '_ := ?x in _) => destruct x
      | |- below (if ?b then _ else _) => destruct b
      | |- below (match ?x with _ => _ end) => destruct x
      end
    | progress cbv zeta ].

Lemma aux_loop_below rounds level deadline : below (aux_loop rounds level deadline).
Proof. induction rounds as [|rounds IH]; cbn [aux_loop]; unfold read_aux, now_ms, sleep_ms; below. Qed.

Lemma read_byte_below timeout : below (uart_read_byte fuel timeout).
Proof.
  unfold uart_read_byte, now_ms. apply below_bind; [below|]. intros now. apply below_bind; [below|]. intros st.
  cbv zeta. destruct (swapped_uart st); generalize (now + timeout); intros deadline.
  - induction fuel as [|rounds IH]; cbn [soft_read_loop]; unfold now_ms, sleep_ms; below.
  - induction fuel as [|rounds IH]; cbn [hard_read_loop]; unfold now_ms; below.
Qed.
Hint Resolve aux_loop_below read_byte_below : below.

Lemma read_exact_below length timeout : below (read_exact fuel length timeout).
Proof.
  unfold read_exact, now_ms. apply below_bind; [below|]. intros now. generalize (now + timeout), (@nil Z).
  induction length as [|length IH]; intros deadline got; cbn [read_exact_loop]; unfold now_ms; below.
Qed.

Lemma flush_below : below (uart_flush_input fuel).
Proof.
  unfold uart_flush_input. apply below_bind; [below|]. intros st. destruct (swapped_uart st); [|below].
  induction fuel as [|rounds IH]; cbn [drain_loop]; below.
Qed.

Lemma wave_loop_below rounds deadline result busy : below (wave_loop rounds deadline result busy).
Proof.
  revert result busy. induction rounds as [|rounds IH]; intros; cbn [wave_loop]; unfold now_ms, sleep_ms; below.
Qed.

Lemma write_loop_below rounds data : below (write_loop rounds data).
Proof. revert data. induction rounds as [|rounds IH]; intros; cbn [write_loop]; below. Qed.
Hint Resolve read_exact_below flush_below wave_loop_below write_loop_below : below.

Lemma close_all_below : below close_all.
Proof. unfold close_all, close_open. below. Qed.

Lemma radio_init_below : below (radio_init fuel).
Proof.
  unfold radio_init, returns_zero, open_gpio, request_lines, open_uart, open_soft_uart, open_hard_uart,
    configure_radio, set_radio_mode, wait_for_aux, write_all, write_soft, close_all, close_open, now_ms, sleep_ms.
  cbn [all_hold any_fails]. below.
Qed.

Lemma ensure_open dr now ok : Real.ready dr = true -> Real.ensure_ready dr now ok = (0, dr).
Proof. intros Hr. unfold Real.ensure_ready. rewrite Hr. cbn [negb]. by rewrite Hr. Qed.

Lemma ensure_waits dr now ok :
  Real.ready dr = false ->
  negb (Real.init_attempted dr) || (Real.INIT_RETRY_MS <=? now - Real.last_init_ms dr) = false ->
  Real.ensure_ready dr now ok = (-1, dr).
Proof. intros Hr Hw. unfold Real.ensure_ready. rewrite Hr, Hw. cbn [negb]. by rewrite Hr. Qed.

Lemma ensure_tries dr now ok :
  Real.ready dr = false ->
  negb (Real.init_attempted dr) || (Real.INIT_RETRY_MS <=? now - Real.last_init_ms dr) = true ->
  Real.ensure_ready dr now ok
  = ((if ok then 0 else -1), Real.mk_driver ok true now (radio_deframer_reset (Real.rx_deframer dr))).
Proof. intros Hr Hw. unfold Real.ensure_ready. by rewrite Hr, Hw. Qed.

Lemma attempt_driver now st k :
  wp (attempt_init fuel now) (fun _ s' => driver_of s'.1
    = Real.mk_driver (e_ready s'.1) true now (radio_deframer_reset (Real.rx_deframer (driver_of st)))) (st, k).
Proof.
  unfold attempt_init. apply wp_bind. cbn [wp assign fst snd].
  apply wp_bind. eapply wp_mono; [|apply close_all_below]. intros [] [st2 k2] H2. cbn [fst snd] in H2.
  apply wp_bind. cbn [wp assign fst snd].
  apply wp_bind. eapply wp_mono; [|apply radio_init_below]. intros r [st3 k3] H3. cbn [fst snd] in H3.
  cbn [wp assign fst snd].
  transitivity (Real.mk_driver (r =? 0) (Real.init_attempted (driver_of st3)) (Real.last_init_ms (driver_of st3))
    (Real.rx_deframer (driver_of st3))); [reflexivity|]. rewrite H3.
  transitivity (Real.mk_driver (r =? 0) (Real.init_attempted (driver_of st2)) (Real.last_init_ms (driver_of st2))
    (radio_deframer_reset (Real.rx_deframer (driver_of st2)))); [reflexivity|]. by rewrite H2.
Qed.

Lemma now_same st k : wp now_ms (fun _ s' => s'.1 = st) (st, k).
Proof.
  unfold now_ms. apply wp_bind. unfold wp, call. cbn [fst snd]. by destruct (run Clock_gettime k).
Qed.

(** [ensure_ready] is the one of [RadioDriver] at some time, with some outcome of the opening. *)
Lemma ensure_driver st k :
  wp (ensure_ready fuel) (fun r s' => exists now init_ok,
    Real.ensure_ready (driver_of st) now init_ok = (r, driver_of s'.1)) (st, k).
Proof.
  unfold ensure_ready. apply wp_bind. cbn [wp variables fst snd]. apply wp_bind.
  destruct (e_ready st) eqn:Er; cbn [negb].
  { cbn [wp mret dev_ret variables fst snd mbind dev_bind]. exists 0, false. rewrite ensure_open by exact Er.
    transitivity ((if e_ready st then 0 else -1), driver_of st); [by rewrite Er|reflexivity]. }
  apply wp_bind. apply (wp_mono _ (fun _ s' => s'.1 = st)); [|by apply now_same].
  intros now [st1 k1] Hst1. cbn [fst] in Hst1. subst st1.
  destruct (negb (e_init_attempted st) || _) eqn:Et.
  2:{ exists now, false. rewrite ensure_waits by assumption.
      transitivity ((if e_ready st then 0 else -1), driver_of st); [by rewrite Er|reflexivity]. }
  eapply wp_mono; [|apply attempt_driver]. intros [] [st2 k2] H2. cbn [fst] in H2.
  exists now, (e_ready st2). rewrite ensure_tries by assumption. cbn [fst]. by rewrite H2.
Qed.
End Abstraction.

(** ** Every history of the driver *)
Section History.
Context {K : Type} `{Documented K} (base sbase : gset Z).
Implicit Types s : e22 * K.

(** Threads take the driver's locks one after the other: opening, sending and receiving are
    steps, and so is a failed reception's request to reopen; [asked] are the packets given
    to [send_section].  Meanwhile time passes and the platform changes in ways that do not
    show in its [wires]. *)
Inductive device_reach : e22 * K -> list (list Z) -> Prop :=
  | Device_start k :
      fds (view k) = base -> sessions (view k) = sbase -> air (view k) = [] -> device_reach (e22_static, k) []
  | Device_ensure s asked fuel r s' :
      device_reach s asked -> ensure_ready fuel s = Some (r, s') -> device_reach s' asked
  | Device_send s asked fuel data r s' :
      device_reach s asked -> send_section fuel data s = Some (r, s') -> device_reach s' (data :: asked)
  | Device_receive s asked fuel stats packet0 out s' :
      device_reach s asked -> receive_section fuel stats packet0 s = Some (out, s') -> device_reach s' asked
  | Device_reopen s asked : device_reach s asked -> device_reach (s.1 <| e_ready := false |>, s.2) asked
  | Device_meanwhile s asked k' : device_reach s asked -> view k' = view s.2 -> device_reach (s.1, k') asked.

(** The bytes [c] are a piece of [d]. *)
Definition piece_of (c d : list Z) : Prop := exists before after, d = before ++ c ++ after.

(** What may go to the module: the configuration command in configuration mode, packets in
    normal mode. *)
Definition air_entry_ok (asked : list (list Z)) (entry : Z * list Z) : Prop :=
  (entry.1 = 2 /\ piece_of entry.2 config_command)
  \/ (entry.1 = 0 /\ exists packet, packet ∈ asked /\ piece_of entry.2 packet).

Lemma pieces_are_pieces (pieces : list (list Z)) rest c : c ∈ pieces -> piece_of c (concat pieces ++ rest).
Proof.
  intros (l1 & l2 & ->)%list_elem_of_split. exists (concat l1), (concat l2 ++ rest).
  rewrite concat_app. cbn [concat]. by rewrite <- !app_assoc.
Qed.

Lemma air_config asked v v' :
  Forall (air_entry_ok asked) (air v) -> config_air v v' -> Forall (air_entry_ok asked) (air v').
Proof.
  intros Hv (pieces & rest & -> & Hc). apply Forall_app_2; [done|]. apply Forall_forall.
  intros [m c] Hin. apply list_elem_of_fmap in Hin as (p & [= -> ->] & Hp). left.
  split; [done|]. cbn [snd]. rewrite Hc. by apply pieces_are_pieces.
Qed.

Lemma air_packet asked data pieces rest v v' :
  Forall (air_entry_ok asked) (air v) -> air v' = air v ++ map (pair 0) pieces ->
  data = concat pieces ++ rest -> Forall (air_entry_ok (data :: asked)) (air v').
Proof.
  intros Hv -> Hd. apply Forall_app_2.
  - eapply Forall_impl; [exact Hv|]. intros [m c] [He|(He & packet & Hin & Hp)]; [by left|right].
    split; [done|]. exists packet. split; [by right|done].
  - apply Forall_forall. intros [m c] Hin. apply list_elem_of_fmap in Hin as (p & [= -> ->] & Hp). right.
    split; [done|]. exists data. split; [by left|]. cbn [snd]. rewrite Hd. by apply pieces_are_pieces.
Qed.

Lemma static_inv k :
  fds (view k) = base -> sessions (view k) = sbase -> dev_inv base sbase (e22_static, k).
Proof.
  intros Hf Hs. assert (closed e22_static) as Hc by done. split; [|split; [|done]].
  - unfold accounted. cbn [fst snd]. rewrite (closed_held _ Hc), Hf, Hs.
    change (pigpio_pi e22_static) with (-1). rewrite (opened_none (-1)) by lia. split_and!; set_solver.
  - cbn [fst]. change (aux_fd e22_static) with (-1). lia.
Qed.

Lemma dev_inv_set_ready st k : dev_inv base sbase (st, k) -> dev_inv base sbase (st <| e_ready := false |>, k).
Proof. intros (Hacc & Hp & _). split; [exact Hacc|]. by split. Qed.

Lemma dev_inv_set_deframer st k d : dev_inv base sbase (st, k) -> dev_inv base sbase (st <| e_deframer := d |>, k).
Proof. intros (Hacc & Hp & Hr). split; [exact Hacc|]. by split. Qed.

Lemma device_reach_inv s asked :
  device_reach s asked -> dev_inv base sbase s /\ Forall (air_entry_ok asked) (air (view s.2)).
Proof.
  induction 1 as [k Hf Hs Ha|[st k] asked fuel r s' _ [Hi Ha] E|[st k] asked fuel data r s' _ [Hi Ha] E
    |[st k] asked fuel stats packet0 out s' _ [Hi Ha] E|[st k] asked _ [Hi Ha]|[st k] asked k' _ [Hi Ha] Hv].
  - split; [by apply static_inv|]. cbn [snd]. by rewrite Ha.
  - destruct (wp_run _ _ _ _ _ (ensure_effect base sbase fuel st k Hi) E) as [Hi' Ha'].
    split; [done|]. by apply (air_config _ (view k)).
  - destruct (wp_run _ _ _ _ _ (send_effect base sbase fuel data st k Hi) E)
      as (Hst & (Hf & Hs & Hp) & pieces & rest & Ha' & Hd & _).
    destruct s' as [st' k']. cbn [fst snd] in *. subst st'. split.
    + destruct Hi as [Hacc [Hpins Hr]]. cbn [fst snd] in *. split; [|split; cbn [fst snd]; [by rewrite Hp|done]].
      unfold accounted in *. cbn [fst snd]. by rewrite Hf, Hs.
    + by apply (air_packet _ _ pieces rest (view k)).
  - revert E. unfold receive_section. intros E.
    assert (wp (start ← now_ms; receive_loop fuel fuel start stats packet0)
      (fun _ s' => view s'.2 = view k /\ s'.1 = (st <| e_deframer := e_deframer s'.1 |>)) (st, k)) as Hwp.
    { apply wp_bind, wp_quiet; [quiet|]. intros start k1 Hk1. eapply wp_mono; [|apply receive_effect].
      intros a s1 (Hv & Hst & _). by rewrite Hv, Hk1. }
    destruct (wp_run _ _ _ _ _ Hwp E) as [Hv Hst]. destruct s' as [st' k']. cbn [fst snd] in Hv, Hst |- *.
    rewrite Hv. split; [|done]. apply (dev_inv_same base sbase _ k k' Hv). rewrite Hst.
    by apply dev_inv_set_deframer.
  - split; [by apply dev_inv_set_ready|done].
  - cbn [fst snd] in *. split; [by apply (dev_inv_same base sbase _ k k' Hv)|by rewrite Hv].
Qed.


(** C24. The driver loses no descriptor.  Whatever its threads do, the process has open what
    the rest of it has, and exactly the descriptors (and the pigpio session) in the
    driver's variables; a driver that says it is ready has its lines and its UART; and an
    attempt to open the radio that fails leaves nothing open behind. *)
Theorem radio_accounts_descriptors s asked :
  device_reach s asked ->
  accounted base sbase s.1 (view s.2) /\ (e_ready s.1 = true -> usable s.1)
  /\ forall fuel now s', attempt_init fuel now s = Some ((), s') -> e_ready s'.1 = false ->
       fds (view s'.2) = base /\ sessions (view s'.2) = sbase.
Proof.
  intros Hs. destruct (device_reach_inv s asked Hs) as [Hi _]. pose proof Hi as (Hacc & _ & Hr).
  split; [done|]. split; [done|]. intros fuel now s' E Hfail. destruct s as [st k].
  destruct (wp_run _ _ _ _ _ (attempt_effect fuel base sbase now st k Hi) E) as ([(Hf & _ & Hss & _) _] & _ & Hc).
  specialize (Hc Hfail). rewrite Hf, Hss, (closed_held _ Hc), (opened_none _ (proj2 (proj2 (proj2 Hc)))).
  split; set_solver.
Qed.
End History.

(** *** The driver of [RadioDriver] is an abstraction of this one *)
Section Refinement.
Context {K : Type} `{Documented K} (fuel : nat).

(** The rest of [Real.radio_receive] after its loop. *)
Lemma deliver_abstracts dr dr1 stats packet0 now start init_ok b max_length events out d s1 packet st (k : K) :
  (max_length =? 0) = false -> Real.ensure_ready dr now init_ok = (0, dr1) ->
  Real.receive_loop (Real.rx_deframer dr1) stats packet0 start events = Some (out, d, s1, packet) ->
  driver_of st = Real.mk_driver (Real.ready dr1) (Real.init_attempted dr1) (Real.last_init_ms dr1) d ->
  wp (deliver b max_length (out, s1, packet))
    (fun a s' => Real.radio_receive dr stats packet0 now start init_ok (Some b) max_length events
                 = Some (a.1.1, a.1.2, driver_of s'.1, a.2)) (st, k).
Proof.
  intros Em Hens Hloop Hst. unfold Real.radio_receive. rewrite Em, Hens. cbn [negb Z.eqb].
  rewrite Hloop, <- Hst. unfold deliver. destruct out as [packet_length| |].
  - destruct (lg_ccsds_profile_parse (Some packet) packet_length (Some sample_view)) as [c [v|]]; [|done].
    by destruct (max_length <? payload_length v).
  - done.
  - apply wp_bind. cbn [wp assign mret dev_ret fst snd].
    transitivity (Some (-1, Some b, Real.mk_driver false (Real.init_attempted (driver_of st))
      (Real.last_init_ms (driver_of st)) (Real.rx_deframer (driver_of st)), s1)); [by rewrite Hst|reflexivity].
Qed.

Lemma receive_abstracts stats packet0 b max_length st (k : K) :
  (max_length =? 0) = false ->
  wp (r ← ensure_ready fuel;
      if negb (r =? 0) then mret (-1, Some b, stats)
      else result ← receive_section fuel stats packet0; deliver b max_length result)
    (fun a s' => exists now start init_ok events,
       Real.radio_receive (driver_of st) stats packet0 now start init_ok (Some b) max_length events
       = Some (a.1.1, a.1.2, driver_of s'.1, a.2)) (st, k).
Proof.
  intros Em. apply wp_bind. eapply wp_mono; [|apply ensure_driver].
  intros r1 [st1 k1] (now & init_ok & Hens). cbn [fst] in Hens.
  destruct (Z.eqb_spec r1 0) as [Er1|Er1]; cbn [negb].
  2:{ exists now, 0, init_ok, []. unfold Real.radio_receive. by rewrite Em, Hens, (proj2 (Z.eqb_neq _ _) Er1). }
  subst r1. unfold receive_section. apply wp_bind, wp_bind, wp_quiet; [quiet|]. intros start k2 _.
  eapply wp_mono; [|apply receive_effect].
  intros [[out s1] packet] [st3 k3] (_ & Hst3 & events & Hloop). cbn [fst snd] in Hst3, Hloop.
  eapply wp_mono; [|by eapply (deliver_abstracts (driver_of st) (driver_of st1)); [| |exact Hloop|rewrite Hst3]].
  intros a s' Ha. by exists now, start, init_ok, events.
Qed.

(** A reception of the driver is one of [RadioDriver.Real], at some times, with some answers
    of the UART; what is proved there holds here. *)
Lemma device_receive_refines stats packet0 buffer max_length (st st' : e22) (k k' : K) r buffer' stats' :
  radio_receive fuel stats packet0 buffer max_length (st, k) = Some (r, buffer', stats', (st', k')) ->
  exists now start init_ok events,
    Real.radio_receive (driver_of st) stats packet0 now start init_ok buffer max_length events
    = Some (r, buffer', driver_of st', stats').
Proof.
  intros E. unfold radio_receive in E.
  destruct buffer as [b|]; [|injection E as <- <- <- <- <-; by exists 0, 0, false, []].
  destruct (max_length =? 0) eqn:Em.
  { injection E as <- <- <- <- <-. exists 0, 0, false, []. cbn [Real.radio_receive]. by rewrite Em. }
  exact (wp_run _ _ _ _ _ (receive_abstracts stats packet0 b max_length st k Em) E).
Qed.
End Refinement.

(** ** Waiting ends *)

(** A platform whose clock, in nanoseconds, does not go back, and goes on while one sleeps. *)
Class Ticking (K : Type) `{Platform K} := {
  clock : K -> Z;
  clock_forward : forall A (c : syscall A) k, clock k <= clock (run c k).2;
  clock_read : forall k, let t := (run Clock_gettime k).1 in
    0 <= tv_nsec t < 1000000000 /\ clock k <= tv_sec t * 1000000000 + tv_nsec t <= clock (run Clock_gettime k).2;
  clock_sleep : forall t k, clock k + tv_sec t * 1000000000 + tv_nsec t <= clock (run (Nanosleep t) k).2
}.

Section Waiting.
Context {K : Type} `{Ticking K}.

Lemma now_ms_ticks st (k : K) :
  exists now k', now_ms (st, k) = Some (now, (st, k')) /\ clock k <= clock k'
    /\ now * 1000000 <= clock k' /\ clock k < (now + 1) * 1000000.
Proof.
  pose proof (clock_read k) as Hr. cbv zeta in Hr. unfold now_ms, mbind, dev_bind, call. cbn [fst snd].
  destruct (run Clock_gettime k) as [t k'] eqn:E. cbn [fst snd] in Hr.
  exists (tv_sec t * 1000 + Z.quot (tv_nsec t) 1000000), k'. split; [done|].
  rewrite Z.quot_div_nonneg by lia. split; [lia|]. pose proof (Z.div_mod (tv_nsec t) 1000000 ltac:(lia)).
  pose proof (Z.mod_pos_bound (tv_nsec t) 1000000 ltac:(lia)). lia.
Qed.

(** A round for every millisecond that is left, and one more. *)
Lemma aux_loop_ends rounds level deadline st (k : K) :
  deadline * 1000000 - clock k <= Z.of_nat rounds * 1000000 ->
  is_Some (aux_loop (S rounds) level deadline (st, k)).
Proof.
  revert k. induction rounds as [|rounds IH]; intros k Hleft; cbn [aux_loop]; unfold mbind at 1, dev_bind at 1.
  all: unfold read_aux, mbind at 1, dev_bind at 1; cbn [variables]; unfold mbind at 1, dev_bind at 1, call; cbn [fst snd];
    pose proof (clock_forward _ (Gpio_get_values (aux_fd st) 1) k) as Hf;
    destruct (run (Gpio_get_values (aux_fd st) 1) k) as [[r bits] k1]; cbn [snd] in Hf; cbn [mret dev_ret];
    destruct (_ <? 0); [done|]; destruct (_ =? level); [done|]; unfold mbind at 1, dev_bind at 1;
    destruct (now_ms_ticks st k1) as (now & k2 & -> & Hk2 & Hn1 & Hn2);
    destruct (Z.leb_spec deadline now) as [Hd|Hd]; [done|].
  - lia.
  - unfold mbind at 1, dev_bind at 1, sleep_ms, call. cbn [fst snd].
    pose proof (clock_sleep (mk_time (Z.quot 1 1000) (Z.rem 1 1000 * 1000000)) k2) as Hs.
    change (tv_sec (mk_time (Z.quot 1 1000) (Z.rem 1 1000 * 1000000))) with 0 in Hs.
    change (tv_nsec (mk_time (Z.quot 1 1000) (Z.rem 1 1000 * 1000000))) with 1000000 in Hs.
    destruct (run (Nanosleep _) k2) as [[] k3]. cbn [snd] in Hs. apply IH. lia.
Qed.

(** A wait for the AUX pin ends within its timeout, whatever the pin does. *)
Lemma wait_for_aux_returns fuel level timeout st (k : K) :
  0 <= timeout < Z.of_nat fuel -> is_Some (wait_for_aux fuel level timeout (st, k)).
Proof.
  intros Hfuel. unfold wait_for_aux, mbind, dev_bind.
  destruct (now_ms_ticks st k) as (now & k1 & -> & _ & Hn & _).
  destruct fuel as [|fuel]; [lia|]. apply aux_loop_ends. lia.
Qed.
End Waiting.

(** ** A bench platform *)
Module Bench.

(** Descriptors count up, AUX is always idle, the UART takes at most seven bytes at a time
    and gives back [script], and there is no pigpio. *)
#[projections(primitive)]
Record bench := mk_bench { wiring : wires; next : Z; nanoseconds : Z; script : list Z }.

Definition open_next (k : bench) : Z * bench :=
  if (next k <? 0) || bool_decide (next k ∈ fds (wiring k)) then (-1, k)
  else (next k, mk_bench ((wiring k) <| fds ::= fun s => {[next k]} ∪ s |>) (next k + 1) (nanoseconds k) (script k)).

Definition later (ns : Z) (k : bench) : bench :=
  mk_bench (wiring k) (next k) (nanoseconds k + Z.max 0 ns) (script k).

#[global] Instance bench_platform : Platform bench := fun A c k =>
  match c in syscall A return A * bench with
  | Clock_gettime => (mk_time (nanoseconds k / 1000000000) (nanoseconds k mod 1000000000), k)
  | Nanosleep t => ((), later (tv_sec t * 1000000000 + tv_nsec t) k)
  | Getenv _ => (None, k)
  | Open _ _ => open_next k
  | Close fd => ((), mk_bench ((wiring k) <| fds ::= fun s => s ∖ {[fd]} |>) (next k) (nanoseconds k) (script k))
  | Tcgetattr _ => ((0, mk_termios 0 0 0 0 0 0 0 0), k)
  | Cfmakeraw tty => (tty, k)
  | Tcsetattr _ _ => (0, k)
  | Tcflush _ _ => (0, k)
  | Tcdrain _ => (0, k)
  | Gpio_get_line _ _ => let '(fd, k) := open_next k in ((fd, fd), k)
  | Gpio_get_values fd _ => ((if fd <? 0 then -1 else 0, 1), k)
  | Gpio_set_values _ bits mask =>
      (0, mk_bench ((wiring k) <| pins ::= fun p => Z.land (Z.lor (Z.ldiff p mask) (Z.land bits mask)) 3 |>)
            (next k) (nanoseconds k) (script k))
  | Poll_in _ _ => (Poll_events 1, k)
  | Read_one _ =>
      match script k with
      | [] => (Read_eof, k)
      | b :: l => (Read_byte b, mk_bench (wiring k) (next k) (nanoseconds k) l)
      end
  | Write _ data =>
      let n := Z.min 7 (len data) in
      (Real.Wrote n, mk_bench ((wiring k) <| air ::= fun l => l ++ [(pins (wiring k), prefix_of n data)] |>)
                       (next k) (nanoseconds k) (script k))
  | Pigpio_start => (-1, k)
  | Pigpio_stop pi =>
      ((), mk_bench ((wiring k) <| sessions ::= fun s => s ∖ {[pi]} |>) (next k) (nanoseconds k) (script k))
  | Set_mode _ _ _ | Set_pull_up_down _ _ _ | Gpio_write _ _ _ | Bb_serial_read_open _ _ _ _ => (-1, k)
  | Bb_serial_read _ _ _ => ((-1, []), k)
  | Bb_serial_read_close _ _ => ((), k)
  | Wave_add_new _ | Wave_add_serial _ _ _ _ _ _ _ | Wave_create _ | Wave_send_once _ _ | Wave_tx_busy _
  | Wave_delete _ _ => (-1, k)
  | Wave_tx_stop _ => ((), k)
  end.

Lemma open_next_opens k : opens (open_next k).1 (wiring k) (wiring (open_next k).2).
Proof.
  unfold open_next. destruct (Z.ltb_spec (next k) 0) as [Hn|Hn]; [done|]. cbn [orb].
  case_bool_decide as Hin; [done|]. cbn [fst snd]. unfold opens. rewrite (proj2 (Z.ltb_ge _ _)) by lia. by split.
Qed.

#[global] Program Instance bench_documented : Documented bench := {| view := wiring |}.
Next Obligation.
  intros A c k a k' E. destruct c; cbn in E |- *; try (injection E as <- <-); try done.
  - pose proof (open_next_opens k) as Ho. by rewrite E in Ho.
  - pose proof (open_next_opens k) as Ho. destruct (open_next k) as [fd k1]. injection E as <- <-. cbn in Ho |- *.
    destruct (Z.ltb_spec fd 0) as [Hfd|Hfd]; [|by split].
    unfold opens in Ho. by rewrite (proj2 (Z.ltb_lt _ _) Hfd) in Ho.
  - split; [done|]. intros Hfd. cbn. by rewrite (proj2 (Z.ltb_lt _ _) Hfd).
  - destruct (script k); injection E as <- <-; done.
  - split; [|done]. pose proof (len_nonneg data). lia.
Qed.

#[global] Program Instance bench_ticking : Ticking bench := {| clock := nanoseconds |}.
Next Obligation.
  intros A c k. destruct c; cbn; try lia.
  - unfold open_next. destruct (_ || _); cbn; lia.
  - unfold open_next. destruct (_ || _); cbn; lia.
  - by destruct (script k).
Qed.
Next Obligation.
  intros k. cbn. pose proof (Z.mod_pos_bound (nanoseconds k) 1000000000 ltac:(lia)).
  pose proof (Z.div_mod (nanoseconds k) 1000000000 ltac:(lia)). lia.
Qed.
Next Obligation. intros t k. cbn. lia. Qed.
End Bench.

(** The module confirms its configuration. *)
Definition bench_start : e22 * Bench.bench :=
  (e22_static, Bench.mk_bench (mk_wires {[0; 1; 2]} ∅ 3 [] [] (fun _ => [])) 3 5000000000 (CONFIG_REPLY :: skip 1 config_command)).

Definition bench_ready : e22 * Bench.bench :=
  match ensure_ready 100 bench_start with Some (_, s) => s | None => bench_start end.

Lemma bench_ready_reach : device_reach {[0; 1; 2]} ∅ bench_ready [].
Proof.
  apply (Device_ensure _ _ bench_start [] 100 0 bench_ready); [by apply Device_start|]. vm_compute. reflexivity.
Qed.


Lemma radio_accounts_descriptors_witness :
  e_ready bench_ready.1 = true /\ usable bench_ready.1
  /\ fds (view bench_ready.2) = {[0; 1; 2]} ∪ held bench_ready.1.
Proof.
  destruct (radio_accounts_descriptors {[0; 1; 2]} ∅ bench_ready [] bench_ready_reach) as ((Hf & _) & Hu & _).
  assert (e_ready bench_ready.1 = true) as Hr by (vm_compute; reflexivity).
  split; [exact Hr|]. split; [exact (Hu Hr)|exact Hf].
Defined.
