(* ===== verification/Csp.v ===== *)
(** CSP packets on the I2C bus: the interface of the on-board computer
    ([shared/csp/csp_if_comms_bus.c], [csp_network.c]) and that of the attitude control board
    ([apps/adcs/Platform/Src/adcs_csp_stm32.c]).

    libcsp is not part of the repository.  The class [Libcsp] has the functions the
    interfaces call: a packet is an identifier and its data, [csp_id_prepend] its frame, and
    buffers are numbers of a pool.  [IdLaws] says that a frame can be read back, [PoolLaws]
    which buffers are out.  What [csp_qfifo_write] hands to the router is recorded.

    The class [CommsBus] is the transport; the real bus driver implements it.  The last part
    puts everything together: a packet that one board sends is what the router of the
    other board gets. *)

From stdpp Require Import gmap.
From S2P Require Import Prelude Frame AdcsI2cSlave I2cMaster I2cLink.

Inductive csp_error := CSP_ERR_NONE | CSP_ERR_NOMEM | CSP_ERR_INVAL | CSP_ERR_TX.

#[global] Instance csp_error_eq_dec : EqDecision csp_error.
Proof. solve_decision. Defined.

(** [I] are packet identifiers, [P] states of the buffer pool.  [csp_id_strip] is [None] when
    it fails, and otherwise gives the identifier and the data. *)
Class Libcsp (I P : Type) := {
  id_src : I -> Z;
  id_dst : I -> Z;
  csp_id_prepend : I -> list Z -> list Z;
  csp_id_setup_rx : Z;
  csp_id_strip : list Z -> option (I * list Z);
  csp_data_size : Z;
  csp_buffer_get : P -> option Z * P;
  csp_buffer_free : Z -> P -> P;
  csp_qfifo_write : Z -> P -> P
}.

(** The transport of [CspCommsBusTransport_t]: [send] takes the destination, the bytes and
    their number; [receive] the buffer's contents and its size, and gives the result and
    the new contents.  [None] is a call that has not returned. *)
Class CommsBus (T : Type) := {
  bus_send : Z -> list Z -> Z -> T -> option (Z * T);
  bus_receive : list Z -> Z -> T -> option (Z * list Z * T)
}.

#[local] Set Primitive Projections.

Record csp_packet {I : Type} := mk_packet { p_buffer : Z; p_id : I; p_data : list Z }.
Arguments csp_packet : clear implicits.

(** The interface of the on-board computer, with the packets handed to the router, the
    transport and the pool. *)
Record csp_node {I T P : Type} := mk_node {
  n_address : Z;
  n_tx_error : Z;
  n_rx_error : Z;
  n_routed : list (I * list Z);
  n_bus : T;
  n_pool : P
}.
Arguments csp_node : clear implicits.

(** The interface of the attitude control board: the transmit queue, the frame [bus_task] holds
    ([has_pending]), the slave driver below. *)
Record adcs_net {I P : Type} := mk_net {
  a_queue : list (list Z);
  a_pending : option (list Z);
  a_tx_error : Z;
  a_rx_error : Z;
  a_routed : list (I * list Z);
  a_slave : adcs_slave;
  a_pool : P
}.
Arguments adcs_net : clear implicits.

#[local] Unset Primitive Projections.

(** ** The on-board computer *)
Section Node.
Context {I T P : Type} `{Libcsp I P} `{CommsBus T}.
Implicit Types (n : csp_node I T P).

Definition csp_if_comms_bus_tx (packet : csp_packet I) n : option (csp_error * csp_node I T P) :=
  let dest_addr := u8 (id_dst (p_id packet)) in
  let frame := csp_id_prepend (p_id packet) (p_data packet) in
  '(ret, bus) ← bus_send dest_addr frame (u16 (len frame)) (n_bus n);
  let n := n <| n_bus := bus |> <| n_pool ::= csp_buffer_free (p_buffer packet) |> in
  if ret <? 0 then Some (CSP_ERR_TX, n <| n_tx_error ::= fun e => u32 (e + 1) |>)
  else Some (CSP_ERR_NONE, n).

(** [memory] is what the packet's buffer holds at [frame_begin]. *)
Definition csp_if_comms_bus_rx_work (memory : list Z) n : option (csp_error * csp_node I T P) :=
  match csp_buffer_get (n_pool n) with
  | (None, pool) => Some (CSP_ERR_NOMEM, n <| n_pool := pool |>)
  | (Some packet, pool) =>
      let n := n <| n_pool := pool |> in
      let header_size := csp_id_setup_rx in
      '(length, memory, bus) ← bus_receive memory (u16 (csp_data_size + header_size)) (n_bus n);
      let n := n <| n_bus := bus |> in
      let freed := n <| n_pool ::= csp_buffer_free packet |> in
      if length =? COMMS_BUS_TIMEOUT then Some (CSP_ERR_NONE, freed)
      else if length <? 0 then Some (CSP_ERR_INVAL, freed)
      else if length <? header_size then Some (CSP_ERR_INVAL, freed)
      else
        match csp_id_strip (prefix_of (u16 length) memory) with
        | None => Some (CSP_ERR_INVAL, freed)
        | Some received =>
            Some (CSP_ERR_NONE,
                  n <| n_pool ::= csp_qfifo_write packet |> <| n_routed ::= fun l => l ++ [received] |>)
        end
  end.

(** One turn of [csp_if_comms_bus_rx_loop]. *)
Definition rx_turn (memory : list Z) n : option (csp_node I T P) :=
  '(ret, n) ← csp_if_comms_bus_rx_work memory n;
  Some (if bool_decide (ret = CSP_ERR_NOMEM) then n
        else if negb (bool_decide (ret = CSP_ERR_NONE)) then n <| n_rx_error ::= fun e => u32 (e + 1) |>
        else n).

(** The interface after [csp_network_init], unless the bus does not start ([initialized] is
    the answer of its [initialize]). *)
Definition csp_network_init (my_address initialized : Z) (bus : T) (pool : P) : option (csp_node I T P) :=
  if negb (initialized =? COMMS_BUS_OK) then None else Some (mk_node I T P my_address 0 0 [] bus pool).
End Node.

(** ** The attitude control board *)

Definition TX_QUEUE_LENGTH : Z := 2.

Section Board.
Context {I P : Type} `{Libcsp I P}.
Implicit Types (n : adcs_net I P).

(** [wire0] is what the local frame holds. *)
Definition send_packet (wire0 : list Z) (packet : csp_packet I) n : csp_error * adcs_net I P :=
  let frame := mk_frame (u8 (id_dst (p_id packet))) ADCS_ADDRESS 0 (zeros MAX_FRAME_PAYLOAD) in
  let bytes := csp_id_prepend (p_id packet) (p_data packet) in
  let frame_length := u16 (len bytes) in
  let '(result, n) :=
    if frame_length <=? MAX_FRAME_PAYLOAD then
      let frame := mk_frame (dest_addr frame) (src_addr frame) frame_length
                     (patch (f_payload frame) 0 (prefix_of frame_length bytes)) in
      let '(length, wire) := frame_serialize (Some frame) (Some wire0) ADCS_I2C_MAX_FRAME_WIRE_SIZE in
      if 0 <? length then
        if len (a_queue n) <? TX_QUEUE_LENGTH
        then (CSP_ERR_NONE, n <| a_queue ::= fun q => q ++ [prefix_of (u16 length) (default [] wire)] |>)
        else (CSP_ERR_TX, n)
      else (CSP_ERR_TX, n)
    else (CSP_ERR_TX, n) in
  let n := n <| a_pool ::= csp_buffer_free (p_buffer packet) |> in
  (result, if negb (bool_decide (result = CSP_ERR_NONE)) then n <| a_tx_error ::= fun e => u32 (e + 1) |> else n).

Definition rx_failed n : adcs_net I P := n <| a_rx_error ::= fun e => u32 (e + 1) |>.

(** [frame0] is what the local frame holds. *)
Definition receive_frame (frame0 : Frame) (wire : list Z) n : adcs_net I P :=
  match frame_deserialize (Some wire) (len wire) (Some frame0) with
  | (r, Some frame) =>
      if (r <? 0) || negb (dest_addr frame =? ADCS_ADDRESS) then rx_failed n
      else
        match csp_buffer_get (a_pool n) with
        | (None, pool) => rx_failed (n <| a_pool := pool |>)
        | (Some packet, pool) =>
            let n := n <| a_pool := pool |> in
            let freed := rx_failed (n <| a_pool ::= csp_buffer_free packet |>) in
            let header_size := csp_id_setup_rx in
            if (f_length frame <? header_size) || (csp_data_size + header_size <? f_length frame) then freed
            else
              match csp_id_strip (prefix_of (f_length frame) (f_payload frame)) with
              | None => freed
              | Some (id, data) =>
                  if negb (id_dst id =? ADCS_ADDRESS) || negb (id_src id =? src_addr frame) then freed
                  else n <| a_pool ::= csp_qfifo_write packet |> <| a_routed ::= fun l => l ++ [(id, data)] |>
              end
        end
  | (_, None) => rx_failed n
  end.

(** [bus_task]: the received frame, the frame to transmit, and the events, one after the
    other.  [state] and [listening] are the HAL's answers in [adcs_i2c_slave_process]. *)
Definition bus_receive_part (frame0 : Frame) n : adcs_net I P :=
  let '(rx, s) := adcs_i2c_slave_take_received_frame (a_slave n) in
  let n := n <| a_slave := s |> in
  match rx with Some wire => receive_frame frame0 wire n | None => n end.

Definition bus_take_pending n : adcs_net I P :=
  match a_pending n, a_queue n with
  | None, wire :: queue => n <| a_pending := Some wire |> <| a_queue := queue |>
  | _, _ => n
  end.

Definition bus_transmit_part n : adcs_net I P :=
  let n := bus_take_pending n in
  match a_pending n with
  | Some wire =>
      let '(r, s) := adcs_i2c_slave_queue_transmit_frame wire (len wire) (a_slave n) in
      let n := n <| a_slave := s |> in
      if bool_decide (r = HAL_OK) then n <| a_pending := None |> else n
  | None => n
  end.

Definition bus_events_part n : adcs_net I P :=
  let '(events, s) := adcs_i2c_slave_take_events (a_slave n) in
  let n := n <| a_slave := s |> in
  if truthy (Z.land events (Z.lor ADCS_I2C_EVENT_ERROR ADCS_I2C_EVENT_MALFORMED_FRAME)) then rx_failed n else n.

Definition bus_turn (frame0 : Frame) (state : Z) (listening : hal_status) n : adcs_net I P :=
  let n := n <| a_slave ::= fun s => snd (adcs_i2c_slave_process state listening s) |> in
  bus_events_part (bus_transmit_part (bus_receive_part frame0 n)).

(** The interface after [adcs_csp_init]. *)
Definition adcs_csp_init (s : adcs_slave) (pool : P) : adcs_net I P := mk_net I P [] None 0 0 [] s pool.
End Board.

(** ** The real bus as a transport *)

(** [fuel] and [rounds] are those of the driver, the rest what its locals hold. *)
Definition real_bus {L} `{I2cAdapter L} (rounds fuel : nat) (payload0 buffer0 : list Z)
    (frame0 : Frame) (status0 : I2cStatus_t) : CommsBus (bus_master * L) := {|
  bus_send dest data length t :=
    '(r, x) ← comms_bus_send fuel t.1 payload0 buffer0 dest (Some data) length t.2; Some (r, (t.1, x));
  bus_receive memory size t :=
    '(m, x) ← comms_bus_receive rounds fuel t.1 frame0 status0 (Some memory) size t.2;
    Some (rm_result m, rm_buffer m, (rm_master m, x))
|}.

(** ** What libcsp promises *)

Class IdLaws (I P : Type) `{Libcsp I P} := {
  id_valid : I -> Prop;
  header_size_ok : 0 < csp_id_setup_rx (I := I) (P := P);
  data_size_ok : csp_data_size (I := I) (P := P) + csp_id_setup_rx (I := I) (P := P) < 65536;
  prepend_len id data : len (csp_id_prepend id data) = csp_id_setup_rx (I := I) (P := P) + len data;
  prepend_bytes id data : id_valid id -> bytes_ok data -> bytes_ok (csp_id_prepend id data);
  strip_prepend id data :
    id_valid id -> bytes_ok data -> len data <= csp_data_size (I := I) (P := P) ->
    csp_id_strip (csp_id_prepend id data) = Some (id, data)
}.

(** The buffers that are out: taken, and neither given back nor handed to the router. *)
Class PoolLaws (I P : Type) `{Libcsp I P} := {
  taken_buffers : P -> gset Z;
  get_takes p h p' :
    csp_buffer_get (I := I) p = (Some h, p') -> (h ∉ taken_buffers p) /\ taken_buffers p' = {[h]} ∪ taken_buffers p;
  get_fails p p' : csp_buffer_get (I := I) p = (None, p') -> taken_buffers p' = taken_buffers p;
  free_gives_back h p : taken_buffers (csp_buffer_free (I := I) h p) = taken_buffers p ∖ {[h]};
  qfifo_gives_away h p : taken_buffers (csp_qfifo_write (I := I) h p) = taken_buffers p ∖ {[h]}
}.

(** ** No buffer is lost *)
Section Buffers.
Context {I P : Type} `{PoolLaws I P}.

Lemma taken_and_gone p h p' (f : P -> P) :
  csp_buffer_get (I := I) p = (Some h, p') -> taken_buffers (I := I) (f p') = taken_buffers (I := I) p' ∖ {[h]} ->
  taken_buffers (I := I) (f p') = taken_buffers (I := I) p.
Proof. intros Hg ->. destruct (get_takes p h p' Hg) as [Hn ->]. set_solver. Qed.

Lemma rx_work_buffers {T} `{CommsBus T} memory (n n' : csp_node I T P) r :
  csp_if_comms_bus_rx_work memory n = Some (r, n') ->
  taken_buffers (I := I) (n_pool n') = taken_buffers (I := I) (n_pool n).
Proof.
  unfold csp_if_comms_bus_rx_work. destruct (csp_buffer_get (n_pool n)) as [[h|] pool] eqn:Eg.
  2:{ intros [= _ <-]. exact (get_fails _ _ Eg). }
  cbv zeta. destruct (bus_receive _ _ _) as [[[length mem] bus]|]; [|done]. cbn [mbind option_bind].
  pose proof (taken_and_gone _ h pool (csp_buffer_free h) Eg (free_gives_back h pool)) as Hfree.
  pose proof (taken_and_gone _ h pool (csp_qfifo_write h) Eg (qfifo_gives_away h pool)) as Hgive.
  case_if as E1; [intros [= _ <-]; exact Hfree|]. case_if as E2; [intros [= _ <-]; exact Hfree|].
  case_if as E3; [intros [= _ <-]; exact Hfree|].
  destruct (csp_id_strip _); intros [= _ <-]; [exact Hgive|exact Hfree].
Qed.

Lemma receive_frame_buffers frame0 wire (n : adcs_net I P) :
  taken_buffers (I := I) (a_pool (receive_frame frame0 wire n)) = taken_buffers (I := I) (a_pool n).
Proof.
  unfold receive_frame. destruct (frame_deserialize _ _ _) as [r [f|]]; [|done].
  case_if as E1; [done|]. destruct (csp_buffer_get (a_pool n)) as [[h|] pool] eqn:Eg.
  2:{ exact (get_fails _ _ Eg). }
  cbv zeta.
  pose proof (taken_and_gone _ h pool (csp_buffer_free h) Eg (free_gives_back h pool)) as Hfree.
  pose proof (taken_and_gone _ h pool (csp_qfifo_write h) Eg (qfifo_gives_away h pool)) as Hgive.
  case_if as E2; [exact Hfree|]. destruct (csp_id_strip _) as [[id data]|]; [|exact Hfree].
  case_if as E3; [exact Hfree|exact Hgive].
Qed.

Lemma bus_turn_buffers frame0 state listening (n : adcs_net I P) :
  taken_buffers (I := I) (a_pool (bus_turn frame0 state listening n)) = taken_buffers (I := I) (a_pool n).
Proof.
  unfold bus_turn. cbv zeta.
  set (n1 := n <| a_slave ::= _ |>). transitivity (taken_buffers (I := I) (a_pool n1)); [|done]. clearbody n1. clear n.
  transitivity (taken_buffers (I := I) (a_pool (bus_receive_part frame0 n1))).
  - generalize (bus_receive_part frame0 n1). intros n. unfold bus_events_part, bus_transmit_part. cbv zeta.
    assert (a_pool (bus_take_pending n) = a_pool n) as <-.
    { unfold bus_take_pending. by destruct (a_pending n), (a_queue n). }
    generalize (bus_take_pending n). clear n. intros n.
    destruct (a_pending n) as [wire|].
    + destruct (adcs_i2c_slave_queue_transmit_frame _ _ _) as [r s]. case_if as E1; cbn [fst];
        destruct (adcs_i2c_slave_take_events _) as [ev s']; by case_if as E2.
    + destruct (adcs_i2c_slave_take_events _) as [ev s']. by case_if as E2.
  - unfold bus_receive_part. destruct (adcs_i2c_slave_take_received_frame _) as [[wire|] s]; [|done].
    by rewrite receive_frame_buffers.
Qed.

End Buffers.

(** ** The board's bus task on the bus *)
Section Turn.
Context {I P : Type} `{Libcsp I P}.
Implicit Types (n : adcs_net I P) (l : link).

(** [l'] follows [l] by steps of the main loop. *)
Definition main_loop l l' : Prop :=
  bus_reachable l' /\ armed l' = armed l /\ transmitted l' = transmitted l.

Lemma main_step e l l' :
  bus_reachable l -> bus_step e l = Some l' -> armed l' = armed l -> transmitted l' = transmitted l -> main_loop l l'.
Proof. intros Hl Hs Ha Ht. split; [by eapply reach_step|done]. Qed.

Lemma pending_same l l' :
  bus_reachable l -> bus_reachable l' -> queued l' = queued l -> transmitted l' = transmitted l ->
  pending (board l') = pending (board l).
Proof.
  intros Hl Hl' Hq Ht. pose proof (link_reachable_inv _ _ l Hl) as (_ & _ & (_ & H1 & _) & _).
  pose proof (link_reachable_inv _ _ l' Hl') as (_ & _ & (_ & H2 & _) & _).
  rewrite Hq, Ht, H1 in H2. by apply app_inv_head in H2.
Qed.

Lemma main_loop_trans l1 l2 l3 : main_loop l1 l2 -> main_loop l2 l3 -> main_loop l1 l3.
Proof. intros (_ & Ha & Ht) (Hr & Ha' & Ht'). split; [done|]. split; congruence. Qed.

Lemma process_link state listening l :
  bus_reachable l ->
  exists l', main_loop l l' /\ board l' = snd (adcs_i2c_slave_process state listening (board l))
    /\ mailbox l' = mailbox l /\ queued l' = queued l /\ written l' = written l.
Proof.
  intros Hl. unfold adcs_i2c_slave_process.
  assert (exists l1, bus_step MainClaim l = Some l1 /\ l1 = mk_link (snd (process_claim (board l))) (armed l) (written l)
    (mailbox l) (queued l) (transmitted l)) as (l1 & Hs1 & Hl1) by (by eexists).
  assert (main_loop l l1) as Hm1 by (eapply main_step; [exact Hl|exact Hs1|by rewrite Hl1..]).
  destruct (process_claim (board l)) as [claimed s1]. cbn [snd] in Hl1.
  destruct claimed; cbn [negb]; [|by exists l1; rewrite Hl1 in *].
  assert (exists l2, bus_step (MainListen state listening) l1 = Some l2
    /\ l2 = mk_link (snd (process_listen state listening s1)) (armed l) (written l) (mailbox l) (queued l) (transmitted l))
    as (l2 & Hs2 & Hl2) by (rewrite Hl1; by eexists).
  assert (main_loop l1 l2) as Hm2 by (eapply main_step; [apply Hm1|exact Hs2|by rewrite Hl2, Hl1..]).
  destruct (process_listen state listening s1) as [[calls finished] s2]. cbn [snd] in Hl2.
  pose proof (main_loop_trans _ _ _ Hm1 Hm2) as Hm12.
  destruct finished; cbn [snd]; [by exists l2; rewrite Hl2 in *|].
  assert (exists l3, bus_step MainRepost l2 = Some l3
    /\ l3 = mk_link (process_repost s2) (armed l) (written l) (mailbox l) (queued l) (transmitted l))
    as (l3 & Hs3 & Hl3) by (rewrite Hl2; by eexists).
  assert (main_loop l2 l3) as Hm3 by (eapply main_step; [apply Hm2|exact Hs3|by rewrite Hl3, Hl2..]).
  exists l3. split; [by apply (main_loop_trans _ l2)|by rewrite Hl3].
Qed.

(** What the slave has for the main loop is its mailbox. *)
Lemma take_mailbox l : bus_reachable l -> fst (adcs_i2c_slave_take_received_frame (board l)) = mailbox l.
Proof.
  intros Hr. pose proof (link_reachable_inv _ _ l Hr) as (_ & (_ & _ & _ & -> & _) & _).
  unfold adcs_i2c_slave_take_received_frame, received. by destruct (s_rx_ready (board l)).
Qed.

Lemma receive_frame_slave frame0 wire n :
  a_slave (receive_frame frame0 wire n) = a_slave n /\ a_queue (receive_frame frame0 wire n) = a_queue n
  /\ a_pending (receive_frame frame0 wire n) = a_pending n.
Proof.
  unfold receive_frame. destruct (frame_deserialize _ _ _) as [r [f|]]; [|done].
  case_if as E1; [done|]. destruct (csp_buffer_get (a_pool n)) as [[h|] pool]; [|done]. cbv zeta.
  case_if as E2; [done|]. destruct (csp_id_strip _) as [[id data]|]; [|done]. by case_if as E3.
Qed.

Lemma receive_frame_routed frame0 wire n s :
  a_routed (receive_frame frame0 wire (n <| a_slave := s |>)) = a_routed (receive_frame frame0 wire n).
Proof.
  unfold receive_frame. destruct (frame_deserialize _ _ _) as [r [f|]]; [|done].
  case_if as E1; [done|]. change (a_pool (n <| a_slave := s |>)) with (a_pool n).
  destruct (csp_buffer_get (a_pool n)) as [[h|] pool]; [|done]. cbv zeta.
  case_if as E2; [done|]. destruct (csp_id_strip _) as [[id data]|]; [|done]. by case_if as E3.
Qed.

Lemma receive_part_link frame0 n l :
  bus_reachable l -> a_slave n = board l ->
  exists l', main_loop l l' /\ board l' = a_slave (bus_receive_part frame0 n) /\ queued l' = queued l
    /\ a_queue (bus_receive_part frame0 n) = a_queue n /\ a_pending (bus_receive_part frame0 n) = a_pending n
    /\ a_routed (bus_receive_part frame0 n)
       = match mailbox l with Some wire => a_routed (receive_frame frame0 wire n) | None => a_routed n end
    /\ mailbox l' = None /\ written l' = written l.
Proof.
  intros Hl Hn. pose proof (take_mailbox l Hl) as Ht. unfold bus_receive_part. rewrite Hn.
  assert (exists l', bus_step MainTake l = Some l' /\ l' = mk_link (snd (adcs_i2c_slave_take_received_frame (board l)))
    (armed l) (written l) None (queued l) (transmitted l)) as (l' & Hs & Hl') by (by eexists).
  exists l'. split; [eapply main_step; [exact Hl|exact Hs|by rewrite Hl'..]|].
  destruct (adcs_i2c_slave_take_received_frame (board l)) as [rx s]. cbn [fst snd] in Ht, Hl'. rewrite <- Ht.
  set (n1 := n <| a_slave := s |>). destruct rx as [wire|]; [|by rewrite Hl'].
  destruct (receive_frame_slave frame0 wire n1) as (-> & -> & ->). rewrite Hl'. split_and!; try done.
  apply (receive_frame_routed frame0 wire n s).
Qed.

Lemma events_part_same n :
  a_routed (bus_events_part n) = a_routed n /\ a_slave (bus_events_part n) = snd (adcs_i2c_slave_take_events (a_slave n)).
Proof. unfold bus_events_part. destruct (adcs_i2c_slave_take_events _) as [ev s]. by case_if as E. Qed.

Lemma transmit_part_routed n : a_routed (bus_transmit_part n) = a_routed n.
Proof.
  unfold bus_transmit_part. cbv zeta.
  assert (a_routed (bus_take_pending n) = a_routed n) as <-
    by (unfold bus_take_pending; by destruct (a_pending n), (a_queue n)).
  destruct (a_pending (bus_take_pending n)) as [wire|]; [|done].
  destruct (adcs_i2c_slave_queue_transmit_frame _ _ _) as [r s]. by case_if as E.
Qed.

Lemma bus_turn_routed frame0 state listening n l :
  bus_reachable l -> a_slave n = board l ->
  a_routed (bus_turn frame0 state listening n)
  = match mailbox l with Some wire => a_routed (receive_frame frame0 wire n) | None => a_routed n end.
Proof.
  intros Hl Hn. unfold bus_turn. cbv zeta. rewrite (proj1 (events_part_same _)), transmit_part_routed.
  destruct (process_link state listening l Hl) as (l1 & (Hl1 & _) & Hb1 & Hm1 & _).
  set (n1 := n <| a_slave ::= _ |>). assert (a_slave n1 = board l1) as Hn1 by (rewrite Hb1, <- Hn; done).
  destruct (receive_part_link frame0 n1 l1 Hl1 Hn1) as (_ & _ & _ & _ & _ & _ & -> & _).
  rewrite Hm1. destruct (mailbox l) as [wire|]; [|done].
  apply (receive_frame_routed frame0 wire n).
Qed.
End Turn.

(** ** Packets from board to board *)
Section Crossing.
Context {I P : Type} `{IdLaws I P}.

(** A packet the bus can carry. *)
Definition fits (packet : csp_packet I) : Prop :=
  id_valid (p_id packet) /\ bytes_ok (p_data packet) /\ len (p_data packet) <= csp_data_size (I := I) (P := P)
  /\ csp_id_setup_rx (I := I) (P := P) + len (p_data packet) <= MAX_FRAME_PAYLOAD.

(** A frame that carries a packet for the board. *)
Lemma receive_frame_accepts frame0 wire f packet h pool (n : adcs_net I P) :
  fits packet -> frame_deserialize (Some wire) (len wire) (Some frame0) = (len wire, Some f) ->
  dest_addr f = ADCS_ADDRESS -> id_dst (p_id packet) = ADCS_ADDRESS -> src_addr f = id_src (p_id packet) ->
  f_length f = len (csp_id_prepend (p_id packet) (p_data packet)) ->
  prefix_of (f_length f) (f_payload f) = csp_id_prepend (p_id packet) (p_data packet) ->
  csp_buffer_get (I := I) (a_pool n) = (Some h, pool) ->
  a_routed (receive_frame frame0 wire n) = a_routed n ++ [(p_id packet, p_data packet)].
Proof.
  intros (Hid & Hb & Hsize & Hfit) Hd Hdest Hdst Hsrc Hlen Hpay Hget. unfold receive_frame.
  pose proof (len_nonneg wire). rewrite Hd, Hdest, Hget, (proj2 (Z.ltb_ge _ _)) by lia. cbv zeta.
  change (ADCS_ADDRESS =? ADCS_ADDRESS) with true. cbn [negb orb].
  pose proof (len_nonneg (p_data packet)). pose proof (prepend_len (p_id packet) (p_data packet)) as Hpl.
  rewrite Hlen, Hpl, !(proj2 (Z.ltb_ge _ _)) by lia. cbn [orb]. rewrite <- Hpl, <- Hlen, Hpay.
  rewrite strip_prepend by done. by rewrite Hdst, Hsrc, !Z.eqb_refl.
Qed.

(** A CSP packet from the on-board computer reaches the attitude control board.  When the
    bus is at rest and the board's mailbox is empty, sending a packet for the board reports
    success, and the next turn of the board's bus task hands exactly its identifier and its
    data to the board's router, unless the board has no free buffer. *)
Lemma csp_packet_crosses rounds fuel m payload0 buffer0 frame0 status0 w (n : csp_node I (bus_master * wire_world) P)
    (a : adcs_net I P) packet state listening h pool :
  master_wf m -> bytes_ok payload0 -> len payload0 = MAX_FRAME_PAYLOAD -> len buffer0 = 1 + MAX_FRAME_WIRE_SIZE ->
  n_bus n = (m, w) -> bus_reachable (w_link w) -> idle (w_link w) ->
  fst (adcs_i2c_slave_take_received_frame (board (w_link w))) = None ->
  fits packet -> id_dst (p_id packet) = ADCS_ADDRESS -> id_src (p_id packet) = my_bus_address m ->
  csp_buffer_get (I := I) (a_pool a) = (Some h, pool) ->
  exists n' l',
    csp_if_comms_bus_tx (H0 := real_bus rounds (S fuel) payload0 buffer0 frame0 status0) packet n = Some (CSP_ERR_NONE, n')
    /\ n_bus n' = (m, mk_world (w_now w) l')
    /\ a_routed (bus_turn frame0 state listening (a <| a_slave := board l' |>))
       = a_routed a ++ [(p_id packet, p_data packet)].
Proof.
  intros Hm Hp0 Hlp0 Hlb0 Hbus Hl Hidle Hempty Hfits Hdst Hsrc Hget. pose proof Hfits as (Hid & Hb & Hsize & Hfit).
  set (bytes := csp_id_prepend (p_id packet) (p_data packet)).
  pose proof (prepend_len (p_id packet) (p_data packet)) as Hlen. fold bytes in Hlen.
  destruct (frame_to_slave fuel m payload0 buffer0 bytes frame0 w Hm Hp0 Hlp0 Hlb0 (prepend_bytes _ _ Hid Hb)
    ltac:(lia) Hl Hidle) as (l' & wire & Hsend & Hl' & _ & Htake & _ & Hnew).
  destruct (Hnew Hempty) as (f & Hdes & Hfd & Hfs & Hfl & Hfp).
  pose proof (len_nonneg bytes). change MAX_FRAME_PAYLOAD with 264 in Hfit.
  eexists _, l'. split; [|split].
  - unfold csp_if_comms_bus_tx. cbv zeta. rewrite Hdst, Hbus. fold bytes.
    change (u8 ADCS_ADDRESS) with ADCS_ADDRESS. unfold u16. rewrite Z.mod_small by lia.
    cbn [bus_send real_bus fst snd]. rewrite Hsend. cbn [mbind option_bind].
    rewrite (proj2 (Z.ltb_ge _ _)) by lia. reflexivity.
  - done.
  - rewrite (bus_turn_routed frame0 state listening _ l') by done.
    rewrite (take_mailbox l' Hl') in Htake. rewrite Htake, receive_frame_routed.
    by apply (receive_frame_accepts frame0 wire f packet h pool); [..|rewrite Hfs|rewrite Hfl|rewrite Hfl|].
Qed.

(** The frame the board sends for a packet. *)
Definition packet_frame (packet : csp_packet I) : Frame :=
  let bytes := csp_id_prepend (p_id packet) (p_data packet) in
  mk_frame (id_dst (p_id packet)) ADCS_ADDRESS (len bytes) (patch (zeros MAX_FRAME_PAYLOAD) 0 bytes).

Lemma frame_wire_bytes f : frame_wf f -> bytes_ok (frame_wire f).
Proof.
  intros (Hd & Hs & Hl & Hp & _). unfold frame_wire. rewrite Forall_app. split.
  - repeat (apply Forall_cons; split; [try done; auto with flight|]). by apply Forall_nil.
  - auto with flight.
Qed.

Lemma packet_frame_wf packet :
  fits packet -> byte_ok (id_dst (p_id packet)) ->
  frame_wf (packet_frame packet) /\ f_length (packet_frame packet) <= MAX_FRAME_PAYLOAD.
Proof.
  intros (Hid & Hb & Hsize & Hfit) Hdst. pose proof (len_nonneg (p_data packet)).
  pose proof (prepend_len (p_id packet) (p_data packet)) as Hlen. pose proof header_size_ok as Hh.
  change MAX_FRAME_PAYLOAD with 264 in *.
  split; [|cbn [packet_frame f_length]; lia].
  split; [exact Hdst|]. split; [done|]. split; [cbn [packet_frame f_length]; lia|]. cbn [packet_frame f_payload].
  split; [apply bytes_ok_patch; [apply bytes_ok_zeros|by apply prepend_bytes]|].
  change MAX_FRAME_PAYLOAD with 264. rewrite len_patch; change (len (zeros 264)) with 264; lia.
Qed.

Lemma send_packet_queues wire0 packet (a : adcs_net I P) :
  fits packet -> byte_ok (id_dst (p_id packet)) -> a_queue a = [] ->
  len wire0 = ADCS_I2C_MAX_FRAME_WIRE_SIZE ->
  fst (send_packet wire0 packet a) = CSP_ERR_NONE
  /\ a_queue (snd (send_packet wire0 packet a)) = [frame_wire (packet_frame packet)]
  /\ a_pending (snd (send_packet wire0 packet a)) = a_pending a
  /\ a_slave (snd (send_packet wire0 packet a)) = a_slave a.
Proof.
  intros Hfits Hdst Hq Hw. destruct (packet_frame_wf packet Hfits Hdst) as [Hwf Hle].
  change ADCS_I2C_MAX_FRAME_WIRE_SIZE with 268 in Hw. change MAX_FRAME_PAYLOAD with 264 in Hle.
  cbn [packet_frame f_length] in Hle.
  set (bytes := csp_id_prepend (p_id packet) (p_data packet)) in *. pose proof (len_nonneg bytes).
  assert (u16 (len bytes) = len bytes) as Hu by (unfold u16; rewrite Z.mod_small; lia).
  assert (u8 (id_dst (p_id packet)) = id_dst (p_id packet)) as Hd by (unfold u8; rewrite Z.mod_small; [done|exact Hdst]).
  assert (send_packet wire0 packet a = (CSP_ERR_NONE,
    a <| a_queue ::= fun q => q ++ [frame_wire (packet_frame packet)] |> <| a_pool ::= csp_buffer_free (p_buffer packet) |>))
    as ->.
  { unfold send_packet. cbv zeta. fold bytes. rewrite Hu, Hd. cbn [dest_addr src_addr f_payload].
    rewrite prefix_of_all by lia. change MAX_FRAME_PAYLOAD with 264 at 1. rewrite (proj2 (Z.leb_le _ _)) by lia.
    change (mk_frame _ _ (len bytes) _) with (packet_frame packet).
    rewrite serialize_success by
      (done || (change ADCS_I2C_MAX_FRAME_WIRE_SIZE with 268; change (f_length (packet_frame packet)) with (len bytes); lia)).
    change (f_length (packet_frame packet)) with (len bytes). rewrite (proj2 (Z.ltb_lt _ _)), Hq by lia.
    change (len [] <? TX_QUEUE_LENGTH) with true. cbn [default id].
    unfold u16. rewrite Z.mod_small, prefix_of_app; [done| |lia].
    rewrite len_frame_wire by done. change (f_length (packet_frame packet)) with (len bytes). lia. }
  cbn [fst snd]. split_and!; [done| |done|done].
  transitivity (a_queue a ++ [frame_wire (packet_frame packet)]); [done|]. by rewrite Hq.
Qed.

Lemma transmit_part_link (n : adcs_net I P) l wire :
  bus_reachable l -> a_slave n = board l -> a_pending n = None -> a_queue n = [wire] -> pending (board l) = [] ->
  adcs_wire_frame_valid wire (len wire) = true -> bytes_ok wire ->
  exists l', main_loop l l' /\ board l' = a_slave (bus_transmit_part n) /\ pending (board l') = [wire]
    /\ a_pending (bus_transmit_part n) = None /\ a_queue (bus_transmit_part n) = [].
Proof.
  intros Hl Hn Hp Hq Hempty Hv Hb.
  assert (exists s, adcs_i2c_slave_queue_transmit_frame wire (len wire) (board l) = (HAL_OK, s)) as [s Hs].
  { unfold adcs_i2c_slave_queue_transmit_frame. rewrite Hv. cbn [negb]. unfold pending in Hempty.
    destruct (s_tx_ready (board l)); [done|by eexists]. }
  set (l' := mk_link s (armed l) (written l) (mailbox l) (queued l ++ [wire]) (transmitted l)).
  assert (bus_step (MainQueue wire (len wire)) l = Some l') as Hstep.
  { cbn [link_step]. rewrite Z.leb_refl, bool_decide_true by exact Hb. cbn [andb]. rewrite Hs.
    cbn [bool_decide]. rewrite prefix_of_all by done. done. }
  assert (main_loop l l') as Hm by (by eapply main_step).
  exists l'. split; [exact Hm|].
  assert (bus_take_pending n = (n <| a_pending := Some wire |> <| a_queue := [] |>)) as Htake
    by (unfold bus_take_pending; by rewrite Hp, Hq).
  unfold bus_transmit_part. rewrite Htake. cbv zeta.
  set (n1 := n <| a_pending := Some wire |> <| a_queue := [] |>).
  change (a_pending n1) with (Some wire). cbn match. change (a_slave n1) with (a_slave n). rewrite Hn, Hs.
  change (bool_decide (HAL_OK = HAL_OK)) with true. cbn match. split; [done|]. split; [|done].
  pose proof (link_reachable_inv _ _ l Hl) as (_ & _ & (_ & Hq1 & _) & _).
  destruct Hm as (Hl' & _). pose proof (link_reachable_inv _ _ l' Hl') as (_ & _ & (_ & Hq2 & _) & _).
  change (queued l') with (queued l ++ [wire]) in Hq2. change (transmitted l') with (transmitted l) in Hq2.
  rewrite Hq1, Hempty, app_nil_r in Hq2. by apply app_inv_head in Hq2.
Qed.

(** A turn of the bus task gives a frame that waits in the queue to the slave. *)
Lemma turn_sends frame0 state listening (n : adcs_net I P) l wire :
  bus_reachable l -> a_slave n = board l -> a_pending n = None -> a_queue n = [wire] -> pending (board l) = [] ->
  adcs_wire_frame_valid wire (len wire) = true -> bytes_ok wire ->
  exists l', main_loop l l' /\ board l' = a_slave (bus_turn frame0 state listening n) /\ pending (board l') = [wire].
Proof.
  intros Hl Hn Hpend Hqueue Hempty Hv Hb. unfold bus_turn. cbv zeta. set (n1 := n <| a_slave ::= _ |>).
  destruct (process_link state listening l Hl) as (l1 & Hm1 & Hb1 & _ & Hqu1 & _).
  assert (a_slave n1 = board l1) as Hn1 by (rewrite Hb1, <- Hn; done).
  destruct (receive_part_link frame0 n1 l1 (proj1 Hm1) Hn1) as (l2 & Hm2 & Hb2 & Hqu2 & Hq2 & Hp2 & _).
  pose proof (main_loop_trans _ _ _ Hm1 Hm2) as Hm12.
  assert (pending (board l2) = []) as Hempty2.
  { rewrite <- Hempty. apply pending_same; [exact Hl|apply Hm12|congruence|apply Hm12]. }
  set (n2 := bus_receive_part frame0 n1) in *.
  destruct (transmit_part_link n2 l2 wire (proj1 Hm2) (eq_sym Hb2)) as (l3 & Hm3 & Hb3 & Hp3 & _);
    [rewrite Hp2; exact Hpend|rewrite Hq2; exact Hqueue|done|done|done|].
  set (l4 := mk_link (snd (adcs_i2c_slave_take_events (board l3))) (armed l3) (written l3) (mailbox l3) (queued l3)
    (transmitted l3)).
  assert (main_loop l3 l4) as Hm4 by (eapply (main_step MainEvents); [apply Hm3|done..]).
  exists l4. split; [exact (main_loop_trans _ _ _ (main_loop_trans _ _ _ Hm12 Hm3) Hm4)|].
  split; [rewrite (proj2 (events_part_same _)), <- Hb3; done|exact Hp3].
Qed.

(** A round of the receiver takes a packet's frame from the slave and hands it to the router. *)
Lemma rx_work_routes rounds fuel m payload0 buffer0 frame1 status0 w memory
    (n : csp_node I (bus_master * wire_world) P) packet h pool :
  master_wf m -> 0 <= w_now w < 18446744073709551616 - 100 -> bus_reachable (w_link w) -> idle (w_link w) ->
  fits packet -> id_dst (p_id packet) = my_bus_address m -> n_bus n = (m, w) ->
  pending (board (w_link w)) = [frame_wire (packet_frame packet)] ->
  csp_buffer_get (I := I) (n_pool n) = (Some h, pool) ->
  exists n',
    csp_if_comms_bus_rx_work (H0 := real_bus (S rounds) (S fuel) payload0 buffer0 frame1 status0) memory n
      = Some (CSP_ERR_NONE, n')
    /\ n_routed n' = n_routed n ++ [(p_id packet, p_data packet)].
Proof.
  intros Hm Hnow Hl Hidle Hfits Hdst Hbus Hpend Hget.
  assert (byte_ok (id_dst (p_id packet))) as Hbyte by (rewrite Hdst; apply Hm).
  destruct (packet_frame_wf packet Hfits Hbyte) as [Hwf Hle]. set (f := packet_frame packet) in *.
  pose proof (prepend_len (p_id packet) (p_data packet)) as Hlen. pose proof header_size_ok as Hhead.
  pose proof data_size_ok as Hsizes. pose proof Hfits as (Hid & Hb & Hsize & _).
  pose proof (len_nonneg (p_data packet)).
  set (bytes := csp_id_prepend (p_id packet) (p_data packet)) in *.
  assert (f_length f = len bytes /\ f_payload f = patch (zeros MAX_FRAME_PAYLOAD) 0 bytes) as [Hfl Hfp] by done.
  set (size := csp_data_size (I := I) (P := P) + csp_id_setup_rx (I := I) (P := P)) in *.
  assert (u16 size = size) as Hmax by (unfold u16, size in *; rewrite Z.mod_small; lia).
  destruct (frame_from_slave rounds fuel m frame1 status0 memory (u16 size) f w)
    as (l5 & Hrecv & _); [done|done|done|exact Hdst|done|lia|lia|done|done|done|done|].
  eexists. split.
  - unfold csp_if_comms_bus_rx_work. rewrite Hget. cbv zeta. fold size.
    assert (n_bus (n <| n_pool := pool |>) = (m, w)) as -> by done.
    cbn [bus_receive real_bus fst snd]. rewrite Hrecv. cbn [mbind option_bind rm_result rm_buffer].
    rewrite Hfl. assert (prefix_of (u16 (len bytes)) (patch memory 0 (prefix_of (len bytes) (f_payload f))) = bytes) as ->.
    { change MAX_FRAME_PAYLOAD with 264 in Hle. unfold u16. rewrite Z.mod_small by lia. rewrite Hfp.
      by rewrite !patch_0, !prefix_of_app by (rewrite ?prefix_of_app; done). }
    change COMMS_BUS_TIMEOUT with (-2). rewrite (proj2 (Z.eqb_neq _ _)), !(proj2 (Z.ltb_ge _ _)) by lia.
    unfold bytes. rewrite strip_prepend by done. reflexivity.
  - done.
Qed.

(** C14. A CSP packet from the attitude control board reaches the on-board computer.  When the
    bus is at rest and nothing of the board is under way, the board's driver accepts a
    packet for the on-board computer and its bus task, in its next turn, gives it to the
    slave; a round of the on-board computer's receiver then hands exactly its identifier
    and its data to the router, unless the on-board computer has no free buffer. *)
Theorem csp_packet_reaches_obc rounds fuel m payload0 buffer0 frame0 frame1 status0 w memory wire0
    (n : csp_node I (bus_master * wire_world) P) (a : adcs_net I P) packet state listening h pool :
  master_wf m -> 0 <= w_now w < 18446744073709551616 - 100 ->
  bus_reachable (w_link w) -> idle (w_link w) -> pending (board (w_link w)) = [] ->
  a_slave a = board (w_link w) -> a_queue a = [] -> a_pending a = None ->
  len wire0 = ADCS_I2C_MAX_FRAME_WIRE_SIZE -> fits packet -> id_dst (p_id packet) = my_bus_address m ->
  csp_buffer_get (I := I) (n_pool n) = (Some h, pool) ->
  let sent := send_packet wire0 packet a in
  let a' := bus_turn frame0 state listening (snd sent) in
  fst sent = CSP_ERR_NONE
  /\ exists l, main_loop (w_link w) l /\ board l = a_slave a'
       /\ exists n',
            csp_if_comms_bus_rx_work (H0 := real_bus (S rounds) (S fuel) payload0 buffer0 frame1 status0) memory
              (n <| n_bus := (m, mk_world (w_now w) l) |>) = Some (CSP_ERR_NONE, n')
            /\ n_routed n' = n_routed n ++ [(p_id packet, p_data packet)].
Proof.
  intros Hm Hnow Hl Hidle Hempty Hslave Hqueue Hpend Hwire Hfits Hdst Hget. cbv zeta.
  assert (byte_ok (id_dst (p_id packet))) as Hbyte by (rewrite Hdst; apply Hm).
  destruct (send_packet_queues wire0 packet a Hfits Hbyte Hqueue Hwire) as (Hok & Hq1 & Hp1 & Hs1).
  split; [exact Hok|]. set (a1 := snd (send_packet wire0 packet a)) in *. clearbody a1.
  destruct (packet_frame_wf packet Hfits Hbyte) as [Hwf Hle].
  destruct (turn_sends frame0 state listening a1 (w_link w) _ Hl (eq_trans Hs1 Hslave) (eq_trans Hp1 Hpend) Hq1 Hempty
    (frame_wire_valid _ Hwf Hle) (frame_wire_bytes _ Hwf)) as (l & Hml & Hbl & Hpl).
  exists l. split; [exact Hml|]. split; [exact Hbl|].
  destruct (rx_work_routes rounds fuel m payload0 buffer0 frame1 status0 (mk_world (w_now w) l) memory
    (n <| n_bus := (m, mk_world (w_now w) l) |>) packet h pool) as (n' & Hrx & Hrouted);
    [done|done|apply Hml|exact (eq_trans (proj1 (proj2 Hml)) Hidle)|done|done|done|done|exact Hget|].
  exists n'. split; [exact Hrx|exact Hrouted].
Qed.
End Crossing.

(** ** A concrete libcsp *)
Module Tiny.

(** The header is the source and the destination; the pool has one buffer. *)
#[global] Instance tiny_csp : Libcsp (Z * Z) (gset Z) := {|
  id_src := fst;
  id_dst := snd;
  csp_id_prepend id data := [id.1; id.2] ++ data;
  csp_id_setup_rx := 2;
  csp_id_strip frame := match frame with s :: d :: data => Some ((s, d), data) | _ => None end;
  csp_data_size := 256;
  csp_buffer_get p := if bool_decide (7 ∈ p) then (None, p) else (Some 7, {[7]} ∪ p);
  csp_buffer_free h p := p ∖ {[h]};
  csp_qfifo_write h p := p ∖ {[h]}
|}.

#[global] Program Instance tiny_ids : IdLaws (Z * Z) (gset Z) :=
  {| id_valid id := byte_ok id.1 /\ byte_ok id.2 |}.
Next Obligation. done. Qed.
Next Obligation. done. Qed.
Next Obligation. intros id data. cbn [csp_id_prepend tiny_csp]. rewrite len_app. done. Qed.
Next Obligation.
  intros [s d] data [Hs Hd] Hb. cbn [csp_id_prepend tiny_csp]. apply Forall_app_2; [|exact Hb].
  by repeat (apply Forall_cons; split; [done|]).
Qed.
Next Obligation. by intros [s d] data _ _ _. Qed.

#[global] Program Instance tiny_pool : PoolLaws (Z * Z) (gset Z) := {| taken_buffers p := p |}.
Next Obligation. intros p h p'. cbn. case_bool_decide; [done|]. by intros [= <- <-]. Qed.
Next Obligation. intros p p'. cbn. case_bool_decide; [|done]. by intros [= <-]. Qed.
Next Obligation. done. Qed.
Next Obligation. done. Qed.

Definition to_obc : csp_packet (Z * Z) := mk_packet (Z * Z) 7 (ADCS_ADDRESS, my_bus_address demo_master) [4; 5].
Definition board_net : adcs_net (Z * Z) (gset Z) := adcs_csp_init (board (w_link demo_world)) ∅.
Definition obc_node : csp_node (Z * Z) (bus_master * wire_world) (gset Z) :=
  mk_node (Z * Z) (bus_master * wire_world) (gset Z) (my_bus_address demo_master) 0 0 [] (demo_master, demo_world) ∅.

Lemma to_obc_fits : fits (P := gset Z) to_obc.
Proof. split; [done|]. split; [by repeat (apply Forall_cons; split; [done|])|done]. Qed.
End Tiny.

Lemma csp_packet_reaches_obc_witness :
  exists l n',
    csp_if_comms_bus_rx_work (H0 := real_bus 1 1 (zeros 264) (zeros 269) blank_frame (mk_status 0 0)) (zeros 258)
      (Tiny.obc_node <| n_bus := (demo_master, mk_world 1000 l) |>) = Some (CSP_ERR_NONE, n')
    /\ n_routed n' = [((ADCS_ADDRESS, my_bus_address demo_master), [4; 5])].
Proof.
  destruct (csp_packet_reaches_obc 0 0 demo_master (zeros 264) (zeros 269) blank_frame blank_frame (mk_status 0 0)
    demo_world (zeros 258) (zeros 268) Tiny.obc_node Tiny.board_net Tiny.to_obc 0 HAL_OK 7 {[7]})
    as (_ & l & _ & _ & n' & Hrx & Hr).
  - split; [done|]. split; [done|by right].
  - done.
  - apply link_reach_start.
  - done.
  - done.
  - done.
  - done.
  - done.
  - done.
  - apply Tiny.to_obc_fits.
  - done.
  - done.
  - exists l, n'. split; [exact Hrx|exact Hr].
Defined.

