(* ===== verification/AdcsSimulator.v ===== *)
(** The spacecraft simulator of the attitude control board's simulation build, its drivers
    and its start, under [apps/adcs/Application/src]: [simulation/adcs_simulator.c],
    [drivers/sim_adcs_drivers.c], [drivers/sim_environment.c] and [sim_main.c].

    Every public function of the simulator takes [simulator_lock] once and is one step on
    its static variables [simulator_state_t].  An output that a failed call leaves alone is
    [None].  The second half closes the loop: the tasks of the board run on these drivers. *)

From Stdlib Require Import Floats.SpecFloat.
From stdpp Require Import gmap strings.
From S2P Require Import Prelude Float32 AdcsMath AdcsControl AdcsManager AdcsFault AdcsCommand AdcsTasks ObcProgress AdcsDrivers AdcsEstimation.

(** Each axis from its index and the projection to it. *)
Definition axes (f : Z -> (vec3 -> f32) -> f32) : vec3 := Vec (f 0 v0) (f 1 v1) (f 2 v2).

(** [sqrt] and [llround] on a [double]; the result of [llround] is unspecified for what is
    not finite. *)
Definition dsqrt : f64 -> f64 := SFsqrt 53 1024.
Definition llround (x : f64) : Z :=
  match x with
  | S754_finite s m e =>
      let n := if 0 <=? e then Z.shiftl (Zpos m) e
               else Z.shiftr (Zpos m + Z.shiftl 1 (- e - 1)) (- e) in
      if s then - n else n
  | _ => 0
  end.

(** ** [adcs_simulator.c] *)
Module Simulator.
#[local] Open Scope f32_scope.

Definition SIM_EARTH_RADIUS_M : f32 := lit 6371000 1.
Definition SIM_EARTH_MU_M3_S2 : f64 := dlit 398600441800000 1.
Definition SIM_DEFAULT_UNIX_TIME_US : Z := 1704067200000000.
Definition SIM_PI_F : f32 := lit 314159265358979323846 100000000000000000000.
Definition SIM_RATE_LIMIT_RAD_S : f32 := lit 2 1.
Definition SIM_VISCOUS_DAMPING_NM_S : f32 := lit 2 10000000.

Definition ADCS_SIM_FAULT_IMU : Z := 1.
Definition ADCS_SIM_FAULT_MAGNETOMETER : Z := 2.
Definition ADCS_SIM_FAULT_SUN_SENSOR : Z := 4.
Definition ADCS_SIM_FAULT_ACTUATOR : Z := 16.

#[projections(primitive)]
Record adcs_simulator_config_t := mk_config {
  initial_quaternion : versor;
  initial_angular_rate_rad_s : vec3;
  inertia_kg_m2 : vec3;
  gyro_bias_rad_s : vec3;
  maximum_dipole_a_m2 : f32;
  orbit_altitude_m : f32;
  orbit_inclination_rad : f32;
  initial_unix_time_us : Z
}.

#[projections(primitive)]
Record adcs_simulator_truth_t := mk_truth {
  timestamp_us : Z;
  unix_time_us : Z;
  quaternion : versor;
  angular_rate_rad_s : vec3;
  magnetic_field_body_t : vec3;
  sun_vector_body : vec3;
  orbit : adcs_orbit_state_t;
  actuator : adcs_magnetorquer_command_t
}.

#[projections(primitive)]
Record simulator_state_t := mk_simulator {
  config : adcs_simulator_config_t;
  truth : adcs_simulator_truth_t;
  faults : Z;
  initialized : Z
}.

Implicit Types sim : simulator_state_t.

Definition actuator_zero : adcs_magnetorquer_command_t := mk_magnetorquer 0 vec_zero 0.
Definition truth_zero : adcs_simulator_truth_t :=
  mk_truth 0 0 versor_zero vec_zero vec_zero vec_zero zero_orbit actuator_zero.
Definition simulator_zero : simulator_state_t :=
  mk_simulator (mk_config versor_zero vec_zero vec_zero vec_zero f0 f0 f0 0) truth_zero 0 0.

Definition quaternion_rotate_vector (q : versor) (vector : vec3) : vec3 :=
  let quaternion_vector := Vec (q0 q) (q1 q) (q2 q) in
  let first_cross := vec_map (fun x => x * lit 2 1) (adcs_vector_cross quaternion_vector vector) in
  let second_cross := adcs_vector_cross quaternion_vector first_cross in
  axes (fun _ at_ => at_ vector + q3 q * at_ first_cross + at_ second_cross).

Definition default_config : adcs_simulator_config_t :=
  mk_config (Versor f0 f0 f0 f1) (Vec (lit 8 100) (- lit 6 100) (lit 45 1000))
    (Vec (lit 50 10000) (lit 60 10000) (lit 45 10000))
    (Vec (lit 3 10000) (- lit 2 10000) (lit 1 10000))
    (lit 20 100) (lit 500000 1) (lit 516 10 * SIM_PI_F / lit 180 1) SIM_DEFAULT_UNIX_TIME_US.

Definition config_is_valid (c : adcs_simulator_config_t) : bool :=
  bool_decide (fst (adcs_quaternion_normalize (initial_quaternion c) versor_zero) = ADCS_RESULT_OK)
  && adcs_values_are_finite (vec_list (initial_angular_rate_rad_s c))
  && adcs_values_are_finite (vec_list (inertia_kg_m2 c))
  && adcs_values_are_finite (vec_list (gyro_bias_rad_s c))
  && isfinite (maximum_dipole_a_m2 c) && isfinite (orbit_altitude_m c) && isfinite (orbit_inclination_rad c)
  && negb (maximum_dipole_a_m2 c <=? f0) && negb (orbit_altitude_m c <=? lit 100000 1)
  && negb (initial_unix_time_us c =? 0)%Z
  && forallb (fun i => negb (i <=? f0)) (vec_list (inertia_kg_m2 c)).

Section Operations.
Context `{Libm} `{Libm64}.

(** The argument of [cos] and [sin], and the angular velocity of the orbit. *)
Definition mean_motion (radius : f32) : f64 :=
  dsqrt (SIM_EARTH_MU_M3_S2 / (to_double radius * to_double radius * to_double radius))%f64.
Definition seconds (timestamp : Z) : f64 := (double_of_int timestamp / dlit 1000000 1)%f64.

Definition orbit_at (c : adcs_simulator_config_t) (timestamp unix_time : Z) : adcs_orbit_state_t :=
  let radius := SIM_EARTH_RADIUS_M + orbit_altitude_m c in
  let mean_motion := mean_motion radius in
  let phase := (mean_motion * seconds timestamp)%f64 in
  let inclination := orbit_inclination_rad c in
  let cosine := to_float (cos phase) in
  let sine := to_float (sin phase) in
  let motion := to_float mean_motion in
  mk_orbit unix_time
    (Vec (radius * cosine) (radius * sine * cosf inclination) (radius * sine * sinf inclination))
    (Vec (- radius * motion * sine) (radius * motion * cosine * cosf inclination)
         (radius * motion * cosine * sinf inclination))
    1%Z.

Definition update_environment_locked sim : simulator_state_t :=
  let t := truth sim in
  let o := orbit_at (config sim) (timestamp_us t) (unix_time_us t) in
  let sun_eci := snd (adcs_reference_sun_vector (unix_time_us t) (Vec f1 f0 f0)) in
  let field_eci := snd (adcs_reference_magnetic_field (unix_time_us t) (or_position_eci_m o) vec_zero) in
  sim <| truth ::= fun t =>
    t <| orbit := o |> <| sun_vector_body := quaternion_rotate_vector (quaternion t) sun_eci |>
      <| magnetic_field_body_t := quaternion_rotate_vector (quaternion t) field_eci |> |>.

Definition adcs_simulator_init (c : option adcs_simulator_config_t) sim : adcs_result_t * simulator_state_t :=
  let selected := default default_config c in
  if negb (config_is_valid selected) then (ADCS_RESULT_INVALID_ARGUMENT, sim)
  else
    let sim := simulator_zero <| config := selected |> in
    let sim := sim <| truth ::= fun t =>
      t <| quaternion := snd (adcs_quaternion_normalize (initial_quaternion selected) (quaternion t)) |>
        <| angular_rate_rad_s := initial_angular_rate_rad_s selected |>
        <| unix_time_us := initial_unix_time_us selected |>
        <| actuator ::= fun a => a <| mc_enabled := 0%Z |> |> |> in
    (ADCS_RESULT_OK, update_environment_locked (sim <| initialized := 1%Z |>)).

(** What acts on the body. *)
Definition applied_torque sim : vec3 :=
  let a := actuator (truth sim) in
  if (mc_enabled a =? 0)%Z || truthy (Z.land (faults sim) ADCS_SIM_FAULT_ACTUATOR) then vec_zero
  else adcs_vector_cross (mc_dipole_a_m2 a) (magnetic_field_body_t (truth sim)).

(** Euler's equation over one step, each axis clamped. *)
Definition next_rate (inertia torque rate : vec3) (dt_s : f32) : vec3 :=
  let momentum := vec_zip fmul inertia rate in
  let gyroscopic := adcs_vector_cross rate momentum in
  axes (fun _ at_ =>
    let angular_acceleration :=
      (at_ torque - at_ gyroscopic - SIM_VISCOUS_DAMPING_NM_S * at_ rate) / at_ inertia in
    adcs_clampf (at_ rate + angular_acceleration * dt_s) (- SIM_RATE_LIMIT_RAD_S) SIM_RATE_LIMIT_RAD_S).

(** The rotation by [rate] over one step; a failed normalisation keeps the quaternion. *)
Definition next_quaternion (rate : vec3) (dt_s : f32) (q : versor) : versor :=
  let negative_rotation := vec_map (fun r => - r * dt_s) rate in
  let rotation_angle := adcs_vector_norm negative_rotation in
  if rotation_angle >? lit 1 100000000 then
    let half_angle := lit 5 10 * rotation_angle in
    let scale := sinf half_angle / rotation_angle in
    let delta := Versor (v0 negative_rotation * scale) (v1 negative_rotation * scale)
                        (v2 negative_rotation * scale) (cosf half_angle) in
    snd (adcs_quaternion_normalize (adcs_quaternion_multiply delta q) q)
  else q.

Definition step_us (dt_s : f32) : Z :=
  let us := u64 (llround (to_double dt_s * dlit 1000000 1)%f64) in
  if (us =? 0)%Z then 1%Z else us.

Definition adcs_simulator_step (dt_s : f32) sim : adcs_result_t * simulator_state_t :=
  if negb (isfinite dt_s) || (dt_s <=? f0) || (dt_s >? f1) then (ADCS_RESULT_INVALID_ARGUMENT, sim)
  else if (initialized sim =? 0)%Z then (ADCS_RESULT_NOT_INITIALIZED, sim)
  else
    let rate := next_rate (inertia_kg_m2 (config sim)) (applied_torque sim) (angular_rate_rad_s (truth sim)) dt_s in
    let sim := sim <| truth ::= fun t =>
      t <| angular_rate_rad_s := rate |> <| quaternion ::= next_quaternion rate dt_s |>
        <| timestamp_us ::= fun n => u64 (n + step_us dt_s) |>
        <| unix_time_us ::= fun n => u64 (n + step_us dt_s) |> |> in
    (ADCS_RESULT_OK, update_environment_locked sim).

(** A small sinusoid per axis. *)
Definition with_noise (amplitude : f32) (base : f64) (timestamp : Z) (v : vec3) : vec3 :=
  axes (fun axis at_ =>
    at_ v + amplitude * to_float (sin (seconds timestamp * (base + double_of_int axis))%f64)).

Definition unavailable sim (fault : Z) : bool := (initialized sim =? 0)%Z || truthy (Z.land (faults sim) fault).

(** The time, the angular rate and the acceleration. *)
Definition adcs_simulator_read_imu sim : adcs_result_t * option (Z * vec3 * vec3) :=
  if unavailable sim ADCS_SIM_FAULT_IMU then (ADCS_RESULT_UNAVAILABLE, None)
  else
    let t := truth sim in
    (ADCS_RESULT_OK,
     Some (timestamp_us t,
           with_noise (lit 5 100000) (dlit 17 10) (timestamp_us t)
             (vec_zip fadd (angular_rate_rad_s t) (gyro_bias_rad_s (config sim))),
           vec_zero)).

Definition adcs_simulator_read_magnetometer sim : adcs_result_t * option (Z * vec3) :=
  if unavailable sim ADCS_SIM_FAULT_MAGNETOMETER then (ADCS_RESULT_UNAVAILABLE, None)
  else
    let t := truth sim in
    (ADCS_RESULT_OK,
     Some (timestamp_us t, with_noise (lit 2 100000000) (dlit 9 10) (timestamp_us t) (magnetic_field_body_t t))).

(** The time, the direction and the irradiance; a direction that cannot be normalised is zero. *)
Definition adcs_simulator_read_sun_sensor sim : adcs_result_t * option (Z * vec3 * f32) :=
  if unavailable sim ADCS_SIM_FAULT_SUN_SENSOR then (ADCS_RESULT_UNAVAILABLE, None)
  else
    let t := truth sim in
    let noisy_vector := with_noise (lit 5 10000) (dlit 5 10) (timestamp_us t) (sun_vector_body t) in
    (ADCS_RESULT_OK, Some (timestamp_us t, snd (adcs_vector_normalize noisy_vector), lit 1361 1)).

Definition clamp_dipole (limit : f32) (dipole : vec3) : vec3 :=
  vec_map (fun d => adcs_clampf d (- limit) limit) dipole.

Definition adcs_simulator_set_magnetorquer (command : option adcs_magnetorquer_command_t) sim
    : adcs_result_t * simulator_state_t :=
  match command with
  | None => (ADCS_RESULT_INVALID_ARGUMENT, sim)
  | Some command =>
      if negb (adcs_values_are_finite (vec_list (mc_dipole_a_m2 command))) then (ADCS_RESULT_INVALID_ARGUMENT, sim)
      else if (initialized sim =? 0)%Z then (ADCS_RESULT_NOT_INITIALIZED, sim)
      else if truthy (Z.land (faults sim) ADCS_SIM_FAULT_ACTUATOR)
      then (ADCS_RESULT_UNAVAILABLE, sim <| truth ::= fun t => t <| actuator := actuator_zero |> |>)
      else
        let a := command <| mc_dipole_a_m2 ::= clamp_dipole (maximum_dipole_a_m2 (config sim)) |> in
        let a := if (mc_enabled command =? 0)%Z then a <| mc_dipole_a_m2 := vec_zero |> else a in
        (ADCS_RESULT_OK, sim <| truth ::= fun t => t <| actuator := a |> |>)
  end.

Definition adcs_simulator_get_truth sim : adcs_result_t * option adcs_simulator_truth_t :=
  if (initialized sim =? 0)%Z then (ADCS_RESULT_NOT_INITIALIZED, None) else (ADCS_RESULT_OK, Some (truth sim)).

Definition adcs_simulator_get_orbit sim : adcs_result_t * option adcs_orbit_state_t :=
  if (initialized sim =? 0)%Z then (ADCS_RESULT_NOT_INITIALIZED, None)
  else (ADCS_RESULT_OK, Some (orbit (truth sim))).

Definition adcs_simulator_get_time_us sim : Z := timestamp_us (truth sim).
Definition adcs_simulator_get_unix_time_us sim : Z := unix_time_us (truth sim).

Definition adcs_simulator_set_unix_time (unix_time : Z) sim : adcs_result_t * simulator_state_t :=
  if (unix_time =? 0)%Z then (ADCS_RESULT_INVALID_ARGUMENT, sim)
  else if (initialized sim =? 0)%Z then (ADCS_RESULT_NOT_INITIALIZED, sim)
  else (ADCS_RESULT_OK, update_environment_locked (sim <| truth ::= fun t => t <| unix_time_us := unix_time |> |>)).

Definition KNOWN_FAULTS : Z :=
  Z.lor (Z.lor ADCS_SIM_FAULT_IMU ADCS_SIM_FAULT_MAGNETOMETER) (Z.lor ADCS_SIM_FAULT_SUN_SENSOR ADCS_SIM_FAULT_ACTUATOR).
Definition adcs_simulator_set_faults (fault_mask : Z) sim : simulator_state_t :=
  sim <| faults := Z.land fault_mask KNOWN_FAULTS |>.
Definition adcs_simulator_get_faults sim : Z := faults sim.
End Operations.
End Simulator.

(** ** [sim_adcs_drivers.c] and [sim_environment.c] *)
Module SimDrivers.
Import Simulator Sensors.

(** The static variables of the drivers, and those of the simulator. *)
#[projections(primitive)]
Record environment := mk_environment {
  simulator : simulator_state_t;
  simulator_ready : Z;
  last_magnetorquer_command : magnetorquer_command_t
}.
Implicit Types e : environment.

Definition simulator_is_ready e : bool :=
  negb (simulator_ready e =? 0)
  && bool_decide (fst (adcs_simulator_get_truth (simulator e)) = ADCS_RESULT_OK).

(** What the four initialisations do to [simulator_ready]. *)
Definition look_for_simulator e : bool * environment :=
  let found := bool_decide (fst (adcs_simulator_get_truth (simulator e)) = ADCS_RESULT_OK) in
  (found, e <| simulator_ready := b2z found |>).

Definition imu_initialize e : Imu.imu_status_t * environment :=
  let '(found, e) := look_for_simulator e in (if found then Imu.IMU_OK else Imu.IMU_ERROR, e).
Definition magnetometer_initialize e : magnetometer_status_t * environment :=
  let '(found, e) := look_for_simulator e in (if found then MAGNETOMETER_OK else MAGNETOMETER_ERROR, e).
Definition sun_sensor_initialize e : sun_sensor_status_t * environment :=
  let '(found, e) := look_for_simulator e in (if found then SUN_SENSOR_OK else SUN_SENSOR_ERROR, e).
Definition magnetorquer_initialize e : Torquer.magnetorquer_status_t * environment :=
  let '(found, e) := look_for_simulator e in
  if found then (Torquer.MAGNETORQUER_OK, e <| last_magnetorquer_command := torquer_off |>)
  else (Torquer.MAGNETORQUER_ERROR, e).

Section Drivers.
Context `{Libm} `{Libm64}.

Definition imu_read e : Imu.imu_status_t * option Imu.imu_sample_t :=
  if negb (simulator_is_ready e) then (Imu.IMU_NOT_READY, None)
  else
    match adcs_simulator_read_imu (simulator e) with
    | (ADCS_RESULT_OK, Some (timestamp, rate, acceleration)) =>
        (Imu.IMU_OK, Some (Imu.mk_sample timestamp rate acceleration (lit 25 1)))
    | _ => (Imu.IMU_ERROR, None)
    end.

Definition magnetometer_read e : magnetometer_status_t * option magnetometer_sample_t :=
  if negb (simulator_is_ready e) then (MAGNETOMETER_NOT_READY, None)
  else
    match adcs_simulator_read_magnetometer (simulator e) with
    | (ADCS_RESULT_OK, Some (timestamp, field)) => (MAGNETOMETER_OK, Some (mk_field_sample timestamp field))
    | _ => (MAGNETOMETER_ERROR, None)
    end.

Definition sun_sensor_read e : sun_sensor_status_t * option sun_sensor_sample_t :=
  if negb (simulator_is_ready e) then (SUN_SENSOR_NOT_READY, None)
  else
    match adcs_simulator_read_sun_sensor (simulator e) with
    | (ADCS_RESULT_OK, Some (timestamp, vector, irradiance)) =>
        (SUN_SENSOR_OK, Some (mk_sun_sample timestamp vector irradiance 1))
    | _ => (SUN_SENSOR_ERROR, None)
    end.

Definition simulator_command (timestamp : Z) (command : magnetorquer_command_t) : adcs_magnetorquer_command_t :=
  mk_magnetorquer timestamp (dipole_a_m2 command) (enabled command).

Definition magnetorquer_set_pointer (command : option magnetorquer_command_t) e
    : Torquer.magnetorquer_status_t * environment :=
  match command with
  | None => (Torquer.MAGNETORQUER_ERROR, e)
  | Some command =>
      if negb (adcs_values_are_finite (vec_list (dipole_a_m2 command))) then (Torquer.MAGNETORQUER_ERROR, e)
      else if negb (simulator_is_ready e) then (Torquer.MAGNETORQUER_NOT_READY, e)
      else
        match adcs_simulator_set_magnetorquer
                (Some (simulator_command (adcs_simulator_get_time_us (simulator e)) command)) (simulator e) with
        | (ADCS_RESULT_OK, s) =>
            (Torquer.MAGNETORQUER_OK, e <| simulator := s |> <| last_magnetorquer_command := command |>)
        | (_, s) => (Torquer.MAGNETORQUER_ERROR, e <| simulator := s |>)
        end
  end.

Definition magnetorquer_disable e : Torquer.magnetorquer_status_t * environment :=
  magnetorquer_set_pointer (Some torquer_off) e.

Definition magnetorquer_get_last_command e : Torquer.magnetorquer_status_t * option magnetorquer_command_t :=
  if negb (simulator_is_ready e) then (Torquer.MAGNETORQUER_NOT_READY, None)
  else (Torquer.MAGNETORQUER_OK, Some (last_magnetorquer_command e)).

#[global] Instance sim_magnetorquer : Magnetorquer environment := fun command e =>
  let '(status, e) := magnetorquer_set_pointer (Some command) e in
  (bool_decide (status = Torquer.MAGNETORQUER_OK), e).

Definition adcs_environment_step (dt_s : f32) e : environment :=
  e <| simulator ::= fun s => snd (adcs_simulator_step dt_s s) |>.
Definition adcs_monotonic_time_us e : Z := adcs_simulator_get_time_us (simulator e).
Definition adcs_get_orbit e : adcs_result_t * option adcs_orbit_state_t := adcs_simulator_get_orbit (simulator e).

#[global] Instance sim_environment : AdcsEnvironment environment := {|
  adcs_set_unix_time_us := fun time e =>
    let '(r, s) := adcs_simulator_set_unix_time time (simulator e) in (r, e <| simulator := s |>);
  adcs_unix_time_us := fun e => (adcs_simulator_get_unix_time_us (simulator e), e);
  adcs_inject_simulator_faults := fun mask e =>
    (ADCS_RESULT_OK, e <| simulator ::= adcs_simulator_set_faults mask |>)
|}.
End Drivers.
End SimDrivers.

(** ** [sim_main.c] *)
Module SimMain.
Import Simulator Sensors SimDrivers.

Section Main.
Context `{Libm} `{Libm64}.

(** [arguments] are the words of the command line, [environment_set] whether
    [ADCS_STANDALONE] is in the environment. *)
Definition standalone_requested (arguments : list string) (environment_set : bool) : Z :=
  b2z (match arguments with [_; flag] => bool_decide (flag = "--standalone"%string) | _ => false end
       || environment_set).

Definition power_on : environment := mk_environment simulator_zero 0 torquer_off.

(** The simulator and the drivers; [None] where the program returns 1. *)
Definition sim_drivers_start : option environment :=
  match adcs_simulator_init None (simulator power_on) with
  | (ADCS_RESULT_OK, s) =>
      let e := power_on <| simulator := s |> in
      match imu_initialize e with
      | (Imu.IMU_OK, e) =>
          match magnetometer_initialize e with
          | (MAGNETOMETER_OK, e) =>
              match sun_sensor_initialize e with
              | (SUN_SENSOR_OK, e) =>
                  match magnetorquer_initialize e with
                  | (Torquer.MAGNETORQUER_OK, e) => Some e
                  | _ => None
                  end
              | _ => None
              end
          | _ => None
          end
      | _ => None
      end
  | _ => None
  end.

(** The board when the scheduler starts. *)
Definition sim_main (arguments : list string) (environment_set : bool) (now : timespec)
    : option (adcs_system environment) :=
  e ← sim_drivers_start;
  Some (adcs_start now (b2z (standalone_requested arguments environment_set =? 0)) e).
End Main.
End SimMain.

(** ** The sensor task on these drivers ([sensor_task.c]) *)
Section Loop.
Context `{Libm} `{Libm64}.

Definition SENSOR_TASK_PERIOD_MS : Z := 10.
Definition sensor_period_s : f32 := fdiv (of_int SENSOR_TASK_PERIOD_MS) (lit 1000 1).

Definition sim_readings (e : SimDrivers.environment) : sensor_readings :=
  mk_readings
    (match SimDrivers.imu_read e with
     | (Imu.IMU_OK, Some s) => Some (Imu.timestamp_us s, Imu.angular_rate_rad_s s, Imu.acceleration_m_s2 s)
     | _ => None
     end)
    (match SimDrivers.magnetometer_read e with
     | (Sensors.MAGNETOMETER_OK, Some s) => Some (Sensors.mag_magnetic_field_t s)
     | _ => None
     end)
    (match SimDrivers.sun_sensor_read e with
     | (Sensors.SUN_SENSOR_OK, Some s) =>
         Some (Sensors.sun_visible s, Sensors.sun_sun_vector_body s, Sensors.sun_irradiance_w_m2 s)
     | _ => None
     end).

(** The part of a round after the step of the environment. *)
Definition sim_sense (sequence : Z) (waiting : bool) (b : adcs_board SimDrivers.environment)
    : adcs_board SimDrivers.environment :=
  sensor_round false sequence (SimDrivers.adcs_monotonic_time_us (b_env b)) (sim_readings (b_env b)) waiting b.

Definition sim_advance (b : adcs_board SimDrivers.environment) : adcs_board SimDrivers.environment :=
  b <| b_env ::= SimDrivers.adcs_environment_step sensor_period_s |>.
End Loop.

(** ** What each step does to the simulator *)

(** The state outside the tasks' own variables. *)
Definition world {E} (b : adcs_board E)
    : E * list magnetorquer_command_t * list adcs_command_t * adcs_sensor_packet_t :=
  (b_env b, b_torquer b, b_executed b, latest_sensors (b_manager b)).

Section Frame.
Context {E : Type} `{AdcsEnvironment E} `{Magnetorquer E} `{Libm}.
Implicit Types b : adcs_board E.

Definition execute_env (c : adcs_command_t) (e : E) : E :=
  match c_parameter c with
  | ADCS_COMMAND_SET_UNIX_TIME t =>
      if (0 <? t) && (t <=? 18446744073709551615 / 1000000) then snd (adcs_set_unix_time_us (t * 1000000) e) else e
  | ADCS_COMMAND_SIMULATOR_FAULT mask => snd (adcs_inject_simulator_faults mask e)
  | _ => e
  end.

Lemma execute_world c b :
  world (execute_command c b) = (execute_env c (b_env b), b_torquer b, b_executed b, latest_sensors (b_manager b)).
Proof.
  unfold execute_command, execute_env, slew_to, dispatch_legacy_position, control_task_set_manual_magnetorquer,
    adcs_manager_request_mode, adcs_manager_set_guidance_target.
  destruct (c_parameter c); try (by repeat case_match).
Qed.

Lemma packet_world stm32 dport data padding buffered connected notice b :
  world (handle_packet stm32 dport data padding buffered connected notice b) = world b.
Proof.
  unfold handle_packet. destruct (_ && _); [|done]. rewrite decode_command_spec.
  unfold enqueue_command, command_task_send, send_ack. repeat case_match; simplify_eq; reflexivity.
Qed.

Lemma manage_world (f : adcs_manager_state_t -> adcs_manager_state_t) b :
  latest_sensors (f (b_manager b)) = latest_sensors (b_manager b) -> world (manage f b) = world b.
Proof. intros Hf. unfold world. by change (b_manager (manage f b)) with (f (b_manager b)); rewrite Hf. Qed.

Lemma inputs_sensors st st' : inputs st = inputs st' -> latest_sensors st = latest_sensors st'.
Proof. intros H'. unfold inputs in H'. by injection H'. Qed.

Lemma update_sensors stm32 cfg active now st :
  latest_sensors (adcs_manager_update stm32 cfg active now st) = latest_sensors st.
Proof.
  destruct (decide (AdcsManager.initialized st = 0)) as [Hi|Hi].
  { unfold adcs_manager_update. by rewrite Hi. }
  pose proof (update_inputs stm32 cfg active now st Hi) as Hin.
  exact (inputs_sensors _ _ Hin).
Qed.

Lemma control_update_world stm32 now b : world (control_update stm32 now b) = world b.
Proof. apply manage_world, update_sensors. Qed.

Lemma faults_world f b : world (b <| b_faults ::= f |>) = world b.
Proof. done. Qed.

Lemma health_sensors h st : latest_sensors (adcs_manager_set_health (Some h) st) = latest_sensors st.
Proof. done. Qed.

Lemma write_health_world stm32 r margin pet b : world (housekeeping_write stm32 r margin pet b) = world b.
Proof.
  unfold housekeeping_write. cbv zeta.
  set (ft := if _ =? _ then _ else _). set (h := _ <| he_minimum_stack_margin_words := margin |>).
  clearbody ft h. set (b1 := manage _ (b <| b_faults := ft |>)).
  rewrite faults_world, control_update_world. subst b1. by rewrite (manage_world _ _ (health_sensors h _)), faults_world.
Qed.

Lemma set_control_world o b : world (manage (adcs_manager_set_control_output o) b) = world b.
Proof. apply manage_world. unfold adcs_manager_set_control_output. destruct o; [|done]. by case_match. Qed.

(** A control round gives the driver one command. *)
Lemma actuate_world b :
  exists c, world (control_actuate b)
            = (snd (magnetorquer_set c (b_env b)), b_torquer b ++ [c], b_executed b, latest_sensors (b_manager b))
    /\ (fst (magnetorquer_set c (b_env b)) = false ->
        Z.testbit (active_faults (b_faults (control_actuate b))) 4 = true).
Proof.
  unfold control_actuate. destruct (control_law b) as [[command output] b1] eqn:Hl.
  assert (world b1 = world b) as Hw.
  { revert Hl. unfold control_law. destruct (adcs_controller_update _ _ _ _ _ _) as [[r o] ct]. cbv zeta.
    intros [= _ <-]. by destruct (_ && _). }
  unfold world in Hw. injection Hw as He Ht Hx Hs.
  destruct (override_command b1 command output) as [c o]. exists c.
  unfold drive. rewrite <- He. destruct (magnetorquer_set c (b_env b1)) as [ok env]. cbn [fst snd].
  rewrite <- Ht, <- Hx, <- Hs. destruct ok; rewrite set_control_world; (split; [reflexivity|]); [done|].
  intros _. exact (report_sets 4 ADCS_FAULT_ACTUATOR (b_faults b1) eq_refl).
Qed.

Definition not_sense (ev : adcs_event) : Prop := match ev with Sense _ _ _ _ => False | _ => True end.

(** The steps of the other tasks: only executing a command and actuating touch the world. *)
Inductive world_step b : adcs_board E -> Prop :=
  | World_kept b' : world b' = world b -> world_step b b'
  | World_executed c b' :
      world b' = (execute_env c (b_env b), b_torquer b, b_executed b ++ [c], latest_sensors (b_manager b)) ->
      world_step b b'
  | World_driven c b' :
      world b' = (snd (magnetorquer_set c (b_env b)), b_torquer b ++ [c], b_executed b, latest_sensors (b_manager b)) ->
      world_step b b'.

Lemma event_world stm32 ev (s : adcs_system E) :
  not_sense ev -> world_step (s_board s) (s_board (system_event stm32 ev s)).
Proof.
  destruct ev as [ev|sequence now r waiting|a|o r|now| |now|margin pet|now c d|]; intros Hn;
    cbn [system_event s_board board_event]; try done; try (by apply World_kept).
  - destruct ev as [dport data padding buffered connected notice|]; cbn [command_step].
    + apply World_kept, packet_world.
    + unfold command_task_round. destruct (b_queue (s_board s)) as [[|c q]|]; [by apply World_kept| |by apply World_kept].
      apply (World_executed _ c). by rewrite execute_world.
  - apply World_kept, manage_world. unfold adcs_manager_set_attitude. destruct a. cbv zeta. by case_match.
  - apply World_kept, control_update_world.
  - destruct (actuate_world (s_board s)) as (c & Hc & _). by apply (World_driven _ c).
  - destruct (s_reading s) as [r|]; [apply World_kept, write_health_world|by apply World_kept].
Qed.
End Frame.

(** ** The closed loop *)
Section Closed_loop.
Context `{Libm} `{Libm64}.
Import Simulator SimDrivers SimMain.
Implicit Types (e : environment) (b : adcs_board environment) (s : adcs_system environment).

(** The faults the last of these commands injected. *)
Definition injected (cs : list adcs_command_t) : Z :=
  fold_left (fun faults c => match c_parameter c with
                             | ADCS_COMMAND_SIMULATOR_FAULT mask => Z.land mask KNOWN_FAULTS
                             | _ => faults
                             end) cs 0.

(** The dipole a command asks for, within what the simulated coils can do. *)
Definition held_dipole (c : magnetorquer_command_t) : vec3 :=
  if enabled c =? 0 then vec_zero else clamp_dipole (maximum_dipole_a_m2 default_config) (dipole_a_m2 c).

Definition rate_ok (r : f32) : Prop := isnan r = true \/ within SIM_RATE_LIMIT_RAD_S r.

(** The simulator after the commands [executed] and the driver commands [driven]. *)
Record env_inv (executed : list adcs_command_t) (driven : list magnetorquer_command_t) (e : environment) : Prop := {
  ei_initialized : Simulator.initialized (simulator e) = 1;
  ei_ready : simulator_ready e = 1;
  ei_config : config (simulator e) = default_config;
  ei_faults : faults (simulator e) = injected executed;
  ei_actuator :
    actuator (truth (simulator e)) = actuator_zero
    \/ mc_enabled (actuator (truth (simulator e))) = enabled (last_magnetorquer_command e)
       /\ mc_dipole_a_m2 (actuator (truth (simulator e))) = held_dipole (last_magnetorquer_command e);
  ei_last : last_magnetorquer_command e ∈ torquer_off :: driven;
  ei_finite : adcs_values_are_finite (vec_list (dipole_a_m2 (last_magnetorquer_command e))) = true;
  ei_rate : Forall rate_ok (vec_list (angular_rate_rad_s (truth (simulator e))))
}.

Lemma default_config_valid : config_is_valid default_config = true.
Proof. vm_compute. reflexivity. Qed.

Lemma default_rate_ok : Forall rate_ok (vec_list (initial_angular_rate_rad_s default_config)).
Proof. repeat constructor; right; by vm_compute. Qed.

(** The program always starts. *)
Lemma sim_drivers_start_inv : exists e, sim_drivers_start = Some e /\ env_inv [] [] e /\ adcs_monotonic_time_us e = 0.
Proof.
  unfold sim_drivers_start, adcs_simulator_init. change (default default_config None) with default_config.
  rewrite default_config_valid. cbn [negb]. set (s0 := _ <| Simulator.initialized := 1 |>).
  assert (exists env, update_environment_locked s0 = env /\ Simulator.initialized env = 1
    /\ config env = default_config /\ faults env = 0 /\ actuator (truth env) = actuator_zero
    /\ timestamp_us (truth env) = 0
    /\ angular_rate_rad_s (truth env) = initial_angular_rate_rad_s default_config)
    as (env & -> & Hi & Hc & Hf & Ha & Ht & Hr) by (eexists; by split_and!).
  unfold imu_initialize, magnetometer_initialize, sun_sensor_initialize, magnetorquer_initialize,
    look_for_simulator, adcs_simulator_get_truth.
  change (simulator (?e <| simulator := env |>)) with env. rewrite Hi. cbv zeta. cbn [fst].
  change (bool_decide (fst (if 1 =? 0 then _ else (ADCS_RESULT_OK, ?x)) = ADCS_RESULT_OK)) with true. cbv iota.
  repeat (change (simulator (?x <| simulator_ready := ?y |>)) with env; rewrite ?Hi; cbv iota; cbn [fst]).
  eexists. split; [reflexivity|]. split; [|exact Ht].
  split; try done; [by left|by left|]. pose proof default_rate_ok as Hd. by rewrite <- Hr in Hd.
Qed.

(** Moving time or the Sun keeps what an update of the surroundings does not write. *)
Lemma environment_inv executed driven sim e :
  env_inv executed driven (e <| simulator := sim |>) ->
  env_inv executed driven (e <| simulator := update_environment_locked sim |>).
Proof. intros [? ? ? ? ? ? ? ?]. by split. Qed.

Lemma clamp_rate_ok r : rate_ok (adcs_clampf r (fneg SIM_RATE_LIMIT_RAD_S) SIM_RATE_LIMIT_RAD_S).
Proof.
  destruct (isnan r) eqn:Hn.
  - left. by destruct r.
  - right. by apply clampf_within.
Qed.

Lemma next_rate_ok inertia torque rate dt_s : Forall rate_ok (vec_list (next_rate inertia torque rate dt_s)).
Proof.
  unfold next_rate, axes, vec_list. cbn [v0 v1 v2].
  apply Forall_cons; split; [apply clamp_rate_ok|]. apply Forall_cons; split; [apply clamp_rate_ok|].
  apply Forall_cons; split; [apply clamp_rate_ok|constructor].
Qed.

Lemma advance_inv executed driven dt_s e :
  env_inv executed driven e -> env_inv executed driven (adcs_environment_step dt_s e).
Proof.
  intros He. unfold adcs_environment_step.
  change (e <| simulator ::= ?f |>) with (e <| simulator := f (simulator e) |>). cbv beta.
  unfold adcs_simulator_step. rewrite (ei_initialized _ _ _ He). change (1 =? 0) with false.
  destruct (negb (isfinite dt_s) || _ || _); [exact He|]. cbv iota zeta. cbn [snd].
  apply environment_inv. destruct He as [? ? ? ? ? ? ? ?]. split; try done.
  apply next_rate_ok.
Qed.

Lemma execute_inv executed driven c e :
  env_inv executed driven e -> env_inv (executed ++ [c]) driven (execute_env c e).
Proof.
  intros He. unfold execute_env.
  assert (injected (executed ++ [c]) = match c_parameter c with
            | ADCS_COMMAND_SIMULATOR_FAULT mask => Z.land mask KNOWN_FAULTS
            | _ => injected executed
            end) as Hf by (unfold injected; by rewrite fold_left_app).
  destruct (c_parameter c) eqn:Ec; try (destruct He as [? ? ? ? ? ? ? ?]; split; by rewrite ?Hf).
  assert (env_inv (executed ++ [c]) driven e) as He' by (destruct He as [? ? ? ? ? ? ? ?]; split; by rewrite ?Hf).
  destruct (_ && _); [|exact He']. cbn [adcs_set_unix_time_us sim_environment].
  unfold adcs_simulator_set_unix_time. rewrite (ei_initialized _ _ _ He). change (1 =? 0) with false.
  destruct (_ =? 0); [exact He'|]. cbv iota. cbn [snd]. apply environment_inv.
  destruct He' as [? ? ? ? ? ? ? ?]. by split.
Qed.

(** A mask with a single bit tests it. *)
Lemma fault_bit v n : 0 <= n -> truthy (Z.land v (2 ^ n)) = Z.testbit v n.
Proof.
  intros Hn. unfold truthy. destruct (Z.testbit v n) eqn:Hb.
  - apply negb_true_iff, Z.eqb_neq. intros Hz. apply (f_equal (fun z => Z.testbit z n)) in Hz.
    by rewrite Z.land_spec, Hb, Z.pow2_bits_true, Z.bits_0 in Hz.
  - apply negb_false_iff, Z.eqb_eq, Z.bits_inj'. intros m Hm. rewrite Z.land_spec, Z.bits_0, Z.pow2_bits_eqb by done.
    destruct (Z.eqb_spec n m) as [<-|]; [by rewrite Hb|apply andb_false_r].
Qed.

Lemma ready_inv executed driven e : env_inv executed driven e -> simulator_is_ready e = true.
Proof.
  intros [Hi Hr ? ? ? ? ? ?]. unfold simulator_is_ready, adcs_simulator_get_truth. by rewrite Hr, Hi.
Qed.

(** With the actuator fault the driver refuses everything. *)
Lemma set_inv executed driven c e :
  env_inv executed driven e ->
  let '(ok, e') := magnetorquer_set c e in
  env_inv executed (driven ++ [c]) e' /\ adcs_monotonic_time_us e' = adcs_monotonic_time_us e
  /\ (Z.testbit (injected executed) 4 = true -> ok = false).
Proof.
  intros He. unfold magnetorquer_set, sim_magnetorquer, magnetorquer_set_pointer.
  assert (env_inv executed (driven ++ [c]) e) as He'.
  { destruct He as [? ? ? ? ? Hl ? ?]. split; try done. clear - Hl. set_solver. }
  destruct (negb (adcs_values_are_finite (vec_list (dipole_a_m2 c)))) eqn:Hfin; [done|].
  rewrite (ready_inv _ _ _ He). cbn [negb]. unfold adcs_simulator_set_magnetorquer.
  change (mc_dipole_a_m2 (simulator_command ?t c)) with (dipole_a_m2 c). rewrite Hfin.
  rewrite (ei_initialized _ _ _ He). change (1 =? 0) with false. cbv iota.
  rewrite (ei_faults _ _ _ He). change ADCS_SIM_FAULT_ACTUATOR with (2 ^ 4). rewrite fault_bit by done.
  change (mc_enabled (simulator_command ?t c)) with (enabled c). rewrite (ei_config _ _ _ He).
  pose proof (eq_refl (held_dipole c)) as Hheld. unfold held_dipole at 2 in Hheld.
  destruct (Z.testbit (injected executed) 4) eqn:Hbit; [split; [|done]|].
  - destruct He' as [? ? ? ? ? ? ? ?]. split; try done. by left.
  - destruct He' as [? ? ? ? ? ? ? ?].
    destruct (enabled c =? 0); (split; [|done]);
      (split; try done; [right; split; [done|exact (eq_sym Hheld)]|clear; set_solver|by apply negb_false_iff]).
Qed.

(** *** Sensor readings *)

(** The valid bits of a packet when these faults are injected. *)
Definition expected_mask (faults : Z) : Z :=
  (if Z.testbit faults 0 then 0 else 3) + (if Z.testbit faults 1 then 0 else 4)
  + (if Z.testbit faults 2 then 0 else 8).

Lemma sim_packet executed driven e sequence :
  env_inv executed driven e ->
  let p := sensor_packet sequence (adcs_monotonic_time_us e) (sim_readings e) in
  sp_timestamp_us p = adcs_monotonic_time_us e /\ sp_valid_mask p = expected_mask (injected executed).
Proof.
  intros He. unfold sim_readings, imu_read, magnetometer_read, sun_sensor_read,
    adcs_simulator_read_imu, adcs_simulator_read_magnetometer, adcs_simulator_read_sun_sensor, unavailable.
  rewrite (ready_inv _ _ _ He), (ei_initialized _ _ _ He), (ei_faults _ _ _ He).
  change ADCS_SIM_FAULT_IMU with (2 ^ 0). change ADCS_SIM_FAULT_MAGNETOMETER with (2 ^ 1).
  change ADCS_SIM_FAULT_SUN_SENSOR with (2 ^ 2). rewrite !fault_bit by done.
  unfold expected_mask.
  destruct (Z.testbit _ 0), (Z.testbit _ 1), (Z.testbit _ 2); split; reflexivity.
Qed.

(** The manager takes every packet while time does not run backwards. *)
Lemma sim_sense_sensors executed driven sequence waiting b :
  env_inv executed driven (b_env b) ->
  sp_timestamp_us (latest_sensors (b_manager b)) <= adcs_monotonic_time_us (b_env b) ->
  let b' := sim_sense sequence waiting b in
  sp_timestamp_us (latest_sensors (b_manager b')) = adcs_monotonic_time_us (b_env b)
  /\ sp_valid_mask (latest_sensors (b_manager b')) = expected_mask (injected executed).
Proof.
  intros He Ht. destruct (sim_packet _ _ _ sequence He) as [Hts Hmask]. cbv zeta. unfold sim_sense, sensor_round.
  set (p := sensor_packet _ _ _) in *. clearbody p.
  assert (latest_sensors (adcs_manager_set_sensors false (Some p) (b_manager b)) = p) as Hp.
  { unfold adcs_manager_set_sensors. rewrite Hts. destruct (Z.leb_spec (sp_timestamp_us (latest_sensors (b_manager b)))
      (adcs_monotonic_time_us (b_env b))); [done|lia]. }
  set (b1 := manage _ b). assert (latest_sensors (b_manager b1) = p) as Hb1 by exact Hp. clearbody b1.
  assert (latest_sensors (b_manager (if waiting then manage adcs_manager_note_dropped_message b1 else b1)) = p) as ->
    by (by destruct waiting).
  done.
Qed.

(** *** The steps *)

(** The tasks of the board, the step of the simulator and the sensor readings, in any order;
    the simulated clock, which counts microseconds from the start, does not wrap around. *)
Inductive sim_reachable (arguments : list string) (environment_set : bool) (now : timespec)
    : adcs_system environment -> Prop :=
  | Sim_start s : sim_main arguments environment_set now = Some s -> sim_reachable arguments environment_set now s
  | Sim_task s ev :
      sim_reachable arguments environment_set now s -> not_sense ev ->
      sim_reachable arguments environment_set now (system_event false ev s)
  | Sim_advance s :
      sim_reachable arguments environment_set now s ->
      adcs_monotonic_time_us (b_env (s_board s)) + 10000 < 18446744073709551616 ->
      sim_reachable arguments environment_set now (mk_system _ (sim_advance (s_board s)) (s_reading s))
  | Sim_sense s sequence waiting :
      sim_reachable arguments environment_set now s ->
      sim_reachable arguments environment_set now (mk_system _ (sim_sense sequence waiting (s_board s)) (s_reading s)).

Definition clock_inv (t : Z) (p : adcs_sensor_packet_t) : Prop := 0 <= t /\ sp_timestamp_us p <= t.

Definition loop_inv b : Prop :=
  env_inv (b_executed b) (b_torquer b) (b_env b)
  /\ clock_inv (adcs_monotonic_time_us (b_env b)) (latest_sensors (b_manager b)).

Lemma sensor_step : step_us sensor_period_s = 10000.
Proof. vm_compute. reflexivity. Qed.

Lemma advance_time executed driven e :
  env_inv executed driven e ->
  adcs_monotonic_time_us (adcs_environment_step sensor_period_s e) = u64 (adcs_monotonic_time_us e + 10000).
Proof.
  intros He. unfold adcs_monotonic_time_us, adcs_get_orbit, adcs_environment_step.
  change (simulator (e <| simulator ::= ?f |>)) with (f (simulator e)). cbv beta.
  unfold adcs_simulator_step. rewrite (ei_initialized _ _ _ He). change (1 =? 0) with false. cbv iota.
  assert (negb (isfinite sensor_period_s) || fle sensor_period_s f0 || flt f1 sensor_period_s = false) as ->
    by (vm_compute; reflexivity).
  cbv iota zeta. cbn [snd]. unfold adcs_simulator_get_time_us. rewrite <- sensor_step. reflexivity.
Qed.

Lemma execute_env_time executed driven c e :
  env_inv executed driven e -> adcs_monotonic_time_us (execute_env c e) = adcs_monotonic_time_us e.
Proof.
  intros He. unfold execute_env. destruct (c_parameter c); try done. destruct (_ && _); [|done].
  cbn [adcs_set_unix_time_us sim_environment]. unfold adcs_simulator_set_unix_time.
  rewrite (ei_initialized _ _ _ He). by destruct (_ =? 0).
Qed.

Lemma world_step_inv b b' : loop_inv b -> world_step b b' -> loop_inv b'.
Proof.
  unfold loop_inv. intros [He Hc]. destruct 1 as [b' Hw|c b' Hw|c b' Hw]; unfold world in Hw;
    injection Hw as -> -> -> ->; [done| |].
  - rewrite (execute_env_time _ _ c _ He). split; [by apply execute_inv|done].
  - pose proof (set_inv _ _ c _ He) as Hs. destruct (magnetorquer_set c (b_env b)) as [ok e].
    cbn [snd]. destruct Hs as (He' & -> & _). by split.
Qed.

Lemma sense_world sequence waiting b :
  b_env (sim_sense sequence waiting b) = b_env b /\ b_torquer (sim_sense sequence waiting b) = b_torquer b
  /\ b_executed (sim_sense sequence waiting b) = b_executed b.
Proof. unfold sim_sense, sensor_round. by destruct waiting. Qed.

Lemma sense_inv sequence waiting b : loop_inv b -> loop_inv (sim_sense sequence waiting b).
Proof.
  intros [He [Ht Hc]]. unfold loop_inv, clock_inv. destruct (sense_world sequence waiting b) as (-> & -> & ->).
  split; [done|]. destruct (sim_sense_sensors _ _ sequence waiting b He Hc) as [-> _]. split; [done|lia].
Qed.

Lemma advance_loop_inv b :
  adcs_monotonic_time_us (b_env b) + 10000 < 18446744073709551616 -> loop_inv b -> loop_inv (sim_advance b).
Proof.
  intros Hb [He [Ht Hc]]. unfold loop_inv, clock_inv, sim_advance.
  change (b_env (b <| b_env ::= ?f |>)) with (f (b_env b)). cbv beta. rewrite (advance_time _ _ _ He).
  split; [by apply advance_inv|]. change (b_manager (b <| b_env ::= _ |>)) with (b_manager b).
  unfold u64. rewrite Z.mod_small by lia. lia.
Qed.

Lemma sim_reachable_inv arguments environment_set now s :
  sim_reachable arguments environment_set now s -> system_wf s /\ loop_inv (s_board s).
Proof.
  induction 1 as [s Hs|s ev _ [Hwf Hi] Hn|s _ [Hwf Hi] Ht|s sequence waiting _ [Hwf Hi]].
  - unfold sim_main in Hs. destruct sim_drivers_start_inv as (e & He & Hinv & Ht). rewrite He in Hs.
    injection Hs as <-. split; [apply start_wf|]. split; [exact Hinv|].
    change (b_env (s_board (adcs_start _ _ e))) with e. rewrite Ht. by split.
  - split; [by apply system_event_wf|]. eapply world_step_inv; [exact Hi|]. by apply event_world.
  - split; [exact Hwf|]. by apply advance_loop_inv.
  - split; [|by apply sense_inv]. split; [|apply Hwf]. cbn [s_board].
    exact (board_event_wf false (Sense sequence _ _ waiting) (s_board s) (proj1 Hwf)).
Qed.

Lemma held_within c :
  adcs_values_are_finite (vec_list (dipole_a_m2 c)) = true -> Forall (within (lit 20 100)) (vec_list (held_dipole c)).
Proof.
  unfold held_dipole. change (maximum_dipole_a_m2 default_config) with (lit 20 100).
  unfold adcs_values_are_finite, vec_list. cbn [forallb]. rewrite !andb_true_iff. intros (H1 & H2 & H3 & _).
  destruct (enabled c =? 0); cbn [clamp_dipole vec_map vec_zero v0 v1 v2]; repeat (apply Forall_cons; split);
    try apply Forall_nil; try done; try (by apply within_0); apply clampf_within; try done;
    by apply isfinite_not_nan.
Qed.

Lemma set_off_stops executed driven e :
  env_inv executed driven e ->
  mc_dipole_a_m2 (actuator (truth (simulator (snd (magnetorquer_set torquer_off e))))) = vec_zero.
Proof.
  intros He. unfold magnetorquer_set, sim_magnetorquer, magnetorquer_set_pointer.
  change (negb (adcs_values_are_finite (vec_list (dipole_a_m2 torquer_off)))) with false.
  rewrite (ready_inv _ _ _ He). cbn [negb]. unfold adcs_simulator_set_magnetorquer.
  change (negb (adcs_values_are_finite (vec_list (mc_dipole_a_m2 (simulator_command ?t torquer_off))))) with false.
  rewrite (ei_initialized _ _ _ He). change (1 =? 0) with false. cbv iota.
  by destruct (truthy _).
Qed.

(** C16. What acts on the simulated spacecraft is what the board commanded.  In every state the
    simulation build reaches, whatever its tasks do and in whatever order, the simulated
    coils are off or hold the last command the driver accepted, which is one the control
    task gave (or the zero command of the start), every axis clamped to 0.2; every axis of
    the simulated rate is within 2 rad/s or not a number; and a control round in an idle
    mode or with the actuators inhibited, without the manual override, leaves no dipole. *)
Theorem simulated_dipole_commanded arguments environment_set now s :
  sim_reachable arguments environment_set now s ->
  let b := s_board s in
  let a := actuator (truth (simulator (b_env b))) in
  let last := last_magnetorquer_command (b_env b) in
  (a = actuator_zero \/ mc_enabled a = enabled last /\ mc_dipole_a_m2 a = held_dipole last)
  /\ last ∈ torquer_off :: b_torquer b
  /\ Forall (within (lit 20 100)) (vec_list (mc_dipole_a_m2 a))
  /\ Forall rate_ok (vec_list (angular_rate_rad_s (truth (simulator (b_env b)))))
  /\ (idle_mode (mode (b_manager b)) \/ actuators_inhibited (b_manager b) <> 0 -> s_manual_override b = 0 ->
      mc_dipole_a_m2 (actuator (truth (simulator (b_env (control_actuate b))))) = vec_zero).
Proof.
  intros Hs. destruct (sim_reachable_inv _ _ _ _ Hs) as [[Hwf _] [He _]]. cbv zeta.
  split; [apply He|]. split; [apply He|]. split; [|split; [apply He|]].
  - destruct (ei_actuator _ _ _ He) as [->|[_ ->]]; [|by apply held_within, He].
    repeat (apply Forall_cons; split); try apply Forall_nil; by vm_compute.
  - intros Hidle Hman. rewrite (off_drives_off _ (idle_law_off _ Hidle) Hman). by apply (set_off_stops _ _ _ He).
Qed.

(** Without gyroscope or magnetometer the evaluation of the sensors shows a critical fault. *)
Lemma incomplete_packet_critical c p now_us :
  has_bits (sp_valid_mask p) 5 = false -> sensor_faults c (Some p) now_us = 1 \/ sensor_faults c (Some p) now_us = 2.
Proof.
  intros Hm. unfold sensor_faults. change (Z.lor ADCS_SENSOR_VALID_GYROSCOPE ADCS_SENSOR_VALID_MAGNETOMETER) with 5.
  rewrite Hm. destruct (_ || _ || _); [by left|by right].
Qed.

Lemma incomplete_sensors_safe now margin pet b :
  board_wf b -> has_bits (sp_valid_mask (latest_sensors (b_manager b))) 5 = false ->
  mode (b_manager (housekeeping_round false now margin pet b)) = ADCS_MODE_SAFE.
Proof.
  intros Hwf Hm.
  destruct (incomplete_packet_critical (fault_config (b_faults b)) (latest_sensors (b_manager b)) now Hm) as [Hf|Hf];
    [apply (observed_critical_safe _ _ _ _ _ 0)|apply (observed_critical_safe _ _ _ _ _ 1)]; try done;
    unfold housekeeping_read, fault_management_evaluate_adcs; cbn [hk_observed]; by rewrite Hf, !Z.lor_spec.
Qed.

Lemma refused_actuation_safe b now_us executed driven :
  board_wf b -> env_inv executed driven (b_env b) -> Z.testbit (injected executed) 4 = true ->
  mode (b_manager (control_update false now_us (control_actuate b))) = ADCS_MODE_SAFE.
Proof.
  intros Hwf He Hbit. destruct (actuate_world b) as (c & _ & Hrefused).
  pose proof (set_inv _ _ c _ He) as Hs. destruct (magnetorquer_set c (b_env b)) as [ok e].
  destruct Hs as (_ & _ & Hok). apply critical_update_safe; [by apply control_actuate_wf|].
  apply (critical_of _ 4); [|lia|done]. by apply Hrefused, Hok.
Qed.

Lemma faulted_torque executed driven e :
  env_inv executed driven e -> Z.testbit (injected executed) 4 = true -> applied_torque (simulator e) = vec_zero.
Proof.
  intros He Hbit. unfold applied_torque. rewrite (ei_faults _ _ _ He).
  change ADCS_SIM_FAULT_ACTUATOR with (2 ^ 4). rewrite fault_bit, Hbit by done. by rewrite orb_true_r.
Qed.

End Closed_loop.

(** ** Concrete runs *)

#[local] Existing Instances flat_libm flat_libm64.

Definition sim_started : adcs_system SimDrivers.environment :=
  default (adcs_start (mk_time 0 0) 1 SimMain.power_on) (SimMain.sim_main ["adcs"%string] false (mk_time 0 0)).
Strategy expand [sim_started].

Lemma sim_started_reachable : sim_reachable ["adcs"%string] false (mk_time 0 0) sim_started.
Proof. apply Sim_start. vm_compute. reflexivity. Qed.

(** A packet arrives and its command is executed. *)
Definition ordered (data : list Z) (s : adcs_system SimDrivers.environment) : adcs_system SimDrivers.environment :=
  system_event false (Command Execute)
    (system_event false (Command (Packet 10 data [0; 0; 0] true true true)) s).

Lemma ordered_reachable data s :
  sim_reachable ["adcs"%string] false (mk_time 0 0) s ->
  sim_reachable ["adcs"%string] false (mk_time 0 0) (ordered data s).
Proof. intros Hs. by do 2 (apply Sim_task; [|done]). Qed.

(** The Y coil by hand, in reverse. *)
Definition pressed : adcs_system SimDrivers.environment :=
  system_event false Actuate (ordered [70; 0; 0; 0; 1; 0; 0; 0; 1; 255; 0; 0] sim_started).

Lemma simulated_dipole_commanded_witness :
  let a := Simulator.actuator (Simulator.truth (SimDrivers.simulator (b_env (s_board pressed)))) in
  mc_dipole_a_m2 a = Vec f0 (fneg (lit 20 100)) f0 /\ Forall (within (lit 20 100)) (vec_list (mc_dipole_a_m2 a)).
Proof.
  cbv zeta. split; [vm_compute; reflexivity|].
  refine (proj1 (proj2 (proj2 (simulated_dipole_commanded ["adcs"%string] false (mk_time 0 0) pressed _)))).
  apply Sim_task; [|exact I]. apply ordered_reachable, sim_started_reachable.
Defined.

(** The faults of the actuator and the gyroscope. *)
Definition injured : adcs_system SimDrivers.environment :=
  ordered [69; 0; 0; 0; 2; 0; 0; 0; 17; 0; 0; 0] pressed.

