(* ===== verification/FlightBoard.v ===== *)
(** The STM32 build of the attitude control board: its start ([adcs_application.c]), the reset,
    the shutdown and the independent watchdog ([adcs_board.c]), the clock
    ([adcs_environment_stm32.c]) and the sensor task on its drivers, all under
    [apps/adcs/Platform/Src].

    The environment of the tasks is the clock, the coil driver and the bus of the inertial
    measurement unit.  The theorem at the end looks at the whole board: without a
    magnetometer the control laws never power a coil. *)

From stdpp Require Import gmap.
From S2P Require Import Prelude Float32 AdcsMath AdcsControl AdcsManager AdcsFault AdcsCommand AdcsTasks ObcProgress AdcsDrivers AdcsSimulator.

#[projections(primitive)]
Record flight_environment {L : Type} := mk_flight {
  clock : Stm32.environment;
  rods : Torquer.torquer_driver;
  imu_bus : L;
  s_bmi_addr : Z
}.
Arguments flight_environment : clear implicits.

Section Environment.
Context {L : Type}.
Implicit Types e : flight_environment L.

(** [adcs_environment_stm32.c]: there is no orbit and nothing is simulated. *)
Definition adcs_environment_step (dt_s : f32) e : flight_environment L := e.
Definition adcs_get_orbit (orbit : option adcs_orbit_state_t) : adcs_result_t * option adcs_orbit_state_t :=
  match orbit with
  | None => (ADCS_RESULT_INVALID_ARGUMENT, None)
  | Some _ => (ADCS_RESULT_UNAVAILABLE, Some zero_orbit)
  end.

#[global] Instance flight_clock : AdcsEnvironment (flight_environment L) := {|
  adcs_set_unix_time_us := fun time e =>
    let '(r, c) := Stm32.set_unix_time_us time (clock e) in (r, e <| clock := c |>);
  adcs_unix_time_us := fun e => let '(t, c) := Stm32.get_unix_time_us (clock e) in (t, e <| clock := c |>);
  adcs_inject_simulator_faults := fun _ e => (ADCS_RESULT_UNAVAILABLE, e)
|}.

#[global] Instance flight_coils : Magnetorquer (flight_environment L) := fun command e =>
  let '(ok, d) := AdcsTasks.magnetorquer_set command (rods e) in (ok, e <| rods := d |>).

(** ** [adcs_board.c] *)

(** The registers of the independent watchdog. *)
Inductive iwdg_register := KR | PR | RLR.

(** The writes before and after the wait for [SR]. *)
Definition adcs_watchdog_start : list (iwdg_register * Z) :=
  [(KR, 0xCCCC); (KR, 0x5555); (PR, 6); (RLR, 4095); (KR, 0xAAAA)].
Definition adcs_watchdog_pet : list (iwdg_register * Z) := [(KR, 0xAAAA)].

(** What the processor does in the end. *)
Inductive board_action :=
  | Task_delay (ms : Z)
  | System_reset
  | Disable_irq
  | Pet_forever
  | Spin_forever.

(** [running]: the scheduler runs. *)
Definition quiesce (running : bool) e : list board_action * flight_environment L :=
  (if running then [Task_delay 100] else [], e <| rods ::= fun d => snd (Torquer.magnetorquer_disable d) |>).
Definition board_reset (running : bool) e : list board_action * flight_environment L :=
  let '(actions, e) := quiesce running e in (actions ++ [System_reset], e).
Definition board_shutdown (running : bool) e : list board_action * flight_environment L :=
  let '(actions, e) := quiesce running e in (actions ++ [Disable_irq; Pet_forever], e).

(** A failed assertion leaves the coils as they are; the watchdog resets. *)
Definition adcs_assert_failed : list board_action := [Disable_irq; Spin_forever].
Definition vApplicationStackOverflowHook : list board_action := adcs_assert_failed.
End Environment.

(** ** [adcs_application.c] *)
Section Application.
Context {L : Type} `{Imu.RegisterBus L} (bmi270_config_file : list Z).
Implicit Types e : flight_environment L.

(** Which drivers are ready, as the log shows it: unit, magnetometer, Sun sensor, coils. *)
Record drivers_ready := mk_ready { imu_ready : bool; mag_ready : bool; sun_ready : bool; rods_ready : bool }.

(** [test_at_boot] is the build option [ADCS_TEST_MAGNETORQUER_AT_BOOT]; [fuel] bounds the
    upload of the unit's configuration; [now] is the time of the first pet. *)
Definition adcs_application_start (test_at_boot : bool) (fuel : nat) (now : timespec) e
    : drivers_ready * adcs_system (flight_environment L) :=
  let manager := adcs_manager_set_actuators_inhibited 0 adcs_manager_init in
  let '(imu, addr, bus) := Imu.imu_initialize bmi270_config_file fuel (imu_bus e) in
  let e := e <| imu_bus := bus |> <| s_bmi_addr := addr |> in
  let mag := Sensors.magnetometer_initialize in
  let sun := Sensors.sun_sensor_initialize in
  let '(coils, d) := Torquer.magnetorquer_initialize (rods e) in
  let ready := mk_ready (match imu with Imu.IMU_OK => true | _ => false end)
                 (match mag with Sensors.MAGNETOMETER_OK => true | _ => false end)
                 (match sun with Sensors.SUN_SENSOR_OK => true | _ => false end)
                 (bool_decide (coils = Torquer.MAGNETORQUER_OK)) in
  let d := if test_at_boot && rods_ready ready then Torquer.magnetorquer_test_sequence d else d in
  let s := adcs_start now 1 (e <| rods := d |>) in
  (ready, mk_system _ (manage (fun _ => manager) (s_board s)) (s_reading s)).

(** ** The sensor task on these drivers

    The tick stands still while the round reads. *)
Definition flight_readings (now_us : Z) e : sensor_readings * flight_environment L :=
  let '(imu, sample, bus) :=
    Imu.imu_read (s_bmi_addr e) now_us (Some (Imu.mk_sample 0 vec_zero vec_zero f0)) (imu_bus e) in
  (mk_readings
     (match imu, sample with
      | Imu.IMU_OK, Some s => Some (Imu.timestamp_us s, Imu.angular_rate_rad_s s, Imu.acceleration_m_s2 s)
      | _, _ => None
      end)
     (match Sensors.magnetometer_read (Some (Sensors.mk_field_sample 0 vec_zero)) with
      | (Sensors.MAGNETOMETER_OK, Some s) => Some (Sensors.mag_magnetic_field_t s)
      | _ => None
      end)
     (match Sensors.sun_sensor_read (Some (Sensors.mk_sun_sample 0 vec_zero f0 0)) with
      | (Sensors.SUN_SENSOR_OK, Some s) =>
          Some (Sensors.sun_visible s, Sensors.sun_sun_vector_body s, Sensors.sun_irradiance_w_m2 s)
      | _ => None
      end),
   e <| imu_bus := bus |>).

Definition flight_sense (sequence : Z) (waiting : bool) (b : adcs_board (flight_environment L))
    : adcs_board (flight_environment L) :=
  let '(now_us, c) := Stm32.adcs_monotonic_time_us (clock (b_env b)) in
  let '(readings, e) := flight_readings now_us ((b_env b) <| clock := c |>) in
  sensor_round true sequence now_us readings waiting (b <| b_env := e |>).

(** The hardware's tick is [ms] from now on. *)
Definition flight_tick (ms : Z) (b : adcs_board (flight_environment L)) : adcs_board (flight_environment L) :=
  b <| b_env ::= fun e => e <| clock ::= fun c => c <| Stm32.tick := u32 ms |> |> |>.
End Application.

(** ** The whole board *)
Section Flight.
Context {L : Type} `{Imu.RegisterBus L} `{Libm} (bmi270_config_file : list Z).
Implicit Types (e : flight_environment L) (b : adcs_board (flight_environment L))
  (s : adcs_system (flight_environment L)).

(** The tasks, the sensor readings and the hardware's tick, in any order, from power-on. *)
Inductive flight_reachable (test_at_boot : bool) (fuel : nat) (now : timespec) (c : Stm32.environment) (bus : L)
    : adcs_system (flight_environment L) -> Prop :=
  | Flight_start :
      flight_reachable test_at_boot fuel now c bus
        (snd (adcs_application_start bmi270_config_file test_at_boot fuel now (mk_flight L c Torquer.power_on bus 0)))
  | Flight_task s ev :
      flight_reachable test_at_boot fuel now c bus s -> not_sense ev ->
      flight_reachable test_at_boot fuel now c bus (system_event true ev s)
  | Flight_sense s sequence waiting :
      flight_reachable test_at_boot fuel now c bus s ->
      flight_reachable test_at_boot fuel now c bus
        (mk_system _ (flight_sense sequence waiting (s_board s)) (s_reading s))
  | Flight_tick s ms :
      flight_reachable test_at_boot fuel now c bus s ->
      flight_reachable test_at_boot fuel now c bus (mk_system _ (flight_tick ms (s_board s)) (s_reading s)).

Definition coils_inv (d : Torquer.torquer_driver) : Prop := Torquer.s_initialized d = 1 /\ Torquer.torquer_inv d.
Definition blind (p : adcs_sensor_packet_t) : Prop :=
  truthy (Z.land (sp_valid_mask p) ADCS_SENSOR_VALID_MAGNETOMETER) = false.
Definition flight_inv b : Prop := coils_inv (rods (b_env b)) /\ blind (latest_sensors (b_manager b)).

Lemma written_initialized writes d : Torquer.s_initialized (Torquer.write_pins writes d) = Torquer.s_initialized d.
Proof. done. Qed.
Lemma remembered_initialized c d :
  Torquer.s_initialized (d <| Torquer.s_last_command := c |>) = Torquer.s_initialized d.
Proof. done. Qed.

Lemma disable_initialized d : Torquer.s_initialized (snd (Torquer.magnetorquer_disable d)) = Torquer.s_initialized d.
Proof.
  unfold Torquer.magnetorquer_disable. case_if as E; [done|]. cbv zeta. cbn [snd].
  by rewrite remembered_initialized, written_initialized.
Qed.

Lemma set_initialized c d : Torquer.s_initialized (snd (Torquer.magnetorquer_set_pointer c d)) = Torquer.s_initialized d.
Proof.
  unfold Torquer.magnetorquer_set_pointer. case_if as E; [done|]. destruct c as [c|]; [|done].
  case_if as E1; [apply disable_initialized|]. cbv zeta. case_if as E2; [apply disable_initialized|].
  cbn [snd]. by rewrite remembered_initialized, !written_initialized.
Qed.

Lemma set_coils c d : coils_inv d -> coils_inv (snd (Torquer.magnetorquer_set_pointer c d)).
Proof. intros [Hi Hd]. split; [by rewrite set_initialized|by apply Torquer.set_pointer_inv]. Qed.

Lemma channel_initialized axis dir d :
  Torquer.s_initialized (snd (Torquer.magnetorquer_set_channel axis dir d)) = Torquer.s_initialized d.
Proof. apply set_initialized. Qed.

Lemma test_initialized d axis : Torquer.s_initialized (Torquer.test_axis d axis) = Torquer.s_initialized d.
Proof. unfold Torquer.test_axis. cbv zeta. by do 4 rewrite channel_initialized. Qed.

Lemma initialize_coils d : coils_inv (snd (Torquer.magnetorquer_initialize d)).
Proof. split; [apply Torquer.initialize_initialized|apply Torquer.initialize_inv]. Qed.

Lemma initialize_coils_pair d :
  Torquer.magnetorquer_initialize d = (Torquer.MAGNETORQUER_OK, snd (Torquer.magnetorquer_initialize d)).
Proof. done. Qed.

Lemma test_coils d : coils_inv d -> coils_inv (Torquer.magnetorquer_test_sequence d).
Proof.
  intros [Hi Hd]. split; [|by apply Torquer.test_sequence_inv].
  unfold Torquer.magnetorquer_test_sequence. rewrite disable_initialized.
  cbn [fold_left]. by do 3 rewrite test_initialized.
Qed.

Lemma off_rests d : coils_inv d -> Torquer.at_rest (snd (Torquer.magnetorquer_set_pointer (Some torquer_off) d)).
Proof.
  intros [Hi _]. assert (Torquer.s_initialized d <> 0) as Hn by (rewrite Hi; done).
  unfold Torquer.magnetorquer_set_pointer. rewrite (proj2 (Z.eqb_neq _ _) Hn). change (enabled torquer_off) with 0.
  change (negb (truthy 0)) with true. cbv iota. by apply Torquer.disable_rests.
Qed.

Lemma quiesce_rests (running : bool) e :
  coils_inv (rods e) -> Torquer.at_rest (rods (snd (quiesce running e))).
Proof.
  intros [Hi _]. change (rods (snd (quiesce running e))) with (snd (Torquer.magnetorquer_disable (rods e))).
  apply Torquer.disable_rests. by rewrite Hi.
Qed.

Lemma driver_set c (d : Torquer.torquer_driver) :
  snd (AdcsTasks.magnetorquer_set c d) = snd (Torquer.magnetorquer_set_pointer (Some c) d).
Proof.
  unfold AdcsTasks.magnetorquer_set, Torquer.stm32_magnetorquer. by destruct (Torquer.magnetorquer_set_pointer _ _).
Qed.

Lemma rods_set c e :
  rods (snd (AdcsTasks.magnetorquer_set c e)) = snd (Torquer.magnetorquer_set_pointer (Some c) (rods e)).
Proof.
  rewrite <- driver_set. unfold AdcsTasks.magnetorquer_set at 1. unfold flight_coils.
  by destruct (AdcsTasks.magnetorquer_set c (rods e)) as [ok d].
Qed.

Lemma execute_rods c e : rods (execute_env c e) = rods e.
Proof.
  unfold execute_env. destruct (c_parameter c); try done. case_if as E; [|done].
  cbn [AdcsCommand.adcs_set_unix_time_us flight_clock]. by destruct (Stm32.set_unix_time_us _ _) as [r cl].
Qed.

Lemma flight_step_inv b b' : flight_inv b -> world_step b b' -> flight_inv b'.
Proof.
  unfold flight_inv. intros [Hc Hs]. destruct 1 as [b' Hw|c b' Hw|c b' Hw]; unfold world in Hw;
    injection Hw as -> _ _ ->; [done| |]; (split; [|done]).
  - by rewrite execute_rods.
  - rewrite rods_set. by apply set_coils.
Qed.

(** A round of the sensor task takes its packet over or leaves the manager as it was. *)
Lemma round_sensors stm32 sequence now_us r waiting b :
  b_env (sensor_round stm32 sequence now_us r waiting b) = b_env b
  /\ (latest_sensors (b_manager (sensor_round stm32 sequence now_us r waiting b)) = latest_sensors (b_manager b)
      \/ latest_sensors (b_manager (sensor_round stm32 sequence now_us r waiting b)) = sensor_packet sequence now_us r).
Proof.
  unfold sensor_round. set (p := sensor_packet _ _ _). clearbody p.
  set (b1 := manage _ b).
  assert (b_env b1 = b_env b /\ (latest_sensors (b_manager b1) = latest_sensors (b_manager b)
    \/ latest_sensors (b_manager b1) = p)) as Hb1.
  { split; [done|]. unfold b1, manage. change (b_manager (b <| b_manager ::= ?f |>)) with (f (b_manager b)). cbv beta.
    unfold adcs_manager_set_sensors. destruct (_ <=? _); [by right|by left]. }
  clearbody b1. by destruct waiting.
Qed.

Lemma sense_flight_inv sequence waiting b : flight_inv b -> flight_inv (flight_sense sequence waiting b).
Proof.
  intros [Hc Hs]. unfold flight_sense. destruct (Stm32.adcs_monotonic_time_us _) as [now_us c].
  destruct (flight_readings now_us _) as [r e] eqn:Hr.
  assert (rods e = rods (b_env b) /\ magnetometer_sample r = None /\ sun_sample r = None) as (He & Hm & Hsun).
  { revert Hr. unfold flight_readings. destruct (Imu.imu_read _ _ _ _) as [[status sample] bus]. by intros [= <- <-]. }
  destruct (round_sensors true sequence now_us r waiting (b <| b_env := e |>)) as [Henv Hp].
  unfold flight_inv. rewrite Henv. change (b_env (b <| b_env := e |>)) with e. rewrite He. split; [done|].
  destruct Hp as [-> | ->]; [exact Hs|]. unfold blind, sensor_packet. rewrite Hm, Hsun.
  by destruct (imu_sample r) as [[[? ?] ?]|].
Qed.

Lemma flight_reachable_inv test_at_boot fuel now c bus s :
  flight_reachable test_at_boot fuel now c bus s -> flight_inv (s_board s).
Proof.
  induction 1 as [|s ev _ Hi Hn|s sequence waiting _ Hi|s ms _ Hi].
  - unfold adcs_application_start. destruct (Imu.imu_initialize _ _ _) as [[status addr] bus'].
    cbn [rods]. rewrite initialize_coils_pair.
    assert (coils_inv (snd (Torquer.magnetorquer_initialize Torquer.power_on))) as Hd by apply initialize_coils.
    set (d := snd (Torquer.magnetorquer_initialize Torquer.power_on)) in *. clearbody d. cbv iota zeta.
    split; [|done]. cbn [snd s_board]. change (rods_ready _) with true.
    destruct test_at_boot; [by apply test_coils|done].
  - eapply flight_step_inv; [exact Hi|]. by apply event_world.
  - by apply sense_flight_inv.
  - exact Hi.
Qed.


(** The start, a tick and a round of the sensors. *)
Definition first_sense (test_at_boot : bool) (fuel : nat) (now : timespec) (c : Stm32.environment) (bus : L)
    : adcs_system (flight_environment L) :=
  let s := snd (adcs_application_start bmi270_config_file test_at_boot fuel now
                  (mk_flight L c Torquer.power_on bus 0)) in
  mk_system _ (flight_sense 1 false (flight_tick 20 (s_board s))) (s_reading s).

Lemma first_sense_reachable test_at_boot fuel now c bus :
  flight_reachable test_at_boot fuel now c bus (first_sense test_at_boot fuel now c bus).
Proof.
  unfold first_sense. cbv zeta. set (s := snd _).
  exact (Flight_sense _ _ _ _ _ (mk_system _ (flight_tick 20 (s_board s)) (s_reading s)) 1 false
           (Flight_tick _ _ _ _ _ s 20 (Flight_start _ _ _ _ _))).
Qed.
End Flight.

Definition flown : adcs_system (flight_environment Imu.recorder) :=
  first_sense Imu.small_file true 3 (mk_time 0 0) idle_env [].

