(* ===== verification/Logging.v ===== *)
(** Logging: the attitude control board's log and console over its UART
    ([apps/adcs/Core/Src/adcs_log.c]) with the C library's locks
    ([apps/adcs/Platform/Src/adcs_newlib_locks.c]), and the log of the on-board computer's
    processes ([shared/logging/obc_log.c]).

    A caller's format and arguments are the text they make; a text holds no null byte.  The
    text is never too long for the buffers it goes through: a line is cut, and ends as a
    line. *)

From Stdlib Require Import String.
From S2P Require Import Prelude Text.

(** ** The board's log and console *)
Module AdcsLog.

Definition ADCS_LOG_BUFFER_SIZE : Z := 256.
Definition ADCS_LOG_UART_CHUNK_SIZE : Z := 256.

Inductive HAL_StatusTypeDef := HAL_OK | HAL_ERROR | HAL_BUSY | HAL_TIMEOUT.
Inductive adcs_log_level_t := ADCS_LOG_LEVEL_DEBUG | ADCS_LOG_LEVEL_INFO | ADCS_LOG_LEVEL_WARN | ADCS_LOG_LEVEL_ERROR.

(** [HAL_UART_Transmit] on the log's handle. *)
Class Uart (U : Type) := HAL_UART_Transmit : list Z -> U -> HAL_StatusTypeDef * U.

(** *** The lock: one recursive mutex, created at its first use

    [holder]: the task that holds it and how often. *)
#[projections(primitive)]
Record stdio_lock := mk_lock { scheduler_started : bool; created : bool; holder : option (Z * nat) }.

(** [None]: the task blocks. *)
Definition adcs_stdio_lock (task : Z) (k : stdio_lock) : option stdio_lock :=
  if negb (scheduler_started k) then Some k
  else
    let k := k <| created := true |> in
    match holder k with
    | None => Some (k <| holder := Some (task, 1%nat) |>)
    | Some (t, n) => if t =? task then Some (k <| holder := Some (task, S n) |>) else None
    end.

(** [None]: the assertion fails. *)
Definition adcs_stdio_unlock (task : Z) (k : stdio_lock) : option stdio_lock :=
  if negb (scheduler_started k) then Some k
  else
    match holder k with
    | Some (t, S n) =>
        if t =? task then Some (k <| holder := match n with O => None | S _ => Some (task, n) end |>) else None
    | _ => None
    end.

(** The hooks of the C library: every lock of its own is this one. *)
Definition retarget_lock_acquire := adcs_stdio_lock.
Definition retarget_lock_release := adcs_stdio_unlock.
Definition retarget_lock_try_acquire (task : Z) (k : stdio_lock) : bool * stdio_lock :=
  match adcs_stdio_lock task k with
  | Some k => (true, k)
  | None => (false, k <| created := true |>)
  end.

Section Log.
Context {U : Type} `{Uart U}.

#[projections(primitive)]
Record log_state := mk_log { s_log_uart : option U; lock : stdio_lock }.

Definition adcs_log_init (uart : option U) (s : log_state) : log_state := s <| s_log_uart := uart |>.

Definition adcs_log_level_name (level : option adcs_log_level_t) : list Z :=
  literal (match level with
           | Some ADCS_LOG_LEVEL_DEBUG => "DEBUG"
           | Some ADCS_LOG_LEVEL_INFO => "INFO"
           | Some ADCS_LOG_LEVEL_WARN => "WARN"
           | Some ADCS_LOG_LEVEL_ERROR => "ERROR"
           | None => "UNKNOWN"
           end).

Fixpoint adcs_log_bounded_length (text : list Z) (maximum_length : nat) : Z :=
  match maximum_length, text with
  | S n, c :: text => if c =? 0 then 0 else 1 + adcs_log_bounded_length text n
  | _, _ => 0
  end.

Definition log_prefix (tick : Z) (level : option adcs_log_level_t) (component : option (list Z)) : list Z :=
  literal "[" ++ pad_left 48 10 (print_dec tick) ++ literal " ms] ["
  ++ pad_right 32 5 (adcs_log_level_name level) ++ literal "] ["
  ++ pad_right 32 8 (default (literal "GENERAL") component) ++ literal "] ".

(** The buffer [line] and the number of its bytes that are sent; [line] is not initialised. *)
Definition log_line (line prefix message : list Z) : list Z * Z :=
  let line := snprintf_at line 0 ADCS_LOG_BUFFER_SIZE prefix in
  let used := if ADCS_LOG_BUFFER_SIZE <=? len prefix then ADCS_LOG_BUFFER_SIZE - 1 else len prefix in
  let line := snprintf_at line used (ADCS_LOG_BUFFER_SIZE - used) message in
  let length := adcs_log_bounded_length line (Z.to_nat ADCS_LOG_BUFFER_SIZE) in
  let length := if ADCS_LOG_BUFFER_SIZE - 3 <? length then ADCS_LOG_BUFFER_SIZE - 3 else length in
  (patch (patch (patch line length [13]) (length + 1) [10]) (length + 2) [0], length + 2).

(** [None] if the task blocks or an assertion fails.  [format] is [None] for NULL, otherwise
    the text it makes. *)
Definition adcs_log_write (task tick : Z) (line : list Z) (level : option adcs_log_level_t)
    (component format : option (list Z)) (s : log_state) : option (HAL_StatusTypeDef * log_state) :=
  match s_log_uart s, format with
  | Some uart, Some message =>
      let '(line, length) := log_line line (log_prefix tick level component) message in
      k ← adcs_stdio_lock task (lock s);
      let '(status, uart) := HAL_UART_Transmit (prefix_of (u16 length) line) uart in
      k ← adcs_stdio_unlock task k;
      Some (status, s <| s_log_uart := Some uart |> <| lock := k |>)
  | _, _ => Some (HAL_ERROR, s)
  end.

(** *** The console *)

(** The distance to the next line feed. *)
Fixpoint find_newline (data : list Z) : option Z :=
  match data with
  | c :: data => if c =? 10 then Some 0 else i ← find_newline data; Some (1 + i)
  | [] => None
  end.

Fixpoint write_loop (fuel : nat) (data : list Z) (transmitted : Z) (uart : U) : option (Z * U) :=
  match fuel with
  | O => None
  | S fuel =>
      if negb (transmitted <? len data) then Some (transmitted, uart)
      else
        let rest := skip transmitted data in
        match find_newline rest with
        | Some prefix_len =>
            let next_nl := transmitted + prefix_len in
            let uart :=
              if 0 <? prefix_len then snd (HAL_UART_Transmit (prefix_of (u16 prefix_len) rest) uart) else uart in
            let uart :=
              if (0 <? next_nl) && (byte_at data (next_nl - 1) =? 13)
              then snd (HAL_UART_Transmit [10] uart)
              else snd (HAL_UART_Transmit [13; 10] uart) in
            write_loop fuel data (next_nl + 1) uart
        | None =>
            let remaining := len data - transmitted in
            let chunk_length :=
              if ADCS_LOG_UART_CHUNK_SIZE <? remaining then ADCS_LOG_UART_CHUNK_SIZE else u16 remaining in
            match HAL_UART_Transmit (prefix_of chunk_length rest) uart with
            | (HAL_OK, uart) => write_loop fuel data (transmitted + chunk_length) uart
            | (_, uart) => Some (if 0 <? transmitted then transmitted else -1, uart)
            end
        end
  end.

(** [_write]; every turn takes a byte at least. *)
Definition write (task : Z) (data : option (list Z)) (s : log_state) : option (Z * log_state) :=
  match s_log_uart s, data with
  | Some uart, Some data =>
      if len data <=? 0 then Some (-1, s)
      else
        k ← adcs_stdio_lock task (lock s);
        '(r, uart) ← write_loop (S (length data)) data 0 uart;
        k ← adcs_stdio_unlock task k;
        Some (r, s <| s_log_uart := Some uart |> <| lock := k |>)
  | _, _ => Some (-1, s)
  end.
End Log.
Arguments log_state : clear implicits.

(** *** The lock is given back *)

(** The task gets the lock. *)
Definition lock_free (task : Z) (k : stdio_lock) : Prop :=
  scheduler_started k = false \/ match holder k with None => True | Some (t, n) => t = task /\ n <> O end.

Lemma lock_round task k :
  lock_free task k ->
  exists k1 k2, adcs_stdio_lock task k = Some k1 /\ adcs_stdio_unlock task k1 = Some k2
    /\ holder k2 = holder k /\ scheduler_started k2 = scheduler_started k.
Proof.
  unfold lock_free, adcs_stdio_lock, adcs_stdio_unlock. destruct k as [[] c h]; cbn; [|intros _; by eexists _, _].
  intros [?|Hh]; [done|]. destruct h as [[t n]|]; cbn.
  - destruct Hh as [-> Hn]. rewrite Z.eqb_refl. eexists _, _. split; [done|]. cbn. rewrite Z.eqb_refl.
    split; [done|]. by destruct n.
  - eexists _, _. split; [done|]. cbn. by rewrite Z.eqb_refl.
Qed.

Lemma lock_blocks task t n c : t <> task -> adcs_stdio_lock task (mk_lock true c (Some (t, n))) = None.
Proof. intros Ht. unfold adcs_stdio_lock. cbn. by rewrite (proj2 (Z.eqb_neq _ _) Ht). Qed.

(** *** A line of the log fits its buffer *)

Lemma bounded_length_spec text rest n :
  plain text -> (length text < n)%nat -> adcs_log_bounded_length (text ++ 0 :: rest) n = len text.
Proof.
  intros Ht. revert n. induction Ht as [|c text Hc _ IH]; intros [|n] Hn; cbn in *; [lia|done|lia|].
  rewrite (proj2 (Z.eqb_neq _ _) Hc), IH, len_cons by lia. done.
Qed.

Lemma log_prefix_plain tick level component :
  match component with Some c => plain c | None => True end -> plain (log_prefix tick level component).
Proof.
  intros Hc. unfold log_prefix, pad_left, pad_right. rewrite !plain_app. split_and!; try by apply plain_check.
  - by apply Forall_replicate.
  - apply print_dec_plain.
  - destruct level as [[]|]; by apply plain_check.
  - by apply Forall_replicate.
  - destruct component; [done|by apply plain_check].
  - by apply Forall_replicate.
Qed.

(** The text of the line, and where it ends. *)
Lemma log_buffer line prefix message :
  len line = 256 -> plain prefix -> plain message ->
  let used := if 256 <=? len prefix then 255 else len prefix in
  exists rest, snprintf_at (snprintf_at line 0 256 prefix) used (256 - used) message
               = prefix_of 255 (prefix ++ message) ++ 0 :: rest.
Proof.
  intros Hl Hp Hm used. pose proof (len_nonneg prefix).
  destruct (snprintf_after [] line 256 prefix) as [rest Hr]; [lia|]. change (len []) with 0 in Hr. cbn [app] in Hr.
  change (256 - 1) with 255 in Hr.
  assert (len (prefix_of 255 prefix) = used) as Hu.
  { unfold used. destruct (Z.leb_spec 256 (len prefix)); [by rewrite len_prefix_of by lia|].
    by rewrite prefix_of_all by lia. }
  assert (len (snprintf_at line 0 256 prefix) = 256) as Hlen by (rewrite len_snprintf_at; lia).
  rewrite Hr in Hlen |- *. rewrite len_app, len_cons in Hlen.
  destruct (snprintf_after (prefix_of 255 prefix) (0 :: rest) (256 - used) message) as [rest' Hr'].
  { rewrite len_cons. unfold used in *. case_if as E; lia. }
  rewrite Hu in Hr'. exists rest'. rewrite Hr', app_assoc. f_equal. unfold used.
  destruct (Z.leb_spec 256 (len prefix)) as [Hlong|Hshort].
  - change (256 - 255 - 1) with 0. rewrite prefix_of_0, app_nil_r. by rewrite prefix_of_app_le by lia.
  - rewrite (prefix_of_all 255 prefix) by lia. rewrite prefix_of_app_ge by lia. by replace (256 - len prefix - 1) with (255 - len prefix) by lia.
Qed.

Lemma end_line pre tail :
  3 <= len tail ->
  let n := len pre in
  patch (patch (patch (pre ++ tail) n [13]) (n + 1) [10]) (n + 2) [0] = (pre ++ [13; 10]) ++ 0 :: skip 3 tail.
Proof.
  intros Ht n. rewrite patch_front by done. rewrite patch_front by (rewrite len_app; done).
  rewrite patch_front by (rewrite !len_app; unfold n; change (len [13]) with 1; change (len [10]) with 1; lia).
  change (len [13]) with 1. change (len [10]) with 1. change (len [0]) with 1.
  rewrite !skip_skip by lia. by rewrite <- !app_assoc.
Qed.

Lemma log_line_spec line prefix message :
  len line = 256 -> plain prefix -> plain message ->
  let '(line', n) := log_line line prefix message in
  prefix_of n line' = prefix_of 253 (prefix ++ message) ++ [13; 10]
  /\ len line' = 256 /\ 2 <= n <= 255 /\ byte_at line' n = 0.
Proof.
  intros Hl Hp Hm. destruct (log_buffer line prefix message Hl Hp Hm) as [rest Hr].
  assert (plain (prefix_of 255 (prefix ++ message))) as Ht by (apply plain_prefix_of, plain_app; done).
  unfold log_line, ADCS_LOG_BUFFER_SIZE. change (256 - 1) with 255. change (256 - 3) with 253. cbv zeta. rewrite Hr.
  assert (len (prefix_of 255 (prefix ++ message) ++ 0 :: rest) = 256) as Hlen.
  { rewrite <- Hr. pose proof (len_nonneg prefix).
    rewrite len_snprintf_at; rewrite ?len_snprintf_at by lia; destruct (Z.leb_spec 256 (len prefix)); lia. }
  assert (prefix_of 253 (prefix ++ message) = prefix_of 253 (prefix_of 255 (prefix ++ message))) as ->
    by by rewrite prefix_of_prefix_of.
  set (text := prefix_of 255 (prefix ++ message)) in *. clearbody text. clear Hr.
  pose proof (len_nonneg text). rewrite len_app, len_cons in Hlen. pose proof (len_nonneg rest).
  rewrite bounded_length_spec by (unfold len in *; done || lia).
  set (n := if 253 <? len text then 253 else len text).
  assert (0 <= n <= len text /\ n <= 253 /\ prefix_of n text = prefix_of 253 text) as (Hn & Hn253 & Hpre).
  { unfold n. case_if as E; split_and!; try lia; [done|]. by rewrite !prefix_of_all by lia. }
  clearbody n. rewrite <- Hpre. assert (len (prefix_of n text) = n) as Hln by (apply len_prefix_of; lia).
  replace (text ++ 0 :: rest) with (prefix_of n text ++ (skip n text ++ 0 :: rest))
    by (by rewrite app_assoc, prefix_skip).
  set (pre := prefix_of n text) in *. set (tail := skip n text ++ 0 :: rest).
  assert (len tail = 256 - n) as Htail by (unfold tail; rewrite len_app, len_skip, len_cons; lia).
  clearbody pre tail. rewrite <- Hln in Htail, Hn253, Hn |- *. rewrite end_line by lia.
  assert (len (pre ++ [13; 10]) = len pre + 2) as Hend by (by rewrite len_app).
  split_and!; [by apply prefix_of_app| |lia|lia|].
  - rewrite len_app, Hend, len_cons, len_skip by lia. lia.
  - by rewrite <- Hend, byte_at_app_r, Z.sub_diag by lia.
Qed.

Section Writing.
Context {U : Type} `{Uart U}.

(** C19. A line of the board's log fits its buffer, whatever the message, the component's
    name and the bytes the buffer held: the UART gets the first 253 bytes of prefix and
    message and the end of a line, the terminating null byte is inside the 256 bytes, the
    caller gets the UART's answer, and the lock is as before. *)
Theorem adcs_log_line_bounded task tick line level component message uart (s : log_state U) :
  len line = 256 -> plain message -> match component with Some c => plain c | None => True end ->
  s_log_uart s = Some uart -> lock_free task (lock s) ->
  let '(line', n) := log_line line (log_prefix tick level component) message in
  let '(status, uart') :=
    HAL_UART_Transmit (prefix_of 253 (log_prefix tick level component ++ message) ++ [13; 10]) uart in
  len line' = 256 /\ 2 <= n <= 255 /\ byte_at line' n = 0
  /\ exists k, adcs_log_write task tick line level component (Some message) s
                = Some (status, mk_log (Some uart') k)
     /\ holder k = holder (lock s) /\ scheduler_started k = scheduler_started (lock s).
Proof.
  intros Hl Hm Hc Hu Hk. pose proof (log_line_spec line _ message Hl (log_prefix_plain tick level component Hc) Hm) as Hs.
  unfold adcs_log_write. rewrite Hu. destruct (log_line line _ message) as [line' n]. destruct Hs as (Ht & Hlen & Hn & Hz).
  rewrite <- Ht. replace (u16 n) with n by zlia.
  destruct (lock_round task (lock s) Hk) as (k1 & k2 & -> & Hk2 & Hh & Hst). cbn [mbind option_bind].
  destruct (HAL_UART_Transmit _ uart) as [status uart']. rewrite Hk2. cbn [mbind option_bind].
  split_and!; [done|lia|lia|done|]. by exists k2.
Qed.

(** A task that finds the lock taken sends nothing. *)
Lemma log_write_blocks task tick line level component message uart (s : log_state U) t n c :
  s_log_uart s = Some uart -> lock s = mk_lock true c (Some (t, n)) -> t <> task ->
  adcs_log_write task tick line level component (Some message) s = None.
Proof.
  intros Hu Hk Ht. unfold adcs_log_write. rewrite Hu, Hk, lock_blocks by done. by destruct (log_line _ _ _).
Qed.
End Writing.

(** *** The console sends each line feed behind one carriage return *)

(** The reference: [cr] if the byte before was a carriage return. *)
Fixpoint crlf (cr : bool) (data : list Z) : list Z :=
  match data with
  | c :: data => if c =? 10 then (if cr then [10] else [13; 10]) ++ crlf false data else c :: crlf (c =? 13) data
  | [] => []
  end.

Definition ends_cr (data : list Z) : bool := match last data with Some c => c =? 13 | None => false end.

Lemma find_newline_some data i :
  find_newline data = Some i -> exists pre tl, data = pre ++ 10 :: tl /\ len pre = i /\ Forall (fun c => c <> 10) pre.
Proof.
  revert i. induction data as [|c data IH]; intros i; [done|]. cbn. destruct (Z.eqb_spec c 10) as [->|Hc].
  - intros [= <-]. by exists [], data.
  - destruct (find_newline data) as [j|]; [|done]. intros [= <-]. destruct (IH j eq_refl) as (pre & tl & -> & Hl & Hf).
    exists (c :: pre), tl. rewrite len_cons. split_and!; [done|lia|by constructor].
Qed.

Lemma find_newline_none data : find_newline data = None <-> Forall (fun c => c <> 10) data.
Proof.
  induction data as [|c data IH]; [split; [constructor|done]|]. rewrite Forall_cons, <- IH. cbn.
  destruct (Z.eqb_spec c 10) as [Hc|Hc]; [split; [done|by intros [? _]]|].
  destruct (find_newline data); split; [done|by intros [_ ?]|done|done].
Qed.

Lemma crlf_plain cr data : Forall (fun c => c <> 10) data -> crlf cr data = data.
Proof.
  intros Hd. revert cr. induction Hd as [|c data Hc _ IH]; intros cr; [done|]. cbn.
  by rewrite (proj2 (Z.eqb_neq _ _) Hc), IH.
Qed.

Lemma crlf_line cr pre tl :
  Forall (fun c => c <> 10) pre ->
  crlf cr (pre ++ 10 :: tl)
  = pre ++ (if match last pre with Some c => c =? 13 | None => cr end then [10] else [13; 10]) ++ crlf false tl.
Proof.
  intros Hp. revert cr. induction Hp as [|c pre Hc _ IH]; intros cr; [done|]. cbn [app crlf].
  rewrite (proj2 (Z.eqb_neq _ _) Hc), IH, last_cons. by destruct (last pre).
Qed.

(** What has its carriage returns stays as it is. *)
Lemma crlf_idempotent data : crlf false (crlf false data) = crlf false data.
Proof.
  assert (forall cr, crlf cr (crlf cr data) = crlf cr data) as Hi; [|apply Hi].
  induction data as [|c data IH]; intros cr; [done|]. cbn [crlf]. destruct (Z.eqb_spec c 10) as [->|Hc].
  - destruct cr; cbn; by rewrite IH.
  - cbn [crlf]. by rewrite (proj2 (Z.eqb_neq _ _) Hc), IH.
Qed.

Lemma byte_before_end pre rest :
  (0 <? len pre) && (byte_at (pre ++ rest) (len pre - 1) =? 13) = ends_cr pre.
Proof.
  unfold ends_cr. destruct pre as [|c pre _] using rev_ind; [done|]. rewrite last_snoc, len_app. change (len [c]) with 1.
  pose proof (len_nonneg pre). rewrite (proj2 (Z.ltb_lt _ _)) by lia. cbn [andb]. f_equal.
  rewrite <- app_assoc. replace (len pre + 1 - 1) with (len pre) by lia. by rewrite byte_at_app_r, Z.sub_diag by lia.
Qed.

(** A UART that takes everything. *)
Class AcceptingUart (U : Type) `{Uart U} := {
  sent : U -> list Z;
  transmit_accepted bytes u : exists u', HAL_UART_Transmit bytes u = (HAL_OK, u') /\ sent u' = sent u ++ bytes
}.

Section Console.
Context {U : Type} `{AcceptingUart U}.

Lemma transmit_sent bytes u : sent (snd (HAL_UART_Transmit bytes u)) = sent u ++ bytes.
Proof. by destruct (transmit_accepted bytes u) as (u' & -> & ?). Qed.

Lemma console_loop_spec fuel pre rest u :
  (length rest < fuel)%nat -> len (pre ++ rest) < 65536 ->
  exists u', write_loop fuel (pre ++ rest) (len pre) u = Some (len (pre ++ rest), u')
    /\ sent u' = sent u ++ crlf (ends_cr pre) rest.
Proof.
  revert pre rest u. induction fuel as [|fuel IH]; intros pre rest u Hf Hl; [lia|].
  cbn [write_loop]. rewrite skip_app by done. pose proof (len_nonneg pre) as Hpre. rewrite len_app in Hl.
  destruct (Z.ltb_spec (len pre) (len (pre ++ rest))) as [Hmore|Hdone]; rewrite len_app in *; cbn [negb]; cbv zeta.
  2: { pose proof (len_nonneg rest). rewrite (len_0_nil rest) by lia. exists u.
       split; [by rewrite len_nil, Z.add_0_r|by cbn; rewrite app_nil_r]. }
  destruct (find_newline rest) as [i|] eqn:Hnl.
  - destruct (find_newline_some _ _ Hnl) as (l & tl & -> & <- & Hfree). rewrite len_app, len_cons in *.
    pose proof (len_nonneg l). pose proof (len_nonneg tl).
    rewrite app_assoc, <- (len_app pre l), byte_before_end, <- app_assoc.
    rewrite prefix_of_app by (unfold u16; zlia).
    set (u1 := if 0 <? len l then _ else u).
    assert (sent u1 = sent u ++ l) as Hu1.
    { unfold u1. case_if as E; [apply transmit_sent|]. bool_facts. rewrite (len_0_nil l) by lia. by rewrite app_nil_r. }
    set (u2 := if ends_cr _ then _ else _).
    assert (sent u2 = sent u1 ++ (if ends_cr (pre ++ l) then [10] else [13; 10])) as Hu2
      by (unfold u2; case_if as E; apply transmit_sent).
    clearbody u1 u2. destruct (IH ((pre ++ l) ++ [10]) tl u2) as (u' & Hw & Hs).
    { rewrite length_app in Hf. cbn in Hf. lia. }
    { rewrite !len_app. change (len [10]) with 1. lia. }
    exists u'. rewrite <- !app_assoc in Hw. cbn [app] in Hw.
    replace (len (pre ++ l ++ [10])) with (len (pre ++ l) + 1) in Hw by (rewrite !len_app; change (len [10]) with 1; lia).
    replace (len (pre ++ l ++ 10 :: tl)) with (len pre + (len l + (1 + len tl))) in Hw
      by (rewrite !len_app, len_cons; lia).
    split; [exact Hw|]. rewrite Hs, Hu2, Hu1, crlf_line by done.
    assert (ends_cr ((pre ++ l) ++ [10]) = false) as -> by (unfold ends_cr; by rewrite last_snoc).
    unfold ends_cr. rewrite last_app, <- !app_assoc. do 2 f_equal. by destruct (last l).
  - apply find_newline_none in Hnl. rewrite crlf_plain by done.
    set (chunk := if _ <? _ then _ else _).
    assert (1 <= chunk <= len rest) as Hc by (unfold chunk, ADCS_LOG_UART_CHUNK_SIZE, u16; case_if as E; bool_facts; zlia).
    clearbody chunk. destruct (transmit_accepted (prefix_of chunk rest) u) as (u1 & -> & Hu1).
    rewrite <- (prefix_skip chunk rest) in Hnl. apply Forall_app in Hnl as [Hn1 Hn2].
    destruct (IH (pre ++ prefix_of chunk rest) (skip chunk rest) u1) as (u' & Hw & Hs).
    { unfold skip. rewrite length_drop. unfold len in Hc. lia. }
    { rewrite <- app_assoc, prefix_skip, len_app. lia. }
    exists u'. rewrite <- app_assoc, prefix_skip, !len_app, len_prefix_of in Hw by lia. split; [exact Hw|].
    by rewrite Hs, Hu1, crlf_plain, <- app_assoc, prefix_skip by done.
Qed.

(** The console sends every text whole, with exactly one carriage return put in front of
    each line feed that has none, however the text is cut into lines and chunks; it reports
    the length of the text and gives the lock back. *)
Theorem adcs_stdout_crlf task data uart (s : log_state U) :
  0 < len data < 65536 -> s_log_uart s = Some uart -> lock_free task (lock s) ->
  exists uart' k, write task (Some data) s = Some (len data, mk_log (Some uart') k)
    /\ sent uart' = sent uart ++ crlf false data
    /\ holder k = holder (lock s) /\ scheduler_started k = scheduler_started (lock s).
Proof.
  intros Hd Hu Hk. unfold write. rewrite Hu, (proj2 (Z.leb_gt _ _)) by lia.
  destruct (lock_round task (lock s) Hk) as (k1 & k2 & -> & Hk2 & Hh & Hst). cbn [mbind option_bind].
  destruct (console_loop_spec (S (length data)) [] data uart) as (u' & Hw & Hs); [lia|cbn [app]; lia|].
  change (len []) with 0 in Hw. cbn [app] in Hw. rewrite Hw. cbn [mbind option_bind]. rewrite Hk2. cbn [mbind option_bind].
  by exists u', k2.
Qed.
End Console.

(** On any UART the loop ends, and its result is the failure code or a part of the length. *)
Lemma write_loop_returns {U} `{Uart U} fuel data transmitted (u : U) :
  0 <= transmitted <= len data -> len data - transmitted < Z.of_nat fuel -> len data < 65536 ->
  exists r u', write_loop fuel data transmitted u = Some (r, u') /\ (r = -1 \/ transmitted <= r <= len data).
Proof.
  revert transmitted u. induction fuel as [|fuel IH]; intros k u Hk Hf Hl; [lia|]. cbn [write_loop]. cbv zeta.
  destruct (Z.ltb_spec k (len data)) as [Hmore|Hdone]; cbn [negb]; [|exists k, u; split; [done|lia]].
  assert (len (skip k data) = len data - k) as Hr by (rewrite len_skip; lia).
  destruct (find_newline (skip k data)) as [i|] eqn:Hnl.
  - destruct (find_newline_some _ _ Hnl) as (l & tl & Hs & <- & _). rewrite Hs, len_app, len_cons in Hr.
    pose proof (len_nonneg l). pose proof (len_nonneg tl). set (u2 := if (_ && _) then _ else _).
    destruct (IH (k + len l + 1) u2) as (r & u' & -> & Hres); [lia|lia|done|]. exists r, u'. split; [done|lia].
  - set (chunk := if _ <? _ then _ else _).
    assert (1 <= chunk <= len data - k) as Hc by (unfold chunk, ADCS_LOG_UART_CHUNK_SIZE, u16; case_if as E; bool_facts; zlia).
    clearbody chunk. destruct (HAL_UART_Transmit _ u) as [[] u1].
    1: { destruct (IH (k + chunk) u1) as (r & u' & -> & Hres); [lia|lia|done|]. exists r, u'. split; [done|lia]. }
    all: eexists _, _; split; [done|]; case_if as E; bool_facts; lia.
Qed.

(** A UART that keeps what it gets, and one that takes nothing. *)
Definition wire : Uart (list Z) := fun bytes u => (HAL_OK, u ++ bytes).
Definition deaf : Uart (list Z) := fun _ u => (HAL_TIMEOUT, u).
Definition accepting_wire : @AcceptingUart (list Z) wire.
Proof. refine {| sent := (fun u : list Z => u) |}. intros bytes u. by exists (u ++ bytes). Defined.

Definition fresh_log : log_state (list Z) := mk_log (Some []) (mk_lock true false None).

(** A line the UART refuses counts as written. *)
Lemma refused_line_counts :
  exists k, write (H := deaf) 1 (Some [111; 107; 10]) fresh_log = Some (3, mk_log (Some []) k).
Proof. eexists. vm_compute. reflexivity. Qed.

(** A text cut between the two bytes of a line's end gets a second carriage return. *)
Lemma cut_line_doubled :
  exists s k, write (H := wire) 1 (Some [111; 107; 13]) fresh_log = Some (3, s)
    /\ write (H := wire) 1 (Some [10]) s = Some (1, mk_log (Some [111; 107; 13; 13; 10]) k).
Proof. eexists _, _. split; vm_compute; reflexivity. Qed.

Definition started_log : log_state (list Z) := mk_log (Some []) (mk_lock false false None).

Lemma adcs_log_line_bounded_witness :
  exists k, adcs_log_write (H := wire) 1 4711 (zeros 256) (Some ADCS_LOG_LEVEL_WARN) (Some (literal "IMU"))
              (Some (replicate 300 46)) started_log
            = Some (HAL_OK, mk_log (Some (literal "[0000004711 ms] [WARN ] [IMU     ] "
                                           ++ replicate 218 46 ++ [13; 10])) k).
Proof.
  destruct (adcs_log_line_bounded (H := wire) 1 4711 (zeros 256) (Some ADCS_LOG_LEVEL_WARN) (Some (literal "IMU"))
              (replicate 300 46) [] started_log) as (_ & _ & _ & k & Hk & _); try done.
  - by apply Forall_replicate.
  - by apply plain_check.
  - by left.
  - exists k. rewrite Hk. vm_compute. reflexivity.
Defined.

Lemma adcs_stdout_crlf_witness :
  exists uart k, write (H := wire) 1 (Some (literal "a" ++ [10; 10] ++ literal "b" ++ [13; 10])) fresh_log
                 = Some (6, mk_log (Some uart) k)
    /\ uart = literal "a" ++ [13; 10; 13; 10] ++ literal "b" ++ [13; 10].
Proof.
  destruct (adcs_stdout_crlf (H0 := accepting_wire) 1 (literal "a" ++ [10; 10] ++ literal "b" ++ [13; 10]) [] fresh_log)
    as (u & k & Hw & Hs & _); [by vm_compute|done|by right|].
  exists u, k. split; [exact Hw|]. exact Hs.
Defined.
End AdcsLog.

(** ** The log of the on-board computer's processes *)
Module ObcLog.

Inductive obc_log_level_t := OBC_LOG_DEBUG | OBC_LOG_INFO | OBC_LOG_WARN | OBC_LOG_ERROR.

Definition STDOUT_FILENO : Z := 1.
Definition STDERR_FILENO : Z := 2.

(** *** [obc_log_init] *)

(** The descriptors the process has open, and what each stands for. *)
Definition descriptors := list (Z * list Z).

Definition close (fd : Z) (t : descriptors) : descriptors := filter (fun p => p.1 <> fd) t.
Definition dup2 (ok : bool) (fd to : Z) (t : descriptors) : Z * descriptors :=
  if negb ok then (-1, t)
  else if fd =? to then (to, t)
  else
    match List.find (fun p => p.1 =? fd) t with
    | Some (_, file) => (to, (to, file) :: close to t)
    | None => (-1, t)
    end.

(** [opened] is what [open] returns; [ok_out] and [ok_err] say whether the calls of [dup2]
    succeed. *)
Definition obc_log_init (component path : option (list Z)) (opened : Z) (ok_out ok_err : bool)
    (t : descriptors) : Z * list Z * descriptors :=
  let g_component := prefix_of 31 (default (literal "unknown") component) in
  match path with
  | Some ((_ :: _) as path) =>
      if opened <? 0 then (-1, g_component, t)
      else
        let t := (opened, path) :: t in
        let '(out, t) := dup2 ok_out opened STDOUT_FILENO t in
        if out <? 0 then (-1, g_component, close opened t)
        else
          let '(err, t) := dup2 ok_err opened STDERR_FILENO t in
          if err <? 0 then (-1, g_component, close opened t)
          else (0, g_component, if STDERR_FILENO <? opened then close opened t else t)
  | _ => (0, g_component, t)
  end.

(** *** [obc_log_write] *)

Definition level_name (level : option obc_log_level_t) : list Z :=
  literal (match level with
           | Some OBC_LOG_DEBUG => "DEBUG"
           | Some OBC_LOG_INFO => "INFO"
           | Some OBC_LOG_WARN => "WARN"
           | Some OBC_LOG_ERROR => "ERROR"
           | None => "UNKNOWN"
           end).

(** [gmtime_r]: year, month and day of the day [days] after 1970-01-01. *)
Definition civil (days : Z) : Z * Z * Z :=
  let z := days + 719468 in
  let era := z / 146097 in
  let doe := z mod 146097 in
  let yoe := (doe - doe / 1460 + doe / 36524 - doe / 146096) / 365 in
  let doy := doe - (365 * yoe + yoe / 4 - yoe / 100) in
  let mp := (5 * doy + 2) / 153 in
  let month := if mp <? 10 then mp + 3 else mp - 9 in
  ((if month <=? 2 then yoe + era * 400 + 1 else yoe + era * 400), month, doy - (153 * mp + 2) / 5 + 1).

(** [strftime] with ["%Y-%m-%dT%H:%M:%S"]. *)
Definition timestamp (sec : Z) : list Z :=
  let '(year, month, day) := civil (sec / 86400) in
  let two v := pad_left 48 2 (print_dec v) in
  let rest := sec mod 86400 in
  print_dec year ++ literal "-" ++ two month ++ literal "-" ++ two day ++ literal "T"
  ++ two (rest / 3600) ++ literal ":" ++ two (rest mod 3600 / 60) ++ literal ":" ++ two (rest mod 60).

Definition line_text (sec nsec pid : Z) (g_component : list Z) (level : option obc_log_level_t) (message : list Z) : list Z :=
  timestamp sec ++ literal "." ++ pad_left 48 3 (print_dec (nsec / 1000000)) ++ literal "Z [" ++ g_component
  ++ literal "] [pid=" ++ print_dec pid ++ literal "] [" ++ level_name level ++ literal "] " ++ message ++ [10].

(** The bytes given to [write]: [length] of them, of the buffer [line].  The buffers are
    not initialised; the mutex makes the call one step. *)
Definition obc_log_write (sec nsec pid : Z) (g_component : list Z) (level : option obc_log_level_t)
    (text line : list Z) (message : list Z) : list Z :=
  let text := c_string (snprintf_at text 0 768 message) in
  let full := line_text sec nsec pid g_component level text in
  let line := snprintf_at line 0 1024 full in
  let write_length := if 1024 <=? len full then 1024 - 1 else len full in
  prefix_of write_length line.

(** *** A line is never cut *)

Lemma civil_ranges days :
  0 <= days < 20000000 ->
  let '(year, month, day) := civil days in 0 <= year < 100000 /\ 1 <= month <= 12 /\ 1 <= day <= 31.
Proof.
  intros Hd. unfold civil. cbv zeta.
  set (z := days + 719468). assert (719468 <= z < 20719468) as Hz by lia. clearbody z.
  assert (0 <= z mod 146097 < 146097 /\ z = 146097 * (z / 146097) + z mod 146097) as [Hdoe Hera].
  { split; [apply Z.mod_pos_bound; lia|apply Z.div_mod; lia]. }
  set (doe := z mod 146097) in *. set (era := z / 146097) in *. clearbody doe era.
  set (yoe := (doe - doe / 1460 + doe / 36524 - doe / 146096) / 365).
  assert (0 <= yoe <= 399 /\ 0 <= doe - (365 * yoe + yoe / 4 - yoe / 100) <= 365) as [Hy Hdoy]
    by (unfold yoe; split; Z.div_mod_to_equations; lia).
  clearbody yoe. set (doy := doe - (365 * yoe + yoe / 4 - yoe / 100)) in *. clearbody doy.
  destruct (Z.ltb_spec ((5 * doy + 2) / 153) 10); split_and!; try (Z.div_mod_to_equations; lia);
    case_if as E; bool_facts; Z.div_mod_to_equations; lia.
Qed.

Lemma two_digits v : 0 <= v < 100 -> len (pad_left 48 2 (print_dec v)) = 2.
Proof. intros Hv. rewrite len_pad_left. pose proof (len_print_small v 2 ltac:(lia) ltac:(lia) Hv). lia. Qed.

Lemma len_timestamp sec : 0 <= sec < 1099511627776 -> len (timestamp sec) <= 20.
Proof.
  intros Hs. unfold timestamp. pose proof (civil_ranges (sec / 86400) ltac:(Z.div_mod_to_equations; lia)) as Hc.
  destruct (civil (sec / 86400)) as [[year month] day]. destruct Hc as (Hy & Hm & Hd).
  pose proof (len_print_small year 5 ltac:(lia) ltac:(lia) Hy).
  rewrite !len_app, !two_digits, !literal_len; [cbn; lia|..]; Z.div_mod_to_equations; lia.
Qed.

Lemma pad_left_plain width l : plain l -> plain (pad_left 48 width l).
Proof. intros Hl. apply plain_app. split; [by apply Forall_replicate|done]. Qed.

Lemma line_text_plain sec nsec pid component level message :
  plain component -> plain message -> plain (line_text sec nsec pid component level message).
Proof.
  intros Hc Hm. unfold line_text, timestamp. destruct (civil _) as [[year month] day].
  rewrite !plain_app. split_and!; try done; try by apply plain_check.
  all: try (apply pad_left_plain); try (apply print_dec_plain).
  destruct level as [[]|]; by apply plain_check.
Qed.



(** *** The descriptors

    The file takes the place of both streams, and no other descriptor stays open. *)
Definition inherited : descriptors := [(0, literal "tty"); (1, literal "tty"); (2, literal "tty")].

Lemma find_opened opened path t : List.find (fun p : Z * list Z => p.1 =? opened) ((opened, path) :: t) = Some (opened, path).
Proof. cbn. by rewrite Z.eqb_refl. Qed.

Lemma log_init_descriptors component path opened ok_out ok_err :
  path <> [] -> 2 < opened ->
  let '(r, _, t) := obc_log_init component (Some path) opened ok_out ok_err inherited in
  Forall (fun p => p.1 <= 2) t
  /\ (ok_out = true -> ok_err = true -> r = 0 /\ t = [(2, path); (1, path); (0, literal "tty")]).
Proof.
  intros Hp Ho. destruct path as [|c path]; [done|]. unfold obc_log_init. cbv beta iota zeta.
  rewrite (proj2 (Z.ltb_ge opened 0)), (proj2 (Z.ltb_lt STDERR_FILENO opened)) by (unfold STDERR_FILENO; lia).
  unfold STDOUT_FILENO, STDERR_FILENO in *. unfold dup2 at 1. destruct ok_out; cbn [negb].
  2: { change (-1 <? 0) with true. cbv iota. split; [|done]. unfold close, inherited. cbn [filter list_filter].
       repeat case_decide; repeat constructor; cbn in *; lia. }
  rewrite (proj2 (Z.eqb_neq opened 1)), find_opened by lia. change (1 <? 0) with false. cbv iota.
  assert (close 1 ((opened, c :: path) :: inherited)
          = [(opened, c :: path); (0, literal "tty"); (2, literal "tty")]) as ->.
  { unfold close, inherited. cbn [filter list_filter]. repeat case_decide; cbn in *; (done || lia). }
  unfold dup2. destruct ok_err; cbn [negb].
  2: { change (-1 <? 0) with true. cbv iota. split; [|done]. unfold close. cbn [filter list_filter].
       repeat case_decide; repeat constructor; cbn in *; lia. }
  rewrite (proj2 (Z.eqb_neq opened 2)) by lia. cbn [List.find fst]. rewrite (proj2 (Z.eqb_neq 1 opened)), Z.eqb_refl by lia.
  change (2 <? 0) with false. cbv iota.
  assert (close opened ((2, c :: path) :: close 2 [(1, c :: path); (opened, c :: path); (0, literal "tty"); (2, literal "tty")])
          = [(2, c :: path); (1, c :: path); (0, literal "tty")]) as ->.
  { unfold close. cbn [filter list_filter]. repeat (case_decide; cbn [filter list_filter]); cbn in *; (done || lia). }
  split; [repeat constructor; cbn; lia|done].
Qed.
End ObcLog.
