(* ===== verification/I2cTest.v ===== *)
(** The bench program for the bus between the on-board computer and the attitude control board
    ([apps/obc/i2c_test/src/main.c]), over the same adapter as the bus driver, and what its
    tests show of the board's own software.

    The program's output is not modelled; a test gives 0 or -1.  [fuel] bounds the
    repetitions of a transfer that signals interrupt. *)

From Stdlib Require Import String.
From stdpp Require Import gmap.
From S2P Require Import Prelude Text Frame AdcsI2cSlave I2cMaster I2cLink Csp.

Section Bench.
Context {L : Type} `{I2cAdapter L}.
Implicit Types (x : L).

(** The result and the bytes read. *)
Definition run_transfer (fuel : nat) (messages : list i2c_msg) x : option (Z * list (list Z) * L) :=
  '(answer, x) ← rdwr_retry fuel messages x;
  match answer with
  | Rdwr_done executed data => if negb (executed =? len messages) then Some (-1, [], x) else Some (0, data, x)
  | _ => Some (-1, [], x)
  end.

Definition status_messages : list i2c_msg :=
  [I2cWrite ADCS_I2C_ADDR [i2c_command_value I2C_CMD_GET_STATUS]; I2cRead ADCS_I2C_ADDR I2C_STATUS_WIRE_SIZE].

Definition test_write (fuel : nat) x : option (Z * L) :=
  '(r, _, x) ← run_transfer fuel [I2cWrite ADCS_I2C_ADDR [i2c_command_value I2C_CMD_GET_STATUS]] x;
  Some (if negb (r =? 0) then -1 else 0, x).

Definition test_read (fuel : nat) x : option (Z * L) :=
  '(r, _, x) ← run_transfer fuel [I2cRead ADCS_I2C_ADDR 1] x; Some (if negb (r =? 0) then -1 else 0, x).

(** [status0] is the local [status]; the buffer of the answer starts with zeros. *)
Definition test_combined (fuel : nat) (status0 : I2cStatus_t) x : option (Z * L) :=
  '(r, data, x) ← run_transfer fuel status_messages x;
  if negb (r =? 0) then Some (-1, x)
  else
    let response := patch (zeros I2C_STATUS_WIRE_SIZE) 0 (read_buffer data) in
    let '(d, _) := i2c_status_decode (Some response) I2C_STATUS_WIRE_SIZE (Some status0) in
    Some (if negb (d =? 0) then -1 else 0, x).

Definition test_status (fuel : nat) (status0 : I2cStatus_t) x : option (Z * L) :=
  '(r, data, x) ← run_transfer fuel status_messages x;
  if negb (r =? 0) then Some (-1, x)
  else
    let wire := patch (zeros I2C_STATUS_WIRE_SIZE) 0 (read_buffer data) in
    let '(d, _) := i2c_status_decode (Some wire) I2C_STATUS_WIRE_SIZE (Some status0) in
    if negb (d =? 0) then Some (-1, x) else Some (0, x).

(** The polls of [test_roundtrip]: [None] for a failed read, otherwise whether a frame is
    ready, with the last status. *)
Fixpoint poll_loop (attempts fuel : nat) (status_wire : list Z) (status : I2cStatus_t) x
    : option (option (bool * I2cStatus_t) * L) :=
  match attempts with
  | O => Some (Some (false, status), x)
  | S attempts =>
      '(r, data, x) ← run_transfer fuel status_messages x;
      if negb (r =? 0) then Some (None, x)
      else
        let status_wire := patch status_wire 0 (read_buffer data) in
        match i2c_status_decode (Some status_wire) I2C_STATUS_WIRE_SIZE (Some status) with
        | (d, Some status) =>
            if negb (d =? 0) then Some (None, x)
            else if negb (Z.land (s_flags status) I2C_STATUS_DATA_READY =? 0) then Some (Some (true, status), x)
            else poll_loop attempts fuel status_wire status (poll_sleep x)
        | (_, None) => Some (None, x)
        end
  end.

Definition POLLS : nat := 50.
Definition test_payload : list Z := [0x10; 0x20; 0x30; 0x40].
Definition outbound : Frame := mk_frame 2 1 4 (patch (zeros MAX_FRAME_PAYLOAD) 0 test_payload).

Definition test_roundtrip (fuel : nat) (status0 : I2cStatus_t) (returned0 : Frame) x : option (Z * L) :=
  let write_buffer := patch (zeros (1 + MAX_FRAME_WIRE_SIZE)) 0 [i2c_command_value I2C_CMD_WRITE_FRAME] in
  let '(wire_length, wire) := frame_serialize (Some outbound) (Some (skip 1 write_buffer)) MAX_FRAME_WIRE_SIZE in
  if wire_length <? 0 then Some (-1, x)
  else
    let write_buffer := prefix_of 1 write_buffer ++ default [] wire in
    '(r, _, x) ← run_transfer fuel [I2cWrite ADCS_I2C_ADDR (prefix_of (u16 (1 + wire_length)) write_buffer)] x;
    if negb (r =? 0) then Some (-1, x)
    else
      '(polled, x) ← poll_loop POLLS fuel (zeros I2C_STATUS_WIRE_SIZE) status0 x;
      match polled with
      | None => Some (-1, x)
      | Some (frame_ready, status) =>
          if negb frame_ready || negb (s_frame_length status =? u16 wire_length) then Some (-1, x)
          else
            '(r, data, x) ← run_transfer fuel
               [I2cWrite ADCS_I2C_ADDR [i2c_command_value I2C_CMD_READ_FRAME]; I2cRead ADCS_I2C_ADDR (s_frame_length status)] x;
            if negb (r =? 0) then Some (-1, x)
            else
              let returned_wire := patch (zeros MAX_FRAME_WIRE_SIZE) 0 (read_buffer data) in
              match frame_deserialize (Some returned_wire) (s_frame_length status) (Some returned0) with
              | (d, Some returned) =>
                  if (d <? 0) || negb (dest_addr returned =? src_addr outbound)
                     || negb (src_addr returned =? dest_addr outbound) || negb (f_length returned =? f_length outbound)
                     || negb (bool_decide (prefix_of (f_length outbound) (f_payload returned)
                                           = prefix_of (f_length outbound) (f_payload outbound)))
                  then Some (-1, x) else Some (0, x)
              | (_, None) => Some (-1, x)
              end
      end.

(** The exit code.  [argv] without the program's name; then the answers of [open] and of
    [ioctl(I2C_FUNCS)] with the functionality. *)
Definition main (fuel : nat) (status0 : I2cStatus_t) (returned0 : Frame) (argv : list (list Z))
    (open_result funcs_result functionality : Z) x : option (Z * L) :=
  match argv with
  | [test] =>
      if open_result <? 0 then Some (1, x)
      else if funcs_result <? 0 then Some (1, x)
      else if Z.land functionality I2C_FUNC_I2C =? 0 then Some (1, x)
      else
        '(result, x) ←
          (if bool_decide (test = literal "write") then test_write fuel x
           else if bool_decide (test = literal "read") then test_read fuel x
           else if bool_decide (test = literal "combined") then test_combined fuel status0 x
           else if bool_decide (test = literal "status") then test_status fuel status0 x
           else if bool_decide (test = literal "roundtrip") then test_roundtrip fuel status0 returned0 x
           else Some (-1, x));
        Some (if result =? 0 then 0 else 1, x)
  | _ => Some (2, x)
  end.
End Bench.

(** ** On the board's own software

    The bus, and the interface of the board behind the slave.  While the bench sleeps between
    two polls, the board's bus task takes some turns; [state] and [listening] are the
    answers of its HAL, [frame1] what its local frame holds. *)
#[projections(primitive)]
Record bench_world {I P : Type} := mk_bench { b_wire : wire_world; b_net : adcs_net I P }.
Arguments bench_world : clear implicits.

Section FlightBoard.
Context {I P : Type} `{Libcsp I P} (turns : nat) (frame1 : Frame) (state : Z) (listening : hal_status).
Implicit Types (w : bench_world I P) (n : adcs_net I P) (l : link).

(** The bus behind a turn of the bus task that queues nothing. *)
Definition after_turn n l : link := mk_link (a_slave n) (armed l) (written l) None (queued l) (transmitted l).

Definition board_turn w : bench_world I P :=
  let l := w_link (b_wire w) in
  let n := bus_turn frame1 state listening ((b_net w) <| a_slave := board l |>) in
  mk_bench I P (mk_world (w_now (b_wire w)) (after_turn n l)) n.

Definition board_sleep w : bench_world I P :=
  let w := Nat.iter turns board_turn w in
  w <| b_wire ::= fun b => mk_world (w_now b + 10) (w_link b) |>.

#[local] Instance bench_adapter : I2cAdapter (bench_world I P) := {|
  i2c_rdwr messages w := let '(answer, b) := i2c_rdwr messages (b_wire w) in (answer, w <| b_wire := b |>);
  monotonic_ms w := (w_now (b_wire w), w);
  poll_sleep := board_sleep
|}.

(** The bus is at rest. *)
Definition at_rest w : Prop := bus_reachable (w_link (b_wire w)) /\ idle (w_link (b_wire w)).

(** Nothing is on its way to the on-board computer. *)
Definition silent w : Prop :=
  at_rest w /\ pending (board (w_link (b_wire w))) = [] /\ a_queue (b_net w) = [] /\ a_pending (b_net w) = None.

(** A turn of a bus task that has nothing to send leaves the slave with nothing to send. *)
Lemma quiet_turn n l :
  bus_reachable l -> a_slave n = board l -> a_queue n = [] -> a_pending n = None ->
  let n' := bus_turn frame1 state listening n in
  bus_reachable (after_turn n' l) /\ a_queue n' = [] /\ a_pending n' = None.
Proof.
  intros Hl Hn Hq Hp. unfold bus_turn. cbv zeta. set (n1 := n <| a_slave ::= _ |>).
  destruct (process_link state listening l Hl) as (l1 & (Hl1 & Ha1 & Ht1) & Hb1 & _ & Hq1 & Hw1).
  assert (a_slave n1 = board l1) as Hn1 by (rewrite Hb1, <- Hn; done).
  destruct (receive_part_link frame1 n1 l1 Hl1 Hn1) as (l2 & (Hl2 & Ha2 & Ht2) & Hb2 & Hq2 & Hqu & Hpe & _ & Hm2 & Hw2).
  change (a_queue n1) with (a_queue n) in Hqu. change (a_pending n1) with (a_pending n) in Hpe. rewrite Hq in Hqu. rewrite Hp in Hpe.
  set (n2 := bus_receive_part frame1 n1) in *. clearbody n2.
  assert (bus_transmit_part n2 = n2) as ->.
  { unfold bus_transmit_part, bus_take_pending. rewrite Hpe, Hqu. cbv zeta. by rewrite Hpe. }
  assert (a_queue (bus_events_part n2) = a_queue n2 /\ a_pending (bus_events_part n2) = a_pending n2) as [-> ->].
  { unfold bus_events_part. destruct (adcs_i2c_slave_take_events _) as [ev s]. by case_if as E. }
  split; [|done]. unfold after_turn. rewrite (proj2 (events_part_same n2)), <- Hb2.
  eapply (reach_step MainEvents l2); [exact Hl2|]. cbn [link_step]. f_equal. f_equal; congruence.
Qed.

Lemma turn_silent w :
  silent w -> silent (board_turn w) /\ w_now (b_wire (board_turn w)) = w_now (b_wire w)
  /\ transmitted (w_link (b_wire (board_turn w))) = transmitted (w_link (b_wire w)).
Proof.
  intros ((Hl & Hi) & Hp & Hq & Hpe). unfold board_turn. cbv zeta.
  set (n0 := (b_net w) <| a_slave := board (w_link (b_wire w)) |>).
  assert (a_slave n0 = board (w_link (b_wire w)) /\ a_queue n0 = [] /\ a_pending n0 = None) as (Hs0 & Hq0 & Hp0) by done.
  destruct (quiet_turn n0 _ Hl Hs0 Hq0 Hp0) as (Hl' & Hq' & Hp').
  set (n := bus_turn _ _ _ _) in *. clearbody n. split; [|done].
  split; [split; [exact Hl'|exact Hi]|]. split; [|done].
  etransitivity; [apply (pending_same _ _ Hl Hl'); done|exact Hp].
Qed.

Lemma sleep_silent w :
  silent w -> silent (board_sleep w) /\ w_now (b_wire (board_sleep w)) = w_now (b_wire w) + 10
  /\ transmitted (w_link (b_wire (board_sleep w))) = transmitted (w_link (b_wire w)).
Proof.
  intros Hw. unfold board_sleep. cbv zeta.
  assert (silent (Nat.iter turns board_turn w) /\ w_now (b_wire (Nat.iter turns board_turn w)) = w_now (b_wire w)
    /\ transmitted (w_link (b_wire (Nat.iter turns board_turn w))) = transmitted (w_link (b_wire w))) as (Hs & Hn & Ht).
  { induction turns as [|k IH]; [done|]. change (Nat.iter (S k) board_turn w) with (board_turn (Nat.iter k board_turn w)).
    destruct IH as (Hs & Hn & Ht). destruct (turn_silent _ Hs) as (Hs' & Hn' & Ht').
    split; [exact Hs'|]. split; congruence. }
  set (w' := Nat.iter turns board_turn w) in *. clearbody w'.
  split; [exact Hs|]. split; [|exact Ht]. change (w_now (b_wire w') + 10 = w_now (b_wire w) + 10). by rewrite Hn.
Qed.

(** *** The tests *)

#[local] Existing Instance bench_adapter.

Lemma bench_transfer fuel messages data w b :
  i2c_rdwr messages (b_wire w) = (Rdwr_done (len messages) data, b) ->
  run_transfer (S fuel) messages w = Some (0, data, w <| b_wire := b |>).
Proof.
  intros Hr. unfold run_transfer. cbn [rdwr_retry i2c_rdwr bench_adapter]. rewrite Hr. cbn [mbind option_bind].
  by rewrite Z.eqb_refl.
Qed.

(** Reading the status, and what it says. *)
Lemma bench_status fuel w :
  at_rest w ->
  exists l, run_transfer (S fuel) status_messages w
    = Some (0, [status_wire (pending (board (w_link (b_wire w))))], w <| b_wire := mk_world (w_now (b_wire w)) l |>)
    /\ bus_reachable l /\ idle l /\ same_frames (w_link (b_wire w)) l.
Proof.
  intros [Hl Hi]. destruct (status_transaction _ Hl Hi) as (l & Hs & H1). exists l. split; [|exact H1].
  by apply (bench_transfer fuel status_messages).
Qed.

Lemma status_answer buf l status0 :
  len buf = 5 -> bus_reachable l ->
  i2c_status_decode (Some (patch buf 0 (status_wire (pending (board l))))) 5 (Some status0)
  = (0, Some (match pending (board l) with [] => mk_status 0 0 | f :: _ => mk_status 1 (len f) end)).
Proof.
  intros Hb Hl. assert (len (status_wire (pending (board l))) = 5) as Hw by (by destruct (pending (board l))).
  rewrite patch_0, skip_all, app_nil_r by lia. apply status_wire_decode.
  - intros f Hf. pose proof (pending_frame _ _ Hl Hf) as Hv. apply frame_valid_spec in Hv as [Hn _]. exact Hn.
  - unfold pending. destruct (s_tx_ready (board l)); [right; by eexists|by left].
Qed.

Lemma status_passes fuel status0 w :
  at_rest w ->
  exists l, test_status (S fuel) status0 w = Some (0, w <| b_wire := mk_world (w_now (b_wire w)) l |>)
    /\ test_combined (S fuel) status0 w = Some (0, w <| b_wire := mk_world (w_now (b_wire w)) l |>)
    /\ bus_reachable l /\ idle l /\ same_frames (w_link (b_wire w)) l.
Proof.
  intros Hw. destruct (bench_status fuel w Hw) as (l & Hs & H1). exists l.
  unfold test_status, test_combined. rewrite Hs. cbn [mbind option_bind read_buffer hd]. change I2C_STATUS_WIRE_SIZE with 5.
  rewrite status_answer by (done || apply Hw). split; [done|split; [done|exact H1]].
Qed.

Lemma write_passes fuel w :
  at_rest w ->
  exists l, test_write (S fuel) w = Some (0, w <| b_wire := mk_world (w_now (b_wire w)) l |>)
    /\ bus_reachable l /\ idle l /\ same_frames (w_link (b_wire w)) l.
Proof.
  intros [Hl Hi]. destruct (write_command _ ADCS_I2C_CMD_GET_STATUS Hl Hi) as (l1 & l2 & Hs1 & Hb2 & Hl2 & Hw2 & Hf2 & Hr2 & _).
  destruct (Hr2 ltac:(by left)) as [Ha2 _]. destruct (stop_step l2 Hl2 Ha2) as (l3 & Hs3 & Hl3 & Hi3 & Hm3 & Hq3 & Ht3).
  exists l3. split.
  - unfold test_write. change (i2c_command_value I2C_CMD_GET_STATUS) with ADCS_I2C_CMD_GET_STATUS.
    rewrite (bench_transfer fuel [_] [] w (mk_world (w_now (b_wire w)) l3)); [done|].
    cbn [i2c_rdwr wire_adapter play]. change (negb (ADCS_I2C_ADDR =? ADCS_I2C_ADDR)) with false. cbn match.
    rewrite Hs1. cbn [mbind option_bind]. rewrite Hb2. cbn [mbind option_bind]. by rewrite Hs3.
  - split; [done|]. split; [done|]. destruct Hf2 as (Hm2 & Hq2 & Ht2).
    split; [rewrite Hm3, Hw2, Hm2|split; congruence]. generalize (mailbox (w_link (b_wire w))). intros [box|]; reflexivity.
Qed.

Lemma polls_silent attempts fuel status_wire0 status w :
  silent w -> len status_wire0 = 5 ->
  exists status' w', poll_loop attempts (S fuel) status_wire0 status w = Some (Some (false, status'), w')
    /\ silent w' /\ w_now (b_wire w') = w_now (b_wire w) + 10 * Z.of_nat attempts
    /\ transmitted (w_link (b_wire w')) = transmitted (w_link (b_wire w)).
Proof.
  revert status_wire0 status w. induction attempts as [|attempts IH]; intros wire0 status w Hw Hlen.
  { exists status, w. split; [done|]. split; [done|]. split; [lia|done]. }
  destruct Hw as (Hrest & Hp & Hq & Hpe). destruct (bench_status fuel w Hrest) as (l & Hs & Hl & Hi & Hf).
  cbn [poll_loop]. rewrite Hs. cbn [mbind option_bind read_buffer hd].
  change (negb (0 =? 0)) with false. cbv iota zeta. change I2C_STATUS_WIRE_SIZE with 5.
  rewrite (status_answer _ _ _ Hlen) by apply Hrest. rewrite Hp. change (negb (0 =? 0)) with false.
  change (negb (Z.land (s_flags (mk_status 0 0)) I2C_STATUS_DATA_READY =? 0)) with false. cbv iota.
  set (w1 := w <| b_wire := _ |>).
  assert (silent w1) as Hw1.
  { split; [by split|]. split; [|done]. rewrite <- Hp. by apply (same_frames_pending _ _ (proj1 Hrest) Hl). }
  destruct (sleep_silent w1 Hw1) as (Hw2 & Hn2 & Ht2).
  set (wire1 := patch wire0 0 _).
  assert (len wire1 = 5) as Hl1 by (unfold wire1; rewrite len_patch; [exact Hlen|lia|rewrite Hlen; done]).
  change (poll_sleep w1) with (board_sleep w1).
  destruct (IH wire1 (mk_status 0 0) (board_sleep w1) Hw2 Hl1) as (status' & w' & -> & Hw' & Hn' & Ht').
  exists status', w'. split; [done|]. split; [exact Hw'|].
  split; [rewrite Hn', Hn2; change (w_now (b_wire w1)) with (w_now (b_wire w)); lia|].
  rewrite Ht', Ht2. apply Hf.
Qed.

Lemma outbound_sent fuel w :
  at_rest w ->
  exists l, run_transfer (S fuel) [I2cWrite ADCS_I2C_ADDR (ADCS_I2C_CMD_WRITE_FRAME :: frame_wire outbound)] w
      = Some (0, [], w <| b_wire := mk_world (w_now (b_wire w)) l |>)
    /\ bus_reachable l /\ idle l /\ queued l = queued (w_link (b_wire w)) /\ transmitted l = transmitted (w_link (b_wire w)).
Proof.
  intros [Hl Hi].
  destruct (write_transaction (b_wire w) (frame_wire outbound) Hl Hi eq_refl) as (l & Hs & Hl' & Hi' & _ & Hq & Ht).
  exists l. split; [|done]. by apply (bench_transfer fuel [_]).
Qed.

Lemma roundtrip_silent fuel status0 returned0 w :
  silent w ->
  exists w', test_roundtrip (S fuel) status0 returned0 w = Some (-1, w') /\ silent w'
    /\ w_now (b_wire w') = w_now (b_wire w) + 500
    /\ transmitted (w_link (b_wire w')) = transmitted (w_link (b_wire w)).
Proof.
  intros (Hrest & Hp & Hqp). destruct (outbound_sent fuel w Hrest) as (l & Hs & Hl & Hi & Hq & Ht).
  set (w1 := w <| b_wire := _ |>) in *.
  assert (silent w1) as Hw1.
  { split; [by split|]. split; [|exact Hqp]. rewrite <- Hp. apply pending_same; [apply Hrest|done|exact Hq|exact Ht]. }
  destruct (polls_silent POLLS fuel (zeros I2C_STATUS_WIRE_SIZE) status0 w1 Hw1 eq_refl) as (status & w' & Hpoll & Hw' & Hn & Ht').
  exists w'. split; [|split; [exact Hw'|split; [exact Hn|by rewrite Ht']]].
  unfold test_roundtrip. change (prefix_of _ (patch _ _ _)) with [ADCS_I2C_CMD_WRITE_FRAME].
  set (wire := frame_serialize _ _ _). assert (wire = (8, Some (frame_wire outbound ++ zeros 260))) as -> by (vm_compute; reflexivity).
  change (8 <? 0) with false. cbv iota beta. cbn [default id].
  change (prefix_of (u16 (1 + 8)) ([ADCS_I2C_CMD_WRITE_FRAME] ++ frame_wire outbound ++ zeros 260))
    with (ADCS_I2C_CMD_WRITE_FRAME :: frame_wire outbound).
  rewrite Hs. cbn [mbind option_bind]. change (negb (0 =? 0)) with false. cbv iota.
  rewrite Hpoll. cbn [mbind option_bind negb orb]. reflexivity.
Qed.

(** The tests' names are told apart, and a test's result becomes the exit code. *)
Lemma main_runs fuel status0 returned0 fd funcs functionality w :
  0 <= fd -> 0 <= funcs -> Z.land functionality I2C_FUNC_I2C <> 0 ->
  let run test := main fuel status0 returned0 [literal test] fd funcs functionality w in
  let code (r : option (Z * bench_world I P)) := '(result, x) ← r; Some (if result =? 0 then 0 else 1, x) in
  run "write"%string = code (test_write fuel w) /\ run "combined"%string = code (test_combined fuel status0 w)
  /\ run "status"%string = code (test_status fuel status0 w)
  /\ run "roundtrip"%string = code (test_roundtrip fuel status0 returned0 w).
Proof.
  intros Hfd Hfu Hf. cbv zeta. unfold main.
  rewrite !(proj2 (Z.ltb_ge _ _)), (proj2 (Z.eqb_neq _ _)) by done.
  split_and!; repeat first [rewrite bool_decide_true by done|rewrite bool_decide_false by (vm_compute; done)]; done.
Qed.

End FlightBoard.

(** ** A board after power-on *)
Definition bench_start : bench_world (Z * Z) (gset Z) := mk_bench _ _ demo_world Tiny.board_net.

Lemma bench_start_silent : silent bench_start.
Proof. split; [split; [apply link_reach_start|done]|done]. Qed.

