(* ===== verification/RoleStart.v ===== *)
(** How the processes of the on-board computer start: the [main] of every role
    ([apps/obc/*/src/main.c]) and of the supervisor ([apps/obc/supervisor/src/main.c]).

    A role opens its listening socket, initialises its health watches and starts its
    threads; the thread that sends its heartbeat comes last.  Any failure ends the process,
    and the supervisor starts it again. *)

From S2P Require Import Prelude ObcProgress ObcIpc Supervisor.

(** The calls of the entry points, each with an [int] for a result. *)
Inductive start_call :=
  | Csp_network_init
  | Ipc_initialize (role : Z)
  | Health_init
  | Health_monitor_thread
  | Watchdog_thread
  | Ingest_thread
  | Relay_thread
  | Radio_rx_thread
  | Dispatch_thread
  | Storage_thread
  | Scheduler_thread
  | Autonomy_thread
  | Broadcast_thread
  | Request_thread
  | Heartbeat_thread.

Inductive outcome := Exits (code : Z) | Serves.

#[global] Instance start_call_eq_dec : EqDecision start_call.
Proof. solve_decision. Defined.

(** ** The roles

    A stage is one [if]: its calls, joined by [||], and the value returned when one fails. *)
Definition stage := (list start_call * Z)%type.

Section Start.
Context (answer : start_call -> Z).

(** The calls made, and whether all succeeded. *)
Fixpoint run_calls (calls : list start_call) : list start_call * bool :=
  match calls with
  | [] => ([], true)
  | c :: calls => if negb (answer c =? 0) then ([c], false) else let '(made, ok) := run_calls calls in (c :: made, ok)
  end.

Fixpoint run_stages (stages : list stage) : list start_call * outcome :=
  match stages with
  | [] => ([], Serves)
  | (calls, code) :: stages =>
      let '(made, ok) := run_calls calls in
      if ok then let '(later, r) := run_stages stages in (made ++ later, r) else (made, Exits code)
  end.

Definition fdir_stages : list stage :=
  [([Ipc_initialize ROLE_FDIR], -1); ([Health_monitor_thread], 1); ([Watchdog_thread], 1)].
(** [csp_network_init] has no result. *)
Definition commands_stages : list stage :=
  [([Ipc_initialize ROLE_COMMANDS], 1); ([Health_init], 1); ([Ingest_thread; Relay_thread], 1); ([Radio_rx_thread], 1);
   ([Heartbeat_thread], 1)].
Definition compute_stages : list stage :=
  [([Ipc_initialize ROLE_COMPUTE], 1); ([Health_init], 1); ([Dispatch_thread], 1); ([Heartbeat_thread], 1)].
Definition data_stages : list stage :=
  [([Ipc_initialize ROLE_DATA], 1); ([Health_init], 1); ([Storage_thread], 1); ([Heartbeat_thread], 1)].
Definition mission_stages : list stage :=
  [([Ipc_initialize ROLE_MISSION], 1); ([Health_init], 1); ([Scheduler_thread; Autonomy_thread], 1);
   ([Heartbeat_thread], 1)].
Definition time_stages : list stage :=
  [([Ipc_initialize ROLE_TIME], 1); ([Health_init], 1); ([Broadcast_thread; Request_thread], 1);
   ([Heartbeat_thread], 1)].

Definition fdir_main : list start_call * outcome := run_stages fdir_stages.
Definition commands_main : list start_call * outcome :=
  let '(made, r) := run_stages commands_stages in (Csp_network_init :: made, r).
Definition compute_main : list start_call * outcome := run_stages compute_stages.
Definition data_main : list start_call * outcome := run_stages data_stages.
Definition mission_main : list start_call * outcome := run_stages mission_stages.
Definition time_main : list start_call * outcome := run_stages time_stages.

(** The entry point of the process in each slot of the supervisor's table. *)
Definition role_main (role : Z) : option (list start_call * outcome) :=
  if role =? ROLE_FDIR then Some fdir_main
  else if role =? ROLE_COMMANDS then Some commands_main
  else if role =? ROLE_COMPUTE then Some compute_main
  else if role =? ROLE_DATA then Some data_main
  else if role =? ROLE_MISSION then Some mission_main
  else if role =? ROLE_TIME then Some time_main
  else None.

Lemma run_calls_spec calls :
  let '(made, ok) := run_calls calls in
  exists rest, calls = made ++ rest /\ (ok = true -> rest = [] /\ Forall (fun c => answer c = 0) made)
    /\ (ok = false -> exists before c, made = before ++ [c] /\ Forall (fun c => answer c = 0) before /\ answer c <> 0).
Proof.
  induction calls as [|c calls IH]; cbn [run_calls]; [by exists []|].
  destruct (Z.eqb_spec (answer c) 0) as [Hc|Hc]; cbn [negb].
  - destruct (run_calls calls) as [made ok]. destruct IH as (rest & -> & Hok & Hno). exists rest.
    split; [done|]. split.
    + intros H. destruct (Hok H) as [-> Hm]. split; [done|by constructor].
    + intros H. destruct (Hno H) as (before & d & -> & Hb & Hd). exists (c :: before), d. split; [done|]. split; [by constructor|done].
  - exists calls. split; [done|]. split; [done|]. intros _. by exists [], c.
Qed.

(** A process serves after every call has succeeded; otherwise it ends right behind the call that
    failed, with the code of its stage. *)
Lemma run_stages_spec stages :
  let calls := concat (map fst stages) in
  let '(made, r) := run_stages stages in
  exists rest, calls = made ++ rest
    /\ match r with
       | Serves => rest = [] /\ Forall (fun c => answer c = 0) made
       | Exits code =>
           In code (map snd stages)
           /\ exists before c, made = before ++ [c] /\ Forall (fun c => answer c = 0) before /\ answer c <> 0
       end.
Proof.
  induction stages as [|[calls code] stages IH]; cbn [run_stages map concat fst snd]; [by exists []|].
  pose proof (run_calls_spec calls) as Hc. destruct (run_calls calls) as [made ok].
  destruct Hc as (rest & -> & Hok & Hno). destruct ok.
  - destruct (Hok eq_refl) as [-> Hm]. rewrite app_nil_r. destruct (run_stages stages) as [later r].
    destruct IH as (rest & Hcalls & Hr). exists rest. cbv zeta in Hcalls. rewrite Hcalls, app_assoc. split; [done|].
    destruct r as [code'|].
    + destruct Hr as (Hin & before & c & -> & Hb & Hc). split; [by right|]. exists (made ++ before), c.
      rewrite app_assoc. split; [done|]. split; [by apply Forall_app|done].
    + destruct Hr as [-> Hl]. split; [done|by apply Forall_app].
  - exists (rest ++ concat (map fst stages)). rewrite app_assoc. split; [done|]. split; [by left|by apply Hno].
Qed.

(** A role that serves sends heartbeats, if it has a thread for them, and everything else was
    started before; a role that fails to start ends with an exit code other than 0 and
    sends none. *)
Definition starts_whole (main : list start_call * outcome) : Prop :=
  match snd main with
  | Serves => Forall (fun c => c <> Csp_network_init -> answer c = 0) (fst main)
  | Exits code => code <> 0
                  /\ exists before c, fst main = before ++ [c] /\ c <> Csp_network_init /\ answer c <> 0
                     /\ ~ In Heartbeat_thread before
  end.

Definition heartbeat_last (stages : list stage) : Prop :=
  Forall (fun p => snd p <> 0) stages
  /\ ~ In Csp_network_init (concat (map fst stages))
  /\ ~ In Heartbeat_thread (removelast (concat (map fst stages))).

Lemma in_removelast_prefix {A} (x : A) l before c rest : l = before ++ c :: rest -> In x before -> In x (removelast l).
Proof.
  intros -> Hx. rewrite removelast_app by done. apply in_app_iff. by left.
Qed.

Lemma stages_start_whole stages : heartbeat_last stages -> starts_whole (run_stages stages).
Proof.
  intros (Hcodes & Hcsp & Hlast). unfold starts_whole. pose proof (run_stages_spec stages) as Hs. cbv zeta in Hs.
  destruct (run_stages stages) as [made [code|]]; cbn [fst snd]; destruct Hs as (rest & Hcalls & Hr).
  - destruct Hr as (Hin & before & c & -> & Hb & Hc). split.
    + apply in_map_iff in Hin as ([calls code'] & <- & Hin). rewrite List.Forall_forall in Hcodes. by apply (Hcodes _ Hin).
    + exists before, c. split; [done|]. rewrite <- app_assoc in Hcalls. split; [|split; [done|]].
      * intros ->. apply Hcsp. rewrite Hcalls. apply in_app_iff. right. by left.
      * intros Hh. apply Hlast. by apply (in_removelast_prefix _ _ before c rest).
  - destruct Hr as [-> Hm]. apply (Forall_impl _ _ _ Hm). by intros.
Qed.
End Start.

Ltac check_stages :=
  split; [by repeat constructor|split; cbn; intuition discriminate].

Lemma commands_starts_whole answer : starts_whole answer (commands_main answer).
Proof.
  assert (starts_whole answer (run_stages answer commands_stages)) as H by (apply stages_start_whole; check_stages).
  unfold commands_main, starts_whole in *. destruct (run_stages answer commands_stages) as [made [code|]]; cbn [fst snd] in *.
  - destruct H as (Hc & before & c & -> & Hcsp & Ha & Hh). split; [done|]. exists (Csp_network_init :: before), c.
    split; [done|]. split; [done|]. split; [done|]. by intros [?|?].
  - by constructor.
Qed.

(** Every process of the supervisor's table starts whole. *)
Lemma roles_start_whole answer pr :
  In pr processes0 -> exists main, role_main answer (Supervisor.role pr) = Some main /\ starts_whole answer main.
Proof.
  intros Hin.
  repeat (destruct Hin as [<-|Hin];
    [eexists; split; [reflexivity|first [apply commands_starts_whole|apply stages_start_whole; check_stages]]|]).
  done.
Qed.

(** A role whose threads cannot start ends, and sends no heartbeat. *)
Lemma mission_without_autonomy :
  mission_main (fun c => if bool_decide (c = Autonomy_thread) then 11 else 0)
  = ([Ipc_initialize ROLE_MISSION; Health_init; Scheduler_thread; Autonomy_thread], Exits 1).
Proof. vm_compute. reflexivity. Qed.

(** ** The supervisor *)
Section SupervisorMain.
Context (clock : nat -> timespec) (waits : nat -> wait_answer) (spawns : nat -> option Z) (kills : nat -> bool).
Implicit Types s : supervisor.

(** [init_shutdown_thread]: its thread runs even if its socket does not. *)
Definition init_shutdown_thread (ipc_ret pt_ret : Z) : Z := if negb (ipc_ret =? 0) || negb (pt_ret =? 0) then -1 else 0.

(** The outcome and whether the two threads were reported as running; their failures are
    printed only. *)
Definition supervisor_main (dir : option (list Z)) (heartbeat_ret ipc_ret pt_ret : Z) s
    : outcome * bool * bool * supervisor :=
  let '(r, s) := start_all_processes clock spawns dir s in
  if negb (r =? 0) then (Exits 1, false, false, s)
  else (Serves, heartbeat_ret =? 0, init_shutdown_thread ipc_ret pt_ret =? 0, s).

(** On SIGTERM. *)
Definition supervisor_main_end (fuel : nat) s : option (Z * supervisor) :=
  s ← supervisor_shutdown_all clock waits kills fuel s; Some (0, s).
End SupervisorMain.

(** When a later process cannot be spawned, the supervisor ends and the earlier ones stay. *)
Lemma failed_start_leaves_orphans :
  let '(r, _, _, s) := supervisor_main quiet_clock (fun n => match n with O => Some 100 | _ => None end) (Some [47]) 0 0 0 supervisor0 in
  r = Exits 1 /\ live ROLE_FDIR (log s) = [100].
Proof. vm_compute. done. Qed.

(** Without its threads the supervisor serves on, and neither reaps nor listens. *)
Lemma deaf_supervisor_serves :
  let '(r, heartbeat, shutdown, _) := supervisor_main quiet_clock sample_spawns (Some [47]) 11 (-1) 11 supervisor0 in
  r = Serves /\ heartbeat = false /\ shutdown = false.
Proof. vm_compute. done. Qed.
