(* ===== verification/Platform.v ===== *)
(** The platform drivers that are not buses: the camera and the reset and shutdown of a board,
    for the simulator ([platform/sim/drivers]) and for the real boards
    ([platform/real/drivers]).

    The answers of the C library and of the kernel are arguments. *)

From Stdlib Require Import String.
From stdpp Require Import gmap.
From S2P Require Import Prelude Text ObcTelemetry ObcProgress ObcIpc DataStore.

(** ** The camera *)
Module Camera.

Definition CAMERA_WIDTH : Z := 640.
Definition CAMERA_HEIGHT : Z := 480.
Definition CAMERA_JPEG_QUALITY : Z := 50.

(** The arguments of [rpicam-jpeg]. *)
Definition camera_argv (out_path : list Z) : list (list Z) :=
  [literal "rpicam-jpeg"; literal "-o"; out_path; literal "--width"; print_dec CAMERA_WIDTH;
   literal "--height"; print_dec CAMERA_HEIGHT; literal "--quality"; print_dec CAMERA_JPEG_QUALITY; literal "-n"].

(** How a child ended, as [waitpid] says. *)
Inductive wait_status :=
  | Exited (code : Z)
  | Signaled (sig : Z)
  | Other_status.

(** [spawned] is the process of the program, or nothing; [waited] the result of [waitpid]. *)
Definition camera_capture (spawned : option Z) (waited : Z) (status : wait_status) : Z :=
  match spawned with
  | None => -1
  | Some pid =>
      if negb (waited =? pid) then -1
      else match status with
           | Exited code => if negb (code =? 0) then -1 else 0
           | _ => -1
           end
  end.

Lemma camera_capture_ok spawned waited status :
  camera_capture spawned waited status = 0 <-> spawned = Some waited /\ status = Exited 0.
Proof.
  unfold camera_capture. destruct spawned as [pid|]; [|split; [done|by intros [? _]]].
  destruct (Z.eqb_spec waited pid) as [->|Hw]; cbn [negb].
  - destruct status as [code|sig|]; [|split; [done|by intros [_ ?]]..].
    destruct (Z.eqb_spec code 0) as [->|Hc]; cbn [negb]; split; try done. by intros [_ [= ?]].
  - split; [done|]. intros [[= ->] _]. done.
Qed.

(** The photo of the simulator. *)
Definition mock_photo_jpeg : list Z :=
  [
   255; 216; 255; 224; 0; 16; 74; 70; 73; 70; 0; 1; 1; 0; 0; 1; 0; 1; 0; 0; 255; 219; 0; 67;
   0; 13; 9; 10; 11; 10; 8; 13; 11; 10; 11; 14; 14; 13; 15; 19; 32; 21; 19; 18; 18; 19; 39; 28;
   30; 23; 32; 46; 41; 49; 48; 46; 41; 45; 44; 51; 58; 74; 62; 51; 54; 70; 55; 44; 45; 64; 87; 65;
   70; 76; 78; 82; 83; 82; 50; 62; 90; 97; 90; 80; 96; 74; 81; 82; 79; 255; 219; 0; 67; 1; 14; 14;
   14; 19; 17; 19; 38; 21; 21; 38; 79; 53; 45; 53; 79; 79; 79; 79; 79; 79; 79; 79; 79; 79; 79; 79;
   79; 79; 79; 79; 79; 79; 79; 79; 79; 79; 79; 79; 79; 79; 79; 79; 79; 79; 79; 79; 79; 79; 79; 79;
   79; 79; 79; 79; 79; 79; 79; 79; 79; 79; 79; 79; 79; 79; 255; 192; 0; 17; 8; 0; 16; 0; 16; 3;
   1; 34; 0; 2; 17; 1; 3; 17; 1; 255; 196; 0; 31; 0; 0; 1; 5; 1; 1; 1; 1; 1; 1; 0;
   0; 0; 0; 0; 0; 0; 0; 1; 2; 3; 4; 5; 6; 7; 8; 9; 10; 11; 255; 196; 0; 181; 16; 0;
   2; 1; 3; 3; 2; 4; 3; 5; 5; 4; 4; 0; 0; 1; 125; 1; 2; 3; 0; 4; 17; 5; 18; 33;
   49; 65; 6; 19; 81; 97; 7; 34; 113; 20; 50; 129; 145; 161; 8; 35; 66; 177; 193; 21; 82; 209; 240; 36;
   51; 98; 114; 130; 9; 10; 22; 23; 24; 25; 26; 37; 38; 39; 40; 41; 42; 52; 53; 54; 55; 56; 57; 58;
   67; 68; 69; 70; 71; 72; 73; 74; 83; 84; 85; 86; 87; 88; 89; 90; 99; 100; 101; 102; 103; 104; 105; 106;
   115; 116; 117; 118; 119; 120; 121; 122; 131; 132; 133; 134; 135; 136; 137; 138; 146; 147; 148; 149; 150; 151; 152; 153;
   154; 162; 163; 164; 165; 166; 167; 168; 169; 170; 178; 179; 180; 181; 182; 183; 184; 185; 186; 194; 195; 196; 197; 198;
   199; 200; 201; 202; 210; 211; 212; 213; 214; 215; 216; 217; 218; 225; 226; 227; 228; 229; 230; 231; 232; 233; 234; 241;
   242; 243; 244; 245; 246; 247; 248; 249; 250; 255; 196; 0; 31; 1; 0; 3; 1; 1; 1; 1; 1; 1; 1; 1;
   1; 0; 0; 0; 0; 0; 0; 1; 2; 3; 4; 5; 6; 7; 8; 9; 10; 11; 255; 196; 0; 181; 17; 0;
   2; 1; 2; 4; 4; 3; 4; 7; 5; 4; 4; 0; 1; 2; 119; 0; 1; 2; 3; 17; 4; 5; 33; 49;
   6; 18; 65; 81; 7; 97; 113; 19; 34; 50; 129; 8; 20; 66; 145; 161; 177; 193; 9; 35; 51; 82; 240; 21;
   98; 114; 209; 10; 22; 36; 52; 225; 37; 241; 23; 24; 25; 26; 38; 39; 40; 41; 42; 53; 54; 55; 56; 57;
   58; 67; 68; 69; 70; 71; 72; 73; 74; 83; 84; 85; 86; 87; 88; 89; 90; 99; 100; 101; 102; 103; 104; 105;
   106; 115; 116; 117; 118; 119; 120; 121; 122; 130; 131; 132; 133; 134; 135; 136; 137; 138; 146; 147; 148; 149; 150; 151;
   152; 153; 154; 162; 163; 164; 165; 166; 167; 168; 169; 170; 178; 179; 180; 181; 182; 183; 184; 185; 186; 194; 195; 196;
   197; 198; 199; 200; 201; 202; 210; 211; 212; 213; 214; 215; 216; 217; 218; 226; 227; 228; 229; 230; 231; 232; 233; 234;
   242; 243; 244; 245; 246; 247; 248; 249; 250; 255; 218; 0; 12; 3; 1; 0; 2; 17; 3; 17; 0; 63; 0; 134;
   89; 165; 184; 65; 22; 224; 21; 241; 19; 196; 74; 152; 241; 233; 24; 30; 253; 1; 237; 237; 214; 120; 174; 147;
   121; 136; 44; 114; 60; 80; 130; 140; 137; 243; 186; 146; 84; 159; 152; 55; 205; 146; 9; 245; 227; 176; 38; 164;
   185; 153; 164; 116; 32; 39; 150; 3; 50; 176; 193; 42; 184; 12; 195; 140; 96; 28; 30; 153; 32; 158; 221; 169;
   137; 17; 224; 72; 252; 153; 86; 56; 71; 153; 149; 59; 118; 255; 0; 19; 54; 9; 28; 253; 208; 49; 195; 99;
   168; 228; 80; 226; 148; 109; 253; 125; 255; 0; 134; 253; 245; 64; 229; 204; 154; 123; 235; 253; 126; 72; 255; 217].

(** [opened]: [fopen] succeeds; [n] bytes of the photo reach the file. *)
Definition sim_camera_capture (opened : bool) (n : Z) (out_path : path) (fs : files) : Z * files :=
  if negb opened then (-1, fs) else (0, <[out_path := prefix_of n mock_photo_jpeg]> fs).

(** A whole photo is a JPEG file: it starts and ends with the markers. *)
Lemma sim_photo_is_jpeg out_path fs :
  let '(r, fs') := sim_camera_capture true (len mock_photo_jpeg) out_path fs in
  r = 0 /\ fs' !! out_path = Some mock_photo_jpeg
  /\ prefix_of 2 mock_photo_jpeg = [0xff; 0xd8] /\ skip (len mock_photo_jpeg - 2) mock_photo_jpeg = [0xff; 0xd9].
Proof.
  unfold sim_camera_capture. cbn [negb]. split; [done|]. rewrite prefix_of_all by lia.
  split; [by rewrite lookup_insert_eq|]. split; vm_compute; reflexivity.
Qed.

(** A full disk leaves a broken photo that counts as taken. *)
Lemma short_photo_succeeds out_path fs :
  let '(r, fs') := sim_camera_capture true 0 out_path fs in r = 0 /\ fs' !! out_path = Some [].
Proof. unfold sim_camera_capture. cbn [negb]. split; [done|]. by rewrite lookup_insert_eq. Qed.
End Camera.

(** ** Reset and shutdown *)
Module Power.

(** What ends a process of the simulator. *)
Inductive process_end := Reexec (self : list Z) | Exit_with (code : Z).

Definition PATH_MAX : Z := 4096.

(** [link] is what [readlink] finds, if it succeeds. *)
Definition resolve_self_path (link : option (list Z)) (out_size : Z) : option (list Z) :=
  target ← link; Some (prefix_of (out_size - 1) target).

(** [executed]: [execv] succeeds, and does not return. *)
Definition sim_board_reset (link : option (list Z)) (executed : bool) : process_end :=
  match resolve_self_path link PATH_MAX with
  | None => Exit_with 1
  | Some self => if executed then Reexec self else Exit_with 1
  end.

Definition sim_board_shutdown : process_end := Exit_with 0.

(** The simulated board runs on exactly when its own binary could be started again. *)
Lemma sim_reset_reexecs link executed self :
  len self < PATH_MAX ->
  sim_board_reset (Some self) executed = (if executed then Reexec self else Exit_with 1)
  /\ (sim_board_reset link executed = Exit_with 1 <-> link = None \/ executed = false).
Proof.
  intros Hs. unfold sim_board_reset, resolve_self_path. cbn [mbind option_bind].
  rewrite prefix_of_all by lia. split; [done|].
  destruct link as [l|]; cbn [mbind option_bind]; [|split; [by left|done]].
  destruct executed; split; try done; [by intros [?|?]|by right].
Qed.

(** The real boards: writes of registers and instructions, ending in a loop. *)
Inductive cpu_action :=
  | Write_register (address value : Z)
  | Cpsid_i
  | Wfi_forever
  | Loop_forever.

Definition AIRCR : Z := 0xE000ED0C.
Definition AIRCR_VECTKEY : Z := Z.shiftl 0x5FA 16.
Definition AIRCR_SYSRESETREQ : Z := Z.shiftl 1 2.

Definition board_reset : list cpu_action := [Write_register AIRCR (Z.lor AIRCR_VECTKEY AIRCR_SYSRESETREQ); Loop_forever].
Definition board_shutdown : list cpu_action := [Cpsid_i; Wfi_forever].

(** The key is in the upper half, and the request for a reset is the only bit of the lower one. *)
Lemma reset_value : Z.lor AIRCR_VECTKEY AIRCR_SYSRESETREQ = 0x05FA0004.
Proof. reflexivity. Qed.
End Power.
