(* ===== verification/Uplink.v ===== *)
(** A telecommand's way through the whole vehicle, on the flight hardware: from the bytes the
    radio's UART gives ([platform/real/drivers/radio.c]) over the radio receiver of the
    Commands role ([apps/obc/commands/src/main.c]), CSP and the I2C bus
    ([shared/csp/csp_if_comms_bus.c], [platform/real/drivers/comms_i2c.c],
    [apps/adcs/Core/Src/adcs_i2c_slave.c], [apps/adcs/Platform/Src/adcs_csp_stm32.c]) to the
    command listener and the command task of the attitude control board
    ([apps/adcs/Application/src/communication/command_handler.c], [tasks/command_task.c]).

    The parts are the definitions of the other files.  The one thing added is what libcsp
    does between [csp_send] and the interface of one board and between the router and the
    listener of the other: [CspPorts]. *)

From stdpp Require Import gmap.
From S2P Require Import Prelude Frame Profile RadioQueue Deframer RadioDriver Fdir Gateway Float32.
From S2P Require Import AdcsMath AdcsControl AdcsFault AdcsCommand ObcProgress AdcsI2cSlave I2cMaster I2cLink Csp.

(** ** The radio delivers what arrives in time *)

(** The bytes of a packet with the clock when each is asked for. *)
Definition arrivals (times : list Z) (p : list Z) : list (Z * Real.uart_answer) :=
  zip_with (fun t b => (t, Real.Uart_byte b)) times p.

(** The first byte comes before the reception gives up, the others before it stops
    waiting for the rest of a packet. *)
Definition in_time (start : Z) (times : list Z) : Prop :=
  (forall t, List.hd_error times = Some t -> t < start + Real.RX_TIMEOUT_MS)
  /\ Forall (fun t => t < start + Real.RX_TIMEOUT_MS + Real.RX_PACKET_MAX_MS) times.

Lemma arrivals_cons t times b p : arrivals (t :: times) (b :: p) = (t, Real.Uart_byte b) :: arrivals times p.
Proof. done. Qed.

(** The loop of the real driver while a valid packet comes in: [held] of its bytes are
    in the deframer and [rest] is to come. *)
Lemma real_loop_packet held rest times d s packet start :
  packet_valid (held ++ rest) -> rest <> [] -> length times = length rest ->
  Forall (fun t => t < start + Real.RX_TIMEOUT_MS + Real.RX_PACKET_MAX_MS) times ->
  (held = [] -> forall t, List.hd_error times = Some t -> t < start + Real.RX_TIMEOUT_MS) ->
  deframer_wf d -> counters_ok s -> bytes_of d = held ->
  exists d' s',
    Real.receive_loop d s packet start (arrivals times rest)
    = Some (Real.Rx_packet (len (held ++ rest)), d', s', patch packet 0 (held ++ rest)).
Proof.
  revert held times d s. induction rest as [|b rest IH]; intros held times d s Hv Hrest Hlen Ht Hfirst Hwf Hs Hheld;
    [done|].
  destruct times as [|t times]; [done|]. inversion Ht as [|? ? Ht0 Hts]; subst x l. injection Hlen as Hlen.
  destruct (packet_valid_header _ Hv) as (_ & _ & Hr). pose proof (len_bytes_of d Hwf) as Hld. rewrite Hheld in Hld.
  rewrite len_app, len_cons in Hr. pose proof (len_nonneg rest). pose proof (len_nonneg held).
  pose proof Hv as (Hb & _ & _). rewrite Forall_app, Forall_cons in Hb. destruct Hb as (_ & Hb0 & _).
  rewrite arrivals_cons. cbn [Real.receive_loop]. unfold radio_deframer_buffered.
  rewrite (proj2 (Z.leb_gt _ _)) by lia.
  assert ((d_len d <=? 0) && (start + Real.RX_TIMEOUT_MS - t <=? 0) = false) as ->.
  { apply andb_false_iff. rewrite !Z.leb_gt. destruct held as [|x held].
    - right. specialize (Hfirst eq_refl t eq_refl). lia.
    - left. rewrite len_cons in Hld. pose proof (len_nonneg held). lia. }
  pose proof (receive_byte_spec d s packet b Hwf Hs Hb0 ltac:(lia)) as Hn.
  assert (bytes_of d ++ [b] = prefix_of (len held + 1) (held ++ b :: rest)) as Epre.
  { rewrite Hheld. replace (held ++ b :: rest) with ((held ++ [b]) ++ rest) by (by rewrite <- app_assoc).
    symmetry. apply prefix_of_app. by rewrite len_app. }
  rewrite Epre, scan_packet_part in Hn; [|done|rewrite len_app, len_cons; lia].
  rewrite len_app, len_cons in Hn. destruct (Z.eqb_spec (len held + 1) (len held + (1 + len rest))) as [E|E].
  - destruct Hn as (ret & d1 & s1 & packet1 & -> & _ & _ & _ & _ & -> & ->).
    rewrite len_app, len_cons. rewrite (proj2 (Z.eqb_neq _ _)) by lia. by eexists _, _.
  - destruct Hn as (ret & d1 & s1 & packet1 & -> & Hwf1 & Hb1 & Hs1 & _ & -> & ->). cbn [Z.eqb].
    assert (held ++ b :: rest = (held ++ [b]) ++ rest) as Eapp by (by rewrite <- app_assoc).
    rewrite Eapp in Hv, Hb1 |- *. apply IH; try done.
    + intros ->. by rewrite len_nil in E.
    + intros Hnil. by destruct held.
    + rewrite Hb1. apply prefix_of_app. by rewrite len_app.
Qed.

(** A valid packet that arrives in time, on a driver that is ready and holds no part of an
    earlier one, is returned. *)
Lemma real_receive_packet p times dr s packet0 now start init_ok buffer max_length :
  packet_valid p -> length times = length p -> in_time start times ->
  Real.ready dr = true -> deframer_wf (Real.rx_deframer dr) -> d_len (Real.rx_deframer dr) = 0 -> counters_ok s ->
  len packet0 = 240 -> bytes_ok packet0 -> 214 <= max_length ->
  exists r buffer' dr' s',
    Real.radio_receive dr s packet0 now start init_ok (Some buffer) max_length (arrivals times p)
    = Some (r, Some buffer', dr', s')
    /\ delivers p buffer buffer' r.
Proof.
  intros Hv Hlen [Hfirst Ht] Hready Hwf Hempty Hs Hp Hpb Hm. pose proof (packet_valid_header p Hv) as (_ & _ & Hr).
  assert (p <> []) as Hne by (intros ->; rewrite len_nil in Hr; lia).
  destruct (real_loop_packet [] p times (Real.rx_deframer dr) s packet0 start) as (d' & s' & Hloop); try done.
  { unfold bytes_of. by rewrite Hempty, prefix_of_0. }
  unfold Real.radio_receive, Real.ensure_ready. rewrite (proj2 (Z.eqb_neq _ _)), Hready by lia. cbn [negb].
  rewrite Hready. change (negb (0 =? 0)) with false. cbv iota. rewrite Hloop. cbn [app].
  destruct (parse_in_buffer p packet0 Hv Hp Hpb) as (v & -> & v' & Hv' & Hnn & Hrange & Hpay).
  rewrite (proj2 (Z.ltb_ge _ _)) by lia. eexists _, _, _, _. split; [done|].
  exists v'. split; [done|]. split; [done|]. by rewrite Hpay, Hnn.
Qed.

(** ** From [csp_send] to the bus, and from the router to the listener *)

(** What libcsp does with a connection: [connection_id] is the identifier of the packets
    that the node [src] sends on a connection to the port [dport] of [dst].  The fields of an
    identifier are those it was made of; in the header of CSP 1 addresses have five bits and
    ports six. *)
Class CspPorts (I P : Type) `{IdLaws I P} := {
  connection_id : Z -> Z -> Z -> I;
  id_dport : I -> Z;
  connection_id_fields src dst dport :
    0 <= src < 32 -> 0 <= dst < 32 -> 0 <= dport < 64 ->
    id_valid (connection_id src dst dport) /\ id_src (P := P) (connection_id src dst dport) = src
    /\ id_dst (P := P) (connection_id src dst dport) = dst /\ id_dport (connection_id src dst dport) = dport
}.

(** [RADIO_RX_BUF_SIZE] of [commands/src/main.c]. *)
Definition RADIO_RX_BUF_SIZE : Z := 256.

Section Way.
Context {I P : Type} `{CspPorts I P}.
Context {E : Type} `{AdcsEnvironment E} `{Libm}.

(** The packet the interface gets for what [csp_send] was given; [handle] is its buffer. *)
Definition outgoing (own handle : Z) (sent : csp_sent) : csp_packet I :=
  mk_packet I handle (connection_id own (s_addr sent) (s_port sent)) (s_data sent).

(** The loop of [command_handler_rx_loop] over the packets the router has for it; the
    bytes of padding in the acknowledgement are not initialised. *)
Definition command_handler_packets (padding : list Z) (connected notice : bool) (packets : list (I * list Z))
    (b : adcs_board E) : adcs_board E :=
  fold_left (fun b '(id, data) => handle_packet true (id_dport id) data padding true connected notice b) packets b.

(** A telecommand: the node, the port, and what is for the listener there. *)
Definition telecommand (data : list Z) : list Z := ADCS_ADDRESS :: Fdir.ADCS_CMD_PORT :: data.

(** What the radio receiver of the Commands role gives to CSP. *)
Lemma radio_rx_telecommand {L} c seq data buffer0 buffer r (st : Commands.commands (L := L)) :
  piece_ok (c, telecommand data) -> c <> RAW_FRAME -> framable c = true -> 0 <= seq <= 0x3FFF ->
  delivers (piece_packet c seq (telecommand data)) buffer0 buffer r ->
  r = len data + 2
  /\ Commands.radio_rx_round r buffer true true st
     = Commands.put_on_bus (mk_sent ADCS_ADDRESS Fdir.ADCS_CMD_PORT data) st.
Proof.
  intros Hm Hr Hf Hs (v & Hv & -> & ->).
  destruct (piece_packet_parses c seq (telecommand data) sample_view Hm Hr Hf Hs) as (v' & Hv' & _ & _ & Hlen & Hpay).
  rewrite Hv in Hv'. injection Hv' as <-. rewrite Hlen, Hpay.
  assert (len (telecommand data) = len data + 2) as -> by (unfold telecommand; rewrite !len_cons; lia).
  split; [done|]. pose proof (len_nonneg data). pose proof Hm as (_ & _ & [(_ & Hl & _)|[? _]]); [|done].
  change RADIO_MAX_PAYLOAD with 214 in Hl. unfold telecommand in Hl. rewrite !len_cons in Hl.
  unfold Commands.radio_rx_round. rewrite (proj2 (Z.leb_gt _ _)), (proj2 (Z.ltb_ge _ _)) by lia. cbn [negb].
  cbv zeta. replace (u16 (len data + 2 - 2)) with (len data) by zlia.
  rewrite patch_0. unfold telecommand. do 2 f_equal. cbn [app skip].
  apply (prefix_of_app (len data) data). done.
Qed.

(** The listener queues the command of the one packet that waits, and the command task
    executes it after those before it. *)
Lemma listener_executes padding connected notice (id : I) data (b : adcs_board E) q p :
  id_dport id = Fdir.ADCS_CMD_PORT -> sizeof_command_envelope <= len data ->
  wire_request_of true data = Request p -> b_queue b = Some q -> len q < COMMAND_QUEUE_LENGTH ->
  let b' := command_handler_packets padding connected notice [(id, data)] b in
  b_acks b' = b_acks b ++ [ack_bytes padding data ACK]
  /\ b_executed (Nat.iter (S (length q)) command_task_round b')
     = b_executed b ++ q ++ [mk_command (get_le32 data 4) p].
Proof.
  intros Hport Hlen Hreq Hq Hroom b'.
  assert (b' = handle_packet true 10 data padding true connected notice b) as Hb'
    by (unfold b', command_handler_packets; cbn [fold_left]; by rewrite Hport).
  rewrite (handle_packet_spec true data padding connected notice b q Hlen Hq) in Hb'. cbv zeta in Hb'.
  rewrite Hreq, (proj2 (Z.ltb_lt _ _) Hroom) in Hb'. rewrite Hb'. split; [done|].
  match goal with |- b_executed (Nat.iter _ _ ?x) = _ =>
    destruct (drain (S (length q)) x (q ++ [mk_command (get_le32 data 4) p])) as [_ ->] end.
  - done.
  - rewrite length_app. cbn. lia.
  - done.
Qed.

(** C3. A telecommand from the ground is executed.  Its packet arrives in time on a radio
    that is ready and holds no part of another one; the bus is at rest, CSP has buffers on
    both sides, and the board's command queue has room.  Then [radio_receive] returns the
    telecommand, the radio receiver of the Commands role sends what follows the two address
    bytes on the command port of the board, the bus carries it without an error, the next
    turn of the board's bus task hands exactly it to the router, the listener acknowledges
    it, and once the command task has executed the commands queued before, it has executed
    this one, and no other. *)
Theorem ground_command_executed {L} (st : Commands.commands (L := L)) c seq data times dr s packet0 now start init_ok
    buffer0 rounds fuel m payload0 bus0 frame0 status0 w (n : csp_node I (bus_master * wire_world) P) (a : adcs_net I P)
    handle state listening h pool padding connected notice (b : adcs_board E) q p :
  (* the packet of the ground station, and the radio *)
  piece_ok (c, telecommand data) -> c <> RAW_FRAME -> framable c = true -> 0 <= seq <= 0x3FFF ->
  length times = length (piece_packet c seq (telecommand data)) -> in_time start times ->
  Real.ready dr = true -> deframer_wf (Real.rx_deframer dr) -> d_len (Real.rx_deframer dr) = 0 -> counters_ok s ->
  len packet0 = 240 -> bytes_ok packet0 ->
  (* the bus *)
  master_wf m -> my_bus_address m < 32 -> bytes_ok payload0 -> len payload0 = MAX_FRAME_PAYLOAD ->
  len bus0 = 1 + MAX_FRAME_WIRE_SIZE -> n_bus n = (m, w) -> bus_reachable (w_link w) -> idle (w_link w) ->
  fst (adcs_i2c_slave_take_received_frame (board (w_link w))) = None ->
  len data <= csp_data_size (I := I) (P := P) -> csp_id_setup_rx (I := I) (P := P) + len data <= MAX_FRAME_PAYLOAD ->
  csp_buffer_get (I := I) (a_pool a) = (Some h, pool) -> a_routed a = [] ->
  (* the board *)
  sizeof_command_envelope <= len data -> wire_request_of true data = Request p ->
  b_queue b = Some q -> len q < COMMAND_QUEUE_LENGTH ->
  let sent := mk_sent ADCS_ADDRESS Fdir.ADCS_CMD_PORT data in
  exists r buffer dr' s' n' l',
    Real.radio_receive dr s packet0 now start init_ok (Some buffer0) RADIO_RX_BUF_SIZE
      (arrivals times (piece_packet c seq (telecommand data))) = Some (r, Some buffer, dr', s')
    /\ Commands.c_bus (Commands.radio_rx_round r buffer true true st) = Commands.c_bus st ++ [sent]
    /\ csp_if_comms_bus_tx (H0 := real_bus rounds (S fuel) payload0 bus0 frame0 status0)
         (outgoing (my_bus_address m) handle sent) n = Some (CSP_ERR_NONE, n')
    /\ n_bus n' = (m, mk_world (w_now w) l')
    /\ let b' := command_handler_packets padding connected notice
                   (a_routed (bus_turn frame0 state listening (a <| a_slave := board l' |>))) b in
       b_acks b' = b_acks b ++ [ack_bytes padding data ACK]
       /\ b_executed (Nat.iter (S (length q)) command_task_round b')
          = b_executed b ++ q ++ [mk_command (get_le32 data 4) p].
Proof.
  intros Hm Hraw Hfr Hseq Htimes Hin Hready Hwf Hempty Hs Hp Hpb Hma Hown Hp0 Hlp0 Hlb0 Hbus Hl Hidle Hbox Hsize Hfit
    Hget Hrouted Henv Hreq Hq Hroom sent.
  assert (packet_valid (piece_packet c seq (telecommand data))) as Hv.
  { apply (good_packet_valid [(c, telecommand data)]). exists c, seq, (telecommand data).
    split; [done|]. split; [done|]. split; [done|]. split; [done|]. split; [done|]. by apply list_elem_of_singleton. }
  destruct (real_receive_packet _ times dr s packet0 now start init_ok buffer0 RADIO_RX_BUF_SIZE
    Hv Htimes Hin Hready Hwf Hempty Hs Hp Hpb ltac:(done)) as (r & buffer & dr' & s' & Hrx & Hdel).
  destruct (radio_rx_telecommand c seq data buffer0 buffer r st Hm Hraw Hfr Hseq Hdel) as [_ Hround].
  pose proof Hma as (_ & Hab & _). pose proof Hm as (_ & Hdata & _). unfold telecommand in Hdata.
  rewrite !Forall_cons in Hdata. destruct Hdata as (_ & _ & Hdata).
  destruct (connection_id_fields (I := I) (P := P) (my_bus_address m) ADCS_ADDRESS Fdir.ADCS_CMD_PORT)
    as (Hid & Hsrc & Hdst & Hport); [unfold byte_ok in Hab; lia|done|done|].
  destruct (csp_packet_crosses rounds fuel m payload0 bus0 frame0 status0 w n a (outgoing (my_bus_address m) handle sent)
    state listening h pool) as (n' & l' & Htx & Hn' & Hr); try done.
  exists r, buffer, dr', s', n', l'. split; [done|]. split; [by rewrite Hround|]. split; [done|]. split; [done|].
  rewrite Hr, Hrouted. by apply listener_executes.
Qed.
End Way.

(** ** An instance *)
Module Ports.
(** Identifiers are (source, destination, port), each a byte of the header. *)
#[global] Instance ports_csp : Libcsp (Z * Z * Z) (gset Z) := {|
  id_src id := id.1.1;
  id_dst id := id.1.2;
  csp_id_prepend id data := [id.1.1; id.1.2; id.2] ++ data;
  csp_id_setup_rx := 3;
  csp_id_strip frame := match frame with s :: d :: p :: data => Some ((s, d, p), data) | _ => None end;
  csp_data_size := 256;
  csp_buffer_get p := if bool_decide (7 ∈ p) then (None, p) else (Some 7, {[7]} ∪ p);
  csp_buffer_free h p := p ∖ {[h]};
  csp_qfifo_write h p := p ∖ {[h]}
|}.

#[global] Program Instance ports_ids : IdLaws (Z * Z * Z) (gset Z) :=
  {| id_valid id := byte_ok id.1.1 /\ byte_ok id.1.2 /\ byte_ok id.2 |}.
Next Obligation. done. Qed.
Next Obligation. done. Qed.
Next Obligation. intros id data. cbn [csp_id_prepend ports_csp]. rewrite len_app. done. Qed.
Next Obligation.
  intros [[s d] p] data (Hs & Hd & Hp) Hb. cbn [csp_id_prepend ports_csp]. apply Forall_app_2; [|exact Hb].
  by repeat (apply Forall_cons; split; [done|]).
Qed.
Next Obligation. by intros [[s d] p] data _ _ _. Qed.

#[global] Program Instance ports_laws : CspPorts (Z * Z * Z) (gset Z) :=
  {| connection_id src dst dport := (src, dst, dport); id_dport id := id.2 |}.
Next Obligation. intros src dst dport Hs Hd Hp. cbn. unfold byte_ok. split_and!; try done; lia. Qed.

(** Reset the estimator, sequence number 9. *)
Definition reset_estimator : list Z := [67; 0; 0; 0; 9; 0; 0; 0].
Definition obc_node : csp_node (Z * Z * Z) (bus_master * wire_world) (gset Z) :=
  mk_node _ _ _ (my_bus_address demo_master) 0 0 [] (demo_master, demo_world) ∅.
Definition board_net : adcs_net (Z * Z * Z) (gset Z) := adcs_csp_init (board (w_link demo_world)) ∅.
Definition commands_role : Commands.commands (L := unit) :=
  let watch := mk_progress (mk_time 0 0) Commands.COMMANDS_STALL_TIMEOUT_MS true in
  Commands.mk_commands (Commands.mk_watches watch watch) 0 tt [].
End Ports.

Lemma ground_command_executed_witness :
  exists l',
    let b' := command_handler_packets [0; 0; 0] true true
                (a_routed (bus_turn blank_frame 0 HAL_OK (Ports.board_net <| a_slave := board l' |>))) idle_board in
    b_acks b' = [[67; 0; 0; 0; 9; 0; 0; 0; 0; 0; 0; 0]]
    /\ b_executed (command_task_round (H0 := flat_libm) b') = [mk_command 9 ADCS_COMMAND_RESET_ESTIMATOR].
Proof.
  destruct (ground_command_executed (I := Z * Z * Z) (P := gset Z) (H3 := flat_libm) Ports.commands_role 0 5
    Ports.reset_estimator (replicate 36 20) sample_driver no_stats (zeros 240) 0 0 true (zeros 256) 1 0 demo_master
    (zeros 264) (zeros 269) blank_frame (mk_status 0 0) demo_world Ports.obc_node Ports.board_net 7 0 HAL_OK 7 {[7]}
    [0; 0; 0] true true idle_board [] ADCS_COMMAND_RESET_ESTIMATOR)
    as (r & buffer & dr' & s' & n' & l' & _ & _ & _ & _ & Hacks & Hrun).
  all: try done.
  - split; [done|]. split; [apply bytes_ok_eval; vm_compute; reflexivity|]. left. by vm_compute.
  - split; [by intros t [= <-]|]. by apply Forall_replicate.
  - split; [reflexivity|]. split; [apply bytes_ok_eval; vm_compute; reflexivity|]. vm_compute. split; congruence.
  - apply bytes_ok_zeros.
  - split; [done|]. split; [done|by right].
  - apply bytes_ok_zeros.
  - apply link_reach_start.
  - exists l'. split; [exact Hacks|exact Hrun].
Defined.
